(* ===== verification/_CoqProject ===== *)
-Q . S2P
Prelude.v
Libcbase.v
Ieee.v
Debuglog.v
Vprintf.v
Libcprint.v
Vmessage.v
CgArch.v
Lru.v
CgSim.v
ClgCosts.v
ClgHash.v
ClgJumps.v
ClgEvents.v
ClgContext.v
ClgPatterns.v
ClgLedger.v
ClgStack.v
ClgOwn.v
ClgCalls.v
ClgThreads.v
ClgSwitch.v
ClgSignals.v
ClgSim.v
ClgWb.v
ClgPrefetch.v
ClgUse.v
ClgMasks.v
ClgLog.v
OSet.v
CgTables.v
VexIR.v
ClgResolve.v
ClgNames.v
ClgCentres.v
ClgBlocks.v
ClgSetup.v
ClgSelect.v
CgBranchPred.v
WordFM.v
CgOutput.v
CgFini.v
CgInit.v
ClgInit.v
ClgOptions.v
CgMerge.v
MergeSpec.v
MergeParse.v
MergeTheorems.v
CgLog.v
CgInstrument.v
CgInstrumentSpec.v
CgInstrumentTotal.v
