(* ===== verification/Prelude.v ===== *)
(** * A verification of Ditto's cache profiler

    Ditto clones a networked application from measurements of the original.
    The measurements of cache behaviour come from Valgrind, with one change
    made by the project: cachegrind accepts a cache whose size equals its line
    size.  This development models that profiler, from the command line to the
    output file and the tool that merges output files, and of callgrind, the
    profiler the cache sweep runs, everything from the options to the counters
    except its instrumenter and its dump files, and proves what their users rely
    on.  Paths below are relative to src/valgrind.

    ** The program and its model

    - cachegrind/cg_arch.c decides the geometry of the three simulated caches
      from the hardware, the defaults and the options: CgArch.v.  The last-level
      tweak computes in doubles, which Ieee.v models exactly (53-bit rounding to
      nearest even, on fractions of integers).
    - cachegrind/cg_sim.c simulates the caches: CgSim.v, against the abstract
      LRU cache of Lru.v.
    - cachegrind/cg_branchpred.c predicts branches: CgBranchPred.v.
    - coregrind/m_oset.c, the ordered sets that hold all tables: OSet.v.  The
      classes [OSetOps] and [OSetLaws] are the interface the tables are written
      against; the AVL tree is their instance.
    - cachegrind/cg_main.c: the tables of counters, names and superblocks in
      CgTables.v; the run-time helpers [log_*] in CgLog.v; the instrumenter in
      CgInstrument.v, on the subset of the VEX representation of VexIR.v, with
      its semantics and proofs in CgInstrumentSpec.v and CgInstrumentTotal.v;
      the output file in CgOutput.v; the report at the end in CgFini.v; options
      and start-up in CgInit.v.
    - cachegrind/cg_merge.c: its finite maps in WordFM.v, the program in
      CgMerge.v, the abstract value of a profile in MergeSpec.v, reading in
      MergeParse.v, and the theorems in MergeTheorems.v.
    - coregrind/m_debuglog.c, the format interpreter: Debuglog.v (integers) and
      Vprintf.v; coregrind/m_libcprint.c on top of it: Libcprint.v (sprintf,
      snprintf, files) and Vmessage.v (the log); coregrind/m_libcbase.c, the
      string routines used: Libcbase.v.

    - callgrind/costs.c and events.c, arrays of counters and the event sets that
      lay them out: ClgCosts.v and ClgEvents.v.
    - callgrind/sim.c: the caches, the plain, write-back and prefetching
      simulators in ClgSim.v, with proofs in ClgWb.v and ClgPrefetch.v; the
      cache-use simulator in ClgUse.v and its masks in ClgMasks.v; the run-time
      helpers that charge costs in ClgLog.v; options, set-up and event sets in
      ClgInit.v.
    - callgrind/jumps.c, the arcs of the call graph: ClgJumps.v, on the hash
      chains of ClgHash.v.  The class [ChainNode] is what a chained table needs
      of its nodes; the nodes of all tables of callgrind (arcs, contexts, cost
      centres, blocks, objects, files, functions, patterns) are instances.
    - callgrind/context.c, contexts and the function stack: ClgContext.v.
    - callgrind/clo.c, the trie of function patterns in ClgPatterns.v, the
      options in ClgOptions.v.
    - callgrind/callstack.c: ClgStack.v, against the ledger of the call graph of
      ClgLedger.v; ClgOwn.v says which arrays of counters a thread owns,
      ClgCalls.v has the simulation proof.
    - callgrind/threads.c: ClgThreads.v, with thread switches in ClgSwitch.v and
      signal handlers in ClgSignals.v.
    - callgrind/fn.c: the search for the lazy-binding stub in ClgResolve.v, the
      tables of objects, files and functions in ClgNames.v.
    - callgrind/bb.c, with [get_fn_node] of fn.c and [collectBlockInfo] of
      main.c: ClgBlocks.v.
    - callgrind/bbcc.c: the cost centres in ClgCentres.v, their use over a run in
      ClgSelect.v; the start of a block, [setup_bbcc], in ClgSetup.v.  The record
      [profile] is the state of all parts together: the process of ClgThreads,
      the program of ClgBlocks, blocks, cost centres and recursion arrays.

    A run of cachegrind is: options and start-up (CgInit) configure the caches (CgArch) and
    make the tables (CgTables, OSet); for every superblock the core calls
    [cg_instrument] (CgInstrument), which registers descriptors in the tables
    and inserts calls of the helpers; the helpers (CgLog) drive the simulator
    (CgSim) and the predictors (CgBranchPred) and count in the tables; at the
    end [cg_fini] (CgFini) writes the file (CgOutput) and the report
    (Vmessage).  Files of several runs go through cg_merge (CgMerge).
    Callgrind chooses one of its simulators at start-up (ClgInit); the helpers
    (ClgLog) call it through the record [simulator] and add its results to the
    cost array of the instruction and to the totals of the thread.  Before every
    block [setup_bbcc] (ClgSetup) switches to the thread that runs, tells from
    the last jump and the stack pointer which calls ended or began, lets the call
    stack (ClgStack, ClgContext, ClgJumps) follow, and selects the cost centre
    (ClgCentres) of the block (ClgBlocks) in its context.

    ** Conventions

    This file holds the result monad [res] whose errors are the ways a C
    function does not return (assertion, panic, exit, undefined operation),
    machine integers as [Z] with explicit wrap-around ([u8] ... [u64], [s32],
    [s64]) or checked signed arithmetic ([int_mul], ...), arrays as lists with
    checked accesses, and the development's tactics and hint database [cg].
    Names are those of the source.  A C string is the bytes before its
    terminator and a pointer into it a suffix.  The host is 64-bit.  Shared
    mutable records (line counters, superblock descriptors) live in stores
    indexed by address, so two tables that point to the same record see the
    same updates; interned names keep their addresses, since the writer
    compares pointers.  A pointer to counters is a chunk and an offset; reading
    a cell of a chunk that was never written is the error [Indeterminate].  A
    pointer to a node of a hash chain is its index among the nodes made.

    Loops that are not structural take fuel, and the theorems say the fuel is
    enough: the digits of a 64-bit number (64 rounds), the characters of a
    format string, the nodes of a tree (a removal makes at most twice its
    height of nested calls), the lines of a table, the nodes of a hash chain, the bytes
    of a file; in callgrind the frames on the call stack when it is unwound, 32
    doublings of a growing array, the characters of a pattern and the nodes of
    the trie of patterns, the bytes of a text searched for a stub.  No theorem
    below holds because a function ran out of fuel: they state that it returns.
    The hash tables of callgrind are bounded by what their 32-bit fill tests and
    [Int] statistics can count: 2^28 arcs and context lookups, 2^26 block
    requests and steps of a thread's history, 2^24 / 6 selections of a centre,
    2^29 function requests.

    ** What is proved

    - The simulator refines LRU for every valid geometry and every trace, and
      larger caches never miss more, in particular along the sizes of the
      profiling sweep (CgSim); exactly the supported geometries are accepted,
      the project's change included (CgArch); start-up leaves valid caches, or
      refuses with its message (CgInit).
    - The helpers leave in every line the counters that LRU and the predictors
      prescribe, with misses bounded by accesses (CgLog, CgBranchPred).
    - Executing an instrumented block counts what the guest's operations one by
      one would, whatever the event queue merged; the instrumenter returns on
      well-formed blocks and only adds statements (CgInstrumentSpec,
      CgInstrumentTotal).
    - The ordered sets refine sorted lists, stay balanced, iterate in order and
      free every node once; their iterator overflows at 9,227,464 elements, not
      at 2^32 (OSet).  The tables built on them find or create the one record
      of a source line, intern names and keep superblocks from registration to
      discard (CgTables).
    - The output file holds every line once, in order, with its counters and
      the column sums; the report has the stated widths and percentages
      (CgOutput, CgFini).
    - cg_merge reads every file the profiler writes, its maps refine sorted
      bindings, merging adds counts modulo 2^64, and what it writes it can read
      again while numbers are below 2^63 (WordFM, MergeTheorems).
    - Callgrind's helpers add to every counter what LRU prescribes, and its
      plain simulator agrees with cachegrind's on every trace (ClgLog); the
      write-back last level refines LRU with dirty lines, and hits as the plain
      one does below 4 GB, where its tags lose address bits (ClgWb); the
      prefetcher is safe (ClgPrefetch); the use masks mark exactly the touched
      parts of a line and [countBits] counts (ClgMasks).
    - Cost arrays never overlap (ClgCosts); every cell of an event set counts
      one event, moving and adding costs between layouts keeps every event's
      sum, and the printed cost lines read back (ClgEvents); for every choice of
      options the columns of the profile show each counter once, and the
      simulator the options ask for is installed on valid caches (ClgInit).
    - Every arc of the call graph has exactly one counter, through caches, hash
      table and resizes, and is on the list of its source (ClgJumps); every
      window of the function stack has one context (ClgContext), every name one
      function (ClgNames), every place in an object one block until it is
      deleted (ClgBlocks), and every combination of thread, block, context and
      recursion level one cost centre throughout a run (ClgSelect).
    - The call stack keeps the ledger of the call graph: whatever sequence of
      events, calls and returns a thread executes, every arc has the calls made
      and the inclusive cost of those that returned, and a single call charges
      what was counted until its return (ClgCalls); unwinding to any stack
      pointer closes exactly the calls that have been left (ClgCalls), and at a
      return instruction the number of frames to leave is the one the return
      addresses say (ClgSetup).
    - Threads do not interfere (ClgSwitch), signal handlers are invisible to the
      code they interrupt (ClgSignals), the patterns of function options apply
      as they read when they begin with different characters (ClgOptions; several
      ways in which they do not otherwise are in ClgPatterns), and the stub is
      found exactly where its bytes are (ClgResolve).
    - The format interpreter terminates and returns the number of characters it
      sent, [%#o] excepted; sprintf, snprintf, buffered files and messages
      deliver exactly those characters within their buffers (Vprintf,
      Libcprint, Vmessage).

    ** What is not modelled

    The core of Valgrind (translation, system calls, debug information, the
    scheduler) appears only through parameters with its documented behaviour:
    the debug-information lookups return names without NUL and 20-bit line
    numbers, the hardware description is any value, the millisecond timer and
    the process id are any 32-bit values.  Allocation always succeeds.  In
    cg_merge the messages on stderr, the deallocators and I/O errors are left
    out.  Operators of the VEX representation are opaque.  The Perl scripts
    cg_annotate and cg_diff, the other Valgrind tools, the servers under study,
    the load generators, the generated applications and the Python drivers are
    not modelled: they are third-party, generated, or glue around processes.
    Of callgrind, the statements its instrumenter generates and the client
    requests of main.c, the dump files of dump.c, the report of sim.c, the
    printers of debug.c, the usage texts and the code for x86 and ppc32 are not
    modelled.

    Contexts: [is_cxt] compares two lists only as far as the shorter goes, so the
    theorems that use the context table assume [separated]: among the windows
    looked up none is a proper beginning of another with the same hash value.
    It holds for windows of one length, and the error without it is shown in
    ClgContext.  Addresses of nodes (functions, blocks, objects, cost centres)
    are parameters, distinct and not null; the client's memory, the debug
    information, [dump_profile], [zero_all_cost] and the number of threads are
    parameters as well. *)

From Stdlib Require Import ZArith Lia Ascii String.
From stdpp Require Import base numbers strings list.

#[local] Open Scope Z_scope.

(** Comparisons on concrete constants stay folded under [simpl]. *)
#[global] Arguments Z.eqb : simpl never.
#[global] Arguments Z.ltb : simpl never.
#[global] Arguments Z.leb : simpl never.
#[global] Arguments Z.gtb : simpl never.

(** ** Faults and the result monad

    A C function of the profiler either returns, or stops the process:
    through [tl_assert], [VG_(tool_panic)], [VG_(exit)], or by executing an
    operation whose behaviour C leaves undefined (division by zero, signed
    overflow, a null dereference, an out-of-range array access), or by reading memory it never
    wrote. *)

Inductive fault : Type :=
  | AssertFail (what : string)
  | Panic (what : string)
  | Exit (code : Z) (what : string)
  | DivByZero
  | SignedOverflow
  | NullDeref
  | OutOfBounds
  | BadConversion
  | BadShift
  | Indeterminate
  | OutOfFuel.

Inductive res (A : Type) : Type :=
  | Ok (a : A)
  | Err (f : fault).
Arguments Ok {A} a.
Arguments Err {A} f.

Definition rbind {A B : Type} (m : res A) (k : A -> res B) : res B :=
  match m with
  | Ok a => k a
  | Err f => Err f
  end.

Declare Scope res_scope.
Delimit Scope res_scope with res.
Notation "'let!' x ':=' m 'in' k" := (rbind m (fun x => k))
  (at level 10, x pattern, m at level 100, k at level 200,
   format "'[v' 'let!'  x  ':='  m  'in' '//' k ']'") : res_scope.
#[global] Open Scope res_scope.

(** [tl_assert (b)]. *)
Definition tl_assert (b : bool) (what : string) : res unit :=
  if b then Ok tt else Err (AssertFail what).

Definition is_ok {A : Type} (m : res A) : bool :=
  match m with Ok _ => true | Err _ => false end.

Lemma rbind_ok {A B} (m : res A) (k : A -> res B) b :
  rbind m k = Ok b <-> exists a, m = Ok a /\ k a = Ok b.
Proof. destruct m; simpl; naive_solver. Qed.

Lemma rbind_assoc {A B C} (m : res A) (f : A -> res B) (g : B -> res C) :
  rbind (rbind m f) g = rbind m (fun a => rbind (f a) g).
Proof. by destruct m. Qed.

Lemma rbind_ret {A} (m : res A) : rbind m (fun x => Ok x) = m.
Proof. by destruct m. Qed.

Lemma tl_assert_true b w : b = true -> tl_assert b w = Ok tt.
Proof. by intros ->. Qed.

Lemma tl_assert_ok b w u : tl_assert b w = Ok u <-> b = true.
Proof. destruct u, b; simpl; naive_solver. Qed.

(** Sequencing a fallible step over a list, left to right: the shape of every
    [for] loop whose body may stop the process. *)
Fixpoint res_fold {A S : Type} (f : A -> S -> res S) (l : list A) (s : S) : res S :=
  match l with
  | [] => Ok s
  | a :: l' => let! s' := f a s in res_fold f l' s'
  end.

Lemma res_fold_app {A S} (f : A -> S -> res S) l1 l2 s :
  res_fold f (l1 ++ l2) s = (let! s' := res_fold f l1 s in res_fold f l2 s').
Proof.
  revert s; induction l1 as [|a l1 IH]; intros s; simpl; [done|].
  destruct (f a s); simpl; auto.
Qed.

Lemma res_fold_two {A S} (f : A -> S -> res S) a b s :
  res_fold f [a; b] s = (let! s' := f a s in f b s').
Proof. simpl. destruct (f a s); simpl; [apply rbind_ret|done]. Qed.

Lemma res_fold_three {A S} (f : A -> S -> res S) a b c s :
  res_fold f [a; b; c] s = (let! s1 := f a s in let! s2 := f b s1 in f c s2).
Proof. simpl. destruct (f a s); simpl; [|done]. destruct (f b _); simpl; [apply rbind_ret|done]. Qed.

(** An invariant that each step preserves is preserved by the loop. *)
Lemma res_fold_inv {A S} (P : S -> Prop) (f : A -> S -> res S) l s s' :
  (forall a s s', P s -> f a s = Ok s' -> P s') ->
  P s -> res_fold f l s = Ok s' -> P s'.
Proof.
  intros Hf. revert s; induction l as [|a l IH]; simpl; intros s Hs H.
  - by simplify_eq.
  - apply rbind_ok in H as (s1 & H1 & H2). eauto.
Qed.

(** ** Machine integers

    A w-bit integer is a [Z]; unsigned types are kept in [0, 2^w), signed
    types in [-2^(w-1), 2^(w-1)).  Unsigned arithmetic wraps; signed
    arithmetic that leaves the range is a [SignedOverflow] fault; a conversion
    to a signed type wraps, as gcc documents. *)

Definition wrapu (w x : Z) : Z := x mod 2 ^ w.
Definition wraps (w x : Z) : Z := (x + 2 ^ (w - 1)) mod 2 ^ w - 2 ^ (w - 1).

Abbreviation u8 := (wrapu 8).
Abbreviation u32 := (wrapu 32).
Abbreviation u64 := (wrapu 64).
Abbreviation s8 := (wraps 8).
Abbreviation s32 := (wraps 32).
Abbreviation s64 := (wraps 64).

Definition in_u (w x : Z) : Prop := 0 <= x < 2 ^ w.
Definition in_s (w x : Z) : Prop := - 2 ^ (w - 1) <= x < 2 ^ (w - 1).

Definition in_sb (w x : Z) : bool := (- 2 ^ (w - 1) <=? x) && (x <? 2 ^ (w - 1)).

Lemma in_sb_spec w x : in_sb w x = true <-> in_s w x.
Proof. unfold in_sb, in_s. rewrite andb_true_iff, Z.leb_le, Z.ltb_lt. done. Qed.

(** The value of a signed w-bit arithmetic result, if representable. *)
Definition signed_result (w x : Z) : res Z :=
  if in_sb w x then Ok x else Err SignedOverflow.

Lemma signed_result_ok w x y : signed_result w x = Ok y <-> x = y /\ in_s w x.
Proof.
  unfold signed_result. destruct (in_sb w x) eqn:E.
  - apply in_sb_spec in E. naive_solver.
  - split; [done|]. intros [_ H]. apply in_sb_spec in H. congruence.
Qed.

Lemma signed_result_in w x : in_s w x -> signed_result w x = Ok x.
Proof. intros H. by apply signed_result_ok. Qed.

Definition int_mul (a b : Z) : res Z := signed_result 32 (a * b).
Definition int_add (a b : Z) : res Z := signed_result 32 (a + b).
Definition int_sub (a b : Z) : res Z := signed_result 32 (a - b).

(** C's [/] and [%] on [Int]: truncating, undefined on a zero divisor and on
    [INT_MIN / -1]. *)
Definition int_div (a b : Z) : res Z :=
  if b =? 0 then Err DivByZero else signed_result 32 (Z.quot a b).

Definition int_rem (a b : Z) : res Z :=
  if b =? 0 then Err DivByZero
  else let! _ := signed_result 32 (Z.quot a b) in Ok (Z.rem a b).

(** [1u << k] and [1 << k]: undefined when the amount is negative or at least
    the width, the signed one also when the result does not fit. *)
Definition uint_shl1 (k : Z) : res Z :=
  if (0 <=? k) && (k <? 32) then Ok (Z.shiftl 1 k) else Err BadShift.
Definition int_shl1 (k : Z) : res Z :=
  if (0 <=? k) && (k <? 31) then Ok (Z.shiftl 1 k) else Err BadShift.

(** [/] on [UInt]. *)
Definition uint_div (a b : Z) : res Z :=
  if b =? 0 then Err DivByZero else Ok (a / b).

Lemma wrapu_small w x : in_u w x -> wrapu w x = x.
Proof. intros H. by apply Z.mod_small. Qed.

Lemma wrapu_range w x : 0 <= w -> in_u w (wrapu w x).
Proof. intros H. apply Z.mod_pos_bound. by apply Z.pow_pos_nonneg. Qed.

Lemma wraps_small w x : 0 < w -> in_s w x -> wraps w x = x.
Proof.
  unfold in_s, wraps. intros Hw H.
  assert (2 ^ w = 2 * 2 ^ (w - 1)) as Hp
    by (rewrite <- Z.pow_succ_r by lia; f_equal; lia).
  rewrite Z.mod_small; lia.
Qed.

Lemma wraps_range w x : 0 < w -> in_s w (wraps w x).
Proof.
  unfold in_s, wraps. intros Hw.
  assert (2 ^ w = 2 * 2 ^ (w - 1)) as Hp
    by (rewrite <- Z.pow_succ_r by lia; f_equal; lia).
  assert (0 < 2 ^ w) by (apply Z.pow_pos_nonneg; lia).
  pose proof (Z.mod_pos_bound (x + 2 ^ (w - 1)) (2 ^ w)). lia.
Qed.

(** Truncating a Long to an Int keeps the value exactly when it fits, which
    is the overflow test of [parse_cache_opt]. *)
Lemma wraps_fixed w x : 0 < w -> (wraps w x = x <-> in_s w x).
Proof.
  intros Hw; split; [|by apply wraps_small].
  intros <-. by apply wraps_range.
Qed.

(** ** Powers of two *)

Definition is_pow2 (x : Z) : Prop := exists k, 0 <= k /\ x = 2 ^ k.

Lemma is_pow2_pos x : is_pow2 x -> 0 < x.
Proof. intros (k & Hk & ->). by apply Z.pow_pos_nonneg. Qed.

Lemma is_pow2_mul x y : is_pow2 x -> is_pow2 y -> is_pow2 (x * y).
Proof.
  intros (k & Hk & ->) (l & Hl & ->). exists (k + l).
  rewrite Z.pow_add_r; lia.
Qed.

Lemma land_pow2_pred a k : 0 <= k -> Z.land a (2 ^ k - 1) = a mod 2 ^ k.
Proof.
  intros Hk. replace (2 ^ k - 1) with (Z.ones k) by (rewrite Z.ones_equiv; lia).
  by apply Z.land_ones.
Qed.

(** ** Lists used as arrays *)

(** [a[i]], undefined outside the array. *)
Definition arr_get {A : Type} (l : list A) (i : Z) : res A :=
  if (i <? 0) then Err OutOfBounds
  else match l !! Z.to_nat i with Some x => Ok x | None => Err OutOfBounds end.

(** [a[i] = x], undefined outside the array. *)
Definition arr_set {A : Type} (l : list A) (i : Z) (x : A) : res (list A) :=
  if (0 <=? i) && (i <? Z.of_nat (length l)) then Ok (<[Z.to_nat i := x]> l)
  else Err OutOfBounds.

Lemma arr_get_ok {A} (l : list A) i x :
  arr_get l i = Ok x <-> 0 <= i /\ l !! Z.to_nat i = Some x.
Proof.
  unfold arr_get. destruct (Z.ltb_spec i 0); [split; [done|lia]|].
  destruct (l !! Z.to_nat i); naive_solver.
Qed.

Lemma arr_get_nat {A} (l : list A) (i : nat) x :
  l !! i = Some x -> arr_get l (Z.of_nat i) = Ok x.
Proof. intros H. apply arr_get_ok. rewrite Nat2Z.id. split; [lia|done]. Qed.

Lemma arr_set_nat {A} (l : list A) (i : nat) x :
  (i < length l)%nat -> arr_set l (Z.of_nat i) x = Ok (<[i := x]> l).
Proof.
  intros H. unfold arr_set. rewrite Nat2Z.id.
  destruct (Z.leb_spec 0 (Z.of_nat i)); [|lia].
  destruct (Z.ltb_spec (Z.of_nat i) (Z.of_nat (length l))); [done|lia].
Qed.

Lemma arr_set_ok {A} (l l' : list A) i x :
  arr_set l i x = Ok l' <->
  0 <= i < Z.of_nat (length l) /\ l' = <[Z.to_nat i := x]> l.
Proof.
  unfold arr_set. destruct (Z.leb_spec 0 i); simpl; [|naive_solver lia].
  destruct (Z.ltb_spec i (Z.of_nat (length l))); naive_solver lia.
Qed.

Lemma arr_set_in {A} (l : list A) i x :
  0 <= i < Z.of_nat (length l) -> arr_set l i x = Ok (<[Z.to_nat i := x]> l).
Proof. intros H. by apply arr_set_ok. Qed.

Lemma arr_get_in {A} (l : list A) i x :
  0 <= i -> l !! Z.to_nat i = Some x -> arr_get l i = Ok x.
Proof. intros. by apply arr_get_ok. Qed.

(** Distinct images identify the elements. *)
Lemma NoDup_fmap_elem {A B} (f : A -> B) (l : list A) x y :
  NoDup (f <$> l) -> x ∈ l -> y ∈ l -> f x = f y -> x = y.
Proof.
  intros Hn [i Hi]%list_elem_of_lookup [j Hj]%list_elem_of_lookup Hf.
  assert (i = j) as ->.
  { eapply NoDup_lookup; [exact Hn| |]; rewrite list_lookup_fmap;
      [by rewrite Hi|by rewrite Hj, Hf]. }
  congruence.
Qed.

(** ** Automation *)

Create HintDb cg discriminated.
#[export] Hint Resolve is_pow2_pos is_pow2_mul : cg.

(** Peel the binds of a hypothesis [m = Ok _] into the steps that succeeded. *)
Ltac inv_ok :=
  repeat match goal with
  | H : rbind _ _ = Ok _ |- _ =>
      let x := fresh "x" in let H1 := fresh H in
      apply rbind_ok in H as (x & H1 & H)
  | H : tl_assert _ _ = Ok ?u |- _ => apply tl_assert_ok in H
  | H : Ok _ = Ok _ |- _ => injection H as H
  | H : Err _ = Ok _ |- _ => discriminate H
  | H : (_, _) = (_, _) |- _ => injection H as ?H ?H
  end.

(** Case on the boolean Z comparisons of the goal or of a hypothesis. *)
Ltac case_Z :=
  repeat match goal with
  | |- context [Z.ltb ?a ?b] => destruct (Z.ltb_spec a b)
  | |- context [Z.leb ?a ?b] => destruct (Z.leb_spec a b)
  | |- context [Z.eqb ?a ?b] => destruct (Z.eqb_spec a b)
  | H : context [Z.ltb ?a ?b] |- _ => destruct (Z.ltb_spec a b)
  | H : context [Z.leb ?a ?b] |- _ => destruct (Z.leb_spec a b)
  | H : context [Z.eqb ?a ?b] |- _ => destruct (Z.eqb_spec a b)
  end.

(** Evaluate the equality tests between numerals, which [simpl] leaves alone. *)
Ltac eval_eqb :=
  repeat match goal with
  | |- context [Z.eqb ?a ?b] =>
      let v := eval vm_compute in (Z.eqb a b) in
      lazymatch v with true => idtac | false => idtac end;
      change (Z.eqb a b) with v
  | H : context [Z.eqb ?a ?b] |- _ =>
      let v := eval vm_compute in (Z.eqb a b) in
      lazymatch v with true => idtac | false => idtac end;
      change (Z.eqb a b) with v in H
  end; cbv iota in *.
