(* ===== verification/Libcbase.v ===== *)
(** * Libcbase: the routines of coregrind/m_libcbase.c the profiler calls

    Strings are C strings: a [string] is the bytes before the terminator, a
    [HChar*] is a suffix of the string it points into, and reading through it
    gives the first byte or the terminator. *)

From Stdlib Require Import ZArith Lia Ascii String.
From stdpp Require Import base numbers strings list.
From S2P Require Import Prelude.

#[local] Open Scope Z_scope.

(** The unsigned value of a byte. *)
Definition zchar (c : ascii) : Z := Z.of_N (N_of_ascii c).

(** [*s]: the byte a pointer reads, 0 at the terminator. *)
Definition deref (s : string) : Z :=
  match s with
  | EmptyString => 0
  | String c _ => zchar c
  end.

(** [s + 1]. *)
Definition incr (s : string) : string :=
  match s with
  | EmptyString => EmptyString
  | String _ s' => s'
  end.

(** ** Character classes *)

Definition VG_isspace (c : Z) : bool :=
  (c =? 32) || (c =? 10) || (c =? 9) || (c =? 12) || (c =? 11) || (c =? 13).

Definition VG_isdigit (c : Z) : bool := (48 <=? c) && (c <=? 57).

Definition is_dec_digit (c : Z) : option Z :=
  if (48 <=? c) && (c <=? 57) then Some (c - 48) else None.

(** ** Reading numbers *)

(** The loop that skips leading white space. *)
Fixpoint skip_space (str : string) : string :=
  match str with
  | String c str' => if VG_isspace (zchar c) then skip_space str' else str
  | EmptyString => str
  end.

(** The digit loop of [VG_(strtoll10)]: the pointer, whether a digit was
    converted, and the Long accumulated so far. *)
Fixpoint strtoll10_loop (str : string) (converted : bool) (n : Z)
  : res (string * bool * Z) :=
  match str with
  | String c str' =>
      match is_dec_digit (zchar c) with
      | Some digit =>
          let! m := signed_result 64 (10 * n) in
          let! n' := signed_result 64 (m + digit) in
          strtoll10_loop str' true n'
      | None => Ok (str, converted, n)
      end
  | EmptyString => Ok (str, converted, n)
  end.

(** The number read and the final [*endptr]. *)
Definition VG_strtoll10 (str0 : string) : res (Z * string) :=
  let str := skip_space str0 in
  let '(neg, str) :=
    if deref str =? 45 then (true, incr str)
    else if deref str =? 43 then (false, incr str)
    else (false, str) in
  let! (str, converted, n) := strtoll10_loop str false 0 in
  let str := if converted then str else str0 in
  Ok ((if neg then - n else n), str).

#[global] Arguments VG_strtoll10 : simpl never.

(** ** Comparing strings *)

Fixpoint VG_strcmp (s1 s2 : string) {struct s1} : Z :=
  if deref s1 <? deref s2 then -1
  else if deref s1 >? deref s2 then 1
  else if deref s1 =? 0 then 0
  else match s1, s2 with
       | String _ s1', String _ s2' => VG_strcmp s1' s2'
       | _, _ => 0
       end.

(** [VG_(strncmp)(s1, s2, nmax)], counting [nmax] down instead of [n] up. *)
Fixpoint VG_strncmp (s1 s2 : string) (nmax : nat) {struct nmax} : Z :=
  match nmax with
  | O => 0
  | S n' =>
      if deref s1 <? deref s2 then -1
      else if deref s1 >? deref s2 then 1
      else if deref s1 =? 0 then 0
      else VG_strncmp (incr s1) (incr s2) n'
  end.

(** ** Logarithms *)

Fixpoint VG_log2_loop (x i : Z) (fuel : nat) : Z :=
  match fuel with
  | O => -1
  | S fuel' => if Z.shiftl 1 i =? x then i else VG_log2_loop x (i + 1) fuel'
  end.

(** [for (i = 0; i < 32; i++)]: 32 iterations. *)
Definition VG_log2 (x : Z) : Z := VG_log2_loop x 0 32.

(** [for (i = 0; i < 64; i++)]: 64 iterations. *)
Definition VG_log2_64 (x : Z) : Z := VG_log2_loop x 0 64.

#[global] Arguments VG_log2 : simpl never.
#[global] Arguments VG_log2_64 : simpl never.

(** ** Lemmas: logarithms *)

Lemma VG_log2_loop_found k i fuel :
  0 <= i <= k -> k < i + Z.of_nat fuel -> VG_log2_loop (2 ^ k) i fuel = k.
Proof.
  revert i; induction fuel as [|fuel IH]; intros i Hi Hk; [lia|].
  simpl. rewrite Z.shiftl_1_l. destruct (Z.eqb_spec (2 ^ i) (2 ^ k)) as [E|E].
  - apply Z.pow_inj_r in E; lia.
  - apply IH; [|lia]. destruct (Z.eq_dec i k); [congruence|lia].
Qed.

Lemma VG_log2_loop_cases x i fuel :
  0 <= i ->
  VG_log2_loop x i fuel = -1 \/
  (i <= VG_log2_loop x i fuel < i + Z.of_nat fuel /\ x = 2 ^ VG_log2_loop x i fuel).
Proof.
  revert i; induction fuel as [|fuel IH]; intros i Hi; [by left|].
  simpl. rewrite Z.shiftl_1_l. destruct (Z.eqb_spec (2 ^ i) x); [right; lia|].
  destruct (IH (i + 1)) as [?|?]; [lia| |]; [by left|right; lia].
Qed.

Lemma VG_log2_pow2 k : 0 <= k < 32 -> VG_log2 (2 ^ k) = k.
Proof. intros Hk. apply VG_log2_loop_found; lia. Qed.

(** [VG_(log2)] finds the exponent of a power of two and rejects everything
    else. *)
Lemma VG_log2_spec x :
  (VG_log2 x = -1 /\ forall k, 0 <= k < 32 -> x <> 2 ^ k) \/
  (0 <= VG_log2 x < 32 /\ x = 2 ^ VG_log2 x).
Proof.
  destruct (VG_log2_loop_cases x 0 32) as [H|H]; [lia| |].
  - left. split; [done|]. intros k Hk ->. pose proof (VG_log2_pow2 k Hk) as E.
    unfold VG_log2 in E. lia.
  - right. fold (VG_log2 x) in H. lia.
Qed.

Lemma VG_log2_64_spec x :
  (VG_log2_64 x = -1 /\ forall k, 0 <= k < 64 -> x <> 2 ^ k) \/
  (0 <= VG_log2_64 x < 64 /\ x = 2 ^ VG_log2_64 x).
Proof.
  destruct (VG_log2_loop_cases x 0 64) as [H|H]; [lia| |].
  - left. split; [done|]. intros k Hk ->.
    pose proof (VG_log2_loop_found k 0 64 ltac:(lia) ltac:(lia)). lia.
  - right. fold (VG_log2_64 x) in H. lia.
Qed.

(** Within UInt, failing means not being a power of two at all. *)
Lemma VG_log2_uint x : in_u 32 x -> (VG_log2 x <> -1 <-> is_pow2 x).
Proof.
  intros Hx. destruct (VG_log2_spec x) as [[E N]|[R E]]; split.
  - lia.
  - intros (k & Hk & ->). exfalso. apply (N k); [|done]. split; [done|].
    apply (Z.pow_lt_mono_r_iff 2); [lia..|]. unfold in_u in Hx. lia.
  - intros _. exists (VG_log2 x). lia.
  - lia.
Qed.

(** ** Lemmas: numbers *)

Lemma append_empty_r (s : string) : (s ++ "")%string = s.
Proof.
  induction s as [|c s IH]; [reflexivity|].
  change (String c (s ++ "") = String c s). by rewrite IH.
Qed.

Lemma zchar_range c : 0 <= zchar c < 256.
Proof.
  unfold zchar. pose proof (N_ascii_bounded c). lia.
Qed.

(** The value of a run of decimal digits, accumulated the way the loop does. *)
Fixpoint digits_value (ds : string) (n : Z) : option Z :=
  match ds with
  | EmptyString => Some n
  | String c ds' =>
      match is_dec_digit (zchar c) with
      | Some d => digits_value ds' (10 * n + d)
      | None => None
      end
  end.

Lemma is_dec_digit_range c d : is_dec_digit c = Some d -> 0 <= d <= 9.
Proof. unfold is_dec_digit. case_Z; simpl; intros; simplify_eq; lia. Qed.

Lemma digits_value_mono ds n v : 0 <= n -> digits_value ds n = Some v -> n <= v.
Proof.
  revert n; induction ds as [|c ds IH]; simpl; intros n Hn H; [simplify_eq; lia|].
  destruct (is_dec_digit (zchar c)) as [d|] eqn:E; [|done].
  apply is_dec_digit_range in E. apply IH in H; lia.
Qed.

(** The digit loop reads a run of digits whose value fits a Long. *)
Lemma strtoll10_loop_digits ds rest b n v :
  0 <= n -> digits_value ds n = Some v -> v < 2 ^ 63 ->
  is_dec_digit (deref rest) = None ->
  strtoll10_loop (ds ++ rest) b n =
    Ok (rest, match ds with EmptyString => b | _ => true end, v).
Proof.
  revert b n; induction ds as [|c ds IH]; intros b n Hn Hv Hlt Hrest.
  - simpl in *. simplify_eq.
    destruct rest as [|c rest]; simpl in *; [done|by rewrite Hrest].
  - simpl in Hv |- *. destruct (is_dec_digit (zchar c)) as [d|] eqn:E; [|done].
    pose proof (is_dec_digit_range _ _ E).
    assert (10 * n + d <= v) by (eapply digits_value_mono; [|done]; lia).
    assert (forall y, 0 <= y < 2 ^ 63 -> signed_result 64 y = Ok y) as Hs.
    { intros y Hy. apply signed_result_ok. unfold in_s.
      change (64 - 1) with 63. split; [done|lia]. }
    rewrite Hs by lia. simpl. rewrite Hs by lia. simpl.
    rewrite (IH true (10 * n + d)) by (done || lia). by destruct ds.
Qed.

(** [VG_(strtoll10)] reads back a non-negative decimal numeral. *)
Lemma VG_strtoll10_digits ds rest v :
  ds <> EmptyString -> digits_value ds 0 = Some v -> v < 2 ^ 63 ->
  is_dec_digit (deref rest) = None ->
  VG_strtoll10 (ds ++ rest) = Ok (v, rest).
Proof.
  intros Hne Hv Hlt Hrest. unfold VG_strtoll10.
  destruct ds as [|c ds]; [done|]. clear Hne.
  pose proof Hv as Hv0. simpl in Hv. unfold is_dec_digit in Hv at 1.
  destruct ((48 <=? zchar c) && (zchar c <=? 57)) eqn:E; [|done].
  apply andb_true_iff in E as [E1 E2]. apply Z.leb_le in E1, E2.
  assert (VG_isspace (zchar c) = false) as Hsp
    by (unfold VG_isspace; case_Z; lia || done).
  change (skip_space (String c ds ++ rest)%string)
    with (if VG_isspace (zchar c) then skip_space (ds ++ rest) else String c (ds ++ rest)).
  rewrite Hsp. simpl deref. simpl incr.
  destruct (Z.eqb_spec (zchar c) 45); [lia|].
  destruct (Z.eqb_spec (zchar c) 43); [lia|].
  change (String c (ds ++ rest)) with (String c ds ++ rest)%string.
  rewrite (strtoll10_loop_digits _ _ _ _ v) by (done || lia). done.
Qed.

(** ** Lemmas: string comparison *)

(** No byte of the string is the terminator: the string is a C string. *)
Fixpoint no_nul (s : string) : Prop :=
  match s with
  | EmptyString => True
  | String c s' => zchar c <> 0 /\ no_nul s'
  end.

Lemma zchar_inj c d : zchar c = zchar d -> c = d.
Proof.
  unfold zchar. intros H. apply N2Z.inj in H.
  rewrite <- (ascii_N_embedding c), <- (ascii_N_embedding d). by rewrite H.
Qed.

Lemma VG_strcmp_refl s : VG_strcmp s s = 0.
Proof.
  induction s as [|c s IH]; [done|]. simpl.
  rewrite Z.ltb_irrefl, Z.gtb_ltb, Z.ltb_irrefl. by case_match.
Qed.

Lemma VG_strcmp_eq s1 s2 :
  no_nul s1 -> no_nul s2 -> (VG_strcmp s1 s2 = 0 <-> s1 = s2).
Proof.
  intros H1 H2. split; [|intros ->; apply VG_strcmp_refl].
  revert s2 H1 H2; induction s1 as [|c s1 IH]; intros [|d s2] H1 H2; simpl in *;
    rewrite ?Z.gtb_ltb.
  - done.
  - pose proof (zchar_range d). case_Z; lia.
  - pose proof (zchar_range c). case_Z; lia.
  - case_Z; try lia. intros Hc. f_equal; [apply zchar_inj; lia|].
    apply IH; tauto.
Qed.

Lemma VG_strcmp_antisym s1 s2 : VG_strcmp s2 s1 = - VG_strcmp s1 s2.
Proof.
  revert s2; induction s1 as [|c s1 IH]; intros [|d s2]; simpl;
    rewrite ?Z.gtb_ltb; case_Z; try lia.
  apply IH.
Qed.

(** Comparing is total: the result is -1, 0 or 1. *)
Lemma VG_strcmp_range s1 s2 : -1 <= VG_strcmp s1 s2 <= 1.
Proof.
  revert s2; induction s1 as [|c s1 IH]; intros [|d s2]; simpl;
    rewrite ?Z.gtb_ltb; case_Z; try lia. apply IH.
Qed.

Ltac zchar_ranges :=
  repeat match goal with c : ascii |- _ =>
    lazymatch goal with _ : 0 <= zchar c < 256 |- _ => fail
    | _ => pose proof (zchar_range c) end end.

Lemma VG_strcmp_trans s1 s2 s3 :
  VG_strcmp s1 s2 < 0 -> VG_strcmp s2 s3 < 0 -> VG_strcmp s1 s3 < 0.
Proof.
  revert s2 s3; induction s1 as [|c s1 IH]; intros [|d s2] [|e s3]; simpl;
    rewrite ?Z.gtb_ltb; zchar_ranges; case_Z; try lia.
  apply IH.
Qed.

(** Strings that compare equal compare alike with any other. *)
Lemma VG_strcmp_zero_l s1 s2 s3 : VG_strcmp s1 s2 = 0 -> VG_strcmp s1 s3 = VG_strcmp s2 s3.
Proof.
  revert s2 s3; induction s1 as [|c s1 IH]; intros [|d s2] [|e s3]; simpl;
    rewrite ?Z.gtb_ltb; zchar_ranges; case_Z; try lia.
  apply IH.
Qed.
