(* ===== verification/Ieee.v ===== *)
(** * Ieee: double-precision arithmetic on non-negative finite values

    The arithmetic the profiler does in [double]: the tweak of the last-level
    cache and the percentages it prints.  Also the facts about when rounding
    changes nothing. *)

From Stdlib Require Import ZArith Lia.
From stdpp Require Import base numbers list.
From S2P Require Import Prelude.

#[local] Open Scope Z_scope.

(** ** Doubles

    A finite non-negative IEEE double is a fraction [(n, d)] with [0 <= n] and
    [0 < d]; an operation rounds the exact result to 53 significant bits, to
    nearest with ties to even.  The values below stay far from the exponent
    limits, so overflow and subnormals do not arise. *)

Definition Double : Type := (Z * Z)%type.

(** [(n / d) * 2 ^ (-e)] as a fraction. *)
Definition scale2 (n d e : Z) : Z * Z := (n * 2 ^ Z.max (- e) 0, d * 2 ^ Z.max e 0).

Definition rnd53_exp (n d : Z) : Z :=
  let e0 := Z.log2 n - Z.log2 d - 53 in
  let '(N, D) := scale2 n d e0 in
  if 2 ^ 53 * D <=? N then e0 + 1 else e0.

Definition round_half_even (N D : Z) : Z :=
  let q := N / D in
  let r := N mod D in
  if 2 * r <? D then q
  else if D <? 2 * r then q + 1
  else if Z.even q then q else q + 1.

Definition rnd53 (n d : Z) : Double :=
  if n =? 0 then (0, 1)
  else
    let e := rnd53_exp n d in
    let '(N, D) := scale2 n d e in
    scale2 (round_half_even N D) 1 (- e).

Definition double_of_uint (x : Z) : Double := (x, 1).
Definition double_div (x y : Double) : Double :=
  rnd53 (fst x * snd y) (snd x * fst y).
Definition double_mul (x y : Double) : Double :=
  rnd53 (fst x * fst y) (snd x * snd y).
Definition double_add (x y : Double) : Double :=
  rnd53 (fst x * snd y + fst y * snd x) (snd x * snd y).
Definition double_geb (x y : Double) : bool := fst y * snd x <=? fst x * snd y.

(** The (UInt) conversion: truncation, undefined out of range. *)
Definition uint_of_double (x : Double) : res Z :=
  let q := fst x / snd x in
  if q <? 2 ^ 32 then Ok q else Err BadConversion.

(** ** Exact double arithmetic *)

(** [x] is exactly [n / 2 ^ k]. *)
Definition dval (x : Double) (n k : Z) : Prop :=
  exists j, 0 <= j /\ snd x = 2 ^ j /\ 0 <= fst x /\ fst x * 2 ^ k = n * 2 ^ j.

Lemma round_half_even_exact q D : 0 < D -> round_half_even (q * D) D = q.
Proof.
  intros HD. unfold round_half_even.
  rewrite Z.div_mul, Z.mod_mul by lia. by case_Z; try lia.
Qed.

(** A fraction [p * 2^t / 2^j] whose odd part fits 53 bits is not changed by
    rounding. *)
Lemma rnd53_shifted p t j :
  0 < p < 2 ^ 53 -> 0 <= t -> 0 <= j ->
  exists q e, rnd53 (p * 2 ^ t) (2 ^ j) = (q * 2 ^ Z.max e 0, 2 ^ Z.max (- e) 0) /\
  0 <= q /\ q * 2 ^ Z.max e 0 * 2 ^ j = p * 2 ^ t * 2 ^ Z.max (- e) 0.
Proof.
  intros Hp Ht Hj. set (L := Z.log2 p).
  assert (0 <= L <= 52) as HL.
  { subst L. split; [apply Z.log2_nonneg|].
    assert (Z.log2 p < 53); [apply Z.log2_lt_pow2; lia|lia]. }
  assert (2 ^ L <= p) by (apply Z.log2_spec; lia).
  assert (0 < 2 ^ t) by (apply Z.pow_pos_nonneg; lia).
  set (e0 := L + t - j - 53). set (e := e0 + 1).
  assert (rnd53_exp (p * 2 ^ t) (2 ^ j) = e) as He.
  { unfold rnd53_exp. rewrite Z.log2_mul_pow2, Z.log2_pow2 by lia.
    replace (t + Z.log2 p - j - 53) with e0 by (subst e0 L; lia).
    unfold scale2. destruct (Z.leb_spec (2 ^ 53 * (2 ^ j * 2 ^ Z.max e0 0))
      (p * 2 ^ t * 2 ^ Z.max (- e0) 0)); [done|exfalso].
    rewrite <- !Z.pow_add_r in * by lia.
    assert (2 ^ L * 2 ^ (t + Z.max (- e0) 0) <= p * 2 ^ (t + Z.max (- e0) 0))
      by (apply Z.mul_le_mono_nonneg_r; lia).
    rewrite <- Z.pow_add_r in * by lia.
    replace (L + (t + Z.max (- e0) 0)) with (53 + (j + Z.max e0 0)) in *
      by (subst e0; lia).
    rewrite <- Z.mul_assoc, <- Z.pow_add_r in * by lia. lia. }
  exists (p * 2 ^ (52 - L)), e. unfold rnd53.
  destruct (Z.eqb_spec (p * 2 ^ t) 0); [nia|]. rewrite He. unfold scale2.
  assert (p * 2 ^ t * 2 ^ Z.max (- e) 0 =
          p * 2 ^ (52 - L) * (2 ^ j * 2 ^ Z.max e 0)) as E.
  { rewrite <- !Z.mul_assoc, <- !Z.pow_add_r by lia. do 2 f_equal. subst e e0. lia. }
  rewrite E, round_half_even_exact by (apply Z.mul_pos_pos; apply Z.pow_pos_nonneg; lia).
  rewrite Z.opp_involutive, Z.mul_1_l. split_and!; [done| |lia].
  apply Z.mul_nonneg_nonneg; [lia|]. apply Z.pow_nonneg. lia.
Qed.

Lemma rnd53_dval n d j n' k :
  0 <= j -> d = 2 ^ j -> 0 <= k -> 0 <= n' < 2 ^ 53 ->
  n * 2 ^ k = n' * 2 ^ j -> dval (rnd53 n d) n' k.
Proof.
  intros Hj -> Hk Hn' E.
  assert (0 < 2 ^ k) by (apply Z.pow_pos_nonneg; lia).
  assert (0 < 2 ^ j) by (apply Z.pow_pos_nonneg; lia).
  destruct (Z.eq_dec n 0) as [->|Hn].
  { exists 0. unfold rnd53. simpl. nia. }
  assert (exists p t, 0 < p < 2 ^ 53 /\ 0 <= t /\ n = p * 2 ^ t) as (p & t & Hp & Ht & ->).
  { destruct (Z_le_gt_dec k j).
    - exists n', (j - k). assert (n = n' * 2 ^ (j - k)); [|split_and!; nia || lia].
      replace j with (j - k + k) in E by lia. rewrite Z.pow_add_r in E by lia. nia.
    - exists n, 0. replace k with (k - j + j) in E by lia.
      rewrite Z.pow_add_r in E by lia.
      assert (n * 2 ^ (k - j) = n') by nia.
      assert (0 < 2 ^ (k - j)) by (apply Z.pow_pos_nonneg; lia).
      rewrite Z.mul_1_r. nia. }
  destruct (rnd53_shifted p t j Hp Ht Hj) as (q & e & -> & Hq & Hv).
  exists (Z.max (- e) 0). simpl. split_and!; [lia|done| |].
  - apply Z.mul_nonneg_nonneg; [lia|]. apply Z.pow_nonneg. lia.
  - apply (Z.mul_reg_r _ _ (2 ^ j)); [lia|].
    transitivity (p * 2 ^ t * 2 ^ Z.max (- e) 0 * 2 ^ k); [rewrite <- Hv; lia|].
    rewrite (Z.mul_shuffle0 _ _ (2 ^ k)), E. lia.
Qed.

Lemma double_div_dval x k :
  0 <= x < 2 ^ 53 -> 0 <= k ->
  dval (double_div (double_of_uint x) (double_of_uint (2 ^ k))) x k.
Proof.
  intros Hx Hk. unfold double_div, double_of_uint. simpl fst; simpl snd.
  apply (rnd53_dval _ _ k); lia.
Qed.

Lemma double_mul_dval x n k y :
  0 <= k -> dval x n k -> 0 <= n * y < 2 ^ 53 ->
  dval (double_mul x (double_of_uint y)) (n * y) k.
Proof.
  intros Hk (j & Hj & Hs & Hf & E) Hr. unfold double_mul, double_of_uint.
  simpl fst; simpl snd. apply (rnd53_dval _ _ j); try lia.
  transitivity (fst x * 2 ^ k * y); [lia|]. rewrite E. lia.
Qed.

Lemma double_add_half_dval x n k :
  0 <= k -> dval x n k -> 0 <= 2 ^ k + 2 * n < 2 ^ 53 ->
  dval (double_add (1, 2) x) (2 ^ k + 2 * n) (k + 1).
Proof.
  intros Hk (j & Hj & Hs & Hf & E) Hr. unfold double_add.
  simpl fst; simpl snd. apply (rnd53_dval _ _ (j + 1)); try lia.
  - rewrite Z.pow_add_r by lia. lia.
  - rewrite !Z.pow_add_r, Hs by lia.
    transitivity (2 ^ j * 2 ^ k * 2 + fst x * 2 ^ k * 4); [lia|]. rewrite E. lia.
Qed.

Lemma uint_of_double_dval x n k :
  0 <= k -> dval x n k -> n / 2 ^ k < 2 ^ 32 -> uint_of_double x = Ok (n / 2 ^ k).
Proof.
  intros Hk (j & Hj & Hs & Hf & E) Hr. unfold uint_of_double. rewrite Hs.
  assert (0 < 2 ^ k) by (apply Z.pow_pos_nonneg; lia).
  assert (0 < 2 ^ j) by (apply Z.pow_pos_nonneg; lia).
  replace (fst x / 2 ^ j) with (n / 2 ^ k); [by case_Z; try lia|].
  rewrite <- (Z.div_mul_cancel_r n (2 ^ k) (2 ^ j)) by lia.
  rewrite <- (Z.div_mul_cancel_r (fst x) (2 ^ j) (2 ^ k)) by lia.
  rewrite <- E. f_equal. lia.
Qed.

Lemma double_geb_one x n k :
  0 <= k -> dval x n k -> 2 ^ k <= n -> double_geb x (1, 1) = true.
Proof.
  intros Hk (j & Hj & Hs & Hf & E) Hr. unfold double_geb. simpl fst; simpl snd.
  apply Z.leb_le. rewrite Hs.
  assert (0 < 2 ^ k) by (apply Z.pow_pos_nonneg; lia).
  assert (0 < 2 ^ j) by (apply Z.pow_pos_nonneg; lia). nia.
Qed.

(** ** Rounding changes a value by less than a factor of two *)

Lemma scale2_pos n d e : 0 < n -> 0 < d -> 0 < fst (scale2 n d e) /\ 0 < snd (scale2 n d e).
Proof.
  intros Hn Hd. unfold scale2. cbn [fst snd].
  pose proof (Z.pow_pos_nonneg 2 (Z.max (- e) 0) ltac:(lia) ltac:(lia)).
  pose proof (Z.pow_pos_nonneg 2 (Z.max e 0) ltac:(lia) ltac:(lia)). nia.
Qed.

(** [scale2] at a smaller exponent is larger by that power of two. *)
Lemma scale2_shift n d e k : 0 <= k ->
  fst (scale2 n d e) * snd (scale2 n d (e + k)) = 2 ^ k * fst (scale2 n d (e + k)) * snd (scale2 n d e).
Proof.
  intros Hk. unfold scale2. cbn [fst snd].
  replace (n * 2 ^ Z.max (- e) 0 * (d * 2 ^ Z.max (e + k) 0))
    with (n * d * (2 ^ Z.max (- e) 0 * 2 ^ Z.max (e + k) 0)) by lia.
  replace (2 ^ k * (n * 2 ^ Z.max (- (e + k)) 0) * (d * 2 ^ Z.max e 0))
    with (n * d * (2 ^ k * 2 ^ Z.max (- (e + k)) 0 * 2 ^ Z.max e 0)) by lia.
  f_equal. rewrite <- !Z.pow_add_r by lia. f_equal. lia.
Qed.

Lemma rnd53_exp_scale n d : 0 < n -> 0 < d ->
  let '(N, D) := scale2 n d (rnd53_exp n d) in 0 < D <= N.
Proof.
  intros Hn Hd. unfold rnd53_exp. set (e0 := Z.log2 n - Z.log2 d - 53).
  assert (forall e, e <= e0 -> snd (scale2 n d e) <= fst (scale2 n d e)) as He0.
  { intros e He. unfold scale2. cbn [fst snd].
    pose proof (Z.log2_spec n Hn) as [Ln _]. pose proof (Z.log2_spec d Hd) as [_ Ld].
    pose proof (Z.log2_nonneg n). pose proof (Z.log2_nonneg d).
    transitivity (2 ^ Z.succ (Z.log2 d) * 2 ^ Z.max e 0).
    { apply Z.mul_le_mono_nonneg_r; [apply Z.pow_nonneg; lia|lia]. }
    transitivity (2 ^ Z.log2 n * 2 ^ Z.max (- e) 0).
    { rewrite <- !Z.pow_add_r by lia. apply Z.pow_le_mono_r; lia. }
    apply Z.mul_le_mono_nonneg_r; [apply Z.pow_nonneg; lia|lia]. }
  pose proof (scale2_pos n d e0 Hn Hd) as [_ H0]. pose proof (scale2_pos n d (e0 + 1) Hn Hd) as [_ H1].
  pose proof (scale2_shift n d e0 1 ltac:(lia)) as Hs.
  specialize (He0 e0 ltac:(lia)).
  destruct (scale2 n d e0) as [N D] eqn:E0. cbn [fst snd] in *.
  destruct (Z.leb_spec (2 ^ 53 * D) N); [|rewrite E0; lia].
  destruct (scale2 n d (e0 + 1)) as [N1 D1]. cbn [fst snd] in *. nia.
Qed.

Lemma round_half_even_bounds N D : 0 < D <= N ->
  N < 2 * (round_half_even N D * D) /\ round_half_even N D * D <= 2 * N.
Proof.
  intros HD. unfold round_half_even.
  pose proof (Z.div_mod N D ltac:(lia)) as Hdm. pose proof (Z.mod_pos_bound N D ltac:(lia)).
  assert (1 <= N / D) by (apply Z.div_le_lower_bound; lia).
  repeat case_match; nia.
Qed.

(** [x] is a double of at most [B]. *)
Definition dle (x : Double) (B : Z) : Prop := 0 < snd x /\ 0 <= fst x <= B * snd x.

Lemma rnd53_bounds n d : 0 < n -> 0 < d ->
  let r := rnd53 n d in
  0 < snd r /\ 0 < fst r /\ fst r * d <= 2 * n * snd r /\ n * snd r <= 2 * (fst r * d).
Proof.
  intros Hn Hd. unfold rnd53. rewrite (proj2 (Z.eqb_neq n 0)) by lia.
  pose proof (rnd53_exp_scale n d Hn Hd) as HND. set (e := rnd53_exp n d) in *.
  destruct (scale2 n d e) as [N D] eqn:E. pose proof (round_half_even_bounds N D HND) as [H1 H2].
  set (q := round_half_even N D) in *. unfold scale2 in *. injection E as EN ED. cbn [fst snd].
  rewrite Z.opp_involutive.
  pose proof (Z.pow_pos_nonneg 2 (Z.max (- e) 0) ltac:(lia) ltac:(lia)).
  pose proof (Z.pow_pos_nonneg 2 (Z.max e 0) ltac:(lia) ltac:(lia)).
  subst N D. set (P := 2 ^ Z.max (- e) 0) in *. set (Q := 2 ^ Z.max e 0) in *.
  assert (0 < n * P) by (apply Z.mul_pos_pos; lia).
  assert (0 < q * Q) by (apply (Zmult_gt_0_lt_0_reg_r d); lia).
  split_and!; lia.
Qed.

Lemma rnd53_dle n d B : 0 <= n -> 0 < d -> n <= B * d -> dle (rnd53 n d) (2 * B).
Proof.
  intros Hn Hd HB. unfold dle. destruct (Z.eq_dec n 0) as [->|Hn0].
  { change (rnd53 0 d) with ((0, 1) : Double). cbn [fst snd]. assert (0 <= B) by nia. lia. }
  pose proof (rnd53_bounds n d ltac:(lia) Hd) as (H1 & H2 & H3 & _). cbv zeta in *.
  split_and!; [lia|lia|]. apply (Z.mul_le_mono_pos_r _ _ d); [lia|]. nia.
Qed.
