(* ===== verification/Debuglog.v ===== *)
(** * Debuglog: printing integers (coregrind/m_debuglog.c, myvprintf_int64)

    Every [%d], [%u] and [%llu] of Valgrind's own printf family goes through
    [myvprintf_int64].  The [send] callback is modelled by the string of the
    characters sent. *)

From Stdlib Require Import ZArith Lia Ascii String.
From stdpp Require Import base numbers strings list.
From S2P Require Import Prelude Libcbase.

#[local] Open Scope Z_scope.

(** The [VG_MSG_*] flag bits. *)
Record msg_flags : Type := MsgFlags {
  VG_MSG_SIGNED : bool;
  VG_MSG_ZJUSTIFY : bool;
  VG_MSG_LJUSTIFY : bool;
  VG_MSG_PAREN : bool;
  VG_MSG_COMMA : bool;
  VG_MSG_ALTFORMAT : bool
}.

Definition no_flags : msg_flags := MsgFlags false false false false false false.
Definition signed_flags : msg_flags := MsgFlags true false false false false false.
Definition comma_flags : msg_flags := MsgFlags false false false false true false.

Definition chr (n : Z) : ascii := ascii_of_N (Z.to_N n).

(** [digits[d]]. *)
Definition digit_char (capitalised : bool) (d : Z) : ascii :=
  if d <? 10 then chr (48 + d)
  else if capitalised then chr (55 + d) else chr (87 + d).

(** The loop that fills [buf]: [ind] is the length of [buf], [nc] the number
    of commas in it. *)
Fixpoint int64_loop (fuel : nat) (comma : bool) (base : Z) (capitalised : bool)
    (p nc : Z) (buf : list ascii) : list ascii :=
  match fuel with
  | O => buf
  | S fuel' =>
      if 0 <? p then
        let ind := Z.of_nat (length buf) in
        let '(buf, nc) :=
          if comma && (10 =? base) && (0 =? Z.rem (ind - nc) 3) && negb (0 =? ind)
          then (buf ++ [chr 44], nc + 1) else (buf, nc) in
        int64_loop fuel' comma base capitalised (p / base) nc
          (buf ++ [digit_char capitalised (p mod base)])
      else buf
  end.

(** A ULong has at most 64 digits in any base from 2 up. *)
Definition int64_fuel : nat := 64.

(** What [myvprintf_int64] puts into its buffer of [max (width + 1) 90] bytes
    before padding: digits, commas and a sign. *)
Definition int64_digits (flags : msg_flags) (base : Z) (capitalised : bool) (p : Z) : list ascii :=
  let '(p, neg) :=
    if VG_MSG_SIGNED flags && (s64 p <? 0) then (u64 (- s64 p), true) else (p, false) in
  let buf :=
    if p =? 0 then [chr 48]
    else int64_loop int64_fuel (VG_MSG_COMMA flags) base capitalised p 0 [] in
  if (neg : bool) then buf ++ [chr 45] else buf.

Definition myvprintf_int64 (flags : msg_flags) (base width : Z)
    (capitalised : bool) (p : Z) : string :=
  if (base <? 2) || (base >? 16) then EmptyString else
  let buf := int64_digits flags base capitalised p in
  let pad (b : list ascii) (c : ascii) :=
    replicate (Z.to_nat width - length b) c in
  let buf :=
    if (0 <? width) && negb (VG_MSG_LJUSTIFY flags)
    then buf ++ pad buf (if VG_MSG_ZJUSTIFY flags then chr 48 else chr 32) else buf in
  let out := reverse buf in
  let out :=
    if (0 <? width) && VG_MSG_LJUSTIFY flags then out ++ pad buf (chr 32) else out in
  string_of_list_ascii out.

(** [%d], [%u] and [%llu] without a width. *)
Definition fmt_d (x : Z) : string := myvprintf_int64 signed_flags 10 0 false (u64 x).
Definition fmt_u (x : Z) : string := myvprintf_int64 no_flags 10 0 false x.
(** [%,<width>llu]. *)
Definition fmt_comma (width x : Z) : string :=
  myvprintf_int64 comma_flags 10 width false x.

Example fmt_examples :
  fmt_d (-1234) = "-1234"%string /\ fmt_u 65536 = "65536"%string /\
  fmt_comma 12 1234567 = "   1,234,567"%string.
Proof. vm_compute. auto. Qed.

(** ** Lemmas *)

Lemma zchar_chr n : 0 <= n < 256 -> zchar (chr n) = n.
Proof.
  intros H. unfold zchar, chr. rewrite N_ascii_embedding by lia. lia.
Qed.

Lemma digit_char_dec d : 0 <= d < 10 -> is_dec_digit (zchar (digit_char false d)) = Some d.
Proof.
  intros H. unfold digit_char, is_dec_digit.
  destruct (Z.ltb_spec d 10); [|lia]. rewrite zchar_chr by lia.
  case_Z; simpl; try lia. f_equal. lia.
Qed.

Lemma digits_value_app s1 s2 n :
  digits_value (s1 ++ s2) n = (digits_value s1 n ≫= digits_value s2).
Proof.
  revert n; induction s1 as [|c s1 IH]; intros n; [done|].
  change (String c s1 ++ s2)%string with (String c (s1 ++ s2)). simpl.
  destruct (is_dec_digit (zchar c)); [apply IH|done].
Qed.

Lemma string_of_list_ascii_app l1 l2 :
  string_of_list_ascii (l1 ++ l2) =
  (string_of_list_ascii l1 ++ string_of_list_ascii l2)%string.
Proof.
  induction l1 as [|c l1 IH]; [done|].
  change (String c (string_of_list_ascii (l1 ++ l2)) =
          String c (string_of_list_ascii l1 ++ string_of_list_ascii l2)).
  by rewrite IH.
Qed.

(** Without commas the loop appends the decimal digits, lowest first: read
    back to front they denote [p]. *)
Lemma int64_loop_dec fuel p nc buf :
  0 < p < 10 ^ Z.of_nat fuel ->
  exists ds, int64_loop fuel false 10 false p nc buf = buf ++ ds /\ ds <> [] /\
    digits_value (string_of_list_ascii (reverse ds)) 0 = Some p.
Proof.
  revert p buf; induction fuel as [|fuel IH]; intros p buf Hp; [simpl in Hp; lia|].
  simpl. destruct (Z.ltb_spec 0 p); [|lia].
  pose proof (Z.mod_pos_bound p 10 ltac:(lia)).
  pose proof (Z.div_mod p 10 ltac:(lia)).
  rewrite Nat2Z.inj_succ, Z.pow_succ_r in Hp by lia.
  set (d := digit_char false (p mod 10)).
  destruct (Z.eq_dec (p / 10) 0) as [E|E].
  - exists [d]. rewrite E. split_and!; [by destruct fuel|done|].
    simpl. unfold d. rewrite digit_char_dec by lia. simpl. f_equal. lia.
  - destruct (IH (p / 10) (buf ++ [d])) as (ds & -> & Hne & Hv).
    { assert (0 <= p / 10) by (apply Z.div_pos; lia).
      split; [lia|]. apply Z.div_lt_upper_bound; lia. }
    exists (d :: ds). split_and!; [by rewrite <- app_assoc|done|].
    rewrite reverse_cons, string_of_list_ascii_app, digits_value_app, Hv.
    simpl. unfold d. rewrite digit_char_dec by lia. simpl. f_equal. lia.
Qed.

(** Counting the digits of a number: [while (n > 0) { n = n / base; w++; }]. *)
Fixpoint digits_loop (fuel : nat) (base n w : Z) : Z :=
  match fuel with
  | O => w
  | S fuel' => if 0 <? n then digits_loop fuel' base (n / base) (w + 1) else w
  end.

(** The commas among [w] digits. *)
Definition commas (w : Z) : Z := Z.max 0 (w - 1) / 3.

Lemma commas_succ w : 0 <= w ->
  commas (w + 1) = commas w + (if (0 =? Z.rem w 3) && negb (0 =? w) then 1 else 0).
Proof.
  intros Hw. unfold commas. rewrite Z.rem_mod_nonneg by lia.
  pose proof (Z.div_mod w 3 ltac:(lia)). pose proof (Z.mod_pos_bound w 3 ltac:(lia)).
  pose proof (Z.div_mod (Z.max 0 (w - 1)) 3 ltac:(lia)).
  pose proof (Z.mod_pos_bound (Z.max 0 (w - 1)) 3 ltac:(lia)).
  replace (Z.max 0 (w + 1 - 1)) with w by lia.
  destruct (Z.eqb_spec 0 (w mod 3)), (Z.eqb_spec 0 w); cbn [andb negb]; lia.
Qed.

(** The length of the buffer is the digits plus, where asked for, the commas. *)
Lemma int64_loop_length fuel comma base cap p nc buf w :
  let sep := comma && (10 =? base) in
  0 <= w -> nc = (if sep then commas w else 0) -> Z.of_nat (length buf) = w + nc ->
  Z.of_nat (length (int64_loop fuel comma base cap p nc buf)) =
  digits_loop fuel base p w + (if sep then commas (digits_loop fuel base p w) else 0).
Proof.
  intros sep. revert p nc buf w. induction fuel as [|fuel IH]; intros p nc buf w Hw Hnc Hl.
  { cbn. lia. }
  cbn [int64_loop digits_loop]. destruct (0 <? p); [|lia].
  assert (Z.of_nat (length buf) - nc = w) as Hi by lia. rewrite Hi.
  assert ((0 =? Z.of_nat (length buf)) = (0 =? w)) as Hz.
  { assert (0 <= commas w) by (apply Z.div_pos; lia).
    assert (w = 0 -> commas w = 0) by (by intros ->).
    destruct (Z.eqb_spec 0 w), (Z.eqb_spec 0 (Z.of_nat (length buf))); try done;
      subst nc; destruct sep; lia. }
  rewrite Hz. fold sep. rewrite <- andb_assoc. pose proof (commas_succ w Hw) as Hc.
  destruct sep; cbn [andb].
  - destruct ((0 =? Z.rem w 3) && negb (0 =? w)); apply IH; try lia; rewrite ?length_app; simpl; lia.
  - apply IH; try lia. rewrite length_app. simpl. lia.
Qed.

Lemma digits_loop_le fuel base n w : w <= digits_loop fuel base n w <= w + Z.of_nat fuel.
Proof.
  revert n w; induction fuel as [|fuel IH]; intros n w; cbn [digits_loop]; [lia|].
  destruct (0 <? n); [|lia]. specialize (IH (n / base) (w + 1)). lia.
Qed.

(** A number below [base ^ k] has at most [k] digits. *)
Lemma digits_loop_bound fuel base n w k :
  2 <= base -> 0 <= k -> 0 <= n < base ^ k -> digits_loop fuel base n w <= w + k.
Proof.
  intros Hb. revert n w k; induction fuel as [|fuel IH]; intros n w k Hk Hn; cbn [digits_loop]; [lia|].
  destruct (Z.ltb_spec 0 n); [|lia].
  destruct (Z.eq_dec k 0) as [->|]; [cbn in Hn; lia|].
  specialize (IH (n / base) (w + 1) (k - 1)).
  assert (0 <= n / base < base ^ (k - 1)); [|lia].
  split; [apply Z.div_pos; lia|]. apply Z.div_lt_upper_bound; [lia|].
  rewrite <- Z.pow_succ_r by lia. replace (Z.succ (k - 1)) with k by lia. lia.
Qed.

#[global] Arguments int64_loop : simpl never.

Lemma int64_digits_fit flags base cap p :
  2 <= base -> in_u 64 p -> (length (int64_digits flags base cap p) <= 65)%nat.
Proof.
  intros Hb Hp. unfold int64_digits.
  assert (forall q, in_u 64 q -> (length (if (q =? 0)%Z then [chr 48] else
    int64_loop int64_fuel (VG_MSG_COMMA flags) base cap q 0 []) <= 64)%nat) as Hq.
  { intros q Hq. destruct (q =? 0); [simpl; lia|].
    pose proof (int64_loop_length int64_fuel (VG_MSG_COMMA flags) base cap q 0 [] 0) as Hl.
    pose proof (digits_loop_le int64_fuel base q 0) as Hd. unfold int64_fuel in *.
    cbv zeta in Hl. destruct (VG_MSG_COMMA flags && (10 =? base)) eqn:Hs;
      specialize (Hl ltac:(lia) eq_refl eq_refl); [|lia].
    apply andb_prop in Hs as [_ Hs%Z.eqb_eq]. subst base.
    pose proof (digits_loop_bound 64 10 q 0 20 ltac:(lia) ltac:(lia)) as Hb2.
    assert (0 <= q < 10 ^ 20) by (unfold in_u in Hq; lia). specialize (Hb2 ltac:(done)).
    unfold commas in Hl.
    assert (Z.max 0 (digits_loop 64 10 q 0 - 1) / 3 < 7) by (apply Z.div_lt_upper_bound; lia). lia. }
  destruct (_ && _); [rewrite length_app; cbn [length]|];
    [|specialize (Hq p Hp); lia].
  specialize (Hq (u64 (- s64 p)) (wrapu_range 64 _ ltac:(lia))). lia.
Qed.

Lemma fmt_u_value x : in_u 64 x -> digits_value (fmt_u x) 0 = Some x /\ fmt_u x <> EmptyString.
Proof.
  intros Hx. unfold fmt_u, myvprintf_int64, int64_digits. simpl.
  destruct (Z.eqb_spec x 0) as [->|Hn]; [done|]. unfold in_u in Hx.
  destruct (int64_loop_dec int64_fuel x 0 []) as (ds & -> & Hne & Hv).
  { unfold int64_fuel. split; [lia|]. transitivity (2 ^ 64); [lia|].
    by apply Z.ltb_lt. }
  simpl. rewrite Hv. split; [done|].
  destruct ds as [|d ds] using rev_ind; [done|]. by rewrite reverse_snoc.
Qed.

(** Printing an unsigned number and reading it back with [VG_(strtoll10)]. *)
Lemma fmt_u_strtoll10 x rest :
  0 <= x < 2 ^ 63 -> is_dec_digit (deref rest) = None ->
  VG_strtoll10 (fmt_u x ++ rest) = Ok (x, rest).
Proof.
  intros Hx Hr. destruct (fmt_u_value x) as [Hv Hne]; [unfold in_u; lia|].
  apply VG_strtoll10_digits; [done..|lia|done].
Qed.
