(* ===== verification/Vprintf.v ===== *)
(** * Vprintf: Valgrind's printf (coregrind/m_debuglog.c, VG_(debugLog_vprintf))

    Every line the profiler writes, to its output file or to the log, is
    produced by this interpreter of format strings.  A format is the bytes
    before its terminator; the variable arguments are a list of values with
    the type the caller passed; the [send] callback is the string of the
    characters sent, and the returned [UInt] is kept beside it. *)

From Stdlib Require Import ZArith Lia Ascii String.
From stdpp Require Import base numbers strings list.
From S2P Require Import Prelude Libcbase Ieee Debuglog.

#[local] Open Scope Z_scope.

(** An argument, by the class [va_arg] reads it with: a 32-bit integer, a
    64-bit integer or pointer, a string (possibly NULL), a double. *)
Inductive va : Type :=
  | VA_Int (x : Z)
  | VA_Long (x : Z)
  | VA_Str (s : option string)
  | VA_Dbl (neg : bool) (v : Double).

(** Reading an argument of the wrong class, or too many, is undefined. *)
Definition va_int (args : list va) : res (Z * list va) :=
  match args with VA_Int x :: args' => Ok (x, args') | _ => Err BadConversion end.
Definition va_long (args : list va) : res (Z * list va) :=
  match args with VA_Long x :: args' => Ok (x, args') | _ => Err BadConversion end.
Definition va_str (args : list va) : res (string * list va) :=
  match args with
  | VA_Str (Some s) :: args' => Ok (s, args')
  | VA_Str None :: args' => Ok ("(null)"%string, args')
  | _ => Err BadConversion
  end.
Definition va_dbl (args : list va) : res (bool * Double * list va) :=
  match args with VA_Dbl neg v :: args' => Ok (neg, v, args') | _ => Err BadConversion end.

(** ** Strings *)

Definition local_toupper (c : ascii) : ascii :=
  if (97 <=? zchar c) && (zchar c <=? 122) then chr (zchar c - 32) else c.

Fixpoint str_map (f : ascii -> ascii) (s : string) : string :=
  match s with
  | EmptyString => EmptyString
  | String c s' => String (f c) (str_map f s')
  end.

Fixpoint str_take (n : nat) (s : string) : string :=
  match n, s with
  | S n', String c s' => String c (str_take n' s')
  | _, _ => EmptyString
  end.

(** [n] times [send(c)], nothing when [n] is not positive. *)
Definition send_n (n : Z) (c : ascii) : string :=
  string_of_list_ascii (replicate (Z.to_nat n) c).

Definition str_len (s : string) : Z := Z.of_nat (String.length s).

(** [myvprintf_str]: the characters sent and the count returned. *)
Definition myvprintf_str (flags : msg_flags) (width : Z) (str : string) (capitalise : bool)
  : string * Z :=
  let up := str_map (if capitalise then local_toupper else id) in
  let len := str_len str in
  if width =? 0 then (up str, u32 len)
  else if len >? width then (up (str_take (Z.to_nat width) str), u32 width)
  else
    let extra := width - len in
    if negb (VG_MSG_LJUSTIFY flags) then
      ((send_n extra (chr 32) ++ up str)%string, u32 (extra + len))
    else ((up str ++ send_n extra (chr 32))%string, u32 (len + extra)).

(** [myvprintf_str_XML_simplistic]. *)
Definition xml_alt (c : ascii) : string :=
  if zchar c =? 38 then "&amp;"
  else if zchar c =? 60 then "&lt;"
  else if zchar c =? 62 then "&gt;"
  else String c EmptyString.

Fixpoint myvprintf_str_XML_simplistic (str : string) : string :=
  match str with
  | EmptyString => EmptyString
  | String c str' => (xml_alt c ++ myvprintf_str_XML_simplistic str')%string
  end.

(** ** Floating point *)

Definition double_of_ulong (x : Z) : Double := rnd53 x 1.

(** The (ULong) conversion: truncation, undefined out of range. *)
Definition ulong_of_double (x : Double) : res Z :=
  let q := fst x / snd x in
  if q <? 2 ^ 64 then Ok q else Err BadConversion.

(** [x - y] where [y <= x]. *)
Definition double_sub (x y : Double) : Double :=
  rnd53 (fst x * snd y - fst y * snd x) (snd x * snd y).

Definition double_gtb (x y : Double) : bool := fst y * snd x <? fst x * snd y.

(** The digits of the integral part; [x] and [old_x] wrap at 64 bits. *)
Fixpoint num_digit_loop (fuel : nat) (ipval x old_x num_digit : Z) : Z :=
  match fuel with
  | O => num_digit
  | S fuel' =>
      if x <=? old_x then num_digit
      else if ipval <? x then num_digit
      else num_digit_loop fuel' ipval (u64 (x * 10)) x (num_digit + 1)
  end.

(** Twenty rounds reach the wrap of [10 ^ 20]. *)
Definition num_digits (ipval : Z) : Z := num_digit_loop 20 ipval 10 0 1.

Definition pow10 (precision : Z) : Z := 10 ^ Z.max 0 precision.

Definition zjust_flags : msg_flags := MsgFlags false true false false false false.

(** The [%f] case.  [num_digit] and the comparison with [width] are unsigned. *)
Definition myvprintf_double (flags : msg_flags) (width precision : Z) (neg : bool) (v : Double)
  : res (string * Z) :=
  let is_negative := neg && (0 <? fst v) in
  if double_gtb v (2 ^ 64, 1) then
    let width := if width =? 0 then 6 else width in
    Ok (send_n width (chr 42), u32 width)
  else
    let! ipval := ulong_of_double v in
    let frac := double_sub v (double_of_ulong ipval) in
    let precision := if precision =? -1 then 6 else precision in
    let precision := if precision >? 10 then 10 else precision in
    let factor := pow10 precision in
    let prod := double_mul frac (double_of_ulong factor) in
    let! frval := ulong_of_double prod in
    let frval :=
      if double_gtb (double_sub prod (double_of_ulong frval)) (1, 2) then frval + 1 else frval in
    let ipval := if frval =? factor then u64 (ipval + 1) else ipval in
    let frval := frval mod factor in
    let ipwidth := num_digits ipval in
    let num_digit := u32 (ipwidth + (if is_negative then 1 else 0)
                          + (if precision =? 0 then 0 else 1 + precision)) in
    let fill := if num_digit <? u32 width then u32 width - num_digit else 0 in
    let blanks := send_n fill (chr 32) in
    let sign := if is_negative then "-"%string else EmptyString in
    let ipart := myvprintf_int64 no_flags 10 ipwidth false ipval in
    let fpart :=
      if precision =? 0 then EmptyString
      else String (chr 46) (myvprintf_int64 zjust_flags 10 precision false frval) in
    let body := (sign ++ ipart ++ fpart)%string in
    let out := if VG_MSG_LJUSTIFY flags then (body ++ blanks)%string else (blanks ++ body)%string in
    Ok (out, u32 (str_len body + fill)).

(** ** Parsing a conversion specification *)

Definition set_flag (fl : msg_flags) (c : Z) : option msg_flags :=
  let 'MsgFlags sg z l p co a := fl in
  if c =? 40 then Some (MsgFlags sg z l true co a)
  else if (c =? 44) || (c =? 39) then Some (MsgFlags sg z l p true a)
  else if c =? 45 then Some (MsgFlags sg z true p co a)
  else if c =? 48 then Some (MsgFlags sg true l p co a)
  else if c =? 35 then Some (MsgFlags sg z l p co true)
  else None.

Definition set_signed (fl : msg_flags) : msg_flags :=
  let 'MsgFlags _ z l p co a := fl in MsgFlags true z l p co a.

Fixpoint parse_flags (fl : msg_flags) (fmt : string) : msg_flags * string :=
  match fmt with
  | EmptyString => (fl, fmt)
  | String c fmt' =>
      match set_flag fl (zchar c) with
      | Some fl' => parse_flags fl' fmt'
      | None => (fl, fmt)
      end
  end.

(** The digit loops of the width and of the precision. *)
Fixpoint parse_digits (n : Z) (fmt : string) : res (Z * string) :=
  match fmt with
  | EmptyString => Ok (n, fmt)
  | String c fmt' =>
      match is_dec_digit (zchar c) with
      | Some d =>
          let! m := int_mul n 10 in
          let! m := signed_result 32 (m + d) in
          parse_digits m fmt'
      | None => Ok (n, fmt)
      end
  end.

(** A number, or an Int argument for [*]. *)
Definition parse_num (fmt : string) (args : list va) : res (Z * string * list va) :=
  if deref fmt =? 42 then
    let! (w, args) := va_int args in Ok (s32 w, incr fmt, args)
  else
    let! (w, fmt) := parse_digits 0 fmt in Ok (w, fmt, args).

Definition parse_precision (fmt : string) (args : list va) : res (Z * string * list va) :=
  if deref fmt =? 46 then parse_num (incr fmt) args else Ok (-1, fmt, args).

Fixpoint parse_ls (n : nat) (fmt : string) : nat * string :=
  match fmt with
  | String c fmt' => if zchar c =? 108 then parse_ls (S n) fmt' else (n, fmt)
  | EmptyString => (n, fmt)
  end.

Record spec : Type := MkSpec {
  sp_flags : msg_flags;
  sp_width : Z;
  sp_precision : Z;
  sp_sizet : bool;
  sp_long : bool
}.

(** Everything between the [%] and the conversion character.  Words have 64
    bits, so one [l] makes a conversion long. *)
Definition parse_spec (fmt : string) (args : list va) : res (spec * string * list va) :=
  let '(flags, fmt) := parse_flags no_flags fmt in
  let! (width, fmt, args) := parse_num fmt args in
  let! (precision, fmt, args) := parse_precision fmt args in
  if deref fmt =? 122 then Ok (MkSpec flags width precision true false, incr fmt, args)
  else
    let '(n_ls, fmt) := parse_ls 0 fmt in
    Ok (MkSpec flags width precision false (Nat.ltb 0 n_ls), fmt, args).

(** ** Conversions *)

Definition counted (s : string) : string * Z := (s, u32 (str_len s)).

(** An unsigned argument of the size the specification asks for. *)
Definition va_unsigned (sp : spec) (args : list va) : res (Z * list va) :=
  if sp_sizet sp || sp_long sp then let! (x, args) := va_long args in Ok (u64 x, args)
  else let! (x, args) := va_int args in Ok (u32 x, args).

Section vprintf.
Context (clo_xml : bool).

(** The [switch] on the conversion character [c]; [fmt] is what follows it.
    The result is what was sent, what was added to [ret], the rest of the
    format and the rest of the arguments. *)
Definition convert (sp : spec) (c : Z) (fmt : string) (args : list va)
  : res (string * Z * string * list va) :=
  let flags := sp_flags sp in
  let width := sp_width sp in
  let alt := VG_MSG_ALTFORMAT flags in
  if c =? 111 then                                                  (* o *)
    let! (x, args) := va_unsigned sp args in
    let s := myvprintf_int64 flags 8 width false x in
    if alt then Ok (("0" ++ s)%string, u32 (2 + str_len s), fmt, args)
    else Ok (counted s, fmt, args)
  else if c =? 100 then                                             (* d *)
    let! (x, args) :=
      (if sp_long sp then let! (x, args) := va_long args in Ok (u64 x, args)
       else let! (x, args) := va_int args in Ok (u64 (s32 x), args)) in
    Ok (counted (myvprintf_int64 (set_signed flags) 10 width false x), fmt, args)
  else if c =? 117 then                                             (* u *)
    let! (x, args) := va_unsigned sp args in
    Ok (counted (myvprintf_int64 flags 10 width false x), fmt, args)
  else if c =? 112 then                                             (* p *)
    if deref fmt =? 83 then
      let! (s, args) := va_str args in
      Ok (counted (myvprintf_str_XML_simplistic s), incr fmt, args)
    else if deref fmt =? 115 then
      let! (s, args) := va_str args in
      if clo_xml then Ok (counted (myvprintf_str_XML_simplistic s), incr fmt, args)
      else Ok (myvprintf_str flags width s false, incr fmt, args)
    else
      let! (x, args) := va_long args in
      Ok (counted ("0x" ++ myvprintf_int64 flags 16 width true (u64 x))%string, fmt, args)
  else if (c =? 120) || (c =? 88) then                              (* x, X *)
    let! (x, args) := va_unsigned sp args in
    let caps := (c =? 88) && negb (sp_sizet sp) in
    Ok (counted ((if alt then "0x" else "") ++ myvprintf_int64 flags 16 width caps x)%string,
        fmt, args)
  else if c =? 99 then                                              (* c *)
    let! (x, args) := va_int args in
    Ok (counted (String (chr (u8 x)) EmptyString), fmt, args)
  else if (c =? 115) || (c =? 83) then                              (* s, S *)
    let! (s, args) := va_str args in
    Ok (myvprintf_str flags width s (c =? 83), fmt, args)
  else if c =? 102 then                                             (* f *)
    let! (neg, v, args) := va_dbl args in
    let! r := myvprintf_double flags width (sp_precision sp) neg v in
    Ok (r, fmt, args)
  else Ok (EmptyString, 0, fmt, args).

(** The loop over the format.  A format that ends inside a specification makes
    the [i++] of the loop step over the terminator. *)
Fixpoint vprintf_loop (fuel : nat) (fmt : string) (args : list va) (out : string) (ret : Z)
  : res (string * Z) :=
  match fuel with
  | O => Err OutOfFuel
  | S fuel' =>
      match fmt with
      | EmptyString => Ok (out, ret)
      | String c fmt' =>
          if negb (zchar c =? 37) then
            vprintf_loop fuel' fmt' args (out ++ String c EmptyString) (u32 (ret + 1))
          else if deref fmt' =? 0 then Ok (out, ret)
          else if deref fmt' =? 37 then
            vprintf_loop fuel' (incr fmt') args (out ++ "%") (u32 (ret + 1))
          else
            let! (sp, fmt2, args2) := parse_spec fmt' args in
            match fmt2 with
            | EmptyString => Err OutOfBounds
            | String c2 fmt3 =>
                let! (s, n, fmt4, args4) := convert sp (zchar c2) fmt3 args2 in
                vprintf_loop fuel' fmt4 args4 (out ++ s) (u32 (ret + n))
            end
      end
  end.

(** [VG_(debugLog_vprintf)]: each round consumes a character of the format. *)
Definition VG_debugLog_vprintf (fmt : string) (args : list va) : res (string * Z) :=
  vprintf_loop (S (String.length fmt)) fmt args EmptyString 0.

End vprintf.

Example vprintf_examples :
  VG_debugLog_vprintf false "%d %llu|%s|%5d|%-5d|%05d" 
    [VA_Int (-3); VA_Long 18446744073709551615; VA_Str (Some "abc"); VA_Int 42; VA_Int 42; VA_Int 42]
    = Ok ("-3 18446744073709551615|abc|   42|42   |00042"%string, 45) /\
  VG_debugLog_vprintf false "%%s %%,%dllu" [VA_Int 9] = Ok ("%s %,9llu"%string, 9) /\
  VG_debugLog_vprintf false "rate: %*.2f%%" [VA_Int 7; VA_Dbl false (rnd53 200 3)] =
    Ok ("rate:   66.67%"%string, 14) /\
  VG_debugLog_vprintf false "%#x %X %p %6.1f" [VA_Int 255; VA_Int 255; VA_Long 4096; VA_Dbl true (19, 2)] =
    Ok ("0xff FF 0x1000   -9.5"%string, 21) /\
  VG_debugLog_vprintf false "%#o" [VA_Int 8] = Ok ("010"%string, 4).
Proof. vm_compute. auto. Qed.

(** ** The rest of a format *)

(** [s'] is what is left of [s] after some of its characters. *)
Definition sfx (s' s : string) : Prop := exists p, s = (p ++ s')%string.

Lemma sfx_refl s : sfx s s.
Proof. by exists EmptyString. Qed.

Lemma sfx_cons c s' s : sfx s' s -> sfx s' (String c s).
Proof. intros [p ->]. by exists (String c p). Qed.

Lemma str_app_assoc (a b c : string) : ((a ++ b) ++ c = a ++ b ++ c)%string.
Proof.
  induction a as [|x a IH]; [done|].
  change (String x ((a ++ b) ++ c) = String x (a ++ b ++ c))%string. by rewrite IH.
Qed.

Lemma sfx_trans s1 s2 s3 : sfx s1 s2 -> sfx s2 s3 -> sfx s1 s3.
Proof. intros [p ->] [q ->]. exists (q ++ p)%string. by rewrite str_app_assoc. Qed.

Lemma str_len_app s1 s2 : str_len (s1 ++ s2) = str_len s1 + str_len s2.
Proof.
  unfold str_len. induction s1 as [|c s1 IH]; [done|].
  change (String c s1 ++ s2)%string with (String c (s1 ++ s2)). cbn [String.length]. lia.
Qed.

Lemma sfx_length s' s : sfx s' s -> (String.length s' <= String.length s)%nat.
Proof.
  intros [p ->]. pose proof (str_len_app p s') as H. unfold str_len in H. lia.
Qed.

#[export] Hint Resolve sfx_refl sfx_cons : cg.

(** The byte [z] does not occur. *)
Definition no_char (z : Z) (s : string) : Prop :=
  Forall (fun c => zchar c <> z) (list_ascii_of_string s).

Lemma sfx_no_char z s' s : sfx s' s -> no_char z s -> no_char z s'.
Proof.
  intros [p ->]. unfold no_char. induction p as [|c p IH]; [done|].
  change (String c p ++ s')%string with (String c (p ++ s')). cbn [list_ascii_of_string].
  intros H. apply IH. by apply Forall_cons in H as [_ H].
Qed.

Lemma sfx_incr fmt : sfx (incr fmt) fmt.
Proof. destruct fmt; cbn; auto with cg. Qed.

Lemma parse_flags_sfx fl fmt : sfx (parse_flags fl fmt).2 fmt.
Proof.
  revert fl; induction fmt as [|c fmt IH]; intros fl; cbn [parse_flags]; [apply sfx_refl|].
  destruct (set_flag fl (zchar c)); auto with cg.
Qed.

Lemma parse_digits_sfx n fmt n' fmt' : parse_digits n fmt = Ok (n', fmt') -> sfx fmt' fmt.
Proof.
  revert n; induction fmt as [|c fmt IH]; intros n H; cbn [parse_digits] in H;
    [injection H as _ <-; apply sfx_refl|].
  destruct (is_dec_digit (zchar c)); [|injection H as _ <-; apply sfx_refl].
  apply rbind_ok in H as (m & _ & H). apply rbind_ok in H as (m' & _ & H). eauto with cg.
Qed.

Lemma parse_num_sfx fmt args n fmt' args' : parse_num fmt args = Ok (n, fmt', args') -> sfx fmt' fmt.
Proof.
  unfold parse_num. destruct (deref fmt =? 42); intros H.
  - apply rbind_ok in H as ([w a] & _ & H). injection H as _ <- _. apply sfx_incr.
  - apply rbind_ok in H as ([w f] & H1 & H). injection H as _ <- _. by eapply parse_digits_sfx.
Qed.

Lemma parse_ls_sfx n fmt : sfx (parse_ls n fmt).2 fmt.
Proof.
  revert n; induction fmt as [|c fmt IH]; intros n; cbn [parse_ls]; [apply sfx_refl|].
  destruct (zchar c =? 108); auto with cg.
Qed.

Lemma parse_precision_sfx fmt args n fmt' args' :
  parse_precision fmt args = Ok (n, fmt', args') -> sfx fmt' fmt.
Proof.
  unfold parse_precision. destruct (deref fmt =? 46); intros H.
  - apply parse_num_sfx in H. eapply sfx_trans; [exact H|apply sfx_incr].
  - injection H as _ <- _. apply sfx_refl.
Qed.

(** What [parse_spec] consists of. *)
Lemma parse_spec_inv fmt args sp fmt' args' :
  parse_spec fmt args = Ok (sp, fmt', args') ->
  exists f1 f2 f3 a2,
    (sp_flags sp, f1) = parse_flags no_flags fmt /\
    parse_num f1 args = Ok (sp_width sp, f2, a2) /\
    parse_precision f2 a2 = Ok (sp_precision sp, f3, args') /\ sfx fmt' f3.
Proof.
  unfold parse_spec. intros H. destruct (parse_flags no_flags fmt) as [fl f1].
  apply rbind_ok in H as ([[w f2] a2] & H2 & H). apply rbind_ok in H as ([[p f3] a3] & H3 & H).
  exists f1, f2, f3, a2. destruct (deref f3 =? 122).
  - injection H as <- <- <-. cbn. by split_and!; [..|apply sfx_incr].
  - pose proof (parse_ls_sfx 0 f3) as Hl. destruct (parse_ls 0 f3). injection H as <- <- <-.
    cbn in *. by split_and!.
Qed.

Lemma parse_spec_sfx fmt args sp fmt' args' :
  parse_spec fmt args = Ok (sp, fmt', args') -> sfx fmt' fmt.
Proof.
  intros (f1 & f2 & f3 & a2 & H1 & H2 & H3 & H4)%parse_spec_inv.
  pose proof (parse_flags_sfx no_flags fmt) as Hf. rewrite <- H1 in Hf. cbn in Hf.
  apply parse_num_sfx in H2. apply parse_precision_sfx in H3. eauto using sfx_trans.
Qed.

Lemma convert_sfx xml sp c fmt args s n fmt' args' :
  convert xml sp c fmt args = Ok (s, n, fmt', args') -> sfx fmt' fmt.
Proof.
  unfold convert, counted. intros H. pose proof (sfx_incr fmt) as Hi. pose proof (sfx_refl fmt) as Hr.
  repeat match type of H with (if ?b then _ else _) = _ => destruct b end;
    repeat (let x := fresh "x" in let Hx := fresh "Hx" in apply rbind_ok in H as (x & Hx & H);
            repeat match goal with y : (_ * _)%type |- _ => destruct y end);
    repeat match type of H with (if ?b then _ else _) = _ => destruct b end;
    by inversion H; subst.
Qed.

(** ** The loop terminates *)

(** No step of the parser or of a conversion reports that fuel ran out. *)
Definition not_fuel {A} (m : res A) : Prop := m <> Err OutOfFuel.

Lemma not_fuel_bind {A B} (m : res A) (f : A -> res B) :
  not_fuel m -> (forall a, m = Ok a -> not_fuel (f a)) -> not_fuel (rbind m f).
Proof. unfold not_fuel. intros Hm Hf. destruct m; cbn; [by apply Hf|congruence]. Qed.

Lemma not_fuel_signed w x : not_fuel (signed_result w x).
Proof. unfold not_fuel, signed_result. by destruct (in_sb w x). Qed.

Lemma parse_digits_not_fuel n fmt : not_fuel (parse_digits n fmt).
Proof.
  revert n; induction fmt as [|c fmt IH]; intros n; cbn [parse_digits]; [done|].
  destruct (is_dec_digit (zchar c)); [|done].
  repeat (apply not_fuel_bind; [apply not_fuel_signed|intros ? _]). apply IH.
Qed.

Lemma parse_num_not_fuel fmt args : not_fuel (parse_num fmt args).
Proof.
  unfold parse_num. destruct (deref fmt =? 42); apply not_fuel_bind;
    [by destruct args as [|[] ?]|by intros [] _|apply parse_digits_not_fuel|by intros [] _].
Qed.

Lemma parse_spec_not_fuel fmt args : not_fuel (parse_spec fmt args).
Proof.
  unfold parse_spec. destruct (parse_flags no_flags fmt) as [fl f1].
  apply not_fuel_bind; [apply parse_num_not_fuel|]. intros [[w f2] a2] _.
  apply not_fuel_bind.
  - unfold parse_precision. destruct (deref f2 =? 46); [apply parse_num_not_fuel|done].
  - intros [[p f3] a3] _. destruct (deref f3 =? 122); [done|]. by destruct (parse_ls 0 f3).
Qed.

Lemma convert_not_fuel xml sp c fmt args : not_fuel (convert xml sp c fmt args).
Proof.
  assert (forall args, not_fuel (va_unsigned sp args)) as Hu.
  { intros a. unfold va_unsigned. destruct (_ || _); destruct a as [|[] ?]; done. }
  assert (forall a, not_fuel (va_int a) /\ not_fuel (va_long a) /\ not_fuel (va_str a) /\
    not_fuel (va_dbl a)) as Ha by (intros [|[| |[]|] ?]; done).
  unfold convert.
  repeat match goal with |- not_fuel (if ?b then _ else _) => destruct b end; try done;
    (apply not_fuel_bind; [try apply Hu; try apply Ha|]); try done.
  all: try (by intros [] _; repeat match goal with |- context [if ?b then _ else _] => destruct b end).
  - destruct (sp_long sp); (apply not_fuel_bind; [apply Ha|by intros [] _]).
  - intros [[neg v] a] _. apply not_fuel_bind; [|by intros].
    unfold myvprintf_double. destruct (double_gtb v (2 ^ 64, 1)); [done|].
    assert (forall d, not_fuel (ulong_of_double d)) as Hd
      by (intros d; unfold not_fuel, ulong_of_double; by destruct (_ <? _)).
    repeat (apply not_fuel_bind; [apply Hd|intros ? _]). done.
Qed.

Lemma vprintf_loop_not_fuel xml fuel fmt args out ret :
  (String.length fmt < fuel)%nat -> not_fuel (vprintf_loop xml fuel fmt args out ret).
Proof.
  revert fmt args out ret. induction fuel as [|fuel IH]; intros fmt args out ret Hl; [lia|].
  cbn [vprintf_loop]. destruct fmt as [|c fmt]; [done|]. cbn [String.length] in Hl.
  pose proof (sfx_length _ _ (sfx_incr fmt)) as Hi.
  destruct (negb (zchar c =? 37)); [apply IH; lia|]. destruct (deref fmt =? 0); [done|].
  destruct (deref fmt =? 37); [apply IH; lia|].
  apply not_fuel_bind; [apply parse_spec_not_fuel|]. intros [[sp f2] a2] Hp.
  apply parse_spec_sfx, sfx_length in Hp. destruct f2 as [|c2 f3]; [done|]. cbn [String.length] in Hp.
  apply not_fuel_bind; [apply convert_not_fuel|]. intros [[[s n] f4] a4] Hc.
  apply convert_sfx, sfx_length in Hc. apply IH. lia.
Qed.

(** The amount of fuel does not matter once it exceeds the format. *)
Lemma vprintf_loop_fuel xml fuel fuel' fmt args out ret :
  (String.length fmt < fuel)%nat -> (String.length fmt < fuel')%nat ->
  vprintf_loop xml fuel fmt args out ret = vprintf_loop xml fuel' fmt args out ret.
Proof.
  revert fuel' fmt args out ret. induction fuel as [|fuel IH]; intros fuel' fmt args out ret H H';
    [lia|]. destruct fuel' as [|fuel']; [lia|]. cbn [vprintf_loop].
  destruct fmt as [|c fmt]; [done|]. cbn [String.length] in H, H'.
  pose proof (sfx_length _ _ (sfx_incr fmt)) as Hi.
  destruct (negb (zchar c =? 37)); [apply IH; lia|]. destruct (deref fmt =? 0); [done|].
  destruct (deref fmt =? 37); [apply IH; lia|].
  destruct (parse_spec fmt args) as [[[sp f2] a2]|] eqn:Hp; cbn [rbind]; [|done].
  apply parse_spec_sfx, sfx_length in Hp. destruct f2 as [|c2 f3]; [done|]. cbn [String.length] in Hp.
  destruct (convert xml sp (zchar c2) f3 a2) as [[[[s n] f4] a4]|] eqn:Hc; cbn [rbind]; [|done].
  apply convert_sfx, sfx_length in Hc. apply IH; lia.
Qed.

(** ** The count returned *)

Lemma str_len_map f s : str_len (str_map f s) = str_len s.
Proof. unfold str_len. induction s; cbn; lia. Qed.

Lemma str_len_list l : str_len (string_of_list_ascii l) = Z.of_nat (length l).
Proof. unfold str_len. induction l; cbn; lia. Qed.

Lemma str_len_send n c : str_len (send_n n c) = Z.max 0 n.
Proof. unfold send_n. rewrite str_len_list, length_replicate. lia. Qed.

Lemma str_len_take n s : Z.of_nat n <= str_len s -> str_len (str_take n s) = Z.of_nat n.
Proof.
  unfold str_len. revert s; induction n as [|n IH]; intros [|c s] H; cbn in *; try lia.
  specialize (IH s). lia.
Qed.

Lemma myvprintf_str_count flags width s cap :
  0 <= width -> (myvprintf_str flags width s cap).2 = u32 (str_len (myvprintf_str flags width s cap).1).
Proof.
  intros Hw. unfold myvprintf_str. rewrite Z.gtb_ltb.
  destruct (width =? 0); cbn [fst snd]; [by rewrite str_len_map|].
  destruct (Z.ltb_spec width (str_len s)); cbn [fst snd].
  - rewrite str_len_map, str_len_take by lia. f_equal. lia.
  - destruct (negb (VG_MSG_LJUSTIFY flags)); cbn [fst snd];
      rewrite str_len_app, str_len_map, str_len_send; f_equal; lia.
Qed.

Lemma myvprintf_double_count flags width precision neg v s n :
  0 <= width -> myvprintf_double flags width precision neg v = Ok (s, n) -> n = u32 (str_len s).
Proof.
  intros Hw H. unfold myvprintf_double in H. destruct (double_gtb v (2 ^ 64, 1)).
  - injection H as <- <-. rewrite str_len_send. f_equal. destruct (width =? 0); lia.
  - apply rbind_ok in H as (ip & _ & H). apply rbind_ok in H as (fr & _ & H).
    injection H as <- <-.
    match goal with |- _ = u32 (str_len (if _ then (?b ++ send_n ?f _)%string else _)) =>
      assert (0 <= f) as Hf by (match goal with |- context [Z.ltb ?x ?y] => destruct (Z.ltb_spec x y); lia end);
      revert Hf; generalize b as body, f as fill
    end.
    intros body fill Hf. f_equal.
    destruct (VG_MSG_LJUSTIFY flags); rewrite str_len_app, str_len_send; lia.
Qed.

Lemma convert_count xml sp c fmt args s n fmt' args' :
  0 <= sp_width sp -> VG_MSG_ALTFORMAT (sp_flags sp) = false ->
  convert xml sp c fmt args = Ok (s, n, fmt', args') -> n = u32 (str_len s).
Proof.
  intros Hw Ha H. unfold convert, counted in H. rewrite Ha in H.
  repeat match type of H with (if ?b then _ else _) = _ => destruct b end;
    repeat (let x := fresh "x" in let Hx := fresh "Hx" in apply rbind_ok in H as (x & Hx & H);
            repeat match goal with y : (_ * _)%type |- _ => destruct y end);
    repeat match type of H with (if ?b then _ else _) = _ => destruct b end;
    try (by injection H as <- <- _ _).
  all: try match type of H with Ok (myvprintf_str ?f ?w ?s ?c, _, _) = _ =>
    pose proof (myvprintf_str_count f w s c Hw) as Hc end.
  all: try (injection H as H1 _ _; rewrite H1 in Hc; exact Hc).
  injection H as <- <- _ _. by eapply myvprintf_double_count.
Qed.

Lemma parse_flags_alt fl fmt :
  no_char 35 fmt -> VG_MSG_ALTFORMAT fl = false -> VG_MSG_ALTFORMAT (parse_flags fl fmt).1 = false.
Proof.
  revert fl; induction fmt as [|c fmt IH]; intros fl Hn Ha; cbn [parse_flags]; [done|].
  apply Forall_cons in Hn as [Hc Hn]. destruct (set_flag fl (zchar c)) as [fl'|] eqn:E; [|done].
  apply IH; [done|]. destruct fl. unfold set_flag in E. cbn in Ha.
  repeat case_match; simplify_eq; try done. by case_Z.
Qed.

Lemma parse_digits_nonneg n fmt n' fmt' : 0 <= n -> parse_digits n fmt = Ok (n', fmt') -> 0 <= n'.
Proof.
  revert n; induction fmt as [|c fmt IH]; intros n Hn H; cbn [parse_digits] in H; [by simplify_eq|].
  destruct (is_dec_digit (zchar c)) as [d|] eqn:Hd; [|by simplify_eq].
  apply is_dec_digit_range in Hd.
  apply rbind_ok in H as (m & Hm & H). apply rbind_ok in H as (m' & Hm' & H).
  apply signed_result_ok in Hm as [<- _], Hm' as [<- _]. apply IH in H; lia.
Qed.

(** Without [#] and [*] a specification has no alternate form and its width is
    not negative. *)
Lemma parse_spec_plain fmt args sp fmt' args' :
  no_char 35 fmt -> no_char 42 fmt -> parse_spec fmt args = Ok (sp, fmt', args') ->
  0 <= sp_width sp /\ VG_MSG_ALTFORMAT (sp_flags sp) = false.
Proof.
  intros H35 H42 (f1 & f2 & f3 & a2 & H1 & H2 & _)%parse_spec_inv.
  pose proof (parse_flags_alt no_flags fmt H35 eq_refl) as Ha.
  pose proof (parse_flags_sfx no_flags fmt) as Hs. rewrite <- H1 in Ha, Hs. split; [|done].
  cbn [snd] in Hs. apply (sfx_no_char 42) in Hs; [|done]. unfold parse_num in H2.
  destruct (Z.eqb_spec (deref f1) 42) as [E|_].
  - destruct f1; cbn in E; [done|]. by apply Forall_cons in Hs as [Hs _].
  - apply rbind_ok in H2 as ([w f] & Hd & H2). injection H2 as <- _ _.
    eapply (parse_digits_nonneg 0); [lia|done].
Qed.

Lemma u32_plus a b : u32 (u32 a + u32 b) = u32 (a + b).
Proof. unfold wrapu. by rewrite <- Z.add_mod. Qed.

Lemma vprintf_loop_count xml fuel fmt args out ret out' ret' :
  no_char 35 fmt -> no_char 42 fmt -> ret = u32 (str_len out) ->
  vprintf_loop xml fuel fmt args out ret = Ok (out', ret') -> ret' = u32 (str_len out').
Proof.
  revert fmt args out ret. induction fuel as [|fuel IH]; intros fmt args out ret H35 H42 Hr H; [done|].
  cbn [vprintf_loop] in H. destruct fmt as [|c fmt]; [by simplify_eq|].
  pose proof H35 as [_ H35']%Forall_cons. pose proof H42 as [_ H42']%Forall_cons.
  fold (no_char 35 fmt) in H35'. fold (no_char 42 fmt) in H42'.
  assert (forall d, u32 (ret + 1) = u32 (str_len (out ++ String d EmptyString))) as H1.
  { intros d. rewrite Hr, str_len_app. by rewrite <- (u32_plus (str_len out)). }
  destruct (negb (zchar c =? 37)); [by eapply IH in H|]. destruct (deref fmt =? 0); [by simplify_eq|].
  destruct (deref fmt =? 37).
  { eapply IH in H; [done|eapply sfx_no_char; eauto using sfx_incr..|apply (H1 (chr 37))]. }
  apply rbind_ok in H as ([[sp f2] a2] & Hp & H). destruct f2 as [|c2 f3]; [done|].
  apply rbind_ok in H as ([[[s n] f4] a4] & Hc & H).
  destruct (parse_spec_plain _ _ _ _ _ H35' H42' Hp) as [Hw Ha].
  apply parse_spec_sfx in Hp. pose proof (convert_sfx _ _ _ _ _ _ _ _ _ Hc) as Hs.
  apply convert_count in Hc; [|done|done].
  assert (sfx f4 fmt) as Hs4 by (eapply sfx_trans; [|exact Hp]; by apply sfx_cons).
  eapply IH; [by eapply sfx_no_char|by eapply sfx_no_char| |exact H].
  rewrite Hr, Hc, str_len_app. apply u32_plus.
Qed.

Lemma str_map_id s : str_map (fun c => c) s = s.
Proof. induction s as [|c s IH]; cbn; [done|by rewrite IH]. Qed.

(** Run the interpreter on a fixed format with symbolic arguments. *)
Ltac run_vprintf :=
  lazy -[myvprintf_int64 wrapu wraps append str_len str_map Z.add fmt_u fmt_d];
  rewrite ?str_map_id, ?str_app_assoc; reflexivity.

(** The same for formats with field widths. *)
Ltac run_vprintf_w :=
  lazy -[myvprintf_int64 wrapu wraps append str_len str_map fmt_u fmt_d];
  rewrite ?str_map_id, ?str_app_assoc; reflexivity.

#[global] Arguments VG_debugLog_vprintf : simpl never.

(** ** Theorems *)


(** The returned count is the number of characters sent, for every format
    without [#] and [*], whatever conversions, flags, widths and precisions it
    has (both are UInt, so modulo 2^32). *)
Theorem vprintf_count (clo_xml : bool) (fmt : string) (args : list va) (out : string) (ret : Z) :
  no_char 35 fmt -> no_char 42 fmt ->
  VG_debugLog_vprintf clo_xml fmt args = Ok (out, ret) -> ret = u32 (str_len out).
Proof. intros H35 H42. by apply vprintf_loop_count. Qed.

Lemma vprintf_count_witness :
  VG_debugLog_vprintf false "%5d|%s" [VA_Int 42; VA_Str (Some "abc"%string)]
    = Ok ("   42|abc"%string, 9) /\ 9 = u32 (str_len "   42|abc").
Proof.
  split; [vm_compute; reflexivity|].
  apply (vprintf_count false "%5d|%s" [VA_Int 42; VA_Str (Some "abc"%string)]);
    [repeat constructor; discriminate|repeat constructor; discriminate|vm_compute; reflexivity].
Defined.

(** The octal alternate form miscounts: [%#o] sends one [0] but adds two
    to the count, so the result is one more than the characters sent, for
    every argument. *)
Theorem vprintf_octal_miscounts (clo_xml : bool) (x : Z) :
  exists s, VG_debugLog_vprintf clo_xml "%#o" [VA_Int x] = Ok (s, u32 (str_len s + 1)).
Proof.
  eexists. lazy -[myvprintf_int64 str_len wrapu append Z.add]. do 2 f_equal.
  rewrite !str_len_app, Z.add_0_l. unfold wrapu. rewrite Z.mod_mod by lia.
  f_equal. change (str_len "") with 0. change (str_len "0") with 1. lia.
Qed.

(** A format that ends inside a conversion specification is read past its
    end: after a [%] and any number of flags, digits and [l]s the terminator
    is treated as a conversion character and stepped over.  (The comment
    promises that a trailing [%] is ignored, which holds for the bare one.) *)
Theorem vprintf_truncated_overreads (clo_xml : bool) (n : nat) (args : list va) :
  VG_debugLog_vprintf clo_xml "%" args = Ok (EmptyString, 0) /\
  VG_debugLog_vprintf clo_xml (String (chr 37) (send_n (Z.of_nat (S n)) (chr 108))) args
    = Err OutOfBounds.
Proof.
  split; [done|]. unfold VG_debugLog_vprintf. set (fmt := send_n _ _).
  assert (deref fmt = 108) as Hd by (unfold fmt, send_n; by rewrite Nat2Z.id).
  assert (parse_flags no_flags fmt = (no_flags, fmt) /\ parse_digits 0 fmt = Ok (0, fmt))
    as [Hf Hp] by (unfold fmt, send_n; by rewrite Nat2Z.id).
  assert (forall m k, parse_ls k (string_of_list_ascii (replicate m (chr 108))) = ((m + k)%nat, EmptyString))
    as Hls.
  { intros m; induction m as [|m IH]; intros k; [done|]. cbn. rewrite IH. f_equal. lia. }
  cbn [vprintf_loop]. change (zchar (chr 37) =? 37) with true. cbn [negb]. rewrite Hd.
  change (108 =? 0) with false. change (108 =? 37) with false. cbv iota.
  unfold parse_spec, parse_num, parse_precision. rewrite Hf, Hd.
  change (108 =? 42) with false. cbv iota. rewrite Hp. cbn [rbind]. rewrite Hd.
  change (108 =? 46) with false. cbv iota. cbn [rbind]. rewrite Hd.
  change (108 =? 122) with false. cbv iota. unfold fmt, send_n. rewrite Hls. done.
Qed.
