(* ===== verification/Libcprint.v ===== *)
(** * Libcprint: printing to strings and files (coregrind/m_libcprint.c)

    [VG_(sprintf)], [VG_(snprintf)], and the buffered [VgFile] the profiler
    writes its output through.  Each is a different [send] callback of the
    format interpreter; here the callback is folded over the characters the
    interpreter sends. *)

From Stdlib Require Import ZArith Lia Ascii String.
From stdpp Require Import base numbers strings list.
From S2P Require Import Prelude Libcbase Debuglog Vprintf.

#[local] Open Scope Z_scope.

(** The newline, as a string. *)
Definition nl : string := String (chr 10) EmptyString.

(** The callbacks in the order of the characters. *)
Fixpoint feed {S : Type} (add : ascii -> S -> S) (s : string) (st : S) : S :=
  match s with
  | EmptyString => st
  | String c s' => feed add s' (add c st)
  end.

(** ** sprintf *)

(** [VG_(strlen)]: the bytes before the terminator. *)
Fixpoint VG_strlen (s : string) : Z :=
  match s with
  | EmptyString => 0
  | String c s' => if zchar c =? 0 then 0 else 1 + VG_strlen s'
  end.

Definition add_to__sprintf_buf (c : ascii) (b : string) : string :=
  (b ++ String c EmptyString)%string.

(** [VG_(vsprintf)]: the contents of the buffer and the count; the count, an
    Int, is sign-extended for the comparison. *)
Definition VG_vsprintf (clo_xml : bool) (fmt : string) (args : list va) : res (string * Z) :=
  let! (out, ret) := VG_debugLog_vprintf clo_xml fmt args in
  let buf := feed add_to__sprintf_buf out EmptyString in
  let! _ := tl_assert (VG_strlen buf =? s32 ret) "VG_(strlen)(buf) == ret" in
  Ok (buf, ret).

(** ** snprintf *)

(** The buffer: its characters, its size, and how much of it is used.  The
    characters are those before the terminator. *)
Record snprintf_buf_t : Type := MkSnBuf {
  sn_buf : string;
  sn_size : Z;
  sn_used : Z
}.

(** The last byte is given up to the terminator once the buffer is full. *)
Definition add_to__snprintf_buf (c : ascii) (b : snprintf_buf_t) : snprintf_buf_t :=
  if (0 <? sn_size b) && (sn_used b <? sn_size b) then
    let used := sn_used b + 1 in
    if used <? sn_size b then MkSnBuf (sn_buf b ++ String c EmptyString) (sn_size b) used
    else MkSnBuf (sn_buf b) (sn_size b) used
  else b.

Definition VG_vsnprintf (clo_xml : bool) (size : Z) (fmt : string) (args : list va)
  : res (string * Z) :=
  let! (out, _) := VG_debugLog_vprintf clo_xml fmt args in
  let b := feed add_to__snprintf_buf out
             (MkSnBuf EmptyString (if size <? 0 then 0 else size) 0) in
  Ok (sn_buf b, sn_used b).

(** ** Files *)

Definition VGFILE_BUFSIZE : Z := 8192.

(** A [VgFile]: the characters buffered, and what has been passed to
    [VG_(write)] so far. *)
Record VgFile : Type := MkVgFile {
  vf_buf : string;
  vf_written : string
}.

(** [VG_(fopen)] of a file that can be created. *)
Definition VG_fopen : VgFile := MkVgFile EmptyString EmptyString.

Definition add_to__vgfile (c : ascii) (fp : VgFile) : VgFile :=
  let buf := (vf_buf fp ++ String c EmptyString)%string in
  if str_len buf =? VGFILE_BUFSIZE then MkVgFile EmptyString (vf_written fp ++ buf)
  else MkVgFile buf (vf_written fp).

Definition VG_fprintf (clo_xml : bool) (fp : VgFile) (fmt : string) (args : list va) : res VgFile :=
  let! (out, _) := VG_debugLog_vprintf clo_xml fmt args in
  Ok (feed add_to__vgfile out fp).

(** [VG_(fclose)]: what the file holds in the end. *)
Definition VG_fclose (fp : VgFile) : string :=
  if negb (str_len (vf_buf fp) =? 0) then (vf_written fp ++ vf_buf fp)%string else vf_written fp.

(** ** Lemmas *)

Lemma str_app_nil_r (s : string) : (s ++ "")%string = s.
Proof.
  induction s as [|c s IH]; [done|].
  change (String c s ++ "")%string with (String c (s ++ "")). by rewrite IH.
Qed.

Lemma str_app_cons c (s1 s2 : string) : (String c s1 ++ s2)%string = String c (s1 ++ s2).
Proof. done. Qed.

Lemma feed_app {S} (add : ascii -> S -> S) s1 s2 st :
  feed add (s1 ++ s2) st = feed add s2 (feed add s1 st).
Proof. revert st; induction s1 as [|c s1 IH]; intros st; [done|]. apply IH. Qed.

Lemma feed_sprintf s b : feed add_to__sprintf_buf s b = (b ++ s)%string.
Proof.
  revert b; induction s as [|c s IH]; intros b; cbn [feed]; [by rewrite str_app_nil_r|].
  rewrite IH. unfold add_to__sprintf_buf. by rewrite str_app_assoc.
Qed.

Lemma VG_strlen_no_nul s : no_char 0 s -> VG_strlen s = str_len s.
Proof.
  unfold str_len. induction s as [|c s IH]; intros H; [done|]. apply Forall_cons in H as [Hc H].
  cbn [VG_strlen String.length]. rewrite (proj2 (Z.eqb_neq _ _) Hc), IH by done. lia.
Qed.

(** What a file holds, buffered or written. *)
Definition vf_contents (fp : VgFile) : string := (vf_written fp ++ vf_buf fp)%string.

Lemma add_to__vgfile_contents c fp :
  vf_contents (add_to__vgfile c fp) = (vf_contents fp ++ String c EmptyString)%string.
Proof.
  unfold vf_contents, add_to__vgfile. destruct (_ =? _); cbn [vf_written vf_buf];
    by rewrite ?str_app_nil_r, ?str_app_assoc.
Qed.

Lemma feed_vgfile_contents s fp : vf_contents (feed add_to__vgfile s fp) = (vf_contents fp ++ s)%string.
Proof.
  revert fp; induction s as [|c s IH]; intros fp; cbn [feed]; [by rewrite str_app_nil_r|].
  rewrite IH, add_to__vgfile_contents. by rewrite str_app_assoc.
Qed.

Lemma VG_fclose_contents fp : VG_fclose fp = vf_contents fp.
Proof.
  unfold VG_fclose, vf_contents. destruct (Z.eqb_spec (str_len (vf_buf fp)) 0) as [E|_]; [|done].
  cbn [negb]. destruct (vf_buf fp); [by rewrite str_app_nil_r|]. unfold str_len in E. cbn in E. lia.
Qed.

(** The buffer is never full between calls: there is room for the next
    character. *)
Definition vf_room (fp : VgFile) : Prop := str_len (vf_buf fp) < VGFILE_BUFSIZE.

Lemma add_to__vgfile_room c fp : vf_room fp -> vf_room (add_to__vgfile c fp).
Proof.
  unfold vf_room, add_to__vgfile, VGFILE_BUFSIZE. intros H.
  pose proof (str_len_app (vf_buf fp) (String c EmptyString)) as Hl.
  change (str_len (String c EmptyString)) with 1 in Hl.
  destruct (Z.eqb_spec (str_len (vf_buf fp ++ String c EmptyString)) 8192);
    cbn [vf_buf]; [unfold str_len; cbn; lia|lia].
Qed.

Lemma feed_vgfile_room s fp : vf_room fp -> vf_room (feed add_to__vgfile s fp).
Proof. revert fp; induction s; intros fp H; cbn [feed]; auto using add_to__vgfile_room. Qed.

(** The snprintf buffer after [s], on a buffer of [size] bytes. *)
Lemma feed_snprintf size s pre :
  0 < size -> str_len pre < size ->
  feed add_to__snprintf_buf s (MkSnBuf pre size (str_len pre)) =
  if str_len (pre ++ s) <? size then MkSnBuf (pre ++ s) size (str_len (pre ++ s))
  else MkSnBuf (str_take (Z.to_nat (size - 1)) (pre ++ s)) size size.
Proof.
  intros Hs. assert (forall s b, sn_used b = sn_size b -> feed add_to__snprintf_buf s b = b) as Hfull.
  { intros s0; induction s0 as [|c s0 IH]; intros b Hb; [done|]. cbn [feed].
    unfold add_to__snprintf_buf at 2. rewrite Hb, Z.ltb_irrefl, andb_false_r. by apply IH. }
  assert (forall p q, str_take (String.length p) (p ++ q) = p) as Htake.
  { intros p q. induction p as [|c p IH]; [by destruct q|]. rewrite str_app_cons.
    cbn [str_take String.length]. by rewrite IH. }
  revert pre. induction s as [|c s IH]; intros pre Hp; cbn [feed].
  { rewrite str_app_nil_r. by rewrite (proj2 (Z.ltb_lt _ _) Hp). }
  pose proof (str_len_app pre (String c EmptyString)) as Hl.
  change (str_len (String c EmptyString)) with 1 in Hl.
  unfold add_to__snprintf_buf at 2. cbn [sn_size sn_used sn_buf].
  rewrite (proj2 (Z.ltb_lt _ _) Hs), (proj2 (Z.ltb_lt _ _) Hp). cbn [andb].
  assert (pre ++ String c s = (pre ++ String c EmptyString) ++ s)%string as Happ
    by (by rewrite str_app_assoc).
  destruct (Z.ltb_spec (str_len pre + 1) size).
  - rewrite <- Hl, Happ. apply IH. lia.
  - rewrite Hfull by (cbn; lia). rewrite Happ, !str_len_app.
    change (str_len (String c EmptyString)) with 1.
    assert (0 <= str_len s) by (unfold str_len; lia).
    rewrite (proj2 (Z.ltb_ge _ _)) by lia. f_equal; [|lia].
    rewrite str_app_assoc. replace (Z.to_nat (size - 1)) with (String.length pre)
      by (unfold str_len in *; lia).
    by rewrite Htake.
Qed.

(** The assertion on the count holds. *)
Lemma vsprintf_ok clo_xml fmt args out ret :
  no_char 35 fmt -> no_char 42 fmt ->
  VG_debugLog_vprintf clo_xml fmt args = Ok (out, ret) ->
  no_char 0 out -> str_len out < 2 ^ 31 ->
  VG_vsprintf clo_xml fmt args = Ok (out, str_len out).
Proof.
  intros H35 H42 H H0 Hlen. pose proof (vprintf_loop_count _ _ _ _ _ _ _ _ H35 H42 eq_refl H) as Hr.
  assert (0 <= str_len out) by (unfold str_len; lia).
  rewrite (wrapu_small 32) in Hr by (unfold in_u; lia).
  unfold VG_vsprintf. rewrite H. cbn [rbind]. rewrite feed_sprintf.
  change ("" ++ out)%string with out. rewrite VG_strlen_no_nul by done.
  rewrite Hr, wraps_small by (unfold in_s; lia). by rewrite Z.eqb_refl.
Qed.

(** ** Theorems *)

(** [VG_(vsprintf)] succeeds whenever the format interpreter does, for
    formats without [#] and [*] and output without terminators that fits an
    Int: its assertion on the count cannot fail, and the buffer holds exactly
    what was sent. *)
Theorem vsprintf_correct (clo_xml : bool) (fmt : string) (args : list va) (out : string) (ret : Z) :
  no_char 35 fmt -> no_char 42 fmt ->
  VG_debugLog_vprintf clo_xml fmt args = Ok (out, ret) ->
  no_char 0 out -> str_len out < 2 ^ 31 ->
  VG_vsprintf clo_xml fmt args = Ok (out, str_len out).
Proof. apply vsprintf_ok. Qed.

Lemma vsprintf_correct_witness :
  VG_vsprintf false "%d B, %d B, direct-mapped" [VA_Int 65536; VA_Int 64]
  = Ok ("65536 B, 64 B, direct-mapped"%string, str_len "65536 B, 64 B, direct-mapped").
Proof.
  apply (vsprintf_correct false "%d B, %d B, direct-mapped" [VA_Int 65536; VA_Int 64] _ 28);
    [repeat constructor; discriminate|repeat constructor; discriminate|vm_compute; reflexivity
    |repeat constructor; discriminate|reflexivity].
Defined.

(** [VG_(vsnprintf)] keeps the contract of its comment, on a buffer of
    [size > 0] bytes: if the output with its terminator fits, the buffer holds
    it and the result is its length, below [size]; otherwise the buffer holds
    its first [size - 1] characters and the result is [size]. *)
Theorem vsnprintf_contract (clo_xml : bool) (size : Z) (fmt : string) (args : list va)
    (out : string) (ret : Z) :
  0 < size -> VG_debugLog_vprintf clo_xml fmt args = Ok (out, ret) ->
  VG_vsnprintf clo_xml size fmt args =
    Ok (if str_len out <? size then (out, str_len out)
        else (str_take (Z.to_nat (size - 1)) out, size)).
Proof.
  intros Hs H. unfold VG_vsnprintf. rewrite H. cbn [rbind].
  rewrite (proj2 (Z.ltb_ge size 0)) by lia.
  pose proof (feed_snprintf size out EmptyString Hs) as Hf. change (str_len "") with 0 in Hf.
  rewrite Hf by lia. change ("" ++ out)%string with out. by destruct (str_len out <? size).
Qed.

Lemma vsnprintf_contract_witness :
  VG_vsnprintf false 4 "%d" [VA_Int 123456] = Ok ("123"%string, 4).
Proof.
  rewrite (vsnprintf_contract false 4 "%d" [VA_Int 123456] "123456" 6);
    [reflexivity|lia|vm_compute; reflexivity].
Defined.

(** A buffered file loses, repeats and reorders nothing: after any
    sequence of successful [VG_(fprintf)] calls on a fresh [VgFile] and a
    [VG_(fclose)], the file holds the concatenation of what the calls sent,
    and the 8192-byte buffer always has room for the next character. *)
Theorem vgfile_contents (clo_xml : bool) (calls : list (string * list va)) (fp : VgFile) :
  res_fold (fun c fp => VG_fprintf clo_xml fp c.1 c.2) calls VG_fopen = Ok fp ->
  vf_room fp /\
  exists outs, Forall2 (fun c out => exists ret, VG_debugLog_vprintf clo_xml c.1 c.2 = Ok (out, ret))
                 calls outs /\
    VG_fclose fp = fold_right append EmptyString outs.
Proof.
  assert (vf_room VG_fopen) as Hroom by done.
  rewrite VG_fclose_contents.
  assert (forall fp0, vf_room fp0 ->
    res_fold (fun c fp => VG_fprintf clo_xml fp c.1 c.2) calls fp0 = Ok fp ->
    vf_room fp /\ exists outs, Forall2 (fun c out => exists ret,
      VG_debugLog_vprintf clo_xml c.1 c.2 = Ok (out, ret)) calls outs /\
      vf_contents fp = (vf_contents fp0 ++ fold_right append EmptyString outs)%string) as Hgen.
  { clear Hroom. induction calls as [|[fmt args] calls IH]; intros fp0 Hr H.
    { injection H as <-. split; [done|]. exists []. split; [done|]. by rewrite str_app_nil_r. }
    cbn [res_fold] in H. apply rbind_ok in H as (fp1 & H1 & H). unfold VG_fprintf in H1.
    apply rbind_ok in H1 as ([out ret] & Hv & [= <-]).
    destruct (IH _ (feed_vgfile_room out fp0 Hr) H) as (Hr' & outs & Ho & Hc).
    split; [done|]. exists (out :: outs). split; [constructor; eauto|].
    rewrite Hc, feed_vgfile_contents. cbn [fold_right]. by rewrite str_app_assoc. }
  intros H. exact (Hgen VG_fopen Hroom H).
Qed.

Lemma vgfile_contents_witness :
  exists fp, res_fold (fun c fp => VG_fprintf false fp c.1 c.2)
    [("fl=%s"%string, [VA_Str (Some "main.c"%string)]); ("%d"%string, [VA_Int 7])] VG_fopen = Ok fp /\
  vf_room fp /\ VG_fclose fp = "fl=main.c7"%string.
Proof.
  eexists. split; [vm_compute; reflexivity|]. split.
  - eapply (vgfile_contents false [("fl=%s"%string, [VA_Str (Some "main.c"%string)]);
      ("%d"%string, [VA_Int 7])]). vm_compute. reflexivity.
  - vm_compute. reflexivity.
Defined.
