(* ===== verification/Vmessage.v ===== *)
(** * Vmessage: the log (coregrind/m_libcprint.c, VG_(printf) and VG_(message))

    The two buffered routes from the format interpreter to the log.
    [VG_(printf)] copies; [VG_(vmessage)] keeps its buffer between calls and
    puts a preamble such as "==pid== " before the first character of every
    line.  Both assert bounds on their buffers, and say in comments why the
    assertions hold; the theorems below prove those reasons. *)

From Stdlib Require Import ZArith Lia Ascii String.
From stdpp Require Import base numbers strings list.
From S2P Require Import Prelude Libcbase Debuglog Vprintf Libcprint.

#[local] Open Scope Z_scope.

(** The callbacks in the order of the characters, each of which may stop. *)
Fixpoint res_feed {S : Type} (add : ascii -> S -> res S) (s : string) (st : S) : res S :=
  match s with
  | EmptyString => Ok st
  | String c s' => let! st := add c st in res_feed add s' st
  end.

(** ** printf *)

(** The buffer of 512 bytes, and what the sink (a descriptor that accepts
    writes) has received. *)
Record printf_buf_t : Type := MkPrintfBuf {
  pb_buf : string;
  pb_sent : string
}.

(** Bytes of the buffer, its terminator included. *)
Definition PRINTF_BUFSIZE : Z := 512.

Definition add_to__printf_buf (c : ascii) (b : printf_buf_t) : res printf_buf_t :=
  let b := if str_len (pb_buf b) >? PRINTF_BUFSIZE - 2
           then MkPrintfBuf EmptyString (pb_sent b ++ pb_buf b) else b in
  let buf := (pb_buf b ++ String c EmptyString)%string in
  let! _ := tl_assert (str_len buf <? PRINTF_BUFSIZE) "b->buf_used < sizeof(b->buf)" in
  Ok (MkPrintfBuf buf (pb_sent b)).

(** [vprintf_WRK]: what the sink receives, and the count. *)
Definition vprintf_WRK (clo_xml : bool) (fmt : string) (args : list va) : res (string * Z) :=
  let! (out, ret) := VG_debugLog_vprintf clo_xml fmt args in
  let! b := res_feed add_to__printf_buf out (MkPrintfBuf EmptyString EmptyString) in
  let sent := if 0 <? str_len (pb_buf b) then (pb_sent b ++ pb_buf b)%string else pb_sent b in
  Ok (sent, ret).

(** ** The elapsed time *)

(** [VG_(elapsed_wallclock_time)], for a reading [t] of the timer, into a
    buffer of [bufsize] bytes. *)
Definition VG_elapsed_wallclock_time (clo_xml : bool) (bufsize t : Z) : res string :=
  let! _ := tl_assert (20 <? bufsize) "bufsize > 20" in
  let ms := t mod 1000 in
  let t := t / 1000 in
  let s := t mod 60 in
  let t := t / 60 in
  let mins := t mod 60 in
  let t := t / 60 in
  let hours := t mod 24 in
  let t := t / 24 in
  let days := t in
  let! (buf, _) := VG_vsprintf clo_xml "%02u:%02u:%02u:%02u.%03u "
    [VA_Int days; VA_Int hours; VA_Int mins; VA_Int s; VA_Int ms] in
  Ok buf.

(** ** message *)

Inductive VgMsgKind : Type := Vg_FailMsg | Vg_UserMsg | Vg_DebugMsg | Vg_ClientMsg.

#[export] Instance VgMsgKind_eq_dec : EqDecision VgMsgKind.
Proof. solve_decision. Defined.

(** [vmessage_buf_t]; [vm_sent] is what the log has received and [vm_reads]
    how often the timer has been read. *)
Record vmessage_buf_t : Type := MkVM {
  vm_buf : string;
  vm_atLeft : bool;
  vm_kind : VgMsgKind;
  vm_sent : string;
  vm_reads : nat
}.

Definition vmessage_buf : vmessage_buf_t := MkVM EmptyString true Vg_UserMsg EmptyString 0.

(** [sizeof(b->buf)] and [sizeof tmp]. *)
Definition VM_BUFSIZE : Z := 512 + 128.
Definition TMP_SIZE : Z := 64.

Section message.
Context (clo_xml : bool).

(** The depth of self-hosting, the simulation hint, the option, the process id
    and the successive readings of the millisecond timer. *)
Context (depth : Z) (no_inner_prefix clo_time_stamp : bool) (pid : Z) (timer : nat -> Z).

Definition kind_char (k : VgMsgKind) : ascii :=
  match k with
  | Vg_UserMsg => chr 61
  | Vg_DebugMsg => chr 45
  | Vg_ClientMsg => chr 42
  | Vg_FailMsg => chr 63
  end.

(** The marks of self-hosting. *)
Definition inner_marks : string :=
  if (0 <? depth) && negb no_inner_prefix
  then send_n (if depth >? 10 then 10 else depth) (chr 62) else EmptyString.

(** The preamble put in before the first character of a line. *)
Definition preamble (k : VgMsgKind) (reads : nat) : res (string * nat) :=
  match k with
  | Vg_FailMsg => Ok ((inner_marks ++ "valgrind: ")%string, reads)
  | _ =>
      let ch := kind_char k in
      let! (stamp, reads) :=
        (if clo_time_stamp then
           let! tmp := VG_elapsed_wallclock_time clo_xml TMP_SIZE (timer reads) in
           Ok (tmp, S reads)
         else Ok (EmptyString, reads)) in
      let! (tmp, _) := VG_vsprintf clo_xml "%d" [VA_Int pid] in
      Ok ((inner_marks ++ String ch (String ch EmptyString) ++ stamp ++ tmp ++
           String ch (String ch (String (chr 32) EmptyString)))%string, reads)
  end.

Definition add_to__vmessage_buf (c : ascii) (b : vmessage_buf_t) : res vmessage_buf_t :=
  let! _ := tl_assert (str_len (vm_buf b) <? VM_BUFSIZE - 128)
              "b->buf_used >= 0 && b->buf_used < sizeof(b->buf)-128" in
  let! (buf, reads) :=
    (if vm_atLeft b then
       let! (pre, reads) := preamble (vm_kind b) (vm_reads b) in
       let buf := (vm_buf b ++ pre)%string in
       let! _ := tl_assert (str_len buf <? VM_BUFSIZE - 32) "b->buf_used < sizeof(b->buf)-32" in
       Ok (buf, reads)
     else Ok (vm_buf b, vm_reads b)) in
  let buf := (buf ++ String c EmptyString)%string in
  let atLeft := zchar c =? 10 in
  if str_len buf >=? VM_BUFSIZE - 128
  then Ok (MkVM EmptyString atLeft (vm_kind b) (vm_sent b ++ buf) reads)
  else Ok (MkVM buf atLeft (vm_kind b) (vm_sent b) reads).

Definition send_buf (b : vmessage_buf_t) : vmessage_buf_t :=
  MkVM EmptyString (vm_atLeft b) (vm_kind b) (vm_sent b ++ vm_buf b) (vm_reads b).

Definition VG_vmessage (k : VgMsgKind) (fmt : string) (args : list va) (b : vmessage_buf_t)
  : res (vmessage_buf_t * Z) :=
  let b := MkVM (vm_buf b) (vm_atLeft b) k (vm_sent b) (vm_reads b) in
  let! (out, ret) := VG_debugLog_vprintf clo_xml fmt args in
  let! b := res_feed add_to__vmessage_buf out b in
  if vm_atLeft b && (0 <? str_len (vm_buf b)) then Ok (send_buf b, ret) else Ok (b, ret).

(** [VG_(umsg)], [VG_(dmsg)] and [VG_(fmsg)] fix the kind. *)
Definition VG_umsg (fmt : string) (args : list va) (b : vmessage_buf_t) : res vmessage_buf_t :=
  let! (b, _) := VG_vmessage Vg_UserMsg fmt args b in Ok b.
Definition VG_dmsg (fmt : string) (args : list va) (b : vmessage_buf_t) : res vmessage_buf_t :=
  let! (b, _) := VG_vmessage Vg_DebugMsg fmt args b in Ok b.
Definition VG_fmsg (fmt : string) (args : list va) (b : vmessage_buf_t) : res vmessage_buf_t :=
  let! (b, _) := VG_vmessage Vg_FailMsg fmt args b in Ok b.

(** [VG_(message_flush)]. *)
Definition VG_message_flush (b : vmessage_buf_t) : vmessage_buf_t := send_buf b.

End message.

Example umsg_example :
  vm_sent <$> (match VG_umsg false 0 false false 4242 (fun _ => 0)
                 (String.append "a %d" (nl ++ nl ++ "b" ++ nl)) [VA_Int 7] vmessage_buf with
               | Ok b => Some b | Err _ => None end)
  = Some ("==4242== a 7" ++ nl ++ "==4242== " ++ nl ++ "==4242== b" ++ nl)%string.
Proof. vm_compute. reflexivity. Qed.

(** ** Lengths of printed numbers *)

Lemma str_len_cons c s : str_len (String c s) = 1 + str_len s.
Proof. unfold str_len. cbn [String.length]. lia. Qed.

(** A number takes as many characters as its digits, or its field. *)
Lemma int64_len flags base width cap p :
  2 <= base <= 16 ->
  str_len (myvprintf_int64 flags base width cap p) =
  Z.max width (Z.of_nat (length (int64_digits flags base cap p))).
Proof.
  intros Hb. unfold myvprintf_int64. rewrite (proj2 (Z.ltb_ge base 2)) by lia.
  destruct (Z.gtb_spec base 16); [lia|]. cbn [orb]. set (ds := int64_digits flags base cap p).
  rewrite str_len_list.
  destruct (Z.ltb_spec 0 width), (VG_MSG_LJUSTIFY flags); cbn [andb negb];
    rewrite ?length_app, ?length_reverse, ?length_app, ?length_replicate; lia.
Qed.

Lemma no_char_app z s1 s2 : no_char z s1 -> no_char z s2 -> no_char z (s1 ++ s2).
Proof.
  unfold no_char. induction s1 as [|c s1 IH]; [done|].
  change (String c s1 ++ s2)%string with (String c (s1 ++ s2)). cbn [list_ascii_of_string].
  intros [H1 H2]%Forall_cons H. apply Forall_cons; auto.
Qed.

Lemma no_char_list z l : no_char z (string_of_list_ascii l) <-> Forall (fun c => zchar c <> z) l.
Proof. unfold no_char. by rewrite list_ascii_of_string_of_list_ascii. Qed.

(** A printed number has no terminator and no newline in it. *)
Definition number_char (c : ascii) : Prop := 32 <= zchar c.

Lemma int64_loop_chars fuel comma base cap p nc buf :
  2 <= base <= 16 -> 0 <= p -> Forall number_char buf ->
  Forall number_char (int64_loop fuel comma base cap p nc buf).
Proof.
  intros Hb. revert p nc buf; induction fuel as [|fuel IH]; intros p nc buf Hp Hbuf; [done|].
  unfold int64_loop; fold int64_loop. destruct (0 <? p); [|done].
  assert (number_char (digit_char cap (p mod base))) as Hd.
  { pose proof (Z.mod_pos_bound p base ltac:(lia)). unfold digit_char, number_char.
    destruct (Z.ltb_spec (p mod base) 10); [rewrite zchar_chr; lia|].
    destruct cap; rewrite zchar_chr; lia. }
  destruct (_ && _ && _ && _); apply IH; try (apply Z.div_pos; lia);
    rewrite !Forall_app; repeat split; auto; repeat constructor; try done.
Qed.

Lemma int64_chars flags base width cap p :
  2 <= base <= 16 -> in_u 64 p ->
  Forall number_char (list_ascii_of_string (myvprintf_int64 flags base width cap p)).
Proof.
  intros Hb Hp. unfold myvprintf_int64. rewrite (proj2 (Z.ltb_ge base 2)) by lia.
  destruct (Z.gtb_spec base 16); [lia|]. cbn [orb]. rewrite list_ascii_of_string_of_list_ascii.
  assert (forall n c, number_char c -> Forall number_char (replicate n c)) as Hr
    by (intros; by apply Forall_replicate).
  assert (Forall number_char (int64_digits flags base cap p)) as Hds.
  { unfold int64_digits. pose proof (wrapu_range 64 (- s64 p)) as Hw. unfold in_u in *.
    destruct (_ && _); [apply Forall_app; split; [|by repeat constructor]|];
      destruct (_ =? 0); try (by repeat constructor); apply int64_loop_chars; auto; lia. }
  destruct (_ && _); destruct (_ && _); rewrite ?Forall_app, ?Forall_reverse, ?Forall_app;
    split_and?; try apply Hr; try done; by destruct (VG_MSG_ZJUSTIFY flags).
Qed.

Lemma int64_no_char z flags base width cap p :
  z < 32 -> 2 <= base <= 16 -> in_u 64 p -> no_char z (myvprintf_int64 flags base width cap p).
Proof.
  intros Hz Hb Hp. eapply Forall_impl; [by apply (int64_chars flags base width cap p)|].
  unfold number_char. intros c Hc. lia.
Qed.

(** The number of digits of [p] in base 10, without commas and sign. *)
Lemma int64_digits_dec flags p k :
  VG_MSG_SIGNED flags = false -> VG_MSG_COMMA flags = false ->
  1 <= k -> 0 <= p < 10 ^ k -> Z.of_nat (length (int64_digits flags 10 false p)) <= k.
Proof.
  intros Hs Hc Hk Hp. unfold int64_digits. rewrite Hs. cbn [andb].
  destruct (Z.eqb_spec p 0); [cbn; lia|]. rewrite Hc.
  rewrite (int64_loop_length _ _ _ _ _ _ _ 0); [|lia|done|done]. cbn [andb].
  pose proof (digits_loop_bound int64_fuel 10 p 0 k). lia.
Qed.

(** [%0<w>u] of a number of at most [w] digits. *)
Lemma zjust_len w p :
  1 <= w -> 0 <= p < 10 ^ w -> str_len (myvprintf_int64 zjust_flags 10 w false p) = w.
Proof.
  intros Hw Hp. rewrite int64_len by lia. pose proof (int64_digits_dec zjust_flags p w eq_refl eq_refl).
  lia.
Qed.

Lemma digits_loop_pos fuel base n w : 0 < n -> w + 1 <= digits_loop (S fuel) base n w.
Proof.
  intros Hn. cbn [digits_loop]. rewrite (proj2 (Z.ltb_lt 0 n)) by lia.
  pose proof (digits_loop_le fuel base (n / base) (w + 1)). lia.
Qed.

Lemma fmt_d_len x : in_s 32 x -> 1 <= str_len (fmt_d x) <= 11.
Proof.
  intros Hx. unfold in_s in Hx. unfold fmt_d. rewrite int64_len by lia.
  assert (s64 (u64 x) = x) as Es.
  { unfold wraps, wrapu. rewrite Zplus_mod_idemp_l, Z.mod_small; lia. }
  unfold int64_digits. rewrite Es. cbn [VG_MSG_SIGNED signed_flags andb VG_MSG_COMMA].
  assert (forall q, 0 <= q < 10 ^ 10 ->
    1 <= Z.of_nat (length (if q =? 0 then [chr 48] else int64_loop int64_fuel false 10 false q 0 [])) <= 10)
    as Hq.
  { intros q Hq. destruct (Z.eqb_spec q 0); [cbn; lia|].
    rewrite (int64_loop_length _ _ _ _ _ _ _ 0); [|lia|done|done]. cbn [andb].
    pose proof (digits_loop_bound int64_fuel 10 q 0 10). split; [|lia].
    pose proof (digits_loop_pos 63 10 q 0). unfold int64_fuel. lia. }
  destruct (Z.ltb_spec x 0).
  - rewrite length_app. cbn [length]. rewrite (wrapu_small 64) by (unfold in_u; lia).
    specialize (Hq (- x) ltac:(lia)). lia.
  - rewrite wrapu_small by (unfold in_u; lia). specialize (Hq x ltac:(lia)). lia.
Qed.

(** ** What the printing routines compute *)

(** [VG_(printf)] hands everything to the sink; its assertion never fails. *)
Lemma printf_feed s b :
  str_len (pb_buf b) < PRINTF_BUFSIZE ->
  exists b', res_feed add_to__printf_buf s b = Ok b' /\ str_len (pb_buf b') < PRINTF_BUFSIZE /\
    (pb_sent b' ++ pb_buf b' = (pb_sent b ++ pb_buf b) ++ s)%string.
Proof.
  revert b; induction s as [|c s IH]; intros b Hb; cbn [res_feed].
  { exists b. by rewrite str_app_nil_r. }
  unfold add_to__printf_buf. set (b1 := if str_len (pb_buf b) >? _ then _ else b).
  assert (str_len (pb_buf b1) < PRINTF_BUFSIZE - 1 /\
          (pb_sent b1 ++ pb_buf b1 = pb_sent b ++ pb_buf b)%string) as [Hl Hc].
  { subst b1. unfold PRINTF_BUFSIZE in *. destruct (Z.gtb_spec (str_len (pb_buf b)) (512 - 2));
      cbn [pb_buf pb_sent]; rewrite ?str_app_nil_r; (split; [|done]); [done|lia]. }
  rewrite tl_assert_true; [cbn [rbind]|]; [|rewrite str_len_app, str_len_cons; change (str_len "") with 0;
    apply Z.ltb_lt; lia].
  destruct (IH (MkPrintfBuf (pb_buf b1 ++ String c EmptyString) (pb_sent b1))) as (b' & H1 & H2 & H3).
  { cbn. rewrite str_len_app, str_len_cons. change (str_len "") with 0. lia. }
  exists b'. split; [done|]. split; [done|]. rewrite H3. cbn [pb_sent pb_buf].
  rewrite <- Hc, !str_app_assoc. done.
Qed.

(** The time stamp, and its sixteen characters. *)
Definition stamp_text (t : Z) : string :=
  let z w x := myvprintf_int64 zjust_flags 10 w false x in
  (z 2 (t / 1000 / 60 / 60 / 24) ++ ":" ++ z 2 ((t / 1000 / 60 / 60) mod 24) ++ ":" ++
   z 2 ((t / 1000 / 60) mod 60) ++ ":" ++ z 2 ((t / 1000) mod 60) ++ "." ++ z 3 (t mod 1000) ++ " ")%string.

Lemma elapsed_ranges t : in_u 32 t ->
  0 <= t / 1000 / 60 / 60 / 24 < 50 /\ 0 <= (t / 1000 / 60 / 60) mod 24 < 24 /\
  0 <= (t / 1000 / 60) mod 60 < 60 /\ 0 <= (t / 1000) mod 60 < 60 /\ 0 <= t mod 1000 < 1000.
Proof.
  unfold in_u. intros Ht. rewrite !Z.div_div by lia.
  split; [|split_and!; apply Z.mod_pos_bound; lia].
  split; [apply Z.div_pos; lia|apply Z.div_lt_upper_bound; lia].
Qed.

Lemma stamp_len t : in_u 32 t -> str_len (stamp_text t) = 16.
Proof.
  intros (? & ? & ? & ? & ?)%elapsed_ranges. unfold stamp_text.
  repeat (rewrite str_len_app || rewrite zjust_len by lia). reflexivity.
Qed.

Lemma stamp_no_char z t : z < 32 -> in_u 32 t -> no_char z (stamp_text t).
Proof.
  intros Hz (? & ? & ? & ? & ?)%elapsed_ranges. unfold stamp_text.
  repeat match goal with |- no_char _ (append _ _) => apply no_char_app end;
    try (apply int64_no_char; unfold in_u; lia);
    (apply Forall_cons; split; [|constructor]; match goal with |- zchar ?c <> _ =>
       let v := eval vm_compute in (zchar c) in change (v <> z) end; lia).
Qed.

Lemma stamp_vprintf xml d h m s ms :
  let z w x := myvprintf_int64 zjust_flags 10 w false x in
  VG_debugLog_vprintf xml "%02u:%02u:%02u:%02u.%03u " [VA_Int d; VA_Int h; VA_Int m; VA_Int s; VA_Int ms]
  = (let text := (z 2 (u32 d) ++ ":" ++ z 2 (u32 h) ++ ":" ++ z 2 (u32 m) ++ ":" ++ z 2 (u32 s) ++
                  "." ++ z 3 (u32 ms) ++ " ")%string in
     Ok (text, u32 (str_len text))).
Proof.
  intros z. cbv zeta. set (text := (z 2 (u32 d) ++ _)%string).
  assert (exists n, VG_debugLog_vprintf xml "%02u:%02u:%02u:%02u.%03u "
    [VA_Int d; VA_Int h; VA_Int m; VA_Int s; VA_Int ms] = Ok (text, n)) as [n H]
    by (eexists; subst text z; run_vprintf_w).
  rewrite H. do 2 f_equal. by eapply vprintf_loop_count in H; [..|done];
    [|repeat constructor; discriminate|repeat constructor; discriminate].
Qed.

Lemma elapsed_ok xml bufsize t :
  20 < bufsize -> in_u 32 t -> VG_elapsed_wallclock_time xml bufsize t = Ok (stamp_text t).
Proof.
  intros Hb Ht. unfold VG_elapsed_wallclock_time.
  rewrite tl_assert_true by (by apply Z.ltb_lt). cbn [rbind].
  pose proof (elapsed_ranges t Ht) as (? & ? & ? & ? & ?).
  erewrite (vsprintf_ok xml _ _ (stamp_text t)); [done| | | | |].
  - repeat constructor; discriminate.
  - repeat constructor; discriminate.
  - rewrite stamp_vprintf, !wrapu_small by (unfold in_u; lia). reflexivity.
  - apply stamp_no_char; [lia|done].
  - rewrite stamp_len by done. lia.
Qed.

(** ** Messages *)

Section messages.
Context (xml : bool) (depth : Z) (no_inner_prefix clo_time_stamp : bool) (pid : Z) (timer : nat -> Z).
Context (Hpid : in_s 32 pid) (Htimer : forall n, in_u 32 (timer n)).

#[local] Notation add := (add_to__vmessage_buf xml depth no_inner_prefix clo_time_stamp pid timer).
#[local] Notation marks := (inner_marks depth no_inner_prefix).

(** The preamble of a line that starts after [reads] readings of the timer. *)
Definition preamble_text (k : VgMsgKind) (reads : nat) : string :=
  match k with
  | Vg_FailMsg => (marks ++ "valgrind: ")%string
  | _ =>
      let ch := kind_char k in
      (marks ++ String ch (String ch EmptyString) ++
       (if clo_time_stamp then stamp_text (timer reads) else EmptyString) ++ fmt_d pid ++
       String ch (String ch (String (chr 32) EmptyString)))%string
  end.

Definition next_reads (k : VgMsgKind) (reads : nat) : nat :=
  match k with Vg_FailMsg => reads | _ => if clo_time_stamp then S reads else reads end.

Lemma pid_ok : VG_vsprintf xml "%d" [VA_Int pid] = Ok (fmt_d pid, str_len (fmt_d pid)).
Proof.
  unfold in_s in Hpid. eapply vsprintf_ok.
  - repeat constructor; discriminate.
  - repeat constructor; discriminate.
  - rewrite <- (wraps_small 32 pid) at 2 by (unfold in_s; lia). run_vprintf.
  - apply int64_no_char; [lia|lia|]. apply wrapu_range. lia.
  - pose proof (fmt_d_len pid Hpid). lia.
Qed.

Lemma preamble_ok k reads :
  preamble xml depth no_inner_prefix clo_time_stamp pid timer k reads
  = Ok (preamble_text k reads, next_reads k reads).
Proof.
  unfold preamble. rewrite pid_ok, elapsed_ok by (done || apply Htimer).
  unfold preamble_text, next_reads. destruct k, clo_time_stamp; reflexivity.
Qed.

(** "We can't possibly have stuffed 96 chars in merely as a result of making
    the preamble (can we?)" *)
Lemma preamble_len k reads : str_len (preamble_text k reads) <= 42.
Proof.
  pose proof (fmt_d_len pid Hpid) as Hd. pose proof (stamp_len _ (Htimer reads)) as Hs.
  assert (0 <= str_len marks <= 10) as Hm.
  { unfold inner_marks. destruct ((0 <? depth) && _) eqn:E; [|split; reflexivity || done].
    rewrite str_len_send. destruct (Z.gtb_spec depth 10); [lia|].
    apply andb_prop in E as [E%Z.ltb_lt _]. lia. }
  unfold preamble_text. destruct k; [|destruct clo_time_stamp..];
    rewrite ?str_len_app, ?str_len_cons, ?Hs; change (str_len "") with 0;
    change (str_len "valgrind: ") with 10; lia.
Qed.

Lemma res_feed_app {S} (f : ascii -> S -> res S) s1 s2 st :
  res_feed f (s1 ++ s2) st = (let! st := res_feed f s1 st in res_feed f s2 st).
Proof.
  revert st; induction s1 as [|c s1 IH]; intros st; [done|].
  change (String c s1 ++ s2)%string with (String c (s1 ++ s2)). cbn [res_feed].
  destruct (f c st); cbn [rbind]; [apply IH|done].
Qed.

(** What the log has received or will receive. *)
Definition vm_contents (b : vmessage_buf_t) : string := (vm_sent b ++ vm_buf b)%string.

(** Between characters there are at least 128 bytes free. *)
Definition vm_room (b : vmessage_buf_t) : Prop := str_len (vm_buf b) < VM_BUFSIZE - 128.

Lemma add_ok c b : vm_room b ->
  exists b', add c b = Ok b' /\ vm_room b' /\ vm_kind b' = vm_kind b /\
    vm_atLeft b' = (zchar c =? 10) /\
    vm_reads b' = (if vm_atLeft b then next_reads (vm_kind b) (vm_reads b) else vm_reads b) /\
    vm_contents b' =
      (vm_contents b ++ (if vm_atLeft b then preamble_text (vm_kind b) (vm_reads b) else EmptyString) ++
       String c EmptyString)%string.
Proof.
  intros Hb. unfold add_to__vmessage_buf. rewrite tl_assert_true by (by apply Z.ltb_lt).
  cbn [rbind]. rewrite preamble_ok. cbn [rbind].
  pose proof (preamble_len (vm_kind b) (vm_reads b)) as Hp.
  rewrite tl_assert_true by (apply Z.ltb_lt; rewrite str_len_app; unfold vm_room, VM_BUFSIZE in *; lia).
  cbn [rbind]. unfold vm_contents, vm_room.
  destruct (vm_atLeft b); cbn [rbind];
  match goal with |- context [str_len ?s >=? ?n] => destruct (Z.geb_spec (str_len s) n) end;
    eexists; (split; [reflexivity|]); cbn [vm_buf vm_kind vm_atLeft vm_reads vm_sent];
    rewrite ?str_app_nil_r, ?str_app_assoc; split_and!; try done; unfold VM_BUFSIZE in *; 
    rewrite ?str_app_assoc in *; lia || reflexivity.
Qed.

(** The rest of a line. *)
Lemma feed_rest s b : vm_room b -> vm_atLeft b = false -> no_char 10 s ->
  exists b', res_feed add s b = Ok b' /\ vm_room b' /\ vm_kind b' = vm_kind b /\
    vm_atLeft b' = false /\ vm_reads b' = vm_reads b /\ vm_contents b' = (vm_contents b ++ s)%string.
Proof.
  revert b; induction s as [|c s IH]; intros b Hb Hl Hs; cbn [res_feed].
  { exists b. by rewrite str_app_nil_r. }
  apply Forall_cons in Hs as [Hc Hs].
  destruct (add_ok c b Hb) as (b1 & -> & Hb1 & Hk1 & Hl1 & Hr1 & Hc1). cbn [rbind].
  rewrite Hl in *. rewrite (proj2 (Z.eqb_neq _ _) Hc) in Hl1.
  destruct (IH b1 Hb1 Hl1 Hs) as (b2 & -> & H2 & Hk2 & Hl2 & Hr2 & Hc2).
  exists b2. rewrite Hk2, Hr2, Hc2, Hc1, Hk1, !str_app_assoc. by rewrite Hr1.
Qed.

(** A whole line and its newline. *)
Lemma feed_line s b : vm_room b -> vm_atLeft b = true -> no_char 10 s ->
  exists b', res_feed add (s ++ nl) b = Ok b' /\ vm_room b' /\ vm_kind b' = vm_kind b /\
    vm_atLeft b' = true /\ vm_reads b' = next_reads (vm_kind b) (vm_reads b) /\
    vm_contents b' =
      (vm_contents b ++ preamble_text (vm_kind b) (vm_reads b) ++ s ++ nl)%string.
Proof.
  intros Hb Hl Hs.
  assert (forall c s b, res_feed add (String c s) b = (let! b := add c b in res_feed add s b)) as Hcons
    by done.
  destruct s as [|c s].
  - change (("" ++ nl)%string) with nl. unfold nl. rewrite Hcons.
    destruct (add_ok (chr 10) b Hb) as (b1 & -> & Hb1 & Hk1 & Hl1 & Hr1 & Hc1). cbn [rbind res_feed].
    rewrite Hl in *. exists b1. by rewrite Hc1.
  - apply Forall_cons in Hs as [Hc Hs]. rewrite str_app_cons, Hcons.
    destruct (add_ok c b Hb) as (b1 & -> & Hb1 & Hk1 & Hl1 & Hr1 & Hc1). cbn [rbind].
    rewrite Hl in *. rewrite (proj2 (Z.eqb_neq _ _) Hc) in Hl1.
    destruct (feed_rest s b1 Hb1 Hl1 Hs) as (b2 & Hf & Hb2 & Hk2 & Hl2 & Hr2 & Hc2).
    rewrite res_feed_app, Hf. cbn [rbind]. unfold nl. rewrite Hcons.
    destruct (add_ok (chr 10) b2 Hb2) as (b3 & -> & Hb3 & Hk3 & Hl3 & Hr3 & Hc3). cbn [rbind res_feed].
    rewrite Hl2 in *. exists b3.
    rewrite Hk3, Hk2, Hk1, Hr3, Hr2, Hr1, Hc3, Hc2, Hc1, !str_app_assoc. done.
Qed.

(** A text of whole lines. *)
Fixpoint text_of_lines (ls : list string) : string :=
  match ls with [] => EmptyString | l :: ls' => (l ++ nl ++ text_of_lines ls')%string end.

(** The lines of a log, each with its preamble. *)
Fixpoint log_text (ls : list (VgMsgKind * string)) (reads : nat) : string :=
  match ls with
  | [] => EmptyString
  | (k, l) :: ls' => (preamble_text k reads ++ l ++ nl ++ log_text ls' (next_reads k reads))%string
  end.

Fixpoint log_reads (ls : list (VgMsgKind * string)) (reads : nat) : nat :=
  match ls with [] => reads | (k, _) :: ls' => log_reads ls' (next_reads k reads) end.

Lemma log_text_app l1 l2 n :
  log_text (l1 ++ l2) n = (log_text l1 n ++ log_text l2 (log_reads l1 n))%string.
Proof.
  revert n; induction l1 as [|[k l] l1 IH]; intros n; [done|]. cbn [app log_text log_reads].
  by rewrite IH, !str_app_assoc.
Qed.

Lemma log_reads_app l1 l2 n : log_reads (l1 ++ l2) n = log_reads l2 (log_reads l1 n).
Proof. revert n; induction l1 as [|[k l] l1 IH]; intros n; [done|]. apply IH. Qed.

Lemma feed_lines ls b : vm_room b -> vm_atLeft b = true -> Forall (no_char 10) ls ->
  let tagged := map (pair (vm_kind b)) ls in
  exists b', res_feed add (text_of_lines ls) b = Ok b' /\ vm_room b' /\
    vm_atLeft b' = true /\ vm_reads b' = log_reads tagged (vm_reads b) /\
    vm_contents b' = (vm_contents b ++ log_text tagged (vm_reads b))%string.
Proof.
  revert b; induction ls as [|l ls IH]; intros b Hb Hl Hls; cbn [text_of_lines map].
  { exists b. cbn. by rewrite str_app_nil_r. }
  apply Forall_cons in Hls as [H1 Hls].
  destruct (feed_line l b Hb Hl H1) as (b1 & E1 & Hb1 & Hk1 & Hl1 & Hr1 & Hc1).
  rewrite <- str_app_assoc, res_feed_app, E1. cbn [rbind].
  destruct (IH b1 Hb1 Hl1 Hls) as (b2 & -> & Hb2 & Hl2 & Hr2 & Hc2). cbn zeta.
  exists b2. cbn [log_text log_reads]. rewrite Hr2, Hc2, Hr1, Hc1, Hk1, !str_app_assoc. done.
Qed.

(** The state between messages of whole lines: nothing is held back. *)
Definition vm_idle (b : vmessage_buf_t) : Prop := vm_buf b = EmptyString /\ vm_atLeft b = true.

Lemma vmessage_lines k fmt args b ls n :
  vm_idle b -> Forall (no_char 10) ls ->
  VG_debugLog_vprintf xml fmt args = Ok (text_of_lines ls, n) ->
  exists b', VG_vmessage xml depth no_inner_prefix clo_time_stamp pid timer k fmt args b = Ok (b', n) /\
    vm_idle b' /\ vm_reads b' = log_reads (map (pair k) ls) (vm_reads b) /\
    vm_sent b' = (vm_sent b ++ log_text (map (pair k) ls) (vm_reads b))%string.
Proof.
  intros [Hb Hl] Hls H. unfold VG_vmessage. rewrite H. cbn [rbind].
  destruct (feed_lines ls (MkVM (vm_buf b) (vm_atLeft b) k (vm_sent b) (vm_reads b)))
    as (b1 & E1 & Hb1 & Hl1 & Hr1 & Hc1); [unfold vm_room; cbn; by rewrite Hb|done|done|].
  cbn [vm_kind vm_reads] in *. rewrite E1. cbn [rbind]. rewrite Hl1.
  unfold vm_contents in Hc1. cbn [vm_sent vm_buf] in Hc1. rewrite Hb, str_app_nil_r in Hc1.
  cbn [andb]. destruct (Z.ltb_spec 0 (str_len (vm_buf b1))) as [Hp|Hp].
  - exists (send_buf b1). unfold vm_idle, send_buf. cbn. by rewrite Hc1.
  - exists b1. assert (vm_buf b1 = EmptyString) as E.
    { destruct (vm_buf b1) as [|c s]; [done|]. rewrite str_len_cons in Hp. unfold str_len in Hp. lia. }
    unfold vm_idle. rewrite E in *. rewrite str_app_nil_r in Hc1. done.
Qed.

End messages.

(** [VG_(printf)] delivers what the interpreter sends, in order and once. *)
Lemma printf_sends xml fmt args out n :
  VG_debugLog_vprintf xml fmt args = Ok (out, n) -> vprintf_WRK xml fmt args = Ok (out, n).
Proof.
  intros H. unfold vprintf_WRK. rewrite H. cbn [rbind].
  destruct (printf_feed out (MkPrintfBuf EmptyString EmptyString)) as (b & -> & _ & Hc); [done|].
  cbn [rbind]. change (pb_sent b ++ pb_buf b = out)%string in Hc. rewrite <- Hc.
  destruct (Z.ltb_spec 0 (str_len (pb_buf b))) as [_|Hp]; [done|].
  destruct (pb_buf b) as [|c s]; [by rewrite str_app_nil_r|].
  rewrite str_len_cons in Hp. unfold str_len in Hp. lia.
Qed.

(** ** Theorems *)

(** The log.  Any sequence of messages made of whole lines, of whatever
    kinds, with or without time stamps, nested under whatever number of
    Valgrinds, succeeds: neither assertion on the 640-byte buffer can fail,
    although lines may be arbitrarily long.  The log then holds exactly the
    lines in order, each after one preamble that names its message's kind and
    carries the next reading of the timer, and nothing is left in the buffer. *)
Theorem vmessage_log (xml : bool) (depth : Z) (no_inner_prefix clo_time_stamp : bool) (pid : Z)
    (timer : nat -> Z) (calls : list (VgMsgKind * string * list va)) (texts : list (list string)) :
  in_s 32 pid -> (forall n, in_u 32 (timer n)) ->
  Forall2 (fun c ls => (exists n, VG_debugLog_vprintf xml c.1.2 c.2 = Ok (text_of_lines ls, n)) /\
                       Forall (no_char 10) ls) calls texts ->
  exists b,
    res_fold (fun c b =>
      let! (b, _) := VG_vmessage xml depth no_inner_prefix clo_time_stamp pid timer c.1.1 c.1.2 c.2 b in
      Ok b) calls vmessage_buf = Ok b /\
    vm_idle b /\
    vm_sent b = log_text depth no_inner_prefix clo_time_stamp pid timer
                  (concat (zip_with (fun c ls => map (pair c.1.1) ls) calls texts)) 0.
Proof.
  intros Hpid Ht HF.
  assert (forall b0, vm_idle b0 -> exists b,
    res_fold (fun c b => let! (b, _) := VG_vmessage xml depth no_inner_prefix clo_time_stamp pid timer
      c.1.1 c.1.2 c.2 b in Ok b) calls b0 = Ok b /\ vm_idle b /\
    vm_sent b = (vm_sent b0 ++ log_text depth no_inner_prefix clo_time_stamp pid timer
      (concat (zip_with (fun c ls => map (pair c.1.1) ls) calls texts)) (vm_reads b0))%string) as Hgen.
  { induction HF as [|[[k fmt] args] ls calls texts [[n Hv] Hls] _ IH]; intros b0 Hi.
    { exists b0. cbn. by rewrite str_app_nil_r. }
    cbn [res_fold fst snd zip_with concat].
    destruct (vmessage_lines xml depth no_inner_prefix clo_time_stamp pid timer Hpid Ht
      k fmt args b0 ls n Hi Hls Hv) as (b1 & -> & Hi1 & Hr1 & Hs1). cbn [rbind].
    destruct (IH b1 Hi1) as (b & -> & Hi2 & Hs2). exists b. split; [done|]. split; [done|].
    rewrite Hs2, Hs1, Hr1, log_text_app, str_app_assoc. done. }
  exact (Hgen vmessage_buf (conj eq_refl eq_refl)).
Qed.

Lemma vmessage_log_witness :
  exists b,
    res_fold (fun c b => let! (b, _) := VG_vmessage false 0 false true 77 (fun n => Z.of_nat n mod 2 ^ 32)
                c.1.1 c.1.2 c.2 b in Ok b)
      [(Vg_UserMsg, String.append "refs: %d" nl, [VA_Int 5]); (Vg_DebugMsg, nl, [])] vmessage_buf = Ok b /\
    vm_sent b = ("==00:00:00:00.000 77== refs: 5" ++ nl ++ "--00:00:00:00.001 77-- " ++ nl)%string.
Proof.
  destruct (vmessage_log false 0 false true 77 (fun n => Z.of_nat n mod 2 ^ 32)
    [(Vg_UserMsg, String.append "refs: %d" nl, [VA_Int 5]); (Vg_DebugMsg, nl, [])]
    [["refs: 5"%string]; [EmptyString]]) as (b & H & _ & Hs).
  - done.
  - intros n. apply Z.mod_pos_bound. lia.
  - repeat constructor; cbn; try discriminate; eexists; vm_compute; reflexivity.
  - exists b. split; [exact H|]. rewrite Hs. vm_compute. reflexivity.
Defined.
