(* ===== verification/CgArch.v ===== *)
(** * CgArch: the cache configuration (valgrind/cachegrind/cg_arch.c, cg_arch.h)

    The three simulated caches come from the command line
    ([VG_(str_clo_cache_opt)]), or from the hardware description, or from a
    per-architecture default ([configure_caches]); the last-level cache is
    adjusted to a geometry the simulator supports ([maybe_tweak_LLc]) and
    every configuration is validated ([check_cache]).  Log output
    ([VG_(umsg)], [VG_(dmsg)]) is not modelled. *)

From Stdlib Require Import ZArith Lia Ascii String.
From stdpp Require Import base numbers strings list.
From S2P Require Import Prelude Libcbase Ieee.

#[local] Open Scope Z_scope.

(** ** Data *)

Record cache_t : Type := Cache {
  size : Z;       (* bytes *)
  assoc : Z;
  line_size : Z   (* bytes *)
}.

#[export] Instance cache_t_eq_dec : EqDecision cache_t.
Proof. solve_decision. Defined.

Definition MIN_LINE_SIZE : Z := 16.
Definition UNDEFINED_CACHE : cache_t := Cache (-1) (-1) (-1).

Inductive VexCacheKind : Type := DATA_CACHE | INSN_CACHE | UNIFIED_CACHE.

#[export] Instance VexCacheKind_eq_dec : EqDecision VexCacheKind.
Proof. solve_decision. Defined.

Record VexCache : Type := MkVexCache {
  kind : VexCacheKind;
  level : Z;
  sizeB : Z;
  line_sizeB : Z;
  vc_assoc : Z;
  is_trace_cache : bool
}.

Record VexCacheInfo : Type := MkVexCacheInfo {
  num_levels : Z;
  caches : list VexCache   (* the array, [num_caches] long *)
}.

(** The [VGA_*] macros that select code at build time. *)
Inductive VGA : Type :=
  | VGA_ppc32 | VGA_ppc64be | VGA_ppc64le | VGA_arm | VGA_arm64 | VGA_s390x
  | VGA_mips32 | VGA_nanomips | VGA_mips64 | VGA_x86 | VGA_amd64.

(** ** Validation *)

(** The error string, or [None] when the configuration is accepted.  All
    fields are [Int]s, so the arithmetic is signed. *)
Definition check_cache (cache : cache_t) : res (option string) :=
  let! la := int_mul (line_size cache) (assoc cache) in
  let! rem := int_rem (size cache) la in
  let! bad_sets :=
    (if negb (rem =? 0) then Ok true
     else
       let! lines := int_div (size cache) (line_size cache) in
       let! sets := int_div lines (assoc cache) in
       Ok (-1 =? VG_log2 (u32 sets))) in
  if (bad_sets : bool) then Ok (Some "Cache set count is not a power of two."%string)
  else if -1 =? VG_log2 (u32 (line_size cache)) then
    Ok (Some "Cache line size is not a power of two."%string)
  else if line_size cache <? MIN_LINE_SIZE then
    Ok (Some "Cache line size is too small."%string)
  else if size cache <? line_size cache then
    Ok (Some "Cache size <= line size."%string)
  else
    let! lines := int_div (size cache) (line_size cache) in
    if assoc cache >? lines then
      Ok (Some "Cache associativity > (size / line size)."%string)
    else Ok None.

(** ** The command line *)

(** [VG_(fmsg_bad_option)]: while options are being processed it prints the
    message and exits with status 1. *)
Definition fmsg_bad_option {A : Type} (opt what : string) : res A :=
  Err (Exit 1 what).

Definition bad_argument : string := "Bad argument"%string.
Definition overflowed : string :=
  "One of the cache parameters was too large and overflowed."%string.

(** The cache parsed from an option value such as 65536,2,64. *)
Definition parse_cache_opt (opt optval : string) : res cache_t :=
  let! (i1, endptr) := VG_strtoll10 optval in
  if negb (deref endptr =? 44) then fmsg_bad_option opt bad_argument else
  let! (i2, endptr) := VG_strtoll10 (incr endptr) in
  if negb (deref endptr =? 44) then fmsg_bad_option opt bad_argument else
  let! (i3, endptr) := VG_strtoll10 (incr endptr) in
  if negb (deref endptr =? 0) then fmsg_bad_option opt bad_argument else
  let cache := Cache (s32 i1) (s32 i2) (s32 i3) in
  if negb (size cache =? i1) then fmsg_bad_option opt overflowed
  else if negb (assoc cache =? i2) then fmsg_bad_option opt overflowed
  else if negb (line_size cache =? i3) then fmsg_bad_option opt overflowed
  else
    let! checkRes := check_cache cache in
    match checkRes with
    | Some _ => fmsg_bad_option opt bad_argument
    | None => Ok cache
    end.

(** [VG_STR_CLO(arg, option, var)]: the value assigned to [var], if [arg] is
    the option followed by an equals sign. *)
Definition VG_STR_CLO (arg opt : string) : option string :=
  let n := String.length opt in
  if VG_strncmp arg (opt ++ "=")%string (S n) =? 0
  then Some (String.substring (S n) (String.length arg - S n) arg)
  else None.

(** The configuration set on the command line so far. *)
Record clo_caches : Type := MkCloCaches {
  clo_I1c : cache_t;
  clo_D1c : cache_t;
  clo_LLc : cache_t
}.

Definition VG_str_clo_cache_opt (arg : string) (clo : clo_caches)
  : res (bool * clo_caches) :=
  match VG_STR_CLO arg "--I1" with
  | Some tmp_str =>
      let! c := parse_cache_opt arg tmp_str in
      Ok (true, MkCloCaches c (clo_D1c clo) (clo_LLc clo))
  | None =>
  match VG_STR_CLO arg "--D1" with
  | Some tmp_str =>
      let! c := parse_cache_opt arg tmp_str in
      Ok (true, MkCloCaches (clo_I1c clo) c (clo_LLc clo))
  | None =>
  match (match VG_STR_CLO arg "--L2" with
         | Some t => Some t
         | None => VG_STR_CLO arg "--LL"
         end) with
  | Some tmp_str =>
      let! c := parse_cache_opt arg tmp_str in
      Ok (true, MkCloCaches (clo_I1c clo) (clo_D1c clo) c)
  | None => Ok (false, clo)
  end end end.

(** An invalid auto-detected cache stops the process, unless the command line
    redefines it. *)
Definition check_cache_or_override (desc : string) (c : cache_t)
    (clo_redefined : bool) : res unit :=
  let! checkRes := check_cache c in
  match checkRes with
  | Some _ => if clo_redefined then Ok tt else Err (AssertFail desc)
  | None => Ok tt
  end.

(** ** The last-level cache *)

Definition floor_power_of_2 (x : Z) : Z :=
  let x := Z.lor x (Z.shiftr x 1) in
  let x := Z.lor x (Z.shiftr x 2) in
  let x := Z.lor x (Z.shiftr x 4) in
  let x := Z.lor x (Z.shiftr x 8) in
  let x := Z.lor x (Z.shiftr x 16) in
  u32 (x - Z.shiftr x 1).

Definition maybe_tweak_LLc (LLc : cache_t) : res cache_t :=
  if (size LLc =? 0) || (assoc LLc =? 0) || (line_size LLc =? 0) then Ok LLc else
  let! _ := tl_assert ((0 <? size LLc) && (0 <? assoc LLc) && (0 <? line_size LLc))
                      "LLc->size > 0 && LLc->assoc > 0 && LLc->line_size > 0" in
  let old_size := u32 (size LLc) in
  let old_assoc := u32 (assoc LLc) in
  let old_line_size := u32 (line_size LLc) in
  let! old_nSets := uint_div old_size (u32 (old_assoc * old_line_size)) in
  if old_nSets =? 0 then Ok LLc else
  let! (new_size, new_assoc) :=
    (if negb (-1 =? VG_log2_64 old_nSets) then
       Ok (u32 (u32 (old_line_size * old_assoc) * old_nSets), old_assoc)
     else
       let new_nSets := floor_power_of_2 old_nSets in
       let! _ := tl_assert ((0 <? new_nSets) && (new_nSets <? old_nSets))
                           "new_nSets > 0 && new_nSets < old_nSets" in
       let factor := double_div (double_of_uint old_nSets) (double_of_uint new_nSets) in
       let! _ := tl_assert (double_geb factor (1, 1)) "factor >= 1.0" in
       let! new_assoc :=
         uint_of_double (double_add (1, 2) (double_mul factor (double_of_uint old_assoc))) in
       let! _ := tl_assert (old_assoc <=? new_assoc) "new_assoc >= old_assoc" in
       Ok (u32 (u32 (old_line_size * new_assoc) * new_nSets), new_assoc)) in
  if (new_size =? old_size) && (new_assoc =? old_assoc) then Ok LLc
  else Ok (Cache (s32 new_size) (s32 new_assoc) (s32 old_line_size)).

(** ** Putting it together *)

(** The first cache of the given kind and level. *)
Fixpoint locate_cache_in (cs : list VexCache) (k : VexCacheKind) (l : Z)
  : option VexCache :=
  match cs with
  | [] => None
  | c :: cs' =>
      if (level c =? l) && bool_decide (kind c = k) then Some c
      else locate_cache_in cs' k l
  end.

Definition locate_cache (ci : VexCacheInfo) (k : VexCacheKind) (l : Z)
  : option VexCache := locate_cache_in (caches ci) k l.

(** The [#if] ladder of default configurations: I1, D1, LL. *)
Definition default_caches (arch : VGA) : cache_t * cache_t * cache_t :=
  match arch with
  | VGA_ppc32 | VGA_ppc64be | VGA_ppc64le =>
      (Cache 65536 2 64, Cache 65536 2 64, Cache 262144 8 64)
  | VGA_arm | VGA_arm64 =>
      (Cache 16384 4 64, Cache 16384 4 64, Cache 262144 8 64)
  | VGA_s390x =>
      (Cache 65536 4 256, Cache 131072 8 256, Cache 50331648 24 256)
  | VGA_mips32 | VGA_nanomips | VGA_mips64 =>
      (Cache 32768 4 32, Cache 32768 4 32, Cache 524288 8 32)
  | VGA_x86 | VGA_amd64 =>
      (Cache 65536 2 64, Cache 65536 2 64, Cache 262144 8 64)
  end.

(** [ci] is the hardware description [VG_(machine_get_VexArchInfo)] returns. *)
Definition configure_caches (arch : VGA) (ci : VexCacheInfo)
  : cache_t * cache_t * cache_t :=
  let i1 := locate_cache ci INSN_CACHE 1 in
  let d1 := locate_cache ci DATA_CACHE 1 in
  let ll := locate_cache ci UNIFIED_CACHE (num_levels ci) in
  match i1, d1, ll with
  | Some i1, Some d1, Some ll =>
      let I1c :=
        if is_trace_cache i1 then
          let guessed_line_size := 32 in
          let adjusted_size :=
            if (sizeB i1 =? 12 * 1024) || (sizeB i1 =? 16 * 1024)
            then 16 * 1024 else 32 * 1024 in
          Cache adjusted_size (s32 (vc_assoc i1)) guessed_line_size
        else Cache (s32 (sizeB i1)) (s32 (vc_assoc i1)) (s32 (line_sizeB i1)) in
      (I1c,
       Cache (s32 (sizeB d1)) (s32 (vc_assoc d1)) (s32 (line_sizeB d1)),
       Cache (s32 (sizeB ll)) (s32 (vc_assoc ll)) (s32 (line_sizeB ll)))
  | _, _, _ => default_caches arch
  end.

(** The [DEFINED] macro. *)
Definition DEFINED (c : cache_t) : bool :=
  negb (-1 =? size c) || negb (-1 =? assoc c) || negb (-1 =? line_size c).

(** The I1, D1 and LL configurations handed to the simulator. *)
Definition VG_post_clo_init_configure_caches (arch : VGA) (ci : VexCacheInfo)
    (clo : clo_caches) : res (cache_t * cache_t * cache_t) :=
  let '(I1c, D1c, LLc) := configure_caches arch ci in
  let! LLc := maybe_tweak_LLc LLc in
  let! _ := check_cache_or_override "I1" I1c (DEFINED (clo_I1c clo)) in
  let! _ := check_cache_or_override "D1" D1c (DEFINED (clo_D1c clo)) in
  let! _ := check_cache_or_override "LL" LLc (DEFINED (clo_LLc clo)) in
  let I1c := if DEFINED (clo_I1c clo) then clo_I1c clo else I1c in
  let D1c := if DEFINED (clo_D1c clo) then clo_D1c clo else D1c in
  let LLc := if DEFINED (clo_LLc clo) then clo_LLc clo else LLc in
  Ok (I1c, D1c, LLc).

(** ** Valid configurations *)

(** What the simulator relies on: a power-of-two line of at least 16 bytes, at
    least one way, and a power-of-two number of sets that the size divides
    into exactly. *)
Record valid_cache (c : cache_t) : Prop := {
  vc_line_pow2 : is_pow2 (line_size c);
  vc_line_min : MIN_LINE_SIZE <= line_size c;
  vc_assoc_pos : 1 <= assoc c;
  vc_sets : exists s, is_pow2 s /\ size c = line_size c * assoc c * s;
  vc_size_max : size c < 2 ^ 31
}.

(** Every field is an [Int]. *)
Definition int_fields (c : cache_t) : Prop :=
  in_s 32 (size c) /\ in_s 32 (assoc c) /\ in_s 32 (line_size c).

Lemma in_s32 x : in_s 32 x <-> - 2 ^ 31 <= x < 2 ^ 31.
Proof. unfold in_s. change (32 - 1) with 31. done. Qed.

Lemma u32_nonneg x : 0 <= x < 2 ^ 32 -> u32 x = x.
Proof. intros H. by apply wrapu_small. Qed.

(** A set count that passes the test is positive: a zero or negative quotient
    never looks like a power of two once converted to UInt. *)
Lemma set_count_pos sets :
  - 2 ^ 30 <= sets < 2 ^ 31 -> VG_log2 (u32 sets) <> -1 ->
  0 < sets /\ is_pow2 sets.
Proof.
  intros Hr H. apply VG_log2_uint in H; [|by apply wrapu_range].
  destruct (Z_le_gt_dec 0 sets) as [Hs|Hs].
  - rewrite u32_nonneg in H by lia. split; [by apply is_pow2_pos|done].
  - exfalso. assert (u32 sets = sets + 2 ^ 32) as E.
    { unfold wrapu. symmetry. apply (Z.mod_unique _ _ (-1)); lia. }
    destruct H as (k & Hk & Hp). rewrite E in Hp.
    assert (31 < k) by (apply (Z.pow_lt_mono_r_iff 2); lia).
    assert (k < 32) by (apply (Z.pow_lt_mono_r_iff 2); lia). lia.
Qed.

Lemma int_rem_ok a b r :
  int_rem a b = Ok r <-> b <> 0 /\ in_s 32 (Z.quot a b) /\ r = Z.rem a b.
Proof.
  unfold int_rem. destruct (Z.eqb_spec b 0); [naive_solver|].
  rewrite rbind_ok. setoid_rewrite signed_result_ok. naive_solver.
Qed.

Lemma int_div_ok a b q :
  int_div a b = Ok q <-> b <> 0 /\ in_s 32 (Z.quot a b) /\ q = Z.quot a b.
Proof.
  unfold int_div. destruct (Z.eqb_spec b 0); [naive_solver|].
  rewrite signed_result_ok. naive_solver.
Qed.

Lemma quot_le_dividend a b : 0 <= a -> 1 < b -> 0 <= Z.quot a b <= a.
Proof.
  intros Ha Hb. rewrite Z.quot_div_nonneg by lia. split; [apply Z.div_pos; lia|].
  apply Z.div_le_upper_bound; nia.
Qed.

Lemma check_cache_sound c :
  int_fields c -> check_cache c = Ok None -> valid_cache c.
Proof.
  intros (Hsz & Has & Hln) H. rewrite !in_s32 in *.
  unfold check_cache in H. inv_ok.
  apply signed_result_ok in H0 as [<- Hla]. apply int_rem_ok in H1 as (Hnz & _ & ->).
  assert (x1 = false) as -> by (destruct x1; [discriminate H|done]).
  destruct (Z.eqb_spec (Z.rem (size c) (line_size c * assoc c)) 0) as [Hrem|];
    simpl in H2; [|discriminate H2].
  inv_ok. apply int_div_ok in H0 as (_ & _ & ->).
  apply int_div_ok in H1 as (_ & _ & ->).
  destruct (Z.eqb_spec (-1) (VG_log2 (u32 (line_size c)))); [discriminate H|].
  destruct (Z.ltb_spec (line_size c) MIN_LINE_SIZE) as [|Hmin]; [discriminate H|].
  destruct (Z.ltb_spec (size c) (line_size c)) as [|Hge]; [discriminate H|].
  unfold MIN_LINE_SIZE in Hmin. apply Z.eqb_neq in H2.
  set (lines := Z.quot (size c) (line_size c)) in *.
  assert (0 < lines <= 2 ^ 27) as Hlines.
  { subst lines. rewrite Z.quot_div_nonneg by lia. split.
    - apply Z.div_str_pos; lia.
    - apply Z.div_le_upper_bound; lia. }
  assert (- 2 ^ 30 <= Z.quot lines (assoc c) < 2 ^ 31) as Hq.
  { pose proof (Z.quot_abs lines (assoc c) ltac:(nia)) as E.
    pose proof (Z.quot_le_upper_bound (Z.abs lines) (Z.abs (assoc c)) (2 ^ 27)). nia. }
  destruct (set_count_pos _ Hq ltac:(lia)) as [Hpos Hp2].
  assert (1 <= assoc c) as Ha.
  { destruct (Z_lt_le_dec 0 (assoc c)); [lia|].
    pose proof (Z.quot_opp_r lines (- assoc c) ltac:(nia)) as E.
    rewrite Z.opp_involutive in E.
    pose proof (Z.quot_pos lines (- assoc c) ltac:(lia) ltac:(nia)). lia. }
  constructor; try (unfold MIN_LINE_SIZE; lia).
  - apply VG_log2_uint; [unfold in_u; lia|]. rewrite u32_nonneg in n by lia. lia.
  - exists (Z.quot lines (assoc c)). split; [done|]. subst lines.
    rewrite Z.quot_quot by nia. rewrite Z.quot_div_nonneg by nia.
    rewrite Z.rem_mod_nonneg in Hrem by nia.
    rewrite (Z.div_mod (size c) (line_size c * assoc c)) at 1 by nia. lia.
Qed.

Lemma check_cache_complete c : valid_cache c -> check_cache c = Ok None.
Proof.
  intros [Hl Hmin Ha (s & Hs & Hsz) Hmax]. unfold MIN_LINE_SIZE in Hmin.
  pose proof (is_pow2_pos _ Hs) as Hs0.
  assert (line_size c * assoc c <= size c) as Hla by nia.
  assert (line_size c <= size c) by nia. assert (assoc c <= size c) by nia.
  assert (Z.quot (size c) (line_size c) = assoc c * s) as E1.
  { rewrite Hsz. rewrite <- Z.mul_assoc, Z.mul_comm, Z.quot_mul; lia. }
  assert (Z.quot (assoc c * s) (assoc c) = s) as E2
    by (rewrite Z.mul_comm, Z.quot_mul; lia).
  assert (Z.quot (size c) (line_size c * assoc c) = s) as E3
    by (rewrite Hsz, Z.mul_comm, Z.quot_mul; nia).
  assert (forall y, 0 <= y <= size c -> in_s 32 y) as Hin
    by (intros; apply in_s32; lia).
  unfold check_cache, int_mul.
  rewrite signed_result_in by (apply Hin; nia). simpl.
  rewrite (proj2 (int_rem_ok (size c) (line_size c * assoc c) 0)); cycle 1.
  { split_and!; [nia|rewrite E3; apply Hin; nia|].
    rewrite Hsz, Z.mul_comm, Z.rem_mul; nia. }
  rewrite (proj2 (int_div_ok (size c) (line_size c) (assoc c * s))); cycle 1.
  { rewrite E1. split_and!; [lia|apply Hin; nia|done]. }
  simpl. rewrite (proj2 (int_div_ok (assoc c * s) (assoc c) s)); cycle 1.
  { rewrite E2. split_and!; [lia|apply Hin; nia|done]. }
  simpl. rewrite !u32_nonneg by nia.
  apply (VG_log2_uint s) in Hs; [|unfold in_u; nia].
  apply (VG_log2_uint (line_size c)) in Hl; [|unfold in_u; lia].
  unfold MIN_LINE_SIZE. rewrite Z.gtb_ltb. case_Z; try lia; try done. nia.
Qed.

(** ** floor_power_of_2 *)

(** [x]'s highest set bit is [L] and the [m] bits from [L] down are all set. *)
Definition top_run (x L m : Z) : Prop :=
  (forall i, L < i -> Z.testbit x i = false) /\
  (forall i, 0 <= i -> L - m < i <= L -> Z.testbit x i = true).

Lemma top_run_start x : 0 < x -> top_run x (Z.log2 x) 1.
Proof.
  intros Hx. split; intros i Hi.
  - apply Z.bits_above_log2; lia.
  - intros Hr. assert (i = Z.log2 x) as -> by lia. by apply Z.bit_log2.
Qed.

Lemma top_run_step x L m :
  0 <= m -> top_run x L m -> top_run (Z.lor x (Z.shiftr x m)) L (m + m).
Proof.
  intros Hm [Hhi Hlo]. split; intros i Hi.
  - rewrite Z.lor_spec, Hhi by lia. destruct (Z_lt_le_dec i 0).
    + by rewrite Z.testbit_neg_r.
    + rewrite Z.shiftr_spec, Hhi by lia. done.
  - intros Hr. rewrite Z.lor_spec, Z.shiftr_spec by lia. apply orb_true_iff.
    destruct (Z_lt_le_dec (L - m) i); [left|right]; apply Hlo; lia.
Qed.

Lemma top_run_full x L m : 0 <= L < m -> top_run x L m -> x = 2 ^ (L + 1) - 1.
Proof.
  intros HL [Hhi Hlo]. transitivity (Z.ones (L + 1)); [|rewrite Z.ones_equiv; lia].
  apply Z.bits_inj'. intros i Hi. rewrite Z.testbit_ones_nonneg by lia.
  destruct (Z.ltb_spec i (L + 1)); [apply Hlo; lia|apply Hhi; lia].
Qed.

Lemma floor_power_of_2_pos x : 0 < x < 2 ^ 32 -> floor_power_of_2 x = 2 ^ Z.log2 x.
Proof.
  intros Hx. assert (0 <= Z.log2 x < 32) as HL.
  { split; [apply Z.log2_nonneg|]. apply Z.log2_lt_pow2; lia. }
  pose proof (top_run_start x ltac:(lia)) as H.
  apply top_run_step in H; [change (1 + 1) with 2 in H|lia].
  apply top_run_step in H; [change (2 + 2) with 4 in H|lia].
  apply top_run_step in H; [change (4 + 4) with 8 in H|lia].
  apply top_run_step in H; [change (8 + 8) with 16 in H|lia].
  apply top_run_step in H; [change (16 + 16) with 32 in H|lia].
  apply top_run_full in H; [|lia]. unfold floor_power_of_2. rewrite H.
  rewrite Z.shiftr_div_pow2 by lia. rewrite Z.pow_add_r by lia.
  replace ((2 ^ Z.log2 x * 2 ^ 1 - 1) / 2 ^ 1) with (2 ^ Z.log2 x - 1); cycle 1.
  { apply (Z.div_unique _ _ _ 1); lia. }
  assert (2 ^ Z.log2 x <= x) by (apply Z.log2_spec; lia).
  rewrite u32_nonneg; lia.
Qed.

(** ** The tweak of the last-level cache *)

(** A description of a physical last-level cache: positive sizes, a
    power-of-two line, room for at least one set. *)
Record plausible_LL (c : cache_t) : Prop := {
  pl_size : 0 < size c <= 2 ^ 30;
  pl_assoc : 1 <= assoc c;
  pl_line : is_pow2 (line_size c) /\ MIN_LINE_SIZE <= line_size c;
  pl_one_set : line_size c * assoc c <= size c
}.

Definition LL_sets (c : cache_t) : Z := size c / (assoc c * line_size c).

Lemma LL_sets_bounds c :
  plausible_LL c ->
  1 <= LL_sets c /\ line_size c * assoc c * LL_sets c <= size c.
Proof.
  intros [Hs Ha [_ Hl] H1]. unfold MIN_LINE_SIZE, LL_sets in *. split.
  - apply Z.div_le_lower_bound; nia.
  - pose proof (Z.mul_div_le (size c) (assoc c * line_size c) ltac:(nia)). lia.
Qed.

(** The associativity the code computes in floating point is the exact
    quotient rounded to the nearest integer. *)
Lemma tweak_assoc n a :
  1 <= n -> 1 <= a -> n * a <= 2 ^ 30 ->
  let k := Z.log2 n in
  let factor := double_div (double_of_uint n) (double_of_uint (2 ^ k)) in
  double_geb factor (1, 1) = true /\
  uint_of_double (double_add (1, 2) (double_mul factor (double_of_uint a))) =
    Ok ((2 ^ k + 2 * (n * a)) / 2 ^ (k + 1)).
Proof.
  intros Hn Ha Hna k factor.
  assert (0 <= k) as Hk by apply Z.log2_nonneg.
  assert (2 ^ k <= n) as Hkn by (apply Z.log2_spec; lia).
  assert (0 < 2 ^ k) by (apply Z.pow_pos_nonneg; lia).
  assert (dval factor n k) as Hf by (apply double_div_dval; nia).
  split; [by apply (double_geb_one _ n k)|].
  apply (double_mul_dval _ _ _ a) in Hf; [|lia|nia].
  apply double_add_half_dval in Hf; [|lia|nia].
  apply (uint_of_double_dval _ _ (k + 1)); [lia|done|].
  assert (0 < 2 ^ (k + 1)) by (apply Z.pow_pos_nonneg; lia).
  assert (1 <= 2 ^ (k + 1)) by lia.
  apply Z.div_lt_upper_bound; nia.
Qed.

(** The new associativity and size, and how far the size moves. *)
Lemma tweak_bounds n a l :
  1 <= n -> 1 <= a -> 1 <= l -> l * a * n <= 2 ^ 30 ->
  let k := Z.log2 n in
  let a' := (2 ^ k + 2 * (n * a)) / 2 ^ (k + 1) in
  a <= a' /\ 2 * Z.abs (l * a' * 2 ^ k - l * a * n) <= l * 2 ^ k /\
  l * a' * 2 ^ k < 2 ^ 31.
Proof.
  intros Hn Ha Hl Hb k a'.
  assert (0 <= k) as Hk by apply Z.log2_nonneg.
  assert (2 ^ k <= n) as Hkn by (apply Z.log2_spec; lia).
  assert (0 < 2 ^ k) by (apply Z.pow_pos_nonneg; lia).
  assert (2 ^ (k + 1) = 2 * 2 ^ k) as Hk1 by (rewrite Z.pow_add_r; lia).
  pose proof (Z.div_mod (2 ^ k + 2 * (n * a)) (2 ^ (k + 1)) ltac:(lia)) as E.
  pose proof (Z.mod_pos_bound (2 ^ k + 2 * (n * a)) (2 ^ (k + 1)) ltac:(lia)) as R.
  fold a' in E. set (r := (2 ^ k + 2 * (n * a)) mod 2 ^ (k + 1)) in *.
  assert (- 2 ^ k <= 2 * (a' * 2 ^ k - n * a) <= 2 ^ k) as Hd by nia.
  assert (- (l * 2 ^ k) <= 2 * (l * a' * 2 ^ k - l * a * n) <= l * 2 ^ k) by nia.
  split_and!; [nia|lia|nia].
Qed.

(** What [maybe_tweak_LLc] returns on a plausible description. *)
Definition tweaked (c : cache_t) : cache_t :=
  let k := Z.log2 (LL_sets c) in
  let a' := (2 ^ k + 2 * (LL_sets c * assoc c)) / 2 ^ (k + 1) in
  Cache (line_size c * a' * 2 ^ k) a' (line_size c).

Lemma tweaked_pow2 c :
  1 <= LL_sets c -> is_pow2 (LL_sets c) ->
  tweaked c = Cache (line_size c * assoc c * LL_sets c) (assoc c) (line_size c).
Proof.
  intros H1 (k & Hk & E). unfold tweaked. rewrite E, Z.log2_pow2 by lia.
  assert (0 < 2 ^ k) by (apply Z.pow_pos_nonneg; lia).
  replace ((2 ^ k + 2 * (2 ^ k * assoc c)) / 2 ^ (k + 1)) with (assoc c); [done|].
  apply (Z.div_unique _ _ _ (2 ^ k)); rewrite Z.pow_add_r by lia; lia.
Qed.

Lemma tweaked_props c :
  plausible_LL c ->
  assoc c <= assoc (tweaked c) /\
  2 * Z.abs (size (tweaked c) - line_size c * assoc c * LL_sets c)
    <= line_size c * 2 ^ Z.log2 (LL_sets c) /\
  size (tweaked c) < 2 ^ 31.
Proof.
  intros Hp. pose proof (LL_sets_bounds c Hp) as [H1 H2].
  destruct Hp as [Hs Ha [_ Hl] _]. unfold MIN_LINE_SIZE in Hl.
  unfold tweaked. simpl. apply tweak_bounds; lia.
Qed.

Lemma tweaked_valid c : plausible_LL c -> valid_cache (tweaked c).
Proof.
  intros Hp. pose proof (tweaked_props c Hp) as (Ha & _ & Hmax).
  destruct Hp as [_ Ha1 [Hl Hlm] _]. constructor; simpl; try lia; try done.
  - simpl in *. lia.
  - exists (2 ^ Z.log2 (LL_sets c)). split; [|done].
    exists (Z.log2 (LL_sets c)). split; [apply Z.log2_nonneg|done].
Qed.

Lemma valid_assoc_le_size c : valid_cache c -> 1 <= assoc c <= size c.
Proof.
  intros [_ Hm Ha (s & Hs & ->) _]. unfold MIN_LINE_SIZE in Hm.
  apply is_pow2_pos in Hs. assert (assoc c <= line_size c * assoc c) by nia. nia.
Qed.

Lemma s32_small x : 0 <= x < 2 ^ 31 -> s32 x = x.
Proof. intros H. apply wraps_small; [lia|]. apply in_s32. lia. Qed.

Lemma maybe_tweak_LLc_run c : plausible_LL c -> maybe_tweak_LLc c = Ok (tweaked c).
Proof.
  intros Hp. pose proof (LL_sets_bounds c Hp) as [HN1 HN2].
  pose proof (tweaked_props c Hp) as (HA & _ & HS).
  pose proof (tweaked_pow2 c HN1) as Hpow.
  pose proof (tweaked_valid c Hp) as HV.
  destruct Hp as [Hs Ha [_ Hl] H1]. unfold MIN_LINE_SIZE in Hl.
  unfold maybe_tweak_LLc.
  rewrite (proj2 (Z.eqb_neq (size c) 0)), (proj2 (Z.eqb_neq (assoc c) 0)),
    (proj2 (Z.eqb_neq (line_size c) 0)) by lia. simpl orb. cbv iota.
  rewrite tl_assert_true; cycle 1. { case_Z; simpl; lia || done. }
  cbn [rbind]. rewrite (u32_nonneg (size c)), (u32_nonneg (assoc c)),
    (u32_nonneg (line_size c)), (u32_nonneg (assoc c * line_size c)) by nia.
  unfold uint_div. rewrite (proj2 (Z.eqb_neq (assoc c * line_size c) 0)) by nia.
  cbn [rbind]. fold (LL_sets c).
  rewrite (proj2 (Z.eqb_neq (LL_sets c) 0)) by lia.
  assert (forall sz a, Cache sz a (line_size c) = tweaked c ->
    (if (sz =? size c) && (a =? assoc c) then Ok c
     else Ok (Cache (s32 sz) (s32 a) (s32 (line_size c)))) = Ok (tweaked c)) as Hfin.
  { intros sz a E. assert (sz = size (tweaked c)) as Esz by (by rewrite <- E).
    assert (a = assoc (tweaked c)) as Ea by (by rewrite <- E).
    assert (assoc (tweaked c) <= size (tweaked c))
      by (by apply valid_assoc_le_size).
    rewrite !s32_small by lia.
    destruct (Z.eqb_spec sz (size c)); simpl; [|by rewrite E].
    destruct (Z.eqb_spec a (assoc c)); simpl; [|by rewrite E].
    f_equal. rewrite <- E. subst sz a. by destruct c; simpl in *; congruence. }
  destruct (VG_log2_64_spec (LL_sets c)) as [[E N]|[R E]].
  - rewrite E. simpl negb. cbv iota.
    assert (2 ^ Z.log2 (LL_sets c) <= LL_sets c) by (apply Z.log2_spec; lia).
    assert (LL_sets c <> 2 ^ Z.log2 (LL_sets c)).
    { apply N. split; [apply Z.log2_nonneg|]. apply Z.log2_lt_pow2; nia. }
    rewrite floor_power_of_2_pos by nia.
    destruct (tweak_assoc (LL_sets c) (assoc c)) as [Hg Hu]; [nia..|].
    rewrite tl_assert_true; cycle 1.
    { pose proof (Z.pow_pos_nonneg 2 (Z.log2 (LL_sets c)) ltac:(lia) (Z.log2_nonneg _)).
      case_Z; simpl; lia || done. }
    cbn [rbind]. rewrite Hg. cbn [rbind tl_assert]. rewrite Hu. cbn [rbind].
    unfold tweaked in HA, HS. simpl in HA, HS. rewrite (proj2 (Z.leb_le _ _) HA).
    cbn [rbind tl_assert].
    pose proof (Z.pow_pos_nonneg 2 (Z.log2 (LL_sets c)) ltac:(lia) (Z.log2_nonneg _)).
    specialize (Hfin _ _ eq_refl). clear - HA HS Ha Hl Hfin H0 H2.
    set (a' := _ / 2 ^ (_ + 1)) in *. set (P := 2 ^ Z.log2 (LL_sets c)) in *.
    clearbody P a'. assert (0 <= line_size c * a') by nia.
    assert (line_size c * a' <= line_size c * a' * P) by nia.
    rewrite (u32_nonneg (line_size c * a')) by lia. by rewrite u32_nonneg by lia.
  - destruct (Z.eqb_spec (-1) (VG_log2_64 (LL_sets c))); [lia|]. simpl negb.
    cbv iota. cbn [rbind]. rewrite (u32_nonneg (line_size c * _)) by nia.
    rewrite u32_nonneg by nia. apply Hfin. symmetry. apply Hpow.
    exists (VG_log2_64 (LL_sets c)). lia.
Qed.

(** ** Properties *)

Lemma parse_cache_opt_inv opt v c :
  parse_cache_opt opt v = Ok c -> int_fields c /\ check_cache c = Ok None.
Proof.
  unfold parse_cache_opt. intros H. apply rbind_ok in H as ([i1 e1] & _ & H).
  case_match; [done|]. apply rbind_ok in H as ([i2 e2] & _ & H).
  case_match; [done|]. apply rbind_ok in H as ([i3 e3] & _ & H).
  do 4 (case_match; [done|]). apply rbind_ok in H as ([err|] & Hc & H); [done|].
  injection H as <-. split; [|done].
  split_and!; apply wraps_range; lia.
Qed.

(** C4. [check_cache] accepts exactly the configurations the simulator can run:
    for any three Int fields it returns NULL if and only if the line is a
    power of two of at least 16 bytes, there is at least one way, and the size
    is an exact power-of-two number of sets. *)
Theorem check_cache_correct (c : cache_t) :
  int_fields c -> (check_cache c = Ok None <-> valid_cache c).
Proof.
  intros Hc. split; [by apply check_cache_sound|apply check_cache_complete].
Qed.

Lemma check_cache_correct_witness :
  check_cache (Cache 64 1 64) = Ok None /\ valid_cache (Cache 64 1 64).
Proof.
  assert (check_cache (Cache 64 1 64) = Ok None) as E by reflexivity.
  split; [exact E|]. apply (check_cache_correct (Cache 64 1 64)); [|exact E].
  unfold int_fields, in_s. simpl. lia.
Defined.

(** An option value the command line accepts always denotes a valid
    configuration: no text reaches the simulator as a geometry it cannot run. *)
Theorem parse_cache_opt_sound (opt optval : string) (c : cache_t) :
  parse_cache_opt opt optval = Ok c -> valid_cache c.
Proof.
  intros H. apply parse_cache_opt_inv in H as [Hi Hc]. by apply check_cache_sound.
Qed.

Lemma parse_cache_opt_sound_witness : valid_cache (Cache 65536 2 64).
Proof.
  apply (parse_cache_opt_sound "--D1=65536,2,64" "65536,2,64").
  vm_compute. reflexivity.
Defined.

(** The accepted syntax: three decimal numerals separated by commas. *)
Definition opt_text (d1 d2 d3 : string) : string :=
  (d1 ++ "," ++ d2 ++ "," ++ d3)%string.

(** Writing a valid configuration as three decimal numerals and parsing it
    gives the configuration back. *)
Theorem parse_cache_opt_roundtrip (opt d1 d2 d3 : string) (c : cache_t) :
  valid_cache c ->
  d1 <> EmptyString -> d2 <> EmptyString -> d3 <> EmptyString ->
  digits_value d1 0 = Some (size c) ->
  digits_value d2 0 = Some (assoc c) ->
  digits_value d3 0 = Some (line_size c) ->
  parse_cache_opt opt (opt_text d1 d2 d3) = Ok c.
Proof.
  intros Hv N1 N2 N3 V1 V2 V3. pose proof (check_cache_complete c Hv) as Hc.
  pose proof (valid_assoc_le_size c Hv) as Ha.
  assert (0 <= line_size c <= size c) as Hl.
  { destruct Hv as [_ Hm _ (s & Hs & ->) _]. unfold MIN_LINE_SIZE in Hm.
    apply is_pow2_pos in Hs. assert (line_size c <= line_size c * assoc c) by nia. nia. }
  destruct Hv as [_ _ _ _ Hmax]. unfold parse_cache_opt, opt_text.
  rewrite (VG_strtoll10_digits d1 _ (size c)) by (done || lia). simpl.
  change ("" +:+ d2 +:+ "," +:+ d3) with (d2 +:+ "," +:+ d3).
  rewrite (VG_strtoll10_digits d2 _ (assoc c)) by (done || lia). simpl.
  change ("" +:+ d3) with d3.
  rewrite <- (append_empty_r d3).
  rewrite (VG_strtoll10_digits d3 _ (line_size c)) by (done || lia). simpl.
  rewrite !s32_small, !Z.eqb_refl by lia. simpl.
  destruct c; simpl in *. by rewrite Hc.
Qed.

Lemma parse_cache_opt_roundtrip_witness :
  parse_cache_opt "--LL=262144,8,64" (opt_text "262144" "8" "64") = Ok (Cache 262144 8 64).
Proof.
  apply (parse_cache_opt_roundtrip "--LL=262144,8,64" "262144" "8" "64");
    [|discriminate..|reflexivity|reflexivity|reflexivity].
  apply check_cache_sound; [unfold int_fields, in_s; simpl; lia|reflexivity].
Defined.

(** [floor_power_of_2] on a positive UInt is the largest power of two that
    is not above it. *)
Theorem floor_power_of_2_correct (x : Z) :
  0 < x < 2 ^ 32 ->
  is_pow2 (floor_power_of_2 x) /\ floor_power_of_2 x <= x < 2 * floor_power_of_2 x.
Proof.
  intros Hx. rewrite floor_power_of_2_pos by done.
  pose proof (Z.log2_spec x ltac:(lia)) as H. rewrite Z.pow_succ_r in H
    by apply Z.log2_nonneg.
  split; [|lia]. exists (Z.log2 x). split; [apply Z.log2_nonneg|done].
Qed.

Lemma floor_power_of_2_correct_witness :
  floor_power_of_2 12288 = 8192 /\
  (is_pow2 (floor_power_of_2 12288) /\
   floor_power_of_2 12288 <= 12288 < 2 * floor_power_of_2 12288).
Proof.
  split; [reflexivity|]. apply (floor_power_of_2_correct 12288). lia.
Defined.

(** On a plausible hardware description [maybe_tweak_LLc] returns, and what
    it returns is a valid configuration: the line size is unchanged, the number
    of sets is the largest power of two not above the original one, the
    associativity does not shrink, and the capacity moves by at most half a
    way.  In particular the double arithmetic loses nothing and no assertion
    fails. *)
Theorem maybe_tweak_LLc_correct (c : cache_t) :
  plausible_LL c ->
  exists c', maybe_tweak_LLc c = Ok c' /\ valid_cache c' /\
    line_size c' = line_size c /\ assoc c <= assoc c' /\
    size c' = line_size c' * assoc c' * 2 ^ Z.log2 (LL_sets c) /\
    2 * Z.abs (size c' - line_size c * assoc c * LL_sets c)
      <= line_size c * 2 ^ Z.log2 (LL_sets c).
Proof.
  intros Hp. exists (tweaked c).
  pose proof (tweaked_props c Hp) as (Ha & Hd & _).
  split_and!; [by apply maybe_tweak_LLc_run|by apply tweaked_valid|done..].
Qed.

Lemma maybe_tweak_LLc_correct_witness :
  exists c', maybe_tweak_LLc (Cache 12582912 16 64) = Ok c' /\ valid_cache c' /\
    line_size c' = 64 /\ 16 <= assoc c' /\
    size c' = line_size c' * assoc c' * 2 ^ Z.log2 (LL_sets (Cache 12582912 16 64)) /\
    2 * Z.abs (size c' - 64 * 16 * LL_sets (Cache 12582912 16 64))
      <= 64 * 2 ^ Z.log2 (LL_sets (Cache 12582912 16 64)).
Proof.
  apply (maybe_tweak_LLc_correct (Cache 12582912 16 64)).
  constructor; unfold MIN_LINE_SIZE; simpl; [lia|lia| |lia].
  split; [exists 6; lia|lia].
Defined.

(** A cache from the command line: never set, or accepted by the parser. *)
Definition clo_ok (c : cache_t) : Prop := c = UNDEFINED_CACHE \/ valid_cache c.

Lemma DEFINED_spec c : clo_ok c -> DEFINED c = true -> valid_cache c.
Proof. by intros [->|H] E. Qed.

Lemma override_valid desc c clo u :
  int_fields c -> clo_ok clo ->
  check_cache_or_override desc c (DEFINED clo) = Ok u ->
  valid_cache (if DEFINED clo then clo else c).
Proof.
  intros Hc Hclo H. destruct (DEFINED clo) eqn:E; [by apply DEFINED_spec|].
  apply rbind_ok in H as ([err|] & Hk & H); [done|]. by apply check_cache_sound.
Qed.

Lemma default_caches_int arch :
  let '(i, d, l) := default_caches arch in
  int_fields i /\ int_fields d /\ int_fields l.
Proof. destruct arch; unfold int_fields, in_s; simpl; lia. Qed.

Lemma configure_caches_int arch ci :
  let '(i, d, l) := configure_caches arch ci in
  int_fields i /\ int_fields d /\ int_fields l.
Proof.
  unfold configure_caches. pose proof (default_caches_int arch) as Hd.
  assert (forall a b c, int_fields (Cache (s32 a) (s32 b) (s32 c))) as Hs
    by (intros; split_and!; apply wraps_range; lia).
  destruct (locate_cache ci INSN_CACHE 1) as [i1|]; [|done].
  destruct (locate_cache ci DATA_CACHE 1) as [d1|]; [|done].
  destruct (locate_cache ci UNIFIED_CACHE (num_levels ci)) as [ll|]; [|done].
  split_and!; try apply Hs. destruct (is_trace_cache i1); [|by apply Hs].
  split_and!; [|apply wraps_range; lia|unfold in_s; simpl; lia].
  simpl. destruct (_ || _); unfold in_s; simpl; lia.
Qed.

Lemma maybe_tweak_LLc_int c c' :
  int_fields c -> maybe_tweak_LLc c = Ok c' -> int_fields c'.
Proof.
  intros Hc H. unfold maybe_tweak_LLc in H.
  case_match; [by simplify_eq|]. apply rbind_ok in H as (_ & _ & H).
  apply rbind_ok in H as (n & _ & H). case_match; [by simplify_eq|].
  apply rbind_ok in H as ([sz a] & _ & H). case_match; simplify_eq; [done|].
  split_and!; apply wraps_range; lia.
Qed.

(** Whatever was overridden, the three caches are valid. *)
Lemma configure_valid arch ci clo I1c D1c LLc :
  clo_ok (clo_I1c clo) -> clo_ok (clo_D1c clo) -> clo_ok (clo_LLc clo) ->
  VG_post_clo_init_configure_caches arch ci clo = Ok (I1c, D1c, LLc) ->
  valid_cache I1c /\ valid_cache D1c /\ valid_cache LLc.
Proof.
  intros HI HD HL H. unfold VG_post_clo_init_configure_caches in H.
  pose proof (configure_caches_int arch ci) as Hint.
  destruct (configure_caches arch ci) as [[i d] l]. destruct Hint as (Hi & Hd & Hl).
  apply rbind_ok in H as (l' & Hl' & H). apply maybe_tweak_LLc_int in Hl'; [|done].
  apply rbind_ok in H as (? & E1 & H). apply rbind_ok in H as (? & E2 & H).
  apply rbind_ok in H as (? & E3 & H).
  apply override_valid in E1, E2, E3; [|done..]. by simplify_eq.
Qed.

(** Whatever the hardware reports and the command line says, the caches
    [VG_(post_clo_init_configure_caches)] hands to the simulator are valid. *)
Theorem post_clo_init_valid (arch : VGA) (ci : VexCacheInfo) (clo : clo_caches)
    (I1c D1c LLc : cache_t) :
  clo_ok (clo_I1c clo) -> clo_ok (clo_D1c clo) -> clo_ok (clo_LLc clo) ->
  VG_post_clo_init_configure_caches arch ci clo = Ok (I1c, D1c, LLc) ->
  valid_cache I1c /\ valid_cache D1c /\ valid_cache LLc.
Proof. apply configure_valid. Qed.

Definition clo_none : clo_caches :=
  MkCloCaches UNDEFINED_CACHE UNDEFINED_CACHE UNDEFINED_CACHE.

Lemma post_clo_init_valid_witness :
  VG_post_clo_init_configure_caches VGA_amd64 (MkVexCacheInfo 0 []) clo_none
    = Ok (Cache 65536 2 64, Cache 65536 2 64, Cache 262144 8 64) /\
  (valid_cache (Cache 65536 2 64) /\ valid_cache (Cache 65536 2 64) /\
   valid_cache (Cache 262144 8 64)).
Proof.
  split; [vm_compute; reflexivity|].
  apply (post_clo_init_valid VGA_amd64 (MkVexCacheInfo 0 []) clo_none);
    [by left..|]. vm_compute. reflexivity.
Defined.

(** With no hardware information and no options, every supported
    architecture starts: the built-in defaults are accepted. *)
Theorem default_caches_accepted (arch : VGA) (n : Z) :
  is_ok (VG_post_clo_init_configure_caches arch (MkVexCacheInfo n []) clo_none) = true.
Proof. destruct arch; vm_compute; reflexivity. Qed.

(** C36. A zero associativity or line size is not rejected with a message:
    [check_cache] divides by zero before any of its tests runs, also for an
    auto-detected cache that the command line overrides. *)
Theorem check_cache_zero_divides (c : cache_t) (desc : string) (b : bool) :
  assoc c = 0 \/ line_size c = 0 ->
  check_cache c = Err DivByZero /\ check_cache_or_override desc c b = Err DivByZero.
Proof.
  intros H. assert (check_cache c = Err DivByZero) as E; [|].
  { unfold check_cache, int_mul. replace (line_size c * assoc c) with 0 by nia.
    reflexivity. }
  split; [done|]. unfold check_cache_or_override. by rewrite E.
Qed.

Lemma check_cache_zero_divides_witness :
  check_cache (Cache 65536 0 64) = Err DivByZero /\
  check_cache_or_override "D1" (Cache 65536 0 64) true = Err DivByZero.
Proof. apply (check_cache_zero_divides (Cache 65536 0 64) "D1" true). by left. Defined.
