(* ===== verification/Lru.v ===== *)
(** * Lru: the specification of a least-recently-used set

    Three descriptions of the same set, from concrete to declarative:
    [lru_touch] keeps [n] tags, most recent first; [recency] keeps every block
    ever touched in recency order; [reuse_hit] looks only at the history and
    counts the distinct blocks touched since the last use.  The simulator's
    tag array starts zeroed, which is the same as block 0 having been touched
    once before the first access: the history of every set ends in 0. *)

From Stdlib Require Import ZArith Lia.
From stdpp Require Import base numbers list.
From S2P Require Import Prelude.

#[local] Open Scope Z_scope.

(** A hit moves the tag to the front; a miss inserts it and drops the last. *)
Definition lru_touch (tag : Z) (set : list Z) : bool * list Z :=
  match list_find (eq tag) set with
  | Some (k, _) => (false, tag :: take k set ++ drop (S k) set)
  | None => (true, tag :: take (length set - 1) set)
  end.

(** The blocks of a history (most recent first) in recency order. *)
Fixpoint recency (h : list Z) : list Z :=
  match h with
  | [] => [0]
  | b :: h' => b :: filter (fun x => x <> b) (recency h')
  end.

(** What precedes the first occurrence of [b]. *)
Fixpoint before (b : Z) (l : list Z) : list Z :=
  match l with
  | [] => []
  | x :: l' => if decide (x = b) then [] else x :: before b l'
  end.

(** The number of distinct blocks touched since [b] was last touched. *)
Definition reuse_distance (b : Z) (h : list Z) : nat :=
  length (remove_dups (before b (h ++ [0]))).

(** [b] is still present in a set of [n] ways after history [h]. *)
Definition reuse_hit (n : nat) (h : list Z) (b : Z) : bool :=
  bool_decide (b ∈ h ++ [0]) && (reuse_distance b h <? n)%nat.

(** What a set of [n] ways holds after history [h]. *)
Definition lru_contents (n : nat) (h : list Z) : list Z :=
  take n (recency h ++ replicate n 0).

(** ** Recency order *)

Lemma recency_elem h x : x ∈ recency h <-> x ∈ h ++ [0].
Proof.
  induction h as [|b h IH]; simpl; [done|].
  rewrite !elem_of_cons, list_elem_of_filter, IH. destruct (decide (x = b)); naive_solver.
Qed.

Lemma recency_NoDup h : NoDup (recency h).
Proof.
  induction h as [|b h IH]; simpl; [apply NoDup_singleton|].
  constructor; [|by apply NoDup_filter]. rewrite list_elem_of_filter. naive_solver.
Qed.

Lemma before_elem_ne b l x : x ∈ before b l -> x <> b.
Proof.
  induction l as [|y l IH]; simpl; [by rewrite elem_of_nil|].
  case_decide; [by rewrite elem_of_nil|]. rewrite elem_of_cons. naive_solver.
Qed.

Lemma before_sublist b l : before b l `sublist_of` l.
Proof.
  induction l as [|y l IH]; simpl; [done|]. case_decide; [apply sublist_nil_l|].
  by constructor.
Qed.

Lemma before_filter_ne (b y : Z) (l : list Z) :
  y <> b -> before b (filter (fun x => x <> y) l) = filter (fun x => x <> y) (before b l).
Proof.
  intros Hy. induction l as [|x l IH]; [done|].
  rewrite filter_cons. destruct (decide (x <> y)) as [Hx|Hx]; simpl.
  - destruct (decide (x = b)); [done|]. rewrite filter_cons, decide_True by done.
    by rewrite IH.
  - apply dec_stable in Hx as ->. rewrite (decide_False (P := y = b)) by done.
    rewrite filter_cons, decide_False by tauto. done.
Qed.

(** In recency order, what precedes [b] is what the history touched since. *)
Lemma before_recency_elem b h x :
  x ∈ before b (recency h) <-> x ∈ before b (h ++ [0]).
Proof.
  induction h as [|y h IH]; simpl; [done|].
  destruct (decide (y = b)) as [->|Hy]; [done|].
  rewrite !elem_of_cons, before_filter_ne, list_elem_of_filter, IH by done.
  destruct (decide (x = y)); naive_solver.
Qed.

Lemma reuse_distance_recency b h : reuse_distance b h = length (before b (recency h)).
Proof.
  unfold reuse_distance. apply Permutation_length, NoDup_Permutation.
  - apply NoDup_remove_dups.
  - eapply sublist_NoDup; [apply recency_NoDup|apply before_sublist].
  - intros x. by rewrite elem_of_remove_dups, before_recency_elem.
Qed.

Lemma elem_of_take_before (b : Z) (l : list Z) (n : nat) :
  b ∈ take n l <-> b ∈ l /\ (length (before b l) < n)%nat.
Proof.
  revert n; induction l as [|x l IH]; intros [|n]; simpl.
  - rewrite elem_of_nil. naive_solver.
  - rewrite elem_of_nil. naive_solver.
  - rewrite elem_of_nil. naive_solver lia.
  - rewrite !elem_of_cons. destruct (decide (x = b)) as [->|Hx]; simpl.
    + naive_solver lia.
    + rewrite IH. naive_solver lia.
Qed.

Lemma reuse_hit_recency n h b :
  reuse_hit n h b = bool_decide (b ∈ take n (recency h)).
Proof.
  unfold reuse_hit. rewrite reuse_distance_recency.
  destruct (decide (b ∈ take n (recency h))) as [H|H];
    [rewrite (bool_decide_true (b ∈ take _ _)) by done
    |rewrite (bool_decide_false (b ∈ take _ _)) by done];
    rewrite elem_of_take_before, recency_elem in H.
  - rewrite bool_decide_true by tauto. simpl. apply Nat.ltb_lt. tauto.
  - destruct (decide (b ∈ h ++ [0])); [|by rewrite bool_decide_false].
    rewrite bool_decide_true by done. simpl. apply Nat.ltb_ge.
    destruct (decide (length (before b (recency h)) < n)%nat); [tauto|lia].
Qed.

(** ** The set refines the recency order *)

Lemma before_index b l k :
  l !! k = Some b -> (forall i y, l !! i = Some y -> (i < k)%nat -> y <> b) ->
  before b l = take k l.
Proof.
  revert k; induction l as [|x l IH]; intros [|k] Hk Hlt; simpl in *; try done.
  - simplify_eq. by rewrite decide_True.
  - rewrite decide_False by (apply (Hlt 0%nat); [done|lia]). f_equal.
    apply IH; [done|]. intros i y Hi Hik. apply (Hlt (S i)); [done|lia].
Qed.

Lemma filter_ne_absent (b : Z) (l : list Z) : b ∉ l -> filter (fun x => x <> b) l = l.
Proof.
  induction l as [|x l IH]; intros H; [done|].
  rewrite not_elem_of_cons in H. destruct H as [Hx H].
  rewrite filter_cons, decide_True by naive_solver. f_equal. by apply IH.
Qed.

Lemma filter_ne_NoDup (b : Z) (l : list Z) (k : nat) :
  NoDup l -> l !! k = Some b ->
  filter (fun x => x <> b) l = take k l ++ drop (S k) l.
Proof.
  intros Hnd Hk. pose proof (take_drop_middle _ _ _ Hk) as E.
  rewrite <- E in Hnd. apply NoDup_app in Hnd as (H1 & H2 & H3).
  apply NoDup_cons in H3 as [H3 _]. rewrite <- E at 1.
  rewrite filter_app, filter_cons, decide_False by tauto.
  rewrite !filter_ne_absent; [done|done|].
  intros Hin. apply (H2 b Hin). by left.
Qed.

Lemma zero_in_recency h : 0 ∈ recency h.
Proof. rewrite recency_elem, elem_of_app. right. by left. Qed.

(** A tag found in the set at [k] is the [k]-th block in recency order. *)
Lemma lru_contents_find n h b k x :
  list_find (eq b) (lru_contents n h) = Some (k, x) -> (k < n)%nat /\ recency h !! k = Some b.
Proof.
  intros H. apply list_find_Some in H as (Hk & <- & Hlt).
  assert (k < n)%nat as Hkn.
  { apply lookup_lt_Some in Hk. unfold lru_contents in Hk. rewrite length_take in Hk. lia. }
  split; [done|]. unfold lru_contents in Hk. rewrite lookup_take_lt in Hk by done.
  apply lookup_app_Some in Hk as [Hk|[Hge Hk]]; [done|exfalso].
  apply lookup_replicate in Hk as [-> _].
  destruct (list_elem_of_lookup_1 _ _ (zero_in_recency h)) as [i Hi].
  pose proof (lookup_lt_Some _ _ _ Hi) as Hil. apply (Hlt i 0); [|lia|done].
  unfold lru_contents. rewrite lookup_take_lt by lia. by apply lookup_app_l_Some.
Qed.

Lemma lru_contents_absent n h b :
  list_find (eq b) (lru_contents n h) = None -> b ∉ take n (recency h).
Proof.
  intros H Hin. apply list_find_None in H. rewrite Forall_forall in H.
  apply (H b); [|done]. unfold lru_contents. rewrite take_app, elem_of_app. by left.
Qed.

Lemma take_filter_ne_absent (b : Z) (l z : list Z) (m : nat) :
  b ∉ take (S m) l ->
  take m (filter (fun x => x <> b) l ++ z) = take m (l ++ z).
Proof.
  revert m; induction l as [|x l IH]; intros m H; [done|].
  simpl in H. rewrite not_elem_of_cons in H. destruct H as [Hx H].
  rewrite filter_cons, decide_True by naive_solver.
  destruct m as [|m]; [done|]. simpl. f_equal. by apply IH.
Qed.

Lemma lru_contents_length n h : length (lru_contents n h) = n.
Proof.
  unfold lru_contents. rewrite length_take, length_app, length_replicate. lia.
Qed.

Lemma take_remove_middle {A} (R z : list A) (n k : nat) :
  (k < length R)%nat -> (k <= n)%nat ->
  take k (take (S n) (R ++ z)) ++ drop (S k) (take (S n) (R ++ z)) =
  take n ((take k R ++ drop (S k) R) ++ z).
Proof.
  intros Hk Hn. rewrite take_take, Nat.min_l, take_app_le by lia.
  rewrite <- app_assoc, (take_app (take k R)), length_take, Nat.min_l by lia.
  rewrite take_take, Nat.min_r by lia. f_equal.
  rewrite <- drop_app_le, take_drop_commute by lia.
  by replace (S k + (n - k))%nat with (S n) by lia.
Qed.

(** One step: the flag is the declarative hit test, the set stays the first
    [n] blocks in recency order. *)
Lemma lru_touch_contents n h b :
  (1 <= n)%nat ->
  lru_touch b (lru_contents n h) = (negb (reuse_hit n h b), lru_contents n (b :: h)).
Proof.
  intros Hn. unfold lru_touch. rewrite reuse_hit_recency, lru_contents_length.
  destruct n as [|n]; [lia|].
  assert (lru_contents (S n) (b :: h) =
    b :: take n (filter (fun x => x <> b) (recency h) ++ replicate (S n) 0)) as E' by done.
  rewrite E'. clear E'.
  destruct (list_find (eq b) (lru_contents (S n) h)) as [[k x]|] eqn:E.
  - apply lru_contents_find in E as [Hk Hl].
    rewrite bool_decide_true.
    2: { apply (list_elem_of_lookup_2 _ k). by rewrite lookup_take_lt. }
    rewrite (filter_ne_NoDup b _ k) by (done || apply recency_NoDup).
    pose proof (lookup_lt_Some _ _ _ Hl) as Hlt.
    cbn [negb]. do 2 f_equal. apply take_remove_middle; lia.
  - apply lru_contents_absent in E. rewrite bool_decide_false by done.
    cbn [negb]. do 2 f_equal. unfold lru_contents.
    rewrite take_filter_ne_absent, take_take by done. f_equal. lia.
Qed.

(** ** Inclusion *)

(** Filtering a history further cannot bring more blocks between two uses of
    a block it keeps. *)
Lemma before_filter_mono (P Q : Z -> bool) (b : Z) (h : list Z) (x : Z) :
  P b = true -> (forall y, P y = true -> Q y = true) ->
  x ∈ before b (List.filter P h ++ [0]) -> x ∈ before b (List.filter Q h ++ [0]).
Proof.
  intros Hb Himp. induction h as [|y h IH]; [done|]. simpl.
  destruct (decide (y = b)) as [->|Hy].
  { rewrite Hb, (Himp b Hb). simpl. rewrite !decide_True by done. done. }
  destruct (P y) eqn:EP; simpl.
  - rewrite (Himp y EP). simpl. rewrite !decide_False by done.
    rewrite !elem_of_cons. intros [?|?]; [by left|right; by apply IH].
  - destruct (Q y); simpl; [rewrite decide_False, elem_of_cons by done|];
      intros ?; [right|]; by apply IH.
Qed.

Lemma filter_keeps_block (P : Z -> bool) (b : Z) (h : list Z) :
  P b = true -> b ∈ h ++ [0] -> b ∈ List.filter P h ++ [0].
Proof.
  intros Hb. rewrite !elem_of_app, !list_elem_of_In, filter_In. naive_solver.
Qed.

Lemma filter_sub_history (P : Z -> bool) (b : Z) (h : list Z) :
  b ∈ List.filter P h ++ [0] -> b ∈ h ++ [0].
Proof. rewrite !elem_of_app, !list_elem_of_In, filter_In. naive_solver. Qed.

(** A set that sees fewer other blocks and has at least as many ways hits
    whenever the other one does. *)
Lemma reuse_hit_mono (P Q : Z -> bool) (b : Z) (h : list Z) (m n : nat) :
  P b = true -> (forall y, P y = true -> Q y = true) -> (m <= n)%nat ->
  reuse_hit m (List.filter Q h) b = true -> reuse_hit n (List.filter P h) b = true.
Proof.
  intros Hb Himp Hmn. unfold reuse_hit. rewrite !andb_true_iff, !bool_decide_eq_true.
  rewrite !Nat.ltb_lt. intros [Hin Hd]. split.
  - apply filter_keeps_block; [done|]. by eapply filter_sub_history.
  - eapply Nat.le_lt_trans; [|eapply Nat.lt_le_trans; [exact Hd|exact Hmn]].
    unfold reuse_distance. apply submseteq_length, NoDup_submseteq;
      [apply NoDup_remove_dups|].
    intros x. rewrite !elem_of_remove_dups. by apply before_filter_mono.
Qed.
