(* ===== verification/CgSim.v ===== *)
(** * CgSim: the cache simulator (valgrind/cachegrind/cg_sim.c)

    One simulated cache is a flat array of tags, [assoc] consecutive tags per
    set, most recently used first.  The loops of
    [cachesim_setref_is_miss] work in place on that array; every access goes
    through [arr_get]/[arr_set], so an index outside the array is a fault. *)

From Stdlib Require Import ZArith Lia Ascii String.
From stdpp Require Import base numbers strings list.
From S2P Require Import Prelude Libcbase Debuglog CgArch Lru.

#[local] Open Scope Z_scope.

(** ** Data *)

Record cache_t2 : Type := Cache2 {
  t2_size : Z;             (* bytes *)
  t2_assoc : Z;
  t2_line_size : Z;        (* bytes *)
  sets : Z;
  sets_min_1 : Z;
  line_size_bits : Z;
  tag_shift : Z;
  desc_line : string;
  tags : list Z            (* UWord[sets * assoc] *)
}.

Definition set_tags (c : cache_t2) (t : list Z) : cache_t2 :=
  Cache2 (t2_size c) (t2_assoc c) (t2_line_size c) (sets c) (sets_min_1 c)
         (line_size_bits c) (tag_shift c) (desc_line c) t.

(** ** Operations *)

Definition cachesim_initcache (config : cache_t) : res cache_t2 :=
  let! lines := int_div (size config) (line_size config) in
  let! nsets := int_div lines (assoc config) in
  let! min_1 := int_sub nsets 1 in
  let bits := VG_log2 (u32 (line_size config)) in
  let desc :=
    if assoc config =? 1
    then (fmt_d (size config) ++ " B, " ++ fmt_d (line_size config)
            ++ " B, direct-mapped")%string
    else (fmt_d (size config) ++ " B, " ++ fmt_d (line_size config)
            ++ " B, " ++ fmt_d (assoc config) ++ "-way associative")%string in
  let! n := int_mul nsets (assoc config) in
  Ok (Cache2 (size config) (assoc config) (line_size config) nsets min_1 bits
        (bits + VG_log2 (u32 nsets)) desc (replicate (Z.to_nat n) 0)).

(** [for (j = j0; j > 0; j--) set[j] = set[j - 1];] where [set] starts at
    [base]. *)
Fixpoint shuffle_down (t : list Z) (base : Z) (j : nat) : res (list Z) :=
  match j with
  | O => Ok t
  | S j' =>
      let! v := arr_get t (base + Z.of_nat j') in
      let! t' := arr_set t (base + Z.of_nat j) v in
      shuffle_down t' base j'
  end.

(** Shuffle the first [j] tags down and put [tag] into the MRU spot. *)
Definition move_to_front (t : list Z) (base : Z) (j : nat) (tag : Z) : res (list Z) :=
  let! t' := shuffle_down t base j in
  arr_set t' base tag.

(** The search loop from way [i] on, [fuel] ways left. *)
Fixpoint find_way (t : list Z) (base tag i : Z) (fuel : nat) : res (option Z) :=
  match fuel with
  | O => Ok None
  | S fuel' =>
      let! v := arr_get t (base + i) in
      if tag =? v then Ok (Some i) else find_way t base tag (i + 1) fuel'
  end.

Definition cachesim_setref_is_miss (c : cache_t2) (set_no tag : Z)
  : res (bool * cache_t2) :=
  let base := u32 (set_no * u32 (t2_assoc c)) in
  let! v0 := arr_get (tags c) base in
  if tag =? v0 then Ok (false, c) else
  let! way := find_way (tags c) base tag 1 (Z.to_nat (t2_assoc c - 1)) in
  match way with
  | Some i =>
      let! t := move_to_front (tags c) base (Z.to_nat i) tag in
      Ok (false, set_tags c t)
  | None =>
      let! t := move_to_front (tags c) base (Z.to_nat (t2_assoc c - 1)) tag in
      Ok (true, set_tags c t)
  end.

Definition cachesim_ref_is_miss (c : cache_t2) (a sz : Z) : res (bool * cache_t2) :=
  let block1 := Z.shiftr a (line_size_bits c) in
  let block2 := Z.shiftr (u64 (a + sz - 1)) (line_size_bits c) in
  let set1 := u32 (Z.land block1 (u64 (sets_min_1 c))) in
  let tag1 := block1 in
  if block1 =? block2 then cachesim_setref_is_miss c set1 tag1
  else if u64 (block1 + 1) =? block2 then
    let set2 := u32 (Z.land block2 (u64 (sets_min_1 c))) in
    let tag2 := block2 in
    let! (miss1, c) := cachesim_setref_is_miss c set1 tag1 in
    if (miss1 : bool) then
      let! (_, c) := cachesim_setref_is_miss c set2 tag2 in Ok (true, c)
    else cachesim_setref_is_miss c set2 tag2
  else Err (Panic "item straddles more than two cache sets").

(** The three caches the tool keeps in static variables. *)
Record caches3 : Type := Caches3 { I1 : cache_t2; D1 : cache_t2; LL : cache_t2 }.

Definition cachesim_initcaches (I1c D1c LLc : cache_t) : res caches3 :=
  let! i := cachesim_initcache I1c in
  let! d := cachesim_initcache D1c in
  let! l := cachesim_initcache LLc in
  Ok (Caches3 i d l).

(** The [ULong* m1, ULong* mL] out-parameters: the counters before and after. *)
Definition misses : Type := (Z * Z)%type.

Definition cachesim_I1_doref_Gen (s : caches3) (a sz : Z) (m : misses)
  : res (caches3 * misses) :=
  let '(m1, mL) := m in
  let! (miss, i1) := cachesim_ref_is_miss (I1 s) a sz in
  let s := Caches3 i1 (D1 s) (LL s) in
  if (miss : bool) then
    let m1 := u64 (m1 + 1) in
    let! (missL, ll) := cachesim_ref_is_miss (LL s) a sz in
    Ok (Caches3 (I1 s) (D1 s) ll, (m1, if (missL : bool) then u64 (mL + 1) else mL))
  else Ok (s, (m1, mL)).

Definition cachesim_I1_doref_NoX (s : caches3) (a sz : Z) (m : misses)
  : res (caches3 * misses) :=
  let '(m1, mL) := m in
  let block := Z.shiftr a (line_size_bits (I1 s)) in
  let I1_set := u32 (Z.land block (u64 (sets_min_1 (I1 s)))) in
  let! (miss, i1) := cachesim_setref_is_miss (I1 s) I1_set block in
  let s := Caches3 i1 (D1 s) (LL s) in
  if (miss : bool) then
    let LL_set := u32 (Z.land block (u64 (sets_min_1 (LL s)))) in
    let m1 := u64 (m1 + 1) in
    let! (missL, ll) := cachesim_setref_is_miss (LL s) LL_set block in
    Ok (Caches3 (I1 s) (D1 s) ll, (m1, if (missL : bool) then u64 (mL + 1) else mL))
  else Ok (s, (m1, mL)).

Definition cachesim_D1_doref (s : caches3) (a sz : Z) (m : misses)
  : res (caches3 * misses) :=
  let '(m1, mL) := m in
  let! (miss, d1) := cachesim_ref_is_miss (D1 s) a sz in
  let s := Caches3 (I1 s) d1 (LL s) in
  if (miss : bool) then
    let m1 := u64 (m1 + 1) in
    let! (missL, ll) := cachesim_ref_is_miss (LL s) a sz in
    Ok (Caches3 (I1 s) (D1 s) ll, (m1, if (missL : bool) then u64 (mL + 1) else mL))
  else Ok (s, (m1, mL)).

Definition cachesim_is_IrNoX (s : caches3) (a sz : Z) : bool :=
  if negb (line_size_bits (I1 s) =? line_size_bits (LL s)) then false else
  let block1 := Z.shiftr a (line_size_bits (I1 s)) in
  let block2 := Z.shiftr (u64 (a + sz - 1)) (line_size_bits (I1 s)) in
  if negb (block1 =? block2) then false else true.

(** ** One set: the loops implement LRU *)

(** A set inside the array. *)
Section Segment.
Variables (pre post : list Z) (base : Z).
Hypothesis Hbase : base = Z.of_nat (length pre).

Lemma seg_get (set : list Z) (i : nat) v :
  set !! i = Some v -> arr_get (pre ++ set ++ post) (base + Z.of_nat i) = Ok v.
Proof using Hbase.
  intros Hv. rewrite Hbase, <- Nat2Z.inj_add. apply arr_get_nat.
  rewrite lookup_app_r by lia. rewrite Nat.add_comm, Nat.add_sub.
  by apply lookup_app_l_Some.
Qed.

Lemma seg_set (set : list Z) (i : nat) v :
  (i < length set)%nat ->
  arr_set (pre ++ set ++ post) (base + Z.of_nat i) v =
    Ok (pre ++ <[i := v]> set ++ post).
Proof using Hbase.
  intros Hi. rewrite Hbase, <- Nat2Z.inj_add. rewrite arr_set_nat.
  - rewrite insert_app_r, insert_app_l by done. done.
  - rewrite !length_app. lia.
Qed.

Lemma move_to_front_spec (set : list Z) (k : nat) tag :
  (k < length set)%nat ->
  move_to_front (pre ++ set ++ post) base k tag =
    Ok (pre ++ (tag :: take k set ++ drop (S k) set) ++ post).
Proof using Hbase.
  revert set; induction k as [|k IH]; intros set Hk; unfold move_to_front.
  - simpl. rewrite <- (Z.add_0_r base). change 0 with (Z.of_nat 0).
    rewrite seg_set by done. destruct set; [simpl in Hk; lia|done].
  - cbn [shuffle_down].
    destruct (lookup_lt_is_Some_2 set k ltac:(lia)) as [v Hv].
    rewrite (seg_get set k v) by done. cbn [rbind].
    rewrite seg_set by done. cbn [rbind].
    specialize (IH (<[S k := v]> set)). unfold move_to_front in IH.
    rewrite IH by (rewrite length_insert; lia).
    do 4 f_equal. rewrite take_insert_ge by lia.
    rewrite (take_S_r _ _ v) by done. rewrite <- app_assoc. f_equal.
    rewrite (drop_S (<[S k := v]> set) v) by (by apply list_lookup_insert_eq).
    simpl. f_equal. by rewrite drop_insert_lt by lia.
Qed.

Lemma find_way_spec (set : list Z) tag (i : nat) :
  (i <= length set)%nat ->
  find_way (pre ++ set ++ post) base tag (Z.of_nat i) (length set - i) =
    Ok (match list_find (eq tag) (drop i set) with
        | Some (k, _) => Some (Z.of_nat (i + k))
        | None => None
        end).
Proof using Hbase.
  remember (length set - i)%nat as n eqn:Hn. revert i Hn.
  induction n as [|n IH]; intros i Hn Hi.
  - rewrite drop_ge by lia. done.
  - destruct (lookup_lt_is_Some_2 set i ltac:(lia)) as [v Hv].
    cbn [find_way]. rewrite (seg_get set i v) by done. cbn [rbind].
    rewrite (drop_S _ _ _ Hv). cbn [list_find].
    destruct (Z.eqb_spec tag v).
    + rewrite decide_True by done. do 2 f_equal. lia.
    + rewrite decide_False by done.
      replace (Z.of_nat i + 1) with (Z.of_nat (S i)) by lia.
      rewrite IH by lia.
      destruct (list_find (eq tag) (drop (S i) set)) as [[k x]|]; simpl; [|done].
      do 2 f_equal. lia.
Qed.
End Segment.

(** ** Well-formed caches *)

Record wf_cache2 (c : cache_t2) : Prop := {
  wf_assoc : 1 <= t2_assoc c;
  wf_bits : 4 <= line_size_bits c < 31;
  wf_line : t2_line_size c = 2 ^ line_size_bits c;
  wf_sets : is_pow2 (sets c);
  wf_min_1 : sets_min_1 c = sets c - 1;
  wf_len : Z.of_nat (length (tags c)) = sets c * t2_assoc c;
  wf_size : sets c * t2_assoc c < 2 ^ 27
}.

(** The number of ways, and the tags of set [s]. *)
Definition ways (c : cache_t2) : nat := Z.to_nat (t2_assoc c).
Definition slice (c : cache_t2) (s : Z) : list Z :=
  take (ways c) (drop (Z.to_nat s * ways c) (tags c)).
Definition put_slice (c : cache_t2) (s : Z) (set : list Z) : cache_t2 :=
  set_tags c (take (Z.to_nat s * ways c) (tags c) ++ set
              ++ drop (S (Z.to_nat s) * ways c) (tags c)).

Lemma wf_set_end c s : wf_cache2 c -> 0 <= s < sets c ->
  (S (Z.to_nat s) * ways c <= length (tags c))%nat.
Proof.
  intros [Ha _ _ _ _ Hl _] Hs. unfold ways. apply Nat2Z.inj_le.
  rewrite Hl, Nat2Z.inj_mul, Nat2Z.inj_succ, !Z2Nat.id by lia. nia.
Qed.

Lemma slice_length c s : wf_cache2 c -> 0 <= s < sets c -> length (slice c s) = ways c.
Proof.
  intros Hw Hs. pose proof (wf_set_end c s Hw Hs).
  unfold slice. rewrite length_take, length_drop. lia.
Qed.

Lemma tags_split c s : wf_cache2 c -> 0 <= s < sets c ->
  tags c = take (Z.to_nat s * ways c) (tags c) ++ slice c s
           ++ drop (S (Z.to_nat s) * ways c) (tags c).
Proof.
  intros Hw Hs. unfold slice.
  replace (S (Z.to_nat s) * ways c)%nat with (Z.to_nat s * ways c + ways c)%nat by lia.
  rewrite <- (drop_drop (tags c)). by rewrite !take_drop.
Qed.

Lemma set_tags_id c : set_tags c (tags c) = c.
Proof. by destruct c. Qed.

Lemma set_tags_twice c t t' : set_tags (set_tags c t) t' = set_tags c t'.
Proof. done. Qed.

(** [cachesim_setref_is_miss] never faults on a well-formed cache and is the
    LRU step on the addressed set. *)
Lemma setref_lru c s tag :
  wf_cache2 c -> 0 <= s < sets c ->
  cachesim_setref_is_miss c s tag =
    Ok (fst (lru_touch tag (slice c s)),
        put_slice c s (snd (lru_touch tag (slice c s)))).
Proof.
  intros Hw Hs. pose proof (slice_length c s Hw Hs) as Hlen.
  pose proof (tags_split c s Hw Hs) as Ht. pose proof (wf_set_end c s Hw Hs) as He.
  destruct Hw as [Ha _ _ _ _ _ Hsz]. unfold cachesim_setref_is_miss, put_slice, lru_touch.
  rewrite !u32_nonneg; [|nia|rewrite u32_nonneg; nia].
  set (pre := take (Z.to_nat s * ways c) (tags c)) in *.
  set (post := drop (S (Z.to_nat s) * ways c) (tags c)) in *.
  set (set := slice c s) in *.
  assert (s * t2_assoc c = Z.of_nat (length pre)) as Hb.
  { subst pre. rewrite length_take. unfold ways in *. rewrite Nat.min_l by lia.
    rewrite Nat2Z.inj_mul, !Z2Nat.id; lia. }
  rewrite Ht. destruct set as [|v0 rest] eqn:Eset; [unfold ways in Hlen; simpl in Hlen; lia|].
  rewrite <- (Z.add_0_r (s * t2_assoc c)) at 1. change 0 with (Z.of_nat 0) at 1.
  rewrite (seg_get pre post _ Hb (v0 :: rest) 0 v0) by done. cbn [rbind list_find].
  destruct (Z.eqb_spec tag v0) as [->|Hne].
  { rewrite decide_True by done. cbn [fst snd].
    change (v0 :: take 0 (v0 :: rest) ++ drop 1 (v0 :: rest)) with (v0 :: rest).
    rewrite <- Ht. by rewrite set_tags_id. }
  rewrite decide_False by done.
  replace (Z.to_nat (t2_assoc c - 1)) with (length (v0 :: rest) - 1)%nat
    by (unfold ways in Hlen; lia).
  change 1 with (Z.of_nat 1) at 1.
  rewrite (find_way_spec pre post _ Hb (v0 :: rest) tag 1) by (simpl; lia).
  cbn [drop rbind]. rewrite drop_0.
  destruct (list_find (eq tag) rest) as [[k x]|] eqn:Ef; simpl fmap.
  - apply list_find_Some in Ef as (Hk & _). apply lookup_lt_Some in Hk.
    rewrite Nat2Z.id, move_to_front_spec by (done || (simpl; lia)). done.
  - rewrite move_to_front_spec by (done || (simpl; lia)).
    rewrite (drop_ge _ (S (length (v0 :: rest) - 1))) by (simpl; lia).
    cbn [rbind fst snd]. by rewrite app_nil_r.
Qed.

(** The parameters other than the tags never change. *)
Record same_geometry (c c' : cache_t2) : Prop := {
  sg_assoc : t2_assoc c' = t2_assoc c;
  sg_line : t2_line_size c' = t2_line_size c;
  sg_sets : sets c' = sets c;
  sg_min_1 : sets_min_1 c' = sets_min_1 c;
  sg_bits : line_size_bits c' = line_size_bits c
}.

Lemma same_geometry_refl c : same_geometry c c.
Proof. done. Qed.

Lemma same_geometry_trans c1 c2 c3 :
  same_geometry c1 c2 -> same_geometry c2 c3 -> same_geometry c1 c3.
Proof. intros [] []. constructor; congruence. Qed.

Lemma put_slice_geometry c s l : same_geometry c (put_slice c s l).
Proof. done. Qed.

Lemma lru_touch_length tag set :
  set <> [] -> length (snd (lru_touch tag set)) = length set.
Proof.
  intros Hne. unfold lru_touch.
  destruct (list_find (eq tag) set) as [[k x]|] eqn:E; simpl.
  - apply list_find_Some in E as (Hk & _). apply lookup_lt_Some in Hk.
    rewrite length_app, length_take, length_drop. lia.
  - rewrite length_take. destruct set; [done|simpl; lia].
Qed.

Lemma put_slice_wf c s l :
  wf_cache2 c -> 0 <= s < sets c -> length l = ways c -> wf_cache2 (put_slice c s l).
Proof.
  intros Hw Hs Hl. pose proof (wf_set_end c s Hw Hs).
  destruct Hw as [? ? ? ? ? Hlen ?]. constructor; simpl; try done.
  rewrite !length_app, length_take, length_drop, Hl. rewrite <- Hlen. lia.
Qed.

Lemma slice_put_eq c s l :
  wf_cache2 c -> 0 <= s < sets c -> length l = ways c ->
  slice (put_slice c s l) s = l.
Proof.
  intros Hw Hs Hl. pose proof (wf_set_end c s Hw Hs). unfold slice at 1.
  change (ways (put_slice c s l)) with (ways c). simpl tags.
  rewrite drop_app_length' by (rewrite length_take; lia).
  by rewrite take_app_length'.
Qed.

Lemma slice_put_ne c s s' l :
  wf_cache2 c -> 0 <= s < sets c -> 0 <= s' < sets c -> s <> s' ->
  length l = ways c -> slice (put_slice c s l) s' = slice c s'.
Proof.
  intros Hw Hs Hs' Hne Hl. pose proof (wf_set_end c s Hw Hs).
  pose proof (wf_set_end c s' Hw Hs'). unfold slice.
  change (ways (put_slice c s l)) with (ways c). simpl tags.
  apply list_eq. intros i. destruct (decide (i < ways c)%nat); cycle 1.
  { by rewrite !lookup_take_ge by lia. }
  rewrite !lookup_take_lt, !lookup_drop by lia.
  assert (Z.to_nat s <> Z.to_nat s') as Hne' by lia.
  destruct (decide (Z.to_nat s' < Z.to_nat s)%nat).
  - assert (S (Z.to_nat s') * ways c <= Z.to_nat s * ways c)%nat by nia.
    rewrite lookup_app_l by (rewrite length_take; lia).
    by rewrite lookup_take_lt by lia.
  - assert (S (Z.to_nat s) * ways c <= Z.to_nat s' * ways c)%nat by nia.
    rewrite lookup_app_r by (rewrite length_take; lia).
    rewrite lookup_app_r by (rewrite length_take; lia).
    rewrite lookup_drop. f_equal. rewrite length_take. lia.
Qed.

(** ** The whole cache against the history *)

(** The geometry a cache is built with. *)
Record geom : Type := Geom { g_sets : Z; g_ways : nat; g_bits : Z }.

Definition geom_of (c : cache_t2) : geom := Geom (sets c) (ways c) (line_size_bits c).

Definition in_set (n s b : Z) : bool := b mod n =? s.

(** The history of the set block [b] maps to. *)
Definition set_history (g : geom) (h : list Z) (b : Z) : list Z :=
  List.filter (in_set (g_sets g) (b mod g_sets g)) h.

(** LRU as a statement about histories: [b] hits if fewer than [g_ways]
    distinct blocks of its set were touched since its last use. *)
Definition geom_hit (g : geom) (h : list Z) (b : Z) : bool :=
  reuse_hit (g_ways g) (set_history g h b) b.

(** The cache holds what LRU keeps of the block history [h], set by set. *)
Record cache_hist (c : cache_t2) (h : list Z) : Prop := {
  ch_wf : wf_cache2 c;
  ch_slices : forall s, 0 <= s < sets c ->
    slice c s = lru_contents (ways c) (List.filter (in_set (sets c) s) h)
}.

Lemma wf_ways c : wf_cache2 c -> (1 <= ways c)%nat.
Proof. intros [Ha _ _ _ _ _ _]. unfold ways. lia. Qed.

Lemma wf_sets_bound c : wf_cache2 c -> 0 < sets c < 2 ^ 27.
Proof.
  intros [Ha _ _ Hs _ _ Hm]. apply is_pow2_pos in Hs. nia.
Qed.

(** The set number the code computes by masking is the remainder. *)
Lemma set_number c b :
  wf_cache2 c -> u32 (Z.land b (u64 (sets_min_1 c))) = b mod sets c.
Proof.
  intros Hw. pose proof (wf_sets_bound c Hw) as Hb.
  destruct Hw as [_ _ _ (k & Hk & Hs) Hm _ _].
  rewrite (wrapu_small 64) by (unfold in_u; lia). rewrite Hm, Hs.
  rewrite land_pow2_pred, <- Hs by done. apply u32_nonneg.
  pose proof (Z.mod_pos_bound b (sets c)). lia.
Qed.

Lemma setref_hist c h b :
  cache_hist c h ->
  exists c', cachesim_setref_is_miss c (b mod sets c) b
               = Ok (negb (geom_hit (geom_of c) h b), c') /\
             same_geometry c c' /\ cache_hist c' (b :: h).
Proof.
  intros [Hw Hsl]. pose proof (wf_sets_bound c Hw) as Hb.
  pose proof (Z.mod_pos_bound b (sets c) ltac:(lia)) as Hs.
  rewrite setref_lru by done. rewrite Hsl by done.
  rewrite lru_touch_contents by (by apply wf_ways). cbn [fst snd].
  eexists. split_and!; [done|done|].
  assert (length (lru_contents (ways c)
    (b :: List.filter (in_set (sets c) (b mod sets c)) h)) = ways c) as Hl
    by apply lru_contents_length.
  constructor; [by apply put_slice_wf|]. intros s Hs'.
  change (ways (put_slice c _ _)) with (ways c).
  change (sets (put_slice c _ _)) with (sets c).
  change (List.filter (in_set (sets c) s) (b :: h)) with
    (if in_set (sets c) s b then b :: List.filter (in_set (sets c) s) h
     else List.filter (in_set (sets c) s) h).
  unfold in_set at 2. destruct (Z.eqb_spec (b mod sets c) s) as [<-|Hne].
  - by apply slice_put_eq.
  - rewrite slice_put_ne by done. by apply Hsl.
Qed.

(** ** Memory references *)

(** The reference touches bytes [a .. a + sz - 1], at most one line long, inside
    the 64-bit address space. *)
Record access_ok (bits a sz : Z) : Prop := {
  ao_addr : 0 <= a;
  ao_size : 1 <= sz <= 2 ^ bits;
  ao_end : a + sz - 1 < 2 ^ 64
}.

(** A reference to one or two lines: it misses if any of its lines does; both
    lines are touched in order. *)
Definition spec_ref (g : geom) (h : list Z) (a sz : Z) : bool * list Z :=
  let b1 := a / 2 ^ g_bits g in
  let b2 := (a + sz - 1) / 2 ^ g_bits g in
  if b1 =? b2 then (negb (geom_hit g h b1), b1 :: h)
  else (negb (geom_hit g h b1) || negb (geom_hit g (b1 :: h) b2), b2 :: b1 :: h).

Lemma access_blocks bits a sz :
  0 <= bits -> access_ok bits a sz ->
  a / 2 ^ bits <= (a + sz - 1) / 2 ^ bits <= a / 2 ^ bits + 1.
Proof.
  intros Hb [Ha Hs He]. assert (0 < 2 ^ bits) by (apply Z.pow_pos_nonneg; lia).
  split; [apply Z.div_le_mono; lia|].
  rewrite <- (Z.div_add a 1 (2 ^ bits)) by lia. apply Z.div_le_mono; lia.
Qed.

Lemma geom_same c c' : same_geometry c c' -> geom_of c' = geom_of c.
Proof. intros [Ha Hl Hs Hm Hb]. unfold geom_of, ways. by rewrite Ha, Hs, Hb. Qed.

(** A reference never faults and behaves as specified. *)
Lemma ref_hist c h a sz :
  cache_hist c h -> access_ok (line_size_bits c) a sz ->
  exists c', cachesim_ref_is_miss c a sz
               = Ok (fst (spec_ref (geom_of c) h a sz), c') /\
             same_geometry c c' /\ cache_hist c' (snd (spec_ref (geom_of c) h a sz)).
Proof.
  intros Hc Ha. pose proof (ch_wf _ _ Hc) as Hw.
  assert (0 <= line_size_bits c) as Hb by (destruct Hw; lia).
  pose proof (access_blocks _ _ _ Hb Ha) as Hblk. destruct Ha as [Ha0 Hs0 He0].
  unfold cachesim_ref_is_miss, spec_ref. simpl g_bits.
  rewrite (wrapu_small 64 (a + sz - 1)) by (unfold in_u; lia).
  rewrite !Z.shiftr_div_pow2 by done. rewrite !set_number by done.
  set (b1 := a / _) in *. set (b2 := (a + sz - 1) / _) in *.
  assert (0 <= b1) by (apply Z.div_pos; [lia|apply Z.pow_pos_nonneg; lia]).
  destruct (setref_hist c h b1 Hc) as (c1 & E1 & G1 & H1).
  destruct (Z.eqb_spec b1 b2) as [Heq|Hne]; [by exists c1|].
  assert (b2 < 2 ^ 60).
  { apply Z.div_lt_upper_bound; [apply Z.pow_pos_nonneg; lia|].
    pose proof (Z.pow_le_mono_r 2 4 (line_size_bits c) ltac:(lia)
      ltac:(destruct Hw; lia)). nia. }
  rewrite (wrapu_small 64 (b1 + 1)) by (unfold in_u; lia).
  destruct (Z.eqb_spec (b1 + 1) b2); [|lia].
  destruct (setref_hist c1 (b1 :: h) b2 H1) as (c2 & E2 & G2 & H2).
  rewrite (geom_same _ _ G1) in E2. replace (sets c1) with (sets c) in E2
    by (symmetry; apply G1).
  exists c2. rewrite E1. cbn [rbind].
  destruct (negb (geom_hit (geom_of c) h b1)) eqn:Em; rewrite E2; cbn [rbind orb fst snd];
    split_and!; eauto using same_geometry_trans.
Qed.

(** ** Initialisation *)

Lemma filter_nil_history n s : List.filter (in_set n s) [] = [].
Proof. done. Qed.

Lemma slice_zero (n m k : nat) :
  (m + k <= n)%nat -> take k (drop m (replicate n (0 : Z))) = replicate k 0.
Proof.
  intros H. rewrite drop_replicate, take_replicate. f_equal. lia.
Qed.

Lemma lru_contents_empty n : lru_contents n [] = replicate n 0.
Proof.
  unfold lru_contents. simpl. change (0 :: replicate n 0) with (replicate (S n) 0).
  rewrite take_replicate. f_equal. lia.
Qed.

(** A valid configuration initialises to the empty history. *)
Lemma initcache_hist cfg :
  valid_cache cfg ->
  exists c, cachesim_initcache cfg = Ok c /\ cache_hist c [] /\
    t2_assoc c = assoc cfg /\ t2_line_size c = line_size cfg /\
    size cfg = line_size cfg * assoc cfg * sets c.
Proof.
  intros Hv. pose proof (valid_assoc_le_size cfg Hv) as Has.
  destruct Hv as [(b & Hb & Hl) Hm Ha (s & Hs & Hsz) Hmax].
  unfold MIN_LINE_SIZE in Hm. pose proof (is_pow2_pos _ Hs) as Hs0.
  assert (0 < assoc cfg * s) as Hn0 by nia.
  assert (16 * (assoc cfg * s) <= line_size cfg * (assoc cfg * s)) as Hn16
    by (apply Z.mul_le_mono_nonneg_r; lia).
  assert (assoc cfg * s < 2 ^ 27) as Hn by lia.
  assert (line_size cfg <= size cfg) by nia.
  assert (4 <= b < 31) as Hbb.
  { split; [apply (Z.pow_le_mono_r_iff 2)|apply (Z.pow_lt_mono_r_iff 2)]; lia. }
  assert (Z.quot (size cfg) (line_size cfg) = assoc cfg * s) as E1.
  { rewrite Hsz. rewrite <- Z.mul_assoc, Z.mul_comm, Z.quot_mul; lia. }
  assert (Z.quot (assoc cfg * s) (assoc cfg) = s) as E2
    by (rewrite Z.mul_comm, Z.quot_mul; lia).
  assert (forall y, 0 <= y < 2 ^ 27 -> in_s 32 y) as Hin
    by (intros; apply in_s32; lia).
  unfold cachesim_initcache, int_sub, int_mul.
  rewrite (proj2 (int_div_ok (size cfg) (line_size cfg) (assoc cfg * s))); cycle 1.
  { rewrite E1. split_and!; [lia|apply Hin; nia|done]. }
  cbn [rbind]. rewrite (proj2 (int_div_ok (assoc cfg * s) (assoc cfg) s)); cycle 1.
  { rewrite E2. split_and!; [lia|apply Hin; nia|done]. }
  cbn [rbind]. rewrite !signed_result_in by (apply Hin; nia).
  cbn [rbind]. eexists. split; [done|].
  assert (VG_log2 (u32 (line_size cfg)) = b) as Hlog.
  { rewrite u32_nonneg, Hl by lia. apply VG_log2_pow2. lia. }
  split_and!; [|done..]. constructor.
  - constructor; cbn; rewrite ?Hlog; try done; try nia.
    rewrite length_replicate, Z2Nat.id; nia.
  - intros n Hrange. rewrite filter_nil_history, lru_contents_empty. unfold slice.
    cbn in *. apply slice_zero. unfold ways. cbn. apply Nat2Z.inj_le.
    rewrite Nat2Z.inj_add, Nat2Z.inj_mul, !Z2Nat.id by nia. nia.
Qed.

(** ** Traces *)

(** The tool calls [cachesim_ref_is_miss] once per reference: the miss flag of
    each reference of a trace of (address, size) pairs. *)
Fixpoint sim_run (c : cache_t2) (tr : list (Z * Z)) : res (list bool * cache_t2) :=
  match tr with
  | [] => Ok ([], c)
  | (a, sz) :: tr' =>
      let! (miss, c) := cachesim_ref_is_miss c a sz in
      let! (flags, c) := sim_run c tr' in
      Ok (miss :: flags, c)
  end.

(** The flags LRU prescribes for the trace, from the block history alone. *)
Fixpoint spec_run (g : geom) (h : list Z) (tr : list (Z * Z)) : list bool :=
  match tr with
  | [] => []
  | (a, sz) :: tr' =>
      fst (spec_ref g h a sz) :: spec_run g (snd (spec_ref g h a sz)) tr'
  end.

Definition miss_count (flags : list bool) : nat := length (List.filter (fun b => b) flags).

Definition trace_ok (bits : Z) (tr : list (Z * Z)) : Prop :=
  Forall (fun p => access_ok bits (fst p) (snd p)) tr.

Lemma sim_run_spec c h tr :
  cache_hist c h -> trace_ok (line_size_bits c) tr ->
  exists c', sim_run c tr = Ok (spec_run (geom_of c) h tr, c') /\ same_geometry c c'.
Proof.
  revert c h; induction tr as [|[a sz] tr IH]; intros c h Hc Ht; [by exists c|].
  apply Forall_cons in Ht as [Ha Ht]. cbn [fst snd] in Ha.
  destruct (ref_hist c h a sz Hc Ha) as (c1 & E1 & G1 & H1).
  destruct (IH c1 _ H1) as (c2 & E2 & G2).
  { unfold trace_ok. by rewrite (sg_bits _ _ G1). }
  exists c2. cbn [sim_run spec_run]. rewrite E1. cbn [rbind]. rewrite E2. cbn [rbind].
  rewrite (geom_same _ _ G1). eauto using same_geometry_trans.
Qed.

(** The geometry of a valid configuration. *)
Definition cfg_geom (cfg : cache_t) : geom :=
  Geom (size cfg / line_size cfg / assoc cfg) (Z.to_nat (assoc cfg))
       (Z.log2 (line_size cfg)).

Lemma cfg_sets cfg s :
  valid_cache cfg -> size cfg = line_size cfg * assoc cfg * s ->
  size cfg / line_size cfg / assoc cfg = s.
Proof.
  intros [_ Hm Ha _ _] ->. unfold MIN_LINE_SIZE in Hm.
  rewrite <- Z.mul_assoc, (Z.mul_comm (line_size cfg)), Z.div_mul by lia.
  by rewrite Z.mul_comm, Z.div_mul by lia.
Qed.

Lemma initcache_geom cfg :
  valid_cache cfg ->
  exists c, cachesim_initcache cfg = Ok c /\ cache_hist c [] /\ geom_of c = cfg_geom cfg.
Proof.
  intros Hv. destruct (initcache_hist cfg Hv) as (c & E & Hc & Ha & Hl & Hsz).
  exists c. split; [done|]. split; [done|].
  unfold geom_of, cfg_geom, ways. rewrite (cfg_sets cfg (sets c)), Ha by done. f_equal.
  pose proof (ch_wf _ _ Hc) as [_ Hb Hline _ _ _ _]. rewrite <- Hl, Hline.
  rewrite Z.log2_pow2; lia.
Qed.

Lemma initcache_run cfg tr :
  valid_cache cfg -> trace_ok (Z.log2 (line_size cfg)) tr ->
  exists c c', cachesim_initcache cfg = Ok c /\
    sim_run c tr = Ok (spec_run (cfg_geom cfg) [] tr, c').
Proof.
  intros Hv Ht. destruct (initcache_geom cfg Hv) as (c & E & Hc & Hg).
  destruct (sim_run_spec c [] tr Hc) as (c' & Hr & _).
  { by injection Hg as _ _ ->. }
  exists c, c'. by rewrite <- Hg.
Qed.

(** ** Inclusion between geometries *)

Lemma mod_mod_divide a n m : 0 < n -> (n | m) -> 0 < m -> (a mod m) mod n = a mod n.
Proof. intros Hn Hd Hm. symmetry. by apply Znumtheory.Zmod_div_mod. Qed.

Lemma geom_hit_mono g1 g2 h b :
  0 < g_sets g1 -> 0 < g_sets g2 -> (g_sets g1 | g_sets g2) ->
  (g_ways g1 <= g_ways g2)%nat ->
  geom_hit g1 h b = true -> geom_hit g2 h b = true.
Proof.
  intros H1 H2 Hd Hw. unfold geom_hit, set_history. apply reuse_hit_mono; [| |done].
  - unfold in_set. apply Z.eqb_refl.
  - intros y. unfold in_set. rewrite !Z.eqb_eq. intros Hy.
    rewrite <- (mod_mod_divide y _ (g_sets g2)), Hy by done.
    by rewrite (mod_mod_divide b).
Qed.

Lemma spec_ref_hist g1 g2 h a sz :
  g_bits g1 = g_bits g2 -> snd (spec_ref g1 h a sz) = snd (spec_ref g2 h a sz).
Proof. intros Hb. unfold spec_ref. rewrite Hb. by case_match. Qed.

Lemma spec_ref_mono g1 g2 h a sz :
  0 < g_sets g1 -> 0 < g_sets g2 -> (g_sets g1 | g_sets g2) ->
  (g_ways g1 <= g_ways g2)%nat -> g_bits g1 = g_bits g2 ->
  fst (spec_ref g2 h a sz) = true -> fst (spec_ref g1 h a sz) = true.
Proof.
  intros H1 H2 Hd Hw Hb. unfold spec_ref. rewrite Hb.
  assert (forall h b, negb (geom_hit g2 h b) = true -> negb (geom_hit g1 h b) = true) as Hm.
  { intros h' b. rewrite !negb_true_iff. intros E.
    destruct (geom_hit g1 h' b) eqn:E1; [|done].
    apply (geom_hit_mono g1 g2) in E1; [congruence|done..]. }
  case_match; cbn [fst]; [apply Hm|]. rewrite !orb_true_iff. intros [?|?]; auto.
Qed.

Lemma spec_run_mono g1 g2 h tr :
  0 < g_sets g1 -> 0 < g_sets g2 -> (g_sets g1 | g_sets g2) ->
  (g_ways g1 <= g_ways g2)%nat -> g_bits g1 = g_bits g2 ->
  Forall2 (fun m2 m1 : bool => m2 = true -> m1 = true)
    (spec_run g2 h tr) (spec_run g1 h tr).
Proof.
  intros H1 H2 Hd Hw Hb. revert h; induction tr as [|[a sz] tr IH]; intros h; simpl;
    constructor.
  - by apply spec_ref_mono.
  - rewrite (spec_ref_hist g1 g2) by done. apply IH.
Qed.

Lemma miss_count_mono l2 l1 :
  Forall2 (fun m2 m1 : bool => m2 = true -> m1 = true) l2 l1 ->
  (miss_count l2 <= miss_count l1)%nat.
Proof.
  unfold miss_count. induction 1 as [|x y l l' Hxy _ IH]; [done|]. simpl.
  destruct x, y; simpl; try lia.
Qed.

(** Powers of two divide each other in order. *)
Lemma pow2_divide x y : is_pow2 x -> is_pow2 y -> x <= y -> (x | y).
Proof.
  intros (k & Hk & ->) (l & Hl & ->) Hle.
  assert (k <= l) by (apply (Z.pow_le_mono_r_iff 2); lia).
  exists (2 ^ (l - k)). rewrite <- Z.pow_add_r by lia. f_equal. lia.
Qed.

Lemma cfg_sets_pow2 cfg : valid_cache cfg -> is_pow2 (g_sets (cfg_geom cfg)).
Proof.
  intros Hv. pose proof (vc_sets _ Hv) as (s & Hs & E). simpl.
  by rewrite (cfg_sets cfg s).
Qed.

(** The configuration of step [k] of the profiling sweep in
    assembly_analysis/run_valgrind.py: 64 * 2^k bytes of 64-byte lines, 8-way,
    or fully associative while 8 ways do not fit. *)
Definition sweep_cache (k : Z) : cache_t :=
  let cache_size := 64 * 2 ^ k in
  let associativity :=
    if 8 * 64 >? cache_size then cache_size / 64 else 8 in
  Cache cache_size associativity 64.

Lemma sweep_cache_eq k :
  0 <= k -> sweep_cache k = Cache (64 * 2 ^ k) (2 ^ Z.min k 3) 64.
Proof.
  intros Hk. unfold sweep_cache. rewrite Z.gtb_ltb.
  destruct (Z_le_gt_dec k 3).
  - rewrite Z.min_l by lia. pose proof (Z.pow_le_mono_r 2 k 3 ltac:(lia) ltac:(lia)).
    destruct (Z.ltb_spec (64 * 2 ^ k) (8 * 64)).
    + by rewrite Z.mul_comm, Z.div_mul.
    + assert (2 ^ k = 8) as -> by lia. done.
  - rewrite Z.min_r by lia. pose proof (Z.pow_le_mono_r 2 3 k ltac:(lia) ltac:(lia)).
    destruct (Z.ltb_spec (64 * 2 ^ k) (8 * 64)); [lia|done].
Qed.

Lemma sweep_cache_valid k : 0 <= k <= 22 -> valid_cache (sweep_cache k).
Proof.
  intros Hk. rewrite sweep_cache_eq by lia.
  assert (0 < 2 ^ Z.min k 3) by (apply Z.pow_pos_nonneg; lia).
  pose proof (Z.pow_le_mono_r 2 k 22 ltac:(lia) ltac:(lia)).
  constructor; unfold MIN_LINE_SIZE; cbn [size assoc line_size]; try lia.
  - exists 6. lia.
  - exists (2 ^ (k - Z.min k 3)). split; [exists (k - Z.min k 3); lia|].
    rewrite <- Z.mul_assoc, <- Z.pow_add_r by lia. do 2 f_equal. lia.
Qed.

Lemma sweep_cache_sets k :
  0 <= k <= 22 -> g_sets (cfg_geom (sweep_cache k)) = 2 ^ (k - Z.min k 3).
Proof.
  intros Hk. apply cfg_sets; [by apply sweep_cache_valid|].
  rewrite sweep_cache_eq by lia. cbn [size assoc line_size].
  rewrite <- Z.mul_assoc, <- Z.pow_add_r by lia. do 2 f_equal. lia.
Qed.

(** ** Properties *)

(** C1. The simulator implements LRU.  Initialised from a valid configuration
    and run on any trace of references that fit a line and the address space,
    it never faults, and the k-th reference misses exactly when, for one of the
    lines it touches, at least [assoc] distinct lines of the same set were
    touched since that line's last use (or it was never used). *)
Theorem cachesim_refines_lru (cfg : cache_t) (tr : list (Z * Z)) :
  valid_cache cfg -> trace_ok (Z.log2 (line_size cfg)) tr ->
  exists c c', cachesim_initcache cfg = Ok c /\
    sim_run c tr = Ok (spec_run (cfg_geom cfg) [] tr, c').
Proof. apply initcache_run. Qed.

(** A direct-mapped and a two-way example trace: three lines that share a set. *)
Definition demo_trace : list (Z * Z) :=
  [(4096, 4); (4096 + 65536, 4); (4096, 8); (8190, 4); (4096 + 131072, 4); (4096 + 65536, 4)].

Lemma demo_trace_ok : trace_ok 6 demo_trace.
Proof. unfold trace_ok, demo_trace. repeat constructor; simpl; lia. Qed.

Lemma cachesim_refines_lru_witness :
  spec_run (cfg_geom (Cache 65536 2 64)) [] demo_trace
    = [true; true; false; true; true; true] /\
  (exists c c', cachesim_initcache (Cache 65536 2 64) = Ok c /\
    sim_run c demo_trace = Ok (spec_run (cfg_geom (Cache 65536 2 64)) [] demo_trace, c')).
Proof.
  split; [vm_compute; reflexivity|].
  apply (cachesim_refines_lru (Cache 65536 2 64) demo_trace); [|exact demo_trace_ok].
  apply check_cache_sound; [unfold int_fields, in_s; simpl; lia|vm_compute; reflexivity].
Defined.

(** C7. Inclusion: with the same line size, a cache with at least as many sets
    and at least as many ways hits whenever the smaller one does, reference by
    reference, so its miss count is never larger. *)
Theorem cachesim_inclusion (small large : cache_t) (tr : list (Z * Z)) :
  valid_cache small -> valid_cache large -> line_size small = line_size large ->
  g_sets (cfg_geom small) <= g_sets (cfg_geom large) -> assoc small <= assoc large ->
  trace_ok (Z.log2 (line_size small)) tr ->
  exists c1 c1' f1 c2 c2' f2,
    cachesim_initcache small = Ok c1 /\ sim_run c1 tr = Ok (f1, c1') /\
    cachesim_initcache large = Ok c2 /\ sim_run c2 tr = Ok (f2, c2') /\
    Forall2 (fun m2 m1 : bool => m2 = true -> m1 = true) f2 f1 /\
    (miss_count f2 <= miss_count f1)%nat.
Proof.
  intros V1 V2 Hl Hs Ha Ht.
  destruct (initcache_run small tr V1 Ht) as (c1 & c1' & I1 & R1).
  destruct (initcache_run large tr V2) as (c2 & c2' & I2 & R2); [by rewrite <- Hl|].
  pose proof (cfg_sets_pow2 small V1) as P1. pose proof (cfg_sets_pow2 large V2) as P2.
  assert (Forall2 (fun m2 m1 : bool => m2 = true -> m1 = true)
    (spec_run (cfg_geom large) [] tr) (spec_run (cfg_geom small) [] tr)) as F.
  { apply spec_run_mono; auto using pow2_divide with cg.
    - simpl. pose proof (vc_assoc_pos _ V1). lia.
    - simpl. by rewrite Hl. }
  do 6 eexists. split_and!; eauto using miss_count_mono.
Qed.

Lemma cachesim_inclusion_witness :
  exists c1 c1' f1 c2 c2' f2,
    cachesim_initcache (Cache 1024 4 64) = Ok c1 /\ sim_run c1 demo_trace = Ok (f1, c1') /\
    cachesim_initcache (Cache 8192 8 64) = Ok c2 /\ sim_run c2 demo_trace = Ok (f2, c2') /\
    Forall2 (fun m2 m1 : bool => m2 = true -> m1 = true) f2 f1 /\
    (miss_count f2 <= miss_count f1)%nat.
Proof.
  apply (cachesim_inclusion (Cache 1024 4 64) (Cache 8192 8 64) demo_trace).
  - apply check_cache_sound; [unfold int_fields, in_s; simpl; lia|vm_compute; reflexivity].
  - apply check_cache_sound; [unfold int_fields, in_s; simpl; lia|vm_compute; reflexivity].
  - reflexivity.
  - vm_compute. discriminate.
  - simpl. lia.
  - exact demo_trace_ok.
Defined.

(** The profiling sweep: every configuration the driver passes to
    cachegrind, from one 64-byte line up to 256 MB, is accepted by
    [check_cache], and doubling the simulated size never increases the number
    of misses a trace causes. *)
Theorem sweep_monotone (i j : Z) (tr : list (Z * Z)) :
  0 <= i <= j -> j <= 22 -> trace_ok 6 tr ->
  check_cache (sweep_cache i) = Ok None /\ check_cache (sweep_cache j) = Ok None /\
  exists ci ci' fi cj cj' fj,
    cachesim_initcache (sweep_cache i) = Ok ci /\ sim_run ci tr = Ok (fi, ci') /\
    cachesim_initcache (sweep_cache j) = Ok cj /\ sim_run cj tr = Ok (fj, cj') /\
    (miss_count fj <= miss_count fi)%nat.
Proof.
  intros Hij Hj Ht.
  pose proof (sweep_cache_valid i ltac:(lia)) as Vi.
  pose proof (sweep_cache_valid j ltac:(lia)) as Vj.
  split_and!; [by apply check_cache_complete..|].
  destruct (initcache_run (sweep_cache i) tr Vi Ht) as (ci & ci' & Ii & Ri).
  destruct (initcache_run (sweep_cache j) tr Vj Ht) as (cj & cj' & Ij & Rj).
  do 6 eexists. split_and!; [done..|].
  apply miss_count_mono, spec_run_mono.
  1-2: by apply is_pow2_pos, cfg_sets_pow2.
  - apply pow2_divide; [by apply cfg_sets_pow2..|].
    rewrite !sweep_cache_sets by lia. apply Z.pow_le_mono_r; lia.
  - rewrite !sweep_cache_eq by lia. simpl.
    apply Z2Nat.inj_le; [apply Z.pow_nonneg; lia..|]. apply Z.pow_le_mono_r; lia.
  - done.
Qed.

Lemma sweep_monotone_witness :
  check_cache (sweep_cache 0) = Ok None /\ check_cache (sweep_cache 5) = Ok None /\
  exists ci ci' fi cj cj' fj,
    cachesim_initcache (sweep_cache 0) = Ok ci /\ sim_run ci demo_trace = Ok (fi, ci') /\
    cachesim_initcache (sweep_cache 5) = Ok cj /\ sim_run cj demo_trace = Ok (fj, cj') /\
    (miss_count fj <= miss_count fi)%nat.
Proof. apply (sweep_monotone 0 5 demo_trace); [lia|lia|exact demo_trace_ok]. Defined.

(** The fast path is equivalent to the general one: an instruction that
    [cachesim_is_IrNoX] accepts is simulated by [cachesim_I1_doref_NoX] exactly
    as by [cachesim_I1_doref_Gen], whatever the state of the caches. *)
Theorem IrNoX_equiv_IrGen (s : caches3) (a sz : Z) (m : misses) :
  cachesim_is_IrNoX s a sz = true ->
  cachesim_I1_doref_NoX s a sz m = cachesim_I1_doref_Gen s a sz m.
Proof.
  unfold cachesim_is_IrNoX. intros H.
  destruct (Z.eqb_spec (line_size_bits (I1 s)) (line_size_bits (LL s))) as [Hb|];
    [|discriminate H].
  destruct (Z.eqb_spec (Z.shiftr a (line_size_bits (I1 s)))
    (Z.shiftr (u64 (a + sz - 1)) (line_size_bits (I1 s)))) as [Hblk|]; [|discriminate H].
  unfold cachesim_I1_doref_NoX, cachesim_I1_doref_Gen, cachesim_ref_is_miss.
  destruct m as [m1 mL]. cbn [LL I1 D1]. rewrite <- Hb, <- Hblk, !Z.eqb_refl. done.
Qed.

(** Caches with small, equal line sizes. *)
Definition demo_caches : caches3 :=
  match cachesim_initcaches (Cache 1024 4 64) (Cache 1024 4 64) (Cache 4096 8 64) with
  | Ok s => s
  | Err _ => Caches3 (Cache2 0 0 0 0 0 0 0 "" []) (Cache2 0 0 0 0 0 0 0 "" [])
                     (Cache2 0 0 0 0 0 0 0 "" [])
  end.

Lemma IrNoX_equiv_IrGen_witness :
  cachesim_I1_doref_NoX demo_caches 4096 5 (0, 0)
    = cachesim_I1_doref_Gen demo_caches 4096 5 (0, 0).
Proof. apply (IrNoX_equiv_IrGen demo_caches 4096 5 (0, 0)). vm_compute. reflexivity. Defined.
