(* ===== verification/ClgCosts.v ===== *)
(** * ClgCosts: callgrind's cost arrays (callgrind/costs.c)

    All counters of callgrind are arrays of [ULong] cut from chunks of 100000
    cells.  A pointer to a cost array is a chunk and an index into its data, so
    pointer arithmetic is addition on the index and two pointers may alias.  A
    fresh chunk is not initialised: reading a cell that was never written is
    the fault [Indeterminate]. *)

From Stdlib Require Import ZArith Lia.
From stdpp Require Import base numbers option strings gmap list.
From S2P Require Import Prelude.

#[local] Open Scope Z_scope.

(** ** Data *)

Record CostChunk : Type := MkChunk {
  ck_size : Z;
  ck_used : Z;
  ck_next : option nat
}.

(** The chunks by address, their cells, and the static variables. *)
Record cost_mem : Type := MkMem {
  chunks : list CostChunk;
  cells : gmap (nat * Z) Z;
  cost_chunk_base : option nat;
  cost_chunk_current : option nat;
  costarray_entries : Z;
  costarray_chunks : Z
}.

Definition cost_mem0 : cost_mem := MkMem [] ∅ None None 0 0.

(** A [ULong*] into a chunk. *)
Abbreviation cptr := (nat * Z)%type.

Definition ptr_add (p : cptr) (i : Z) : cptr := (p.1, p.2 + i).

Definition COSTCHUNK_SIZE : Z := 100000.

(** ** Allocation *)

Definition set_next (n : nat) (c : CostChunk) : CostChunk :=
  MkChunk (ck_size c) (ck_used c) (Some n).

(** [if (cost_chunk_current) cost_chunk_current->next = cc;] *)
Definition link_current (m : cost_mem) (cc : nat) : list CostChunk :=
  match cost_chunk_current m with
  | Some k => alter (set_next cc) k (chunks m)
  | None => chunks m
  end.

(** The branch of [get_costarray] that makes a new chunk. *)
Definition new_chunk (m : cost_mem) (size : Z) : res cost_mem :=
  let! _ := tl_assert (size <? COSTCHUNK_SIZE) "size < COSTCHUNK_SIZE" in
  let cc := length (chunks m) in
  Ok (MkMem (link_current m cc ++ [MkChunk COSTCHUNK_SIZE 0 None]) (cells m)
        (match cost_chunk_base m with Some b => Some b | None => Some cc end)
        (Some cc) (costarray_entries m) (u32 (costarray_chunks m + 1))).

Definition get_chunk (m : cost_mem) (k : nat) : res CostChunk :=
  match chunks m !! k with Some c => Ok c | None => Err OutOfBounds end.

Definition get_costarray (m : cost_mem) (size : Z) : res (cptr * cost_mem) :=
  let! full :=
    match cost_chunk_current m with
    | None => Ok true
    | Some k =>
        let! c := get_chunk m k in
        let! avail := int_sub (ck_size c) (ck_used c) in
        Ok (avail <? size)
    end in
  let! m := if (full : bool) then new_chunk m size else Ok m in
  match cost_chunk_current m with
  | None => Err NullDeref
  | Some k =>
      let! c := get_chunk m k in
      let! used := int_add (ck_used c) size in
      Ok ((k, ck_used c),
          MkMem (<[k := MkChunk (ck_size c) used (ck_next c)]> (chunks m)) (cells m)
            (cost_chunk_base m) (cost_chunk_current m)
            (u32 (costarray_entries m + size)) (costarray_chunks m))
  end.

(** ** Cells *)

(** The cell lies inside the data of an allocated chunk. *)
Definition in_chunk (m : cost_mem) (p : cptr) : bool :=
  match chunks m !! p.1 with
  | Some c => (0 <=? p.2) && (p.2 <? ck_size c)
  | None => false
  end.

(** [*p], [*p = v] and [*p += v]. *)
Definition cost_get (m : cost_mem) (p : cptr) : res Z :=
  if in_chunk m p then
    match cells m !! p with Some v => Ok v | None => Err Indeterminate end
  else Err OutOfBounds.

Definition set_cells (m : cost_mem) (cs : gmap (nat * Z) Z) : cost_mem :=
  MkMem (chunks m) cs (cost_chunk_base m) (cost_chunk_current m) (costarray_entries m)
    (costarray_chunks m).

Definition cost_set (m : cost_mem) (p : cptr) (v : Z) : res cost_mem :=
  if in_chunk m p then Ok (set_cells m (<[p := v]> (cells m))) else Err OutOfBounds.

Definition cost_add (m : cost_mem) (p : cptr) (v : Z) : res cost_mem :=
  let! x := cost_get m p in
  cost_set m p (u64 (x + v)).

(** ** The allocator hands out disjoint arrays *)

Definition used_of (m : cost_mem) (k : nat) : Z :=
  match chunks m !! k with Some c => ck_used c | None => 0 end.

Definition wf_chunk (c : CostChunk) : Prop :=
  ck_size c = COSTCHUNK_SIZE /\ 0 <= ck_used c <= COSTCHUNK_SIZE.

(** The current chunk is the last one made. *)
Record wf_mem (m : cost_mem) : Prop := {
  wm_chunks : Forall wf_chunk (chunks m);
  wm_current : cost_chunk_current m = last (imap (fun k _ => k) (chunks m))
}.

Lemma last_imap_index {A} (l : list A) :
  last (imap (fun k _ => k) l) = match length l with O => None | S k => Some k end.
Proof.
  rewrite last_lookup, length_imap, list_lookup_imap.
  destruct l as [|x l]; [done|]. simpl length. rewrite Nat.pred_succ.
  by destruct (lookup_lt_is_Some_2 (x :: l) (length l)) as [y ->]; [simpl; lia|].
Qed.

Lemma wf_mem0 : wf_mem cost_mem0.
Proof. by split; [constructor|]. Qed.

Lemma wf_used m k : wf_mem m -> 0 <= used_of m k <= COSTCHUNK_SIZE.
Proof.
  intros [Hc _]. unfold used_of. destruct (chunks m !! k) as [c|] eqn:E;
    [|unfold COSTCHUNK_SIZE; lia].
  by apply (Forall_lookup_1 _ _ _ _ Hc) in E as [_ E].
Qed.

(** A request for [n] cells, answered with [p]: the array starts where the
    chunk's used part ended and is used afterwards; nothing else moves. *)
Record allocated (m m' : cost_mem) (p : cptr) (n : Z) : Prop := {
  al_wf : wf_mem m';
  al_start : used_of m p.1 <= p.2;
  al_end : p.2 + n = used_of m' p.1;
  al_mono : forall k, used_of m k <= used_of m' k;
  al_cells : cells m' = cells m;
  al_entries : costarray_entries m' = u32 (costarray_entries m + n)
}.

Lemma new_chunk_spec m n :
  wf_mem m -> n < COSTCHUNK_SIZE ->
  exists m', new_chunk m n = Ok m' /\ wf_mem m' /\
    cost_chunk_current m' = Some (length (chunks m)) /\
    used_of m' (length (chunks m)) = 0 /\ (forall k, used_of m' k = used_of m k) /\
    cells m' = cells m /\ costarray_entries m' = costarray_entries m.
Proof.
  intros [Hc Hcur] Hn. unfold new_chunk. rewrite tl_assert_true by (by apply Z.ltb_lt).
  cbn [rbind]. eexists. split; [done|].
  remember (link_current m (length (chunks m))) as linked eqn:El. unfold link_current in El.
  assert (length linked = length (chunks m)) as Hl
    by (subst linked; destruct (cost_chunk_current m); [apply length_alter|done]).
  assert (forall k, ck_used <$> linked !! k = ck_used <$> chunks m !! k) as Hu.
  { intros k. subst linked. destruct (cost_chunk_current m) as [j|]; [|done].
    destruct (decide (j = k)) as [->|?];
      [rewrite list_lookup_alter_eq|by rewrite list_lookup_alter_ne].
    by destruct (chunks m !! k). }
  assert (forall k, used_of (MkMem (linked ++ [MkChunk COSTCHUNK_SIZE 0 None]) (cells m)
      (cost_chunk_base m) None 0 0) k = used_of m k) as Hk.
  { intros k. unfold used_of. cbn [chunks]. specialize (Hu k).
    destruct (decide (k < length (chunks m))%nat).
    - rewrite lookup_app_l by lia.
      destruct (linked !! k), (chunks m !! k); simplify_eq/=; done.
    - rewrite (lookup_ge_None_2 (chunks m)) by lia.
      destruct (decide (k = length (chunks m))) as [->|?].
      + by rewrite lookup_app_r, Hl, Nat.sub_diag by lia.
      + rewrite lookup_ge_None_2; [done|rewrite length_app; simpl; lia]. }
  split_and!; [|done| |exact Hk|done|done].
  - constructor; cbn.
    + apply Forall_app. split; [|apply Forall_singleton; unfold wf_chunk, COSTCHUNK_SIZE;
        simpl; lia].
      subst linked. destruct (cost_chunk_current m); [|done].
      apply Forall_alter; [done|]. by intros x _ Hx.
    + rewrite last_imap_index, length_app, Hl, Nat.add_comm. done.
  - unfold used_of. cbn. by rewrite lookup_app_r, Hl, Nat.sub_diag by lia.
Qed.

Lemma get_costarray_spec m n :
  wf_mem m -> 0 <= n < COSTCHUNK_SIZE ->
  exists p m', get_costarray m n = Ok (p, m') /\ allocated m m' p n.
Proof.
  intros Hw Hn.
  (* the chunk that serves the request *)
  assert (exists m1 k c, (let! full :=
      match cost_chunk_current m with
      | None => Ok true
      | Some k => let! c := get_chunk m k in
                  let! avail := int_sub (ck_size c) (ck_used c) in Ok (avail <? n)
      end in if (full : bool) then new_chunk m n else Ok m) = Ok m1 /\
    wf_mem m1 /\ cost_chunk_current m1 = Some k /\ chunks m1 !! k = Some c /\
    ck_used c + n <= COSTCHUNK_SIZE /\ (forall j, used_of m1 j = used_of m j) /\
    cells m1 = cells m /\ costarray_entries m1 = costarray_entries m) as Hm1.
  { destruct (new_chunk_spec m n Hw) as (m1 & E1 & W1 & C1 & U0 & U1 & X1 & N1); [lia|].
    assert (exists c, chunks m1 !! length (chunks m) = Some c) as [c Hc].
    { destruct W1 as [_ Hcur]. rewrite C1, last_imap_index in Hcur.
      apply lookup_lt_is_Some_2. destruct (length (chunks m1)); simplify_eq; lia. }
    unfold used_of in U0. rewrite Hc in U0.
    destruct (cost_chunk_current m) as [k|] eqn:Ek; [|exists m1; eauto 12 with lia].
    pose proof (wm_current m Hw) as Hcur. rewrite Ek, last_imap_index in Hcur.
    destruct (lookup_lt_is_Some_2 (chunks m) k) as [d Hd];
      [destruct (length (chunks m)); simplify_eq; lia|].
    pose proof (Forall_lookup_1 _ _ _ _ (wm_chunks m Hw) Hd) as [Hs Hu].
    unfold get_chunk. rewrite Hd. cbn [rbind]. unfold int_sub.
    rewrite signed_result_in by (unfold in_s, COSTCHUNK_SIZE in *; lia). cbn [rbind].
    destruct (Z.ltb_spec (ck_size d - ck_used d) n); [exists m1; eauto 12 with lia|].
    exists m, k, d. split_and!; auto; lia. }
  destruct Hm1 as (m1 & k & c & E & W1 & Hk & Hc & Hfit & Hu & Hx & Hen).
  unfold get_costarray. rewrite <- rbind_assoc, E. cbn [rbind]. rewrite Hk. unfold get_chunk.
  rewrite Hc. cbn [rbind].
  pose proof (Forall_lookup_1 _ _ _ _ (wm_chunks m1 W1) Hc) as [Hs Hus].
  unfold int_add. rewrite signed_result_in by (unfold in_s, COSTCHUNK_SIZE in *; lia).
  cbn [rbind]. do 2 eexists. split; [done|].
  pose proof (lookup_lt_Some _ _ _ Hc) as Hlt.
  assert (forall j, used_of (MkMem (<[k := MkChunk (ck_size c) (ck_used c + n) (ck_next c)]>
      (chunks m1)) (cells m1) None None 0 0) j = if decide (j = k) then ck_used c + n
      else used_of m j) as Hnew.
  { intros j. rewrite <- Hu. unfold used_of. cbn [chunks]. case_decide as Hj.
    - subst j. by rewrite list_lookup_insert_eq.
    - by rewrite list_lookup_insert_ne. }
  assert (used_of m k = ck_used c) as Huk by (rewrite <- Hu; unfold used_of; by rewrite Hc).
  constructor; cbn [fst snd chunks cells costarray_entries]; auto.
  - constructor; cbn [chunks cost_chunk_current].
    + apply Forall_insert; [apply W1|]. unfold wf_chunk. simpl. lia.
    + rewrite last_imap_index, length_insert, <- last_imap_index, <- Hk. apply W1.
  - lia.
  - etransitivity; [|symmetry; exact (Hnew k)]. by rewrite decide_True.
  - intros j. etransitivity; [|apply Z.eq_le_incl; symmetry; exact (Hnew j)].
    case_decide; subst; lia.
  - by rewrite Hen.
Qed.

(** A sequence of requests. *)
Fixpoint get_costarrays (m : cost_mem) (sizes : list Z) : res (list cptr * cost_mem) :=
  match sizes with
  | [] => Ok ([], m)
  | n :: sizes' =>
      let! (p, m) := get_costarray m n in
      let! (ps, m) := get_costarrays m sizes' in
      Ok (p :: ps, m)
  end.

Definition sizes_ok (sizes : list Z) : Prop := Forall (fun n => 0 <= n < COSTCHUNK_SIZE) sizes.

(** Every array of the answer lies in one chunk, after what [m] had used. *)
Lemma get_costarrays_spec m sizes :
  wf_mem m -> sizes_ok sizes ->
  exists ps m', get_costarrays m sizes = Ok (ps, m') /\ wf_mem m' /\
    cells m' = cells m /\ (forall k, used_of m k <= used_of m' k) /\
    (forall i p n, ps !! i = Some p -> sizes !! i = Some n ->
       used_of m p.1 <= p.2 /\ p.2 + n <= used_of m' p.1) /\
    (forall i j p q n, (i < j)%nat -> ps !! i = Some p -> ps !! j = Some q ->
       sizes !! i = Some n -> p.1 <> q.1 \/ p.2 + n <= q.2) /\
    length ps = length sizes.
Proof.
  revert m; induction sizes as [|n sizes IH]; intros m Hw Hs.
  { exists [], m. split_and!; try done. }
  apply Forall_cons in Hs as [Hn Hs].
  destruct (get_costarray_spec m n Hw Hn) as (p & m1 & E1 & [W1 S1 N1 M1 X1 _]).
  destruct (IH m1 W1 Hs) as (ps & m2 & E2 & W2 & X2 & M2 & R2 & D2 & L2).
  exists (p :: ps), m2. cbn [get_costarrays]. rewrite E1. cbn [rbind]. rewrite E2.
  pose proof (M2 p.1). split_and!; auto.
  - congruence.
  - intros k. specialize (M1 k). specialize (M2 k). lia.
  - intros [|i] q k Hq Hk; simplify_eq/=; [lia|].
    destruct (R2 i q k Hq Hk). specialize (M1 q.1). lia.
  - intros [|i] [|j] q r k Hij Hq Hr Hk; simplify_eq/=; try lia; [|apply (D2 i j q r k); auto; lia].
    destruct (lookup_lt_is_Some_2 sizes j) as [k' Hk'];
      [apply lookup_lt_Some in Hr; lia|].
    destruct (R2 j r k' Hr Hk'). destruct (decide (q.1 = r.1)) as [Heq|]; [right|by left].
    rewrite N1, Heq. lia.
  - simpl. by rewrite L2.
Qed.

(** The counters never overlap: any sequence of requests for fewer than
    100000 cells is served, every array lies inside one chunk, and two arrays
    share no cell. *)
Theorem costarrays_disjoint (sizes : list Z) :
  sizes_ok sizes ->
  exists ps m', get_costarrays cost_mem0 sizes = Ok (ps, m') /\ length ps = length sizes /\
    (forall i p n o, ps !! i = Some p -> sizes !! i = Some n -> 0 <= o < n ->
       in_chunk m' (ptr_add p o) = true) /\
    (forall i j p q n k o o', i <> j -> ps !! i = Some p -> ps !! j = Some q ->
       sizes !! i = Some n -> sizes !! j = Some k -> 0 <= o < n -> 0 <= o' < k ->
       ptr_add p o <> ptr_add q o').
Proof.
  intros Hs. destruct (get_costarrays_spec cost_mem0 sizes wf_mem0 Hs)
    as (ps & m & E & W & _ & _ & R & D & L).
  exists ps, m. split_and!; [done|done| |].
  - intros i p n o Hp Hn Ho. destruct (R i p n Hp Hn) as [H1 H2].
    unfold in_chunk, ptr_add, used_of in *. cbn [fst snd] in *.
    destruct (chunks m !! p.1) as [c|] eqn:Ec; [|simpl in H1; lia].
    pose proof (Forall_lookup_1 _ _ _ _ (wm_chunks m W) Ec) as [Hc Hu]. simpl in H1.
    apply andb_true_iff. rewrite Z.leb_le, Z.ltb_lt. lia.
  - intros i j p q n k o o' Hij Hp Hq Hn Hk Ho Ho' [= Heq1 Heq2].
    destruct (Nat.lt_total i j) as [?|[?|?]]; [|done|].
    + destruct (D i j p q n) as [?|?]; auto; lia.
    + destruct (D j i q p k) as [?|?]; auto; lia.
Qed.

Lemma costarrays_disjoint_witness :
  exists ps m', get_costarrays cost_mem0 [7; 99998; 3; 0; 12] = Ok (ps, m') /\
    length ps = 5%nat /\
    (forall i p n o, ps !! i = Some p -> [7; 99998; 3; 0; 12] !! i = Some n -> 0 <= o < n ->
       in_chunk m' (ptr_add p o) = true) /\
    (forall i j p q n k o o', i <> j -> ps !! i = Some p -> ps !! j = Some q ->
       [7; 99998; 3; 0; 12] !! i = Some n -> [7; 99998; 3; 0; 12] !! j = Some k ->
       0 <= o < n -> 0 <= o' < k -> ptr_add p o <> ptr_add q o').
Proof.
  apply (costarrays_disjoint [7; 99998; 3; 0; 12]).
  unfold sizes_ok, COSTCHUNK_SIZE. repeat constructor; lia.
Defined.

(** ** Cells of an array *)

Lemma in_chunk_set m cs p : in_chunk (set_cells m cs) p = in_chunk m p.
Proof. done. Qed.

Lemma cost_get_ok m p v : cost_get m p = Ok v <-> in_chunk m p = true /\ cells m !! p = Some v.
Proof.
  unfold cost_get. destruct (in_chunk m p); [|naive_solver].
  destruct (cells m !! p); naive_solver.
Qed.

Lemma cost_set_in m p v :
  in_chunk m p = true -> cost_set m p v = Ok (set_cells m (<[p := v]> (cells m))).
Proof. unfold cost_set. by intros ->. Qed.

Lemma cost_add_ok m p v x :
  cost_get m p = Ok x ->
  cost_add m p v = Ok (set_cells m (<[p := u64 (x + v)]> (cells m))).
Proof.
  intros H. unfold cost_add. rewrite H. cbn [rbind]. apply cost_set_in.
  by apply cost_get_ok in H as [H _].
Qed.

Lemma ptr_add_0 p : ptr_add p 0 = p.
Proof. destruct p. unfold ptr_add. cbn. by rewrite Z.add_0_r. Qed.

Lemma ptr_add_add p i j : ptr_add (ptr_add p i) j = ptr_add p (i + j).
Proof. unfold ptr_add. cbn. by rewrite Z.add_assoc. Qed.

Lemma ptr_add_inj p i j : ptr_add p i = ptr_add p j <-> i = j.
Proof. unfold ptr_add. split; [intros [=]; lia|by intros ->]. Qed.
