(* ===== verification/ClgHash.v ===== *)
(** * ClgHash: hash tables with intrusive chains

    Callgrind keeps its cost centres in hash tables of one shape (jumps.c,
    context.c, bbcc.c): an array of bucket heads, the nodes of a bucket linked
    through a field of the nodes themselves, and a resize that moves every node
    to a new array of about twice the size.  Nodes are never freed, so a pointer
    is an index into the list of the nodes made so far.  The class says what the
    table needs of a node; the lemmas relate buckets to lists of nodes. *)

From Stdlib Require Import ZArith Lia.
From stdpp Require Import base numbers option gmap sets list.
From S2P Require Import Prelude.

#[local] Open Scope Z_scope.

(** The link field and the hash value, which does not depend on the link. *)
Class ChainNode (N : Type) := {
  next : N -> option nat;
  set_next : option nat -> N -> N;
  hash : N -> Z;
  next_set : forall p x, next (set_next p x) = p;
  set_set : forall p q x, set_next p (set_next q x) = set_next p x;
  set_same : forall x, set_next (next x) x = x;
  hash_set : forall p x, hash (set_next p x) = hash x
}.

Section table.
Context {N : Type} `{ChainNode N}.

(** [h % size], with the size an unsigned number. *)
Definition bucket_of (h size : Z) : res Z :=
  if size =? 0 then Err DivByZero else Ok (h mod size).

Definition get_node (nodes : list N) (k : nat) : res N :=
  match nodes !! k with Some x => Ok x | None => Err OutOfBounds end.

(** Link node [k] in front of its bucket. *)
Definition link (nodes : list N) (table : list (option nat)) (size : Z) (k : nat)
  : res (list N * list (option nat)) :=
  let! x := get_node nodes k in
  let! i := bucket_of (hash x) size in
  let! head := arr_get table i in
  let! table := arr_set table i (Some k) in
  Ok (<[k := set_next head x]> nodes, table).

(** [while (curr) { next = curr->next; ...; curr = next; }] *)
Fixpoint rehash_chain (fuel : nat) (new_size : Z) (curr : option nat) (nodes : list N)
    (table : list (option nat)) : res (list N * list (option nat)) :=
  match curr with
  | None => Ok (nodes, table)
  | Some k =>
      match fuel with
      | O => Err OutOfFuel
      | S fuel' =>
          let! x := get_node nodes k in
          let! (nodes, table) := link nodes table new_size k in
          rehash_chain fuel' new_size (next x) nodes table
      end
  end.

(** The loop over the old buckets. *)
Definition rehash (new_size : Z) (old : list (option nat)) (nodes : list N)
  : res (list N * list (option nat)) :=
  res_fold (fun head '(nodes, table) => rehash_chain (length nodes) new_size head nodes table)
    old (nodes, replicate (Z.to_nat new_size) None).

(** [while (x) { if (found(x)) break; x = x->next; }] *)
Fixpoint find_chain (fuel : nat) (found : N -> res bool) (nodes : list N) (curr : option nat)
  : res (option nat) :=
  match curr with
  | None => Ok None
  | Some k =>
      match fuel with
      | O => Err OutOfFuel
      | S fuel' =>
          let! x := get_node nodes k in
          let! b := found x in
          if b then Ok (Some k) else find_chain fuel' found nodes (next x)
      end
  end.

(** The same walk, with the node before ([bp]). *)
Fixpoint find_before (fuel : nat) (found : N -> res bool) (nodes : list N) (bp curr : option nat)
  : res (option (option nat * nat)) :=
  match curr with
  | None => Ok None
  | Some k =>
      match fuel with
      | O => Err OutOfFuel
      | S fuel' =>
          let! x := get_node nodes k in
          let! b := found x in
          if b then Ok (Some (bp, k)) else find_before fuel' found nodes (Some k) (next x)
      end
  end.

(** ** Buckets as lists *)

Fixpoint chain (nodes : list N) (p : option nat) (l : list nat) : Prop :=
  match l with
  | [] => p = None
  | k :: l' => p = Some k /\ exists x, nodes !! k = Some x /\ chain nodes (next x) l'
  end.

(** A chain depends on the links only. *)
Lemma chain_links nodes nodes' p l :
  chain nodes p l -> (forall k, k ∈ l -> next <$> nodes' !! k = next <$> nodes !! k) ->
  chain nodes' p l.
Proof.
  revert p; induction l as [|k l IH]; intros p; [done|]. intros (-> & x & Hx & Hl) Hf.
  split; [done|]. specialize (Hf k ltac:(set_solver)) as Hk. rewrite Hx in Hk.
  destruct (nodes' !! k) as [y|]; [|done]. cbn in Hk. exists y. split; [done|].
  injection Hk as ->. apply IH; [done|]. intros j Hj. apply Hf. set_solver.
Qed.

Lemma chain_frame nodes nodes' p l :
  chain nodes p l -> (forall k, k ∈ l -> nodes' !! k = nodes !! k) -> chain nodes' p l.
Proof.
  intros Hc Hf. eapply chain_links; [done|]. intros k Hk. by rewrite Hf.
Qed.

Lemma chain_bound nodes p l k : chain nodes p l -> k ∈ l -> (k < length nodes)%nat.
Proof.
  revert p; induction l as [|j l IH]; intros p Hc Hk; [by apply not_elem_of_nil in Hk|].
  destruct Hc as (_ & x & Hx & Hl). apply elem_of_cons in Hk as [->|Hk]; [|by eapply IH].
  by apply lookup_lt_Some in Hx.
Qed.

Lemma find_chain_ok fuel test (found : N -> bool) nodes p l :
  (forall k x, nodes !! k = Some x -> test x = Ok (found x)) ->
  chain nodes p l -> (length l <= fuel)%nat ->
  (exists l1 k l2 x, l = l1 ++ k :: l2 /\ nodes !! k = Some x /\ found x = true /\
     find_chain fuel test nodes p = Ok (Some k)) \/
  ((forall k x, k ∈ l -> nodes !! k = Some x -> found x = false) /\
   find_chain fuel test nodes p = Ok None).
Proof.
  intros Ht. revert fuel p; induction l as [|k l IH]; intros fuel p Hc Hl.
  - cbn in Hc. subst p. right. split; [set_solver|]. by destruct fuel.
  - destruct Hc as (-> & x & Hx & Hc). destruct fuel as [|fuel]; [simpl in Hl; lia|].
    cbn [find_chain]. unfold get_node. rewrite Hx. cbn [rbind]. rewrite (Ht k x Hx). cbn [rbind].
    destruct (found x) eqn:Ef.
    + left. exists [], k, l, x. by split_and!.
    + destruct (IH fuel (next x) Hc ltac:(simpl in Hl; lia))
        as [(l1 & j & l2 & y & -> & Hy & Hf & E)|[Hn E]].
      * left. exists (k :: l1), j, l2, y. by split_and!.
      * right. split; [|done]. intros j y Hj Hy. apply elem_of_cons in Hj as [->|Hj]; [|by eapply Hn].
        congruence.
Qed.

(** A table: bucket [i] is the chain [chains !! i], and every node in it has
    that bucket. *)
Record hashed (nodes : list N) (table : list (option nat)) (size : Z) (chains : list (list nat))
  : Prop := {
  hd_size : Z.of_nat (length table) = size;
  hd_len : length chains = length table;
  hd_chain : forall i l, chains !! i = Some l -> exists p, table !! i = Some p /\ chain nodes p l;
  hd_hash : forall i l k x, chains !! i = Some l -> k ∈ l -> nodes !! k = Some x ->
    hash x mod size = Z.of_nat i;
  hd_nodup : NoDup (concat chains)
}.

Lemma elem_of_concat (chains : list (list nat)) k :
  k ∈ concat chains <-> exists l, k ∈ l /\ l ∈ chains.
Proof.
  induction chains as [|c cs IH]; cbn; [set_solver|]. rewrite elem_of_app, IH. set_solver.
Qed.

Lemma in_concat (chains : list (list nat)) i l k :
  chains !! i = Some l -> k ∈ l -> k ∈ concat chains.
Proof.
  intros Hi Hk. apply elem_of_concat. exists l. split; [done|].
  by apply list_elem_of_lookup_2 in Hi.
Qed.

Lemma nodup_bucket (chains : list (list nat)) i l :
  NoDup (concat chains) -> chains !! i = Some l -> NoDup l.
Proof.
  intros Hn Hl. apply list_elem_of_lookup_2 in Hl.
  induction chains as [|c cs IH]; [by apply not_elem_of_nil in Hl|]. cbn in Hn.
  apply NoDup_app in Hn as (N1 & _ & N2). apply elem_of_cons in Hl as [->|Hl]; [done|by apply IH].
Qed.

Lemma concat_insert (chains : list (list nat)) i l k :
  chains !! i = Some l -> concat (<[i := k :: l]> chains) ≡ₚ k :: concat chains.
Proof.
  revert i; induction chains as [|c cs IH]; intros i Hi; [done|]. destruct i as [|i].
  - injection Hi as ->. done.
  - change (cs !! i = Some l) in Hi. cbn [insert list_insert]. cbn. rewrite IH by done. by rewrite Permutation_middle.
Qed.

Lemma bucket_pos h size : 0 < size -> bucket_of h size = Ok (h mod size).
Proof. intros Hs. unfold bucket_of. by rewrite (proj2 (Z.eqb_neq _ _)) by lia. Qed.

(** Nodes agree up to their links. *)
Definition unlinked (x : N) : N := set_next None x.

Lemma hash_unlinked x : hash (unlinked x) = hash x.
Proof. apply hash_set. Qed.

Lemma unlinked_lookup (nodes nodes' : list N) k x :
  unlinked <$> nodes' = unlinked <$> nodes -> nodes' !! k = Some x ->
  exists y, nodes !! k = Some y /\ unlinked x = unlinked y.
Proof.
  intros E Hx. apply (f_equal (fun l => l !! k)) in E. rewrite !list_lookup_fmap, Hx in E.
  destruct (nodes !! k) as [y|]; [|done]. cbn in E. exists y. split; [done|congruence].
Qed.

Lemma hashed_frame nodes nodes' table size chains :
  hashed nodes table size chains ->
  (forall k, k ∈ concat chains -> nodes' !! k = nodes !! k) -> hashed nodes' table size chains.
Proof.
  intros [H1 H2 H3 H4 H5] Hf. constructor; [done|done| | |done].
  - intros i l Hi. destruct (H3 i l Hi) as (p & Hp & Hc). exists p. split; [done|].
    eapply chain_frame; [done|]. intros k Hk. apply Hf. by eapply in_concat.
  - intros i l k x Hi Hk Hx. rewrite Hf in Hx by (by eapply in_concat). by eapply H4.
Qed.

(** A table depends on links and hash values only. *)
Lemma hashed_links (l l' : list N) t n chains : hashed l t n chains ->
  (forall k, next <$> l' !! k = next <$> l !! k) -> (forall k, hash <$> l' !! k = hash <$> l !! k) -> hashed l' t n chains.
Proof.
  intros [H1 H2 H3 H4 H5] Hn Hh. constructor; try done.
  - intros j c Hj. destruct (H3 j c Hj) as (p & Hp & Hc). exists p. split; [done|]. eapply chain_links; [done|]. auto.
  - intros j c k x Hj Hk Hx. specialize (Hh k). rewrite Hx in Hh. destruct (l !! k) as [y|] eqn:Ey; [|done].
    injection Hh as ->. by eapply H4.
Qed.

Lemma link_ok nodes table size chains k x :
  0 < size -> hashed nodes table size chains -> nodes !! k = Some x -> k ∉ concat chains ->
  exists head table' chains', link nodes table size k = Ok (<[k := set_next head x]> nodes, table') /\
    hashed (<[k := set_next head x]> nodes) table' size chains' /\
    concat chains' ≡ₚ k :: concat chains.
Proof.
  intros Hs Hh Hx Hk. pose proof Hh as [H1 H2 H3 H4 H5]. unfold link, get_node. rewrite Hx.
  cbn [rbind]. rewrite bucket_pos by done. cbn [rbind].
  pose proof (Z.mod_pos_bound (hash x) size Hs) as Hb. set (i := hash x mod size) in *.
  destruct (lookup_lt_is_Some_2 chains (Z.to_nat i)) as [l Hl]; [lia|].
  destruct (H3 _ _ Hl) as (head & Hhd & Hc).
  rewrite (arr_get_in _ i head) by (done || lia). cbn [rbind].
  rewrite arr_set_in by lia. cbn [rbind].
  exists head, (<[Z.to_nat i := Some k]> table), (<[Z.to_nat i := k :: l]> chains).
  split; [done|]. split; [|by apply concat_insert].
  pose proof (hashed_frame nodes (<[k := set_next head x]> nodes) table size chains Hh) as [F1 F2 F3 F4 F5].
  { intros j Hj. apply list_lookup_insert_ne. intros ->. done. }
  constructor.
  - by rewrite length_insert.
  - by rewrite !length_insert.
  - intros j l' Hj. destruct (decide (j = Z.to_nat i)) as [->|Hne].
    + rewrite list_lookup_insert_eq in Hj by (by apply lookup_lt_Some in Hl). simplify_eq.
      exists (Some k). rewrite list_lookup_insert_eq by lia. split; [done|]. split; [done|].
      exists (set_next head x). rewrite list_lookup_insert_eq by (by apply lookup_lt_Some in Hx).
      split; [done|]. rewrite next_set. destruct (F3 _ _ Hl) as (p & Hp & Hc').
      rewrite Hhd in Hp. by simplify_eq.
    + rewrite list_lookup_insert_ne in Hj by done. destruct (F3 _ _ Hj) as (p & Hp & Hc').
      exists p. by rewrite list_lookup_insert_ne.
  - intros j l' k' y Hj Hk' Hy. destruct (decide (j = Z.to_nat i)) as [->|Hne].
    + rewrite list_lookup_insert_eq in Hj by (by apply lookup_lt_Some in Hl). simplify_eq.
      apply elem_of_cons in Hk' as [->|Hk']; [|by eapply F4].
      rewrite list_lookup_insert_eq in Hy by (by apply lookup_lt_Some in Hx). simplify_eq.
      rewrite hash_set. lia.
    + rewrite list_lookup_insert_ne in Hj by done. by eapply F4.
  - rewrite concat_insert by done. by constructor.
Qed.

(** Moving a chain to another table. *)
Lemma rehash_chain_ok fuel size p l nodes table chains :
  0 < size -> chain nodes p l -> NoDup l -> (length l <= fuel)%nat ->
  hashed nodes table size chains -> (forall k, k ∈ l -> k ∉ concat chains) ->
  exists nodes' table' chains', rehash_chain fuel size p nodes table = Ok (nodes', table') /\
    hashed nodes' table' size chains' /\ concat chains' ≡ₚ l ++ concat chains /\
    unlinked <$> nodes' = unlinked <$> nodes /\
    (forall k, k ∉ l -> nodes' !! k = nodes !! k).
Proof.
  intros Hs. revert fuel p nodes table chains;
    induction l as [|k l IH]; intros fuel p nodes table chains Hc Hnd Hl Hh Hd.
  { cbn in Hc. subst p. exists nodes, table, chains. by destruct fuel. }
  destruct Hc as (-> & x & Hx & Hc). destruct fuel as [|fuel]; [simpl in Hl; lia|].
  apply NoDup_cons in Hnd as [Hkl Hnd]. cbn [rehash_chain]. unfold get_node. rewrite Hx. cbn [rbind].
  destruct (link_ok nodes table size chains k x Hs Hh Hx) as (head & t1 & c1 & -> & Hh1 & P1);
    [apply Hd; set_solver|]. cbn [rbind].
  destruct (IH fuel (next x) (<[k := set_next head x]> nodes) t1 c1)
    as (n2 & t2 & c2 & E2 & Hh2 & P2 & U2 & F2); [|done|simpl in Hl; lia|done| |].
  - eapply chain_frame; [done|]. intros j Hj. apply list_lookup_insert_ne. set_solver.
  - intros j Hj. rewrite P1. apply not_elem_of_cons. split; [set_solver|]. apply Hd. set_solver.
  - exists n2, t2, c2. split_and!; [done|done| | |].
    + rewrite P2, P1. cbn. by rewrite Permutation_middle.
    + rewrite U2, list_fmap_insert. apply list_insert_id. rewrite list_lookup_fmap, Hx. cbn.
      f_equal. unfold unlinked. by rewrite set_set.
    + intros j Hj. apply not_elem_of_cons in Hj as [Hjk Hj]. rewrite F2 by done.
      by apply list_lookup_insert_ne.
Qed.

Lemma concat_empty (n : nat) : concat (replicate n ([] : list nat)) = [].
Proof. by induction n as [|n IH]. Qed.

Lemma empty_hashed nodes n : hashed nodes (replicate n None) (Z.of_nat n) (replicate n []).
Proof.
  constructor; [by rewrite length_replicate|by rewrite !length_replicate| | |].
  - intros i l Hi. apply lookup_replicate in Hi as [-> Hi]. exists None.
    rewrite lookup_replicate_2 by done. done.
  - intros i l k x Hi Hk. apply lookup_replicate in Hi as [-> _]. by apply not_elem_of_nil in Hk.
  - rewrite concat_empty. constructor.
Qed.

(** The buckets one after the other, the nodes of the later ones untouched. *)
Lemma rehash_buckets_ok size (old : list (option nat)) olds nodes table chains :
  0 < size -> Forall2 (chain nodes) old olds -> NoDup (concat olds) ->
  hashed nodes table size chains -> (forall k, k ∈ concat olds -> k ∉ concat chains) ->
  exists nodes' table' chains',
    res_fold (fun head '(nodes, table) => rehash_chain (length nodes) size head nodes table)
      old (nodes, table) = Ok (nodes', table') /\
    hashed nodes' table' size chains' /\ concat chains' ≡ₚ concat olds ++ concat chains /\
    unlinked <$> nodes' = unlinked <$> nodes /\ (forall k, k ∉ concat olds -> nodes' !! k = nodes !! k).
Proof.
  intros Hs HF. revert nodes table chains HF.
  revert olds; induction old as [|p old IH]; intros olds nodes table chains HF Hnd Hh Hd.
  { inversion HF; subst. exists nodes, table, chains. done. }
  inversion HF as [|? l ? olds' Hc HF']; subst. cbn [concat] in *.
  apply NoDup_app in Hnd as (Hnl & Hdis & Hno).
  destruct (rehash_chain_ok (length nodes) size p l nodes table chains)
    as (n1 & t1 & c1 & E1 & Hh1 & P1 & U1 & F1); [done|done|done| |done| |].
  { rewrite <- (length_seq (length nodes) 0). apply submseteq_length, NoDup_submseteq; [done|].
    intros k Hk. apply elem_of_seq. pose proof (chain_bound _ _ _ _ Hc Hk). lia. }
  { intros k Hk. apply Hd. set_solver. }
  cbn [res_fold]. rewrite E1. cbn [rbind].
  destruct (IH olds' n1 t1 c1) as (n2 & t2 & c2 & E2 & Hh2 & P2 & U2 & F2); [|done|done| |].
  - clear -HF' F1 Hdis. induction HF' as [|q m old' olds' Hq _ IH']; constructor.
    + eapply chain_frame; [done|]. intros k Hk. apply F1. intros Hkl. apply (Hdis k Hkl). cbn. set_solver.
    + apply IH'. intros k Hk Hin. apply (Hdis k Hk). cbn. set_solver.
  - intros k Hk. rewrite P1. intros Hin. apply elem_of_app in Hin as [Hin|Hin].
    + by apply (Hdis k Hin).
    + apply (Hd k); [set_solver|done].
  - exists n2, t2, c2. split_and!; [done|done| |congruence|].
    + rewrite P2, P1. rewrite !(assoc (++)). by rewrite (comm (++) (concat olds') l).
    + intros k Hk. rewrite elem_of_app in Hk. rewrite F2, F1 by tauto. done.
Qed.

Lemma rehash_ok new_size old_size nodes old olds :
  0 < new_size -> hashed nodes old old_size olds ->
  exists nodes' table' chains', rehash new_size old nodes = Ok (nodes', table') /\
    hashed nodes' table' new_size chains' /\ concat chains' ≡ₚ concat olds /\
    unlinked <$> nodes' = unlinked <$> nodes /\ (forall k, k ∉ concat olds -> nodes' !! k = nodes !! k).
Proof.
  intros Hs [H1 H2 H3 H4 H5].
  destruct (rehash_buckets_ok new_size old olds nodes (replicate (Z.to_nat new_size) None)
    (replicate (Z.to_nat new_size) [])) as (n & t & c & E & Hh & P & U & F); [done| |done| | |].
  - apply Forall2_same_length_lookup. split; [done|]. intros i p l Hp Hl.
    destruct (H3 i l Hl) as (q & Hq & Hc). congruence.
  - rewrite <- (Z2Nat.id new_size) at 2 by lia. apply empty_hashed.
  - intros k _. rewrite concat_empty. set_solver.
  - exists n, t, c. split_and!; [done|done| |done|done]. by rewrite P, concat_empty, app_nil_r.
Qed.

(** Linking and rehashing change links only. *)
Lemma link_unlinked nodes table size k nodes' table' :
  link nodes table size k = Ok (nodes', table') -> unlinked <$> nodes' = unlinked <$> nodes.
Proof.
  unfold link, get_node. destruct (nodes !! k) as [x|] eqn:Ex; cbn [rbind]; [|done]. intros E.
  apply rbind_ok in E as (i & _ & E). apply rbind_ok in E as (head & _ & E).
  apply rbind_ok in E as (t & _ & [= <- _]). rewrite list_fmap_insert. apply list_insert_id.
  rewrite list_lookup_fmap, Ex. cbn. f_equal. unfold unlinked. by rewrite set_set.
Qed.

Lemma rehash_chain_unlinked fuel size p nodes table nodes' table' :
  rehash_chain fuel size p nodes table = Ok (nodes', table') -> unlinked <$> nodes' = unlinked <$> nodes.
Proof.
  revert p nodes table; induction fuel as [|fuel IH]; intros [k|] nodes table; cbn [rehash_chain];
    [done|by intros [= <- _]| |by intros [= <- _]].
  intros E. apply rbind_ok in E as (x & _ & E). apply rbind_ok in E as ([n1 t1] & E1 & E).
  apply IH in E. by rewrite E, (link_unlinked _ _ _ _ _ _ E1).
Qed.

Lemma rehash_unlinked new_size old nodes nodes' table' :
  rehash new_size old nodes = Ok (nodes', table') -> unlinked <$> nodes' = unlinked <$> nodes.
Proof.
  unfold rehash. generalize (replicate (Z.to_nat new_size) (None : option nat)). revert nodes.
  induction old as [|p old IH]; intros nodes t; cbn [res_fold]; [by intros [= <- _]|].
  intros E. apply rbind_ok in E as ([n1 t1] & E1 & E). apply IH in E.
  by rewrite E, (rehash_chain_unlinked _ _ _ _ _ _ _ E1).
Qed.

(** A new node at the end of the list leaves the table as it is. *)
Lemma hashed_snoc nodes table size chains x :
  hashed nodes table size chains -> hashed (nodes ++ [x]) table size chains.
Proof.
  intros Hh. apply (hashed_frame nodes); [done|]. intros k Hk. apply lookup_app_l.
  apply elem_of_concat in Hk as (l & Hk & Hl). apply list_elem_of_lookup_1 in Hl as [i Hi].
  destruct (hd_chain _ _ _ _ Hh i l Hi) as (p & _ & Hc). by eapply chain_bound.
Qed.

(** A new node that already points to the head of its bucket. *)
Lemma push_ok nodes table size chains x head : 0 < size -> hashed nodes table size chains ->
  arr_get table (hash x mod size) = Ok head -> next x = head ->
  exists table' chains', arr_set table (hash x mod size) (Some (length nodes)) = Ok table' /\
    hashed (nodes ++ [x]) table' size chains' /\ concat chains' ≡ₚ length nodes :: concat chains.
Proof.
  intros Hs Hh Hg Hn. pose proof (hashed_snoc nodes table size chains x Hh) as Hh1.
  assert ((nodes ++ [x]) !! length nodes = Some x) as Hx by (by rewrite lookup_app_r, Nat.sub_diag by lia).
  destruct (link_ok (nodes ++ [x]) table size chains (length nodes) x) as (h & t' & c' & E & Hh' & Hp); [done..| |].
  { intros Hk. apply elem_of_concat in Hk as (l & Hk & Hl). apply list_elem_of_lookup_1 in Hl as [i Hi].
    destruct (hd_chain _ _ _ _ Hh i l Hi) as (p & _ & Hc). pose proof (chain_bound _ _ _ _ Hc Hk). lia. }
  unfold link, get_node in E. rewrite Hx in E. cbn [rbind] in E. rewrite bucket_pos in E by done. cbn [rbind] in E.
  rewrite Hg in E. cbn [rbind] in E. destruct (arr_set table _ _) as [t|]; [|done]. cbn [rbind] in E.
  injection E as E <-. exists t, c'. split; [done|]. split; [|done].
  assert (set_next h x = x) as Esx.
  { apply (f_equal (fun l => l !! length nodes)) in E.
    rewrite !list_lookup_insert_eq in E by (rewrite length_app; simpl; lia). injection E as E. rewrite <- E, <- Hn. apply set_same. }
  rewrite Esx, list_insert_id in Hh' by done. done.
Qed.

(** No bucket is longer than the list of nodes. *)
Lemma bucket_length nodes table size chains i l : hashed nodes table size chains -> chains !! i = Some l ->
  (length l <= length nodes)%nat.
Proof.
  intros Hh Hi. destruct (hd_chain _ _ _ _ Hh i l Hi) as (p & _ & Hc). rewrite <- (length_seq (length nodes) 0).
  apply submseteq_length, NoDup_submseteq; [by eapply nodup_bucket; [apply Hh|]|]. intros k Hk. apply elem_of_seq.
  pose proof (chain_bound _ _ _ _ Hc Hk). lia.
Qed.

(** Lookup in a table. *)
Lemma find_in nodes table size chains h test (found : N -> bool) fuel :
  (forall k x, nodes !! k = Some x -> test x = Ok (found x)) -> 0 < size -> hashed nodes table size chains ->
  (length nodes <= fuel)%nat ->
  (forall k x, k ∈ concat chains -> nodes !! k = Some x -> found x = true -> hash x = h) ->
  exists r, (let! i := bucket_of h size in let! p := arr_get table i in find_chain fuel test nodes p)
      = Ok r /\
    match r with
    | Some k => k ∈ concat chains /\ exists x, nodes !! k = Some x /\ found x = true
    | None => forall k x, k ∈ concat chains -> nodes !! k = Some x -> found x = false
    end.
Proof.
  intros Ht Hs Hh Hfuel Hhash. pose proof Hh as [H1 H2 H3 H4 H5]. rewrite bucket_pos by done. cbn [rbind].
  pose proof (Z.mod_pos_bound h size Hs) as Hb. set (i := h mod size) in *.
  destruct (lookup_lt_is_Some_2 chains (Z.to_nat i)) as [l Hl]; [lia|].
  destruct (H3 _ _ Hl) as (p & Hp & Hc). rewrite (arr_get_in _ i p) by (done || lia). cbn [rbind].
  pose proof (bucket_length _ _ _ _ _ _ Hh Hl) as Hlen.
  destruct (find_chain_ok fuel test found nodes p l Ht Hc ltac:(lia))
    as [(l1 & k & l2 & x & -> & Hx & Hf & E)|[Hn E]].
  - exists (Some k). split; [done|]. split; [|by exists x]. eapply in_concat; [exact Hl|set_solver].
  - exists None. split; [done|]. intros k x Hin Hx. destruct (found x) eqn:Ef; [|done].
    pose proof (Hhash k x Hin Hx Ef) as Hhx. apply elem_of_concat in Hin as (l' & Hk & Hl').
    apply list_elem_of_lookup_1 in Hl' as [j Hj].
    pose proof (H4 j l' k x Hj Hk Hx) as Hhj. rewrite Hhx in Hhj. fold i in Hhj.
    assert (j = Z.to_nat i) as -> by lia. simplify_eq. rewrite (Hn k x Hk Hx) in Ef. done.
Qed.

(** A chain up to its last node. *)
Lemma chain_split nodes p l1 k l2 : chain nodes p (l1 ++ k :: l2) ->
  chain nodes (Some k) (k :: l2) /\
  match last l1 with None => p = Some k | Some b => exists y, nodes !! b = Some y /\ next y = Some k end.
Proof.
  revert p; induction l1 as [|j l1 IH]; intros p Hc.
  - cbn in Hc |- *. destruct Hc as (-> & Hx). by split.
  - destruct Hc as (-> & x & Hx & Hc). destruct (IH _ Hc) as [H1 H2]. split; [done|].
    rewrite last_cons. destruct (last l1) as [b|] eqn:El; [done|]. destruct l1; [|by rewrite last_cons in El; destruct (last l1)].
    by exists x.
Qed.

(** Taking a node out of a chain. *)
Lemma chain_unlink nodes p l1 k l2 x : chain nodes p (l1 ++ k :: l2) -> NoDup (l1 ++ k :: l2) -> nodes !! k = Some x ->
  match last l1 with
  | None => chain nodes (next x) l2
  | Some b => forall y, nodes !! b = Some y -> chain (<[b := set_next (next x) y]> nodes) p (l1 ++ l2)
  end.
Proof.
  revert p; induction l1 as [|j l1 IH]; intros p Hc Hnd Hx.
  - cbn in Hc |- *. destruct Hc as (-> & x' & Hx' & Hc). congruence.
  - cbn in Hnd. apply NoDup_cons in Hnd as [Hj Hnd]. destruct Hc as (-> & z & Hz & Hc). rewrite last_cons.
    specialize (IH _ Hc Hnd Hx). destruct (last l1) as [b|] eqn:El.
    + intros y Hy. specialize (IH y Hy). split; [done|]. exists z. split; [|done]. rewrite list_lookup_insert_ne; [done|].
      intros ->. apply Hj. apply elem_of_app. left. by apply last_Some_elem_of.
    + destruct l1; [|by rewrite last_cons in El; destruct (last l1)]. cbn [app] in *. intros y Hy. rewrite Hz in Hy.
      injection Hy as <-. split; [done|]. exists (set_next (next x) z).
      rewrite list_lookup_insert_eq by (by apply lookup_lt_Some in Hz). split; [done|]. rewrite next_set.
      eapply chain_frame; [exact IH|]. intros i Hi. apply list_lookup_insert_ne. intros ->. apply Hj. set_solver.
Qed.

Lemma concat_insert_perm (chains : list (list nat)) i l l' : chains !! i = Some l -> l ≡ₚ l' ->
  concat (<[i := l']> chains) ≡ₚ concat chains.
Proof.
  revert i; induction chains as [|c chains IH]; intros [|i]; intros Hi Hp; try done; cbn in *.
  - injection Hi as ->. by rewrite Hp.
  - by rewrite IH.
Qed.

Lemma concat_remove (chains : list (list nat)) i l1 k l2 : chains !! i = Some (l1 ++ k :: l2) ->
  concat chains ≡ₚ k :: concat (<[i := l1 ++ l2]> chains).
Proof.
  intros Hi. pose proof (lookup_lt_Some _ _ _ Hi) as Hlt.
  rewrite <- (concat_insert (<[i := l1 ++ l2]> chains) i (l1 ++ l2) k) by (by rewrite list_lookup_insert_eq).
  rewrite list_insert_insert_eq. symmetry. apply (concat_insert_perm _ _ _ _ Hi). symmetry. apply Permutation_middle.
Qed.

(** A table without node [k] of bucket [i]. *)
Lemma hashed_unlink nodes table size chains i l1 k l2 x : hashed nodes table size chains ->
  chains !! i = Some (l1 ++ k :: l2) -> nodes !! k = Some x ->
  match last l1 with
  | None => hashed nodes (<[i := next x]> table) size (<[i := l1 ++ l2]> chains)
  | Some b => forall y, nodes !! b = Some y ->
      hashed (<[b := set_next (next x) y]> nodes) table size (<[i := l1 ++ l2]> chains)
  end.
Proof.
  intros Hh Hi Hx. pose proof Hh as [H1 H2 H3 H4 H5]. pose proof (nodup_bucket _ _ _ H5 Hi) as Hnd.
  destruct (H3 i _ Hi) as (p & Hp & Hc). pose proof (chain_unlink _ _ _ _ _ x Hc Hnd Hx) as Hun.
  pose proof (lookup_lt_Some _ _ _ Hi) as Hlt.
  assert (NoDup (concat (<[i := l1 ++ l2]> chains))) as Hnd'.
  { rewrite (concat_remove _ _ _ _ _ Hi) in H5. by apply NoDup_cons in H5 as [_ H5]. }
  destruct (last l1) as [b|] eqn:El.
  - intros y Hy. assert (b ∈ l1 ++ k :: l2) as Hb by (apply elem_of_app; left; by apply last_Some_elem_of).
    assert (forall j c, j <> i -> chains !! j = Some c -> b ∉ c) as Hout.
    { intros j c Hne Hj Hbc. pose proof (H4 j c b y Hj Hbc Hy). pose proof (H4 i _ b y Hi Hb Hy). lia. }
    constructor; [done|by rewrite length_insert| | |done].
    + intros j c Hj. apply list_lookup_insert_Some in Hj as [(<- & <- & _)|[Hne Hj]]; [exists p; split; [done|by apply Hun]|].
      destruct (H3 j c Hj) as (q & Hq & Hcq). exists q. split; [done|]. eapply chain_frame; [exact Hcq|].
      intros a Ha. apply list_lookup_insert_ne. intros ->. by apply (Hout j c).
    + intros j c a z Hj Ha Hz. apply list_lookup_insert_Some in Hz as [(<- & <- & _)|[Hne Hz]].
      * rewrite hash_set. apply list_lookup_insert_Some in Hj as [(<- & _ & _)|[Hne Hj]]; [by eapply H4|].
        exfalso. by apply (Hout j c).
      * apply list_lookup_insert_Some in Hj as [(<- & <- & _)|[Hne' Hj]]; [|by eapply H4].
        eapply H4; [exact Hi| |exact Hz]. set_solver.
  - constructor; [by rewrite length_insert|by rewrite !length_insert| | |done].
    + intros j c Hj. apply list_lookup_insert_Some in Hj as [(<- & <- & _)|[Hne Hj]].
      * exists (next x). rewrite list_lookup_insert_eq by lia. apply last_None in El as ->. done.
      * rewrite list_lookup_insert_ne by done. by apply H3.
    + intros j c a z Hj Ha Hz. apply list_lookup_insert_Some in Hj as [(<- & <- & _)|[Hne' Hj]]; [|by eapply H4].
      eapply H4; [exact Hi| |exact Hz]. set_solver.
Qed.

Lemma find_before_none fuel test (found : N -> bool) nodes bp p l :
  (forall k x, nodes !! k = Some x -> test x = Ok (found x)) -> chain nodes p l -> (length l <= fuel)%nat ->
  (forall j y, j ∈ l -> nodes !! j = Some y -> found y = false) -> find_before fuel test nodes bp p = Ok None.
Proof.
  intros Ht. revert fuel bp p; induction l as [|j l IH]; intros fuel bp p Hc Hf Hn; [cbn in Hc; subst p; by destruct fuel|].
  destruct Hc as (-> & z & Hz & Hc). destruct fuel; [simpl in Hf; lia|]. cbn [find_before]. unfold get_node.
  rewrite Hz. cbn [rbind]. rewrite (Ht j z Hz). cbn [rbind]. rewrite (Hn j z) by (done || by left).
  apply IH; [done|simpl in Hf; lia|]. intros i y Hi. apply Hn. by right.
Qed.

Lemma find_before_ok fuel test (found : N -> bool) nodes bp p l1 k l2 x :
  (forall k x, nodes !! k = Some x -> test x = Ok (found x)) -> chain nodes p (l1 ++ k :: l2) ->
  (length l1 < fuel)%nat -> (forall j y, j ∈ l1 -> nodes !! j = Some y -> found y = false) -> nodes !! k = Some x -> found x = true ->
  find_before fuel test nodes bp p = Ok (Some (match last l1 with None => bp | o => o end, k)).
Proof.
  intros Ht. revert fuel bp p; induction l1 as [|j l1 IH]; intros fuel bp p Hc Hf Hn Hx Hfx.
  - destruct Hc as (-> & x' & Hx' & _). destruct fuel; [simpl in Hf; lia|]. cbn [find_before]. unfold get_node.
    rewrite Hx. cbn [rbind]. rewrite (Ht k x Hx). cbn [rbind]. by rewrite Hfx.
  - destruct Hc as (-> & z & Hz & Hc). destruct fuel; [simpl in Hf; lia|]. cbn [find_before]. unfold get_node.
    rewrite Hz. cbn [rbind]. rewrite (Ht j z Hz). cbn [rbind]. rewrite (Hn j z) by (done || set_solver).
    rewrite (IH fuel (Some j) (next z)); [|done|simpl in Hf; lia|intros i y Hi; apply Hn; by right|done|done].
    rewrite last_cons. by destruct (last l1).
Qed.

(** Lookup in a table that holds every node. *)
Lemma find_ok nodes table size chains h test (found : N -> bool) fuel :
  (forall k x, nodes !! k = Some x -> test x = Ok (found x)) -> 0 < size -> hashed nodes table size chains -> concat chains ≡ₚ seq 0 (length nodes) ->
  (length nodes <= fuel)%nat ->
  (forall k x, nodes !! k = Some x -> found x = true -> hash x = h) ->
  exists r, (let! i := bucket_of h size in let! p := arr_get table i in find_chain fuel test nodes p)
      = Ok r /\
    match r with
    | Some k => exists x, nodes !! k = Some x /\ found x = true
    | None => forall k x, nodes !! k = Some x -> found x = false
    end.
Proof.
  intros Ht Hs Hh Hall Hfuel Hhash.
  assert (forall k x, nodes !! k = Some x -> k ∈ concat chains) as Hin.
  { intros k x Hx. rewrite Hall. apply elem_of_seq. apply lookup_lt_Some in Hx. lia. }
  destruct (find_in nodes table size chains h test found fuel) as (r & E & Hr); [done..|by intros; eapply Hhash|].
  exists r. split; [done|]. destruct r as [k|]; [by destruct Hr|]. intros k x Hx. by eapply Hr, Hx; eapply Hin.
Qed.

End table.

(** ** Interning: what the tables are for *)

Section interning.
Context {A : Type} `{EqDecision A}.

(** The number of [a], which is new if the list does not have it. *)
Definition intern (l : list A) (a : A) : nat * list A :=
  match list_find (eq a) l with
  | Some (k, _) => (k, l)
  | None => (length l, l ++ [a])
  end.

Fixpoint interns (l : list A) (as_ : list A) : list nat * list A :=
  match as_ with
  | [] => ([], l)
  | a :: rest =>
      let '(k, l) := intern l a in
      let '(ks, l) := interns l rest in
      (k :: ks, l)
  end.

Lemma intern_old l a k : NoDup l -> l !! k = Some a -> intern l a = (k, l).
Proof.
  intros Hn Hk. unfold intern. destruct (list_find (eq a) l) as [[i x]|] eqn:E.
  - apply list_find_Some in E as (Hi & <- & _). f_equal. by eapply NoDup_lookup.
  - apply list_find_None in E. rewrite Forall_forall in E. exfalso. apply (E a); [|done].
    by eapply list_elem_of_lookup_2.
Qed.

Lemma intern_new l a : a ∉ l -> intern l a = (length l, l ++ [a]).
Proof.
  intros Hn. unfold intern. destruct (list_find (eq a) l) as [[i x]|] eqn:E; [|done].
  apply list_find_Some in E as (Hi & <- & _). exfalso. apply Hn. by eapply list_elem_of_lookup_2.
Qed.

Lemma intern_length l a :
  (length l <= length (intern l a).2 <= S (length l))%nat.
Proof.
  unfold intern. destruct (list_find (eq a) l) as [[k x]|]; cbn; [lia|].
  rewrite length_app. simpl. lia.
Qed.

Lemma intern_elem l a b : b ∈ (intern l a).2 -> b ∈ l \/ b = a.
Proof.
  unfold intern. destruct (list_find (eq a) l) as [[k x]|]; cbn; [by left|].
  set_solver.
Qed.

Lemma intern_prefix l a : l `prefix_of` (intern l a).2.
Proof.
  unfold intern. destruct (list_find (eq a) l) as [[k x]|]; cbn; [done|]. by exists [a].
Qed.

Lemma intern_lookup l a : NoDup l -> (intern l a).2 !! (intern l a).1 = Some a.
Proof.
  intros Hl. destruct (decide (a ∈ l)) as [Ha|Ha].
  - apply list_elem_of_lookup_1 in Ha as [k Hk]. by rewrite (intern_old l a k).
  - rewrite intern_new by done. cbn [fst snd]. by rewrite lookup_app_r, Nat.sub_diag by lia.
Qed.

Lemma intern_nodup l a : NoDup l -> NoDup (intern l a).2.
Proof.
  intros Hl. destruct (decide (a ∈ l)) as [Ha|Ha].
  - apply list_elem_of_lookup_1 in Ha as [k Hk]. by rewrite (intern_old l a k).
  - rewrite intern_new by done. apply NoDup_app. split_and!; [done|set_solver|apply NoDup_singleton].
Qed.
End interning.
