(* ===== verification/ClgJumps.v ===== *)
(** * ClgJumps: the arcs of the call graph (callgrind/jumps.c)

    A [jCC] counts the calls (or jumps) from one exit of a basic block's cost
    centre to another cost centre.  [get_jcc] finds it through two one-entry
    caches and a hash table that doubles as it fills, or makes it; each is also
    on a list of its source, which the dump walks.  A [BBCC*] is its address, a
    [UWord] (0 is null), because it is hashed; a [jCC*] is the index of the
    [jCC] among those made.  CLG_DEBUG output and the conflict counts, which
    only it shows, are left out. *)

From Stdlib Require Import ZArith Lia Ascii String.
From stdpp Require Import base numbers option strings gmap sets list.
From S2P Require Import Prelude ClgCosts ClgHash.

#[local] Open Scope Z_scope.

(** ** Data *)

Inductive ClgJumpKind : Type := jk_None | jk_Jump | jk_Call | jk_Return | jk_CondJump.

Record jCC : Type := MkJcc {
  jmpkind : ClgJumpKind;
  next_hash : option nat;
  next_from : option nat;
  from : Z;
  to : Z;
  jmp : Z;
  call_counter : Z;
  jcc_cost : option cptr
}.

(** What jumps.c uses of a BBCC: the caches, the number of side exits of its
    block, and the heads of the lists of its exits. *)
Record arc_ends : Type := MkEnds {
  lru_from_jcc : option nat;
  lru_to_jcc : option nat;
  cjmp_count : Z;
  jcc_list : list (option nat)
}.

Record jcc_hash : Type := MkJccHash {
  size : Z;
  entries : Z;
  table : list (option nat);
  spontaneous : option nat
}.

(** The current table, the objects behind the pointers, and the statistics. *)
Record jumps : Type := MkJumps {
  jccs : list jCC;
  bbccs : gmap Z arc_ends;
  current_jccs : jcc_hash;
  jcc_hash_resizes : Z;
  distinct_jccs : Z;
  jcc_lru_misses : Z
}.

Definition N_JCC_INITIAL_ENTRIES : Z := 4437.

Definition init_jcc_hash : jcc_hash :=
  MkJccHash N_JCC_INITIAL_ENTRIES 0 (replicate (Z.to_nat N_JCC_INITIAL_ENTRIES) None) None.

Definition copy_current_jcc_hash (s : jumps) : jcc_hash := current_jccs s.

Definition set_current_jcc_hash (s : jumps) (h : jcc_hash) : jumps :=
  MkJumps (jccs s) (bbccs s) h (jcc_hash_resizes s) (distinct_jccs s) (jcc_lru_misses s).

(** The sum of [jcc_hash_idx]: [UWord] arithmetic, then a cast to [UInt]. *)
Definition jcc_hash_sum (from jmp to : Z) : Z :=
  u32 (u64 (u64 (from + u64 (7 * to)) + u32 (13 * jmp))).

Definition jcc_hash_idx (from jmp to size : Z) : res Z :=
  bucket_of (jcc_hash_sum from jmp to) size.

(** Chained through [next_hash]. *)
#[global] Instance jcc_node : ChainNode jCC.
Proof.
  refine {| next := next_hash;
    set_next p x := MkJcc (jmpkind x) p (next_from x) (from x) (to x) (jmp x) (call_counter x) (jcc_cost x);
    hash x := jcc_hash_sum (from x) (jmp x) (to x) |}; intros;
    repeat match goal with x : jCC |- _ => destruct x end; reflexivity.
Defined.

(** Chained through [next_from]. *)
Definition from_node : ChainNode jCC.
Proof.
  refine {| next := next_from;
    set_next p x := MkJcc (jmpkind x) (next_hash x) p (from x) (to x) (jmp x) (call_counter x) (jcc_cost x);
    hash x := 0 |}; intros;
    repeat match goal with x : jCC |- _ => destruct x end; reflexivity.
Defined.

(** ** Operations *)

Definition resize_jcc_table (s : jumps) : res jumps :=
  let h := current_jccs s in
  let new_size := s32 (2 * size h + 3) in
  let! (nodes, t) := rehash new_size (table h) (jccs s) in
  let! n := int_add (jcc_hash_resizes s) 1 in
  Ok (MkJumps nodes (bbccs s) (MkJccHash (u32 new_size) (entries h) t (spontaneous h)) n
        (distinct_jccs s) (jcc_lru_misses s)).

(** [p->...] for a [BBCC*]. *)
Definition deref_bbcc (s : jumps) (p : Z) : res arc_ends :=
  if p =? 0 then Err NullDeref
  else match bbccs s !! p with Some x => Ok x | None => Err OutOfBounds end.

Definition set_list (x : arc_ends) (l : list (option nat)) : arc_ends :=
  MkEnds (lru_from_jcc x) (lru_to_jcc x) (cjmp_count x) l.
Definition set_lru_from (x : arc_ends) (k : nat) : arc_ends :=
  MkEnds (Some k) (lru_to_jcc x) (cjmp_count x) (jcc_list x).
Definition set_lru_to (x : arc_ends) (k : nat) : arc_ends :=
  MkEnds (lru_from_jcc x) (Some k) (cjmp_count x) (jcc_list x).

(** Store [k] as the head of the list the new arc belongs to; returns the old
    head. *)
Definition enlist (s : jumps) (f j : Z) (k : nat)
  : res (option nat * gmap Z arc_ends * option nat) :=
  let h := current_jccs s in
  if f =? 0 then Ok (spontaneous h, bbccs s, Some k)
  else
    let! x := deref_bbcc s f in
    let! _ := tl_assert ((0 <=? j) && (j <=? cjmp_count x)) "(0 <= jmp) && (jmp <= from->bb->cjmp_count)" in
    let! old := arr_get (jcc_list x) j in
    let! l := arr_set (jcc_list x) j (Some k) in
    Ok (old, <[f := set_list x l]> (bbccs s), spontaneous h).

Definition new_jcc (s : jumps) (f j t : Z) : res (nat * jumps) :=
  let h := current_jccs s in
  let e := u32 (entries h + 1) in
  let s := MkJumps (jccs s) (bbccs s) (MkJccHash (size h) e (table h) (spontaneous h))
             (jcc_hash_resizes s) (distinct_jccs s) (jcc_lru_misses s) in
  let! fill := uint_div (u32 (10 * e)) (size h) in
  let! s := if 8 <? fill then resize_jcc_table s else Ok s in
  let k := length (jccs s) in
  let! (old, bs, sp) := enlist s f j k in
  let jcc := MkJcc jk_Call None old f t j 0 None in
  let h := current_jccs s in
  let! (nodes, tb) := link (jccs s ++ [jcc]) (table h) (size h) k in
  let! n := int_add (distinct_jccs s) 1 in
  Ok (k, MkJumps nodes bs (MkJccHash (size h) (entries h) tb sp) (jcc_hash_resizes s) n
           (jcc_lru_misses s)).

Definition is_arc (f j t : Z) (x : jCC) : bool := (from x =? f) && (jmp x =? j) && (to x =? t).

(** Both caches missed: the hash table, a new arc if it is not there, and the
    caches again. *)
Definition get_jcc_hash (s : jumps) (f j t : Z) : res (nat * jumps) :=
  let! misses := int_add (jcc_lru_misses s) 1 in
  let s := MkJumps (jccs s) (bbccs s) (current_jccs s) (jcc_hash_resizes s) (distinct_jccs s) misses in
  let! idx := jcc_hash_idx f j t (size (current_jccs s)) in
  let! p := arr_get (table (current_jccs s)) idx in
  let! r := find_chain (length (jccs s)) (fun x => Ok (is_arc f j t x)) (jccs s) p in
  let! (k, s) := (match r with
                  | Some k => Ok (k, s)
                  | None => new_jcc s f j t
                  end) in
  let! fx := deref_bbcc s f in
  let bs := <[f := set_lru_from fx k]> (bbccs s) in
  let s := MkJumps (jccs s) bs (current_jccs s) (jcc_hash_resizes s) (distinct_jccs s) (jcc_lru_misses s) in
  let! tx := deref_bbcc s t in
  let bs := <[t := set_lru_to tx k]> (bbccs s) in
  Ok (k, MkJumps (jccs s) bs (current_jccs s) (jcc_hash_resizes s) (distinct_jccs s) (jcc_lru_misses s)).

Definition get_jcc (s : jumps) (f j t : Z) : res (nat * jumps) :=
  let! tx := deref_bbcc s t in
  let! c := (match lru_to_jcc tx with
             | None => Ok None
             | Some k =>
                 let! x := get_node (jccs s) k in
                 if (from x =? f) && (jmp x =? j) then
                   let! _ := tl_assert (t =? to x) "to == jcc->to" in Ok (Some k)
                 else Ok None
             end) in
  match c with
  | Some k => Ok (k, s)
  | None =>
  let! fx := deref_bbcc s f in
  let! c := (match lru_from_jcc fx with
             | None => Ok None
             | Some k =>
                 let! x := get_node (jccs s) k in
                 if (to x =? t) && (jmp x =? j) then
                   let! _ := tl_assert (f =? from x) "from == jcc->from" in Ok (Some k)
                 else Ok None
             end) in
  match c with
  | Some k => Ok (k, s)
  | None =>
  get_jcc_hash s f j t
  end end.

(** ** Specification: a list of arcs *)

Abbreviation arc := (Z * Z * Z)%type.

Definition key (x : jCC) : arc := (from x, jmp x, to x).

(** The arcs from exit [j] of [b], the newest first. *)
Definition calls_from (arcs : list arc) (b j : Z) : list nat :=
  filter (fun k => fst <$> arcs !! k = Some (b, j)) (reverse (seq 0 (length arcs))).

(** ** The table implements it *)

Record table_ok (nodes : list jCC) (t : list (option nat)) (sz : Z) (arcs : list arc) : Prop := {
  to_key : key <$> nodes = arcs;
  to_hash : exists chains, hashed nodes t sz chains /\ concat chains ≡ₚ seq 0 (length arcs)
}.

Definition lists_ok (nodes : list jCC) (bs : gmap Z arc_ends) (arcs : list arc) : Prop :=
  forall b x j, bs !! b = Some x -> 0 <= j <= cjmp_count x ->
    exists p, jcc_list x !! Z.to_nat j = Some p /\ @chain jCC from_node nodes p (calls_from arcs b j).

(** A cache holds an arc of its owner. *)
Definition caches_ok (nodes : list jCC) (bs : gmap Z arc_ends) : Prop :=
  forall b x, bs !! b = Some x ->
    (forall k, lru_from_jcc x = Some k -> exists y, nodes !! k = Some y /\ from y = b) /\
    (forall k, lru_to_jcc x = Some k -> exists y, nodes !! k = Some y /\ to y = b).

Definition size_ok (sz : Z) (n : nat) : Prop := 0 < sz /\ (sz <= 4437 \/ sz <= 3 * Z.of_nat n).

Record arcs_ok (s : jumps) (arcs : list arc) : Prop := {
  ak_table : table_ok (jccs s) (table (current_jccs s)) (size (current_jccs s)) arcs;
  ak_nodup : NoDup arcs;
  ak_entries : entries (current_jccs s) = Z.of_nat (length arcs);
  ak_size : size_ok (size (current_jccs s)) (length arcs);
  ak_lists : lists_ok (jccs s) (bbccs s) arcs;
  ak_caches : caches_ok (jccs s) (bbccs s);
  ak_resizes : 0 <= jcc_hash_resizes s <= Z.of_nat (length arcs);
  ak_distinct : distinct_jccs s = Z.of_nat (length arcs)
}.

Lemma key_length nodes t sz arcs : table_ok nodes t sz arcs -> length nodes = length arcs.
Proof. intros [<- _]. by rewrite length_fmap. Qed.

Lemma key_lookup nodes t sz arcs k : table_ok nodes t sz arcs -> key <$> nodes !! k = arcs !! k.
Proof. intros [<- _]. by rewrite list_lookup_fmap. Qed.

Lemma is_arc_key f j t x : is_arc f j t x = true <-> key x = (f, j, t).
Proof.
  unfold is_arc, key. rewrite !andb_true_iff, !Z.eqb_eq. split; [intros [[-> ->] ->]; done|].
  intros [= -> -> ->]. done.
Qed.

Lemma filter_ext_in {A} (P Q : A -> Prop) `{!forall x, Decision (P x), !forall x, Decision (Q x)}
    (l : list A) :
  (forall x, x ∈ l -> P x <-> Q x) -> filter P l = filter Q l.
Proof.
  induction l as [|x l IH]; intros Hl; [done|]. rewrite !filter_cons.
  rewrite IH by (intros y Hy; apply Hl; set_solver).
  destruct (decide (P x)) as [HP|HP], (decide (Q x)) as [HQ|HQ]; try done;
    exfalso; (apply HQ || apply HP); apply (Hl x); set_solver.
Qed.

Lemma calls_from_app arcs a b j :
  calls_from (arcs ++ [a]) b j =
    (if decide (a.1 = (b, j)) then [length arcs] else []) ++ calls_from arcs b j.
Proof.
  unfold calls_from. rewrite length_app, Nat.add_1_r, seq_S, reverse_app. cbn [app].
  rewrite Nat.add_0_l. change (reverse [length arcs]) with [length arcs].
  rewrite filter_app. f_equal.
  - rewrite filter_cons, lookup_app_r, Nat.sub_diag by done. cbn [lookup list_lookup fmap option_fmap option_map].
    destruct (decide (a.1 = (b, j))) as [E|E].
    + rewrite decide_True by (by rewrite E). done.
    + rewrite decide_False by (intros [=]; done). done.
  - apply filter_ext_in. intros k Hk. apply elem_of_reverse, elem_of_seq in Hk.
    rewrite lookup_app_l by lia. done.
Qed.

(** Relinking for the hash table keeps the keys and the lists of the sources. *)
Lemma relinked (nodes nodes' : list jCC) :
  unlinked <$> nodes' = unlinked <$> nodes ->
  key <$> nodes' = key <$> nodes /\ next_from <$> nodes' = next_from <$> nodes.
Proof.
  intros H. assert (forall l : list jCC, key <$> (unlinked <$> l) = key <$> l /\
    next_from <$> (unlinked <$> l) = next_from <$> l) as E.
  { intros l. rewrite <- !list_fmap_compose. split; apply list_fmap_ext; by intros ? []. }
  destruct (E nodes) as [<- <-], (E nodes') as [<- <-]. by rewrite H.
Qed.

Lemma lists_relinked nodes nodes' bs arcs :
  next_from <$> nodes' = next_from <$> nodes -> lists_ok nodes bs arcs -> lists_ok nodes' bs arcs.
Proof.
  intros H Hl b x j Hb Hj. destruct (Hl b x j Hb Hj) as (p & Hp & Hc). exists p. split; [done|].
  eapply chain_links; [exact Hc|]. intros k _. change (@next jCC from_node) with next_from.
  rewrite <- !list_lookup_fmap. by rewrite H.
Qed.

Lemma caches_relinked nodes nodes' bs :
  key <$> nodes' = key <$> nodes -> caches_ok nodes bs -> caches_ok nodes' bs.
Proof.
  intros H Hc b x Hb.
  assert (forall k y, nodes !! k = Some y -> exists y', nodes' !! k = Some y' /\ key y' = key y) as Hk.
  { intros k y Hy. apply (f_equal (fun l => l !! k)) in H. rewrite !list_lookup_fmap, Hy in H.
    destruct (nodes' !! k) as [y'|]; [|done]. cbn in H. exists y'. split; [done|congruence]. }
  destruct (Hc b x Hb) as [Hf Ht]. split; intros k Hl.
  - destruct (Hf k Hl) as (y & Hy & E). destruct (Hk k y Hy) as (y' & Hy' & [= E' _ _]).
    exists y'. split; [done|congruence].
  - destruct (Ht k Hl) as (y & Hy & E). destruct (Hk k y Hy) as (y' & Hy' & [= _ _ E']).
    exists y'. split; [done|congruence].
Qed.

Lemma resize_ok s arcs :
  table_ok (jccs s) (table (current_jccs s)) (size (current_jccs s)) arcs ->
  0 < size (current_jccs s) < 2 ^ 29 -> 0 <= jcc_hash_resizes s < 2 ^ 30 ->
  exists nodes t, resize_jcc_table s = Ok (MkJumps nodes (bbccs s)
      (MkJccHash (2 * size (current_jccs s) + 3) (entries (current_jccs s)) t (spontaneous (current_jccs s)))
      (jcc_hash_resizes s + 1) (distinct_jccs s) (jcc_lru_misses s)) /\
    table_ok nodes t (2 * size (current_jccs s) + 3) arcs /\
    key <$> nodes = key <$> jccs s /\ next_from <$> nodes = next_from <$> jccs s.
Proof.
  intros [Hk (chains & Hh & Hp)] Hs Hr. unfold resize_jcc_table.
  rewrite wraps_small by (unfold in_s; lia). set (n := 2 * size (current_jccs s) + 3) in *.
  destruct (rehash_ok n _ _ _ _ ltac:(lia) Hh) as (nodes & t & chains' & -> & Hh' & Hp' & Hu & _).
  cbn [rbind]. unfold int_add. rewrite signed_result_in by (unfold in_s; lia). cbn [rbind].
  rewrite wrapu_small by (unfold in_u; lia).
  destruct (relinked _ _ Hu) as [Hk' Hf']. exists nodes, t. split_and!; [done| |done|done].
  constructor; [congruence|]. exists chains'. split; [done|]. by rewrite Hp'.
Qed.

Definition ends_same (s s' : jumps) : Prop :=
  forall b, cjmp_count <$> bbccs s' !! b = cjmp_count <$> bbccs s !! b.

(** A new entry, after the table was resized if it was more than 80% full. *)
Lemma make_room s arcs :
  arcs_ok s arcs -> Z.of_nat (length arcs) < 2 ^ 28 ->
  let h := current_jccs s in
  let s1 := MkJumps (jccs s) (bbccs s) (MkJccHash (size h) (u32 (entries h + 1)) (table h) (spontaneous h))
             (jcc_hash_resizes s) (distinct_jccs s) (jcc_lru_misses s) in
  exists s2, (let! fill := uint_div (u32 (10 * u32 (entries h + 1))) (size h) in
      if 8 <? fill then resize_jcc_table s1 else Ok s1) = Ok s2 /\
    table_ok (jccs s2) (table (current_jccs s2)) (size (current_jccs s2)) arcs /\
    entries (current_jccs s2) = Z.of_nat (length arcs) + 1 /\
    size_ok (size (current_jccs s2)) (S (length arcs)) /\
    lists_ok (jccs s2) (bbccs s2) arcs /\ caches_ok (jccs s2) (bbccs s2) /\
    bbccs s2 = bbccs s /\ spontaneous (current_jccs s2) = spontaneous h /\
    0 <= jcc_hash_resizes s2 <= Z.of_nat (length arcs) + 1 /\
    distinct_jccs s2 = distinct_jccs s /\ jcc_lru_misses s2 = jcc_lru_misses s.
Proof.
  intros [Ht Hn He [Hs1 Hs2] Hl Hc Hr Hd] Hlen h s1. subst h s1.
  rewrite He. rewrite (wrapu_small 32 (_ + 1)) by (unfold in_u; lia).
  rewrite wrapu_small by (unfold in_u; lia).
  unfold uint_div. rewrite (proj2 (Z.eqb_neq _ _)) by lia. cbn [rbind].
  set (sz := size (current_jccs s)) in *. set (e := Z.of_nat (length arcs) + 1) in *.
  destruct (Z.ltb_spec 8 (10 * e / sz)) as [Hfull|_].
  - assert (9 * sz <= 10 * e) as Hsz.
    { pose proof (Z.mul_div_le (10 * e) sz Hs1). nia. }
    match goal with |- context [resize_jcc_table ?s1] =>
      destruct (resize_ok s1 arcs) as (nodes & t & -> & Ht' & Hk & Hf) end;
      cbn [current_jccs size jccs table bbccs jcc_hash_resizes]; [done|fold sz; lia|lia|].
    eexists. split; [done|]. cbn. fold sz. split_and!; try done; try lia.
    + unfold size_ok. lia.
    + by eapply lists_relinked.
    + by eapply caches_relinked.
  - eexists. split; [done|]. cbn. fold sz. split_and!; try done; try lia. unfold size_ok. lia.
Qed.

Lemma lists_enlisted nodes nodes' bs arcs f j t x old l jcc :
  lists_ok nodes bs arcs -> bs !! f = Some x -> 0 <= j <= cjmp_count x ->
  length nodes = length arcs -> jcc_list x !! Z.to_nat j = Some old ->
  l = <[Z.to_nat j := Some (length arcs)]> (jcc_list x) ->
  (forall k, (k < length arcs)%nat -> next_from <$> nodes' !! k = next_from <$> nodes !! k) ->
  nodes' !! length arcs = Some jcc -> next_from jcc = old ->
  lists_ok nodes' (<[f := set_list x l]> bs) (arcs ++ [(f, j, t)]).
Proof.
  intros Hl Hx Hj Hlen Hold -> Hn Hnew Hjcc b y j' Hb Hj'.
  assert (forall b j p, @chain jCC from_node nodes p (calls_from arcs b j) ->
    @chain jCC from_node nodes' p (calls_from arcs b j)) as Hkeep.
  { intros b' j'' p Hc. eapply chain_links; [exact Hc|]. intros k Hk. apply Hn.
    unfold calls_from in Hk. apply list_elem_of_filter in Hk as [_ Hk].
    apply elem_of_reverse, elem_of_seq in Hk. lia. }
  rewrite calls_from_app. cbn [fst].
  destruct (decide (b = f)) as [->|Hbf].
  - rewrite lookup_insert_eq in Hb. simplify_eq. cbn [cjmp_count set_list jcc_list] in *.
    destruct (Hl f x j Hx Hj) as (p & Hp & Hc). rewrite Hold in Hp. simplify_eq.
    destruct (decide (j' = j)) as [->|Hne].
    + rewrite decide_True by done. exists (Some (length arcs)).
      rewrite list_lookup_insert_eq by (by apply lookup_lt_Some in Hold). split; [done|].
      split; [done|]. exists jcc. split; [done|]. by apply Hkeep.
    + rewrite decide_False by congruence. destruct (Hl f x j' Hx Hj') as (p & Hp & Hc').
      exists p. rewrite list_lookup_insert_ne by lia. split; [done|]. by apply Hkeep.
  - rewrite lookup_insert_ne in Hb by done. rewrite decide_False by congruence.
    destruct (Hl b y j' Hb Hj') as (p & Hp & Hc). exists p. split; [done|]. by apply Hkeep.
Qed.

Lemma new_jcc_ok s arcs f j t x :
  arcs_ok s arcs -> (f, j, t) ∉ arcs -> f <> 0 -> bbccs s !! f = Some x -> 0 <= j <= cjmp_count x ->
  Z.of_nat (length arcs) < 2 ^ 28 ->
  exists s', new_jcc s f j t = Ok (length arcs, s') /\ arcs_ok s' (arcs ++ [(f, j, t)]) /\
    ends_same s s' /\ jcc_lru_misses s' = jcc_lru_misses s.
Proof.
  intros Hok Hnew Hf Hx Hj Hlen. unfold new_jcc.
  destruct (make_room s arcs Hok Hlen) as (s2 & E & Ht & He & Hs & Hl & Hc & Hb & Hsp & Hr & Hd & Hm).
  rewrite <- rbind_assoc, E. cbn [rbind]. clear E.
  pose proof (key_length _ _ _ _ Ht) as Hnl. rewrite Hnl. unfold enlist.
  rewrite (proj2 (Z.eqb_neq _ _) Hf). unfold deref_bbcc. rewrite (proj2 (Z.eqb_neq _ _) Hf), Hb, Hx.
  cbn [rbind]. rewrite tl_assert_true by (apply andb_true_iff; rewrite !Z.leb_le; lia). cbn [rbind].
  destruct (Hl f x j) as (old & Hold & Hch); [by rewrite Hb|done|].
  rewrite (arr_get_in _ j old) by (done || lia). cbn [rbind].
  pose proof (lookup_lt_Some _ _ _ Hold) as Hjl. rewrite arr_set_in by lia. cbn [rbind].
  set (jcc := MkJcc jk_Call None old f t j 0 None). destruct Ht as [Hk (chains & Hh & Hp)].
  destruct (link_ok (jccs s2 ++ [jcc]) (table (current_jccs s2)) (size (current_jccs s2)) chains
    (length arcs) jcc) as (head & t' & chains' & -> & Hh' & Hp');
    [apply Hs|by apply hashed_snoc|by rewrite lookup_app_r, Hnl, Nat.sub_diag by lia
    |rewrite Hp, elem_of_seq; lia|]. cbn [rbind].
  set (nodes := <[length arcs := set_next head jcc]> (jccs s2 ++ [jcc])) in *.
  assert (forall k, (k < length arcs)%nat -> nodes !! k = jccs s2 !! k) as Hold'.
  { intros k Hk'. unfold nodes. rewrite list_lookup_insert_ne by lia. apply lookup_app_l. lia. }
  assert (nodes !! length arcs = Some (set_next head jcc)) as Hnode.
  { apply list_lookup_insert_eq. rewrite length_app. simpl. lia. }
  unfold int_add. rewrite signed_result_in by (unfold in_s; rewrite Hd, (ak_distinct _ _ Hok); lia).
  cbn [rbind]. eexists. split; [done|]. split; [|split; [|done]].
  - constructor; cbn.
    + constructor.
      * unfold nodes. rewrite list_fmap_insert, fmap_app, Hk. apply list_insert_id.
        by rewrite lookup_app_r, Nat.sub_diag by lia.
      * exists chains'. split; [done|]. rewrite Hp', Hp, length_app. simpl length.
        rewrite Nat.add_1_r, seq_S. by rewrite Permutation_cons_append.
    + apply NoDup_app. split_and!; [apply Hok|set_solver|apply NoDup_singleton].
    + rewrite He, length_app. simpl. lia.
    + rewrite length_app, Nat.add_1_r. exact Hs.
    + eapply (lists_enlisted (jccs s2)); try done; [by rewrite <- Hb|].
      intros k Hk'. by rewrite Hold'.
    + intros b y Hby. assert (exists y0, bbccs s2 !! b = Some y0 /\
        lru_from_jcc y = lru_from_jcc y0 /\ lru_to_jcc y = lru_to_jcc y0) as (y0 & Hy0 & -> & ->).
      { destruct (decide (b = f)) as [->|?].
        - rewrite lookup_insert_eq in Hby. simplify_eq. exists x. by rewrite Hb.
        - rewrite lookup_insert_ne in Hby by done. exists y. by rewrite Hb. }
      destruct (Hc b y0 Hy0) as [Hcf Hct]. split; intros k Hk'.
      * destruct (Hcf k Hk') as (z & Hz & <-). exists z. split; [|done].
        rewrite Hold'; [done|]. apply lookup_lt_Some in Hz. lia.
      * destruct (Hct k Hk') as (z & Hz & <-). exists z. split; [|done].
        rewrite Hold'; [done|]. apply lookup_lt_Some in Hz. lia.
    + rewrite length_app. simpl. lia.
    + rewrite Hd, (ak_distinct _ _ Hok), length_app. simpl. lia.
  - intros b. cbn. destruct (decide (b = f)) as [->|?].
    + by rewrite lookup_insert_eq, Hx.
    + by rewrite lookup_insert_ne.
Qed.

(** An arc between known cost centres, from an exit its source has. *)
Definition arc_valid (s : jumps) (a : arc) : Prop :=
  let '(f, j, t) := a in
  f <> 0 /\ t <> 0 /\ is_Some (bbccs s !! t) /\
  exists n, cjmp_count <$> bbccs s !! f = Some n /\ 0 <= j <= n.

Lemma arc_valid_same s s' a : ends_same s s' -> arc_valid s a -> arc_valid s' a.
Proof.
  destruct a as [[f j] t]. intros Hs (Hf & Ht & [x Hx] & n & Hn & Hj).
  split_and!; [done|done| |exists n; by rewrite Hs].
  specialize (Hs t). rewrite Hx in Hs. by destruct (bbccs s' !! t).
Qed.

(** Storing an arc in the caches of its ends. *)
Lemma cache_ok s arcs k b x y :
  arcs_ok s arcs -> bbccs s !! b = Some x -> cjmp_count y = cjmp_count x -> jcc_list y = jcc_list x ->
  (forall i, lru_from_jcc y = Some i -> lru_from_jcc x = Some i \/
     i = k /\ exists z, jccs s !! k = Some z /\ from z = b) ->
  (forall i, lru_to_jcc y = Some i -> lru_to_jcc x = Some i \/
     i = k /\ exists z, jccs s !! k = Some z /\ to z = b) ->
  let s' := MkJumps (jccs s) (<[b := y]> (bbccs s)) (current_jccs s) (jcc_hash_resizes s)
              (distinct_jccs s) (jcc_lru_misses s) in
  arcs_ok s' arcs /\ ends_same s s'.
Proof.
  intros [Ht Hn He Hs Hl Hc Hr Hd] Hx Hcj Hli Hf Hto s'. split.
  - constructor; cbn; try done.
    + intros b' z j Hz Hj. destruct (decide (b' = b)) as [->|?].
      * rewrite lookup_insert_eq in Hz. simplify_eq. rewrite Hli. rewrite Hcj in Hj. by apply Hl.
      * rewrite lookup_insert_ne in Hz by done. by eapply Hl.
    + intros b' z Hz. destruct (decide (b' = b)) as [->|?].
      * rewrite lookup_insert_eq in Hz. simplify_eq. destruct (Hc b x Hx) as [Hcf Hct].
        split; intros i Hi.
        -- destruct (Hf i Hi) as [Hi'|[-> Hz']]; [by apply Hcf|done].
        -- destruct (Hto i Hi) as [Hi'|[-> Hz']]; [by apply Hct|done].
      * rewrite lookup_insert_ne in Hz by done. by apply Hc.
  - intros b'. cbn. destruct (decide (b' = b)) as [->|?].
    + rewrite lookup_insert_eq, Hx. cbn. by rewrite Hcj.
    + by rewrite lookup_insert_ne.
Qed.

Lemma ends_same_trans s1 s2 s3 : ends_same s1 s2 -> ends_same s2 s3 -> ends_same s1 s3.
Proof. intros H1 H2 b. by rewrite H2, H1. Qed.

(** The two cache updates at the end of [get_jcc]. *)
Lemma set_lru_ok s arcs k f j t z :
  arcs_ok s arcs -> arc_valid s (f, j, t) -> jccs s !! k = Some z -> key z = (f, j, t) ->
  exists s', (let! fx := deref_bbcc s f in
    let bs := <[f := set_lru_from fx k]> (bbccs s) in
    let s := MkJumps (jccs s) bs (current_jccs s) (jcc_hash_resizes s) (distinct_jccs s) (jcc_lru_misses s) in
    let! tx := deref_bbcc s t in
    let bs := <[t := set_lru_to tx k]> (bbccs s) in
    Ok (k, MkJumps (jccs s) bs (current_jccs s) (jcc_hash_resizes s) (distinct_jccs s) (jcc_lru_misses s)))
    = Ok (k, s') /\ arcs_ok s' arcs /\ ends_same s s' /\ jcc_lru_misses s' = jcc_lru_misses s.
Proof.
  intros Hok Hv Hz [= Hzf Hzj Hzt]. destruct Hv as (Hf & Ht & [tx Htx] & n & Hn & Hj).
  destruct (bbccs s !! f) as [fx|] eqn:Hfx; [|done].
  unfold deref_bbcc at 1. rewrite (proj2 (Z.eqb_neq _ _) Hf), Hfx. cbn [rbind].
  destruct (cache_ok s arcs k f fx (set_lru_from fx k) Hok Hfx) as [Hok1 Hs1]; [done|done| | |].
  { intros i [= <-]. right. eauto. }
  { intros i Hi. by left. }
  match goal with |- context [deref_bbcc ?s1 t] => set (s1' := s1) in * end.
  destruct (bbccs s1' !! t) as [tx'|] eqn:Htx'; cycle 1.
  { specialize (Hs1 t). by rewrite Htx', Htx in Hs1. }
  unfold deref_bbcc. rewrite (proj2 (Z.eqb_neq _ _) Ht), Htx'. cbn [rbind].
  destruct (cache_ok s1' arcs k t tx' (set_lru_to tx' k) Hok1 Htx') as [Hok2 Hs2]; [done|done| | |].
  { intros i Hi. by left. }
  { intros i [= <-]. right. eauto. }
  eexists. split; [reflexivity|]. split_and!; [exact Hok2|by eapply ends_same_trans|done].
Qed.

Lemma find_arc s arcs f j t :
  arcs_ok s arcs -> exists r, (let! idx := jcc_hash_idx f j t (size (current_jccs s)) in
    let! p := arr_get (table (current_jccs s)) idx in
    find_chain (length (jccs s)) (fun x => Ok (is_arc f j t x)) (jccs s) p) = Ok r /\
  match r with
  | Some k => exists x, jccs s !! k = Some x /\ key x = (f, j, t)
  | None => (f, j, t) ∉ arcs
  end.
Proof.
  intros Hok. pose proof (ak_table _ _ Hok) as Htb. pose proof (key_length _ _ _ _ Htb) as Hnl.
  destruct Htb as [Hk (chains & Hh & Hp)].
  destruct (find_ok (jccs s) (table (current_jccs s)) (size (current_jccs s)) chains (jcc_hash_sum f j t)
    (fun x => Ok (is_arc f j t x)) (is_arc f j t) (length (jccs s)))
    as (r & E & Hr); [done|apply (ak_size _ _ Hok)|done|by rewrite Hnl|done| |].
  { intros k x _ Hx. apply is_arc_key in Hx as [= E1 E2 E3]. cbn. by rewrite E1, E2, E3. }
  exists r. split; [exact E|]. destruct r as [k|].
  - destruct Hr as (x & Hx & Hf). exists x. split; [done|]. by apply is_arc_key.
  - rewrite <- Hk. intros Hin. apply list_elem_of_fmap in Hin as (x & Hx & Hin).
    apply list_elem_of_lookup_1 in Hin as [k Hxk]. specialize (Hr k x Hxk).
    assert (is_arc f j t x = true) by (by apply is_arc_key). congruence.
Qed.

Lemma get_jcc_hash_ok s arcs f j t :
  arcs_ok s arcs -> arc_valid s (f, j, t) -> Z.of_nat (length arcs) < 2 ^ 28 ->
  0 <= jcc_lru_misses s < 2 ^ 30 ->
  exists s', get_jcc_hash s f j t = Ok ((intern arcs (f, j, t)).1, s') /\
    arcs_ok s' (intern arcs (f, j, t)).2 /\ ends_same s s' /\
    0 <= jcc_lru_misses s' <= jcc_lru_misses s + 1.
Proof.
  intros Hok Hv Hlen Hmiss. unfold get_jcc_hash, int_add.
  rewrite signed_result_in by (unfold in_s; lia). cbn [rbind].
  match goal with |- context [jcc_hash_idx f j t (size (current_jccs ?s0))] => set (s1 := s0) end.
  assert (arcs_ok s1 arcs) as Hok1 by (destruct Hok; by constructor).
  assert (arc_valid s1 (f, j, t)) as Hv1 by exact Hv.
  destruct (find_arc s1 arcs f j t Hok1) as (r & E & Hr).
  apply rbind_ok in E as (idx & -> & E). cbn [rbind].
  apply rbind_ok in E as (p & -> & E). cbn [rbind]. rewrite E. cbn [rbind].
  assert (exists k s2 x, (match r with Some k => Ok (k, s1) | None => new_jcc s1 f j t end) = Ok (k, s2) /\
    intern arcs (f, j, t) = (k, (intern arcs (f, j, t)).2) /\
    arcs_ok s2 (intern arcs (f, j, t)).2 /\ ends_same s1 s2 /\ jccs s2 !! k = Some x /\
    key x = (f, j, t) /\ jcc_lru_misses s2 = jcc_lru_misses s1) as (k & s2 & x & -> & -> & Ok2 & S2 & Hx & Hkx & M2).
  { destruct r as [k|].
    - destruct Hr as (x & Hx & Hkx). exists k, s1, x.
      assert (intern arcs (f, j, t) = (k, arcs)) as ->.
      { apply intern_old; [apply Hok|]. rewrite <- (key_lookup _ _ _ _ k (ak_table _ _ Hok1)), Hx.
        cbn. by rewrite Hkx. }
      by split_and!.
    - rewrite (intern_new _ _ Hr). destruct Hv1 as (Hf & Ht & _ & n & Hn & Hj).
      destruct (bbccs s1 !! f) as [fx|] eqn:Hfx; [|done]. cbn in Hn. simplify_eq.
      destruct (new_jcc_ok s1 arcs f j t fx Hok1 Hr Hf Hfx Hj Hlen) as (s2 & E2 & Ok2 & S2 & M2).
      pose proof (key_lookup _ _ _ _ (length arcs) (ak_table _ _ Ok2)) as Hlk.
      rewrite lookup_app_r, Nat.sub_diag in Hlk by lia.
      destruct (jccs s2 !! length arcs) as [x|] eqn:Hx; [|done]. cbn in Hlk.
      exists (length arcs), s2, x. split_and!; try done. congruence. }
  cbn [rbind fst snd].
  destruct (set_lru_ok s2 _ k f j t x Ok2 (arc_valid_same _ _ _ S2 Hv1) Hx Hkx)
    as (s3 & E3 & Ok3 & S3 & M3).
  exists s3. split; [exact E3|]. split_and!; [done|by apply (ends_same_trans s1 s2)| |]; rewrite M3, M2; cbn; lia.
Qed.

(** One call: the number the list gives the arc. *)
Lemma get_jcc_ok s arcs a :
  arcs_ok s arcs -> arc_valid s a -> Z.of_nat (length arcs) < 2 ^ 28 ->
  0 <= jcc_lru_misses s < 2 ^ 30 ->
  exists s', get_jcc s a.1.1 a.1.2 a.2 = Ok ((intern arcs a).1, s') /\
    arcs_ok s' (intern arcs a).2 /\ ends_same s s' /\
    0 <= jcc_lru_misses s' <= jcc_lru_misses s + 1.
Proof.
  intros Hok Hv Hlen Hmiss. destruct a as [[f j] t]. cbn [fst snd].
  pose proof Hv as (Hf & Ht & [tx Htx] & n & Hn & Hj). pose proof (ak_table _ _ Hok) as Htb.
  destruct (bbccs s !! f) as [fx|] eqn:Hfx; [|done].
  assert (forall k x, jccs s !! k = Some x -> key x = (f, j, t) -> intern arcs (f, j, t) = (k, arcs)) as Hget.
  { intros k x Hx Hk. apply intern_old; [apply Hok|]. rewrite <- (key_lookup _ _ _ _ k Htb), Hx.
    cbn. by rewrite Hk. }
  assert (forall k x, jccs s !! k = Some x -> key x = (f, j, t) -> exists s', Ok (k, s) =
    Ok ((intern arcs (f, j, t)).1, s') /\ arcs_ok s' (intern arcs (f, j, t)).2 /\ ends_same s s' /\
    0 <= jcc_lru_misses s' <= jcc_lru_misses s + 1) as Hhit.
  { intros k x Hx Hk. rewrite (Hget k x Hx Hk). exists s. split_and!; done || lia. }
  unfold get_jcc. unfold deref_bbcc at 1. rewrite (proj2 (Z.eqb_neq _ _) Ht), Htx. cbn [rbind].
  destruct (ak_caches _ _ Hok t tx Htx) as [_ Hct].
  destruct (lru_to_jcc tx) as [k|] eqn:Elt; cbn [rbind].
  1: destruct (Hct k eq_refl) as (x & Hx & Hxt); unfold get_node; rewrite Hx; cbn [rbind].
  1: destruct ((from x =? f) && (jmp x =? j)) eqn:Em.
  1: { apply andb_true_iff in Em as [E1%Z.eqb_eq E2%Z.eqb_eq].
       rewrite tl_assert_true by (apply Z.eqb_eq; lia). cbn [rbind]. apply (Hhit k x Hx).
       unfold key. congruence. }
  all: cbn [rbind]; unfold deref_bbcc at 1; rewrite (proj2 (Z.eqb_neq _ _) Hf), Hfx; cbn [rbind].
  all: destruct (ak_caches _ _ Hok f fx Hfx) as [Hcf _].
  all: destruct (lru_from_jcc fx) as [k'|] eqn:Elf; cbn [rbind].
  1,3: destruct (Hcf k' eq_refl) as (y & Hy & Hyf); unfold get_node; rewrite Hy; cbn [rbind].
  1,2: destruct ((to y =? t) && (jmp y =? j)) eqn:Em'.
  1,3: apply andb_true_iff in Em' as [E1%Z.eqb_eq E2%Z.eqb_eq];
       rewrite tl_assert_true by (apply Z.eqb_eq; lia); cbn [rbind]; apply (Hhit k' y Hy);
       unfold key; congruence.
  all: cbn [rbind]; by apply get_jcc_hash_ok.
Qed.

(** ** What an arc counts *)

Definition payload (x : jCC) : ClgJumpKind * Z * option cptr := (jmpkind x, call_counter x, jcc_cost x).

Lemma unlinked_payload (nodes nodes' : list jCC) :
  unlinked <$> nodes' = unlinked <$> nodes -> payload <$> nodes' = payload <$> nodes.
Proof.
  assert (forall l : list jCC, payload <$> (unlinked <$> l) = payload <$> l) as F.
  { intros l. rewrite <- list_fmap_compose. by apply list_fmap_ext. }
  intros E. by rewrite <- (F nodes'), <- (F nodes), E.
Qed.

Lemma new_jcc_payload s f j t k s' :
  new_jcc s f j t = Ok (k, s') -> payload <$> jccs s' = (payload <$> jccs s) ++ [(jk_Call, 0, None)].
Proof.
  unfold new_jcc. intros E. apply rbind_ok in E as (fill & _ & E).
  apply rbind_ok in E as (s1 & E1 & E). apply rbind_ok in E as ([[old bs] sp] & _ & E).
  apply rbind_ok in E as ([nodes tb] & E2 & E). apply rbind_ok in E as (n & _ & [= _ <-]).
  cbn [jccs]. rewrite (unlinked_payload _ _ (link_unlinked _ _ _ _ _ _ E2)), fmap_app. f_equal.
  destruct (8 <? fill); [|by injection E1 as <-]. unfold resize_jcc_table in E1. cbn [current_jccs jccs] in E1.
  apply rbind_ok in E1 as ([n1 t1] & E3 & E1). apply rbind_ok in E1 as (r & _ & [= <-]).
  cbn [jccs]. by apply unlinked_payload, (rehash_unlinked _ _ _ _ _ E3).
Qed.

(** Looking up an arc does not touch what the arcs have counted; a new one
    starts with nothing. *)
Lemma get_jcc_payload s f j t k s' :
  get_jcc s f j t = Ok (k, s') ->
  exists ext, payload <$> jccs s' = (payload <$> jccs s) ++ ext /\ (ext = [] \/ ext = [(jk_Call, 0, None)]).
Proof.
  assert (forall s k s', get_jcc_hash s f j t = Ok (k, s') -> exists ext,
    payload <$> jccs s' = (payload <$> jccs s) ++ ext /\ (ext = [] \/ ext = [(jk_Call, 0, None)])) as H.
  { clear. intros s k s'. unfold get_jcc_hash. intros E.
    apply rbind_ok in E as (ms & _ & E). apply rbind_ok in E as (idx & _ & E).
    apply rbind_ok in E as (p & _ & E). apply rbind_ok in E as (r & _ & E).
    apply rbind_ok in E as ([k1 s1] & E1 & E). apply rbind_ok in E as (fx & _ & E).
    apply rbind_ok in E as (tx & _ & [= _ <-]). cbn [jccs]. destruct r as [k0|].
    - injection E1 as _ <-. exists []. cbn [jccs]. rewrite app_nil_r. by split; [|left].
    - apply new_jcc_payload in E1. exists [(jk_Call, 0, None)]. by split; [|right]. }
  assert (forall s0 : jumps, exists ext, payload <$> jccs s0 = (payload <$> jccs s0) ++ ext /\
    (ext = [] \/ ext = [(jk_Call, 0, None)])) as Hid.
  { intros s0. exists []. rewrite app_nil_r. by split; [|left]. }
  unfold get_jcc. intros E. apply rbind_ok in E as (tx & _ & E). apply rbind_ok in E as ([c|] & _ & E).
  - injection E as _ <-. apply Hid.
  - apply rbind_ok in E as (fx & _ & E). apply rbind_ok in E as ([c|] & _ & E); [|by apply H in E].
    injection E as _ <-. apply Hid.
Qed.

(** Counting in an arc keeps the table. *)
Lemma arcs_ok_counted s arcs k x y :
  arcs_ok s arcs -> jccs s !! k = Some x -> key y = key x -> next_hash y = next_hash x ->
  next_from y = next_from x ->
  arcs_ok (MkJumps (<[k := y]> (jccs s)) (bbccs s) (current_jccs s) (jcc_hash_resizes s) (distinct_jccs s)
    (jcc_lru_misses s)) arcs.
Proof.
  intros [[Hk (chains & Hh & Hp)] Hn He Hs Hl Hc Hr Hd] Hx Ek Eh Ef.
  assert (forall i z, <[k := y]> (jccs s) !! i = Some z -> exists z0, jccs s !! i = Some z0 /\
    key z = key z0 /\ next_hash z = next_hash z0 /\ next_from z = next_from z0) as Hlk.
  { intros i z Hz. destruct (decide (i = k)) as [->|Hne].
    - rewrite list_lookup_insert_eq in Hz by (by apply lookup_lt_Some in Hx). injection Hz as <-. eauto.
    - rewrite list_lookup_insert_ne in Hz by done. eauto. }
  assert (key <$> <[k := y]> (jccs s) = key <$> jccs s) as Ekey.
  { rewrite list_fmap_insert. apply list_insert_id. by rewrite list_lookup_fmap, Hx, Ek. }
  assert (forall i, next_hash <$> <[k := y]> (jccs s) !! i = next_hash <$> jccs s !! i /\
    next_from <$> <[k := y]> (jccs s) !! i = next_from <$> jccs s !! i) as Hnx.
  { intros i. destruct (decide (i = k)) as [->|Hne].
    - rewrite list_lookup_insert_eq, Hx by (by apply lookup_lt_Some in Hx). cbn. by rewrite Eh, Ef.
    - by rewrite list_lookup_insert_ne. }
  constructor; cbn [jccs bbccs current_jccs jcc_hash_resizes distinct_jccs]; try done.
  - constructor; [congruence|]. exists chains. split; [|done]. destruct Hh as [H1 H2 H3 H4 H5].
    constructor; try done.
    + intros i l Hi. destruct (H3 i l Hi) as (p & Hp' & Hch). exists p. split; [done|].
      eapply chain_links; [exact Hch|]. intros j _. apply Hnx.
    + intros i l j z Hi Hj Hz. destruct (Hlk j z Hz) as (z0 & Hz0 & [= K1 K2 K3] & _).
      rewrite <- (H4 i l j z0 Hi Hj Hz0). cbn. by rewrite K1, K2, K3.
  - intros b z j Hb Hj. destruct (Hl b z j Hb Hj) as (p & Hp' & Hch). exists p. split; [done|].
    eapply chain_links; [exact Hch|]. intros i _. apply Hnx.
  - by apply (caches_relinked (jccs s)).
Qed.

(** ** A run *)

Fixpoint get_jccs (s : jumps) (calls : list arc) : res (list nat * jumps) :=
  match calls with
  | [] => Ok ([], s)
  | (f, j, t) :: calls' =>
      let! (k, s) := get_jcc s f j t in
      let! (ks, s) := get_jccs s calls' in
      Ok (k :: ks, s)
  end.

(** As [new_bbcc] leaves a cost centre. *)
Definition fresh_ends (x : arc_ends) : Prop :=
  lru_from_jcc x = None /\ lru_to_jcc x = None /\
  jcc_list x = replicate (Z.to_nat (cjmp_count x + 1)) None.

Definition no_arcs (bs : gmap Z arc_ends) : jumps := MkJumps [] bs init_jcc_hash 0 0 0.

Lemma no_arcs_ok bs : map_Forall (fun _ => fresh_ends) bs -> arcs_ok (no_arcs bs) [].
Proof.
  intros Hbs. constructor; cbn [no_arcs jccs bbccs current_jccs jcc_hash_resizes distinct_jccs].
  - constructor; [done|]. exists (replicate (Z.to_nat N_JCC_INITIAL_ENTRIES) []).
    rewrite concat_empty. split; [|done]. unfold init_jcc_hash. cbn [table size].
    rewrite <- (Z2Nat.id N_JCC_INITIAL_ENTRIES) at 2 by (unfold N_JCC_INITIAL_ENTRIES; lia).
    apply empty_hashed.
  - constructor.
  - done.
  - unfold size_ok, init_jcc_hash, N_JCC_INITIAL_ENTRIES. cbn [size]. lia.
  - intros b x j Hb Hj. destruct (Hbs b x Hb) as (_ & _ & ->). exists None.
    rewrite lookup_replicate_2 by lia. done.
  - intros b x Hb. destruct (Hbs b x Hb) as (-> & -> & _). done.
  - cbn. lia.
  - done.
Qed.

Lemma get_jccs_ok s arcs calls :
  arcs_ok s arcs -> Forall (arc_valid s) calls ->
  Z.of_nat (length arcs + length calls) <= 2 ^ 28 ->
  0 <= jcc_lru_misses s -> jcc_lru_misses s + Z.of_nat (length calls) <= 2 ^ 30 ->
  exists s', get_jccs s calls = Ok ((interns arcs calls).1, s') /\
    arcs_ok s' (interns arcs calls).2.
Proof.
  revert s arcs; induction calls as [|a calls IH]; intros s arcs Hok Hv Hlen H0 Hm; [by exists s|].
  apply Forall_cons in Hv as [Hv Hvs]. simpl length in *.
  destruct (get_jcc_ok s arcs a Hok Hv) as (s1 & E1 & Ok1 & S1 & M1); [lia|lia|].
  destruct a as [[f j] t]. cbn [get_jccs interns fst snd] in *. rewrite E1. cbn [rbind].
  pose proof (intern_length arcs (f, j, t)) as Hl.
  destruct (intern arcs (f, j, t)) as [k arcs1]. cbn [fst snd] in *.
  destruct (IH s1 arcs1 Ok1) as (s2 & E2 & Ok2); [|lia|lia|lia|].
  { eapply Forall_impl; [exact Hvs|]. intros a. by apply arc_valid_same. }
  rewrite E2. cbn [rbind]. destruct (interns arcs1 calls) as [ks arcs2]. by exists s2.
Qed.

(** C19. Every arc of the call graph has exactly one counter.  Whatever calls are
    looked up, in whatever order, through the two caches, the hash table and
    its resizes, each arc gets the number it has in the list of the different
    arcs in the order of their first use: never a second counter for the same
    arc, never a shared one.  No assertion fails, and each exit of each source
    ends up with the list of exactly its arcs, the newest first. *)
Theorem get_jcc_refines (bs : gmap Z arc_ends) (calls : list arc) :
  map_Forall (fun _ => fresh_ends) bs -> Forall (arc_valid (no_arcs bs)) calls ->
  Z.of_nat (length calls) <= 2 ^ 28 ->
  exists s', get_jccs (no_arcs bs) calls = Ok ((interns [] calls).1, s') /\
    key <$> jccs s' = (interns [] calls).2 /\ NoDup (interns [] calls).2 /\
    forall b x j, bbccs s' !! b = Some x -> 0 <= j <= cjmp_count x ->
      exists p, jcc_list x !! Z.to_nat j = Some p /\
        @chain jCC from_node (jccs s') p (calls_from (interns [] calls).2 b j).
Proof.
  intros Hbs Hv Hlen. destruct (get_jccs_ok (no_arcs bs) [] calls (no_arcs_ok bs Hbs) Hv)
    as (s' & E & Hok); [simpl; lia|done|cbn; lia|].
  exists s'. split_and!; [done|apply (ak_table _ _ Hok)|apply Hok|apply (ak_lists _ _ Hok)].
Qed.

Definition ex_ends : gmap Z arc_ends :=
  {[ 4096 := MkEnds None None 1 [None; None]; 8192 := MkEnds None None 0 [None] ]}.

Lemma get_jcc_refines_witness :
  exists s', get_jccs (no_arcs ex_ends) [(4096, 1, 8192); (8192, 0, 8192); (4096, 1, 8192); (4096, 0, 8192)]
      = Ok ([0; 1; 0; 2]%nat, s') /\
    key <$> jccs s' = [(4096, 1, 8192); (8192, 0, 8192); (4096, 0, 8192)].
Proof.
  destruct (get_jcc_refines ex_ends
    [(4096, 1, 8192); (8192, 0, 8192); (4096, 1, 8192); (4096, 0, 8192)]) as (s' & E & Hk & _).
  - apply map_Forall_insert_2; [by split_and!|]. apply map_Forall_singleton. by split_and!.
  - repeat apply Forall_cons_2; try apply Forall_nil_2;
      (split; [discriminate|]; split; [discriminate|]; split; [by eexists|];
       eexists; split; [vm_compute; reflexivity|lia]).
  - vm_compute. discriminate.
  - exists s'. split; [exact E|exact Hk].
Defined.
