(* ===== verification/ClgEvents.v ===== *)
(** * ClgEvents: event groups, event sets and their costs (callgrind/events.c)

    An event group names up to four event types; an event set is a set of
    groups, given by a bit mask, with the offset of each group in the cost
    arrays of the set.  Sets are made on demand and kept in a table, so a
    pointer to one is determined by its mask; the model passes the set itself.
    The cost functions work on the cells of ClgCosts.v through pointers that
    may be null ([None]) and may alias.  [CLG_ASSERT] is [tl_assert]. *)

From Stdlib Require Import ZArith Lia Ascii String.
From stdpp Require Import base numbers option strings gmap list.
From S2P Require Import Prelude Libcbase Debuglog ClgCosts.

#[local] Open Scope Z_scope.

(** ** Data *)

Definition MAX_EVENTGROUP_COUNT : Z := 10.
Definition MAX_EVENTSET_COUNT : Z := 1024.

Record EventGroup : Type := MkGroup { eg_size : Z; eg_name : list string }.

Record EventSet : Type := MkSet {
  es_mask : Z;
  es_count : Z;
  es_size : Z;
  es_offset : list Z
}.

(** The static variables. *)
Record events : Type := MkEvents {
  eventGroup : list (option EventGroup);
  eventSetTable : gmap Z EventSet;
  eventSets_initialized : bool
}.

Definition no_groups : list (option EventGroup) :=
  replicate (Z.to_nat MAX_EVENTGROUP_COUNT) None.

(** Static storage starts zeroed. *)
Definition events0 : events := MkEvents no_groups ∅ false.

Record EventMappingEntry : Type := MkEntry { em_group : Z; em_index : Z; em_offset : Z }.

Record EventMapping : Type := MkMapping {
  em_es : EventSet;
  em_size : Z;
  em_capacity : Z;
  em_entry : list EventMappingEntry   (* the [em_size] entries in use *)
}.

(** ** Groups and sets *)

Definition initialize_event_sets (e : events) : events :=
  if eventSets_initialized e then e else MkEvents no_groups ∅ true.

Definition id_ok (id : Z) : bool := (0 <=? id) && (id <? MAX_EVENTGROUP_COUNT).

(** The caller stores the names right after; the group is made with them. *)
Definition new_event_group (e : events) (id : Z) (names : list string) : res events :=
  let e := initialize_event_sets e in
  let! _ := tl_assert (id_ok id) "id>=0 && id<MAX_EVENTGROUP_COUNT" in
  let! old := arr_get (eventGroup e) id in
  let! _ := tl_assert (bool_decide (old = None)) "eventGroup[id]==0" in
  let eg := MkGroup (Z.of_nat (length names)) names in
  let! gs := arr_set (eventGroup e) id (Some eg) in
  Ok (MkEvents gs (eventSetTable e) (eventSets_initialized e)).

Definition register_event_group (e : events) (id : Z) (n1 : string) : res events :=
  new_event_group e id [n1].
Definition register_event_group2 (e : events) (id : Z) (n1 n2 : string) : res events :=
  new_event_group e id [n1; n2].
Definition register_event_group3 (e : events) (id : Z) (n1 n2 n3 : string) : res events :=
  new_event_group e id [n1; n2; n3].
Definition register_event_group4 (e : events) (id : Z) (n1 n2 n3 n4 : string) : res events :=
  new_event_group e id [n1; n2; n3; n4].

Definition get_event_group (e : events) (id : Z) : res (option EventGroup) :=
  let! _ := tl_assert (id_ok id) "id>=0 && id<MAX_EVENTGROUP_COUNT" in
  arr_get (eventGroup e) id.

(** [(mask & (1u<<i)) != 0]. *)
Definition has_group (mask i : Z) : bool :=
  negb (Z.land mask (u32 (Z.shiftl 1 i)) =? 0).

(** The loop of [eventset_from_mask] from group [i] on: the offsets, then the
    final offset and count.  A group has at most four events and there are ten
    groups, so the sums stay small. *)
Fixpoint set_layout (gs : list (option EventGroup)) (mask i offset count : Z)
  : list Z * Z * Z :=
  match gs with
  | [] => ([], offset, count)
  | g :: gs' =>
      let '(offset', count') :=
        match g with
        | Some eg => if has_group mask i then (offset + eg_size eg, count + 1)
                     else (offset, count)
        | None => (offset, count)
        end in
      let '(offs, n, k) := set_layout gs' mask (i + 1) offset' count' in
      (offset :: offs, n, k)
  end.

Definition eventset_from_mask (e : events) (mask : Z) : option EventSet * events :=
  if MAX_EVENTSET_COUNT <=? mask then (None, e) else
  let e := initialize_event_sets e in
  match eventSetTable e !! mask with
  | Some es => (Some es, e)
  | None =>
      let '(offs, n, k) := set_layout (eventGroup e) mask 0 0 0 in
      let es := MkSet mask k n offs in
      (Some es, MkEvents (eventGroup e) (<[mask := es]> (eventSetTable e))
                  (eventSets_initialized e))
  end.

Definition get_event_set (e : events) (id : Z) : res (option EventSet * events) :=
  let! _ := tl_assert (id_ok id) "id>=0 && id<MAX_EVENTGROUP_COUNT" in
  Ok (eventset_from_mask e (u32 (Z.shiftl 1 id))).

Definition get_event_set2 (e : events) (id1 id2 : Z) : res (option EventSet * events) :=
  let! _ := tl_assert (id_ok id1) "id1>=0 && id1<MAX_EVENTGROUP_COUNT" in
  let! _ := tl_assert (id_ok id2) "id2>=0 && id2<MAX_EVENTGROUP_COUNT" in
  Ok (eventset_from_mask e (Z.lor (u32 (Z.shiftl 1 id1)) (u32 (Z.shiftl 1 id2)))).

(** [if (!es) es = eventset_from_mask(0);] and then [es->mask]. *)
Definition mask_of (e : events) (es : option EventSet) : res (Z * events) :=
  let '(es, e) := match es with
                  | Some s => (Some s, e)
                  | None => eventset_from_mask e 0
                  end in
  match es with Some s => Ok (es_mask s, e) | None => Err NullDeref end.

Definition add_event_group (e : events) (es : option EventSet) (id : Z)
  : res (option EventSet * events) :=
  let! _ := tl_assert (id_ok id) "id>=0 && id<MAX_EVENTGROUP_COUNT" in
  let! (mask, e) := mask_of e es in
  Ok (eventset_from_mask e (Z.lor mask (u32 (Z.shiftl 1 id)))).

Definition add_event_group2 (e : events) (es : option EventSet) (id1 id2 : Z)
  : res (option EventSet * events) :=
  let! _ := tl_assert (id_ok id1) "id1>=0 && id1<MAX_EVENTGROUP_COUNT" in
  let! _ := tl_assert (id_ok id2) "id2>=0 && id2<MAX_EVENTGROUP_COUNT" in
  let! (mask, e) := mask_of e es in
  Ok (eventset_from_mask e
        (Z.lor (Z.lor mask (u32 (Z.shiftl 1 id1))) (u32 (Z.shiftl 1 id2)))).

Definition add_event_set (e : events) (es1 es2 : option EventSet)
  : res (option EventSet * events) :=
  let! (mask1, e) := mask_of e es1 in
  let! (mask2, e) := mask_of e es2 in
  Ok (eventset_from_mask e (Z.lor mask1 mask2)).

(** ** Costs *)

Definition get_eventset_cost (m : cost_mem) (es : EventSet) : res (cptr * cost_mem) :=
  get_costarray m (es_size es).

(** [for (i = 0; i < n; i++) body]. *)
Definition for_upto {S : Type} (n : Z) (body : Z -> S -> res S) (s : S) : res S :=
  res_fold body (seqZ 0 n) s.

Definition zero_cells (m : cost_mem) (p : cptr) (n : Z) : res cost_mem :=
  for_upto n (fun i m => cost_set m (ptr_add p i) 0) m.

Definition init_cost (es : EventSet) (m : cost_mem) (cost : option cptr) : res cost_mem :=
  match cost with
  | None => Ok m
  | Some p => zero_cells m p (es_size es)
  end.

(** [cost] is the contents of the pointer variable [*cost]. *)
Definition init_cost_lz (es : EventSet) (m : cost_mem) (cost : option cptr)
  : res (option cptr * cost_mem) :=
  let! (p, m) := match cost with
                 | Some p => Ok (p, m)
                 | None => get_eventset_cost m es
                 end in
  let! m := zero_cells m p (es_size es) in
  Ok (Some p, m).

Definition zero_cost (es : EventSet) (m : cost_mem) (cost : option cptr) : res cost_mem :=
  match cost with
  | None => Ok m
  | Some p => zero_cells m p (es_size es)
  end.

Fixpoint all_zero (m : cost_mem) (p : cptr) (idx : list Z) : res bool :=
  match idx with
  | [] => Ok true
  | i :: idx' =>
      let! v := cost_get m (ptr_add p i) in
      if negb (v =? 0) then Ok false else all_zero m p idx'
  end.

Definition is_zero_cost (es : EventSet) (m : cost_mem) (cost : option cptr) : res bool :=
  match cost with
  | None => Ok true
  | Some p => all_zero m p (seqZ 0 (es_size es))
  end.

Definition copy_cells (m : cost_mem) (dst src : cptr) (n : Z) : res cost_mem :=
  for_upto n (fun i m =>
    let! v := cost_get m (ptr_add src i) in
    cost_set m (ptr_add dst i) v) m.

Definition add_cells (m : cost_mem) (dst src : cptr) (n : Z) : res cost_mem :=
  for_upto n (fun i m =>
    let! v := cost_get m (ptr_add src i) in
    cost_add m (ptr_add dst i) v) m.

(** [CLG_ASSERT(p != 0)]. *)
Definition assert_ptr {A : Type} (p : option A) (what : string) : res A :=
  match p with Some a => Ok a | None => Err (AssertFail what) end.

Definition copy_cost (es : EventSet) (m : cost_mem) (dst src : option cptr) : res cost_mem :=
  match src with
  | None => zero_cost es m dst
  | Some s =>
      let! d := assert_ptr dst "dst != 0" in
      copy_cells m d s (es_size es)
  end.

Definition copy_cost_lz (es : EventSet) (m : cost_mem) (pdst src : option cptr)
  : res (option cptr * cost_mem) :=
  match src with
  | None => let! m := zero_cost es m pdst in Ok (pdst, m)
  | Some s =>
      let! (d, m) := match pdst with
                     | Some d => Ok (d, m)
                     | None => get_eventset_cost m es
                     end in
      let! m := copy_cells m d s (es_size es) in
      Ok (Some d, m)
  end.

Definition add_cost (es : EventSet) (m : cost_mem) (dst src : option cptr) : res cost_mem :=
  match src with
  | None => Ok m
  | Some s =>
      let! d := assert_ptr dst "dst != 0" in
      add_cells m d s (es_size es)
  end.

Definition add_cost_lz (es : EventSet) (m : cost_mem) (pdst src : option cptr)
  : res (option cptr * cost_mem) :=
  match src with
  | None => Ok (pdst, m)
  | Some s =>
      match pdst with
      | None =>
          let! (d, m) := get_eventset_cost m es in
          let! m := copy_cost es m (Some d) src in
          Ok (Some d, m)
      | Some d =>
          let! m := add_cells m d s (es_size es) in
          Ok (Some d, m)
      end
  end.

(** Move one cell of [src] to [dst], noting whether it was not zero. *)
Definition move_cell (dst src : cptr) (i : Z) (st : bool * cost_mem) : res (bool * cost_mem) :=
  let '(is_nonzero, m) := st in
  let! v := cost_get m (ptr_add src i) in
  if v =? 0 then Ok (is_nonzero, m) else
  let! m := cost_add m (ptr_add dst i) v in
  let! m := cost_set m (ptr_add src i) 0 in
  Ok (true, m).

Definition add_and_zero_cost (es : EventSet) (m : cost_mem) (dst src : option cptr)
  : res (bool * cost_mem) :=
  let! d := assert_ptr dst "(es != 0) && (dst != 0)" in
  match src with
  | None => Ok (false, m)
  | Some s => for_upto (es_size es) (move_cell d s) (false, m)
  end.

(** [mask=1] at group 0, doubled at each step. *)
Definition group_bit (i : Z) : Z := u32 (Z.shiftl 1 i).

Definition add_and_zero_cost2 (e : events) (esDst : EventSet) (m : cost_mem)
    (dst : option cptr) (esSrc : EventSet) (src : option cptr) : res (bool * cost_mem) :=
  let! d := assert_ptr dst "(esDst != 0) && (dst != 0) && (esSrc != 0)" in
  match src with
  | None => Ok (false, m)
  | Some s =>
      for_upto MAX_EVENTGROUP_COUNT (fun i st =>
        if Z.land (es_mask esSrc) (group_bit i) =? 0 then Ok st else
        let! g := arr_get (eventGroup e) i in
        match g with
        | None => Ok st
        | Some eg =>
            let! _ := tl_assert (0 <? Z.land (es_mask esDst) (group_bit i))
                        "(esDst->mask & mask)>0" in
            let! os := arr_get (es_offset esSrc) i in
            let! od := arr_get (es_offset esDst) i in
            for_upto (eg_size eg) (move_cell (ptr_add d od) (ptr_add s os)) st
        end) (false, m)
  end.

Definition diff_cell (dst old new_cost : cptr) (i : Z) (st : bool * cost_mem)
  : res (bool * cost_mem) :=
  let '(is_nonzero, m) := st in
  let! n := cost_get m (ptr_add new_cost i) in
  let! o := cost_get m (ptr_add old i) in
  if n =? o then Ok (is_nonzero, m) else
  let! m := cost_add m (ptr_add dst i) (u64 (n - o)) in
  let! n := cost_get m (ptr_add new_cost i) in
  let! m := cost_set m (ptr_add old i) n in
  Ok (true, m).

Definition add_diff_cost (es : EventSet) (m : cost_mem) (dst old new_cost : option cptr)
  : res (bool * cost_mem) :=
  let! d := assert_ptr dst "(es != 0) && (dst != 0)" in
  let! o := assert_ptr old "old && new_cost" in
  let! n := assert_ptr new_cost "old && new_cost" in
  for_upto (es_size es) (diff_cell d o n) (false, m).

Definition add_diff_cost_lz (es : EventSet) (m : cost_mem) (pdst old new_cost : option cptr)
  : res (bool * option cptr * cost_mem) :=
  let! o := assert_ptr old "old && new_cost" in
  let! n := assert_ptr new_cost "old && new_cost" in
  let! (d, m) := match pdst with
                 | Some d => Ok (d, m)
                 | None =>
                     let! (d, m) := get_eventset_cost m es in
                     let! m := zero_cost es m (Some d) in
                     Ok (d, m)
                 end in
  let! (b, m) := for_upto (es_size es) (diff_cell d o n) (false, m) in
  Ok (b, Some d, m).

(** ** Event mappings *)

Definition get_eventmapping (es : EventSet) : EventMapping := MkMapping es 0 (es_size es) [].

(** The inner loop over the names of group [i]: the index of [n], if there. *)
Fixpoint find_name (n : string) (names : list string) (j : Z) : option Z :=
  match names with
  | [] => None
  | s :: names' => if VG_strcmp n s =? 0 then Some j else find_name n names' (j + 1)
  end.

(** The outer loop from group [i] on, [offset] events before it. *)
Fixpoint find_event (gs : list (option EventGroup)) (mask : Z) (n : string) (i offset : Z)
  : option EventMappingEntry :=
  match gs with
  | [] => None
  | g :: gs' =>
      if Z.land mask (group_bit i) =? 0 then find_event gs' mask n (i + 1) offset else
      match g with
      | None => find_event gs' mask n (i + 1) offset
      | Some eg =>
          match find_name n (eg_name eg) 0 with
          | Some j => Some (MkEntry i j (offset + j))
          | None => find_event gs' mask n (i + 1) (offset + eg_size eg)
          end
      end
  end.

Definition append_event (e : events) (em : EventMapping) (n : string) : res EventMapping :=
  match find_event (eventGroup e) (es_mask (em_es em)) n 0 0 with
  | None => Ok em
  | Some x =>
      let! _ := tl_assert (em_size em <? em_capacity em) "em->capacity > em->size" in
      Ok (MkMapping (em_es em) (em_size em + 1) (em_capacity em) (em_entry em ++ [x]))
  end.

Fixpoint mapping_names (e : events) (first : bool) (xs : list EventMappingEntry) : res string :=
  match xs with
  | [] => Ok EmptyString
  | x :: xs' =>
      let! g := arr_get (eventGroup e) (em_group x) in
      let! eg := assert_ptr g "eg != 0" in
      let! nm := arr_get (eg_name eg) (em_index x) in
      let! rest := mapping_names e false xs' in
      Ok ((if first then "" else " ") ++ nm ++ rest)%string
  end.

Definition eventmapping_as_string (e : events) (em : EventMapping) : res string :=
  mapping_names e true (em_entry em).

(** [skipped] times [ 0]. *)
Fixpoint zeros (skipped : nat) : string :=
  match skipped with
  | O => EmptyString
  | S k => (" 0" ++ zeros k)%string
  end.

Fixpoint mapping_costs (m : cost_mem) (c : cptr) (skipped : nat) (xs : list EventMappingEntry)
  : res string :=
  match xs with
  | [] => Ok EmptyString
  | x :: xs' =>
      let! v := cost_get m (ptr_add c (em_offset x)) in
      if v =? 0 then mapping_costs m c (S skipped) xs' else
      let! rest := mapping_costs m c 0 xs' in
      Ok (zeros skipped ++ " " ++ fmt_u v ++ rest)%string
  end.

Definition mappingcost_as_string (em : EventMapping) (m : cost_mem) (c : option cptr)
  : res string :=
  match c with
  | None => Ok EmptyString
  | Some p =>
      match em_entry em with
      | [] => Ok EmptyString
      | x :: xs =>
          let! v := cost_get m (ptr_add p (em_offset x)) in
          let! rest := mapping_costs m p 0 xs in
          Ok (fmt_u v ++ rest)%string
      end
  end.

(** ** Loops over the cells of an array *)

Lemma for_upto_0 {S} body (s : S) : for_upto 0 body s = Ok s.
Proof. done. Qed.

Lemma for_upto_S {S} (n : nat) body (s : S) :
  for_upto (Z.of_nat (Datatypes.S n)) body s =
    (let! s := for_upto (Z.of_nat n) body s in body (Z.of_nat n) s).
Proof.
  unfold for_upto. rewrite seqZ_S, res_fold_app.
  destruct (res_fold body (seqZ 0 (Z.of_nat n)) s); [|done]. cbn [rbind res_fold].
  by rewrite rbind_ret, Z.add_0_l.
Qed.

(** A loop whose state after [k] rounds is known. *)
Lemma for_upto_states {S} (n : Z) body (st : Z -> S) :
  0 <= n -> (forall k, 0 <= k < n -> body k (st k) = Ok (st (k + 1))) ->
  for_upto n body (st 0) = Ok (st n).
Proof.
  intros Hn. rewrite <- (Z2Nat.id n) by done. induction (Z.to_nat n) as [|k IH];
    intros Hb; [done|].
  rewrite for_upto_S, IH by (intros; apply Hb; lia). cbn [rbind].
  rewrite Hb by lia. do 2 f_equal. lia.
Qed.

(** [q] is one of the [n] cells from [p] on. *)
Definition in_range (p : cptr) (n : Z) (q : cptr) : bool :=
  bool_decide (p.1 = q.1) && (p.2 <=? q.2) && (q.2 <? p.2 + n).

Lemma in_range_spec p n q : in_range p n q = true <-> exists i, 0 <= i < n /\ q = ptr_add p i.
Proof.
  unfold in_range. rewrite !andb_true_iff, bool_decide_eq_true, Z.leb_le, Z.ltb_lt.
  split.
  - intros [[H1 H2] H3]. exists (q.2 - p.2). split; [lia|].
    destruct q as [a b]. unfold ptr_add. cbn in *. subst. f_equal. lia.
  - intros (i & Hi & ->). cbn. lia.
Qed.

(** The memory with the [n] cells from [p] on set to [f 0, f 1, ...]. *)
Fixpoint upd_nat (m : cost_mem) (p : cptr) (n : nat) (f : Z -> Z) : cost_mem :=
  match n with
  | O => m
  | S k => let m' := upd_nat m p k f in
           set_cells m' (<[ptr_add p (Z.of_nat k) := f (Z.of_nat k)]> (cells m'))
  end.

Definition upd (m : cost_mem) (p : cptr) (n : Z) (f : Z -> Z) : cost_mem :=
  upd_nat m p (Z.to_nat n) f.

Lemma upd_0 m p f : upd m p 0 f = m.
Proof. done. Qed.

Lemma upd_S m p k f :
  0 <= k -> upd m p (k + 1) f = set_cells (upd m p k f) (<[ptr_add p k := f k]> (cells (upd m p k f))).
Proof.
  intros Hk. unfold upd. replace (Z.to_nat (k + 1)) with (S (Z.to_nat k)) by lia.
  cbn [upd_nat]. by rewrite Z2Nat.id.
Qed.

Lemma upd_cells m p n f q :
  cells (upd m p n f) !! q = if in_range p n q then Some (f (q.2 - p.2)) else cells m !! q.
Proof.
  unfold upd. destruct (decide (0 <= n)); cycle 1.
  { rewrite Z2Nat.nonpos by lia. destruct (in_range p n q) eqn:E; [|done].
    apply in_range_spec in E as (i & ? & _). lia. }
  rewrite <- (Z2Nat.id n) at 2 by done. induction (Z.to_nat n) as [|k IH]; cbn [upd_nat].
  { destruct (in_range p (Z.of_nat 0) q) eqn:E; [|done].
    apply in_range_spec in E as (i & ? & _). lia. }
  cbn [cells set_cells]. destruct (decide (ptr_add p (Z.of_nat k) = q)) as [<-|Hq].
  - rewrite lookup_insert_eq.
    replace (in_range p (Z.of_nat (S k)) _) with true
      by (symmetry; apply in_range_spec; exists (Z.of_nat k); split; [lia|done]).
    do 2 f_equal. cbn. lia.
  - rewrite lookup_insert_ne, IH by done.
    replace (in_range p (Z.of_nat (S k)) q) with (in_range p (Z.of_nat k) q); [done|].
    apply eq_true_iff_eq. rewrite !in_range_spec. split; intros (i & Hi & ->);
      exists i; split; try done; [lia|].
    destruct (decide (i = Z.of_nat k)) as [->|]; [done|lia].
Qed.

Lemma upd_chunks m p n f : chunks (upd m p n f) = chunks m.
Proof. unfold upd. induction (Z.to_nat n) as [|k IH]; [done|]. exact IH. Qed.

Lemma upd_in_chunk m p n f q : in_chunk (upd m p n f) q = in_chunk m q.
Proof. unfold in_chunk. by rewrite upd_chunks. Qed.

(** Memories that agree on every cell and differ in nothing else. *)
Lemma set_cells_eq m c1 c2 : (forall q, c1 !! q = c2 !! q) -> set_cells m c1 = set_cells m c2.
Proof. intros H. f_equal. by apply map_eq. Qed.

Lemma upd_set_cells m p n f : upd m p n f = set_cells m (cells (upd m p n f)).
Proof.
  unfold upd. induction (Z.to_nat n) as [|k IH]; [by destruct m|]. cbn [upd_nat].
  cbn [cells set_cells]. by rewrite IH at 1.
Qed.

(** The array can be read: in bounds and written before. *)
Definition readable (m : cost_mem) (p : cptr) (n : Z) : Prop :=
  forall i, 0 <= i < n -> exists v, cost_get m (ptr_add p i) = Ok v /\ in_u 64 v.

(** The value of its [i]-th cell. *)
Definition val (m : cost_mem) (p : cptr) (i : Z) : Z := default 0 (cells m !! ptr_add p i).

Lemma readable_val m p n i :
  readable m p n -> 0 <= i < n ->
  cost_get m (ptr_add p i) = Ok (val m p i) /\ in_u 64 (val m p i).
Proof.
  intros Hr Hi. destruct (Hr i Hi) as (v & Hv & Hu).
  apply cost_get_ok in Hv as E. destruct E as [_ E]. unfold val. by rewrite E.
Qed.

Lemma readable_in m p n i : readable m p n -> 0 <= i < n -> in_chunk m (ptr_add p i) = true.
Proof. intros Hr Hi. destruct (Hr i Hi) as (v & Hv & _). by apply cost_get_ok in Hv as [? _]. Qed.

(** Two arrays without a common cell. *)
Definition apart (p : cptr) (n : Z) (q : cptr) (k : Z) : Prop :=
  forall i j, 0 <= i < n -> 0 <= j < k -> ptr_add p i <> ptr_add q j.

Lemma apart_sym p n q k : apart p n q k -> apart q k p n.
Proof. intros H i j Hi Hj E. by apply (H j i). Qed.

Lemma apart_in_range p n q k i : apart p n q k -> 0 <= i < n -> in_range q k (ptr_add p i) = false.
Proof.
  intros H Hi. destruct (in_range q k (ptr_add p i)) eqn:E; [|done].
  apply in_range_spec in E as (j & Hj & E). by apply H in E.
Qed.

Lemma in_range_self p n i : in_range p n (ptr_add p i) = (0 <=? i) && (i <? n).
Proof.
  apply eq_true_iff_eq. rewrite in_range_spec, andb_true_iff, Z.leb_le, Z.ltb_lt. split.
  - intros (j & Hj & E). apply ptr_add_inj in E. lia.
  - intros H. by exists i.
Qed.

Lemma ptr_add_sub p i : (ptr_add p i).2 - p.2 = i.
Proof. cbn. lia. Qed.

(** Reading back an updated array, and one apart from it. *)
Lemma upd_val_same m p n f i : 0 <= i < n -> val (upd m p n f) p i = f i.
Proof.
  intros Hi. unfold val. rewrite upd_cells, in_range_self, ptr_add_sub.
  destruct (Z.leb_spec 0 i), (Z.ltb_spec i n); try lia. done.
Qed.

Lemma upd_val_apart m p n q k f i :
  apart q k p n -> 0 <= i < k -> val (upd m p n f) q i = val m q i.
Proof. intros Ha Hi. unfold val. by rewrite upd_cells, (apart_in_range q k). Qed.

Lemma upd_get m p n f q :
  cost_get (upd m p n f) q = if in_range p n q then
    (if in_chunk m q then Ok (f (q.2 - p.2)) else Err OutOfBounds) else cost_get m q.
Proof.
  unfold cost_get. rewrite upd_in_chunk, upd_cells.
  destruct (in_range p n q), (in_chunk m q); done.
Qed.

(** ** What the cost functions compute *)

Definition chunk_range (m : cost_mem) (p : cptr) (n : Z) : Prop :=
  forall i, 0 <= i < n -> in_chunk m (ptr_add p i) = true.

Lemma readable_chunk m p n : readable m p n -> chunk_range m p n.
Proof. intros H i Hi. by apply (readable_in m p n). Qed.

Lemma zero_cells_spec m p n :
  0 <= n -> chunk_range m p n -> zero_cells m p n = Ok (upd m p n (fun _ => 0)).
Proof.
  intros Hn Hc. apply (for_upto_states n _ (fun k => upd m p k (fun _ => 0))); [done|].
  intros k Hk. rewrite upd_S by lia. apply cost_set_in. rewrite upd_in_chunk. by apply Hc.
Qed.

(** The first [k] cells of [d] do not meet the cells of [s]. *)
Lemma apart_prefix d s n k i :
  apart d n s n -> 0 <= k <= n -> 0 <= i < n -> in_range d k (ptr_add s i) = false.
Proof.
  intros Ha Hk Hi. apply (apart_in_range s n); [|done].
  intros a b Hai Hb E. apply (Ha b a); [lia|lia|done].
Qed.

Lemma copy_cells_spec m d s n :
  0 <= n -> chunk_range m d n -> readable m s n -> apart d n s n ->
  copy_cells m d s n = Ok (upd m d n (val m s)).
Proof.
  intros Hn Hc Hs Ha. apply (for_upto_states n _ (fun k => upd m d k (val m s))); [done|].
  intros k Hk. destruct (readable_val m s n k Hs Hk) as [Hv _].
  rewrite upd_get, (apart_prefix d s n), Hv by (done || lia). cbn [rbind].
  rewrite upd_S by lia. apply cost_set_in. rewrite upd_in_chunk. by apply Hc.
Qed.

Lemma add_cells_spec m d s n :
  0 <= n -> readable m d n -> readable m s n -> apart d n s n ->
  add_cells m d s n = Ok (upd m d n (fun i => u64 (val m d i + val m s i))).
Proof.
  intros Hn Hd Hs Ha.
  apply (for_upto_states n _ (fun k => upd m d k (fun i => u64 (val m d i + val m s i)))); [done|].
  intros k Hk. destruct (readable_val m s n k Hs Hk) as [Hv _].
  destruct (readable_val m d n k Hd Hk) as [Hw _].
  rewrite upd_get, (apart_prefix d s n), Hv by (done || lia). cbn [rbind].
  rewrite upd_S by lia. apply cost_add_ok. rewrite upd_get, in_range_self.
  destruct (Z.ltb_spec k k); [lia|]. by rewrite andb_false_r.
Qed.

(** Some of the first [k] values is not zero. *)
Definition any_nonzero (f : Z -> Z) (k : Z) : bool :=
  existsb (fun i => negb (f i =? 0)) (seqZ 0 k).

Lemma any_nonzero_S f k :
  0 <= k -> any_nonzero f (k + 1) = any_nonzero f k || negb (f k =? 0).
Proof.
  intros Hk. unfold any_nonzero. rewrite <- (Z2Nat.id k) at 1 by done.
  replace (Z.of_nat (Z.to_nat k) + 1) with (Z.of_nat (S (Z.to_nat k))) by lia.
  rewrite seqZ_S, existsb_app, Z2Nat.id by done. cbn. by rewrite orb_false_r, Z.add_0_l.
Qed.

Lemma any_nonzero_false f k : any_nonzero f k = false <-> forall i, 0 <= i < k -> f i = 0.
Proof.
  unfold any_nonzero. split.
  - intros H i Hi. destruct (Z.eqb_spec (f i) 0); [done|].
    assert (existsb (fun i => negb (f i =? 0)) (seqZ 0 k) = true); [|congruence].
    apply existsb_exists. exists i. rewrite <- list_elem_of_In, elem_of_seqZ.
    split; [lia|]. by destruct (Z.eqb_spec (f i) 0).
  - intros H. destruct (existsb _ _) eqn:E; [|done]. apply existsb_exists in E as (i & Hi & E).
    rewrite <- list_elem_of_In, elem_of_seqZ in Hi. rewrite H in E by lia. done.
Qed.

Lemma any_nonzero_true f k : any_nonzero f k = true <-> exists i, 0 <= i < k /\ f i <> 0.
Proof.
  unfold any_nonzero. rewrite existsb_exists. split; intros (i & Hi & Hf); exists i;
    rewrite <- list_elem_of_In, elem_of_seqZ in *; (split; [lia|]);
    destruct (Z.eqb_spec (f i) 0); done.
Qed.

(** The memory after [src] was moved to [dst]. *)
Definition moved (m : cost_mem) (d s : cptr) (k : Z) : cost_mem :=
  upd (upd m d k (fun i => u64 (val m d i + val m s i))) s k (fun _ => 0).

Lemma u64_id v : in_u 64 v -> u64 v = v.
Proof. apply wrapu_small. Qed.

Lemma upd_upd_set m d n f s k g :
  upd (upd m d n f) s k g = set_cells m (cells (upd (upd m d n f) s k g)).
Proof. by rewrite (upd_set_cells (upd m d n f)), (upd_set_cells m) at 1. Qed.

(** Extending both updates by one cell. *)
Lemma upd_upd_S m d s k f g :
  0 <= k -> in_range s k (ptr_add d k) = false ->
  upd (upd m d (k + 1) f) s (k + 1) g =
  set_cells (upd (upd m d k f) s k g)
    (<[ptr_add s k := g k]> (<[ptr_add d k := f k]> (cells (upd (upd m d k f) s k g)))).
Proof.
  intros Hk Hd. rewrite (upd_upd_set m d (k + 1)), (upd_upd_set m d k) at 1.
  change (set_cells (set_cells m ?a) ?b) with (set_cells m b).
  apply set_cells_eq. intros q. rewrite (upd_S (upd m d (k + 1) f)) by done.
  cbn [cells set_cells]. destruct (decide (ptr_add s k = q)) as [<-|Hs];
    [by rewrite !lookup_insert_eq|].
  rewrite !(lookup_insert_ne _ (ptr_add s k)), upd_cells, upd_S by done. cbn [cells set_cells].
  destruct (decide (ptr_add d k = q)) as [<-|Hq].
  - by rewrite Hd, !lookup_insert_eq.
  - rewrite !(lookup_insert_ne _ (ptr_add d k)) by done. by rewrite (upd_cells (upd m d k f)).
Qed.

Lemma set_cells_id m : set_cells m (cells m) = m.
Proof. by destruct m. Qed.

(** The cells not yet visited are as before. *)
Lemma upd_upd_get m d s k f g q :
  in_range s k q = false -> in_range d k q = false ->
  cost_get (upd (upd m d k f) s k g) q = cost_get m q.
Proof. intros Hs Hd. by rewrite !upd_get, Hs, Hd. Qed.

Lemma in_range_next p k : in_range p k (ptr_add p k) = false.
Proof. rewrite in_range_self. destruct (Z.ltb_spec k k); [lia|]. apply andb_false_r. Qed.

Lemma cost_get_cells m p v : cost_get m p = Ok v -> cells m !! p = Some v.
Proof. by intros [_ ?]%cost_get_ok. Qed.

(** Rounds [k] of the two-array loops, from the values before the loop. *)
Section TwoArrays.
Context (m : cost_mem) (d s : cptr) (n : Z) (f g : Z -> Z).
Hypothesis Hd : readable m d n.
Hypothesis Hs : readable m s n.
Hypothesis Ha : apart d n s n.

Lemma two_get_src k :
  0 <= k < n -> cost_get (upd (upd m d k f) s k g) (ptr_add s k) = Ok (val m s k).
Proof using Hs Ha.
  intros Hk. rewrite upd_upd_get; [by apply (readable_val m s n)|apply in_range_next|].
  apply (apart_prefix d s n); [done|lia|lia].
Qed.

Lemma two_get_dst k :
  0 <= k < n -> cost_get (upd (upd m d k f) s k g) (ptr_add d k) = Ok (val m d k).
Proof using Hd Ha.
  intros Hk. rewrite upd_upd_get; [by apply (readable_val m d n)| |apply in_range_next].
  apply (apart_prefix s d n); [by apply apart_sym|lia|lia].
Qed.

(** Writing both cells is the next state. *)
Lemma two_step k v :
  0 <= k < n -> u64 (val m d k + v) = f k ->
  (let! m1 := cost_add (upd (upd m d k f) s k g) (ptr_add d k) v in
   cost_set m1 (ptr_add s k) (g k)) = Ok (upd (upd m d (k + 1) f) s (k + 1) g).
Proof using Hd Hs Ha.
  intros Hk Hv. rewrite (cost_add_ok _ _ _ _ (two_get_dst k Hk)). cbn [rbind].
  rewrite cost_set_in.
  2: { rewrite in_chunk_set, !upd_in_chunk. by apply (readable_in m s n). }
  rewrite Hv, upd_upd_S by (lia || (apply (apart_prefix s d n); [by apply apart_sym|lia|lia])).
  done.
Qed.

(** So is writing neither, when their values are already the new ones. *)
Lemma two_skip k :
  0 <= k < n -> f k = val m d k -> g k = val m s k ->
  upd (upd m d (k + 1) f) s (k + 1) g = upd (upd m d k f) s k g.
Proof using Hd Hs Ha.
  intros Hk Hf Hg.
  rewrite upd_upd_S by (lia || (apply (apart_prefix s d n); [by apply apart_sym|lia|lia])).
  rewrite (insert_id (cells _) (ptr_add d k)), insert_id; [apply set_cells_id| |].
  - rewrite Hg. by apply cost_get_cells, two_get_src.
  - rewrite Hf. by apply cost_get_cells, two_get_dst.
Qed.
End TwoArrays.

Lemma move_cells_spec m d s n b :
  0 <= n -> readable m d n -> readable m s n -> apart d n s n ->
  for_upto n (move_cell d s) (b, m) = Ok (b || any_nonzero (val m s) n, moved m d s n).
Proof.
  intros Hn Hd Hs Ha.
  rewrite <- (orb_false_r b) at 1.
  apply (for_upto_states n _ (fun k => (b || any_nonzero (val m s) k, moved m d s k))); [done|].
  intros k Hk. unfold move_cell, moved.
  rewrite (two_get_src m d s n) by done. cbn [rbind].
  rewrite any_nonzero_S by lia. destruct (Z.eqb_spec (val m s k) 0) as [E|E]; cbn [negb].
  - rewrite orb_false_r, (two_skip m d s n); try done. rewrite E, Z.add_0_r.
    apply u64_id. by apply (readable_val m d n).
  - rewrite <- rbind_assoc, (two_step m d s n) by done. cbn [rbind]. by rewrite !orb_true_r.
Qed.

Lemma moved_dst m d s n j :
  apart d n s n -> 0 <= j < n ->
  cells (moved m d s n) !! ptr_add d j = Some (u64 (val m d j + val m s j)).
Proof.
  intros Ha Hj. unfold moved.
  rewrite upd_cells, (apart_in_range d n), upd_cells, in_range_self, ptr_add_sub by done.
  destruct (Z.leb_spec 0 j), (Z.ltb_spec j n); try lia. done.
Qed.

Lemma moved_src m d s n j : 0 <= j < n -> cells (moved m d s n) !! ptr_add s j = Some 0.
Proof.
  intros Hj. unfold moved. rewrite upd_cells, in_range_self.
  destruct (Z.leb_spec 0 j), (Z.ltb_spec j n); try lia. done.
Qed.

Lemma moved_frame m d s n q :
  (forall j, 0 <= j < n -> q <> ptr_add d j /\ q <> ptr_add s j) ->
  cells (moved m d s n) !! q = cells m !! q.
Proof.
  intros H. unfold moved. rewrite !upd_cells.
  destruct (in_range s n q) eqn:E1; [apply in_range_spec in E1 as (j & Hj & ->); by destruct (H j Hj)|].
  destruct (in_range d n q) eqn:E2; [apply in_range_spec in E2 as (j & Hj & ->); by destruct (H j Hj)|].
  done.
Qed.

Lemma moved_chunks m d s n : chunks (moved m d s n) = chunks m.
Proof. unfold moved. by rewrite !upd_chunks. Qed.

(** Some of the first [k] values differ. *)
Definition any_diff (f g : Z -> Z) (k : Z) : bool := any_nonzero (fun i => f i - g i) k.

Definition diffed (m : cost_mem) (d o w : cptr) (k : Z) : cost_mem :=
  upd (upd m d k (fun i => u64 (val m d i + u64 (val m w i - val m o i)))) o k (val m w).

Lemma diff_cells_spec m d o w n b :
  0 <= n -> readable m d n -> readable m o n -> readable m w n ->
  apart d n o n -> apart d n w n -> apart o n w n ->
  for_upto n (diff_cell d o w) (b, m)
    = Ok (b || any_diff (val m w) (val m o) n, diffed m d o w n).
Proof.
  intros Hn Hd Ho Hw Hdo Hdw How.
  rewrite <- (orb_false_r b) at 1.
  apply (for_upto_states n _
    (fun k => (b || any_diff (val m w) (val m o) k, diffed m d o w k))); [done|].
  intros k Hk. unfold diff_cell, diffed. destruct (readable_val m w n k Hw Hk) as [Hv Hu].
  rewrite upd_upd_get, Hv by (apply (apart_prefix _ w n); done || lia).
  cbn [rbind]. rewrite (two_get_src m d o n) by done. cbn [rbind].
  unfold any_diff. rewrite any_nonzero_S by lia.
  destruct (Z.eqb_spec (val m w k) (val m o k)) as [E|E].
  - rewrite (proj2 (Z.eqb_eq _ _)) by lia. cbn [negb].
    rewrite orb_false_r, (two_skip m d o n); try done.
    rewrite E, Z.sub_diag. rewrite Z.add_0_r. apply u64_id. by apply (readable_val m d n).
  - rewrite (proj2 (Z.eqb_neq _ _)) by lia. cbn [negb].
    pose proof (two_step m d o n (fun i => u64 (val m d i + u64 (val m w i - val m o i)))
      (val m w) Hd Ho Hdo k (u64 (val m w k - val m o k)) Hk eq_refl) as Hst.
    rewrite (cost_add_ok _ _ _ _ (two_get_dst m d o n _ _ Hd Hdo k Hk)) in Hst |- *.
    cbn [rbind] in Hst |- *.
    assert (cost_get (set_cells (upd (upd m d k
      (fun i => u64 (val m d i + u64 (val m w i - val m o i)))) o k (val m w))
      (<[ptr_add d k := u64 (val m d k + u64 (val m w k - val m o k))]>
        (cells (upd (upd m d k (fun i => u64 (val m d i + u64 (val m w i - val m o i))))
           o k (val m w))))) (ptr_add w k) = Ok (val m w k)) as ->.
    { apply cost_get_ok. rewrite in_chunk_set, !upd_in_chunk. split; [by apply (readable_in m w n)|].
      cbn [cells set_cells]. rewrite lookup_insert_ne by (by apply Hdw).
      rewrite !upd_cells, (apart_prefix o w n), (apart_prefix d w n) by (done || lia).
      by apply cost_get_cells. }
    cbn [rbind]. rewrite Hst. cbn [rbind]. by rewrite !orb_true_r.
Qed.

(** ** The layout of an event set *)

Lemma group_bit_pow2 i : 0 <= i < 32 -> group_bit i = 2 ^ i.
Proof.
  intros Hi. unfold group_bit. rewrite Z.shiftl_1_l. apply wrapu_small.
  split; [apply Z.pow_nonneg; lia|apply Z.pow_lt_mono_r; lia].
Qed.

Lemma land_pow2_testbit mask i :
  0 <= i -> (Z.land mask (2 ^ i) =? 0) = negb (Z.testbit mask i).
Proof.
  intros Hi. destruct (Z.testbit mask i) eqn:E; cbn [negb].
  - apply Z.eqb_neq. intros H.
    assert (Z.testbit (Z.land mask (2 ^ i)) i = true) as Hb
      by (rewrite Z.land_spec, E, Z.pow2_bits_true; done).
    by rewrite H, Z.bits_0 in Hb.
  - apply Z.eqb_eq. apply Z.bits_inj'. intros j Hj. rewrite Z.land_spec, Z.bits_0.
    rewrite Z.pow2_bits_eqb by done. destruct (Z.eqb_spec i j) as [<-|]; [|by rewrite andb_false_r].
    by rewrite E.
Qed.

Lemma has_group_testbit mask i : 0 <= i < 32 -> has_group mask i = Z.testbit mask i.
Proof.
  intros Hi. unfold has_group. fold (group_bit i). rewrite group_bit_pow2 by done.
  by rewrite land_pow2_testbit, negb_involutive by lia.
Qed.

(** The events group [i] contributes to a set. *)
Definition group_len (gs : list (option EventGroup)) (mask : Z) (i : nat) : Z :=
  match gs !! i with
  | Some (Some eg) => if Z.testbit mask (Z.of_nat i) then eg_size eg else 0
  | _ => 0
  end.

(** The events of the groups before [i]. *)
Fixpoint group_off (gs : list (option EventGroup)) (mask : Z) (i : nat) : Z :=
  match i with
  | O => 0
  | S k => group_off gs mask k + group_len gs mask k
  end.

(** A group is as long as its list of names, which is not empty. *)
Definition wf_group (g : option EventGroup) : Prop :=
  match g with
  | Some eg => eg_size eg = Z.of_nat (length (eg_name eg)) /\ 1 <= eg_size eg <= 4
  | None => True
  end.

Definition wf_groups (gs : list (option EventGroup)) : Prop :=
  length gs = 10%nat /\ Forall wf_group gs.

(** The set is laid out as the groups [gs] say. *)
Record laid_out (gs : list (option EventGroup)) (es : EventSet) : Prop := {
  lo_mask : 0 <= es_mask es < MAX_EVENTSET_COUNT;
  lo_size : es_size es = group_off gs (es_mask es) 10;
  lo_offset : forall i, (i < 10)%nat ->
    es_offset es !! i = Some (group_off gs (es_mask es) i)
}.

Lemma set_layout_spec all gs mask (i : nat) count :
  (forall j, all !! (i + j)%nat = gs !! j) -> (i + length gs <= 32)%nat ->
  forall offs n k,
  set_layout gs mask (Z.of_nat i) (group_off all mask i) count = (offs, n, k) ->
  n = group_off all mask (i + length gs) /\
  forall j, (j < length gs)%nat -> offs !! j = Some (group_off all mask (i + j)).
Proof.
  revert i count; induction gs as [|g gs IH]; intros i count Hall Hlen offs n k H.
  { simplify_eq/=. split; [f_equal; lia|intros; lia]. }
  cbn [set_layout] in H. simpl in Hlen.
  set (st := match g with Some eg => _ | None => _ end) in H.
  assert (st.1 = group_off all mask (S i)) as Hst.
  { cbn [group_off]. unfold group_len. specialize (Hall 0%nat). rewrite Nat.add_0_r in Hall.
    rewrite Hall. subst st. cbn. destruct g as [eg|]; [|cbn; lia].
    rewrite has_group_testbit by lia. destruct (Z.testbit mask (Z.of_nat i)); cbn; lia. }
  destruct st as [off' cnt']. cbn [fst] in Hst. subst off'.
  destruct (set_layout gs mask (Z.of_nat i + 1) (group_off all mask (S i)) cnt') as [[o' n'] k'] eqn:E.
  replace (Z.of_nat i + 1) with (Z.of_nat (S i)) in E by lia.
  apply IH in E as [En Eo]; [|intros j; specialize (Hall (S j)); by rewrite Nat.add_succ_r in Hall|lia].
  simplify_eq. split.
  - cbn [length]. by rewrite Nat.add_succ_r.
  - intros [|j] Hj; simpl.
    + by rewrite Nat.add_0_r.
    + simpl in Hj. by rewrite Eo, Nat.add_succ_r by lia.
Qed.

(** The tables of events: sound groups, and sets laid out by them. *)
Record wf_events (e : events) : Prop := {
  we_init : eventSets_initialized e = true;
  we_groups : wf_groups (eventGroup e);
  we_table : map_Forall (fun mask es => es_mask es = mask /\ laid_out (eventGroup e) es)
    (eventSetTable e)
}.

Lemma initialize_id e : eventSets_initialized e = true -> initialize_event_sets e = e.
Proof. unfold initialize_event_sets. by intros ->. Qed.

(** Asking for a set: the one of the table, or a new one that is then in the
    table; asking again gives the same set. *)
Lemma eventset_from_mask_spec e mask :
  wf_events e -> 0 <= mask < MAX_EVENTSET_COUNT ->
  exists es e', eventset_from_mask e mask = (Some es, e') /\ wf_events e' /\
    eventGroup e' = eventGroup e /\ es_mask es = mask /\ laid_out (eventGroup e) es /\
    eventSetTable e' !! mask = Some es /\
    (forall k s, eventSetTable e !! k = Some s -> eventSetTable e' !! k = Some s).
Proof.
  intros Hw Hm. unfold eventset_from_mask. destruct (Z.leb_spec MAX_EVENTSET_COUNT mask); [lia|].
  destruct Hw as [Hi [Hl Hg] Ht]. rewrite initialize_id by done.
  destruct (eventSetTable e !! mask) as [es|] eqn:E.
  { exists es, e. destruct (Ht _ _ E) as [? ?]. split_and!; auto. by constructor. }
  destruct (set_layout (eventGroup e) mask 0 0 0) as [[offs n] k] eqn:El.
  apply (set_layout_spec (eventGroup e) (eventGroup e) mask 0 0) in El as [En Eo];
    [|done|rewrite Hl; lia].
  rewrite Hl in En, Eo.
  assert (laid_out (eventGroup e) (MkSet mask k n offs)) as Hlo
    by (constructor; [exact Hm|exact En|exact Eo]).
  do 2 eexists. split_and!; [done| |done|done|done|cbn; apply lookup_insert_eq|].
  - constructor; cbn; [done|done|]. by apply map_Forall_insert_2.
  - intros k' s Hk. cbn. rewrite lookup_insert_ne; [done|congruence].
Qed.

Lemma eventset_from_mask_again e mask es :
  wf_events e -> eventSetTable e !! mask = Some es ->
  eventset_from_mask e mask = (Some es, e).
Proof.
  intros [Hi _ Ht] Hm. unfold eventset_from_mask. destruct (Ht _ _ Hm) as [E [Hmask _ _]].
  rewrite E in Hmask. destruct (Z.leb_spec MAX_EVENTSET_COUNT mask); [lia|].
  by rewrite initialize_id, Hm.
Qed.

Lemma group_len_nonneg gs mask i : wf_groups gs -> 0 <= group_len gs mask i <= 4.
Proof.
  intros [_ Hg]. unfold group_len. destruct (gs !! i) as [[eg|]|] eqn:E; try lia.
  apply (Forall_lookup_1 _ _ _ _ Hg) in E as [_ E]. destruct (Z.testbit _ _); lia.
Qed.

Lemma group_off_mono gs mask i j :
  wf_groups gs -> (i < j)%nat -> group_off gs mask i + group_len gs mask i <= group_off gs mask j.
Proof.
  intros Hg. induction 1 as [|j Hij IH]; [done|]. cbn [group_off].
  pose proof (group_len_nonneg gs mask j Hg). lia.
Qed.

Lemma group_off_nonneg gs mask i : wf_groups gs -> 0 <= group_off gs mask i.
Proof.
  intros Hg. induction i as [|i IH]; [done|]. cbn [group_off].
  pose proof (group_len_nonneg gs mask i Hg). lia.
Qed.

(** Every position belongs to one group and one event of it. *)
Lemma group_off_find gs mask n k :
  wf_groups gs -> 0 <= k < group_off gs mask n ->
  exists i, (i < n)%nat /\ 0 <= k - group_off gs mask i < group_len gs mask i.
Proof.
  intros Hg. induction n as [|n IH]; cbn [group_off]; intros Hk; [lia|].
  destruct (Z.lt_ge_cases k (group_off gs mask n)) as [?|?].
  - destruct IH as (i & ? & ?); [lia|]. exists i. split; [lia|done].
  - exists n. split; [lia|lia].
Qed.

(** Position [k] of the arrays of [es] counts event [j] of group [i]. *)
Definition event_at (gs : list (option EventGroup)) (es : EventSet) (k : Z) (ij : nat * Z) : Prop :=
  exists eg off, gs !! ij.1 = Some (Some eg) /\ Z.testbit (es_mask es) (Z.of_nat ij.1) = true /\
    es_offset es !! ij.1 = Some off /\ 0 <= ij.2 < eg_size eg /\ k = off + ij.2.

Lemma event_at_len gs es k i j :
  laid_out gs es -> length gs = 10%nat ->
  event_at gs es k (i, j) <->
  (i < 10)%nat /\ 0 <= j < group_len gs (es_mask es) i /\ k = group_off gs (es_mask es) i + j.
Proof.
  intros [_ _ Ho] Hl. unfold event_at, group_len. cbn [fst snd]. split.
  - intros (eg & off & Hi & Hb & Hoff & Hj & ->). apply lookup_lt_Some in Hi as Hlt.
    rewrite Hl in Hlt. rewrite Ho in Hoff by done. simplify_eq. rewrite Hi, Hb. done.
  - intros (Hi & Hj & ->). destruct (gs !! i) as [[eg|]|] eqn:E; try lia.
    destruct (Z.testbit (es_mask es) (Z.of_nat i)) eqn:Eb; [|lia].
    exists eg, (group_off gs (es_mask es) i). split_and!; auto; lia.
Qed.

(** Registering a group that no set has yet. *)
Lemma new_event_group_wf e id names :
  wf_events e -> 0 <= id < MAX_EVENTGROUP_COUNT -> (1 <= length names <= 4)%nat ->
  eventGroup e !! Z.to_nat id = Some None ->
  map_Forall (fun mask _ => Z.testbit mask id = false) (eventSetTable e) ->
  exists e', new_event_group e id names = Ok e' /\ wf_events e' /\
    eventSetTable e' = eventSetTable e /\
    eventGroup e' = <[Z.to_nat id := Some (MkGroup (Z.of_nat (length names)) names)]> (eventGroup e).
Proof.
  intros [Hi [Hl Hg] Ht] Hid Hn Hold Hfree. unfold new_event_group, MAX_EVENTGROUP_COUNT in *.
  rewrite initialize_id by done. rewrite tl_assert_true; cycle 1.
  { unfold id_ok, MAX_EVENTGROUP_COUNT. apply andb_true_iff. rewrite Z.leb_le, Z.ltb_lt. lia. }
  cbn [rbind]. rewrite (arr_get_in _ _ None) by (done || lia). cbn [rbind].
  rewrite tl_assert_true by (by apply bool_decide_eq_true). cbn [rbind].
  rewrite arr_set_in by (rewrite Hl; lia). cbn [rbind]. eexists. split_and!; [done| |done|done].
  constructor; cbn; [done| |].
  - split; [by rewrite length_insert|]. apply Forall_insert; [done|]. cbn. lia.
  - intros mask es Hm. destruct (Ht _ _ Hm) as [Em [Hmask Hs Ho]]. split; [done|].
    specialize (Hfree _ _ Hm). cbn in Hfree.
    assert (forall i, group_off (<[Z.to_nat id := Some (MkGroup (Z.of_nat (length names)) names)]>
      (eventGroup e)) (es_mask es) i = group_off (eventGroup e) (es_mask es) i) as Hoff.
    { induction i as [|i IH]; [done|]. cbn [group_off]. rewrite IH. f_equal. unfold group_len.
      destruct (decide (Z.to_nat id = i)) as [<-|Hne].
      - rewrite list_lookup_insert_eq, Hold by lia. rewrite Z2Nat.id, Em, Hfree by lia. done.
      - by rewrite list_lookup_insert_ne. }
    constructor; [done|by rewrite Hoff|]. intros i Hlt. rewrite Hoff. by apply Ho.
Qed.

(** The layout of a cost array: an event set asked for by mask is the same
    on every request, and each of its cells counts exactly one event of one of
    its groups. *)
Theorem eventset_partition (e : events) (mask : Z) :
  wf_events e -> 0 <= mask < MAX_EVENTSET_COUNT ->
  exists es e', eventset_from_mask e mask = (Some es, e') /\ wf_events e' /\ es_mask es = mask /\
    eventset_from_mask e' mask = (Some es, e') /\
    (forall k, 0 <= k < es_size es -> exists! ij, event_at (eventGroup e') es k ij) /\
    (forall k ij, event_at (eventGroup e') es k ij -> 0 <= k < es_size es).
Proof.
  intros Hw Hm. destruct (eventset_from_mask_spec e mask Hw Hm)
    as (es & e' & E & Hw' & Hg & Hmask & Hlo & Ht & _).
  exists es, e'. pose proof (we_groups _ Hw') as Hgs. destruct Hgs as [Hl Hf] eqn:Eg. clear Eg.
  rewrite <- Hg in Hlo. split_and!; auto.
  - by apply eventset_from_mask_again.
  - intros k Hk. rewrite (lo_size _ _ Hlo) in Hk.
    destruct (group_off_find _ _ _ _ (we_groups _ Hw') Hk) as (i & Hi & Hj).
    exists (i, k - group_off (eventGroup e') (es_mask es) i). split.
    + apply event_at_len; auto. split_and!; [done|lia|lia|lia].
    + intros [i' j'] H'. apply event_at_len in H' as (Hi' & Hj' & Hk'); auto.
      destruct (Nat.lt_total i i') as [Hlt|[->|Hlt]].
      * pose proof (group_off_mono _ (es_mask es) _ _ (we_groups _ Hw') Hlt). lia.
      * f_equal. lia.
      * pose proof (group_off_mono _ (es_mask es) _ _ (we_groups _ Hw') Hlt). lia.
  - intros k [i j] Hij. apply event_at_len in Hij as (Hi & Hj & ->); auto.
    rewrite (lo_size _ _ Hlo).
    pose proof (group_off_mono _ (es_mask es) i 10 (we_groups _ Hw') Hi).
    pose proof (group_off_nonneg (eventGroup e') (es_mask es) i (we_groups _ Hw')). lia.
Qed.

(** ** Moving costs between arrays of different sets *)

Section MoveSets.
Context (e : events) (esD esS : EventSet) (m : cost_mem) (d s : cptr).
Local Abbreviation gs := (eventGroup e).
Local Abbreviation lenS := (group_len gs (es_mask esS)).
Local Abbreviation offS := (group_off gs (es_mask esS)).
Local Abbreviation offD := (group_off gs (es_mask esD)).

Hypothesis Hgs : wf_groups gs.
Hypothesis HlD : laid_out gs esD.
Hypothesis HlS : laid_out gs esS.
(** "if src has a subset, dst must have, too" *)
Hypothesis Hsub : forall i, Z.testbit (es_mask esS) i = true -> Z.testbit (es_mask esD) i = true.
Hypothesis Hrd : readable m d (es_size esD).
Hypothesis Hrs : readable m s (es_size esS).
Hypothesis Hap : apart d (es_size esD) s (es_size esS).

Lemma len_sub i : lenS i = 0 \/ group_len gs (es_mask esD) i = lenS i.
Proof using Hsub.
  unfold group_len. destruct (gs !! i) as [[eg|]|]; auto.
  destruct (Z.testbit (es_mask esS) (Z.of_nat i)) eqn:E; [|auto].
  rewrite (Hsub _ E). auto.
Qed.

Lemma src_pos i j : (i < 10)%nat -> 0 <= j < lenS i -> 0 <= offS i + j < es_size esS.
Proof using Hgs HlS.
  intros Hi Hj. rewrite (lo_size _ _ HlS).
  pose proof (group_off_mono gs (es_mask esS) i 10 Hgs Hi).
  pose proof (group_off_nonneg gs (es_mask esS) i Hgs). lia.
Qed.

Lemma dst_pos i j : (i < 10)%nat -> 0 <= j < lenS i -> 0 <= offD i + j < es_size esD.
Proof using Hgs HlD Hsub.
  intros Hi Hj. rewrite (lo_size _ _ HlD).
  pose proof (group_off_mono gs (es_mask esD) i 10 Hgs Hi).
  pose proof (group_off_nonneg gs (es_mask esD) i Hgs). destruct (len_sub i); lia.
Qed.

Lemma src_inj i j i' j' :
  0 <= j < lenS i -> 0 <= j' < lenS i' -> offS i + j = offS i' + j' -> i = i'.
Proof using Hgs.
  intros Hj Hj' E. destruct (Nat.lt_total i i') as [H|[H|H]]; [|done|];
    pose proof (group_off_mono gs (es_mask esS) _ _ Hgs H); lia.
Qed.

Lemma dst_inj i j i' j' :
  0 <= j < lenS i -> 0 <= j' < lenS i' -> offD i + j = offD i' + j' -> i = i'.
Proof using Hgs Hsub.
  intros Hj Hj' E. destruct (len_sub i), (len_sub i'); try lia.
  destruct (Nat.lt_total i i') as [H1|[H1|H1]]; [|done|];
    pose proof (group_off_mono gs (es_mask esD) _ _ Hgs H1); lia.
Qed.

(** The state after [k] groups. *)
Record moved_groups (k : nat) (st : bool * cost_mem) : Prop := {
  mg_chunks : chunks st.2 = chunks m;
  mg_moved : forall i j, (i < k)%nat -> 0 <= j < lenS i ->
    cells st.2 !! ptr_add d (offD i + j) = Some (u64 (val m d (offD i + j) + val m s (offS i + j))) /\
    cells st.2 !! ptr_add s (offS i + j) = Some 0;
  mg_frame : forall q, (forall i j, (i < k)%nat -> 0 <= j < lenS i ->
      q <> ptr_add d (offD i + j) /\ q <> ptr_add s (offS i + j)) ->
    cells st.2 !! q = cells m !! q;
  mg_flag : st.1 = true <->
    exists i j, (i < k)%nat /\ 0 <= j < lenS i /\ val m s (offS i + j) <> 0
}.

(** The cells of a group not yet visited. *)
Lemma mg_fresh k st i j :
  moved_groups k st -> (k <= i)%nat -> (i < 10)%nat -> 0 <= j < lenS i ->
  cells st.2 !! ptr_add d (offD i + j) = cells m !! ptr_add d (offD i + j) /\
  cells st.2 !! ptr_add s (offS i + j) = cells m !! ptr_add s (offS i + j).
Proof using Hgs HlD HlS Hsub Hap.
  intros Hm Hk Hi Hj.
  assert (forall i' j', (i' < k)%nat -> 0 <= j' < lenS i' -> i <> i' /\ (i' < 10)%nat) as Hne
    by (intros; lia).
  split; apply (mg_frame _ _ Hm); intros i' j' Hi' Hj'; destruct (Hne i' j' Hi' Hj'); split.
  - rewrite ptr_add_inj. intros E. apply dst_inj in E; auto.
  - apply Hap; auto using src_pos, dst_pos.
  - intros E. symmetry in E. revert E. apply Hap; auto using src_pos, dst_pos.
  - rewrite ptr_add_inj. intros E. apply src_inj in E; auto.
Qed.

Lemma mg_step k st eg :
  moved_groups k st -> (k < 10)%nat -> lenS k = eg_size eg -> 1 <= eg_size eg ->
  exists st', for_upto (eg_size eg) (move_cell (ptr_add d (offD k)) (ptr_add s (offS k))) st
                = Ok st' /\ moved_groups (S k) st'.
Proof using Hgs HlD HlS Hsub Hrd Hrs Hap.
  intros Hm Hk Hlen Heg. destruct st as [b mk].
  assert (forall j, 0 <= j < eg_size eg ->
    val mk (ptr_add d (offD k)) j = val m d (offD k + j) /\
    val mk (ptr_add s (offS k)) j = val m s (offS k + j)) as Hval.
  { intros j Hj. destruct (mg_fresh k (b, mk) k j Hm) as [E1 E2]; [lia|done|lia|].
    unfold val. rewrite !ptr_add_add. cbn [snd] in E1, E2. by rewrite E1, E2. }
  assert (forall j, 0 <= j < eg_size eg ->
    in_chunk mk (ptr_add d (offD k + j)) = true /\ in_chunk mk (ptr_add s (offS k + j)) = true)
    as Hch.
  { intros j Hj. unfold in_chunk. pose proof (mg_chunks _ _ Hm) as Hc. cbn in Hc. rewrite Hc.
    split; [apply (readable_in m d (es_size esD))|apply (readable_in m s (es_size esS))];
      auto; [apply dst_pos|apply src_pos]; lia. }
  assert (apart (ptr_add d (offD k)) (eg_size eg) (ptr_add s (offS k)) (eg_size eg)) as Hap'.
  { intros i j Hi Hj. rewrite !ptr_add_add. apply Hap; [apply dst_pos|apply src_pos]; lia. }
  rewrite move_cells_spec; [| lia | | |done]; cycle 1.
  { intros j Hj. rewrite ptr_add_add. destruct (mg_fresh k (b, mk) k j Hm) as [E1 _]; [lia|done|lia|].
    destruct (readable_val m d _ (offD k + j) Hrd) as [Hv Hu]; [apply dst_pos; lia|].
    exists (val m d (offD k + j)). split; [|done]. apply cost_get_ok. split; [by apply Hch|].
    cbn [snd] in E1. rewrite E1. by apply cost_get_cells. }
  { intros j Hj. rewrite ptr_add_add. destruct (mg_fresh k (b, mk) k j Hm) as [_ E1]; [lia|done|lia|].
    destruct (readable_val m s _ (offS k + j) Hrs) as [Hv Hu]; [apply src_pos; lia|].
    exists (val m s (offS k + j)). split; [|done]. apply cost_get_ok. split; [by apply Hch|].
    cbn [snd] in E1. rewrite E1. by apply cost_get_cells. }
  eexists. split; [done|]. constructor; cbn [fst snd].
  - rewrite moved_chunks. apply (mg_chunks _ _ Hm).
  - intros i j Hi Hj. destruct (decide (i = k)) as [->|Hne].
    + rewrite Hlen in Hj. destruct (Hval j Hj) as [V1 V2].
      rewrite <- V1, <- V2, <- !ptr_add_add. split; [by apply moved_dst|by apply moved_src].
    + destruct (mg_moved _ _ Hm i j) as [M1 M2]; [lia|done|]. cbn [snd] in M1, M2.
      rewrite <- M1, <- M2. split; apply moved_frame; intros j' Hj'; rewrite !ptr_add_add; split.
      * rewrite ptr_add_inj. intros E. apply dst_inj in E; auto; lia.
      * apply Hap; [apply dst_pos|apply src_pos]; lia.
      * intros E. symmetry in E. revert E. apply Hap; [apply dst_pos|apply src_pos]; lia.
      * rewrite ptr_add_inj. intros E. apply src_inj in E; auto; lia.
  - intros q Hq. rewrite moved_frame.
    + apply (mg_frame _ _ Hm). intros i j Hi Hj. apply Hq; [lia|done].
    + intros j Hj. rewrite !ptr_add_add. apply Hq; [lia|lia].
  - rewrite orb_true_iff, (mg_flag _ _ Hm). cbn [fst snd]. split.
    + intros [(i & j & Hi & Hj & Hv)|Hany]; [exists i, j; split_and!; auto; lia|].
      apply any_nonzero_true in Hany as (j & Hj & Hv). exists k, j.
      destruct (Hval j Hj) as [_ V2]. rewrite <- V2. split_and!; auto; lia.
    + intros (i & j & Hi & Hj & Hv). destruct (decide (i = k)) as [->|Hne].
      * right. rewrite Hlen in Hj. destruct (Hval j Hj) as [_ V2].
        apply any_nonzero_true. exists j. by rewrite V2.
      * left. exists i, j. split_and!; auto; lia.
Qed.

Lemma moved_groups_0 : moved_groups 0 (false, m).
Proof.
  constructor; cbn; [done|intros; lia|done|]. split; [done|]. intros (i & j & ? & _). lia.
Qed.

(** A group that is absent from the source is skipped. *)
Lemma mg_skip k st : moved_groups k st -> lenS k = 0 -> moved_groups (S k) st.
Proof.
  intros [Hc Hmv Hf Hb] H0. constructor; [done| | |].
  - intros i j Hi Hj. apply Hmv; [|done]. destruct (decide (i = k)) as [->|]; lia.
  - intros q Hq. apply Hf. intros i j Hi Hj. apply Hq; [lia|done].
  - rewrite Hb. split; intros (i & j & Hi & Hj & Hv); exists i, j; split_and!; auto; try lia.
    destruct (decide (i = k)) as [->|]; lia.
Qed.

Lemma add_and_zero_cost2_groups :
  exists st, add_and_zero_cost2 e esD m (Some d) esS (Some s) = Ok st /\ moved_groups 10 st.
Proof using Hgs HlD HlS Hsub Hrd Hrs Hap.
  unfold add_and_zero_cost2. cbn [assert_ptr rbind].
  change MAX_EVENTGROUP_COUNT with (Z.of_nat 10).
  match goal with |- context [for_upto _ ?f _] => set (body := f) end.
  assert (forall k, (k <= 10)%nat ->
    exists st, for_upto (Z.of_nat k) body (false, m) = Ok st /\ moved_groups k st) as H;
    [|by apply H].
  induction k as [|k IH]; intros Hk; [eexists; split; [done|exact moved_groups_0]|].
  destruct IH as (st & E & Hst); [lia|]. rewrite for_upto_S, E. cbn [rbind]. unfold body.
  rewrite group_bit_pow2, land_pow2_testbit by lia.
  destruct (Z.testbit (es_mask esS) (Z.of_nat k)) eqn:Eb; cbn [negb]; cycle 1.
  { exists st. split; [done|]. apply mg_skip; [done|]. unfold group_len.
    destruct (gs !! k) as [[eg|]|]; try done. by rewrite Eb. }
  destruct Hgs as [Hl Hf]. destruct (lookup_lt_is_Some_2 gs k) as [g Hg]; [lia|].
  rewrite (arr_get_nat _ k g) by done. cbn [rbind]. destruct g as [eg|]; cycle 1.
  { exists st. split; [done|]. apply mg_skip; [done|]. unfold group_len. by rewrite Hg. }
  rewrite tl_assert_true; cycle 1.
  { apply Z.ltb_lt. pose proof (land_pow2_testbit (es_mask esD) (Z.of_nat k)) as Hb.
    rewrite (Hsub _ Eb) in Hb. specialize (Hb ltac:(lia)). apply Z.eqb_neq in Hb.
    assert (0 <= Z.land (es_mask esD) (2 ^ Z.of_nat k)); [|lia].
    apply Z.land_nonneg. left. apply (lo_mask _ _ HlD). }
  cbn [rbind]. rewrite (arr_get_nat _ k (offS k)) by (apply (lo_offset _ _ HlS); lia).
  cbn [rbind]. rewrite (arr_get_nat _ k (offD k)) by (apply (lo_offset _ _ HlD); lia).
  cbn [rbind]. pose proof (Forall_lookup_1 _ _ _ _ Hf Hg) as Hwf. cbn in Hwf.
  apply mg_step; [done|lia| |lia]. unfold group_len. by rewrite Hg, Eb.
Qed.
End MoveSets.

(** C29. At dump time the costs of an instruction move to the totals of its
    line: when the source set is contained in the destination set, each event
    counter of the source is added (modulo 2^64) to the counter of the same
    event in the destination and becomes zero, whatever the two layouts;
    every other cell keeps its value, and the result says whether any counter
    was not zero. *)
Theorem add_and_zero_cost2_moves (e : events) (esD esS : EventSet) (m : cost_mem) (d s : cptr) :
  wf_groups (eventGroup e) -> laid_out (eventGroup e) esD -> laid_out (eventGroup e) esS ->
  (forall i, Z.testbit (es_mask esS) i = true -> Z.testbit (es_mask esD) i = true) ->
  readable m d (es_size esD) -> readable m s (es_size esS) ->
  apart d (es_size esD) s (es_size esS) ->
  exists b m', add_and_zero_cost2 e esD m (Some d) esS (Some s) = Ok (b, m') /\
    (forall x y ij, event_at (eventGroup e) esD x ij -> event_at (eventGroup e) esS y ij ->
       val m' d x = u64 (val m d x + val m s y)) /\
    (forall y, 0 <= y < es_size esS -> val m' s y = 0) /\
    (forall q, (forall x y ij, event_at (eventGroup e) esD x ij -> event_at (eventGroup e) esS y ij ->
       q <> ptr_add d x /\ q <> ptr_add s y) -> cells m' !! q = cells m !! q) /\
    (b = true <-> exists y, 0 <= y < es_size esS /\ val m s y <> 0).
Proof.
  intros Hgs HlD HlS Hsub Hrd Hrs Hap.
  destruct (add_and_zero_cost2_groups e esD esS m d s Hgs HlD HlS Hsub Hrd Hrs Hap)
    as ([b m'] & E & [Hc Hmv Hf Hb]).
  exists b, m'. cbn [fst snd] in *. pose proof (proj1 Hgs) as Hl. split_and!; [done| | | |].
  - intros x y [i j] HD HS. apply event_at_len in HD as (_ & _ & ->); auto.
    apply event_at_len in HS as (Hi & Hj & ->); auto.
    unfold val at 1. by destruct (Hmv i j Hi Hj) as [-> _].
  - intros y Hy. rewrite (lo_size _ _ HlS) in Hy.
    destruct (group_off_find _ _ _ _ Hgs Hy) as (i & Hi & Hj).
    destruct (Hmv i _ Hi Hj) as [_ M]. unfold val.
    rewrite Z.add_comm, Z.sub_add in M. by rewrite M.
  - intros q Hq. apply Hf. intros i j Hi Hj. destruct (len_sub e esD esS Hsub i) as [?|Hlen]; [lia|].
    apply (Hq _ _ (i, j)); apply event_at_len; auto. by rewrite Hlen.
  - rewrite Hb. split.
    + intros (i & j & Hi & Hj & Hv). eexists. split; [|exact Hv].
      by apply (src_pos e esS Hgs HlS).
    + intros (y & Hy & Hv). rewrite (lo_size _ _ HlS) in Hy.
      destruct (group_off_find _ _ _ _ Hgs Hy) as (i & Hi & Hj).
      exists i. eexists. split_and!; [done| | |]; [apply Hj..|].
      by rewrite Z.add_comm, Z.sub_add.
Qed.

(** Writing back the values that are there. *)
Lemma upd_same m p n f :
  readable m p n -> (forall i, 0 <= i < n -> f i = val m p i) -> upd m p n f = m.
Proof.
  intros Hp Hf. rewrite upd_set_cells. rewrite <- (set_cells_id m) at 3.
  apply set_cells_eq. intros q. rewrite upd_cells. destruct (in_range p n q) eqn:Eq; [|done].
  apply in_range_spec in Eq as (i & Hi & ->). rewrite ptr_add_sub, Hf by done.
  symmetry. apply cost_get_cells. by apply (readable_val m p n).
Qed.

Lemma upd_readable m p n f q k :
  (forall i, in_u 64 (f i)) -> readable m q k -> readable (upd m p n f) q k.
Proof.
  intros Hf Hq i Hi. rewrite upd_get, (readable_in m q k) by done.
  destruct (in_range p n (ptr_add q i)); [eauto|by apply Hq].
Qed.

Lemma val_u64 m p n : readable m p n -> forall i, in_u 64 (if (0 <=? i) && (i <? n) then val m p i else 0).
Proof.
  intros Hp i. destruct (Z.leb_spec 0 i), (Z.ltb_spec i n); cbn;
    try (unfold in_u; lia). by apply (readable_val m p n).
Qed.

(** An update only reads its function on the range. *)
Lemma upd_ext m p n f g : (forall i, 0 <= i < n -> f i = g i) -> upd m p n f = upd m p n g.
Proof.
  intros H. rewrite (upd_set_cells m p n f), (upd_set_cells m p n g). apply set_cells_eq.
  intros q. rewrite !upd_cells. destruct (in_range p n q) eqn:E; [|done].
  apply in_range_spec in E as (i & Hi & ->). by rewrite ptr_add_sub, H.
Qed.

Section Diff.
Context (m : cost_mem) (d o w : cptr) (n : Z).
Hypothesis Hd : readable m d n.
Hypothesis Ho : readable m o n.
Hypothesis Hw : readable m w n.
Hypothesis Hdo : apart d n o n.
Hypothesis Hdw : apart d n w n.
Hypothesis How : apart o n w n.

Lemma diffed_val i :
  0 <= i < n ->
  val (diffed m d o w n) d i = u64 (val m d i + (val m w i - val m o i)) /\
  val (diffed m d o w n) o i = val m w i /\ val (diffed m d o w n) w i = val m w i.
Proof using Hdo Hdw How.
  intros Hi. unfold diffed.
  rewrite (upd_val_apart _ o n d n), !upd_val_same by done.
  rewrite (upd_val_apart _ o n w n), (upd_val_apart _ d n w n) by (done || by apply apart_sym).
  split_and!; [|done|done]. unfold wrapu. by rewrite Z.add_mod_idemp_r.
Qed.

Lemma diffed_readable p : readable m p n -> readable (diffed m d o w n) p n.
Proof using Hw.
  intros Hp. unfold diffed.
  rewrite (upd_ext _ o n _ (fun i => if (0 <=? i) && (i <? n) then val m w i else 0)).
  - apply upd_readable; [by apply val_u64|]. apply upd_readable; [|done].
    intros i. by apply wrapu_range.
  - intros i Hi. destruct (Z.leb_spec 0 i), (Z.ltb_spec i n); try lia. done.
Qed.

Lemma diffed_again : diffed (diffed m d o w n) d o w n = diffed m d o w n.
Proof using Hd Ho Hw Hdo Hdw How.
  unfold diffed at 1. rewrite (upd_same _ d).
  - apply upd_same; [by apply diffed_readable|]. intros i Hi.
    by destruct (diffed_val i Hi) as (_ & -> & ->).
  - by apply diffed_readable.
  - intros i Hi. destruct (diffed_val i Hi) as (-> & -> & ->). rewrite Z.sub_diag.
    change (u64 0) with 0. rewrite Z.add_0_r. apply u64_id. by apply wrapu_range.
Qed.
End Diff.

(** Inclusive costs: [add_diff_cost] adds to [dst] what the counters
    gained since [old] was taken, brings [old] up to date and reports whether
    anything changed; asked again it changes nothing. *)
Theorem add_diff_cost_correct (es : EventSet) (m : cost_mem) (d o w : cptr) :
  0 <= es_size es -> readable m d (es_size es) -> readable m o (es_size es) ->
  readable m w (es_size es) -> apart d (es_size es) o (es_size es) ->
  apart d (es_size es) w (es_size es) -> apart o (es_size es) w (es_size es) ->
  exists b m', add_diff_cost es m (Some d) (Some o) (Some w) = Ok (b, m') /\
    (forall i, 0 <= i < es_size es ->
       val m' d i = u64 (val m d i + (val m w i - val m o i)) /\
       val m' o i = val m w i /\ val m' w i = val m w i) /\
    (b = true <-> exists i, 0 <= i < es_size es /\ val m w i <> val m o i) /\
    add_diff_cost es m' (Some d) (Some o) (Some w) = Ok (false, m').
Proof.
  intros Hn Hd Ho Hw Hdo Hdw How. unfold add_diff_cost. cbn [assert_ptr rbind].
  set (n := es_size es) in *. do 2 eexists.
  split; [by rewrite diff_cells_spec|]. cbn [orb]. split_and!.
  - intros i Hi. by apply diffed_val.
  - unfold any_diff. rewrite any_nonzero_true. split; intros (i & Hi & Hx); exists i;
      (split; [done|lia]).
  - rewrite diff_cells_spec by (try done; by apply diffed_readable).
    rewrite diffed_again by done. cbn [orb]. do 2 f_equal. apply any_nonzero_false.
    intros i Hi. destruct (diffed_val m d o w n Hdo Hdw How i Hi) as (_ & -> & ->). lia.
Qed.

(** ** Event mappings *)

Lemma find_name_spec n names j0 j :
  find_name n names j0 = Some j ->
  j0 <= j /\ exists s, names !! Z.to_nat (j - j0) = Some s /\ VG_strcmp n s = 0.
Proof.
  revert j0; induction names as [|s names IH]; intros j0 H; [done|]. cbn [find_name] in H.
  destruct (Z.eqb_spec (VG_strcmp n s) 0) as [E|E].
  - simplify_eq. split; [lia|]. exists s. by rewrite Z.sub_diag.
  - apply IH in H as (Hj & s' & Hs & E'). split; [lia|]. exists s'. split; [|done].
    replace (Z.to_nat (j - j0)) with (S (Z.to_nat (j - (j0 + 1)))) by lia. done.
Qed.

Lemma find_event_spec all gs mask n (i : nat) x :
  wf_groups all -> (forall j, all !! (i + j)%nat = gs !! j) -> (i + length gs = 10)%nat ->
  find_event gs mask n (Z.of_nat i) (group_off all mask i) = Some x ->
  exists g j eg s, x = MkEntry (Z.of_nat g) j (group_off all mask g + j) /\
    all !! g = Some (Some eg) /\ Z.testbit mask (Z.of_nat g) = true /\
    0 <= j < eg_size eg /\ eg_name eg !! Z.to_nat j = Some s /\ VG_strcmp n s = 0.
Proof.
  intros Hw. revert i; induction gs as [|g gs IH]; intros i Hall Hlen H; [done|].
  simpl in Hlen. pose proof (Hall 0%nat) as H0. rewrite Nat.add_0_r in H0. cbn in H0.
  assert (forall o, o = group_off all mask (S i) -> find_event gs mask n (Z.of_nat i + 1) o = Some x ->
    exists g j eg s, x = MkEntry (Z.of_nat g) j (group_off all mask g + j) /\
    all !! g = Some (Some eg) /\ Z.testbit mask (Z.of_nat g) = true /\
    0 <= j < eg_size eg /\ eg_name eg !! Z.to_nat j = Some s /\ VG_strcmp n s = 0) as Hnext.
  { intros o -> E. apply (IH (S i)); [|lia|by replace (Z.of_nat (S i)) with (Z.of_nat i + 1) by lia].
    intros j. specialize (Hall (S j)). by rewrite Nat.add_succ_r in Hall. }
  cbn [find_event] in H. rewrite group_bit_pow2, land_pow2_testbit in H by lia.
  cbn [group_off] in Hnext. unfold group_len in Hnext. rewrite H0 in Hnext.
  destruct (Z.testbit mask (Z.of_nat i)) eqn:Eb; cbn [negb] in H;
    [|apply (Hnext _) in H; [done|destruct g; lia]].
  destruct g as [eg|]; [|apply (Hnext _) in H; [done|lia]].
  destruct (find_name n (eg_name eg) 0) as [j|] eqn:En; [|by apply Hnext in H].
  simplify_eq. apply find_name_spec in En as (Hj & s & Hs & Hc). rewrite Z.sub_0_r in Hs.
  exists i, j, eg, s. split_and!; auto.
  pose proof (Forall_lookup_1 _ _ _ _ (proj2 Hw) H0) as [Hsz _]. apply lookup_lt_Some in Hs. lia.
Qed.

(** Every entry of a mapping names an event of its set at its position. *)
Definition wf_mapping (gs : list (option EventGroup)) (em : EventMapping) : Prop :=
  em_size em = Z.of_nat (length (em_entry em)) /\
  Forall (fun x => event_at gs (em_es em) (em_offset x) (Z.to_nat (em_group x), em_index x))
    (em_entry em).

Lemma get_eventmapping_wf gs es : wf_mapping gs (get_eventmapping es).
Proof. split; [done|constructor]. Qed.

Lemma append_event_wf e em n em' :
  wf_groups (eventGroup e) -> laid_out (eventGroup e) (em_es em) ->
  wf_mapping (eventGroup e) em -> append_event e em n = Ok em' ->
  wf_mapping (eventGroup e) em' /\ em_es em' = em_es em.
Proof.
  intros Hg Hl [Hs Hf] H. unfold append_event in H.
  destruct (find_event (eventGroup e) (es_mask (em_es em)) n 0 0) as [x|] eqn:E;
    [|by simplify_eq].
  apply (find_event_spec (eventGroup e) _ _ _ 0) in E
    as (g & j & eg & s & -> & Hgr & Hb & Hj & _); [|done|done|apply Hg].
  inv_ok. subst em'. split; [|done]. split; cbn.
  - rewrite length_app, Hs. simpl. lia.
  - apply Forall_app. split; [done|]. apply Forall_singleton. cbn.
    exists eg, (group_off (eventGroup e) (es_mask (em_es em)) g). cbn. rewrite Nat2Z.id.
    split_and!; auto; try lia. apply (lo_offset _ _ Hl).
    apply lookup_lt_Some in Hgr. rewrite (proj1 Hg) in Hgr. done.
Qed.

(** How a reader takes a line of costs: numbers separated by spaces. *)
Fixpoint read_costs (s : string) (cur : option Z) : option (list Z) :=
  match s with
  | EmptyString => Some (match cur with Some v => [v] | None => [] end)
  | String c s' =>
      if Ascii.eqb c " " then
        match cur with
        | Some v => cons v <$> read_costs s' None
        | None => read_costs s' None
        end
      else match is_dec_digit (zchar c) with
           | Some d => read_costs s' (Some (10 * default 0 cur + d))
           | None => None
           end
  end.

(** Costs left out at the end of a line are zero. *)
Fixpoint pad_zero (n : nat) (l : list Z) : list Z :=
  match n, l with
  | O, _ => []
  | S n', [] => 0 :: pad_zero n' []
  | S n', x :: l' => x :: pad_zero n' l'
  end.

Lemma digit_not_space c d : is_dec_digit (zchar c) = Some d -> Ascii.eqb c " " = false.
Proof. intros H. destruct (Ascii.eqb_spec c " ") as [->|]; [|done]. by vm_compute in H. Qed.

Lemma read_digits s rest cur v :
  digits_value s (default 0 cur) = Some v -> s <> EmptyString ->
  read_costs (s ++ rest) cur = read_costs rest (Some v).
Proof.
  revert cur; induction s as [|c s IH]; intros cur Hv Hne; [done|].
  change (String c s ++ rest)%string with (String c (s ++ rest)). cbn [read_costs].
  cbn [digits_value] in Hv. destruct (is_dec_digit (zchar c)) as [d|] eqn:E; [|done].
  rewrite (digit_not_space c d E). destruct s as [|c' s].
  - simplify_eq/=. done.
  - by apply IH.
Qed.

Lemma zeros_read k rest :
  read_costs (zeros k ++ String " " rest) None = (fun l => replicate k 0 ++ l) <$> read_costs rest None /\
  forall v, read_costs (zeros k ++ String " " rest) (Some v)
    = (fun l => v :: replicate k 0 ++ l) <$> read_costs rest None.
Proof.
  induction k as [|k [_ IH]].
  - split; [|intros v]; change (zeros 0 ++ String " " rest)%string with (String " " rest);
      cbn [read_costs]; change (Ascii.eqb " " " ") with true; cbv iota;
      by destruct (read_costs rest None).
  - assert (read_costs (zeros (S k) ++ String " " rest) None =
      (fun l => replicate (S k) 0 ++ l) <$> read_costs rest None) as H.
    { change (zeros (S k) ++ String " " rest)%string with
        (String " " (String "0" (zeros k ++ String " " rest))).
      cbn [read_costs]. change (Ascii.eqb " " " ") with true. cbv iota.
      change (Ascii.eqb "0" " ") with false. cbv iota.
      change (is_dec_digit (zchar "0")) with (Some 0). cbv iota.
      change (10 * default 0 None + 0) with 0. apply IH. }
    split; [exact H|]. intros v.
    change (read_costs (zeros (S k) ++ String " " rest) (Some v)) with
      (cons v <$> read_costs (zeros (S k) ++ String " " rest) None).
    rewrite H. by destruct (read_costs rest None).
Qed.

(** The value a mapping's entry prints. *)
Definition entry_val (m : cost_mem) (c : cptr) (x : EventMappingEntry) : Z := val m c (em_offset x).

(** After a number, the rest of the line reads as the values, up to zeros at
    the end. *)
Lemma mapping_costs_read m c k xs :
  Forall (fun x => cost_get m (ptr_add c (em_offset x)) = Ok (entry_val m c x) /\
                   in_u 64 (entry_val m c x)) xs ->
  exists s, mapping_costs m c k xs = Ok s /\
    forall v, exists l, read_costs s (Some v) = Some (v :: l) /\
      pad_zero (k + length xs) l = replicate k 0 ++ (entry_val m c <$> xs) /\
      (length l <= k + length xs)%nat.
Proof.
  revert k; induction xs as [|x xs IH]; intros k Hx.
  { exists EmptyString. split; [done|]. intros v. exists []. split_and!; [done| |simpl; lia].
    rewrite Nat.add_0_r. simpl. rewrite app_nil_r. induction k; [done|]. cbn. by f_equal. }
  apply Forall_cons in Hx as [[Hg Hu] Hx]. cbn [mapping_costs]. rewrite Hg. cbn [rbind].
  destruct (Z.eqb_spec (entry_val m c x) 0) as [E|E].
  - destruct (IH (S k) Hx) as (s & Es & Hs). exists s. split; [done|]. intros v.
    destruct (Hs v) as (l & Hl & Hp & Hlen). exists l. split_and!; [done| |simpl; lia].
    replace (k + length (x :: xs))%nat with (S k + length xs)%nat by (simpl; lia).
    rewrite Hp, fmap_cons, E. change (replicate (S k) 0) with (0 :: replicate k 0).
    by rewrite replicate_cons_app, <- app_assoc.
  - destruct (IH 0%nat Hx) as (s & Es & Hs). rewrite Es. cbn [rbind]. eexists. split; [done|].
    intros v. destruct (fmt_u_value _ Hu) as [Hd Hne].
    destruct (Hs (entry_val m c x)) as (l & Hl & Hp & Hlen).
    exists (replicate k 0 ++ entry_val m c x :: l). split_and!.
    + change (" " ++ fmt_u (entry_val m c x) ++ s)%string with
        (String " " (fmt_u (entry_val m c x) ++ s)).
      rewrite (proj2 (zeros_read k _)), (read_digits _ _ None _ Hd Hne), Hl. done.
    + clear -Hp. induction k as [|k IHk]; cbn; f_equal; [exact Hp|exact IHk].
    + rewrite length_app, length_replicate. simpl. lia.
Qed.

(** C31. The cost lines of the profile: the line printed for a mapping reads
    back as the counter of every event of the mapping, in order, once the
    missing numbers at its end are taken as zero; at least the first is
    printed. *)
Theorem cost_line_roundtrip (gs : list (option EventGroup)) (em : EventMapping) (m : cost_mem)
    (c : cptr) :
  wf_groups gs -> laid_out gs (em_es em) -> wf_mapping gs em ->
  readable m c (es_size (em_es em)) -> em_entry em <> [] ->
  exists line v l, mappingcost_as_string em m (Some c) = Ok line /\
    read_costs line None = Some (v :: l) /\
    pad_zero (length (em_entry em)) (v :: l) = entry_val m c <$> em_entry em.
Proof.
  intros Hg Hl [_ Hf] Hr Hne.
  assert (Forall (fun x => cost_get m (ptr_add c (em_offset x)) = Ok (entry_val m c x) /\
                   in_u 64 (entry_val m c x)) (em_entry em)) as Hx.
  { eapply Forall_impl; [exact Hf|]. intros x Hx. apply (readable_val m c _ _ Hr).
    apply event_at_len in Hx as (Hi & Hj & ->); [|done|apply Hg]. rewrite (lo_size _ _ Hl).
    pose proof (group_off_mono gs (es_mask (em_es em)) _ 10 Hg Hi).
    pose proof (group_off_nonneg gs (es_mask (em_es em)) (Z.to_nat (em_group x)) Hg). lia. }
  unfold mappingcost_as_string. destruct (em_entry em) as [|x xs]; [done|].
  apply Forall_cons in Hx as [[Hv Hu] Hx]. rewrite Hv. cbn [rbind].
  destruct (mapping_costs_read m c 0 xs Hx) as (s & -> & Hs). cbn [rbind].
  destruct (fmt_u_value _ Hu) as [Hd Hnz]. destruct (Hs (entry_val m c x)) as (l & El & Ep & _).
  exists (fmt_u (entry_val m c x) ++ s)%string, (entry_val m c x), l.
  rewrite (read_digits _ _ None _ Hd Hnz). split_and!; [done|done|].
  cbn [length pad_zero]. rewrite fmap_cons. f_equal. exact Ep.
Qed.

(** ** Instances *)

(** Two groups, of three and of two events, and the sets made from them. *)
Definition ex_groups : list (option EventGroup) :=
  [None; Some (MkGroup 3 ["Ir"; "I1mr"; "ILmr"]%string); Some (MkGroup 2 ["Dr"; "D1mr"]%string);
   None; None; None; None; None; None; None].
Definition ex_events : events := MkEvents ex_groups ∅ true.
Definition ex_full : EventSet := MkSet 6 2 5 [0; 0; 3; 5; 5; 5; 5; 5; 5; 5].
Definition ex_part : EventSet := MkSet 4 1 2 [0; 0; 0; 2; 2; 2; 2; 2; 2; 2].

(** Three arrays of five, five and two counters. *)
Definition ex_mem : cost_mem :=
  MkMem [MkChunk 100000 17 None]
    (list_to_map (zip (pair 0%nat <$> seqZ 0 17)
       [10; 20; 30; 40; 50; 1; 2; 3; 4; 5; 7; 0; 11; 22; 33; 44; 55]))
    (Some 0%nat) (Some 0%nat) 17 1.

Lemma ex_wf_groups : wf_groups ex_groups.
Proof. split; [done|]. repeat constructor; cbn; lia. Qed.

Lemma ex_wf_events : wf_events ex_events.
Proof. constructor; [done|apply ex_wf_groups|apply map_Forall_empty]. Qed.

(** Split a range of concrete bounds into its cases. *)
Ltac each_index i Hi :=
  match type of Hi with
  | (i < 10)%nat => do 10 (destruct i as [|i]; [reflexivity|]); lia
  end.

Lemma ex_laid_out : laid_out ex_groups ex_full /\ laid_out ex_groups ex_part.
Proof.
  split; (constructor; [unfold MAX_EVENTSET_COUNT; cbn; lia|reflexivity|]); intros i Hi;
    each_index i Hi.
Qed.

Definition readable_b (m : cost_mem) (p : cptr) (n : Z) : bool :=
  forallb (fun i => match cost_get m (ptr_add p i) with
                    | Ok v => (0 <=? v) && (v <? 2 ^ 64)
                    | Err _ => false
                    end) (seqZ 0 n).

Lemma readable_check m p n : readable_b m p n = true -> readable m p n.
Proof.
  intros H i Hi. unfold readable_b in H. rewrite forallb_forall in H.
  specialize (H i). rewrite <- list_elem_of_In, elem_of_seqZ in H. specialize (H ltac:(lia)).
  destruct (cost_get m (ptr_add p i)) as [v|]; [|done]. exists v. split; [done|].
  apply andb_true_iff in H as [H1 H2]. apply Z.leb_le in H1. apply Z.ltb_lt in H2. by split.
Qed.

Lemma ex_readable_at : readable ex_mem (0%nat, 0) 5 /\ readable ex_mem (0%nat, 5) 5 /\
  readable ex_mem (0%nat, 10) 2 /\ readable ex_mem (0%nat, 12) 5.
Proof. split_and!; apply readable_check; vm_compute; reflexivity. Qed.

Lemma eventset_partition_witness :
  exists es e', eventset_from_mask ex_events 6 = (Some es, e') /\ wf_events e' /\ es_mask es = 6 /\
    eventset_from_mask e' 6 = (Some es, e') /\
    (forall k, 0 <= k < es_size es -> exists! ij, event_at (eventGroup e') es k ij) /\
    (forall k ij, event_at (eventGroup e') es k ij -> 0 <= k < es_size es).
Proof.
  apply (eventset_partition ex_events 6 ex_wf_events). unfold MAX_EVENTSET_COUNT. lia.
Defined.

Lemma add_and_zero_cost2_moves_witness :
  exists b m', add_and_zero_cost2 ex_events ex_full ex_mem (Some (0%nat, 0)) ex_part (Some (0%nat, 10))
      = Ok (b, m') /\ b = true /\ val m' (0%nat, 0) 3 = 47.
Proof.
  destruct ex_readable_at as (R1 & _ & R2 & _). destruct ex_laid_out as [L1 L2].
  destruct (add_and_zero_cost2_moves ex_events ex_full ex_part ex_mem (0%nat, 0) (0%nat, 10))
    as (b & m' & E & Hv & _ & _ & Hb).
  - apply ex_wf_groups.
  - exact L1.
  - exact L2.
  - intros i Hi. cbn in *. change 6 with (Z.lor 4 2). rewrite Z.lor_spec, Hi. done.
  - exact R1.
  - exact R2.
  - intros i j Hi Hj. cbn in *. unfold ptr_add. cbn. congruence || (intros [=]; lia).
  - exists b, m'. split; [exact E|]. split.
    + apply Hb. exists 0. split; [cbn; lia|]. vm_compute. discriminate.
    + rewrite (Hv 3 0 (2%nat, 0)); [vm_compute; reflexivity|..]; do 2 eexists; cbn;
        split_and!; try reflexivity; lia.
Defined.

Lemma add_diff_cost_correct_witness :
  exists b m', add_diff_cost ex_full ex_mem (Some (0%nat, 0)) (Some (0%nat, 5)) (Some (0%nat, 12))
      = Ok (b, m') /\ val m' (0%nat, 0) 1 = 40 /\
    add_diff_cost ex_full m' (Some (0%nat, 0)) (Some (0%nat, 5)) (Some (0%nat, 12)) = Ok (false, m').
Proof.
  destruct ex_readable_at as (R1 & R2 & _ & R3).
  destruct (add_diff_cost_correct ex_full ex_mem (0%nat, 0) (0%nat, 5) (0%nat, 12))
    as (b & m' & E & Hv & _ & E2); [cbn; lia|done|done|done|..].
  1,2,3: intros i j Hi Hj; cbn in *; unfold ptr_add; cbn; intros [=]; lia.
  exists b, m'. split; [exact E|]. split; [|exact E2].
  destruct (Hv 1) as [-> _]; [cbn; lia|]. vm_compute. reflexivity.
Defined.

Definition ex_mapping : EventMapping :=
  MkMapping ex_full 3 5 [MkEntry 1 0 0; MkEntry 2 0 3; MkEntry 1 2 2].

Lemma cost_line_roundtrip_witness :
  exists line v l, mappingcost_as_string ex_mapping ex_mem (Some (0%nat, 12)) = Ok line /\
    read_costs line None = Some (v :: l) /\
    pad_zero 3 (v :: l) = [11; 44; 33].
Proof.
  destruct (cost_line_roundtrip ex_groups ex_mapping ex_mem (0%nat, 12))
    as (line & v & l & E & Er & Ep).
  - apply ex_wf_groups.
  - apply ex_laid_out.
  - split; [done|]. repeat constructor; do 2 eexists; cbn; split_and!; try reflexivity; lia.
  - apply ex_readable_at.
  - discriminate.
  - exists line, v, l. split; [exact E|]. split; [exact Er|]. etransitivity; [exact Ep|].
    vm_compute. reflexivity.
Defined.
