(* ===== verification/ClgContext.v ===== *)
(** * ClgContext: the contexts functions run in (callgrind/context.c)

    A context is the function being executed and as many of its callers as the
    options keep apart; costs are kept per context.  [get_cxt] finds the context
    for the top of the function stack by a cache in the function and a hash
    table, or makes it and reserves its numbers.  A [fn_node*] is its address,
    which is hashed (0 is null); a [Context*] is the index of the context among
    those made.  A [fn_node**] is a cell of an array; cells that were allocated
    but not written are [None].  CLG_DEBUG output is left out. *)

From Stdlib Require Import ZArith Lia Ascii String.
From stdpp Require Import base numbers option strings gmap sets list.
From S2P Require Import Prelude ClgHash.

#[local] Open Scope Z_scope.

(** ** Data *)

Record fn_node : Type := MkFn {
  fn_name : string;
  number : Z;
  last_cxt : option nat;
  dump_before : bool;
  dump_after : bool;
  zero_before : bool;
  toggle_collect : bool;
  fn_skip : bool;
  pop_on_jump : bool;
  group : Z;
  separate_callers : Z;
  separate_recursions : Z
}.

Definition set_last_cxt (f : fn_node) (p : option nat) : fn_node :=
  MkFn (fn_name f) (number f) p (dump_before f) (dump_after f) (zero_before f) (toggle_collect f)
    (fn_skip f) (pop_on_jump f) (group f) (separate_callers f) (separate_recursions f).

(** [cx_fn] holds the cells of [fn] that were written. *)
Record Context : Type := MkContext {
  cx_size : Z;
  base_number : Z;
  cx_next : option nat;
  cx_hash : Z;
  cx_fn : list Z
}.

Record cxt_hash : Type := MkCxtHash {
  ch_size : Z;
  ch_entries : Z;
  ch_table : list (option nat)
}.

(** The table, the objects behind the pointers, and the statistics. *)
Record contexts : Type := MkContexts {
  fns : gmap Z fn_node;
  cxt_nodes : list Context;
  cxts : cxt_hash;
  context_counter : Z;
  distinct_contexts : Z;
  cxt_lru_misses : Z;
  cxt_hash_resizes : Z
}.

#[global] Instance context_node : ChainNode Context.
Proof.
  refine {| next := cx_next;
    set_next p x := MkContext (cx_size x) (base_number x) p (cx_hash x) (cx_fn x);
    hash := cx_hash |}; intros;
    repeat match goal with x : Context |- _ => destruct x end; reflexivity.
Defined.

Definition N_CXT_INITIAL_ENTRIES : Z := 2537.

Definition init_cxt_table : cxt_hash :=
  MkCxtHash N_CXT_INITIAL_ENTRIES 0 (replicate (Z.to_nat N_CXT_INITIAL_ENTRIES) None).

(** [*fn] *)
Definition read_fn (arr : list (option Z)) (i : nat) : res Z :=
  match arr !! i with
  | Some (Some f) => Ok f
  | Some None => Err Indeterminate
  | None => Err OutOfBounds
  end.

Definition deref_fn (s : contexts) (f : Z) : res fn_node :=
  if f =? 0 then Err NullDeref
  else match fns s !! f with Some x => Ok x | None => Err OutOfBounds end.

(** ** Operations *)

Definition resize_cxt_table (s : contexts) : res contexts :=
  let new_size := u32 (2 * ch_size (cxts s) + 3) in
  let! (nodes, t) := rehash new_size (ch_table (cxts s)) (cxt_nodes s) in
  let! n := int_add (cxt_hash_resizes s) 1 in
  Ok (MkContexts (fns s) nodes (MkCxtHash new_size (ch_entries (cxts s)) t) (context_counter s)
        (distinct_contexts s) (cxt_lru_misses s) n).

(** [(hash<<7) + (hash>>25) + (UWord)( *fn)] *)
Definition cxt_mix (h f : Z) : Z := u64 (u64 (u64 (Z.shiftl h 7) + Z.shiftr h 25) + f).

Fixpoint cxt_hash_loop (arr : list (option Z)) (i : nat) (hash count : Z) : res Z :=
  let! f := read_fn arr i in
  if f =? 0 then Ok hash else
  let hash := cxt_mix hash f in
  let count := u32 (count - 1) in
  if count =? 0 then Ok hash else
  match i with
  | O => Err OutOfBounds
  | S i' => cxt_hash_loop arr i' hash count
  end.

Definition cxt_hash_val (arr : list (option Z)) (i : nat) (size : Z) : res Z :=
  cxt_hash_loop arr i 0 size.

Fixpoint is_cxt_loop (arr : list (option Z)) (i : nat) (fn : list Z) (j count : Z) : res bool :=
  let! f := read_fn arr i in
  if (f =? 0) || (count <=? 0) then Ok true else
  let! g := arr_get fn j in
  if negb (g =? f) then Ok false else
  match i with
  | O => Err OutOfBounds
  | S i' => is_cxt_loop arr i' fn (j + 1) (count - 1)
  end.

Definition is_cxt (hash : Z) (arr : list (option Z)) (i : nat) (cxt : Context) : res bool :=
  if negb (hash =? cx_hash cxt) then Ok false
  else is_cxt_loop arr i (cx_fn cxt) 0 (s32 (cx_size cxt)).

(** The loop of [new_cxt]; the allocation has room for [size] functions. *)
Fixpoint copy_fns (arr : list (option Z)) (i : nat) (size hash : Z) (fn : list Z)
  : res (Z * list Z) :=
  let! f := read_fn arr i in
  if f =? 0 then Ok (hash, fn) else
  let hash := cxt_mix hash f in
  if negb (Z.of_nat (length fn) <? size) then Err OutOfBounds else
  let fn := fn ++ [f] in
  if u32 size <=? Z.of_nat (length fn) then Ok (hash, fn) else
  match i with
  | O => Err OutOfBounds
  | S i' => copy_fns arr i' size hash fn
  end.

Definition new_cxt (s : contexts) (arr : list (option Z)) (i : nat)
  : res (option nat * contexts) :=
  let! top_fn := read_fn arr i in
  if top_fn =? 0 then Ok (None, s) else
  let! f := deref_fn s top_fn in
  let! size := int_add (separate_callers f) 1 in
  let recs := if separate_recursions f <? 1 then 1 else separate_recursions f in
  let e := u32 (ch_entries (cxts s) + 1) in
  let s := MkContexts (fns s) (cxt_nodes s) (MkCxtHash (ch_size (cxts s)) e (ch_table (cxts s)))
             (context_counter s) (distinct_contexts s) (cxt_lru_misses s) (cxt_hash_resizes s) in
  let! fill := uint_div (u32 (10 * e)) (ch_size (cxts s)) in
  let! s := if 8 <? fill then resize_cxt_table s else Ok s in
  let! (hash, fn) := copy_fns arr i size 0 [] in
  let offset := Z.of_nat (length fn) in
  let size := if offset <? u32 size then offset else size in
  let cxt := MkContext (u32 size) (u32 (context_counter s)) None hash fn in
  let! counter := int_add (context_counter s) recs in
  let! distinct := int_add (distinct_contexts s) 1 in
  let k := length (cxt_nodes s) in
  let! (nodes, t) := link (cxt_nodes s ++ [cxt]) (ch_table (cxts s)) (ch_size (cxts s)) k in
  Ok (Some k, MkContexts (fns s) nodes (MkCxtHash (ch_size (cxts s)) (ch_entries (cxts s)) t)
                counter distinct (cxt_lru_misses s) (cxt_hash_resizes s)).

(** The cached context did not fit: the table, or a new context. *)
Definition get_cxt_hash (s : contexts) (arr : list (option Z)) (i : nat) (hash : Z)
  : res (option nat * contexts) :=
  let! misses := int_add (cxt_lru_misses s) 1 in
  let s := MkContexts (fns s) (cxt_nodes s) (cxts s) (context_counter s) (distinct_contexts s) misses
             (cxt_hash_resizes s) in
  let! idx := bucket_of hash (ch_size (cxts s)) in
  let! p := arr_get (ch_table (cxts s)) idx in
  let! r := find_chain (length (cxt_nodes s)) (is_cxt hash arr i) (cxt_nodes s) p in
  let! (cxt, s) := (match r with
                    | Some k => Ok (Some k, s)
                    | None => new_cxt s arr i
                    end) in
  let! top_fn := read_fn arr i in
  let! f := deref_fn s top_fn in
  Ok (cxt, MkContexts (<[top_fn := set_last_cxt f cxt]> (fns s)) (cxt_nodes s) (cxts s)
             (context_counter s) (distinct_contexts s) (cxt_lru_misses s) (cxt_hash_resizes s)).

Definition get_cxt (s : contexts) (arr : list (option Z)) (i : nat)
  : res (option nat * contexts) :=
  let! top_fn := read_fn arr i in
  if top_fn =? 0 then Ok (None, s) else
  let! f := deref_fn s top_fn in
  let! callers := int_add (separate_callers f) 1 in
  let size := u32 callers in
  let size := if size <=? 0 then u32 (- size + 1) else size in
  let! hash := cxt_hash_val arr i size in
  let! hit := (match last_cxt f with
               | None => Ok false
               | Some k => let! cxt := get_node (cxt_nodes s) k in is_cxt hash arr i cxt
               end) in
  if hit then Ok (last_cxt f, s) else get_cxt_hash s arr i hash.

(** ** Specification: the function and its callers *)

(** The functions from cell [i] down to the marker. *)
Fixpoint callers (arr : list (option Z)) (i : nat) : list Z :=
  match arr !! i with
  | Some (Some f) =>
      if f =? 0 then [] else f :: match i with O => [] | S i' => callers arr i' end
  | _ => []
  end.

(** The cells are written down to a marker and hold known functions. *)
Fixpoint marked (fs : gmap Z fn_node) (arr : list (option Z)) (i : nat) : Prop :=
  match arr !! i with
  | Some (Some f) =>
      f = 0 \/ f <> 0 /\ is_Some (fs !! f) /\ match i with O => False | S i' => marked fs arr i' end
  | _ => False
  end.

(** The context of a function and its callers. *)
Definition window_of (fs : gmap Z fn_node) (l : list Z) : list Z :=
  match l with
  | [] => []
  | f :: _ =>
      match fs !! f with
      | Some x => take (Z.to_nat (separate_callers x + 1)) l
      | None => []
      end
  end.

(** The context of the top of the stack. *)
Definition window (fs : gmap Z fn_node) (arr : list (option Z)) (i : nat) : list Z :=
  window_of fs (callers arr i).

Definition hash_of (w : list Z) : Z := fold_left cxt_mix w 0.

(** One list begins the other. *)
Fixpoint agrees (l l' : list Z) : bool :=
  match l, l' with
  | x :: r, y :: r' => (x =? y) && agrees r r'
  | _, _ => true
  end.

(** No context is the beginning of another with the same hash value. *)
Definition separated (P : list Z -> Prop) : Prop :=
  forall w w', P w -> P w' -> agrees w w' = true -> hash_of w = hash_of w' -> w = w'.

Lemma marked_read fs arr i :
  marked fs arr i -> exists f, read_fn arr i = Ok f /\
    (f = 0 /\ callers arr i = [] \/
     f <> 0 /\ is_Some (fs !! f) /\ exists i', i = S i' /\ marked fs arr i' /\
       callers arr i = f :: callers arr i').
Proof.
  intros H. unfold read_fn. destruct i as [|i]; cbn [marked callers] in *.
  all: destruct (arr !! _) as [[f|]|]; [|done|done]; exists f; split; [done|].
  all: destruct H as [->|(Hf & Hx & H)]; [by left|]; try done.
  right. rewrite (proj2 (Z.eqb_neq f 0)) by done. split_and!; [done|done|]. by exists i.
Qed.

Lemma cxt_hash_ok fs arr i h n :
  marked fs arr i -> 0 < n < 2 ^ 32 ->
  cxt_hash_loop arr i h n = Ok (fold_left cxt_mix (take (Z.to_nat n) (callers arr i)) h).
Proof.
  revert h n; induction i as [|i IH]; intros h n Hm Hn;
    destruct (marked_read _ _ _ Hm) as (f & E & [[-> Ec]|(Hf & _ & i' & Ei & Hm' & Ec)]); try done;
    cbn [cxt_hash_loop]; rewrite E, Ec; cbn [rbind].
  1,2: rewrite take_nil; done.
  injection Ei as <-. rewrite (proj2 (Z.eqb_neq f 0)) by done.
  replace (Z.to_nat n) with (S (Z.to_nat (n - 1))) by lia. cbn [take fold_left].
  rewrite wrapu_small by (unfold in_u; lia). destruct (Z.eqb_spec (n - 1) 0) as [->|?].
  - done.
  - by rewrite IH by (done || lia).
Qed.

Lemma copy_fns_ok fs arr i n h l :
  marked fs arr i -> Z.of_nat (length l) < n < 2 ^ 31 ->
  let w := take (Z.to_nat (n - Z.of_nat (length l))) (callers arr i) in
  copy_fns arr i n h l = Ok (fold_left cxt_mix w h, l ++ w).
Proof.
  revert h l; induction i as [|i IH]; intros h l Hm Hn w; subst w;
    destruct (marked_read _ _ _ Hm) as (f & E & [[-> Ec]|(Hf & _ & i' & Ei & Hm' & Ec)]); try done;
    cbn [copy_fns]; rewrite E, Ec; cbn [rbind].
  1,2: rewrite take_nil, app_nil_r; done.
  injection Ei as <-. rewrite (proj2 (Z.eqb_neq f 0)) by done.
  rewrite (proj2 (Z.ltb_lt _ n)) by lia. cbn [negb].
  rewrite (wrapu_small 32 n) by (unfold in_u; lia). rewrite length_app. cbn [length].
  replace (Z.to_nat (n - Z.of_nat (length l))) with (S (Z.to_nat (n - Z.of_nat (length l) - 1))) by lia.
  cbn [take fold_left]. destruct (Z.leb_spec n (Z.of_nat (length l + 1))) as [Hle|Hlt].
  - replace (Z.to_nat (n - Z.of_nat (length l) - 1)) with 0%nat by lia. done.
  - rewrite IH by (done || rewrite length_app; cbn [length]; lia).
    rewrite length_app. cbn [length].
    replace (n - Z.of_nat (length l + 1)) with (n - Z.of_nat (length l) - 1) by lia.
    by rewrite <- app_assoc.
Qed.

Lemma is_cxt_loop_ok fs arr i (l r : list Z) :
  marked fs arr i ->
  is_cxt_loop arr i (l ++ r) (Z.of_nat (length l)) (Z.of_nat (length r)) = Ok (agrees r (callers arr i)).
Proof.
  revert l r; induction i as [|i IH]; intros l r Hm;
    destruct (marked_read _ _ _ Hm) as (f & E & [[-> Ec]|(Hf & _ & i' & Ei & Hm' & Ec)]); try done;
    cbn [is_cxt_loop]; rewrite E, Ec; cbn [rbind].
  1,2: by destruct r.
  injection Ei as <-. rewrite (proj2 (Z.eqb_neq f 0)) by done. cbn [orb].
  destruct r as [|g r]; [done|]. rewrite (proj2 (Z.leb_gt _ _)) by (cbn [length]; lia).
  rewrite (arr_get_in _ _ g); [|lia|by rewrite Nat2Z.id, lookup_app_r, Nat.sub_diag by lia].
  cbn [rbind agrees]. destruct (Z.eqb_spec g f) as [->|?]; cbn [negb andb]; [|done].
  specialize (IH (l ++ [f]) r Hm'). rewrite <- app_assoc, length_app in IH. cbn [length app] in *.
  replace (Z.of_nat (length l) + 1) with (Z.of_nat (length l + 1)) by lia.
  replace (Z.of_nat (S (length r)) - 1) with (Z.of_nat (length r)) by lia. exact IH.
Qed.

Lemma agrees_take (l c : list Z) n : (length l <= n)%nat -> agrees l (take n c) = agrees l c.
Proof.
  revert c n; induction l as [|x l IH]; intros c n Hn; [done|]. cbn [length] in Hn.
  destruct c as [|y c]; [by rewrite take_nil|]. destruct n as [|n]; [lia|]. cbn [take agrees].
  rewrite IH by lia. done.
Qed.

Lemma agrees_refl l : agrees l l = true.
Proof. induction l as [|x l IH]; [done|]. cbn. by rewrite Z.eqb_refl. Qed.

(** ** The table implements it *)

(** Functions up to their caches. *)
Definition config (f : fn_node) : fn_node := set_last_cxt f None.

Definition fn_recs (f : fn_node) : Z := Z.max 1 (separate_recursions f).

Record fn_ok (R : Z) (f : fn_node) : Prop := {
  fo_callers : 0 <= separate_callers f < 2 ^ 31 - 1;
  fo_recs : separate_recursions f <= R
}.

(** The numbers a context takes: one for each recursion level of its function. *)
Definition recs_of (fs : gmap Z fn_node) (w : list Z) : Z :=
  match w with
  | [] => 0
  | f :: _ => match fs !! f with Some x => fn_recs x | None => 0 end
  end.

Fixpoint numbers (fs : gmap Z fn_node) (ws : list (list Z)) : Z :=
  match ws with
  | [] => 0
  | w :: ws' => recs_of fs w + numbers fs ws'
  end.

(** A context holds a function and no more callers than it keeps apart. *)
Definition node_ok (fs : gmap Z fn_node) (x : Context) : Prop :=
  cx_size x = Z.of_nat (length (cx_fn x)) /\ cx_hash x = hash_of (cx_fn x) /\
  exists g rest f, cx_fn x = g :: rest /\ fs !! g = Some f /\
    Z.of_nat (length (cx_fn x)) <= separate_callers f + 1.

Definition cxt_size_ok (sz : Z) (n : nat) : Prop := 0 < sz /\ (sz <= 2537 \/ sz <= 3 * Z.of_nat n).

Record cxts_ok (fs : gmap Z fn_node) (s : contexts) (ws : list (list Z)) : Prop := {
  co_fns : config <$> fns s = config <$> fs;
  co_last : map_Forall (fun _ f => forall k, last_cxt f = Some k -> (k < length ws)%nat) (fns s);
  co_key : cx_fn <$> cxt_nodes s = ws;
  co_nodes : Forall (node_ok fs) (cxt_nodes s);
  co_hash : exists chains, hashed (cxt_nodes s) (ch_table (cxts s)) (ch_size (cxts s)) chains /\
    concat chains ≡ₚ seq 0 (length ws);
  co_nodup : NoDup ws;
  co_entries : ch_entries (cxts s) = Z.of_nat (length ws);
  co_size : cxt_size_ok (ch_size (cxts s)) (length ws);
  co_base : forall k x, cxt_nodes s !! k = Some x -> base_number x = numbers fs (take k ws);
  co_counter : context_counter s = numbers fs ws;
  co_distinct : distinct_contexts s = Z.of_nat (length ws);
  co_resizes : 0 <= cxt_hash_resizes s <= Z.of_nat (length ws)
}.

Lemma config_lookup fs (gs : gmap Z fn_node) p x :
  config <$> gs = config <$> fs -> fs !! p = Some x ->
  exists y, gs !! p = Some y /\ config y = config x.
Proof.
  intros H Hx. apply (f_equal (fun m => m !! p)) in H. rewrite !lookup_fmap, Hx in H.
  destruct (gs !! p) as [y|]; [|done]. cbn in H. exists y. split; [done|congruence].
Qed.

Lemma config_fields x y :
  config x = config y -> separate_callers x = separate_callers y /\ fn_recs x = fn_recs y.
Proof. destruct x, y. unfold config, set_last_cxt, fn_recs. cbn. intros [= -> -> -> -> -> -> -> -> -> -> ->]. done. Qed.

Lemma callers_window fs arr i :
  marked fs arr i -> callers arr i <> [] ->
  exists f x i', i = S i' /\ marked fs arr i' /\ read_fn arr i = Ok f /\ f <> 0 /\ fs !! f = Some x /\
    callers arr i = f :: callers arr i' /\
    window fs arr i = take (Z.to_nat (separate_callers x + 1)) (callers arr i).
Proof.
  intros Hm Hc. destruct (marked_read _ _ _ Hm) as (f & E & [[-> Ec]|(Hf & [x Hx] & i' & Ei & Hm' & Ec)]);
    [done|]. exists f, x, i'. split_and!; try done. unfold window, window_of. by rewrite Ec, Hx.
Qed.

(** [is_cxt] on a context of the table. *)
Definition fits (w : list Z) (x : Context) : bool := (hash_of w =? cx_hash x) && agrees (cx_fn x) w.

Lemma is_cxt_ok fs R arr i x :
  map_Forall (fun _ => fn_ok R) fs -> marked fs arr i -> callers arr i <> [] -> node_ok fs x ->
  is_cxt (hash_of (window fs arr i)) arr i x = Ok (fits (window fs arr i) x).
Proof.
  intros Hfs Hm Hc (Hs & _ & g & rest & y & Hfn & Hg & Hw).
  destruct (callers_window _ _ _ Hm Hc) as (f & z & i' & -> & Hm' & E & Hf & Hz & Ec & Ew).
  unfold is_cxt, fits. destruct (hash_of _ =? cx_hash x); cbn [negb andb]; [|done].
  destruct (Hfs g y Hg) as [Hy _]. rewrite Hs, wraps_small by (unfold in_s; lia).
  etransitivity; [exact (is_cxt_loop_ok fs arr (S i') [] (cx_fn x) Hm)|]. f_equal. rewrite Ew.
  destruct (Z.eq_dec g f) as [->|Hne].
  - rewrite Hz in Hg. simplify_eq. by rewrite agrees_take by lia.
  - destruct (Hfs f z Hz) as [Hzc _]. rewrite Hfn, Ec.
    replace (Z.to_nat (separate_callers z + 1)) with (S (Z.to_nat (separate_callers z))) by lia.
    cbn [take agrees]. by rewrite (proj2 (Z.eqb_neq g f)).
Qed.

(** A context that fits is the one looked for. *)
Lemma fits_same fs W w x :
  separated W -> W w -> W (cx_fn x) -> node_ok fs x -> fits w x = true <-> cx_fn x = w.
Proof.
  intros Hs Hw Hx (_ & Hh & _). unfold fits. rewrite andb_true_iff, Z.eqb_eq, Hh. split.
  - intros [E Ha]. by apply Hs.
  - intros <-. split; [done|]. apply agrees_refl.
Qed.

Lemma numbers_app fs ws w : numbers fs (ws ++ [w]) = numbers fs ws + recs_of fs w.
Proof. induction ws as [|v ws IH]; cbn [app numbers]; lia. Qed.

Lemma recs_bound fs R w : map_Forall (fun _ => fn_ok R) fs -> 1 <= R -> 0 <= recs_of fs w <= R.
Proof.
  intros Hfs HR. destruct w as [|f w]; cbn [recs_of]; [lia|].
  destruct (fs !! f) as [x|] eqn:Hx; [|lia]. destruct (Hfs f x Hx). unfold fn_recs. lia.
Qed.

Lemma numbers_bound fs R ws :
  map_Forall (fun _ => fn_ok R) fs -> 1 <= R -> 0 <= numbers fs ws <= R * Z.of_nat (length ws).
Proof.
  intros Hfs HR. induction ws as [|w ws IH]; cbn [numbers length]; [lia|].
  pose proof (recs_bound fs R w Hfs HR). lia.
Qed.

Lemma nodes_length fs s ws : cxts_ok fs s ws -> length (cxt_nodes s) = length ws.
Proof. intros H. rewrite <- (co_key _ _ _ H). by rewrite length_fmap. Qed.

(** Nodes that differ in their links only. *)
Lemma relinked_nodes fs (nodes nodes' : list Context) :
  unlinked <$> nodes' = unlinked <$> nodes ->
  cx_fn <$> nodes' = cx_fn <$> nodes /\
  (Forall (node_ok fs) nodes -> Forall (node_ok fs) nodes') /\
  (forall k x, nodes' !! k = Some x -> exists y, nodes !! k = Some y /\ base_number x = base_number y).
Proof.
  intros E. assert (forall k x, nodes' !! k = Some x -> exists y, nodes !! k = Some y /\
    cx_fn x = cx_fn y /\ cx_size x = cx_size y /\ cx_hash x = cx_hash y /\ base_number x = base_number y) as H.
  { intros k x Hx. destruct (unlinked_lookup _ _ _ _ E Hx) as (y & Hy & U). exists y. split; [done|].
    destruct x, y. unfold unlinked in U. cbn in U. injection U as -> -> -> ->. done. }
  split_and!.
  - assert (forall l : list Context, cx_fn <$> (unlinked <$> l) = cx_fn <$> l) as F.
    { intros l. rewrite <- list_fmap_compose. by apply list_fmap_ext. }
    by rewrite <- (F nodes'), <- (F nodes), E.
  - intros Hn. apply Forall_lookup. intros k x Hx. destruct (H k x Hx) as (y & Hy & Ef & Es & Eh & _).
    rewrite Forall_lookup in Hn. destruct (Hn k y Hy) as (N1 & N2 & N3). unfold node_ok.
    by rewrite Ef, Es, Eh.
  - intros k x Hx. destruct (H k x Hx) as (y & Hy & _ & _ & _ & Eb). by exists y.
Qed.

(** Room for one more entry: the table is resized when more than 80% full. *)
Lemma cxt_make_room fs s ws :
  cxts_ok fs s ws -> Z.of_nat (length ws) < 2 ^ 28 ->
  let e := u32 (ch_entries (cxts s) + 1) in
  let s1 := MkContexts (fns s) (cxt_nodes s) (MkCxtHash (ch_size (cxts s)) e (ch_table (cxts s)))
             (context_counter s) (distinct_contexts s) (cxt_lru_misses s) (cxt_hash_resizes s) in
  exists nodes t sz r, (let! fill := uint_div (u32 (10 * e)) (ch_size (cxts s1)) in
      if 8 <? fill then resize_cxt_table s1 else Ok s1) =
    Ok (MkContexts (fns s) nodes (MkCxtHash sz (Z.of_nat (length ws) + 1) t) (context_counter s)
          (distinct_contexts s) (cxt_lru_misses s) r) /\
    unlinked <$> nodes = unlinked <$> cxt_nodes s /\
    (exists chains, hashed nodes t sz chains /\ concat chains ≡ₚ seq 0 (length ws)) /\
    cxt_size_ok sz (S (length ws)) /\ 0 <= r <= Z.of_nat (length ws) + 1.
Proof.
  intros Hok Hlen. destruct (co_hash _ _ _ Hok) as (chains & Hh & Hp).
  pose proof (co_size _ _ _ Hok) as [Hs1 Hs2]. pose proof (co_resizes _ _ _ Hok) as Hr.
  rewrite (co_entries _ _ _ Hok), (wrapu_small 32 (_ + 1)) by (unfold in_u; lia).
  cbn [cxts ch_size]. rewrite wrapu_small by (unfold in_u; lia).
  unfold uint_div. rewrite (proj2 (Z.eqb_neq _ _)) by lia. cbn [rbind].
  set (sz := ch_size (cxts s)) in *. set (e := Z.of_nat (length ws) + 1) in *.
  destruct (Z.ltb_spec 8 (10 * e / sz)) as [Hfull|_].
  - assert (9 * sz <= 10 * e) as Hsz by (pose proof (Z.mul_div_le (10 * e) sz Hs1); nia).
    unfold resize_cxt_table. cbn [cxts ch_size ch_table ch_entries cxt_nodes fns context_counter
      distinct_contexts cxt_lru_misses cxt_hash_resizes].
    rewrite wrapu_small by (unfold in_u; lia).
    destruct (rehash_ok (2 * sz + 3) _ _ _ _ ltac:(lia) Hh) as (nodes & t & chains' & -> & Hh' & Hp' & Hu & _).
    cbn [rbind]. unfold int_add. rewrite signed_result_in by (unfold in_s; lia). cbn [rbind].
    exists nodes, t, (2 * sz + 3), (cxt_hash_resizes s + 1). split_and!; try done; try lia.
    + exists chains'. split; [done|]. by rewrite Hp'.
    + unfold cxt_size_ok. lia.
  - exists (cxt_nodes s), (ch_table (cxts s)), sz, (cxt_hash_resizes s). split_and!; try done; try lia.
    + by exists chains.
    + unfold cxt_size_ok. lia.
Qed.

Lemma deref_fn_ok fs s ws f x :
  cxts_ok fs s ws -> f <> 0 -> fs !! f = Some x ->
  exists y, deref_fn s f = Ok y /\ fns s !! f = Some y /\ config y = config x.
Proof.
  intros Hok Hf Hx. destruct (config_lookup fs (fns s) f x) as (y & Hy & E); [apply Hok|done|].
  exists y. unfold deref_fn. by rewrite (proj2 (Z.eqb_neq f 0) Hf), Hy.
Qed.

(** A new context at the end of the list and at the head of its bucket. *)
Lemma add_context fs s ws nodes t sz r x :
  cxts_ok fs s ws -> unlinked <$> nodes = unlinked <$> cxt_nodes s ->
  (exists chains, hashed nodes t sz chains /\ concat chains ≡ₚ seq 0 (length ws)) ->
  cxt_size_ok sz (S (length ws)) -> 0 <= r <= Z.of_nat (length ws) + 1 ->
  node_ok fs x -> cx_fn x ∉ ws -> base_number x = numbers fs ws ->
  exists nodes' t', link (nodes ++ [x]) t sz (length ws) = Ok (nodes', t') /\ forall m,
    cxts_ok fs (MkContexts (fns s) nodes' (MkCxtHash sz (Z.of_nat (length ws) + 1) t')
      (numbers fs ws + recs_of fs (cx_fn x)) (Z.of_nat (length ws) + 1) m r) (ws ++ [cx_fn x]).
Proof.
  intros Hok Hu (chains & Hh & Hp) Hsz Hr Hx Hnew Hb.
  destruct (relinked_nodes fs _ _ Hu) as (Hk & Hno & Hba). rewrite (co_key _ _ _ Hok) in Hk.
  assert (length nodes = length ws) as Hl by (rewrite <- Hk; by rewrite length_fmap).
  destruct (link_ok (nodes ++ [x]) t sz chains (length ws) x)
    as (head & t' & chains' & -> & Hh' & Hp');
    [apply Hsz|by apply hashed_snoc|by rewrite lookup_app_r, Hl, Nat.sub_diag by lia
    |rewrite Hp, elem_of_seq; lia|].
  eexists _, _. split; [done|]. intros m.
  assert (<[length ws:=set_next head x]> (nodes ++ [x]) = nodes ++ [set_next head x]) as E.
  { rewrite insert_app_r_alt by lia. by rewrite Hl, Nat.sub_diag. }
  rewrite E in *. assert (length (ws ++ [cx_fn x]) = S (length ws)) as Hlen
    by (rewrite length_app; cbn [length]; lia).
  constructor; cbn [fns cxt_nodes cxts ch_table ch_size ch_entries context_counter distinct_contexts
    cxt_hash_resizes]; rewrite ?Hlen.
  - apply Hok.
  - intros f z Hz k Hkz. pose proof (co_last _ _ _ Hok f z Hz k Hkz). lia.
  - rewrite fmap_app, Hk. done.
  - apply Forall_app. split; [apply Hno, Hok|]. by constructor.
  - exists chains'. split; [done|]. rewrite Hp', Hp, seq_S. by rewrite Permutation_cons_append.
  - apply NoDup_app. split_and!; [apply Hok|set_solver|apply NoDup_singleton].
  - lia.
  - done.
  - intros k y Hy. apply lookup_app_Some in Hy as [Hy|[Hge Hy]].
    + destruct (Hba k y Hy) as (z & Hz & ->). rewrite take_app_le by (apply lookup_lt_Some in Hy; lia).
      by apply Hok.
    + rewrite Hl in *. destruct (k - length ws)%nat as [|n] eqn:En; [|by destruct n].
      injection Hy as <-. replace k with (length ws) by lia. rewrite take_app_length. exact Hb.
  - by rewrite numbers_app.
  - lia.
  - lia.
Qed.

Lemma new_cxt_ok fs R s ws arr i :
  map_Forall (fun _ => fn_ok R) fs -> 1 <= R -> cxts_ok fs s ws -> marked fs arr i ->
  callers arr i <> [] -> window fs arr i ∉ ws -> Z.of_nat (length ws) < 2 ^ 28 ->
  R * (Z.of_nat (length ws) + 1) < 2 ^ 31 ->
  exists s', new_cxt s arr i = Ok (Some (length ws), s') /\
    cxts_ok fs s' (ws ++ [window fs arr i]) /\ cxt_lru_misses s' = cxt_lru_misses s.
Proof.
  intros Hfs HR Hok Hm Hc Hnew Hlen Hnum.
  destruct (callers_window _ _ _ Hm Hc) as (f & x & i' & Ei & Hm' & E & Hf & Hx & Ec & Ew).
  destruct (deref_fn_ok _ _ _ f x Hok Hf Hx) as (y & Ey & Hy & Ecf).
  destruct (config_fields _ _ Ecf) as [Esc Erec]. destruct (Hfs f x Hx) as [Hcal Hrec].
  unfold new_cxt. rewrite E. cbn [rbind]. rewrite (proj2 (Z.eqb_neq f 0) Hf), Ey. cbn [rbind].
  unfold int_add at 1. rewrite Esc, signed_result_in by (unfold in_s; lia). cbn [rbind].
  destruct (cxt_make_room fs s ws Hok Hlen) as (nodes & t & sz & r & Er & Hu & (chains & Hh & Hp) & Hsz & Hr).
  rewrite <- rbind_assoc, Er. cbn [rbind]. clear Er.
  rewrite (copy_fns_ok fs) by (done || cbn [length]; lia). cbn [length app rbind Z.of_nat].
  rewrite Z.sub_0_r, <- Ew. cbn [context_counter distinct_contexts cxt_nodes cxts ch_table ch_size ch_entries
    fns cxt_lru_misses cxt_hash_resizes].
  set (w := window fs arr i) in *. pose proof (numbers_bound fs R ws Hfs HR) as Hnb.
  assert (exists rest, w = f :: rest) as [rest Hrest].
  { rewrite Ew, Ec. replace (Z.to_nat (separate_callers x + 1)) with (S (Z.to_nat (separate_callers x))) by lia.
    eexists. reflexivity. }
  assert (Z.of_nat (length w) <= separate_callers x + 1) as Hwl by (rewrite Ew, length_take; lia).
  assert (recs_of fs w = fn_recs x) as Hrw by (rewrite Hrest; cbn [recs_of]; by rewrite Hx).
  rewrite (wrapu_small 32 (_ + 1)) by (unfold in_u; lia).
  assert (u32 (if Z.of_nat (length w) <? separate_callers x + 1 then Z.of_nat (length w)
    else separate_callers x + 1) = Z.of_nat (length w)) as ->.
  { destruct (Z.ltb_spec (Z.of_nat (length w)) (separate_callers x + 1)); rewrite wrapu_small;
      unfold in_u; lia. }
  rewrite (co_counter _ _ _ Hok), (wrapu_small 32 (numbers _ _)) by (unfold in_u; nia).
  set (c := MkContext _ _ _ _ _).
  destruct (add_context fs s ws nodes t sz r c) as (nodes' & t' & El & Hok'); try done.
  { by exists chains. }
  { unfold node_ok, c. cbn [cx_size cx_fn cx_hash]. split; [done|]. split; [done|]. by exists f, rest, x. }
  replace (if separate_recursions y <? 1 then 1 else separate_recursions y) with (fn_recs x); cycle 1.
  { rewrite <- Erec. unfold fn_recs. destruct (Z.ltb_spec (separate_recursions y) 1); lia. }
  pose proof (recs_bound fs R w Hfs HR) as Hrb. rewrite Hrw in Hrb.
  unfold int_add. rewrite signed_result_in by (unfold in_s; nia). cbn [rbind].
  rewrite (co_distinct _ _ _ Hok), signed_result_in by (unfold in_s; lia). cbn [rbind].
  assert (length nodes = length ws) as ->.
  { rewrite <- (length_fmap unlinked nodes), Hu, length_fmap. by eapply nodes_length. }
  rewrite El. cbn [rbind]. eexists. split; [done|]. split; [|done].
  rewrite <- Hrw. apply Hok'.
Qed.

Lemma node_key fs s ws k x : cxts_ok fs s ws -> cxt_nodes s !! k = Some x -> ws !! k = Some (cx_fn x).
Proof. intros Hok Hx. by rewrite <- (co_key _ _ _ Hok), list_lookup_fmap, Hx. Qed.

Lemma node_good fs s ws k x : cxts_ok fs s ws -> cxt_nodes s !! k = Some x -> node_ok fs x.
Proof. intros Hok Hx. pose proof (co_nodes _ _ _ Hok) as H. rewrite Forall_lookup in H. by eapply H. Qed.

(** The cache of a function. *)
Lemma set_last_ok fs s ws f y k m :
  cxts_ok fs s ws -> fns s !! f = Some y -> (k < length ws)%nat ->
  cxts_ok fs (MkContexts (<[f := set_last_cxt y (Some k)]> (fns s)) (cxt_nodes s) (cxts s)
    (context_counter s) (distinct_contexts s) m (cxt_hash_resizes s)) ws.
Proof.
  intros [H1 H2 H3 H4 H5 H6 H7 H8 H9 H10 H11 H12] Hy Hk. constructor; cbn; try done.
  - rewrite fmap_insert. rewrite <- H1. apply insert_id. by rewrite lookup_fmap, Hy.
  - apply map_Forall_insert_2; [|done]. cbn. congruence.
Qed.

Lemma find_cxt fs R W s ws arr i :
  map_Forall (fun _ => fn_ok R) fs -> cxts_ok fs s ws -> marked fs arr i -> callers arr i <> [] ->
  separated W -> (forall w, w ∈ ws -> W w) -> W (window fs arr i) ->
  exists r, (let! idx := bucket_of (hash_of (window fs arr i)) (ch_size (cxts s)) in
    let! p := arr_get (ch_table (cxts s)) idx in
    find_chain (length (cxt_nodes s)) (is_cxt (hash_of (window fs arr i)) arr i) (cxt_nodes s) p) = Ok r /\
  match r with
  | Some k => ws !! k = Some (window fs arr i)
  | None => window fs arr i ∉ ws
  end.
Proof.
  intros Hfs Hok Hm Hc Hsep HW Hw. destruct (co_hash _ _ _ Hok) as (chains & Hh & Hp).
  set (w := window fs arr i) in *.
  assert (forall k x, cxt_nodes s !! k = Some x -> fits w x = true <-> ws !! k = Some w) as Hfit.
  { intros k x Hx. pose proof (node_key _ _ _ _ _ Hok Hx) as Hkx. rewrite Hkx.
    rewrite (fits_same fs W w x Hsep Hw); [split; [by intros ->|congruence]| |by eapply node_good].
    apply HW. by eapply list_elem_of_lookup_2. }
  destruct (find_ok (cxt_nodes s) (ch_table (cxts s)) (ch_size (cxts s)) chains (hash_of w)
    (is_cxt (hash_of w) arr i) (fits w) (length (cxt_nodes s))) as (r & E & Hr).
  - intros k x Hx. eapply is_cxt_ok; try done. by eapply node_good.
  - apply Hok.
  - done.
  - by rewrite (nodes_length _ _ _ Hok).
  - done.
  - intros k x Hx Hf. unfold fits in Hf. apply andb_true_iff in Hf as [Hf _]. by apply Z.eqb_eq in Hf.
  - exists r. split; [exact E|]. destruct r as [k|].
    + destruct Hr as (x & Hx & Hf). by apply (Hfit k x Hx).
    + intros Hin. apply list_elem_of_lookup_1 in Hin as [k Hk].
      destruct (lookup_lt_is_Some_2 (cxt_nodes s) k) as [x Hx].
      { rewrite (nodes_length _ _ _ Hok). by apply lookup_lt_Some in Hk. }
      pose proof (proj2 (Hfit k x Hx) Hk) as Ht. by rewrite (Hr k x Hx) in Ht.
Qed.

Lemma get_cxt_hash_ok fs R W s ws arr i :
  map_Forall (fun _ => fn_ok R) fs -> 1 <= R -> cxts_ok fs s ws -> marked fs arr i ->
  callers arr i <> [] -> separated W -> (forall w, w ∈ ws -> W w) -> W (window fs arr i) ->
  Z.of_nat (length ws) < 2 ^ 28 -> R * (Z.of_nat (length ws) + 1) < 2 ^ 31 ->
  0 <= cxt_lru_misses s < 2 ^ 30 ->
  let w := window fs arr i in
  exists s', get_cxt_hash s arr i (hash_of w) = Ok (Some (intern ws w).1, s') /\
    cxts_ok fs s' (intern ws w).2 /\ 0 <= cxt_lru_misses s' <= cxt_lru_misses s + 1.
Proof.
  intros Hfs HR Hok Hm Hc Hsep HW Hw Hlen Hnum Hmiss w. unfold get_cxt_hash, int_add.
  rewrite signed_result_in by (unfold in_s; lia). cbn [rbind].
  match goal with |- context [bucket_of _ (ch_size (cxts ?s0))] => set (s1 := s0) end.
  assert (cxts_ok fs s1 ws) as Hok1 by (destruct Hok; by constructor).
  destruct (find_cxt fs R W s1 ws arr i Hfs Hok1 Hm Hc Hsep HW Hw) as (r & E & Hr). fold w in E, Hr.
  apply rbind_ok in E as (idx & -> & E). cbn [rbind].
  apply rbind_ok in E as (p & -> & E). cbn [rbind]. rewrite E. cbn [rbind]. clear E.
  assert (exists k s2, (match r with Some k => Ok (Some k, s1) | None => new_cxt s1 arr i end) = Ok (Some k, s2) /\
    intern ws w = (k, (intern ws w).2) /\ cxts_ok fs s2 (intern ws w).2 /\
    (k < length (intern ws w).2)%nat /\ cxt_lru_misses s2 = cxt_lru_misses s1)
    as (k & s2 & -> & -> & Ok2 & Hk & M2).
  { destruct r as [k|].
    - exists k, s1. rewrite (intern_old ws w k) by (done || apply Hok). split_and!; try done.
      by eapply lookup_lt_Some.
    - rewrite (intern_new ws w Hr).
      destruct (new_cxt_ok fs R s1 ws arr i Hfs HR Hok1 Hm Hc Hr Hlen Hnum) as (s2 & E2 & Ok2 & M2).
      exists (length ws), s2. split_and!; try done. cbn. rewrite length_app. simpl. lia. }
  cbn [rbind fst snd].
  destruct (callers_window _ _ _ Hm Hc) as (f & x & i' & Ei & Hm' & Ef & Hf & Hx & _).
  rewrite Ef. cbn [rbind]. destruct (deref_fn_ok _ _ _ f x Ok2 Hf Hx) as (y & -> & Hy & _). cbn [rbind].
  eexists. split; [done|]. split; [by apply set_last_ok|]. cbn. rewrite M2. cbn. lia.
Qed.

(** One lookup: the number of its window. *)
Lemma get_cxt_ok fs R W s ws arr i :
  map_Forall (fun _ => fn_ok R) fs -> 1 <= R -> cxts_ok fs s ws -> marked fs arr i ->
  callers arr i <> [] -> separated W -> (forall w, w ∈ ws -> W w) -> W (window fs arr i) ->
  Z.of_nat (length ws) < 2 ^ 28 -> R * (Z.of_nat (length ws) + 1) < 2 ^ 31 ->
  0 <= cxt_lru_misses s < 2 ^ 30 ->
  let w := window fs arr i in
  exists s', get_cxt s arr i = Ok (Some (intern ws w).1, s') /\
    cxts_ok fs s' (intern ws w).2 /\ 0 <= cxt_lru_misses s' <= cxt_lru_misses s + 1.
Proof.
  intros Hfs HR Hok Hm Hc Hsep HW Hw Hlen Hnum Hmiss w.
  destruct (callers_window _ _ _ Hm Hc) as (f & x & i' & Ei & Hm' & Ef & Hf & Hx & Ec & Ew).
  destruct (Hfs f x Hx) as [Hcal _]. unfold get_cxt. rewrite Ef. cbn [rbind].
  rewrite (proj2 (Z.eqb_neq f 0) Hf). destruct (deref_fn_ok _ _ _ f x Hok Hf Hx) as (y & -> & Hy & Ecf).
  cbn [rbind]. destruct (config_fields _ _ Ecf) as [-> _]. unfold int_add.
  rewrite signed_result_in by (unfold in_s; lia). cbn [rbind].
  rewrite (wrapu_small 32 (_ + 1)) by (unfold in_u; lia).
  rewrite (proj2 (Z.leb_gt _ _)) by lia. unfold cxt_hash_val.
  rewrite (cxt_hash_ok fs) by (done || lia). rewrite <- Ew. fold w. change (fold_left cxt_mix w 0) with (hash_of w).
  cbn [rbind]. destruct (last_cxt y) as [k|] eqn:El; cbn [rbind]; [|by eapply get_cxt_hash_ok].
  pose proof (co_last _ _ _ Hok f y Hy k El) as Hk.
  destruct (lookup_lt_is_Some_2 (cxt_nodes s) k) as [c Hck]; [by rewrite (nodes_length _ _ _ Hok)|].
  unfold get_node. rewrite Hck. cbn [rbind]. pose proof (node_good _ _ _ _ _ Hok Hck) as Hgood.
  pose proof (is_cxt_ok fs R arr i c Hfs Hm Hc Hgood) as Ei'. fold w in Ei'. rewrite Ei'. cbn [rbind].
  destruct (fits w c) eqn:Efit; [|by eapply get_cxt_hash_ok].
  pose proof (node_key _ _ _ _ _ Hok Hck) as Hkey.
  apply (fits_same fs W) in Efit; [|done|done|apply HW; by eapply list_elem_of_lookup_2|done].
  rewrite Efit in Hkey. rewrite (intern_old ws w k) by (done || apply Hok). cbn. exists s.
  split_and!; try done; lia.
Qed.

(** ** A run *)

Fixpoint get_cxts (s : contexts) (tops : list (list (option Z) * nat)) : res (list (option nat) * contexts) :=
  match tops with
  | [] => Ok ([], s)
  | (arr, i) :: tops' =>
      let! (c, s) := get_cxt s arr i in
      let! (cs, s) := get_cxts s tops' in
      Ok (c :: cs, s)
  end.

Definition no_contexts (fs : gmap Z fn_node) : contexts :=
  MkContexts fs [] init_cxt_table 0 0 0 0.

Definition top_ok (fs : gmap Z fn_node) (t : list (option Z) * nat) : Prop :=
  marked fs t.1 t.2 /\ callers t.1 t.2 <> [].

Definition windows (fs : gmap Z fn_node) (tops : list (list (option Z) * nat)) : list (list Z) :=
  (fun t => window fs t.1 t.2) <$> tops.

Lemma no_contexts_ok fs :
  map_Forall (fun _ f => last_cxt f = None) fs -> cxts_ok fs (no_contexts fs) [].
Proof.
  intros Hl. constructor; cbn [no_contexts fns cxt_nodes cxts context_counter distinct_contexts
    cxt_hash_resizes]; try done.
  - intros f x Hx k Hk. by rewrite (Hl f x Hx) in Hk.
  - exists (replicate (Z.to_nat N_CXT_INITIAL_ENTRIES) []). rewrite concat_empty. split; [|done].
    unfold init_cxt_table. cbn [ch_table ch_size].
    rewrite <- (Z2Nat.id N_CXT_INITIAL_ENTRIES) at 2 by (unfold N_CXT_INITIAL_ENTRIES; lia).
    apply empty_hashed.
  - constructor.
  - unfold cxt_size_ok, init_cxt_table, N_CXT_INITIAL_ENTRIES. cbn [ch_size]. lia.
Qed.

Lemma get_cxts_ok fs R W s ws tops :
  map_Forall (fun _ => fn_ok R) fs -> 1 <= R -> cxts_ok fs s ws -> Forall (top_ok fs) tops ->
  separated W -> (forall w, w ∈ ws -> W w) -> (forall w, w ∈ windows fs tops -> W w) ->
  Z.of_nat (length ws + length tops) <= 2 ^ 28 -> R * Z.of_nat (length ws + length tops) < 2 ^ 31 ->
  0 <= cxt_lru_misses s -> cxt_lru_misses s + Z.of_nat (length tops) <= 2 ^ 30 ->
  exists s', get_cxts s tops = Ok (Some <$> (interns ws (windows fs tops)).1, s') /\
    cxts_ok fs s' (interns ws (windows fs tops)).2.
Proof.
  intros Hfs HR. revert s ws; induction tops as [|[arr i] tops IH];
    intros s ws Hok Hv Hsep HW Hws Hlen Hnum H0 Hm; [by exists s|].
  apply Forall_cons in Hv as [[Hmk Hne] Hvs]. simpl length in *. cbn [fst snd] in *.
  assert (W (window fs arr i)) as Hw by (apply Hws; left).
  destruct (get_cxt_ok fs R W s ws arr i) as (s1 & E1 & Ok1 & M1); try done; try lia.
  change (windows fs ((arr, i) :: tops)) with (window fs arr i :: windows fs tops) in *.
  cbn [get_cxts interns]. rewrite E1. cbn [rbind].
  pose proof (intern_length ws (window fs arr i)) as Hl.
  assert (forall w, w ∈ (intern ws (window fs arr i)).2 -> W w) as HW'.
  { intros w Hin. apply intern_elem in Hin as [Hin| ->]; [by apply HW|done]. }
  destruct (intern ws (window fs arr i)) as [k ws1]. cbn [fst snd] in *.
  destruct (IH s1 ws1) as (s2 & E2 & Ok2); try done; try lia.
  - intros w Hin. apply Hws. by right.
  - nia.
  - rewrite E2. cbn [rbind]. destruct (interns ws1 (windows fs tops)) as [ks ws2]. by exists s2.
Qed.

(** Contexts of at most two functions never collide: the hash of the pair is
    larger than that of its first function. *)
Lemma short_separated (ws : list (list Z)) :
  Forall (fun w => w <> [] /\ (length w <= 2)%nat /\ Forall (fun f => 0 < f < 2 ^ 47) w) ws ->
  separated (fun w => w ∈ ws).
Proof.
  intros Hws w w' Hw Hw' Ha Hh. rewrite Forall_forall in Hws.
  destruct (Hws w Hw) as (N & L & B), (Hws w' Hw') as (N' & L' & B').
  assert (forall x y, 0 < x < 2 ^ 47 -> 0 < y < 2 ^ 47 -> hash_of [x] <> hash_of [x; y]) as Hne.
  { intros x y Hx Hy. unfold hash_of, cxt_mix. cbn [fold_left]. rewrite !Z.shiftl_0_l, !Z.shiftr_0_l.
    change (u64 (u64 0 + 0)) with 0. rewrite !Z.add_0_l, (wrapu_small 64 x) by (unfold in_u; lia).
    rewrite Z.shiftl_mul_pow2, Z.shiftr_div_pow2 by lia.
    assert (0 <= x / 2 ^ 25 < 2 ^ 22) by (split; [apply Z.div_pos|apply Z.div_lt_upper_bound]; lia).
    rewrite (wrapu_small 64 (x * 2 ^ 7)) by (unfold in_u; lia).
    rewrite (wrapu_small 64 (x * 2 ^ 7 + x / 2 ^ 25)) by (unfold in_u; lia).
    rewrite wrapu_small by (unfold in_u; lia). lia. }
  destruct w as [|x [|y [|? ?]]], w' as [|x' [|y' [|? ?]]]; simpl in L, L'; try done; try lia;
    cbn [agrees] in Ha; rewrite ?andb_true_r, ?andb_true_iff, ?Z.eqb_eq in Ha;
    repeat rewrite Forall_cons in B; repeat rewrite Forall_cons in B'; destruct_and?; simplify_eq; try done;
    [apply Hne in Hh|symmetry in Hh; apply Hne in Hh]; done.
Qed.

(** A context takes its numbers before the next one. *)
Lemma numbers_take fs R ws j k w :
  map_Forall (fun _ => fn_ok R) fs -> 1 <= R -> (j < k)%nat -> ws !! j = Some w ->
  numbers fs (take j ws) + recs_of fs w <= numbers fs (take k ws).
Proof.
  intros Hfs HR. revert j k; induction ws as [|v ws IH]; intros j k Hjk Hj; [done|].
  destruct k as [|k]; [lia|]. destruct j as [|j]; cbn [take numbers].
  - injection Hj as ->. pose proof (numbers_bound fs R (take k ws) Hfs HR). lia.
  - pose proof (IH j k ltac:(lia) Hj). lia.
Qed.

Lemma numbers_disjoint fs R s ws j k x y :
  map_Forall (fun _ => fn_ok R) fs -> 1 <= R -> cxts_ok fs s ws -> (j < k)%nat ->
  cxt_nodes s !! j = Some x -> cxt_nodes s !! k = Some y ->
  base_number x + recs_of fs (cx_fn x) <= base_number y.
Proof.
  intros Hfs HR Hok Hjk Hx Hy.
  rewrite (co_base _ _ _ Hok j x Hx), (co_base _ _ _ Hok k y Hy).
  apply (numbers_take fs R); try done. by eapply node_key.
Qed.

(** ** Properties *)


Definition ex_fn (n sep rec : Z) : fn_node :=
  MkFn "f"%string n None false false false false false false 0 sep rec.

(** [main] and [f], which keeps its caller apart and has two recursion levels. *)
Definition ex_fns : gmap Z fn_node := {[ 4096 := ex_fn 0 0 2; 8192 := ex_fn 1 1 2 ]}.

Definition ex_tops : list (list (option Z) * nat) :=
  [([Some 0; Some 4096; None], 1%nat); ([Some 0; Some 4096; Some 8192], 2%nat);
   ([Some 0; Some 8192; Some 8192], 2%nat); ([Some 0; Some 4096; Some 8192], 2%nat)].


(** [--separate-callers=auto] sets [separate_callers] to -1, for which
    [new_cxt] allocates no room for a function and writes one: the first lookup
    of such a function stores past the end of the context. *)
Theorem auto_callers_overflow (fs : gmap Z fn_node) (f : Z) (x : fn_node) (arr : list (option Z)) (i : nat) :
  fs !! f = Some x -> f <> 0 -> separate_callers x = -1 -> last_cxt x = None ->
  arr !! S i = Some (Some f) ->
  get_cxt (no_contexts fs) arr (S i) = Err OutOfBounds.
Proof.
  intros Hx Hf Hs Hl Ha.
  assert (read_fn arr (S i) = Ok f) as Er by (unfold read_fn; by rewrite Ha).
  assert (forall s, fns s = fs -> deref_fn s f = Ok x) as Hd.
  { intros s Es. unfold deref_fn. by rewrite (proj2 (Z.eqb_neq f 0) Hf), Es, Hx. }
  unfold get_cxt. rewrite Er. cbn [rbind]. rewrite (proj2 (Z.eqb_neq f 0) Hf), Hd by done. cbn [rbind].
  assert (int_add (-1) 1 = Ok 0) as Ea by reflexivity.
  rewrite Hs, Hl, Ea. cbn [rbind]. change (u32 0 <=? 0) with true. cbn iota. change (u32 (- u32 0 + 1)) with 1.
  unfold cxt_hash_val. cbn [cxt_hash_loop]. rewrite Er. cbn [rbind]. rewrite (proj2 (Z.eqb_neq f 0) Hf).
  change (u32 (1 - 1) =? 0) with true. cbn iota. cbn [rbind]. set (h := cxt_mix 0 f).
  unfold get_cxt_hash. change (int_add (cxt_lru_misses (no_contexts fs)) 1) with (int_add 0 1).
  assert (int_add 0 1 = Ok 1) as E1 by reflexivity. rewrite E1. cbn [rbind cxts no_contexts].
  unfold init_cxt_table at 1 2. cbn [ch_size ch_table]. rewrite bucket_pos by (unfold N_CXT_INITIAL_ENTRIES; lia).
  cbn [rbind]. pose proof (Z.mod_pos_bound h N_CXT_INITIAL_ENTRIES ltac:(unfold N_CXT_INITIAL_ENTRIES; lia)) as Hb.
  rewrite (arr_get_in _ _ None) by (lia || apply lookup_replicate_2; lia). cbn [rbind cxt_nodes length find_chain].
  unfold new_cxt. rewrite Er. cbn [rbind]. rewrite (proj2 (Z.eqb_neq f 0) Hf), Hd by done. cbn [rbind].
  rewrite Hs, Ea. cbn [rbind cxts ch_size ch_entries init_cxt_table].
  change (uint_div (u32 (10 * u32 (0 + 1))) N_CXT_INITIAL_ENTRIES) with (Ok 0). cbn [rbind].
  change (8 <? 0) with false. cbn iota. cbn [rbind copy_fns]. rewrite Er. cbn [rbind].
  by rewrite (proj2 (Z.eqb_neq f 0) Hf).
Qed.

Lemma auto_callers_overflow_witness :
  get_cxt (no_contexts {[ 4096 := ex_fn 0 (-1) 2 ]}) [Some 0; Some 4096] 1 = Err OutOfBounds.
Proof. apply (auto_callers_overflow _ 4096 (ex_fn 0 (-1) 2)); first [reflexivity | discriminate]. Defined.

(** Five functions called from the bottom of the stack and the same five called
    from a sixth have the same hash value, and [is_cxt] takes the end of either
    list for agreement: the second stack gets the context of the first. *)
Example prefix_collision :
  let l := [0x135ac6eaf0; 0x134fee6bd0; 0x12012ce980; 0x127b8a15e0; 0x12c08bde60] in
  let fs := list_to_map ((fun f => (f, ex_fn 0 5 2)) <$> (0x1f1d19f41990 :: l)) in
  let tops := [(Some <$> (0 :: l), 5%nat); (Some <$> (0 :: 0x1f1d19f41990 :: l), 6%nat)] in
  windows fs tops = [reverse l; reverse (0x1f1d19f41990 :: l)] /\
  ∃ s, get_cxts (no_contexts fs) tops = Ok ([Some 0; Some 0]%nat, s).
Proof. split; [vm_compute; reflexivity|]. eexists. vm_compute. reflexivity. Qed.
