(* ===== verification/ClgPatterns.v ===== *)
(** * ClgPatterns: options for functions by name (callgrind/clo.c)

    An option such as --fn-skip=pattern stores its value in a configuration kept
    at the end of a path in a compressed trie; when a function is first seen,
    every configuration whose path matches its name is applied.  The nodes of the
    trie are shared through their links, so they are kept in a list and a
    pointer is an index; an empty list is the null root.  A read past the end of
    a string is a fault.  Debugging output and the debug verbosity of a function
    are left out. *)

From Stdlib Require Import ZArith Lia Ascii String.
From stdpp Require Import base numbers option strings gmap sets list.
From S2P Require Import Prelude ClgHash ClgContext.

#[local] Open Scope Z_scope.

(** ** Data *)

Definition CONFIG_DEFAULT : Z := -1.
Definition CONFIG_TRUE : Z := 1.

Record fn_config : Type := MkFnc {
  fc_dump_before : Z;
  fc_dump_after : Z;
  fc_zero_before : Z;
  fc_toggle_collect : Z;
  fc_skip : Z;
  fc_group : Z;
  fc_pop_on_jump : Z;
  fc_separate_callers : Z;
  fc_separate_recursions : Z
}.

Definition NODE_DEGREE : nat := 30.

(** [length] is the length of the name. *)
Record config_node : Type := MkCfg {
  nd_name : list ascii;
  nd_config : option fn_config;
  sub_node : list (option nat);
  nd_next : option nat;
  wild_star : option nat;
  wild_char : option nat
}.

Definition new_fnc : fn_config :=
  MkFnc CONFIG_DEFAULT CONFIG_DEFAULT CONFIG_DEFAULT CONFIG_DEFAULT CONFIG_DEFAULT CONFIG_DEFAULT CONFIG_DEFAULT
    CONFIG_DEFAULT CONFIG_DEFAULT.

Definition new_config (name : list ascii) : config_node :=
  MkCfg name None (replicate NODE_DEGREE None) None None None.

#[global] Instance config_chain : ChainNode config_node.
Proof.
  refine {| next := nd_next;
    set_next p x := MkCfg (nd_name x) (nd_config x) (sub_node x) p (wild_star x) (wild_char x);
    hash x := 0 |}; intros; repeat match goal with x : config_node |- _ => destruct x end; reflexivity.
Defined.

Definition set_name (s : list ascii) (x : config_node) : config_node :=
  MkCfg s (nd_config x) (sub_node x) (nd_next x) (wild_star x) (wild_char x).
Definition set_config (c : fn_config) (x : config_node) : config_node :=
  MkCfg (nd_name x) (Some c) (sub_node x) (nd_next x) (wild_star x) (wild_char x).
Definition set_subs (l : list (option nat)) (x : config_node) : config_node :=
  MkCfg (nd_name x) (nd_config x) l (nd_next x) (wild_star x) (wild_char x).
Definition set_wild (c : ascii) (k : nat) (x : config_node) : config_node :=
  if Ascii.eqb c "*" then MkCfg (nd_name x) (nd_config x) (sub_node x) (nd_next x) (Some k) (wild_char x)
  else MkCfg (nd_name x) (nd_config x) (sub_node x) (nd_next x) (wild_star x) (Some k).

Definition is_wild (n : ascii) : bool := Ascii.eqb n "*" || Ascii.eqb n "?".

(** A [char] is signed. *)
Definition char_val (c : ascii) : Z := s8 (Z.of_nat (nat_of_ascii c)).

(** [name[0] % NODE_DEGREE]; the remainder has the sign of the character. *)
Definition slot (name : list ascii) : Z :=
  Z.rem (match name with [] => 0 | c :: _ => char_val c end) (Z.of_nat NODE_DEGREE).

(** ** Building the trie *)

Definition upd_cnode (h : list config_node) (k : nat) (f : config_node -> config_node) : res (list config_node) :=
  let! x := get_node h k in Ok (<[k := f x]> h).

(** [for (len = 0; name[len] == n->name[len]; len++);] does not stop at the
    terminators. *)
Fixpoint common (name nname : list ascii) : res nat :=
  match name, nname with
  | [], [] => Err OutOfBounds
  | c :: name', d :: nname' =>
      if Ascii.eqb c d then let! len := common name' nname' in Ok (S len) else Ok 0%nat
  | _, _ => Ok 0%nat
  end.

(** The first node of a chain that begins like [name], the one before it, and
    the number of characters they share. *)
Fixpoint find_sub (fuel : nat) (h : list config_node) (name : list ascii) (n nprev : option nat)
  : res (option (nat * option nat * nat)) :=
  match n with
  | None => Ok None
  | Some k =>
      match fuel with
      | O => Err OutOfFuel
      | S fuel' =>
          let! x := get_node h k in
          let! len := common name (nd_name x) in
          if (0 <? len)%nat then Ok (Some (k, nprev, len)) else find_sub fuel' h name (nd_next x) (Some k)
      end
  end.

(** The number of characters before a wildcard or the end. *)
Fixpoint literal (name : list ascii) : nat :=
  match name with
  | [] => 0%nat
  | c :: name' => if is_wild c then 0%nat else S (literal name')
  end.

(** [while (name[1] == '*') name++], for the characters after the first. *)
Fixpoint drop_stars (name : list ascii) : list ascii :=
  match name with
  | c :: name' => if Ascii.eqb c "*" then drop_stars name' else name
  | [] => []
  end.

(** A new node for the first [len] characters of [name], in front of its chain
    below [node]. *)
Definition add_sub (h : list config_node) (node : nat) (name : list ascii) (len : nat)
  : res (nat * list config_node) :=
  let! x := get_node h node in
  let! old := arr_get (sub_node x) (slot name) in
  let new_sub := length h in
  let h := h ++ [set_next old (new_config (take len name))] in
  let! subs := arr_set (sub_node x) (slot name) (Some new_sub) in
  let! h := upd_cnode h node (set_subs subs) in
  Ok (new_sub, h).

(** The node [n] of a chain below [node] gets a parent with the first [len]
    characters of its name in its place; its own link stays. *)
Definition split_node (h : list config_node) (node n : nat) (nprev : option nat) (len : nat)
  : res (nat * list config_node) :=
  let! nx := get_node h n in
  let new_node := length h in
  let h := h ++ [new_config (take len (nd_name nx))] in
  let! h := (match nprev with
             | Some p => upd_cnode h p (set_next (Some new_node))
             | None =>
                 let! x := get_node h node in
                 let! subs := arr_set (sub_node x) (slot (nd_name nx)) (Some new_node) in
                 upd_cnode h node (set_subs subs)
             end) in
  let! h := upd_cnode h new_node (set_next (nd_next nx)) in
  let! y := get_node h new_node in
  let! subs := arr_set (sub_node y) (slot (drop len (nd_name nx))) (Some n) in
  let! h := upd_cnode h new_node (set_subs subs) in
  let! h := upd_cnode h n (set_name (drop len (nd_name nx))) in
  Ok (new_node, h).

(** [if (!config) config = new_fnc()], and what the caller then stores in it. *)
Definition write_fnc (h : list config_node) (k : nat) (store : fn_config -> fn_config) : res (list config_node) :=
  let! x := get_node h k in
  Ok (<[k := set_config (store (default new_fnc (nd_config x))) x]> h).

(** [get_fnc2] with the assignment its caller makes to a field of the result. *)
Fixpoint get_fnc2 (fuel : nat) (h : list config_node) (node : nat) (name : list ascii)
    (store : fn_config -> fn_config) : res (list config_node) :=
  match fuel with
  | O => Err OutOfFuel
  | S fuel' =>
  match name with
  | [] => write_fnc h node store
  | c :: name1 =>
  let! x := get_node h node in
  if is_wild c then
    let rest := if Ascii.eqb c "*" then drop_stars name1 else name1 in
    let sub := if Ascii.eqb c "*" then wild_star x else wild_char x in
    let! (new_sub, h) := (match sub with
                          | Some k => Ok (k, h)
                          | None =>
                              let k := length h in
                              let! h := upd_cnode (h ++ [new_config [c]]) node (set_wild c k) in
                              Ok (k, h)
                          end) in
    get_fnc2 fuel' h new_sub rest store
  else
    let! n := arr_get (sub_node x) (slot name) in
    let! r := find_sub (length h) h name n None in
    match r with
    | None =>
        let len := S (literal name1) in
        let! (new_sub, h) := add_sub h node name len in
        match drop len name with
        | [] => write_fnc h new_sub store
        | rest => get_fnc2 fuel' h new_sub rest store
        end
    | Some (n, nprev, len) =>
        let! nx := get_node h n in
        if (len <? length (nd_name nx))%nat then
          let! (new_node, h) := split_node h node n nprev len in
          let name := drop len name in
          let offset := literal name in
          let! (new_sub, h) := add_sub h new_node name offset in
          match drop offset name with
          | [] => write_fnc h new_sub store
          | rest => get_fnc2 fuel' h new_sub rest store
          end
        else
          let name := drop (length (nd_name nx)) name in
          match name with
          | [] => write_fnc h n store
          | _ :: name2 =>
              let offset := S (literal name2) in
              let! (new_sub, h) := add_sub h n name offset in
              get_fnc2 fuel' h new_sub (drop offset name) store
          end
    end
  end end.

(** Every call uses up a character of the pattern. *)
Definition get_fnc (h : list config_node) (name : list ascii) (store : fn_config -> fn_config)
  : res (list config_node) :=
  let h := match h with [] => [new_config []] | _ => h end in
  get_fnc2 (S (length name)) h 0 name store.

(** ** Applying it *)

Definition update_fn_config1 (fn : fn_node) (fnc : fn_config) : fn_node :=
  let flag new old := if negb (new =? CONFIG_DEFAULT) then new =? CONFIG_TRUE else old in
  let num new old := if negb (new =? CONFIG_DEFAULT) then new else old in
  MkFn (fn_name fn) (number fn) (last_cxt fn) (flag (fc_dump_before fnc) (dump_before fn))
    (flag (fc_dump_after fnc) (dump_after fn)) (flag (fc_zero_before fnc) (zero_before fn))
    (flag (fc_toggle_collect fnc) (toggle_collect fn)) (flag (fc_skip fnc) (fn_skip fn))
    (flag (fc_pop_on_jump fnc) (pop_on_jump fn)) (num (fc_group fnc) (group fn))
    (num (fc_separate_callers fnc) (separate_callers fn)) (num (fc_separate_recursions fnc) (separate_recursions fn)).

(** [VG_(strncmp)(name, s, length of s) == 0] *)
Fixpoint starts_with (s name : list ascii) : bool :=
  match s, name with
  | [], _ => true
  | c :: s', d :: name' => Ascii.eqb c d && starts_with s' name'
  | _ :: _, [] => false
  end.

(** [while ( *name) { f(name); name++; } f(name);] *)
Fixpoint each_suffix (f : list ascii -> fn_node -> res fn_node) (name : list ascii) (fn : fn_node) : res fn_node :=
  match name with
  | [] => f [] fn
  | _ :: name' => let! fn := f name fn in each_suffix f name' fn
  end.

Fixpoint update_fn_config2 (fuel : nat) (h : list config_node) (fn : fn_node) (name : list ascii) (node : nat)
  : res fn_node :=
  match fuel with
  | O => Err OutOfFuel
  | S fuel' =>
  let! x := get_node h node in
  match name, nd_config x with
  | [], Some c => Ok (update_fn_config1 fn c)
  | _, _ =>
      let! n := arr_get (sub_node x) (slot name) in
      let! n := find_chain (length h) (fun y => Ok (starts_with (nd_name y) name)) h n in
      let! fn := (match n with
                  | None => Ok fn
                  | Some k => let! y := get_node h k in
                              update_fn_config2 fuel' h fn (drop (length (nd_name y)) name) k
                  end) in
      let! fn := (match wild_char x, name with
                  | None, _ => Ok fn
                  | Some _, [] => Err OutOfBounds
                  | Some k, _ :: name' => update_fn_config2 fuel' h fn name' k
                  end) in
      match wild_star x with
      | None => Ok fn
      | Some k => each_suffix (fun name fn => update_fn_config2 fuel' h fn name k) name fn
      end
  end end.

(** No path is longer than the number of nodes. *)
Definition update_fn_config (h : list config_node) (fn : fn_node) : res fn_node :=
  match h with
  | [] => Ok fn
  | _ => update_fn_config2 (length h) h fn (list_ascii_of_string (fn_name fn)) 0
  end.

(** ** Specification: matching of wildcards *)

Fixpoint any_suffix (f : list ascii -> bool) (name : list ascii) : bool :=
  f name || match name with [] => false | _ :: name' => any_suffix f name' end.

Fixpoint glob (p name : list ascii) : bool :=
  match p with
  | [] => match name with [] => true | _ :: _ => false end
  | c :: p' =>
      if Ascii.eqb c "*" then any_suffix (glob p') name
      else match name with
           | [] => false
           | d :: name' => (Ascii.eqb c "?" || Ascii.eqb c d) && glob p' name'
           end
  end.

Lemma any_suffix_idem f name : any_suffix (any_suffix f) name = any_suffix f name.
Proof.
  induction name as [|c name IH]; cbn [any_suffix]; [by rewrite !orb_false_r|]. rewrite IH.
  by destruct (f (c :: name)), (any_suffix f name).
Qed.

Lemma any_suffix_ext f g name : (forall s, f s = g s) -> any_suffix f name = any_suffix g name.
Proof. intros H. induction name as [|c name IH]; cbn [any_suffix]; rewrite H; [done|by rewrite IH]. Qed.

Lemma glob_stars p name : any_suffix (glob (drop_stars p)) name = any_suffix (glob p) name.
Proof.
  induction p as [|c p IH]; cbn [drop_stars]; [done|]. destruct (Ascii.eqb c "*") eqn:Ec; [|done].
  rewrite IH, <- any_suffix_idem. apply any_suffix_ext. intros s. cbn [glob]. by rewrite Ec.
Qed.

(** The characters a pattern may have: no question mark, and in ASCII. *)
Definition ascii7 (c : ascii) : Prop := (0 < nat_of_ascii c < 128)%nat.
Definition plain (p : list ascii) : Prop := Forall (fun c => ascii7 c /\ c <> "?"%char) p.

Lemma glob_literal p name : plain p ->
  glob p name = starts_with (take (literal p) p) name && glob (drop (literal p) p) (drop (literal p) name).
Proof.
  revert name; induction p as [|c p IH]; intros name Hp; [by destruct name|]. apply Forall_cons in Hp as [[_ Hq] Hp].
  cbn [literal]. unfold is_wild. destruct (Ascii.eqb c "*") eqn:Ec; [done|]. cbn [orb].
  rewrite (proj2 (Ascii.eqb_neq c "?")) by done. cbn [take drop glob]. rewrite Ec.
  rewrite (proj2 (Ascii.eqb_neq c "?")) by done. cbn [orb]. destruct name as [|d name]; [done|]. cbn [starts_with drop].
  rewrite IH by done. by rewrite andb_assoc.
Qed.

Lemma plain_drop p n : plain p -> plain (drop n p).
Proof. apply Forall_drop. Qed.

Lemma plain_stars p : plain p -> plain (drop_stars p).
Proof. induction 1 as [|c p Hc Hp IH]; cbn; [constructor|]. destruct (Ascii.eqb c "*"); [done|by constructor]. Qed.

Lemma drop_stars_length p : (length (drop_stars p) <= length p)%nat.
Proof. induction p as [|c p IH]; cbn; [done|]. destruct (Ascii.eqb c "*"); cbn; lia. Qed.

Lemma slot_range name : Forall ascii7 name -> 0 <= slot name < Z.of_nat NODE_DEGREE.
Proof.
  intros H. unfold slot. assert (0 <= match name with [] => 0 | c :: _ => char_val c end) as Hc.
  { destruct H as [|c name Hc _]; [done|]. unfold char_val. unfold ascii7 in Hc. rewrite wraps_small by (unfold in_s; lia). lia. }
  pose proof (Z.rem_bound_pos _ (Z.of_nat NODE_DEGREE) Hc ltac:(done)). lia.
Qed.

Lemma plain_ascii p : plain p -> Forall ascii7 p.
Proof. intros H. eapply Forall_impl; [exact H|]. by intros c []. Qed.

Lemma update1_idem fn c : update_fn_config1 (update_fn_config1 fn c) c = update_fn_config1 fn c.
Proof.
  unfold update_fn_config1. cbn [dump_before dump_after zero_before toggle_collect fn_skip pop_on_jump group
    separate_callers separate_recursions fn_name number last_cxt].
  repeat match goal with |- context [?x =? CONFIG_DEFAULT] => destruct (x =? CONFIG_DEFAULT) end; done.
Qed.

Lemma each_suffix_ok (f : list ascii -> fn_node -> res fn_node) (g : list ascii -> bool) c name fn :
  (forall s t fn, name = s ++ t -> f t fn = Ok (if g t then update_fn_config1 fn c else fn)) ->
  each_suffix f name fn = Ok (if any_suffix g name then update_fn_config1 fn c else fn).
Proof.
  revert fn; induction name as [|d name IH]; intros fn H; cbn [each_suffix any_suffix].
  - rewrite (H []) by done. by rewrite orb_false_r.
  - rewrite (H []) by done. cbn [rbind]. rewrite IH by (intros s t fn' ->; by apply (H (d :: s))).
    destruct (g (d :: name)), (any_suffix g name); cbn [orb]; by rewrite ?update1_idem.
Qed.

(** One round of [update_fn_config2] at a node: its chain, then its wildcards. *)
Definition update_subs (fuel : nat) (h : list config_node) (x : config_node) (fn : fn_node) (name : list ascii) : res fn_node :=
  let! n := arr_get (sub_node x) (slot name) in
  let! n := find_chain (length h) (fun y => Ok (starts_with (nd_name y) name)) h n in
  match n with
  | None => Ok fn
  | Some k => let! y := get_node h k in update_fn_config2 fuel h fn (drop (length (nd_name y)) name) k
  end.

Lemma update2_step fuel h fn name node x : h !! node = Some x -> nd_config x = None -> wild_char x = None ->
  update_fn_config2 (S fuel) h fn name node =
    let! fn := update_subs fuel h x fn name in
    match wild_star x with
    | None => Ok fn
    | Some k => each_suffix (fun name fn => update_fn_config2 fuel h fn name k) name fn
    end.
Proof.
  intros Hx Hc Hw. cbn [update_fn_config2]. unfold get_node at 1. rewrite Hx. cbn [rbind]. rewrite Hc, Hw. unfold update_subs.
  destruct (arr_get (sub_node x) (slot name)) as [n|]; cbn [rbind]; [|by destruct name].
  destruct (find_chain (length h) _ h n) as [r|]; cbn [rbind]; [|by destruct name]. by destruct name.
Qed.

(** ** A path for one pattern *)

(** Below node [k] the trie has one path, for [p], and [c] at its end. *)
Inductive branch (h : list config_node) (c : fn_config) : nat -> list ascii -> Prop :=
  | branch_end k x : h !! k = Some x -> nd_config x = Some c -> sub_node x = replicate NODE_DEGREE None ->
      wild_char x = None -> wild_star x = None -> branch h c k []
  | branch_star k x k' p : h !! k = Some x -> nd_config x = None -> sub_node x = replicate NODE_DEGREE None ->
      wild_char x = None -> wild_star x = Some k' -> (k < k')%nat -> branch h c k' (drop_stars p) ->
      branch h c k ("*"%char :: p)
  | branch_lit k x k' y d p : h !! k = Some x -> nd_config x = None -> is_wild d = false ->
      sub_node x = <[Z.to_nat (slot (d :: p)) := Some k']> (replicate NODE_DEGREE None) ->
      wild_char x = None -> wild_star x = None -> (k < k')%nat -> h !! k' = Some y ->
      nd_name y = take (literal (d :: p)) (d :: p) -> nd_next y = None ->
      branch h c k' (drop (literal (d :: p)) (d :: p)) -> branch h c k (d :: p).

Lemma branch_bound h c k p : branch h c k p -> (k < length h)%nat.
Proof. destruct 1; by eapply lookup_lt_Some. Qed.

Lemma branch_frame h h' c k p : branch h c k p -> (forall j, (k <= j < length h)%nat -> h' !! j = h !! j) -> branch h' c k p.
Proof.
  intros H; induction H as [k x Hx|k x k' p Hx ? ? ? ? Hk Hb IH|k x k' y d p Hx ? ? ? ? ? Hk Hy ? ? Hb IH]; intros Hf;
    pose proof (lookup_lt_Some _ _ _ Hx) as Hlt.
  - eapply branch_end; [rewrite Hf by lia|..]; done.
  - eapply branch_star; [rewrite Hf by lia|..]; try done. apply IH. intros j Hj. apply Hf. lia.
  - pose proof (lookup_lt_Some _ _ _ Hy) as Hlt'.
    eapply branch_lit; [rewrite Hf by lia|..]; try done; [rewrite Hf by lia; done|]. apply IH. intros j Hj. apply Hf. lia.
Qed.

(** One link of the chain. *)
Lemma find_one (h : list config_node) (name : list ascii) k y : h !! k = Some y -> nd_next y = None ->
  find_chain (length h) (fun y => Ok (starts_with (nd_name y) name)) h (Some k) =
    Ok (if starts_with (nd_name y) name then Some k else None).
Proof.
  intros Hy Hn. pose proof (lookup_lt_Some _ _ _ Hy) as Hl. destruct (length h) as [|n]; [lia|].
  cbn [find_chain]. unfold get_node. rewrite Hy. cbn [rbind]. destruct (starts_with _ _); [done|].
  change (next y) with (nd_next y). rewrite Hn. by destruct n.
Qed.

Lemma suffix_ascii (name s t : list ascii) : name = s ++ t -> Forall ascii7 name -> Forall ascii7 t.
Proof. intros ->. rewrite Forall_app. by intros []. Qed.

Lemma no_subs fuel h x fn name : sub_node x = replicate NODE_DEGREE None -> Forall ascii7 name ->
  update_subs fuel h x fn name = Ok fn.
Proof.
  intros Hs Ha. pose proof (slot_range name Ha). unfold update_subs.
  rewrite Hs, (arr_get_in _ _ None) by (lia || (apply lookup_replicate; split; [done|lia])). cbn [rbind].
  by destruct (length h).
Qed.

Lemma literal_length p : length (take (literal p) p) = literal p.
Proof. rewrite length_take. apply Nat.min_l. induction p as [|c p IH]; cbn; [done|]. destruct (is_wild c); cbn; lia. Qed.

(** One child, for the literal beginning of [d :: p]. *)
Lemma one_sub fuel h x k y d p fn name (r : list ascii -> fn_node -> fn_node) : is_wild d = false -> plain (d :: p) ->
  sub_node x = <[Z.to_nat (slot (d :: p)) := Some k]> (replicate NODE_DEGREE None) -> h !! k = Some y ->
  nd_name y = take (literal (d :: p)) (d :: p) -> nd_next y = None -> Forall ascii7 name ->
  (forall fn, update_fn_config2 fuel h fn (drop (literal (d :: p)) name) k = Ok (r (drop (literal (d :: p)) name) fn)) ->
  update_subs fuel h x fn name = Ok (if starts_with (nd_name y) name then r (drop (literal (d :: p)) name) fn else fn).
Proof.
  intros Hd Hp Hs Hy Hn Hnx Ha Hsub. pose proof (slot_range name Ha) as Hsl. pose proof (slot_range _ (plain_ascii _ Hp)) as Hsp.
  pose proof (lookup_lt_Some _ _ _ Hy) as Hlt. unfold update_subs.
  destruct (Z.eq_dec (slot name) (slot (d :: p))) as [Es|Hne].
  - rewrite (arr_get_in _ _ (Some k)); [|lia|rewrite Hs, Es; apply list_lookup_insert_eq; rewrite length_replicate; lia].
    cbn [rbind]. rewrite (find_one h name k y) by done. cbn [rbind]. destruct (starts_with _ _); [|done].
    unfold get_node. rewrite Hy. cbn [rbind]. rewrite Hn, literal_length. apply Hsub.
  - rewrite (arr_get_in _ _ None); [|lia|rewrite Hs, list_lookup_insert_ne by lia; apply lookup_replicate; split; [done|lia]].
    assert (starts_with (nd_name y) name = false) as ->; [|by destruct (length h)].
    rewrite Hn. cbn [literal]. rewrite Hd. cbn [take]. destruct name as [|e name]; [done|]. cbn [starts_with].
    destruct (Ascii.eqb_spec d e) as [->|]; [|done]. by unfold slot in Hne.
Qed.

Lemma branch_lookup h c k p : branch h c k p -> plain p -> forall fuel name fn,
  (length h - k <= fuel)%nat -> Forall ascii7 name ->
  update_fn_config2 fuel h fn name k = Ok (if glob p name then update_fn_config1 fn c else fn).
Proof.
  intros H; induction H as [k x Hx Hc Hs Hw Hst|k x k' p Hx Hc Hs Hw Hst Hk Hb IH|k x k' y d p Hx Hc Hd Hs Hw Hst Hk Hy Hn Hnx Hb IH];
    intros Hp fuel name fn Hfuel Ha; pose proof (lookup_lt_Some _ _ _ Hx) as Hlt; (destruct fuel as [|fuel]; [lia|]).
  - pose proof (no_subs fuel h x fn name Hs Ha) as E. unfold update_subs in E. cbn [update_fn_config2]. unfold get_node at 1.
    rewrite Hx. cbn [rbind]. rewrite Hc. destruct name as [|e name]; [done|].
    destruct (arr_get (sub_node x) (slot (e :: name))) as [n|]; cbn [rbind] in *; [|done].
    destruct (find_chain (length h) _ h n) as [r|]; cbn [rbind] in *; [|done]. rewrite E. cbn [rbind]. by rewrite Hw, Hst.
  - rewrite (update2_step fuel h fn name k x) by done. rewrite no_subs by done. cbn [rbind]. rewrite Hst. cbn [glob].
    change (Ascii.eqb "*" "*") with true. cbn iota. rewrite <- glob_stars. apply each_suffix_ok. intros s t fn' ->.
    apply IH; [|lia|by eapply suffix_ascii]. apply plain_stars. by apply Forall_cons in Hp as [].
  - rewrite (update2_step fuel h fn name k x) by done. rewrite (glob_literal (d :: p)) by done. rewrite <- Hn.
    rewrite (one_sub fuel h x k' y d p fn name
      (fun nm fn => if glob (drop (literal (d :: p)) (d :: p)) nm then update_fn_config1 fn c else fn)); try done.
    + cbn [rbind]. rewrite Hst. by destruct (starts_with (nd_name y) name).
    + intros fn'. apply IH; [by apply plain_drop|lia|by apply Forall_drop].
Qed.

(** ** Building a path *)

Definition blank (x : config_node) : Prop :=
  nd_config x = None /\ sub_node x = replicate NODE_DEGREE None /\ wild_char x = None /\ wild_star x = None.

(** All nodes but [k] are as before; [k] keeps its name and its place. *)
Definition grows (h : list config_node) (k : nat) (h' : list config_node) : Prop :=
  (length h <= length h')%nat /\ (forall j, (j < length h)%nat -> j <> k -> h' !! j = h !! j) /\
  forall x, h !! k = Some x -> exists x', h' !! k = Some x' /\ nd_name x' = nd_name x /\ nd_next x' = nd_next x.

Lemma write_fnc_ok h k x store : h !! k = Some x -> blank x ->
  exists h', write_fnc h k store = Ok h' /\ branch h' (store new_fnc) k [] /\ grows h k h'.
Proof.
  intros Hx (B1 & B2 & B3 & B4). pose proof (lookup_lt_Some _ _ _ Hx) as Hlt. unfold write_fnc, get_node. rewrite Hx. cbn [rbind].
  rewrite B1. cbn [default]. eexists. split; [done|]. split.
  - eapply branch_end; [by apply list_lookup_insert_eq|done..].
  - split; [by rewrite length_insert|]. split; [intros j _ Hj; by apply list_lookup_insert_ne|].
    intros y Hy. rewrite list_lookup_insert_eq by done. rewrite Hx in Hy. injection Hy as <-. by eexists.
Qed.

Lemma add_sub_ok h k x name len old : h !! k = Some x -> length (sub_node x) = NODE_DEGREE -> Forall ascii7 name ->
  sub_node x !! Z.to_nat (slot name) = Some old ->
  add_sub h k name len = Ok (length h,
    <[k := set_subs (<[Z.to_nat (slot name) := Some (length h)]> (sub_node x)) x]>
      (h ++ [set_next old (new_config (take len name))])).
Proof.
  intros Hx Hl Ha Ho. pose proof (slot_range name Ha) as Hs. pose proof (lookup_lt_Some _ _ _ Hx) as Hlt.
  unfold add_sub, get_node. rewrite Hx. cbn [rbind]. rewrite (arr_get_in _ _ old) by (done || lia). cbn [rbind].
  rewrite arr_set_in by (rewrite Hl; lia). cbn [rbind]. unfold upd_cnode, get_node. rewrite lookup_app_l by done.
  by rewrite Hx.
Qed.

Lemma find_sub_none fuel h name prev : find_sub fuel h name None prev = Ok None.
Proof. by destruct fuel. Qed.

Lemma build_ok fuel : forall h k x p store, h !! k = Some x -> blank x -> plain p -> (length p < fuel)%nat ->
  exists h', get_fnc2 fuel h k p store = Ok h' /\ branch h' (store new_fnc) k p /\ grows h k h'.
Proof.
  induction fuel as [|fuel IH]; intros h k x p store Hx Hb Hp Hf; [lia|].
  destruct p as [|c p]; [by apply (write_fnc_ok h k x)|]. cbn [get_fnc2]. unfold get_node at 1. rewrite Hx. cbn [rbind].
  pose proof Hb as (B1 & B2 & B3 & B4). pose proof (lookup_lt_Some _ _ _ Hx) as Hlt.
  pose proof Hp as Hp0. apply Forall_cons in Hp as [[Hc Hq] Hp]. unfold is_wild at 1.
  rewrite (proj2 (Ascii.eqb_neq c "?") Hq), orb_false_r. destruct (Ascii.eqb_spec c "*") as [->|Hs].
  - rewrite B4. unfold upd_cnode, get_node. rewrite lookup_app_l, Hx by done. cbn [rbind].
    set (h1 := <[k := set_wild "*" (length h) x]> (h ++ [new_config ["*"%char]])).
    assert (length h1 = S (length h)) as L1 by (unfold h1; rewrite length_insert, length_app; cbn; lia).
    assert (h1 !! length h = Some (new_config ["*"%char])) as H1.
    { unfold h1. rewrite list_lookup_insert_ne, lookup_app_r, Nat.sub_diag by lia. done. }
    destruct (IH h1 (length h) _ (drop_stars p) store H1) as (h' & -> & Hbr & G1 & G2 & G3);
      [done|by apply plain_stars|pose proof (drop_stars_length p); cbn in Hf; lia|].
    exists h'. split; [done|].
    assert (h' !! k = Some (set_wild "*" (length h) x)) as Hk'.
    { rewrite G2 by lia. unfold h1. apply list_lookup_insert_eq. rewrite length_app. cbn. lia. }
    split; [by apply (branch_star _ _ k _ (length h) p Hk')|]. split; [lia|]. split.
    + intros j Hj Hne. rewrite G2 by lia. unfold h1. by rewrite list_lookup_insert_ne, lookup_app_l by done.
    + intros y Hy. rewrite Hx in Hy. injection Hy as <-. eexists. split; [exact Hk'|done].
  - pose proof (slot_range _ (plain_ascii _ Hp0)) as Hsl.
    assert (sub_node x !! Z.to_nat (slot (c :: p)) = Some None) as Hnone.
    { rewrite B2. apply lookup_replicate. split; [done|lia]. }
    assert (length (sub_node x) = NODE_DEGREE) as Hlen by (by rewrite B2).
    rewrite (arr_get_in _ _ None) by (done || lia). cbn [rbind]. rewrite find_sub_none. cbn [rbind].
    assert (is_wild c = false) as Hw.
    { unfold is_wild. by rewrite (proj2 (Ascii.eqb_neq c "*") Hs), (proj2 (Ascii.eqb_neq c "?") Hq). }
    assert (S (literal p) = literal (c :: p)) as El by (cbn [literal]; by rewrite Hw). rewrite El.
    rewrite (add_sub_ok h k x (c :: p) _ None) by (done || by apply plain_ascii). cbn [rbind].
    set (y := set_next None (new_config (take (literal (c :: p)) (c :: p)))).
    set (x1 := set_subs (<[Z.to_nat (slot (c :: p)) := Some (length h)]> (sub_node x)) x).
    set (h1 := <[k := x1]> (h ++ [y])).
    assert (length h1 = S (length h)) as L1 by (unfold h1; rewrite length_insert, length_app; cbn; lia).
    assert (h1 !! length h = Some y) as H1.
    { unfold h1. rewrite list_lookup_insert_ne, lookup_app_r, Nat.sub_diag by lia. done. }
    set (rest := drop (literal (c :: p)) (c :: p)).
    assert (exists h', (match rest with [] => write_fnc h1 (length h) store | a :: l => get_fnc2 fuel h1 (length h) (a :: l) store end) = Ok h' /\
      branch h' (store new_fnc) (length h) rest /\ grows h1 (length h) h') as (h' & -> & Hbr & G1 & G2 & G3).
    { destruct rest as [|d r] eqn:Er; [by apply (write_fnc_ok h1 (length h) y)|]. apply (IH h1 (length h) y); [done|done|rewrite <- Er; by apply plain_drop|].
      rewrite <- Er. unfold rest. rewrite length_drop. rewrite <- El. cbn in Hf |- *. lia. }
    exists h'. split; [done|]. assert (h' !! k = Some x1) as Hk'.
    { rewrite G2 by lia. unfold h1. apply list_lookup_insert_eq. rewrite length_app. cbn. lia. }
    destruct (G3 y H1) as (y' & Hy' & En & Enx). split; [|split; [lia|split]].
    + apply (branch_lit _ _ k x1 (length h) y'); try done. unfold x1. cbn. by rewrite B2.
    + intros j Hj Hne. rewrite G2 by lia. unfold h1. by rewrite list_lookup_insert_ne, lookup_app_l by done.
    + intros z Hz. rewrite Hx in Hz. injection Hz as <-. eexists. split; [exact Hk'|done].
Qed.

(** ** Patterns with different first characters *)

(** A pattern and the assignment of its option. *)
Abbreviation setting := (list ascii * (fn_config -> fn_config))%type.

Definition configure (opts : list setting) (h : list config_node) : res (list config_node) :=
  res_fold (fun '(p, store) h => get_fnc h p store) opts h.

Definition star_first (o : setting) : bool := match o.1 with c :: _ => Ascii.eqb c "*" | [] => false end.

Definition in_slot (i : nat) (o : setting) : Prop := star_first o = false /\ Z.to_nat (slot o.1) = i.
#[local] Instance in_slot_dec i o : Decision (in_slot i o).
Proof. unfold in_slot. apply _. Defined.

(** Node [k] begins the path of a pattern that does not begin with a star. *)
Definition holds (h : list config_node) (k : nat) (o : setting) : Prop :=
  (0 < k)%nat /\ exists y, h !! k = Some y /\ nd_name y = take (literal o.1) o.1 /\
    branch h (o.2 new_fnc) k (drop (literal o.1) o.1).

(** The root after the options [done], the last one first. *)
Record root_ok (h : list config_node) (done : list setting) (x : config_node) : Prop := {
  rk_root : h !! 0%nat = Some x;
  rk_bare : nd_config x = None /\ wild_char x = None /\ length (sub_node x) = NODE_DEGREE;
  rk_star : match wild_star x with
            | None => forall o, o ∈ done -> star_first o = false
            | Some k => exists o p, o ∈ done /\ o.1 = "*"%char :: p /\ (0 < k)%nat /\
                branch h (o.2 new_fnc) k (drop_stars p)
            end;
  rk_subs : forall i, (i < NODE_DEGREE)%nat -> exists head ks, sub_node x !! i = Some head /\ chain h head ks /\
    Forall2 (holds h) ks (filter (in_slot i) done);
  rk_size : (length done < length h)%nat
}.

Lemma holds_frame h h' k o : holds h k o -> (forall j, (0 < j < length h)%nat -> h' !! j = h !! j) -> holds h' k o.
Proof.
  intros (Hk & y & Hy & Hn & Hb) Hf. pose proof (lookup_lt_Some _ _ _ Hy). split; [done|]. exists y.
  split; [by rewrite Hf by lia|]. split; [done|]. apply (branch_frame h); [done|]. intros j Hj. apply Hf. lia.
Qed.

Lemma chains_frame h h' head ks os : chain h head ks -> Forall2 (holds h) ks os ->
  (forall j, (0 < j < length h)%nat -> h' !! j = h !! j) -> chain h' head ks /\ Forall2 (holds h') ks os.
Proof.
  intros Hc HF Hf. split.
  - apply (chain_frame h); [done|]. intros k Hk. apply list_elem_of_lookup_1 in Hk as [i Hi].
    destruct (Forall2_lookup_l _ _ _ _ _ HF Hi) as (o & _ & Hk & y & Hy & _). pose proof (lookup_lt_Some _ _ _ Hy).
    apply Hf. lia.
  - eapply Forall2_impl; [exact HF|]. intros k o Hh. by eapply holds_frame.
Qed.

Lemma find_sub_miss h name n ks : chain h n ks -> forall fuel prev,
  (forall k, k ∈ ks -> exists y, h !! k = Some y /\ common name (nd_name y) = Ok 0%nat) -> (length ks <= fuel)%nat ->
  find_sub fuel h name n prev = Ok None.
Proof.
  revert n; induction ks as [|k ks IH]; intros n Hc fuel prev Hk Hl.
  - cbn in Hc. subst n. apply find_sub_none.
  - destruct Hc as (-> & x & Hx & Hc). destruct fuel as [|fuel]; [cbn in Hl; lia|]. cbn [find_sub]. unfold get_node. rewrite Hx.
    cbn [rbind]. destruct (Hk k) as (y & Hy & E); [set_solver|]. rewrite Hx in Hy. injection Hy as <-. rewrite E. cbn [rbind Nat.ltb Nat.leb].
    apply IH; [done| |cbn in Hl; lia]. intros j Hj. apply Hk. set_solver.
Qed.

(** Different first characters share nothing. *)
Lemma common_differ c d (p q : list ascii) : c <> d -> common (c :: p) (d :: q) = Ok 0%nat.
Proof. intros H. cbn [common]. by rewrite (proj2 (Ascii.eqb_neq c d) H). Qed.

Definition setting_ok (o : setting) : Prop := o.1 <> [] /\ plain o.1.

Lemma chunk_first o : setting_ok o -> star_first o = false ->
  exists c p, o.1 = c :: p /\ is_wild c = false /\ take (literal o.1) o.1 = c :: take (literal p) p.
Proof.
  intros [Hne Hp] Hs. unfold star_first in Hs. destruct o.1 as [|c p] eqn:Eo; [done|]. apply Forall_cons in Hp as [[_ Hq] _].
  assert (is_wild c = false) as Hw by (unfold is_wild; by rewrite Hs, (proj2 (Ascii.eqb_neq c "?") Hq)).
  exists c, p. split_and!; [done|done|]. cbn [literal]. by rewrite Hw.
Qed.

Lemma add_star_setting h done x o : root_ok h done x -> Forall setting_ok done -> setting_ok o ->
  head o.1 ∉ (fun o : setting => head o.1) <$> done -> star_first o = true ->
  exists h' x', get_fnc h o.1 o.2 = Ok h' /\ root_ok h' (o :: done) x'.
Proof.
  intros [Hx (B1 & B2 & B3) Hst Hsub Hsz] Hdone Ho Hnew Es. pose proof (lookup_lt_Some _ _ _ Hx) as Hlt.
  unfold get_fnc. destruct h as [|h0 hr] eqn:Eh; [done|]. rewrite <- Eh in *. clear Eh h0 hr.
  assert (forall o', o' ∈ done -> head o'.1 <> head o.1) as Hne.
  { intros o' Ho' E. apply Hnew. rewrite <- E. by apply (list_elem_of_fmap_2 (fun o : setting => head o.1)). }
  destruct Ho as [Hnil Hp].
  unfold star_first in Es. destruct o.1 as [|c p] eqn:Eo; [done|]. apply Ascii.eqb_eq in Es. subst c.
  cbn [get_fnc2]. unfold get_node at 1. rewrite Hx. cbn [rbind is_wild]. change (is_wild "*") with true. change (Ascii.eqb "*" "*") with true.
  cbn iota. destruct (wild_star x) as [k|] eqn:Ew.
  { destruct Hst as (o' & p' & Ho' & E' & _). exfalso. apply (Hne o' Ho'). by rewrite E'. }
  unfold upd_cnode, get_node. rewrite lookup_app_l, Hx by done. cbn [rbind].
  set (h1 := <[0%nat := set_wild "*" (length h) x]> (h ++ [new_config ["*"%char]])).
  assert (length h1 = S (length h)) as L1 by (unfold h1; rewrite length_insert, length_app; cbn; lia).
  assert (h1 !! length h = Some (new_config ["*"%char])) as H1.
  { unfold h1. rewrite list_lookup_insert_ne, lookup_app_r, Nat.sub_diag by lia. done. }
  apply Forall_cons in Hp as [_ Hp]. cbn [length].
  destruct (build_ok (S (length p)) h1 (length h) _ (drop_stars p) o.2 H1) as (h' & -> & Hbr & G1 & G2 & _);
    [done|by apply plain_stars|pose proof (drop_stars_length p); lia|].
  assert (forall j, (0 < j < length h)%nat -> h' !! j = h !! j) as Hfr.
  { intros j Hj. rewrite G2 by lia. unfold h1. by rewrite list_lookup_insert_ne, lookup_app_l by lia. }
  exists h', (set_wild "*" (length h) x). split; [done|]. constructor.
  + rewrite G2 by lia. unfold h1. apply list_lookup_insert_eq. rewrite length_app. cbn. lia.
  + done.
  + cbn. exists o, p. split_and!; [set_solver|done|lia|done].
  + intros i Hi. destruct (Hsub i Hi) as (hd & ks & E1 & E2 & E3). exists hd, ks. split; [done|].
    rewrite filter_cons_False by (intros [E _]; unfold star_first in E; by rewrite Eo in E). by apply (chains_frame h).
  + cbn. lia.
Qed.

Lemma add_literal_setting h done x o : root_ok h done x -> Forall setting_ok done -> setting_ok o ->
  head o.1 ∉ (fun o : setting => head o.1) <$> done -> star_first o = false ->
  exists h' x', get_fnc h o.1 o.2 = Ok h' /\ root_ok h' (o :: done) x'.
Proof.
  intros [Hx (B1 & B2 & B3) Hst Hsub Hsz] Hdone Ho Hnew Es. pose proof (lookup_lt_Some _ _ _ Hx) as Hlt.
  unfold get_fnc. destruct h as [|h0 hr] eqn:Eh; [done|]. rewrite <- Eh in *. clear Eh h0 hr.
  assert (forall o', o' ∈ done -> head o'.1 <> head o.1) as Hne.
  { intros o' Ho' E. apply Hnew. rewrite <- E. by apply (list_elem_of_fmap_2 (fun o : setting => head o.1)). }
  pose proof Ho as [Hnil Hp].
  destruct (chunk_first o) as (c & p & Eo & Hw & Ech); [done|done|]. rewrite Eo. cbn [get_fnc2]. unfold get_node at 1.
  rewrite Hx. cbn [rbind]. rewrite Hw. rewrite Eo in Hp. pose proof (slot_range _ (plain_ascii _ Hp)) as Hsl.
  destruct (Hsub (Z.to_nat (slot (c :: p)))) as (hd & ks & E1 & E2 & E3); [unfold NODE_DEGREE in *; lia|].
  rewrite (arr_get_in _ _ hd) by (done || lia). cbn [rbind].
  rewrite (find_sub_miss h (c :: p) hd ks E2); [| |].
  2:{ intros k Hk. apply list_elem_of_lookup_1 in Hk as [i Hi].
      destruct (Forall2_lookup_l _ _ _ _ _ E3 Hi) as (o' & Ho' & _ & y & Hy & Hn & _). exists y. split; [done|].
      apply list_elem_of_lookup_2, list_elem_of_filter in Ho' as [[Hs' _] Ho'].
      destruct (chunk_first o') as (c' & p' & Eo' & _ & Ech'); [by eapply Forall_forall in Hdone|done|].
      rewrite Hn, Ech'. apply common_differ. intros ->. apply (Hne o' Ho'). by rewrite Eo', Eo. }
  2:{ rewrite (Forall2_length _ _ _ E3). pose proof (length_filter (in_slot (Z.to_nat (slot (c :: p)))) done). lia. }
  cbn [rbind]. assert (S (literal p) = literal (c :: p)) as El by (cbn [literal]; by rewrite Hw). rewrite El.
  rewrite (add_sub_ok h 0 x (c :: p) _ hd) by (done || by apply plain_ascii). cbn [rbind].
  set (y := set_next hd (new_config (take (literal (c :: p)) (c :: p)))).
  set (x1 := set_subs (<[Z.to_nat (slot (c :: p)) := Some (length h)]> (sub_node x)) x).
  set (h1 := <[0%nat := x1]> (h ++ [y])).
  assert (length h1 = S (length h)) as L1 by (unfold h1; rewrite length_insert, length_app; cbn; lia).
  assert (h1 !! length h = Some y) as H1.
  { unfold h1. rewrite list_lookup_insert_ne, lookup_app_r, Nat.sub_diag by lia. done. }
  set (rest := drop (literal (c :: p)) (c :: p)).
  assert (exists h', (match rest with [] => write_fnc h1 (length h) o.2 | a :: l => get_fnc2 (length (c :: p)) h1 (length h) (a :: l) o.2 end) = Ok h' /\
    branch h' (o.2 new_fnc) (length h) rest /\ grows h1 (length h) h') as (h' & -> & Hbr & G1 & G2 & G3).
  { destruct rest as [|d r] eqn:Er; [by apply (write_fnc_ok h1 (length h) y)|].
    apply (build_ok _ h1 (length h) y); [done|done|rewrite <- Er; by apply plain_drop|].
    rewrite <- Er. unfold rest. rewrite length_drop. rewrite <- El. cbn. lia. }
  assert (forall j, (0 < j < length h)%nat -> h' !! j = h !! j) as Hfr.
  { intros j Hj. rewrite G2 by lia. unfold h1. by rewrite list_lookup_insert_ne, lookup_app_l by lia. }
  destruct (G3 y H1) as (y' & Hy' & En & Enx).
  exists h', x1. split; [done|]. constructor.
  + rewrite G2 by lia. unfold h1. apply list_lookup_insert_eq. rewrite length_app. cbn. lia.
  + split_and!; [done|done|]. unfold x1. cbn. by rewrite length_insert.
  + cbn. destruct (wild_star x) as [k|].
    * destruct Hst as (o' & q & Ho' & Eq & Hk & Hbq). exists o', q. split_and!; [set_solver|done|done|].
      apply (branch_frame h); [done|]. intros j Hj. apply Hfr. lia.
    * intros o' Ho'. apply elem_of_cons in Ho' as [->|Ho']; [done|by apply Hst].
  + intros i Hi. unfold x1. cbn [set_subs sub_node]. destruct (decide (i = Z.to_nat (slot (c :: p)))) as [->|Hni].
    * exists (Some (length h)), (length h :: ks). rewrite list_lookup_insert_eq by (rewrite B3; done). split; [done|].
      destruct (chains_frame h h' hd ks _ E2 E3 Hfr) as [Hc' HF']. split.
      -- split; [done|]. exists y'. split; [done|]. change (next y') with (nd_next y'). by rewrite Enx.
      -- rewrite filter_cons_True by (split; [done|by rewrite Eo]). constructor; [|done]. split; [lia|]. exists y'.
         split; [done|]. rewrite Eo. split; [by rewrite En|done].
    * destruct (Hsub i Hi) as (hd' & ks' & F1 & F2 & F3). exists hd', ks'. rewrite list_lookup_insert_ne by done. split; [done|].
      rewrite filter_cons_False by (intros [_ E]; by rewrite Eo in E). by apply (chains_frame h).
  + cbn. lia.
Qed.

Lemma add_setting h done x o : root_ok h done x -> Forall setting_ok done -> setting_ok o ->
  head o.1 ∉ (fun o : setting => head o.1) <$> done ->
  exists h' x', get_fnc h o.1 o.2 = Ok h' /\ root_ok h' (o :: done) x'.
Proof.
  intros. destruct (star_first o) eqn:Es; [by eapply add_star_setting|by eapply add_literal_setting].
Qed.

Lemma configure_ok opts : forall h done x, root_ok h done x -> Forall setting_ok (opts ++ done) ->
  NoDup ((fun o : setting => head o.1) <$> opts ++ done) ->
  exists h' x', configure opts h = Ok h' /\ root_ok h' (reverse opts ++ done) x'.
Proof.
  induction opts as [|o opts IH]; intros h done x Hr Hok Hnd; [by exists h, x|].
  cbn [app fmap list_fmap] in Hnd. apply NoDup_cons in Hnd as [Hn Hnd]. apply Forall_cons in Hok as [Ho Hok].
  rewrite fmap_app, elem_of_app in Hn. rewrite Forall_app in Hok. destruct Hok as [Hok Hd].
  destruct (add_setting h done x o) as (h1 & x1 & E & Hr1); [done|done|done|tauto|].
  destruct (IH h1 (o :: done) x1) as (h2 & x2 & E2 & Hr2); [done| | |].
  - apply Forall_app. split; [done|by constructor].
  - rewrite <- Permutation_middle. cbn. rewrite fmap_app. apply NoDup_cons. split; [|by rewrite <- fmap_app].
    rewrite elem_of_app. tauto.
  - exists h2, x2. unfold configure in *. cbn [res_fold]. destruct o as [p store]. cbn [fst snd] in E. rewrite E. cbn [rbind].
    split; [done|]. by rewrite reverse_cons, <- app_assoc.
Qed.

Lemma filter_none {A} (P : A -> Prop) `{!forall x, Decision (P x)} (l : list A) :
  (forall a, a ∈ l -> ~ P a) -> filter P l = [].
Proof.
  induction l as [|a l IH]; intros Hn; [done|]. rewrite filter_cons_False by (apply Hn; by left). apply IH.
  intros b Hb. apply Hn. by right.
Qed.

Lemma filter_one {A} (P : A -> Prop) `{!forall x, Decision (P x)} (l : list A) a :
  NoDup l -> a ∈ l -> P a -> (forall b, b ∈ l -> P b -> b = a) -> filter P l = [a].
Proof.
  induction l as [|b l IH]; intros Hnd Ha HPa Hu; [by apply not_elem_of_nil in Ha|]. apply NoDup_cons in Hnd as [Hb Hnd].
  apply elem_of_cons in Ha as [->|Ha].
  - rewrite filter_cons_True by done. f_equal. apply filter_none. intros c Hc HPc.
    apply Hb. by rewrite <- (Hu c) by (done || by right).
  - rewrite filter_cons_False; [|intros HPb; apply Hb; by rewrite (Hu b) by (done || by left)].
    apply IH; try done. intros c Hc. apply Hu. by right.
Qed.

Lemma same_head (l : list setting) o o' : NoDup ((fun o : setting => head o.1) <$> l) -> o ∈ l -> o' ∈ l ->
  head o.1 = head o'.1 -> o = o'.
Proof.
  intros Hnd [i Hi]%list_elem_of_lookup_1 [j Hj]%list_elem_of_lookup_1 E.
  assert (i = j) as ->; [|congruence]. eapply NoDup_lookup; [exact Hnd| |]; rewrite list_lookup_fmap, ?Hi, ?Hj; cbn; [done|by rewrite E].
Qed.

(** The patterns that match, those that begin with a star last. *)
Definition matching (b : bool) (name : list ascii) (o : setting) : Prop := star_first o = b /\ glob o.1 name = true.
#[global] Instance matching_dec b name o : Decision (matching b name o).
Proof. unfold matching. apply _. Defined.

Definition apply_setting (fn : fn_node) (o : setting) : fn_node := update_fn_config1 fn (o.2 new_fnc).

Lemma glob_head o name : setting_ok o -> matching false name o -> head o.1 = head name.
Proof.
  intros Ho [Hs Hg]. destruct (chunk_first o Ho Hs) as (c & p & Eo & _ & Ech). rewrite glob_literal, Ech in Hg by apply Ho.
  destruct name as [|d name]; [done|]. cbn [starts_with] in Hg. rewrite Eo. cbn.
  destruct (Ascii.eqb_spec c d) as [->|]; [done|done].
Qed.

Lemma star_head o : star_first o = true -> head o.1 = Some "*"%char.
Proof. unfold star_first. destruct o.1 as [|c p]; [done|]. intros ->%Ascii.eqb_eq. done. Qed.

Section lookup.
Context (h : list config_node) (opts done : list setting) (x : config_node) (name : list ascii).
Hypothesis Hr : root_ok h done x.
Hypothesis Hperm : forall o, o ∈ done <-> o ∈ opts.
Hypothesis Hok : Forall setting_ok opts.
Hypothesis Hnd : NoDup ((fun o : setting => head o.1) <$> opts).
Hypothesis Hname : Forall ascii7 name.

Lemma subs_lookup fuel fn : (length h <= S fuel)%nat ->
  update_subs fuel h x fn name = Ok (foldl apply_setting fn (filter (matching false name) opts)).
Proof.
  intros Hf. pose proof (slot_range name Hname) as Hsl. destruct Hr as [_ _ _ Hsub Hsz].
  destruct (Hsub (Z.to_nat (slot name))) as (hd & ks & E1 & E2 & E3); [unfold NODE_DEGREE in *; lia|].
  unfold update_subs. rewrite (arr_get_in _ _ hd) by (done || lia). cbn [rbind].
  assert (forall o, o ∈ opts -> setting_ok o) as Hokf by (by apply Forall_forall).
  pose proof (NoDup_fmap_1 _ _ Hnd) as Hnd'.
  destruct (find_chain_ok (length h) (fun y => Ok (starts_with (nd_name y) name)) (fun y => starts_with (nd_name y) name) h hd ks)
    as [(l1 & k & l2 & y & -> & Hy & Hsw & ->)|[Hno ->]]; [done|done| | |].
  { rewrite (Forall2_length _ _ _ E3). pose proof (length_filter (in_slot (Z.to_nat (slot name))) done). lia. }
  - cbn [rbind]. unfold get_node. rewrite Hy. cbn [rbind].
    destruct (Forall2_lookup_l _ _ _ (length l1) k E3) as (o & Ho & Hk & y' & Hy' & Hn & Hb); [by rewrite lookup_app_r, Nat.sub_diag|].
    rewrite Hy in Hy'. injection Hy' as <-. apply list_elem_of_lookup_2, list_elem_of_filter in Ho as [[Hs _] Ho]. apply Hperm in Ho.
    rewrite (branch_lookup h (o.2 new_fnc) k (drop (literal o.1) o.1)); [|done|by apply plain_drop, Hokf|lia|by apply Forall_drop].
    rewrite Hn, literal_length. rewrite Hn in Hsw.
    assert (glob o.1 name = glob (drop (literal o.1) o.1) (drop (literal o.1) name)) as Eg.
    { rewrite glob_literal by (by apply Hokf). by rewrite Hsw. }
    rewrite <- Eg. assert (head o.1 = head name) as Eh.
    { destruct (chunk_first o (Hokf o Ho) Hs) as (c & p & Eo & _ & Ech). rewrite Ech in Hsw. destruct name as [|d nm]; [done|].
      cbn [starts_with] in Hsw. rewrite Eo. cbn. by destruct (Ascii.eqb_spec c d) as [->|]. }
    assert (forall o', o' ∈ opts -> matching false name o' -> o' = o) as Hu.
    { intros o' Ho' Hm. apply (same_head opts); try done. rewrite Eh. apply glob_head; [by apply Hokf|done]. }
    destruct (glob o.1 name) eqn:Egl.
    + by rewrite (filter_one (matching false name) opts o).
    + rewrite (filter_none _ opts); [done|]. intros o' Ho' Hm. rewrite (Hu o' Ho' Hm) in Hm.
      destruct Hm as [_ Hm]. congruence.
  - cbn [rbind]. rewrite (filter_none _ opts); [done|]. intros o Ho Hm.
    pose proof (glob_head o name (Hokf o Ho) Hm) as Eh. destruct Hm as [Hs Hg].
    assert (o ∈ filter (in_slot (Z.to_nat (slot name))) done) as Hin.
    { apply list_elem_of_filter. split; [|by apply Hperm]. split; [done|]. unfold slot.
      destruct (o.1), name; cbn in Eh; try done. by injection Eh as ->. }
    apply list_elem_of_lookup_1 in Hin as [i Hi]. destruct (Forall2_lookup_r _ _ _ _ _ E3 Hi) as (k & Hki & Hk & y & Hy & Hn & _).
    specialize (Hno k y ltac:(by eapply list_elem_of_lookup_2) Hy). cbn in Hno. rewrite Hn in Hno.
    rewrite glob_literal, Hno in Hg by (by apply Hokf). done.
Qed.

Lemma star_lookup fuel fn : (length h <= S fuel)%nat ->
  (match wild_star x with
   | None => Ok fn
   | Some k => each_suffix (fun name fn => update_fn_config2 fuel h fn name k) name fn
   end) = Ok (foldl apply_setting fn (filter (matching true name) opts)).
Proof.
  intros Hf. destruct Hr as [_ _ Hst _ _]. pose proof (NoDup_fmap_1 _ _ Hnd) as Hnd'. destruct (wild_star x) as [k|].
  - destruct Hst as (o & p & Ho & Eo & Hk & Hb). apply Hperm in Ho.
    assert (setting_ok o) as [_ Hp] by (by eapply Forall_forall in Hok). rewrite Eo in Hp. apply Forall_cons in Hp as [_ Hp].
    rewrite (each_suffix_ok _ (glob (drop_stars p)) (o.2 new_fnc)).
    2:{ intros s t fn' E. apply (branch_lookup h); [done|by apply plain_stars|lia|by eapply suffix_ascii]. }
    rewrite glob_stars. assert (star_first o = true) as Hs by (unfold star_first; by rewrite Eo).
    assert (any_suffix (glob p) name = glob o.1 name) as -> by (by rewrite Eo).
    assert (forall o', o' ∈ opts -> matching true name o' -> o' = o) as Hu.
    { intros o' Ho' [Hs' _]. apply (same_head opts); try done. by rewrite !star_head. }
    destruct (glob o.1 name) eqn:Eg.
    + by rewrite (filter_one (matching true name) opts o).
    + rewrite (filter_none _ opts); [done|]. intros o' Ho' Hm. rewrite (Hu o' Ho' Hm) in Hm.
      destruct Hm as [_ Hm]. congruence.
  - rewrite (filter_none _ opts); [done|]. intros o Ho [Hs _]. apply Hperm in Ho. by rewrite (Hst o Ho) in Hs.
Qed.
End lookup.

(** Options by function name do what their patterns say, as long as the patterns
    begin with different characters and have no question mark: the trie is built without a fault, and a function of any ASCII name gets exactly the
    settings of the patterns that match it, with a star standing for any
    characters; a pattern that begins with a star is applied last. *)
Lemma patterns_exact (opts : list setting) :
  Forall setting_ok opts -> NoDup ((fun o : setting => head o.1) <$> opts) ->
  exists h, configure opts [] = Ok h /\
    forall fn, let name := list_ascii_of_string (fn_name fn) in
      Forall ascii7 name ->
      update_fn_config h fn =
        Ok (foldl apply_setting fn (filter (matching false name) opts ++ filter (matching true name) opts)).
Proof.
  intros Hok Hnd. destruct opts as [|o opts]; [by exists []|]. set (h0 := [new_config []]).
  assert (configure (o :: opts) [] = configure (o :: opts) h0) as -> by (by destruct o).
  assert (root_ok h0 [] (new_config [])) as Hr0.
  { constructor; [done|done|intros ? ?; set_solver| |cbn; lia]. intros i Hi. exists None, [].
    split; [|split; [done|constructor]]. cbn [sub_node new_config]. by apply lookup_replicate. }
  destruct (configure_ok (o :: opts) h0 [] (new_config []) Hr0) as (h & x & -> & Hr); [by rewrite app_nil_r..|].
  rewrite app_nil_r in Hr. exists h. split; [done|]. intros fn name Hn.
  assert (forall a, a ∈ reverse (o :: opts) <-> a ∈ o :: opts) as Hperm by (intros a; apply elem_of_reverse).
  pose proof (rk_root _ _ _ Hr) as Hx. pose proof (lookup_lt_Some _ _ _ Hx) as Hlt. destruct (rk_bare _ _ _ Hr) as (B1 & B2 & _).
  unfold update_fn_config. fold name. destruct h as [|n0 hr]; [done|]. set (h := n0 :: hr) in *. cbn [length].
  change (length h) with (S (length hr)). rewrite (update2_step (length hr) h fn name 0 x) by done.
  rewrite (subs_lookup h (o :: opts) _ x name Hr Hperm Hok Hnd Hn (length hr) fn) by done. cbn [rbind].
  rewrite foldl_app. by apply (star_lookup h (o :: opts) (reverse (o :: opts)) x name).
Qed.

(** ** Examples *)

Definition store_skip (c : fn_config) : fn_config :=
  MkFnc (fc_dump_before c) (fc_dump_after c) (fc_zero_before c) (fc_toggle_collect c) CONFIG_TRUE (fc_group c)
    (fc_pop_on_jump c) (fc_separate_callers c) (fc_separate_recursions c).
Definition store_toggle (c : fn_config) : fn_config :=
  MkFnc (fc_dump_before c) (fc_dump_after c) (fc_zero_before c) CONFIG_TRUE (fc_skip c) (fc_group c)
    (fc_pop_on_jump c) (fc_separate_callers c) (fc_separate_recursions c).

Definition ex_named (s : string) : fn_node := MkFn s 0 None false false false false false false 0 0 1.

(** ** A pattern that is given twice *)

Definition no_wild (s : list ascii) : Prop := s <> [] /\ Forall (fun c => ascii7 c /\ is_wild c = false) s.

Lemma literal_app (s : list ascii) rest : Forall (fun c => ascii7 c /\ is_wild c = false) s ->
  literal (s ++ "*"%char :: rest) = length s.
Proof. induction 1 as [|c s [_ Hc] _ IH]; [done|]. cbn [app literal]. rewrite Hc, IH. done. Qed.

Lemma common_app (s rest : list ascii) c : common (s ++ c :: rest) s = Ok (length s).
Proof. induction s as [|d s IH]; [done|]. cbn [app common]. rewrite Ascii.eqb_refl, IH. done. Qed.

Lemma starts_app (s t : list ascii) : starts_with s (s ++ t) = true.
Proof. induction s as [|d s IH]; [done|]. cbn. by rewrite Ascii.eqb_refl. Qed.

Lemma slot_app (s t : list ascii) : s <> [] -> slot (s ++ t) = slot s.
Proof. by destruct s. Qed.

Section twice.
Context (s : list ascii) (store1 store2 : fn_config -> fn_config).
Hypothesis Hs : no_wild s.

Definition twice_root : config_node := set_subs (<[Z.to_nat (slot s) := Some 1%nat]> (replicate NODE_DEGREE None)) (new_config []).
Definition twice_star : config_node := set_config (store1 new_fnc) (new_config ["*"%char]).

Lemma slot_s : 0 <= slot s < Z.of_nat NODE_DEGREE.
Proof. apply slot_range. destruct Hs as [_ H]. eapply Forall_impl; [exact H|]. by intros c []. Qed.

Lemma first_time : get_fnc [] (s ++ ["*"%char]) store1 = Ok [twice_root; set_wild "*" 2 (new_config s); twice_star].
Proof.
  pose proof slot_s as Hsl. destruct Hs as [Hne Hw]. pose proof (slot_app s ["*"%char] Hne) as Esl.
  destruct s as [|c s'] eqn:E; [done|]. rewrite <- E in *. unfold get_fnc.
  assert (length (s ++ ["*"%char]) = S (S (length s'))) as -> by (rewrite E, length_app; cbn; lia).
  pose proof Hw as Hw0. rewrite E in Hw0. apply Forall_cons in Hw0 as [[_ Hc] Hw0].
  rewrite E at 1. cbn [app]. cbn [get_fnc2]. cbn [get_node lookup list_lookup rbind]. rewrite Hc.
  change (c :: s' ++ ["*"%char]) with ((c :: s') ++ ["*"%char]). rewrite <- E, Esl.
  rewrite (arr_get_in _ _ None) by (lia || (apply lookup_replicate; split; [done|lia])). cbn [rbind find_sub length].
  rewrite (literal_app s' []) by done.
  assert (S (length s') = length s) as El by (by rewrite E). rewrite El.
  rewrite (add_sub_ok _ 0 (new_config []) _ _ None); [|done|done| |].
  2:{ apply Forall_app. split; [|repeat constructor; cbn; lia]. eapply Forall_impl; [exact Hw|]. by intros d []. }
  2:{ rewrite Esl. apply lookup_replicate. split; [done|lia]. }
  cbn [rbind]. rewrite drop_app_length, take_app_length, Esl. cbn [insert list_insert app length].
  change (set_subs (<[Z.to_nat (slot s):=Some 1%nat]> (sub_node (new_config []))) (new_config [])) with twice_root.
  done.
Qed.

Definition twice_node : config_node :=
  set_subs (<[12%nat := Some 3%nat]> (replicate NODE_DEGREE None)) (set_wild "*" 2 (new_config s)).

Lemma second_time : get_fnc [twice_root; set_wild "*" 2 (new_config s); twice_star] (s ++ ["*"%char]) store2 =
  Ok [twice_root; twice_node; twice_star; set_config (store2 new_fnc) (new_config ["*"%char])].
Proof.
  pose proof slot_s as Hsl. destruct Hs as [Hne Hw]. pose proof (slot_app s ["*"%char] Hne) as Esl.
  destruct s as [|c s'] eqn:E; [done|]. rewrite <- E in *. unfold get_fnc.
  assert (length (s ++ ["*"%char]) = S (S (length s'))) as -> by (rewrite E, length_app; cbn; lia).
  pose proof Hw as Hw0. rewrite E in Hw0. apply Forall_cons in Hw0 as [[_ Hc] Hw0].
  rewrite E at 2. cbn [app]. cbn [get_fnc2]. cbn [get_node lookup list_lookup rbind]. rewrite Hc.
  change (c :: s' ++ ["*"%char]) with ((c :: s') ++ ["*"%char]). rewrite <- E, Esl.
  rewrite (arr_get_in _ _ (Some 1%nat)) by (lia || (apply list_lookup_insert_eq; rewrite length_replicate; unfold NODE_DEGREE in *; lia)).
  cbn [rbind find_sub length get_node lookup list_lookup]. cbn [set_wild nd_name new_config]. change (nd_name (set_wild "*" 2 (new_config s))) with s.
  rewrite (common_app s [] "*"). cbn [rbind]. assert ((0 <? length s)%nat = true) as -> by (rewrite E; done).
  cbn [get_node lookup list_lookup rbind]. change (nd_name (set_wild "*" 2 (new_config s))) with s.
  rewrite Nat.ltb_irrefl, drop_app_length. done.
Qed.

(** A repeated pattern ends in a literal star: its setting reaches only names
    with a star in them. *)
Lemma twice_lookup fn d t : list_ascii_of_string (fn_name fn) = s ++ d :: t -> Forall ascii7 (d :: t) -> d <> "*"%char ->
  update_fn_config [twice_root; twice_node; twice_star; set_config (store2 new_fnc) (new_config ["*"%char])] fn =
    Ok (update_fn_config1 fn (store1 new_fnc)).
Proof.
  intros En Ht Hd. pose proof slot_s as Hsl. destruct Hs as [Hne Hw]. unfold update_fn_config. rewrite En.
  pose proof (slot_app s (d :: t) Hne) as Esl. pose proof (slot_range _ Ht) as Hdt.
  set (h := [twice_root; twice_node; twice_star; set_config (store2 new_fnc) (new_config ["*"%char])]).
  assert (forall nm fn, Forall ascii7 nm -> update_fn_config2 2 h fn nm 2 =
    Ok (if match nm with [] => true | _ => false end then update_fn_config1 fn (store1 new_fnc) else fn)) as Hstar.
  { intros nm fn' Hnm. cbn [update_fn_config2 get_node lookup list_lookup h rbind]. destruct nm as [|a nm]; [done|].
    pose proof (slot_range _ Hnm). cbn [twice_star set_config nd_config sub_node new_config].
    rewrite (arr_get_in _ _ None) by (lia || (apply lookup_replicate; split; [done|lia])). done. }
  change (length _) with 4%nat. rewrite (update2_step 3 h fn (s ++ d :: t) 0 twice_root) by done. unfold update_subs.
  rewrite Esl. cbn [twice_root set_subs sub_node new_config wild_star].
  rewrite (arr_get_in _ _ (Some 1%nat)) by (lia || (apply list_lookup_insert_eq; rewrite length_replicate; unfold NODE_DEGREE in *; lia)).
  cbn [rbind]. change (length h) with 4%nat. cbn [find_chain]. change (get_node h 1) with (@Ok config_node twice_node). cbn [rbind].
  change (nd_name twice_node) with s. rewrite starts_app. cbn [rbind]. change (get_node h 1) with (@Ok config_node twice_node). cbn [rbind].
  change (nd_name twice_node) with s. rewrite drop_app_length.
  rewrite (update2_step 2 h fn (d :: t) 1 twice_node) by done. unfold update_subs.
  change (sub_node twice_node) with (<[12%nat := Some 3%nat]> (replicate NODE_DEGREE None : list (option nat))).
  change (wild_star twice_node) with (Some 2%nat). set (slots := <[12%nat := Some 3%nat]> (replicate NODE_DEGREE None)).
  assert ((let! n := arr_get slots (slot (d :: t)) in
           find_chain 4 (fun y => Ok (starts_with (nd_name y) (d :: t))) h n) = Ok None) as Hf.
  { destruct (decide (slot (d :: t) = 12)) as [E12|Hn12].
    - rewrite E12. change (arr_get slots 12) with (@Ok (option nat) (Some 3%nat)). cbn [rbind find_chain].
      change (get_node h 3) with (@Ok config_node (set_config (store2 new_fnc) (new_config ["*"%char]))).
      cbn [rbind set_config nd_name new_config starts_with]. by rewrite (proj2 (Ascii.eqb_neq "*" d)) by congruence.
    - rewrite (arr_get_in _ _ None); [done|lia|]. unfold slots. rewrite list_lookup_insert_ne by lia. apply lookup_replicate. split; [done|lia]. }
  destruct (arr_get slots (slot (d :: t))) as [n0|]; [|done]. cbn [rbind] in *. change (length h) with 4%nat in *.
  rewrite Hf. cbn [rbind].
  rewrite (each_suffix_ok _ (fun nm => match nm with [] => true | _ => false end) (store1 new_fnc)).
  - cbn [rbind]. replace (any_suffix _ (d :: t)) with true; [done|]. symmetry. clear. cbn [any_suffix orb].
    induction t as [|a t IH]; [done|]. exact IH.
  - intros u v fn' Ev. apply Hstar. by eapply suffix_ascii.
Qed.
End twice.

(** When two options have the same pattern ending in a star, the second one is
    lost: for every such pattern and every function whose name goes on after it
    (with anything but a star) only the first setting is applied. *)
Theorem repeated_pattern_ignored (s : list ascii) (store1 store2 : fn_config -> fn_config) (fn : fn_node) d t :
  no_wild s -> list_ascii_of_string (fn_name fn) = s ++ d :: t -> Forall ascii7 (d :: t) -> d <> "*"%char ->
  exists h, configure [(s ++ ["*"%char], store1); (s ++ ["*"%char], store2)] [] = Ok h /\
    update_fn_config h fn = Ok (update_fn_config1 fn (store1 new_fnc)).
Proof.
  intros Hs En Ht Hd. eexists. split; [|by apply (twice_lookup s store1 store2 Hs fn d t)].
  unfold configure. cbn [res_fold]. rewrite first_time by done. cbn [rbind]. by rewrite second_time.
Qed.

(** --toggle-collect=mem* --fn-skip=mem*: memcpy is not skipped. *)
Lemma repeated_pattern_ignored_witness :
  exists h fn, configure [(list_ascii_of_string "mem*", store_toggle); (list_ascii_of_string "mem*", store_skip)] [] = Ok h /\
    update_fn_config h (ex_named "memcpy") = Ok fn /\ toggle_collect fn = true /\ fn_skip fn = false.
Proof.
  destruct (repeated_pattern_ignored (list_ascii_of_string "mem") store_toggle store_skip (ex_named "memcpy")
    "c"%char (list_ascii_of_string "py")) as (h & E & H).
  - split; [discriminate|]. repeat constructor; cbn; lia.
  - reflexivity.
  - repeat constructor; cbn; lia.
  - discriminate.
  - exists h. eexists. split; [exact E|]. split; [exact H|]. split; reflexivity.
Defined.

(** ** Other patterns that interfere *)

Definition ex_run (opts : list (string * (fn_config -> fn_config))) (s : string) : res (bool * bool) :=
  let! h := configure ((fun o => (list_ascii_of_string o.1, o.2)) <$> opts) [] in
  let! fn := update_fn_config h (ex_named s) in
  Ok (fn_skip fn, toggle_collect fn).

(** The same text twice. *)
Example same_text_overreads : ex_run [("foo"%string, store_skip); ("foo"%string, store_toggle)] "foo" = Err OutOfBounds.
Proof. reflexivity. Qed.

(** The end of a pattern hides another one. *)
Example short_pattern_hides :
  ex_run [("abx"%string, store_skip)] "abx" = Ok (true, false) /\
  ex_run [("abx"%string, store_skip); ("ab"%string, store_toggle)] "abx" = Ok (false, false).
Proof. split; reflexivity. Qed.

(** A star after a text that is the beginning of another pattern. *)
Example star_misplaced : ex_run [("abc"%string, store_skip); ("ab*"%string, store_toggle)] "abq" = Ok (false, false).
Proof. reflexivity. Qed.

(** The chain of a node that was split. *)
Example stale_chain_matches :
  ex_run [("Hello"%string, store_skip); ("ffx"%string, store_toggle); ("fgy"%string, store_toggle)] "fHello" = Ok (true, false).
Proof. reflexivity. Qed.

(** A question mark at the end of the name. *)
Example question_overreads : ex_run [("a?"%string, store_skip)] "a" = Err OutOfBounds.
Proof. reflexivity. Qed.
