(* ===== verification/ClgLedger.v ===== *)
(** * ClgLedger: what the call graph should say

    The specification of callgrind's call stack is a ledger: the counters so far,
    the functions that are active, and for every call still open its arc, the
    counters when it was entered and the functions before it.  A call that
    returns adds what was counted meanwhile to its arc. *)

From Stdlib Require Import ZArith Lia.
From stdpp Require Import base numbers option gmap list.
From S2P Require Import Prelude ClgJumps ClgContext.

#[local] Open Scope Z_scope.

(** ** Specification *)

Record frame : Type := MkFrame {
  fr_arc : arc;
  fr_fn : Z;
  fr_counted : bool;
  fr_entered : Z -> Z;
  fr_fns : list Z;
  fr_sp : Z
}.

Record ledger : Type := MkLedger {
  lg_total : Z -> Z;
  lg_fns : list Z;
  lg_open : list frame;
  lg_sums : arc -> Z -> Z;
  lg_calls : arc -> Z
}.

(** [v] events of kind [j], a call with the stack pointer after it, a return, and
    the returns that a stack pointer tells of. *)
Inductive action : Type :=
  | Work (j v : Z)
  | Enter (fn from_ jmp_ to_ sp : Z)
  | Leave
  | Unwind (sp minpops : Z).

(** The functions active after [fn] is called: those of one group, and direct
    recursion, count once. *)
Definition enter_fns (fs : gmap Z fn_node) (l : list Z) (fn : Z) : list Z :=
  match l with
  | [] => [fn]
  | g :: _ =>
      if g =? fn then l else
      match fs !! g, fs !! fn with
      | Some x, Some y => if (0 <? group y) && (group x =? group y) then l else fn :: l
      | _, _ => fn :: l
      end
  end.

Section ledger.
Context (fs : gmap Z fn_node) (fn_of : Z -> Z) (skip_recursion : bool).

Definition spec_enter (g : ledger) (fn f j t sp : Z) : ledger :=
  let counted := negb (skip_recursion && (fn_of f =? fn_of t)) in
  MkLedger (lg_total g) (enter_fns fs (lg_fns g) fn)
    (MkFrame (f, j, t) (fn_of t) counted (lg_total g) (lg_fns g) sp :: lg_open g)
    (lg_sums g) (fun b => if decide (b = (f, j, t)) then lg_calls g b + 1 else lg_calls g b).

Definition spec_leave (g : ledger) : ledger :=
  match lg_open g with
  | [] => g
  | fr :: rest =>
      MkLedger (lg_total g) (fr_fns fr) rest
        (fun b i => if decide (b = fr_arc fr) then lg_sums g b i + (lg_total g i - fr_entered fr i)
                    else lg_sums g b i)
        (lg_calls g)
  end.

(** The calls below [sp] have returned; of those at [sp], [minpops] less what was
    popped before. *)
Fixpoint unwound (open : list frame) (sp minpops : Z) : nat :=
  match open with
  | [] => O
  | fr :: rest =>
      if (fr_sp fr <? sp) || ((fr_sp fr =? sp) && (0 <? minpops)) then S (unwound rest sp (minpops - 1)) else O
  end.

Definition spec_action (g : ledger) (a : action) : ledger :=
  match a with
  | Work j v => MkLedger (fun i => if decide (i = j) then lg_total g i + v else lg_total g i)
                  (lg_fns g) (lg_open g) (lg_sums g) (lg_calls g)
  | Enter fn f j t sp => spec_enter g fn f j t sp
  | Leave => spec_leave g
  | Unwind sp minpops => Nat.iter (unwound (lg_open g) sp minpops) spec_leave g
  end.

Fixpoint spec_actions (g : ledger) (acts : list action) : ledger :=
  match acts with
  | [] => g
  | a :: acts' => spec_actions (spec_action g a) acts'
  end.

(** How often the function number [n] is on the stack. *)
Fixpoint active_count (open : list frame) (n : Z) : Z :=
  match open with
  | [] => 0
  | fr :: rest =>
      (if fr_counted fr && bool_decide (number <$> fs !! fr_fn fr = Some n) then 1 else 0) + active_count rest n
  end.

(** Returns close the latest calls. *)
Lemma spec_leaves_open n g : lg_open (Nat.iter n spec_leave g) = drop n (lg_open g).
Proof.
  revert g; induction n as [|n IH]; intros g; [done|]. rewrite Nat.iter_succ_r, IH. unfold spec_leave.
  by destruct (lg_open g) as [|fr rest] eqn:E; [rewrite E, drop_nil|].
Qed.

(** The functions active when no call is open. *)
Definition lg_base (g : ledger) : list Z := default (lg_fns g) (fr_fns <$> last (lg_open g)).

Lemma base_cons (d d' : list Z) fr fr' rest :
  default d (fr_fns <$> last (fr :: fr' :: rest)) = default d' (fr_fns <$> last (fr' :: rest)).
Proof.
  change (last (fr :: fr' :: rest)) with (last (fr' :: rest)).
  destruct (last (fr' :: rest)) eqn:E; [done|]. by apply last_None in E.
Qed.

Lemma spec_leave_base g : lg_base (spec_leave g) = lg_base g.
Proof.
  unfold lg_base, spec_leave. destruct (lg_open g) as [|fr [|fr' rest]] eqn:E; cbn [lg_open lg_fns]; [by rewrite E|done|].
  symmetry. apply base_cons.
Qed.

Lemma spec_leaves_base n g : lg_base (Nat.iter n spec_leave g) = lg_base g.
Proof. induction n as [|n IH]; [done|]. cbn. by rewrite spec_leave_base. Qed.

Lemma spec_actions_base acts g : lg_base (spec_actions g acts) = lg_base g.
Proof.
  revert g; induction acts as [|a acts IH]; intros g; [done|]. cbn [spec_actions]. rewrite IH.
  destruct a as [j v|fn f j t sp| |sp k]; cbn [spec_action]; [done| |apply spec_leave_base|apply spec_leaves_base].
  unfold lg_base, spec_enter. cbn [lg_open lg_fns]. destruct (lg_open g); [done|apply base_cons].
Qed.

(** Unwinding stops at the first call that may still be running. *)
Lemma unwound_le open sp k : (unwound open sp k <= length open)%nat.
Proof. revert k; induction open as [|fr open IH]; intros k; cbn; [lia|]. case_match; [|lia]. specialize (IH (k - 1)). lia. Qed.

Lemma unwound_rest open sp k fr rest : drop (unwound open sp k) open = fr :: rest ->
  sp <= fr_sp fr /\ (fr_sp fr = sp -> k <= Z.of_nat (unwound open sp k)).
Proof.
  revert k; induction open as [|x open IH]; intros k; [done|]. cbn [unwound]. case_match eqn:E.
  - cbn [drop]. intros H. destruct (IH _ H) as [H1 H2]. split; [done|]. intros H3. specialize (H2 H3). lia.
  - cbn [drop]. intros [= -> ->]. apply orb_false_iff in E as [E1 E2]. apply Z.ltb_ge in E1. split; [done|].
    intros H3. rewrite H3, Z.eqb_refl in E2. cbn in E2. apply Z.ltb_ge in E2. lia.
Qed.

Lemma unwound_popped open sp k i fr : (i < unwound open sp k)%nat -> open !! i = Some fr -> fr_sp fr <= sp.
Proof.
  revert k i; induction open as [|x open IH]; intros k i; [done|]. cbn [unwound]. case_match eqn:E; [|lia].
  destruct i as [|i]; [|intros Hi; apply (IH (k - 1)); lia]. intros _ [= <-].
  apply orb_true_iff in E as [E|E]; [apply Z.ltb_lt in E; lia|]. apply andb_true_iff in E as [E _]. lia.
Qed.

Lemma unwound_all open sp k : Forall (fun fr => fr_sp fr < sp) open -> unwound open sp k = length open.
Proof.
  intros H. revert k; induction H as [|fr open Hfr _ IH]; intros k; [done|]. cbn [unwound length].
  by rewrite (proj2 (Z.ltb_lt _ _) Hfr), IH.
Qed.

(** A balanced trace: every call returns, and no return is of a call before. *)
Fixpoint balanced (n : nat) (acts : list action) : Prop :=
  match acts with
  | [] => n = O
  | Work _ _ :: r => balanced n r
  | Enter _ _ _ _ _ :: r => balanced (S n) r
  | Leave :: r => match n with O => False | S n' => balanced n' r end
  | Unwind _ _ :: _ => False
  end.

Fixpoint work (acts : list action) (i : Z) : Z :=
  match acts with
  | [] => 0
  | Work j v :: r => (if decide (i = j) then v else 0) + work r i
  | _ :: r => work r i
  end.

Definition calls_arc (b : arc) (a : action) : Prop :=
  match a with Enter _ f j t _ => b = (f, j, t) | _ => False end.

Lemma spec_actions_app g l1 l2 : spec_actions g (l1 ++ l2) = spec_actions (spec_actions g l1) l2.
Proof. revert g; induction l1 as [|a l1 IH]; intros g; [done|]. apply IH. Qed.

Lemma spec_balanced acts n g b :
  balanced n acts -> (n <= length (lg_open g))%nat -> Forall (fun a => ~ calls_arc b a) acts ->
  (forall k fr, (k < n)%nat -> lg_open g !! k = Some fr -> fr_arc fr <> b) ->
  let g' := spec_actions g acts in
  lg_open g' = drop n (lg_open g) /\
  lg_fns g' = match n with O => lg_fns g | S k => default [] (fr_fns <$> lg_open g !! k) end /\
  (forall i, lg_total g' i = lg_total g i + work acts i) /\
  (forall i, lg_sums g' b i = lg_sums g b i) /\ lg_calls g' b = lg_calls g b.
Proof.
  revert n g; induction acts as [|a acts IH]; intros n g Hb Hn Hno Hfr.
  { cbn [balanced] in Hb. subst n. cbn. split_and!; try done. intros i. lia. }
  apply Forall_cons in Hno as [Ha Hno]. destruct a as [j v|fn f j t sp| |sp k]; cbn [balanced spec_actions work] in *.
  - destruct (IH n (spec_action g (Work j v)) Hb Hn Hno Hfr) as (H1 & H2 & H3 & H4 & H5). split_and!; try done.
    intros i. rewrite H3. cbn [spec_action lg_total]. destruct (decide (i = j)); lia.
  - destruct (IH (S n) (spec_action g (Enter fn f j t sp)) Hb) as (H1 & H2 & H3 & H4 & H5); [cbn; lia|done| |].
    { intros k fr Hk. cbn [spec_action spec_enter lg_open]. destruct k as [|k]; cbn [lookup list_lookup].
      - intros [= <-]. intros E. by apply Ha.
      - intros E. by apply (Hfr k); [lia|]. }
    cbn [spec_action spec_enter lg_open lg_fns lg_calls drop] in *. split_and!; try done.
    + rewrite H2. destruct n as [|n]; done.
    + rewrite H5. by rewrite decide_False.
  - destruct n as [|n]; [done|]. destruct (lg_open g) as [|fr rest] eqn:Eo; [cbn in Hn; lia|]. cbn [length] in Hn.
    unfold spec_action, spec_leave in *. rewrite Eo in *.
    match goal with |- context [spec_actions ?q acts] =>
      destruct (IH n q Hb (le_S_n _ _ Hn) Hno) as (H1 & H2 & H3 & H4 & H5) end.
    { intros k fr' Hk Hl. by apply (Hfr (S k)); [lia|]. }
    cbn [lg_open lg_fns lg_calls lg_sums lg_total] in *. split_and!; try done.
    + rewrite H2. destruct n as [|n]; done.
    + intros i. rewrite H4, decide_False; [done|]. intros ->. by apply (Hfr O fr); [lia|done|].
  - done.
Qed.

(** A call, its body and its return. *)
Lemma spec_call g fn f j t sp body :
  balanced 0 body -> Forall (fun a => ~ calls_arc (f, j, t) a) body ->
  let g' := spec_actions g (Enter fn f j t sp :: body ++ [Leave]) in
  lg_open g' = lg_open g /\ lg_fns g' = lg_fns g /\
  (forall i, lg_sums g' (f, j, t) i = lg_sums g (f, j, t) i + work body i) /\
  lg_calls g' (f, j, t) = lg_calls g (f, j, t) + 1.
Proof.
  intros Hb Hno. cbn [spec_actions]. rewrite spec_actions_app. cbn [spec_actions spec_action].
  set (g1 := spec_enter g fn f j t sp).
  destruct (spec_balanced body 0 g1 (f, j, t) Hb (Nat.le_0_l _) Hno ltac:(lia)) as (H1 & H2 & H3 & H4 & H5).
  unfold spec_leave. rewrite H1, drop_0. change (lg_open g1) with (MkFrame (f, j, t) (fn_of t)
    (negb (skip_recursion && (fn_of f =? fn_of t))) (lg_total g) (lg_fns g) sp :: lg_open g).
  cbn [lg_open lg_fns lg_sums lg_calls fr_fns fr_arc fr_entered]. split_and!; try done.
  - intros i. rewrite decide_True, H4, H3 by done. unfold g1. cbn [spec_enter lg_sums lg_total]. lia.
  - rewrite H5. unfold g1. cbn [spec_enter lg_calls]. by rewrite decide_True.
Qed.
End ledger.
