(* ===== verification/ClgStack.v ===== *)
(** * ClgStack: the call stack (callgrind/callstack.c, push_cxt of context.c)

    Callgrind keeps its own stack of calls beside that of the program: for each
    call the arc, the counters when it was entered, the context before it and
    the stack pointer after it.  The function stack below it is what contexts
    are made of, and the active array counts how often a function is on the
    stack.  A [BBCC*] is an address (0 is null), a [jCC*] and a [Context*] an
    index, as in ClgJumps and ClgContext; fields of a stack entry that were
    allocated and not yet written are [None] (for [enter_cost], which is written
    at once, [None] is null).  CLG_DEBUG output and the
    verbosity a function may set for it are left out. *)

From Stdlib Require Import ZArith Lia Ascii String.
From stdpp Require Import base numbers option strings gmap sets list.
From S2P Require Import Prelude ClgCosts ClgEvents ClgHash ClgJumps ClgContext.

#[local] Open Scope Z_scope.

(** ** Data *)

Record CJmpInfo : Type := MkCJmp { cj_instr : Z; cj_jmpkind : ClgJumpKind }.

(** Of a basic block, its address ([obj->offset] and [offset]), its exits and
    the place and size of its instructions. *)
Record BB : Type := MkBB {
  bb_obj_offset : Z;
  bb_offset : Z;
  bb_jmp : list CJmpInfo;
  bb_instr : list (Z * Z)
}.

(** The fields of a [BBCC] the call stack uses, beside those of [arc_ends]. *)
Record cost_centre : Type := MkCentre {
  cc_bb : Z;
  cc_cxt : option nat;
  cc_skipped : option cptr;
  cc_ret_counter : Z
}.

Record call_entry : Type := MkEntry {
  ce_jcc : option (option nat);
  enter_cost : option cptr;
  ce_sp : option Z;
  ret_addr : option Z;
  ce_nonskipped : option Z;
  ce_cxt : option (option nat);
  ce_fn_sp : option Z
}.

Record call_stack : Type := MkCalls {
  cs_size : Z;
  cs_sp : Z;
  cs_entry : list call_entry
}.

Record fn_stack : Type := MkFnStack {
  fs_size : Z;
  fs_array : list (option Z);
  fs_top : Z
}.

Record fn_array : Type := MkFnArray {
  fa_size : Z;
  fa_array : list Z
}.

Record exec_info : Type := MkExecInfo {
  x_sig : Z;
  x_cost : option cptr;
  x_collect : bool;
  x_cxt : option nat;
  jmps_passed : Z;
  x_bbcc : Z;
  x_nonskipped : Z;
  call_stack_bottom : Z
}.

Record call_stats : Type := MkCallStats {
  call_counter_stat : Z;
  rec_call_counter : Z;
  ret_counter_stat : Z;
  distinct_skips : Z;
  call_stack_resizes : Z
}.

(** The current thread, the tables it uses, and the objects they point to. *)
Record stacks : Type := MkStacks {
  cx : contexts;
  jm : jumps;
  centres : gmap Z cost_centre;
  bbs : gmap Z BB;
  costs : cost_mem;
  full : EventSet;
  current_fn_stack : fn_stack;
  current_call_stack : call_stack;
  current_fn_active : fn_array;
  cur : exec_info;
  skip_direct_recursion : bool;
  stat : call_stats
}.

Definition set_cx (s : stacks) (x : contexts) : stacks :=
  MkStacks x (jm s) (centres s) (bbs s) (costs s) (full s) (current_fn_stack s) (current_call_stack s)
    (current_fn_active s) (cur s) (skip_direct_recursion s) (stat s).
Definition set_jm (s : stacks) (x : jumps) : stacks :=
  MkStacks (cx s) x (centres s) (bbs s) (costs s) (full s) (current_fn_stack s) (current_call_stack s)
    (current_fn_active s) (cur s) (skip_direct_recursion s) (stat s).
Definition set_centres (s : stacks) (x : gmap Z cost_centre) : stacks :=
  MkStacks (cx s) (jm s) x (bbs s) (costs s) (full s) (current_fn_stack s) (current_call_stack s)
    (current_fn_active s) (cur s) (skip_direct_recursion s) (stat s).
Definition set_costs (s : stacks) (x : cost_mem) : stacks :=
  MkStacks (cx s) (jm s) (centres s) (bbs s) x (full s) (current_fn_stack s) (current_call_stack s)
    (current_fn_active s) (cur s) (skip_direct_recursion s) (stat s).
Definition set_fn_stack (s : stacks) (x : fn_stack) : stacks :=
  MkStacks (cx s) (jm s) (centres s) (bbs s) (costs s) (full s) x (current_call_stack s)
    (current_fn_active s) (cur s) (skip_direct_recursion s) (stat s).
Definition set_call_stack (s : stacks) (x : call_stack) : stacks :=
  MkStacks (cx s) (jm s) (centres s) (bbs s) (costs s) (full s) (current_fn_stack s) x
    (current_fn_active s) (cur s) (skip_direct_recursion s) (stat s).
Definition set_active (s : stacks) (x : fn_array) : stacks :=
  MkStacks (cx s) (jm s) (centres s) (bbs s) (costs s) (full s) (current_fn_stack s) (current_call_stack s)
    x (cur s) (skip_direct_recursion s) (stat s).
Definition set_cur (s : stacks) (x : exec_info) : stacks :=
  MkStacks (cx s) (jm s) (centres s) (bbs s) (costs s) (full s) (current_fn_stack s) (current_call_stack s)
    (current_fn_active s) x (skip_direct_recursion s) (stat s).
Definition set_stat (s : stacks) (x : call_stats) : stacks :=
  MkStacks (cx s) (jm s) (centres s) (bbs s) (costs s) (full s) (current_fn_stack s) (current_call_stack s)
    (current_fn_active s) (cur s) (skip_direct_recursion s) x.

(** Fields of the current execution state. *)
Definition set_x_cxt (x : exec_info) (c : option nat) : exec_info :=
  MkExecInfo (x_sig x) (x_cost x) (x_collect x) c (jmps_passed x) (x_bbcc x) (x_nonskipped x)
    (call_stack_bottom x).
Definition set_x_collect (x : exec_info) (b : bool) : exec_info :=
  MkExecInfo (x_sig x) (x_cost x) b (x_cxt x) (jmps_passed x) (x_bbcc x) (x_nonskipped x)
    (call_stack_bottom x).
Definition set_x_nonskipped (x : exec_info) (p : Z) : exec_info :=
  MkExecInfo (x_sig x) (x_cost x) (x_collect x) (x_cxt x) (jmps_passed x) (x_bbcc x) p
    (call_stack_bottom x).

(** A field that must have been written. *)
Definition written {A : Type} (x : option A) : res A :=
  match x with Some v => Ok v | None => Err Indeterminate end.

Definition deref_centre (s : stacks) (p : Z) : res cost_centre :=
  if p =? 0 then Err NullDeref
  else match centres s !! p with Some x => Ok x | None => Err OutOfBounds end.

Definition deref_bb (s : stacks) (p : Z) : res BB :=
  if p =? 0 then Err NullDeref
  else match bbs s !! p with Some x => Ok x | None => Err OutOfBounds end.

(** [cxt->fn[0]] *)
Definition cxt_fn0 (s : stacks) (c : option nat) : res Z :=
  match c with
  | None => Err NullDeref
  | Some k => let! x := get_node (cxt_nodes (cx s)) k in arr_get (cx_fn x) 0
  end.

(** [bbcc->cxt->fn[0]] *)
Definition centre_fn (s : stacks) (p : Z) : res Z :=
  let! x := deref_centre s p in cxt_fn0 s (cc_cxt x).

(** ** The active array (fn.c) *)

Definition N_INITIAL_FN_ARRAY_SIZE : Z := 10071.

Definition init_fn_array (distinct_fns : Z) : fn_array :=
  let sz := if N_INITIAL_FN_ARRAY_SIZE <=? u32 distinct_fns then u32 (distinct_fns + 1)
            else N_INITIAL_FN_ARRAY_SIZE in
  MkFnArray sz (replicate (Z.to_nat sz) 0).

(** [CLG_(get_fn_entry)(n)]: the cell's index; the number is passed as an [Int]. *)
Definition get_fn_entry (s : stacks) (n : Z) : res Z :=
  let n := s32 n in
  let! _ := tl_assert (u32 n <? fa_size (current_fn_active s)) "n < current_fn_active.size" in Ok n.

Definition read_active (s : stacks) (i : Z) : res Z := arr_get (fa_array (current_fn_active s)) i.

(** [( *p) += d] on a cell of the array. *)
Definition add_active (s : stacks) (i d : Z) : res stacks :=
  let! v := read_active s i in
  let! a := arr_set (fa_array (current_fn_active s)) i (u32 (v + d)) in
  Ok (set_active s (MkFnArray (fa_size (current_fn_active s)) a)).

(** ** The function stack (context.c) *)

Definition N_FNSTACK_INITIAL_ENTRIES : Z := 500.

Definition init_fn_stack : fn_stack :=
  MkFnStack N_FNSTACK_INITIAL_ENTRIES
    (Some 0 :: replicate (Z.to_nat N_FNSTACK_INITIAL_ENTRIES - 1) None) 0.

(** The stack of a thread is the current one while the thread runs. *)
Definition copy_current_fn_stack (s : stacks) : fn_stack := current_fn_stack s.
Definition set_current_fn_stack (s : stacks) (f : fn_stack) : stacks := set_fn_stack s f.

(** The array is copied to one of twice the size when it is full. *)
Definition grow_fn_stack (f : fn_stack) : fn_stack :=
  if fs_top f =? u32 (fs_size f - 1) then
    let new_size := u32 (fs_size f * 2) in
    MkFnStack new_size (fs_array f ++ replicate (Z.to_nat (new_size - fs_size f)) None) (fs_top f)
  else f.

(** [f] becomes the top of the stack; the context is the new one. *)
Definition enter_fn (s : stacks) (fn top_fn : Z) : res stacks :=
  let s := set_fn_stack s (grow_fn_stack (current_fn_stack s)) in
  let! s := (if negb (fn =? 0) && (top_fn =? 0) then
               let! f := deref_fn (cx s) fn in
               let! i := get_fn_entry s (number f) in
               add_active s i 1
             else Ok s) in
  let st := current_fn_stack s in
  let top := fs_top st + 1 in
  let! a := arr_set (fs_array st) top (Some fn) in
  let s := set_fn_stack s (MkFnStack (fs_size st) a top) in
  let! (c, x) := get_cxt (cx s) a (Z.to_nat top) in
  let s := set_cx s x in
  Ok (set_cur s (set_x_cxt (cur s) c)).

Definition set_saved_cxt (e : call_entry) (c : option nat) (fn_sp : Z) : call_entry :=
  MkEntry (ce_jcc e) (enter_cost e) (ce_sp e) (ret_addr e) (ce_nonskipped e) (Some c) (Some fn_sp).

Definition set_entry (s : stacks) (i : Z) (e : call_entry) : res stacks :=
  let cs := current_call_stack s in
  let! l := arr_set (cs_entry cs) i e in
  Ok (set_call_stack s (MkCalls (cs_size cs) (cs_sp cs) l)).

Definition push_cxt (s : stacks) (fn : Z) : res stacks :=
  let cs := current_call_stack s in
  let! _ := tl_assert (u32 (cs_sp cs) <? cs_size cs) "cs->sp < cs->size" in
  let! e := arr_get (cs_entry cs) (cs_sp cs) in
  let! c := written (ce_cxt e) in
  let! _ := tl_assert (bool_decide (c = None)) "cs->entry[cs->sp].cxt == 0" in
  let st := current_fn_stack s in
  let! s := set_entry s (cs_sp cs) (set_saved_cxt e (x_cxt (cur s)) (fs_top st)) in
  if fn =? 0 then enter_fn s fn 0 else
  let! top_fn := read_fn (fs_array st) (Z.to_nat (fs_top st)) in
  if top_fn =? fn then Ok s else
  let! f := deref_fn (cx s) fn in
  let! same := (if 0 <? group f then
                  let! t := deref_fn (cx s) top_fn in Ok (group t =? group f)
                else Ok false) in
  if same then Ok s else enter_fn s fn top_fn.

(** ** The call stack (callstack.c) *)

Definition N_CALL_STACK_INITIAL_ENTRIES : Z := 500.

Definition no_entry : call_entry := MkEntry None None None None None None None.

Definition init_call_stack : call_stack :=
  MkCalls N_CALL_STACK_INITIAL_ENTRIES 0
    (MkEntry None None None None None (Some None) None ::
     replicate (Z.to_nat N_CALL_STACK_INITIAL_ENTRIES - 1) no_entry).

Definition get_call_entry (s : stacks) (sp : Z) : res call_entry :=
  let cs := current_call_stack s in
  let! _ := tl_assert (sp <=? cs_sp cs) "sp <= CLG_(current_call_stack).sp" in
  arr_get (cs_entry cs) sp.

Definition copy_current_call_stack (s : stacks) : call_stack := current_call_stack s.
Definition set_current_call_stack (s : stacks) (c : call_stack) : stacks := set_call_stack s c.

(** [while (i > size) size *= 2] *)
Fixpoint double_size (fuel : nat) (i size : Z) : res Z :=
  if u32 i <=? size then Ok size else
  match fuel with
  | O => Err OutOfFuel
  | S fuel' => double_size fuel' i (u32 (size * 2))
  end.

Definition ensure_stack_size (s : stacks) (i : Z) : res stacks :=
  let cs := current_call_stack s in
  if u32 i <? cs_size cs then Ok s else
  let! size := double_size 32 i (u32 (cs_size cs * 2)) in
  let! n := int_add (call_stack_resizes (stat s)) 1 in
  let l := take (Z.to_nat size) (cs_entry cs) ++ replicate (Z.to_nat (size - cs_size cs)) no_entry in
  Ok (set_stat (set_call_stack s (MkCalls size (cs_sp cs) l))
        (MkCallStats (call_counter_stat (stat s)) (rec_call_counter (stat s)) (ret_counter_stat (stat s))
           (distinct_skips (stat s)) n)).

(** The dump of a profile and the reset of all counters (dump.c, main.c), which
    a function may ask for when it is entered or left. *)
Section handlers.
Variable dump_profile : string -> stacks -> res stacks.
Variable zero_all_cost : stacks -> res stacks.

Definition toggle (s : stacks) (fn : fn_node) : stacks :=
  if toggle_collect fn then set_cur s (set_x_collect (cur s) (negb (x_collect (cur s)))) else s.

Definition function_entered (s : stacks) (fn : fn_node) : res stacks :=
  let! s := (if dump_before fn then dump_profile ("--dump-before=" ++ fn_name fn)%string s
             else if zero_before fn then zero_all_cost s
             else Ok s) in
  Ok (toggle s fn).

Definition function_left (s : stacks) (fn : fn_node) : res stacks :=
  let! s := (if dump_after fn then dump_profile ("--dump-after=" ++ fn_name fn)%string s else Ok s) in
  Ok (toggle s fn).

Definition upd_jcc (s : stacks) (k : nat) (f : jCC -> jCC) : res stacks :=
  let! x := get_node (jccs (jm s)) k in
  let j := jm s in
  Ok (set_jm s (MkJumps (<[k := f x]> (jccs j)) (bbccs j) (current_jccs j) (jcc_hash_resizes j)
                  (distinct_jccs j) (jcc_lru_misses j))).

Definition count_call (x : jCC) : jCC :=
  MkJcc (jmpkind x) (next_hash x) (next_from x) (from x) (to x) (jmp x) (u64 (call_counter x + 1)) (jcc_cost x).

Definition set_jcc_cost (p : option cptr) (x : jCC) : jCC :=
  MkJcc (jmpkind x) (next_hash x) (next_from x) (from x) (to x) (jmp x) (call_counter x) p.

Definition count_stats (st : call_stats) (recursive : bool) : call_stats :=
  MkCallStats (u64 (call_counter_stat st + 1))
    (if recursive then u64 (rec_call_counter st + 1) else rec_call_counter st) (ret_counter_stat st)
    (distinct_skips st) (call_stack_resizes st).

(** The depth of [to_fn] changes unless the arc is a direct recursion and these
    are not counted; returns the new depth. *)
Definition change_depth (s : stacks) (k : nat) (to_fn d : Z) : res (Z * stacks) :=
  let! f := deref_fn (cx s) to_fn in
  let! i := get_fn_entry s (number f) in
  let! x := get_node (jccs (jm s)) k in
  let! s := (if skip_direct_recursion s then
               let! from_fn := centre_fn s (from x) in
               if negb (from_fn =? to_fn) then add_active s i d else Ok s
             else add_active s i d) in
  let! depth := read_active s i in
  Ok (depth, s).

(** The arc of a call that is not skipped, counted. *)
Definition call_arc (s : stacks) (from_ jmp_ to_ : Z) : res (nat * stacks) :=
  let! to_fn := centre_fn s to_ in
  let! _ := (if negb (x_nonskipped (cur s) =? 0) then
               tl_assert (x_nonskipped (cur s) =? from_) "CLG_(current_state).nonskipped == from"
             else Ok tt) in
  let sp := cs_sp (current_call_stack s) in
  let! e := arr_get (cs_entry (current_call_stack s)) sp in
  let! c := written (ce_cxt e) in
  let! _ := tl_assert (negb (bool_decide (c = None))) "current_entry->cxt != 0" in
  let! (p, m) := copy_cost_lz (full s) (costs s) (enter_cost e) (x_cost (cur s)) in
  let! s := set_entry (set_costs s m) sp
              (MkEntry (ce_jcc e) p (ce_sp e) (ret_addr e) (ce_nonskipped e) (ce_cxt e) (ce_fn_sp e)) in
  let! (k, j) := get_jcc (jm s) from_ jmp_ to_ in
  let s := set_jm s j in
  let! (depth, s) := change_depth s k to_fn 1 in
  let! s := upd_jcc s k count_call in
  let s := set_stat s (count_stats (stat s) (1 <? depth)) in
  let! f := deref_fn (cx s) to_fn in
  let! s := (if depth =? 1 then function_entered s f else Ok s) in
  Ok (k, s).

(** The address after the call instruction, 0 for other jumps. *)
Definition return_address (s : stacks) (from_ jmp_ : Z) : res Z :=
  let! c := deref_centre s from_ in
  let! b := deref_bb s (cc_bb c) in
  let! j := arr_get (bb_jmp b) jmp_ in
  match cj_jmpkind j with
  | jk_Call =>
      let! (off, sz) := arr_get (bb_instr b) (cj_instr j) in
      Ok (u64 (bb_obj_offset b + bb_offset b + off + sz))
  | _ => Ok 0
  end.

(** A call into a skipped function: its cost goes to the caller. *)
Definition skip_from (s : stacks) (from_ : Z) : res stacks :=
  let s := set_cur s (set_x_nonskipped (cur s) from_) in
  let! c := deref_centre s from_ in
  match cc_skipped c with
  | Some _ => Ok s
  | None =>
      let! (p, m) := init_cost_lz (full s) (costs s) None in
      let s := set_centres (set_costs s m)
                 (<[from_ := MkCentre (cc_bb c) (cc_cxt c) p (cc_ret_counter c)]> (centres s)) in
      let! n := int_add (distinct_skips (stat s)) 1 in
      Ok (set_stat s (MkCallStats (call_counter_stat (stat s)) (rec_call_counter (stat s))
                        (ret_counter_stat (stat s)) n (call_stack_resizes (stat s))))
  end.

Definition push_call_stack (s : stacks) (from_ jmp_ to_ sp : Z) (skip : bool) : res stacks :=
  let! next := int_add (cs_sp (current_call_stack s)) 1 in
  let! s := ensure_stack_size s next in
  let! (jcc, s) := (if skip then Ok (None, s)
                    else let! (k, s) := call_arc s from_ jmp_ to_ in Ok (Some k, s)) in
  let! ra := return_address s from_ jmp_ in
  let i := cs_sp (current_call_stack s) in
  let! e := arr_get (cs_entry (current_call_stack s)) i in
  let! s := set_entry s i (MkEntry (Some jcc) (enter_cost e) (Some sp) (Some ra)
                             (Some (x_nonskipped (cur s))) (ce_cxt e) (ce_fn_sp e)) in
  let cs := current_call_stack s in
  let! i := int_add (cs_sp cs) 1 in
  let s := set_call_stack s (MkCalls (cs_size cs) i (cs_entry cs)) in
  let! _ := tl_assert (u32 i <? cs_size cs) "CLG_(current_call_stack).sp < CLG_(current_call_stack).size" in
  let! e := arr_get (cs_entry cs) i in
  let! s := set_entry s i (MkEntry (ce_jcc e) (enter_cost e) (ce_sp e) (ret_addr e) (ce_nonskipped e)
                             (Some None) (ce_fn_sp e)) in
  if negb skip then Ok (set_cur s (set_x_nonskipped (cur s) 0))
  else if x_nonskipped (cur s) =? 0 then skip_from s from_
  else Ok s.

(** Leaving the call of arc [k], entered with the counters of [e]. *)
Definition leave_call (s : stacks) (k : nat) (e : call_entry) : res stacks :=
  let! x := get_node (jccs (jm s)) k in
  let! to_fn := centre_fn s (to x) in
  let! (depth, s) := change_depth s k to_fn (-1) in
  let! (nonzero, p, m) := add_diff_cost_lz (full s) (costs s) (jcc_cost x) (enter_cost e) (x_cost (cur s)) in
  let! s := upd_jcc (set_costs s m) k (set_jcc_cost p) in
  let! s := (if (nonzero : bool) then
               let! c := deref_centre s (from x) in
               Ok (set_centres s (<[from x := MkCentre (cc_bb c) (cc_cxt c) (cc_skipped c)
                                                (u64 (cc_ret_counter c + 1))]> (centres s)))
             else Ok s) in
  let st := stat s in
  let s := set_stat s (MkCallStats (call_counter_stat st) (rec_call_counter st)
                         (u64 (ret_counter_stat st + 1)) (distinct_skips st) (call_stack_resizes st)) in
  let! c := written (ce_cxt e) in
  let! top := written (ce_fn_sp e) in
  let s := set_cur s (set_x_cxt (cur s) c) in
  let s := set_fn_stack s (MkFnStack (fs_size (current_fn_stack s)) (fs_array (current_fn_stack s)) top) in
  let! _ := tl_assert (negb (bool_decide (c = None))) "CLG_(current_state).cxt != 0" in
  let! f := deref_fn (cx s) to_fn in
  if s32 depth =? 0 then function_left s f else Ok s.

(** [CLG_(pop_call_stack)] outside of signal handlers, whose end the function
    checks for first. *)
Definition pop_call (s : stacks) : res stacks :=
  let! i := int_sub (cs_sp (current_call_stack s)) 1 in
  let! e := arr_get (cs_entry (current_call_stack s)) i in
  let! jcc := written (ce_jcc e) in
  let! ns := written (ce_nonskipped e) in
  let s := set_cur s (set_x_nonskipped (cur s) ns) in
  let! s := (match jcc with Some k => leave_call s k e | None => Ok s end) in
  let! e := arr_get (cs_entry (current_call_stack s)) i in
  let! s := set_entry s i (MkEntry (ce_jcc e) (enter_cost e) (ce_sp e) (ret_addr e) (ce_nonskipped e)
                             (Some None) (ce_fn_sp e)) in
  let cs := current_call_stack s in
  let! i := int_sub (cs_sp cs) 1 in
  Ok (set_call_stack s (MkCalls (cs_size cs) i (cs_entry cs))).
End handlers.

(** ** Unwinding (callstack.c)

    [calls] gives the call stack of a state, [pop] is [CLG_(pop_call_stack)]. *)
Section unwind.
Context {St : Type} (calls : St -> call_stack) (pop : St -> res St).

(** [while ((csp = sp) > 0)]; the fuel bounds the pops. *)
Fixpoint unwind_loop (fuel : nat) (s : St) (sp minpops unwind_count : Z) : res (Z * St) :=
  let csp := cs_sp (calls s) in
  if csp <=? 0 then Ok (unwind_count, s) else
  let! top_ce := arr_get (cs_entry (calls s)) (csp - 1) in
  let! top_sp := written (ce_sp top_ce) in
  if (top_sp <? sp) || ((top_sp =? sp) && (0 <? minpops)) then
    match fuel with
    | O => Err OutOfFuel
    | S fuel' =>
        let! minpops := int_sub minpops 1 in
        let! unwind_count := int_add unwind_count 1 in
        let! s := pop s in
        unwind_loop fuel' s sp minpops unwind_count
    end
  else Ok (unwind_count, s).

(** Every pop takes an entry off the stack. *)
Definition unwind_call_stack (s : St) (sp minpops : Z) : res (Z * St) :=
  unwind_loop (Z.to_nat (cs_sp (calls s))) s sp minpops 0.
End unwind.
