(* ===== verification/ClgOwn.v ===== *)
(** * ClgOwn: arrays of counters with one owner each

    The call stack, the arcs and the execution state each keep arrays of
    counters of the size of the full event set, allocated when first needed.
    The lemmas here say that arrays handed out by the allocator stay apart, so
    that charging one owner leaves what the others count. *)

From Stdlib Require Import ZArith Lia.
From stdpp Require Import base numbers option gmap sets list.
From S2P Require Import Prelude ClgCosts ClgEvents.

#[local] Open Scope Z_scope.

Record owns (n : Z) (m : cost_mem) (ps : list cptr) : Prop := {
  ow_wf : wf_mem m;
  ow_read : Forall (fun p => readable m p n) ps;
  ow_used : Forall (fun p => 0 <= p.2 /\ p.2 + n <= used_of m p.1) ps;
  ow_apart : forall i j p q, i <> j -> ps !! i = Some p -> ps !! j = Some q -> apart p n q n
}.

(** The order of the owners does not matter. *)
Lemma owns_perm n m ps qs : ps ≡ₚ qs -> owns n m ps -> owns n m qs.
Proof.
  intros Hp [H1 H2 H3 H4]. constructor; [done|by rewrite <- Hp|by rewrite <- Hp|].
  symmetry in Hp. apply Permutation_inj in Hp as (_ & f & Hf & Hl).
  intros i j p q Hij Hpi Hqj. rewrite Hl in Hpi, Hqj.
  apply (H4 (f i) (f j)); try done. intros E. by apply Hf in E.
Qed.

Lemma owns_tail n m p ps : owns n m (p :: ps) -> owns n m ps.
Proof.
  intros [H1 H2 H3 H4]. apply Forall_cons in H2 as [_ H2]. apply Forall_cons in H3 as [_ H3].
  constructor; try done. intros i j q r Hij Hq Hr. apply (H4 (S i) (S j)); [lia|done|done].
Qed.

Lemma owns_head n m p q ps : owns n m (p :: ps) -> q ∈ ps -> apart p n q n.
Proof.
  intros H Hq. apply list_elem_of_lookup_1 in Hq as [i Hi].
  apply (ow_apart _ _ _ H 0%nat (S i)); done.
Qed.

Lemma owns_readable n m ps p : owns n m ps -> p ∈ ps -> readable m p n.
Proof. intros H Hp. pose proof (ow_read _ _ _ H) as Hr. rewrite Forall_forall in Hr. by apply Hr. Qed.

Lemma upd_wf m p n f : wf_mem m -> wf_mem (upd m p n f).
Proof. intros [H1 H2]. rewrite upd_set_cells. by constructor. Qed.

Lemma upd_used m p n f k : used_of (upd m p n f) k = used_of m k.
Proof. unfold used_of. by rewrite upd_chunks. Qed.

Lemma owns_upd n m ps p f : (forall i, in_u 64 (f i)) -> owns n m ps -> owns n (upd m p n f) ps.
Proof.
  intros Hf [H1 H2 H3 H4]. constructor; [by apply upd_wf| | |done].
  - eapply Forall_impl; [exact H2|]. intros q Hq. by apply upd_readable.
  - eapply Forall_impl; [exact H3|]. intros q Hq. by rewrite upd_used.
Qed.

(** Cells below the used mark of a chunk lie in the chunk. *)
Lemma used_in_chunk m p : wf_mem m -> 0 <= p.2 < used_of m p.1 -> in_chunk m p = true.
Proof.
  intros [Hc _] Hp. unfold used_of, in_chunk in *. destruct (chunks m !! p.1) as [c|] eqn:E; [|lia].
  pose proof (Forall_lookup_1 _ _ _ _ Hc E) as [Hs Hu]. apply andb_true_iff. rewrite Z.leb_le, Z.ltb_lt. lia.
Qed.

Lemma readable_grow n m m' q :
  readable m q n -> wf_mem m' -> cells m' = cells m -> 0 <= q.2 -> q.2 + n <= used_of m' q.1 ->
  readable m' q n.
Proof.
  intros Hr Hw Hc H0 Hu i Hi. destruct (Hr i Hi) as (v & Hv & Hin). exists v. split; [|done].
  apply cost_get_ok in Hv as [_ Hv]. apply cost_get_ok. rewrite Hc. split; [|done].
  apply used_in_chunk; [done|]. cbn. lia.
Qed.

(** A fresh array, once written, belongs to nobody else. *)
Lemma owns_alloc n m ps :
  owns n m ps -> 0 <= n < COSTCHUNK_SIZE ->
  exists p m', get_costarray m n = Ok (p, m') /\ cells m' = cells m /\ chunk_range m' p n /\
    (forall q, q ∈ ps -> apart p n q n) /\ owns n m' ps /\
    forall f, (forall i, in_u 64 (f i)) -> owns n (upd m' p n f) (p :: ps).
Proof.
  intros [H1 H2 H3 H4] Hn. destruct (get_costarray_spec m n H1 Hn) as (p & m' & E & [W S1 S2 M C _]).
  pose proof (wf_used m p.1 H1) as Hu.
  assert (chunk_range m' p n) as Hcr.
  { intros i Hi. apply used_in_chunk; [done|]. cbn. lia. }
  assert (forall q, q ∈ ps -> apart p n q n) as Hap.
  { intros q Hq i j Hi Hj Epq. rewrite Forall_forall in H3. destruct (H3 q Hq) as [_ Hqu].
    injection Epq as E1 E2. rewrite <- E1 in Hqu. lia. }
  assert (owns n m' ps) as Hps.
  { constructor; [done| | |done].
    - apply Forall_forall. intros q Hq. rewrite Forall_forall in H2, H3.
      destruct (H3 q Hq). apply (readable_grow n m); auto. specialize (M q.1). lia.
    - eapply Forall_impl; [exact H3|]. intros q [Hq Hqu]. specialize (M q.1). cbn beta. lia. }
  exists p, m'. split_and!; try done. intros f Hf.
  pose proof (owns_upd n m' ps p f Hf Hps) as [U1 U2 U3 U4]. constructor; [done| | |].
  - constructor; [|done]. intros i Hi. exists (f i). split; [|done].
    rewrite upd_get, in_range_self, ptr_add_sub. destruct (Z.leb_spec 0 i), (Z.ltb_spec i n); try lia.
    cbn [andb]. by rewrite Hcr.
  - constructor; [|done]. rewrite upd_used. lia.
  - intros [|i] [|j] q r Hij Hq Hr; cbn in Hq, Hr; simplify_eq.
    + apply Hap. by eapply list_elem_of_lookup_2.
    + apply apart_sym, Hap. by eapply list_elem_of_lookup_2.
    + apply (U4 i j); [lia|done|done].
Qed.

Lemma val_owned n m ps p i : owns n m ps -> p ∈ ps -> 0 <= i < n -> in_u 64 (val m p i).
Proof. intros H Hp Hi. by apply (readable_val m p n i (owns_readable _ _ _ _ H Hp) Hi). Qed.

(** The values of an array, 0 outside of it. *)
Definition vals (m : cost_mem) (p : cptr) (n i : Z) : Z :=
  if (0 <=? i) && (i <? n) then val m p i else 0.

Lemma vals_in m p n i : 0 <= i < n -> vals m p n i = val m p i.
Proof. intros Hi. unfold vals. destruct (Z.leb_spec 0 i), (Z.ltb_spec i n); try lia. done. Qed.

Lemma vals_u64 n m ps p i : owns n m ps -> p ∈ ps -> in_u 64 (vals m p n i).
Proof. intros H Hp. apply val_u64. by eapply owns_readable. Qed.

(** Taking a copy of the counters of [c] in the array of an owner that may not
    have one yet. *)
Lemma copy_cost_lz_ok es m c (pd : option cptr) rest :
  0 <= es_size es < COSTCHUNK_SIZE -> owns (es_size es) m (c :: option_list pd ++ rest) ->
  exists d m', copy_cost_lz es m pd (Some c) = Ok (Some d, m') /\
    (forall d0, pd = Some d0 -> d = d0) /\
    owns (es_size es) m' (c :: d :: rest) /\
    (forall i, 0 <= i < es_size es -> val m' d i = val m c i) /\
    (forall q i, q ∈ c :: rest -> 0 <= i < es_size es -> val m' q i = val m q i).
Proof.
  intros Hn Ho. unfold copy_cost_lz. set (n := es_size es) in *.
  assert (exists d m1, (match pd with Some d => Ok (d, m) | None => get_eventset_cost m es end) = Ok (d, m1) /\
    (forall d0, pd = Some d0 -> d = d0) /\ cells m1 = cells m /\ chunk_range m1 d n /\
    readable m1 c n /\ (forall q, q ∈ c :: rest -> apart d n q n) /\
    forall f, (forall i, in_u 64 (f i)) -> owns n (upd m1 d n f) (c :: d :: rest))
    as (d & m1 & -> & Hd & Hc & Hcr & Hrc & Hap & Hup).
  { destruct pd as [d|]; cbn [option_list app] in Ho.
    - exists d, m. assert (owns n m (d :: c :: rest)) as Ho' by (eapply owns_perm; [apply perm_swap|done]).
      split_and!; try done; [by intros ? [= ->]|..].
      + apply readable_chunk. eapply owns_readable; [exact Ho|]. right; left.
      + eapply owns_readable; [exact Ho|]. left.
      + intros q Hq. by eapply owns_head.
      + intros f Hf. by apply owns_upd.
    - destruct (owns_alloc n m (c :: rest) Ho Hn) as (p & m' & E & Hc & Hcr & Hap & Ho' & Hup).
      exists p, m'. split_and!; try done.
      + eapply owns_readable; [exact Ho'|]. left.
      + intros f Hf. eapply owns_perm; [apply perm_swap|by apply Hup]. }
  cbn [rbind]. rewrite (copy_cells_spec m1 d c n) by (lia || done || apply Hap; left). cbn [rbind].
  rewrite (upd_ext m1 d n _ (vals m1 c n)) by (intros i Hi; by rewrite vals_in).
  exists d, (upd m1 d n (vals m1 c n)).
  assert (forall q i, val m1 q i = val m q i) as Hval by (intros q i; unfold val; by rewrite Hc).
  split_and!; try done.
  - apply Hup. intros i. by apply val_u64.
  - intros i Hi. rewrite upd_val_same, vals_in by done. done.
  - intros q i Hq Hi. rewrite (upd_val_apart m1 d n q n) by (done || apply apart_sym; by apply Hap). done.
Qed.

(** Adding what [c] gained since [o] was taken. *)
Lemma add_diff_cost_lz_ok es m c o (pd : option cptr) rest :
  0 <= es_size es < COSTCHUNK_SIZE -> owns (es_size es) m (c :: o :: option_list pd ++ rest) ->
  exists b d m', add_diff_cost_lz es m pd (Some o) (Some c) = Ok (b, Some d, m') /\
    (forall d0, pd = Some d0 -> d = d0) /\
    owns (es_size es) m' (c :: o :: d :: rest) /\
    (forall i, 0 <= i < es_size es -> val m' d i =
       u64 (default 0 ((fun p => val m p i) <$> pd) + (val m c i - val m o i))) /\
    (forall q i, q ∈ c :: rest -> 0 <= i < es_size es -> val m' q i = val m q i).
Proof.
  intros Hn Ho. unfold add_diff_cost_lz, assert_ptr. cbn [rbind]. set (n := es_size es) in *.
  assert (exists d m1, (match pd with Some d => Ok (d, m) | None =>
      let! (d, m) := get_eventset_cost m es in let! m := zero_cost es m (Some d) in Ok (d, m) end) = Ok (d, m1) /\
    (forall d0, pd = Some d0 -> d = d0) /\ owns n m1 (c :: o :: d :: rest) /\
    (forall i, 0 <= i < n -> val m1 d i = default 0 ((fun p => val m p i) <$> pd)) /\
    (forall q i, q ∈ c :: o :: rest -> 0 <= i < n -> val m1 q i = val m q i))
    as (d & m1 & -> & Hd & Ho1 & Hvd & Hvq).
  { destruct pd as [d|]; cbn [option_list app] in Ho.
    - exists d, m. split_and!; try done. by intros ? [= ->].
    - destruct (owns_alloc n m (c :: o :: rest) Ho Hn) as (p & m' & E & Hc & Hcr & Hap & Ho' & Hup).
      unfold get_eventset_cost. fold n. rewrite E. cbn [rbind zero_cost].
      rewrite zero_cells_spec by (done || lia). fold n. cbn [rbind]. eexists _, _. split; [done|].
      assert (forall q i, val m' q i = val m q i) as Hval by (intros q i; unfold val; by rewrite Hc).
      split_and!; [done| | |].
      + eapply owns_perm; [|apply Hup; intros i; unfold in_u; lia].
        exact (Permutation_middle [c; o] rest p).
      + intros i Hi. by rewrite upd_val_same.
      + intros q i Hq Hi. rewrite (upd_val_apart m' p n q n) by (done || apply apart_sym; by apply Hap). done. }
  cbn [rbind].
  assert (owns n m1 (d :: c :: o :: rest)) as Hod.
  { eapply owns_perm; [|exact Ho1]. symmetry. exact (Permutation_middle [c; o] rest d). }
  assert (apart d n c n /\ apart d n o n /\ apart o n c n) as (Adc & Ado & Aoc).
  { split_and!; [apply (owns_head n m1 d c _ Hod); left|apply (owns_head n m1 d o _ Hod); right; left|].
    apply apart_sym. apply (owns_head n m1 c o _ Ho1). left. }
  assert (forall p, p ∈ c :: o :: d :: rest -> readable m1 p n) as Hrd by (intros p; by apply owns_readable).
  rewrite (diff_cells_spec m1 d o c n) by (lia || done || apply Hrd; set_solver). cbn [rbind].
  eexists _, _, _. split; [done|]. split; [done|].
  assert (forall i, in_u 64 (u64 (val m1 d i + u64 (val m1 c i - val m1 o i)))) as Hu1
    by (intros i; by apply wrapu_range).
  split_and!.
  - unfold diffed. rewrite (upd_ext _ o n _ (vals m1 c n)) by (intros i Hi; by rewrite vals_in).
    apply owns_upd; [|by apply owns_upd]. intros i. apply val_u64, Hrd. left.
  - intros i Hi. rewrite (proj1 (diffed_val m1 d o c n Ado Adc Aoc i Hi)).
    rewrite Hvd, !Hvq by (done || set_solver). done.
  - intros q i Hq Hi. rewrite <- (Hvq q i) by (done || set_solver). unfold diffed.
    assert (apart q n o n /\ apart q n d n) as [Aqo Aqd].
    { split; [|apply apart_sym, (owns_head n m1 d q _ Hod); set_solver].
      assert (owns n m1 (o :: c :: d :: rest)) as Hoo by (eapply owns_perm; [apply perm_swap|exact Ho1]).
      apply apart_sym, (owns_head n m1 o q _ Hoo). set_solver. }
    rewrite (upd_val_apart _ o n q n), (upd_val_apart _ d n q n) by done. done.
Qed.

(** Counting [v] events in cell [j] of [c]. *)
Lemma cost_add_owned n m c rest j v :
  owns n m (c :: rest) -> 0 <= j < n ->
  exists m', cost_add m (ptr_add c j) v = Ok m' /\ owns n m' (c :: rest) /\
    (forall i, 0 <= i < n -> val m' c i = if decide (i = j) then u64 (val m c j + v) else val m c i) /\
    (forall q i, q ∈ rest -> 0 <= i < n -> val m' q i = val m q i).
Proof.
  intros Ho Hj. assert (readable m c n) as Hr by (eapply owns_readable; [exact Ho|left]).
  destruct (readable_val m c n j Hr Hj) as [Hv Hu]. rewrite (cost_add_ok _ _ _ _ Hv).
  set (f := fun i => if decide (i = j) then u64 (val m c j + v) else vals m c n i).
  assert (set_cells m (<[ptr_add c j:=u64 (val m c j + v)]> (cells m)) = upd m c n f) as ->.
  { rewrite upd_set_cells. apply set_cells_eq. intros q. rewrite upd_cells.
    destruct (in_range c n q) eqn:E; cycle 1.
    { rewrite lookup_insert_ne; [done|]. intros <-. rewrite in_range_self in E.
      destruct (Z.leb_spec 0 j), (Z.ltb_spec j n); try lia. }
    apply in_range_spec in E as (i & Hi & ->). rewrite ptr_add_sub. unfold f.
    destruct (decide (i = j)) as [->|Hne]; [by rewrite lookup_insert_eq|].
    rewrite lookup_insert_ne by (intros E; by apply ptr_add_inj in E).
    rewrite vals_in by done. destruct (readable_val m c n i Hr Hi) as [Hg _]. by apply cost_get_cells. }
  eexists. split; [done|]. split_and!.
  - apply owns_upd; [|done]. intros i. unfold f. destruct (decide (i = j)); [by apply wrapu_range|by apply val_u64].
  - intros i Hi. rewrite upd_val_same by done. unfold f. destruct (decide (i = j)); [done|by rewrite vals_in].
  - intros q i Hq Hi. rewrite (upd_val_apart m c n q n); [done| |done]. apply apart_sym. by eapply owns_head.
Qed.

(** ** Arrays that are allocated but not yet written *)

Record reserves (n : Z) (m : cost_mem) (ps : list cptr) : Prop := {
  rs_wf : wf_mem m;
  rs_used : Forall (fun p => 0 <= p.2 /\ p.2 + n <= used_of m p.1) ps;
  rs_apart : forall i j p q, i <> j -> ps !! i = Some p -> ps !! j = Some q -> apart p n q n
}.

Lemma owns_reserves n m ps : owns n m ps <-> reserves n m ps /\ Forall (fun p => readable m p n) ps.
Proof. split; [intros [H1 H2 H3 H4]|intros [[H1 H2 H3] H4]]; by split. Qed.

Lemma reserves_head n m p q ps : reserves n m (p :: ps) -> q ∈ ps -> apart p n q n.
Proof. intros H Hq. apply list_elem_of_lookup_1 in Hq as [i Hi]. by apply (rs_apart _ _ _ H 0%nat (S i)). Qed.

Lemma reserves_perm n m ps qs : ps ≡ₚ qs -> reserves n m ps -> reserves n m qs.
Proof.
  intros Hp [H1 H2 H3]. constructor; [done|by rewrite <- Hp|].
  symmetry in Hp. apply Permutation_inj in Hp as (_ & f & Hf & Hl).
  intros i j p q Hij Hpi Hqj. rewrite Hl in Hpi, Hqj.
  apply (H3 (f i) (f j)); try done. intros E. by apply Hf in E.
Qed.

Lemma reserves_alloc n m ps :
  reserves n m ps -> 0 <= n < COSTCHUNK_SIZE ->
  exists p m', get_costarray m n = Ok (p, m') /\ reserves n m' (p :: ps) /\
    (forall q i, val m' q i = val m q i) /\ forall q, q ∈ ps -> readable m q n -> readable m' q n.
Proof.
  intros [H1 H2 H3] Hn. destruct (get_costarray_spec m n H1 Hn) as (p & m' & E & [W S1 S2 M C _]).
  pose proof (wf_used m p.1 H1) as Hu. rewrite Forall_forall in H2.
  assert (forall q, q ∈ ps -> apart p n q n) as Hap.
  { intros q Hq i j Hi Hj Epq. destruct (H2 q Hq) as [_ Hqu]. injection Epq as E1 E2. rewrite <- E1 in Hqu. lia. }
  exists p, m'. split_and!; [done|constructor; [done| |]|intros q i; unfold val; by rewrite C|].
  - constructor; [lia|]. apply Forall_forall. intros q Hq. destruct (H2 q Hq). specialize (M q.1). lia.
  - intros [|i] [|j] q r Hij Hq Hr; cbn in Hq, Hr; simplify_eq.
    + apply Hap. by eapply list_elem_of_lookup_2.
    + apply apart_sym, Hap. by eapply list_elem_of_lookup_2.
    + apply (H3 i j); [lia|done|done].
  - intros q Hq Hr. destruct (H2 q Hq). specialize (M q.1). apply (readable_grow n m); try done; lia.
Qed.

Lemma reserves_zero n m p ps :
  reserves n m (p :: ps) -> 0 <= n ->
  exists m', zero_cells m p n = Ok m' /\ reserves n m' (p :: ps) /\ readable m' p n /\
    (forall i, 0 <= i < n -> val m' p i = 0) /\
    (forall q i, q ∈ ps -> 0 <= i < n -> val m' q i = val m q i) /\
    forall q, readable m q n -> readable m' q n.
Proof.
  intros H Hn. pose proof H as [H1 H2 H3]. apply Forall_cons in H2 as Hp. destruct Hp as [[Hp0 Hp1] _].
  assert (chunk_range m p n) as Hcr by (intros i Hi; apply used_in_chunk; [done|cbn; lia]).
  assert (in_u 64 0) as Hz by (unfold in_u; lia).
  exists (upd m p n (fun _ => 0)). rewrite zero_cells_spec by done. split_and!; [done| | | | |].
  - constructor; [by apply upd_wf| |done]. eapply Forall_impl; [exact H2|]. intros q Hq. by rewrite upd_used.
  - intros i Hi. exists 0. split; [|done]. rewrite upd_get, in_range_self.
    destruct (Z.leb_spec 0 i), (Z.ltb_spec i n); try lia. cbn [andb]. by rewrite Hcr.
  - intros i Hi. by rewrite upd_val_same.
  - intros q i Hq Hi. rewrite (upd_val_apart m p n q n); [done|apply apart_sym; by eapply reserves_head|done].
  - intros q Hq. by apply upd_readable.
Qed.

(** Moving the counters of [s] to [d]. *)
Lemma add_and_zero_ok es m s d rest :
  0 <= es_size es -> owns (es_size es) m (s :: d :: rest) ->
  exists b m', add_and_zero_cost es m (Some d) (Some s) = Ok (b, m') /\ owns (es_size es) m' (s :: d :: rest) /\
    (forall i, 0 <= i < es_size es -> val m' d i = u64 (val m d i + val m s i)) /\
    (forall i, 0 <= i < es_size es -> val m' s i = 0) /\
    (forall q i, q ∈ rest -> 0 <= i < es_size es -> val m' q i = val m q i).
Proof.
  intros Hn Ho. set (n := es_size es) in *.
  assert (apart d n s n) as Ha by (apply apart_sym; eapply owns_head; [exact Ho|left]).
  assert (readable m d n) as Hd by (eapply owns_readable; [exact Ho|right; left]).
  assert (readable m s n) as Hs by (eapply owns_readable; [exact Ho|left]).
  unfold add_and_zero_cost. cbn [assert_ptr rbind]. rewrite move_cells_spec by done. eexists _, _. split; [done|].
  assert (in_u 64 0) as H0 by (unfold in_u; lia). split_and!.
  - unfold moved. apply owns_upd; [done|]. apply owns_upd; [|done]. intros i. apply wrapu_range. lia.
  - intros i Hi. unfold val at 1. by rewrite moved_dst.
  - intros i Hi. unfold val at 1. by rewrite moved_src.
  - intros q i Hq Hi. unfold val. rewrite moved_frame; [done|]. intros j Hj. split; intros E.
    + apply owns_tail in Ho. apply (owns_head _ _ _ q _ Ho Hq j i Hj Hi). done.
    + apply (owns_head _ _ _ q _ Ho ltac:(by right) j i Hj Hi). done.
Qed.

(** Zeroing an owned array. *)
Lemma zero_owned n m p ps : owns n m (p :: ps) -> 0 <= n ->
  exists m', zero_cells m p n = Ok m' /\ owns n m' (p :: ps) /\ (forall i, 0 <= i < n -> val m' p i = 0) /\
    forall q i, q ∈ ps -> 0 <= i < n -> val m' q i = val m q i.
Proof.
  intros [Hr Hrd]%owns_reserves Hn. destruct (reserves_zero n m p ps Hr Hn) as (m' & E & R & Rp & Z0 & V & D).
  exists m'. split_and!; try done. apply owns_reserves. split; [done|]. eapply Forall_impl; [exact Hrd|]. apply D.
Qed.

(** A new array, zeroed. *)
Lemma alloc_zero n m ps : owns n m ps -> 0 <= n < COSTCHUNK_SIZE ->
  exists p m1 m', get_costarray m n = Ok (p, m1) /\ zero_cells m1 p n = Ok m' /\ owns n m' (p :: ps) /\
    (forall i, 0 <= i < n -> val m' p i = 0) /\ forall q i, q ∈ ps -> 0 <= i < n -> val m' q i = val m q i.
Proof.
  intros [Hr Hrd]%owns_reserves Hn. destruct (reserves_alloc n m ps Hr Hn) as (p & m1 & E1 & R1 & V1 & D1).
  destruct (reserves_zero n m1 p ps R1) as (m2 & E2 & R2 & Rp & Z2 & V2 & D2); [lia|].
  exists p, m1, m2. split_and!; try done.
  - apply owns_reserves. split; [done|]. constructor; [done|]. rewrite Forall_forall in Hrd |- *.
    intros q Hq. by apply D2, D1, Hrd.
  - intros q i Hq Hi. by rewrite V2, V1.
Qed.
