(* ===== verification/ClgCalls.v ===== *)
(** * ClgCalls: the call stack keeps the ledger (callgrind/callstack.c)

    The call stack of ClgStack, with its contexts, arcs and lazily allocated cost
    arrays, simulates the ledger of ClgLedger.  This covers functions without
    dump, zero or toggle options, calls that are not skipped, and cost centres
    that exist before they are called. *)

From Stdlib Require Import ZArith Lia Ascii String.
From stdpp Require Import base numbers option strings gmap sets list.
From S2P Require Import Prelude ClgCosts ClgEvents ClgOwn ClgHash ClgJumps ClgContext ClgLedger ClgStack.

#[local] Open Scope Z_scope.

(** ** The program *)

Section run.
Variable dump_profile : string -> stacks -> res stacks.
Variable zero_all_cost : stacks -> res stacks.

Definition run_action (s : stacks) (a : action) : res stacks :=
  match a with
  | Work j v =>
      match x_cost (cur s) with
      | None => Err NullDeref
      | Some c => let! m := cost_add (costs s) (ptr_add c j) v in Ok (set_costs s m)
      end
  | Enter fn f j t sp =>
      let! s := push_cxt s fn in
      push_call_stack dump_profile zero_all_cost s f j t sp false
  | Leave => pop_call dump_profile s
  | Unwind sp minpops =>
      let! (_, s) := unwind_call_stack current_call_stack (pop_call dump_profile) s sp minpops in Ok s
  end.

Fixpoint run_actions (s : stacks) (acts : list action) : res stacks :=
  match acts with
  | [] => Ok s
  | a :: acts' => let! s := run_action s a in run_actions s acts'
  end.
End run.

(** ** Owners of cost arrays *)

Lemma owners_insert {A} (f : A -> option cptr) (l : list A) i x :
  l !! i = Some x ->
  exists rest, omap f l ≡ₚ option_list (f x) ++ rest /\
    (forall y, omap f (<[i := y]> l) ≡ₚ option_list (f y) ++ rest) /\
    (forall j y p, j <> i -> l !! j = Some y -> f y = Some p -> p ∈ rest).
Proof.
  intros Hi. pose proof (take_drop_middle l i x Hi) as E. pose proof (lookup_lt_Some _ _ _ Hi) as Hlt.
  assert (forall y, omap f (take i l ++ y :: drop (S i) l) ≡ₚ
    option_list (f y) ++ (omap f (take i l) ++ omap f (drop (S i) l))) as H.
  { intros y. rewrite omap_app. cbn [omap list_omap].
    destruct (f y); cbn [option_list app]; [by rewrite <- Permutation_middle|done]. }
  exists (omap f (take i l) ++ omap f (drop (S i) l)). split_and!.
  - rewrite <- E at 1. apply H.
  - intros y. rewrite insert_take_drop by done. apply H.
  - intros j y p Hj Hy Hp. apply elem_of_app. rewrite !list_elem_of_omap.
    destruct (decide (j < i)%nat) as [Hlt'|Hge].
    + left. exists y. split; [|done]. apply (list_elem_of_lookup_2 _ j). by rewrite lookup_take_lt.
    + right. exists y. split; [|done]. apply (list_elem_of_lookup_2 _ (j - S i)). rewrite lookup_drop.
      by replace (S i + (j - S i))%nat with j by lia.
Qed.

(** ** The simulation *)

(** A function without options that act when it is entered or left. *)
Definition plain_fn (f : fn_node) : Prop :=
  dump_before f = false /\ dump_after f = false /\ zero_before f = false /\ toggle_collect f = false.

Section simulation.
Context (fs : gmap Z fn_node) (R : Z) (W : list Z -> Prop).
(** The block and the context of the cost centres, the blocks, the number of
    side exits, and the counts of functions active before. *)
Context (C : gmap Z (Z * nat)) (B : gmap Z BB) (X : gmap Z Z) (act0 : Z -> Z).
Context (fn_of : Z -> Z) (skip_recursion : bool) (es : EventSet) (c0 : cptr).

Definition ctx_at (cn : list Context) (c : nat) (l : list Z) : Prop :=
  exists x, cn !! c = Some x /\ cx_fn x = window_of fs l.

(** An open call on the stack, over the pieces of the state it depends on. *)
Definition frame_ok (cn : list Context) (jl : list jCC) (m : cost_mem) (arr : list (option Z))
    (top : Z) (fr : frame) (e : call_entry) (t : Z) : Prop :=
  exists k p c, ce_jcc e = Some (Some k) /\ key <$> jl !! k = Some (fr_arc fr) /\
    enter_cost e = Some p /\ (forall i, 0 <= i < es_size es -> val m p i = u64 (fr_entered fr i)) /\
    ce_nonskipped e = Some 0 /\ ce_cxt e = Some (Some c) /\ ctx_at cn c (fr_fns fr) /\
    ce_fn_sp e = Some t /\ 0 <= t <= top /\ marked fs arr (Z.to_nat t) /\
    callers arr (Z.to_nat t) = fr_fns fr /\ fr_fns fr <> [] /\
    fr_fn fr = fn_of (fr_arc fr).2 /\
    fr_counted fr = negb (skip_recursion && (fn_of (fr_arc fr).1.1 =? fn_of (fr_arc fr).2)) /\
    is_Some (C !! (fr_arc fr).1.1) /\ is_Some (C !! (fr_arc fr).2) /\ ce_sp e = Some (fr_sp fr).

Fixpoint frames_ok (es_ : list call_entry) (cn : list Context) (jl : list jCC) (m : cost_mem)
    (arr : list (option Z)) (top : Z) (open : list frame) : Prop :=
  match open with
  | [] => True
  | fr :: rest => exists e t, es_ !! length rest = Some e /\ frame_ok cn jl m arr top fr e t /\
      frames_ok es_ cn jl m arr t rest
  end.

(** The cost centres: known, in a context of a known function. *)
Definition centres_ok (s : stacks) : Prop :=
  forall p bb k, C !! p = Some (bb, k) ->
    p <> 0 /\ exists c x rest, centres s !! p = Some c /\ cc_bb c = bb /\ cc_cxt c = Some k /\
      cxt_nodes (cx s) !! k = Some x /\ cx_fn x = fn_of p :: rest /\ fn_of p <> 0 /\ is_Some (fs !! fn_of p).

Definition arc_costs (m : cost_mem) (jl : list jCC) (g : ledger) : Prop :=
  forall k x, jl !! k = Some x -> call_counter x = u64 (lg_calls g (key x)) /\
    forall i, 0 <= i < es_size es ->
      default 0 ((fun p => val m p i) <$> jcc_cost x) = u64 (lg_sums g (key x) i).

Definition owners (es_ : list call_entry) (jl : list jCC) : list cptr :=
  c0 :: omap enter_cost es_ ++ omap jcc_cost jl.

Record fn_stack_ok (N : Z) (st : fn_stack) (l : list Z) : Prop := {
  fk_len : Z.of_nat (length (fs_array st)) = fs_size st;
  fk_top : 0 <= fs_top st < fs_size st;
  fk_size : fs_size st <= 1000 \/ fs_size st <= 2 * N;
  fk_depth : fs_top st <= N;
  fk_marked : marked fs (fs_array st) (Z.to_nat (fs_top st));
  fk_callers : callers (fs_array st) (Z.to_nat (fs_top st)) = l;
  fk_some : l <> []
}.

Record call_stack_ok (N : Z) (P : call_entry -> Prop) (cs : call_stack) (depth : nat) : Prop := {
  ck_len : Z.of_nat (length (cs_entry cs)) = cs_size cs;
  ck_sp : cs_sp cs = Z.of_nat depth;
  ck_room : cs_sp cs < cs_size cs;
  ck_bound : cs_size cs <= 1000 \/ cs_size cs <= 2 * N;
  ck_depth : cs_sp cs <= N;
  ck_free : exists e, cs_entry cs !! depth = Some e /\ P e
}.

Record active_ok (a : fn_array) (open : list frame) : Prop := {
  av_len : Z.of_nat (length (fa_array a)) = fa_size a;
  av_size : fa_size a <= 2 ^ 31;
  av_fns : forall f x, fs !! f = Some x -> 0 <= number x < fa_size a /\
    fa_array a !! Z.to_nat (number x) = Some (u32 (act0 (number x) + active_count fs open (number x)))
}.

(** The entry above the open calls: free, or with the context saved that had
    the functions [l]. *)
Definition free_entry (_ : stacks) (e : call_entry) : Prop := ce_cxt e = Some None.

Definition saved_entry (l : list Z) (t : Z) (s : stacks) (e : call_entry) : Prop :=
  exists c, ce_cxt e = Some (Some c) /\ ctx_at (cxt_nodes (cx s)) c l /\ ce_fn_sp e = Some t /\
    0 <= t <= fs_top (current_fn_stack s) /\ marked fs (fs_array (current_fn_stack s)) (Z.to_nat t) /\
    callers (fs_array (current_fn_stack s)) (Z.to_nat t) = l /\ l <> [].

(** [N] bounds what was made so far; the open calls were entered with at most
    [T] on the function stack. *)
Record sim (P : stacks -> call_entry -> Prop) (T N : Z) (s : stacks) (g : ledger) : Prop := {
  sm_cx : exists ws, cxts_ok fs (cx s) ws /\ (forall w, w ∈ ws -> W w) /\ Z.of_nat (length ws) <= N /\
    0 <= cxt_lru_misses (cx s) <= N;
  sm_jm : exists arcs, arcs_ok (jm s) arcs /\ Z.of_nat (length arcs) <= N /\
    0 <= jcc_lru_misses (jm s) <= N /\
    forall b, b ∉ arcs -> lg_calls g b = 0 /\ forall i, lg_sums g b i = 0;
  sm_ends : forall p, cjmp_count <$> bbccs (jm s) !! p = X !! p;
  sm_centres : centres_ok s;
  sm_static : bbs s = B /\ full s = es /\ skip_direct_recursion s = skip_recursion;
  sm_fns : fn_stack_ok N (current_fn_stack s) (lg_fns g);
  sm_calls : call_stack_ok N (P s) (current_call_stack s) (length (lg_open g));
  sm_frames : frames_ok (cs_entry (current_call_stack s)) (cxt_nodes (cx s)) (jccs (jm s)) (costs s)
    (fs_array (current_fn_stack s)) T (lg_open g);
  sm_T : T <= fs_top (current_fn_stack s);
  sm_active : active_ok (current_fn_active s) (lg_open g);
  sm_cur : x_cost (cur s) = Some c0 /\ x_nonskipped (cur s) = 0 /\
    exists c, x_cxt (cur s) = Some c /\ ctx_at (cxt_nodes (cx s)) c (lg_fns g);
  sm_own : owns (es_size es) (costs s) (owners (cs_entry (current_call_stack s)) (jccs (jm s)));
  sm_total : forall i, 0 <= i < es_size es -> val (costs s) c0 i = u64 (lg_total g i);
  sm_costs : arc_costs (costs s) (jccs (jm s)) g;
  sm_stat : 0 <= call_stack_resizes (stat s) <= N
}.

Definition idle (N : Z) (s : stacks) (g : ledger) : Prop :=
  sim free_entry (fs_top (current_fn_stack s)) N s g.

(** Frames keep their meaning when the state grows. *)
Lemma callers_frame arr arr' i : (forall j, (j <= i)%nat -> arr' !! j = arr !! j) -> callers arr' i = callers arr i.
Proof.
  induction i as [|i IH]; intros H; cbn [callers]; rewrite H by done; [done|].
  rewrite IH by (intros j Hj; apply H; lia). done.
Qed.

Lemma marked_frame arr arr' i : (forall j, (j <= i)%nat -> arr' !! j = arr !! j) -> marked fs arr i -> marked fs arr' i.
Proof.
  induction i as [|i IH]; intros H; cbn [marked]; rewrite H by done; [done|].
  destruct (arr !! S i) as [[f|]|]; [|done|done]. intros [->|(Hf & Hx & Hm)]; [by left|].
  right. split_and!; [done|done|]. apply IH; [|done]. intros j Hj. apply H. lia.
Qed.

Lemma frames_mono es1 es2 cn1 cn2 jl1 jl2 m1 m2 arr1 arr2 top top' open :
  frames_ok es1 cn1 jl1 m1 arr1 top open -> top <= top' ->
  (forall d e, (d < length open)%nat -> es1 !! d = Some e -> es2 !! d = Some e /\
     forall p i, enter_cost e = Some p -> 0 <= i < es_size es -> val m2 p i = val m1 p i) ->
  (forall k b, key <$> jl1 !! k = Some b -> key <$> jl2 !! k = Some b) ->
  (forall c l, ctx_at cn1 c l -> ctx_at cn2 c l) ->
  (forall j, Z.of_nat j <= top -> arr2 !! j = arr1 !! j) ->
  frames_ok es2 cn2 jl2 m2 arr2 top' open.
Proof.
  revert top top'; induction open as [|fr open IH]; intros top top' Hf Ht He Hj Hc Ha; [done|].
  destruct Hf as (e & t & Hl & (k & p & c & F1 & F2 & F3 & F4 & F5 & F6 & F7 & F8 & F9 & F10 & F11 & F12 & F13 & F14 & F15 & F16 & F17) & Hr).
  cbn [length] in He. destruct (He (length open) e ltac:(lia) Hl) as [Hl2 Hv].
  exists e, t. split; [done|]. split.
  - exists k, p, c. split_and!; try done; try lia.
    + by apply Hj.
    + intros i Hi. rewrite (Hv p i) by done. by apply F4.
    + by apply Hc.
    + apply (marked_frame arr1); [|done]. intros j Hjt. apply Ha. lia.
    + rewrite <- F11. apply callers_frame. intros j Hjt. apply Ha. lia.
  - apply (IH t t); [done|lia| |done|done|].
    + intros d e' Hd. apply He. lia.
    + intros j Hjt. apply Ha. lia.
Qed.

Lemma owner_entry es_ jl d e p : es_ !! d = Some e -> enter_cost e = Some p -> p ∈ omap enter_cost es_ ++ omap jcc_cost jl.
Proof.
  intros He Hp. apply elem_of_app. left. apply list_elem_of_omap. exists e. split; [|done].
  by eapply list_elem_of_lookup_2.
Qed.

Lemma owner_jcc es_ jl k x p : jl !! k = Some x -> jcc_cost x = Some p -> p ∈ omap enter_cost es_ ++ omap jcc_cost jl.
Proof.
  intros Hk Hp. apply elem_of_app. right. apply list_elem_of_omap. exists x. split; [|done].
  by eapply list_elem_of_lookup_2.
Qed.

(** Costs of arcs when only other arrays changed. *)
Lemma arc_costs_frame m m' jl g :
  arc_costs m jl g ->
  (forall k x p i, jl !! k = Some x -> jcc_cost x = Some p -> 0 <= i < es_size es -> val m' p i = val m p i) ->
  arc_costs m' jl g.
Proof.
  intros H Hv k x Hx. destruct (H k x Hx) as [Hc Hs]. split; [done|]. intros i Hi. rewrite <- Hs by done.
  destruct (jcc_cost x) as [p|] eqn:Ep; [|done]. cbn. by eapply Hv.
Qed.

Lemma sim_work N s g j v :
  idle N s g -> 0 <= j < es_size es ->
  exists s', (match x_cost (cur s) with
      | None => Err NullDeref
      | Some c => let! m := cost_add (costs s) (ptr_add c j) v in Ok (set_costs s m)
      end) = Ok s' /\ idle N s' (spec_action fs fn_of skip_recursion g (Work j v)).
Proof.
  intros [S1 S2 S3 S4 S5 S6 S7 S8 ST S9 S10 S11 S12 S13 S14] Hj. destruct S10 as (Ec & Ens & Hcx). rewrite Ec.
  destruct (cost_add_owned _ _ _ _ j v S11 Hj) as (m & -> & Ho & Hc & Hq). cbn [rbind].
  eexists. split; [done|]. constructor; try done; cbn [costs set_costs cur jm cx current_call_stack current_fn_stack
    lg_open lg_fns spec_action lg_total].
  - eapply frames_mono; [exact S8|lia| |done|done|done].
    intros d e Hd He. split; [done|]. intros p i Hp Hi. apply Hq; [by eapply owner_entry|done].
  - intros i Hi. rewrite Hc by done. destruct (decide (i = j)) as [->|]; [|by apply S12].
    rewrite S12 by done. unfold wrapu. by rewrite Z.add_mod_idemp_l.
  - apply (arc_costs_frame (costs s)); [done|]. intros k x p i Hk Hp Hi. apply Hq; [by eapply owner_jcc|done].
Qed.

Hypothesis Hfs : map_Forall (fun _ => fn_ok R) fs.
Hypothesis HR : 1 <= R.
Hypothesis Hsep : separated W.
Hypothesis HW : forall arr i, marked fs arr i -> callers arr i <> [] -> W (window fs arr i).

(** Contexts stay when new ones are made. *)
Lemma node_ext x x' ws ws' k y :
  cxts_ok fs x ws -> cxts_ok fs x' ws' -> ws `prefix_of` ws' -> cxt_nodes x !! k = Some y ->
  exists z, cxt_nodes x' !! k = Some z /\ cx_fn z = cx_fn y.
Proof.
  intros H H' Hp Hy. pose proof (node_key _ _ _ _ _ H Hy) as Hk.
  pose proof (prefix_lookup_Some _ _ _ _ Hk Hp) as Hk'.
  destruct (lookup_lt_is_Some_2 (cxt_nodes x') k) as [z Hz].
  { rewrite (nodes_length _ _ _ H'). by apply lookup_lt_Some in Hk'. }
  exists z. split; [done|]. pose proof (node_key _ _ _ _ _ H' Hz) as Hz'. congruence.
Qed.

Lemma ctx_at_ext x x' ws ws' c l :
  cxts_ok fs x ws -> cxts_ok fs x' ws' -> ws `prefix_of` ws' ->
  ctx_at (cxt_nodes x) c l -> ctx_at (cxt_nodes x') c l.
Proof.
  intros H H' Hp (y & Hy & E). destruct (node_ext _ _ _ _ _ _ H H' Hp Hy) as (z & Hz & Ez).
  exists z. split; [done|congruence].
Qed.

Lemma ctx_at_intern x x' ws l :
  cxts_ok fs x ws -> cxts_ok fs x' (intern ws (window_of fs l)).2 ->
  ctx_at (cxt_nodes x') (intern ws (window_of fs l)).1 l.
Proof.
  intros H H'. pose proof (intern_lookup ws (window_of fs l) (co_nodup _ _ _ H)) as Hk.
  destruct (lookup_lt_is_Some_2 (cxt_nodes x') (intern ws (window_of fs l)).1) as [z Hz].
  { rewrite (nodes_length _ _ _ H'). by apply lookup_lt_Some in Hk. }
  exists z. split; [done|]. pose proof (node_key _ _ _ _ _ H' Hz). congruence.
Qed.

Lemma centres_ext s s' ws ws' :
  centres_ok s -> centres s' = centres s -> cxts_ok fs (cx s) ws -> cxts_ok fs (cx s') ws' -> ws `prefix_of` ws' ->
  centres_ok s'.
Proof.
  intros Hce Ec H H' Hp p bb k HC. destruct (Hce p bb k HC) as (Hp0 & c & y & rest & P1 & P2 & P3 & P4 & P5 & P6).
  split; [done|]. destruct (node_ext (cx s) (cx s') ws ws' k y) as (z & Hz & Ez); try done.
  exists c, z, rest. rewrite Ec. split_and!; try done; [congruence|apply P6|apply P6].
Qed.

(** Pushing a function on the stack. *)
Lemma push_fn_ok N st l fn :
  fn_stack_ok N st l -> N < 2 ^ 26 -> fn <> 0 -> is_Some (fs !! fn) ->
  let st1 := grow_fn_stack st in
  exists a, arr_set (fs_array st1) (fs_top st1 + 1) (Some fn) = Ok a /\ fs_top st1 = fs_top st /\
    fn_stack_ok (N + 1) (MkFnStack (fs_size st1) a (fs_top st + 1)) (fn :: l) /\
    (forall j, Z.of_nat j <= fs_top st -> a !! j = fs_array st !! j).
Proof.
  intros [K1 K2 K3 K4 K5 K6 K7] HN Hfn Hx st1. subst st1. unfold grow_fn_stack.
  rewrite wrapu_small by (unfold in_u; lia).
  set (st1 := if fs_top st =? fs_size st - 1 then _ else st).
  assert (fs_top st1 = fs_top st /\ Z.of_nat (length (fs_array st1)) = fs_size st1 /\
    fs_top st + 1 < fs_size st1 /\ (fs_size st1 <= 1000 \/ fs_size st1 <= 2 * (N + 1)) /\
    forall j, Z.of_nat j <= fs_top st -> fs_array st1 !! j = fs_array st !! j) as (T1 & T2 & T3 & T4 & T5).
  { unfold st1. destruct (Z.eqb_spec (fs_top st) (fs_size st - 1)) as [Ef|Ef].
    - rewrite wrapu_small by (unfold in_u; lia). cbn [fs_top fs_array fs_size].
      split_and!; [done|rewrite length_app, length_replicate; lia|lia|lia|].
      intros j Hj. apply lookup_app_l. lia.
    - split_and!; try done; lia. }
  rewrite T1, arr_set_in by lia. eexists. split; [done|]. split; [done|].
  assert (forall j, Z.of_nat j <= fs_top st -> <[Z.to_nat (fs_top st + 1) := Some fn]> (fs_array st1) !! j = fs_array st !! j) as Ha.
  { intros j Hj. rewrite list_lookup_insert_ne by lia. by apply T5. }
  split; [|done]. replace (Z.to_nat (fs_top st + 1)) with (S (Z.to_nat (fs_top st))) in * by lia.
  assert (<[S (Z.to_nat (fs_top st)) := Some fn]> (fs_array st1) !! S (Z.to_nat (fs_top st)) = Some (Some fn)) as Htop.
  { apply list_lookup_insert_eq. lia. }
  constructor; cbn [fs_array fs_size fs_top]; try lia.
  - by rewrite length_insert.
  - replace (Z.to_nat (fs_top st + 1)) with (S (Z.to_nat (fs_top st))) by lia. cbn [marked]. rewrite Htop.
    right. split_and!; [done|done|]. apply (marked_frame (fs_array st)); [|done]. intros j Hj. apply Ha. lia.
  - replace (Z.to_nat (fs_top st + 1)) with (S (Z.to_nat (fs_top st))) by lia. cbn [callers]. rewrite Htop.
    rewrite (proj2 (Z.eqb_neq fn 0)) by done. f_equal. rewrite <- K6. apply callers_frame.
    intros j Hj. apply Ha. lia.
  - done.
Qed.

Lemma sim_mono P T N N' s g : sim P T N s g -> N <= N' -> sim P T N' s g.
Proof.
  intros [S1 S2 S3 S4 S5 S6 S7 S8 ST S9 S10 S11 S12 S13 S14] Hle. constructor; try done; try lia.
  - destruct S1 as (ws & H1 & H2 & H3 & H4). exists ws. split_and!; try done; lia.
  - destruct S2 as (arcs & H1 & H2 & H3 & H4). exists arcs. split_and!; try done; lia.
  - destruct S6 as [K1 K2 K3 K4 K5 K6 K7]. constructor; try done; lia.
  - destruct S7 as [K1 K2 K3 K4 K5 K6]. constructor; try done; lia.
Qed.

(** Changing the entry above the open calls, all but its cost array. *)
Lemma sim_entry (P Q : stacks -> call_entry -> Prop) T N s g e e' :
  sim P T N s g -> cs_entry (current_call_stack s) !! length (lg_open g) = Some e ->
  enter_cost e' = enter_cost e ->
  let s' := set_call_stack s (MkCalls (cs_size (current_call_stack s)) (cs_sp (current_call_stack s))
              (<[length (lg_open g) := e']> (cs_entry (current_call_stack s)))) in
  Q s' e' -> sim Q T N s' g.
Proof.
  intros [S1 S2 S3 S4 S5 S6 S7 S8 ST S9 S10 S11 S12 S13 S14] He Ec s' HQ. pose proof (lookup_lt_Some _ _ _ He) as Hlt.
  constructor; try done; cbn [s' current_call_stack set_call_stack cs_entry cs_size cs_sp].
  - destruct S7 as [K1 K2 K3 K4 K5 K6]. constructor; cbn [cs_entry cs_size cs_sp]; try done.
    + by rewrite length_insert.
    + exists e'. split; [by apply list_lookup_insert_eq|done].
  - eapply frames_mono; [exact S8|apply Z.le_refl| |done|done|done]. intros d x Hd Hx.
    rewrite list_lookup_insert_ne by lia. done.
  - eapply owns_perm; [|exact S11]. unfold owners. apply perm_skip, Permutation_app_tail.
    destruct (owners_insert enter_cost _ _ _ He) as (rest & H1 & H2 & _). by rewrite H1, H2, Ec.
Qed.

Lemma top_read N st l : fn_stack_ok N st l -> exists f r, l = f :: r /\ f <> 0 /\ is_Some (fs !! f) /\
  read_fn (fs_array st) (Z.to_nat (fs_top st)) = Ok f.
Proof.
  intros K. destruct (callers_window fs (fs_array st) (Z.to_nat (fs_top st))) as (f & x & i & _ & _ & E & Hf & Hx & Ec & _).
  - apply K.
  - rewrite (fk_callers _ _ _ K). apply K.
  - exists f, (callers (fs_array st) i). rewrite <- Ec, (fk_callers _ _ _ K). by split_and!.
Qed.

Definition with_fns (g : ledger) (l : list Z) : ledger :=
  MkLedger (lg_total g) l (lg_open g) (lg_sums g) (lg_calls g).

(** A function that is not yet on the top of the stack is entered. *)
Lemma sim_enter_fn T N s g fn top_fn :
  sim (saved_entry (lg_fns g) T) T N s g -> N < 2 ^ 26 -> R * (N + 1) < 2 ^ 31 -> fn <> 0 -> is_Some (fs !! fn) ->
  top_fn <> 0 ->
  exists s', enter_fn s fn top_fn = Ok s' /\
    sim (saved_entry (lg_fns g) T) T (N + 1) s' (with_fns g (fn :: lg_fns g)).
Proof.
  intros HS HN HRN Hfn Hx Ht. pose proof HS as [S1 S2 S3 S4 S5 S6 S7 S8 ST S9 S10 S11 S12 S13 S14].
  destruct (push_fn_ok N (current_fn_stack s) (lg_fns g) fn S6 HN Hfn Hx) as (a & Ea & Et & K & Ha).
  unfold enter_fn. rewrite (proj2 (Z.eqb_neq top_fn 0) Ht), andb_false_r. cbn [rbind].
  cbn [set_fn_stack current_fn_stack]. rewrite Ea, Et. cbn [rbind]. cbn [set_fn_stack cx].
  destruct S1 as (ws & H1 & H2 & H3 & H4).
  assert (callers a (Z.to_nat (fs_top (current_fn_stack s) + 1)) = fn :: lg_fns g) as Hca by apply (fk_callers _ _ _ K).
  assert (marked fs a (Z.to_nat (fs_top (current_fn_stack s) + 1))) as Hma by apply (fk_marked _ _ _ K).
  destruct (get_cxt_ok fs R W (cx s) ws a (Z.to_nat (fs_top (current_fn_stack s) + 1))) as (x' & Eg & Hok & Hm);
    try done; try lia; [by rewrite Hca|apply HW; [done|by rewrite Hca]|nia|].
  rewrite Eg. cbn [rbind]. set (w := window fs a _) in *.
  assert (w = window_of fs (fn :: lg_fns g)) as Ew by (unfold w, window; by rewrite Hca).
  pose proof (intern_prefix ws w) as Hpre. pose proof (intern_length ws w) as Hlen.
  assert (forall c l, ctx_at (cxt_nodes (cx s)) c l -> ctx_at (cxt_nodes x') c l) as Hctx
    by (intros c l; by apply (ctx_at_ext (cx s) x' ws (intern ws w).2)).
  eexists. split; [done|].
  constructor; cbn [set_cur set_cx set_fn_stack cx jm centres bbs costs full current_fn_stack current_call_stack
    current_fn_active cur skip_direct_recursion stat with_fns lg_fns lg_open lg_total]; try done; try lia.
  - exists (intern ws w).2. split_and!; try done; try lia.
    intros v Hv. apply intern_elem in Hv as [Hv| ->]; [by apply H2|]. apply HW; [done|by rewrite Hca].
  - destruct S2 as (arcs & A1 & A2 & A3 & A4). exists arcs. split_and!; try done; lia.
  - by apply (centres_ext s _ ws (intern ws w).2).
  - destruct S7 as [K1 K2 K3 K4 K5 (e & He & c & Q1 & Q2 & Q3 & Q4 & Q5 & Q6 & Q7)].
    constructor; try done; try lia. exists e. split; [done|]. exists c.
    cbn [set_cur set_cx set_fn_stack cx current_fn_stack fs_top fs_array]. split_and!; try done; try lia.
    + by apply Hctx.
    + apply (marked_frame (fs_array (current_fn_stack s))); [|done]. intros j Hj. apply Ha. lia.
    + rewrite <- Q6. apply callers_frame. intros j Hj. apply Ha. lia.
  - cbn [fs_array fs_top]. eapply frames_mono; [exact S8|lia|done|done|done|].
    intros j Hj. apply Ha. lia.
  - cbn [fs_top]. lia.
  - destruct S10 as (E1 & E2 & _). cbn [set_x_cxt x_cost x_nonskipped x_cxt]. split_and!; try done.
    eexists. split; [done|]. rewrite Ew in Hok |- *. by apply (ctx_at_intern (cx s) x').
Qed.

(** [push_cxt] saves the context and enters the function. *)
Lemma sim_push_cxt N s g fn :
  idle N s g -> N < 2 ^ 26 -> R * (N + 1) < 2 ^ 31 -> fn <> 0 -> is_Some (fs !! fn) ->
  exists s', push_cxt s fn = Ok s' /\
    sim (saved_entry (lg_fns g) (fs_top (current_fn_stack s))) (fs_top (current_fn_stack s)) (N + 1) s'
      (with_fns g (enter_fns fs (lg_fns g) fn)).
Proof.
  intros HS HN HRN Hfn [y Hy]. pose proof HS as [S1 S2 S3 S4 S5 S6 S7 S8 ST S9 S10 S11 S12 S13 S14].
  destruct S7 as [K1 K2 K3 K4 K5 (e & He & Hfree)]. unfold push_cxt.
  rewrite wrapu_small by (unfold in_u; lia). rewrite tl_assert_true by (by apply Z.ltb_lt). cbn [rbind].
  rewrite (arr_get_in _ _ e) by (lia || by rewrite K2, Nat2Z.id). cbn [rbind]. rewrite Hfree. cbn [written rbind].
  rewrite tl_assert_true by done. cbn [rbind].
  destruct S10 as (Ec & Ens & c & Ecx & Hc). unfold set_entry.
  rewrite arr_set_in by lia. cbn [rbind]. rewrite K2, Nat2Z.id.
  match goal with |- context [set_call_stack s ?cs] => set (s1 := set_call_stack s cs) end.
  set (T := fs_top (current_fn_stack s)) in *. assert (sim (saved_entry (lg_fns g) T) T N s1 g) as HS1.
  { unfold s1. rewrite <- K2. apply (sim_entry free_entry (saved_entry (lg_fns g) T) T N s g e); try done.
    exists c. cbn. rewrite Ecx. pose proof S6 as [F1 F2 F3 F4 F5 F6 F7].
    split_and!; try done; lia. }
  rewrite (proj2 (Z.eqb_neq fn 0) Hfn).
  destruct (top_read N _ _ S6) as (f & r & El & Hf & [x Hx] & Er). fold T in Er. rewrite Er. cbn [rbind].
  rewrite El. cbn [enter_fns]. destruct (Z.eqb_spec f fn) as [->|Hne].
  { exists s1. split; [done|]. eapply sim_mono; [|exact (Z.le_succ_diag_r N)].
    replace (with_fns g (fn :: r)) with g; [by rewrite <- El|]. destruct g; unfold with_fns; cbn in *. by rewrite El. }
  destruct S1 as (ws & H1 & _).
  destruct (deref_fn_ok fs (cx s) ws fn y H1 Hfn Hy) as (y' & Ey & _ & Cy).
  destruct (deref_fn_ok fs (cx s) ws f x H1 Hf Hx) as (x' & Ex & _ & Cx).
  change (cx s1) with (cx s). rewrite Ey. cbn [rbind]. rewrite Ex. cbn [rbind]. rewrite Hx, Hy.
  assert (group y' = group y /\ group x' = group x) as [-> ->].
  { apply (f_equal group) in Cx, Cy. done. }
  destruct (sim_enter_fn T N s1 g fn f HS1 HN HRN Hfn ltac:(by exists y) Hf) as (s2 & E2 & HS2).
  assert (with_fns g (f :: r) = g) as Eg by (destruct g; unfold with_fns; cbn in *; by rewrite El).
  rewrite El in HS1, HS2.
  destruct (Z.ltb_spec 0 (group y)) as [Hg|Hg]; cbn [rbind andb]; [|by exists s2].
  destruct (group x =? group y); [|by exists s2].
  exists s1. split; [done|]. rewrite Eg. eapply sim_mono; [exact HS1|lia].
Qed.

(** Room for one more entry. *)
Lemma sim_ensure l T N s g :
  sim (saved_entry l T) T N s g -> N < 2 ^ 26 ->
  exists s', ensure_stack_size s (cs_sp (current_call_stack s) + 1) = Ok s' /\
    sim (saved_entry l T) T (N + 1) s' g /\
    cs_sp (current_call_stack s') + 1 < cs_size (current_call_stack s').
Proof.
  intros HS HN. pose proof (sm_calls _ _ _ _ _ HS) as [K1 K2 K3 K4 K5 (e & He & HP)].
  unfold ensure_stack_size. rewrite wrapu_small by (unfold in_u; lia).
  destruct (Z.ltb_spec (cs_sp (current_call_stack s) + 1) (cs_size (current_call_stack s))) as [Hlt|Hge].
  { exists s. split_and!; try done. eapply sim_mono; [exact HS|lia]. }
  assert (cs_size (current_call_stack s) = cs_sp (current_call_stack s) + 1) as Esz by lia.
  set (sz := cs_size (current_call_stack s)) in *.
  rewrite (wrapu_small 32 (sz * 2)) by (unfold in_u; lia).
  assert (double_size 32 (cs_sp (current_call_stack s) + 1) (sz * 2) = Ok (sz * 2)) as ->.
  { cbn [double_size]. rewrite wrapu_small by (unfold in_u; lia). by rewrite (proj2 (Z.leb_le _ _)) by lia. }
  pose proof (sm_stat _ _ _ _ _ HS) as Hst. cbn [rbind]. unfold int_add.
  rewrite signed_result_in by (unfold in_s; lia). cbn [rbind].
  rewrite take_ge by lia. eexists. split; [done|]. cbn [current_call_stack set_stat set_call_stack cs_sp cs_size].
  split; [|lia]. pose proof HS as [S1 S2 S3 S4 S5 S6 S7 S8 ST S9 S10 S11 S12 S13 S14].
  constructor; try done; cbn [set_stat set_call_stack cx jm costs current_fn_stack current_call_stack stat cs_entry
    call_stack_resizes]; try lia.
  - destruct S1 as (ws & H1 & H2 & H3 & H4). exists ws. split_and!; try done; lia.
  - destruct S2 as (arcs & A1 & A2 & A3 & A4). exists arcs. split_and!; try done; lia.
  - destruct S6 as [F1 F2 F3 F4 F5 F6 F7]. constructor; try done; lia.
  - constructor; cbn [cs_entry cs_size cs_sp]; try done; try lia.
    + rewrite length_app, length_replicate. lia.
    + exists e. split; [by apply lookup_app_l_Some|done].
  - eapply frames_mono; [exact S8|apply Z.le_refl| |done|done|done]. intros d x Hd Hx.
    split; [by apply lookup_app_l_Some|done].
  - eapply owns_perm; [|exact S11]. unfold owners. apply perm_skip, Permutation_app_tail.
    rewrite omap_app. replace (omap enter_cost (replicate _ no_entry)) with (@nil cptr); [by rewrite app_nil_r|].
    generalize (Z.to_nat (sz * 2 - sz)). intros n. by induction n.
Qed.

(** The context is saved and the counters are copied. *)
Definition entered_entry (l : list Z) (T : Z) (total : Z -> Z) (s : stacks) (e : call_entry) : Prop :=
  saved_entry l T s e /\ exists p, enter_cost e = Some p /\
    forall i, 0 <= i < es_size es -> val (costs s) p i = u64 (total i).

Definition set_enter_cost (e : call_entry) (p : option cptr) : call_entry :=
  MkEntry (ce_jcc e) p (ce_sp e) (ret_addr e) (ce_nonskipped e) (ce_cxt e) (ce_fn_sp e).

Hypothesis Hes : 0 <= es_size es < COSTCHUNK_SIZE.

Lemma sim_copy l T N s g e :
  sim (saved_entry l T) T N s g -> cs_entry (current_call_stack s) !! length (lg_open g) = Some e ->
  exists p m s', copy_cost_lz (full s) (costs s) (enter_cost e) (x_cost (cur s)) = Ok (p, m) /\
    set_entry (set_costs s m) (cs_sp (current_call_stack s)) (set_enter_cost e p) = Ok s' /\
    sim (entered_entry l T (lg_total g)) T N s' g /\
    jm s' = jm s /\ cx s' = cx s /\ cur s' = cur s /\ cs_sp (current_call_stack s') = cs_sp (current_call_stack s) /\
    cs_size (current_call_stack s') = cs_size (current_call_stack s) /\
    current_fn_active s' = current_fn_active s /\ centres s' = centres s.
Proof.
  intros HS He. pose proof HS as [S1 S2 S3 S4 S5 S6 S7 S8 ST S9 S10 S11 S12 S13 S14].
  destruct S10 as (Ec & Ens & Hcx), S5 as (EB & Ef & Esk). rewrite Ec, Ef.
  destruct (owners_insert enter_cost _ _ _ He) as (rest & R1 & R2 & R3).
  set (jr := omap jcc_cost (jccs (jm s))) in *.
  destruct (copy_cost_lz_ok es (costs s) c0 (enter_cost e) (rest ++ jr)) as (d & m & E & Hd & Ho & Hv & Hq); [done| |].
  { eapply owns_perm; [|exact S11]. unfold owners. apply perm_skip. rewrite (assoc_L (++)).
    by apply Permutation_app_tail. }
  destruct S7 as [K1 K2 K3 K4 K5 (e1 & He1 & HP)]. assert (e1 = e) as -> by congruence.
  pose proof (lookup_lt_Some _ _ _ He) as Hlt.
  exists (Some d), m. unfold set_entry. cbn [set_costs current_call_stack]. rewrite arr_set_in by lia. cbn [rbind].
  eexists. split; [done|]. split; [done|]. split; [|by split_and!]. rewrite K2, Nat2Z.id.
  assert (forall p i, p ∈ rest ++ jr -> 0 <= i < es_size es -> val m p i = val (costs s) p i) as Hrest.
  { intros p i Hp Hi. apply Hq; [by right|done]. }
  assert (forall dd x p, dd <> length (lg_open g) -> cs_entry (current_call_stack s) !! dd = Some x ->
    enter_cost x = Some p -> p ∈ rest ++ jr) as Hin.
  { intros dd x p Hne Hx Hp. apply elem_of_app. left. by eapply R3. }
  constructor; try done; cbn [set_call_stack set_costs cx jm costs current_fn_stack current_call_stack cs_entry].
  - constructor; cbn [cs_entry cs_size cs_sp]; try done; try lia.
    + by rewrite length_insert.
    + exists (set_enter_cost e (Some d)). split; [by apply list_lookup_insert_eq|]. split; [exact HP|].
      exists d. split; [done|]. intros i Hi. cbn [costs set_call_stack set_costs].
      rewrite Hv; [by apply S12|done].
  - eapply frames_mono; [exact S8|apply Z.le_refl| |done|done|done]. intros dd x Hdd Hx.
    rewrite list_lookup_insert_ne by lia. split; [done|]. intros p i Hp Hi. apply Hrest; [|done].
    apply (Hin dd x p); [lia|done|done].
  - eapply owns_perm; [|exact Ho]. unfold owners. apply perm_skip.
    etransitivity; [|apply Permutation_app_tail; symmetry; apply R2]. done.
  - intros i Hi. rewrite Hq by (done || left). by apply S12.
  - apply (arc_costs_frame (costs s)); [done|]. intros k x p i Hk Hp Hi. apply Hrest; [|done].
    apply elem_of_app. right. apply list_elem_of_omap. exists x. split; [by eapply list_elem_of_lookup_2|done].
Qed.

(** The arc of the call. *)
Lemma sim_get_jcc l T total N s g f j t :
  sim (entered_entry l T total) T N s g -> N < 2 ^ 26 -> f <> 0 -> t <> 0 ->
  (exists n, X !! f = Some n /\ 0 <= j <= n) -> is_Some (X !! t) ->
  exists k j', get_jcc (jm s) f j t = Ok (k, j') /\ key <$> jccs j' !! k = Some (f, j, t) /\
    sim (entered_entry l T total) T (N + 1) (set_jm s j') g.
Proof.
  intros HS HN Hf Ht (n & Hn & Hj) [n' Hn']. pose proof HS as [S1 S2 S3 S4 S5 S6 S7 S8 ST S9 S10 S11 S12 S13 S14].
  destruct S2 as (arcs & A1 & A2 & A3 & A4).
  assert (arc_valid (jm s) (f, j, t)) as Hv.
  { split_and!; [done|done| |by exists n; rewrite S3].
    specialize (S3 t). rewrite Hn' in S3. by destruct (bbccs (jm s) !! t). }
  destruct (get_jcc_ok (jm s) arcs (f, j, t) A1 Hv) as (j' & E & Hok & Hsame & Hm); [lia|lia|].
  cbn [fst snd] in E. exists (intern arcs (f, j, t)).1, j'. split; [done|].
  pose proof (intern_lookup arcs (f, j, t) (ak_nodup _ _ A1)) as Hk.
  pose proof (intern_prefix arcs (f, j, t)) as Hpre. pose proof (intern_length arcs (f, j, t)) as Hlen.
  assert (forall i, key <$> jccs j' !! i = (intern arcs (f, j, t)).2 !! i) as Hkey.
  { intros i. by eapply key_lookup; apply Hok. }
  split; [by rewrite Hkey|].
  assert (forall i b, key <$> jccs (jm s) !! i = Some b -> key <$> jccs j' !! i = Some b) as Hext.
  { intros i b Hb. rewrite Hkey. rewrite (key_lookup _ _ _ _ i (ak_table _ _ A1)) in Hb.
    by eapply prefix_lookup_Some. }
  destruct (get_jcc_payload _ _ _ _ _ _ E) as (ext & Hpay & Hex).
  constructor; try done; cbn [set_jm cx jm costs current_fn_stack current_call_stack stat]; try lia.
  - destruct S1 as (ws & H1 & H2 & H3 & H4). exists ws. split_and!; try done; lia.
  - exists (intern arcs (f, j, t)).2. split_and!; try done; try lia. intros b Hb. apply A4.
    intros Hin. apply Hb. apply list_elem_of_lookup_1 in Hin as [i Hi].
    eapply list_elem_of_lookup_2. by eapply prefix_lookup_Some.
  - intros p. by rewrite Hsame.
  - destruct S6 as [F1 F2 F3 F4 F5 F6 F7]. constructor; try done; lia.
  - destruct S7 as [K1 K2 K3 K4 K5 K6]. constructor; try done; lia.
  - eapply frames_mono; [exact S8|apply Z.le_refl|done|done|done|done].
  - eapply owns_perm; [|exact S11]. unfold owners. apply perm_skip, Permutation_app_head.
    assert (forall l : list jCC, omap jcc_cost l = omap snd (payload <$> l)) as Hom.
    { clear. intros l. induction l as [|x l IH]; [done|]. cbn. unfold payload at 1. cbn [snd].
      destruct (jcc_cost x); by rewrite IH. }
    rewrite !Hom, Hpay, omap_app. destruct Hex as [-> | ->]; by rewrite app_nil_r.
  - intros i x Hx. assert (payload <$> jccs j' !! i = Some (payload x)) as Hpx by (by rewrite Hx).
    rewrite <- list_lookup_fmap, Hpay in Hpx. apply lookup_app_Some in Hpx as [Hpx|[Hge Hpx]].
    + rewrite list_lookup_fmap in Hpx. destruct (jccs (jm s) !! i) as [y|] eqn:Hy; [|done]. cbn in Hpx.
      injection Hpx as _ Ecc Ejc. specialize (Hext i (key y)). rewrite Hy, Hx in Hext. cbn in Hext.
      injection (Hext eq_refl) as E1 E2 E3. destruct (S13 i y Hy) as [C1 C2].
      assert (key x = key y) as Ek by (unfold key; congruence). rewrite Ek, <- Ecc, <- Ejc. done.
    + destruct Hex as [-> | ->]; [done|]. destruct (i - length (payload <$> jccs (jm s)))%nat eqn:Ei; [|done].
      cbn in Hpx. injection Hpx as _ Ecc Ejc. rewrite <- Ecc, <- Ejc. cbn.
      destruct (A4 (key x)) as [Z1 Z2].
      { intros Hin. apply list_elem_of_lookup_1 in Hin as [i' Hi'].
        rewrite length_fmap, (key_length _ _ _ _ (ak_table _ _ A1)) in *.
        pose proof (prefix_lookup_Some _ _ _ _ Hi' Hpre) as Hi2.
        assert (i' = i) as ->.
        { eapply NoDup_lookup; [apply (ak_nodup _ _ Hok)|exact Hi2|]. rewrite <- Hkey, Hx. done. }
        apply lookup_lt_Some in Hi'. lia. }
      rewrite Z1. split; [done|]. intros i' _. by rewrite Z2.
Qed.

(** The function of a cost centre. *)
Lemma centre_fn_ok s p : centres_ok s -> is_Some (C !! p) ->
  p <> 0 /\ centre_fn s p = Ok (fn_of p) /\ fn_of p <> 0 /\ is_Some (fs !! fn_of p).
Proof.
  intros Hc [[bb k] Hp]. destruct (Hc p bb k Hp) as (Hp0 & c & x & rest & P1 & P2 & P3 & P4 & P5 & P6 & P7).
  split; [done|]. split; [|done]. unfold centre_fn, deref_centre.
  rewrite (proj2 (Z.eqb_neq p 0) Hp0), P1. cbn [rbind]. rewrite P3. unfold cxt_fn0, get_node. rewrite P4.
  cbn [rbind]. rewrite P5. done.
Qed.

(** The depth of the called function. *)
Lemma change_depth_ok s k x f j t d ws open open' :
  cxts_ok fs (cx s) ws -> centres_ok s -> active_ok (current_fn_active s) open ->
  skip_direct_recursion s = skip_recursion -> jccs (jm s) !! k = Some x -> key x = (f, j, t) ->
  is_Some (C !! f) -> is_Some (C !! t) ->
  (forall n, active_count fs open' n = active_count fs open n +
     (if negb (skip_recursion && (fn_of f =? fn_of t)) && bool_decide (number <$> fs !! fn_of t = Some n)
      then d else 0)) ->
  exists depth a, change_depth s k (fn_of t) d = Ok (depth, set_active s a) /\ active_ok a open'.
Proof.
  intros Hcx Hc Ha Hsk Hx Hk HCf HCt Hcount. injection Hk as Kf Kj Kt.
  destruct (centre_fn_ok s f Hc HCf) as (Hf0 & Ef & _). destruct (centre_fn_ok s t Hc HCt) as (Ht0 & Et & Hft & [y Hy]).
  destruct (deref_fn_ok fs (cx s) ws _ y Hcx Hft Hy) as (y' & Ey & _ & Cy).
  assert (number y' = number y) as En by (by apply (f_equal number) in Cy).
  unfold change_depth. rewrite Ey. cbn [rbind]. rewrite En. destruct Ha as [V1 V2 V3].
  destruct (V3 _ y Hy) as [Hnum Hval]. unfold get_fn_entry.
  rewrite wraps_small by (unfold in_s; lia). rewrite wrapu_small by (unfold in_u; lia).
  rewrite tl_assert_true by (apply Z.ltb_lt; lia). cbn [rbind]. unfold get_node. rewrite Hx. cbn [rbind].
  rewrite Hsk, Kf, Ef. cbn [rbind].
  assert (read_active s (number y) = Ok (u32 (act0 (number y) + active_count fs open (number y)))) as Er
    by (unfold read_active; apply arr_get_in; [lia|exact Hval]).
  set (counted := negb (skip_recursion && (fn_of f =? fn_of t))) in *.
  replace (if skip_recursion then if negb (fn_of f =? fn_of t) then add_active s (number y) d else Ok s
    else add_active s (number y) d) with (if counted then add_active s (number y) d else Ok s); cycle 1.
  { unfold counted. destruct skip_recursion; [|done]. cbn [andb]. by destruct (fn_of f =? fn_of t). }
  destruct counted eqn:Ecd.
  - unfold add_active. rewrite Er. cbn [rbind]. rewrite arr_set_in by lia. cbn [rbind].
    unfold read_active at 1. cbn [set_active current_fn_active fa_array].
    rewrite (arr_get_in _ _ (u32 (u32 (act0 (number y) + active_count fs open (number y)) + d))); cycle 1.
    { lia. } { apply list_lookup_insert_eq. lia. }
    cbn [rbind]. eexists _, _. split; [done|]. constructor; cbn [fa_array fa_size]; try done.
    + by rewrite length_insert.
    + intros g z Hz. destruct (V3 g z Hz) as [Hn Hg]. split; [done|]. rewrite Hcount, Hy. cbn [andb fmap option_fmap option_map].
      destruct (decide (number z = number y)) as [Ez|Ez].
      * rewrite Ez, bool_decide_eq_true_2 by done. rewrite list_lookup_insert_eq by lia.
        f_equal. unfold wrapu. by rewrite Z.add_mod_idemp_l, Z.add_assoc.
      * rewrite bool_decide_eq_false_2 by congruence. rewrite Z.add_0_r.
        rewrite list_lookup_insert_ne by lia. done.
  - cbn [rbind]. rewrite Er. cbn [rbind]. exists (u32 (act0 (number y) + active_count fs open (number y))), (current_fn_active s).
    split; [by destruct s|]. constructor; try done. intros g z Hz. destruct (V3 g z Hz) as [Hn Hg].
    split; [done|]. rewrite Hcount. cbn [andb]. by rewrite Z.add_0_r.
Qed.

Lemma owners_same (l : list call_entry) d e e' :
  l !! d = Some e -> enter_cost e' = enter_cost e -> omap enter_cost (<[d := e']> l) ≡ₚ omap enter_cost l.
Proof. intros He Ec. destruct (owners_insert enter_cost _ _ _ He) as (rest & H1 & H2 & _). by rewrite H1, H2, Ec. Qed.

Definition counted_jumps (j : jumps) (k : nat) (x : jCC) : jumps :=
  MkJumps (<[k := x]> (jccs j)) (bbccs j) (current_jccs j) (jcc_hash_resizes j) (distinct_jccs j) (jcc_lru_misses j).

(** The call is on the stack: its entry and the free one above it are written,
    the arc and the depth of the function are counted. *)
Lemma sim_open l T N s g fn f j t sp k x e e1 e2 e2' a st :
  sim (entered_entry l T (lg_total g)) T N s (with_fns g (enter_fns fs l fn)) -> lg_fns g = l ->
  key x = (f, j, t) -> jccs (jm s) !! k = Some x -> is_Some (C !! f) -> is_Some (C !! t) ->
  let d := length (lg_open g) in
  let es_ := cs_entry (current_call_stack s) in
  es_ !! d = Some e -> es_ !! S d = Some e2 ->
  ce_jcc e1 = Some (Some k) -> ce_sp e1 = Some sp -> enter_cost e1 = enter_cost e -> ce_nonskipped e1 = Some 0 ->
  ce_cxt e1 = ce_cxt e -> ce_fn_sp e1 = ce_fn_sp e -> enter_cost e2' = enter_cost e2 -> ce_cxt e2' = Some None ->
  active_ok a (lg_open (spec_enter fs fn_of skip_recursion g fn f j t sp)) ->
  0 <= call_stack_resizes st <= N ->
  idle (N + 1) (MkStacks (cx s) (counted_jumps (jm s) k (count_call x)) (centres s) (bbs s) (costs s)
      (full s) (current_fn_stack s)
      (MkCalls (cs_size (current_call_stack s)) (Z.of_nat d + 1) (<[S d := e2']> (<[d := e1]> es_)))
      a (set_x_nonskipped (cur s) 0) (skip_direct_recursion s) st)
    (spec_enter fs fn_of skip_recursion g fn f j t sp).
Proof.
  intros [S1 S2 S3 S4 S5 S6 S7 S8 ST S9 S10 S11 S12 S13 S14] Hl Hkx Hx HCf HCt d es_ He He2 G1 Gsp G2 G3 G4 G5 G6 G7 Ha Hst.
  cbn [with_fns lg_fns lg_open lg_total] in *. pose proof (lookup_lt_Some _ _ _ He2) as Hlt.
  assert (key <$> <[k := count_call x]> (jccs (jm s)) = key <$> jccs (jm s)) as Ekeys.
  { rewrite list_fmap_insert. apply list_insert_id. by rewrite list_lookup_fmap, Hx. }
  constructor; cbn [cx jm centres bbs costs full current_fn_stack current_call_stack current_fn_active cur
    skip_direct_recursion stat spec_enter lg_fns lg_open lg_total cs_entry counted_jumps jccs bbccs]; try done; try lia.
  - destruct S1 as (ws & H1 & H2 & H3 & H4). exists ws. split_and!; try done; lia.
  - destruct S2 as (arcs & A1 & A2 & A3 & A4). exists arcs.
    cbn [counted_jumps jcc_lru_misses]. split_and!; try done; try lia.
    + by apply (arcs_ok_counted _ _ k x).
    + intros b Hb. cbn [spec_enter lg_calls lg_sums]. rewrite decide_False; [by apply A4|]. intros ->. apply Hb.
      eapply (list_elem_of_lookup_2 _ k). rewrite <- (key_lookup _ _ _ _ k (ak_table _ _ A1)), Hx. cbn. congruence.
  - destruct S6 as [F1 F2 F3 F4 F5 F6 F7]. rewrite Hl. constructor; try done; lia.
  - destruct S7 as [K1 K2 K3 K4 K5 K6]. fold d in K2. constructor; cbn [cs_entry cs_size cs_sp length]; try lia.
    + by rewrite !length_insert.
    + unfold es_ in Hlt. lia.
    + exists e2'. split; [|done]. apply list_lookup_insert_eq. by rewrite length_insert.
  - destruct S7 as [K1 K2 K3 K4 K5 (e' & He' & (c & Q1 & Q2 & Q3 & Q4 & Q5 & Q6 & Q7) & p & P1 & P2)].
    assert (Some e' = Some e) as [= ->] by (rewrite <- He', <- He; reflexivity).
    exists e1, T. split; [|split].
    + rewrite list_lookup_insert_ne by lia. apply list_lookup_insert_eq. fold d. lia.
    + exists k, p, c. cbn [fr_arc fr_entered fr_fns fr_fn fr_counted fst snd]. rewrite Hl. split_and!; try done; try lia.
      * by rewrite <- list_lookup_fmap, Ekeys, list_lookup_fmap, Hx, <- Hkx.
      * by rewrite G2.
      * by rewrite G4.
      * by rewrite G5.
    + eapply frames_mono; [exact S8|apply Z.le_refl| | |done|done].
      * intros dd y Hdd Hy. rewrite !list_lookup_insert_ne by lia. done.
      * intros i b Hb. by rewrite <- list_lookup_fmap, Ekeys, list_lookup_fmap.
  - destruct S10 as (E1 & E2 & E3). rewrite Hl. by split_and!.
  - eapply owns_perm; [|exact S11]. unfold owners. apply perm_skip.
    rewrite (owners_same _ (S d) e2) by (rewrite ?list_lookup_insert_ne by lia; done).
    rewrite (owners_same _ d e) by done. apply Permutation_app_head.
    destruct (owners_insert jcc_cost _ _ _ Hx) as (rest & H1 & H2 & _). by rewrite H1, H2.
  - intros i y Hy. cbn [spec_enter lg_calls lg_sums]. destruct (decide (i = k)) as [->|Hne].
    + rewrite list_lookup_insert_eq in Hy by (by apply lookup_lt_Some in Hx). injection Hy as <-.
      destruct (S13 k x Hx) as [C1 C2]. cbn [count_call call_counter jcc_cost key from jmp to].
      change (key (count_call x)) with (key x). rewrite Hkx in *. rewrite decide_True by done. split; [|done].
      rewrite C1. unfold wrapu. by rewrite Z.add_mod_idemp_l.
    + rewrite list_lookup_insert_ne in Hy by done. destruct (S13 i y Hy) as [C1 C2]. split; [|done].
      rewrite decide_False; [done|]. intros Ek. apply Hne.
      destruct S2 as (arcs & A1 & _). eapply NoDup_lookup; [apply (ak_nodup _ _ A1)| |].
      * rewrite <- (key_lookup _ _ _ _ i (ak_table _ _ A1)), Hy. cbn. by rewrite Ek.
      * rewrite <- (key_lookup _ _ _ _ k (ak_table _ _ A1)), Hx. cbn. by rewrite Hkx.
Qed.

Hypothesis Hplain : map_Forall (fun _ => plain_fn) fs.

Variable dump_profile : string -> stacks -> res stacks.
Variable zero_all_cost : stacks -> res stacks.

(** A call between known cost centres, from an exit the source has. *)
Definition enter_ok (fn f j t : Z) : Prop :=
  fn <> 0 /\ is_Some (fs !! fn) /\ is_Some (C !! t) /\ is_Some (X !! t) /\
  (exists n, X !! f = Some n /\ 0 <= j <= n) /\
  exists bb k b i, C !! f = Some (bb, k) /\ bb <> 0 /\ B !! bb = Some b /\ bb_jmp b !! Z.to_nat j = Some i /\
    (cj_jmpkind i = jk_Call -> 0 <= cj_instr i /\ is_Some (bb_instr b !! Z.to_nat (cj_instr i))).

Lemma return_address_ok s fn f j t :
  centres_ok s -> bbs s = B -> enter_ok fn f j t -> exists ra, return_address s f j = Ok ra.
Proof.
  intros Hc HB (_ & _ & _ & _ & (n & _ & Hj) & bb & k & b & i & Hf & Hbb & Hb & Hi & Hin).
  destruct (Hc f bb k Hf) as (Hf0 & c & x & rest & P1 & P2 & _). unfold return_address, deref_centre.
  rewrite (proj2 (Z.eqb_neq f 0) Hf0), P1. cbn [rbind]. unfold deref_bb.
  rewrite P2, (proj2 (Z.eqb_neq bb 0) Hbb), HB, Hb. cbn [rbind].
  rewrite (arr_get_in _ _ i) by (done || lia). cbn [rbind].
  destruct (cj_jmpkind i); try by eexists. destruct (Hin eq_refl) as [Hin0 [[o z] Hz]].
  rewrite (arr_get_in _ _ (o, z)) by done. cbn [rbind]. by eexists.
Qed.

Lemma plain_entered s ws f x y :
  cxts_ok fs (cx s) ws -> fs !! f = Some x -> config y = config x ->
  function_entered dump_profile zero_all_cost s y = Ok s /\ function_left dump_profile s y = Ok s.
Proof.
  intros _ Hx Hc. destruct (Hplain f x Hx) as (P1 & P2 & P3 & P4).
  assert (dump_before y = false /\ dump_after y = false /\ zero_before y = false /\ toggle_collect y = false)
    as (Q1 & Q2 & Q3 & Q4).
  { split_and!; [rewrite <- P1|rewrite <- P2|rewrite <- P3|rewrite <- P4];
      [by apply (f_equal dump_before) in Hc|by apply (f_equal dump_after) in Hc
      |by apply (f_equal zero_before) in Hc|by apply (f_equal toggle_collect) in Hc]. }
  unfold function_entered, function_left, toggle. by rewrite Q1, Q2, Q3, Q4.
Qed.

(** The arc of the call, found and counted. *)
Lemma call_arc_ok l T N s g fn f j t sp :
  sim (saved_entry l T) T N s (with_fns g (enter_fns fs l fn)) -> N < 2 ^ 26 - 1 -> enter_ok fn f j t ->
  exists k x e s2 a st, call_arc dump_profile zero_all_cost s f j t =
      Ok (k, set_stat (set_jm (set_active s2 a) (counted_jumps (jm s2) k (count_call x))) st) /\
    sim (entered_entry l T (lg_total g)) T (N + 1) s2 (with_fns g (enter_fns fs l fn)) /\
    cs_entry (current_call_stack s2) !! length (lg_open g) = Some e /\
    jccs (jm s2) !! k = Some x /\ key x = (f, j, t) /\
    active_ok a (lg_open (spec_enter fs fn_of skip_recursion g fn f j t sp)) /\
    call_stack_resizes st = call_stack_resizes (stat s2) /\
    cs_sp (current_call_stack s2) = cs_sp (current_call_stack s) /\
    cs_size (current_call_stack s2) = cs_size (current_call_stack s).
Proof.
  intros HS HN Hen. pose proof Hen as (Hfn & Hfx & HCt & HXt & HXf & bb & kk & b & i & HCf & _).
  pose proof HS as [S1 S2 S3 S4 S5 S6 S7 S8 ST S9 S10 S11 S12 S13 S14].
  destruct S7 as [K1 K2 K3 K4 K5 (e & He & c & Q1 & Q2)]. cbn [with_fns lg_open] in *.
  destruct (centre_fn_ok s t S4 HCt) as (Ht0 & Et & Hft & [y Hy]).
  destruct S10 as (Ec & Ens & _). unfold call_arc. rewrite Et. cbn [rbind]. rewrite Ens. change (negb (0 =? 0)) with false.
  cbn iota. cbn [rbind].
  rewrite (arr_get_in _ _ e) by (lia || by rewrite K2, Nat2Z.id). cbn [rbind]. rewrite Q1. cbn [written rbind].
  rewrite tl_assert_true by (by rewrite bool_decide_eq_false_2). cbn [rbind].
  destruct (sim_copy l T N s _ e HS He) as (p & m & s1 & E1 & E2 & HS1 & J1 & X1 & U1 & P1 & Z1 & A1 & C1).
  rewrite E1. cbn [rbind]. unfold set_enter_cost in E2. rewrite Q1 in E2. rewrite E2. cbn [rbind].
  destruct (centre_fn_ok s f S4 ltac:(by exists (bb, kk))) as (Hf0 & _).
  destruct (sim_get_jcc l T _ N s1 _ f j t HS1 ltac:(lia) Hf0 Ht0 HXf HXt) as (k & j' & E3 & Hk & HS2).
  rewrite E3. cbn [rbind]. set (s2 := set_jm s1 j') in *.
  destruct (jccs j' !! k) as [x|] eqn:Hx; [|done]. injection Hk as Hk1 Hk2 Hk3.
  assert (key x = (f, j, t)) as Hk by (unfold key; congruence).
  destruct (sm_cx _ _ _ _ _ HS2) as (ws & H1 & _). pose proof (sm_centres _ _ _ _ _ HS2) as Hce.
  destruct (change_depth_ok s2 k x f j t 1 ws (lg_open g) (lg_open (spec_enter fs fn_of skip_recursion g fn f j t sp)))
    as (depth & a & E4 & Ha);
    [exact H1|exact Hce|exact (sm_active _ _ _ _ _ HS2)|apply (sm_static _ _ _ _ _ HS2)|exact Hx|exact Hk
    |by exists (bb, kk)|exact HCt| |].
  { intros n. cbn [spec_enter lg_open active_count fr_counted fr_fn]. lia. }
  rewrite E4. cbn [rbind]. unfold upd_jcc. cbn [set_active jm]. unfold get_node. unfold s2 at 1. cbn [set_jm jm].
  rewrite Hx. cbn [rbind]. change (cx (set_stat _ _)) with (cx s2).
  destruct (deref_fn_ok fs (cx s2) ws _ y H1 Hft Hy) as (y' & Ey & _ & Cy).
  match goal with |- context [deref_fn ?q (fn_of t)] => change q with (cx s2) end.
  rewrite Ey. cbn [rbind].
  match goal with |- context [function_entered _ _ ?q y'] => rewrite (proj1 (plain_entered q ws _ y y' H1 Hy Cy)) end.
  exists k, x, (set_enter_cost e p), s2, a.
  eexists. split; [by destruct (depth =? 1)|]. split; [exact HS2|]. split; [|split_and!; try done].
  - unfold s2. cbn [set_jm current_call_stack]. unfold set_entry in E2.
    cbn [set_costs current_call_stack] in E2. rewrite arr_set_in in E2 by lia. cbn [rbind] in E2.
    apply (f_equal (fun r => match r with Ok q => cs_entry (current_call_stack q) | Err _ => [] end)) in E2.
    rewrite <- E2. cbn [set_call_stack current_call_stack cs_entry]. rewrite K2, Nat2Z.id.
    unfold set_enter_cost. rewrite Q1. apply list_lookup_insert_eq. by apply lookup_lt_Some in He.
Qed.

Lemma sim_enter N s g fn f j t sp :
  idle N s g -> N < 2 ^ 26 - 4 -> R * (N + 1) < 2 ^ 31 -> enter_ok fn f j t ->
  exists s', run_action dump_profile zero_all_cost s (Enter fn f j t sp) = Ok s' /\
    idle (N + 4) s' (spec_action fs fn_of skip_recursion g (Enter fn f j t sp)).
Proof.
  intros HS HN HRN Hen. cbn [run_action spec_action]. pose proof Hen as (Hfn & Hfx & HCt & _ & _ & bb & kk & _ & _ & HCf & _).
  destruct (sim_push_cxt N s g fn HS) as (s1 & E1 & HS1); [lia|lia|done|done|]. rewrite E1. cbn [rbind].
  set (T := fs_top (current_fn_stack s)) in *. unfold push_call_stack.
  pose proof (sm_calls _ _ _ _ _ HS1) as [K1 K2 K3 K4 K5 _]. cbn [with_fns lg_open] in K2.
  unfold int_add at 1. rewrite signed_result_in by (unfold in_s; lia). cbn [rbind].
  destruct (sim_ensure _ T (N + 1) s1 _ HS1) as (s2 & E2 & HS2 & Hroom); [lia|]. rewrite E2. cbn [rbind].
  destruct (call_arc_ok (lg_fns g) T (N + 1 + 1) s2 g fn f j t sp HS2) as
    (k & x & e & s3 & a & st & E3 & HS3 & He & Hx & Hk & Ha & Hst & P3 & Z3); [lia|done|].
  rewrite E3. cbn [rbind].
  match goal with |- context [return_address ?q f j] => destruct (return_address_ok q fn f j t) as [ra Era] end;
    [exact (sm_centres _ _ _ _ _ HS3)|apply (sm_static _ _ _ _ _ HS3)|done|].
  rewrite Era. cbn [rbind].
  pose proof (sm_calls _ _ _ _ _ HS3) as [L1 L2 L3 L4 L5 _]. cbn [with_fns lg_open] in L2.
  cbn [set_stat set_jm set_active current_call_stack].
  rewrite (arr_get_in _ _ e) by (lia || by rewrite L2, Nat2Z.id). cbn [rbind].
  unfold set_entry at 1. cbn [set_stat set_jm set_active current_call_stack]. rewrite arr_set_in by lia. cbn [rbind].
  cbn [set_call_stack current_call_stack cs_sp cs_size cs_entry].
  unfold int_add. rewrite signed_result_in by (unfold in_s; lia). cbn [rbind].
  rewrite wrapu_small by (unfold in_u; lia). rewrite tl_assert_true by (apply Z.ltb_lt; lia). cbn [rbind].
  set (d := length (lg_open g)) in *.
  destruct (lookup_lt_is_Some_2 (cs_entry (current_call_stack s3)) (S d)) as [e2 He2]; [lia|].
  rewrite (arr_get_in _ _ e2); [|lia|rewrite L2; replace (Z.to_nat (Z.of_nat d + 1)) with (S d) by lia;
    by rewrite list_lookup_insert_ne by lia]. cbn [rbind].
  unfold set_entry. cbn [set_call_stack current_call_stack cs_entry cs_sp cs_size]. rewrite arr_set_in by (rewrite length_insert; lia).
  cbn [rbind negb]. cbn [set_stat set_jm set_active set_call_stack set_cur cx jm centres bbs costs full current_fn_stack current_fn_active cur
    skip_direct_recursion stat]. rewrite L2, Nat2Z.id. replace (Z.to_nat (Z.of_nat d + 1)) with (S d) by lia.
  destruct (sm_cur _ _ _ _ _ HS3) as (_ & Ens & _). rewrite Ens.
  eexists. split; [done|]. replace (N + 4) with (N + 1 + 1 + 1 + 1) by lia.
  apply (sim_open (lg_fns g) T (N + 1 + 1 + 1) s3 g fn f j t sp k x e _ e2); try done.
  cbn [set_call_stack set_stat stat]. rewrite Hst. pose proof (sm_stat _ _ _ _ _ HS3). lia.
Qed.

(** What was counted since the call was entered goes to its arc. *)
Lemma leave_costs N s g fr rest e t k x o :
  let es_ := cs_entry (current_call_stack s) in
  let fa := fs_array (current_fn_stack s) in
  idle N s g -> lg_open g = fr :: rest -> es_ !! length rest = Some e -> jccs (jm s) !! k = Some x ->
  key x = fr_arc fr -> enter_cost e = Some o ->
  (forall i, 0 <= i < es_size es -> val (costs s) o i = u64 (fr_entered fr i)) ->
  frames_ok es_ (cxt_nodes (cx s)) (jccs (jm s)) (costs s) fa t rest ->
  exists b d m, add_diff_cost_lz (full s) (costs s) (jcc_cost x) (Some o) (x_cost (cur s)) = Ok (b, Some d, m) /\
    let jl := <[k := set_jcc_cost (Some d) x]> (jccs (jm s)) in
    key <$> jl = key <$> jccs (jm s) /\ arc_costs m jl (spec_leave g) /\
    (forall i, 0 <= i < es_size es -> val m c0 i = val (costs s) c0 i) /\
    forall e', enter_cost e' = Some o ->
      owns (es_size es) m (owners (<[length rest := e']> es_) jl) /\
      frames_ok (<[length rest := e']> es_) (cxt_nodes (cx s)) jl m fa t rest.
Proof.
  intros es_ fa. subst es_ fa. intros HS Eo He Hx Hk Ho Hent Hrest. destruct (sm_static _ _ _ _ _ HS) as (_ & -> & _).
  destruct (sm_cur _ _ _ _ _ HS) as (-> & _).
  destruct (owners_insert enter_cost _ _ _ He) as (r1 & R1 & R2 & R3).
  destruct (owners_insert jcc_cost _ _ _ Hx) as (r2 & Q1 & Q2 & Q3). rewrite Ho in R1. cbn [option_list app] in R1.
  destruct (add_diff_cost_lz_ok es (costs s) c0 o (jcc_cost x) (r1 ++ r2) Hes) as (b & d & m & E & Hd & Hown & Hv & Hq).
  { eapply owns_perm; [|exact (sm_own _ _ _ _ _ HS)]. unfold owners. apply perm_skip. rewrite R1, Q1.
    cbn [app]. apply perm_skip, Permutation_app_swap_app. }
  exists b, d, m. split; [done|]. intros jl.
  assert (key <$> jl = key <$> jccs (jm s)) as Ekeys.
  { unfold jl. rewrite list_fmap_insert. apply list_insert_id. by rewrite list_lookup_fmap, Hx. }
  assert (forall p i, p ∈ r1 \/ p ∈ r2 -> 0 <= i < es_size es -> val m p i = val (costs s) p i) as Hkeep.
  { intros p i Hp Hi. apply Hq; [right; by apply elem_of_app|done]. }
  split; [done|]. split_and!.
  - intros i y Hy. destruct (sm_jm _ _ _ _ _ HS) as (arcs & A1 & _). unfold spec_leave. rewrite Eo. cbn [lg_calls lg_sums].
    destruct (decide (i = k)) as [->|Hne].
    + unfold jl in Hy. rewrite list_lookup_insert_eq in Hy by (by apply lookup_lt_Some in Hx). injection Hy as <-.
      destruct (sm_costs _ _ _ _ _ HS k x Hx) as [C1 C2]. split; [done|]. intros i Hi.
      change (key (set_jcc_cost (Some d) x)) with (key x). rewrite decide_True by done.
      cbn [set_jcc_cost jcc_cost fmap option_fmap option_map default]. rewrite Hv, C2, (sm_total _ _ _ _ _ HS), Hent by done.
      unfold wrapu. by rewrite Zplus_mod, Zminus_mod, !Zmod_mod, <- Zminus_mod, <- Zplus_mod.
    + unfold jl in Hy. rewrite list_lookup_insert_ne in Hy by done. destruct (sm_costs _ _ _ _ _ HS i y Hy) as [C1 C2].
      split; [done|]. intros q Hqs. rewrite decide_False.
      * rewrite <- C2 by done. destruct (jcc_cost y) as [p|] eqn:Ep; [|done]. cbn. apply Hkeep; [right|done]. by eapply Q3.
      * rewrite <- Hk. intros Ek. apply Hne. eapply NoDup_lookup; [apply (ak_nodup _ _ A1)| |].
        -- rewrite <- (key_lookup _ _ _ _ i (ak_table _ _ A1)), Hy. cbn. by rewrite Ek.
        -- by rewrite <- (key_lookup _ _ _ _ k (ak_table _ _ A1)), Hx.
  - intros i Hi. apply Hq; [left|done].
  - intros e' Ee. split.
    + eapply owns_perm; [|exact Hown]. unfold owners. apply perm_skip. unfold jl. rewrite R2, Q2, Ee.
      cbn [option_list app set_jcc_cost jcc_cost]. apply perm_skip, Permutation_middle.
    + eapply frames_mono; [exact Hrest|apply Z.le_refl| | |done|done].
      * intros dd y Hdd Hy. rewrite list_lookup_insert_ne by lia. split; [done|]. intros p i Hp Hi.
        apply Hkeep; [left|done]. apply (R3 dd y p); [lia|done|done].
      * intros i arc Hb. by rewrite <- list_lookup_fmap, Ekeys, list_lookup_fmap.
Qed.

Definition free_cxt (e : call_entry) : call_entry :=
  MkEntry (ce_jcc e) (enter_cost e) (ce_sp e) (ret_addr e) (ce_nonskipped e) (Some None) (ce_fn_sp e).

Definition with_centres (s : stacks) (ctr : gmap Z cost_centre) : Prop :=
  forall p bb k, C !! p = Some (bb, k) -> exists c c', centres s !! p = Some c /\ ctr !! p = Some c' /\
    cc_bb c' = cc_bb c /\ cc_cxt c' = cc_cxt c.

Lemma with_centres_refl s : centres_ok s -> with_centres s (centres s).
Proof. intros H p bb k Hp. destruct (H p bb k Hp) as (_ & c & _ & _ & P1 & _). by exists c, c. Qed.

Lemma with_centres_counted s q c n : centres_ok s -> centres s !! q = Some c ->
  with_centres s (<[q := MkCentre (cc_bb c) (cc_cxt c) (cc_skipped c) n]> (centres s)).
Proof.
  intros H Hq p bb k Hp. destruct (H p bb k Hp) as (_ & c' & _ & _ & P1 & _). destruct (decide (p = q)) as [->|Hne].
  - exists c. eexists. rewrite lookup_insert_eq. by split_and!.
  - exists c', c'. by rewrite lookup_insert_ne.
Qed.

(** The call is off the stack. *)
Lemma sim_close N s g fr rest e t k x d m ctr a cr c st :
  let es_ := cs_entry (current_call_stack s) in
  let fa := fs_array (current_fn_stack s) in
  let jl := <[k := set_jcc_cost (Some d) x]> (jccs (jm s)) in
  idle N s g -> lg_open g = fr :: rest -> es_ !! length rest = Some e -> jccs (jm s) !! k = Some x ->
  frame_ok (cxt_nodes (cx s)) (jccs (jm s)) (costs s) fa (fs_top (current_fn_stack s)) fr e t ->
  key x = fr_arc fr -> ce_cxt e = Some (Some c) ->
  key <$> jl = key <$> jccs (jm s) -> arc_costs m jl (spec_leave g) ->
  (forall i, 0 <= i < es_size es -> val m c0 i = val (costs s) c0 i) ->
  owns (es_size es) m (owners (<[length rest := free_cxt e]> es_) jl) ->
  frames_ok (<[length rest := free_cxt e]> es_) (cxt_nodes (cx s)) jl m fa t rest ->
  with_centres s ctr -> active_ok a rest -> 0 <= call_stack_resizes st <= N ->
  x_cost cr = x_cost (cur s) -> x_nonskipped cr = 0 -> x_cxt cr = Some c ->
  idle N (MkStacks (cx s) (counted_jumps (jm s) k (set_jcc_cost (Some d) x)) ctr (bbs s) m (full s)
      (MkFnStack (fs_size (current_fn_stack s)) fa t)
      (MkCalls (cs_size (current_call_stack s)) (Z.of_nat (length rest)) (<[length rest := free_cxt e]> es_))
      a cr (skip_direct_recursion s) st)
    (spec_leave g).
Proof.
  intros es_ fa jl. subst es_ fa. intros [S1 S2 S3 S4 S5 S6 S7 S8 ST S9 S10 S11 S12 S13 S14] Eo He Hx
    (k' & p & c' & F1 & F2 & F3 & F4 & F5 & F6 & F7 & F8 & F9 & F10 & F11 & F12 & F13 & F14 & F15 & F16 & F17)
    Hk Hc Ekeys Hcosts Htot Hown Hfr Hctr Ha Hst X1 X2 X3.
  assert (c' = c) as -> by congruence.
  assert (lg_open (spec_leave g) = rest /\ lg_fns (spec_leave g) = fr_fns fr /\ lg_total (spec_leave g) = lg_total g /\
    lg_calls (spec_leave g) = lg_calls g) as (G1 & G2 & G3 & G4) by (unfold spec_leave; by rewrite Eo).
  constructor; cbn [cx jm centres bbs costs full current_fn_stack current_call_stack current_fn_active cur
    skip_direct_recursion stat cs_entry counted_jumps jccs bbccs fs_top fs_array]; rewrite ?G1, ?G2, ?G3, ?G4; try done.
  - destruct S2 as (arcs & A1 & A2 & A3 & A4). exists arcs.
    cbn [counted_jumps jcc_lru_misses]. split_and!; try done; try lia.
    + by apply (arcs_ok_counted _ _ k x).
    + intros b Hb. destruct (A4 b Hb) as [Z1 Z2]. split; [done|]. intros i. unfold spec_leave. rewrite Eo.
      cbn [lg_sums]. rewrite decide_False; [done|]. intros ->. apply Hb. rewrite <- Hk.
      eapply (list_elem_of_lookup_2 _ k). by rewrite <- (key_lookup _ _ _ _ k (ak_table _ _ A1)), Hx.
  - intros q bb kk Hq. destruct (S4 q bb kk Hq) as (Hq0 & y & z & r & P1 & P2 & P3 & P4 & P5 & P6 & P7).
    destruct (Hctr q bb kk Hq) as (y1 & y2 & Y1 & Y2 & Y3 & Y4). split; [done|]. exists y2, z, r.
    cbn [centres cx]. split_and!; try done; congruence.
  - destruct S6 as [K1 K2 K3 K4 K5 K6 K7]. constructor; cbn [fs_top fs_array fs_size]; try done; lia.
  - destruct S7 as [K1 K2 K3 K4 K5 K6]. rewrite Eo in *. cbn [length] in *.
    constructor; cbn [cs_entry cs_size cs_sp]; try done; try lia.
    + by rewrite length_insert.
    + exists (free_cxt e). split; [|done]. apply list_lookup_insert_eq. by apply lookup_lt_Some in He.
  - rewrite X1, X2. destruct S10 as (E1 & _). split_and!; try done. by exists c.
  - intros i Hi. rewrite Htot by done. by apply S12.
Qed.

(** The caller has one more call that counted something. *)
Lemma count_return s s1 f b :
  centres_ok s -> centres s1 = centres s -> is_Some (C !! f) ->
  exists ctr, (if (b : bool) then let! c := deref_centre s1 f in
      Ok (set_centres s1 (<[f := MkCentre (cc_bb c) (cc_cxt c) (cc_skipped c) (u64 (cc_ret_counter c + 1))]> (centres s1)))
    else Ok s1) = Ok (set_centres s1 ctr) /\ with_centres s ctr.
Proof.
  intros Hce Ec [[bb k] Hf]. destruct b.
  - destruct (Hce f bb k Hf) as (Hf0 & c & _ & _ & P1 & _). unfold deref_centre.
    rewrite (proj2 (Z.eqb_neq f 0) Hf0), Ec, P1. cbn [rbind]. eexists. split; [done|]. by apply with_centres_counted.
  - exists (centres s). rewrite <- Ec at 1. split; [by destruct s1|by apply with_centres_refl].
Qed.

(** [e] is the entry of the call that is left. *)
Lemma leave_call_ok N s g fr rest e t k :
  let es_ := cs_entry (current_call_stack s) in
  let fa := fs_array (current_fn_stack s) in
  idle N s g -> lg_open g = fr :: rest -> es_ !! length rest = Some e -> ce_jcc e = Some (Some k) ->
  frame_ok (cxt_nodes (cx s)) (jccs (jm s)) (costs s) fa (fs_top (current_fn_stack s)) fr e t ->
  frames_ok es_ (cxt_nodes (cx s)) (jccs (jm s)) (costs s) fa t rest ->
  exists s2, leave_call dump_profile (set_cur s (set_x_nonskipped (cur s) 0)) k e = Ok s2 /\
    current_call_stack s2 = current_call_stack s /\
    idle N (set_call_stack s2 (MkCalls (cs_size (current_call_stack s)) (Z.of_nat (length rest))
      (<[length rest := free_cxt e]> es_))) (spec_leave g).
Proof.
  intros es_ fa. subst es_ fa. intros HS Eo He Hjk Hfo Hrest.
  pose proof Hfo as (k' & o & c & F1 & F2 & F3 & F4 & F5 & F6 & F7 & F8 & F9 & F10 & F11 & F12 & F13 & F14 & F15 & F16 & F17).
  assert (k' = k) as -> by congruence. destruct (jccs (jm s) !! k) as [x|] eqn:Hx; [|done].
  assert (key x = fr_arc fr) as Hk by (injection F2; done). clear F2.
  destruct (fr_arc fr) as [[f j] u] eqn:Ea. cbn [fst snd] in *. pose proof Hk as [= Kf Kj Kt].
  set (s0 := set_cur s _). unfold leave_call, get_node. change (jm s0) with (jm s). rewrite Hx. cbn [rbind]. rewrite Kt.
  destruct (centre_fn_ok s0 u (sm_centres _ _ _ _ _ HS) F16) as (Hu0 & -> & Hfu & [y Hy]). cbn [rbind].
  destruct (sm_cx _ _ _ _ _ HS) as (ws & H1 & _).
  destruct (change_depth_ok s0 k x f j u (-1) ws (lg_open g) rest) as (depth & a & -> & Ha);
    [exact H1|exact (sm_centres _ _ _ _ _ HS)|exact (sm_active _ _ _ _ _ HS)|apply (sm_static _ _ _ _ _ HS)
    |exact Hx|exact Hk|exact F15|exact F16| |].
  { intros n. rewrite Eo. cbn [active_count]. rewrite F13, F14.
    destruct (negb (skip_recursion && (fn_of f =? fn_of u)) && bool_decide _); lia. }
  cbn [rbind]. rewrite F3, Kf.
  destruct (leave_costs N s g fr rest e t k x o HS Eo He Hx ltac:(congruence) F3 F4 Hrest) as
    (b & d & m & E & Ekeys & Hcosts & Htot & Hall).
  change (full (set_active s0 a)) with (full s). change (costs (set_active s0 a)) with (costs s).
  change (x_cost (cur (set_active s0 a))) with (x_cost (cur s)). rewrite E. cbn [rbind].
  unfold upd_jcc, get_node. change (jm (set_costs (set_active s0 a) m)) with (jm s). rewrite Hx. cbn [rbind].
  match goal with |- context [set_jm ?q ?j] => destruct (count_return s (set_jm q j) f b) as (ctr & Ectr & Hctr) end;
    [exact (sm_centres _ _ _ _ _ HS)|done|exact F15|]. rewrite Ectr.
  cbn [rbind]. rewrite F6. cbn [written rbind]. rewrite F8. cbn [written rbind].
  rewrite tl_assert_true by (by rewrite bool_decide_eq_false_2). cbn [rbind].
  destruct (deref_fn_ok fs (cx s) ws _ y H1 Hfu Hy) as (y' & Ey & _ & Cy).
  match goal with |- context [deref_fn ?q (fn_of u)] => change q with (cx s) end. rewrite Ey. cbn [rbind].
  match goal with |- context [function_left _ ?q y'] => rewrite (proj2 (plain_entered q ws _ y y' H1 Hy Cy)) end.
  eexists. split; [by destruct (s32 depth =? 0)|]. split; [done|]. destruct (Hall (free_cxt e) F3) as [Hown Hfr].
  eapply (sim_close N s g fr rest e t k x d m ctr a _ c); try done; try congruence.
  exact (sm_stat _ _ _ _ _ HS).
Qed.

Lemma sim_leave N s g :
  idle N s g -> N < 2 ^ 26 -> lg_open g <> [] ->
  exists s', run_action dump_profile zero_all_cost s Leave = Ok s' /\
    idle N s' (spec_action fs fn_of skip_recursion g Leave).
Proof.
  intros HS HN Hne. cbn [run_action spec_action]. destruct (lg_open g) as [|fr rest] eqn:Eo; [done|]. clear Hne.
  pose proof (sm_frames _ _ _ _ _ HS) as Hf. rewrite Eo in Hf. destruct Hf as (e & t & He & Hfo & Hrest).
  pose proof Hfo as (k & o & c & F1 & _ & _ & _ & F5 & _).
  pose proof (sm_calls _ _ _ _ _ HS) as [K1 K2 K3 K4 K5 _]. rewrite Eo in K2. cbn [length] in K2.
  pose proof (lookup_lt_Some _ _ _ He) as Hlt.
  assert (cs_sp (current_call_stack s) - 1 = Z.of_nat (length rest)) as Ed by lia.
  destruct (leave_call_ok N s g fr rest e t k HS Eo He F1 Hfo Hrest) as (s2 & E2 & Ecs & HS2).
  unfold pop_call. unfold int_sub at 1. rewrite signed_result_in by (unfold in_s; lia). cbn [rbind]. rewrite Ed.
  rewrite (arr_get_in _ _ e) by (lia || by rewrite Nat2Z.id). cbn [rbind]. rewrite F1. cbn [written rbind]. rewrite F5.
  cbn [written rbind]. rewrite E2. cbn [rbind]. rewrite Ecs.
  rewrite (arr_get_in _ _ e) by (lia || by rewrite Nat2Z.id). cbn [rbind]. unfold set_entry.
  rewrite Ecs, arr_set_in by lia. cbn [rbind]. cbn [set_call_stack current_call_stack cs_sp cs_size cs_entry].
  unfold int_sub. rewrite Ed, signed_result_in by (unfold in_s; lia). cbn [rbind]. rewrite Nat2Z.id.
  eexists. split; [done|exact HS2].
Qed.

(** Unwinding pops the calls the stack pointer has passed. *)
Lemma unwind_ok fuel N s g sp minpops count :
  idle N s g -> N < 2 ^ 26 -> (length (lg_open g) <= fuel)%nat ->
  - 2 ^ 31 + Z.of_nat (length (lg_open g)) <= minpops < 2 ^ 31 ->
  0 <= count -> count + Z.of_nat (length (lg_open g)) < 2 ^ 31 ->
  let n := unwound (lg_open g) sp minpops in
  exists s', unwind_loop current_call_stack (pop_call dump_profile) fuel s sp minpops count = Ok (count + Z.of_nat n, s') /\
    idle N s' (Nat.iter n spec_leave g).
Proof.
  revert s g minpops count; induction fuel as [|fuel IH]; intros s g minpops count HS HN Hf Hmin H0 Hcount n; subst n.
  all: pose proof (sm_calls _ _ _ _ _ HS) as [K1 K2 K3 K4 K5 _]; pose proof (sm_frames _ _ _ _ _ HS) as Hfr.
  all: destruct (lg_open g) as [|fr rest] eqn:Eo; cbn [unwind_loop unwound length] in *; rewrite K2.
  - exists s. cbn. rewrite Z.add_0_r. split; [done|]. done.
  - lia.
  - exists s. cbn. rewrite Z.add_0_r. split; [done|]. done.
  - destruct Hfr as (e & t & He & (k & o & c & Hframe) & _). assert (ce_sp e = Some (fr_sp fr)) as Esp by apply Hframe.
    rewrite (proj2 (Z.leb_gt _ _)) by lia. rewrite (arr_get_in _ _ e); [|lia|by replace (Z.to_nat _) with (length rest) by lia].
    cbn [rbind]. rewrite Esp. cbn [written rbind].
    destruct ((fr_sp fr <? sp) || ((fr_sp fr =? sp) && (0 <? minpops))) eqn:Ec; cycle 1.
    { exists s. cbn. rewrite Z.add_0_r. split; [done|]. done. }
    unfold int_sub, int_add. rewrite !signed_result_in by (unfold in_s; lia). cbn [rbind].
    destruct (sim_leave N s g HS HN) as (s1 & E1 & HS1); [by rewrite Eo|]. cbn [run_action spec_action] in E1, HS1.
    rewrite E1. cbn [rbind]. assert (lg_open (spec_leave g) = rest) as Eo1 by (unfold spec_leave; by rewrite Eo).
    destruct (IH s1 (spec_leave g) (minpops - 1) (count + 1) HS1 HN) as (s2 & E2 & HS2); rewrite ?Eo1; try lia.
    rewrite Eo1 in E2, HS2. exists s2. rewrite Nat2Z.inj_succ, Nat.iter_succ_r. split; [|done].
    rewrite E2. f_equal. f_equal. lia.
Qed.

Lemma sim_unwind N s g sp minpops :
  idle N s g -> N < 2 ^ 26 -> 0 <= minpops < 2 ^ 31 ->
  let n := unwound (lg_open g) sp minpops in
  exists s', unwind_call_stack current_call_stack (pop_call dump_profile) s sp minpops = Ok (Z.of_nat n, s') /\
    idle N s' (Nat.iter n spec_leave g).
Proof.
  intros HS HN Hmin n. pose proof (sm_calls _ _ _ _ _ HS) as [K1 K2 K3 K4 K5 _]. unfold unwind_call_stack.
  apply (unwind_ok _ N s g sp minpops 0); try done; lia.
Qed.

(** What may happen next: well-formed calls, and returns of open calls. *)
Definition action_ok (g : ledger) (a : action) : Prop :=
  match a with
  | Work j _ => 0 <= j < es_size es
  | Enter fn f j t _ => enter_ok fn f j t
  | Leave => lg_open g <> []
  | Unwind _ minpops => 0 <= minpops < 2 ^ 31
  end.

Fixpoint trace_ok (g : ledger) (acts : list action) : Prop :=
  match acts with
  | [] => True
  | a :: r => action_ok g a /\ trace_ok (spec_action fs fn_of skip_recursion g a) r
  end.

Lemma trace_ok_app g l1 l2 : trace_ok g (l1 ++ l2) ->
  trace_ok g l1 /\ trace_ok (spec_actions fs fn_of skip_recursion g l1) l2.
Proof.
  revert g; induction l1 as [|a l1 IH]; intros g Ht; [done|]. destruct Ht as [Ha Ht].
  destruct (IH _ Ht) as [H1 H2]. done.
Qed.

Lemma run_actions_ok N s g acts :
  idle N s g -> trace_ok g acts -> 0 <= N ->
  N + 4 * Z.of_nat (length acts) < 2 ^ 26 -> R * (N + 4 * Z.of_nat (length acts)) < 2 ^ 31 ->
  exists s', run_actions dump_profile zero_all_cost s acts = Ok s' /\
    idle (N + 4 * Z.of_nat (length acts)) s' (spec_actions fs fn_of skip_recursion g acts).
Proof.
  revert N s g; induction acts as [|a acts IH]; intros N s g HS Ht H0 HN HRN.
  { exists s. split; [done|]. eapply sim_mono; [exact HS|cbn; lia]. }
  cbn [length] in *. rewrite Nat2Z.inj_succ in *. cbn [run_actions]. destruct Ht as [Ha Ht].
  assert (exists s1, run_action dump_profile zero_all_cost s a = Ok s1 /\
    idle (N + 4) s1 (spec_action fs fn_of skip_recursion g a)) as (s1 & -> & HS1).
  { destruct a as [j v|fn f j t sp| |sp k]; cbn [action_ok] in Ha.
    - destruct (sim_work N s g j v HS Ha) as (s1 & E & HS1). exists s1. split; [done|]. eapply sim_mono; [exact HS1|lia].
    - apply sim_enter; [done|lia|nia|done].
    - destruct (sim_leave N s g HS) as (s1 & E & HS1); [lia|done|]. exists s1. split; [done|]. eapply sim_mono; [exact HS1|lia].
    - destruct (sim_unwind N s g sp k HS) as (s1 & E & HS1); [lia|done|]. exists s1. cbn [run_action]. rewrite E.
      split; [done|]. eapply sim_mono; [exact HS1|lia]. }
  cbn [rbind]. destruct (IH (N + 4) s1 _ HS1 Ht) as (s2 & E2 & HS2); [lia|lia|nia|].
  exists s2. split; [done|]. cbn [spec_actions]. eapply sim_mono; [exact HS2|lia].
Qed.

(** A thread as [new_thread] makes it, beside tables that may hold the contexts
    and the cost centres of other threads. *)
Definition fresh_thread (x : contexts) (bs : gmap Z arc_ends) (ctr : gmap Z cost_centre) (m : cost_mem)
    (distinct_fns : Z) (collect_atstart : bool) : stacks :=
  MkStacks x (no_arcs bs) ctr B m es init_fn_stack init_call_stack (init_fn_array distinct_fns)
    (MkExecInfo 0 (Some c0) collect_atstart None 0 0 0 0) skip_recursion (MkCallStats 0 0 0 0 0).

Definition start (total : Z -> Z) (main : Z) : ledger :=
  MkLedger total [main] [] (fun _ _ => 0) (fun _ => 0).

(** A thread that has entered its first function. *)
Lemma first_idle N x ws bs ctr m col main total arr c a :
  cxts_ok fs x ws -> (forall w, w ∈ ws -> W w) -> Z.of_nat (length ws) <= N -> 0 <= cxt_lru_misses x <= N -> 1 <= N ->
  map_Forall (fun _ => fresh_ends) bs -> (forall p, cjmp_count <$> bs !! p = X !! p) ->
  let s := MkStacks x (no_arcs bs) ctr B m es (MkFnStack 500 arr 1)
    (MkCalls 500 0 (MkEntry None None None None None (Some None) (Some 0) :: replicate 499 no_entry)) a
    (MkExecInfo 0 (Some c0) col (Some c) 0 0 0 0) skip_recursion (MkCallStats 0 0 0 0 0) in
  centres_ok s -> active_ok a [] -> length arr = 500%nat -> marked fs arr 1 -> callers arr 1 = [main] ->
  ctx_at (cxt_nodes x) c [main] -> owns (es_size es) m [c0] ->
  (forall i, 0 <= i < es_size es -> val m c0 i = u64 (total i)) ->
  idle N s (start total main).
Proof.
  intros Hx HWs Hl Hm HN Hbs HX s Hce Ha Hlen Hma Hca Hc Hown Htot.
  constructor; unfold s; cbn [cx jm centres bbs costs full current_fn_stack current_call_stack current_fn_active cur
    skip_direct_recursion stat start lg_open lg_fns lg_total cs_entry fs_array fs_top call_stack_resizes]; try done; try lia.
  - by exists ws.
  - exists []. split_and!; try done; try (cbn; lia). by apply no_arcs_ok.
  - constructor; cbn [fs_array fs_top fs_size]; try done; lia.
  - constructor; cbn [cs_entry cs_sp cs_size]; try done; try (cbn; lia). eexists. split; [done|]. done.
  - split_and!; try done. by exists c.
Qed.

Record thread_ok (x : contexts) (ws : list (list Z)) (bs : gmap Z arc_ends) (ctr : gmap Z cost_centre)
    (m : cost_mem) (n : Z) (main : Z) (total : Z -> Z) : Prop := {
  th_cx : cxts_ok fs x ws;
  th_windows : forall w, w ∈ ws -> W w;
  th_misses : 0 <= cxt_lru_misses x;
  th_ends : map_Forall (fun _ => fresh_ends) bs;
  th_exits : forall p, cjmp_count <$> bs !! p = X !! p;
  th_centres : centres_ok (fresh_thread x bs ctr m n true);
  th_own : owns (es_size es) m [c0];
  th_total : forall i, 0 <= i < es_size es -> val m c0 i = u64 (total i);
  th_main : main <> 0 /\ exists y, fs !! main = Some y /\ group y <= 0 /\
    act0 = (fun k => if decide (k = number y) then 1 else 0);
  th_numbers : forall f z, fs !! f = Some z -> 0 <= number z < fa_size (init_fn_array n);
  th_fns : 0 <= n < 2 ^ 31
}.

(** The function stack with [main] on it. *)
Definition first_stack (main : Z) : list (option Z) := <[1%nat := Some main]> (fs_array init_fn_stack).

Lemma first_stack_ok main : main <> 0 -> is_Some (fs !! main) ->
  callers (first_stack main) 1 = [main] /\ marked fs (first_stack main) 1.
Proof.
  intros Hm Hy. assert (first_stack main !! 0%nat = Some (Some 0) /\ first_stack main !! 1%nat = Some (Some main))
    as [H0 H1] by done. cbn [callers marked]. rewrite H0, H1, (proj2 (Z.eqb_neq main 0) Hm).
  split; [done|]. right. split_and!; [done|done|by left].
Qed.

Lemma init_active n : 0 <= n < 2 ^ 31 -> let A := init_fn_array n in
  fa_size A <= 2 ^ 31 /\ Z.of_nat (length (fa_array A)) = fa_size A /\
  forall k, 0 <= k < fa_size A -> fa_array A !! Z.to_nat k = Some 0.
Proof.
  intros Hn A. assert (0 <= fa_size A <= 2 ^ 31 /\ fa_array A = replicate (Z.to_nat (fa_size A)) 0) as [HA1 HA2].
  { unfold A, init_fn_array, N_INITIAL_FN_ARRAY_SIZE. cbn [fa_size fa_array]. split; [|done].
    rewrite !wrapu_small by (unfold in_u; lia). destruct (Z.leb_spec 10071 n); lia. }
  rewrite HA2, length_replicate. split_and!; [lia|lia|]. intros k Hk. apply lookup_replicate_2. lia.
Qed.

(** The first push goes through to the lookup of the context. *)
Lemma push_first x bs ctr m n col main y :
  deref_fn x main = Ok y -> main <> 0 -> group y <= 0 -> 0 <= number y < fa_size (init_fn_array n) ->
  0 <= n < 2 ^ 31 ->
  push_cxt (fresh_thread x bs ctr m n col) main =
    let! (c, x') := get_cxt x (first_stack main) 1 in
    Ok (MkStacks x' (no_arcs bs) ctr B m es (MkFnStack 500 (first_stack main) 1)
      (MkCalls 500 0 (MkEntry None None None None None (Some None) (Some 0) :: replicate 499 no_entry))
      (MkFnArray (fa_size (init_fn_array n)) (<[Z.to_nat (number y) := 1]> (fa_array (init_fn_array n))))
      (MkExecInfo 0 (Some c0) col c 0 0 0 0) skip_recursion (MkCallStats 0 0 0 0 0)).
Proof.
  intros Ey Hmain Hgrp Hnum Hn. set (s := fresh_thread x bs ctr m n col).
  destruct (init_active n Hn) as (HA1 & HA2 & HA3). unfold push_cxt.
  change (arr_get (cs_entry (current_call_stack s)) _) with (Ok (MkEntry None None None None None (Some None) None)).
  change (u32 (cs_sp (current_call_stack s)) <? cs_size (current_call_stack s)) with true. cbn [tl_assert rbind].
  cbn [ce_cxt written rbind]. rewrite tl_assert_true by done. cbn [rbind].
  unfold set_entry. rewrite arr_set_in by (cbn; lia). cbn [rbind].
  change (Z.to_nat (cs_sp (current_call_stack s))) with 0%nat. rewrite (proj2 (Z.eqb_neq main 0) Hmain).
  assert (read_fn (fs_array (current_fn_stack s)) (Z.to_nat (fs_top (current_fn_stack s))) = Ok 0) as -> by done.
  cbn [rbind]. rewrite (proj2 (Z.eqb_neq 0 main)) by done.
  cbn [set_call_stack cx]. change (cx s) with x. rewrite Ey. cbn [rbind]. rewrite (proj2 (Z.ltb_ge 0 (group y)) Hgrp).
  cbn [rbind]. unfold enter_fn. rewrite (proj2 (Z.eqb_neq main 0) Hmain). cbn [negb andb]. rewrite Z.eqb_refl.
  cbn [set_call_stack set_fn_stack current_fn_stack cx]. change (cx s) with x.
  assert (grow_fn_stack (current_fn_stack s) = init_fn_stack) as -> by done. rewrite Ey. cbn [rbind].
  set (A := init_fn_array n) in *. match goal with |- context [get_fn_entry ?q _] => set (s1 := q) end.
  unfold get_fn_entry. change (current_fn_active s1) with A. rewrite wraps_small by (unfold in_s; lia).
  rewrite wrapu_small by (unfold in_u; lia).
  rewrite tl_assert_true by (apply Z.ltb_lt; lia). cbn [rbind]. unfold add_active, read_active.
  change (current_fn_active s1) with A. rewrite (arr_get_in _ _ 0) by (lia || by apply HA3). cbn [rbind].
  rewrite arr_set_in by lia. cbn [rbind]. cbn [set_active current_fn_stack]. change (current_fn_stack s1) with init_fn_stack.
  change (fs_top init_fn_stack + 1) with 1. rewrite arr_set_in by (change (length (fs_array init_fn_stack)) with 500%nat; lia).
  reflexivity.
Qed.

(** The first function of a thread. *)
Lemma sim_first x ws bs ctr m n col main total :
  thread_ok x ws bs ctr m n main total ->
  let N := Z.of_nat (length ws) + cxt_lru_misses x + 1 in
  N < 2 ^ 26 -> R * N < 2 ^ 31 ->
  exists s', push_cxt (fresh_thread x bs ctr m n col) main = Ok s' /\ idle N s' (start total main).
Proof.
  intros [Hx HWs Hm Hbs HX Hce Hown Htot (Hmain & y & Hy & Hgrp & Hact) Hnum Hn] N HN HRN.
  assert (N = Z.of_nat (length ws) + cxt_lru_misses x + 1) as HNd by done. clearbody N.
  destruct (deref_fn_ok fs x ws main y Hx Hmain Hy) as (y' & Ey & _ & Cy).
  assert (group y' = group y /\ number y' = number y) as [Eg En]
    by (split; [by apply (f_equal group) in Cy|by apply (f_equal number) in Cy]).
  rewrite (push_first x bs ctr m n col main y' Ey Hmain) by (rewrite ?Eg, ?En; eauto). rewrite En.
  destruct (init_active n Hn) as (HA1 & HA2 & HA3), (first_stack_ok main Hmain ltac:(by exists y)) as [Hca Hma].
  assert (R * (Z.of_nat (length ws) + 1) < 2 ^ 31) as HR1.
  { eapply Z.le_lt_trans; [|exact HRN]. apply Z.mul_le_mono_nonneg_l; lia. }
  destruct (get_cxt_ok fs R W x ws (first_stack main) 1) as (x' & Eg' & Hok & Hm'); try done; try lia;
    [by rewrite Hca|apply HW; [done|by rewrite Hca]|].
  rewrite Eg'. cbn [rbind]. unfold window in *. rewrite Hca in *. set (w := window_of fs [main]) in *.
  eexists. split; [done|].
  apply (first_idle N x' (intern ws w).2 bs ctr m col main total (first_stack main) (intern ws w).1); try done; try lia.
  - intros v Hv. apply intern_elem in Hv as [Hv| ->]; [by apply HWs|]. unfold w. rewrite <- Hca.
    apply HW; [done|by rewrite Hca].
  - pose proof (intern_length ws w). lia.
  - eapply (centres_ext _ _ ws (intern ws w).2 Hce); try done. apply intern_prefix.
  - destruct (Hnum main y Hy) as [Hn0 Hn1]. constructor; cbn [fa_size fa_array]; [by rewrite length_insert|done|].
    intros f z Hz. destruct (Hnum f z Hz) as [Hz0 Hz1]. split; [done|]. rewrite Hact. cbn [active_count].
    destruct (decide (number z = number y)) as [Ez|Ez].
    + rewrite Ez. apply list_lookup_insert_eq. lia.
    + rewrite list_lookup_insert_ne by lia. by apply HA3.
  - by apply (ctx_at_intern x x').
Qed.


(** What the counter of an arc has, 0 where there is none. *)
Definition arc_cost (s : stacks) (b : arc) (i : Z) : Z :=
  match list_find (fun x => key x = b) (jccs (jm s)) with
  | Some (_, x) => default 0 ((fun p => val (costs s) p i) <$> jcc_cost x)
  | None => 0
  end.

Definition arc_calls (s : stacks) (b : arc) : Z :=
  match list_find (fun x => key x = b) (jccs (jm s)) with
  | Some (_, x) => call_counter x
  | None => 0
  end.

Lemma arc_counters P T N s g b : sim P T N s g ->
  arc_calls s b = u64 (lg_calls g b) /\
  forall i, 0 <= i < es_size es -> arc_cost s b i = u64 (lg_sums g b i).
Proof.
  intros HS. unfold arc_calls, arc_cost. destruct (list_find _ _) as [[k x]|] eqn:E.
  - apply list_find_Some in E as (Hx & <- & _). exact (sm_costs _ _ _ _ _ HS k x Hx).
  - apply list_find_None in E. destruct (sm_jm _ _ _ _ _ HS) as (arcs & A1 & _ & _ & A4).
    destruct (A4 b) as [-> Hz]; [|split; [done|]; intros i _; by rewrite Hz].
    intros Hin. apply list_elem_of_lookup_1 in Hin as [k Hk]. rewrite <- (key_lookup _ _ _ _ k (ak_table _ _ A1)) in Hk.
    destruct (jccs (jm s) !! k) as [x|] eqn:Hx; [|done]. cbn in Hk. rewrite Forall_forall in E.
    apply (E x); [by eapply list_elem_of_lookup_2|congruence].
Qed.

Lemma run_actions_app s l1 l2 : run_actions dump_profile zero_all_cost s (l1 ++ l2) =
  let! s1 := run_actions dump_profile zero_all_cost s l1 in run_actions dump_profile zero_all_cost s1 l2.
Proof.
  revert s; induction l1 as [|a l1 IH]; intros s; [done|]. cbn [app run_actions].
  destruct (run_action _ _ s a) as [s1|]; [|done]. cbn [rbind]. apply IH.
Qed.


End simulation.

(** C40. The first function of a thread, or of a signal handler, is entered with
    the null marker on the top of the function stack.  When that function is in
    a separation group ([--fn-group]), [push_cxt] reads the group of the null
    function. *)
Theorem grouped_first_faults (s : stacks) (fn : Z) (f : fn_node) (e : call_entry) :
  let cs := current_call_stack s in
  let st := current_fn_stack s in
  0 <= cs_sp cs < cs_size cs -> cs_size cs < 2 ^ 32 -> Z.of_nat (length (cs_entry cs)) = cs_size cs ->
  cs_entry cs !! Z.to_nat (cs_sp cs) = Some e -> ce_cxt e = Some None ->
  read_fn (fs_array st) (Z.to_nat (fs_top st)) = Ok 0 ->
  fn <> 0 -> fns (cx s) !! fn = Some f -> 0 < group f ->
  push_cxt s fn = Err NullDeref.
Proof.
  intros cs st Hsp Hsz Hlen He Hc Hr Hfn Hf Hg. unfold push_cxt. fold cs.
  rewrite wrapu_small by (unfold in_u; lia). rewrite tl_assert_true by (apply Z.ltb_lt; lia). cbn [rbind].
  rewrite (arr_get_in _ _ e) by (done || lia). cbn [rbind]. rewrite Hc. cbn [written rbind].
  rewrite tl_assert_true by done. cbn [rbind]. unfold set_entry. fold cs. rewrite arr_set_in by lia. cbn [rbind].
  rewrite (proj2 (Z.eqb_neq fn 0) Hfn). fold st. rewrite Hr. cbn [rbind]. rewrite (proj2 (Z.eqb_neq 0 fn)) by done.
  unfold deref_fn. cbn [set_call_stack cx]. rewrite (proj2 (Z.eqb_neq fn 0) Hfn), Hf. cbn [rbind].
  by rewrite (proj2 (Z.ltb_lt 0 (group f)) Hg).
Qed.

Definition ex_grouped : fn_node := MkFn "handler"%string 0 None false false false false false false 1 0 1.

Lemma grouped_first_faults_witness :
  push_cxt (fresh_thread ∅ false (MkSet 1 1 1 [0]) (0%nat, 0) (no_contexts {[ 4096 := ex_grouped ]}) ∅ ∅
              (MkMem [] ∅ None None 0 0) 1 true) 4096 = Err NullDeref.
Proof.
  apply (grouped_first_faults _ 4096 ex_grouped (MkEntry None None None None None (Some None) None));
    first [reflexivity | discriminate | split; [discriminate|reflexivity]].
Defined.

(** ** An example *)

(** Two functions that do not keep callers apart, one block each. *)
Definition ex_calls_fns : gmap Z fn_node := {[ 4096 := ex_fn 0 0 1; 8192 := ex_fn 1 0 1 ]}.
Definition ex_calls_tops : list (list (option Z) * nat) :=
  [([Some 0; Some 4096], 1%nat); ([Some 0; Some 8192], 1%nat)].
Definition ex_calls_cx : contexts :=
  match get_cxts (no_contexts ex_calls_fns) ex_calls_tops with Ok (_, x) => x | Err _ => no_contexts ex_calls_fns end.
Definition ex_calls_ends : gmap Z arc_ends :=
  {[ 65536 := MkEnds None None 0 [None]; 65792 := MkEnds None None 0 [None] ]}.
Definition ex_calls_centres : gmap Z cost_centre :=
  {[ 65536 := MkCentre 1024 (Some 0%nat) None 0; 65792 := MkCentre 1280 (Some 1%nat) None 0 ]}.
Definition ex_calls_C : gmap Z (Z * nat) := {[ 65536 := (1024, 0%nat); 65792 := (1280, 1%nat) ]}.
Definition ex_calls_X : gmap Z Z := {[ 65536 := 0; 65792 := 0 ]}.
Definition ex_calls_bbs : gmap Z BB :=
  {[ 1024 := MkBB 0 0 [MkCJmp 0 jk_Call] [(0, 5)]; 1280 := MkBB 0 64 [MkCJmp 0 jk_None] [(0, 1)] ]}.
Definition ex_calls_fn (p : Z) : Z := if p =? 65536 then 4096 else 8192.
Definition ex_calls_es : EventSet := MkSet 1 1 1 [0].
Definition ex_calls_mem : cost_mem :=
  MkMem [MkChunk COSTCHUNK_SIZE 1 None] {[ (0%nat, 0) := 0 ]} (Some 0%nat) (Some 0%nat) 1 1.
Definition ex_calls_act0 (k : Z) : Z := if decide (k = 0) then 1 else 0.
Definition ex_calls_W (w : list Z) : Prop := w ∈ [[4096]; [8192]].

Lemma ex_calls_windows arr i :
  marked ex_calls_fns arr i -> callers arr i <> [] -> ex_calls_W (window ex_calls_fns arr i).
Proof.
  intros Hm Hc. destruct (callers_window _ _ _ Hm Hc) as (f & x & i' & _ & _ & _ & _ & Hx & Ec & ->). rewrite Ec.
  unfold ex_calls_fns in Hx. rewrite lookup_insert_Some, lookup_singleton_Some in Hx. unfold ex_calls_W.
  destruct Hx as [[<- <-]|[_ [<- <-]]]; cbn; set_solver.
Qed.

Lemma ex_calls_ok : map_Forall (fun _ => fn_ok 1) ex_calls_fns.
Proof.
  apply map_Forall_insert_2; [|apply map_Forall_singleton];
    (constructor; unfold ex_fn; cbn [separate_callers separate_recursions]; lia).
Qed.

Lemma ex_calls_separated : separated ex_calls_W.
Proof.
  apply short_separated. repeat apply Forall_cons_2; try apply Forall_nil_2;
    (split; [discriminate|]; split; [cbn; lia|]; apply Forall_singleton; lia).
Qed.

Lemma ex_calls_thread :
  thread_ok ex_calls_fns ex_calls_W ex_calls_C ex_calls_bbs ex_calls_X ex_calls_act0 ex_calls_fn false ex_calls_es
    (0%nat, 0) ex_calls_cx [[4096]; [8192]] ex_calls_ends ex_calls_centres ex_calls_mem 2 4096 (fun _ => 0).
Proof.
  assert (map_Forall (fun _ f => last_cxt f = None) ex_calls_fns) as Hl
    by (apply map_Forall_insert_2; [done|by apply map_Forall_singleton]).
  destruct (get_cxts_ok ex_calls_fns 1 ex_calls_W (no_contexts ex_calls_fns) [] ex_calls_tops) as (s' & E & Hok);
    [exact ex_calls_ok|lia|by apply no_contexts_ok| |exact ex_calls_separated|set_solver
    |intros w Hw; exact Hw|cbn; lia|cbn; lia|cbn; lia|cbn; lia|].
  { repeat apply Forall_cons_2; try apply Forall_nil_2; (split; [|discriminate]); cbn;
      repeat (first [left; reflexivity | right; split; [discriminate|]; split; [by eexists|]]). }
  assert (s' = ex_calls_cx) as -> by (unfold ex_calls_cx; by rewrite E).
  change (interns [] (windows ex_calls_fns ex_calls_tops)).2 with [[4096]; [8192]] in Hok. clear E.
  constructor.
  - exact Hok.
  - intros w Hw. exact Hw.
  - vm_compute. discriminate.
  - apply map_Forall_insert_2; [done|]. by apply map_Forall_singleton.
  - intros p. unfold ex_calls_ends, ex_calls_X. by rewrite <- lookup_fmap.
  - intros p bb k Hp. unfold ex_calls_C in Hp. rewrite lookup_insert_Some, lookup_singleton_Some in Hp.
    destruct Hp as [[<- [= <- <-]]|[_ [<- [= <- <-]]]]; (split; [done|]); eexists _, _, _; split_and!;
      try (vm_compute; reflexivity); try done; by eexists.
  - constructor.
    + constructor; [|done]. apply Forall_singleton. unfold wf_chunk, COSTCHUNK_SIZE. cbn. lia.
    + apply Forall_singleton, readable_check. vm_compute. reflexivity.
    + apply Forall_singleton. cbn. lia.
    + intros [|i] [|j] p q Hij Hp Hq; try done; by destruct i || destruct j.
  - intros i Hi. assert (i = 0) as -> by (cbn in Hi; lia). reflexivity.
  - split; [done|]. exists (ex_fn 0 0 1). by split_and!.
  - intros f z Hz. unfold ex_calls_fns in Hz. rewrite lookup_insert_Some, lookup_singleton_Some in Hz.
    change (fa_size (init_fn_array 2)) with 10071. destruct Hz as [[_ <-]|[_ [_ <-]]]; cbn [ex_fn number]; lia.
  - lia.
Qed.

Definition ex_calls_trace : list action :=
  [Work 0 3; Enter 8192 65536 0 65792 100; Work 0 5; Leave; Work 0 1; Enter 8192 65536 0 65792 100; Work 0 7].

Lemma ex_calls_enter : enter_ok ex_calls_fns ex_calls_C ex_calls_bbs ex_calls_X 8192 65536 0 65792.
Proof.
  split; [discriminate|]. split; [by eexists|]. split; [by eexists|]. split; [by eexists|]. split.
  - exists 0. split; [reflexivity|lia].
  - exists 1024, 0%nat. eexists _, _. split; [reflexivity|]. split; [discriminate|]. split; [reflexivity|].
    split; [reflexivity|]. intros _. split; [done|by eexists].
Qed.

Lemma ex_calls_plain : map_Forall (fun _ => plain_fn) ex_calls_fns.
Proof. apply map_Forall_insert_2; [by split_and!|]. apply map_Forall_singleton. by split_and!. Qed.



