(* ===== verification/ClgThreads.v ===== *)
(** * ClgThreads: threads and signal handlers (callgrind/threads.c)

    One thread runs at a time; what belongs to it (its stacks, its execution
    states, its active array and, with --separate-threads, its hash tables) is
    copied to and from the global variables at a switch.  A signal handler runs
    on the stacks of its thread with an execution state of its own.  The arrays
    behind the copied pointers belong to one thread, so copying the values is
    the same as copying the pointers. *)

From Stdlib Require Import ZArith Lia Ascii String.
From stdpp Require Import base numbers option strings gmap sets list.
From S2P Require Import Prelude Debuglog ClgCosts ClgEvents ClgHash ClgJumps ClgContext ClgStack.

#[local] Open Scope Z_scope.

(** ** Data *)

Definition MAX_SIGHANDLERS : Z := 10.
Definition VG_INVALID_THREADID : Z := 0.
Definition VKI_NSIG : Z := 64.

Record exec_stack : Type := MkExecStack {
  st_sp : Z;
  st_entry : list (option exec_info)
}.

(** The hash of cost centres (bbcc.c); a [BBCC*] in it is the number of the
    centre. *)
Record bbcc_hash : Type := MkBbccHash {
  bh_size : Z;
  bh_entries : Z;
  bh_table : list (option nat)
}.

Record thread_info : Type := MkThread {
  t_fns : fn_stack;
  t_calls : call_stack;
  t_states : exec_stack;
  lastdump_cost : option cptr;
  sighandler_cost : option cptr;
  t_fn_active : fn_array;
  t_jccs : jcc_hash;
  t_bbccs : bbcc_hash
}.

Record process : Type := MkProcess {
  now : stacks;
  current_states : exec_stack;
  current_bbccs : bbcc_hash;
  thread : list (option thread_info);
  current_tid : Z;
  distinct_fns : Z;
  fn_array_resizes : Z;
  bb_executions : Z;
  bbs_done : Z
}.

Definition set_now (p : process) (s : stacks) : process :=
  MkProcess s (current_states p) (current_bbccs p) (thread p) (current_tid p) (distinct_fns p)
    (fn_array_resizes p) (bb_executions p) (bbs_done p).
Definition set_states (p : process) (x : exec_stack) : process :=
  MkProcess (now p) x (current_bbccs p) (thread p) (current_tid p) (distinct_fns p) (fn_array_resizes p)
    (bb_executions p) (bbs_done p).
Definition set_bbccs (p : process) (h : bbcc_hash) : process :=
  MkProcess (now p) (current_states p) h (thread p) (current_tid p) (distinct_fns p) (fn_array_resizes p)
    (bb_executions p) (bbs_done p).
Definition set_threads (p : process) (l : list (option thread_info)) : process :=
  MkProcess (now p) (current_states p) (current_bbccs p) l (current_tid p) (distinct_fns p) (fn_array_resizes p)
    (bb_executions p) (bbs_done p).
Definition set_tid (p : process) (tid : Z) : process :=
  MkProcess (now p) (current_states p) (current_bbccs p) (thread p) tid (distinct_fns p) (fn_array_resizes p)
    (bb_executions p) (bbs_done p).

Definition N_BBCC_INITIAL_ENTRIES : Z := 10437.

Definition init_bbcc_hash : bbcc_hash :=
  MkBbccHash N_BBCC_INITIAL_ENTRIES 0 (replicate (Z.to_nat N_BBCC_INITIAL_ENTRIES) None).

Definition copy_current_bbcc_hash (p : process) : bbcc_hash := current_bbccs p.
Definition set_current_bbcc_hash (p : process) (h : bbcc_hash) : process := set_bbccs p h.

(** ** The active array of a thread (fn.c) *)

(** [while (newsize <= distinct_fns) newsize *= 2] *)
Fixpoint fn_newsize (fuel : nat) (newsize distinct_fns : Z) : res Z :=
  if u32 distinct_fns <? newsize then Ok newsize else
  match fuel with
  | O => Err OutOfFuel
  | S fuel' => fn_newsize fuel' (u32 (newsize * 2)) distinct_fns
  end.

Definition resize_fn_array (p : process) : res process :=
  let a := current_fn_active (now p) in
  let! newsize := fn_newsize 32 (fa_size a) (distinct_fns p) in
  let new_array := take (Z.to_nat (fa_size a)) (fa_array a) ++
                   replicate (Z.to_nat (newsize - fa_size a)) 0 in
  let! n := int_add (fn_array_resizes p) 1 in
  Ok (MkProcess (set_active (now p) (MkFnArray newsize new_array)) (current_states p) (current_bbccs p) (thread p)
        (current_tid p) (distinct_fns p) n (bb_executions p) (bbs_done p)).

Definition copy_current_fn_array (p : process) : fn_array := current_fn_active (now p).

Definition set_current_fn_array (p : process) (a : fn_array) : res process :=
  let p := set_now p (set_active (now p) a) in
  if fa_size a <=? u32 (distinct_fns p) then resize_fn_array p else Ok p.

(** ** Execution states *)

(** The options and the number of threads the core was started with. *)
Section threads.
Variable collect_atstart : bool.
Variable separate_threads : bool.
Variable dump_every_bb : Z.
Variable VG_N_THREADS : Z.
Variable dump_profile : string -> stacks -> res stacks.

Definition init_exec_state (x : exec_info) : exec_info :=
  MkExecInfo (x_sig x) (x_cost x) collect_atstart None 0 0 0 (call_stack_bottom x).

Definition new_exec_state (s : stacks) (sigNum : Z) : res (exec_info * stacks) :=
  let! (c, m) := get_eventset_cost (costs s) (full s) in
  let! m := zero_cost (full s) m (Some c) in
  Ok (MkExecInfo sigNum (Some c) collect_atstart None 0 0 0 0, set_costs s m).

Definition init_exec_stack (s : stacks) : res (exec_stack * stacks) :=
  let! (x, s) := new_exec_state s 0 in
  Ok (MkExecStack 0 (Some x :: replicate (Z.to_nat MAX_SIGHANDLERS - 1) None), s).

Definition copy_current_exec_stack (p : process) : exec_stack := current_states p.
Definition set_current_exec_stack (p : process) (x : exec_stack) : process := set_states p x.

Definition top_exec_state (p : process) : res exec_info :=
  let sp := st_sp (current_states p) in
  let! _ := tl_assert ((0 <=? sp) && (sp <? MAX_SIGHANDLERS)) "(sp >= 0) && (sp < MAX_SIGHANDLERS)" in
  let! e := arr_get (st_entry (current_states p)) sp in
  match e with Some x => Ok x | None => Err (AssertFail "es != 0") end.

(** [*es = x] for the state [es] on the top. *)
Definition write_top (p : process) (x : exec_info) : res process :=
  let! l := arr_set (st_entry (current_states p)) (st_sp (current_states p)) (Some x) in
  Ok (set_states p (MkExecStack (st_sp (current_states p)) l)).

Definition push_exec_state (p : process) (sigNum : Z) : res (exec_info * process) :=
  let! sp := int_add (st_sp (current_states p)) 1 in
  let p := set_states p (MkExecStack sp (st_entry (current_states p))) in
  let! _ := tl_assert ((0 <? sigNum) && (sigNum <=? VKI_NSIG)) "(sigNum > 0) && (sigNum <= _VKI_NSIG)" in
  let! _ := tl_assert ((0 <? sp) && (sp <? MAX_SIGHANDLERS)) "(sp > 0) && (sp < MAX_SIGHANDLERS)" in
  let! e := arr_get (st_entry (current_states p)) sp in
  match e with
  | None =>
      let! (x, s) := new_exec_state (now p) sigNum in
      let! p := write_top (set_now p s) x in
      Ok (x, p)
  | Some x =>
      let x := MkExecInfo sigNum (x_cost x) (x_collect x) (x_cxt x) (jmps_passed x) (x_bbcc x) (x_nonskipped x)
                 (call_stack_bottom x) in
      let! p := write_top p x in
      Ok (x, p)
  end.

Definition exec_state_save (p : process) : res process :=
  let! es := top_exec_state p in
  let c := cur (now p) in
  let! p := write_top p (MkExecInfo (x_sig es) (x_cost es) (x_collect c) (x_cxt c) (jmps_passed c) (x_bbcc c)
                           (x_nonskipped c) (call_stack_bottom es)) in
  let! _ := tl_assert (bool_decide (x_cost es = x_cost c)) "es->cost == CLG_(current_state).cost" in
  let! _ := tl_assert (x_sig c =? x_sig es) "CLG_(current_state).sig == es->sig" in
  Ok p.

Definition exec_state_restore (p : process) : res process :=
  let! es := top_exec_state p in
  Ok (set_now p (set_cur (now p)
        (MkExecInfo (x_sig es) (x_cost es) (x_collect es) (x_cxt es) (jmps_passed es) (x_bbcc es)
           (x_nonskipped es) (call_stack_bottom (cur (now p)))))).

(** ** Threads *)

Definition init_threads (p : process) : process :=
  set_tid (set_threads p (replicate (Z.to_nat VG_N_THREADS) None)) VG_INVALID_THREADID.

Definition get_current_thread (p : process) : res (option thread_info) := arr_get (thread p) (current_tid p).

Definition new_thread (p : process) : res (thread_info * process) :=
  let! (states, s) := init_exec_stack (now p) in
  let! (lastdump, m) := get_eventset_cost (costs s) (full s) in
  let! (sighandler, m) := get_eventset_cost m (full s) in
  let! m := init_cost (full s) m (Some lastdump) in
  let! m := init_cost (full s) m (Some sighandler) in
  Ok (MkThread init_fn_stack init_call_stack states (Some lastdump) (Some sighandler)
        (init_fn_array (distinct_fns p)) init_jcc_hash init_bbcc_hash, set_now p (set_costs s m)).

(** [thread[t]], which must not be null. *)
Definition deref_thread (p : process) (t : Z) : res thread_info :=
  let! x := arr_get (thread p) t in
  match x with Some x => Ok x | None => Err NullDeref end.

Definition write_thread (p : process) (t : Z) (x : thread_info) : res process :=
  let! l := arr_set (thread p) t (Some x) in
  Ok (set_threads p l).

(** The thread whose hash tables are used. *)
Definition owner (tid : Z) : Z := if separate_threads then tid else 1.

Definition save_thread (p : process) : res process :=
  let! x := arr_get (thread p) (current_tid p) in
  match x with
  | None => Err (AssertFail "t != 0")
  | Some t =>
      let! p := exec_state_save p in
      let s := now p in
      let! p := write_thread p (current_tid p)
                  (MkThread (copy_current_fn_stack s) (copy_current_call_stack s) (copy_current_exec_stack p)
                     (lastdump_cost t) (sighandler_cost t) (copy_current_fn_array p) (t_jccs t) (t_bbccs t)) in
      let o := owner (current_tid p) in
      let! t := deref_thread p o in
      write_thread p o
        (MkThread (t_fns t) (t_calls t) (t_states t) (lastdump_cost t) (sighandler_cost t) (t_fn_active t)
           (copy_current_jcc_hash (jm s)) (copy_current_bbcc_hash p))
  end.

(** The global variables get the state of thread [tid], kept in [t]. *)
Definition load_from (p : process) (tid : Z) (t : thread_info) : res process :=
  let p := set_current_exec_stack p (t_states t) in
  let! p := exec_state_restore p in
  let p := set_now p (set_current_call_stack (now p) (t_calls t)) in
  let p := set_now p (set_current_fn_stack (now p) (t_fns t)) in
  let! p := set_current_fn_array p (t_fn_active t) in
  let! t := deref_thread p (owner tid) in
  let p := set_current_bbcc_hash p (t_bbccs t) in
  Ok (set_now p (set_jm (now p) (set_current_jcc_hash (jm (now p)) (t_jccs t)))).

Definition load_thread (p : process) (tid : Z) : res process :=
  let! x := arr_get (thread p) tid in
  match x with
  | Some t => load_from p tid t
  | None =>
      let! (t, p) := new_thread p in
      let! p := write_thread p tid t in
      load_from p tid t
  end.

Definition switch_thread (p : process) (tid : Z) : res process :=
  if tid =? current_tid p then Ok p else
  let! p := (if negb (current_tid p =? VG_INVALID_THREADID) then save_thread p else Ok p) in
  let p := set_tid p tid in
  let! _ := tl_assert (tid <? VG_N_THREADS) "tid < VG_N_THREADS" in
  if negb (tid =? VG_INVALID_THREADID) then load_thread p tid else Ok p.

(** [for (t = 1; t < VG_N_THREADS; t++)] over the threads that exist. *)
Fixpoint forall_loop (func : process -> thread_info -> res process) (p : process) (ts : list Z) : res process :=
  match ts with
  | [] => Ok p
  | t :: ts' =>
      let! x := arr_get (thread p) t in
      match x with
      | None => forall_loop func p ts'
      | Some _ =>
          let! p := switch_thread p t in
          let! x := deref_thread p t in
          let! p := func p x in
          forall_loop func p ts'
      end
  end.

Definition forall_threads (func : process -> thread_info -> res process) (p : process) : res process :=
  let orig_tid := current_tid p in
  let! p := forall_loop func p (seqZ 1 (VG_N_THREADS - 1)) in
  switch_thread p orig_tid.

Definition run_thread (p : process) (tid : Z) : res process :=
  let! p :=
    (if 0 <? dump_every_bb then
       if dump_every_bb <? u64 (bb_executions p - bbs_done p) then
         let! s := dump_profile ("--dump-every-bb=" ++ fmt_u dump_every_bb)%string (now p) in
         Ok (MkProcess s (current_states p) (current_bbccs p) (thread p) (current_tid p) (distinct_fns p)
               (fn_array_resizes p) (bb_executions p) (bb_executions p))
       else Ok p
     else Ok p) in
  switch_thread p tid.

(** ** Signals *)

Definition pre_signal (p : process) (tid sigNum : Z) : res process :=
  let! p := switch_thread p tid in
  let! p := exec_state_save p in
  let! (es, p) := push_exec_state p sigNum in
  let! m := zero_cost (full (now p)) (costs (now p)) (x_cost es) in
  let s := set_costs (now p) m in
  let! p := write_top (set_now p s)
              (MkExecInfo (x_sig es) (x_cost es) (x_collect es) (x_cxt es) (jmps_passed es) (x_bbcc es)
                 (x_nonskipped es) (cs_sp (current_call_stack s))) in
  let c := cur s in
  let c := init_exec_state (MkExecInfo (x_sig c) (x_cost es) (x_collect c) (x_cxt c) (jmps_passed c) (x_bbcc c)
                              (x_nonskipped c) (call_stack_bottom c)) in
  let c := MkExecInfo sigNum (x_cost c) (x_collect c) (x_cxt c) (jmps_passed c) (x_bbcc c) (x_nonskipped c)
             (call_stack_bottom c) in
  let! s := push_cxt (set_cur (now p) c) 0 in
  Ok (set_now p s).

(** [while (sp > bottom) pop()] *)
Fixpoint pop_to (pop : process -> res process) (fuel : nat) (p : process) (bottom : Z) : res process :=
  if cs_sp (current_call_stack (now p)) <=? bottom then Ok p else
  match fuel with
  | O => Err OutOfFuel
  | S fuel' => let! p := pop p in pop_to pop fuel' p bottom
  end.

(** The active count of the function the handler ran in. *)
Definition uncount_handler (p : process) : res process :=
  match x_cxt (cur (now p)) with
  | None => Ok p
  | Some c =>
      let! fn := cxt_fn0 (now p) (Some c) in
      let! f := deref_fn (cx (now p)) fn in
      let! i := get_fn_entry (now p) (number f) in
      let! s := add_active (now p) i (-1) in
      Ok (set_now p s)
  end.

(** The function stack without the functions of the handler and its marker. *)
Definition drop_marker (st : fn_stack) : res fn_stack :=
  if 0 <? fs_top st then
    let! f := read_fn (fs_array st) (Z.to_nat (fs_top st)) in
    let! top := (if negb (f =? 0) then
                   let top := fs_top st - 1 in
                   let! g := read_fn (fs_array st) (Z.to_nat top) in
                   let! _ := tl_assert (g =? 0) "*(CLG_(current_fn_stack).top) == 0" in
                   Ok top
                 else Ok (fs_top st)) in
    Ok (MkFnStack (fs_size st) (fs_array st) (if 0 <? top then top - 1 else top))
  else Ok st.

Definition post_signal_with (pop : process -> res process) (p : process) (tid sigNum : Z) : res process :=
  let! p := switch_thread p tid in
  let! _ := tl_assert (sigNum =? x_sig (cur (now p))) "sigNum == CLG_(current_state).sig" in
  let! es := top_exec_state p in
  let! p := pop_to pop (Z.to_nat (cs_sp (current_call_stack (now p)))) p (call_stack_bottom es) in
  let! p := uncount_handler p in
  let! st := drop_marker (current_fn_stack (now p)) in
  let p := set_now p (set_fn_stack (now p) st) in
  let! es := top_exec_state p in
  let! _ := tl_assert (bool_decide (x_cost (cur (now p)) = x_cost es)) "CLG_(current_state).cost == es->cost" in
  let! t := deref_thread p (current_tid p) in
  let! (_, m) := add_and_zero_cost (full (now p)) (costs (now p)) (sighandler_cost t) (x_cost (cur (now p))) in
  let p := set_now p (set_costs (now p) m) in
  let! p := write_top p (MkExecInfo (-1) (x_cost es) (x_collect es) (x_cxt es) (jmps_passed es) (x_bbcc es)
                           (x_nonskipped es) (call_stack_bottom es)) in
  let! sp := int_sub (st_sp (current_states p)) 1 in
  let p := set_states p (MkExecStack sp (st_entry (current_states p))) in
  exec_state_restore p.

Definition run_post_signal_on_call_stack_bottom (post : process -> Z -> Z -> res process) (p : process)
  : res process :=
  let! es := top_exec_state p in
  let! _ := tl_assert (0 <? x_sig (cur (now p))) "CLG_(current_state).sig >0" in
  if cs_sp (current_call_stack (now p)) =? call_stack_bottom es
  then post p (current_tid p) (x_sig (cur (now p))) else Ok p.

(** [CLG_(pop_call_stack)] (callstack.c) and [CLG_(post_signal)] call each other;
    [fuel] bounds the depth. *)
Fixpoint pop_call_stack (fuel : nat) (p : process) : res process :=
  let! p := (if 0 <? x_sig (cur (now p)) then
               run_post_signal_on_call_stack_bottom (fun p tid sig =>
                 match fuel with
                 | O => Err OutOfFuel
                 | S fuel' => post_signal_with (pop_call_stack fuel') p tid sig
                 end) p
             else Ok p) in
  let! s := pop_call dump_profile (now p) in
  Ok (set_now p s).

Definition post_signal (fuel : nat) (p : process) (tid sigNum : Z) : res process :=
  post_signal_with (pop_call_stack fuel) p tid sigNum.
End threads.
