(* ===== verification/ClgSwitch.v ===== *)
(** * ClgSwitch: threads do not interfere (callgrind/threads.c)

    The specification of the thread switch: every thread has a view (its stacks,
    execution states and active counts) and the hash tables have an owner.  The
    running thread's view is in the global variables, the others' in their
    records.  Whatever the scheduler does, a view only changes while its thread
    runs. *)

From Stdlib Require Import ZArith Lia Ascii String.
From stdpp Require Import base numbers option strings gmap sets list relations.
From S2P Require Import Prelude ClgCosts ClgEvents ClgOwn ClgHash ClgJumps ClgContext ClgStack ClgThreads.

#[local] Open Scope Z_scope.

(** ** Views *)

Record view : Type := MkView {
  v_fns : fn_stack;
  v_calls : call_stack;
  v_states : exec_stack;
  v_lastdump : option cptr;
  v_sighandler : option cptr;
  v_active : fn_array
}.

(** Active arrays that count the same. *)
Definition same_counts (a b : fn_array) : Prop :=
  forall k : nat, default 0 (fa_array a !! k) = default 0 (fa_array b !! k).

#[export] Instance same_counts_equivalence : Equivalence same_counts.
Proof.
  split; [by intros ? ?|intros a b H k; by rewrite H|].
  intros a b c H1 H2 k. by rewrite H1.
Qed.

#[export] Instance view_equiv : Equiv view := fun v w =>
  v_fns v = v_fns w /\ v_calls v = v_calls w /\ v_states v = v_states w /\ v_lastdump v = v_lastdump w /\
  v_sighandler v = v_sighandler w /\ same_counts (v_active v) (v_active w).

#[export] Instance view_equivalence : Equivalence (≡@{view}).
Proof.
  split.
  - intros v. by split_and!.
  - intros v w (H1 & H2 & H3 & H4 & H5 & H6). by split_and!.
  - intros u v w (H1 & H2 & H3 & H4 & H5 & H6) (K1 & K2 & K3 & K4 & K5 & K6).
    split_and!; congruence || by transitivity (v_active v).
Qed.

(** What [exec_state_save] stores of the current state [c] in [es]. *)
Definition sync (c es : exec_info) : exec_info :=
  MkExecInfo (x_sig es) (x_cost es) (x_collect c) (x_cxt c) (jmps_passed c) (x_bbcc c) (x_nonskipped c)
    (call_stack_bottom es).

Definition top_of (x : exec_stack) : option exec_info := mjoin (st_entry x !! Z.to_nat (st_sp x)).

Definition with_top (x : exec_stack) (c : exec_info) : exec_stack :=
  match top_of x with
  | Some es => MkExecStack (st_sp x) (<[Z.to_nat (st_sp x) := Some (sync c es)]> (st_entry x))
  | None => x
  end.

Definition running (p : process) (t : thread_info) : view :=
  MkView (current_fn_stack (now p)) (current_call_stack (now p)) (with_top (current_states p) (cur (now p)))
    (lastdump_cost t) (sighandler_cost t) (current_fn_active (now p)).

Definition parked (t : thread_info) : view :=
  MkView (t_fns t) (t_calls t) (t_states t) (lastdump_cost t) (sighandler_cost t) (t_fn_active t).

Definition thread_at (p : process) (t : Z) : option thread_info := mjoin (thread p !! Z.to_nat t).

Definition view_of (p : process) (t : Z) : option view :=
  (if t =? current_tid p then running p else parked) <$> thread_at p t.

Section switch.
Context (collect_atstart separate_threads : bool) (VG_N_THREADS : Z).

#[local] Notation owner := (owner separate_threads).

(** The hash tables of an owner. *)
Definition tables_of (p : process) (o : Z) : option (jcc_hash * bbcc_hash) :=
  (fun t => if negb (current_tid p =? 0) && (o =? owner (current_tid p))
            then (current_jccs (jm (now p)), current_bbccs p) else (t_jccs t, t_bbccs t)) <$> thread_at p o.

(** ** Well-formed processes *)

Record states_ok (x : exec_stack) : Prop := {
  so_sp : 0 <= st_sp x < MAX_SIGHANDLERS;
  so_len : Z.of_nat (length (st_entry x)) = MAX_SIGHANDLERS;
  so_top : is_Some (top_of x)
}.

Record array_ok (a : fn_array) : Prop := {
  ao_size : 0 < fa_size a <= 2 ^ 31;
  ao_len : Z.of_nat (length (fa_array a)) = fa_size a
}.

(** The global variables hold the state of a thread. *)
Record loaded (p : process) : Prop := {
  ld_states : states_ok (current_states p);
  ld_top : forall es, top_of (current_states p) = Some es -> x_cost es = x_cost (cur (now p)) /\ x_sig es = x_sig (cur (now p));
  ld_array : array_ok (current_fn_active (now p))
}.

Record process_ok (p : process) : Prop := {
  po_len : Z.of_nat (length (thread p)) = VG_N_THREADS;
  po_tid : 0 <= current_tid p < VG_N_THREADS;
  po_parked : forall t x, 0 < t -> t <> current_tid p -> thread_at p t = Some x ->
    states_ok (t_states x) /\ array_ok (t_fn_active x);
  po_current : current_tid p <> 0 -> is_Some (thread_at p (current_tid p)) /\ loaded p;
  po_owner : forall t, 0 < t -> is_Some (thread_at p t) -> is_Some (thread_at p (owner t));
  po_mem : wf_mem (costs (now p)) /\ 0 <= es_size (full (now p)) < COSTCHUNK_SIZE;
  po_fns : 0 <= distinct_fns p < 2 ^ 30
}.

(** ** The pieces of a switch *)

Lemma top_exec_ok p es : states_ok (current_states p) -> top_of (current_states p) = Some es ->
  top_exec_state p = Ok es.
Proof.
  intros [H1 H2 H3] Ht. unfold top_exec_state. unfold MAX_SIGHANDLERS in *.
  rewrite tl_assert_true by (rewrite andb_true_iff, Z.leb_le, Z.ltb_lt; lia). cbn [rbind].
  unfold top_of in Ht. destruct (st_entry (current_states p) !! Z.to_nat (st_sp (current_states p))) as [e|] eqn:E; [|done].
  rewrite (arr_get_in _ _ e) by (lia || done). cbn [rbind]. cbn in Ht. by rewrite Ht.
Qed.

Lemma write_top_ok p x : states_ok (current_states p) ->
  write_top p x = Ok (set_states p (MkExecStack (st_sp (current_states p))
    (<[Z.to_nat (st_sp (current_states p)) := Some x]> (st_entry (current_states p))))).
Proof. intros [H1 H2 _]. unfold write_top. by rewrite arr_set_in by lia. Qed.

Lemma thread_lookup p t x : thread_at p t = Some x <-> thread p !! Z.to_nat t = Some (Some x).
Proof. unfold thread_at. destruct (thread p !! Z.to_nat t) as [[y|]|]; cbn; split; congruence. Qed.

Lemma thread_get p t x : 0 <= t -> thread_at p t = Some x -> arr_get (thread p) t = Ok (Some x).
Proof. intros Ht H. apply arr_get_in; [done|]. by apply thread_lookup. Qed.

Lemma deref_thread_ok p t x : 0 <= t -> thread_at p t = Some x -> deref_thread p t = Ok x.
Proof. intros Ht H. unfold deref_thread. by rewrite (thread_get p t x). Qed.

Lemma write_thread_ok p t x : 0 <= t < Z.of_nat (length (thread p)) ->
  write_thread p t x = Ok (set_threads p (<[Z.to_nat t := Some x]> (thread p))).
Proof. intros Ht. unfold write_thread. by rewrite arr_set_in. Qed.

Lemma thread_at_set p t u x : 0 <= t < Z.of_nat (length (thread p)) -> 0 <= u ->
  thread_at (set_threads p (<[Z.to_nat t := Some x]> (thread p))) u = if u =? t then Some x else thread_at p u.
Proof.
  intros Ht Hu. unfold thread_at. cbn [set_threads thread]. destruct (Z.eqb_spec u t) as [->|Hne].
  - by rewrite list_lookup_insert_eq by lia.
  - by rewrite list_lookup_insert_ne by lia.
Qed.

Lemma exec_state_save_ok p : loaded p ->
  exec_state_save p = Ok (set_states p (with_top (current_states p) (cur (now p)))).
Proof.
  intros [H1 H2 H3]. destruct (so_top _ H1) as [es Hes]. destruct (H2 es Hes) as [Hc Hs].
  unfold exec_state_save. rewrite (top_exec_ok p es) by done. cbn [rbind]. rewrite write_top_ok by done. cbn [rbind].
  rewrite tl_assert_true by (by rewrite bool_decide_eq_true_2). cbn [rbind].
  rewrite tl_assert_true by (by rewrite Z.eqb_eq). cbn [rbind]. unfold with_top. by rewrite Hes.
Qed.

(** After saving, the records hold every view and every table. *)
Definition all_parked (p q : process) : Prop :=
  length (thread q) = length (thread p) /\
  (forall t, 0 < t -> parked <$> thread_at q t = view_of p t) /\
  (forall o, 0 < o -> (fun x => (t_jccs x, t_bbccs x)) <$> thread_at q o = tables_of p o).

Lemma save_ok p : process_ok p -> current_tid p <> 0 ->
  exists q, save_thread separate_threads p = Ok q /\ all_parked p q /\ now q = now p /\
    current_tid q = current_tid p /\ distinct_fns q = distinct_fns p /\ fn_array_resizes q = fn_array_resizes p.
Proof.
  intros [P1 P2 P3 P4 P5 P6 P7] Hc. destruct (P4 Hc) as [[x Hx] Hl]. unfold save_thread.
  rewrite (thread_get p (current_tid p) x) by (done || lia). cbn [rbind].
  rewrite exec_state_save_ok by done. cbn [rbind]. set (p1 := set_states p _).
  rewrite write_thread_ok by (cbn; lia). cbn [rbind]. set (x1 := MkThread _ _ _ _ _ _ _ _).
  set (p2 := set_threads p1 _). change (current_tid p2) with (current_tid p). set (o := owner (current_tid p)).
  assert (0 <= o < VG_N_THREADS) as Ho.
  { destruct (P5 (current_tid p)) as [y Hy]; [lia|by exists x|]. fold o in Hy. split.
    - unfold o, ClgThreads.owner. destruct separate_threads; lia.
    - apply thread_lookup, lookup_lt_Some in Hy. unfold o, ClgThreads.owner in *. destruct separate_threads; lia. }
  assert (forall t, 0 <= t -> thread_at p2 t = if t =? current_tid p then Some x1 else thread_at p t) as H2.
  { intros t Ht. unfold p2. rewrite thread_at_set by (cbn; lia). done. }
  destruct (P5 (current_tid p)) as [y Hy]; [lia|by exists x|]. fold o in Hy.
  assert (exists z, thread_at p2 o = Some z /\ parked z = (if o =? current_tid p then parked x1 else parked y)) as (z & Hz & Ez).
  { rewrite H2 by lia. destruct (Z.eqb_spec o (current_tid p)); [by exists x1|by exists y]. }
  rewrite (deref_thread_ok p2 o z) by (done || lia). cbn [rbind].
  rewrite write_thread_ok by (unfold p2; cbn; rewrite length_insert; lia).
  eexists. split; [done|]. split; [|done]. set (x2 := MkThread _ _ _ _ _ _ _ _).
  assert (forall t, 0 <= t -> thread_at (set_threads p2 (<[Z.to_nat o := Some x2]> (thread p2))) t =
    if t =? o then Some x2 else thread_at p2 t) as H3.
  { intros t Ht. rewrite thread_at_set; [done|unfold p2; cbn; rewrite length_insert; lia|done]. }
  split_and!.
  - cbn. by rewrite !length_insert.
  - intros t Ht. rewrite H3 by lia. unfold view_of. destruct (Z.eqb_spec t o) as [->|Hto].
    + assert (parked x2 = parked z) as E by done. cbn. rewrite E, Ez. destruct (Z.eqb_spec o (current_tid p)) as [E1|E1].
      * rewrite E1, Hx. done.
      * by rewrite Hy.
    + rewrite H2 by lia. destruct (Z.eqb_spec t (current_tid p)) as [->|Ht1]; [by rewrite Hx|done].
  - intros t Ht. rewrite H3 by lia. unfold tables_of. rewrite (proj2 (Z.eqb_neq _ _) Hc). cbn [negb andb]. fold o.
    destruct (Z.eqb_spec t o) as [->|Hto]; [by rewrite Hy|]. rewrite H2 by lia.
    destruct (Z.eqb_spec t (current_tid p)) as [->|Ht1]; [by rewrite Hx|done].
Qed.

Lemma fn_newsize_ok fuel n d :
  0 < n <= 2 ^ 31 -> 0 <= d < 2 ^ 30 -> d < n * 2 ^ Z.of_nat fuel ->
  exists n', fn_newsize fuel n d = Ok n' /\ n <= n' <= 2 ^ 31 /\ d < n'.
Proof.
  revert n; induction fuel as [|fuel IH]; intros n Hn Hd Hf; cbn [fn_newsize];
    rewrite (wrapu_small 32 d) by (unfold in_u; lia); destruct (Z.ltb_spec d n) as [Hlt|Hge];
    try (exists n; split_and!; done || lia).
  rewrite wrapu_small by (unfold in_u; lia). rewrite Nat2Z.inj_succ, Z.pow_succ_r in Hf by lia.
  destruct (IH (n * 2)) as (n' & -> & H1 & H2); [lia|done|lia|]. exists n'. split_and!; done || lia.
Qed.

Lemma set_array_ok p a :
  array_ok a -> 0 <= distinct_fns p < 2 ^ 30 -> 0 <= fn_array_resizes p < 2 ^ 31 - 1 ->
  exists b r, set_current_fn_array p a = Ok (MkProcess (set_active (now p) b) (current_states p) (current_bbccs p)
      (thread p) (current_tid p) (distinct_fns p) r (bb_executions p) (bbs_done p)) /\
    array_ok b /\ same_counts b a /\ fn_array_resizes p <= r <= fn_array_resizes p + 1 /\ distinct_fns p < fa_size b.
Proof.
  intros [A1 A2] Hd Hr. unfold set_current_fn_array. cbn [set_now distinct_fns].
  rewrite wrapu_small by (unfold in_u; lia). destruct (Z.leb_spec (fa_size a) (distinct_fns p)) as [Hle|Hgt]; cycle 1.
  { exists a, (fn_array_resizes p). split_and!; try done; lia. }
  unfold resize_fn_array. cbn [set_now now set_active current_fn_active fn_array_resizes distinct_fns].
  destruct (fn_newsize_ok 32 (fa_size a) (distinct_fns p)) as (n' & -> & Hn & Hdn); [done|done|cbn; lia|].
  cbn [rbind]. unfold int_add. rewrite signed_result_in by (unfold in_s; lia). cbn [rbind].
  rewrite take_ge by lia. eexists _, _. split; [done|]. split_and!; cbn [fa_size]; try lia.
  - constructor; cbn [fa_size fa_array]; [lia|]. rewrite length_app, length_replicate. lia.
  - intros k. cbn [fa_array]. destruct (decide (k < length (fa_array a))%nat) as [Hk|Hk].
    + by rewrite lookup_app_l.
    + rewrite lookup_app_r, (lookup_ge_None_2 (fa_array a)) by lia.
      destruct (replicate _ 0 !! _) as [v|] eqn:E; [|done]. by apply lookup_replicate in E as [-> _].
Qed.

(** The view of a thread that never ran, its counters [c], [ld] and [sg]. *)
Definition fresh_view (c ld sg : cptr) (distinct_fns : Z) : view :=
  MkView init_fn_stack init_call_stack
    (MkExecStack 0 (Some (MkExecInfo 0 (Some c) collect_atstart None 0 0 0 0) ::
                    replicate (Z.to_nat MAX_SIGHANDLERS - 1) None))
    (Some ld) (Some sg) (init_fn_array distinct_fns).

(** What an allocation leaves alone. *)
Definition keeps_arrays (n : Z) (m m' : cost_mem) : Prop :=
  forall ps, owns n m ps -> owns n m' ps /\ forall q i, q ∈ ps -> 0 <= i < n -> val m' q i = val m q i.

(** The three arrays of a new thread. *)
Definition new_arrays (m : cost_mem) (n : Z) : res (cptr * cptr * cptr * cost_mem) :=
  let! (c, m) := get_costarray m n in
  let! m := zero_cells m c n in
  let! (ld, m) := get_costarray m n in
  let! (sg, m) := get_costarray m n in
  let! m := zero_cells m ld n in
  let! m := zero_cells m sg n in
  Ok (c, ld, sg, m).

Lemma new_arrays_ok m n ps : owns n m ps -> 0 <= n < COSTCHUNK_SIZE ->
  exists c ld sg m', new_arrays m n = Ok (c, ld, sg, m') /\ owns n m' (c :: ld :: sg :: ps) /\
    (forall q i, q ∈ ps -> 0 <= i < n -> val m' q i = val m q i) /\
    forall q i, q ∈ [c; ld; sg] -> 0 <= i < n -> val m' q i = 0.
Proof.
  intros [Hr Hps]%owns_reserves Hn. rewrite Forall_forall in Hps. unfold new_arrays.
  destruct (reserves_alloc n m ps Hr Hn) as (c & m1 & -> & R1 & V1 & D1). cbn [rbind].
  destruct (reserves_zero n m1 c ps R1) as (m2 & -> & R2 & Rc & Z2 & V2 & D2); [lia|]. cbn [rbind].
  destruct (reserves_alloc n m2 (c :: ps) R2 Hn) as (ld & m3 & -> & R3 & V3 & D3). cbn [rbind].
  destruct (reserves_alloc n m3 (ld :: c :: ps) R3 Hn) as (sg & m4 & -> & R4 & V4 & D4). cbn [rbind].
  destruct (reserves_zero n m4 ld (sg :: c :: ps)) as (m5 & -> & R5 & Rl & Z5 & V5 & D5);
    [eapply reserves_perm; [apply perm_swap|done]|lia|]. cbn [rbind].
  destruct (reserves_zero n m5 sg (ld :: c :: ps)) as (m6 & -> & R6 & Rs & Z6 & V6 & D6);
    [eapply reserves_perm; [apply perm_swap|done]|lia|]. cbn [rbind].
  exists c, ld, sg, m6. split; [done|]. split_and!.
  - apply owns_reserves. split.
    + eapply reserves_perm; [|exact R6]. etransitivity; [apply perm_swap|]. etransitivity; [apply perm_skip, perm_swap|].
      apply perm_swap.
    + repeat constructor; [|by apply D6|done|].
      * apply D6, D5, D4; [set_solver|]. apply D3; [set_solver|done].
      * apply Forall_forall. intros q Hq. apply D6, D5, D4; [set_solver|]. apply D3; [set_solver|].
        apply D2, D1; [done|]. by apply Hps.
  - intros q i Hq Hi. rewrite V6, V5, V4, V3, V2, V1 by set_solver. done.
  - intros q i Hq Hi. assert (q = c \/ q = ld \/ q = sg) as [-> | [-> | ->]] by set_solver.
    + rewrite V6, V5, V4, V3 by set_solver. by apply Z2.
    + rewrite V6 by set_solver. by apply Z5.
    + by apply Z6.
Qed.

Lemma new_thread_ok p :
  wf_mem (costs (now p)) /\ 0 <= es_size (full (now p)) < COSTCHUNK_SIZE -> 0 <= distinct_fns p < 2 ^ 30 ->
  exists t c ld sg m, new_thread collect_atstart p = Ok (t, set_now p (set_costs (now p) m)) /\
    parked t = fresh_view c ld sg (distinct_fns p) /\ t_jccs t = init_jcc_hash /\ t_bbccs t = init_bbcc_hash /\
    states_ok (t_states t) /\ array_ok (t_fn_active t) /\ wf_mem m /\
    let n := es_size (full (now p)) in
    keeps_arrays n (costs (now p)) m /\
    forall ps, owns n (costs (now p)) ps -> owns n m (c :: ld :: sg :: ps) /\
      forall q i, q ∈ [c; ld; sg] -> 0 <= i < n -> val m q i = 0.
Proof.
  intros [Hw Hn] Hd. set (n := es_size (full (now p))) in *.
  assert (owns n (costs (now p)) []) as Ho0 by (apply owns_reserves; split; [by constructor|done]).
  destruct (new_arrays_ok _ n [] Ho0 Hn) as (c & ld & sg & m & E & Hown & _ & _).
  assert (exists t, new_thread collect_atstart p = Ok (t, set_now p (set_costs (now p) m)) /\
    parked t = fresh_view c ld sg (distinct_fns p) /\ t_jccs t = init_jcc_hash /\ t_bbccs t = init_bbcc_hash)
    as (t & Et & Ev & Ej & Eb).
  { unfold new_arrays in E. unfold new_thread, init_exec_stack, new_exec_state, get_eventset_cost, zero_cost, init_cost.
    fold n. destruct (get_costarray (costs (now p)) n) as [[c1 m1]|]; [|done]. cbn [rbind] in *.
    destruct (zero_cells m1 c1 n) as [m2|]; [|done]. cbn [rbind set_costs costs full] in *. fold n.
    destruct (get_costarray m2 n) as [[l1 m3]|]; [|done]. cbn [rbind] in *.
    destruct (get_costarray m3 n) as [[s1 m4]|]; [|done]. cbn [rbind] in *.
    destruct (zero_cells m4 l1 n) as [m5|]; [|done]. cbn [rbind] in *.
    destruct (zero_cells m5 s1 n) as [m6|]; [|done]. cbn [rbind] in *. injection E as -> -> -> ->.
    eexists. split; [done|]. done. }
  pose proof Ev as Ev'. injection Ev' as E1 E2 E3 E4 E5 E6. exists t, c, ld, sg, m.
  assert (forall ps, owns n (costs (now p)) ps -> owns n m (c :: ld :: sg :: ps) /\
    (forall q i, q ∈ ps -> 0 <= i < n -> val m q i = val (costs (now p)) q i) /\
    forall q i, q ∈ [c; ld; sg] -> 0 <= i < n -> val m q i = 0) as Hall.
  { intros ps Hps. destruct (new_arrays_ok _ n ps Hps Hn) as (c' & ld' & sg' & m' & E' & H1 & H2 & H3).
    rewrite E in E'. injection E' as <- <- <- <-. done. }
  split_and!; try done.
  - rewrite E3. by constructor; [unfold MAX_SIGHANDLERS; cbn; lia|..].
  - rewrite E6. unfold init_fn_array, N_INITIAL_FN_ARRAY_SIZE. rewrite !wrapu_small by (unfold in_u; lia).
    constructor; cbn [fa_size fa_array]; [destruct (Z.leb_spec 10071 (distinct_fns p)); lia|].
    rewrite length_replicate. destruct (Z.leb_spec 10071 (distinct_fns p)); lia.
  - apply Hown.
  - cbn zeta. fold n. split; intros ps Hps; destruct (Hall ps Hps) as (H1 & H2 & H3); [|done].
    split; [by do 3 apply owns_tail in H1|done].
Qed.

Lemma with_top_id x c es : top_of x = Some es -> sync c es = es -> with_top x c = x.
Proof.
  intros Ht Hs. unfold with_top. rewrite Ht, Hs. destruct x as [sp l]. cbn [st_sp st_entry]. f_equal.
  apply list_insert_id. unfold top_of in Ht. cbn in Ht. destruct (l !! Z.to_nat sp) as [e|]; [|done]. cbn in Ht. by rewrite Ht.
Qed.

(** The state that several threads share. *)
Definition same_shared (s s' : stacks) : Prop :=
  cx s' = cx s /\ centres s' = centres s /\ bbs s' = bbs s /\ full s' = full s /\ stat s' = stat s /\
  skip_direct_recursion s' = skip_direct_recursion s /\ jccs (jm s') = jccs (jm s) /\ bbccs (jm s') = bbccs (jm s).

Lemma load_from_ok p tid t y :
  0 <= owner tid -> thread_at p (owner tid) = Some y -> states_ok (t_states t) -> array_ok (t_fn_active t) ->
  0 <= distinct_fns p < 2 ^ 30 -> 0 <= fn_array_resizes p < 2 ^ 31 - 1 ->
  exists q, load_from separate_threads p tid t = Ok q /\ thread q = thread p /\ current_tid q = current_tid p /\
    distinct_fns q = distinct_fns p /\ fn_array_resizes p <= fn_array_resizes q <= fn_array_resizes p + 1 /\
    loaded q /\ running q t ≡ parked t /\ costs (now q) = costs (now p) /\ same_shared (now p) (now q) /\
    (current_jccs (jm (now q)), current_bbccs q) = (t_jccs y, t_bbccs y).
Proof.
  intros Ho Hy Hs Ha Hd Hr. destruct (so_top _ Hs) as [es Hes]. unfold load_from. cbn [set_current_exec_stack].
  unfold exec_state_restore. rewrite (top_exec_ok _ es) by done. cbn [rbind].
  match goal with |- context [set_current_fn_array ?u (t_fn_active t)] => destruct (set_array_ok u (t_fn_active t)) as
    (b & r & -> & Hb & Hc & Hr' & Hbd) end; [done|exact Hd|exact Hr|]. cbn [rbind].
  rewrite (deref_thread_ok _ (owner tid) y) by done. cbn [rbind].
  eexists. split; [done|]. split_and!; try done; try (cbn in Hr' |- *; lia).
  - constructor; [done| |done]. intros es' Hes'. assert (es' = es) as -> by (cbn in Hes'; congruence). done.
  - unfold running, parked. cbn. rewrite (with_top_id _ _ es); [|done|by destruct es]. by split_and!.
Qed.

Lemma with_top_ok x c : states_ok x -> states_ok (with_top x c).
Proof.
  intros [H1 H2 [es H3]]. unfold with_top. rewrite H3.
  constructor; cbn [st_sp st_entry]; [done|by rewrite length_insert|]. unfold top_of. cbn [st_sp st_entry].
  rewrite list_lookup_insert_eq by lia. by eexists.
Qed.

Lemma parked_ok p q t x : process_ok p -> all_parked p q -> 0 < t -> thread_at q t = Some x ->
  states_ok (t_states x) /\ array_ok (t_fn_active x).
Proof.
  intros [P1 P2 P3 P4 P5 P6 P7] (_ & Hv & _) Ht Hx. specialize (Hv t Ht). rewrite Hx in Hv. unfold view_of in Hv.
  destruct (thread_at p t) as [y|] eqn:Hy; [|done].
  destruct (Z.eqb_spec t (current_tid p)) as [E|E]; injection Hv as _ _ Es _ _ Ea.
  - destruct (P4 ltac:(lia)) as [_ [L1 L2 L3]]. rewrite Es, Ea. split; [by apply with_top_ok|done].
  - rewrite Es, Ea. by apply (P3 t).
Qed.

(** The first half of a switch. *)
Lemma park p : process_ok p ->
  exists q, (if negb (current_tid p =? VG_INVALID_THREADID) then save_thread separate_threads p else Ok p) = Ok q /\
    all_parked p q /\ now q = now p /\ distinct_fns q = distinct_fns p /\ fn_array_resizes q = fn_array_resizes p.
Proof.
  intros Hp. unfold VG_INVALID_THREADID. destruct (Z.eqb_spec (current_tid p) 0) as [E|E]; cbn [negb].
  - exists p. split; [done|]. split; [|done]. split_and!; [done| |].
    + intros t Ht. unfold view_of. by rewrite (proj2 (Z.eqb_neq _ _)) by lia.
    + intros o Ho. unfold tables_of. by rewrite E.
  - destruct (save_ok p Hp E) as (q & E1 & H1 & H2 & _ & H3 & H4). by exists q.
Qed.

Record switched (p : process) (tid : Z) (q : process) : Prop := {
  sw_ok : process_ok q;
  sw_tid : current_tid q = tid;
  sw_views : forall t v, 0 < t -> view_of p t = Some v -> exists w, view_of q t = Some w /\ w ≡ v;
  sw_none : forall t, 0 < t -> t <> tid -> view_of p t = None -> view_of q t = None;
  sw_tables : forall o h, 0 < o -> tables_of p o = Some h -> tables_of q o = Some h;
  sw_fresh : forall o h, 0 < o -> tables_of p o = None -> tables_of q o = Some h -> h = (init_jcc_hash, init_bbcc_hash);
  sw_shared : same_shared (now p) (now q);
  sw_costs : keeps_arrays (es_size (full (now p))) (costs (now p)) (costs (now q));
  sw_new : tid <> 0 -> view_of p tid = None -> exists c ld sg w, view_of q tid = Some w /\
    w ≡ fresh_view c ld sg (distinct_fns p) /\
    forall ps, owns (es_size (full (now p))) (costs (now p)) ps ->
      owns (es_size (full (now p))) (costs (now q)) (c :: ld :: sg :: ps);
  sw_count : distinct_fns q = distinct_fns p /\ fn_array_resizes p <= fn_array_resizes q <= fn_array_resizes p + 1
}.

Lemma owner_pos t : 0 < t -> 0 < owner t.
Proof. unfold ClgThreads.owner. destruct separate_threads; lia. Qed.

(** The process after [t] was loaded from the parked process [q0]. *)
Lemma load_switched p q0 q1 q tid t m y :
  process_ok p -> all_parked p q0 -> 0 < tid < VG_N_THREADS ->
  length (thread q1) = length (thread q0) ->
  (forall u, 0 < u -> thread_at q1 u = if u =? tid then Some t else thread_at q0 u) ->
  (forall x, thread_at q0 tid = Some x -> t = x) -> now q1 = set_costs (now p) m ->
  wf_mem m -> keeps_arrays (es_size (full (now p))) (costs (now p)) m ->
  distinct_fns q1 = distinct_fns p -> fn_array_resizes q1 = fn_array_resizes p ->
  thread_at q1 (owner tid) = Some y ->
  thread q = thread q1 -> current_tid q = tid -> distinct_fns q = distinct_fns q1 ->
  fn_array_resizes q1 <= fn_array_resizes q <= fn_array_resizes q1 + 1 ->
  loaded q -> running q t ≡ parked t -> costs (now q) = costs (now q1) -> same_shared (now q1) (now q) ->
  (current_jccs (jm (now q)), current_bbccs q) = (t_jccs y, t_bbccs y) ->
  (thread_at q0 tid = None -> (t_jccs t, t_bbccs t) = (init_jcc_hash, init_bbcc_hash) /\
    exists c ld sg, parked t = fresh_view c ld sg (distinct_fns p) /\
    forall ps, owns (es_size (full (now p))) (costs (now p)) ps ->
      owns (es_size (full (now p))) m (c :: ld :: sg :: ps)) ->
  switched p tid q.
Proof.
  intros Hp (Hlen & Hv & Htab) Htid Hl1 Hat Hold Hnow Hwf Hkeep Hd1 Hr1 Hy Hth Htq Hdq Hrq Hload Hrun Hcq Hsh Hjb Hnew.
  pose proof Hp as [P1 P2 P3 P4 P5 P6 P7].
  assert (forall u, 0 < u -> thread_at q u = if u =? tid then Some t else thread_at q0 u) as Hatq.
  { intros u Hu. unfold thread_at at 1. rewrite Hth. by apply Hat. }
  assert (forall u, 0 < u -> is_Some (thread_at q0 u) <-> is_Some (thread_at p u)) as Hsome.
  { intros u Hu. specialize (Hv u Hu). unfold view_of in Hv. destruct (thread_at q0 u), (thread_at p u); try done; by split. }
  assert (costs (now q) = m) as Hm by (by rewrite Hcq, Hnow).
  assert (full (now q) = full (now p)) as Hfull by (destruct Hsh as (_ & _ & _ & -> & _); by rewrite Hnow).
  constructor; try done.
  - constructor; try done.
    + rewrite Hth. congruence.
    + lia.
    + intros u x Hu Hne Hx. rewrite Hatq, (proj2 (Z.eqb_neq _ _)) in Hx by lia.
      apply (parked_ok p q0 u x); done.
    + intros _. split; [|done]. rewrite Hatq, Htq, Z.eqb_refl by lia. by eexists.
    + intros u Hu [x Hx]. rewrite Hatq by (by apply owner_pos). destruct (Z.eqb_spec (owner u) tid); [by eexists|].
      rewrite Hatq in Hx by done. destruct (Z.eqb_spec u tid) as [->|Hut].
      * rewrite Hat, (proj2 (Z.eqb_neq _ _)) in Hy by (done || apply owner_pos; lia). by exists y.
      * apply Hsome, P5; [by apply owner_pos|done|]. apply Hsome; [done|]. by exists x.
    + rewrite Hfull, Hm. by split; [|apply P6].
    + lia.
  - intros u v Hu Huv. unfold view_of. rewrite Hatq, Htq by done. rewrite <- Hv in Huv by done.
    destruct (thread_at q0 u) as [x|] eqn:Hx; [|done]. injection Huv as <-. destruct (Z.eqb_spec u tid) as [->|Hne].
    + rewrite (Hold x Hx) in *. eexists. split; [done|]. done.
    + eexists. split; [done|]. done.
  - intros u Hu Hne Hn. unfold view_of. rewrite Hatq, (proj2 (Z.eqb_neq _ _) Hne), Htq by done. rewrite <- Hv in Hn by done.
    by destruct (thread_at q0 u).
  - intros o h Ho Hh. rewrite <- Htab in Hh by done. unfold tables_of. rewrite Htq, Hatq by done.
    rewrite (proj2 (Z.eqb_neq tid 0)) by lia. cbn [negb andb].
    destruct (thread_at q0 o) as [x|] eqn:Hx; [|done]. injection Hh as <-.
    destruct (Z.eqb_spec o (owner tid)) as [->|Hno].
    + rewrite Hat in Hy by done. destruct (Z.eqb_spec (owner tid) tid) as [E|E].
      * injection Hy as <-. rewrite E in Hx. rewrite <- (Hold x Hx), Hjb. done.
      * rewrite Hx in *. injection Hy as <-. by rewrite Hjb.
    + destruct (Z.eqb_spec o tid) as [->|Hne]; [|done]. by rewrite (Hold x Hx).
  - intros o h Ho Hn Hh. rewrite <- Htab in Hn by done. unfold tables_of in Hh. rewrite Htq, Hatq in Hh by done.
    rewrite (proj2 (Z.eqb_neq tid 0)) in Hh by lia. cbn [negb andb] in Hh.
    destruct (Z.eqb_spec o tid) as [->|Hne]; [|by destruct (thread_at q0 o)].
    destruct (thread_at q0 tid) eqn:Hx; [done|]. destruct (Hnew eq_refl) as [Hi _]. injection Hh as <-.
    destruct (Z.eqb_spec tid (owner tid)) as [E|_]; [|done]. rewrite Hjb.
    rewrite <- E, Hat, Z.eqb_refl in Hy by done. by injection Hy as <-.
  - destruct Hsh as (A1 & A2 & A3 & A4 & A5 & A6 & A7 & A8). rewrite Hnow in *. by split_and!.
  - by rewrite Hm.
  - intros _ Hn. rewrite <- Hv in Hn by lia. destruct (thread_at q0 tid) eqn:Hx; [done|].
    destruct (Hnew eq_refl) as (_ & c & ld & sg & Ef & Hown). exists c, ld, sg. eexists. unfold view_of.
    rewrite Hatq, Htq, Z.eqb_refl by lia. split; [done|]. rewrite <- Ef, Hm. done.
  - lia.
Qed.

(** With shared tables, thread 1 comes first. *)
Definition may_switch (p : process) (tid : Z) : Prop :=
  0 <= tid < VG_N_THREADS /\ (tid <> 0 -> owner tid = tid \/ is_Some (thread_at p (owner tid))).

Lemma switched_same p : process_ok p -> 0 <= fn_array_resizes p -> switched p (current_tid p) p.
Proof.
  intros Hp Hr. constructor; try done.
  - intros t v _ Hv. by exists v.
  - intros o h _ Hn Hs. by rewrite Hn in Hs.
  - intros Hc Hn. destruct (po_current _ Hp Hc) as [[x Hx] _]. unfold view_of in Hn. by rewrite Hx in Hn.
  - lia.
Qed.

Lemma switched_idle p q : process_ok p -> all_parked p q -> now q = now p -> distinct_fns q = distinct_fns p ->
  fn_array_resizes q = fn_array_resizes p -> 0 < VG_N_THREADS -> switched p 0 (set_tid q 0).
Proof.
  intros Hp (Hlen & Hv & Htab) Hnow Hd Hr HN. pose proof Hp as [P1 P2 P3 P4 P5 P6 P7].
  assert (forall t, 0 < t -> view_of (set_tid q 0) t = view_of p t) as Hview.
  { intros t Ht. rewrite <- Hv by done. unfold view_of. cbn [set_tid current_tid].
    by rewrite (proj2 (Z.eqb_neq t 0)) by lia. }
  assert (forall u, 0 < u -> is_Some (thread_at q u) <-> is_Some (thread_at p u)) as Hsome.
  { intros u Hu. specialize (Hv u Hu). unfold view_of in Hv. destruct (thread_at q u), (thread_at p u); try done; by split. }
  constructor; cbn [set_tid now current_tid distinct_fns fn_array_resizes]; rewrite ?Hnow; try done; try lia.
  - constructor; cbn [set_tid now current_tid distinct_fns fn_array_resizes thread]; rewrite ?Hnow; try done; try lia.
    + intros t x Ht _ Hx. apply (parked_ok p q t x Hp (conj Hlen (conj Hv Htab)) Ht Hx).
    + intros t Ht Hs. apply Hsome; [by apply owner_pos|]. by apply P5, Hsome.
  - intros t v Ht Hv'. rewrite Hview by done. by exists v.
  - intros t Ht _ Hn. by rewrite Hview.
  - intros o h Ho Hh. rewrite <- Htab in Hh by done. exact Hh.
  - intros o h Ho Hn Hh. rewrite <- Htab in Hn by done. unfold tables_of in Hh.
    change (thread_at (set_tid q 0) o) with (thread_at q o) in Hh. by destruct (thread_at q o).
Qed.

Lemma switch_ok p tid :
  process_ok p -> may_switch p tid -> 0 <= fn_array_resizes p < 2 ^ 31 - 1 ->
  exists q, switch_thread collect_atstart separate_threads VG_N_THREADS p tid = Ok q /\ switched p tid q.
Proof.
  intros Hp [Htid Hown] Hr. unfold switch_thread. destruct (Z.eqb_spec tid (current_tid p)) as [->|Hne].
  { exists p. split; [done|]. apply switched_same; [done|lia]. }
  destruct (park p Hp) as (q0 & -> & Hpark & Hnow & Hd & Hrz). cbn [rbind].
  rewrite tl_assert_true by (apply Z.ltb_lt; lia). cbn [rbind]. unfold VG_INVALID_THREADID.
  destruct (Z.eqb_spec tid 0) as [->|Ht0]; cbn [negb].
  { eexists. split; [done|]. apply switched_idle; try done. lia. }
  assert (0 < tid) as Hpos by lia. pose proof Hpark as (Hlen & Hv & Htab). pose proof (po_len _ Hp) as HN.
  assert (forall u, 0 < u -> is_Some (thread_at p u) -> is_Some (thread_at q0 u)) as Hsome.
  { intros u Hu [x Hx]. specialize (Hv u Hu). unfold view_of in Hv. rewrite Hx in Hv. by destruct (thread_at q0 u). }
  assert (0 <= owner tid /\ 0 <= distinct_fns q0 < 2 ^ 30 /\ 0 <= fn_array_resizes q0 < 2 ^ 31 - 1) as (B1 & B2 & B3).
  { pose proof (owner_pos tid Hpos). pose proof (po_fns _ Hp). rewrite Hd, Hrz. lia. }
  unfold load_thread. cbn [set_tid thread]. destruct (thread_at q0 tid) as [t|] eqn:Ht.
  - rewrite (thread_get q0 tid t) by (done || lia). cbn [rbind].
    assert (exists y, thread_at q0 (owner tid) = Some y) as [y Hy].
    { destruct (Hown Ht0) as [->|Hs]; [by exists t|]. apply Hsome; [by apply owner_pos|done]. }
    destruct (parked_ok p q0 tid t Hp Hpark Hpos Ht) as [Hs Ha].
    destruct (load_from_ok (set_tid q0 tid) tid t y) as (q & -> & Q1 & Q2 & Q3 & Q4 & Q5 & Q6 & Q7 & Q8 & Q9);
      [done..|].
    exists q. split; [done|].
    apply (load_switched p q0 (set_tid q0 tid) q tid t (costs (now p)) y); try done; try lia.
    + intros u Hu. destruct (Z.eqb_spec u tid) as [->|]; done.
    + intros x Hx. congruence.
    + cbn. rewrite Hnow. by destruct (now p).
    + apply Hp.
    + by rewrite Ht.
  - assert (arr_get (thread q0) tid = Ok None) as ->.
    { apply arr_get_in; [lia|]. unfold thread_at in Ht. destruct (lookup_lt_is_Some_2 (thread q0) (Z.to_nat tid)) as [z Hz]; [lia|].
      rewrite Hz in Ht |- *. cbn in Ht. by rewrite Ht. }
    cbn [rbind]. destruct (new_thread_ok (set_tid q0 tid)) as
      (t & c & ld & sg & m & -> & T1 & T2 & T3 & T4 & T5 & T6 & T7 & T8); [cbn; rewrite Hnow; apply Hp|cbn; rewrite Hd; apply Hp|].
    cbn [rbind]. rewrite write_thread_ok by (cbn; lia). cbn [rbind]. set (q1 := set_threads _ _).
    cbn [set_tid now distinct_fns] in T1, T7, T8. rewrite Hnow in T7, T8. rewrite Hd in T1.
    assert (forall u, 0 < u -> thread_at q1 u = if u =? tid then Some t else thread_at q0 u) as Hat.
    { intros u Hu. unfold q1. rewrite thread_at_set by (cbn; lia). done. }
    assert (exists y, thread_at q1 (owner tid) = Some y) as [y Hy].
    { rewrite Hat by (by apply owner_pos). destruct (Z.eqb_spec (owner tid) tid); [by exists t|].
      destruct (Hown Ht0) as [E|Hs]; [done|]. apply Hsome; [by apply owner_pos|done]. }
    destruct (load_from_ok q1 tid t y) as (q & -> & Q1 & Q2 & Q3 & Q4 & Q5 & Q6 & Q7 & Q8 & Q9);
      [done..|].
    exists q. split; [done|].
    apply (load_switched p q0 q1 q tid t m y); try done; try lia.
    + unfold q1. cbn. by rewrite length_insert.
    + intros x Hx. congruence.
    + cbn. by rewrite Hnow.
    + intros _. split; [congruence|]. exists c, ld, sg. split; [done|]. intros ps Hps. by apply T8.
Qed.

(** ** Isolation *)

(** Thread switches, and whatever a thread other than [t] does with the global
    variables while it runs. *)
Inductive step (t : Z) (p : process) : process -> Prop :=
  | step_switch tid q :
      may_switch p tid -> 0 <= fn_array_resizes p < 2 ^ 31 - 1 ->
      switch_thread collect_atstart separate_threads VG_N_THREADS p tid = Ok q -> step t p q
  | step_other q :
      current_tid p <> t -> current_tid q = current_tid p -> thread q = thread p -> process_ok q -> step t p q.

Definition keeps_thread (t : Z) (p q : process) : Prop :=
  process_ok q /\ (forall v, view_of p t = Some v -> exists w, view_of q t = Some w /\ w ≡ v) /\
  (separate_threads = true -> is_Some (thread_at p t) -> tables_of q t = tables_of p t).

Lemma step_keeps t p q : process_ok p -> 0 < t -> step t p q -> keeps_thread t p q.
Proof.
  intros Hp Ht [tid q' Hm Hr E|q' Hc Ec Eth Hq].
  - destruct (switch_ok p tid Hp Hm Hr) as (r & E' & Hsw). rewrite E in E'. injection E' as <-.
    split_and!; [apply Hsw|intros v; by apply Hsw|]. intros _ Hs. destruct (tables_of p t) as [h|] eqn:Eh.
    + by apply (sw_tables _ _ _ Hsw).
    + unfold tables_of in Eh. by destruct Hs as [x Hx]; rewrite Hx in Eh.
  - assert (thread_at q' t = thread_at p t) as Eat by (unfold thread_at; by rewrite Eth).
    split_and!; [done| |].
    + intros v Hv. exists v. split; [|done]. unfold view_of in *. rewrite Ec, Eat.
      by rewrite (proj2 (Z.eqb_neq _ _)) in Hv |- * by congruence.
    + intros Hsep _. unfold tables_of. rewrite Ec, Eat. unfold ClgThreads.owner. rewrite Hsep.
      rewrite (proj2 (Z.eqb_neq t (current_tid p))) by congruence. by rewrite andb_false_r.
Qed.

(** C11. Threads do not interfere.  Start with any thread [t] in any well-formed
    process, and let the scheduler switch between threads (new ones included)
    and the other threads do what they like with the global variables.  No
    switch fails, and as long as [t] itself does not run its function stack, call
    stack, execution states (with the one it was interrupted in) and active
    counts are exactly what they were, whichever variables hold them now; with
    separate threads the same goes for its tables of arcs and cost centres. *)
Theorem threads_isolated (p q : process) (t : Z) :
  process_ok p -> 0 < t -> rtc (step t) p q ->
  keeps_thread t p q /\
  forall tid, may_switch q tid -> 0 <= fn_array_resizes q < 2 ^ 31 - 1 ->
    exists r, switch_thread collect_atstart separate_threads VG_N_THREADS q tid = Ok r /\ current_tid r = tid /\
      keeps_thread t q r.
Proof.
  intros Hp Ht Hsteps. assert (keeps_thread t p q) as Hk.
  { induction Hsteps as [p|p p1 q Hs _ IH]; [split_and!; [done|intros v Hv; by exists v|done]|].
    destruct (step_keeps t p p1 Hp Ht Hs) as (H1 & H2 & H3). destruct (IH H1) as (K1 & K2 & K3). split_and!; [done| |].
    - intros v Hv. destruct (H2 v Hv) as (w & Hw & Ew). destruct (K2 w Hw) as (u & Hu & Eu). exists u.
      split; [done|]. by transitivity w.
    - intros Hsep [x Hx]. rewrite K3, H3; try done.
      destruct (H2 (if t =? current_tid p then running p x else parked x)) as (w & Hw & _).
      { unfold view_of. rewrite Hx. by destruct (t =? current_tid p). }
      unfold view_of in Hw. by destruct (thread_at p1 t). }
  split; [done|]. intros tid Hm Hr. destruct Hk as (Hq & _). destruct (switch_ok q tid Hq Hm Hr) as (r & E & Hsw).
  exists r. split; [done|]. split; [apply Hsw|]. apply (step_keeps t q r Hq Ht). by eapply step_switch.
Qed.
End switch.

(** ** Example: three threads *)

Definition ex_stacks : stacks :=
  MkStacks (no_contexts ∅) (no_arcs ∅) ∅ ∅ (MkMem [] ∅ None None 0 0) (MkSet 1 1 1 [0]) init_fn_stack init_call_stack
    (init_fn_array 0) (MkExecInfo 0 None true None 0 0 0 0) false (MkCallStats 0 0 0 0 0).

Definition ex_process : process :=
  init_threads 3 (MkProcess ex_stacks (MkExecStack 0 []) init_bbcc_hash [] 0 0 0 0 0).

Lemma ex_process_ok sep : process_ok sep 3 ex_process.
Proof.
  assert (forall t, thread_at ex_process t = None) as Hn.
  { intros t. unfold thread_at, ex_process, init_threads. cbn [thread set_tid set_threads].
    destruct (replicate _ None !! _) as [x|] eqn:E; [|done]. by apply lookup_replicate in E as [-> _]. }
  constructor.
  - reflexivity.
  - unfold ex_process, init_threads, VG_INVALID_THREADID. cbn. lia.
  - intros t x _ _ Hx. by rewrite Hn in Hx.
  - intros H. by destruct H.
  - intros t _ [x Hx]. by rewrite Hn in Hx.
  - split; [split; [constructor|reflexivity]|]. unfold COSTCHUNK_SIZE. cbn. lia.
  - cbn. lia.
Qed.

(** Thread 1 starts, thread 2 takes over: the state of thread 1 is kept. *)
Lemma threads_isolated_witness :
  exists p1 p2, switch_thread true false 3 ex_process 1 = Ok p1 /\ switch_thread true false 3 p1 2 = Ok p2 /\
    keeps_thread false 3 1 p1 p2 /\ is_Some (view_of p1 1).
Proof.
  destruct (switch_ok true false 3 ex_process 1) as (p1 & E1 & H1).
  - apply ex_process_ok.
  - split; [lia|]. intros _. left. reflexivity.
  - cbn. lia.
  - assert (is_Some (thread_at p1 1)) as Hs.
    { destruct (po_current _ _ _ (sw_ok _ _ _ _ _ _ H1)) as [Hs _]; rewrite (sw_tid _ _ _ _ _ _ H1) in *; done. }
    assert (may_switch false 3 p1 2) as Hm by (split; [lia|]; intros _; right; exact Hs).
    assert (0 <= fn_array_resizes p1 < 2 ^ 31 - 1) as Hr by (destruct (sw_count _ _ _ _ _ _ H1) as [_ Hr]; cbn in Hr; lia).
    destruct (threads_isolated true false 3 p1 p1 1) as [_ Hp].
    + exact (sw_ok _ _ _ _ _ _ H1).
    + lia.
    + apply rtc_refl.
    + destruct (Hp 2 Hm Hr) as (p2 & E2 & _ & Hk). exists p1, p2. split; [exact E1|]. split; [exact E2|].
      split; [exact Hk|]. destruct Hs as [x Hx]. unfold view_of. rewrite Hx. by eexists.
Defined.
