(* ===== verification/ClgSignals.v ===== *)
(** * ClgSignals: signal handlers are invisible (callgrind/threads.c)

    A handler runs in the middle of its thread, on the thread's stacks, with
    counters and an execution state of its own.  The theorem follows a signal
    from [pre_signal] through any handler that returns to [post_signal]: the
    interrupted code finds everything as it left it. *)

From Stdlib Require Import ZArith Lia Ascii String.
From stdpp Require Import base numbers option strings gmap sets list.
From S2P Require Import Prelude ClgCosts ClgEvents ClgOwn ClgHash ClgJumps ClgContext ClgStack ClgThreads ClgSwitch.

#[local] Open Scope Z_scope.

Section signals.
Context (collect_atstart separate_threads : bool) (VG_N_THREADS : Z).
Context (dump_profile : string -> stacks -> res stacks).

(** What the interrupted code has of its execution state. *)
Definition same_exec (x y : exec_info) : Prop :=
  x_sig x = x_sig y /\ x_cost x = x_cost y /\ x_collect x = x_collect y /\ x_cxt x = x_cxt y /\
  jmps_passed x = jmps_passed y /\ x_bbcc x = x_bbcc y /\ x_nonskipped x = x_nonskipped y.

(** The array of the handler one level up, made by an earlier signal. *)
Definition spare (x : exec_stack) : option exec_info := mjoin (st_entry x !! Z.to_nat (st_sp x + 1)).

(** Between two instructions: the entry above the open calls is free, and the
    counters are apart.  [rest] are the counters of everything else. *)
Record interruptible (p : process) (t : thread_info) (sg : cptr) (rest : list cptr) : Prop := {
  in_ok : process_ok separate_threads VG_N_THREADS p;
  in_tid : current_tid p <> 0 /\ thread_at p (current_tid p) = Some t /\ sighandler_cost t = Some sg;
  in_calls : let cs := current_call_stack (now p) in
    0 <= cs_sp cs < cs_size cs /\ cs_size cs < 2 ^ 31 /\ Z.of_nat (length (cs_entry cs)) = cs_size cs /\
    exists e, cs_entry cs !! Z.to_nat (cs_sp cs) = Some e /\ ce_cxt e = Some None;
  in_fns : let st := current_fn_stack (now p) in
    0 <= fs_top st < fs_size st /\ fs_size st < 2 ^ 30 /\ Z.of_nat (length (fs_array st)) = fs_size st;
  in_level : st_sp (current_states p) < MAX_SIGHANDLERS - 1;
  in_spare : forall x, spare (current_states p) = Some x -> is_Some (x_cost x);
  in_own : owns (es_size (full (now p))) (costs (now p))
    (option_list (spare (current_states p) ≫= x_cost) ++ sg :: rest)
}.

(** The handler runs: its own counters [hc] are zero, and a marker separates its
    functions from those of the interrupted code. *)
Record in_handler (p : process) (sig : Z) (hc sg : cptr) (rest : list cptr) (p1 : process) : Prop := {
  ih_cur : cur (now p1) = MkExecInfo sig (Some hc) collect_atstart None 0 0 0 (call_stack_bottom (cur (now p)));
  ih_states : st_sp (current_states p1) = st_sp (current_states p) + 1 /\ states_ok (current_states p1) /\
    (forall x, top_of (current_states p1) = Some x ->
       x_sig x = sig /\ x_cost x = Some hc /\ call_stack_bottom x = cs_sp (current_call_stack (now p))) /\
    st_entry (current_states p1) !! Z.to_nat (st_sp (current_states p)) =
      st_entry (with_top (current_states p) (cur (now p))) !! Z.to_nat (st_sp (current_states p));
  ih_fns : fs_top (current_fn_stack (now p1)) = fs_top (current_fn_stack (now p)) + 1 /\
    fs_array (current_fn_stack (now p1)) !! Z.to_nat (fs_top (current_fn_stack (now p)) + 1) = Some (Some 0) /\
    forall j, Z.of_nat j <= fs_top (current_fn_stack (now p)) ->
      fs_array (current_fn_stack (now p1)) !! j = fs_array (current_fn_stack (now p)) !! j;
  ih_calls : cs_sp (current_call_stack (now p1)) = cs_sp (current_call_stack (now p)) /\
    forall j, Z.of_nat j < cs_sp (current_call_stack (now p)) ->
      cs_entry (current_call_stack (now p1)) !! j = cs_entry (current_call_stack (now p)) !! j;
  ih_threads : thread p1 = thread p /\ current_tid p1 = current_tid p;
  ih_shared : current_fn_active (now p1) = current_fn_active (now p) /\ cx (now p1) = cx (now p) /\
    full (now p1) = full (now p) /\ jm (now p1) = jm (now p);
  ih_own : owns (es_size (full (now p))) (costs (now p1)) (hc :: sg :: rest);
  ih_zero : forall i, 0 <= i < es_size (full (now p)) -> val (costs (now p1)) hc i = 0;
  ih_costs : forall q i, q ∈ sg :: rest -> 0 <= i < es_size (full (now p)) ->
    val (costs (now p1)) q i = val (costs (now p)) q i
}.

(** The handler has entered nothing, or is back in its first function [f]. *)
Definition entered_nothing (s1 s2 : stacks) : Prop :=
  x_cxt (cur s2) = None /\ fs_top (current_fn_stack s2) = fs_top (current_fn_stack s1) /\
  current_fn_active s2 = current_fn_active s1.

Definition entered_first (s1 s2 : stacks) : Prop :=
  exists c k f callers x v, x_cxt (cur s2) = Some c /\ cxt_nodes (cx s2) !! c = Some k /\ cx_fn k = f :: callers /\
    f <> 0 /\ fns (cx s2) !! f = Some x /\ fs_top (current_fn_stack s2) = fs_top (current_fn_stack s1) + 1 /\
    fs_array (current_fn_stack s2) !! Z.to_nat (fs_top (current_fn_stack s2)) = Some (Some f) /\
    0 <= number x < fa_size (current_fn_active s1) /\
    fa_array (current_fn_active s1) !! Z.to_nat (number x) = Some v /\ in_u 32 v /\
    current_fn_active s2 = MkFnArray (fa_size (current_fn_active s1))
      (<[Z.to_nat (number x) := u32 (v + 1)]> (fa_array (current_fn_active s1))).

(** What a handler that returns has left alone.  All else may have changed: its
    counters, the contexts and arcs, the stacks above the marker, and the saved
    states of handlers that interrupted it in turn. *)
Record handler_done (hc sg : cptr) (rest : list cptr) (p1 p2 : process) : Prop := {
  hd_states : states_ok (current_states p2) /\ st_sp (current_states p2) = st_sp (current_states p1) /\
    (forall x y, top_of (current_states p1) = Some x -> top_of (current_states p2) = Some y ->
       x_cost y = x_cost x /\ call_stack_bottom y = call_stack_bottom x) /\
    forall j, Z.of_nat j < st_sp (current_states p1) ->
      st_entry (current_states p2) !! j = st_entry (current_states p1) !! j;
  hd_threads : thread p2 = thread p1 /\ current_tid p2 = current_tid p1 /\ full (now p2) = full (now p1);
  hd_cur : x_sig (cur (now p2)) = x_sig (cur (now p1)) /\ x_cost (cur (now p2)) = x_cost (cur (now p1));
  hd_calls : cs_sp (current_call_stack (now p2)) = cs_sp (current_call_stack (now p1)) /\
    forall j, Z.of_nat j < cs_sp (current_call_stack (now p1)) ->
      cs_entry (current_call_stack (now p2)) !! j = cs_entry (current_call_stack (now p1)) !! j;
  hd_fns : forall j, Z.of_nat j <= fs_top (current_fn_stack (now p1)) ->
    fs_array (current_fn_stack (now p2)) !! j = fs_array (current_fn_stack (now p1)) !! j;
  hd_entered : entered_nothing (now p1) (now p2) \/ entered_first (now p1) (now p2);
  hd_own : owns (es_size (full (now p1))) (costs (now p2)) (hc :: sg :: rest)
}.

(** The interrupted code goes on as if nothing had happened. *)
Record restored (p p3 : process) : Prop := {
  rt_cur : same_exec (cur (now p3)) (cur (now p));
  rt_level : st_sp (current_states p3) = st_sp (current_states p);
  rt_calls : cs_sp (current_call_stack (now p3)) = cs_sp (current_call_stack (now p)) /\
    forall j, Z.of_nat j < cs_sp (current_call_stack (now p)) ->
      cs_entry (current_call_stack (now p3)) !! j = cs_entry (current_call_stack (now p)) !! j;
  rt_fns : fs_top (current_fn_stack (now p3)) = fs_top (current_fn_stack (now p)) /\
    forall j, Z.of_nat j <= fs_top (current_fn_stack (now p)) ->
      fs_array (current_fn_stack (now p3)) !! j = fs_array (current_fn_stack (now p)) !! j;
  rt_active : current_fn_active (now p3) = current_fn_active (now p);
  rt_threads : thread p3 = thread p /\ current_tid p3 = current_tid p
}.

(** [push_cxt(0)] puts a marker on the function stack. *)
Lemma push_marker s e :
  let cs := current_call_stack s in
  let st := current_fn_stack s in
  0 <= cs_sp cs < cs_size cs -> cs_size cs < 2 ^ 31 -> Z.of_nat (length (cs_entry cs)) = cs_size cs ->
  cs_entry cs !! Z.to_nat (cs_sp cs) = Some e -> ce_cxt e = Some None ->
  0 <= fs_top st < fs_size st -> fs_size st < 2 ^ 30 -> Z.of_nat (length (fs_array st)) = fs_size st ->
  x_cxt (cur s) = None ->
  exists sz a, push_cxt s 0 = Ok (MkStacks (cx s) (jm s) (centres s) (bbs s) (costs s) (full s)
      (MkFnStack sz a (fs_top st + 1))
      (MkCalls (cs_size cs) (cs_sp cs)
         (<[Z.to_nat (cs_sp cs) := set_saved_cxt e None (fs_top st)]> (cs_entry cs)))
      (current_fn_active s) (cur s) (skip_direct_recursion s) (stat s)) /\
    a !! Z.to_nat (fs_top st + 1) = Some (Some 0) /\ forall j, Z.of_nat j <= fs_top st -> a !! j = fs_array st !! j.
Proof.
  intros cs st Hsp Hsz Hlen He Hc Htop Hfs Hfl Hcx. unfold push_cxt. fold cs.
  rewrite wrapu_small by (unfold in_u; lia). rewrite tl_assert_true by (apply Z.ltb_lt; lia). cbn [rbind].
  rewrite (arr_get_in _ _ e) by (done || lia). cbn [rbind]. rewrite Hc. cbn [written rbind].
  rewrite tl_assert_true by done. cbn [rbind]. unfold set_entry. fold cs. rewrite arr_set_in by lia. cbn [rbind].
  rewrite Z.eqb_refl, Hcx. fold st. unfold enter_fn. change (negb (0 =? 0) && (0 =? 0)) with false.
  cbn iota. cbn [rbind].
  cbn [set_call_stack set_fn_stack current_fn_stack]. fold st. set (st1 := grow_fn_stack st).
  assert (fs_top st1 = fs_top st /\ Z.of_nat (length (fs_array st1)) = fs_size st1 /\ fs_top st + 1 < fs_size st1 /\
    forall j, Z.of_nat j <= fs_top st -> fs_array st1 !! j = fs_array st !! j) as (T1 & T2 & T3 & T4).
  { unfold st1, grow_fn_stack. rewrite wrapu_small by (unfold in_u; lia).
    destruct (Z.eqb_spec (fs_top st) (fs_size st - 1)); [|split_and!; done || lia].
    rewrite wrapu_small by (unfold in_u; lia). cbn [fs_top fs_array fs_size].
    split_and!; [done|rewrite length_app, length_replicate; lia|lia|]. intros j Hj. apply lookup_app_l. lia. }
  rewrite T1, arr_set_in by lia. cbn [rbind]. set (a := <[Z.to_nat (fs_top st + 1) := Some 0]> (fs_array st1)).
  assert (a !! Z.to_nat (fs_top st + 1) = Some (Some 0)) as Ha by (apply list_lookup_insert_eq; lia).
  unfold get_cxt, read_fn. rewrite Ha. cbn [rbind]. rewrite Z.eqb_refl. cbn [rbind].
  exists (fs_size st1), a. split_and!; [|done|].
  - unfold set_x_cxt. cbn [set_cx set_cur set_fn_stack set_call_stack cx jm centres bbs costs full current_call_stack
      current_fn_active cur skip_direct_recursion stat]. rewrite <- Hcx. by destruct (cur s).
  - intros j Hj. unfold a. rewrite list_lookup_insert_ne by lia. by apply T4.
Qed.

(** An execution state for the handler. *)
Lemma push_state_ok q sig rs :
  let X := current_states q in
  let n := es_size (full (now q)) in
  states_ok X -> st_sp X < MAX_SIGHANDLERS - 1 -> 0 < sig <= VKI_NSIG -> 0 <= n < COSTCHUNK_SIZE ->
  (forall x, spare X = Some x -> is_Some (x_cost x)) ->
  owns n (costs (now q)) (option_list (spare X ≫= x_cost) ++ rs) ->
  exists x hc m, push_exec_state collect_atstart q sig =
      Ok (x, set_states (set_now q (set_costs (now q) m))
               (MkExecStack (st_sp X + 1) (<[Z.to_nat (st_sp X + 1) := Some x]> (st_entry X)))) /\
    x_sig x = sig /\ x_cost x = Some hc /\ owns n m (hc :: rs) /\
    forall p i, p ∈ rs -> 0 <= i < n -> val m p i = val (costs (now q)) p i.
Proof.
  intros X n HX Hlv Hsig Hn Hsp Ho. pose proof HX as [X1 X2 _]. unfold MAX_SIGHANDLERS in *. unfold push_exec_state, int_add.
  fold X. rewrite signed_result_in by (unfold in_s; lia). cbn [rbind].
  rewrite tl_assert_true by (rewrite andb_true_iff, Z.ltb_lt, Z.leb_le; lia). cbn [rbind].
  unfold MAX_SIGHANDLERS. rewrite tl_assert_true by (rewrite andb_true_iff, !Z.ltb_lt; lia). cbn [rbind].
  cbn [set_states current_states st_entry].
  destruct (lookup_lt_is_Some_2 (st_entry X) (Z.to_nat (st_sp X + 1))) as [e He]; [lia|].
  rewrite (arr_get_in _ _ e) by (done || lia). cbn [rbind].
  assert (spare X = e) as Es by (unfold spare; rewrite He; done). rewrite Es in *. destruct e as [x|].
  - destruct (Hsp x eq_refl) as [hc Hhc]. cbn [mbind option_bind] in Ho. rewrite Hhc in Ho. cbn [option_list app] in Ho.
    unfold write_top. cbn [set_states current_states st_entry st_sp]. rewrite arr_set_in by lia. cbn [rbind].
    eexists _, hc, (costs (now q)). split; [by destruct q as [[] ? ? ? ? ? ? ? ?]|]. split_and!; [done|exact Hhc|exact Ho|done].
  - cbn [mbind option_bind option_list app] in Ho. unfold new_exec_state, get_eventset_cost, zero_cost.
    destruct (alloc_zero n _ rs Ho Hn) as (hc & m1 & m & E1 & E2 & Hown & _ & Hv).
    cbn [set_states now]. fold n. rewrite E1. cbn [rbind]. rewrite E2. cbn [rbind].
    unfold write_top. cbn [set_states set_now current_states st_entry st_sp]. rewrite arr_set_in by lia. cbn [rbind].
    eexists _, hc, m. split; [reflexivity|]. by split_and!.
Qed.

Lemma with_top_sp x c : st_sp (with_top x c) = st_sp x.
Proof. unfold with_top. by destruct (top_of x). Qed.

Lemma with_top_spare x c : states_ok x -> spare (with_top x c) = spare x.
Proof.
  intros [H1 H2 [es H3]]. unfold spare. rewrite with_top_sp. unfold with_top. rewrite H3. cbn [st_entry].
  by rewrite list_lookup_insert_ne by lia.
Qed.

Lemma pre_signal_ok p t sg rest sig :
  interruptible p t sg rest -> 0 < sig <= VKI_NSIG ->
  exists hc p1, pre_signal collect_atstart separate_threads VG_N_THREADS p (current_tid p) sig = Ok p1 /\
    in_handler p sig hc sg rest p1.
Proof.
  intros [I1 (I2 & I2' & I2'') I3 I4 I5 I6 I7] Hsig. destruct (po_current _ _ _ I1 I2) as [_ Hl].
  destruct (po_mem _ _ _ I1) as [Hwf Hn]. pose proof (ld_states _ Hl) as HX.
  unfold pre_signal, switch_thread. rewrite Z.eqb_refl. cbn [rbind]. rewrite exec_state_save_ok by done. cbn [rbind].
  set (X := with_top (current_states p) (cur (now p))). set (q := set_states p X).
  assert (states_ok X) as HX' by (by apply with_top_ok).
  destruct (push_state_ok q sig (sg :: rest)) as (x & hc & m & -> & Hxs & Hxc & Hown & Hv); try done.
  { cbn. unfold X. by rewrite with_top_sp. }
  { intros y. cbn. unfold X. rewrite with_top_spare by done. apply I6. }
  { cbn. unfold X. by rewrite with_top_spare. }
  cbn [rbind]. rewrite Hxc. unfold zero_cost. cbn [set_states set_now now full costs set_costs].
  destruct (zero_owned _ m hc (sg :: rest) Hown) as (m' & -> & Hown' & Hz & Hv'); [cbn in Hn |- *; lia|]. cbn [rbind].
  unfold write_top. cbn [set_states set_now current_states st_entry st_sp].
  assert (st_sp X = st_sp (current_states p)) as Esp by (unfold X; apply with_top_sp).
  destruct HX' as [Y1 Y2 Y3]. unfold MAX_SIGHANDLERS in *. change (current_states q) with X.
  rewrite arr_set_in by (rewrite length_insert; lia).
  cbn [rbind]. destruct I3 as (C1 & C2 & C3 & e & He & Hce), I4 as (D1 & D2 & D3).
  match goal with |- context [push_cxt ?s 0] => destruct (push_marker s e) as (sz & a & -> & Ha & Hpre) end; try done.
  cbn [rbind]. eexists hc, _. split; [reflexivity|]. constructor; try done.
  - cbn. rewrite Esp. split; [done|]. split_and!.
    + constructor; cbn [st_sp st_entry]; unfold MAX_SIGHANDLERS; [lia|by rewrite !length_insert|].
      unfold top_of. cbn [st_sp st_entry]. rewrite list_lookup_insert_eq by (rewrite length_insert; lia). by eexists.
    + intros y. unfold top_of. cbn [st_sp st_entry]. rewrite list_lookup_insert_eq by (rewrite length_insert; lia).
      intros [= <-]. by split_and!.
    + rewrite !list_lookup_insert_ne by lia. done.
  - cbn. split; [done|]. intros j Hj. rewrite list_lookup_insert_ne by lia. done.
  - cbn. intros r i Hr Hi. rewrite Hv' by done. by apply Hv.
Qed.

Lemma drop_marker_ok s1 s2 : 1 <= fs_top (current_fn_stack s1) ->
  fs_array (current_fn_stack s2) !! Z.to_nat (fs_top (current_fn_stack s1)) = Some (Some 0) ->
  entered_nothing s1 s2 \/ entered_first s1 s2 ->
  drop_marker (current_fn_stack s2) =
    Ok (MkFnStack (fs_size (current_fn_stack s2)) (fs_array (current_fn_stack s2)) (fs_top (current_fn_stack s1) - 1)).
Proof.
  intros Htop Hmark [(_ & Et & _)|(c & k & f & cl & x & v & _ & _ & _ & Hf & _ & Et & Ef & _)];
    unfold drop_marker; rewrite (proj2 (Z.ltb_lt _ _)) by lia; unfold read_fn.
  - rewrite Et, Hmark. cbn [rbind]. rewrite Z.eqb_refl. cbn [negb rbind]. by rewrite (proj2 (Z.ltb_lt _ _)) by lia.
  - rewrite Ef. cbn [rbind]. rewrite (proj2 (Z.eqb_neq f 0) Hf). cbn [negb].
    replace (fs_top (current_fn_stack s2) - 1) with (fs_top (current_fn_stack s1)) by lia. rewrite Hmark. cbn [rbind].
    rewrite tl_assert_true by done. cbn [rbind]. by rewrite (proj2 (Z.ltb_lt _ _)) by lia.
Qed.

Lemma uncount_ok s1 p2 : fa_size (current_fn_active s1) <= 2 ^ 31 ->
  entered_nothing s1 (now p2) \/ entered_first s1 (now p2) ->
  uncount_handler p2 = Ok (set_now p2 (set_active (now p2) (current_fn_active s1))).
Proof.
  intros Hsz [(Ec & _ & Ea)|(c & k & f & cl & x & v & Ec & Ek & Ef & Hf & Hx & _ & _ & Hn & Hv & Hu & Ea)];
    unfold uncount_handler; rewrite Ec.
  - rewrite <- Ea. by destruct p2 as [[] ? ? ? ? ? ? ? ?].
  - unfold cxt_fn0, get_node. rewrite Ek. cbn [rbind]. rewrite Ef. cbn [arr_get Z.ltb rbind]. change (arr_get (f :: cl) 0) with (Ok f).
    cbn [rbind]. unfold deref_fn. rewrite (proj2 (Z.eqb_neq f 0) Hf), Hx. cbn [rbind]. unfold get_fn_entry.
    rewrite wraps_small by (unfold in_s; lia). rewrite wrapu_small by (unfold in_u; lia). rewrite Ea. cbn [fa_size].
    rewrite tl_assert_true by (apply Z.ltb_lt; lia). cbn [rbind]. unfold add_active, read_active. rewrite Ea. cbn [fa_array fa_size].
    pose proof (lookup_lt_Some _ _ _ Hv) as Hlt.
    rewrite (arr_get_in _ _ (u32 (v + 1))) by (lia || by rewrite list_lookup_insert_eq). cbn [rbind].
    rewrite arr_set_in by (rewrite length_insert; lia). cbn [rbind]. do 3 f_equal.
    assert (u32 (u32 (v + 1) + -1) = v) as ->.
    { unfold wrapu. rewrite Z.add_mod_idemp_l by lia. replace (v + 1 + -1) with v by lia. apply Z.mod_small.
      unfold in_u in Hu. lia. }
    rewrite list_insert_insert_eq, list_insert_id by done. by destruct (current_fn_active s1).
Qed.

Lemma post_signal_ok fuel p t sg rest sig hc p1 p2 :
  interruptible p t sg rest -> in_handler p sig hc sg rest p1 -> handler_done hc sg rest p1 p2 ->
  exists p3, post_signal collect_atstart separate_threads VG_N_THREADS dump_profile fuel p2 (current_tid p) sig = Ok p3 /\
    restored p p3 /\
    (forall i, 0 <= i < es_size (full (now p)) ->
       val (costs (now p3)) sg i = u64 (val (costs (now p2)) sg i + val (costs (now p2)) hc i)) /\
    (forall q i, q ∈ rest -> 0 <= i < es_size (full (now p)) -> val (costs (now p3)) q i = val (costs (now p2)) q i).
Proof.
  intros [I1 (I2 & I2' & I2'') I3 I4 I5 I6 I7] [J1 (J2 & J3 & J4 & J5) (J6 & J7 & J8) (J9 & J10) (J11 & J12) (J13 & J14 & J15 & _) _ _ _]
    [(S1 & S2 & S3 & S4) (D2 & D3 & D4) (D5 & D6) (D7 & D8) D9 D10 D11].
  destruct (po_current _ _ _ I1 I2) as [_ [L1 L2 L3]]. destruct (so_top _ J3) as [es1 Hes1]. destruct (J4 es1 Hes1) as (_ & E2 & E3).
  destruct (so_top _ S1) as [es Hes]. destruct (S3 es1 es Hes1 Hes) as [E2' E3']. rewrite <- E2' in E2. rewrite <- E3' in E3.
  destruct (so_top _ L1) as [es0 Hes0]. destruct (L2 es0 Hes0) as [Hc0 Hs0]. pose proof (so_sp _ L1) as Hsp0. pose proof (so_len _ L1) as Hlen0.
  destruct (po_mem _ _ _ I1) as [_ Hn]. destruct I4 as (T1 & T2 & T3). cbn zeta in I3. destruct I3 as (C1 & C2 & C3 & _).
  unfold post_signal, post_signal_with, switch_thread. rewrite D3, J12, Z.eqb_refl. cbn [rbind].
  rewrite J1 in D5, D6. cbn in D5, D6. rewrite D5, tl_assert_true by apply Z.eqb_refl. cbn [rbind].
  rewrite (top_exec_ok p2 es) by done. cbn [rbind]. rewrite E3.
  assert (cs_sp (current_call_stack (now p2)) <=? cs_sp (current_call_stack (now p)) = true) as Hle by (apply Z.leb_le; lia).
  match goal with |- context [pop_to ?f ?n p2 ?b] => replace (pop_to f n p2 b) with (@Ok process p2)
    by (destruct n; cbn [pop_to]; by rewrite Hle) end.
  cbn [rbind]. rewrite (uncount_ok (now p1)) by (rewrite ?J13; apply L3 || done). cbn [rbind set_now now set_active current_fn_stack].
  rewrite (drop_marker_ok (now p1)); [|lia|rewrite D9 by lia; by rewrite J6|done]. cbn [rbind].
  set (p2' := set_now p2 _). match goal with |- context [top_exec_state ?q] => set (p2'' := q) end.
  rewrite (top_exec_ok p2'' es) by done. cbn [rbind].
  cbn [set_fn_stack set_active cur full costs]. rewrite D6, E2.
  rewrite tl_assert_true by (by rewrite bool_decide_eq_true_2). cbn [rbind].
  change (current_tid p2'') with (current_tid p2). rewrite D3, J12.
  rewrite (deref_thread_ok p2'' (current_tid p) t); [|apply I1|unfold thread_at; cbn; by rewrite D2, J11]. cbn [rbind].
  rewrite I2''.
  rewrite D4, J15 in *. destruct (add_and_zero_ok (full (now p)) (costs (now p2)) hc sg rest) as (b & m & -> & Hm & M1 & _ & M2);
    [lia|done|]. cbn [rbind].
  rewrite write_top_ok by done. cbn [rbind]. unfold int_sub.
  rewrite signed_result_in by (cbn; rewrite S2, J2; unfold in_s, MAX_SIGHANDLERS in *; lia). cbn [rbind].
  cbn [set_states set_now current_states st_sp st_entry]. change (current_states p2'') with (current_states p2).
  rewrite S2, J2. replace (st_sp (current_states p) + 1 - 1) with (st_sp (current_states p)) by lia.
  unfold exec_state_restore. match goal with |- context [top_exec_state ?q] => set (p3 := q) end.
  assert (top_of (current_states p3) = Some (sync (cur (now p)) es0)) as Htop.
  { unfold top_of. cbn. rewrite list_lookup_insert_ne by lia. rewrite S4 by lia. rewrite J5. unfold with_top. rewrite Hes0. cbn [st_entry].
    by rewrite list_lookup_insert_eq by lia. }
  rewrite (top_exec_ok p3 (sync (cur (now p)) es0)); [|constructor|done]; cycle 1.
  { exact Hsp0. } { cbn. rewrite length_insert. apply S1. } { rewrite Htop. by eexists. }
  cbn [rbind]. eexists. split; [reflexivity|]. split_and!.
  - constructor; cbn; try done.
    + split; [lia|]. intros j' Hj'. rewrite D8 by lia. by apply J10.
    + split; [lia|]. intros j' Hj'. rewrite D9 by lia. by apply J8.
    + split; congruence.
  - intros i Hi. cbn. by apply M1.
  - intros q i Hq Hi. cbn. by apply M2.
Qed.

End signals.


(** ** Example: a signal in a new thread *)

(** A thread that has just been created can be interrupted. *)
Lemma fresh_interruptible p c ld sg w t d :
  process_ok false 3 p -> current_tid p <> 0 -> thread_at p (current_tid p) = Some t ->
  view_of p (current_tid p) = Some w -> w ≡ fresh_view true c ld sg d ->
  owns (es_size (full (now p))) (costs (now p)) [c; ld; sg] ->
  interruptible false 3 p t sg [c; ld].
Proof.
  intros Hp Hne Ht Hv Hw Ho. unfold view_of in Hv. rewrite Z.eqb_refl, Ht in Hv. cbn in Hv. injection Hv as <-.
  destruct Hw as (E1 & E2 & E3 & E4 & E5 & _). cbn in E1, E2, E3, E4, E5.
  destruct (po_current _ _ _ Hp Hne) as [_ Hl]. pose proof (ld_states _ Hl) as Hs.
  assert (st_sp (current_states p) = 0) as Esp by (by rewrite <- (with_top_sp _ (cur (now p))), E3).
  assert (spare (current_states p) = None) as Esr by (by rewrite <- (with_top_spare _ (cur (now p)) Hs), E3).
  constructor.
  - exact Hp.
  - by split_and!.
  - cbn zeta. rewrite E2. cbn. split_and!; try done. by eexists.
  - cbn zeta. rewrite E1. done.
  - rewrite Esp. unfold MAX_SIGHANDLERS. lia.
  - intros x. by rewrite Esr.
  - rewrite Esr. cbn. eapply owns_perm; [|exact Ho]. symmetry. apply (Permutation_middle [c; ld] [] sg).
Qed.

Lemma idle_handler_done ca p sig hc sg rest p1 :
  in_handler ca p sig hc sg rest p1 -> handler_done hc sg rest p1 p1.
Proof.
  intros [J1 (J2 & J3 & J4 & J5) J6 J7 J8 (_ & _ & Ef & _) J10 _ _]. constructor; try done.
  - split_and!; try done. intros x y Hx Hy. rewrite Hx in Hy. by injection Hy as <-.
  - left. split_and!; [|done..]. by rewrite J1.
  - by rewrite Ef.
Qed.

