(* ===== verification/ClgSim.v ===== *)
(** * ClgSim: callgrind's cache simulators (callgrind/sim.c)

    The simulator the profiling sweep runs.  It keeps the same tag arrays as
    cachegrind and offers three models: the simple one, one whose last level
    writes back dirty lines, and either of them with a stream prefetcher.  The
    fields [cache_t2] shares with cachegrind's are kept in the record of
    CgSim.v, whose loops over one set the simple model shares. *)

From Stdlib Require Import ZArith Lia Ascii String.
From stdpp Require Import base numbers strings list.
From S2P Require Import Prelude Libcbase Debuglog CgArch Lru CgSim ClgCosts.

#[local] Open Scope Z_scope.

(** ** Data *)

Record line_use : Type := MkUse { u_count : Z; u_mask : Z }.

(** [dep_use] points into the use array of the last level, [use_base] to a
    cost array; both may be null. *)
Record line_loaded : Type := MkLoaded {
  memline : Z;
  iaddr : Z;
  dep_use : option Z;
  use_base : option cptr
}.

Record clg_cache_t2 : Type := MkClgCache {
  name : string;
  base : cache_t2;         (* size ... tag_shift, desc_line, tags *)
  sectored : bool;
  tag_mask : Z;            (* UWord *)
  line_size_mask : Z;
  line_start_mask : list Z;
  line_end_mask : list Z;
  loaded : list line_loaded;
  use : option (list line_use)
}.

Definition set_base (c : clg_cache_t2) (b : cache_t2) : clg_cache_t2 :=
  MkClgCache (name c) b (sectored c) (tag_mask c) (line_size_mask c) (line_start_mask c)
    (line_end_mask c) (loaded c) (use c).

Definition c_tags (c : clg_cache_t2) : list Z := tags (base c).
Definition set_c_tags (c : clg_cache_t2) (t : list Z) : clg_cache_t2 :=
  set_base c (set_tags (base c) t).

Definition CACHELINE_FLAGMASK : Z := MIN_LINE_SIZE - 1.
Definition CACHELINE_DIRTY : Z := 1.

Inductive RefType : Type := Read | Write.
Definition ref_bits (r : RefType) : Z :=
  match r with Read => 0 | Write => CACHELINE_DIRTY end.

Inductive CacheResult : Type := Hit | Miss | MissDirty.
Inductive CacheModelResult : Type := L1_Hit | LL_Hit | MemAccess | WriteBackMemAccess.

#[global] Instance CacheResult_eq_dec : EqDecision CacheResult.
Proof. solve_decision. Defined.
#[global] Instance CacheModelResult_eq_dec : EqDecision CacheModelResult.
Proof. solve_decision. Defined.

Definition PF_STREAMS : Z := 8.
Definition PF_PAGEBITS : Z := 12.

(** The static variables: the caches and the prefetcher. *)
Record sim_state : Type := MkSim {
  s_I1 : clg_cache_t2;
  s_D1 : clg_cache_t2;
  s_LL : clg_cache_t2;
  prefetch_up : Z;
  prefetch_down : Z;
  pf_lastblock : list Z;   (* UInt[PF_STREAMS] *)
  pf_seqblocks : list Z    (* Int[PF_STREAMS] *)
}.

Definition with_I1 (s : sim_state) (c : clg_cache_t2) : sim_state :=
  MkSim c (s_D1 s) (s_LL s) (prefetch_up s) (prefetch_down s) (pf_lastblock s) (pf_seqblocks s).
Definition with_D1 (s : sim_state) (c : clg_cache_t2) : sim_state :=
  MkSim (s_I1 s) c (s_LL s) (prefetch_up s) (prefetch_down s) (pf_lastblock s) (pf_seqblocks s).
Definition with_LL (s : sim_state) (c : clg_cache_t2) : sim_state :=
  MkSim (s_I1 s) (s_D1 s) c (prefetch_up s) (prefetch_down s) (pf_lastblock s) (pf_seqblocks s).

(** ** Initialisation *)

Definition no_loaded : line_loaded := MkLoaded 0 0 None None.

(** The loops visit all [sets * assoc] cells of the arrays. *)
Definition cachesim_clearcache (c : clg_cache_t2) : res clg_cache_t2 :=
  let! n := int_mul (sets (base c)) (t2_assoc (base c)) in
  let cells := Z.to_nat n in
  match use c with
  | None => Ok (set_c_tags c (replicate cells 0))
  | Some _ =>
      let pointers := (fun i => Z.rem i (t2_assoc (base c))) <$> seqZ 0 n in
      Ok (MkClgCache (name c) (set_tags (base c) pointers) (sectored c) (tag_mask c)
            (line_size_mask c) (line_start_mask c) (line_end_mask c)
            (replicate cells no_loaded) (Some (replicate cells (MkUse 0 0))))
  end.

(** The variables of the loops that fill the two mask tables. *)
Record mask_state : Type := MkMasks {
  ms_start_val : Z;
  ms_end_val : Z;
  ms_start_mask : Z;
  ms_end_mask : Z;
  ms_starts : list Z;
  ms_ends : list Z
}.

(** Store the two values of round [i]; the tables hold [int]s. *)
Definition store_masks (line_size i : Z) (s : mask_state) : res mask_state :=
  let! starts := arr_set (ms_starts s) i (s32 (ms_start_val s)) in
  let! ends := arr_set (ms_ends s) (line_size - i - 1) (s32 (ms_end_val s)) in
  Ok (MkMasks (ms_start_val s) (ms_end_val s) (ms_start_mask s) (ms_end_mask s) starts ends).

(** Clear the bits of the two masks and shift these by [k]. *)
Definition step_masks (k : Z) (s : mask_state) : mask_state :=
  MkMasks (Z.land (ms_start_val s) (u32 (Z.lnot (ms_start_mask s))))
          (Z.land (ms_end_val s) (u32 (Z.lnot (ms_end_mask s))))
          (u32 (Z.shiftl (ms_start_mask s) k)) (Z.shiftr (ms_end_mask s) k)
          (ms_starts s) (ms_ends s).

Definition fill_masks (line_size : Z) : res mask_state :=
  let blank := replicate (Z.to_nat line_size) 0 in
  let ones := u32 (Z.lnot 0) in
  if line_size <? 32 then
    let! bits_per_byte := int_div 32 line_size in
    let! one := int_shl1 bits_per_byte in
    let start_mask := one - 1 in
    let end_mask := u32 (Z.shiftl start_mask (32 - bits_per_byte)) in
    res_fold (fun i s =>
        let! s := store_masks line_size i s in Ok (step_masks bits_per_byte s))
      (seqZ 0 line_size) (MkMasks ones ones start_mask end_mask blank blank)
  else
    let! bytes_per_bit := int_div line_size 32 in
    res_fold (fun i s =>
        let! s := store_masks line_size i s in
        let! r := int_rem (i + 1) bytes_per_bit in
        Ok (if r =? 0 then step_masks 1 s else s))
      (seqZ 0 line_size) (MkMasks ones ones 1 (Z.shiftl 1 31) blank blank).

Definition cacheuse_initcache (c : clg_cache_t2) : res clg_cache_t2 :=
  let! n := int_mul (sets (base c)) (t2_assoc (base c)) in
  let! ms := fill_masks (t2_line_size (base c)) in
  let! ways := int_shl1 (tag_shift (base c)) in
  if ways <? t2_assoc (base c) then Err (Panic "Unsupported cache configuration") else
  let! lmask := int_sub (t2_line_size (base c)) 1 in
  Ok (MkClgCache (name c) (base c) (sectored c) (tag_mask c) lmask (ms_starts ms) (ms_ends ms)
        (replicate (Z.to_nat n) no_loaded) (Some (replicate (Z.to_nat n) (MkUse 0 0)))).

(** [nm] is the name given to the cache before; [collect] is
    [clo_collect_cacheuse]. *)
Definition clg_cachesim_initcache (collect : bool) (nm : string) (config : cache_t)
  : res clg_cache_t2 :=
  let! lines := int_div (size config) (line_size config) in
  let! nsets := int_div lines (assoc config) in
  let! min_1 := int_sub nsets 1 in
  let bits := VG_log2 (u32 (line_size config)) in
  let shift := bits + VG_log2 (u32 nsets) in
  let! one := uint_shl1 shift in
  let mask := u32 (Z.lnot (one - 1)) in
  let! _ := tl_assert (Z.land mask CACHELINE_FLAGMASK =? 0)
              "(c->tag_mask & CACHELINE_FLAGMASK) == 0" in
  let desc :=
    if assoc config =? 1
    then (fmt_d (size config) ++ " B, " ++ fmt_d (line_size config)
            ++ " B, direct-mapped")%string
    else (fmt_d (size config) ++ " B, " ++ fmt_d (line_size config)
            ++ " B, " ++ fmt_d (assoc config) ++ "-way associative")%string in
  let! n := int_mul nsets (assoc config) in
  let b := Cache2 (size config) (assoc config) (line_size config) nsets min_1 bits shift desc
             (replicate (Z.to_nat n) 0) in
  let c := MkClgCache nm b false mask 0 [] [] [] None in
  let! c := if collect then cacheuse_initcache c else Ok c in
  cachesim_clearcache c.

(** ** Simple model *)

Definition cachesim_setref (c : clg_cache_t2) (set_no tag : Z) : res (CacheResult * clg_cache_t2) :=
  let n := t2_assoc (base c) in
  let set := u32 (set_no * u32 n) in
  let! v0 := arr_get (c_tags c) set in
  if tag =? v0 then Ok (Hit, c) else
  let! way := find_way (c_tags c) set tag 1 (Z.to_nat (n - 1)) in
  match way with
  | Some i =>
      let! t := move_to_front (c_tags c) set (Z.to_nat i) tag in
      Ok (Hit, set_c_tags c t)
  | None =>
      let! t := move_to_front (c_tags c) set (Z.to_nat (n - 1)) tag in
      Ok (Miss, set_c_tags c t)
  end.

Definition is_miss (r : CacheResult) : bool :=
  match r with Miss => true | _ => false end.

Definition cachesim_ref (c : clg_cache_t2) (a sz : Z) : res (CacheResult * clg_cache_t2) :=
  let bits := line_size_bits (base c) in
  let block1 := Z.shiftr a bits in
  let block2 := Z.shiftr (u64 (a + sz - 1)) bits in
  let set1 := u32 (Z.land block1 (u64 (sets_min_1 (base c)))) in
  let tag1 := block1 in
  if block1 =? block2 then cachesim_setref c set1 tag1
  else if u64 (block1 + 1) =? block2 then
    let set2 := u32 (Z.land block2 (u64 (sets_min_1 (base c)))) in
    let tag2 := block2 in
    let! (res1, c) := cachesim_setref c set1 tag1 in
    let! (res2, c) := cachesim_setref c set2 tag2 in
    Ok (if is_miss res1 || is_miss res2 then Miss else Hit, c)
  else Err (Panic "item straddles more than two cache sets").

Definition cachesim_I1_ref (s : sim_state) (a sz : Z) : res (CacheModelResult * sim_state) :=
  let! (r, c) := cachesim_ref (s_I1 s) a sz in
  let s := with_I1 s c in
  if decide (r = Hit) then Ok (L1_Hit, s) else
  let! (r, c) := cachesim_ref (s_LL s) a sz in
  let s := with_LL s c in
  if decide (r = Hit) then Ok (LL_Hit, s) else Ok (MemAccess, s).

Definition cachesim_D1_ref (s : sim_state) (a sz : Z) : res (CacheModelResult * sim_state) :=
  let! (r, c) := cachesim_ref (s_D1 s) a sz in
  let s := with_D1 s c in
  if decide (r = Hit) then Ok (L1_Hit, s) else
  let! (r, c) := cachesim_ref (s_LL s) a sz in
  let s := with_LL s c in
  if decide (r = Hit) then Ok (LL_Hit, s) else Ok (MemAccess, s).

(** ** Write-back model *)

(** [set[i] & ~CACHELINE_DIRTY]: the constant is an [int], converted to [UWord]. *)
Definition clean (tag : Z) : Z := Z.land tag (u64 (Z.lnot CACHELINE_DIRTY)).

(** The search loop from way [i] on, [fuel] ways left: the way and its tag. *)
Fixpoint find_way_wb (t : list Z) (set tag i : Z) (fuel : nat) : res (option (Z * Z)) :=
  match fuel with
  | O => Ok None
  | S fuel' =>
      let! v := arr_get t (set + i) in
      if tag =? clean v then Ok (Some (i, v)) else find_way_wb t set tag (i + 1) fuel'
  end.

Definition cachesim_setref_wb (c : clg_cache_t2) (ref : RefType) (set_no tag : Z)
  : res (CacheResult * clg_cache_t2) :=
  let n := t2_assoc (base c) in
  let set := u32 (set_no * u32 n) in
  let! v0 := arr_get (c_tags c) set in
  if tag =? clean v0 then
    let! t := arr_set (c_tags c) set (Z.lor v0 (ref_bits ref)) in
    Ok (Hit, set_c_tags c t)
  else
  let! way := find_way_wb (c_tags c) set tag 1 (Z.to_nat (n - 1)) in
  match way with
  | Some (i, v) =>
      let tmp_tag := Z.lor v (ref_bits ref) in
      let! t := move_to_front (c_tags c) set (Z.to_nat i) tmp_tag in
      Ok (Hit, set_c_tags c t)
  | None =>
      let! tmp_tag := arr_get (c_tags c) (set + (n - 1)) in
      let! t := move_to_front (c_tags c) set (Z.to_nat (n - 1)) (Z.lor tag (ref_bits ref)) in
      Ok (if negb (Z.land tmp_tag CACHELINE_DIRTY =? 0) then MissDirty else Miss, set_c_tags c t)
  end.

Definition is_dirty (r : CacheResult) : bool :=
  match r with MissDirty => true | _ => false end.

Definition cachesim_ref_wb (c : clg_cache_t2) (ref : RefType) (a sz : Z)
  : res (CacheResult * clg_cache_t2) :=
  let bits := line_size_bits (base c) in
  let min_1 := u64 (sets_min_1 (base c)) in
  let set1 := u32 (Z.land (Z.shiftr a bits) min_1) in
  let set2 := u32 (Z.land (Z.shiftr (u64 (a + sz - 1)) bits) min_1) in
  let tag := Z.land a (tag_mask c) in
  if set1 =? set2 then cachesim_setref_wb c ref set1 tag
  else if Z.land (u32 (set1 + 1)) (u32 (sets_min_1 (base c))) =? set2 then
    let tag2 := Z.land (u64 (a + sz - 1)) (tag_mask c) in
    let! (res1, c) := cachesim_setref_wb c ref set1 tag in
    let! (res2, c) := cachesim_setref_wb c ref set2 tag2 in
    if is_dirty res1 || is_dirty res2 then Ok (MissDirty, c)
    else Ok (if is_miss res1 || is_miss res2 then Miss else Hit, c)
  else Err (Panic "item straddles more than two cache sets").

(** The [switch] on the result of the last level. *)
Definition ll_result (r : CacheResult) : CacheModelResult :=
  match r with
  | Hit => LL_Hit
  | Miss => MemAccess
  | MissDirty => WriteBackMemAccess
  end.

Definition cachesim_I1_Read (s : sim_state) (a sz : Z) : res (CacheModelResult * sim_state) :=
  let! (r, c) := cachesim_ref (s_I1 s) a sz in
  let s := with_I1 s c in
  if decide (r = Hit) then Ok (L1_Hit, s) else
  let! (r, c) := cachesim_ref_wb (s_LL s) Read a sz in
  Ok (ll_result r, with_LL s c).

Definition cachesim_D1_Read (s : sim_state) (a sz : Z) : res (CacheModelResult * sim_state) :=
  let! (r, c) := cachesim_ref (s_D1 s) a sz in
  let s := with_D1 s c in
  if decide (r = Hit) then Ok (L1_Hit, s) else
  let! (r, c) := cachesim_ref_wb (s_LL s) Read a sz in
  Ok (ll_result r, with_LL s c).

Definition cachesim_D1_Write (s : sim_state) (a sz : Z) : res (CacheModelResult * sim_state) :=
  let! (r, c) := cachesim_ref (s_D1 s) a sz in
  let s := with_D1 s c in
  if decide (r = Hit) then
    let! (_, c) := cachesim_ref_wb (s_LL s) Write a sz in
    Ok (L1_Hit, with_LL s c)
  else
  let! (r, c) := cachesim_ref_wb (s_LL s) Write a sz in
  Ok (ll_result r, with_LL s c).

(** ** Hardware prefetch *)

Definition prefetch_clear (s : sim_state) : sim_state :=
  MkSim (s_I1 s) (s_D1 s) (s_LL s) (prefetch_up s) (prefetch_down s)
    (replicate (Z.to_nat PF_STREAMS) 0) (replicate (Z.to_nat PF_STREAMS) 0).

(** The new state of one stream, from its last block and the length of its run,
    and what to prefetch: the block run goes up, goes down, or neither. *)
Inductive prefetch_dir : Type := PfNone | PfUp | PfDown.

Definition prefetch_step (last seq block : Z) : res (Z * prefetch_dir) :=
  if seq =? 0 then
    if u32 (last + 1) =? block then let! q := int_add seq 1 in Ok (q, PfNone)
    else if u32 (last - 1) =? block then let! q := int_sub seq 1 in Ok (q, PfNone)
    else Ok (seq, PfNone)
  else if 0 <? seq then
    if u32 (last + 1) =? block then
      let! q := int_add seq 1 in Ok (q, if 2 <=? q then PfUp else PfNone)
    else Ok (0, PfNone)
  else
    if u32 (last - 1) =? block then
      let! q := int_sub seq 1 in Ok (q, if q <=? -2 then PfDown else PfNone)
    else Ok (0, PfNone).

Definition prefetch_LL_doref (s : sim_state) (a : Z) : res sim_state :=
  let stream := u32 (Z.shiftr a PF_PAGEBITS mod PF_STREAMS) in
  let block := u32 (Z.shiftr a (line_size_bits (base (s_LL s)))) in
  let! last := arr_get (pf_lastblock s) stream in
  if block =? last then Ok s else
  let! seq := arr_get (pf_seqblocks s) stream in
  let! (seq, dir) := prefetch_step last seq block in
  let! seqs := arr_set (pf_seqblocks s) stream seq in
  let! (up, down, ll) :=
    match dir with
    | PfNone => Ok (prefetch_up s, prefetch_down s, s_LL s)
    | PfUp =>
        let! five := int_mul 5 (t2_line_size (base (s_LL s))) in
        let! (_, c) := cachesim_ref (s_LL s) (u64 (a + five)) 1 in
        Ok (u64 (prefetch_up s + 1), prefetch_down s, c)
    | PfDown =>
        let! five := int_mul 5 (t2_line_size (base (s_LL s))) in
        let! (_, c) := cachesim_ref (s_LL s) (u64 (a - five)) 1 in
        Ok (prefetch_up s, u64 (prefetch_down s + 1), c)
    end in
  let! lasts := arr_set (pf_lastblock s) stream block in
  Ok (MkSim (s_I1 s) (s_D1 s) ll up down lasts seqs).

Definition prefetch_I1_ref (s : sim_state) (a sz : Z) : res (CacheModelResult * sim_state) :=
  let! (r, c) := cachesim_ref (s_I1 s) a sz in
  let s := with_I1 s c in
  if decide (r = Hit) then Ok (L1_Hit, s) else
  let! s := prefetch_LL_doref s a in
  let! (r, c) := cachesim_ref (s_LL s) a sz in
  let s := with_LL s c in
  if decide (r = Hit) then Ok (LL_Hit, s) else Ok (MemAccess, s).

Definition prefetch_D1_ref (s : sim_state) (a sz : Z) : res (CacheModelResult * sim_state) :=
  let! (r, c) := cachesim_ref (s_D1 s) a sz in
  let s := with_D1 s c in
  if decide (r = Hit) then Ok (L1_Hit, s) else
  let! s := prefetch_LL_doref s a in
  let! (r, c) := cachesim_ref (s_LL s) a sz in
  let s := with_LL s c in
  if decide (r = Hit) then Ok (LL_Hit, s) else Ok (MemAccess, s).

Definition prefetch_I1_Read (s : sim_state) (a sz : Z) : res (CacheModelResult * sim_state) :=
  let! (r, c) := cachesim_ref (s_I1 s) a sz in
  let s := with_I1 s c in
  if decide (r = Hit) then Ok (L1_Hit, s) else
  let! s := prefetch_LL_doref s a in
  let! (r, c) := cachesim_ref_wb (s_LL s) Read a sz in
  Ok (ll_result r, with_LL s c).

Definition prefetch_D1_Read (s : sim_state) (a sz : Z) : res (CacheModelResult * sim_state) :=
  let! (r, c) := cachesim_ref (s_D1 s) a sz in
  let s := with_D1 s c in
  if decide (r = Hit) then Ok (L1_Hit, s) else
  let! s := prefetch_LL_doref s a in
  let! (r, c) := cachesim_ref_wb (s_LL s) Read a sz in
  Ok (ll_result r, with_LL s c).

Definition prefetch_D1_Write (s : sim_state) (a sz : Z) : res (CacheModelResult * sim_state) :=
  let! s := prefetch_LL_doref s a in
  let! (r, c) := cachesim_ref (s_D1 s) a sz in
  let s := with_D1 s c in
  if decide (r = Hit) then
    let! (_, c) := cachesim_ref_wb (s_LL s) Write a sz in
    Ok (L1_Hit, with_LL s c)
  else
  let! (r, c) := cachesim_ref_wb (s_LL s) Write a sz in
  Ok (ll_result r, with_LL s c).

(** ** The simple model is cachegrind's simulator *)

Definition result_of (miss : bool) : CacheResult := if miss then Miss else Hit.

Lemma set_base_id c : set_base c (base c) = c.
Proof. by destruct c. Qed.

Lemma setref_same c set_no tag :
  cachesim_setref c set_no tag =
  (let! (miss, b) := cachesim_setref_is_miss (base c) set_no tag in
   Ok (result_of miss, set_base c b)).
Proof.
  unfold cachesim_setref, cachesim_setref_is_miss, c_tags, set_c_tags.
  destruct (arr_get (tags (base c)) _) as [v|]; [|done]. cbn [rbind].
  destruct (tag =? v); [cbn [rbind]; by rewrite set_base_id|].
  destruct (find_way _ _ _ _ _) as [[i|]|]; [| |done]; cbn [rbind];
    by destruct (move_to_front _ _ _ _).
Qed.

Lemma result_of_miss miss : is_miss (result_of miss) = miss.
Proof. by destruct miss. Qed.

Lemma ref_same c a sz :
  cachesim_ref c a sz =
  (let! (miss, b) := cachesim_ref_is_miss (base c) a sz in
   Ok (result_of miss, set_base c b)).
Proof.
  unfold cachesim_ref, cachesim_ref_is_miss.
  destruct (_ =? _); [apply setref_same|]. destruct (_ =? _); [|done].
  rewrite setref_same.
  destruct (cachesim_setref_is_miss (base c) _ _) as [[m1 b1]|]; [|done]. cbn [rbind].
  rewrite setref_same. cbn [base set_base]. rewrite result_of_miss.
  destruct m1; destruct (cachesim_setref_is_miss b1 _ _) as [[m2 b2]|]; try done;
    cbn [rbind]; rewrite result_of_miss; by destruct m2.
Qed.

(** The shift to the tag covers one line of every set. *)
Lemma initcache_shift cfg b :
  valid_cache cfg -> cachesim_initcache cfg = Ok b ->
  2 ^ tag_shift b = t2_line_size b * sets b /\ line_size_bits b <= tag_shift b < 31.
Proof.
  intros Hv E. destruct (initcache_hist cfg Hv) as (b' & E' & Hc & Ha & Hl & Hsz).
  rewrite E in E'. simplify_eq. destruct (ch_wf _ _ Hc) as [Hassoc Hb Hline (k & Hk & Hs) _ _ Hmax].
  assert (0 < sets b' < 2 ^ 27) as Hsb by (rewrite Hs; rewrite Hs in Hmax;
    assert (0 < 2 ^ k) by (apply Z.pow_pos_nonneg; lia); nia).
  assert (tag_shift b' = line_size_bits b' + k) as Hsh.
  { unfold cachesim_initcache in E. inv_ok. subst b'. cbn in *. f_equal.
    rewrite u32_nonneg, Hs by lia. apply VG_log2_pow2.
    assert (k < 27); [|lia]. apply (Z.pow_lt_mono_r_iff 2); lia. }
  assert (2 ^ tag_shift b' = t2_line_size b' * sets b') as Hpow
    by (rewrite Hsh, Hline, Hs, <- Z.pow_add_r by lia; done).
  split; [done|]. split; [lia|]. apply (Z.pow_lt_mono_r_iff 2); [lia|lia|]. rewrite Hpow.
  pose proof (vc_size_max _ Hv). pose proof (vc_assoc_pos _ Hv). pose proof (vc_line_min _ Hv).
  unfold MIN_LINE_SIZE in *. rewrite Hl. nia.
Qed.

Lemma tag_mask_value k : 0 <= k < 32 -> u32 (Z.lnot (2 ^ k - 1)) = 2 ^ 32 - 2 ^ k.
Proof.
  intros Hk. unfold Z.lnot. replace (Z.pred (- (2 ^ k - 1))) with (2 ^ 32 - 2 ^ k + -1 * 2 ^ 32) by lia.
  unfold wrapu. rewrite Z.mod_add by lia. apply Z.mod_small.
  assert (0 < 2 ^ k < 2 ^ 32) by (split; [apply Z.pow_pos_nonneg|apply Z.pow_lt_mono_r]; lia). lia.
Qed.

Lemma tag_mask_flags k : 4 <= k < 32 -> Z.land (2 ^ 32 - 2 ^ k) CACHELINE_FLAGMASK = 0.
Proof.
  intros Hk. change CACHELINE_FLAGMASK with (2 ^ 4 - 1). rewrite land_pow2_pred by lia.
  replace (2 ^ 32 - 2 ^ k) with ((2 ^ 28 - 2 ^ (k - 4)) * 2 ^ 4); [by apply Z.mod_mul|].
  rewrite Z.mul_sub_distr_r, <- !Z.pow_add_r by lia. do 2 f_equal. lia.
Qed.

(** Started on the same configuration, both tools have the same caches. *)
Lemma clg_initcache_same nm cfg :
  valid_cache cfg ->
  exists b c, cachesim_initcache cfg = Ok b /\ clg_cachesim_initcache false nm cfg = Ok c /\
    base c = b /\ use c = None /\ name c = nm /\ tag_mask c = 2 ^ 32 - 2 ^ tag_shift b.
Proof.
  intros Hv. destruct (initcache_hist cfg Hv) as (b & E & Hc & _).
  destruct (initcache_shift cfg b Hv E) as [_ Hsh].
  pose proof (wf_bits _ (ch_wf _ _ Hc)) as Hb.
  exists b. unfold cachesim_initcache in E. inv_ok.
  unfold clg_cachesim_initcache. rewrite E0. cbn [rbind]. rewrite E1. cbn [rbind].
  rewrite E2. cbn [rbind]. subst b. cbn [tag_shift line_size_bits] in Hsh, Hb |- *.
  set (shift := VG_log2 (u32 (line_size cfg)) + VG_log2 (u32 x0)) in *.
  unfold uint_shl1. destruct (Z.leb_spec 0 shift), (Z.ltb_spec shift 32); try lia.
  cbn [andb rbind]. rewrite Z.shiftl_1_l, tag_mask_value by lia.
  rewrite tl_assert_true by (apply Z.eqb_eq, tag_mask_flags; lia). cbn [rbind].
  rewrite E3. cbn [rbind]. unfold cachesim_clearcache. cbn [base sets t2_assoc use].
  rewrite E3. cbn [rbind]. eexists. split_and!; try done.
  unfold cachesim_initcache. rewrite E0. cbn [rbind]. rewrite E1. cbn [rbind]. rewrite E2.
  cbn [rbind]. by rewrite E3.
Qed.
