(* ===== verification/ClgWb.v ===== *)
(** * ClgWb: the write-back model of callgrind's last level

    A line of the last level is a tag with the dirty flag in bit 0.  The
    specification keeps tags and flags apart: [wb_touch] is LRU on the tags,
    and a line is dirty if it was written since it was loaded ([dirty], a
    function of the history).  The theorems show that the code implements
    this, that the dirty flag never changes what hits, and what the 32-bit tag
    mask does to 64-bit addresses. *)

From Stdlib Require Import ZArith Lia Ascii String.
From stdpp Require Import base numbers strings list.
From S2P Require Import Prelude Libcbase Debuglog CgArch Lru CgSim ClgCosts ClgSim.

#[local] Open Scope Z_scope.

(** ** Specification of one set *)

Definition is_write (r : RefType) : bool := match r with Write => true | Read => false end.

(** A set of (tag, dirty) pairs, most recent first. *)
Definition wb_touch (r : RefType) (tag : Z) (set : list (Z * bool))
  : CacheResult * list (Z * bool) :=
  match list_find (fun p => tag = p.1) set with
  | Some (k, p) => (Hit, (tag, p.2 || is_write r) :: take k set ++ drop (S k) set)
  | None =>
      (match last set with Some (_, true) => MissDirty | _ => Miss end,
       (tag, is_write r) :: take (length set - 1) set)
  end.

(** The history of a set: tags and kinds of reference, most recent first. *)
Abbreviation wb_history := (list (Z * RefType)).

(** [t] was written since it was last loaded into a set of [n] ways. *)
Fixpoint dirty (n : nat) (h : wb_history) (t : Z) : bool :=
  match h with
  | [] => false
  | (t', r) :: h' =>
      if decide (t' = t) then is_write r || (reuse_hit n h'.*1 t && dirty n h' t)
      else dirty n h' t
  end.

Definition with_dirty (n : nat) (h : wb_history) (t : Z) : Z * bool := (t, dirty n h t).

Definition wb_contents (n : nat) (h : wb_history) : list (Z * bool) :=
  take n ((with_dirty n h <$> recency h.*1) ++ replicate n (0, false)).

(** The line a miss evicts, if the set is full, is the least recently used. *)
Definition victim_dirty (n : nat) (h : wb_history) : bool :=
  match recency h.*1 !! (n - 1)%nat with
  | Some v => dirty n h v
  | None => false
  end.

Definition wb_result (n : nat) (h : wb_history) (t : Z) : CacheResult :=
  if reuse_hit n h.*1 t then Hit else if victim_dirty n h then MissDirty else Miss.

(** ** The set refines the history *)

Lemma dirty_ne n h t r t' : t <> t' -> dirty n ((t, r) :: h) t' = dirty n h t'.
Proof. intros H. cbn [dirty]. by rewrite decide_False. Qed.

Lemma with_dirty_filter n h t r (l : list Z) :
  with_dirty n ((t, r) :: h) <$> filter (fun x => x <> t) l
  = with_dirty n h <$> filter (fun x => x <> t) l.
Proof.
  apply list_fmap_ext. intros i x Hx. unfold with_dirty.
  apply list_elem_of_lookup_2, list_elem_of_filter in Hx as [Hx _]. by rewrite dirty_ne.
Qed.

Lemma wb_contents_tags n h : (wb_contents n h).*1 = lru_contents n h.*1.
Proof.
  unfold wb_contents, lru_contents. rewrite fmap_take, fmap_app, fmap_replicate.
  do 2 f_equal. rewrite <- list_fmap_compose. apply list_fmap_id.
Qed.

Lemma wb_contents_length n h : length (wb_contents n h) = n.
Proof. rewrite <- (length_fmap fst), wb_contents_tags. apply lru_contents_length. Qed.

(** Searching the pairs is searching the tags. *)
Lemma find_tags (t : Z) (l : list (Z * bool)) :
  match list_find (fun p : Z * bool => t = p.1) l with
  | Some (k, p) => list_find (eq t) l.*1 = Some (k, t) /\ l !! k = Some p
  | None => list_find (eq t) l.*1 = None
  end.
Proof.
  induction l as [|p l IH]; [done|]. rewrite fmap_cons. cbn [list_find].
  destruct (decide (t = p.1)) as [->|E]; [done|].
  destruct (list_find (fun p : Z * bool => t = p.1) l) as [[k q]|]; cbn.
  - destruct IH as [-> Hk]. done.
  - by rewrite IH.
Qed.

Lemma wb_find n h t :
  list_find (fun p : Z * bool => t = p.1) (wb_contents n h) =
  match list_find (eq t) (lru_contents n h.*1) with
  | Some (k, _) => Some (k, with_dirty n h t)
  | None => None
  end.
Proof.
  pose proof (find_tags t (wb_contents n h)) as H. rewrite wb_contents_tags in H.
  destruct (list_find (fun p : Z * bool => t = p.1) _) as [[k p]|]; [|by rewrite H].
  destruct H as [E Hk]. rewrite E. apply lru_contents_find in E as [Hkn Hr].
  unfold wb_contents in Hk. rewrite lookup_take_lt in Hk by done.
  rewrite lookup_app_l in Hk by (rewrite length_fmap; by eapply lookup_lt_Some).
  rewrite list_lookup_fmap, Hr in Hk. cbn in Hk. by simplify_eq.
Qed.

Lemma take_fmap_filter_absent {B} (f : Z -> B) (b : Z) (l : list Z) (z : list B) (m : nat) :
  b ∉ take (S m) l -> take m ((f <$> filter (fun x => x <> b) l) ++ z) = take m ((f <$> l) ++ z).
Proof.
  revert m; induction l as [|x l IH]; intros m H; [done|].
  simpl in H. rewrite not_elem_of_cons in H. destruct H as [Hx H].
  rewrite filter_cons, decide_True by naive_solver.
  destruct m as [|m]; [done|]. simpl. f_equal. by apply IH.
Qed.

Lemma last_wb_contents n h :
  (1 <= n)%nat ->
  match last (wb_contents n h) with Some (_, true) => MissDirty | _ => Miss end =
  (if victim_dirty n h then MissDirty else Miss).
Proof.
  intros Hn. rewrite last_lookup, wb_contents_length. unfold wb_contents, victim_dirty.
  rewrite lookup_take_lt by lia. replace (Init.Nat.pred n) with (n - 1)%nat by lia.
  destruct (recency h.*1 !! (n - 1)%nat) as [v|] eqn:E.
  - rewrite lookup_app_l by (rewrite length_fmap; by eapply lookup_lt_Some).
    rewrite list_lookup_fmap, E. cbn. by destruct (dirty n h v).
  - rewrite lookup_app_r by (rewrite length_fmap; by apply lookup_ge_None).
    apply lookup_ge_None in E. rewrite lookup_replicate_2; [done|].
    rewrite length_fmap.
    assert (0 < length (recency h.*1))%nat; [|lia].
    destruct (recency h.*1) eqn:Er; [|simpl; lia]. pose proof (zero_in_recency h.*1) as Hz.
    rewrite Er in Hz. by apply elem_of_nil in Hz.
Qed.

(** One reference to a set. *)
Lemma wb_touch_contents n h r t :
  (1 <= n)%nat ->
  wb_touch r t (wb_contents n h) = (wb_result n h t, wb_contents n ((t, r) :: h)).
Proof.
  intros Hn. unfold wb_touch, wb_result. rewrite wb_find, wb_contents_length.
  destruct n as [|n]; [lia|]. rewrite reuse_hit_recency.
  assert (wb_contents (S n) ((t, r) :: h) = (t, dirty (S n) ((t, r) :: h) t) ::
    take n ((with_dirty (S n) h <$> filter (fun x => x <> t) (recency h.*1))
            ++ replicate (S n) (0, false))) as ->.
  { unfold wb_contents. rewrite fmap_cons. cbn [fst recency]. rewrite fmap_cons.
    rewrite with_dirty_filter. done. }
  cbn [dirty]. rewrite decide_True by done. rewrite reuse_hit_recency.
  destruct (list_find (eq t) (lru_contents (S n) h.*1)) as [[k x]|] eqn:E.
  - apply lru_contents_find in E as [Hk Hl]. pose proof (lookup_lt_Some _ _ _ Hl) as Hlt.
    rewrite bool_decide_true.
    2: { apply (list_elem_of_lookup_2 _ k). by rewrite lookup_take_lt. }
    rewrite (filter_ne_NoDup t _ k) by (done || apply recency_NoDup).
    cbn [snd with_dirty andb]. rewrite orb_comm. do 2 f_equal.
    rewrite fmap_app, fmap_take, fmap_drop. apply take_remove_middle; [|lia].
    by rewrite length_fmap.
  - apply lru_contents_absent in E. rewrite bool_decide_false by done.
    rewrite last_wb_contents by lia. cbn [andb]. rewrite orb_false_r. do 2 f_equal.
    rewrite take_fmap_filter_absent by done. unfold wb_contents. rewrite take_take.
    f_equal. lia.
Qed.

(** ** The encoding of a line *)

Definition enc (p : Z * bool) : Z := p.1 + Z.b2z p.2.

(** Tags are even: bit 0 is free for the flag. *)
Definition tag_ok (t : Z) : Prop := in_u 64 t /\ Z.even t = true.

Lemma tag_ok_double t : tag_ok t -> exists u, t = 2 * u /\ 0 <= u < 2 ^ 63.
Proof.
  intros [Hu He]. apply Z.even_spec in He as [u ->]. exists u. unfold in_u in Hu. lia.
Qed.

Lemma clean_enc p : tag_ok p.1 -> clean (enc p) = p.1.
Proof.
  intros (u & Hp & Hu)%tag_ok_double. unfold clean, enc. rewrite Hp.
  change (u64 (Z.lnot CACHELINE_DIRTY)) with (2 * Z.ones 63). apply Z.bits_inj'.
  intros n Hn. rewrite Z.land_spec. destruct (Z.eq_dec n 0) as [->|Hn0].
  { rewrite !Z.testbit_even_0. apply andb_false_r. }
  replace n with (Z.succ (n - 1)) by lia. rewrite !Z.testbit_even_succ by lia.
  destruct p.2; cbn [Z.b2z]; [rewrite Z.testbit_odd_succ by lia
                             |rewrite Z.add_0_r, Z.testbit_even_succ by lia];
    rewrite Z.testbit_ones_nonneg by lia;
    (destruct (Z.ltb_spec (n - 1) 63); [apply andb_true_r|]);
    rewrite andb_false_r; symmetry;
    (apply Z.bits_above_log2; [lia|]);
    (destruct (Z.eq_dec u 0) as [->|]; [simpl; lia|]);
    (apply Z.log2_lt_pow2; [lia|]);
    (eapply Z.lt_le_trans; [apply Hu|apply Z.pow_le_mono_r; lia]).
Qed.

Lemma lor_1 u (b : bool) : Z.lor (2 * u + Z.b2z b) 1 = 2 * u + 1.
Proof.
  apply Z.bits_inj'. intros n Hn. rewrite Z.lor_spec. destruct (Z.eq_dec n 0) as [->|Hn0].
  - rewrite Z.testbit_odd_0. apply orb_true_r.
  - change (Z.testbit 1 n) with (Z.testbit (2 ^ 0) n).
    rewrite Z.pow2_bits_false, orb_false_r by lia.
    replace n with (Z.succ (n - 1)) by lia. rewrite Z.testbit_odd_succ by lia.
    destruct b; cbn [Z.b2z]; [by rewrite Z.testbit_odd_succ by lia|].
    by rewrite Z.add_0_r, Z.testbit_even_succ by lia.
Qed.

Lemma lor_enc p r : tag_ok p.1 -> Z.lor (enc p) (ref_bits r) = enc (p.1, p.2 || is_write r).
Proof.
  intros (u & Hp & _)%tag_ok_double. unfold enc. cbn [fst snd]. rewrite Hp.
  destruct r; cbn [ref_bits is_write]; [by rewrite Z.lor_0_r, orb_false_r|].
  rewrite orb_true_r. apply lor_1.
Qed.

Lemma land_enc p : tag_ok p.1 -> negb (Z.land (enc p) CACHELINE_DIRTY =? 0) = p.2.
Proof.
  intros (u & Hp & _)%tag_ok_double. unfold enc, CACHELINE_DIRTY. rewrite Hp.
  change 1 with (2 ^ 1 - 1). rewrite land_pow2_pred by lia. change (2 ^ 1) with 2.
  rewrite Z.add_comm, Z.mul_comm, Z.mod_add by lia. by destruct p.2.
Qed.

(** ** The loops on one set *)

Section SegmentWb.
Variables (pre post : list Z) (st : Z).
Hypothesis Hst : st = Z.of_nat (length pre).

Lemma find_way_wb_spec (set : list (Z * bool)) tag (i : nat) :
  Forall (fun p => tag_ok p.1) set -> (i <= length set)%nat ->
  find_way_wb (pre ++ (enc <$> set) ++ post) st tag (Z.of_nat i) (length set - i) =
    Ok (match list_find (fun p => tag = p.1) (drop i set) with
        | Some (k, p) => Some (Z.of_nat (i + k), enc p)
        | None => None
        end).
Proof using Hst.
  intros Hok. remember (length set - i)%nat as n eqn:Hn. revert i Hn.
  induction n as [|n IH]; intros i Hn Hi.
  - rewrite drop_ge by lia. done.
  - destruct (lookup_lt_is_Some_2 set i ltac:(lia)) as [p Hp].
    pose proof (Forall_lookup_1 _ _ _ _ Hok Hp) as Htag. cbn in Htag.
    cbn [find_way_wb]. rewrite (seg_get pre post st Hst (enc <$> set) i (enc p))
      by (by rewrite list_lookup_fmap, Hp).
    cbn [rbind]. rewrite clean_enc by done.
    rewrite (drop_S _ _ _ Hp). cbn [list_find].
    destruct (Z.eqb_spec tag p.1).
    + rewrite decide_True by done. do 3 f_equal. lia.
    + rewrite decide_False by done.
      replace (Z.of_nat i + 1) with (Z.of_nat (S i)) by lia.
      rewrite IH by lia.
      destruct (list_find _ (drop (S i) set)) as [[k x]|]; simpl; [|done].
      do 3 f_equal. lia.
Qed.
End SegmentWb.

(** [cachesim_setref_wb] never faults on a well-formed cache and is
    [wb_touch] on the addressed set. *)
Lemma setref_wb_touch c r s tag (set : list (Z * bool)) :
  wf_cache2 (base c) -> 0 <= s < sets (base c) -> tag_ok tag ->
  slice (base c) s = enc <$> set -> Forall (fun p => tag_ok p.1) set ->
  cachesim_setref_wb c r s tag =
    Ok ((wb_touch r tag set).1,
        set_base c (put_slice (base c) s (enc <$> (wb_touch r tag set).2))).
Proof.
  intros Hw Hs Htag Hsl Hok. pose proof (slice_length _ s Hw Hs) as Hlen.
  pose proof (tags_split _ s Hw Hs) as Ht. pose proof (wf_set_end _ s Hw Hs) as He.
  destruct Hw as [Ha _ _ _ _ _ Hsz].
  unfold cachesim_setref_wb, put_slice, wb_touch, set_c_tags, c_tags.
  rewrite !u32_nonneg; [|nia|rewrite u32_nonneg; nia].
  rewrite Hsl in Ht, Hlen. rewrite length_fmap in Hlen.
  set (pre := take (Z.to_nat s * ways (base c)) (tags (base c))) in *.
  set (post := drop (S (Z.to_nat s) * ways (base c)) (tags (base c))) in *.
  assert (s * t2_assoc (base c) = Z.of_nat (length pre)) as Hb.
  { subst pre. rewrite length_take. unfold ways in *. rewrite Nat.min_l by lia.
    rewrite Nat2Z.inj_mul, !Z2Nat.id; lia. }
  rewrite Ht. destruct set as [|p0 rest] eqn:Eset; [unfold ways in Hlen; simpl in Hlen; lia|].
  rewrite <- (Z.add_0_r (s * t2_assoc (base c))) at 1. change 0 with (Z.of_nat 0) at 1.
  rewrite (seg_get pre post _ Hb _ 0 (enc p0)) by done. cbn [rbind list_find].
  apply Forall_cons in Hok as [Hp0 Hrest]. rewrite clean_enc by done.
  destruct (Z.eqb_spec tag p0.1) as [E|Hne].
  { rewrite decide_True by done. cbn [fst snd].
    rewrite <- (Z.add_0_r (s * t2_assoc (base c))) at 1. change 0 with (Z.of_nat 0) at 1.
    rewrite (seg_set pre post _ Hb) by (simpl; lia). cbn [rbind].
    rewrite lor_enc, <- E by done. done. }
  rewrite decide_False by done.
  replace (Z.to_nat (t2_assoc (base c) - 1)) with (length (p0 :: rest) - 1)%nat
    by (unfold ways in Hlen; lia).
  change 1 with (Z.of_nat 1) at 1.
  rewrite (find_way_wb_spec pre post _ Hb (p0 :: rest) tag 1) by (simpl; auto; lia).
  cbn [drop rbind]. rewrite drop_0.
  destruct (list_find (fun p => tag = p.1) rest) as [[k x]|] eqn:Ef; simpl fmap.
  - apply list_find_Some in Ef as (Hk & Hx & _). pose proof (lookup_lt_Some _ _ _ Hk).
    rewrite lor_enc by (by apply (Forall_lookup_1 _ _ _ _ Hrest Hk)).
    rewrite Nat2Z.id, (move_to_front_spec pre post _ Hb)
      by (rewrite ?length_fmap; simpl; rewrite ?length_fmap; lia). cbn [rbind fst snd].
    change (list_fmap (Z * bool)%type Z enc) with (fmap (M := list) enc).
    by rewrite <- Hx, fmap_app, fmap_take, fmap_drop.
  - change (enc p0 :: list_fmap (Z * bool)%type Z enc rest) with (enc <$> (p0 :: rest)).
    destruct (last (p0 :: rest)) as [pl|] eqn:El; [|by rewrite last_None in El].
    rewrite last_lookup in El. simpl Init.Nat.pred in El.
    replace (s * t2_assoc (base c) + (t2_assoc (base c) - 1)) with
      (s * t2_assoc (base c) + Z.of_nat (length rest)) by (unfold ways in Hlen; simpl in Hlen; lia).
    rewrite (seg_get pre post _ Hb (enc <$> (p0 :: rest)) (length rest) (enc pl))
      by (by rewrite list_lookup_fmap, El).
    cbn [rbind]. assert (tag_ok pl.1) as Hpl.
    { apply (Forall_lookup_1 (fun p : Z * bool => tag_ok p.1) (p0 :: rest) (length rest));
        [by constructor|done]. }
    pose proof (lor_enc (tag, false) r Htag) as Hlor. unfold enc at 1 in Hlor. cbn [fst snd] in Hlor.
    rewrite Z.add_0_r in Hlor. rewrite Hlor. cbn [orb].
    rewrite (move_to_front_spec pre post _ Hb)
      by (rewrite ?length_fmap; simpl; rewrite ?length_fmap; lia). cbn [rbind fst snd].
    rewrite (drop_ge _ (S (length (p0 :: rest) - 1))) by (rewrite ?length_fmap; simpl; rewrite ?length_fmap; lia).
    rewrite land_enc, app_nil_r by done. destruct pl as [tl dl]. cbn [snd].
    rewrite fmap_cons, fmap_take. by destruct dl.
Qed.

(** ** The whole last level *)

(** The touched lines, most recent first: set number, tag, kind. *)
Abbreviation ll_history := (list (Z * (Z * RefType))).

Definition set_hist (s : Z) (h : ll_history) : wb_history :=
  (List.filter (fun x : Z * (Z * RefType) => x.1 =? s) h).*2.

Record wb_hist (c : clg_cache_t2) (h : ll_history) : Prop := {
  wh_wf : wf_cache2 (base c);
  wh_slices : forall s, 0 <= s < sets (base c) ->
    slice (base c) s = enc <$> wb_contents (ways (base c)) (set_hist s h);
  wh_tags : Forall (fun x : Z * (Z * RefType) => tag_ok x.2.1) h
}.

(** What a reference leaves alone. *)
Record same_ll (c c' : clg_cache_t2) : Prop := {
  sl_geom : same_geometry (base c) (base c');
  sl_mask : tag_mask c' = tag_mask c
}.

Lemma same_ll_trans c1 c2 c3 : same_ll c1 c2 -> same_ll c2 c3 -> same_ll c1 c3.
Proof. intros [] []. constructor; [by eapply same_geometry_trans|congruence]. Qed.

Lemma tag_ok_0 : tag_ok 0.
Proof. split; [unfold in_u; lia|done]. Qed.

Lemma set_hist_tags s h :
  Forall (fun x : Z * (Z * RefType) => tag_ok x.2.1) h -> Forall tag_ok (set_hist s h).*1.
Proof.
  intros H. unfold set_hist. induction H as [|x h Hx _ IH]; [constructor|].
  cbn [List.filter]. destruct (x.1 =? s); [by constructor|done].
Qed.

Lemma wb_contents_ok n h : Forall tag_ok h.*1 -> Forall (fun p => tag_ok p.1) (wb_contents n h).
Proof.
  intros H. rewrite <- (Forall_fmap fst tag_ok), wb_contents_tags. unfold lru_contents.
  apply Forall_take, Forall_app. split; [|apply Forall_replicate, tag_ok_0].
  apply Forall_forall. intros x Hx. apply recency_elem, elem_of_app in Hx as [Hx|Hx].
  - by apply (proj1 (Forall_forall tag_ok _) H).
  - apply list_elem_of_singleton in Hx as ->. apply tag_ok_0.
Qed.

Lemma setref_wb_hist c h r s t :
  wb_hist c h -> 0 <= s < sets (base c) -> tag_ok t ->
  exists c', cachesim_setref_wb c r s t = Ok (wb_result (ways (base c)) (set_hist s h) t, c') /\
    same_ll c c' /\ wb_hist c' ((s, (t, r)) :: h).
Proof.
  intros [Hw Hsl Htg] Hs Ht.
  rewrite (setref_wb_touch c r s t _ Hw Hs Ht (Hsl s Hs))
    by (by apply wb_contents_ok, set_hist_tags).
  rewrite wb_touch_contents by (by apply wf_ways). cbn [fst snd].
  eexists. split_and!; [done|done|].
  assert (length (enc <$> wb_contents (ways (base c)) ((t, r) :: set_hist s h)) = ways (base c)) as Hl
    by (by rewrite length_fmap, wb_contents_length).
  constructor; cbn [base set_base]; [by apply put_slice_wf| |by constructor].
  intros s' Hs'. change (ways (put_slice (base c) s _)) with (ways (base c)).
  unfold set_hist at 2. cbn [List.filter fst].
  destruct (Z.eqb_spec s s') as [<-|Hne].
  - by rewrite slice_put_eq.
  - rewrite slice_put_ne by done. by apply Hsl.
Qed.

(** Both results of a straddling reference. *)
Definition wb_join (r1 r2 : CacheResult) : CacheResult :=
  if is_dirty r1 || is_dirty r2 then MissDirty
  else if is_miss r1 || is_miss r2 then Miss else Hit.

(** A reference touches the line of its first byte and, if that lies in
    another set, the line of its last byte. *)
Definition spec_ref_wb (g : geom) (mask : Z) (h : ll_history) (r : RefType) (a sz : Z)
  : CacheResult * ll_history :=
  let e := a + sz - 1 in
  let s1 := (a / 2 ^ g_bits g) mod g_sets g in
  let s2 := (e / 2 ^ g_bits g) mod g_sets g in
  let h1 := (s1, (Z.land a mask, r)) :: h in
  let r1 := wb_result (g_ways g) (set_hist s1 h) (Z.land a mask) in
  if s1 =? s2 then (r1, h1)
  else (wb_join r1 (wb_result (g_ways g) (set_hist s2 h1) (Z.land e mask)),
        (s2, (Z.land e mask, r)) :: h1).

Definition mask_ok (c : clg_cache_t2) : Prop :=
  exists k, line_size_bits (base c) <= k < 32 /\ tag_mask c = 2 ^ 32 - 2 ^ k.

(** A mask of the high bits of 32, by bits. *)
Lemma mask_testbit k n : 0 <= k < 32 -> 0 <= n -> Z.testbit (2 ^ 32 - 2 ^ k) n = (k <=? n) && (n <? 32).
Proof.
  intros Hk Hn. replace (2 ^ 32 - 2 ^ k) with (Z.shiftl (Z.ones (32 - k)) k).
  - rewrite Z.shiftl_spec by done. destruct (Z.leb_spec k n); cbn.
    + rewrite Z.testbit_ones_nonneg by lia. destruct (Z.ltb_spec (n - k) (32 - k)), (Z.ltb_spec n 32);
        lia || done.
    + apply Z.testbit_neg_r. lia.
  - rewrite Z.shiftl_mul_pow2, Z.ones_equiv by lia. unfold Z.pred.
    rewrite Z.mul_add_distr_r, <- Z.pow_add_r by lia. replace (32 - k + k) with 32 by lia. lia.
Qed.

Lemma land_mask_ok a k : 1 <= k < 32 -> tag_ok (Z.land a (2 ^ 32 - 2 ^ k)).
Proof.
  intros Hk. split.
  - assert (0 < 2 ^ k < 2 ^ 32) by (split; [apply Z.pow_pos_nonneg|apply Z.pow_lt_mono_r]; lia).
    rewrite <- (Z.mod_small (2 ^ 32 - 2 ^ k) (2 ^ 64)) by lia.
    rewrite <- Z.land_ones, Z.land_assoc, Z.land_ones by lia. apply Z.mod_pos_bound. lia.
  - rewrite <- Z.negb_odd, <- Z.bit0_odd, Z.land_spec, mask_testbit by lia.
    destruct (Z.leb_spec k 0); [lia|]. by rewrite andb_false_r.
Qed.

Lemma next_set c s :
  wf_cache2 (base c) -> 0 <= s < sets (base c) ->
  Z.land (u32 (s + 1)) (u32 (sets_min_1 (base c))) = (s + 1) mod sets (base c).
Proof.
  intros Hw Hs. pose proof (wf_sets_bound _ Hw). destruct Hw as [_ _ _ (k & Hk & E) Hm _ _].
  rewrite !u32_nonneg, Hm, E by lia. by apply land_pow2_pred.
Qed.

Lemma ref_wb_hist c h r a sz :
  wb_hist c h -> mask_ok c -> access_ok (line_size_bits (base c)) a sz ->
  exists c', cachesim_ref_wb c r a sz
      = Ok ((spec_ref_wb (geom_of (base c)) (tag_mask c) h r a sz).1, c') /\
    same_ll c c' /\ wb_hist c' (spec_ref_wb (geom_of (base c)) (tag_mask c) h r a sz).2.
Proof.
  intros Hc (k & Hk & Hmask) Ha. pose proof (wh_wf _ _ Hc) as Hw.
  pose proof (wf_bits _ Hw) as Hbits. pose proof (wf_sets_bound _ Hw) as Hsb.
  pose proof (access_blocks (line_size_bits (base c)) a sz ltac:(lia) Ha) as Hblk. destruct Ha as [Ha0 Hs0 He0].
  unfold cachesim_ref_wb, spec_ref_wb. cbn [g_bits g_sets g_ways geom_of].
  rewrite (wrapu_small 64 (a + sz - 1)) by (unfold in_u; lia).
  rewrite !Z.shiftr_div_pow2, !set_number by (done || lia).
  set (b1 := a / _) in *. set (b2 := (a + sz - 1) / _) in *.
  pose proof (Z.mod_pos_bound b1 (sets (base c)) ltac:(lia)) as Hs1.
  pose proof (Z.mod_pos_bound b2 (sets (base c)) ltac:(lia)) as Hs2.
  assert (forall x, tag_ok (Z.land x (tag_mask c))) as Htag
    by (intros x; rewrite Hmask; apply land_mask_ok; lia).
  destruct (setref_wb_hist c h r _ _ Hc Hs1 (Htag a)) as (c1 & E1 & G1 & H1).
  destruct (Z.eqb_spec (b1 mod sets (base c)) (b2 mod sets (base c))) as [Heq|Hne]; [by exists c1|].
  rewrite next_set by done.
  destruct (Z.eqb_spec ((b1 mod sets (base c) + 1) mod sets (base c)) (b2 mod sets (base c)))
    as [_|Hbad]; cycle 1.
  { exfalso. apply Hbad. assert (b2 = b1 + 1) as -> by (destruct (Z.eq_dec b1 b2); [congruence|lia]).
    by rewrite Zplus_mod_idemp_l. }
  destruct G1 as [G1 M1].
  destruct (setref_wb_hist c1 _ r (b2 mod sets (base c)) _ H1
    ltac:(by rewrite (sg_sets _ _ G1)) (Htag (a + sz - 1))) as (c2 & E2 & G2 & H2).
  exists c2. rewrite E1. cbn [rbind]. rewrite E2. cbn [rbind fst snd].
  replace (ways (base c1)) with (ways (base c)) by (unfold ways; by rewrite (sg_assoc _ _ G1)).
  unfold wb_join. destruct (is_dirty _ || is_dirty _); (split; [done|]);
    (split; [by eapply same_ll_trans; [by constructor|]|done]).
Qed.

(** ** Traces *)

Fixpoint wb_run (c : clg_cache_t2) (tr : list (RefType * Z * Z))
  : res (list CacheResult * clg_cache_t2) :=
  match tr with
  | [] => Ok ([], c)
  | (r, a, sz) :: tr' =>
      let! (x, c) := cachesim_ref_wb c r a sz in
      let! (xs, c) := wb_run c tr' in
      Ok (x :: xs, c)
  end.

Fixpoint wb_spec_run (g : geom) (mask : Z) (h : ll_history) (tr : list (RefType * Z * Z))
  : list CacheResult :=
  match tr with
  | [] => []
  | (r, a, sz) :: tr' =>
      (spec_ref_wb g mask h r a sz).1 :: wb_spec_run g mask (spec_ref_wb g mask h r a sz).2 tr'
  end.

Definition wb_trace_ok (bits : Z) (tr : list (RefType * Z * Z)) : Prop :=
  Forall (fun p => access_ok bits p.1.2 p.2) tr.

Lemma wb_run_spec c h tr :
  wb_hist c h -> mask_ok c -> wb_trace_ok (line_size_bits (base c)) tr ->
  exists c', wb_run c tr = Ok (wb_spec_run (geom_of (base c)) (tag_mask c) h tr, c').
Proof.
  revert c h; induction tr as [|[[r a] sz] tr IH]; intros c h Hc Hm Ht; [by exists c|].
  apply Forall_cons in Ht as [Ha Ht]. cbn [fst snd] in Ha.
  destruct (ref_wb_hist c h r a sz Hc Hm Ha) as (c1 & E1 & [G1 M1] & H1).
  destruct (IH c1 _ H1) as (c2 & E2).
  { destruct Hm as (k & Hk & Hmk). exists k. by rewrite (sg_bits _ _ G1), M1. }
  { unfold wb_trace_ok. by rewrite (sg_bits _ _ G1). }
  exists c2. cbn [wb_run wb_spec_run]. rewrite E1. cbn [rbind]. rewrite E2. cbn [rbind].
  by rewrite (geom_same _ _ G1), M1.
Qed.

(** The mask of a configuration. *)
Definition cfg_shift (cfg : cache_t) : Z := Z.log2 (line_size cfg * g_sets (cfg_geom cfg)).

Lemma initcache_wb nm cfg :
  valid_cache cfg ->
  exists c, clg_cachesim_initcache false nm cfg = Ok c /\ wb_hist c [] /\ mask_ok c /\
    geom_of (base c) = cfg_geom cfg /\ tag_mask c = 2 ^ 32 - 2 ^ cfg_shift cfg /\
    g_bits (cfg_geom cfg) <= cfg_shift cfg < 31.
Proof.
  intros Hv. destruct (clg_initcache_same nm cfg Hv) as (b & c & E & Ec & Hb & _ & _ & Hm).
  destruct (initcache_geom cfg Hv) as (b' & E' & Hh & Hg). rewrite E in E'. simplify_eq.
  destruct (initcache_shift cfg (base c) Hv E) as [Hp Hs].
  destruct Hh as [Hw Hsl]. pose proof (wf_bits _ Hw) as Hbits.
  destruct (initcache_hist cfg Hv) as (b' & E' & _ & _ & Hl & _). rewrite E in E'. simplify_eq.
  assert (cfg_shift cfg = tag_shift (base c)) as Hsh.
  { unfold cfg_shift. rewrite <- Hg, <- Hl. cbn. rewrite <- Hp. apply Z.log2_pow2. lia. }
  exists c. split_and!; auto; [|exists (tag_shift (base c)); split; [lia|done]
    |by rewrite Hsh|rewrite <- Hg; cbn; lia|lia].
  constructor; [done| |constructor]. intros s Hrange.
  rewrite (Hsl s Hrange), filter_nil_history, lru_contents_empty.
  change (set_hist s []) with ([] : wb_history). unfold wb_contents.
  change (with_dirty (ways (base c)) [] <$> recency ([] : wb_history).*1) with [(0, false)].
  change ([(0, false)] ++ replicate (ways (base c)) (0, false)) with
    (replicate (S (ways (base c))) (0, false)).
  rewrite take_replicate, fmap_replicate. change (enc (0, false)) with 0. f_equal. lia.
Qed.

(** ** The dirty flag does not change what hits *)

Lemma before_app_in b l l' : b ∈ l -> before b (l ++ l') = before b l.
Proof.
  induction l as [|x l IH]; intros H; [by apply elem_of_nil in H|]. simpl.
  destruct (decide (x = b)); [done|]. apply elem_of_cons in H as [->|H]; [done|]. by rewrite IH.
Qed.

Section Renaming.
Variables (f : Z -> Z) (h : list Z) (b : Z).
Hypothesis Hb : b <> 0.
Hypothesis Hfb : f b <> 0.
Hypothesis Hinj : forall x y, x ∈ b :: h -> y ∈ b :: h -> f x = f y -> x = y.

Lemma before_map (l : list Z) :
  (forall x, x ∈ l -> x ∈ b :: h) -> before (f b) (f <$> l) = f <$> before b l.
Proof using Hinj.
  induction l as [|x l IH]; intros Hl; [done|]. rewrite fmap_cons. cbn [before].
  destruct (decide (x = b)) as [->|Hx]; [by rewrite decide_True|].
  rewrite decide_False.
  - rewrite IH; [done|]. intros y Hy. apply Hl. by right.
  - intros E. apply Hx, Hinj; [apply Hl; by left|by left|done].
Qed.

Lemma remove_dups_map (l : list Z) :
  (forall x, x ∈ l -> x ∈ b :: h) -> length (remove_dups (f <$> l)) = length (remove_dups l).
Proof using Hinj.
  induction l as [|x l IH]; intros Hl; [done|]. rewrite fmap_cons. cbn [remove_dups].
  assert (forall y, y ∈ l -> y ∈ b :: h) as Hl' by (intros; apply Hl; by right).
  assert (f x ∈ f <$> l <-> x ∈ l) as Hiff.
  { split; [|apply list_elem_of_fmap_2]. intros (y & E & Hy)%list_elem_of_fmap.
    rewrite (Hinj x y); [done|apply Hl; by left|by apply Hl'|done]. }
  destruct (decide_rel elem_of x l), (decide_rel elem_of (f x) (f <$> l)); try tauto;
    simpl length; by rewrite IH.
Qed.

(** Renaming the lines of a set does not change what hits. *)
Lemma reuse_hit_map n : reuse_hit n (f <$> h) (f b) = reuse_hit n h b.
Proof using Hb Hfb Hinj.
  unfold reuse_hit. destruct (decide (b ∈ h)) as [Hin|Hin].
  - rewrite !bool_decide_true by (apply elem_of_app; left; auto using list_elem_of_fmap_2).
    unfold reuse_distance. rewrite !before_app_in by auto using list_elem_of_fmap_2.
    assert (forall x, x ∈ h -> x ∈ b :: h) as Hh by (intros; by right).
    rewrite before_map by done. rewrite remove_dups_map; [done|].
    intros x Hx. right. eapply sublist_subseteq; [apply before_sublist|done].
  - rewrite !bool_decide_false; [done|..].
    + rewrite elem_of_app, list_elem_of_singleton. tauto.
    + rewrite elem_of_app, list_elem_of_singleton. intros [(x & E & Hx)%list_elem_of_fmap|?]; [|done].
      apply Hin. rewrite (Hinj b x); [done|by left|by right|done].
Qed.
End Renaming.

(** The tag of block [b] in a cache of [n] sets. *)
Definition block_tag (n k b : Z) : Z := b / n * 2 ^ k.

(** The lines touched by a history of blocks. *)
Definition ll_of (n k : Z) (l : list (Z * RefType)) : ll_history :=
  (fun p => (p.1 mod n, (block_tag n k p.1, p.2))) <$> l.

Lemma land_mask_div a k : 0 <= k < 32 -> 0 <= a < 2 ^ 32 -> Z.land a (2 ^ 32 - 2 ^ k) = a / 2 ^ k * 2 ^ k.
Proof.
  intros Hk Ha. rewrite <- Z.shiftl_mul_pow2, <- Z.shiftr_div_pow2 by lia.
  apply Z.bits_inj'. intros n Hn. rewrite Z.land_spec, mask_testbit, Z.shiftl_spec by lia.
  destruct (Z.leb_spec k n).
  - rewrite Z.shiftr_spec, Z.sub_add by lia. destruct (Z.ltb_spec n 32); [by rewrite andb_true_r|].
    rewrite andb_false_r. symmetry. destruct (Z.eq_dec a 0) as [->|]; [apply Z.bits_0|].
    apply Z.bits_above_log2; [lia|]. apply Z.log2_lt_pow2; [lia|].
    eapply Z.lt_le_trans; [apply Ha|]. by apply Z.pow_le_mono_r.
  - rewrite andb_false_r. symmetry. apply Z.testbit_neg_r. lia.
Qed.

Lemma land_mask_block (g : geom) k a :
  0 <= g_bits g -> 0 < g_sets g -> 2 ^ k = 2 ^ g_bits g * g_sets g -> 0 <= k < 32 -> 0 <= a < 2 ^ 32 ->
  Z.land a (2 ^ 32 - 2 ^ k) = block_tag (g_sets g) k (a / 2 ^ g_bits g).
Proof.
  intros Hb Hs Hp Hk Ha. rewrite land_mask_div by done. unfold block_tag.
  rewrite Z.div_div by (try lia; apply Z.pow_pos_nonneg; lia). by rewrite Hp.
Qed.

(** The history of a set, as renamed blocks. *)
Lemma set_hist_blocks n k s l :
  (set_hist s (ll_of n k l)).*1 = block_tag n k <$> List.filter (in_set n s) l.*1.
Proof.
  unfold set_hist, ll_of. induction l as [|[b r] l IH]; [done|].
  cbn [fmap list_fmap List.filter fst snd]. unfold in_set at 1.
  destruct (b mod n =? s); cbn; [by f_equal|done].
Qed.

Definition blocks_high (n : Z) (l : list (Z * RefType)) : Prop := Forall (fun p => n <= p.1) l.

Lemma touch_same_hit g k l b :
  0 < g_sets g -> 0 <= k -> g_sets g <= b -> blocks_high (g_sets g) l ->
  reuse_hit (g_ways g) (set_hist (b mod g_sets g) (ll_of (g_sets g) k l)).*1
    (block_tag (g_sets g) k b) = geom_hit g l.*1 b.
Proof.
  intros Hn Hk Hb Hl. rewrite set_hist_blocks. unfold geom_hit, set_history.
  assert (1 <= b / g_sets g) by (apply Z.div_le_lower_bound; lia).
  assert (0 < 2 ^ k) by (apply Z.pow_pos_nonneg; lia).
  apply reuse_hit_map; [lia|unfold block_tag; nia|].
  intros x y Hx Hy E.
  assert (forall z, z ∈ b :: List.filter (in_set (g_sets g) (b mod g_sets g)) l.*1 ->
    z mod g_sets g = b mod g_sets g) as Hz.
  { intros z [->|Hz]%elem_of_cons; [done|]. apply list_elem_of_In, filter_In in Hz as [_ Hz].
    by apply Z.eqb_eq. }
  apply Hz in Hx. apply Hz in Hy. unfold block_tag in E. apply Z.mul_cancel_r in E; [|lia].
  rewrite (Z.div_mod x (g_sets g)), (Z.div_mod y (g_sets g)), E, Hx, Hy by lia. done.
Qed.

Definition not_hit (r : CacheResult) : bool := match r with Hit => false | _ => true end.

Lemma wb_result_hit n h t : not_hit (wb_result n h t) = negb (reuse_hit n h.*1 t).
Proof. unfold wb_result. by destruct (reuse_hit n h.*1 t), (victim_dirty n h). Qed.

Lemma wb_join_hit r1 r2 : not_hit (wb_join r1 r2) = not_hit r1 || not_hit r2.
Proof. by destruct r1, r2. Qed.

(** One reference inside the first 4 GB, above the lines that a cold cache
    seems to hold. *)
Lemma ref_same_hit g k l r a sz :
  0 <= g_bits g -> 2 <= g_sets g -> 2 ^ k = 2 ^ g_bits g * g_sets g -> 0 <= k < 32 ->
  access_ok (g_bits g) a sz -> 2 ^ k <= a -> a + sz - 1 < 2 ^ 32 -> blocks_high (g_sets g) l ->
  exists l', spec_ref_wb g (2 ^ 32 - 2 ^ k) (ll_of (g_sets g) k l) r a sz
      = ((spec_ref_wb g (2 ^ 32 - 2 ^ k) (ll_of (g_sets g) k l) r a sz).1, ll_of (g_sets g) k l') /\
    not_hit (spec_ref_wb g (2 ^ 32 - 2 ^ k) (ll_of (g_sets g) k l) r a sz).1
      = (spec_ref g l.*1 a sz).1 /\
    l'.*1 = (spec_ref g l.*1 a sz).2 /\ blocks_high (g_sets g) l'.
Proof.
  intros Hb Hs Hp Hk Ha Hlo Hhi Hl.
  pose proof (access_blocks _ _ _ Hb Ha) as Hblk. destruct Ha as [Ha0 Hsz _].
  assert (0 < 2 ^ g_bits g) as Hpos by (apply Z.pow_pos_nonneg; lia).
  assert (g_sets g <= a / 2 ^ g_bits g) as Hb1 by (apply Z.div_le_lower_bound; lia).
  unfold spec_ref_wb, spec_ref. rewrite !(land_mask_block g k) by lia.
  set (b1 := a / _) in *. set (b2 := (a + sz - 1) / _) in *.
  destruct (Z.eqb_spec b1 b2) as [Heq|Hne].
  { rewrite <- Heq, Z.eqb_refl. exists ((b1, r) :: l). cbn [fst snd].
    rewrite wb_result_hit, touch_same_hit by (done || lia). split_and!; [done..|].
    by constructor. }
  assert (b2 = b1 + 1) as E2 by lia.
  destruct (Z.eqb_spec (b1 mod g_sets g) (b2 mod g_sets g)) as [E|_].
  { exfalso. rewrite E2, Z.add_mod, (Z.mod_small 1) in E by lia.
    pose proof (Z.mod_pos_bound b1 (g_sets g) ltac:(lia)).
    destruct (Z.eq_dec (b1 mod g_sets g + 1) (g_sets g)) as [E'|E'];
      [rewrite E', Z.mod_same in E by lia|rewrite (Z.mod_small (b1 mod g_sets g + 1)) in E by lia]; lia. }
  exists ((b2, r) :: (b1, r) :: l). cbn [fst snd].
  assert (blocks_high (g_sets g) ((b1, r) :: l)) as Hl1 by (by constructor).
  rewrite wb_join_hit, !wb_result_hit, touch_same_hit by (done || lia).
  change ((b1 mod g_sets g, (block_tag (g_sets g) k b1, r)) :: ll_of (g_sets g) k l) with
    (ll_of (g_sets g) k ((b1, r) :: l)).
  rewrite touch_same_hit by (done || lia). split_and!; [done..|].
  constructor; [simpl; lia|done].
Qed.

(** The references of a trace without their kind. *)
Definition plain (tr : list (RefType * Z * Z)) : list (Z * Z) := (fun p => (p.1.2, p.2)) <$> tr.

Definition low_trace (k : Z) (tr : list (RefType * Z * Z)) : Prop :=
  Forall (fun p => 2 ^ k <= p.1.2 /\ p.1.2 + p.2 - 1 < 2 ^ 32) tr.

Lemma run_same_hits g k l tr :
  0 <= g_bits g -> 2 <= g_sets g -> 2 ^ k = 2 ^ g_bits g * g_sets g -> 0 <= k < 32 ->
  wb_trace_ok (g_bits g) tr -> low_trace k tr -> blocks_high (g_sets g) l ->
  not_hit <$> wb_spec_run g (2 ^ 32 - 2 ^ k) (ll_of (g_sets g) k l) tr
    = spec_run g l.*1 (plain tr).
Proof.
  intros Hb Hs Hp Hk. revert l; induction tr as [|[[r a] sz] tr IH]; intros l Ht Hlow Hl; [done|].
  apply Forall_cons in Ht as [Ha Ht]. apply Forall_cons in Hlow as [[Hlo Hhi] Hlow].
  cbn [fst snd] in Ha, Hlo, Hhi.
  destruct (ref_same_hit g k l r a sz) as (l' & E & E1 & E2 & Hl'); try done.
  cbn [wb_spec_run]. rewrite fmap_cons, E1, E. cbn [snd].
  change (plain ((r, a, sz) :: tr)) with ((a, sz) :: plain tr). cbn [spec_run].
  f_equal. rewrite <- E2. by apply IH.
Qed.

(** ** Properties *)


(** Four lines that share a set of a two-way cache, two of them written. *)
Definition wb_demo : list (RefType * Z * Z) :=
  [(Read, 65536, 4); (Write, 65544, 4); (Read, 131072, 4); (Read, 196608, 4); (Read, 262144, 8);
   (Write, 65598, 4); (Read, 65536, 4)].

Definition wb_demo_cfg : cache_t := Cache 1024 2 64.

Lemma wb_demo_ok : wb_trace_ok 6 wb_demo.
Proof. unfold wb_trace_ok, wb_demo. repeat constructor; simpl; lia. Qed.

Lemma wb_demo_valid : valid_cache wb_demo_cfg.
Proof.
  apply check_cache_sound; [unfold int_fields, in_s; simpl; lia|vm_compute; reflexivity].
Qed.


(** "The resulting counts are the same for write-through and write-back
    caches": on a cache of at least two sets and addresses between the size of
    one way and 4 GB, the write-back simulator misses exactly where the simple
    one does. *)
Theorem wb_hits_as_plain (nm : string) (cfg : cache_t) (tr : list (RefType * Z * Z)) :
  valid_cache cfg -> 2 <= g_sets (cfg_geom cfg) -> wb_trace_ok (Z.log2 (line_size cfg)) tr ->
  low_trace (cfg_shift cfg) tr ->
  exists c c1 c2 results flags, clg_cachesim_initcache false nm cfg = Ok c /\
    wb_run c tr = Ok (results, c1) /\ sim_run (base c) (plain tr) = Ok (flags, c2) /\
    not_hit <$> results = flags.
Proof.
  intros Hv Hs Ht Hlow.
  destruct (initcache_wb nm cfg Hv) as (c & E & Hh & Hm & Hg & Hmask & Hsh).
  destruct (wb_run_spec c [] tr Hh Hm) as (c1 & Hr).
  { by injection Hg as _ _ ->. }
  destruct (clg_initcache_same nm cfg Hv) as (b & c' & Eb & Ec & Hb & _ & _ & Hm').
  rewrite E in Ec. simplify_eq.
  destruct (initcache_run cfg (plain tr) Hv) as (b & b' & Eb' & Hr').
  { unfold trace_ok, plain. apply Forall_fmap. exact Ht. }
  rewrite Eb in Eb'. simplify_eq.
  do 5 eexists. split_and!; [done|exact Hr|exact Hr'|]. rewrite Hg, Hmask.
  destruct (initcache_shift cfg (base c') Hv Eb) as [Hp _].
  assert (cfg_shift cfg = tag_shift (base c')) as Hks.
  { rewrite Hmask in Hm'. apply (Z.pow_inj_r 2); [lia| |..].
    - pose proof (wf_bits _ (wh_wf _ _ Hh)). rewrite <- Hg in Hsh. cbn in Hsh. lia.
    - destruct (initcache_shift cfg (base c') Hv Eb) as [_ ?].
      pose proof (wf_bits _ (wh_wf _ _ Hh)). lia.
    - lia. }
  pose proof (wf_bits _ (wh_wf _ _ Hh)) as Hbits.
  rewrite <- Hg in Hsh, Hs |- *. cbn [g_bits g_sets geom_of] in Hsh, Hs |- *.
  apply (run_same_hits _ _ []); cbn [g_bits g_sets geom_of]; try done; try lia.
  - rewrite Hks, Hp. f_equal. apply (wf_line _ (wh_wf _ _ Hh)).
  - by injection Hg as _ _ ->.
  - constructor.
Qed.

Lemma wb_hits_as_plain_witness :
  exists c c1 c2 results flags, clg_cachesim_initcache false "LL" wb_demo_cfg = Ok c /\
    wb_run c wb_demo = Ok (results, c1) /\ sim_run (base c) (plain wb_demo) = Ok (flags, c2) /\
    not_hit <$> results = flags.
Proof.
  apply (wb_hits_as_plain "LL" wb_demo_cfg wb_demo); [exact wb_demo_valid| |exact wb_demo_ok|].
  - vm_compute. discriminate.
  - change (cfg_shift wb_demo_cfg) with 9. unfold low_trace, wb_demo. repeat constructor; simpl; lia.
Defined.

(** The tag mask is computed in 32 bits and zero-extended, so the
    write-back simulator takes no notice of the upper half of an address: a
    reference 4 GB further is treated as the same reference, in every state. *)
Theorem wb_aliases_4GB (c : clg_cache_t2) (r : RefType) (a sz k : Z) :
  wf_cache2 (base c) -> tag_mask c = 2 ^ 32 - 2 ^ k -> 0 <= k < 32 ->
  2 ^ k = t2_line_size (base c) * sets (base c) ->
  0 <= a -> 1 <= sz -> a + 2 ^ 32 + sz - 1 < 2 ^ 64 ->
  cachesim_ref_wb c r (a + 2 ^ 32) sz = cachesim_ref_wb c r a sz.
Proof.
  intros Hw Hm Hk Hp Ha Hsz He. pose proof (wf_bits _ Hw) as Hb. pose proof (wf_line _ Hw) as Hl.
  pose proof (wf_sets_bound _ Hw) as Hs.
  assert (forall x, Z.land (x + 2 ^ 32) (tag_mask c) = Z.land x (tag_mask c)) as Htag.
  { intros x. rewrite Hm. apply Z.bits_inj'. intros n Hn. rewrite !Z.land_spec, mask_testbit by lia.
    destruct (Z.leb_spec k n), (Z.ltb_spec n 32); cbn; rewrite ?andb_false_r; try done.
    rewrite !andb_true_r. rewrite <- (Z.mod_pow2_bits_low (x + 2 ^ 32) 32) by lia.
    rewrite <- (Z.mod_pow2_bits_low x 32) by lia. f_equal.
    rewrite <- (Z.mul_1_l (2 ^ 32)) at 1. apply Z.mod_add. lia. }
  assert (exists q, 2 ^ 32 = q * sets (base c) * 2 ^ line_size_bits (base c)) as [q Hq].
  { exists (2 ^ (32 - k)). replace 32 with (32 - k + k) at 1 by lia.
    rewrite Z.pow_add_r, Hp, Hl by lia. lia. }
  assert (forall x, (Z.shiftr (x + 2 ^ 32) (line_size_bits (base c))) mod sets (base c)
    = (Z.shiftr x (line_size_bits (base c))) mod sets (base c)) as Hset.
  { intros x. rewrite !Z.shiftr_div_pow2 by lia. rewrite Hq, Z.div_add by
      (apply Z.pow_nonzero; lia). apply Z.mod_add. lia. }
  unfold cachesim_ref_wb. rewrite !(wrapu_small 64) with (x := a + sz - 1) by (unfold in_u; lia).
  replace (u64 (a + 2 ^ 32 + sz - 1)) with (a + sz - 1 + 2 ^ 32)
    by (rewrite wrapu_small; [lia|unfold in_u; lia]).
  rewrite !set_number by done. by rewrite !Hset, !Htag.
Qed.

Definition wb_demo_ll : clg_cache_t2 :=
  match clg_cachesim_initcache false "LL" wb_demo_cfg with
  | Ok c => c
  | Err _ => MkClgCache "" (Cache2 0 0 0 0 0 0 0 "" []) false 0 0 [] [] [] None
  end.

Lemma wb_aliases_4GB_witness :
  cachesim_ref_wb wb_demo_ll Write (4096 + 2 ^ 32) 8 = cachesim_ref_wb wb_demo_ll Write 4096 8.
Proof.
  apply (wb_aliases_4GB wb_demo_ll Write 4096 8 9); try lia; try (vm_compute; reflexivity).
  constructor; try (vm_compute; intuition (reflexivity || discriminate)).
  exists 3. split; [lia|vm_compute; reflexivity].
Defined.
