(* ===== verification/ClgPrefetch.v ===== *)
(** * ClgPrefetch: the stream prefetcher of callgrind's simulator

    Eight streams, one per page number modulo 8, each with the last block seen
    and the signed length of its current run.  The theorem shows that the
    prefetcher cannot fault and that a run never outgrows a page, so the signed
    counters are safe although the code does not bound them.  The example at
    the end combines it with the write-back model. *)

From Stdlib Require Import ZArith Lia Ascii String.
From stdpp Require Import base numbers strings list.
From S2P Require Import Prelude Libcbase CgArch Lru CgSim ClgCosts ClgSim ClgWb.

#[local] Open Scope Z_scope.

(** ** Streams *)

(** Blocks of a page, the position of a block in its page, and its stream. *)
Definition page_blocks (bits : Z) : Z := 2 ^ (PF_PAGEBITS - bits).
Definition page_pos (bits b : Z) : Z := b mod page_blocks bits.
Definition stream_of (bits b : Z) : Z := (b / page_blocks bits) mod PF_STREAMS.

Lemma page_blocks_pos bits : 0 <= bits <= PF_PAGEBITS -> 0 < page_blocks bits.
Proof. intros H. apply Z.pow_pos_nonneg; lia. Qed.

Lemma page_blocks_32 bits :
  0 <= bits <= PF_PAGEBITS -> exists q, 0 < q /\ 2 ^ 32 = q * PF_STREAMS * page_blocks bits.
Proof.
  unfold PF_PAGEBITS, page_blocks. intros H. exists (2 ^ (17 + bits)). split; [apply Z.pow_pos_nonneg; lia|].
  change PF_STREAMS with (2 ^ 3). unfold PF_PAGEBITS. rewrite <- !Z.pow_add_r by lia.
  f_equal. lia.
Qed.

(** The 32-bit block number determines the stream of the address. *)
Lemma stream_of_address bits a :
  0 <= bits <= PF_PAGEBITS -> 0 <= a ->
  u32 (Z.shiftr a PF_PAGEBITS mod PF_STREAMS) = stream_of bits (u32 (Z.shiftr a bits)).
Proof.
  intros Hb Ha. pose proof (page_blocks_pos bits Hb) as Hp.
  destruct (page_blocks_32 bits Hb) as (q & Hq & E).
  pose proof (Z.mod_pos_bound (Z.shiftr a PF_PAGEBITS) PF_STREAMS ltac:(done)) as Hm.
  rewrite u32_nonneg by (unfold PF_STREAMS in *; lia).
  unfold stream_of, wrapu. rewrite E, Z.mul_comm, Z.rem_mul_r by (unfold PF_STREAMS; lia).
  rewrite (Z.add_comm (_ mod _)), (Z.mul_comm (page_blocks bits)), Z.div_add_l by lia.
  rewrite (Z.div_small (_ mod page_blocks bits)) by (apply Z.mod_pos_bound; lia).
  rewrite Z.add_0_r, (mod_mod_divide _ PF_STREAMS) by
    (unfold PF_STREAMS; lia || (exists q; done)).
  rewrite !Z.shiftr_div_pow2 by (unfold PF_PAGEBITS; lia).
  unfold page_blocks. rewrite Z.div_div by (apply Z.pow_nonzero || apply Z.pow_pos_nonneg; lia).
  rewrite <- Z.pow_add_r by lia. do 3 f_equal. lia.
Qed.

(** Moving to the next block inside one stream stays inside the page. *)
Lemma next_in_page bits b :
  0 <= bits <= PF_PAGEBITS -> 0 <= b < 2 ^ 32 -> stream_of bits (u32 (b + 1)) = stream_of bits b ->
  page_pos bits (u32 (b + 1)) = page_pos bits b + 1.
Proof.
  intros Hb Hr. pose proof (page_blocks_pos bits Hb) as Hp.
  destruct (page_blocks_32 bits Hb) as (q & Hq & E).
  set (P := page_blocks bits) in *. unfold stream_of, page_pos. fold P.
  assert (forall x, (u32 x / P) mod PF_STREAMS = (x / P) mod PF_STREAMS /\ u32 x mod P = x mod P) as Hu.
  { intros x. unfold wrapu. rewrite E, Z.mul_comm, Z.rem_mul_r by (unfold PF_STREAMS; lia).
    split.
    - rewrite (Z.add_comm (_ mod _)), (Z.mul_comm P), Z.div_add_l by lia.
      rewrite (Z.div_small (_ mod P)) by (apply Z.mod_pos_bound; lia).
      rewrite Z.add_0_r. apply mod_mod_divide; [done|by exists q|unfold PF_STREAMS; lia].
    - rewrite (Z.mul_comm P), Z.mod_add, Z.mod_mod by lia. done. }
  destruct (Hu (b + 1)) as [-> ->].
  pose proof (Z.mod_pos_bound b P Hp) as Hm. pose proof (Z.div_mod b P ltac:(lia)) as Hd.
  destruct (Z.eq_dec (b mod P) (P - 1)) as [Ee|Ee].
  - replace (b + 1) with ((b / P + 1) * P) by lia. rewrite Z.div_mul by lia.
    intros H. exfalso. revert H. rewrite <- Zplus_mod_idemp_l. unfold PF_STREAMS.
    pose proof (Z.mod_pos_bound (b / P) 8 ltac:(lia)).
    destruct (Z.eq_dec ((b / P) mod 8) 7) as [->|]; [by vm_compute|].
    rewrite Z.mod_small by lia. lia.
  - intros _. rewrite Z.add_mod, (Z.mod_small 1) by lia. apply Z.mod_small. lia.
Qed.

(** ** The invariant *)

Record stream_ok (bits i last seq : Z) : Prop := {
  so_last : in_u 32 last;
  so_here : seq <> 0 -> stream_of bits last = i;
  so_up : seq <= page_pos bits last + 1;
  so_down : - seq <= page_blocks bits - page_pos bits last
}.

Lemma stream_ok_bound bits i last seq :
  0 <= bits <= PF_PAGEBITS -> stream_ok bits i last seq -> Z.abs seq <= page_blocks bits.
Proof.
  intros Hb [_ _ Hu Hd]. pose proof (page_blocks_pos bits Hb) as Hp. unfold page_pos in *.
  pose proof (Z.mod_pos_bound last (page_blocks bits) Hp). lia.
Qed.

Lemma stream_reset bits i block :
  0 <= bits <= PF_PAGEBITS -> in_u 32 block -> stream_ok bits i block 0.
Proof.
  intros Hb Hu. pose proof (page_blocks_pos bits Hb) as Hp.
  pose proof (Z.mod_pos_bound block (page_blocks bits) Hp).
  constructor; [done|done| |]; unfold page_pos; lia.
Qed.

Lemma page_blocks_max bits : 0 <= bits <= PF_PAGEBITS -> page_blocks bits <= 2 ^ 12.
Proof. intros H. unfold page_blocks, PF_PAGEBITS in *. apply Z.pow_le_mono_r; lia. Qed.

(** One step of a stream on another block of its pages. *)
Lemma prefetch_step_ok bits i last seq block :
  0 <= bits <= PF_PAGEBITS -> stream_ok bits i last seq -> in_u 32 block ->
  stream_of bits block = i ->
  exists seq' dir, prefetch_step last seq block = Ok (seq', dir) /\ stream_ok bits i block seq'.
Proof.
  intros Hb Hok Hu Hi. pose proof (stream_ok_bound _ _ _ _ Hb Hok) as Habs.
  pose proof (page_blocks_max bits Hb) as Hmax. pose proof (page_blocks_pos bits Hb) as Hp.
  destruct Hok as [Hl Hh Hup Hdn]. pose proof (stream_reset bits i block Hb Hu) as Hreset.
  pose proof (Z.mod_pos_bound block (page_blocks bits) Hp) as Hpos. fold (page_pos bits block) in Hpos.
  unfold prefetch_step, int_add, int_sub.
  rewrite !signed_result_in by (unfold in_s; lia). cbn [rbind].
  destruct (Z.eqb_spec seq 0) as [->|Hnz].
  { destruct (Z.eqb_spec (u32 (last + 1)) block) as [_|_].
    - do 2 eexists. split; [done|]. constructor; [done|done|lia|lia].
    - destruct (Z.eqb_spec (u32 (last - 1)) block) as [_|_]; do 2 eexists; (split; [done|]).
      + constructor; [done|done|lia|lia].
      + done. }
  specialize (Hh Hnz). destruct (Z.ltb_spec 0 seq).
  - destruct (Z.eqb_spec (u32 (last + 1)) block) as [E|_]; do 2 eexists; (split; [done|]); [|done].
    pose proof (next_in_page bits last Hb Hl) as Hn. rewrite E in Hn.
    specialize (Hn ltac:(congruence)). constructor; [done|done|lia|lia].
  - destruct (Z.eqb_spec (u32 (last - 1)) block) as [E|_]; do 2 eexists; (split; [done|]); [|done].
    pose proof (next_in_page bits block Hb Hu) as Hn.
    assert (u32 (block + 1) = last) as Eb.
    { rewrite <- E. unfold wrapu. rewrite Zplus_mod_idemp_l. replace (last - 1 + 1) with last by lia.
      by apply Z.mod_small. }
    rewrite Eb in Hn. specialize (Hn ltac:(congruence)). constructor; [done|done|lia|lia].
Qed.

(** The whole prefetcher: eight sound streams over a last level that LRU
    describes. *)
Record pf_inv (bits : Z) (s : sim_state) : Prop := {
  pi_lasts : length (pf_lastblock s) = 8%nat;
  pi_seqs : length (pf_seqblocks s) = 8%nat;
  pi_streams : forall i last seq, pf_lastblock s !! i = Some last -> pf_seqblocks s !! i = Some seq ->
    stream_ok bits (Z.of_nat i) last seq;
  pi_bits : line_size_bits (base (s_LL s)) = bits;
  pi_LL : exists h, cache_hist (base (s_LL s)) h
}.

(** A one-byte reference anywhere. *)
Lemma ref_one_byte c h a :
  cache_hist (base c) h -> in_u 64 a ->
  exists r c', cachesim_ref c a 1 = Ok (r, c') /\ same_geometry (base c) (base c') /\
    exists h', cache_hist (base c') h'.
Proof.
  intros Hc Ha. pose proof (wf_bits _ (ch_wf _ _ Hc)) as Hb.
  destruct (ref_hist (base c) h a 1 Hc) as (b' & E & G & H').
  { unfold in_u in Ha. constructor; [lia| |lia]. split; [lia|].
    pose proof (Z.pow_pos_nonneg 2 (line_size_bits (base c))). lia. }
  rewrite ref_same, E. cbn [rbind]. do 2 eexists. split_and!; [done|exact G|eauto].
Qed.

Lemma prefetch_doref_ok bits s a :
  0 <= bits <= PF_PAGEBITS -> pf_inv bits s -> in_u 64 a ->
  exists s', prefetch_LL_doref s a = Ok s' /\ pf_inv bits s' /\ s_I1 s' = s_I1 s /\ s_D1 s' = s_D1 s.
Proof.
  intros Hb Hi Ha. destruct Hi as [Hl1 Hl2 Hst Hbits [h Hh]].
  unfold in_u in Ha. unfold prefetch_LL_doref. rewrite Hbits, (stream_of_address bits) by lia.
  set (block := u32 (Z.shiftr a bits)).
  assert (in_u 32 block) as Hu by (by apply wrapu_range).
  pose proof (Z.mod_pos_bound (block / page_blocks bits) PF_STREAMS ltac:(done)) as Hm.
  fold (stream_of bits block) in Hm. set (i := stream_of bits block) in *.
  change PF_STREAMS with 8 in Hm.
  destruct (lookup_lt_is_Some_2 (pf_lastblock s) (Z.to_nat i)) as [last El]; [lia|].
  destruct (lookup_lt_is_Some_2 (pf_seqblocks s) (Z.to_nat i)) as [seq Es]; [lia|].
  rewrite (arr_get_in _ _ last) by (done || lia). cbn [rbind].
  destruct (Z.eqb_spec block last) as [_|Hne].
  { exists s. split_and!; try done. constructor; eauto. }
  rewrite (arr_get_in _ _ seq) by (done || lia). cbn [rbind].
  destruct (prefetch_step_ok bits i last seq block Hb) as (seq' & dir & -> & Hok'); [|done|done|].
  { rewrite <- (Z2Nat.id i) by lia. by apply Hst. }
  cbn [rbind]. rewrite arr_set_in by lia. cbn [rbind].
  pose proof (ch_wf _ _ Hh) as Hw. pose proof (wf_line _ Hw) as Hline. rewrite Hbits in Hline.
  assert (0 < t2_line_size (base (s_LL s)) <= 2 ^ 12) as Hls.
  { rewrite Hline. unfold PF_PAGEBITS in Hb.
    split; [apply Z.pow_pos_nonneg; lia|apply Z.pow_le_mono_r; lia]. }
  unfold int_mul. rewrite signed_result_in by (unfold in_s; lia).
  destruct (ref_one_byte (s_LL s) h (u64 (a + 5 * t2_line_size (base (s_LL s)))) Hh)
    as (r1 & c1 & E1 & G1 & H1); [by apply wrapu_range|].
  destruct (ref_one_byte (s_LL s) h (u64 (a - 5 * t2_line_size (base (s_LL s)))) Hh)
    as (r2 & c2 & E2 & G2 & H2); [by apply wrapu_range|].
  assert (forall up down ll lasts, lasts = <[Z.to_nat i := block]> (pf_lastblock s) ->
    line_size_bits (base ll) = bits -> (exists h, cache_hist (base ll) h) ->
    pf_inv bits (MkSim (s_I1 s) (s_D1 s) ll up down lasts
      (<[Z.to_nat i := seq']> (pf_seqblocks s)))) as Hfin.
  { intros up down ll lasts -> Hll Hhh. constructor; cbn; rewrite ?length_insert; auto.
    intros j last' q Hj Hq. destruct (decide (Z.to_nat i = j)) as [<-|Hji].
    - rewrite list_lookup_insert_eq in Hj, Hq by lia. simplify_eq. by rewrite Z2Nat.id by lia.
    - rewrite list_lookup_insert_ne in Hj, Hq by done. by apply Hst. }
  destruct dir; cbn [rbind]; [|rewrite E1|rewrite E2]; cbn [rbind];
    rewrite arr_set_in by lia; cbn [rbind]; eexists; (split; [done|]);
    (split; [|done]); apply Hfin; eauto.
  - by rewrite (sg_bits _ _ G1).
  - by rewrite (sg_bits _ _ G2).
Qed.

(** The prefetcher is safe: over a last level with lines of at most one
    page, any sequence of addresses is processed without fault, touches only
    the last level and the streams, and no stream ever counts a run longer
    than the lines of a page. *)
Theorem prefetch_safe (cfg : cache_t) (s : sim_state) (nm : string) (addrs : list Z) :
  valid_cache cfg -> line_size cfg <= 4096 ->
  clg_cachesim_initcache false nm cfg = Ok (s_LL s) -> Forall (in_u 64) addrs ->
  exists s', res_fold (fun a s => prefetch_LL_doref s a) addrs (prefetch_clear s) = Ok s' /\
    s_I1 s' = s_I1 s /\ s_D1 s' = s_D1 s /\
    Forall (fun n => Z.abs n <= 4096 / line_size cfg) (pf_seqblocks s').
Proof.
  intros Hv Hls Hi Ha.
  destruct (clg_initcache_same nm cfg Hv) as (b & c & Eb & Ec & <- & _).
  rewrite Hi in Ec. injection Ec as <-.
  destruct (initcache_hist cfg Hv) as (b & E & Hh & _ & Hl & _). rewrite Eb in E. injection E as <-.
  pose proof (wf_bits _ (ch_wf _ _ Hh)) as Hbits. pose proof (wf_line _ (ch_wf _ _ Hh)) as Hline.
  set (bits := line_size_bits (base (s_LL s))) in *. rewrite Hl in Hline.
  assert (0 <= bits <= PF_PAGEBITS) as Hb.
  { unfold PF_PAGEBITS. split; [lia|]. apply (Z.pow_le_mono_r_iff 2); lia. }
  assert (4096 / line_size cfg = page_blocks bits) as ->.
  { rewrite Hline. change 4096 with (2 ^ 12). unfold page_blocks, PF_PAGEBITS in *.
    symmetry. apply Z.pow_sub_r; lia. }
  assert (pf_inv bits (prefetch_clear s)) as Hinv.
  { constructor; cbn; auto; [|eauto]. intros i last seq E1 E2.
    change (replicate 8 0) with (replicate (Z.to_nat PF_STREAMS) 0) in *.
    apply lookup_replicate in E1 as [-> _]. apply lookup_replicate in E2 as [-> _].
    apply stream_reset; [done|unfold in_u; lia]. }
  change (s_I1 s) with (s_I1 (prefetch_clear s)). change (s_D1 s) with (s_D1 (prefetch_clear s)).
  revert Hinv. generalize (prefetch_clear s) as s0. clear -Hb Ha.
  induction Ha as [|a addrs Ha Has IH]; intros s0 Hinv; cbn [res_fold].
  - exists s0. split_and!; [done..|]. apply Forall_lookup_2. intros i q Hq.
    destruct (lookup_lt_is_Some_2 (pf_lastblock s0) i) as [last El].
    { apply lookup_lt_Some in Hq. rewrite (pi_lasts _ _ Hinv), <- (pi_seqs _ _ Hinv). done. }
    eapply stream_ok_bound; [done|]. by eapply pi_streams.
  - destruct (prefetch_doref_ok bits s0 a Hb Hinv Ha) as (s1 & -> & Hinv1 & E1 & E2). cbn [rbind].
    destruct (IH s1 Hinv1) as (s2 & E & F1 & F2 & F3). exists s2. split_and!; congruence || done.
Qed.

(** Three small caches. *)
Definition pf_demo : sim_state :=
  MkSim wb_demo_ll wb_demo_ll wb_demo_ll 0 0 (replicate 8 0) (replicate 8 0).

Lemma prefetch_safe_witness :
  exists s', res_fold (fun a s => prefetch_LL_doref s a)
      [65536; 65600; 65664; 65728; 131072; 70000] (prefetch_clear pf_demo) = Ok s' /\
    s_I1 s' = s_I1 pf_demo /\ s_D1 s' = s_D1 pf_demo /\
    Forall (fun n => Z.abs n <= 4096 / line_size wb_demo_cfg) (pf_seqblocks s').
Proof.
  apply (prefetch_safe wb_demo_cfg pf_demo "LL").
  - exact wb_demo_valid.
  - simpl. lia.
  - vm_compute. reflexivity.
  - repeat constructor; lia.
Defined.

(** The results of a trace of reads with write-back and prefetch both on. *)
Fixpoint pf_reads (s : sim_state) (tr : list Z) : res (list CacheModelResult) :=
  match tr with
  | [] => Ok []
  | a :: tr' =>
      let! (r, s) := prefetch_D1_Read s a 4 in
      let! rs := pf_reads s tr' in
      Ok (r :: rs)
  end.

Fixpoint pf_refs (s : sim_state) (tr : list Z) : res (list CacheModelResult) :=
  match tr with
  | [] => Ok []
  | a :: tr' =>
      let! (r, s) := prefetch_D1_ref s a 4 in
      let! rs := pf_refs s tr' in
      Ok (r :: rs)
  end.

(** With write-back and prefetch together, the prefetcher fills the last level
    through [cachesim_ref], whose tags are block numbers, while the references
    look for masked addresses.  So a program that never writes is charged a
    write-back when the prefetched block number is odd, and a sequential walk
    that hits in the simple model from its eighth line on never hits. *)
Example prefetch_write_back_mixes_tags :
  pf_reads pf_demo [65536; 65600; 65664; 131520; 262592]
    = Ok [MemAccess; MemAccess; MemAccess; MemAccess; WriteBackMemAccess] /\
  pf_reads pf_demo ((fun i => 65536 + 64 * i) <$> seqZ 0 12) = Ok (replicate 12 MemAccess) /\
  pf_refs pf_demo ((fun i => 65536 + 64 * i) <$> seqZ 0 12)
    = Ok (replicate 7 MemAccess ++ replicate 5 LL_Hit).
Proof. vm_compute. split_and!; reflexivity. Qed.
