(* ===== verification/ClgUse.v ===== *)
(** * ClgUse: the state of callgrind's simulator and the cache-use model
    (callgrind/sim.c, "Cache Simulation with use metric collection")

    The static variables the helpers of sim.c work on, and the fourth model of
    the caches.  With [--cacheuse=yes] the low bits of a tag point to a pair of
    records of its set: how often and where the line was used since it was
    loaded, and which instruction loaded it.  When a line is evicted its use is
    charged to the cost array of that instruction.  CLG_DEBUG output is left
    out. *)

From Stdlib Require Import ZArith Lia Ascii String.
From stdpp Require Import base numbers option strings gmap list.
From S2P Require Import Prelude Libcbase CgArch CgSim ClgCosts ClgEvents ClgSim.

#[local] Open Scope Z_scope.

(** ** State *)

Record InstrInfo : Type := MkInstr {
  instr_offset : Z;
  instr_size : Z;
  cost_offset : Z;
  eventset : option EventSet
}.

(** Of a basic block's cost centre the simulator uses two cost arrays, which
    may be null. *)
Record BBCC : Type := MkBBCC { skipped : option cptr; bbcc_cost : option cptr }.

(** Of the execution state, the counters, the switch and the block that is
    charged while a function is skipped. *)
Record exec_state : Type := MkExec {
  ex_cost : option cptr;
  collect : bool;
  nonskipped : option BBCC
}.

Record event_sets : Type := MkSets { sets_base : EventSet; sets_full : EventSet }.

Record clg_state : Type := MkClg {
  sim : sim_state;
  mem : cost_mem;
  bb_base : Z;
  cost_base : option cptr;
  current_ii : option InstrInfo;
  current_state : exec_state;
  clg_sets : event_sets;
  clo_simulate_writeback : bool
}.

Definition set_sim (s : clg_state) (x : sim_state) : clg_state :=
  MkClg x (mem s) (bb_base s) (cost_base s) (current_ii s) (current_state s) (clg_sets s)
    (clo_simulate_writeback s).
Definition set_mem (s : clg_state) (m : cost_mem) : clg_state :=
  MkClg (sim s) m (bb_base s) (cost_base s) (current_ii s) (current_state s) (clg_sets s)
    (clo_simulate_writeback s).
Definition set_ii (s : clg_state) (ii : option InstrInfo) : clg_state :=
  MkClg (sim s) (mem s) (bb_base s) (cost_base s) ii (current_state s) (clg_sets s)
    (clo_simulate_writeback s).

(** [p + i] on a cost pointer that may be null, and dereferencing it. *)
Definition opt_add (p : option cptr) (i : Z) : option cptr := (fun q => ptr_add q i) <$> p.

Definition deref_cost (p : option cptr) : res cptr :=
  match p with Some q => Ok q | None => Err NullDeref end.

(** ** Use counters *)

Definition off_AcCost1 : Z := 0.    (* off_I1_AcCost, off_D1_AcCost *)
Definition off_SpLoss1 : Z := 1.
Definition off_LL_AcCost : Z := 2.
Definition off_LL_SpLoss : Z := 3.

(** [c = ((c >> S) & B) + (c & B)]. *)
Definition count_step (sh mask c : Z) : Z := u32 (Z.land (Z.shiftr c sh) mask + Z.land c mask).

Definition countBits (bits : Z) : Z :=
  let c := count_step 1 0x55555555 bits in
  let c := count_step 2 0x33333333 c in
  let c := count_step 4 0x0F0F0F0F c in
  let c := count_step 8 0x00FF00FF c in
  count_step 16 0x0000FFFF c.

(** [((32 - countBits(use->mask)) * line_size) >> 5] as an [int]. *)
Definition lost_bytes (mask line_size : Z) : Z :=
  s32 (Z.shiftr (u32 (u32 (32 - countBits mask) * u32 line_size)) 5).

Definition get_uses (c : clg_cache_t2) : res (list line_use) :=
  match use c with Some us => Ok us | None => Err NullDeref end.

Definition with_use (c : clg_cache_t2) (us : list line_use) (ls : list line_loaded) : clg_cache_t2 :=
  MkClgCache (name c) (base c) (sectored c) (tag_mask c) (line_size_mask c) (line_start_mask c)
    (line_end_mask c) ls (Some us).

(** [current_ii->...], and what both updates store for a newly loaded line. *)
Definition get_ii (s : clg_state) : res InstrInfo :=
  match current_ii s with Some ii => Ok ii | None => Err NullDeref end.

Definition new_use_base (s : clg_state) (ii : InstrInfo) : option cptr :=
  match nonskipped (current_state s) with
  | Some bbcc => skipped bbcc
  | None => opt_add (cost_base s) (cost_offset ii)
  end.

(** [(loaded->use_base)[ac] += 1000 / use->count; (loaded->use_base)[sp] += lost;] *)
Definition charge_use (m : cost_mem) (ub : cptr) (ac sp count lost : Z) : res cost_mem :=
  let! avg := uint_div 1000 count in
  let! m := cost_add m (ptr_add ub ac) avg in
  cost_add m (ptr_add ub sp) lost.

Definition update_LL_use (s : clg_state) (idx mline : Z) : res clg_state :=
  let ll := s_LL (sim s) in
  let! us := get_uses ll in
  let! ld := arr_get (loaded ll) idx in
  let! us_i := arr_get us idx in
  let i := lost_bytes (u_mask us_i) (t2_line_size (base ll)) in
  let! m :=
    match use_base ld with
    | Some ub =>
        if (0 <? u_count us_i) && collect (current_state s)
        then charge_use (mem s) ub off_LL_AcCost off_LL_SpLoss (u_count us_i) i
        else Ok (mem s)
    | None => Ok (mem s)
    end in
  let! ii := get_ii s in
  let! us := arr_set us idx (MkUse 0 0) in
  let! ls := arr_set (loaded ll) idx
    (MkLoaded mline (u64 (bb_base s + instr_offset ii)) (dep_use ld) (new_use_base s ii)) in
  Ok (set_mem (set_sim s (with_LL (sim s) (with_use ll us ls))) m).

(** The pointer in the low bits of a tag. *)
Definition tag_ptr (mask tag : Z) : Z := Z.land tag (u64 (Z.lnot mask)).

Fixpoint find_way_use (t : list Z) (set mask tag i : Z) (fuel : nat) : res (option (Z * Z)) :=
  match fuel with
  | O => Ok None
  | S fuel' =>
      let! v := arr_get t (set + i) in
      if tag =? Z.land v mask then Ok (Some (i, v)) else find_way_use t set mask tag (i + 1) fuel'
  end.

(** The lookup in one set that all these functions contain: whether the tag
    hits, the pointer of its line and the new tags. *)
Definition touch_set (c : clg_cache_t2) (set_no tag : Z) : res (bool * Z * list Z) :=
  let n := t2_assoc (base c) in
  let mask := tag_mask c in
  let set := u32 (set_no * u32 n) in
  let! v0 := arr_get (c_tags c) set in
  if tag =? Z.land v0 mask then Ok (true, tag_ptr mask v0, c_tags c) else
  let! way := find_way_use (c_tags c) set mask tag 1 (Z.to_nat (n - 1)) in
  match way with
  | Some (i, tmp_tag) =>
      let! t := move_to_front (c_tags c) set (Z.to_nat i) tmp_tag in
      Ok (true, tag_ptr mask tmp_tag, t)
  | None =>
      let! v := arr_get (c_tags c) (set + (n - 1)) in
      let tmp_tag := tag_ptr mask v in
      let! t := move_to_front (c_tags c) set (Z.to_nat (n - 1)) (Z.lor tag tmp_tag) in
      Ok (false, tmp_tag, t)
  end.

(** [idx = (set_no * assoc) + pointer], an [int]. *)
Definition use_index (c : clg_cache_t2) (set_no ptr : Z) : Z :=
  s32 (u64 (u32 (set_no * u32 (t2_assoc (base c))) + ptr)).

(** The first-level cache a macro is instantiated for. *)
Inductive l1_cache : Type := L_I1 | L_D1.

Definition get_L1 (L : l1_cache) (s : sim_state) : clg_cache_t2 :=
  match L with L_I1 => s_I1 s | L_D1 => s_D1 s end.
Definition put_L1 (L : l1_cache) (s : sim_state) (c : clg_cache_t2) : sim_state :=
  match L with L_I1 => with_I1 s c | L_D1 => with_D1 s c end.

(** [l1_loaded->dep_use = &(LL.use[idx])], where [l1_loaded] is record [i1]. *)
Definition set_dep_use (s : clg_state) (L : l1_cache) (i1 idx : Z) : res clg_state :=
  let c := get_L1 L (sim s) in
  let! us := get_uses c in
  let! ld := arr_get (loaded c) i1 in
  let! ls := arr_set (loaded c) i1 (MkLoaded (memline ld) (iaddr ld) (Some idx) (use_base ld)) in
  Ok (set_sim s (put_L1 L (sim s) (with_use c us ls))).

Definition cacheuse_LL_access (s : clg_state) (mline : Z) (L : l1_cache) (i1 : Z)
  : res (CacheModelResult * clg_state) :=
  let ll := s_LL (sim s) in
  let setNo := u32 (Z.land (Z.shiftr mline (line_size_bits (base ll)))
                           (u64 (sets_min_1 (base ll)))) in
  let tag := Z.land mline (tag_mask ll) in
  let! (hit, ptr, t) := touch_set ll setNo tag in
  let s := set_sim s (with_LL (sim s) (set_c_tags ll t)) in
  let idx := use_index ll setNo ptr in
  let! s := set_dep_use s L i1 idx in
  if (hit : bool) then Ok (LL_Hit, s) else
  let! s := update_LL_use s idx mline in
  Ok (MemAccess, s).

(** [update_I1_use] and [update_D1_use]. *)
Definition update_use (L : l1_cache) (s : clg_state) (idx mask mline : Z)
  : res (CacheModelResult * clg_state) :=
  let c := get_L1 L (sim s) in
  let! us := get_uses c in
  let! ld := arr_get (loaded c) idx in
  let! us_i := arr_get us idx in
  let lost := lost_bytes (u_mask us_i) (t2_line_size (base c)) in
  let! s :=
    match use_base ld with
    | Some ub =>
        if (0 <? u_count us_i) && collect (current_state s) then
          let! m := charge_use (mem s) ub off_AcCost1 off_SpLoss1 (u_count us_i) lost in
          let ll := s_LL (sim s) in
          let! dep := match dep_use ld with Some d => Ok d | None => Err NullDeref end in
          let! lus := get_uses ll in
          let! d := arr_get lus dep in
          let! lus := arr_set lus dep
            (MkUse (u32 (u_count d + u_count us_i)) (Z.lor (u_mask d) (u_mask us_i))) in
          Ok (set_mem (set_sim s (with_LL (sim s) (with_use ll lus (loaded ll)))) m)
        else Ok s
    | None => Ok s
    end in
  let! ii := get_ii s in
  let! us := arr_set us idx (MkUse 1 mask) in
  let! ls := arr_set (loaded c) idx
    (MkLoaded mline (u64 (bb_base s + instr_offset ii)) (dep_use ld) (new_use_base s ii)) in
  let s := set_sim s (put_L1 L (sim s) (with_use c us ls)) in
  if mline =? 0 then Ok (LL_Hit, s) else cacheuse_LL_access s mline L idx.

(** [L.use[idx].count++; L.use[idx].mask |= use_mask;] *)
Definition note_use (L : l1_cache) (s : clg_state) (idx use_mask : Z) : res clg_state :=
  let c := get_L1 L (sim s) in
  let! us := get_uses c in
  let! x := arr_get us idx in
  let! us := arr_set us idx (MkUse (u32 (u_count x + 1)) (Z.lor (u_mask x) use_mask)) in
  Ok (set_sim s (put_L1 L (sim s) (with_use c us (loaded c)))).

(** One line of a reference: a hit notes the use, a miss loads the line.
    [addr] is the byte whose line is meant. *)
Definition cacheuse_line (L : l1_cache) (s : clg_state) (set_no addr use_mask : Z)
  : res (CacheModelResult * clg_state) :=
  let c := get_L1 L (sim s) in
  let! (hit, ptr, t) := touch_set c set_no (Z.land addr (tag_mask c)) in
  let s := set_sim s (put_L1 L (sim s) (set_c_tags c t)) in
  let idx := use_index c set_no ptr in
  if (hit : bool) then
    let! s := note_use L s idx use_mask in Ok (L1_Hit, s)
  else update_use L s idx use_mask (Z.land addr (u64 (Z.lnot (line_size_mask c)))).

(** [cacheuse_I1_doRead] and [cacheuse_D1_doRead]. *)
Definition cacheuse_doRead (L : l1_cache) (s : clg_state) (a sz : Z)
  : res (CacheModelResult * clg_state) :=
  let c := get_L1 L (sim s) in
  let bits := line_size_bits (base c) in
  let min_1 := u64 (sets_min_1 (base c)) in
  let e := u64 (a + sz - 1) in
  let set1 := u32 (Z.land (Z.shiftr a bits) min_1) in
  let set2 := u32 (Z.land (Z.shiftr e bits) min_1) in
  let lmask := u64 (line_size_mask c) in
  let! first := arr_get (line_start_mask c) (Z.land a lmask) in
  let! last := arr_get (line_end_mask c) (Z.land e lmask) in
  if set1 =? set2 then cacheuse_line L s set1 a (u32 (Z.land first last))
  else if Z.land (u32 (set1 + 1)) (u32 (sets_min_1 (base c))) =? set2 then
    let! (miss1, s) := cacheuse_line L s set1 a (u32 first) in
    let! (miss2, s) := cacheuse_line L s set2 e (u32 last) in
    if decide (miss2 = L1_Hit) then Ok (miss1, s)
    else Ok (if bool_decide (miss1 = MemAccess) || bool_decide (miss2 = MemAccess)
             then MemAccess else LL_Hit, s)
  else Err (Panic "item straddles more than two cache sets").

Definition cacheuse_I1_doRead := cacheuse_doRead L_I1.
Definition cacheuse_D1_doRead := cacheuse_doRead L_D1.

(** One of the loops of [cacheuse_finish]. *)
Definition finish_L1 (L : l1_cache) (s : clg_state) : res clg_state :=
  let c := get_L1 L (sim s) in
  match use c with
  | None => Ok s
  | Some _ =>
      let! n := int_mul (sets (base c)) (t2_assoc (base c)) in
      res_fold (fun i s =>
        let! ld := arr_get (loaded (get_L1 L (sim s))) i in
        match use_base ld with
        | Some _ => let! (_, s) := update_use L s i 0 0 in Ok s
        | None => Ok s
        end) (seqZ 0 n) s
  end.

Definition cacheuse_finish (s : clg_state) : res clg_state :=
  if negb (collect (current_state s)) then Ok s else
  let ii := MkInstr 0 0 0 None in
  let s := MkClg (sim s) (mem s) 0 None (Some ii) (current_state s) (clg_sets s)
             (clo_simulate_writeback s) in
  let! s := finish_L1 L_I1 s in
  let! s := finish_L1 L_D1 s in
  let! s :=
    match use (s_LL (sim s)) with
    | None => Ok s
    | Some _ =>
        let! n := int_mul (sets (base (s_LL (sim s)))) (t2_assoc (base (s_LL (sim s)))) in
        res_fold (fun i s =>
          let! ld := arr_get (loaded (s_LL (sim s))) i in
          match use_base ld with
          | Some _ => update_LL_use s i 0
          | None => Ok s
          end) (seqZ 0 n) s
    end in
  Ok (set_ii s None).
