(* ===== verification/ClgMasks.v ===== *)
(** * ClgMasks: which bytes of a line were used (callgrind/sim.c)

    The cache-use model records the touched part of a line in 32 bits, whatever
    the line size: [line_start_mask] and [line_end_mask] hold the bits from a
    byte on and up to a byte, and [countBits] counts the bits when the line is
    evicted.  The theorems say that the intersection of the two masks has
    exactly the bits whose part of the line the access touches, and that
    [countBits] counts. *)

From Stdlib Require Import ZArith Lia.
From stdpp Require Import base numbers option list.
From S2P Require Import Prelude Libcbase CgArch ClgEvents ClgSim ClgUse.

#[local] Open Scope Z_scope.

(** ** Counting bits *)

(** Numbers in fields of [w] bits, the lowest first. *)
Fixpoint fields (w : Z) (l : list Z) : Z :=
  match l with
  | [] => 0
  | a :: l' => a + 2 ^ w * fields w l'
  end.

(** The number of bits set among the lowest [n]. *)
Fixpoint popcount (n : nat) (x : Z) : Z :=
  match n with
  | O => 0
  | S k => popcount k x + Z.b2z (Z.testbit x (Z.of_nat k))
  end.

Lemma split_testbit k x y n :
  0 <= k -> 0 <= x < 2 ^ k -> 0 <= n ->
  Z.testbit (x + 2 ^ k * y) n = if n <? k then Z.testbit x n else Z.testbit y (n - k).
Proof.
  intros Hk Hx Hn. pose proof (Z.pow_pos_nonneg 2 k ltac:(lia) Hk) as Hp.
  destruct (Z.ltb_spec n k).
  - rewrite <- (Z.mod_pow2_bits_low (x + 2 ^ k * y) k n) by lia. f_equal.
    rewrite (Z.mul_comm (2 ^ k)), Z.mod_add, Z.mod_small by lia. done.
  - replace n with ((n - k) + k) at 1 by lia. rewrite <- Z.div_pow2_bits by lia. f_equal.
    rewrite (Z.mul_comm (2 ^ k)), Z.div_add, Z.div_small by lia. lia.
Qed.

(** [and] works on the low [k] bits and the rest separately. *)
Lemma land_split k x y u v :
  0 <= k -> 0 <= x < 2 ^ k -> 0 <= u < 2 ^ k ->
  Z.land (x + 2 ^ k * y) (u + 2 ^ k * v) = Z.land x u + 2 ^ k * Z.land y v.
Proof.
  intros Hk Hx Hu. apply Z.bits_inj'. intros n Hn.
  assert (0 <= Z.land x u < 2 ^ k) as Hl.
  { rewrite <- (Z.mod_small u (2 ^ k)) by done.
    rewrite <- Z.land_ones, Z.land_assoc, Z.land_ones by done. apply Z.mod_pos_bound. lia. }
  rewrite Z.land_spec, !split_testbit by done.
  destruct (n <? k); by rewrite Z.land_spec.
Qed.

(** The fields at even and at odd positions. *)
Fixpoint evens (l : list Z) : list Z :=
  match l with
  | a :: _ :: l' => a :: evens l'
  | _ => []
  end.
Fixpoint pair_sums (l : list Z) : list Z :=
  match l with
  | a :: b :: l' => (a + b) :: pair_sums l'
  | _ => []
  end.

(** [n] times the mask of a field of [w] bits followed by [w] zeros. *)
Fixpoint alternate (w : Z) (n : nat) : Z :=
  match n with
  | O => 0
  | S k => (2 ^ w - 1) + 2 ^ (2 * w) * alternate w k
  end.

Definition fit (w : Z) (l : list Z) : Prop := Forall (fun a => 0 <= a < 2 ^ w) l.

Lemma fields_double w l : 0 <= w -> forall a b, fields w (a :: b :: l) = a + 2 ^ w * b + 2 ^ (2 * w) * fields w l.
Proof.
  intros Hw a b. cbn [fields]. replace (2 * w) with (w + w) by lia. rewrite Z.pow_add_r by lia. lia.
Qed.

Lemma land_evens w n l :
  0 <= w -> fit w l -> length l = (2 * n)%nat ->
  Z.land (fields w l) (alternate w n) = fields (2 * w) (evens l).
Proof.
  intros Hw. revert l; induction n as [|n IH]; intros l Hf Hl.
  { destruct l; [done|simpl in Hl; lia]. }
  destruct l as [|a [|b l]]; simpl in Hl; try lia.
  apply Forall_cons in Hf as [Ha Hf]. apply Forall_cons in Hf as [Hb Hf].
  pose proof (Z.pow_pos_nonneg 2 w ltac:(lia) Hw) as Hp.
  assert (2 ^ (2 * w) = 2 ^ w * 2 ^ w) as E by (rewrite <- Z.pow_add_r by lia; f_equal; lia).
  rewrite fields_double by done. cbn [alternate evens fields].
  rewrite land_split by nia. rewrite IH by (done || lia). f_equal.
  replace (2 ^ w - 1) with (2 ^ w - 1 + 2 ^ w * 0) by lia. rewrite land_split by lia.
  rewrite Z.land_0_r, Z.mul_0_r, Z.add_0_r.
  replace (2 ^ w - 1) with (Z.ones w) by (rewrite Z.ones_equiv; lia).
  rewrite Z.land_ones, Z.mod_small by lia. done.
Qed.

Lemma shiftr_fields w a l : 0 <= w -> 0 <= a < 2 ^ w -> Z.shiftr (fields w (a :: l)) w = fields w l.
Proof.
  intros Hw Ha. rewrite Z.shiftr_div_pow2 by done. cbn [fields].
  rewrite (Z.mul_comm (2 ^ w)), Z.div_add, Z.div_small by lia. lia.
Qed.

Lemma fields_sums w l : forall n, length l = (2 * n)%nat ->
  fields w (evens (drop 1 l ++ [0])) + fields w (evens l) = fields w (pair_sums l).
Proof.
  intros n. revert l; induction n as [|n IH]; intros l Hl.
  { destruct l; [done|simpl in Hl; lia]. }
  destruct l as [|a [|b l]]; simpl in Hl; try lia. cbn [drop app].
  destruct l as [|c l]; [cbn [evens pair_sums fields app]; rewrite !Z.mul_0_r; lia|].
  destruct l as [|d l]; [simpl in Hl; lia|].
  specialize (IH (c :: d :: l) ltac:(cbn [length] in Hl |- *; lia)). cbn [drop app] in IH.
  change (evens (b :: (c :: d :: l) ++ [0])) with (b :: evens (d :: l ++ [0])).
  change (evens (a :: b :: c :: d :: l)) with (a :: evens (c :: d :: l)).
  change (pair_sums (a :: b :: c :: d :: l)) with (a + b :: pair_sums (c :: d :: l)).
  cbn [fields]. rewrite <- IH. cbn [app]. lia.
Qed.

Lemma fields_bound w l : 0 <= w -> fit w l -> 0 <= fields w l < 2 ^ (w * Z.of_nat (length l)).
Proof.
  intros Hw. induction l as [|a l IH]; intros Hf; [cbn; rewrite Z.mul_0_r; lia|].
  apply Forall_cons in Hf as [Ha Hf]. specialize (IH Hf). cbn [fields length].
  replace (w * Z.of_nat (S (length l))) with (w + w * Z.of_nat (length l)) by lia.
  rewrite Z.pow_add_r by lia. nia.
Qed.

(** One step of [countBits]: neighbouring fields are added. *)
Lemma count_step_sums w n l :
  0 < w -> (0 < n)%nat -> fit w l -> length l = (2 * n)%nat -> 2 * w * Z.of_nat n <= 32 ->
  count_step w (alternate w n) (fields w l) = fields (2 * w) (pair_sums l) /\
  fit (2 * w) (pair_sums l) /\ length (pair_sums l) = n.
Proof.
  intros Hw Hn Hf Hl H32. pose proof (Z.pow_pos_nonneg 2 w ltac:(lia) ltac:(lia)) as Hp.
  assert (2 ^ w * 2 <= 2 ^ (2 * w)) as Hdbl.
  { replace (2 * w) with (w + w) by lia. rewrite Z.pow_add_r by lia.
    assert (2 <= 2 ^ w) by (change 2 with (2 ^ 1) at 1; apply Z.pow_le_mono_r; lia). nia. }
  assert (fit (2 * w) (pair_sums l) /\ length (pair_sums l) = n) as [Hfit Hlen].
  { clear H32 Hn. revert l Hf Hl; induction n as [|n IH]; intros l Hf Hl.
    - destruct l; [by split; [constructor|]|simpl in Hl; lia].
    - destruct l as [|a [|b l]]; simpl in Hl; try lia.
      apply Forall_cons in Hf as [Ha Hf]. apply Forall_cons in Hf as [Hb Hf].
      destruct (IH l Hf ltac:(lia)) as [H1 H2]. cbn [pair_sums length]. rewrite H2.
      split; [|done]. constructor; [lia|done]. }
  split; [|done]. unfold count_step. rewrite (land_evens w n l) by (done || lia).
  assert (Z.shiftr (fields w l) w = fields w (drop 1 l ++ [0])) as ->.
  { destruct l as [|a l]; [simpl in Hl; lia|]. apply Forall_cons in Hf as [Ha _].
    rewrite shiftr_fields by lia. change (drop 1 (a :: l)) with l. clear. induction l as [|b l IH]; [cbn [fields app]; lia|].
    cbn [fields app]. by rewrite IH. }
  rewrite (land_evens w n).
  - rewrite (fields_sums (2 * w) l n Hl). apply wrapu_small.
    pose proof (fields_bound (2 * w) _ ltac:(lia) Hfit) as Hb. rewrite Hlen in Hb.
    split; [lia|]. eapply Z.lt_le_trans; [apply Hb|]. apply Z.pow_le_mono_r; lia.
  - lia.
  - apply Forall_app. split; [by apply Forall_drop|]. constructor; [lia|constructor].
  - rewrite length_app, length_drop. simpl. destruct l; simpl in *; lia.
Qed.

Definition bits (n : nat) (x : Z) : list Z := (fun k => Z.b2z (Z.testbit x (Z.of_nat k))) <$> seq 0 n.

Lemma bits_S n x : bits (S n) x = bits n x ++ [Z.b2z (Z.testbit x (Z.of_nat n))].
Proof. unfold bits. by rewrite seq_S, fmap_app. Qed.

Lemma bits_length n x : length (bits n x) = n.
Proof. unfold bits. by rewrite length_fmap, length_seq. Qed.

Lemma fields_app w l a :
  0 <= w -> fields w (l ++ [a]) = fields w l + 2 ^ (w * Z.of_nat (length l)) * a.
Proof.
  intros Hw. induction l as [|b l IH]; [cbn [app fields length Z.of_nat]; rewrite !Z.mul_0_r; lia|].
  cbn [app fields length]. rewrite IH.
  replace (w * Z.of_nat (S (length l))) with (w + w * Z.of_nat (length l)) by lia.
  rewrite Z.pow_add_r by lia. lia.
Qed.

Lemma fields_bits n x : fields 1 (bits n x) = x mod 2 ^ Z.of_nat n.
Proof.
  induction n as [|n IH]; [cbn; by rewrite Z.mod_1_r|].
  rewrite bits_S, fields_app, IH, bits_length by lia. rewrite Z.testbit_spec' by lia.
  rewrite Nat2Z.inj_succ, <- Z.add_1_r, Z.pow_add_r, Z.mul_1_l by lia.
  change (2 ^ 1) with 2. rewrite Z.rem_mul_r by lia. done.
Qed.

Fixpoint total (l : list Z) : Z :=
  match l with
  | [] => 0
  | a :: l' => a + total l'
  end.

Lemma total_app l a : total (l ++ [a]) = total l + a.
Proof. induction l as [|b l IH]; cbn [total app]; lia. Qed.

Lemma total_bits n x : total (bits n x) = popcount n x.
Proof. induction n as [|n IH]; [done|]. rewrite bits_S, total_app, IH. done. Qed.

Lemma total_pairs l n : length l = (2 * n)%nat -> total (pair_sums l) = total l.
Proof.
  revert l; induction n as [|n IH]; intros l Hl; [destruct l; [done|simpl in Hl; lia]|].
  destruct l as [|a [|b l]]; simpl in Hl; try lia. cbn [pair_sums total]. rewrite IH by lia. lia.
Qed.

Lemma fit_bits n x : fit 1 (bits n x).
Proof.
  apply Forall_forall. intros a Ha. apply list_elem_of_fmap in Ha as (k & -> & _).
  change (2 ^ 1) with 2. destruct (Z.testbit x (Z.of_nat k)); cbn; lia.
Qed.

(** A step keeps the total of the fields. *)
Lemma count_round w w2 n mask l :
  0 < w -> (0 < n)%nat -> fit w l -> length l = (2 * n)%nat -> 2 * w * Z.of_nat n <= 32 ->
  alternate w n = mask -> 2 * w = w2 ->
  exists l', count_step w mask (fields w l) = fields w2 l' /\ fit w2 l' /\
    length l' = n /\ total l' = total l.
Proof.
  intros Hw Hn Hf Hl H32 <- <-. destruct (count_step_sums w n l Hw Hn Hf Hl H32) as (E & F & L).
  exists (pair_sums l). split_and!; [done|done|done|]. by apply (total_pairs l n).
Qed.

(** [countBits] counts: for every 32-bit value its result is the number of
    bits that are set. *)
Theorem countBits_popcount (x : Z) : in_u 32 x -> countBits x = popcount 32 x.
Proof.
  intros Hx. unfold countBits. rewrite <- total_bits.
  replace x with (fields 1 (bits 32 x)) at 1
    by (rewrite fields_bits; apply Z.mod_small; exact Hx).
  destruct (count_round 1 2 16 0x55555555 (bits 32 x)) as (l1 & -> & F1 & L1 & <-);
    [lia|lia|apply fit_bits|apply bits_length|lia|done|done|].
  destruct (count_round 2 4 8 0x33333333 l1) as (l2 & -> & F2 & L2 & <-); [lia|lia|done|done|lia|done|done|].
  destruct (count_round 4 8 4 0x0F0F0F0F l2) as (l3 & -> & F3 & L3 & <-); [lia|lia|done|done|lia|done|done|].
  destruct (count_round 8 16 2 0x00FF00FF l3) as (l4 & -> & F4 & L4 & <-); [lia|lia|done|done|lia|done|done|].
  destruct (count_round 16 32 1 0x0000FFFF l4) as (l5 & -> & F5 & L5 & <-); [lia|lia|done|done|lia|done|done|].
  by destruct l5 as [|a [|b l]].
Qed.

Lemma countBits_popcount_witness : countBits 0xDEADBEEF = 24.
Proof. rewrite (countBits_popcount 0xDEADBEEF); [vm_compute; reflexivity|unfold in_u; lia]. Defined.

(** ** The mask tables *)

(** The masks when [q] bits are behind the current byte. *)
Definition start_at (q : Z) : Z := 2 ^ 32 - 2 ^ q.
Definition end_at (q : Z) : Z := 2 ^ (32 - q) - 1.

Lemma step_at (q : Z) starts ends :
  0 <= q < 32 ->
  step_masks 1 (MkMasks (start_at q) (end_at q) (2 ^ q) (2 ^ (31 - q)) starts ends) =
  MkMasks (start_at (q + 1)) (end_at (q + 1)) (u32 (2 ^ (q + 1))) (Z.shiftr (2 ^ 31) (q + 1)) starts ends.
Proof.
  intros Hq. assert (forallb (fun q => (Z.land (start_at q) (u32 (Z.lnot (2 ^ q))) =? start_at (q + 1)) &&
    (Z.land (end_at q) (u32 (Z.lnot (2 ^ (31 - q)))) =? end_at (q + 1)) &&
    (u32 (Z.shiftl (2 ^ q) 1) =? u32 (2 ^ (q + 1))) &&
    (Z.shiftr (2 ^ (31 - q)) 1 =? Z.shiftr (2 ^ 31) (q + 1))) (seqZ 0 32) = true) as H
    by (vm_compute; reflexivity).
  rewrite forallb_forall in H. specialize (H q). rewrite <- list_elem_of_In, elem_of_seqZ in H.
  specialize (H ltac:(lia)). rewrite !andb_true_iff, !Z.eqb_eq in H. destruct H as [[[H1 H2] H3] H4].
  unfold step_masks. cbn [ms_start_val ms_end_val ms_start_mask ms_end_mask ms_starts ms_ends].
  by rewrite H1, H2, H3, H4.
Qed.

(** The tables after [k] rounds, for lines of [32 * b] bytes. *)
Definition tables_at (b k : Z) : mask_state :=
  let n := 32 * b in
  MkMasks (start_at (k / b)) (end_at (k / b)) (u32 (2 ^ (k / b))) (Z.shiftr (2 ^ 31) (k / b))
    (((fun i => s32 (start_at (i / b))) <$> seqZ 0 k) ++ replicate (Z.to_nat (n - k)) 0)
    (replicate (Z.to_nat (n - k)) 0 ++ ((fun i => s32 (end_at ((n - 1 - i) / b))) <$> seqZ (n - k) k)).

Lemma replicate_S_end {A} n (x : A) : replicate (S n) x = replicate n x ++ [x].
Proof. induction n as [|n IH]; [done|]. cbn [replicate app]. by rewrite <- IH. Qed.

Lemma store_at (b k : Z) :
  0 < b -> 0 <= k < 32 * b ->
  store_masks (32 * b) k (tables_at b k) =
  Ok (MkMasks (start_at (k / b)) (end_at (k / b)) (u32 (2 ^ (k / b))) (Z.shiftr (2 ^ 31) (k / b))
        (ms_starts (tables_at b (k + 1))) (ms_ends (tables_at b (k + 1)))).
Proof.
  intros Hb Hk. unfold store_masks, tables_at.
  cbn [ms_start_val ms_end_val ms_start_mask ms_end_mask ms_starts ms_ends].
  set (n := 32 * b) in *. replace (Z.to_nat (n - k)) with (S (Z.to_nat (n - (k + 1)))) by lia.
  rewrite arr_set_in by (rewrite length_app, length_fmap, length_seqZ; cbn [length replicate]; lia).
  cbn [rbind].
  rewrite arr_set_in by (rewrite length_app, length_fmap, length_seqZ, length_replicate; lia).
  cbn [rbind]. do 2 f_equal.
  - rewrite insert_app_r_alt by (rewrite length_fmap, length_seqZ; lia).
    rewrite length_fmap, length_seqZ, Nat.sub_diag. cbn [replicate insert list_insert].
    replace (seqZ 0 (k + 1)) with (seqZ 0 k ++ [k]).
    + by rewrite fmap_app, <- app_assoc.
    + replace (k + 1) with (Z.of_nat (S (Z.to_nat k))) by lia. rewrite seqZ_S. f_equal; [f_equal; lia|].
      f_equal. lia.
  - rewrite replicate_S_end, <- app_assoc. cbn [app].
    rewrite insert_app_r_alt by (rewrite length_replicate; lia). rewrite length_replicate.
    replace (Z.to_nat (n - k - 1) - Z.to_nat (n - (k + 1)))%nat with 0%nat by lia.
    cbn [insert list_insert]. f_equal.
    rewrite (seqZ_cons (n - (k + 1)) (k + 1)) by lia. cbn [fmap list_fmap].
    f_equal; [do 3 f_equal; lia|]. unfold fmap. do 2 f_equal; lia.
Qed.

(** The tables apart from the loop's variables. *)
Lemma tables_end b k :
  tables_at b k = MkMasks (start_at (k / b)) (end_at (k / b)) (u32 (2 ^ (k / b)))
    (Z.shiftr (2 ^ 31) (k / b)) (ms_starts (tables_at b k)) (ms_ends (tables_at b k)).
Proof. reflexivity. Qed.

Lemma div_step b k :
  0 < b -> 0 <= k -> (k + 1) / b = if (k + 1) mod b =? 0 then k / b + 1 else k / b.
Proof.
  intros Hb Hk. pose proof (Z.div_mod (k + 1) b ltac:(lia)) as E.
  pose proof (Z.mod_pos_bound (k + 1) b Hb) as B.
  destruct (Z.eqb_spec ((k + 1) mod b) 0) as [Z0|NZ].
  - enough ((k + 1) / b - 1 = k / b) by lia. apply (Z.div_unique k b _ (b - 1)); lia.
  - apply (Z.div_unique k b _ ((k + 1) mod b - 1)); lia.
Qed.

(** Lines of at least 32 bytes: a bit for every [b] bytes. *)
Lemma fill_masks_large (b : Z) :
  0 < b -> 32 * b < 2 ^ 31 -> fill_masks (32 * b) = Ok (tables_at b (32 * b)).
Proof.
  intros Hb Hn. unfold fill_masks. rewrite (proj2 (Z.ltb_ge _ _)) by lia.
  unfold int_div. cbn [Z.eqb].
  rewrite Z.mul_comm, Z.quot_mul, signed_result_in by (unfold in_s; lia). cbn [rbind].
  rewrite Z.mul_comm.
  replace (MkMasks _ _ _ _ _ _) with (tables_at b 0).
  - apply (for_upto_states (32 * b) _ (tables_at b)); [lia|]. intros k Hk.
    rewrite store_at by lia. cbn [rbind].
    unfold int_rem. rewrite (proj2 (Z.eqb_neq b 0)) by lia.
    rewrite Z.quot_div_nonneg, Z.rem_mod_nonneg by lia.
    rewrite signed_result_in.
    2:{ pose proof (Z.div_pos (k + 1) b ltac:(lia) Hb).
        pose proof (Z.div_le_upper_bound (k + 1) b (k + 1) Hb ltac:(nia)). unfold in_s. lia. }
    cbn [rbind]. f_equal. rewrite (tables_end b (k + 1)).
    generalize (ms_starts (tables_at b (k + 1))) (ms_ends (tables_at b (k + 1))). intros starts ends.
    rewrite (div_step b k) by lia. destruct (Z.eqb_spec ((k + 1) mod b) 0); [|done].
    assert (0 <= k / b < 32) as Hq by (split; [apply Z.div_pos|apply Z.div_lt_upper_bound]; lia).
    replace (u32 (2 ^ (k / b))) with (2 ^ (k / b)).
    + replace (Z.shiftr (2 ^ 31) (k / b)) with (2 ^ (31 - k / b)).
      * by rewrite step_at.
      * rewrite Z.shiftr_div_pow2, <- Z.pow_sub_r by lia. done.
    + symmetry. apply wrapu_small. split; [apply Z.pow_nonneg; lia|apply Z.pow_lt_mono_r; lia].
  - unfold tables_at. rewrite Z.div_0_l, Z.sub_0_r by lia. cbn [seqZ fmap list_fmap app].
    rewrite app_nil_r. done.
Qed.

Lemma wraps_testbit w x k : 0 < w -> 0 <= k < w -> Z.testbit (wraps w x) k = Z.testbit x k.
Proof.
  intros Hw Hk. rewrite <- (Z.mod_pow2_bits_low (wraps w x) w k), <- (Z.mod_pow2_bits_low x w k) by lia.
  f_equal. unfold wraps. rewrite Zminus_mod_idemp_l. f_equal. lia.
Qed.

(** The bits of the masks. *)
Lemma mask_bits q k :
  0 <= q < 32 -> 0 <= k < 32 ->
  Z.testbit (s32 (start_at q)) k = (q <=? k) /\ Z.testbit (s32 (end_at q)) k = (k <? 32 - q).
Proof.
  intros Hq Hk. rewrite !wraps_testbit by lia.
  assert (forallb (fun q => forallb (fun k => eqb (Z.testbit (start_at q) k) (q <=? k) &&
    eqb (Z.testbit (end_at q) k) (k <? 32 - q)) (seqZ 0 32)) (seqZ 0 32) = true) as H
    by (vm_compute; reflexivity).
  rewrite forallb_forall in H. specialize (H q). rewrite <- list_elem_of_In, elem_of_seqZ in H.
  specialize (H ltac:(lia)). rewrite forallb_forall in H. specialize (H k).
  rewrite <- list_elem_of_In, elem_of_seqZ in H. specialize (H ltac:(lia)).
  by rewrite andb_true_iff, !eqb_true_iff in H.
Qed.

(** Byte [y] of a line of [n] bytes has a share in bit [k] of the mask. *)
Definition shares_bit (n y k : Z) : bool := (y * 32 <? (k + 1) * n) && (k * n <? (y + 1) * 32).

(** The mask of an access to the bytes [i .. j] of one line, as the cache-use
    model combines it from the tables. *)
Definition use_mask (ms : mask_state) (i j : Z) : res Z :=
  let! first := arr_get (ms_starts ms) i in
  let! last := arr_get (ms_ends ms) j in
  Ok (u32 (Z.land first last)).

Lemma u32_testbit x k : 0 <= k < 32 -> Z.testbit (u32 x) k = Z.testbit x k.
Proof. intros Hk. apply Z.mod_pow2_bits_low. lia. Qed.

Lemma starts_lookup b i :
  0 < b -> 0 <= i < 32 * b ->
  arr_get (ms_starts (tables_at b (32 * b))) i = Ok (s32 (start_at (i / b))).
Proof.
  intros Hb Hi. cbn [tables_at ms_starts]. rewrite Z.sub_diag, app_nil_r. apply arr_get_in; [lia|].
  rewrite list_lookup_fmap, lookup_seqZ_lt by lia. cbn [fmap option_fmap option_map].
  do 4 f_equal. lia.
Qed.

Lemma ends_lookup b j :
  0 < b -> 0 <= j < 32 * b ->
  arr_get (ms_ends (tables_at b (32 * b))) j = Ok (s32 (end_at (31 - j / b))).
Proof.
  intros Hb Hj. cbn [tables_at ms_ends]. rewrite Z.sub_diag. apply arr_get_in; [lia|].
  change (replicate (Z.to_nat 0) 0) with (@nil Z). cbn [app].
  rewrite list_lookup_fmap, lookup_seqZ_lt by lia. cbn [fmap option_fmap option_map]. do 3 f_equal.
  pose proof (Z.div_mod j b ltac:(lia)) as E. pose proof (Z.mod_pos_bound j b Hb) as B.
  symmetry. apply (Z.div_unique _ b _ (b - 1 - j mod b)); lia.
Qed.

(** The bits of the mask by their bounds. *)
Definition mask_bit (n i j k : Z) : bool := (i * 32 <? (k + 1) * n) && (k * n <? (j + 1) * 32).

Lemma mask_bit_shares n i j k :
  0 < n -> i <= j -> mask_bit n i j k = true <-> exists y, i <= y <= j /\ shares_bit n y k = true.
Proof.
  intros Hn Hij. unfold mask_bit, shares_bit. setoid_rewrite andb_true_iff. setoid_rewrite Z.ltb_lt.
  pose proof (Z.div_mod (k * n) 32 ltac:(lia)) as E.
  pose proof (Z.mod_pos_bound (k * n) 32 ltac:(lia)) as B. split.
  - intros [H1 H2]. exists (Z.max i (k * n / 32)). lia.
  - intros (y & Hy & H1 & H2). lia.
Qed.

Lemma forallb_seqZ (f : Z -> bool) n i : forallb f (seqZ 0 n) = true -> 0 <= i < n -> f i = true.
Proof.
  intros H Hi. rewrite forallb_forall in H. apply H, list_elem_of_In, elem_of_seqZ. lia.
Qed.

(** The smallest lines have two bits for a byte. *)
Lemma use_mask_16 :
  exists ms, fill_masks 16 = Ok ms /\ forall i j, 0 <= i < 16 -> 0 <= j < 16 ->
    exists x, use_mask ms i j = Ok x /\ forall k, 0 <= k < 32 -> Z.testbit x k = mask_bit 16 i j k.
Proof.
  eexists. split; [vm_compute; reflexivity|]. match goal with |- context [use_mask ?m] => set (ms := m) end.
  assert (forallb (fun i => forallb (fun j =>
    match use_mask ms i j with
    | Ok x => forallb (fun k => eqb (Z.testbit x k) (mask_bit 16 i j k)) (seqZ 0 32)
    | Err _ => false
    end) (seqZ 0 16)) (seqZ 0 16) = true) as H by (vm_compute; reflexivity).
  intros i j Hi Hj. pose proof (forallb_seqZ _ _ _ (forallb_seqZ _ _ _ H Hi) Hj) as Hx. cbn beta in Hx.
  destruct (use_mask ms i j) as [x|]; [|done]. exists x. split; [done|]. intros k Hk.
  apply eqb_prop. exact (forallb_seqZ _ _ _ Hx Hk).
Qed.

(** Lines of [32 * b] bytes have a bit for [b] bytes. *)
Lemma use_mask_large b i j k :
  0 < b -> 0 <= i < 32 * b -> 0 <= j < 32 * b -> 0 <= k < 32 ->
  exists x, use_mask (tables_at b (32 * b)) i j = Ok x /\ Z.testbit x k = mask_bit (32 * b) i j k.
Proof.
  intros Hb Hi Hj Hk. unfold use_mask. rewrite starts_lookup, ends_lookup by lia. cbn [rbind].
  eexists. split; [done|]. rewrite u32_testbit, Z.land_spec by lia.
  assert (0 <= i / b < 32) as Hqi by (split; [apply Z.div_pos|apply Z.div_lt_upper_bound]; lia).
  assert (0 <= j / b < 32) as Hqj by (split; [apply Z.div_pos|apply Z.div_lt_upper_bound]; lia).
  rewrite (proj1 (mask_bits (i / b) k Hqi Hk)), (proj2 (mask_bits (31 - j / b) k ltac:(lia) Hk)).
  pose proof (Z.div_mod i b ltac:(lia)). pose proof (Z.mod_pos_bound i b Hb).
  pose proof (Z.div_mod j b ltac:(lia)). pose proof (Z.mod_pos_bound j b Hb).
  unfold mask_bit. f_equal; apply eq_true_iff_eq.
  - rewrite Z.leb_le, Z.ltb_lt. nia.
  - rewrite !Z.ltb_lt. nia.
Qed.

(** The use masks are exact: for every line size of 16 bytes or a multiple
    of 32, the tables are filled, and an access to the bytes [i .. j] of a line
    marks bit [k] exactly when some byte of the access has a share in it. *)
Theorem use_mask_exact (n i j k : Z) :
  n = 16 \/ (n mod 32 = 0 /\ n < 2 ^ 31) -> 0 <= i <= j -> j < n -> 0 <= k < 32 ->
  exists ms x, fill_masks n = Ok ms /\ use_mask ms i j = Ok x /\
    (Z.testbit x k = true <-> exists y, i <= y <= j /\ shares_bit n y k = true).
Proof.
  intros Hn Hi Hj Hk. setoid_rewrite <- mask_bit_shares; [|lia|lia]. destruct Hn as [->|[Hm Hn]].
  - destruct use_mask_16 as (ms & E & H). destruct (H i j ltac:(lia) ltac:(lia)) as (x & Ex & Hx).
    exists ms, x. split; [exact E|]. split; [exact Ex|]. rewrite Hx by lia. reflexivity.
  - apply Z.mod_divide in Hm as [b ->]; [|lia]. rewrite (Z.mul_comm b) in *.
    destruct (use_mask_large b i j k ltac:(lia) ltac:(lia) ltac:(lia) Hk) as (x & Ex & Hx).
    exists (tables_at b (32 * b)), x. split; [apply fill_masks_large; lia|]. split; [exact Ex|].
    rewrite Hx. reflexivity.
Qed.

Lemma use_mask_exact_witness :
  exists ms x, fill_masks 64 = Ok ms /\ use_mask ms 5 8 = Ok x /\ (Z.testbit x 4 = true <-> True).
Proof.
  destruct (use_mask_exact 64 5 8 4) as (ms & x & E & Ex & H);
    [right; split; [reflexivity|lia]|lia|lia|lia|].
  exists ms, x. split; [exact E|]. split; [exact Ex|]. split; [intros _; exact I|].
  intros _. apply H. exists 8. split; [lia|reflexivity].
Defined.
