(* ===== verification/ClgLog.v ===== *)
(** * ClgLog: callgrind's run-time helpers (callgrind/sim.c)

    The functions the instrumented code calls.  Each drives the simulator
    through the three function pointers of [simulator] and, while collecting,
    counts the result in two cost arrays: the one of the instruction (or of the
    block charged for a skipped function) and the running totals.  CLG_DEBUG
    output is left out, and with it [cacheRes]. *)

From Stdlib Require Import ZArith Lia Ascii String.
From stdpp Require Import base numbers option strings gmap list.
From S2P Require Import Prelude Libcbase CgArch Lru CgSim ClgCosts ClgEvents ClgSim ClgWb ClgUse.

#[local] Open Scope Z_scope.

(** ** The simulator behind the helpers *)

Definition simcall : Type := clg_state -> Z -> Z -> res (CacheModelResult * clg_state).

Record simulator : Type := MkSimulator {
  I1_Read : simcall;
  D1_Read : simcall;
  D1_Write : simcall
}.

(** A model that only works on the caches. *)
Definition on_caches (f : sim_state -> Z -> Z -> res (CacheModelResult * sim_state)) : simcall :=
  fun s a sz => let! (r, x) := f (sim s) a sz in Ok (r, set_sim s x).

(** ** Event groups *)

Definition EG_USE : Z := 0.
Definition EG_IR : Z := 1.
Definition EG_DR : Z := 2.
Definition EG_DW : Z := 3.
Definition EG_BC : Z := 4.
Definition EG_BI : Z := 5.
Definition EG_BUS : Z := 6.
Definition EG_ALLOC : Z := 7.
Definition EG_SYS : Z := 8.

Definition fullOffset (s : clg_state) (group : Z) : res Z :=
  arr_get (es_offset (sets_full (clg_sets s))) group.

(** ** Counting *)

(** [p[i]++]. *)
Definition inc_at (m : cost_mem) (p : cptr) (i : Z) : res cost_mem := cost_add m (ptr_add p i) 1.

(** [c1[i]++; c2[i]++;] *)
Definition inc_both (m : cost_mem) (c1 c2 : cptr) (i : Z) : res cost_mem :=
  let! m := inc_at m c1 i in inc_at m c2 i.

(** The cases of the [switch] fall through: each result also counts as the
    ones below it. *)
Definition inc_costs (wb : bool) (m : cost_mem) (r : CacheModelResult) (c1 c2 : option cptr)
  : res cost_mem :=
  let! c1 := deref_cost c1 in
  let! c2 := deref_cost c2 in
  let! m := match r with
            | WriteBackMemAccess => if wb then inc_both m c1 c2 3 else Ok m
            | _ => Ok m
            end in
  let! m := match r with
            | WriteBackMemAccess | MemAccess => inc_both m c1 c2 2
            | _ => Ok m
            end in
  let! m := match r with
            | L1_Hit => Ok m
            | _ => inc_both m c1 c2 1
            end in
  inc_both m c1 c2 0.

(** The cost array charged for the instruction, at the events of a group. *)
Definition cost_of (s : clg_state) (ii : InstrInfo) (group : Z) : res (option cptr) :=
  match nonskipped (current_state s) with
  | Some bbcc => let! off := fullOffset s group in Ok (opt_add (skipped bbcc) off)
  | None =>
      match eventset ii with
      | None => Err NullDeref
      | Some es =>
          let! off := arr_get (es_offset es) group in
          Ok (opt_add (opt_add (cost_base s) (cost_offset ii)) off)
      end
  end.

(** The running totals at the events of a group. *)
Definition global_cost (s : clg_state) (group : Z) : res (option cptr) :=
  let! off := fullOffset s group in
  Ok (opt_add (ex_cost (current_state s)) off).

Definition count (s : clg_state) (r : CacheModelResult) (c1 c2 : option cptr) : res clg_state :=
  let! m := inc_costs (clo_simulate_writeback s) (mem s) r c1 c2 in
  Ok (set_mem s m).

(** The fetch of an instruction: the size arrives as a [UChar]. *)
Definition fetch (S : simulator) (s : clg_state) (ii : InstrInfo)
  : res (CacheModelResult * clg_state) :=
  I1_Read S (set_ii s (Some ii)) (u64 (bb_base s + instr_offset ii)) (u8 (instr_size ii)).

(** ** The helpers *)

Definition log_1I0D (S : simulator) (s : clg_state) (ii : InstrInfo) : res clg_state :=
  let! (IrRes, s) := fetch S s ii in
  if negb (collect (current_state s)) then Ok s else
  let! cost_Ir := cost_of s ii EG_IR in
  let! g := global_cost s EG_IR in
  count s IrRes cost_Ir g.

Definition log_2I0D (S : simulator) (s : clg_state) (ii1 ii2 : InstrInfo) : res clg_state :=
  let! (Ir1Res, s) := fetch S s ii1 in
  let! (Ir2Res, s) := fetch S s ii2 in
  if negb (collect (current_state s)) then Ok s else
  let! global_cost_Ir := global_cost s EG_IR in
  let! c1 := cost_of s ii1 EG_IR in
  let! s := count s Ir1Res global_cost_Ir c1 in
  let! c2 := cost_of s ii2 EG_IR in
  count s Ir2Res global_cost_Ir c2.

Definition log_3I0D (S : simulator) (s : clg_state) (ii1 ii2 ii3 : InstrInfo) : res clg_state :=
  let! (Ir1Res, s) := fetch S s ii1 in
  let! (Ir2Res, s) := fetch S s ii2 in
  let! (Ir3Res, s) := fetch S s ii3 in
  if negb (collect (current_state s)) then Ok s else
  let! global_cost_Ir := global_cost s EG_IR in
  let! c1 := cost_of s ii1 EG_IR in
  let! s := count s Ir1Res global_cost_Ir c1 in
  let! c2 := cost_of s ii2 EG_IR in
  let! s := count s Ir2Res global_cost_Ir c2 in
  let! c3 := cost_of s ii3 EG_IR in
  count s Ir3Res global_cost_Ir c3.

Definition log_1I1Dr (S : simulator) (s : clg_state) (ii : InstrInfo) (data_addr data_size : Z)
  : res clg_state :=
  let! (IrRes, s) := fetch S s ii in
  let! (DrRes, s) := D1_Read S s data_addr (u8 data_size) in
  if negb (collect (current_state s)) then Ok s else
  let! cost_Ir := cost_of s ii EG_IR in
  let! cost_Dr := cost_of s ii EG_DR in
  let! g := global_cost s EG_IR in
  let! s := count s IrRes cost_Ir g in
  let! g := global_cost s EG_DR in
  count s DrRes cost_Dr g.

Definition log_0I1Dr (S : simulator) (s : clg_state) (ii : InstrInfo) (data_addr data_size : Z)
  : res clg_state :=
  let! (DrRes, s) := D1_Read S (set_ii s (Some ii)) data_addr (u8 data_size) in
  if negb (collect (current_state s)) then Ok s else
  let! cost_Dr := cost_of s ii EG_DR in
  let! g := global_cost s EG_DR in
  count s DrRes cost_Dr g.

Definition log_1I1Dw (S : simulator) (s : clg_state) (ii : InstrInfo) (data_addr data_size : Z)
  : res clg_state :=
  let! (IrRes, s) := fetch S s ii in
  let! (DwRes, s) := D1_Write S s data_addr (u8 data_size) in
  if negb (collect (current_state s)) then Ok s else
  let! cost_Ir := cost_of s ii EG_IR in
  let! cost_Dw := cost_of s ii EG_DW in
  let! g := global_cost s EG_IR in
  let! s := count s IrRes cost_Ir g in
  let! g := global_cost s EG_DW in
  count s DwRes cost_Dw g.

Definition log_0I1Dw (S : simulator) (s : clg_state) (ii : InstrInfo) (data_addr data_size : Z)
  : res clg_state :=
  let! (DwRes, s) := D1_Write S (set_ii s (Some ii)) data_addr (u8 data_size) in
  if negb (collect (current_state s)) then Ok s else
  let! cost_Dw := cost_of s ii EG_DW in
  let! g := global_cost s EG_DW in
  count s DwRes cost_Dw g.

(** ** Counting, as a function on the memory *)

(** Every cell of [m'] is that of [m] plus [f]. *)
Record added (f : cptr -> Z) (m m' : cost_mem) : Prop := {
  ad_chunks : chunks m' = chunks m;
  ad_cells : forall q, cells m' !! q = (fun v => u64 (v + f q)) <$> cells m !! q
}.

Definition cells_u64 (m : cost_mem) : Prop := map_Forall (fun _ v => in_u 64 v) (cells m).

Lemma added_refl m : cells_u64 m -> added (fun _ => 0) m m.
Proof.
  intros Hu. constructor; [done|]. intros q. destruct (cells m !! q) as [v|] eqn:E; [|done].
  cbn. rewrite Z.add_0_r, u64_id; [done|]. by apply (Hu q).
Qed.

Lemma added_trans f g m1 m2 m3 :
  added f m1 m2 -> added g m2 m3 -> added (fun q => f q + g q) m1 m3.
Proof.
  intros [C1 A1] [C2 A2]. constructor; [congruence|]. intros q. rewrite A2, A1.
  destruct (cells m1 !! q) as [v|]; [|done]. cbn. f_equal. unfold wrapu.
  rewrite Zplus_mod_idemp_l. f_equal. lia.
Qed.

Lemma added_ext f g m m' : (forall q, f q = g q) -> added f m m' -> added g m m'.
Proof. intros H [C A]. constructor; [done|]. intros q. by rewrite A, H. Qed.

Lemma added_u64 f m m' : added f m m' -> cells_u64 m'.
Proof.
  intros [_ A] q v H. rewrite A in H. destruct (cells m !! q); [|done]. cbn in H. simplify_eq.
  by apply wrapu_range.
Qed.

Lemma added_readable f m m' p n : added f m m' -> readable m p n -> readable m' p n.
Proof.
  intros [C A] Hr i Hi. destruct (Hr i Hi) as (v & Hv & Hu). apply cost_get_ok in Hv as [Hc Hv].
  exists (u64 (v + f (ptr_add p i))). split; [|by apply wrapu_range].
  apply cost_get_ok. unfold in_chunk in *. rewrite C. split; [done|]. by rewrite A, Hv.
Qed.

Definition at_cell (p q : cptr) : Z := if decide (q = p) then 1 else 0.

Lemma inc_at_added m p n i :
  cells_u64 m -> readable m p n -> 0 <= i < n ->
  exists m', inc_at m p i = Ok m' /\ added (at_cell (ptr_add p i)) m m'.
Proof.
  intros Hu Hr Hi. destruct (readable_val m p n i Hr Hi) as [Hv _].
  unfold inc_at. rewrite (cost_add_ok _ _ _ _ Hv). eexists. split; [done|].
  constructor; [done|]. intros q. cbn [cells set_cells]. unfold at_cell.
  destruct (decide (q = ptr_add p i)) as [->|Hq].
  - rewrite lookup_insert_eq. apply cost_get_cells in Hv. by rewrite Hv.
  - rewrite lookup_insert_ne by done. by apply (added_refl m Hu).
Qed.

(** How many counters of a group a result increments. *)
Definition level (wb : bool) (r : CacheModelResult) : Z :=
  match r with
  | L1_Hit => 1
  | LL_Hit => 2
  | MemAccess => 3
  | WriteBackMemAccess => if wb then 4 else 3
  end.

(** One more in the first [level] counters from [p] on. *)
Definition bump (wb : bool) (r : CacheModelResult) (p q : cptr) : Z :=
  if in_range p (level wb r) q then 1 else 0.

Lemma inc_both_added m p g n i :
  cells_u64 m -> readable m p n -> readable m g n -> 0 <= i < n ->
  exists m', inc_both m p g i = Ok m' /\
    added (fun q => at_cell (ptr_add p i) q + at_cell (ptr_add g i) q) m m'.
Proof.
  intros Hu Hp Hg Hi. destruct (inc_at_added m p n i Hu Hp Hi) as (m1 & E1 & A1).
  destruct (inc_at_added m1 g n i) as (m2 & E2 & A2);
    [by eapply added_u64|by eapply added_readable|done|].
  exists m2. unfold inc_both. rewrite E1. cbn [rbind]. split; [done|].
  by eapply added_trans.
Qed.

Lemma bump_split p k q :
  0 <= k -> (if in_range p (k + 1) q then 1 else 0) =
    (if in_range p k q then 1 else 0) + at_cell (ptr_add p k) q.
Proof.
  intros Hk. unfold at_cell. destruct (decide (q = ptr_add p k)) as [->|Hq].
  - rewrite !in_range_self. destruct (Z.leb_spec 0 k), (Z.ltb_spec k (k + 1)), (Z.ltb_spec k k);
      lia || done.
  - replace (in_range p (k + 1) q) with (in_range p k q);
      [by destruct (in_range p k q); lia|].
    apply eq_true_iff_eq. rewrite !in_range_spec. split; intros (i & Hi & ->); exists i;
      (split; [|done]); [lia|]. destruct (decide (i = k)) as [->|]; [done|lia].
Qed.

Lemma bump_0 p q : in_range p 0 q = false.
Proof.
  destruct (in_range p 0 q) eqn:E; [|done]. apply in_range_spec in E as (i & ? & _). lia.
Qed.

(** The counters below [k], one by one. *)
Fixpoint bump_n (p : cptr) (k : nat) (q : cptr) : Z :=
  match k with
  | O => 0
  | S j => bump_n p j q + at_cell (ptr_add p (Z.of_nat j)) q
  end.

Lemma bump_n_spec p k q : bump_n p k q = if in_range p (Z.of_nat k) q then 1 else 0.
Proof.
  induction k as [|k IH]; [by rewrite bump_0|]. cbn [bump_n].
  rewrite Nat2Z.inj_succ. unfold Z.succ. rewrite bump_split, IH by lia. done.
Qed.

Lemma inc_costs_added wb m r p g n :
  cells_u64 m -> readable m p n -> readable m g n -> level wb r <= n ->
  exists m', inc_costs wb m r (Some p) (Some g) = Ok m' /\
    added (fun q => bump wb r p q + bump wb r g q) m m'.
Proof.
  intros Hu Hp Hg Hn. unfold inc_costs. cbn [deref_cost rbind].
  assert (forall i, 0 <= i < n -> forall m1 f, added f m m1 ->
    exists m2, inc_both m1 p g i = Ok m2 /\
      added (fun q => f q + (at_cell (ptr_add p i) q + at_cell (ptr_add g i) q)) m m2) as Hstep.
  { intros i Hi m1 f A. destruct (inc_both_added m1 p g n i) as (m2 & E & A2);
      [by eapply added_u64|by eapply added_readable|by eapply added_readable|done|].
    exists m2. split; [done|]. by eapply added_trans. }
  pose proof (added_refl m Hu) as A0.
  assert (forall k m' f, added f m m' -> level wb r = Z.of_nat k ->
    (forall q, f q = bump_n p k q + bump_n g k q) ->
    added (fun q => bump wb r p q + bump wb r g q) m m') as Hfin.
  { intros k m' f A Hl Hf. eapply added_ext; [|exact A]. intros q.
    unfold bump. by rewrite Hf, !bump_n_spec, Hl. }
  destruct r; [| | |destruct wb]; cbn [level] in Hn; cbn [rbind];
    repeat match goal with
    | |- context [inc_both ?m1 p g ?i] =>
        lazymatch goal with
        | A : added ?f m m1 |- _ =>
            let m2 := fresh "m" in let A2 := fresh "A" in
            destruct (Hstep i ltac:(lia) m1 f A) as (m2 & -> & A2); cbn [rbind]
        end
    end; (eexists; split; [done|]).
  1: eapply (Hfin 1%nat). 4: eapply (Hfin 2%nat). 7: eapply (Hfin 3%nat).
  10: eapply (Hfin 4%nat). 13: eapply (Hfin 3%nat).
  all: try done; intros q; cbn [bump_n];
    change (Z.of_nat 0) with 0; change (Z.of_nat 1) with 1; change (Z.of_nat 2) with 2;
    change (Z.of_nat 3) with 3; lia.
Qed.

(** ** Specification of a run in the simple model *)

Definition simple_model : simulator :=
  MkSimulator (on_caches cachesim_I1_ref) (on_caches cachesim_D1_ref) (on_caches cachesim_D1_ref).

(** The block histories of the three caches, and their geometries. *)
Record hists : Type := MkHists { h_I : list Z; h_D : list Z; h_L : list Z }.
Record geoms : Type := MkGeoms { g_I : geom; g_D : geom; g_L : geom }.

(** A reference of an instruction: the group it counts in, address and size. *)
Abbreviation clg_ref := (InstrInfo * Z * Z * Z)%type.

(** LRU on two levels. *)
Definition spec_levels (g1 gL : geom) (h1 hL : list Z) (a sz : Z)
  : CacheModelResult * list Z * list Z :=
  let '(miss1, h1') := spec_ref g1 h1 a sz in
  if miss1 then
    let '(missL, hL') := spec_ref gL hL a sz in
    (if missL then MemAccess else LL_Hit, h1', hL')
  else (L1_Hit, h1', hL).

(** Instruction fetches go through the first, data through the second cache. *)
Definition spec_one (g : geoms) (h : hists) (group a sz : Z) : CacheModelResult * hists :=
  if group =? EG_IR then
    let '(r, hi, hl) := spec_levels (g_I g) (g_L g) (h_I h) (h_L h) a sz in
    (r, MkHists hi (h_D h) hl)
  else
    let '(r, hd, hl) := spec_levels (g_D g) (g_L g) (h_D h) (h_L h) a sz in
    (r, MkHists (h_I h) hd hl).

Fixpoint spec_refs (g : geoms) (h : hists) (refs : list clg_ref)
  : list CacheModelResult * hists :=
  match refs with
  | [] => ([], h)
  | (_, group, a, sz) :: refs' =>
      let '(r, h1) := spec_one g h group a sz in
      let '(rs, h2) := spec_refs g h1 refs' in
      (r :: rs, h2)
  end.

(** What references with these results add to the cells: one array of the
    instruction (or of the block that is charged instead) and the totals. *)
Definition charge (s : clg_state) (x : clg_ref) (r : CacheModelResult) (q : cptr) : Z :=
  let '(ii, group, _, _) := x in
  match cost_of s ii group, global_cost s group with
  | Ok (Some p), Ok (Some t) =>
      bump (clo_simulate_writeback s) r p q + bump (clo_simulate_writeback s) r t q
  | _, _ => 0
  end.

Fixpoint charge_refs (s : clg_state) (refs : list clg_ref) (rs : list CacheModelResult) (q : cptr) : Z :=
  match refs, rs with
  | x :: refs', r :: rs' => charge s x r q + charge_refs s refs' rs' q
  | _, _ => 0
  end.

(** What happens in a run: a basic block is entered, with the address, cost
    array and execution state its set-up chose, or a helper is called. *)
Inductive clg_event : Type :=
  | E_block (bb : Z) (cb : option cptr) (ex : exec_state)
  | E_1I0D (ii : InstrInfo)
  | E_2I0D (ii1 ii2 : InstrInfo)
  | E_3I0D (ii1 ii2 ii3 : InstrInfo)
  | E_1I1Dr (ii : InstrInfo) (data_addr data_size : Z)
  | E_0I1Dr (ii : InstrInfo) (data_addr data_size : Z)
  | E_1I1Dw (ii : InstrInfo) (data_addr data_size : Z)
  | E_0I1Dw (ii : InstrInfo) (data_addr data_size : Z).

Definition enter_block (s : clg_state) (bb : Z) (cb : option cptr) (ex : exec_state) : clg_state :=
  MkClg (sim s) (mem s) bb cb (current_ii s) ex (clg_sets s) (clo_simulate_writeback s).

Definition run_event (S : simulator) (ev : clg_event) (s : clg_state) : res clg_state :=
  match ev with
  | E_block bb cb ex => Ok (enter_block s bb cb ex)
  | E_1I0D ii => log_1I0D S s ii
  | E_2I0D ii1 ii2 => log_2I0D S s ii1 ii2
  | E_3I0D ii1 ii2 ii3 => log_3I0D S s ii1 ii2 ii3
  | E_1I1Dr ii a sz => log_1I1Dr S s ii a sz
  | E_0I1Dr ii a sz => log_0I1Dr S s ii a sz
  | E_1I1Dw ii a sz => log_1I1Dw S s ii a sz
  | E_0I1Dw ii a sz => log_0I1Dw S s ii a sz
  end.

Definition fetch_ref (s : clg_state) (ii : InstrInfo) : clg_ref :=
  (ii, EG_IR, u64 (bb_base s + instr_offset ii), u8 (instr_size ii)).

Definition event_refs (s : clg_state) (ev : clg_event) : list clg_ref :=
  match ev with
  | E_block _ _ _ => []
  | E_1I0D ii => [fetch_ref s ii]
  | E_2I0D ii1 ii2 => [fetch_ref s ii1; fetch_ref s ii2]
  | E_3I0D ii1 ii2 ii3 => [fetch_ref s ii1; fetch_ref s ii2; fetch_ref s ii3]
  | E_1I1Dr ii a sz => [fetch_ref s ii; (ii, EG_DR, a, u8 sz)]
  | E_0I1Dr ii a sz => [(ii, EG_DR, a, u8 sz)]
  | E_1I1Dw ii a sz => [fetch_ref s ii; (ii, EG_DW, a, u8 sz)]
  | E_0I1Dw ii a sz => [(ii, EG_DW, a, u8 sz)]
  end.

Definition next_frame (ev : clg_event) (s : clg_state) : clg_state :=
  match ev with
  | E_block bb cb ex => enter_block s bb cb ex
  | _ => s
  end.

(** The histories after an event and what it adds to the cells. *)
Definition spec_event (g : geoms) (s : clg_state) (ev : clg_event) (h : hists)
  : hists * (cptr -> Z) :=
  let refs := event_refs s ev in
  let '(rs, h') := spec_refs g h refs in
  (h', fun q => if collect (current_state s) then charge_refs s refs rs q else 0).

(** A run: [s] follows the entered blocks only. *)
Fixpoint spec_events (g : geoms) (s : clg_state) (evs : list clg_event) (h : hists)
  : hists * (cptr -> Z) :=
  match evs with
  | [] => (h, fun _ => 0)
  | ev :: evs' =>
      let '(h1, f1) := spec_event g s ev h in
      let '(h2, f2) := spec_events g (next_frame ev s) evs' h1 in
      (h2, fun q => f1 q + f2 q)
  end.

(** Admissible events: references fit their lines and the address space, and
    while collecting both arrays exist with three initialised counters. *)
Definition ref_fits (g : geoms) (x : clg_ref) : Prop :=
  let '(_, group, a, sz) := x in
  access_ok (g_bits (if group =? EG_IR then g_I g else g_D g)) a sz /\ access_ok (g_bits (g_L g)) a sz.

Definition ref_charged (m : cost_mem) (s : clg_state) (x : clg_ref) : Prop :=
  let '(ii, group, _, _) := x in
  exists p t, cost_of s ii group = Ok (Some p) /\ global_cost s group = Ok (Some t) /\
    readable m p 3 /\ readable m t 3.

Definition event_ok (g : geoms) (m : cost_mem) (s : clg_state) (ev : clg_event) : Prop :=
  Forall (ref_fits g) (event_refs s ev) /\
  (collect (current_state s) = true -> Forall (ref_charged m s) (event_refs s ev)).

Fixpoint events_ok (g : geoms) (m : cost_mem) (s : clg_state) (evs : list clg_event) : Prop :=
  match evs with
  | [] => True
  | ev :: evs' => event_ok g m s ev /\ events_ok g m (next_frame ev s) evs'
  end.

(** ** The helpers implement it *)

Record caches_ok (g : geoms) (x : sim_state) (h : hists) : Prop := {
  co_I : cache_hist (base (s_I1 x)) (h_I h);
  co_D : cache_hist (base (s_D1 x)) (h_D h);
  co_L : cache_hist (base (s_LL x)) (h_L h);
  co_gI : geom_of (base (s_I1 x)) = g_I g;
  co_gD : geom_of (base (s_D1 x)) = g_D g;
  co_gL : geom_of (base (s_LL x)) = g_L g
}.

Lemma ref_lru c h g a sz :
  cache_hist (base c) h -> geom_of (base c) = g -> access_ok (g_bits g) a sz ->
  exists c', cachesim_ref c a sz = Ok (result_of (spec_ref g h a sz).1, c') /\
    cache_hist (base c') (spec_ref g h a sz).2 /\ geom_of (base c') = g.
Proof.
  intros Hc <- Ha. destruct (ref_hist (base c) h a sz Hc Ha) as (b & E & G & H).
  rewrite ref_same, E. cbn [rbind]. eexists. split; [done|]. split; [done|].
  cbn [base set_base]. by apply geom_same.
Qed.

Lemma I1_ref_ok g x h a sz :
  caches_ok g x h -> access_ok (g_bits (g_I g)) a sz -> access_ok (g_bits (g_L g)) a sz ->
  exists x', cachesim_I1_ref x a sz = Ok ((spec_one g h EG_IR a sz).1, x') /\
    caches_ok g x' (spec_one g h EG_IR a sz).2.
Proof.
  intros [HI HD HL GI GD GL] A1 AL. unfold cachesim_I1_ref, spec_one, spec_levels. rewrite Z.eqb_refl.
  destruct (ref_lru _ _ _ a sz HI GI A1) as (c1 & -> & H1 & G1). cbn [rbind].
  destruct (spec_ref (g_I g) (h_I h) a sz) as [m1 h1']. cbn [fst snd] in *.
  destruct m1; cbn [result_of]; [rewrite decide_False by done|rewrite decide_True by done];
    [|eexists; split; [done|]; by constructor].
  destruct (ref_lru _ _ _ a sz HL GL AL) as (c2 & E2 & H2 & G2).
  cbn [s_LL with_I1]. rewrite E2. cbn [rbind].
  destruct (spec_ref (g_L g) (h_L h) a sz) as [mL hL']. cbn [fst snd] in *.
  destruct mL; cbn [result_of]; [rewrite decide_False by done|rewrite decide_True by done];
    eexists; (split; [done|]); by constructor.
Qed.

Lemma D1_ref_ok g x h group a sz :
  caches_ok g x h -> group <> EG_IR ->
  access_ok (g_bits (g_D g)) a sz -> access_ok (g_bits (g_L g)) a sz ->
  exists x', cachesim_D1_ref x a sz = Ok ((spec_one g h group a sz).1, x') /\
    caches_ok g x' (spec_one g h group a sz).2.
Proof.
  intros [HI HD HL GI GD GL] Hg A1 AL. unfold cachesim_D1_ref, spec_one, spec_levels.
  destruct (Z.eqb_spec group EG_IR); [done|].
  destruct (ref_lru _ _ _ a sz HD GD A1) as (c1 & -> & H1 & G1). cbn [rbind].
  destruct (spec_ref (g_D g) (h_D h) a sz) as [m1 h1']. cbn [fst snd] in *.
  destruct m1; cbn [result_of]; [rewrite decide_False by done|rewrite decide_True by done];
    [|eexists; split; [done|]; by constructor].
  destruct (ref_lru _ _ _ a sz HL GL AL) as (c2 & E2 & H2 & G2).
  cbn [s_LL with_D1]. rewrite E2. cbn [rbind].
  destruct (spec_ref (g_L g) (h_L h) a sz) as [mL hL']. cbn [fst snd] in *.
  destruct mL; cbn [result_of]; [rewrite decide_False by done|rewrite decide_True by done];
    eexists; (split; [done|]); by constructor.
Qed.

(** What the helpers never change. *)
Record same_frame (s s' : clg_state) : Prop := {
  sf_bb : bb_base s' = bb_base s;
  sf_cb : cost_base s' = cost_base s;
  sf_ex : current_state s' = current_state s;
  sf_sets : clg_sets s' = clg_sets s;
  sf_wb : clo_simulate_writeback s' = clo_simulate_writeback s
}.

Lemma same_frame_refl s : same_frame s s.
Proof. done. Qed.

Lemma same_frame_trans s1 s2 s3 : same_frame s1 s2 -> same_frame s2 s3 -> same_frame s1 s3.
Proof. intros [] []. constructor; congruence. Qed.

Lemma cost_of_frame s s' ii group : same_frame s s' -> cost_of s' ii group = cost_of s ii group.
Proof. intros [Hb Hc He Hs Hw]. unfold cost_of, fullOffset. by rewrite Hc, He, Hs. Qed.

Lemma global_cost_frame s s' group : same_frame s s' -> global_cost s' group = global_cost s group.
Proof. intros [Hb Hc He Hs Hw]. unfold global_cost, fullOffset. by rewrite He, Hs. Qed.

Lemma fetch_ref_frame s s' ii : same_frame s s' -> fetch_ref s' ii = fetch_ref s ii.
Proof. intros [Hb _ _ _ _]. unfold fetch_ref. by rewrite Hb. Qed.

(** The caches moved on from [s] to [s'], nothing was counted. *)
Record simulated (g : geoms) (s s' : clg_state) (h' : hists) : Prop := {
  sd_caches : caches_ok g (sim s') h';
  sd_frame : same_frame s s';
  sd_mem : mem s' = mem s
}.

Lemma fetch_ok g s h ii :
  caches_ok g (sim s) h -> ref_fits g (fetch_ref s ii) ->
  exists s', fetch simple_model s ii =
      Ok ((spec_one g h EG_IR (fetch_ref s ii).1.2 (fetch_ref s ii).2).1, s') /\
    simulated g s s' (spec_one g h EG_IR (fetch_ref s ii).1.2 (fetch_ref s ii).2).2.
Proof.
  intros Hc [H1 H2]. unfold fetch, simple_model, on_caches. cbn [I1_Read sim set_ii].
  destruct (I1_ref_ok g (sim s) h _ _ Hc H1 H2) as (x & E & Hx). cbn [fetch_ref fst snd] in *.
  rewrite E. cbn [rbind]. eexists. split; [done|]. by constructor.
Qed.

Lemma data_ok g s h ii group a sz :
  caches_ok g (sim s) h -> group <> EG_IR -> ref_fits g (ii, group, a, sz) ->
  exists s', on_caches cachesim_D1_ref (set_ii s (Some ii)) a sz
      = Ok ((spec_one g h group a sz).1, s') /\
    simulated g s s' (spec_one g h group a sz).2.
Proof.
  intros Hc Hg [H1 H2]. unfold on_caches. destruct (Z.eqb_spec group EG_IR); [done|].
  destruct (D1_ref_ok g (sim s) h group a sz Hc Hg H1 H2) as (x & E & Hx).
  cbn [sim set_ii]. rewrite E. cbn [rbind]. eexists. split; [done|]. by constructor.
Qed.

(** The simple model never writes back. *)
Lemma spec_one_level wb g h group a sz : level wb (spec_one g h group a sz).1 <= 3.
Proof.
  unfold spec_one, spec_levels. destruct (group =? EG_IR);
    repeat (destruct (spec_ref _ _ _ _) as [[] ?]); cbn; lia.
Qed.

(** One result counted. *)
Record counted (f : cptr -> Z) (s s' : clg_state) : Prop := {
  cd_sim : sim s' = sim s;
  cd_frame : same_frame s s';
  cd_added : added f (mem s) (mem s')
}.

Lemma count_ok s r p t :
  cells_u64 (mem s) -> readable (mem s) p 3 -> readable (mem s) t 3 ->
  level (clo_simulate_writeback s) r <= 3 ->
  exists s', count s r (Some p) (Some t) = Ok s' /\
    counted (fun q => bump (clo_simulate_writeback s) r p q + bump (clo_simulate_writeback s) r t q) s s'.
Proof.
  intros Hu Hp Ht Hl. unfold count.
  destruct (inc_costs_added (clo_simulate_writeback s) (mem s) r p t 3 Hu Hp Ht Hl) as (m & -> & A).
  cbn [rbind]. eexists. split; [done|]. by constructor.
Qed.

(** Counting the reference [x] with result [r], either array first. *)
Lemma count_ref_ok s0 s x r :
  same_frame s0 s -> cells_u64 (mem s) -> ref_charged (mem s) s0 x ->
  level (clo_simulate_writeback s0) r <= 3 ->
  exists p t, cost_of s x.1.1.1 x.1.1.2 = Ok (Some p) /\ global_cost s x.1.1.2 = Ok (Some t) /\
    (exists s', count s r (Some p) (Some t) = Ok s' /\ counted (charge s0 x r) s s') /\
    (exists s', count s r (Some t) (Some p) = Ok s' /\ counted (charge s0 x r) s s').
Proof.
  intros Hf Hu. destruct x as [[[ii group] a] sz]. intros (p & t & Ep & Et & Rp & Rt) Hl.
  exists p, t. cbn [fst snd]. rewrite (cost_of_frame s0), (global_cost_frame s0) by done.
  pose proof (sf_wb _ _ Hf) as Hw. rewrite <- Hw in Hl. split_and!; [done|done| |].
  - destruct (count_ok s r p t Hu Rp Rt Hl) as (s' & E & [C1 C2 C3]). exists s'. split; [done|].
    constructor; [done..|]. eapply added_ext; [|exact C3]. intros q. unfold charge.
    by rewrite Ep, Et, Hw.
  - destruct (count_ok s r t p Hu Rt Rp Hl) as (s' & E & [C1 C2 C3]). exists s'. split; [done|].
    constructor; [done..|]. eapply added_ext; [|exact C3]. intros q. unfold charge.
    rewrite Ep, Et, Hw. lia.
Qed.

Lemma ref_charged_added m f m' s x : added f m m' -> ref_charged m s x -> ref_charged m' s x.
Proof.
  intros A. destruct x as [[[ii group] a] sz]. intros (p & t & Ep & Et & Rp & Rt).
  exists p, t. split_and!; eauto using added_readable.
Qed.

(** The references of a helper, simulated one after the other. *)
Definition sim_ref (s : clg_state) (x : clg_ref) : res (CacheModelResult * clg_state) :=
  let '(ii, group, a, sz) := x in
  if group =? EG_IR then fetch simple_model s ii else on_caches cachesim_D1_ref (set_ii s (Some ii)) a sz.

(** Counting their results one after the other, in either order of the
    arguments. *)
Inductive counts (s0 : clg_state) : list clg_ref -> list CacheModelResult -> clg_state -> clg_state -> Prop :=
  | counts_nil s : counts s0 [] [] s s
  | counts_cons x r refs rs s s1 s2 :
      counted (charge s0 x r) s s1 -> counts s0 refs rs s1 s2 -> counts s0 (x :: refs) (r :: rs) s s2.

Lemma counts_added s0 refs rs s s' :
  cells_u64 (mem s) -> counts s0 refs rs s s' ->
  sim s' = sim s /\ same_frame s s' /\ added (charge_refs s0 refs rs) (mem s) (mem s').
Proof.
  intros Hu. induction 1 as [s|x r refs rs s s1 s2 [C1 C2 C3] _ IH].
  - split_and!; [done|done|]. by apply added_refl.
  - destruct IH as (I1 & I2 & I3); [by eapply added_u64|]. split_and!.
    + congruence.
    + by eapply same_frame_trans.
    + by eapply added_trans.
Qed.

(** One simulated reference, in the terms of the frame [fr]. *)
Lemma sim_ref_ok g fr s h x :
  same_frame fr s -> caches_ok g (sim s) h -> ref_fits g x ->
  (x.1.1.2 = EG_IR -> x = fetch_ref fr x.1.1.1) ->
  exists s', sim_ref s x = Ok ((spec_one g h x.1.1.2 x.1.2 x.2).1, s') /\
    caches_ok g (sim s') (spec_one g h x.1.1.2 x.1.2 x.2).2 /\ same_frame fr s' /\ mem s' = mem s.
Proof.
  intros Hf Hc Hx Hi. destruct x as [[[ii group] a] sz]. cbn [fst snd sim_ref] in *.
  destruct (Z.eqb_spec group EG_IR) as [->|Hne].
  - specialize (Hi eq_refl). rewrite Hi in Hx. rewrite <- (fetch_ref_frame fr s) in Hx, Hi by done.
    destruct (fetch_ok g s h ii Hc Hx) as (s' & E & [C F M]). injection Hi as -> ->.
    exists s'. split_and!; [exact E|exact C|by eapply same_frame_trans|done].
  - destruct (data_ok g s h ii group a sz Hc Hne Hx) as (s' & E & [C F M]).
    exists s'. split_and!; [done|done|by eapply same_frame_trans|done].
Qed.

(** The references of an event are fetches of the block or data. *)
Lemma event_refs_fetch s ev :
  Forall (fun x : clg_ref => x.1.1.2 = EG_IR -> x = fetch_ref s x.1.1.1) (event_refs s ev).
Proof. destruct ev; cbn [event_refs]; repeat constructor; by intros. Qed.

Fixpoint sim_refs (s : clg_state) (refs : list clg_ref) : res (list CacheModelResult * clg_state) :=
  match refs with
  | [] => Ok ([], s)
  | x :: refs' =>
      let! (r, s) := sim_ref s x in
      let! (rs, s) := sim_refs s refs' in
      Ok (r :: rs, s)
  end.

Lemma sim_refs_ok g fr s h refs :
  same_frame fr s -> caches_ok g (sim s) h -> Forall (ref_fits g) refs ->
  Forall (fun x : clg_ref => x.1.1.2 = EG_IR -> x = fetch_ref fr x.1.1.1) refs ->
  exists s', sim_refs s refs = Ok ((spec_refs g h refs).1, s') /\
    caches_ok g (sim s') (spec_refs g h refs).2 /\ same_frame fr s' /\ mem s' = mem s /\
    Forall (fun r => level (clo_simulate_writeback fr) r <= 3) (spec_refs g h refs).1.
Proof.
  intros Hf Hc Hx Hi. revert s h Hf Hc; induction Hx as [|x refs Hx Hxs IH]; intros s h Hf Hc.
  { exists s. by split_and!. }
  apply Forall_cons in Hi as [Hi His]. cbn [sim_refs].
  destruct (sim_ref_ok g fr s h x Hf Hc Hx Hi) as (s1 & -> & C1 & F1 & M1). cbn [rbind].
  pose proof (spec_one_level (clo_simulate_writeback fr) g h x.1.1.2 x.1.2 x.2) as Hl.
  destruct x as [[[ii group] a] sz]. cbn [spec_refs fst snd] in *.
  destruct (spec_one g h group a sz) as [r h1]. cbn [fst snd] in *.
  destruct (IH His s1 h1 F1 C1) as (s2 & -> & C2 & F2 & M2 & L2). cbn [rbind].
  destruct (spec_refs g h1 refs) as [rs h2]. cbn [fst snd] in *.
  exists s2. split_and!; [done|done|done|congruence|by constructor].
Qed.

Definition is_block (ev : clg_event) : bool :=
  match ev with E_block _ _ _ => true | _ => false end.

Lemma counted_next fr s s1 f x :
  same_frame fr s -> counted f s s1 -> ref_charged (mem s) fr x ->
  same_frame fr s1 /\ cells_u64 (mem s1) /\ ref_charged (mem s1) fr x.
Proof.
  intros Hf [C1 C2 C3] Hx. split_and!; [by eapply same_frame_trans|by eapply added_u64|].
  by eapply ref_charged_added.
Qed.

(** The counting half of a helper, for one, two and three references. *)
Section Counting.
Context (fr s : clg_state).
Hypothesis Hf : same_frame fr s.
Hypothesis Hu : cells_u64 (mem s).

Local Abbreviation low r := (level (clo_simulate_writeback fr) r <= 3).
Local Abbreviation ok x := (ref_charged (mem s) fr x).

Lemma count_1 ii group a sz r :
  ok (ii, group, a, sz) -> low r ->
  exists s', (let! c := cost_of s ii group in let! t := global_cost s group in count s r c t) = Ok s' /\
    counts fr [(ii, group, a, sz)] [r] s s'.
Proof using Hf Hu.
  intros Hx Hl.
  destruct (count_ref_ok fr s (ii, group, a, sz) r Hf Hu Hx Hl) as (p & t & Ep & Et & (s1 & E1 & C1) & _).
  cbn [fst snd] in Ep, Et. rewrite Ep. cbn [rbind]. rewrite Et. cbn [rbind].
  exists s1. split; [done|]. econstructor; [done|constructor].
Qed.

(** Instruction and data of one helper. *)
Lemma count_ID ii a1 z1 group a2 z2 r1 r2 :
  ok (ii, EG_IR, a1, z1) -> ok (ii, group, a2, z2) -> low r1 -> low r2 ->
  exists s', (let! c1 := cost_of s ii EG_IR in
              let! c2 := cost_of s ii group in
              let! t := global_cost s EG_IR in
              let! s := count s r1 c1 t in
              let! t := global_cost s group in
              count s r2 c2 t) = Ok s' /\
    counts fr [(ii, EG_IR, a1, z1); (ii, group, a2, z2)] [r1; r2] s s'.
Proof using Hf Hu.
  intros Hx1 Hx2 Hl1 Hl2.
  destruct (count_ref_ok fr s (ii, EG_IR, a1, z1) r1 Hf Hu Hx1 Hl1)
    as (p1 & t1 & Ep1 & Et1 & (s1 & E1 & C1) & _).
  destruct (counted_next fr s s1 _ _ Hf C1 Hx2) as (F1 & U1 & X2).
  destruct (count_ref_ok fr s1 (ii, group, a2, z2) r2 F1 U1 X2 Hl2)
    as (p2 & t2 & Ep2 & Et2 & (s2 & E2 & C2) & _).
  cbn [fst snd] in *. rewrite (cost_of_frame s s1) in Ep2 by apply C1.
  rewrite Ep1. cbn [rbind]. rewrite Ep2. cbn [rbind]. rewrite Et1. cbn [rbind]. rewrite E1.
  cbn [rbind]. rewrite Et2. cbn [rbind]. exists s2. split; [done|]. econstructor; [done|].
  econstructor; [done|constructor].
Qed.

(** The totals first, as in the helpers for several instructions. *)
Fixpoint count_list (s : clg_state) (t : option cptr) (l : list (InstrInfo * Z * Z))
    (rs : list CacheModelResult) : res clg_state :=
  match l, rs with
  | [x], [r] => let! c := cost_of s x.1.1 EG_IR in count s r t c
  | x :: l', r :: rs' =>
      let! c := cost_of s x.1.1 EG_IR in
      let! s := count s r t c in
      count_list s t l' rs'
  | _, _ => Ok s
  end.

Lemma count_totals (l : list (InstrInfo * Z * Z)) rs :
  l <> [] -> Forall (fun x => ok (x.1.1, EG_IR, x.1.2, x.2)) l -> Forall (fun r => low r) rs ->
  length l = length rs ->
  exists s', (let! t := global_cost s EG_IR in count_list s t l rs) = Ok s' /\
    counts fr ((fun x => (x.1.1, EG_IR, x.1.2, x.2)) <$> l) rs s s'.
Proof using Hf Hu.
  intros Hne Hx Hl Hlen.
  assert (exists t, global_cost s EG_IR = Ok t) as [t Et].
  { destruct l as [|x l]; [done|]. apply Forall_cons in Hx as [(p & t & _ & Et & _) _].
    rewrite <- (global_cost_frame fr s) in Et by done. eauto. }
  rewrite Et. cbn [rbind]. revert s Hf Hu rs Hx Hl Hlen Et Hne.
  induction l as [|[[ii a] sz] l IH]; intros s' Hf' Hu' rs Hx Hl Hlen Et Hne; [done|].
  destruct rs as [|r rs]; [done|]. apply Forall_cons in Hx as [Hx Hxs].
  apply Forall_cons in Hl as [Hl Hls]. cbn [fst snd] in Hx.
  destruct (count_ref_ok fr s' (ii, EG_IR, a, sz) r Hf' Hu' Hx Hl)
    as (p1 & t1 & Ep1 & Et1 & _ & (s1 & E1 & C1)).
  cbn [fst snd] in *. rewrite Et in Et1. simplify_eq.
  destruct (counted_next fr s' s1 _ _ Hf' C1 Hx) as (F1 & U1 & _).
  destruct l as [|y l].
  { destruct rs; [|done]. exists s1. cbn [count_list fst snd]. rewrite Ep1. cbn [rbind].
    split; [done|]. econstructor; [done|constructor]. }
  destruct (IH s1 F1 U1 rs) as (s2 & E2 & C2); auto.
  - eapply Forall_impl; [exact Hxs|]. intros z. apply ref_charged_added with (1 := cd_added _ _ _ C1).
  - by rewrite (global_cost_frame s' s1) by apply C1.
  - exists s2. cbn [count_list fst snd]. rewrite Ep1. cbn [rbind]. rewrite E1. cbn [rbind].
    split; [exact E2|]. by econstructor.
Qed.
End Counting.

Lemma fetch_sets_ii s ii r s' : fetch simple_model s ii = Ok (r, s') -> set_ii s' (Some ii) = s'.
Proof.
  unfold fetch, simple_model, on_caches. cbn [I1_Read sim set_ii]. intros H.
  apply rbind_ok in H as ([r' x] & _ & H). by simplify_eq.
Qed.

(** The references of a successful [sim_refs], one by one. *)
Ltac split_refs E :=
  cbn [sim_refs sim_ref fetch_ref] in E;
  change (EG_IR =? EG_IR) with true in E; change (EG_DR =? EG_IR) with false in E;
  change (EG_DW =? EG_IR) with false in E; cbv iota in E;
  repeat match goal with
  | H : rbind _ _ = Ok (_, _) |- _ =>
      let r := fresh "r" in let s := fresh "s" in let E1 := fresh "E" in
      apply rbind_ok in H as ([r s] & E1 & H)
  end.

(** A helper simulates its references and, while collecting, counts them. *)
Lemma helper_ok g fr s h ev :
  same_frame fr s -> caches_ok g (sim s) h -> cells_u64 (mem s) -> event_ok g (mem s) fr ev ->
  is_block ev = false ->
  exists s1 s', simulated g s s1 (spec_refs g h (event_refs fr ev)).2 /\
    run_event simple_model ev s = Ok s' /\
    (if collect (current_state fr)
     then counts fr (event_refs fr ev) (spec_refs g h (event_refs fr ev)).1 s1 s' else s' = s1).
Proof.
  intros Hf Hc Hu [Hfit Hch] Hb.
  destruct (sim_refs_ok g fr s h (event_refs fr ev) Hf Hc Hfit (event_refs_fetch fr ev))
    as (s1 & E & C1 & F1 & M1 & L1).
  exists s1.
  assert (simulated g s s1 (spec_refs g h (event_refs fr ev)).2) as Hsim.
  { constructor; [done| |done]. destruct Hf, F1. constructor; congruence. }
  enough (exists s', run_event simple_model ev s = Ok s' /\
    (if collect (current_state fr)
     then counts fr (event_refs fr ev) (spec_refs g h (event_refs fr ev)).1 s1 s' else s' = s1))
    as (s' & H1 & H2) by (exists s'; by split_and!).
  rewrite <- M1 in Hch, Hu. pose proof (sf_ex _ _ F1) as Hcol.
  remember (spec_refs g h (event_refs fr ev)).1 as rs eqn:Ers. clear Ers Hsim C1 M1 Hfit Hc.
  assert (forall s' : clg_state, current_state s' = current_state fr ->
    negb (collect (current_state s')) = negb (collect (current_state fr))) as Hneg
    by (intros s' ->; done).
  destruct ev; try done; cbn [event_refs run_event] in *; split_refs E; simplify_eq;
    unfold log_1I0D, log_2I0D, log_3I0D, log_1I1Dr, log_0I1Dr, log_1I1Dw, log_0I1Dw;
    cbn [D1_Read D1_Write simple_model];
    repeat match goal with
    | H : fetch _ ?s0 ?ii = Ok _ |- context [fetch _ ?s0 ?ii] => rewrite H; cbn [rbind]
    end;
    try match goal with
    | H : fetch _ _ ?ii = Ok (_, ?s0), H2 : on_caches _ (set_ii ?s0 _) _ _ = Ok _ |- _ =>
        rewrite (fetch_sets_ii _ _ _ _ H) in H2
    end;
    try match goal with
    | H : on_caches _ _ _ _ = Ok _ |- context [on_caches] => rewrite H; cbn [rbind]
    end;
    rewrite Hneg by done;
    (destruct (collect (current_state fr)); [|by eexists]); cbn [negb];
    specialize (Hch eq_refl); unfold fetch_ref in Hch |- *;
    repeat match goal with
    | H : Forall _ (_ :: _) |- _ => apply Forall_cons in H as [? H]
    end.
  - by apply count_1.
  - match goal with |- context [counts fr [(_, _, ?a, ?z); (_, _, ?b, ?y)] ?l _ _] =>
      apply (count_totals fr s1 F1 Hu [(ii1, a, z); (ii2, b, y)] l) end;
      [done|repeat constructor; done|repeat constructor; done|done].
  - match goal with |- context [counts fr [(_, _, ?a, ?z); (_, _, ?b, ?y); (_, _, ?c, ?x)] ?l _ _] =>
      apply (count_totals fr s1 F1 Hu [(ii1, a, z); (ii2, b, y); (ii3, c, x)] l) end;
      [done|repeat constructor; done|repeat constructor; done|done].
  - by apply count_ID.
  - by apply count_1.
  - by apply count_ID.
  - by apply count_1.
Qed.

Lemma event_ok_added g f m m' s ev : added f m m' -> event_ok g m s ev -> event_ok g m' s ev.
Proof.
  intros A [Hf Hc]. split; [done|]. intros Hcol. eapply Forall_impl; [by apply Hc|].
  intros x. by apply (ref_charged_added _ f).
Qed.

Lemma run_event_ok g fr s h f m0 ev :
  same_frame fr s -> caches_ok g (sim s) h -> added f m0 (mem s) -> event_ok g m0 fr ev ->
  exists s', run_event simple_model ev s = Ok s' /\
    caches_ok g (sim s') (spec_event g fr ev h).1 /\ same_frame (next_frame ev fr) s' /\
    added (fun q => f q + (spec_event g fr ev h).2 q) m0 (mem s').
Proof.
  intros Hf Hc A Hok. pose proof (added_u64 _ _ _ A) as Hu.
  destruct (is_block ev) eqn:Eb.
  { destruct ev; try done. eexists. split; [done|]. cbn. split_and!; [done| |].
    - destruct Hf. by constructor.
    - eapply added_ext; [|exact A]. intros q. cbn. case_match; lia. }
  destruct (helper_ok g fr s h ev Hf Hc Hu (event_ok_added _ _ _ _ _ _ A Hok) Eb)
    as (s1 & s' & [C1 F1 M1] & E & Hcount).
  exists s'. split; [done|]. unfold spec_event.
  destruct (spec_refs g h (event_refs fr ev)) as [rs h']. cbn [fst snd] in *.
  replace (next_frame ev fr) with fr by (by destruct ev).
  destruct (collect (current_state fr)).
  - destruct (counts_added fr _ _ s1 s' ltac:(by rewrite M1) Hcount) as (S2 & F2 & A2).
    rewrite S2. split_and!; [done|by eapply same_frame_trans, same_frame_trans|].
    rewrite M1 in A2. by eapply added_trans.
  - subst s'. split_and!; [done|by eapply same_frame_trans|]. rewrite M1.
    eapply added_ext; [|exact A]. intros q. cbn. lia.
Qed.

Lemma run_events_ok g fr s h f m0 evs :
  same_frame fr s -> caches_ok g (sim s) h -> added f m0 (mem s) -> events_ok g m0 fr evs ->
  exists s', res_fold (run_event simple_model) evs s = Ok s' /\
    caches_ok g (sim s') (spec_events g fr evs h).1 /\
    added (fun q => f q + (spec_events g fr evs h).2 q) m0 (mem s').
Proof.
  revert fr s h f; induction evs as [|ev evs IH]; intros fr s h f Hf Hc A Hok.
  { exists s. split_and!; [done|done|]. eapply added_ext; [|exact A]. intros q. cbn. lia. }
  destruct Hok as [H1 H2]. cbn [res_fold spec_events].
  destruct (run_event_ok g fr s h f m0 ev Hf Hc A H1) as (s1 & -> & C1 & F1 & A1). cbn [rbind].
  destruct (spec_event g fr ev h) as [h1 f1]. cbn [fst snd] in *.
  destruct (IH _ _ _ _ F1 C1 A1 H2) as (s2 & -> & C2 & A2).
  destruct (spec_events g (next_frame ev fr) evs h1) as [h2 f2]. cbn [fst snd] in *.
  exists s2. split_and!; [done|done|]. eapply added_ext; [|exact A2]. intros q. cbn. lia.
Qed.

(** Three caches initialised from configurations. *)
Record sim_init (I1c D1c LLc : cache_t) (x : sim_state) : Prop := {
  si_I : clg_cachesim_initcache false "I1" I1c = Ok (s_I1 x);
  si_D : clg_cachesim_initcache false "D1" D1c = Ok (s_D1 x);
  si_L : clg_cachesim_initcache false "LL" LLc = Ok (s_LL x)
}.

Definition cfg_geoms (I1c D1c LLc : cache_t) : geoms :=
  MkGeoms (cfg_geom I1c) (cfg_geom D1c) (cfg_geom LLc).

Lemma initcache_hist0 nm cfg c :
  valid_cache cfg -> clg_cachesim_initcache false nm cfg = Ok c ->
  cache_hist (base c) [] /\ geom_of (base c) = cfg_geom cfg.
Proof.
  intros Hv E. destruct (clg_initcache_same nm cfg Hv) as (b & c' & Eb & E' & Hb & _).
  rewrite E in E'. simplify_eq. destruct (initcache_geom cfg Hv) as (b & Eb' & Hh & Hg).
  rewrite Eb in Eb'. by simplify_eq.
Qed.

Lemma sim_init_ok I1c D1c LLc x :
  valid_cache I1c -> valid_cache D1c -> valid_cache LLc -> sim_init I1c D1c LLc x ->
  caches_ok (cfg_geoms I1c D1c LLc) x (MkHists [] [] []).
Proof.
  intros VI VD VL [EI ED EL].
  destruct (initcache_hist0 _ _ _ VI EI), (initcache_hist0 _ _ _ VD ED),
    (initcache_hist0 _ _ _ VL EL). by constructor.
Qed.

(** ** Properties *)


(** Three small caches, an instruction with its own counters, the totals, and a
    block that loads, stores and fetches. *)
Definition ex_cfg : cache_t := Cache 1024 2 32.

Lemma ex_cfg_valid : valid_cache ex_cfg.
Proof.
  apply check_cache_sound; [unfold int_fields, in_s; simpl; lia|vm_compute; reflexivity].
Qed.

Definition ex_cache (nm : string) : clg_cache_t2 :=
  match clg_cachesim_initcache false nm ex_cfg with
  | Ok c => c
  | Err _ => MkClgCache nm (Cache2 0 0 0 0 0 0 0 EmptyString []) false 0 0 [] [] [] None
  end.

Definition ex_set : EventSet := MkSet 14 3 9 [0; 0; 3; 6; 9; 9; 9; 9; 9; 9].
Definition ex_ii : InstrInfo := MkInstr 4 3 0 (Some ex_set).

Definition ex_state : clg_state :=
  MkClg (MkSim (ex_cache "I1") (ex_cache "D1") (ex_cache "LL") 0 0 (replicate 8 0) (replicate 8 0))
    (MkMem [MkChunk 100000 18 None]
       (list_to_map (zip (pair 0%nat <$> seqZ 0 18) (replicate 18 0)))
       (Some 0%nat) (Some 0%nat) 18 1)
    0 None None (MkExec None false None) (MkSets ex_set ex_set) false.

Definition ex_run : list clg_event :=
  [E_block 0x1000 (Some (0%nat, 0)) (MkExec (Some (0%nat, 9)) true None);
   E_1I1Dr ex_ii 0x2000 8; E_0I1Dw ex_ii 0x2000 8; E_1I0D ex_ii].

Lemma ex_events_ok : events_ok (cfg_geoms ex_cfg ex_cfg ex_cfg) (mem ex_state) ex_state ex_run.
Proof.
  unfold ex_run. cbn [events_ok next_frame]. split_and!; [by split; constructor|..|done];
    (split; [|intros _]); cbn [event_refs fetch_ref ex_ii instr_offset instr_size];
    repeat apply Forall_cons_2; try apply Forall_nil;
    first [ cbn [ref_fits]; split; constructor; vm_compute; (congruence || (split; congruence))
          | do 2 eexists; split; [vm_compute; reflexivity|]; split; [vm_compute; reflexivity|];
            split; apply readable_check; vm_compute; reflexivity ].
Qed.

Lemma ex_sim_init : sim_init ex_cfg ex_cfg ex_cfg (sim ex_state).
Proof. constructor; vm_compute; reflexivity. Qed.


(** ** The same counts as cachegrind *)

Definition bases (x : sim_state) : caches3 :=
  Caches3 (base (s_I1 x)) (base (s_D1 x)) (base (s_LL x)).

(** A reference to the instruction or the data cache, in each tool. *)
Definition clg_one (data : bool) (x : sim_state) (a sz : Z) : res (CacheModelResult * sim_state) :=
  if data then cachesim_D1_ref x a sz else cachesim_I1_ref x a sz.

Definition cg_one (data : bool) (c : caches3) (a sz : Z) (m : misses) : res (caches3 * misses) :=
  if data then cachesim_D1_doref c a sz m else cachesim_I1_doref_Gen c a sz m.

(** The miss counters after a result. *)
Definition miss_counts (r : CacheModelResult) (m : misses) : misses :=
  (if 2 <=? level false r then u64 (m.1 + 1) else m.1,
   if 3 <=? level false r then u64 (m.2 + 1) else m.2).

Lemma one_same data x a sz m :
  cg_one data (bases x) a sz m =
  (let! (r, x') := clg_one data x a sz in Ok (bases x', miss_counts r m)).
Proof.
  destruct m as [m1 mL]. unfold cg_one, clg_one.
  destruct data; unfold cachesim_D1_doref, cachesim_I1_doref_Gen, cachesim_D1_ref, cachesim_I1_ref,
    bases; cbn [I1 D1 LL]; rewrite ref_same.
  - destruct (cachesim_ref_is_miss (base (s_D1 x)) a sz) as [[[] b]|]; [| |done];
      cbn [rbind result_of]; [rewrite decide_False by done|by rewrite decide_True].
    cbn [s_LL with_D1]. rewrite ref_same.
    destruct (cachesim_ref_is_miss (base (s_LL x)) a sz) as [[[] b']|]; [| |done];
      cbn [rbind result_of]; [by rewrite decide_False|by rewrite decide_True].
  - destruct (cachesim_ref_is_miss (base (s_I1 x)) a sz) as [[[] b]|]; [| |done];
      cbn [rbind result_of]; [rewrite decide_False by done|by rewrite decide_True].
    cbn [s_LL with_I1]. rewrite ref_same.
    destruct (cachesim_ref_is_miss (base (s_LL x)) a sz) as [[[] b']|]; [| |done];
      cbn [rbind result_of]; [by rewrite decide_False|by rewrite decide_True].
Qed.

Definition ref_trace : Type := list (bool * Z * Z).

Fixpoint clg_trace (x : sim_state) (tr : ref_trace) : res (list CacheModelResult * sim_state) :=
  match tr with
  | [] => Ok ([], x)
  | (data, a, sz) :: tr' =>
      let! (r, x) := clg_one data x a sz in
      let! (rs, x) := clg_trace x tr' in
      Ok (r :: rs, x)
  end.

Fixpoint cg_trace (c : caches3) (tr : ref_trace) (m : misses) : res (caches3 * misses) :=
  match tr with
  | [] => Ok (c, m)
  | (data, a, sz) :: tr' =>
      let! (c, m) := cg_one data c a sz m in
      cg_trace c tr' m
  end.

(** C21. The two profilers agree: on any trace of references and from any state,
    callgrind's simple model and cachegrind's simulator leave the same caches
    and the same numbers of first-level and last-level misses, or fail at the
    same reference in the same way. *)
Theorem callgrind_agrees_with_cachegrind (x : sim_state) (tr : ref_trace) (m : misses) :
  cg_trace (bases x) tr m =
  (let! (rs, x') := clg_trace x tr in
   Ok (bases x', fold_left (fun m r => miss_counts r m) rs m)).
Proof.
  revert x m; induction tr as [|[[data a] sz] tr IH]; intros x m; [done|].
  cbn [cg_trace clg_trace]. rewrite one_same.
  destruct (clg_one data x a sz) as [[r x1]|]; [|done]. cbn [rbind]. rewrite IH.
  by destruct (clg_trace x1 tr) as [[rs x2]|].
Qed.
