(* ===== verification/OSet.v ===== *)
(** * Ordered sets: coregrind/m_oset.c

    The AVL tree behind every table of the profiler.  A node pointer is a
    tree ([Leaf] is NULL); the operations follow the C text, rotations and
    balance fields included, and fault where the code would dereference NULL
    or fail an assertion.  The in-order element list [elems] is the abstract
    value; [OSetLaws] states what the clients rely on and [avl_oset_laws]
    discharges it. *)

From Stdlib Require Import ZArith Lia Sorted.
From stdpp Require Import base numbers option strings list sorting.
From S2P Require Import Prelude.

#[local] Open Scope Z_scope.

(** [STACK_MAX]. *)
Definition STACK_MAX : nat := 32.

(** [fast_cmp] on the two words. *)
Definition fast_cmp (w1 w2 : Z) : Z :=
  if w1 >? w2 then 1 else if w1 <? w2 then -1 else 0.

(** ** Nodes *)

Inductive AvlNode (E : Type) : Type :=
  | Leaf
  | Node (left right : AvlNode E) (balance : Z) (elem : E).
Arguments Leaf {E}.
Arguments Node {E} left right balance elem.

Section nodes.
Context {E : Type}.
Implicit Types (t l r : AvlNode E) (b : Z).

Fixpoint elems t : list E :=
  match t with
  | Leaf => []
  | Node l r _ e => elems l ++ e :: elems r
  end.

(** [n->balance = b], [n->left->balance = b], [n->right->balance = b]. *)
Definition set_balance t b : res (AvlNode E) :=
  match t with
  | Node l r _ e => Ok (Node l r b e)
  | Leaf => Err NullDeref
  end.

Definition set_left_balance t b : res (AvlNode E) :=
  match t with
  | Node l r b0 e => let! l' := set_balance l b in Ok (Node l' r b0 e)
  | Leaf => Err NullDeref
  end.

Definition set_right_balance t b : res (AvlNode E) :=
  match t with
  | Node l r b0 e => let! r' := set_balance r b in Ok (Node l r' b0 e)
  | Leaf => Err NullDeref
  end.

Definition get_balance t : res Z :=
  match t with Node _ _ b _ => Ok b | Leaf => Err NullDeref end.

(** [avl_swl]: swing to the left. *)
Definition avl_swl t : res (AvlNode E) :=
  match t with
  | Node al (Node bl br bb be) ab ae => Ok (Node (Node al bl ab ae) br bb be)
  | _ => Err NullDeref
  end.

(** [avl_swr]: swing to the right. *)
Definition avl_swr t : res (AvlNode E) :=
  match t with
  | Node (Node bl br bb be) ar ab ae => Ok (Node bl (Node br ar ab ae) bb be)
  | _ => Err NullDeref
  end.

(** [avl_nasty]: balance maintenance after a double swing. *)
Definition avl_nasty t : res (AvlNode E) :=
  let! b := get_balance t in
  let! t1 :=
    (if b =? -1 then let! t' := set_left_balance t 0 in set_right_balance t' 1
     else if b =? 1 then let! t' := set_left_balance t (-1) in set_right_balance t' 0
     else if b =? 0 then let! t' := set_left_balance t 0 in set_right_balance t' 0
     else Ok t) in
  set_balance t1 0.

(** The tail of [avl_insert] once the left subtree has grown to [l'].  The
    [balance] field is a [Char]. *)
Definition insert_grown_left l' r b (e : E) : res (AvlNode E * bool) :=
  let t1 := Node l' r (s8 (b - 1)) e in
  if b =? 1 then Ok (t1, false)
  else if b =? 0 then Ok (t1, true)
  else
    let! bl := get_balance l' in
    if bl <? 0 then
      let! t2 := avl_swr t1 in
      let! t3 := set_balance t2 0 in
      let! t4 := set_right_balance t3 0 in
      Ok (t4, false)
    else
      let! l2 := avl_swl l' in
      let! t2 := avl_swr (Node l2 r (s8 (b - 1)) e) in
      let! t3 := avl_nasty t2 in
      Ok (t3, false).

Definition insert_grown_right l r' b (e : E) : res (AvlNode E * bool) :=
  let t1 := Node l r' (s8 (b + 1)) e in
  if b =? -1 then Ok (t1, false)
  else if b =? 0 then Ok (t1, true)
  else
    let! br := get_balance r' in
    if br >? 0 then
      let! t2 := avl_swl t1 in
      let! t3 := set_balance t2 0 in
      let! t4 := set_left_balance t3 0 in
      Ok (t4, false)
    else
      let! r2 := avl_swr r' in
      let! t2 := avl_swl (Node l r2 (s8 (b + 1)) e) in
      let! t3 := avl_nasty t2 in
      Ok (t3, false).

(** The tail of [avl_remove] once the left subtree has shrunk to [l']. *)
Definition remove_shrunk_left l' r b (e : E) : res (AvlNode E * bool) :=
  let t1 := Node l' r (s8 (b + 1)) e in
  if b =? -1 then Ok (t1, true)
  else if b =? 0 then Ok (t1, false)
  else
    let! br := get_balance r in
    if br =? 0 then
      let! t2 := avl_swl t1 in
      let! t3 := set_balance t2 (-1) in
      let! t4 := set_left_balance t3 1 in
      Ok (t4, false)
    else if br =? 1 then
      let! t2 := avl_swl t1 in
      let! t3 := set_balance t2 0 in
      let! t4 := set_left_balance t3 0 in
      Ok (t4, true)
    else
      let! r2 := avl_swr r in
      let! t2 := avl_swl (Node l' r2 (s8 (b + 1)) e) in
      let! t3 := avl_nasty t2 in
      Ok (t3, true).

Definition remove_shrunk_right l r' b (e : E) : res (AvlNode E * bool) :=
  let t1 := Node l r' (s8 (b - 1)) e in
  if b =? 1 then Ok (t1, true)
  else if b =? 0 then Ok (t1, false)
  else
    let! bl := get_balance l in
    if bl =? 0 then
      let! t2 := avl_swr t1 in
      let! t3 := set_balance t2 1 in
      let! t4 := set_right_balance t3 (-1) in
      Ok (t4, false)
    else if bl =? -1 then
      let! t2 := avl_swr t1 in
      let! t3 := set_balance t2 0 in
      let! t4 := set_right_balance t3 0 in
      Ok (t4, true)
    else
      let! l2 := avl_swl l in
      let! t2 := avl_swr (Node l2 r' (s8 (b - 1)) e) in
      let! t3 := avl_nasty t2 in
      Ok (t3, true).

(** [while (n->right) n = n->right;] and its mirror image. *)
Fixpoint rightmost t (e : E) : E :=
  match t with Leaf => e | Node _ r _ e' => rightmost r e' end.

Fixpoint leftmost t (e : E) : E :=
  match t with Leaf => e | Node l _ _ e' => leftmost l e' end.

(** *** The AVL invariant *)

(** [avl t h]: [t] has height [h] and every balance field is the difference of
    the heights of the two subtrees. *)
Inductive avl : AvlNode E -> nat -> Prop :=
  | avl_Leaf : avl Leaf 0
  | avl_even l r e h : avl l h -> avl r h -> avl (Node l r 0 e) (S h)
  | avl_left l r e h : avl l (S h) -> avl r h -> avl (Node l r (-1) e) (S (S h))
  | avl_right l r e h : avl l h -> avl r (S h) -> avl (Node l r 1 e) (S (S h)).

End nodes.

#[export] Hint Constructors avl : cg.

(** Close a [fixed_up] goal on concrete balances, and its [leans] side. *)
Ltac solve_fix :=
  eexists _, _; split; [reflexivity|];
  split; [cbn [elems]; by repeat (rewrite <- app_assoc; cbn [app])|];
  lazy; solve [eauto 6 with cg].

Ltac solve_leans := let t' := fresh "t'" in let H := fresh in
  intros t' H; lazy in H; first [discriminate H | by injection H as <-; lazy].

Section node_lemmas.
Context {E : Type}.
Implicit Types (t l r : AvlNode E) (b : Z).

(** What a fix-up promises: the elements are kept, the tree is balanced again
    and the flag tells the height.  [hi] is the height when the flag is set,
    [lo] when it is not. *)
Definition fixed_up (m : res (AvlNode E * bool)) (xs : list E) (hi lo : nat) : Prop :=
  exists t' g, m = Ok (t', g) /\ elems t' = xs /\ avl t' (if g then hi else lo).

Lemma avl_height_unique t h1 h2 : avl t h1 -> avl t h2 -> h1 = h2.
Proof.
  intros H1; revert h2; induction H1; intros h2 H2; inversion H2; subst; auto.
Qed.

(** A grown subtree leans to one side. *)
Definition leans t : Prop := get_balance t <> Ok 0.

Lemma insert_grown_left_ok l l' r b e h hl :
  avl l hl -> avl (Node l r b e) h -> avl l' (S hl) -> leans l' ->
  fixed_up (insert_grown_left l' r b e) (elems l' ++ e :: elems r) (S h) h /\
  (forall t', insert_grown_left l' r b e = Ok (t', true) -> leans t').
Proof.
  intros Hl Ht Hl' Hb.
  inversion Ht as [|? ? ? ? Ha|? ? ? ? Ha|? ? ? ? Ha]; subst;
    pose proof (avl_height_unique _ _ _ Hl Ha) as ->; clear Ht Ha Hl.
  - split; [solve_fix|]. solve_leans.
  - inversion Hl' as [|? ? ? ? Hll Hlr|? ? ? ? Hll Hlr|? ? ? ? Hll Hlr]; subst;
      [by destruct Hb| |].
    + split; [solve_fix|]. solve_leans.
    + inversion Hlr; subst; (split; [solve_fix|solve_leans]).
  - split; [solve_fix|]. solve_leans.
Qed.

Lemma insert_grown_right_ok l r r' b e h hr :
  avl r hr -> avl (Node l r b e) h -> avl r' (S hr) -> leans r' ->
  fixed_up (insert_grown_right l r' b e) (elems l ++ e :: elems r') (S h) h /\
  (forall t', insert_grown_right l r' b e = Ok (t', true) -> leans t').
Proof.
  intros Hr Ht Hr' Hb.
  inversion Ht as [|? ? ? ? Hx Ha|? ? ? ? Hx Ha|? ? ? ? Hx Ha]; subst;
    pose proof (avl_height_unique _ _ _ Hr Ha) as ->; clear Ht Ha Hr.
  - split; [solve_fix|]. solve_leans.
  - split; [solve_fix|]. solve_leans.
  - inversion Hr' as [|? ? ? ? Hrl Hrr|? ? ? ? Hrl Hrr|? ? ? ? Hrl Hrr]; subst;
      [by destruct Hb| |].
    + inversion Hrl; subst; (split; [solve_fix|solve_leans]).
    + split; [solve_fix|]. solve_leans.
Qed.

Lemma remove_shrunk_left_ok l l' r b e h hl :
  avl l (S hl) -> avl (Node l r b e) (S h) -> avl l' hl ->
  fixed_up (remove_shrunk_left l' r b e) (elems l' ++ e :: elems r) h (S h).
Proof.
  intros Hl Ht Hl'.
  inversion Ht as [|? ? ? ? Ha Hr|? ? ? ? Ha Hr|? ? ? ? Ha Hr]; subst;
    pose proof (avl_height_unique _ _ _ Hl Ha) as Heq; subst;
    try injection Heq as ->; clear Ht Ha Hl; [solve_fix|solve_fix|].
  inversion Hr as [|? ? ? ? Hrl Hrr|? ? ? ? Hrl Hrr|? ? ? ? Hrl Hrr]; subst;
    [solve_fix| |solve_fix].
  inversion Hrl; subst; solve_fix.
Qed.

Lemma remove_shrunk_right_ok l r r' b e h hr :
  avl r (S hr) -> avl (Node l r b e) (S h) -> avl r' hr ->
  fixed_up (remove_shrunk_right l r' b e) (elems l ++ e :: elems r') h (S h).
Proof.
  intros Hr Ht Hr'.
  inversion Ht as [|? ? ? ? Hl Ha|? ? ? ? Hl Ha|? ? ? ? Hl Ha]; subst;
    pose proof (avl_height_unique _ _ _ Hr Ha) as Heq; subst;
    try injection Heq as ->; clear Ht Ha Hr; [solve_fix| |solve_fix].
  inversion Hl as [|? ? ? ? Hll Hlr|? ? ? ? Hll Hlr|? ? ? ? Hll Hlr]; subst;
    [solve_fix|solve_fix|].
  inversion Hlr; subst; solve_fix.
Qed.

(** The extreme nodes are the ends of the in-order list. *)
Lemma rightmost_elems t e : exists xs, e :: elems t = xs ++ [rightmost t e].
Proof.
  revert e; induction t as [|l IHl r IHr b x]; intros e; simpl; [by exists []|].
  destruct (IHr x) as [xs Hxs]. exists (e :: elems l ++ xs).
  by rewrite Hxs, app_comm_cons, app_assoc.
Qed.

Lemma leftmost_elems t e : exists xs, elems t ++ [e] = leftmost t e :: xs.
Proof.
  revert e; induction t as [|l IHl r IHr b x]; intros e; simpl; [by exists []|].
  destruct (IHl x) as [xs Hxs]. exists (xs ++ elems r ++ [e]).
  rewrite <- app_assoc. cbn [app]. rewrite (app_assoc (elems l) [x] _ : elems l ++ x :: _ = _).
  by rewrite Hxs.
Qed.

(** *** Size against height *)

(** The least number of nodes of an AVL tree of height [h]. *)
Fixpoint avl_min_size (h : nat) : Z :=
  match h with
  | O => 0
  | S h' => match h' with
            | O => 1
            | S h'' => avl_min_size h' + avl_min_size h'' + 1
            end
  end.

Lemma avl_min_size_SS h :
  avl_min_size (S (S h)) = avl_min_size (S h) + avl_min_size h + 1.
Proof. reflexivity. Qed.

Lemma avl_min_size_mono h : avl_min_size h <= avl_min_size (S h).
Proof.
  enough (0 <= avl_min_size h /\ avl_min_size h <= avl_min_size (S h)) by tauto.
  induction h as [|h IH]; [simpl; lia|]. rewrite avl_min_size_SS. lia.
Qed.

Lemma avl_size_lower t h : avl t h -> avl_min_size h <= Z.of_nat (length (elems t)).
Proof.
  induction 1 as [|l r e h H1 I1 H2 I2|l r e h H1 I1 H2 I2|l r e h H1 I1 H2 I2];
    cbn [elems]; rewrite ?length_app; cbn [length]; [simpl; lia| | |].
  - destruct h as [|h]; [simpl; lia|]. rewrite avl_min_size_SS.
    pose proof (avl_min_size_mono h). lia.
  - rewrite avl_min_size_SS. lia.
  - rewrite avl_min_size_SS. lia.
Qed.

End node_lemmas.

(** ** Comparison functions

    What the tree needs of the client's [OSetCmp_t]: its sign is a total
    preorder on keys. *)
Class CmpLaws {K : Type} (kcmp : K -> K -> Z) : Prop := {
  cmp_anti a b : Z.sgn (kcmp a b) = - Z.sgn (kcmp b a);
  cmp_trans a b c : kcmp a b < 0 -> kcmp b c < 0 -> kcmp a c < 0;
  cmp_zero_l a b c : kcmp a b = 0 -> Z.sgn (kcmp a c) = Z.sgn (kcmp b c)
}.

#[export] Instance fast_cmp_laws : CmpLaws fast_cmp.
Proof.
  assert (forall a b, fast_cmp a b = 1 /\ a > b \/ fast_cmp a b = -1 /\ a < b \/
                      fast_cmp a b = 0 /\ a = b) as Hc.
  { intros a b. unfold fast_cmp. rewrite Z.gtb_ltb. case_Z; lia. }
  split; intros a b.
  - destruct (Hc a b) as [[-> ?]|[[-> ?]|[-> ?]]],
      (Hc b a) as [[-> ?]|[[-> ?]|[-> ?]]]; simpl; lia.
  - intros c. destruct (Hc a b) as [[-> ?]|[[-> ?]|[-> ?]]],
      (Hc b c) as [[-> ?]|[[-> ?]|[-> ?]]], (Hc a c) as [[-> ?]|[[-> ?]|[-> ?]]]; lia.
  - intros c H. destruct (Hc a b) as [[? ?]|[[? ?]|[? ->]]]; [lia|lia|done].
Qed.

Section cmp_facts.
Context {K : Type} {kcmp : K -> K -> Z} `{!CmpLaws kcmp}.

Lemma cmp_refl a : kcmp a a = 0.
Proof. pose proof (cmp_anti a a). destruct (kcmp a a); simpl in *; lia. Qed.

Lemma cmp_flip_lt a b : kcmp a b < 0 <-> 0 < kcmp b a.
Proof. pose proof (cmp_anti a b). destruct (kcmp a b), (kcmp b a); simpl in *; lia. Qed.

Lemma cmp_flip_zero a b : kcmp a b = 0 <-> kcmp b a = 0.
Proof. pose proof (cmp_anti a b). destruct (kcmp a b), (kcmp b a); simpl in *; lia. Qed.

Lemma cmp_zero_lt a b c : kcmp a b = 0 -> kcmp b c < 0 -> kcmp a c < 0.
Proof.
  intros H. pose proof (cmp_zero_l a b c H). destruct (kcmp a c), (kcmp b c);
    simpl in *; lia.
Qed.

Lemma cmp_gt_trans a b c : 0 < kcmp a b -> 0 < kcmp b c -> 0 < kcmp a c.
Proof. rewrite <- !cmp_flip_lt. eauto using cmp_trans. Qed.
End cmp_facts.

(** ** Insertion, lookup, removal *)

Definition duplicate_element : fault :=
  AssertFail "OSet{Word,Gen}_Insert: duplicate element added".

Section ordered.
Context {K E : Type} `{!EqDecision E} (key : E -> K) (kcmp : K -> K -> Z).
Implicit Types (t l r : AvlNode E) (b : Z).

(** [cmp_key_root (t, n)] on the element of the root. *)
Definition cmp_key_root (n root : E) : Z := kcmp (key n) (key root).

(** [avl_insert].  Where the recursive call reports growth the C code leaves
    the child pointer alone: no rotation took place, so the child is still the
    node whose fields were updated ([avl_insert_root_kept]). *)
Fixpoint avl_insert t (n : E) : res (AvlNode E * bool) :=
  match t with
  | Leaf => Err NullDeref
  | Node l r b e =>
      let cmpres := cmp_key_root n e in
      if cmpres <? 0 then
        match l with
        | Node _ _ _ _ =>
            let! (l', grown) := avl_insert l n in
            if grown then insert_grown_left l' r b e
            else Ok (Node l' r b e, false)
        | Leaf => Ok (Node (Node Leaf Leaf 0 n) r (s8 (b - 1)) e, b =? 0)
        end
      else if cmpres >? 0 then
        match r with
        | Node _ _ _ _ =>
            let! (r', grown) := avl_insert r n in
            if grown then insert_grown_right l r' b e
            else Ok (Node l r' b e, false)
        | Leaf => Ok (Node l (Node Leaf Leaf 0 n) (s8 (b + 1)) e, b =? 0)
        end
      else Err duplicate_element
  end.

(** [avl_lookup]. *)
Fixpoint avl_lookup t (k : K) : option E :=
  match t with
  | Leaf => None
  | Node l r _ e =>
      let cmpres := kcmp k (key e) in
      if cmpres <? 0 then avl_lookup l k
      else if cmpres >? 0 then avl_lookup r k
      else Some e
  end.

(** [avl_removeroot], given the recursive [avl_remove]. *)
Definition avl_removeroot (remove : AvlNode E -> E -> res (AvlNode E * bool)) t
  : res (AvlNode E * bool) :=
  match t with
  | Leaf => Err NullDeref
  | Node Leaf Leaf _ _ => Ok (Leaf, true)
  | Node Leaf r _ _ => Ok (r, true)
  | Node l Leaf _ _ => Ok (l, true)
  | Node (Node _ lr _ le as l) (Node rl _ _ re as r) b e =>
      let n := if b <? 0 then rightmost lr le else leftmost rl re in
      let! (t', ch) := remove t n in
      match t' with
      | Leaf => Err NullDeref
      | Node l' r' b' _ =>
          Ok (Node l' r' b' n, if b' =? 0 then ch else false)
      end
  end.

(** [avl_remove].  It calls itself on a subtree, or on the same tree once per
    level through [avl_removeroot]; the fuel counts the nested calls. *)
Fixpoint avl_remove (fuel : nat) t (n : E) : res (AvlNode E * bool) :=
  match fuel with
  | O => Err OutOfFuel
  | S fuel' =>
      match t with
      | Leaf => Err NullDeref
      | Node l r b e =>
          let cmpres := cmp_key_root n e in
          if cmpres <? 0 then
            match l with
            | Leaf => Err (AssertFail "t->root->left")
            | Node _ _ _ _ =>
                let! (l', ch) := avl_remove fuel' l n in
                if ch then remove_shrunk_left l' r b e
                else Ok (Node l' r b e, false)
            end
          else if cmpres >? 0 then
            match r with
            | Leaf => Err (AssertFail "t->root->right")
            | Node _ _ _ _ =>
                let! (r', ch) := avl_remove fuel' r n in
                if ch then remove_shrunk_right l r' b e
                else Ok (Node l r' b e, false)
            end
          else
            let! _ := tl_assert (bool_decide (e = n)) "t->root == n" in
            avl_removeroot (avl_remove fuel') t
      end
  end.

Fixpoint height t : nat :=
  match t with Leaf => O | Node l r _ _ => S (Nat.max (height l) (height r)) end.

(** The fuel [VG_(OSetGen_Remove)] runs with: two nested calls per level. *)
Definition remove_fuel t : nat := 2 * height t.
End ordered.

(** *** The abstract operations on sorted lists *)

Section sorted_lists.
Context {K E : Type} (key : E -> K) (kcmp : K -> K -> Z).

(** Strictly increasing keys. *)
Definition ordered (xs : list E) : Prop :=
  StronglySorted (fun x y => kcmp (key x) (key y) < 0) xs.

Fixpoint sset_insert (n : E) (xs : list E) : list E :=
  match xs with
  | [] => [n]
  | x :: xs' => if kcmp (key n) (key x) <? 0 then n :: xs else x :: sset_insert n xs'
  end.

Definition sset_lookup (k : K) (xs : list E) : option E :=
  List.find (fun x => kcmp k (key x) =? 0) xs.

Definition fresh_key (k : K) (xs : list E) : Prop :=
  Forall (fun x => kcmp k (key x) <> 0) xs.

Context `{!CmpLaws kcmp}.

Lemma ordered_app xs ys :
  ordered (xs ++ ys) <->
  ordered xs /\ ordered ys /\
  (forall x y, x ∈ xs -> y ∈ ys -> kcmp (key x) (key y) < 0).
Proof.
  unfold ordered. induction xs as [|x xs IH]; simpl.
  - split; [|by intros (_ & ? & _)]. intros H. split_and!; [constructor|done|].
    by intros ? ? ?%not_elem_of_nil.
  - split.
    + intros [Hs Hx]%StronglySorted_inv. apply IH in Hs as (? & ? & Hxy).
      rewrite Forall_app, !Forall_forall in Hx. destruct Hx as [Hx1 Hx2].
      split_and!; [constructor; [done|by apply Forall_forall]|done|].
      intros a b [->|Ha]%elem_of_cons Hb; auto.
    + intros (Hs & Hy & Hxy). apply StronglySorted_inv in Hs as [Hs Hx].
      constructor.
      * apply IH. split_and!; [done|done|]. intros; apply Hxy; [by right|done].
      * apply Forall_app. split; [done|]. apply Forall_forall. intros; apply Hxy;
          [by left|done].
Qed.

Lemma ordered_cons_lr x xs :
  ordered (x :: xs) <-> ordered xs /\ (forall y, y ∈ xs -> kcmp (key x) (key y) < 0).
Proof.
  unfold ordered. split.
  - intros [H1 H2]%StronglySorted_inv. rewrite Forall_forall in H2. auto.
  - intros [H1 H2]. constructor; [done|]. by apply Forall_forall.
Qed.

Lemma ordered_mid xs x ys :
  ordered (xs ++ x :: ys) ->
  ordered xs /\ ordered ys /\
  (forall y, y ∈ xs -> kcmp (key y) (key x) < 0) /\
  (forall y, y ∈ ys -> kcmp (key x) (key y) < 0).
Proof.
  intros (H1 & H2 & H3)%ordered_app. apply ordered_cons_lr in H2 as [H2 H4].
  split_and!; auto. intros y Hy. apply H3; [done|by left].
Qed.

Lemma sset_insert_mid_lt n xs x ys :
  kcmp (key n) (key x) < 0 -> sset_insert n (xs ++ x :: ys) = sset_insert n xs ++ x :: ys.
Proof.
  intros H. induction xs as [|y xs IH]; simpl.
  - by rewrite (proj2 (Z.ltb_lt _ _) H).
  - case_match; [done|]. simpl. by rewrite IH.
Qed.

Lemma sset_insert_mid_gt n xs x ys :
  ordered (xs ++ x :: ys) -> 0 < kcmp (key n) (key x) ->
  sset_insert n (xs ++ x :: ys) = xs ++ x :: sset_insert n ys.
Proof.
  intros (_ & _ & Hlt & _)%ordered_mid Hn. induction xs as [|y xs IH]; simpl.
  - by rewrite (proj2 (Z.ltb_ge _ _)) by lia.
  - assert (0 < kcmp (key n) (key y)).
    { apply (cmp_gt_trans _ (key x)); [done|]. apply cmp_flip_lt, Hlt. by left. }
    rewrite (proj2 (Z.ltb_ge _ _)) by lia. f_equal. apply IH.
    intros z Hz. apply Hlt. by right.
Qed.

Lemma sset_insert_elem n xs y : y ∈ sset_insert n xs <-> y = n \/ y ∈ xs.
Proof.
  induction xs as [|x xs IH]; simpl; [|case_match];
    rewrite ?elem_of_cons, ?IH, ?elem_of_cons, ?elem_of_nil; naive_solver.
Qed.

Lemma sset_insert_perm n xs : sset_insert n xs ≡ₚ n :: xs.
Proof.
  induction xs as [|x xs IH]; simpl; [done|]. case_match; [done|]. rewrite IH. constructor.
Qed.

Lemma sset_insert_ordered n xs :
  ordered xs -> fresh_key (key n) xs -> ordered (sset_insert n xs).
Proof.
  induction xs as [|x xs IH]; simpl; intros Ho Hf.
  - by repeat constructor.
  - apply Forall_cons in Hf as [Hx Hf]. pose proof Ho as [Hs Hlt]%ordered_cons_lr.
    destruct (Z.ltb_spec (kcmp (key n) (key x)) 0).
    + apply ordered_cons_lr. split; [done|]. intros y [->|Hy]%elem_of_cons; [done|].
      eauto using cmp_trans.
    + apply ordered_cons_lr. split; [by apply IH|].
      intros y [->|Hy]%sset_insert_elem; [|by apply Hlt].
      apply cmp_flip_lt. lia.
Qed.

Lemma sset_lookup_app k xs ys :
  sset_lookup k (xs ++ ys) =
    match sset_lookup k xs with Some z => Some z | None => sset_lookup k ys end.
Proof.
  unfold sset_lookup. induction xs as [|x xs IH]; simpl; [done|].
  by destruct (kcmp k (key x) =? 0).
Qed.

Lemma sset_lookup_None k xs : sset_lookup k xs = None <-> fresh_key k xs.
Proof.
  unfold sset_lookup, fresh_key. induction xs as [|x xs IH]; simpl.
  - by split; [constructor|].
  - rewrite Forall_cons, <- IH. destruct (Z.eqb_spec (kcmp k (key x)) 0); intuition congruence.
Qed.

Lemma sset_lookup_Some k xs x : sset_lookup k xs = Some x -> x ∈ xs /\ kcmp k (key x) = 0.
Proof.
  unfold sset_lookup. intros [H1 H2]%List.find_some.
  split; [by apply list_elem_of_In|by apply Z.eqb_eq].
Qed.

(** The side of a key decides the side of everything beyond it. *)
Lemma cmp_below k x z : kcmp k (key x) <= 0 -> kcmp (key x) (key z) < 0 -> kcmp k (key z) < 0.
Proof.
  intros Hk Hz. destruct (Z.eq_dec (kcmp k (key x)) 0).
  - by eapply cmp_zero_lt.
  - eapply cmp_trans; [|done]. lia.
Qed.

Lemma cmp_above k x z : 0 <= kcmp k (key x) -> kcmp (key z) (key x) < 0 -> 0 < kcmp k (key z).
Proof.
  intros Hk Hz. apply cmp_flip_lt. destruct (Z.eq_dec (kcmp k (key x)) 0) as [H0|H0].
  - apply cmp_flip_lt in Hz. apply cmp_flip_lt.
    pose proof (cmp_zero_l _ _ (key z) H0).
    destruct (kcmp k (key z)), (kcmp (key x) (key z)); simpl in *; lia.
  - eapply cmp_trans; [done|]. apply cmp_flip_lt. lia.
Qed.

(** Lookups in an ordered list can skip the half on the wrong side. *)
Lemma sset_lookup_mid k xs x ys :
  ordered (xs ++ x :: ys) ->
  sset_lookup k (xs ++ x :: ys) =
    if kcmp k (key x) <? 0 then sset_lookup k xs
    else if kcmp k (key x) >? 0 then sset_lookup k ys
    else Some x.
Proof.
  intros (Hx & Hy & Hlt & Hgt)%ordered_mid. rewrite sset_lookup_app, Z.gtb_ltb.
  change (x :: ys) with ([x] ++ ys). rewrite sset_lookup_app.
  replace (sset_lookup k [x]) with (if kcmp k (key x) =? 0 then Some x else None) by done.
  destruct (Z.ltb_spec (kcmp k (key x)) 0) as [Hk|Hk].
  - rewrite (proj2 (Z.eqb_neq _ _)) by lia.
    rewrite (proj2 (sset_lookup_None k ys)); [by case_match|].
    apply Forall_forall. intros z Hz. pose proof (cmp_below k x z). specialize (Hgt z Hz). lia.
  - rewrite (proj2 (sset_lookup_None k xs)).
    + destruct (Z.ltb_spec 0 (kcmp k (key x))); destruct (Z.eqb_spec (kcmp k (key x)) 0);
        done || lia.
    + apply Forall_forall. intros z Hz. pose proof (cmp_above k x z). specialize (Hlt z Hz). lia.
Qed.

(** In an ordered list the key determines the element. *)
Lemma ordered_key_inj xs x y :
  ordered xs -> x ∈ xs -> y ∈ xs -> kcmp (key x) (key y) = 0 -> x = y.
Proof.
  intros Ho (l1 & l2 & ->)%list_elem_of_split Hy Hk.
  apply ordered_mid in Ho as (_ & _ & Hlt & Hgt).
  apply elem_of_app in Hy as [Hy|[Hy|Hy]%elem_of_cons]; [|done|].
  - apply Hlt, cmp_flip_lt in Hy. lia.
  - apply Hgt in Hy. lia.
Qed.

Lemma sset_lookup_elem k xs x :
  ordered xs -> (sset_lookup k xs = Some x <-> x ∈ xs /\ kcmp k (key x) = 0).
Proof.
  intros Ho. split; [apply sset_lookup_Some|]. intros [Hx Hk].
  destruct (sset_lookup k xs) as [y|] eqn:Hl.
  - apply sset_lookup_Some in Hl as [Hy Hky]. f_equal.
    eapply ordered_key_inj; [done..|]. pose proof (cmp_zero_l _ _ (key y) Hk) as Hs.
    rewrite Hky in Hs. apply cmp_flip_zero. rewrite <- (Z.sgn_null_iff _).
    apply cmp_flip_zero in Hk. pose proof (cmp_zero_l (key x) k (key y) Hk) as H2.
    pose proof (cmp_anti (key x) (key y)). rewrite Hky in H2. lia.
  - apply sset_lookup_None in Hl. unfold fresh_key in Hl. rewrite Forall_forall in Hl.
    by destruct (Hl x Hx).
Qed.

End sorted_lists.

(** *** The tree operations implement them *)

Section ordered_lemmas.
Context {K E : Type} `{!EqDecision E} (key : E -> K) (kcmp : K -> K -> Z).
Context `{!CmpLaws kcmp}.
Implicit Types (t l r : AvlNode E) (b : Z).

Local Notation insert := (avl_insert key kcmp).
Local Notation ordered := (ordered key kcmp).
Local Notation sset_insert := (sset_insert key kcmp).

(** Insertion into one side, the other side untouched: the common part of the
    two recursive branches. *)
Lemma insert_step_left l r b e n h :
  avl (Node l r b e) h ->
  (forall hl, avl l hl -> l <> Leaf ->
     fixed_up (insert l n) (sset_insert n (elems l)) (S hl) hl /\
     (forall t', insert l n = Ok (t', true) -> leans t')) ->
  kcmp (key n) (key e) < 0 ->
  fixed_up (insert (Node l r b e) n) (sset_insert n (elems l) ++ e :: elems r) (S h) h /\
  (forall t', insert (Node l r b e) n = Ok (t', true) -> leans t').
Proof.
  intros Ht IH Hlt. cbn [avl_insert]. unfold cmp_key_root.
  rewrite (proj2 (Z.ltb_lt _ _) Hlt). destruct l as [|ll lr lb le].
  - inversion Ht as [|? ? ? ? Hl Hr|? ? ? ? Hl Hr|? ? ? ? Hl Hr]; subst; inversion Hl; subst.
    + split; [solve_fix|solve_leans].
    + split; [solve_fix|solve_leans].
  - assert (exists hl, avl (Node ll lr lb le) hl) as [hl Hl] by (inversion Ht; eauto).
    destruct (IH hl Hl ltac:(done)) as [(l' & g & Hi & He & Ha) Hlean].
    rewrite Hi. cbn [rbind]. rewrite <- He. destruct g.
    + apply (insert_grown_left_ok (Node ll lr lb le) l' r b e h hl); auto.
    + split; [|done]. eexists _, _. split; [done|]. split; [done|].
      inversion Ht as [|? ? ? ? Hl2|? ? ? ? Hl2|? ? ? ? Hl2]; subst;
        pose proof (avl_height_unique _ _ _ Hl Hl2) as ->; eauto with cg.
Qed.

Lemma insert_step_right l r b e n h :
  avl (Node l r b e) h ->
  (forall hr, avl r hr -> r <> Leaf ->
     fixed_up (insert r n) (sset_insert n (elems r)) (S hr) hr /\
     (forall t', insert r n = Ok (t', true) -> leans t')) ->
  0 < kcmp (key n) (key e) ->
  fixed_up (insert (Node l r b e) n) (elems l ++ e :: sset_insert n (elems r)) (S h) h /\
  (forall t', insert (Node l r b e) n = Ok (t', true) -> leans t').
Proof.
  intros Ht IH Hlt. cbn [avl_insert]. unfold cmp_key_root.
  rewrite (proj2 (Z.ltb_ge _ _)), Z.gtb_ltb, (proj2 (Z.ltb_lt _ _) Hlt) by lia.
  destruct r as [|rl rr rb re].
  - inversion Ht as [|? ? ? ? Hl Hr|? ? ? ? Hl Hr|? ? ? ? Hl Hr]; subst; inversion Hr; subst.
    + split; [solve_fix|solve_leans].
    + split; [solve_fix|solve_leans].
  - assert (exists hr, avl (Node rl rr rb re) hr) as [hr Hr] by (inversion Ht; eauto).
    destruct (IH hr Hr ltac:(done)) as [(r' & g & Hi & He & Ha) Hlean].
    rewrite Hi. cbn [rbind]. rewrite <- He. destruct g.
    + apply (insert_grown_right_ok l (Node rl rr rb re) r' b e h hr); auto.
    + split; [|done]. eexists _, _. split; [done|]. split; [done|].
      inversion Ht as [|? ? ? ? Hl2 Hr2|? ? ? ? Hl2 Hr2|? ? ? ? Hl2 Hr2]; subst;
        pose proof (avl_height_unique _ _ _ Hr Hr2) as ->; eauto with cg.
Qed.

Lemma avl_insert_ok t n h :
  avl t h -> t <> Leaf -> ordered (elems t) -> fresh_key key kcmp (key n) (elems t) ->
  fixed_up (insert t n) (sset_insert n (elems t)) (S h) h /\
  (forall t', insert t n = Ok (t', true) -> leans t').
Proof.
  revert h. induction t as [|l IHl r IHr b e]; intros h Ht Hne Ho Hf; [done|].
  cbn [elems] in *. pose proof Ho as (Hl & Hr & _ & _)%ordered_mid.
  unfold fresh_key in Hf. rewrite Forall_app, Forall_cons in Hf. destruct Hf as (Hfl & He & Hfr).
  destruct (Z.lt_gt_cases (kcmp (key n) (key e)) 0) as [[Hc|Hc] _]; [done| |].
  - rewrite sset_insert_mid_lt by done. apply insert_step_left; auto.
  - rewrite sset_insert_mid_gt by (done || lia). apply insert_step_right; auto.
Qed.

(** Inserting a key that is present fails the duplicate assertion. *)
Lemma avl_insert_dup t n :
  ordered (elems t) -> ~ fresh_key key kcmp (key n) (elems t) ->
  insert t n = Err duplicate_element.
Proof.
  induction t as [|l IHl r IHr b e]; cbn [elems avl_insert]; intros Ho Hf.
  { destruct Hf. constructor. }
  pose proof Ho as (Hl & Hr & _ & _)%ordered_mid.
  rewrite <- sset_lookup_None, sset_lookup_mid in Hf by done. unfold cmp_key_root.
  destruct (kcmp (key n) (key e) <? 0); [|destruct (kcmp (key n) (key e) >? 0)]; [| |done].
  - rewrite sset_lookup_None in Hf. destruct l; [by destruct Hf; constructor|].
    by rewrite IHl.
  - rewrite sset_lookup_None in Hf. destruct r; [by destruct Hf; constructor|].
    by rewrite IHr.
Qed.

(** When growth is reported no rotation happened: the root is the same node. *)
Lemma avl_insert_root_kept l r b e n t' :
  avl_insert key kcmp (Node l r b e) n = Ok (t', true) ->
  exists l' r' b', t' = Node l' r' b' e.
Proof.
  assert (forall l r, insert_grown_left l r b e = Ok (t', true) ->
    exists l' r' b', t' = Node l' r' b' e) as HL.
  { intros l' r'. unfold insert_grown_left. case_Z; intros H; inv_ok; simplify_eq; eauto.
    destruct (x <? 0); inv_ok; simplify_eq. }
  assert (forall l r, insert_grown_right l r b e = Ok (t', true) ->
    exists l' r' b', t' = Node l' r' b' e) as HR.
  { intros l' r'. unfold insert_grown_right. case_Z; intros H; inv_ok; simplify_eq; eauto.
    destruct (x >? 0); inv_ok; simplify_eq. }
  cbn [avl_insert]. destruct (_ <? 0); [|destruct (_ >? 0); [|done]].
  - destruct l; [intros [= <- _]; eauto|]. intros H. apply rbind_ok in H as ([l' []] & _ & H);
      [by eapply HL|done].
  - destruct r; [intros [= <- _]; eauto|]. intros H. apply rbind_ok in H as ([r' []] & _ & H);
      [by eapply HR|done].
Qed.

Lemma avl_lookup_ok t k :
  ordered (elems t) -> avl_lookup key kcmp t k = sset_lookup key kcmp k (elems t).
Proof.
  induction t as [|l IHl r IHr b e]; cbn [elems avl_lookup]; intros Ho; [done|].
  rewrite sset_lookup_mid by done. pose proof Ho as (Hl & Hr & _ & _)%ordered_mid.
  destruct (_ <? 0); [by apply IHl|]. destruct (_ >? 0); [by apply IHr|done].
Qed.

(** Where an element of an ordered in-order list sits relative to the root. *)
Lemma ordered_split xs n ys A e B :
  ordered (A ++ e :: B) -> xs ++ n :: ys = A ++ e :: B ->
  (kcmp (key n) (key e) < 0 /\ exists zs, A = xs ++ n :: zs /\ ys = zs ++ e :: B) \/
  (0 < kcmp (key n) (key e) /\ exists zs, B = zs ++ n :: ys /\ xs = A ++ e :: zs) \/
  (n = e /\ xs = A /\ ys = B).
Proof.
  intros (_ & _ & Hlt & Hgt)%ordered_mid Heq.
  apply List.app_eq_app in Heq as [l [[-> Hl]|[-> Hl]]]; destruct l as [|z l];
    simplify_list_eq; auto.
  - right; left. split; [|eauto]. apply cmp_flip_lt, Hgt, elem_of_app. right. by left.
  - left. split; [|eauto]. apply Hlt, elem_of_app. right. by left.
Qed.

Local Notation remove := (avl_remove key kcmp).

Lemma remove_step_left f l r b e n h hl zs :
  avl (Node l r b e) (S h) -> avl l (S hl) -> kcmp (key n) (key e) < 0 ->
  fixed_up (remove f l n) zs hl (S hl) ->
  fixed_up (remove (S f) (Node l r b e) n) (zs ++ e :: elems r) h (S h).
Proof.
  intros Ht Hl Hc (l' & ch & Hr & <- & Hl'). cbn [avl_remove]. unfold cmp_key_root.
  rewrite (proj2 (Z.ltb_lt _ _) Hc), Hr. cbn [rbind].
  assert (l <> Leaf) by (by intros ->; inversion Hl). destruct l as [|ll lr lb le]; [done|].
  destruct ch; [by eapply remove_shrunk_left_ok|].
  eexists _, _. split; [done|]. split; [done|].
  inversion Ht as [|? ? ? ? Hl2|? ? ? ? Hl2|? ? ? ? Hl2]; subst;
    rewrite (avl_height_unique _ _ _ Hl Hl2) in Hl'; eauto with cg.
Qed.

Lemma remove_step_right f l r b e n h hr zs :
  avl (Node l r b e) (S h) -> avl r (S hr) -> 0 < kcmp (key n) (key e) ->
  fixed_up (remove f r n) zs hr (S hr) ->
  fixed_up (remove (S f) (Node l r b e) n) (elems l ++ e :: zs) h (S h).
Proof.
  intros Ht Hr Hc (r' & ch & Hrm & <- & Hr'). cbn [avl_remove]. unfold cmp_key_root.
  rewrite (proj2 (Z.ltb_ge _ _)), Z.gtb_ltb, (proj2 (Z.ltb_lt _ _) Hc), Hrm by lia.
  cbn [rbind].
  assert (r <> Leaf) by (by intros ->; inversion Hr). destruct r as [|rl rr rb re]; [done|].
  destruct ch; [by eapply remove_shrunk_right_ok|].
  eexists _, _. split; [done|]. split; [done|].
  inversion Ht as [|? ? ? ? Hl2 Hr2|? ? ? ? Hl2 Hr2|? ? ? ? Hl2 Hr2]; subst;
    rewrite (avl_height_unique _ _ _ Hr Hr2) in Hr'; eauto with cg.
Qed.

(** Replacing the root by its in-order neighbour. *)
Lemma removeroot_from_left f l r e h zs n :
  avl (Node l r (-1) e) (S h) -> r <> Leaf -> kcmp (key n) (key e) < 0 ->
  n = (match l with Node _ lr _ le => rightmost lr le | Leaf => e end) ->
  fixed_up (remove f l n) zs (Nat.pred h) h ->
  fixed_up (avl_removeroot (remove (S f)) (Node l r (-1) e)) (zs ++ n :: elems r) h (S h).
Proof.
  intros Ht Hr Hc Hn (l' & ch & Hrm & <- & Hl').
  inversion Ht as [| |? ? ? h' Hl Hr'|]; subst.
  destruct l as [|ll lr lb le]; [inversion Hl|]. destruct r as [|rl rr rb re]; [done|].
  cbn [avl_removeroot avl_remove]. replace (-1 <? 0) with true by done.
  unfold cmp_key_root. rewrite (proj2 (Z.ltb_lt _ _) Hc), Hrm. cbn [rbind].
  destruct ch; eexists _, _; (split; [reflexivity|]); (split; [done|]);
    lazy in Hl'; lazy; eauto with cg.
Qed.

Lemma removeroot_from_right f l r b e h hr zs n :
  avl (Node l r b e) (S h) -> avl r (S hr) -> 0 <= b -> l <> Leaf ->
  0 < kcmp (key n) (key e) ->
  n = (match r with Node rl _ _ re => leftmost rl re | Leaf => e end) ->
  fixed_up (remove f r n) zs hr (S hr) ->
  fixed_up (avl_removeroot (remove (S f)) (Node l r b e)) (elems l ++ n :: zs) h (S h).
Proof.
  intros Ht Hr Hb Hl Hc Hn (r' & ch & Hrm & <- & Hr'). subst n.
  destruct r as [|rl rr rb re]; [inversion Hr|]. destruct l as [|ll lr lb le]; [done|].
  cbn [avl_removeroot avl_remove]. rewrite (proj2 (Z.ltb_ge b 0)) by lia.
  unfold cmp_key_root.
  rewrite (proj2 (Z.ltb_ge _ _)), Z.gtb_ltb, (proj2 (Z.ltb_lt _ _) Hc), Hrm by lia.
  cbn [rbind].
  inversion Ht as [|? ? ? ? Hl2 Hr2|? ? ? ? Hl2 Hr2|? ? ? ? Hl2 Hr2]; subst; [|lia|];
    pose proof (avl_height_unique _ _ _ Hr Hr2) as Heq; simplify_eq;
    destruct ch; eexists _, _; (split; [reflexivity|]); (split; [done|]);
    lazy; eauto with cg.
Qed.

Lemma removeroot_one_child rm l r b e h :
  avl (Node l r b e) (S h) -> l = Leaf \/ r = Leaf ->
  fixed_up (avl_removeroot rm (Node l r b e)) (elems l ++ elems r) h (S h).
Proof.
  intros Ht Hleaf.
  inversion Ht as [|? ? ? ? Hl Hr|? ? ? ? Hl Hr|? ? ? ? Hl Hr]; subst;
    destruct Hleaf; subst; inversion Hl; subst; inversion Hr; subst;
    eexists _, _; (split; [reflexivity|]); (split; [by rewrite ?app_nil_r|]); auto.
Qed.

Lemma removeroot_ok f l r b e h :
  avl (Node l r b e) (S h) -> ordered (elems l ++ e :: elems r) ->
  (forall t n xs ys h, t = l \/ t = r -> avl t (S h) -> elems t = xs ++ n :: ys ->
     fixed_up (remove f t n) (xs ++ ys) h (S h)) ->
  fixed_up (avl_removeroot (remove (S f)) (Node l r b e)) (elems l ++ elems r) h (S h).
Proof.
  intros Ht (_ & _ & Hlt & Hgt)%ordered_mid IH.
  assert ((l = Leaf \/ r = Leaf) \/ l <> Leaf /\ r <> Leaf) as [Hleaf|[Hl0 Hr0]]
    by (destruct l, r; auto).
  { by apply removeroot_one_child. }
  destruct (Z.lt_ge_cases b 0).
  - inversion Ht as [| |? ? ? h' Hl Hr|]; subst; [lia| |lia].
    destruct l as [|ll lr lb le]; [done|].
    destruct (rightmost_elems lr le) as [xs Hxs].
    assert (elems (Node ll lr lb le) = (elems ll ++ xs) ++ [rightmost lr le]) as Hel.
    { cbn [elems]. by rewrite Hxs, app_assoc. }
    rewrite Hel, <- app_assoc. apply removeroot_from_left; [done|done| |done|].
    + apply Hlt. rewrite Hel. apply elem_of_app. right. by left.
    + rewrite <- (app_nil_r (elems ll ++ xs)). by apply IH; [left| |].
  - assert (exists hr, avl r (S hr)) as [hr Hr].
    { inversion Ht as [|? ? ? h1 Hl Hr|? ? ? h1 Hl Hr|? ? ? h1 Hl Hr]; subst; eauto; [|lia].
      destruct h; eauto. by inversion Hr; subst. }
    destruct r as [|rl rr rb re]; [done|].
    destruct (leftmost_elems rl re) as [xs Hxs].
    assert (elems (Node rl rr rb re) = leftmost rl re :: xs ++ elems rr) as Her.
    { cbn [elems]. by rewrite (app_assoc _ [re] _ : _ ++ re :: _ = _), Hxs. }
    rewrite Her. eapply removeroot_from_right; [done..| |done|].
    + apply cmp_flip_lt, Hgt. rewrite Her. by left.
    + rewrite <- (app_nil_l (xs ++ elems rr)). by apply IH; [right| |].
Qed.

Lemma avl_children l r b (e : E) h :
  avl (Node l r b e) (S h) ->
  exists hl hr, avl l hl /\ avl r hr /\ (hl <= h)%nat /\ (hr <= h)%nat.
Proof. inversion 1; subst; eauto 10. Qed.

Lemma avl_nonempty t h xs n ys :
  avl t h -> elems t = xs ++ n :: ys -> exists h', h = S h'.
Proof. inversion 1; subst; eauto. by destruct xs. Qed.

Lemma avl_remove_ok f t n xs ys h :
  (2 * S h <= f)%nat -> avl t (S h) -> ordered (elems t) -> elems t = xs ++ n :: ys ->
  fixed_up (remove f t n) (xs ++ ys) h (S h).
Proof.
  revert t n xs ys h. induction f as [f IH] using lt_wf_ind.
  intros t n xs ys h Hf Ht Ho He. destruct f as [|[|f]]; [lia|lia|].
  destruct t as [|l r b e]; [inversion Ht|]. cbn [elems] in *.
  pose proof Ho as (Hlo & Hro & _ & _)%ordered_mid.
  pose proof Ht as (hl & hr & Hl' & Hr' & Hhl & Hhr)%avl_children.
  destruct (ordered_split xs n ys (elems l) e (elems r)) as
    [[Hc (zs & Hl & ->)]|[[Hc (zs & Hr & ->)]|(-> & -> & ->)]]; [done|done| | |].
  - rewrite app_assoc. pose proof (avl_nonempty _ _ _ _ _ Hl' Hl) as [k ->].
    eapply remove_step_left; [done..|]. apply IH; [lia|lia|done..].
  - rewrite <- app_assoc. cbn [app].
    pose proof (avl_nonempty _ _ _ _ _ Hr' Hr) as [k ->].
    eapply remove_step_right; [done..|]. apply IH; [lia|lia|done..].
  - assert (remove (S (S f)) (Node l r b e) e =
            avl_removeroot (remove (S f)) (Node l r b e)) as ->.
    { cbn [avl_remove]. unfold cmp_key_root. by rewrite cmp_refl, bool_decide_true. }
    apply removeroot_ok; [done|done|]. intros t n us vs k Hk Hk' Hel.
    apply IH; [lia| |done|by destruct Hk; subst|done].
    destruct Hk; subst; [pose proof (avl_height_unique _ _ _ Hk' Hl')
                        |pose proof (avl_height_unique _ _ _ Hk' Hr')]; lia.
Qed.

Lemma avl_height t h : avl t h -> height t = h.
Proof. induction 1; simpl; lia. Qed.

End ordered_lemmas.

(** ** The set object and its iterator *)

(** [struct _OSet] without the allocator fields.  The iterator arrays
    [nodeStack], [numStack] and [stackTop] are one list, top first: entries at
    or above [stackTop] are never read. *)
Record OSet (E : Type) : Type := MkOSet {
  nElems : Z;
  root : AvlNode E;
  stack : list (AvlNode E * Z)
}.
Arguments MkOSet {E} nElems root stack.
Arguments nElems {E} o.
Arguments root {E} o.
Arguments stack {E} o.

Section iterator.
Context {E : Type}.
Implicit Types (n : AvlNode E) (st : list (AvlNode E * Z)).

Definition stackPush st n (i : Z) : res (list (AvlNode E * Z)) :=
  let! _ := tl_assert (Nat.ltb (length st) STACK_MAX) "t->stackTop < STACK_MAX" in
  let! _ := tl_assert ((1 <=? i) && (i <=? 3)) "1 <= i && i <= 3" in
  Ok ((n, i) :: st).

Definition stackPop st : res (option (AvlNode E * Z * list (AvlNode E * Z))) :=
  let! _ := tl_assert (Nat.leb (length st) STACK_MAX) "t->stackTop <= STACK_MAX" in
  match st with
  | (n, i) :: st' =>
      let! _ := tl_assert ((1 <=? i) && (i <=? 3)) "1 <= *i && *i <= 3" in
      Ok (Some (n, i, st'))
  | [] => Ok None
  end.

Definition OSetGen_Create : OSet E := MkOSet 0 Leaf [].

(** [VG_(OSetGen_ResetIter)]. *)
Definition OSetGen_ResetIter (t : OSet E) : res (OSet E) :=
  match root t with
  | Leaf => Ok (MkOSet (nElems t) (root t) [])
  | n => let! st := stackPush [] n 1 in Ok (MkOSet (nElems t) (root t) st)
  end.

(** [case_1:] push the node, then go to its left child while there is one. *)
Fixpoint case_1 n st : res (list (AvlNode E * Z)) :=
  match n with
  | Leaf => Err NullDeref
  | Node l _ _ _ =>
      let! st' := stackPush st n 2 in
      match l with
      | Leaf => Ok st'
      | Node _ _ _ _ => case_1 l st'
      end
  end.

(** The [while (stackPop (..))] loop of [VG_(OSetGen_Next)]. *)
Fixpoint next_loop (fuel : nat) st : res (list (AvlNode E * Z) * option E) :=
  match fuel with
  | O => Err OutOfFuel
  | S fuel' =>
      let! popped := stackPop st in
      match popped with
      | None => Ok (st, None)
      | Some (Leaf, _, _) => Err NullDeref
      | Some (Node l r b e as n, i, st') =>
          if i =? 1 then let! st'' := case_1 n st' in next_loop fuel' st''
          else if i =? 2 then let! st'' := stackPush st' n 3 in Ok (st'', Some e)
          else if i =? 3 then
            match r with
            | Leaf => next_loop fuel' st'
            | Node _ _ _ _ => let! st'' := case_1 r st' in next_loop fuel' st''
            end
          else next_loop fuel' st'
      end
  end.

(** Every pop either shortens the stack or is followed by a pop that returns,
    so the stack length bounds the iterations. *)
Definition OSetGen_Next (t : OSet E) : res (OSet E * option E) :=
  let! (st, oe) := next_loop (length (stack t) + 2) (stack t) in
  Ok (MkOSet (nElems t) (root t) st, oe).

Definition OSetGen_Size (t : OSet E) : Z := nElems t.

(** The traversal of [VG_(OSetGen_Destroy)] with the general allocator, a
    post-order walk; the result lists the elements of the nodes freed. *)
Fixpoint destroy_loop (fuel : nat) st (freed : list E) : res (list E) :=
  match fuel with
  | O => Err OutOfFuel
  | S fuel' =>
      let! popped := stackPop st in
      match popped with
      | None => Ok freed
      | Some (Leaf, _, _) => Err NullDeref
      | Some (Node l r b e as n, i, st') =>
          if i =? 1 then
            let! st1 := stackPush st' n 2 in
            let! st2 := match l with Leaf => Ok st1 | _ => stackPush st1 l 1 end in
            destroy_loop fuel' st2 freed
          else if i =? 2 then
            let! st1 := stackPush st' n 3 in
            let! st2 := match r with Leaf => Ok st1 | _ => stackPush st1 r 1 end in
            destroy_loop fuel' st2 freed
          else destroy_loop fuel' st' (freed ++ [e])
      end
  end.

Definition OSetGen_Destroy (t : OSet E) : res (list E) :=
  let! st := match root t with Leaf => Ok [] | _ => stackPush [] (root t) 1 end in
  let! freed := destroy_loop (S (3 * length (elems (root t)))) st [] in
  let! _ := tl_assert (Z.of_nat (length freed) =? nElems t) "sz == t->nElems" in
  Ok freed.

(** A client's [while ((e = VG_(OSetGen_Next)(t)))] loop, collecting. *)
Fixpoint iterate (fuel : nat) (t : OSet E) : res (OSet E * list E) :=
  match fuel with
  | O => Err OutOfFuel
  | S fuel' =>
      let! (t', oe) := OSetGen_Next t in
      match oe with
      | None => Ok (t', [])
      | Some e => let! (t'', es) := iterate fuel' t' in Ok (t'', e :: es)
      end
  end.

End iterator.

Section oset_ops.
Context {K E : Type} `{!EqDecision E} (key : E -> K) (kcmp : K -> K -> Z).

(** [VG_(OSetGen_Insert)]; the element count is a [UInt]. *)
Definition OSetGen_Insert (t : OSet E) (e : E) : res (OSet E) :=
  let! root' :=
    match root t with
    | Leaf => Ok (Node Leaf Leaf 0 e)
    | n => let! (t', _) := avl_insert key kcmp n e in Ok t'
    end in
  Ok (MkOSet (u32 (nElems t + 1)) root' []).

Definition OSetGen_Lookup (t : OSet E) (k : K) : option E :=
  match root t with Leaf => None | n => avl_lookup key kcmp n k end.

Definition OSetGen_Contains (t : OSet E) (k : K) : bool :=
  match OSetGen_Lookup t k with Some _ => true | None => false end.

Definition OSetGen_Remove (t : OSet E) (k : K) : res (OSet E * option E) :=
  match root t with
  | Leaf => Ok (t, None)
  | n =>
      match avl_lookup key kcmp n k with
      | Some e =>
          let! (t', _) := avl_remove key kcmp (remove_fuel n) n e in
          Ok (MkOSet (u32 (nElems t - 1)) t' [], Some e)
      | None => Ok (t, None)
      end
  end.

(** The search loop of [VG_(OSetGen_ResetIterAt)].  The sense of the
    comparison is switched and its sign bit extracted by an unsigned shift. *)
Fixpoint reset_at (n : AvlNode E) (k : K) (st : list (AvlNode E * Z))
  : res (list (AvlNode E * Z)) :=
  match n with
  | Leaf => Ok st
  | Node l r _ e =>
      let c := kcmp k (key e) in
      let cmpresS := if c <? 0 then 1 else if c >? 0 then -1 else c in
      if cmpresS =? 0 then stackPush st n 2
      else
        let cmpresU := Z.shiftr (u64 cmpresS) 63 in
        let! _ := tl_assert ((cmpresU =? 0) || (cmpresU =? 1)) "cmpresU" in
        let! st' := if cmpresU =? 0 then stackPush st n 2 else Ok st in
        if cmpresU =? 0 then reset_at l k st' else reset_at r k st'
  end.

Definition OSetGen_ResetIterAt (t : OSet E) (k : K) : res (OSet E) :=
  let! st := reset_at (root t) k [] in
  Ok (MkOSet (nElems t) (root t) st).

End oset_ops.

(** *** The iterator stack *)

Section iterator_lemmas.
Context {E : Type}.
Implicit Types (n : AvlNode E) (st : list (AvlNode E * Z)).

(** What remains to be produced by [VG_(OSetGen_Next)]. *)
Fixpoint pending st : list E :=
  match st with
  | [] => []
  | (Node l r _ e, i) :: st' =>
      (if i =? 1 then elems l ++ e :: elems r
       else if i =? 2 then e :: elems r
       else elems r) ++ pending st'
  | (Leaf, _) :: st' => pending st'
  end.

(** The entry at depth [d] heads a subtree that still fits above it. *)
Fixpoint stack_ok st : Prop :=
  match st with
  | [] => True
  | (n, i) :: st' =>
      n <> Leaf /\ 1 <= i <= 3 /\ (length st' + height n <= STACK_MAX)%nat /\ stack_ok st'
  end.

Lemma stackPush_ok st n i :
  (length st < STACK_MAX)%nat -> 1 <= i <= 3 -> stackPush st n i = Ok ((n, i) :: st).
Proof.
  intros H1 H2. unfold stackPush.
  rewrite (proj2 (Nat.ltb_lt _ _) H1). cbn [tl_assert rbind].
  by rewrite (proj2 (Z.leb_le 1 i)), (proj2 (Z.leb_le i 3)) by lia.
Qed.

Lemma stackPop_ok st n i :
  stack_ok ((n, i) :: st) -> stackPop ((n, i) :: st) = Ok (Some (n, i, st)).
Proof.
  intros (Hn & Hi & Hh & _). unfold stackPop.
  rewrite (proj2 (Nat.leb_le _ _)); [cbn [tl_assert rbind]|].
  - by rewrite (proj2 (Z.leb_le 1 i)), (proj2 (Z.leb_le i 3)) by lia.
  - destruct n; [done|]. cbn [length height] in *. lia.
Qed.

Lemma elems_Node l r b e : elems (Node l r b e) = elems l ++ e :: elems (r : AvlNode E).
Proof. done. Qed.

Lemma case_1_ok n st :
  n <> Leaf -> (length st + height n <= STACK_MAX)%nat -> stack_ok st ->
  exists m st', case_1 n st = Ok ((m, 2) :: st') /\ stack_ok ((m, 2) :: st') /\
    pending ((m, 2) :: st') = elems n ++ pending st.
Proof.
  revert st. induction n as [|l IHl r IHr b e]; intros st Hn Hh Hst; [done|].
  cbn [case_1]. rewrite stackPush_ok by (cbn [height] in Hh; lia). cbn [rbind].
  destruct l as [|ll lr lb le].
  - by exists (Node Leaf r b e), st.
  - destruct (IHl ((Node (Node ll lr lb le) r b e, 2) :: st)) as (m & st' & He & Hok & Hp).
    + done.
    + cbn [height length] in *. lia.
    + by cbn [stack_ok].
    + exists m, st'. split; [done|]. split; [done|]. rewrite Hp.
      cbn [pending]. replace (2 =? 1) with false by done.
      replace (2 =? 2) with true by done. by rewrite (elems_Node _ r), <- app_assoc.
Qed.

(** One iterator step produces the head of the pending list. *)
Lemma next_top_2 fuel m st :
  stack_ok ((m, 2) :: st) -> (0 < fuel)%nat ->
  exists st', next_loop fuel ((m, 2) :: st) = Ok (st', head (pending ((m, 2) :: st))) /\
    stack_ok st' /\ pending st' = tail (pending ((m, 2) :: st)).
Proof.
  intros Hok Hf. destruct fuel as [|fuel]; [lia|]. cbn [next_loop].
  rewrite stackPop_ok by done. cbn [rbind]. pose proof Hok as (Hm & _ & Hh & Hst).
  destruct m as [|l r b e]; [done|]. cbn [height] in Hh.
  replace (2 =? 1) with false by done. replace (2 =? 2) with true by done.
  rewrite stackPush_ok by lia. cbn [rbind]. eexists. split; [done|].
  split; [|done]. cbn [stack_ok height]. split_and!; auto; lia.
Qed.

Lemma next_loop_ok fuel st :
  stack_ok st -> (length st + 2 <= fuel)%nat ->
  exists st', next_loop fuel st = Ok (st', head (pending st)) /\
    stack_ok st' /\ pending st' = tail (pending st).
Proof.
  revert fuel. induction st as [|[n i] st IH]; intros fuel Hok Hf;
    (destruct fuel as [|fuel]; [simpl in Hf; lia|]).
  { by exists []. }
  cbn [next_loop]. rewrite stackPop_ok by done. cbn [rbind length] in *.
  pose proof Hok as (Hn & Hi & Hh & Hst). destruct n as [|l r b e]; [done|].
  assert (i = 1 \/ i = 2 \/ i = 3) as [-> | [-> | ->]] by lia.
  - replace (1 =? 1) with true by done.
    destruct (case_1_ok (Node l r b e) st) as (m & st' & -> & Hok' & Hp); [done..|].
    cbn [rbind]. destruct (next_top_2 fuel m st') as (st'' & Hx); [done|lia|].
    rewrite Hp in Hx. eauto.
  - pose proof (next_top_2 (S fuel) (Node l r b e) st Hok ltac:(lia)) as Hx.
    cbn [next_loop] in Hx. by rewrite stackPop_ok in Hx by done.
  - replace (3 =? 1) with false by done. replace (3 =? 2) with false by done.
    replace (3 =? 3) with true by done. destruct r as [|rl rr rb re].
    + apply IH; [done|lia].
    + destruct (case_1_ok (Node rl rr rb re) st) as (m & st' & -> & Hok' & Hp);
        [done|cbn [height] in *; lia|done|].
      cbn [rbind]. destruct (next_top_2 fuel m st') as (st'' & Hx); [done|lia|].
      rewrite Hp in Hx. eauto.
Qed.

Lemma OSetGen_Next_ok (t : OSet E) :
  stack_ok (stack t) ->
  exists t', OSetGen_Next t = Ok (t', head (pending (stack t))) /\
    stack_ok (stack t') /\ pending (stack t') = tail (pending (stack t)) /\
    root t' = root t /\ nElems t' = nElems t.
Proof.
  intros Hok. unfold OSetGen_Next.
  destruct (next_loop_ok (length (stack t) + 2) (stack t)) as (st' & -> & ? & ?); [done|lia|].
  cbn [rbind]. by eexists.
Qed.

Lemma iterate_ok fuel (t : OSet E) :
  stack_ok (stack t) -> (length (pending (stack t)) < fuel)%nat ->
  exists t', iterate fuel t = Ok (t', pending (stack t)) /\
    root t' = root t /\ nElems t' = nElems t /\ pending (stack t') = [] /\ stack_ok (stack t').
Proof.
  revert t. induction fuel as [|fuel IH]; intros t Hok Hf; [lia|]. cbn [iterate].
  destruct (OSetGen_Next_ok t Hok) as (t' & -> & Hok' & Hp & Hr & Hn). cbn [rbind].
  destruct (pending (stack t)) as [|x xs] eqn:Hpt; cbn [head tail] in *.
  - by exists t'.
  - destruct (IH t') as (t'' & -> & ? & ? & ? & ?); [done|rewrite Hp; simpl in Hf; lia|].
    cbn [rbind]. exists t''. rewrite Hp. split_and!; congruence || done.
Qed.

(** The post-order list: children before their parent. *)
Fixpoint postorder n : list E :=
  match n with
  | Leaf => []
  | Node l r _ e => postorder l ++ postorder r ++ [e]
  end.

Lemma postorder_perm n : postorder n ≡ₚ elems n.
Proof.
  induction n as [|l IHl r IHr b e]; simpl; [done|].
  rewrite IHl, IHr. by rewrite (Permutation_app_comm (elems r)).
Qed.

(** What [VG_(OSetGen_Destroy)] still has to free, and the pops it takes. *)
Fixpoint to_free st : list E :=
  match st with
  | [] => []
  | (Node l r b e, i) :: st' =>
      (if i =? 1 then postorder (Node l r b e)
       else if i =? 2 then postorder r ++ [e]
       else [e]) ++ to_free st'
  | (Leaf, _) :: st' => to_free st'
  end.

Fixpoint free_pops st : nat :=
  match st with
  | [] => O
  | (Node l r b e, i) :: st' =>
      (if i =? 1 then 3 * length (elems (Node l r b e))
       else if i =? 2 then 3 * length (elems r) + 2
       else 1) + free_pops st'
  | (Leaf, _) :: st' => free_pops st'
  end.

(** Pushing a child, if there is one. *)
Lemma push_child_ok l st :
  (length st + height l <= STACK_MAX)%nat -> stack_ok st ->
  exists st', match l with Leaf => Ok st | _ => stackPush st l 1 end = Ok st' /\
    stack_ok st' /\ to_free st' = postorder l ++ to_free st /\
    free_pops st' = (3 * length (elems l) + free_pops st)%nat.
Proof.
  intros Hh Hst. destruct l as [|ll lr lb le]; [by exists st|].
  cbn [height] in Hh. rewrite stackPush_ok by lia. eexists. split; [done|].
  cbn [stack_ok height]. split_and!; auto; lia.
Qed.

Lemma destroy_loop_ok fuel st freed :
  stack_ok st -> (free_pops st < fuel)%nat ->
  destroy_loop fuel st freed = Ok (freed ++ to_free st).
Proof.
  revert st freed. induction fuel as [|fuel IH]; intros st freed Hok Hf; [lia|].
  cbn [destroy_loop]. destruct st as [|[n i] st]; [by rewrite app_nil_r|].
  rewrite stackPop_ok by done. cbn [rbind]. pose proof Hok as (Hn & Hi & Hh & Hst).
  destruct n as [|l r b e]; [done|]. cbn [height] in Hh.
  assert (forall k, 1 <= k <= 3 -> stack_ok ((Node l r b e, k) :: st)) as Hok'
    by (intros; cbn [stack_ok height]; auto).
  assert (i = 1 \/ i = 2 \/ i = 3) as [-> | [-> | ->]] by lia;
    cbn [free_pops to_free] in *; eval_eqb.
  - rewrite stackPush_ok by lia. cbn [rbind].
    destruct (push_child_ok l ((Node l r b e, 2) :: st)) as (st2 & -> & Hs & Hfr & Hp);
      [cbn [length]; lia|by apply Hok'|]. cbn [rbind].
    cbn [free_pops to_free] in *. eval_eqb. rewrite elems_Node, length_app in Hf.
    cbn [length] in Hf. rewrite IH by (done || lia). rewrite Hfr. cbn [postorder].
    by rewrite !app_assoc.
  - rewrite stackPush_ok by lia. cbn [rbind].
    destruct (push_child_ok r ((Node l r b e, 3) :: st)) as (st2 & -> & Hs & Hfr & Hp);
      [cbn [length]; lia|by apply Hok'|]. cbn [rbind].
    cbn [free_pops to_free] in *. eval_eqb. rewrite IH by (done || lia). rewrite Hfr.
    by rewrite <- (app_assoc (postorder r)).
  - rewrite IH by (done || lia). by rewrite <- app_assoc.
Qed.

End iterator_lemmas.

(** ** The well-formedness of a set and the interface its clients use *)

Section wf.
Context {K E : Type} `{!EqDecision E} (key : E -> K) (kcmp : K -> K -> Z).

Record oset_wf (t : OSet E) : Prop := {
  wf_avl : exists h, avl (root t) h;
  wf_ordered : ordered key kcmp (elems (root t));
  wf_count : nElems t = Z.of_nat (length (elems (root t)));
  wf_stack : stack_ok (stack t)
}.

(** The largest set that can be iterated for certain: one element fewer than
    the smallest AVL tree of height [STACK_MAX + 1]. *)
Definition ITER_MAX : Z := 9227463.

(** Removing the elements with a given key. *)
Definition sset_remove (k : K) (xs : list E) : list E :=
  List.filter (fun x => negb (kcmp k (key x) =? 0)) xs.
End wf.

(** What a table promises, whatever its representation.  [os_elems] is its
    abstract value, an ordered list; [os_pending] what the iterator has still
    to produce. *)
Class OSetOps (S K E : Type) : Type := {
  os_create : S;
  os_insert : S -> E -> res S;
  os_lookup : S -> K -> option E;
  os_remove : S -> K -> res (S * option E);
  os_reset_iter : S -> res S;
  os_next : S -> res (S * option E);
  os_size : S -> Z
}.

Class OSetLaws {K E : Type} (key : E -> K) (kcmp : K -> K -> Z)
    (S : Type) (ops : OSetOps S K E) : Type := {
  os_wf : S -> Prop;
  os_elems : S -> list E;
  os_pending : S -> list E;
  os_ordered s : os_wf s -> ordered key kcmp (os_elems s);
  os_create_ok : os_wf os_create /\ os_elems os_create = [];
  os_insert_ok s e :
    os_wf s -> fresh_key key kcmp (key e) (os_elems s) ->
    Z.of_nat (length (os_elems s)) < 2 ^ 32 - 1 ->
    exists s', os_insert s e = Ok s' /\ os_wf s' /\
      os_elems s' = sset_insert key kcmp e (os_elems s);
  os_insert_dup s e :
    os_wf s -> ~ fresh_key key kcmp (key e) (os_elems s) ->
    os_insert s e = Err duplicate_element;
  os_lookup_ok s k : os_wf s -> os_lookup s k = sset_lookup key kcmp k (os_elems s);
  os_remove_ok s k :
    os_wf s -> Z.of_nat (length (os_elems s)) < 2 ^ 32 ->
    exists s', os_remove s k = Ok (s', sset_lookup key kcmp k (os_elems s)) /\ os_wf s' /\
      os_elems s' = sset_remove key kcmp k (os_elems s);
  os_reset_iter_ok s :
    os_wf s -> Z.of_nat (length (os_elems s)) <= ITER_MAX ->
    exists s', os_reset_iter s = Ok s' /\ os_wf s' /\
      os_elems s' = os_elems s /\ os_pending s' = os_elems s;
  os_next_ok s :
    os_wf s ->
    exists s', os_next s = Ok (s', head (os_pending s)) /\ os_wf s' /\
      os_elems s' = os_elems s /\ os_pending s' = tail (os_pending s);
  os_size_ok s : os_wf s -> os_size s = Z.of_nat (length (os_elems s))
}.

#[global] Arguments os_wf : simpl never.
#[global] Arguments os_elems : simpl never.
#[global] Arguments os_pending : simpl never.
#[global] Arguments os_create : simpl never.
#[global] Arguments os_insert : simpl never.
#[global] Arguments os_lookup : simpl never.
#[global] Arguments os_remove : simpl never.
#[global] Arguments os_reset_iter : simpl never.
#[global] Arguments os_next : simpl never.

Section oset_lemmas.
Context {K E : Type} `{!EqDecision E} (key : E -> K) (kcmp : K -> K -> Z).
Context `{!CmpLaws kcmp}.
Implicit Types t : OSet E.

Local Notation wf := (oset_wf key kcmp).
Local Notation ordered := (ordered key kcmp).

Lemma oset_create_wf : wf OSetGen_Create.
Proof. split; simpl; [by exists O; constructor|constructor|done|done]. Qed.

Lemma oset_insert_ok t e :
  wf t -> fresh_key key kcmp (key e) (elems (root t)) ->
  Z.of_nat (length (elems (root t))) < 2 ^ 32 - 1 ->
  exists t', OSetGen_Insert key kcmp t e = Ok t' /\ wf t' /\
    elems (root t') = sset_insert key kcmp e (elems (root t)).
Proof.
  intros [[h Hh] Ho Hc Hs] Hf Hlen. unfold OSetGen_Insert.
  assert (exists r', (match root t with
      | Leaf => Ok (Node Leaf Leaf 0 e)
      | n => let! (t', _) := avl_insert key kcmp n e in Ok t' end) = Ok r' /\
    elems r' = sset_insert key kcmp e (elems (root t)) /\ exists h', avl r' h')
    as (r' & -> & He & Ha).
  { destruct (root t) as [|l r b x] eqn:Hr; [by eexists; repeat split; eauto with cg|].
    destruct (avl_insert_ok key kcmp (Node l r b x) e h) as [(t' & g & -> & He & Ha) _]; auto.
    cbn [rbind]. eauto. }
  eexists. split; [reflexivity|]. split; [|done]. split; simpl; [done| | |done].
  - rewrite He. by apply sset_insert_ordered.
  - rewrite He, sset_insert_perm, Hc. simpl. rewrite wrapu_small; [lia|]. unfold in_u. lia.
Qed.

Lemma oset_insert_dup t e :
  wf t -> ~ fresh_key key kcmp (key e) (elems (root t)) ->
  OSetGen_Insert key kcmp t e = Err duplicate_element.
Proof.
  intros Hwf Hf. unfold OSetGen_Insert. destruct (root t) as [|l r b x] eqn:Hr.
  - destruct Hf. constructor.
  - rewrite (avl_insert_dup key kcmp (Node l r b x) e); [done| |done].
    rewrite <- Hr. apply Hwf.
Qed.

Lemma oset_lookup_ok t k :
  wf t -> OSetGen_Lookup key kcmp t k = sset_lookup key kcmp k (elems (root t)).
Proof.
  intros Hwf. unfold OSetGen_Lookup. rewrite <- (avl_lookup_ok key kcmp) by apply Hwf.
  by destruct (root t).
Qed.

Lemma sset_remove_fresh k xs :
  fresh_key key kcmp k xs -> sset_remove key kcmp k xs = xs.
Proof.
  unfold sset_remove. induction 1 as [|z zs Hz _ IH]; simpl; [done|].
  by rewrite (proj2 (Z.eqb_neq _ _) Hz), IH.
Qed.

(** In an ordered list at most one element has a given key. *)
Lemma sset_remove_mid k xs x ys :
  ordered (xs ++ x :: ys) -> kcmp k (key x) = 0 ->
  sset_remove key kcmp k (xs ++ x :: ys) = xs ++ ys.
Proof.
  intros (_ & _ & Hlt & Hgt)%ordered_mid Hk. unfold sset_remove.
  rewrite List.filter_app. simpl. rewrite Hk. eval_eqb. simpl.
  fold (sset_remove key kcmp k xs) (sset_remove key kcmp k ys).
  rewrite !sset_remove_fresh; [done| |]; apply Forall_forall; intros z Hz.
  - specialize (Hgt z Hz). pose proof (cmp_below key kcmp k x z). lia.
  - specialize (Hlt z Hz). pose proof (cmp_above key kcmp k x z). lia.
Qed.

Lemma sset_remove_ordered k xs : ordered xs -> ordered (sset_remove key kcmp k xs).
Proof.
  unfold sset_remove. induction xs as [|x xs IH]; simpl; [done|].
  intros [Ho Hx]%(ordered_cons_lr key kcmp). specialize (IH Ho).
  case_match; [|done]. apply ordered_cons_lr. split; [done|].
  intros y Hy. apply Hx. apply list_elem_of_In in Hy. apply List.filter_In in Hy as [Hy _].
  by apply list_elem_of_In.
Qed.

Lemma oset_remove_ok t k :
  wf t -> Z.of_nat (length (elems (root t))) < 2 ^ 32 ->
  exists t', OSetGen_Remove key kcmp t k = Ok (t', sset_lookup key kcmp k (elems (root t))) /\
    wf t' /\ elems (root t') = sset_remove key kcmp k (elems (root t)).
Proof.
  intros Hwf Hlen. pose proof Hwf as [[h Hh] Ho Hc Hs]. unfold OSetGen_Remove.
  destruct (root t) as [|l r b x] eqn:Hr.
  { exists t. by rewrite Hr. }
  rewrite <- Hr in *. rewrite (avl_lookup_ok key kcmp) by done.
  destruct (sset_lookup key kcmp k (elems (root t))) as [e|] eqn:Hk.
  - apply sset_lookup_Some in Hk as [Hin Hk].
    apply list_elem_of_split in Hin as (xs & ys & He).
    pose proof (avl_nonempty _ _ _ _ _ Hh He) as [h' ->].
    destruct (avl_remove_ok key kcmp (remove_fuel (root t)) (root t) e xs ys h')
      as (t' & ch & -> & He' & Ha'); [|done..|].
    { unfold remove_fuel. rewrite (avl_height _ _ Hh). lia. }
    cbn [rbind]. eexists. split; [done|].
    assert (elems t' = sset_remove key kcmp k (elems (root t))) as Het.
    { rewrite He', He, sset_remove_mid; [done| |done]. by rewrite <- He. }
    split; [|done]. split; simpl; [by eauto| | |done].
    + rewrite Het. by apply sset_remove_ordered.
    + rewrite He', Hc. rewrite He in Hlen |- *. rewrite !length_app in *. simpl in *.
      rewrite wrapu_small; [lia|]. unfold in_u. lia.
  - exists t. split; [done|]. split; [done|].
    rewrite sset_remove_fresh; [done|]. by apply sset_lookup_None.
Qed.

(** AVL trees below [ITER_MAX] nodes fit the iterator stack. *)
Lemma avl_min_size_le h h' : (h <= h')%nat -> avl_min_size h <= avl_min_size h'.
Proof.
  induction 1 as [|h' _ IH]; [done|]. pose proof (avl_min_size_mono h'). lia.
Qed.

Lemma iter_max_height (n : AvlNode E) h :
  avl n h -> Z.of_nat (length (elems n)) <= ITER_MAX -> (height n <= STACK_MAX)%nat.
Proof.
  intros Hn Hlen. rewrite (avl_height _ _ Hn). pose proof (avl_size_lower _ _ Hn) as Hlow.
  destruct (Nat.le_gt_cases h STACK_MAX) as [?|Hgt]; [done|].
  assert (avl_min_size 33 <= avl_min_size h) by (apply avl_min_size_le; unfold STACK_MAX in *; lia).
  assert (avl_min_size 33 = 9227464) by (vm_compute; done). unfold ITER_MAX in *. lia.
Qed.

Lemma oset_reset_iter_ok t :
  wf t -> Z.of_nat (length (elems (root t))) <= ITER_MAX ->
  exists t', OSetGen_ResetIter t = Ok t' /\ wf t' /\
    root t' = root t /\ pending (stack t') = elems (root t).
Proof.
  intros [[h Hh] Ho Hc Hs] Hlen. pose proof (iter_max_height _ _ Hh Hlen) as Hmax.
  unfold OSetGen_ResetIter. destruct (root t) as [|l r b x] eqn:Hr.
  - eexists. split; [done|]. split; [|done]. split; simpl; [by eauto|done|done|done].
  - rewrite stackPush_ok by (simpl; unfold STACK_MAX; lia). cbn [rbind].
    eexists. split; [done|]. split.
    + split; simpl; [by eauto|done|done|]. split_and!; [done|lia|lia|done|done].
    + cbn [pending stack root]. eval_eqb. by rewrite app_nil_r.
Qed.

Lemma oset_next_ok t :
  wf t -> exists t', OSetGen_Next t = Ok (t', head (pending (stack t))) /\ wf t' /\
    root t' = root t /\ pending (stack t') = tail (pending (stack t)).
Proof.
  intros [Ha Ho Hc Hs]. destruct (OSetGen_Next_ok t Hs) as (t' & -> & ? & ? & Hr & Hn).
  exists t'. split; [done|]. split; [|done].
  split; rewrite ?Hr, ?Hn; done.
Qed.

End oset_lemmas.

(** The AVL tree provides the interface. *)
#[export] Instance avl_oset_ops {K E} `{!EqDecision E} (key : E -> K) (kcmp : K -> K -> Z) :
    OSetOps (OSet E) K E := {
  os_create := OSetGen_Create;
  os_insert := OSetGen_Insert key kcmp;
  os_lookup := OSetGen_Lookup key kcmp;
  os_remove := OSetGen_Remove key kcmp;
  os_reset_iter := OSetGen_ResetIter;
  os_next := OSetGen_Next;
  os_size := OSetGen_Size
}.

#[export] Instance avl_oset_laws {K E} `{!EqDecision E} (key : E -> K) (kcmp : K -> K -> Z)
    `{!CmpLaws kcmp} : OSetLaws key kcmp (OSet E) (avl_oset_ops key kcmp).
Proof.
  refine {| os_wf := oset_wf key kcmp; os_elems t := elems (root t);
            os_pending t := pending (stack t) |};
    unfold os_create, os_insert, os_lookup, os_remove, os_reset_iter, os_next, os_size; simpl.
  - intros s Hwf. apply Hwf.
  - split; [apply oset_create_wf|done].
  - intros s e. by apply oset_insert_ok.
  - intros s e. by apply oset_insert_dup.
  - intros s k. by apply oset_lookup_ok.
  - intros s k. by apply oset_remove_ok.
  - intros s Hwf Hlen. destruct (oset_reset_iter_ok key kcmp s Hwf Hlen) as (s' & ? & ? & Hr & ?).
    exists s'. by rewrite Hr.
  - intros s Hwf. destruct (oset_next_ok key kcmp s Hwf) as (s' & ? & ? & Hr & ?).
    exists s'. by rewrite Hr.
  - intros s Hwf. apply Hwf.
Defined.

(** ** Refinement: any sequence of calls *)

Section refinement.
Context {K E : Type} `{!EqDecision E} (key : E -> K) (kcmp : K -> K -> Z).

(** A client call, and what it gets back. *)
Inductive oset_op : Type :=
  | OpInsert (e : E)
  | OpLookup (k : K)
  | OpRemove (k : K)
  | OpIterate
  | OpSize.

Inductive oset_answer : Type :=
  | Done
  | Found (oe : option E)
  | Listing (es : list E)
  | Count (n : Z).

Definition oset_step (op : oset_op) (t : OSet E) : res (OSet E * oset_answer) :=
  match op with
  | OpInsert e => let! t' := OSetGen_Insert key kcmp t e in Ok (t', Done)
  | OpLookup k => Ok (t, Found (OSetGen_Lookup key kcmp t k))
  | OpRemove k => let! (t', oe) := OSetGen_Remove key kcmp t k in Ok (t', Found oe)
  | OpIterate =>
      let! t1 := OSetGen_ResetIter t in
      let! (t2, es) := iterate (S (Z.to_nat (nElems t1))) t1 in
      Ok (t2, Listing es)
  | OpSize => Ok (t, Count (OSetGen_Size t))
  end.

(** The same call on the abstract value. *)
Definition sset_step (op : oset_op) (xs : list E) : res (list E * oset_answer) :=
  match op with
  | OpInsert e =>
      match sset_lookup key kcmp (key e) xs with
      | None => Ok (sset_insert key kcmp e xs, Done)
      | Some _ => Err duplicate_element
      end
  | OpLookup k => Ok (xs, Found (sset_lookup key kcmp k xs))
  | OpRemove k =>
      Ok (sset_remove key kcmp k xs, Found (sset_lookup key kcmp k xs))
  | OpIterate => Ok (xs, Listing xs)
  | OpSize => Ok (xs, Count (Z.of_nat (length xs)))
  end.

Fixpoint run_calls {S : Type} (step : oset_op -> S -> res (S * oset_answer))
    (ops : list oset_op) (s : S) : res (S * list oset_answer) :=
  match ops with
  | [] => Ok (s, [])
  | op :: ops' =>
      let! (s', a) := step op s in
      let! (s'', answers) := run_calls step ops' s' in
      Ok (s'', a :: answers)
  end.

Context `{!CmpLaws kcmp}.
Implicit Types t : OSet E.

Lemma oset_step_refines op t :
  oset_wf key kcmp t -> Z.of_nat (length (elems (root t))) < ITER_MAX ->
  match oset_step op t with
  | Ok (t', a) => oset_wf key kcmp t' /\ sset_step op (elems (root t)) = Ok (elems (root t'), a) /\
                  (length (elems (root t')) <= S (length (elems (root t))))%nat
  | Err f => sset_step op (elems (root t)) = Err f
  end.
Proof.
  intros Hwf Hlen. unfold ITER_MAX in Hlen. destruct op as [e|k|k| |];
    cbn [oset_step sset_step].
  - destruct (sset_lookup key kcmp (key e) (elems (root t))) eqn:Hk.
    + rewrite oset_insert_dup; [done..|]. rewrite <- sset_lookup_None. by rewrite Hk.
    + apply sset_lookup_None in Hk.
      destruct (oset_insert_ok key kcmp t e Hwf Hk) as (t' & -> & Hwf' & He); [lia|].
      cbn [rbind]. rewrite He. split; [done|]. split; [done|]. by rewrite sset_insert_perm.
  - rewrite oset_lookup_ok by done. auto using Nat.le_succ_diag_r.
  - destruct (oset_remove_ok key kcmp t k Hwf) as (t' & -> & Hwf' & He); [lia|].
    cbn [rbind]. rewrite He. split; [done|]. split; [done|].
    unfold sset_remove. pose proof (List.filter_length_le
      (fun x => negb (kcmp k (key x) =? 0)) (elems (root t))). lia.
  - destruct (oset_reset_iter_ok key kcmp t Hwf) as (t1 & -> & Hwf1 & Hr & Hp);
      [unfold ITER_MAX; lia|].
    cbn [rbind]. destruct (iterate_ok (S (Z.to_nat (nElems t1))) t1) as
      (t2 & -> & Hr2 & Hn2 & Hp2 & Hs2); [apply Hwf1| |].
    + rewrite Hp, (wf_count _ _ _ Hwf1), Hr. lia.
    + cbn [rbind]. rewrite Hp, Hr2, Hr. split; [|auto]. destruct Hwf1.
      by split; rewrite ?Hr2, ?Hn2.
  - unfold OSetGen_Size. rewrite (wf_count _ _ _ Hwf). auto.
Qed.

Lemma oset_run_refines ops t :
  oset_wf key kcmp t ->
  Z.of_nat (length (elems (root t))) + Z.of_nat (length ops) <= ITER_MAX ->
  (let! (t', out) := run_calls oset_step ops t in Ok (elems (root t'), out)) =
    run_calls sset_step ops (elems (root t)) /\
  (forall t' out, run_calls oset_step ops t = Ok (t', out) -> oset_wf key kcmp t').
Proof.
  revert t. induction ops as [|op ops IH]; intros t Hwf Hlen; simpl.
  { split; [done|]. by intros t' out [= <- _]. }
  simpl in Hlen. pose proof (oset_step_refines op t Hwf ltac:(lia)) as Hstep.
  destruct (oset_step op t) as [[t1 a]|f]; simpl; [|by rewrite Hstep].
  destruct Hstep as (Hwf1 & -> & Hlen1). simpl.
  destruct (IH t1 Hwf1) as [He Hw]; [lia|]. rewrite <- He.
  destruct (run_calls oset_step ops t1) as [[t2 out]|f]; simpl; [|done].
  split; [done|]. intros t' out' [= <- _]. eauto.
Qed.

(** C24. From an empty set, any sequence of inserts, lookups, removals,
    complete iterations and size queries (at most [ITER_MAX] of them, so that
    the iterator stack suffices) has exactly the outcomes of the same calls on
    a sorted list, the duplicate-insertion assertion included: no null
    dereference, failed structural assertion, stack overflow or exhausted
    fuel occurs. *)
Theorem oset_refines_sorted_list ops :
  Z.of_nat (length ops) <= ITER_MAX ->
  (let! (t, out) := run_calls oset_step ops OSetGen_Create in Ok (elems (root t), out)) =
    run_calls sset_step ops [].
Proof. intros H. apply oset_run_refines; [apply oset_create_wf|done]. Qed.

(** C33. Every set reachable by such a sequence is a height-balanced search
    tree: each balance field is the height difference, in-order keys strictly
    increase, the count is right, and the height is logarithmic in it (at
    least [avl_min_size] of the height many elements). *)
Theorem oset_reachable_balanced ops t out :
  Z.of_nat (length ops) <= ITER_MAX ->
  run_calls oset_step ops OSetGen_Create = Ok (t, out) ->
  avl (root t) (height (root t)) /\ ordered key kcmp (elems (root t)) /\
  nElems t = Z.of_nat (length (elems (root t))) /\
  avl_min_size (height (root t)) <= nElems t.
Proof.
  intros H Hrun. destruct (oset_run_refines ops OSetGen_Create) as [_ Hw];
    [apply oset_create_wf|done|].
  destruct (Hw _ _ Hrun) as [[h Hh] Ho Hc _]. rewrite Hc, (avl_height _ _ Hh).
  by auto using avl_size_lower.
Qed.

End refinement.

(** ** Starting an iteration in the middle; destroying a set *)

Section more_theorems.
Context {K E : Type} `{!EqDecision E} (key : E -> K) (kcmp : K -> K -> Z).
Context `{!CmpLaws kcmp}.
Implicit Types t : OSet E.

(** The elements at or above a key. *)
Definition from_key (k : K) (xs : list E) : list E :=
  List.filter (fun x => kcmp k (key x) <=? 0) xs.

Lemma from_key_all k xs :
  (forall x, x ∈ xs -> kcmp k (key x) <= 0) -> from_key k xs = xs.
Proof.
  unfold from_key. induction xs as [|x xs IH]; simpl; intros H; [done|].
  rewrite (proj2 (Z.leb_le _ _)) by (apply H; by left). f_equal. apply IH.
  intros; apply H; by right.
Qed.

Lemma from_key_none k xs :
  (forall x, x ∈ xs -> 0 < kcmp k (key x)) -> from_key k xs = [].
Proof.
  unfold from_key. induction xs as [|x xs IH]; simpl; intros H; [done|].
  rewrite (proj2 (Z.leb_gt _ _)) by (apply H; by left). apply IH. intros; apply H; by right.
Qed.

Lemma from_key_mid k xs x ys :
  ordered key kcmp (xs ++ x :: ys) ->
  from_key k (xs ++ x :: ys) =
    if kcmp k (key x) <? 0 then from_key k xs ++ x :: ys
    else if kcmp k (key x) >? 0 then from_key k ys
    else x :: ys.
Proof.
  intros (_ & _ & Hlt & Hgt)%ordered_mid. rewrite Z.gtb_ltb.
  assert (kcmp k (key x) <= 0 -> from_key k (x :: ys) = x :: ys) as Hge.
  { intros Hk. apply from_key_all. intros y [->|Hy]%elem_of_cons; [done|].
    pose proof (cmp_below key kcmp k x y Hk (Hgt y Hy)). lia. }
  unfold from_key in *. rewrite List.filter_app.
  fold (from_key k xs) (from_key k ys) (from_key k (x :: ys)) in *.
  destruct (Z.ltb_spec (kcmp k (key x)) 0) as [Hk|Hk]; [by rewrite Hge by lia|].
  rewrite (from_key_none k xs).
  2:{ intros y Hy. apply (cmp_above key kcmp k x y); [lia|auto]. }
  destruct (Z.ltb_spec 0 (kcmp k (key x))) as [Hk'|Hk']; [|by rewrite Hge by lia].
  unfold from_key. simpl. by rewrite (proj2 (Z.leb_gt _ _)) by lia.
Qed.

Lemma reset_at_ok (n : AvlNode E) k st :
  ordered key kcmp (elems n) -> (length st + height n <= STACK_MAX)%nat -> stack_ok st ->
  exists st', reset_at key kcmp n k st = Ok st' /\ stack_ok st' /\
    pending st' = from_key k (elems n) ++ pending st.
Proof.
  revert st. induction n as [|l IHl r IHr b e]; intros st Ho Hh Hst.
  { by exists st. }
  cbn [reset_at elems] in *. rewrite from_key_mid by done.
  pose proof Ho as (Hl & Hr & _ & _)%ordered_mid. cbn [height] in Hh.
  assert (stack_ok ((Node l r b e, 2) :: st)) as Hpush
    by (cbn [stack_ok height]; split_and!; auto; lia).
  destruct (kcmp k (key e) <? 0) eqn:Hc1; [|destruct (kcmp k (key e) >? 0) eqn:Hc2].
  - replace (Z.shiftr (u64 1) 63) with 0 by done. eval_eqb. cbn [tl_assert orb rbind].
    rewrite stackPush_ok by lia. cbn [rbind].
    destruct (IHl ((Node l r b e, 2) :: st)) as (st' & -> & ? & Hp);
      [done|cbn [length]; lia|done|].
    exists st'. split; [done|]. split; [done|]. rewrite Hp. cbn [pending]. eval_eqb.
    by rewrite <- app_assoc.
  - replace (Z.shiftr (u64 (-1)) 63) with 1 by done. eval_eqb. cbn [tl_assert orb rbind].
    apply IHr; [done|lia|done].
  - assert (kcmp k (key e) = 0) as ->.
    { rewrite Z.gtb_ltb in Hc2. case_Z; lia. }
    eval_eqb. rewrite stackPush_ok by lia. by eexists.
Qed.

(** [VG_(OSetGen_ResetIterAt)] positions the iterator so that the calls of
    [VG_(OSetGen_Next)] that follow produce exactly the elements whose key is
    at or above [k], in increasing order. *)
Theorem ResetIterAt_correct t k :
  oset_wf key kcmp t -> nElems t <= ITER_MAX ->
  exists t1 t2, OSetGen_ResetIterAt key kcmp t k = Ok t1 /\
    iterate (S (Z.to_nat (nElems t))) t1 = Ok (t2, from_key k (elems (root t))).
Proof.
  intros [[h Hh] Ho Hc Hs] Hlen. unfold OSetGen_ResetIterAt. rewrite Hc in Hlen.
  pose proof (iter_max_height _ _ Hh Hlen) as Hmax.
  destruct (reset_at_ok (root t) k []) as (st & -> & Hok & Hp); [done|simpl; lia|done|].
  cbn [rbind]. rewrite app_nil_r in Hp.
  destruct (iterate_ok (S (Z.to_nat (nElems t))) (MkOSet (nElems t) (root t) st))
    as (t2 & He & _); [done| |].
  - cbn [stack]. rewrite Hp, Hc. unfold from_key.
    pose proof (List.filter_length_le (fun x => kcmp k (key x) <=? 0) (elems (root t))). lia.
  - cbn [stack] in He. rewrite Hp in He. eauto.
Qed.

(** [VG_(OSetGen_Destroy)] frees every node exactly once, children before
    parents, and its final count assertion holds. *)
Theorem Destroy_correct t :
  oset_wf key kcmp t -> nElems t <= ITER_MAX ->
  exists freed, OSetGen_Destroy t = Ok freed /\ freed = postorder (root t) /\
    freed ≡ₚ elems (root t).
Proof.
  intros [[h Hh] Ho Hc Hs] Hlen. rewrite Hc in Hlen.
  pose proof (iter_max_height _ _ Hh Hlen) as Hmax. unfold OSetGen_Destroy.
  destruct (push_child_ok (root t) []) as (st & -> & Hok & Hf & Hp); [simpl; lia|done|].
  cbn [rbind to_free free_pops] in *. rewrite app_nil_r in Hf.
  rewrite destroy_loop_ok by (done || lia). cbn [rbind app].
  assert (length (postorder (root t)) = length (elems (root t))) as Hl
    by (by rewrite postorder_perm).
  rewrite Hf, Hl, Hc, Z.eqb_refl. cbn [tl_assert rbind]. eauto using postorder_perm.
Qed.
End more_theorems.

(** ** The iterator stack is too small for 2^32 elements *)

(** The sparsest AVL tree of height [h], holding consecutive words. *)
Fixpoint fib_tree (h : nat) (lo : Z) : AvlNode Z :=
  match h with
  | O => Leaf
  | S h' => match h' with
            | O => Node Leaf Leaf 0 lo
            | S h'' => Node (fib_tree h' lo) (fib_tree h'' (lo + avl_min_size h' + 1)) (-1)
                         (lo + avl_min_size h')
            end
  end.

Lemma fib_tree_SS h lo :
  fib_tree (S (S h)) lo =
    Node (fib_tree (S h) lo) (fib_tree h (lo + avl_min_size (S h) + 1)) (-1)
      (lo + avl_min_size (S h)).
Proof. reflexivity. Qed.

Lemma avl_min_size_nonneg h : 0 <= avl_min_size h.
Proof. apply (avl_min_size_le 0 h). lia. Qed.

(** The left spine is as long as the tree is high, so the descent of the
    iterator overflows its stack. *)
Lemma fib_tree_overflow h lo st :
  (length st <= STACK_MAX)%nat -> (STACK_MAX < length st + h)%nat ->
  case_1 (fib_tree h lo) st = Err (AssertFail "t->stackTop < STACK_MAX").
Proof.
  revert lo st. induction h as [|h IH]; intros lo st Hst Hlt; [lia|].
  destruct (Nat.eq_dec (length st) STACK_MAX) as [Heq|Hne].
  - assert (Nat.ltb (length st) STACK_MAX = false) as Hb by (apply Nat.ltb_ge; lia).
    destruct h; [cbn [fib_tree case_1]|rewrite fib_tree_SS; cbn [case_1]];
      unfold stackPush; by rewrite Hb.
  - destruct h as [|h]; [lia|]. rewrite fib_tree_SS. cbn [case_1].
    rewrite stackPush_ok by lia. cbn [rbind].
    rewrite <- (IH lo ((Node (fib_tree (S h) lo) (fib_tree h (lo + avl_min_size (S h) + 1)) (-1)
      (lo + avl_min_size (S h)), 2) :: st)); [|cbn [length]; lia|cbn [length]; lia].
    by destruct (fib_tree (S h) lo) eqn:Hf; [destruct h|].
Qed.

Lemma fib_tree_ok h lo :
  avl (fib_tree h lo) h /\ elems (fib_tree h lo) = seqZ lo (avl_min_size h).
Proof.
  enough (forall lo, (avl (fib_tree h lo) h /\ elems (fib_tree h lo) = seqZ lo (avl_min_size h)) /\
    (avl (fib_tree (S h) lo) (S h) /\ elems (fib_tree (S h) lo) = seqZ lo (avl_min_size (S h))))
    as H by apply H.
  clear lo. induction h as [|h IH]; intros lo.
  { split; (split; [repeat constructor|done]). }
  destruct (IH lo) as [[_ _] [Ha Hb]]. split; [done|].
  destruct (IH (lo + avl_min_size (S h) + 1)) as [[Hc Hd] _].
  rewrite fib_tree_SS, avl_min_size_SS. split; [by constructor|].
  cbn [elems]. rewrite Hb, Hd.
  pose proof (avl_min_size_nonneg h). pose proof (avl_min_size_nonneg (S h)).
  replace (avl_min_size (S h) + avl_min_size h + 1) with
    (avl_min_size (S h) + (avl_min_size h + 1)) by lia.
  rewrite seqZ_app by lia. f_equal. rewrite (seqZ_cons _ (avl_min_size h + 1)) by lia.
  f_equal. f_equal; lia.
Qed.

Lemma seqZ_ordered lo n : ordered id fast_cmp (seqZ lo n).
Proof.
  unfold seqZ. generalize (Z.to_nat n) as k. intros k.
  enough (forall s, ordered id fast_cmp ((fun i => Z.of_nat i + lo) <$> seq s k)) by auto.
  induction k as [|k IH]; intros s; simpl; [constructor|]. apply ordered_cons_lr.
  split; [apply IH|]. intros y (i & -> & Hi)%list_elem_of_fmap.
  apply elem_of_seq in Hi. unfold fast_cmp, id. rewrite Z.gtb_ltb. case_Z; lia.
Qed.

(** C37. The comment on [STACK_MAX] promises iteration over up to 2^32 entries,
    but a well-formed set of [ITER_MAX + 1] (about 9.2 million) words already
    makes the first [VG_(OSetGen_Next)] fail its stack assertion. *)
Theorem iter_stack_overflow :
  exists t : OSet Z, oset_wf id fast_cmp t /\ nElems t = ITER_MAX + 1 /\
    (let! t1 := OSetGen_ResetIter t in OSetGen_Next t1) =
      Err (AssertFail "t->stackTop < STACK_MAX").
Proof.
  assert (exists n, n = 33%nat) as [n Hn] by eauto.
  destruct (fib_tree_ok n 0) as [Ha Hb].
  assert (avl_min_size n = ITER_MAX + 1) as Hsz by (rewrite Hn; by vm_compute).
  exists (MkOSet (ITER_MAX + 1) (fib_tree n 0) []). split; [|split; [done|]].
  - split; cbn [root nElems stack]; [eauto|rewrite Hb; apply seqZ_ordered| |done].
    rewrite Hb, length_seqZ, Hsz. unfold ITER_MAX. lia.
  - assert (fib_tree n 0 <> Leaf) 
      by (intros H; rewrite H in Ha; apply avl_height in Ha; by subst n).
    unfold OSetGen_ResetIter. cbn [root nElems].
    assert (case_1 (fib_tree n 0) [] = Err (AssertFail "t->stackTop < STACK_MAX")) as Hov.
    { apply fib_tree_overflow; simpl; unfold STACK_MAX; lia. }
    destruct (fib_tree n 0) as [|l r b e] eqn:Hf; [done|].
    rewrite stackPush_ok by (simpl; unfold STACK_MAX; lia). cbn [rbind].
    unfold OSetGen_Next. cbn [stack length Nat.add next_loop].
    replace (stackPop [(Node l r b e, 1)]) with (Ok (Some (Node l r b e, 1, @nil (AvlNode Z * Z))))
      by done.
    cbn [rbind]. eval_eqb. by rewrite Hov.
Qed.

(** ** Concrete instances *)

(** A run that rotates on insertion and on removal. *)
Definition demo_ops : list (@oset_op Z Z) :=
  [OpInsert 1; OpInsert 2; OpInsert 3; OpInsert 6; OpInsert 5; OpInsert 4; OpIterate;
   OpRemove 2; OpRemove 9; OpLookup 3; OpRemove 1; OpIterate; OpSize].

Definition demo_set : OSet Z :=
  MkOSet 4 (Node (Node Leaf (Node Leaf Leaf 0 4) 1 3) (Node Leaf Leaf 0 6) (-1) 5) [].

Lemma oset_refines_sorted_list_witness :
  Z.of_nat (length demo_ops) <= ITER_MAX /\
  (let! (t, out) := run_calls (oset_step id fast_cmp) demo_ops OSetGen_Create in
   Ok (elems (root t), out)) =
    Ok ([3; 4; 5; 6],
        [Done; Done; Done; Done; Done; Done; Listing [1; 2; 3; 4; 5; 6];
         Found (Some 2); Found None; Found (Some 3); Found (Some 1); Listing [3; 4; 5; 6];
         Count 4]).
Proof.
  assert (Z.of_nat (length demo_ops) <= ITER_MAX) as H by (unfold ITER_MAX; simpl; lia).
  split; [done|]. rewrite (oset_refines_sorted_list id fast_cmp demo_ops H). reflexivity.
Defined.

Lemma oset_reachable_balanced_witness :
  exists out, run_calls (oset_step id fast_cmp) demo_ops OSetGen_Create = Ok (demo_set, out) /\
    avl (root demo_set) (height (root demo_set)) /\
    ordered id fast_cmp (elems (root demo_set)).
Proof.
  eexists. split; [vm_compute; reflexivity|].
  edestruct (oset_reachable_balanced id fast_cmp demo_ops demo_set) as (H1 & H2 & _);
    [unfold ITER_MAX; simpl; lia|vm_compute; reflexivity|]. split; assumption.
Defined.

Lemma ResetIterAt_correct_witness :
  oset_wf id fast_cmp demo_set /\
  exists t1 t2, OSetGen_ResetIterAt id fast_cmp demo_set 4 = Ok t1 /\
    iterate 5 t1 = Ok (t2, [4; 5; 6]).
Proof.
  assert (oset_wf id fast_cmp demo_set) as H.
  { split; simpl; [exists 3%nat; eauto 10 with cg|repeat constructor|done|done]. }
  split; [exact H|].
  exact (ResetIterAt_correct id fast_cmp demo_set 4 H ltac:(unfold ITER_MAX; simpl; lia)).
Defined.

Lemma Destroy_correct_witness :
  oset_wf id fast_cmp demo_set /\
  exists freed, OSetGen_Destroy demo_set = Ok freed /\ freed = [4; 3; 6; 5] /\
    freed ≡ₚ [3; 4; 5; 6].
Proof.
  assert (oset_wf id fast_cmp demo_set) as H.
  { split; simpl; [exists 3%nat; eauto 10 with cg|repeat constructor|done|done]. }
  split; [exact H|].
  exact (Destroy_correct id fast_cmp demo_set H ltac:(unfold ITER_MAX; simpl; lia)).
Defined.
