(* ===== verification/CgTables.v ===== *)
(** * The tables of the profiler: cachegrind/cg_main.c, data structures

    The string table interns file and function names, the CC table maps a
    source location to its counters, the InstrInfo table maps a superblock to
    the descriptors of its instructions.  All three are [OSet]s; the functions
    go through the interface [OSetOps], and the proofs use only [OSetLaws].

    A C pointer is the identity of the object it points to: [ps_addr] for an
    interned string, [lcc_addr] for a line's counters, [sb_id] for a
    superblock record.  What the code never changes after creation is kept
    with the pointer; the mutable part (counters, instruction slots) lives in
    the stores of the state and is shared by everyone who holds the pointer. *)

From Stdlib Require Import ZArith Lia.
From stdpp Require Import base numbers option strings gmap list.
From S2P Require Import Prelude Libcbase OSet.

#[local] Open Scope Z_scope.

(** ** Data *)

Record CacheCC : Type := MkCacheCC {
  cc_a : Z;    (* ULong: accesses *)
  cc_m1 : Z;   (* ULong: first-level misses *)
  cc_mL : Z    (* ULong: last-level misses *)
}.

Record BranchCC : Type := MkBranchCC {
  bc_b : Z;    (* ULong: branches *)
  bc_mp : Z    (* ULong: mispredictions *)
}.

(** A string of the string table: the pointer, and the characters there. *)
Record PStr : Type := MkPStr { ps_addr : nat; ps_chars : string }.

(** A lookup key: the strings may be temporaries. *)
Record CodeLoc : Type := MkCodeLoc { loc_file : string; loc_fn : string; loc_line : Z }.

(** A [LineCC] pointer with the [loc] its creation fixed. *)
Record LineCC : Type := MkLineCC {
  lcc_addr : nat;
  lcc_file : PStr;
  lcc_fn : PStr;
  lcc_line : Z
}.

(** The counters of a [LineCC]. *)
Record line_counts : Type := MkCounts {
  Ir : CacheCC; Dr : CacheCC; Dw : CacheCC; Bc : BranchCC; Bi : BranchCC
}.

Definition zero_counts : line_counts :=
  MkCounts (MkCacheCC 0 0 0) (MkCacheCC 0 0 0) (MkCacheCC 0 0 0)
    (MkBranchCC 0 0) (MkBranchCC 0 0).

Record InstrInfo : Type := MkInstrInfo {
  instr_addr : Z;          (* Addr *)
  instr_len : Z;           (* UChar *)
  parent : option nat      (* LineCC pointer, NULL until set up *)
}.

(** An [SB_info] pointer with its key, and the mutable record behind it. *)
Record SB_ref : Type := MkSBRef { sb_id : nat; SB_addr : Z }.
Record SB_info : Type := MkSBInfo { n_instrs : Z; instrs : list InstrInfo }.

#[export] Instance PStr_eq_dec : EqDecision PStr.
Proof. solve_decision. Defined.
#[export] Instance LineCC_eq_dec : EqDecision LineCC.
Proof. solve_decision. Defined.
#[export] Instance SB_ref_eq_dec : EqDecision SB_ref.
Proof. solve_decision. Defined.
#[export] Instance CodeLoc_eq_dec : EqDecision CodeLoc.
Proof. solve_decision. Defined.

(** ** Keys and comparison functions *)

(** [stringCmp]. *)
Definition stringCmp (key elem : string) : Z := VG_strcmp key elem.

(** The [loc] field of a line, read through its pointers. *)
Definition loc_of (l : LineCC) : CodeLoc :=
  MkCodeLoc (ps_chars (lcc_file l)) (ps_chars (lcc_fn l)) (lcc_line l).

(** [cmp_CodeLoc_LineCC].  The line numbers are below 2^20, so the
    subtraction is exact ([cmp_line_no_overflow]). *)
Definition cmp_CodeLoc_LineCC (a b : CodeLoc) : Z :=
  let res := VG_strcmp (loc_file a) (loc_file b) in
  if negb (res =? 0) then res
  else
    let res := VG_strcmp (loc_fn a) (loc_fn b) in
    if negb (res =? 0) then res
    else loc_line a - loc_line b.

#[export] Instance stringCmp_laws : CmpLaws stringCmp.
Proof.
  unfold stringCmp. split.
  - intros a b. rewrite (VG_strcmp_antisym b a). apply Z.sgn_opp.
  - intros a b c. apply VG_strcmp_trans.
  - intros a b c H. by rewrite (VG_strcmp_zero_l _ _ _ H).
Qed.

Lemma VG_strcmp_zero_r s1 s2 s3 : VG_strcmp s1 s2 = 0 -> VG_strcmp s3 s1 = VG_strcmp s3 s2.
Proof.
  intros H. rewrite (VG_strcmp_antisym s1 s3), (VG_strcmp_antisym s2 s3).
  by rewrite (VG_strcmp_zero_l _ _ _ H).
Qed.

(** Case on a string comparison in the goal. *)
Ltac case_strcmp a b :=
  let H := fresh "Hc" in destruct (Z.eqb_spec (VG_strcmp a b) 0) as [H|H]; cbn [negb].

#[export] Instance cmp_CodeLoc_laws : CmpLaws cmp_CodeLoc_LineCC.
Proof.
  unfold cmp_CodeLoc_LineCC. split.
  - intros [f1 n1 l1] [f2 n2 l2]; cbn [loc_file loc_fn loc_line].
    rewrite (VG_strcmp_antisym f1 f2), (VG_strcmp_antisym n1 n2).
    case_strcmp f1 f2; [|rewrite (proj2 (Z.eqb_neq _ _)) by lia; cbn [negb];
      rewrite Z.sgn_opp; lia].
    rewrite Hc. eval_eqb. cbn [negb Z.opp]. eval_eqb. cbn [negb].
    case_strcmp n1 n2; [|rewrite (proj2 (Z.eqb_neq _ _)) by lia; cbn [negb];
      rewrite Z.sgn_opp; lia].
    rewrite Hc0. cbn [Z.opp]. eval_eqb. cbn [negb]. rewrite <- Z.sgn_opp. f_equal. lia.
  - intros [f1 n1 l1] [f2 n2 l2] [f3 n3 l3]; cbn [loc_file loc_fn loc_line].
    case_strcmp f1 f2; [rewrite (VG_strcmp_zero_l _ _ f3 Hc)|];
      case_strcmp f2 f3; try lia.
    + case_strcmp n1 n2; [rewrite (VG_strcmp_zero_l _ _ n3 Hc1)|];
        case_strcmp n2 n3; try lia.
      * intros. rewrite <- (VG_strcmp_zero_r _ _ n1 Hc2).
        rewrite (proj2 (Z.eqb_neq _ _)) by lia. done.
      * intros H1 H2. pose proof (VG_strcmp_trans _ _ _ H1 H2).
        rewrite (proj2 (Z.eqb_neq _ _)) by lia. done.
    + intros. rewrite <- (VG_strcmp_zero_r _ _ f1 Hc0).
      rewrite (proj2 (Z.eqb_neq _ _)) by lia. done.
    + intros H1 H2. pose proof (VG_strcmp_trans _ _ _ H1 H2).
      rewrite (proj2 (Z.eqb_neq _ _)) by lia. done.
  - intros [f1 n1 l1] [f2 n2 l2] [f3 n3 l3]; cbn [loc_file loc_fn loc_line].
    case_strcmp f1 f2; [|done]. case_strcmp n1 n2; [|done]. intros Hl.
    rewrite (VG_strcmp_zero_l _ _ f3 Hc), (VG_strcmp_zero_l _ _ n3 Hc0).
    by replace l1 with l2 by lia.
Qed.

(** Line numbers are 20-bit in the debug information, so the [Int]
    subtraction of [cmp_CodeLoc_LineCC] cannot overflow. *)
Lemma cmp_line_no_overflow a b :
  0 <= loc_line a < 2 ^ 20 -> 0 <= loc_line b < 2 ^ 20 ->
  int_sub (loc_line a) (loc_line b) = Ok (loc_line a - loc_line b).
Proof. intros. apply signed_result_in. unfold in_s. lia. Qed.

(** ** State *)

Record debug_stats : Type := MkStats {
  full_debugs : Z; file_line_debugs : Z; fn_debugs : Z; no_debugs : Z   (* Int *)
}.

Record cg_tables : Type := MkTables {
  CC_table : OSet LineCC;
  CC_store : list line_counts;       (* the counters, by [lcc_addr] *)
  instrInfoTable : OSet SB_ref;
  SB_store : gmap nat SB_info;       (* live superblock records, by [sb_id] *)
  SB_next : nat;
  stringTable : OSet PStr;
  str_next : nat;                    (* strings duplicated so far *)
  stats : debug_stats
}.

Definition set_stringTable (T : cg_tables) (st : OSet PStr) (n : nat) : cg_tables :=
  MkTables (CC_table T) (CC_store T) (instrInfoTable T) (SB_store T) (SB_next T) st n (stats T).

Definition set_CC (T : cg_tables) (t : OSet LineCC) (store : list line_counts) : cg_tables :=
  MkTables t store (instrInfoTable T) (SB_store T) (SB_next T) (stringTable T) (str_next T)
    (stats T).

Definition set_SB (T : cg_tables) (t : OSet SB_ref) (store : gmap nat SB_info) (n : nat)
  : cg_tables :=
  MkTables (CC_table T) (CC_store T) t store n (stringTable T) (str_next T) (stats T).

Definition set_stats (T : cg_tables) (s : debug_stats) : cg_tables :=
  MkTables (CC_table T) (CC_store T) (instrInfoTable T) (SB_store T) (SB_next T)
    (stringTable T) (str_next T) s.

(** The table interfaces, at the AVL implementation. *)
#[export] Instance CC_ops : OSetOps (OSet LineCC) CodeLoc LineCC :=
  avl_oset_ops loc_of cmp_CodeLoc_LineCC.
#[export] Instance CC_laws : OSetLaws loc_of cmp_CodeLoc_LineCC (OSet LineCC) CC_ops :=
  avl_oset_laws loc_of cmp_CodeLoc_LineCC.
#[export] Instance SB_ops : OSetOps (OSet SB_ref) Z SB_ref := avl_oset_ops SB_addr fast_cmp.
#[export] Instance SB_laws : OSetLaws SB_addr fast_cmp (OSet SB_ref) SB_ops :=
  avl_oset_laws SB_addr fast_cmp.
#[export] Instance str_ops : OSetOps (OSet PStr) string PStr := avl_oset_ops ps_chars stringCmp.
#[export] Instance str_laws : OSetLaws ps_chars stringCmp (OSet PStr) str_ops :=
  avl_oset_laws ps_chars stringCmp.

(** The tables [cg_post_clo_init] creates. *)
Definition empty_tables : cg_tables :=
  MkTables os_create [] os_create ∅ 0 os_create 0 (MkStats 0 0 0 0).

(** ** Operations *)

Definition get_perm_string (T : cg_tables) (s : string) : res (cg_tables * PStr) :=
  match os_lookup (stringTable T) s with
  | Some s_ptr => Ok (T, s_ptr)
  | None =>
      let s_node := MkPStr (str_next T) s in
      let! st := os_insert (stringTable T) s_node in
      Ok (set_stringTable T st (S (str_next T)), s_node)
  end.

(** The debug-information readers [VG_(get_filename_linenum)] and
    [VG_(get_fnname)] interpret the client's object files; to this code they
    are two partial functions of the address: (file, directory, line) and the
    function name.  When no line is found the directory is set to "". *)
Record debug_info : Type := MkDebugInfo {
  get_filename_linenum : Z -> option (string * string * Z);
  get_fnname : Z -> option string
}.

(** [get_debug_info]: directory, file, function, line.  The statistics are
    printed at the end and used for nothing else. *)
Definition get_debug_info (di : debug_info) (T : cg_tables) (instr_addr : Z)
  : cg_tables * (string * string * string * Z) :=
  let found_file_line := get_filename_linenum di instr_addr in
  let found_fn := get_fnname di instr_addr in
  let '(file, dir, line) :=
    match found_file_line with Some fdl => fdl | None => ("???"%string, ""%string, 0) end in
  let fn := match found_fn with Some fn => fn | None => "???"%string end in
  let s := stats T in
  let s' :=
    match found_file_line, found_fn with
    | Some _, Some _ => MkStats (s32 (full_debugs s + 1)) (file_line_debugs s) (fn_debugs s) (no_debugs s)
    | Some _, None => MkStats (full_debugs s) (s32 (file_line_debugs s + 1)) (fn_debugs s) (no_debugs s)
    | None, Some _ => MkStats (full_debugs s) (file_line_debugs s) (s32 (fn_debugs s + 1)) (no_debugs s)
    | None, None => MkStats (full_debugs s) (file_line_debugs s) (fn_debugs s) (s32 (no_debugs s + 1))
    end in
  (set_stats T s', (dir, file, fn, line)).

(** [get_lineCC]. *)
Definition get_lineCC (di : debug_info) (T : cg_tables) (origAddr : Z)
  : res (cg_tables * LineCC) :=
  let '(T, (dir, file, fn, line)) := get_debug_info di T origAddr in
  let absfile := if (dir =? "")%string then file else (dir ++ "/" ++ file)%string in
  let loc := MkCodeLoc absfile fn (s32 line) in
  match os_lookup (CC_table T) loc with
  | Some lineCC => Ok (T, lineCC)
  | None =>
      let addr := length (CC_store T) in
      let! (T, pfile) := get_perm_string T (loc_file loc) in
      let! (T, pfn) := get_perm_string T (loc_fn loc) in
      let lineCC := MkLineCC addr pfile pfn (loc_line loc) in
      let! t := os_insert (CC_table T) lineCC in
      Ok (set_CC T t (CC_store T ++ [zero_counts]), lineCC)
  end.

(** An [InstrInfo] pointer: a slot of a superblock record. *)
Definition inode : Type := (nat * nat)%type.

(** [n->...]: a read through the pointer, which must not dangle. *)
Definition load_inode (T : cg_tables) (n : inode) : res InstrInfo :=
  match SB_store T !! n.1 with
  | Some sb => match instrs sb !! n.2 with Some ii => Ok ii | None => Err OutOfBounds end
  | None => Err NullDeref
  end.

(** The part of [get_SB_info] after the instructions have been counted. *)
Definition new_SB_info (T : cg_tables) (origAddr : Z) (n : nat) : res (cg_tables * nat) :=
  let! _ := tl_assert (match os_lookup (instrInfoTable T) origAddr with
                       | None => true | Some _ => false end) "NULL == sbInfo" in
  let id := SB_next T in
  let! t := os_insert (instrInfoTable T) (MkSBRef id origAddr) in
  let sb := MkSBInfo (Z.of_nat n) (replicate n (MkInstrInfo 0 0 None)) in
  Ok (set_SB T t (<[id := sb]> (SB_store T)) (S id), id).

(** [setup_InstrInfo] on slot [sbInfo_i] of superblock [id]; returns the node
    and the advanced slot number. *)
Definition setup_InstrInfo (di : debug_info) (T : cg_tables) (id : nat) (sbInfo_i : Z)
    (addr len : Z) : res (cg_tables * Z * inode) :=
  let! _ := tl_assert (0 <=? sbInfo_i) "cgs->sbInfo_i >= 0" in
  match SB_store T !! id with
  | None => Err NullDeref
  | Some sb0 =>
      let! _ := tl_assert (sbInfo_i <? n_instrs sb0) "cgs->sbInfo_i < cgs->sbInfo->n_instrs" in
      let! (T, lineCC) := get_lineCC di T addr in
      match SB_store T !! id with
      | None => Err NullDeref
      | Some sb =>
          let! slots := arr_set (instrs sb) sbInfo_i (MkInstrInfo addr (u8 len) (Some (lcc_addr lineCC))) in
          Ok (set_SB T (instrInfoTable T) (<[id := MkSBInfo (n_instrs sb) slots]> (SB_store T))
                (SB_next T),
              sbInfo_i + 1, (id, Z.to_nat sbInfo_i))
      end
  end.

(** [cg_discard_superblock_info], the extents given by [n_used] and [base[0]]. *)
Definition cg_discard_superblock_info (T : cg_tables) (n_used base0 : Z) : res cg_tables :=
  let orig_addr := base0 in
  let! _ := tl_assert (0 <? n_used) "vge.n_used > 0" in
  let! (t, sbInfo) := os_remove (instrInfoTable T) orig_addr in
  match sbInfo with
  | None => Err (AssertFail "NULL != sbInfo")
  | Some r => Ok (set_SB T t (delete (sb_id r) (SB_store T)) (SB_next T))
  end.

(** ** Invariants *)

(** The string table: each string once, under its own pointer. *)
Record str_wf (t : OSet PStr) (n : nat) : Prop := {
  sw_wf : os_wf t;
  sw_len : length (os_elems t) = n;
  sw_addr : NoDup (ps_addr <$> os_elems t);
  sw_in p : p ∈ os_elems t -> (ps_addr p < n)%nat /\ no_nul (ps_chars p)
}.

(** The CC table: one counter record per line, names from the string table. *)
Record cc_wf (t : OSet LineCC) (store : list line_counts) (strs : list PStr) : Prop := {
  cw_wf : os_wf t;
  cw_len : length (os_elems t) = length store;
  cw_addr : NoDup (lcc_addr <$> os_elems t);
  cw_in l : l ∈ os_elems t ->
    (lcc_addr l < length store)%nat /\ lcc_file l ∈ strs /\ lcc_fn l ∈ strs /\
    0 <= lcc_line l < 2 ^ 20
}.

(** The InstrInfo table: exactly the live superblock records. *)
Record sb_wf (t : OSet SB_ref) (store : gmap nat SB_info) (next ncc : nat) : Prop := {
  bw_wf : os_wf t;
  bw_id : NoDup (sb_id <$> os_elems t);
  bw_live id : is_Some (store !! id) <-> id ∈ sb_id <$> os_elems t;
  bw_next id : id ∈ sb_id <$> os_elems t -> (id < next)%nat;
  bw_slots id sb : store !! id = Some sb -> n_instrs sb = Z.of_nat (length (instrs sb));
  bw_parent id sb ii p : store !! id = Some sb -> ii ∈ instrs sb -> parent ii = Some p ->
    (p < ncc)%nat
}.

Record tables_wf (T : cg_tables) : Prop := {
  tw_str : str_wf (stringTable T) (str_next T);
  tw_cc : cc_wf (CC_table T) (CC_store T) (os_elems (stringTable T));
  tw_sb : sb_wf (instrInfoTable T) (SB_store T) (SB_next T) (length (CC_store T))
}.

(** The room left in the three tables ([nElems] is a [UInt]). *)
Definition tables_room (T : cg_tables) : Prop :=
  Z.of_nat (str_next T) < 2 ^ 32 - 2 /\ Z.of_nat (length (CC_store T)) < 2 ^ 32 - 1 /\
  Z.of_nat (length (os_elems (instrInfoTable T))) < 2 ^ 32 - 1.

(** What the debug-information readers return: C strings and 20-bit lines. *)
Record debug_info_ok (di : debug_info) : Prop := {
  di_loc a f d l : get_filename_linenum di a = Some (f, d, l) ->
    no_nul f /\ no_nul d /\ 0 <= l < 2 ^ 20;
  di_fn a f : get_fnname di a = Some f -> no_nul f
}.

(** The location [get_lineCC] charges an address to. *)
Definition debug_loc (di : debug_info) (a : Z) : CodeLoc :=
  let '(file, dir, line) :=
    match get_filename_linenum di a with
    | Some fdl => fdl | None => ("???"%string, ""%string, 0) end in
  MkCodeLoc (if (dir =? "")%string then file else (dir ++ "/" ++ file)%string)
    (match get_fnname di a with Some fn => fn | None => "???"%string end) line.

Lemma no_nul_app s1 s2 : no_nul (s1 ++ s2) <-> no_nul s1 /\ no_nul s2.
Proof. induction s1 as [|c s1 IH]; simpl; [tauto|]. rewrite IH. tauto. Qed.

Lemma debug_loc_ok di a :
  debug_info_ok di ->
  no_nul (loc_file (debug_loc di a)) /\ no_nul (loc_fn (debug_loc di a)) /\
  0 <= loc_line (debug_loc di a) < 2 ^ 20.
Proof.
  intros Hdi. unfold debug_loc.
  assert (no_nul "???") by (simpl; repeat split; intros H; discriminate H).
  assert (no_nul match get_fnname di a with Some fn => fn | None => "???" end)
    by (destruct (get_fnname di a) eqn:Hf; [by eapply di_fn|done]).
  destruct (get_filename_linenum di a) as [[[f d] l]|] eqn:Hl.
  - destruct (di_loc _ Hdi _ _ _ _ Hl) as (Hf & Hd & Hln). cbn.
    split; [|done]. destruct (d =? "")%string; [done|].
    apply no_nul_app. split; [done|]. split; [intros E; discriminate E|done].
  - cbn. split; [done|]. split; [done|]. lia.
Qed.

(** ** The string table *)

Lemma str_wf_inj t n p q :
  str_wf t n -> p ∈ os_elems t -> q ∈ os_elems t ->
  (ps_addr p = ps_addr q <-> ps_chars p = ps_chars q).
Proof.
  intros Hw Hp Hq. split; intros H.
  - by rewrite (NoDup_fmap_elem ps_addr (os_elems t) p q (sw_addr _ _ Hw)).
  - f_equal. eapply (ordered_key_inj ps_chars stringCmp); [apply os_ordered, Hw|done..|].
    rewrite H. apply VG_strcmp_refl.
Qed.

Lemma get_perm_string_ok T s :
  str_wf (stringTable T) (str_next T) -> no_nul s -> Z.of_nat (str_next T) < 2 ^ 32 - 1 ->
  exists t' n' p, get_perm_string T s = Ok (set_stringTable T t' n', p) /\
    str_wf t' n' /\ p ∈ os_elems t' /\ ps_chars p = s /\
    (forall q, q ∈ os_elems (stringTable T) -> q ∈ os_elems t') /\
    (str_next T <= n' <= S (str_next T))%nat.
Proof.
  intros Hw Hs Hn. pose proof Hw as [Hwf Hlen Haddr Hin].
  unfold get_perm_string. rewrite os_lookup_ok by done.
  destruct (sset_lookup ps_chars stringCmp s (os_elems (stringTable T))) as [p|] eqn:Hl.
  - apply sset_lookup_Some in Hl as [Hp Hk]. exists (stringTable T), (str_next T), p.
    split; [by destruct T|]. split; [done|]. split; [done|]. split; [|split; [done|lia]].
    symmetry. apply VG_strcmp_eq; [done|by apply Hin|done].
  - apply sset_lookup_None in Hl.
    destruct (os_insert_ok (stringTable T) (MkPStr (str_next T) s)) as (t' & -> & Hwf' & He);
      [done|done|rewrite Hlen; lia|].
    cbn [rbind]. exists t', (S (str_next T)), (MkPStr (str_next T) s).
    split; [done|]. split; [split; [done|..]|split; [|split; [done|split; [|lia]]]].
    + rewrite He, sset_insert_perm. simpl. lia.
    + rewrite He, sset_insert_perm. simpl. apply NoDup_cons. split; [|done].
      intros (q & Hq & Hq')%list_elem_of_fmap. apply Hin in Hq' as [Hq' _]. lia.
    + intros p. rewrite He, sset_insert_elem. intros [->|Hp]; [split; [simpl; lia|done]|].
      destruct (Hin p Hp). split; [lia|done].
    + rewrite He, sset_insert_elem. by left.
    + intros q Hq. rewrite He, sset_insert_elem. by right.
Qed.

(** ** The CC table *)

Definition loc_ok (l : CodeLoc) : Prop :=
  no_nul (loc_file l) /\ no_nul (loc_fn l) /\ 0 <= loc_line l < 2 ^ 20.

Lemma cmp_CodeLoc_eq a b : loc_ok a -> loc_ok b -> (cmp_CodeLoc_LineCC a b = 0 <-> a = b).
Proof.
  intros (Ha1 & Ha2 & _) (Hb1 & Hb2 & _). unfold cmp_CodeLoc_LineCC.
  split; [|intros ->; rewrite !VG_strcmp_refl; eval_eqb; cbn [negb]; lia].
  case_strcmp (loc_file a) (loc_file b); [|lia].
  case_strcmp (loc_fn a) (loc_fn b); [|lia]. intros Hl.
  apply VG_strcmp_eq in Hc; [|done..]. apply VG_strcmp_eq in Hc0; [|done..].
  destruct a, b; simpl in *. f_equal; [done|done|lia].
Qed.

Lemma cc_wf_loc_ok t store st n l :
  str_wf st n -> cc_wf t store (os_elems st) -> l ∈ os_elems t -> loc_ok (loc_of l).
Proof.
  intros Hs Hc Hl. apply (cw_in _ _ _ Hc) in Hl as (_ & Hf & Hn & Hln).
  apply (sw_in _ _ Hs) in Hf as [_ ?], Hn as [_ ?]. done.
Qed.

(** Growing the string table keeps the CC table well formed. *)
Lemma cc_wf_mono t store s1 s2 :
  (forall p, p ∈ s1 -> p ∈ s2) -> cc_wf t store s1 -> cc_wf t store s2.
Proof.
  intros Hs [Hw Hl Ha Hi]. split; [done..|]. intros l H. apply Hi in H as (?&?&?&?); auto.
Qed.

Lemma sb_wf_mono t store next n n' :
  (n <= n')%nat -> sb_wf t store next n -> sb_wf t store next n'.
Proof.
  intros Hn [? ? ? ? ? Hp]. split; [done..|]. intros. eapply Nat.lt_le_trans; [|done]. eauto.
Qed.

Lemma cc_wf_insert t store strs l t' :
  cc_wf t store strs -> lcc_addr l = length store -> lcc_file l ∈ strs -> lcc_fn l ∈ strs ->
  0 <= lcc_line l < 2 ^ 20 -> os_wf t' ->
  os_elems t' = sset_insert loc_of cmp_CodeLoc_LineCC l (os_elems t) ->
  cc_wf t' (store ++ [zero_counts]) strs.
Proof.
  intros [Hw Hl Ha Hi] Hla Hf Hn Hln Hw' He. split; [done|..].
  - rewrite He, sset_insert_perm, length_app. simpl. lia.
  - rewrite He, sset_insert_perm. simpl. apply NoDup_cons. split; [|done].
    intros (q & Hq & Hq')%list_elem_of_fmap. apply Hi in Hq' as [Hq' _]. lia.
  - intros q. rewrite He, sset_insert_elem, length_app. simpl. intros [->|Hq].
    + split; [lia|done].
    + apply Hi in Hq as (?&?&?&?). split; [lia|done].
Qed.

(** What a call of [get_lineCC] at [a] did: the line of [a] is in the table,
    a new one with zero counters if it was not there before. *)
Record line_found (di : debug_info) (T T' : cg_tables) (a : Z) (l : LineCC) : Prop := {
  lf_loc : loc_of l = debug_loc di a;
  lf_elems l' : l' ∈ os_elems (CC_table T') <-> l' = l \/ l' ∈ os_elems (CC_table T);
  lf_store : (l ∈ os_elems (CC_table T) /\ CC_store T' = CC_store T) \/
             (lcc_addr l = length (CC_store T) /\
              CC_store T' = CC_store T ++ [zero_counts] /\
              forall l', l' ∈ os_elems (CC_table T) -> loc_of l' <> debug_loc di a);
  lf_sb : instrInfoTable T' = instrInfoTable T /\ SB_store T' = SB_store T /\
          SB_next T' = SB_next T;
  lf_str : (str_next T <= str_next T' <= str_next T + 2)%nat
}.

(** The lookup [get_lineCC] makes, with its key in terms of [debug_loc]. *)
Lemma get_lineCC_unfold di T a :
  debug_info_ok di ->
  get_lineCC di T a =
    let T := fst (get_debug_info di T a) in
    match os_lookup (CC_table T) (debug_loc di a) with
    | Some l => Ok (T, l)
    | None =>
        let! (T1, pfile) := get_perm_string T (loc_file (debug_loc di a)) in
        let! (T2, pfn) := get_perm_string T1 (loc_fn (debug_loc di a)) in
        let l := MkLineCC (length (CC_store T)) pfile pfn (loc_line (debug_loc di a)) in
        let! t := os_insert (CC_table T2) l in
        Ok (set_CC T2 t (CC_store T2 ++ [zero_counts]), l)
    end.
Proof.
  intros Hdi. pose proof (debug_loc_ok di a Hdi) as (_ & _ & Hln).
  unfold get_lineCC, get_debug_info, debug_loc in *.
  destruct (match get_filename_linenum di a with
            | Some fdl => fdl | None => ("???"%string, ""%string, 0) end) as [[f d] l].
  cbn [loc_line fst] in *. rewrite (wraps_small 32 l); [done|lia|unfold in_s; lia].
Qed.

Lemma get_lineCC_ok di T a :
  debug_info_ok di -> tables_wf T -> tables_room T ->
  exists T' l, get_lineCC di T a = Ok (T', l) /\ tables_wf T' /\ line_found di T T' a l.
Proof.
  intros Hdi HT Hroom. rewrite get_lineCC_unfold by done.
  assert (exists s, fst (get_debug_info di T a) = set_stats T s) as [s ->].
  { unfold get_debug_info. destruct (match get_filename_linenum di a with
      | Some fdl => fdl | None => ("???"%string, ""%string, 0) end) as [[f d] l]. eauto. }
  pose proof (debug_loc_ok di a Hdi) as (Hkf & Hkn & Hkl).
  destruct HT as [Hstr Hcc Hsb]. destruct Hroom as (Hr1 & Hr2 & _).
  cbn zeta. change (CC_table (set_stats T s)) with (CC_table T).
  rewrite os_lookup_ok by apply Hcc.
  destruct (sset_lookup loc_of cmp_CodeLoc_LineCC (debug_loc di a) (os_elems (CC_table T)))
    as [l|] eqn:Hl.
  - apply sset_lookup_Some in Hl as [Hin Hk]. exists (set_stats T s), l.
    split; [done|]. split; [by split|]. split; cbn; [|naive_solver|by left|done|lia].
    apply cmp_CodeLoc_eq in Hk; [done|done|by eapply cc_wf_loc_ok].
  - apply sset_lookup_None in Hl.
    destruct (get_perm_string_ok (set_stats T s) (loc_file (debug_loc di a)))
      as (st1 & n1 & p1 & -> & Hs1 & Hp1 & Hc1 & Hsub1 & Hn1); [done|done|cbn; lia|].
    cbn [rbind]. cbn [set_stats str_next stringTable] in *.
    destruct (get_perm_string_ok (set_stringTable (set_stats T s) st1 n1) (loc_fn (debug_loc di a)))
      as (st2 & n2 & p2 & -> & Hs2 & Hp2 & Hc2 & Hsub2 & Hn2); [done|done|cbn; lia|].
    cbn [rbind]. cbn [set_stringTable set_stats stringTable str_next CC_table CC_store] in *.
    set (l := MkLineCC (length (CC_store T)) p1 p2 (loc_line (debug_loc di a))).
    assert (loc_of l = debug_loc di a) as Hloc.
    { unfold loc_of; simpl. rewrite Hc1, Hc2. by destruct (debug_loc di a). }
    destruct (os_insert_ok (CC_table T) l) as (t' & -> & Hw' & He);
      [apply Hcc|by rewrite Hloc|rewrite (cw_len _ _ _ Hcc); lia|].
    cbn [rbind]. eexists _, l. split; [done|]. split.
    + split; cbn; [done| |].
      * apply (cc_wf_insert (CC_table T) (CC_store T) (os_elems st2) l); auto.
        eapply cc_wf_mono; [|done]. auto.
      * rewrite length_app. simpl. eapply sb_wf_mono; [|done]. lia.
    + split; cbn; [done| | |done|lia].
      * intros l'. by rewrite He, sset_insert_elem.
      * right. split; [done|]. split; [done|]. intros l' Hl' Heq.
        unfold fresh_key in Hl. rewrite Forall_forall in Hl. apply (Hl l' Hl').
        rewrite Heq. apply cmp_refl.
Qed.

(** ** The InstrInfo table *)

(** The superblock registered at an address. *)
Definition sb_at (T : cg_tables) (a : Z) : option SB_ref := os_lookup (instrInfoTable T) a.

Lemma fast_cmp_zero a b : fast_cmp a b = 0 <-> a = b.
Proof. unfold fast_cmp. rewrite Z.gtb_ltb. case_Z; lia. Qed.

Lemma sb_at_elem T a r :
  tables_wf T ->
  (sb_at T a = Some r <-> r ∈ os_elems (instrInfoTable T) /\ SB_addr r = a).
Proof.
  intros [_ _ Hw]. unfold sb_at. rewrite os_lookup_ok by apply Hw.
  rewrite sset_lookup_elem by first [apply _|apply os_ordered, Hw]. rewrite fast_cmp_zero. naive_solver.
Qed.

Lemma empty_tables_wf : tables_wf empty_tables.
Proof.
  assert (forall A (x : A), ~ x ∈ []) as Hnil by (by intros A x ?%not_elem_of_nil).
  assert (forall A B (f : A -> B) (l : list A), l = [] -> f <$> l = []) as Hf by (by intros * ->).
  split; cbn.
  - destruct (os_create_ok (OSetLaws := str_laws)) as [Hw He].
    split; [done|by rewrite He|rewrite He; constructor|]. rewrite He. intros p Hp. by apply Hnil in Hp.
  - destruct (os_create_ok (OSetLaws := CC_laws)) as [Hw He].
    split; [done|by rewrite He|rewrite He; constructor|]. rewrite He. intros p Hp. by apply Hnil in Hp.
  - destruct (os_create_ok (OSetLaws := SB_laws)) as [Hw He].
    split; rewrite ?He; [done|constructor| | | |].
    + intros id. rewrite lookup_empty. split; [by intros [? [=]]|by intros ?%Hnil].
    + by intros id ?%Hnil.
    + intros id sb. by rewrite lookup_empty.
    + intros id sb ii p. by rewrite lookup_empty.
Qed.

Lemma new_SB_info_ok T a n :
  tables_wf T -> tables_room T -> sb_at T a = None ->
  exists T', new_SB_info T a n = Ok (T', SB_next T) /\ tables_wf T' /\
    sb_at T' a = Some (MkSBRef (SB_next T) a) /\
    os_elems (instrInfoTable T') =
      sset_insert SB_addr fast_cmp (MkSBRef (SB_next T) a) (os_elems (instrInfoTable T)) /\
    SB_store T' = <[SB_next T := MkSBInfo (Z.of_nat n) (replicate n (MkInstrInfo 0 0 None))]>
                    (SB_store T) /\
    CC_table T' = CC_table T /\ CC_store T' = CC_store T /\
    stringTable T' = stringTable T /\ str_next T' = str_next T /\ SB_next T' = S (SB_next T).
Proof.
  intros HT (_ & _ & Hroom) Hnone. unfold new_SB_info, sb_at in *. rewrite Hnone.
  destruct HT as [Hstr Hcc Hsb]. pose proof Hsb as [Hw Hid Hlive Hnext Hsl Hp].
  rewrite os_lookup_ok in Hnone by done. apply sset_lookup_None in Hnone.
  destruct (os_insert_ok (instrInfoTable T) (MkSBRef (SB_next T) a)) as (t' & -> & Hw' & He);
    [done..|].
  cbn [tl_assert rbind]. eexists. split; [done|].
  assert (sb_wf t' (<[SB_next T := MkSBInfo (Z.of_nat n) (replicate n (MkInstrInfo 0 0 None))]>
    (SB_store T)) (S (SB_next T)) (length (CC_store T))) as Hsb'.
  { split; [done|..].
    - rewrite He, sset_insert_perm. simpl. apply NoDup_cons. split; [|done].
      intros Hbad. apply Hnext in Hbad. lia.
    - intros id. rewrite lookup_insert_is_Some', Hlive, He, sset_insert_perm.
      simpl. rewrite elem_of_cons. naive_solver.
    - intros id. rewrite He, sset_insert_perm. simpl. rewrite elem_of_cons.
      intros [->|Hx]; [lia|]. apply Hnext in Hx. lia.
    - intros id sb [[<- <-]|[_ Hs]]%lookup_insert_Some; [by simpl; rewrite length_replicate|].
      by eapply Hsl.
    - intros id sb ii p [[<- <-]|[_ Hs]]%lookup_insert_Some Hin Hpar; [|by eapply Hp].
      simpl in Hin. apply elem_of_replicate in Hin as [-> _]. done. }
  split; [by split|]. split; [|done].
  assert (os_lookup t' a = sset_lookup SB_addr fast_cmp a (os_elems t')) as Hlk
    by (by rewrite os_lookup_ok).
  cbn [set_SB instrInfoTable]. rewrite Hlk.
  apply sset_lookup_elem; [apply _|by apply os_ordered|].
  rewrite He, sset_insert_elem, fast_cmp_zero. auto.
Qed.

(** Discarding a superblock. *)
Lemma cg_discard_ok T n_used a r :
  tables_wf T -> tables_room T -> 0 < n_used -> sb_at T a = Some r ->
  exists T', cg_discard_superblock_info T n_used a = Ok T' /\ tables_wf T' /\
    sb_at T' a = None /\
    os_elems (instrInfoTable T') =
      sset_remove SB_addr fast_cmp a (os_elems (instrInfoTable T)) /\
    SB_store T' = delete (sb_id r) (SB_store T) /\ CC_table T' = CC_table T /\
    CC_store T' = CC_store T /\ stringTable T' = stringTable T /\ str_next T' = str_next T /\
    SB_next T' = SB_next T.
Proof.
  intros HT (_ & _ & Hroom) Hn Hr. pose proof Hr as [Hin Ha]%sb_at_elem; [|done].
  unfold cg_discard_superblock_info, sb_at in *. destruct HT as [Hstr Hcc Hsb].
  pose proof Hsb as [Hw Hid Hlive Hnext Hsl Hp].
  rewrite (proj2 (Z.ltb_lt _ _) Hn). cbn [tl_assert rbind].
  destruct (os_remove_ok (instrInfoTable T) a) as (t' & -> & Hw' & He); [done|lia|].
  rewrite os_lookup_ok in Hr by done. rewrite Hr. cbn [rbind]. eexists. split; [done|].
  pose proof (os_ordered _ Hw) as Ho. apply list_elem_of_split in Hin as (xs & ys & Hxy).
  assert (os_elems t' = xs ++ ys) as He'.
  { rewrite He, Hxy, sset_remove_mid; [done|apply _|by rewrite <- Hxy|].
    by rewrite fast_cmp_zero. }
  rewrite Hxy, fmap_app, fmap_cons in Hid. apply NoDup_app in Hid as (Hid1 & Hid2 & Hid3).
  apply NoDup_cons in Hid3 as [Hid3 Hid4].
  assert (forall id, id ∈ sb_id <$> os_elems t' <->
                     id ∈ sb_id <$> os_elems (instrInfoTable T) /\ id <> sb_id r) as Hids.
  { intros id. rewrite He', Hxy, !fmap_app, fmap_cons, !elem_of_app, elem_of_cons.
    split; [|naive_solver]. intros [H|H]; (split; [tauto|]); intros ->; [|done].
    apply (Hid2 _ H). by left. }
  split; [split; [done|done|split; cbn; [done|..]]|split; [|done]].
  - rewrite He', fmap_app. apply NoDup_app. split; [done|]. split; [|done].
    intros x Hx Hy. apply (Hid2 x Hx). by right.
  - intros id. rewrite lookup_delete_is_Some, Hlive, Hids. naive_solver.
  - intros id [Hx _]%Hids. auto.
  - intros id sb [_ Hs]%lookup_delete_Some. by eapply Hsl.
  - intros id sb ii p [_ Hs]%lookup_delete_Some. by eapply Hp.
  - assert (os_lookup t' a = sset_lookup SB_addr fast_cmp a (os_elems t')) as Hlk
      by (by rewrite os_lookup_ok).
    cbn [set_SB instrInfoTable]. rewrite Hlk. apply sset_lookup_None. rewrite He.
    apply Forall_forall. intros x Hx. unfold sset_remove in Hx.
    apply list_elem_of_In, List.filter_In in Hx as [_ Hx]. by destruct (Z.eqb_spec (fast_cmp a (SB_addr x)) 0).
Qed.

(** Filling an instruction slot: the node is readable afterwards and points to
    the line of its address; other slots and superblocks are untouched. *)
Lemma setup_InstrInfo_ok di T id sb i addr len :
  debug_info_ok di -> tables_wf T -> tables_room T ->
  SB_store T !! id = Some sb -> 0 <= i < n_instrs sb ->
  exists T' l, setup_InstrInfo di T id i addr len = Ok (T', i + 1, (id, Z.to_nat i)) /\
    tables_wf T' /\
    instrInfoTable T' = instrInfoTable T /\ SB_next T' = SB_next T /\
    l ∈ os_elems (CC_table T') /\ loc_of l = debug_loc di addr /\
    SB_store T' = <[id := MkSBInfo (n_instrs sb)
       (<[Z.to_nat i := MkInstrInfo addr (u8 len) (Some (lcc_addr l))]> (instrs sb))]> (SB_store T) /\
    (exists T1, get_lineCC di T addr = Ok (T1, l) /\ CC_table T' = CC_table T1 /\
       CC_store T' = CC_store T1 /\ str_next T' = str_next T1) /\
    (exists tail, CC_store T' = CC_store T ++ tail /\ (length tail <= 1)%nat) /\
    (str_next T' <= str_next T + 2)%nat.
Proof.
  intros Hdi HT Hroom Hsb Hi. unfold setup_InstrInfo.
  rewrite (proj2 (Z.leb_le _ _)) by lia. cbn [tl_assert rbind].
  rewrite Hsb, (proj2 (Z.ltb_lt _ _)) by lia. cbn [tl_assert rbind].
  destruct (get_lineCC_ok di T addr Hdi HT Hroom) as (T1 & l & Hget & HT1 & Hl).
  rewrite Hget. cbn [rbind]. pose proof (lf_sb _ _ _ _ _ Hl) as (Hi1 & Hs1 & Hn1).
  rewrite Hs1, Hsb. pose proof (bw_slots _ _ _ _ (tw_sb _ HT) _ _ Hsb) as Hlen.
  rewrite arr_set_in by lia. cbn [rbind]. eexists _, l. split; [done|].
  assert (l ∈ os_elems (CC_table T1)) as Hin by (apply (lf_elems _ _ _ _ _ Hl); by left).
  split; [|split; [done|split; [done|split; [done|split; [apply Hl|split; [done|]]]]]].
  - pose proof HT1 as [Hstr Hcc Hsb1]. split; cbn; [done|done|].
    pose proof Hsb1 as [Hw Hid Hlive Hnext Hsl Hp]. rewrite Hs1 in *. split; [done|done|..].
    + intros id'. rewrite lookup_insert_is_Some', Hlive. split; [|tauto].
      intros [<-|H]; [|done]. by apply Hlive.
    + done.
    + intros id' sb' [[<- <-]|[_ H]]%lookup_insert_Some; cbn; [by rewrite length_insert|eauto].
    + intros id' sb' ii p [[<- <-]|[_ H]]%lookup_insert_Some; [|by eapply Hp]. cbn.
      intros Hii Hpar. apply list_elem_of_lookup in Hii as [k Hk].
      apply list_lookup_insert_Some in Hk as [(_ & <- & _)|[_ Hk]].
      * injection Hpar as <-. by apply (cw_in _ _ _ Hcc).
      * eapply Hp; [done| |done]. by eapply list_elem_of_lookup_2.
  - split; [by exists T1|]. cbn. split; [|pose proof (lf_str _ _ _ _ _ Hl); lia].
    destruct (lf_store _ _ _ _ _ Hl) as [[_ ->]|(_ & -> & _)];
      [by exists []; rewrite app_nil_r; split; [|simpl; lia]|by eexists].
Qed.

(** What a successful [setup_InstrInfo] returned. *)
Lemma setup_InstrInfo_inv di T id i addr len T' i' n :
  setup_InstrInfo di T id i addr len = Ok (T', i', n) ->
  i' = i + 1 /\ n = (id, Z.to_nat i) /\ 0 <= i /\
  exists p, load_inode T' n = Ok (MkInstrInfo addr (u8 len) (Some p)).
Proof.
  unfold setup_InstrInfo. intros H. apply rbind_ok in H as ([] & Hi & H).
  apply tl_assert_ok, Z.leb_le in Hi. destruct (SB_store T !! id) as [sb0|]; [|done].
  apply rbind_ok in H as ([] & _ & H). apply rbind_ok in H as ([T1 l] & _ & H).
  destruct (SB_store T1 !! id) as [sb|]; [|done].
  apply rbind_ok in H as (slots & Hs & H). injection H as <- <- <-.
  apply arr_set_ok in Hs as [Hs ->]. split; [done|]. split; [done|]. split; [done|].
  exists (lcc_addr l). unfold load_inode. cbn [fst snd SB_store set_SB].
  rewrite lookup_insert_eq. cbn [instrs]. by rewrite list_lookup_insert_eq by lia.
Qed.

(** ** Theorems *)

(** [get_perm_string] interns: it never fails on a well-formed table with
    room, returns a pointer to the requested characters, and for any two
    requests made one after the other the pointers are equal exactly when the
    strings are, which is what the pointer comparisons of the output routine
    rely on. *)
Theorem get_perm_string_interns (T : cg_tables) (s1 s2 : string) :
  tables_wf T -> tables_room T -> no_nul s1 -> no_nul s2 ->
  exists T1 p1 T2 p2,
    get_perm_string T s1 = Ok (T1, p1) /\ get_perm_string T1 s2 = Ok (T2, p2) /\
    tables_wf T2 /\ ps_chars p1 = s1 /\ ps_chars p2 = s2 /\
    (ps_addr p1 = ps_addr p2 <-> s1 = s2).
Proof.
  intros [Hstr Hcc Hsb] (Hr & _) H1 H2.
  destruct (get_perm_string_ok T s1 Hstr H1) as (t1 & n1 & p1 & E1 & Hw1 & Hp1 & Hc1 & Hs1 & Hn1);
    [lia|].
  destruct (get_perm_string_ok (set_stringTable T t1 n1) s2 Hw1 H2)
    as (t2 & n2 & p2 & E2 & Hw2 & Hp2 & Hc2 & Hs2 & Hn2); [cbn; lia|].
  eexists _, p1, _, p2. split; [exact E1|]. split; [exact E2|]. cbn in Hs2.
  split; [|split; [done|split; [done|]]].
  - split; cbn; [done| |done]. eapply cc_wf_mono; [|done]. auto.
  - rewrite (str_wf_inj _ _ _ _ Hw2 (Hs2 _ Hp1) Hp2). by rewrite Hc1, Hc2.
Qed.

(** [get_lineCC] finds or creates the one counter record of the source
    location of an address: it never fails, keeps every table invariant,
    returns a line whose location is the address's (absolute file name,
    function, line, or the ??? defaults), leaves every existing counter
    unchanged, starts a new line at zero, and a later call for any address of
    the same location returns the same pointer. *)
Theorem get_lineCC_correct (di : debug_info) (T : cg_tables) (a b : Z) :
  debug_info_ok di -> tables_wf T -> tables_room T ->
  Z.of_nat (str_next T) < 2 ^ 32 - 4 -> Z.of_nat (length (CC_store T)) < 2 ^ 32 - 2 ->
  exists T1 l1 T2 l2,
    get_lineCC di T a = Ok (T1, l1) /\ get_lineCC di T1 b = Ok (T2, l2) /\
    tables_wf T1 /\ loc_of l1 = debug_loc di a /\
    (CC_store T1 = CC_store T \/ CC_store T1 = CC_store T ++ [zero_counts]) /\
    (lcc_addr l1 = lcc_addr l2 <-> debug_loc di a = debug_loc di b).
Proof.
  intros Hdi HT Hroom Hr1 Hr2.
  destruct (get_lineCC_ok di T a Hdi HT Hroom) as (T1 & l1 & E1 & HT1 & Hl1).
  assert (length (CC_store T1) <= S (length (CC_store T)))%nat as Hlen.
  { destruct (lf_store _ _ _ _ _ Hl1) as [[_ ->]|(_ & -> & _)]; rewrite ?length_app; simpl; lia. }
  assert (tables_room T1) as Hroom1.
  { pose proof (lf_str _ _ _ _ _ Hl1). pose proof (lf_sb _ _ _ _ _ Hl1) as (Hsbt & _ & _).
    destruct Hroom as (? & ? & ?). unfold tables_room. rewrite Hsbt. lia. }
  destruct (get_lineCC_ok di T1 b Hdi HT1 Hroom1) as (T2 & l2 & E2 & HT2 & Hl2).
  exists T1, l1, T2, l2. split; [done|]. split; [done|]. split; [done|].
  split; [apply Hl1|]. split.
  { destruct (lf_store _ _ _ _ _ Hl1) as [[_ ?]|(_ & ? & _)]; auto. }
  assert (l1 ∈ os_elems (CC_table T1)) as Hin1 by (apply (lf_elems _ _ _ _ _ Hl1); by left).
  assert (l1 ∈ os_elems (CC_table T2)) as Hin2 by (apply (lf_elems _ _ _ _ _ Hl2); by right).
  assert (l2 ∈ os_elems (CC_table T2)) as Hin2' by (apply (lf_elems _ _ _ _ _ Hl2); by left).
  rewrite <- (lf_loc _ _ _ _ _ Hl1), <- (lf_loc _ _ _ _ _ Hl2). split; intros H.
  - f_equal. eapply (NoDup_fmap_elem lcc_addr); [apply (cw_addr _ _ _ (tw_cc _ HT2))|done..].
  - f_equal. eapply (ordered_key_inj loc_of cmp_CodeLoc_LineCC);
      [apply os_ordered, (tw_cc _ HT2)|done..|]. rewrite H. apply cmp_refl.
Qed.

(** A superblock's descriptors live from [get_SB_info] to
    [cg_discard_superblock_info]: registering an unregistered address succeeds
    and its slots are readable; registering it again, or discarding an
    unregistered address, fails the assertion of the code; discarding it frees
    exactly its record, leaves every counter alone, and allows the address to
    be registered again. *)
Theorem superblock_lifecycle (T : cg_tables) (a n_used : Z) (n : nat) :
  tables_wf T -> tables_room T -> Z.of_nat (length (os_elems (instrInfoTable T))) < 2 ^ 32 - 2 ->
  0 < n_used -> sb_at T a = None ->
  cg_discard_superblock_info T n_used a = Err (AssertFail "NULL != sbInfo") /\
  exists T1 id T2,
    new_SB_info T a n = Ok (T1, id) /\ tables_wf T1 /\
    (forall i, (i < n)%nat -> load_inode T1 (id, i) = Ok (MkInstrInfo 0 0 None)) /\
    (forall m, new_SB_info T1 a m = Err (AssertFail "NULL == sbInfo")) /\
    cg_discard_superblock_info T1 n_used a = Ok T2 /\ tables_wf T2 /\
    (forall i, load_inode T2 (id, i) = Err NullDeref) /\
    SB_store T2 = SB_store T /\ CC_store T2 = CC_store T /\ sb_at T2 a = None.
Proof.
  intros HT Hroom Hroom2 Hn Hnone. split.
  { unfold cg_discard_superblock_info. rewrite (proj2 (Z.ltb_lt _ _) Hn). cbn [tl_assert rbind].
    destruct (os_remove_ok (instrInfoTable T) a) as (t' & -> & _ & _);
      [apply HT|lia|]. cbn [rbind]. unfold sb_at in Hnone.
    rewrite os_lookup_ok in Hnone by apply HT. by rewrite Hnone. }
  destruct (new_SB_info_ok T a n HT Hroom Hnone)
    as (T1 & E1 & HT1 & Hat & Hel & Hst & Hcc & Hcs & Hss & Hsn & Hnx).
  assert (tables_room T1) as Hroom1.
  { destruct Hroom as (? & ? & ?). unfold tables_room. rewrite Hsn, Hcs, Hel, sset_insert_perm.
    simpl. lia. }
  destruct (cg_discard_ok T1 n_used a _ HT1 Hroom1 Hn Hat)
    as (T2 & E2 & HT2 & Hat2 & _ & Hst2 & Hcc2 & Hcs2 & _ & _ & _).
  assert (SB_store T !! SB_next T = None) as Hfresh.
  { destruct (SB_store T !! SB_next T) eqn:Hx; [|done].
    assert (SB_next T ∈ sb_id <$> os_elems (instrInfoTable T)) as Hbad
      by (apply (bw_live _ _ _ _ (tw_sb _ HT)); eauto).
    apply (bw_next _ _ _ _ (tw_sb _ HT)) in Hbad. lia. }
  exists T1, (SB_next T), T2. split; [done|]. split; [done|]. cbn [sb_id] in *.
  assert (SB_store T2 = SB_store T) as Hst2'.
  { rewrite Hst2, Hst. by apply delete_insert_id. }
  split; [|split; [|split; [done|split; [done|split; [|split; [done|]]]]]].
  - intros i Hi. unfold load_inode. cbn [fst snd]. rewrite Hst, lookup_insert_eq. cbn [instrs].
    by rewrite lookup_replicate_2.
  - intros m. unfold new_SB_info. unfold sb_at in Hat. by rewrite Hat.
  - intros i. unfold load_inode. cbn [fst snd]. by rewrite Hst2', Hfresh.
  - split; [congruence|done].
Qed.

(** ** Concrete instances *)

(** Two functions of one file, and an address without debug information. *)
Definition demo_debug_info : debug_info := MkDebugInfo
  (fun a => if a <? 4096 then None
            else Some ("main.c"%string, "/src"%string, if a <? 4112 then 10 else 20))
  (fun a => if a <? 4096 then None else if a <? 4128 then Some "main"%string else Some "f"%string).

Lemma demo_debug_info_ok : debug_info_ok demo_debug_info.
Proof.
  split; cbn; intros a *; case_Z; intros Heq; simplify_eq; simpl;
    repeat split; first [intros E; discriminate E|lia].
Qed.

Lemma empty_tables_room : tables_room empty_tables.
Proof. repeat split; vm_compute; reflexivity. Qed.

Lemma get_perm_string_interns_witness :
  exists T1 p1 T2 p2,
    get_perm_string empty_tables "main.c" = Ok (T1, p1) /\
    get_perm_string T1 "main.c" = Ok (T2, p2) /\ ps_addr p1 = ps_addr p2.
Proof.
  destruct (get_perm_string_interns empty_tables "main.c" "main.c")
    as (T1 & p1 & T2 & p2 & H1 & H2 & _ & _ & _ & H3);
    [apply empty_tables_wf|apply empty_tables_room
    |simpl; repeat split; intros E; discriminate E
    |simpl; repeat split; intros E; discriminate E|].
  exists T1, p1, T2, p2. split; [exact H1|]. split; [exact H2|]. by apply H3.
Defined.

Lemma get_lineCC_correct_witness :
  exists T1 l1 T2 l2,
    get_lineCC demo_debug_info empty_tables 4096 = Ok (T1, l1) /\
    get_lineCC demo_debug_info T1 4100 = Ok (T2, l2) /\
    loc_of l1 = MkCodeLoc "/src/main.c" "main" 10 /\ lcc_addr l1 = lcc_addr l2.
Proof.
  destruct (get_lineCC_correct demo_debug_info empty_tables 4096 4100)
    as (T1 & l1 & T2 & l2 & H1 & H2 & _ & H3 & _ & H4);
    [apply demo_debug_info_ok|apply empty_tables_wf|apply empty_tables_room
    |vm_compute; reflexivity|vm_compute; reflexivity|].
  exists T1, l1, T2, l2. split; [exact H1|]. split; [exact H2|]. split; [exact H3|].
  apply H4. reflexivity.
Defined.

Lemma superblock_lifecycle_witness :
  exists T1 id T2,
    new_SB_info empty_tables 4096 2 = Ok (T1, id) /\
    load_inode T1 (id, 1%nat) = Ok (MkInstrInfo 0 0 None) /\
    cg_discard_superblock_info T1 1 4096 = Ok T2 /\ load_inode T2 (id, 1%nat) = Err NullDeref.
Proof.
  destruct (superblock_lifecycle empty_tables 4096 1 2)
    as (_ & T1 & id & T2 & H1 & _ & H2 & _ & H3 & _ & H4 & _);
    [apply empty_tables_wf|apply empty_tables_room|vm_compute; reflexivity|lia|reflexivity|].
  exists T1, id, T2. split; [exact H1|]. split; [apply H2; lia|]. split; [exact H3|apply H4].
Defined.
