(* ===== verification/VexIR.v ===== *)
(** * The intermediate representation: VEX/pub/libvex_ir.h, VEX/priv/ir_defs.c

    The part of VEX IR the instrumenter reads and writes: types, constants,
    expressions, statements and superblocks with the source's constructors,
    and the functions of ir_defs.c it calls.  The word size of the host is 64
    bits.  A constant whose value is the address of an [InstrInfo] is written
    [Iex_Inode]. *)

From Stdlib Require Import ZArith Lia.
From stdpp Require Import base numbers option strings list.
From S2P Require Import Prelude CgArch CgTables.

#[local] Open Scope Z_scope.

Inductive IRType : Type :=
  | Ity_INVALID | Ity_I1 | Ity_I8 | Ity_I16 | Ity_I32 | Ity_I64 | Ity_I128
  | Ity_F16 | Ity_F32 | Ity_F64 | Ity_D32 | Ity_D64 | Ity_D128 | Ity_F128
  | Ity_V128 | Ity_V256.

#[export] Instance IRType_eq_dec : EqDecision IRType.
Proof. solve_decision. Defined.

Definition sizeofIRType (ty : IRType) : res Z :=
  match ty with
  | Ity_I8 => Ok 1
  | Ity_I16 => Ok 2
  | Ity_I32 => Ok 4
  | Ity_I64 => Ok 8
  | Ity_I128 => Ok 16
  | Ity_F16 => Ok 2
  | Ity_F32 => Ok 4
  | Ity_F64 => Ok 8
  | Ity_F128 => Ok 16
  | Ity_D32 => Ok 4
  | Ity_D64 => Ok 8
  | Ity_D128 => Ok 16
  | Ity_V128 => Ok 16
  | Ity_V256 => Ok 32
  | Ity_INVALID | Ity_I1 => Err (Panic "sizeofIRType")
  end.

(** Constants.  Floating constants carry their IEEE bit pattern. *)
Inductive IRConst : Type :=
  | Ico_U1 (v : Z) | Ico_U8 (v : Z) | Ico_U16 (v : Z) | Ico_U32 (v : Z) | Ico_U64 (v : Z)
  | Ico_U128 (v : Z) | Ico_F32 (bits : Z) | Ico_F32i (v : Z) | Ico_F64 (bits : Z)
  | Ico_F64i (v : Z) | Ico_V128 (v : Z) | Ico_V256 (v : Z).

Definition typeOfIRConst (c : IRConst) : IRType :=
  match c with
  | Ico_U1 _ => Ity_I1
  | Ico_U8 _ => Ity_I8
  | Ico_U16 _ => Ity_I16
  | Ico_U32 _ => Ity_I32
  | Ico_U64 _ => Ity_I64
  | Ico_U128 _ => Ity_I128
  | Ico_F32 _ => Ity_F32
  | Ico_F32i _ => Ity_F32
  | Ico_F64 _ => Ity_F64
  | Ico_F64i _ => Ity_F64
  | Ico_V128 _ => Ity_V128
  | Ico_V256 _ => Ity_V256
  end.

(** C's [==] on a w-bit IEEE number with [m] mantissa bits, on bit patterns:
    a NaN equals nothing, the two zeros are equal. *)
Definition ieee_eq (w m : Z) (x y : Z) : bool :=
  let mag v := Z.land v (2 ^ (w - 1) - 1) in
  let nan v := mag v >? 2 ^ (w - 1) - 2 ^ m in
  negb (nan x) && negb (nan y) && ((x =? y) || ((mag x =? 0) && (mag y =? 0))).

Definition eqIRConst (c1 c2 : IRConst) : res bool :=
  match c1, c2 with
  | Ico_U1 x, Ico_U1 y => Ok (Z.land 1 x =? Z.land 1 y)
  | Ico_U8 x, Ico_U8 y => Ok (x =? y)
  | Ico_U16 x, Ico_U16 y => Ok (x =? y)
  | Ico_U32 x, Ico_U32 y => Ok (x =? y)
  | Ico_U64 x, Ico_U64 y => Ok (x =? y)
  | Ico_F32 x, Ico_F32 y => Ok (ieee_eq 32 23 x y)
  | Ico_F32i x, Ico_F32i y => Ok (x =? y)
  | Ico_F64 x, Ico_F64 y => Ok (ieee_eq 64 52 x y)
  | Ico_F64i x, Ico_F64i y => Ok (x =? y)
  | Ico_V128 x, Ico_V128 y => Ok (x =? y)
  | Ico_V256 x, Ico_V256 y => Ok (x =? y)
  | Ico_U128 _, Ico_U128 _ => Err (Panic "eqIRConst")
  | _, _ => Ok false
  end.

(** The operations the instrumenter generates, and every other one. *)
Inductive IROp : Type := Iop_1Uto32 | Iop_1Uto64 | Iop_Xor32 | Iop_Xor64 | Iop_other (n : Z).

Definition IRTemp : Type := nat.

Inductive IRExpr : Type :=
  | Iex_Binder (binder : Z)
  | Iex_Get (offset : Z) (ty : IRType)
  | Iex_GetI (elemTy : IRType) (ix : IRExpr) (bias : Z)
  | Iex_RdTmp (tmp : IRTemp)
  | Iex_Qop (op : IROp) (arg1 arg2 arg3 arg4 : IRExpr)
  | Iex_Triop (op : IROp) (arg1 arg2 arg3 : IRExpr)
  | Iex_Binop (op : IROp) (arg1 arg2 : IRExpr)
  | Iex_Unop (op : IROp) (arg : IRExpr)
  | Iex_Load (ty : IRType) (addr : IRExpr)
  | Iex_Const (con : IRConst)
  | Iex_Inode (n : inode)
  | Iex_ITE (cond iftrue iffalse : IRExpr)
  | Iex_CCall (name : string) (retty : IRType) (args : list IRExpr)
  | Iex_VECRET
  | Iex_GSPTR.

Definition isIRAtom (e : IRExpr) : bool :=
  match e with Iex_RdTmp _ | Iex_Const _ | Iex_Inode _ => true | _ => false end.

Definition isIRAtom_or_VECRET_or_GSPTR (e : IRExpr) : bool :=
  isIRAtom e || match e with Iex_VECRET | Iex_GSPTR => true | _ => false end.

(** [eqIRAtom].  An [Iex_Inode] never reaches it: it compares guest addresses. *)
Definition eqIRAtom (a1 a2 : IRExpr) : res bool :=
  let! _ := tl_assert (isIRAtom a1) "isIRAtom(a1)" in
  let! _ := tl_assert (isIRAtom a2) "isIRAtom(a2)" in
  match a1, a2 with
  | Iex_RdTmp t1, Iex_RdTmp t2 => Ok (Nat.eqb t1 t2)
  | Iex_Const c1, Iex_Const c2 => eqIRConst c1 c2
  | _, _ => Ok false
  end.

Definition IRTypeEnv : Type := list IRType.

Definition typeOfIRTemp (env : IRTypeEnv) (tmp : IRTemp) : res IRType :=
  match env !! tmp with
  | Some ty => Ok ty
  | None => Err (AssertFail "tmp < env->types_used")
  end.

(** [typeOfIRExpr] on atoms, the only expressions it is asked about: the
    statements have been checked to be flat. *)
Definition typeOfIRExpr (env : IRTypeEnv) (e : IRExpr) : res IRType :=
  match e with
  | Iex_RdTmp t => typeOfIRTemp env t
  | Iex_Const c => Ok (typeOfIRConst c)
  | Iex_Inode _ => Ok Ity_I64
  | _ => Err (Panic "typeOfIRExpr: not an atom")
  end.

Definition newIRTemp (env : IRTypeEnv) (ty : IRType) : IRTypeEnv * IRTemp :=
  (env ++ [ty], length env).

Inductive IRLoadGOp : Type :=
  | ILGop_INVALID | ILGop_IdentV128 | ILGop_Ident64 | ILGop_Ident32
  | ILGop_16Uto32 | ILGop_16Sto32 | ILGop_8Uto32 | ILGop_8Sto32.

(** Result and argument type of a guarded load's conversion. *)
Definition typeOfIRLoadGOp (cvt : IRLoadGOp) : res (IRType * IRType) :=
  match cvt with
  | ILGop_IdentV128 => Ok (Ity_V128, Ity_V128)
  | ILGop_Ident64 => Ok (Ity_I64, Ity_I64)
  | ILGop_Ident32 => Ok (Ity_I32, Ity_I32)
  | ILGop_16Uto32 | ILGop_16Sto32 => Ok (Ity_I32, Ity_I16)
  | ILGop_8Uto32 | ILGop_8Sto32 => Ok (Ity_I32, Ity_I8)
  | ILGop_INVALID => Err (Panic "typeOfIRLoadGOp")
  end.

Inductive IREffect : Type := Ifx_None | Ifx_Read | Ifx_Write | Ifx_Modify.

#[export] Instance IREffect_eq_dec : EqDecision IREffect.
Proof. solve_decision. Defined.

Inductive IRJumpKind : Type := Ijk_Boring | Ijk_Call | Ijk_Ret | Ijk_other (n : Z).

(** The helpers of cg_main.c, as callees. *)
Inductive cg_helper : Type :=
  | H_log_1Ir | H_log_2Ir | H_log_3Ir
  | H_log_1IrGen_0D | H_log_1IrNoX_0D | H_log_2IrNoX_0D | H_log_3IrNoX_0D
  | H_log_1IrNoX_1Dr | H_log_1IrNoX_1Dw | H_log_0Ir_1Dr | H_log_0Ir_1Dw
  | H_log_cond_branch | H_log_ind_branch.

(** A callee: one of those, or a helper of the front end. *)
Inductive IRCallee : Type :=
  | Cee_cg (regparms : Z) (h : cg_helper)
  | Cee_other (name : string).

Record IRDirty : Type := MkIRDirty {
  cee : IRCallee;
  di_guard : IRExpr;
  di_args : list IRExpr;
  mFx : IREffect;
  mAddr : option IRExpr;
  mSize : Z
}.

Inductive IRStmt : Type :=
  | Ist_NoOp
  | Ist_IMark (addr len delta : Z)
  | Ist_AbiHint (base : IRExpr) (len : Z) (nia : IRExpr)
  | Ist_Put (offset : Z) (data : IRExpr)
  | Ist_PutI (ix data : IRExpr)
  | Ist_WrTmp (tmp : IRTemp) (data : IRExpr)
  | Ist_Store (addr data : IRExpr)
  | Ist_LoadG (cvt : IRLoadGOp) (dst : IRTemp) (addr alt guard : IRExpr)
  | Ist_StoreG (addr data guard : IRExpr)
  | Ist_CAS (addr : IRExpr) (expdHi : option IRExpr) (expdLo : IRExpr)
      (dataHi : option IRExpr) (dataLo : IRExpr)
  | Ist_LLSC (result : IRTemp) (addr : IRExpr) (storedata : option IRExpr)
  | Ist_Dirty (details : IRDirty)
  | Ist_MBE
  | Ist_Exit (guard : IRExpr) (jk : IRJumpKind) (dst : IRConst).

Definition opt_atom (o : option IRExpr) : bool :=
  match o with Some e => isIRAtom e | None => true end.

(** The right-hand side of a flat assignment. *)
Definition isFlatRHS (e : IRExpr) : bool :=
  match e with
  | Iex_Binder _ | Iex_Get _ _ | Iex_RdTmp _ | Iex_Const _ | Iex_Inode _ => true
  | Iex_GetI _ ix _ => isIRAtom ix
  | Iex_Qop _ a1 a2 a3 a4 => isIRAtom a1 && isIRAtom a2 && isIRAtom a3 && isIRAtom a4
  | Iex_Triop _ a1 a2 a3 => isIRAtom a1 && isIRAtom a2 && isIRAtom a3
  | Iex_Binop _ a1 a2 => isIRAtom a1 && isIRAtom a2
  | Iex_Unop _ a => isIRAtom a
  | Iex_Load _ a => isIRAtom a
  | Iex_CCall _ _ args => forallb isIRAtom args
  | Iex_ITE c t f => isIRAtom c && isIRAtom t && isIRAtom f
  | Iex_VECRET | Iex_GSPTR => false
  end.

(** [isFlatIRStmt]; a VECRET or GSPTR assignment panics there and fails the
    caller's assertion here. *)
Definition isFlatIRStmt (st : IRStmt) : bool :=
  match st with
  | Ist_AbiHint base _ nia => isIRAtom base && isIRAtom nia
  | Ist_Put _ data => isIRAtom data
  | Ist_PutI ix data => isIRAtom ix && isIRAtom data
  | Ist_WrTmp _ e => isFlatRHS e
  | Ist_Store addr data => isIRAtom addr && isIRAtom data
  | Ist_StoreG addr data guard => isIRAtom addr && isIRAtom data && isIRAtom guard
  | Ist_LoadG _ _ addr alt guard => isIRAtom addr && isIRAtom alt && isIRAtom guard
  | Ist_CAS addr expdHi expdLo dataHi dataLo =>
      isIRAtom addr && opt_atom expdHi && isIRAtom expdLo && opt_atom dataHi && isIRAtom dataLo
  | Ist_LLSC _ addr storedata => isIRAtom addr && opt_atom storedata
  | Ist_Dirty di =>
      isIRAtom (di_guard di) && forallb isIRAtom_or_VECRET_or_GSPTR (di_args di)
      && opt_atom (mAddr di)
  | Ist_NoOp | Ist_IMark _ _ _ | Ist_MBE => true
  | Ist_Exit guard _ _ => isIRAtom guard
  end.

Record IRSB : Type := MkIRSB {
  tyenv : IRTypeEnv;
  stmts : list IRStmt;
  next : IRExpr;
  jumpkind : IRJumpKind
}.

(** [unsafeIRDirty_0_N]: no result, no declared effects, guard true. *)
Definition unsafeIRDirty_0_N (regparms : Z) (h : cg_helper) (args : list IRExpr) : IRDirty :=
  MkIRDirty (Cee_cg regparms h) (Iex_Const (Ico_U1 1)) args Ifx_None None 0.

(** [mkIRExpr_HWord] of a number. *)
Definition mkIRExpr_HWord (hw : Z) : IRExpr := Iex_Const (Ico_U64 (u64 hw)).

(** Instruction lengths: include/pub_tool_machine.h. *)
Definition VG_MIN_INSTR_SZB (arch : VGA) : Z :=
  match arch with
  | VGA_x86 | VGA_amd64 => 1
  | VGA_ppc32 | VGA_ppc64be | VGA_ppc64le | VGA_arm64 | VGA_mips32 | VGA_mips64 => 4
  | VGA_arm | VGA_s390x | VGA_nanomips => 2
  end.

Definition VG_MAX_INSTR_SZB (arch : VGA) : Z :=
  match arch with
  | VGA_x86 | VGA_amd64 => 16
  | VGA_ppc32 | VGA_arm | VGA_arm64 => 4
  | VGA_ppc64be | VGA_ppc64le | VGA_mips32 | VGA_mips64 => 8
  | VGA_s390x | VGA_nanomips => 6
  end.

Definition VG_CLREQ_SZB (arch : VGA) : Z :=
  match arch with
  | VGA_x86 => 14
  | VGA_amd64 => 19
  | VGA_s390x => 10
  | _ => 20
  end.
