(* ===== verification/ClgResolve.v ===== *)
(** * ClgResolve: finding the lazy-binding stub of the dynamic linker (callgrind/fn.c)

    The jump at the end of [_dl_runtime_resolve] must not count as a call.  When
    ld.so is stripped the function is found by its machine code: [check_code]
    scans the text of the object for a pattern with holes, and
    [search_runtime_resolve] tries the four variants known for amd64-linux.  The
    client's memory is a parameter. *)

From Stdlib Require Import ZArith Lia Ascii String.
From stdpp Require Import base numbers option strings list.
From S2P Require Import Prelude Libcbase.

#[local] Open Scope Z_scope.

Definition MAX_RESOLVE_ADDRS : Z := 4.

(** A list of chunks (start offset, length); the last one has length 0. *)
Record pattern : Type := MkPattern {
  pat_name : string;
  pat_len : Z;
  pat_chunk : list (Z * Z)
}.

Definition code_def : list Z :=
  [72; 131; 236; 56; 72; 137; 4; 36; 72; 137; 76; 36; 8; 72; 137; 84; 36; 16; 72; 137; 116; 36; 24; 72; 137; 124; 36;
   32; 76; 137; 68; 36; 40; 76; 137; 76; 36; 48; 72; 139; 116; 36; 64; 73; 137; 243; 76; 1; 222; 76; 1; 222; 72; 193;
   230; 3; 72; 139; 124; 36; 56; 232; 238; 1; 0; 0; 73; 137; 195; 76; 139; 76; 36; 48; 76; 139; 68; 36; 40; 72; 139;
   124; 36; 32; 72; 139; 116; 36; 24; 72; 139; 84; 36; 16; 72; 139; 76; 36; 8; 72; 139; 4; 36; 72; 131; 196; 72; 65;
   255; 227].

Definition code_xsavec : list Z :=
  [83; 72; 137; 227; 72; 131; 228; 192; 72; 43; 37; 0; 0; 0; 0; 72; 137; 4; 36; 72; 137; 76; 36; 8; 72; 137; 84; 36;
   16; 72; 137; 116; 36; 24; 72; 137; 124; 36; 32; 76; 137; 68; 36; 40; 76; 137; 76; 36; 48; 184; 238; 0; 0; 0; 49;
   210; 72; 137; 148; 36; 80; 2; 0; 0; 72; 137; 148; 36; 88; 2; 0; 0; 72; 137; 148; 36; 96; 2; 0; 0; 72; 137; 148;
   36; 104; 2; 0; 0; 72; 137; 148; 36; 112; 2; 0; 0; 72; 137; 148; 36; 120; 2; 0; 0; 15; 199; 100; 36; 64; 72; 139;
   115; 16; 72; 139; 123; 8; 232; 0; 0; 0; 0; 73; 137; 195; 184; 238; 0; 0; 0; 49; 210; 15; 174; 108; 36; 64; 76;
   139; 76; 36; 48; 76; 139; 68; 36; 40; 72; 139; 124; 36; 32; 72; 139; 116; 36; 24; 72; 139; 84; 36; 16; 72; 139;
   76; 36; 8; 72; 139; 4; 36; 72; 137; 220; 72; 139; 28; 36; 72; 131; 196; 24; 242; 65; 255; 227].

Definition code_xsave : list Z :=
  [83; 72; 137; 227; 72; 131; 228; 192; 72; 43; 37; 0; 0; 0; 0; 72; 137; 4; 36; 72; 137; 76; 36; 8; 72; 137; 84; 36;
   16; 72; 137; 116; 36; 24; 72; 137; 124; 36; 32; 76; 137; 68; 36; 40; 76; 137; 76; 36; 48; 184; 238; 0; 0; 0; 49;
   210; 72; 137; 148; 36; 64; 2; 0; 0; 72; 137; 148; 36; 72; 2; 0; 0; 72; 137; 148; 36; 80; 2; 0; 0; 72; 137; 148;
   36; 88; 2; 0; 0; 72; 137; 148; 36; 96; 2; 0; 0; 72; 137; 148; 36; 104; 2; 0; 0; 72; 137; 148; 36; 112; 2; 0; 0;
   72; 137; 148; 36; 120; 2; 0; 0; 15; 174; 100; 36; 64; 72; 139; 115; 16; 72; 139; 123; 8; 232; 0; 0; 0; 0; 73; 137;
   195; 184; 238; 0; 0; 0; 49; 210; 15; 174; 108; 36; 64; 76; 139; 76; 36; 48; 76; 139; 68; 36; 40; 72; 139; 124; 36;
   32; 72; 139; 116; 36; 24; 72; 139; 84; 36; 16; 72; 139; 76; 36; 8; 72; 139; 4; 36; 72; 137; 220; 72; 139; 28; 36;
   72; 131; 196; 24; 242; 65; 255; 227].

Definition code_fxsave : list Z :=
  [83; 72; 137; 227; 72; 131; 228; 240; 72; 129; 236; 64; 2; 0; 0; 72; 137; 4; 36; 72; 137; 76; 36; 8; 72; 137; 84;
   36; 16; 72; 137; 116; 36; 24; 72; 137; 124; 36; 32; 76; 137; 68; 36; 40; 76; 137; 76; 36; 48; 15; 174; 68; 36; 64;
   72; 139; 115; 16; 72; 139; 123; 8; 232; 0; 0; 0; 0; 73; 137; 195; 15; 174; 76; 36; 64; 76; 139; 76; 36; 48; 76;
   139; 68; 36; 40; 72; 139; 124; 36; 32; 72; 139; 116; 36; 24; 72; 139; 84; 36; 16; 72; 139; 76; 36; 8; 72; 139; 4;
   36; 72; 137; 220; 72; 139; 28; 36; 72; 131; 196; 24; 242; 65; 255; 227].

Definition pat_def : pattern := MkPattern "amd64-def" 110 [(0, 62); (66, 44); (110, 0)].
Definition pat_xsavec : pattern := MkPattern "amd64-xsavec" 186 [(0, 11); (15, 103); (122, 64); (186, 0)].
Definition pat_xsave : pattern := MkPattern "amd64-xsave" 202 [(0, 11); (15, 119); (138, 64); (202, 0)].
Definition pat_fxsave : pattern := MkPattern "amd64-fxsave" 124 [(0, 63); (67, 57); (124, 0)].

Section memory.
(** The bytes of the client's memory. *)
Variable mem : Z -> Z.

(** [VG_(memcmp)((void* )(addr+start), code+start, len) == 0] *)
Definition same_bytes (addr : Z) (code : list Z) (start len : Z) : bool :=
  bool_decide (mem <$> seqZ (addr + start) len = take (Z.to_nat len) (drop (Z.to_nat start) code)).

(** The chunks after the first. *)
Fixpoint check_chunks (addr : Z) (code : list Z) (chunks : list (Z * Z)) : res bool :=
  match chunks with
  | [] => Err OutOfBounds
  | (start, len) :: rest =>
      if len =? 0 then Ok true else
      let! _ := tl_assert (2 <? len) "len >2" in
      if same_bytes addr code start len then check_chunks addr code rest else Ok false
  end.

(** [while(addr < end)]; the address of the first match. *)
Fixpoint scan (fuel : nat) (addr last : Z) (code : list Z) (len0 : Z) (rest : list (Z * Z)) : res (option Z) :=
  if addr <? last then
    let! found := (if same_bytes addr code 0 len0 then check_chunks addr code rest else Ok false) in
    if found then Ok (Some addr) else
    match fuel with
    | O => Err OutOfFuel
    | S fuel' => scan fuel' (u64 (addr + 1)) last code len0 rest
    end
  else Ok None.

(** The addresses and lengths found so far, with [start] and [size] of the
    object. *)
Definition check_code (start size : Z) (code : list Z) (pat : pattern) (found : list (Z * Z))
  : res (bool * list (Z * Z)) :=
  match pat_chunk pat with
  | [] => Err OutOfBounds
  | (s0, l0) :: rest =>
      let! _ := tl_assert ((s0 =? 0) && (2 <? l0)) "(pat->chunk[0].start == 0) && (pat->chunk[0].len >2)" in
      let! _ := tl_assert (Z.of_nat (length found) <? MAX_RESOLVE_ADDRS) "runtime_resolve_addrs < MAX_RESOLVE_ADDRS" in
      let last := u64 (start + size - pat_len pat) in
      let! r := scan (Z.to_nat (last - start)) start last code l0 rest in
      Ok (match r with Some addr => (true, found ++ [(addr, pat_len pat)]) | None => (false, found) end)
  end.

(** For amd64-linux. *)
Definition search_runtime_resolve (name : string) (start size : Z) (found : list (Z * Z)) : res (bool * list (Z * Z)) :=
  if negb (VG_strncmp name "/lib/ld" 7 =? 0) && negb (VG_strncmp name "/lib64/ld" 9 =? 0) &&
     negb (VG_strncmp name "/usr/lib/ld" 11 =? 0) && negb (VG_strncmp name "/usr/lib64/ld" 13 =? 0)
  then Ok (false, found) else
  let! (pat_p, found) := check_code start size code_def pat_def found in
  let! (pat_xsavec_p, found) := check_code start size code_xsavec pat_xsavec found in
  let! (pat_xsave_p, found) := check_code start size code_xsave pat_xsave found in
  let! (pat_fxsave_p, found) := check_code start size code_fxsave pat_fxsave found in
  Ok (pat_p || pat_xsavec_p || pat_xsave_p || pat_fxsave_p, found).

(** ** Specification: the first place where the code matches *)

(** The chunks of a pattern, without the end mark. *)
Definition chunks_of (pat : pattern) : list (Z * Z) := List.filter (fun c => negb (c.2 =? 0)) (pat_chunk pat).

Definition matches (code : list Z) (pat : pattern) (addr : Z) : bool :=
  forallb (fun c => same_bytes addr code c.1 c.2) (chunks_of pat).

Definition first_match (start size : Z) (code : list Z) (pat : pattern) : option Z :=
  snd <$> list_find (fun addr => matches code pat addr = true) (seqZ start (size - pat_len pat)).

Definition variants : list (list Z * pattern) :=
  [(code_def, pat_def); (code_xsavec, pat_xsavec); (code_xsave, pat_xsave); (code_fxsave, pat_fxsave)].

Definition resolvers (start size : Z) : list (Z * Z) :=
  omap (fun v => (fun a => (a, pat_len v.2)) <$> first_match start size v.1 v.2) variants.

(** ** Theorems *)

(** A pattern that ends with an end mark and has chunks of more than two bytes. *)
Definition pattern_ok (pat : pattern) : Prop :=
  exists l0 rest n, pat_chunk pat = (0, l0) :: rest ++ [(n, 0)] /\ 2 < l0 /\ Forall (fun c => 2 < c.2) rest.

Lemma check_chunks_ok addr code rest n : Forall (fun c => 2 < c.2) rest ->
  check_chunks addr code (rest ++ [(n, 0)]) = Ok (forallb (fun c => same_bytes addr code c.1 c.2) rest).
Proof.
  induction 1 as [|[s l] rest Hl _ IH]; [done|]. cbn [app check_chunks forallb fst snd] in *.
  rewrite (proj2 (Z.eqb_neq l 0)) by lia. rewrite tl_assert_true by (apply Z.ltb_lt; lia). cbn [rbind].
  by destruct (same_bytes addr code s l).
Qed.

Lemma filter_chunks (rest : list (Z * Z)) n : Forall (fun c => 2 < c.2) rest ->
  List.filter (fun c => negb (c.2 =? 0)) (rest ++ [(n, 0)]) = rest.
Proof.
  induction 1 as [|[s l] rest Hl _ IH]; [done|]. cbn [app List.filter fst snd] in *.
  rewrite (proj2 (Z.eqb_neq l 0)) by lia. cbn [negb]. by rewrite IH.
Qed.

Lemma scan_ok (fuel : nat) addr last code l0 rest n p : Forall (fun c => 2 < c.2) rest -> 0 <= addr -> last < 2 ^ 64 ->
  last - addr <= Z.of_nat fuel ->
  (forall a, p a = same_bytes a code 0 l0 && forallb (fun c => same_bytes a code c.1 c.2) rest) ->
  scan fuel addr last code l0 (rest ++ [(n, 0)]) = Ok (snd <$> list_find (fun a => p a = true) (seqZ addr (last - addr))).
Proof.
  intros Hr. revert addr. induction fuel as [|fuel IH]; intros addr Ha Hl Hf Hp; cbn [scan];
    (destruct (Z.ltb_spec addr last) as [Hlt|Hge]; [|by rewrite seqZ_nil by lia]).
  - lia.
  - rewrite check_chunks_ok by done. rewrite seqZ_cons by lia. cbn [list_find].
    assert ((if same_bytes addr code 0 l0 then Ok (forallb (fun c => same_bytes addr code c.1 c.2) rest) else Ok false) =
      Ok (p addr)) as ->.
    { rewrite Hp. by destruct (same_bytes addr code 0 l0). }
    cbn [rbind]. destruct (decide (p addr = true)) as [E|E]; [by rewrite E|].
    apply not_true_is_false in E. rewrite E, wrapu_small by (unfold in_u; lia).
    replace (Z.succ addr) with (addr + 1) by lia. replace (Z.pred (last - addr)) with (last - (addr + 1)) by lia.
    rewrite IH by (done || lia). f_equal. destruct (list_find _ _) as [[k a]|]; done.
Qed.

Lemma check_code_ok start size code pat found : pattern_ok pat -> 0 <= start -> 0 <= size -> 0 <= pat_len pat ->
  pat_len pat <= start + size < 2 ^ 64 -> Z.of_nat (length found) < MAX_RESOLVE_ADDRS ->
  check_code start size code pat found =
    Ok (bool_decide (is_Some (first_match start size code pat)),
        found ++ omap (fun v => (fun a => (a, pat_len v.2)) <$> first_match start size v.1 v.2) [(code, pat)]).
Proof.
  intros (l0 & rest & n & E & Hl0 & Hr) H1 H2 H3 H4 Hf. unfold check_code. rewrite E.
  rewrite tl_assert_true by (rewrite andb_true_iff, Z.eqb_eq, Z.ltb_lt; lia). cbn [rbind].
  rewrite tl_assert_true by (apply Z.ltb_lt; lia). cbn [rbind]. rewrite wrapu_small by (unfold in_u; lia).
  rewrite (scan_ok _ start _ code l0 rest n (matches code pat)); [|done|lia|lia|lia|].
  - unfold first_match. replace (start + size - pat_len pat - start) with (size - pat_len pat) by lia. cbn [rbind omap list_omap fst snd].
    destruct (list_find _ _) as [[k a]|]; cbn; [done|]. by rewrite app_nil_r.
  - intros a. unfold matches, chunks_of. rewrite E. cbn [List.filter snd]. rewrite (proj2 (Z.eqb_neq l0 0)) by lia.
    cbn [negb forallb fst snd]. by rewrite filter_chunks.
Qed.

Lemma variants_ok : Forall (fun v => pattern_ok v.2 /\ 0 <= pat_len v.2 <= 202) variants.
Proof.
  repeat constructor; cbn; try lia; [exists 62, [(66, 44)], 110|exists 11, [(15, 103); (122, 64)], 186|
    exists 11, [(15, 119); (138, 64)], 202|exists 63, [(67, 57)], 124]; (split; [done|]; split; [lia|]; repeat constructor; cbn; lia).
Qed.

(** Whatever the sizes, each search ends and finds at most one address. *)
Lemma check_code_total start size code pat found : pattern_ok pat -> 0 <= start ->
  Z.of_nat (length found) < MAX_RESOLVE_ADDRS ->
  exists b found', check_code start size code pat found = Ok (b, found') /\ (length found' <= S (length found))%nat.
Proof.
  intros (l0 & rest & n & E & Hl0 & Hr) Hs Hf. unfold check_code. rewrite E.
  rewrite tl_assert_true by (rewrite andb_true_iff, Z.eqb_eq, Z.ltb_lt; lia). cbn [rbind].
  rewrite tl_assert_true by (apply Z.ltb_lt; lia). cbn [rbind].
  pose proof (wrapu_range 64 (start + size - pat_len pat) ltac:(lia)) as Hw. unfold in_u in Hw.
  rewrite (scan_ok _ start _ code l0 rest n (fun a => same_bytes a code 0 l0 && forallb (fun c => same_bytes a code c.1 c.2) rest));
    [|done|lia|lia|lia|done].
  cbn [rbind]. destruct (list_find _ _) as [[k a]|]; cbn; eexists _, _; (split; [done|]); rewrite ?length_app; simpl; lia.
Qed.

Lemma search_total name start size : 0 <= start ->
  exists b found, search_runtime_resolve name start size [] = Ok (b, found).
Proof.
  intros Hs. unfold search_runtime_resolve. destruct (_ && _); [by eexists _, _|].
  pose proof variants_ok as Hv. unfold variants in Hv. rewrite !Forall_cons in Hv.
  destruct Hv as ((V1 & _) & (V2 & _) & (V3 & _) & (V4 & _) & _). cbn [snd] in *. unfold MAX_RESOLVE_ADDRS in *.
  destruct (check_code_total start size code_def pat_def []) as (b1 & f1 & -> & L1); [done|done|done|]. cbn [rbind].
  destruct (check_code_total start size code_xsavec pat_xsavec f1) as (b2 & f2 & -> & L2);
    [done|done|unfold MAX_RESOLVE_ADDRS; simpl in *; lia|]. cbn [rbind].
  destruct (check_code_total start size code_xsave pat_xsave f2) as (b3 & f3 & -> & L3);
    [done|done|unfold MAX_RESOLVE_ADDRS; simpl in *; lia|]. cbn [rbind].
  destruct (check_code_total start size code_fxsave pat_fxsave f3) as (b4 & f4 & -> & L4);
    [done|done|unfold MAX_RESOLVE_ADDRS; simpl in *; lia|]. cbn [rbind]. by eexists _, _.
Qed.

Definition is_linker (name : string) : bool :=
  (VG_strncmp name "/lib/ld" 7 =? 0) || (VG_strncmp name "/lib64/ld" 9 =? 0) ||
  (VG_strncmp name "/usr/lib/ld" 11 =? 0) || (VG_strncmp name "/usr/lib64/ld" 13 =? 0).

(** The search for the lazy-binding stub of an object that is named like the
    dynamic linker succeeds and finds, for each known variant in turn, the first
    address of its text where all the bytes of the pattern match; other objects
    are not searched. *)
Theorem stub_located (name : string) (start size : Z) :
  0 <= start -> 202 <= size -> start + size < 2 ^ 64 ->
  search_runtime_resolve name start size [] =
    Ok (if is_linker name then (negb (bool_decide (resolvers start size = [])), resolvers start size) else (false, [])).
Proof.
  intros Hs Hz Hb. unfold search_runtime_resolve, is_linker. rewrite <- !negb_orb.
  destruct (_ || _); cbn [negb]; [|done].
  pose proof variants_ok as Hv. unfold variants in Hv. rewrite !Forall_cons in Hv.
  destruct Hv as ((V1 & L1) & (V2 & L2) & (V3 & L3) & (V4 & L4) & _). cbn [snd] in *.
  set (m v := omap (fun v => (fun a => (a, pat_len v.2)) <$> first_match start size v.1 v.2) [v]).
  assert (forall v, (length (m v) <= 1)%nat) as Hm.
  { intros v. unfold m. cbn. destruct (first_match start size v.1 v.2); cbn; lia. }
  pose proof (Hm (code_def, pat_def)). pose proof (Hm (code_xsavec, pat_xsavec)). pose proof (Hm (code_xsave, pat_xsave)).
  rewrite (check_code_ok start size code_def pat_def []) by (done || lia). cbn [rbind].
  rewrite (check_code_ok start size code_xsavec pat_xsavec) by (done || lia ||
    (change (omap _ [(code_def, pat_def)]) with (m (code_def, pat_def)); unfold MAX_RESOLVE_ADDRS; simpl; lia)). cbn [rbind].
  rewrite (check_code_ok start size code_xsave pat_xsave) by (done || lia ||
    (rewrite !length_app; repeat change (omap _ [?v]) with (m v); unfold MAX_RESOLVE_ADDRS; simpl; lia)). cbn [rbind].
  rewrite (check_code_ok start size code_fxsave pat_fxsave) by (done || lia ||
    (rewrite !length_app; repeat change (omap _ [?v]) with (m v); unfold MAX_RESOLVE_ADDRS; simpl; lia)). cbn [rbind].
  unfold resolvers, variants. cbn [omap list_omap fst snd app].
  by destruct (first_match start size code_def pat_def), (first_match start size code_xsavec pat_xsavec),
    (first_match start size code_xsave pat_xsave), (first_match start size code_fxsave pat_fxsave).
Qed.
End memory.

(** The variant of older linkers, with another call target, 100 bytes into the
    text. *)
Definition ex_text (a : Z) : Z :=
  if (62 <=? a - 1000) && (a - 1000 <? 66) then 17
  else if (0 <=? a - 1000) then default 0 (code_def !! Z.to_nat (a - 1000)) else 0.

Lemma stub_located_witness :
  search_runtime_resolve ex_text "/lib64/ld-2.12.so" 900 402 [] = Ok (true, [(1000, 110)]).
Proof.
  rewrite (stub_located ex_text "/lib64/ld-2.12.so" 900 402); [|lia..].
  vm_compute. reflexivity.
Defined.
