(* ===== verification/ClgNames.v ===== *)
(** * ClgNames: objects, files and functions (callgrind/fn.c)

    Every function of the client has one node, found by the names of its object
    file, source file and function through three levels of hash tables: the
    table of objects, the table of files in each object, the table of functions
    in each file.  Nodes are numbered in the order of their creation, per kind.
    The node of a function is split: the fields contexts and call stack use are
    in [fns] of the contexts, at the address of the node, the others in
    [fn_link]; the name is in both.  What the core knows of an object
    ([DebugInfo]) is an argument. *)

From Stdlib Require Import ZArith Lia Ascii String.
From stdpp Require Import base numbers option strings gmap sets list.
From S2P Require Import Prelude Libcbase ClgCosts ClgEvents ClgHash ClgJumps ClgContext ClgPatterns ClgStack ClgThreads ClgSwitch ClgResolve.

#[local] Open Scope Z_scope.

(** ** Data *)

Definition N_OBJ_ENTRIES : Z := 47.
Definition N_FILE_ENTRIES : Z := 53.
Definition N_FN_ENTRIES : Z := 87.
Definition HASH_CONSTANT : Z := 256.

(** What the core reports of an object file. *)
Record DebugInfo : Type := MkDebugInfo {
  di_filename : string;
  di_text_avma : Z;
  di_text_size : Z;
  di_text_bias : Z
}.

Record obj_node : Type := MkObj {
  o_name : string;
  last_slash_pos : Z;
  o_start : Z;
  o_size : Z;
  o_offset : Z;
  o_files : list (option nat);
  o_number : Z;
  o_next : option nat
}.

Record file_node : Type := MkFile {
  fl_name : string;
  fl_fns : list (option nat);
  fl_number : Z;
  fl_obj : nat;
  fl_next : option nat
}.

Record fn_link : Type := MkFnLink {
  fk_name : string;
  fk_file : nat;
  fk_next : option nat;
  pure_cxt : option nat;
  is_malloc : bool;
  is_realloc : bool;
  is_free : bool
}.

(** The tables, and the addresses of the lazy-binding stub. *)
Record symbols : Type := MkSymbols {
  objs : list obj_node;
  obj_table : list (option nat);
  filenodes : list file_node;
  fnlinks : list fn_link;
  distinct_objs : Z;
  distinct_files : Z;
  resolve_addrs : list (Z * Z)
}.

Definition init_obj_table : symbols :=
  MkSymbols [] (replicate (Z.to_nat N_OBJ_ENTRIES) None) [] [] 0 0 [].

Fixpoint str_hash_loop (s : string) (hash_value table_size : Z) : Z :=
  match s with
  | EmptyString => hash_value
  | String c s' =>
      if Ascii.eqb c Ascii.zero then hash_value
      else str_hash_loop s' (u32 (HASH_CONSTANT * hash_value + char_val c) mod table_size) table_size
  end.

Definition str_hash (s : string) (table_size : Z) : Z := str_hash_loop s 0 table_size.

#[global] Instance obj_chain : ChainNode obj_node.
Proof.
  refine {| next := o_next;
    set_next p x := MkObj (o_name x) (last_slash_pos x) (o_start x) (o_size x) (o_offset x) (o_files x) (o_number x) p;
    hash x := str_hash (o_name x) N_OBJ_ENTRIES |}; intros; repeat match goal with x : obj_node |- _ => destruct x end; reflexivity.
Defined.

#[global] Instance file_chain : ChainNode file_node.
Proof.
  refine {| next := fl_next;
    set_next p x := MkFile (fl_name x) (fl_fns x) (fl_number x) (fl_obj x) p;
    hash x := str_hash (fl_name x) N_FILE_ENTRIES |}; intros; repeat match goal with x : file_node |- _ => destruct x end; reflexivity.
Defined.

#[global] Instance fn_chain : ChainNode fn_link.
Proof.
  refine {| next := fk_next;
    set_next p x := MkFnLink (fk_name x) (fk_file x) p (pure_cxt x) (is_malloc x) (is_realloc x) (is_free x);
    hash x := str_hash (fk_name x) N_FN_ENTRIES |}; intros; repeat match goal with x : fn_link |- _ => destruct x end; reflexivity.
Defined.

(** ** Objects *)

Definition anonymous_obj : string := "???".

Definition obj_name (di : option DebugInfo) : string :=
  match di with Some d => di_filename d | None => anonymous_obj end.

(** The position behind the last slash. *)
Fixpoint slash_pos (s : string) (i last : Z) : Z :=
  match s with
  | EmptyString => last
  | String c s' => slash_pos s' (i + 1) (if Ascii.eqb c "/" then u32 (i + 1) else last)
  end.

(** [while (curr && VG_(strcmp)(name, curr->name) != 0) curr = curr->next;] *)
Definition find_named {A : Type} `{ChainNode A} (name_of : A -> string) (nodes : list A) (name : string) (head : option nat)
  : res (option nat) := find_chain (length nodes) (fun x => Ok (VG_strcmp name (name_of x) =? 0)) nodes head.

Section names.
(** The client's memory, the addresses of functions and the options for them. *)
Variable mem : Z -> Z.
Variable fn_addr : nat -> Z.
Variable clo_pop_on_jump : bool.
Variable clo_separate_callers clo_separate_recursions : Z.

Definition new_obj_node (y : symbols) (di : option DebugInfo) (head : option nat) : res (nat * symbols) :=
  let field f := match di with Some d => f d | None => 0 end in
  let! n := int_add (distinct_objs y) 1 in
  let name := obj_name di in
  let obj := MkObj name (slash_pos name 0 0) (field di_text_avma) (field di_text_size) (field di_text_bias)
               (replicate (Z.to_nat N_FILE_ENTRIES) None) n head in
  let! found := (if bool_decide (resolve_addrs y = []) then
                   let! (_, found) := search_runtime_resolve mem name (o_start obj) (o_size obj) (resolve_addrs y) in Ok found
                 else Ok (resolve_addrs y)) in
  Ok (length (objs y), MkSymbols (objs y ++ [obj]) (obj_table y) (filenodes y) (fnlinks y) n (distinct_files y) found).

Definition get_obj_node (y : symbols) (di : option DebugInfo) : res (nat * symbols) :=
  let name := obj_name di in
  let objname_hash := str_hash name N_OBJ_ENTRIES in
  let! head := arr_get (obj_table y) objname_hash in
  let! r := find_named o_name (objs y) name head in
  match r with
  | Some k => Ok (k, y)
  | None =>
      let! (k, y) := new_obj_node y di head in
      let! t := arr_set (obj_table y) objname_hash (Some k) in
      Ok (k, MkSymbols (objs y) t (filenodes y) (fnlinks y) (distinct_objs y) (distinct_files y) (resolve_addrs y))
  end.

(** ** Files *)

(** The path of a file. *)
Definition path_of (dir file : string) : string :=
  match dir with EmptyString => file | _ => dir +:+ "/" +:+ file end.

Definition set_files (o : obj_node) (t : list (option nat)) : obj_node :=
  MkObj (o_name o) (last_slash_pos o) (o_start o) (o_size o) (o_offset o) t (o_number o) (o_next o).

Definition new_file_node (y : symbols) (filename : string) (obj : nat) (head : option nat) : res (nat * symbols) :=
  let! n := int_add (distinct_files y) 1 in
  let file := MkFile filename (replicate (Z.to_nat N_FN_ENTRIES) None) n obj head in
  Ok (length (filenodes y), MkSymbols (objs y) (obj_table y) (filenodes y ++ [file]) (fnlinks y) (distinct_objs y) n (resolve_addrs y)).

Definition get_file_node (y : symbols) (obj : nat) (dir file : string) : res (nat * symbols) :=
  let filename := path_of dir file in
  let filename_hash := str_hash filename N_FILE_ENTRIES in
  let! o := get_node (objs y) obj in
  let! head := arr_get (o_files o) filename_hash in
  let! r := find_named fl_name (filenodes y) filename head in
  match r with
  | Some k => Ok (k, y)
  | None =>
      let! (k, y) := new_file_node y filename obj head in
      let! t := arr_set (o_files o) filename_hash (Some k) in
      Ok (k, MkSymbols (<[obj := set_files o t]> (objs y)) (obj_table y) (filenodes y) (fnlinks y) (distinct_objs y)
               (distinct_files y) (resolve_addrs y))
  end.

(** ** Functions *)

Definition set_fns (f : file_node) (t : list (option nat)) : file_node :=
  MkFile (fl_name f) t (fl_number f) (fl_obj f) (fl_next f).

(** A function as the options for all functions make it. *)
Definition default_fn (name : string) (n : Z) : fn_node :=
  MkFn name n None false false false false false clo_pop_on_jump 0 clo_separate_callers clo_separate_recursions.

Definition set_contexts_fns (c : contexts) (m : gmap Z fn_node) : contexts :=
  MkContexts m (cxt_nodes c) (cxts c) (context_counter c) (distinct_contexts c) (cxt_lru_misses c) (cxt_hash_resizes c).

Definition add_fn (p : process) (a : Z) (f : fn_node) (n : Z) : process :=
  MkProcess (set_cx (now p) (set_contexts_fns (cx (now p)) (<[a := f]> (fns (cx (now p)))))) (current_states p) (current_bbccs p)
    (thread p) (current_tid p) n (fn_array_resizes p) (bb_executions p) (bbs_done p).

Definition new_fn_node (y : symbols) (p : process) (fnname : string) (file : nat) (head : option nat)
  : res (nat * symbols * process) :=
  let k := length (fnlinks y) in
  let! n := int_add (distinct_fns p) 1 in
  let p := add_fn p (fn_addr k) (default_fn fnname n) n in
  let! p := (if fa_size (current_fn_active (now p)) <=? u32 n then resize_fn_array p else Ok p) in
  let link := MkFnLink fnname file head None false false false in
  Ok (k, MkSymbols (objs y) (obj_table y) (filenodes y) (fnlinks y ++ [link]) (distinct_objs y) (distinct_files y)
           (resolve_addrs y), p).

Definition get_fn_node_infile (y : symbols) (p : process) (file : nat) (fnname : string) : res (nat * symbols * process) :=
  let fnname_hash := str_hash fnname N_FN_ENTRIES in
  let! f := get_node (filenodes y) file in
  let! head := arr_get (fl_fns f) fnname_hash in
  let! r := find_named fk_name (fnlinks y) fnname head in
  match r with
  | Some k => Ok (k, y, p)
  | None =>
      let! (k, y, p) := new_fn_node y p fnname file head in
      let! t := arr_set (fl_fns f) fnname_hash (Some k) in
      Ok (k, MkSymbols (objs y) (obj_table y) (<[file := set_fns f t]> (filenodes y)) (fnlinks y) (distinct_objs y)
               (distinct_files y) (resolve_addrs y), p)
  end.

Definition get_fn_node_inseg (y : symbols) (p : process) (di : option DebugInfo) (dirname filename fnname : string)
  : res (nat * symbols * process) :=
  let! (obj, y) := get_obj_node y di in
  let! (file, y) := get_file_node y obj dirname filename in
  get_fn_node_infile y p file fnname.
End names.

(** ** Tables of names *)

Lemma str_hash_loop_range s h size : 0 < size -> 0 <= h < size -> 0 <= str_hash_loop s h size < size.
Proof.
  intros Hs. revert h; induction s as [|c s IH]; intros h Hh; cbn [str_hash_loop]; [done|].
  destruct (Ascii.eqb c Ascii.zero); [done|]. apply IH. by apply Z.mod_pos_bound.
Qed.

Lemma str_hash_range s size : 0 < size -> 0 <= str_hash s size < size.
Proof. intros Hs. apply str_hash_loop_range; lia. Qed.

Section tables.
Context {A : Type} `{ChainNode A} (name_of : A -> string) (size : Z).
Hypothesis Hsize : 0 < size.
Hypothesis Hhash : forall x, hash x = str_hash (name_of x) size.

(** The table holds the nodes of one parent. *)
Definition holds (nodes : list A) (table : list (option nat)) (own : A -> bool) : Prop :=
  exists chains, hashed nodes table size chains /\
    forall k, k ∈ concat chains <-> exists x, nodes !! k = Some x /\ own x = true.

Lemma bucket_name s : str_hash s size mod size = str_hash s size.
Proof. apply Z.mod_small, str_hash_range, Hsize. Qed.

(** Looking a name up, and adding it when it is not there. *)
Lemma table_get nodes table own s : holds nodes table own -> (forall x, x ∈ nodes -> no_nul (name_of x)) -> no_nul s ->
  exists head r, arr_get table (str_hash s size) = Ok head /\ find_named name_of nodes s head = Ok r /\
    match r with
    | Some k => exists x, nodes !! k = Some x /\ own x = true /\ name_of x = s
    | None => (forall x, x ∈ nodes -> own x = true -> name_of x <> s) /\
        forall x, own x = true -> name_of x = s -> next x = head ->
          exists t', arr_set table (str_hash s size) (Some (length nodes)) = Ok t' /\ holds (nodes ++ [x]) t' own
    end.
Proof.
  intros (chains & Hh & Hin) Hnul Hs.
  assert (forall x, x ∈ nodes -> VG_strcmp s (name_of x) =? 0 = true -> name_of x = s) as Hcmp.
  { intros x Hx E. apply Z.eqb_eq in E. apply VG_strcmp_eq in E; auto. }
  destruct (find_in nodes table size chains (str_hash s size) (fun x => Ok (VG_strcmp s (name_of x) =? 0))
    (fun x => VG_strcmp s (name_of x) =? 0) (length nodes)) as (r & E & Hr); [done|done|done|lia| |].
  { intros k x _ Hx Ex. rewrite Hhash. by rewrite (Hcmp x) by (done || by eapply list_elem_of_lookup_2). }
  rewrite bucket_pos in E by done. cbn [rbind] in E. rewrite bucket_name in E.
  destruct (arr_get table (str_hash s size)) as [head|] eqn:Eg; [|done]. cbn [rbind] in E.
  exists head, r. split; [done|]. split; [exact E|]. destruct r as [k|].
  - destruct Hr as (Hk & x & Hx & Ex). apply Hin in Hk as (x' & Hx' & Ho). rewrite Hx in Hx'. injection Hx' as <-.
    exists x. split_and!; [done|done|]. apply Hcmp; [by eapply list_elem_of_lookup_2|done].
  - split.
    + intros x Hx Ho Es. apply list_elem_of_lookup_1 in Hx as [k Hx].
      pose proof (Hr k x (proj2 (Hin k) (ex_intro _ x (conj Hx Ho))) Hx) as Hf. cbn in Hf.
      by rewrite Es, VG_strcmp_refl in Hf.
    + intros x Ho Es Hn.
      destruct (push_ok nodes table size chains x head) as (t' & c' & E' & Hh' & Hp); [done|done| |done|].
      { by rewrite Hhash, Es, bucket_name. }
      rewrite Hhash, Es, bucket_name in E'. exists t'. split; [done|]. exists c'. split; [done|]. intros k.
      rewrite Hp, elem_of_cons, Hin. split.
      * intros [->|(z & Hz & Hzo)]; [exists x|exists z; split; [by apply lookup_app_l_Some|done]].
        by rewrite lookup_app_r, Nat.sub_diag by lia.
      * intros (z & Hz & Hzo). apply lookup_snoc_Some in Hz as [[_ Hz]|[-> _]]; [right; by exists z|by left].
Qed.

Lemma holds_other nodes table own x : holds nodes table own -> own x = false -> holds (nodes ++ [x]) table own.
Proof.
  intros (chains & Hh & Hin) Ho. exists chains. split; [by apply hashed_snoc|]. intros k. rewrite Hin. split.
  - intros (z & Hz & Hzo). exists z. split; [by apply lookup_app_l_Some|done].
  - intros (z & Hz & Hzo). apply lookup_snoc_Some in Hz as [[_ Hz]|[_ <-]]; [by exists z|congruence].
Qed.

Lemma holds_empty nodes own : (forall x, x ∈ nodes -> own x = false) -> holds nodes (replicate (Z.to_nat size) None) own.
Proof.
  intros Ho. exists (replicate (Z.to_nat size) []). split.
  - rewrite <- (Z2Nat.id size) at 2 by lia. apply empty_hashed.
  - intros k. rewrite concat_empty. split; [by intros ?%elem_of_nil|]. intros (x & Hx & Hxo).
    rewrite Ho in Hxo; [done|]. by eapply list_elem_of_lookup_2.
Qed.

(** A change of other fields of a node. *)
Lemma holds_upd nodes table own k x y : holds nodes table own -> nodes !! k = Some x -> next y = next x ->
  name_of y = name_of x -> own y = own x -> holds (<[k := y]> nodes) table own.
Proof.
  intros (chains & Hh & Hin) Hx En Es Eo. exists chains. split.
  - apply (hashed_links nodes); [done|..]; intros j; (destruct (decide (j = k)) as [->|Hne];
      [rewrite list_lookup_insert_eq, Hx by (by apply lookup_lt_Some in Hx)|by rewrite list_lookup_insert_ne]);
      cbn; [by rewrite En|by rewrite !Hhash, Es].
  - intros j. rewrite Hin. destruct (decide (j = k)) as [->|Hne]; [|by rewrite list_lookup_insert_ne].
    rewrite list_lookup_insert_eq, Hx by (by apply lookup_lt_Some in Hx). split.
    + intros (z & [= ->] & Hz). exists y. by rewrite Eo.
    + intros (z & [= ->] & Hz). exists x. by rewrite <- Eo.
Qed.
End tables.

(** ** Refinement: one node per name *)

Section refine.
Context (mem : Z -> Z) (fn_addr : nat -> Z) (clo_pop_on_jump : bool) (clo_separate_callers clo_separate_recursions : Z).
(** Functions have different addresses. *)
Hypothesis Hfn : forall j k, fn_addr j = fn_addr k -> j = k.

#[local] Notation get_obj_node := (get_obj_node mem).
#[local] Notation get_fn_node_infile := (get_fn_node_infile fn_addr clo_pop_on_jump clo_separate_callers clo_separate_recursions).
#[local] Notation get_fn_node_inseg := (get_fn_node_inseg mem fn_addr clo_pop_on_jump clo_separate_callers clo_separate_recursions).

(** The names of the nodes, each with its parent. *)
Definition obj_keys (y : symbols) : list string := o_name <$> objs y.
Definition file_key (x : file_node) : nat * string := (fl_obj x, fl_name x).
Definition fn_key (x : fn_link) : nat * string := (fk_file x, fk_name x).
Definition file_keys (y : symbols) : list (nat * string) := file_key <$> filenodes y.
Definition fn_keys (y : symbols) : list (nat * string) := fn_key <$> fnlinks y.

Record names_ok (N : Z) (y : symbols) : Prop := {
  na_nodup : NoDup (obj_keys y) /\ NoDup (file_keys y) /\ NoDup (fn_keys y);
  na_nul : Forall no_nul (obj_keys y) /\ Forall (fun k => no_nul k.2) (file_keys y) /\ Forall (fun k => no_nul k.2) (fn_keys y);
  na_objs : holds N_OBJ_ENTRIES (objs y) (obj_table y) (fun _ => true);
  na_files : forall i o, objs y !! i = Some o -> holds N_FILE_ENTRIES (filenodes y) (o_files o) (fun x => (fl_obj x =? i)%nat);
  na_fns : forall j f, filenodes y !! j = Some f -> holds N_FN_ENTRIES (fnlinks y) (fl_fns f) (fun x => (fk_file x =? j)%nat);
  na_range : Forall (fun k => (k.1 < length (objs y))%nat) (file_keys y) /\
    Forall (fun k => (k.1 < length (filenodes y))%nat) (fn_keys y);
  na_counts : distinct_objs y = Z.of_nat (length (objs y)) /\ distinct_files y = Z.of_nat (length (filenodes y)) /\
    Z.of_nat (length (objs y)) <= N /\ Z.of_nat (length (filenodes y)) <= N
}.

Definition di_ok (di : option DebugInfo) : Prop := no_nul (obj_name di) /\ forall d, di = Some d -> 0 <= di_text_avma d.

Lemma names_mono N M y : N <= M -> names_ok N y -> names_ok M y.
Proof. intros HM [H1 H2 H3 H4 H5 H6 (H7 & H8 & H9 & H10)]. constructor; try done. split_and!; try done; lia. Qed.

Lemma forall_snoc {A} (P : A -> Prop) l x : Forall P l -> P x -> Forall P (l ++ [x]).
Proof. intros. apply Forall_app. by split; [|constructor]. Qed.

Lemma nodup_snoc {A} (l : list A) x : NoDup l -> x ∉ l -> NoDup (l ++ [x]).
Proof.
  intros Hl Hx. apply NoDup_app. split_and!; [done| |apply NoDup_singleton]. intros z Hz ->%list_elem_of_singleton. done.
Qed.

Lemma in_fmap {A B} (f : A -> B) (l : list A) x : x ∈ l -> f x ∈ f <$> l.
Proof. intros H. apply list_elem_of_fmap. by exists x. Qed.

Lemma get_obj_ok N y di : names_ok N y -> di_ok di -> N < 2 ^ 31 - 1 ->
  let r := intern (obj_keys y) (obj_name di) in
  exists y', get_obj_node y di = Ok (r.1, y') /\ names_ok (N + 1) y' /\ obj_keys y' = r.2 /\ filenodes y' = filenodes y /\
    fnlinks y' = fnlinks y.
Proof.
  intros Hy [Hs Hav] HN r. pose proof Hy as [(D1 & D2 & D3) (U1 & U2 & U3) HO HF HG (G1 & G2) (C1 & C2 & C3 & C4)].
  destruct (table_get o_name N_OBJ_ENTRIES ltac:(done) ltac:(done) (objs y) (obj_table y) (fun _ => true) (obj_name di) HO)
    as (head & found & E1 & E2 & Hr); [|done|].
  { intros x Hx. rewrite Forall_forall in U1. by apply U1, in_fmap. }
  unfold ClgNames.get_obj_node. rewrite E1. cbn [rbind]. rewrite E2. cbn [rbind]. destruct found as [k|].
  - destruct Hr as (x & Hx & _ & En). assert (obj_keys y !! k = Some (obj_name di)) as Hk.
    { unfold obj_keys. by rewrite list_lookup_fmap, Hx, <- En. }
    subst r. rewrite (intern_old _ _ k) by done. exists y. split; [done|]. split; [|done]. eapply names_mono; [|done]. lia.
  - destruct Hr as [Hn Hadd]. unfold new_obj_node, int_add. rewrite signed_result_in by (unfold in_s; lia). cbn [rbind].
    set (obj := MkObj _ _ _ _ _ _ _ _).
    assert (exists rs, (if bool_decide (resolve_addrs y = []) then let! (_, rs) := search_runtime_resolve mem (obj_name di)
      (o_start obj) (o_size obj) (resolve_addrs y) in Ok rs else Ok (resolve_addrs y)) = Ok rs) as [rs ->].
    { case_bool_decide as Er; [|by eexists]. rewrite Er.
      destruct (search_total mem (obj_name di) (o_start obj) (o_size obj)) as (b & rs & ->); [|by exists rs].
      subst obj. cbn. destruct di as [d|]; [|done]. by apply Hav. }
    cbn [rbind obj_table objs filenodes fnlinks distinct_objs distinct_files resolve_addrs].
    destruct (Hadd obj) as (t' & -> & HO'); [done..|]. cbn [rbind].
    assert (obj_name di ∉ obj_keys y) as Hnew.
    { unfold obj_keys. intros (x & Ex & Hx)%list_elem_of_fmap. by apply (Hn x Hx). }
    subst r. rewrite intern_new by done. unfold obj_keys. rewrite length_fmap. eexists. split; [done|].
    split; [|cbn; by rewrite fmap_app]. constructor; unfold obj_keys, file_keys, fn_keys; cbn [objs filenodes fnlinks]; rewrite ?fmap_app;
      try done.
    + split_and!; try done. by apply nodup_snoc.
    + split_and!; try done. by apply forall_snoc.
    + intros i o Ho. apply lookup_snoc_Some in Ho as [[_ Ho]|[-> <-]]; [by apply HF|]. apply holds_empty; [done|].
      intros x Hx. apply Nat.eqb_neq. intros Ex. rewrite Forall_forall in G1.
      specialize (G1 (file_key x)). cbn in G1. rewrite Ex in G1. assert (length (objs y) < length (objs y))%nat; [|lia].
      apply G1. by apply in_fmap.
    + split; [|done]. rewrite length_app. eapply Forall_impl; [exact G1|]. cbn. lia.
    + cbn. rewrite length_app. simpl. lia.
Qed.

(** The keys of a parent do not change with its table. *)
Lemma fmap_upd {A B} (f : A -> B) (l : list A) k x y : l !! k = Some x -> f y = f x -> f <$> <[k := y]> l = f <$> l.
Proof. intros Hx E. rewrite list_fmap_insert, E. apply list_insert_id. by rewrite list_lookup_fmap, Hx. Qed.

Lemma new_key {A} (f : A -> nat * string) (l : list A) i s :
  (forall x, x ∈ l -> ((f x).1 =? i)%nat = true -> (f x).2 <> s) -> (i, s) ∉ f <$> l.
Proof.
  intros Hn (x & Ex & Hx)%list_elem_of_fmap. apply (Hn x Hx); rewrite <- Ex; [apply Nat.eqb_refl|done].
Qed.

Lemma get_file_ok N y i dir file : names_ok N y -> (i < length (objs y))%nat -> no_nul (path_of dir file) -> N < 2 ^ 31 - 1 ->
  let r := intern (file_keys y) (i, path_of dir file) in
  exists y', get_file_node y i dir file = Ok (r.1, y') /\ names_ok (N + 1) y' /\ obj_keys y' = obj_keys y /\ file_keys y' = r.2 /\
    fnlinks y' = fnlinks y.
Proof.
  intros Hy Hi Hs HN r. pose proof Hy as [(D1 & D2 & D3) (U1 & U2 & U3) HO HF HG (G1 & G2) (C1 & C2 & C3 & C4)].
  destruct (lookup_lt_is_Some_2 (objs y) i Hi) as [o Ho].
  destruct (table_get fl_name N_FILE_ENTRIES ltac:(done) ltac:(done) (filenodes y) (o_files o) _ (path_of dir file) (HF i o Ho))
    as (head & found & E1 & E2 & Hr); [|done|].
  { intros x Hx. rewrite Forall_forall in U2. apply (U2 (file_key x)). by apply in_fmap. }
  unfold get_file_node, get_node. rewrite Ho. cbn [rbind]. rewrite E1. cbn [rbind]. rewrite E2. cbn [rbind].
  destruct found as [k|].
  - destruct Hr as (x & Hx & Hxo%Nat.eqb_eq & En). assert (file_keys y !! k = Some (i, path_of dir file)) as Hk.
    { unfold file_keys. rewrite list_lookup_fmap, Hx. cbn. by rewrite <- En, <- Hxo. }
    subst r. rewrite (intern_old _ _ k) by done. exists y. split; [done|]. split; [|done]. eapply names_mono; [|done]. lia.
  - destruct Hr as [Hn Hadd]. unfold new_file_node, int_add. rewrite signed_result_in by (unfold in_s; lia). cbn [rbind].
    set (fl := MkFile _ _ _ _ _). cbn [objs obj_table filenodes fnlinks distinct_objs distinct_files resolve_addrs].
    destruct (Hadd fl) as (t' & -> & HT); [cbn; apply Nat.eqb_refl|done..|]. cbn [rbind].
    assert ((i, path_of dir file) ∉ file_keys y) as Hnew by (by apply new_key).
    assert (o_name <$> <[i := set_files o t']> (objs y) = obj_keys y) as Eo by (by apply (fmap_upd _ _ _ o)).
    subst r. rewrite intern_new by done. unfold file_keys at 1 2. rewrite length_fmap. eexists. split; [done|].
    split; [|split_and!; [done|cbn; by rewrite fmap_app|done]].
    constructor; unfold obj_keys, file_keys, fn_keys; cbn [objs obj_table filenodes fnlinks distinct_objs distinct_files];
      rewrite ?Eo, ?fmap_app; try done.
    + split_and!; try done. by apply nodup_snoc.
    + split_and!; try done. by apply forall_snoc.
    + by apply (holds_upd o_name N_OBJ_ENTRIES ltac:(done) _ _ _ i o).
    + intros i' o' Ho'. destruct (decide (i' = i)) as [->|Hne].
      * rewrite list_lookup_insert_eq in Ho' by done. injection Ho' as <-. exact HT.
      * rewrite list_lookup_insert_ne in Ho' by done. apply holds_other; [by apply HF|]. cbn. apply Nat.eqb_neq. congruence.
    + intros j f Hf. apply lookup_snoc_Some in Hf as [[_ Hf]|[-> <-]]; [by apply HG|]. apply holds_empty; [done|].
      intros x Hx. apply Nat.eqb_neq. rewrite Forall_forall in G2. specialize (G2 (fn_key x)).
      cbn in G2. assert (fk_file x < length (filenodes y))%nat; [|lia]. by apply G2, in_fmap.
    + rewrite length_insert, length_app. split; [by apply forall_snoc|]. eapply Forall_impl; [exact G2|]. cbn. lia.
    + rewrite length_insert, length_app. simpl. lia.
Qed.

(** The functions known to contexts and call stack. *)
Definition fns_ok (y : symbols) (p : process) : Prop :=
  distinct_fns p = Z.of_nat (length (fnlinks y)) /\ array_ok (current_fn_active (now p)) /\ 0 <= fn_array_resizes p <= distinct_fns p /\
  forall k x, fnlinks y !! k = Some x -> exists f, fns (cx (now p)) !! fn_addr k = Some f /\ fn_name f = fk_name x /\
    number f = Z.of_nat k + 1.

Lemma new_fn_node_ok y p s j head : fns_ok y p -> Z.of_nat (length (fnlinks y)) < 2 ^ 30 - 1 ->
  exists p', new_fn_node fn_addr clo_pop_on_jump clo_separate_callers clo_separate_recursions y p s j head =
    Ok (length (fnlinks y), MkSymbols (objs y) (obj_table y) (filenodes y) (fnlinks y ++ [MkFnLink s j head None false false false])
      (distinct_objs y) (distinct_files y) (resolve_addrs y), p') /\
    forall y', fnlinks y' = fnlinks y ++ [MkFnLink s j head None false false false] -> fns_ok y' p'.
Proof.
  intros (Hd & Ha & Hr & Hf) HN. unfold new_fn_node, int_add. rewrite signed_result_in by (unfold in_s; lia). cbn [rbind].
  rewrite wrapu_small by (unfold in_u; lia). set (n := distinct_fns p + 1). set (p1 := add_fn p _ _ n).
  destruct (set_array_ok p1 (current_fn_active (now p))) as (b & r & E & Hb & _ & Hr' & _);
    [done|cbn; lia|cbn; lia|]. unfold set_current_fn_array in E. cbn [set_now distinct_fns] in E.
  replace (set_now p1 (set_active (now p1) (current_fn_active (now p)))) with p1 in E
    by (unfold p1, add_fn, set_now, set_active, set_cx; cbn; by destruct p as [[]]).
  change (distinct_fns p1) with n in E. rewrite (wrapu_small 32) in E by (unfold in_u; lia).
  change (current_fn_active (now p1)) with (current_fn_active (now p)). rewrite E. cbn [rbind].
  eexists. split; [done|]. intros y' Ey. unfold fns_ok. rewrite Ey. cbn [distinct_fns now set_active current_fn_active fn_array_resizes].
  cbn in Hr'. split_and!; [rewrite length_app; simpl; lia|done|lia|lia|]. intros k x Hx. cbn.
  apply lookup_snoc_Some in Hx as [[Hlt Hx]|[-> <-]].
  - rewrite lookup_insert_ne; [by apply Hf|]. intros Ek%Hfn. lia.
  - rewrite lookup_insert_eq. eexists. split; [done|]. cbn. split; [done|]. lia.
Qed.

Lemma get_infile_ok N y p j s : names_ok N y -> fns_ok y p -> (j < length (filenodes y))%nat -> no_nul s ->
  Z.of_nat (length (fnlinks y)) < 2 ^ 30 - 1 ->
  let r := intern (fn_keys y) (j, s) in
  exists y' p', get_fn_node_infile y p j s = Ok (r.1, y', p') /\ names_ok N y' /\ fns_ok y' p' /\
    obj_keys y' = obj_keys y /\ file_keys y' = file_keys y /\ fn_keys y' = r.2.
Proof.
  intros Hy Hp Hj Hs HN r. pose proof Hy as [(D1 & D2 & D3) (U1 & U2 & U3) HO HF HG (G1 & G2) (C1 & C2 & C3 & C4)].
  destruct (lookup_lt_is_Some_2 (filenodes y) j Hj) as [f Hf].
  destruct (table_get fk_name N_FN_ENTRIES ltac:(done) ltac:(done) (fnlinks y) (fl_fns f) _ s (HG j f Hf))
    as (head & found & E1 & E2 & Hr); [|done|].
  { intros x Hx. rewrite Forall_forall in U3. apply (U3 (fn_key x)). by apply in_fmap. }
  unfold ClgNames.get_fn_node_infile, get_node. rewrite Hf. cbn [rbind]. rewrite E1. cbn [rbind]. rewrite E2. cbn [rbind].
  destruct found as [k|].
  - destruct Hr as (x & Hx & Hxo%Nat.eqb_eq & En). assert (fn_keys y !! k = Some (j, s)) as Hk.
    { unfold fn_keys. rewrite list_lookup_fmap, Hx. cbn. by rewrite <- En, <- Hxo. }
    subst r. rewrite (intern_old _ _ k) by done. by exists y, p.
  - destruct Hr as [Hn Hadd]. destruct (new_fn_node_ok y p s j head Hp HN) as (p' & -> & Hp').
    cbn [rbind objs obj_table filenodes fnlinks distinct_objs distinct_files resolve_addrs].
    set (lk := MkFnLink _ _ _ _ _ _ _) in *. destruct (Hadd lk) as (t' & -> & HT); [cbn; apply Nat.eqb_refl|done..|]. cbn [rbind].
    assert ((j, s) ∉ fn_keys y) as Hnew by (by apply new_key).
    assert (file_key <$> <[j := set_fns f t']> (filenodes y) = file_keys y) as Eo
      by (by apply (fmap_upd _ _ _ f)).
    subst r. rewrite intern_new by done. unfold fn_keys at 1 2. rewrite length_fmap. eexists _, p'. split; [done|].
    split; [|split_and!; [by apply Hp'|done|done|cbn; by rewrite fmap_app]].
    constructor; unfold obj_keys, file_keys, fn_keys; cbn [objs obj_table filenodes fnlinks distinct_objs distinct_files];
      rewrite ?Eo, ?fmap_app; try done.
    + split_and!; try done. by apply nodup_snoc.
    + split_and!; try done. by apply forall_snoc.
    + intros i o Ho. apply (holds_upd fl_name N_FILE_ENTRIES ltac:(done) _ _ _ j f); try done. by apply HF.
    + intros j' f' Hf'. destruct (decide (j' = j)) as [->|Hne].
      * rewrite list_lookup_insert_eq in Hf' by done. injection Hf' as <-. exact HT.
      * rewrite list_lookup_insert_ne in Hf' by done. apply holds_other; [by apply HG|]. cbn. apply Nat.eqb_neq. congruence.
    + rewrite length_insert. split; [done|]. by apply forall_snoc.
    + rewrite length_insert. done.
Qed.

(** A request for the function of a block. *)
Record site : Type := MkSite { s_di : option DebugInfo; s_dir : string; s_file : string; s_fn : string }.

Definition site_ok (t : site) : Prop := di_ok (s_di t) /\ no_nul (path_of (s_dir t) (s_file t)) /\ no_nul (s_fn t).

(** The names that identify a function. *)
Definition identity (t : site) : string * string * string := (obj_name (s_di t), path_of (s_dir t) (s_file t), s_fn t).

Fixpoint get_fns (y : symbols) (p : process) (ts : list site) : res (list nat * symbols * process) :=
  match ts with
  | [] => Ok ([], y, p)
  | t :: ts' =>
      let! (k, y, p) := get_fn_node_inseg y p (s_di t) (s_dir t) (s_file t) (s_fn t) in
      let! (l, y, p) := get_fns y p ts' in Ok (k :: l, y, p)
  end.

(** Node [k] stands for the names [n]. *)
Definition stands_for (y : symbols) (k : nat) (n : string * string * string) : Prop :=
  exists j i, fn_keys y !! k = Some (j, n.2) /\ file_keys y !! j = Some (i, n.1.2) /\ obj_keys y !! i = Some n.1.1.

Lemma stands_fun N y k k' n n' : names_ok N y -> stands_for y k n -> stands_for y k' n' -> k = k' <-> n = n'.
Proof.
  intros [(D1 & D2 & D3) _ _ _ _ _ _] (j & i & H1 & H2 & H3) (j' & i' & H1' & H2' & H3').
  destruct n as [[a b] c], n' as [[a' b'] c']. cbn in *. split.
  - intros ->. rewrite H1 in H1'. injection H1' as <- <-. rewrite H2 in H2'. injection H2' as <- <-. congruence.
  - intros [= <- <- <-]. assert (i' = i) as -> by exact (NoDup_lookup _ _ _ _ D1 H3' H3).
    assert (j' = j) as -> by exact (NoDup_lookup _ _ _ _ D2 H2' H2). exact (NoDup_lookup _ _ _ _ D3 H1 H1').
Qed.

(** Names are never taken away. *)
Definition grows (y y' : symbols) : Prop :=
  obj_keys y `prefix_of` obj_keys y' /\ file_keys y `prefix_of` file_keys y' /\ fn_keys y `prefix_of` fn_keys y'.

Lemma stands_grows y y' k n : grows y y' -> stands_for y k n -> stands_for y' k n.
Proof.
  intros (P1 & P2 & P3) (j & i & H1 & H2 & H3). exists j, i. split_and!; by eapply prefix_lookup_Some.
Qed.

Lemma get_inseg_ok N y p t : names_ok N y -> fns_ok y p -> site_ok t -> N < 2 ^ 30 -> Z.of_nat (length (fnlinks y)) < 2 ^ 30 - 1 ->
  exists k y' p', get_fn_node_inseg y p (s_di t) (s_dir t) (s_file t) (s_fn t) = Ok (k, y', p') /\ names_ok (N + 2) y' /\
    fns_ok y' p' /\ stands_for y' k (identity t) /\ grows y y' /\
    (length (fnlinks y') <= S (length (fnlinks y)))%nat.
Proof.
  intros Hy Hp (Hd & Hpa & Hf) HN HL. unfold ClgNames.get_fn_node_inseg.
  destruct (get_obj_ok N y (s_di t) Hy Hd) as (y1 & -> & Hy1 & K1 & F1 & L1); [lia|]. cbn [rbind].
  pose proof (na_nodup _ _ Hy) as (D1 & D2 & D3).
  pose proof (intern_lookup (obj_keys y) (obj_name (s_di t)) D1) as Hi. rewrite <- K1 in Hi.
  pose proof (intern_prefix (obj_keys y) (obj_name (s_di t))) as Pre1. rewrite <- K1 in Pre1.
  set (i := (intern (obj_keys y) (obj_name (s_di t))).1) in *.
  destruct (get_file_ok (N + 1) y1 i (s_dir t) (s_file t) Hy1) as (y2 & -> & Hy2 & K2 & F2 & L2); [|done|lia|].
  { apply lookup_lt_Some in Hi. unfold obj_keys in Hi. by rewrite length_fmap in Hi. }
  cbn [rbind]. pose proof (na_nodup _ _ Hy1) as (_ & D2' & _).
  pose proof (intern_lookup (file_keys y1) (i, path_of (s_dir t) (s_file t)) D2') as Hj. rewrite <- F2 in Hj.
  pose proof (intern_prefix (file_keys y1) (i, path_of (s_dir t) (s_file t))) as Pre2. rewrite <- F2 in Pre2.
  set (j := (intern (file_keys y1) _).1) in *.
  destruct (get_infile_ok (N + 1 + 1) y2 p j (s_fn t) Hy2) as (y3 & p' & -> & Hy3 & Hp3 & K3 & F3 & L3); try done.
  { unfold fns_ok in *. by rewrite L2, L1. }
  { apply lookup_lt_Some in Hj. unfold file_keys in Hj. by rewrite length_fmap in Hj. }
  { by rewrite L2, L1. }
  pose proof (na_nodup _ _ Hy2) as (_ & _ & D3').
  pose proof (intern_lookup (fn_keys y2) (j, s_fn t) D3') as Hk. rewrite <- L3 in Hk.
  pose proof (intern_prefix (fn_keys y2) (j, s_fn t)) as Pre3. rewrite <- L3 in Pre3.
  pose proof (intern_length (fn_keys y2) (j, s_fn t)) as Hln. rewrite <- L3 in Hln. unfold fn_keys in Hln.
  rewrite !length_fmap, L2, L1 in Hln.
  eexists _, y3, p'. split; [done|]. split; [by replace (N + 2) with (N + 1 + 1) by lia|]. split; [done|]. split_and!.
  - exists j, i. split; [exact Hk|]. rewrite K3, F3. split; [exact Hj|]. by rewrite K2.
  - unfold grows. rewrite K3, K2, F3. unfold file_keys in Pre2 at 1. rewrite F1 in Pre2.
    unfold fn_keys in Pre3 at 1. rewrite L2, L1 in Pre3. done.
  - lia.
Qed.

Lemma get_fns_ok N y p ts : names_ok N y -> fns_ok y p -> Forall site_ok ts ->
  N + 2 * Z.of_nat (length ts) < 2 ^ 30 -> Z.of_nat (length (fnlinks y)) + Z.of_nat (length ts) < 2 ^ 30 ->
  exists ks y' p', get_fns y p ts = Ok (ks, y', p') /\ names_ok (N + 2 * Z.of_nat (length ts)) y' /\ fns_ok y' p' /\ grows y y' /\
    Forall2 (stands_for y') ks (identity <$> ts).
Proof.
  revert N y p; induction ts as [|t ts IH]; intros N y p Hy Hp Hts HN HL; cbn [get_fns length] in *.
  { exists [], y, p. split; [done|]. split; [eapply names_mono; [|done]; lia|]. split; [done|]. split; [done|constructor]. }
  apply Forall_cons in Hts as [Ht Hts].
  destruct (get_inseg_ok N y p t Hy Hp Ht) as (k & y1 & p1 & -> & Hy1 & Hp1 & Hk & G1 & L1); [lia|lia|]. cbn [rbind].
  destruct (IH (N + 2) y1 p1 Hy1 Hp1 Hts) as (ks & y2 & p2 & -> & Hy2 & Hp2 & G2 & Hks); [lia|lia|]. cbn [rbind].
  exists (k :: ks), y2, p2. split; [done|]. split; [eapply names_mono; [|done]; lia|]. split; [done|]. split.
  - destruct G1 as (A1 & A2 & A3), G2 as (B1 & B2 & B3). split; [by etrans|]. by split; etrans.
  - cbn. constructor; [by eapply stands_grows|done].
Qed.

Lemma init_names_ok : names_ok 0 init_obj_table.
Proof.
  constructor; [split_and!; constructor|split_and!; constructor| |done|done|split; constructor|cbn; lia].
  apply (holds_empty (A:=obj_node) N_OBJ_ENTRIES ltac:(done)). intros x Hx. by apply elem_of_nil in Hx.
Qed.

(** C16. Whatever functions are asked for, through the three levels of hash tables,
    every lookup succeeds, two of them give the same node exactly when the names
    of object, file path and function are the same, and each node is known to
    contexts and call stack under its name, numbered in the order of creation. *)
Theorem functions_interned (p : process) (ts : list site) :
  distinct_fns p = 0 -> fn_array_resizes p = 0 -> array_ok (current_fn_active (now p)) -> Forall site_ok ts ->
  2 * Z.of_nat (length ts) < 2 ^ 30 ->
  exists ks y p', get_fns init_obj_table p ts = Ok (ks, y, p') /\ length ks = length ts /\
    (forall a b i j t u, ks !! a = Some i -> ks !! b = Some j -> ts !! a = Some t -> ts !! b = Some u ->
       i = j <-> identity t = identity u) /\
    forall a k t, ks !! a = Some k -> ts !! a = Some t -> exists f, fns (cx (now p')) !! fn_addr k = Some f /\ fn_name f = s_fn t /\
      number f = Z.of_nat k + 1.
Proof.
  intros Hd Hr Ha Hts HN.
  destruct (get_fns_ok 0 init_obj_table p ts) as (ks & y & p' & E & Hy & Hp & _ & Hks); [apply init_names_ok| |done|lia|cbn; lia|].
  { split_and!; try done; lia. }
  exists ks, y, p'. split; [done|]. split; [by rewrite (Forall2_length _ _ _ Hks), length_fmap|]. split.
  - intros a b i j t u Hi Hj Ht Hu.
    destruct (Forall2_lookup_l _ _ _ _ _ Hks Hi) as (n & Hn & Sn). rewrite list_lookup_fmap, Ht in Hn. injection Hn as <-.
    destruct (Forall2_lookup_l _ _ _ _ _ Hks Hj) as (m & Hm & Sm). rewrite list_lookup_fmap, Hu in Hm. injection Hm as <-.
    by eapply stands_fun.
  - intros a k t Hk Ht. destruct (Forall2_lookup_l _ _ _ _ _ Hks Hk) as (n & Hn & j & i & Sn & _).
    rewrite list_lookup_fmap, Ht in Hn. injection Hn as <-. unfold fn_keys in Sn. rewrite list_lookup_fmap in Sn.
    destruct (fnlinks y !! k) as [x|] eqn:Ex; [|done]. injection Sn as _ Sx. cbn in Sx.
    destruct Hp as (_ & _ & _ & Hp). destruct (Hp k x Ex) as (f & F1 & F2 & F3). exists f. by rewrite F2, Sx.
Qed.
End refine.

(** The same path given in two ways, and another function of the file. *)
Definition ex_sites : list site :=
  let di := Some (MkDebugInfo "/lib/libc.so" 4096 65536 0) in
  [MkSite di "src/io" "put.c" "puts"; MkSite di "src" "io/put.c" "puts"; MkSite di "src/io" "put.c" "fputs"].

Lemma functions_interned_witness :
  exists a b c y p', get_fns (fun _ => 0) (fun k => Z.of_nat k + 1) false 0 1 init_obj_table ex_process ex_sites = Ok ([a; b; c], y, p') /\
    a = b /\ a <> c.
Proof.
  destruct (functions_interned (fun _ => 0) (fun k => Z.of_nat k + 1) false 0 1 ltac:(intros j k E; cbv beta in E; lia) ex_process ex_sites)
    as (ks & y & p' & E & Hl & Hu & _).
  - reflexivity.
  - reflexivity.
  - constructor; [split; vm_compute; congruence|vm_compute; reflexivity].
  - repeat constructor; try (cbn; discriminate); intros d [= <-]; discriminate.
  - cbn. lia.
  - destruct ks as [|a [|b [|c [|]]]]; try discriminate Hl. exists a, b, c, y, p'. split; [exact E|]. split.
    + by apply (Hu 0%nat 1%nat a b (MkSite (Some (MkDebugInfo "/lib/libc.so" 4096 65536 0)) "src/io" "put.c" "puts")
        (MkSite (Some (MkDebugInfo "/lib/libc.so" 4096 65536 0)) "src" "io/put.c" "puts")).
    + intros Eq. by apply (Hu 0%nat 2%nat a c (MkSite (Some (MkDebugInfo "/lib/libc.so" 4096 65536 0)) "src/io" "put.c" "puts")
        (MkSite (Some (MkDebugInfo "/lib/libc.so" 4096 65536 0)) "src/io" "put.c" "fputs")) in Eq.
Defined.
