(* ===== verification/ClgCentres.v ===== *)
(** * ClgCentres: cost centres of blocks (callgrind/bbcc.c)

    A basic block has a cost centre (BBCC) for every context and recursion level
    it was executed in, per thread when threads are separated.  The centres of
    level 0 are in a hash table keyed by block and context, those of the other
    levels in an array shared by all levels.  At the start of each block
    [setup_bbcc] works out from the last block how the program came here, brings
    the call stack up to date and selects the centre.

    A centre is known by its number (the order of creation) inside the table and
    by its address elsewhere; [addr] gives the address of a centre and [num] the
    number at an address.  The fields of a centre the call stack and the arcs use
    are in [centres] and [bbccs] of the other components, at its address.  Of the
    fields of a block those that change are in [block], the others in [BB].
    The table of blocks and the names of functions are kept in [program], for the
    components that use them.  CLG_DEBUG output and the names only it shows are
    left out. *)

From Stdlib Require Import ZArith Lia Ascii String.
From stdpp Require Import base numbers option strings gmap sets list.
From S2P Require Import Prelude ClgLog ClgCosts ClgEvents ClgHash ClgJumps ClgContext ClgStack ClgThreads ClgNames.

#[local] Open Scope Z_scope.

(** ** Data *)

Record block : Type := MkBlock {
  b_obj_number : Z;
  b_sect_kind : Z;
  b_fn : Z;
  b_line : Z;
  b_is_entry : bool;
  bbcc_list : Z;
  last_bbcc : Z;
  b_cjmp_count : Z;
  b_cost_count : Z
}.

Record bbcc : Type := MkBbcc {
  bc_bb : Z;
  bc_cxt : option nat;
  bc_tid : Z;
  rec_index : Z;
  rec_array : option nat;
  bc_next : option nat;
  next_bbcc : Z;
  lru_next_bbcc : Z;
  bc_cost : cptr;
  ecounter_sum : Z;
  ecounters : list Z
}.

Record centre_stats : Type := MkCentreStats {
  bbcc_lru_misses : Z;
  bbcc_hash_resizes : Z;
  distinct_bbccs : Z;
  bbcc_clones : Z;
  jcnd_counter : Z;
  jump_counter : Z
}.

(** The table of blocks (bb.c): where a block is, what it was translated from, and
    its place in the table. *)
Record bb_node : Type := MkBbNode {
  bn_obj : nat;
  bn_offset : Z;
  bn_next : option nat;
  instr_count : Z;
  cjmp_inverted : bool
}.

Record bb_hash : Type := MkBbHash {
  bs_size : Z;
  bs_entries : Z;
  bs_table : list (option nat)
}.

Record block_stats : Type := MkBlockStats {
  distinct_bbs : Z;
  bb_hash_resizes : Z;
  bb_retranslations : Z;
  full_debug_BBs : Z;
  file_line_debug_BBs : Z;
  fn_name_debug_BBs : Z;
  no_debug_BBs : Z
}.

(** What is known of the program. *)
Record program : Type := MkProgram {
  syms : symbols;
  bb_nodes : list bb_node;
  all_bbs : bb_hash;
  bstat : block_stats;
  exit_bb : Z
}.

(** The process, the objects behind the pointers, and the variables the
    simulator reads. *)
Record profile : Type := MkProfile {
  proc : process;
  blocks : gmap Z block;
  nodes : list bbcc;
  rec_arrays : list (list Z);
  cstat : centre_stats;
  p_bb_base : Z;
  p_cost_base : option cptr;
  prog : program
}.

Definition set_proc (P : profile) (p : process) : profile :=
  MkProfile p (blocks P) (nodes P) (rec_arrays P) (cstat P) (p_bb_base P) (p_cost_base P) (prog P).
Definition set_blocks (P : profile) (b : gmap Z block) : profile :=
  MkProfile (proc P) b (nodes P) (rec_arrays P) (cstat P) (p_bb_base P) (p_cost_base P) (prog P).
Definition set_nodes (P : profile) (l : list bbcc) : profile :=
  MkProfile (proc P) (blocks P) l (rec_arrays P) (cstat P) (p_bb_base P) (p_cost_base P) (prog P).
Definition set_recs (P : profile) (l : list (list Z)) : profile :=
  MkProfile (proc P) (blocks P) (nodes P) l (cstat P) (p_bb_base P) (p_cost_base P) (prog P).
Definition set_cstat (P : profile) (s : centre_stats) : profile :=
  MkProfile (proc P) (blocks P) (nodes P) (rec_arrays P) s (p_bb_base P) (p_cost_base P) (prog P).
Definition set_prog (P : profile) (x : program) : profile :=
  MkProfile (proc P) (blocks P) (nodes P) (rec_arrays P) (cstat P) (p_bb_base P) (p_cost_base P) x.

(** The state of the running thread. *)
Definition here (P : profile) : stacks := now (proc P).
Definition set_here (P : profile) (s : stacks) : profile := set_proc P (set_now (proc P) s).

Definition set_lists (b : block) (head last : Z) : block :=
  MkBlock (b_obj_number b) (b_sect_kind b) (b_fn b) (b_line b) (b_is_entry b) head last (b_cjmp_count b) (b_cost_count b).

Definition set_place (c : option nat) (i : Z) (a : option nat) (x : bbcc) : bbcc :=
  MkBbcc (bc_bb x) c (bc_tid x) i a (bc_next x) (next_bbcc x) (lru_next_bbcc x) (bc_cost x) (ecounter_sum x) (ecounters x).
Definition set_next_bbcc (p : Z) (x : bbcc) : bbcc :=
  MkBbcc (bc_bb x) (bc_cxt x) (bc_tid x) (rec_index x) (rec_array x) (bc_next x) p (lru_next_bbcc x) (bc_cost x)
    (ecounter_sum x) (ecounters x).
Definition set_lru_next (p : Z) (x : bbcc) : bbcc :=
  MkBbcc (bc_bb x) (bc_cxt x) (bc_tid x) (rec_index x) (rec_array x) (bc_next x) (next_bbcc x) p (bc_cost x)
    (ecounter_sum x) (ecounters x).
Definition set_counters (sum : Z) (l : list Z) (x : bbcc) : bbcc :=
  MkBbcc (bc_bb x) (bc_cxt x) (bc_tid x) (rec_index x) (rec_array x) (bc_next x) (next_bbcc x) (lru_next_bbcc x)
    (bc_cost x) sum l.

(** ** The table of centres *)

Section centres.
(** Addresses of contexts and of cost centres. *)
Variable cxt_addr : nat -> Z.
Variable addr : nat -> Z.
Variable num : Z -> option nat.

Definition bbcc_hash_val (bb : Z) (cxt : option nat) : Z :=
  match cxt with None => 0 | Some c => u64 (bb + cxt_addr c) end.

#[local] Instance bbcc_node : ChainNode bbcc.
Proof.
  refine {| next := bc_next;
    set_next p x := MkBbcc (bc_bb x) (bc_cxt x) (bc_tid x) (rec_index x) (rec_array x) p (next_bbcc x) (lru_next_bbcc x)
      (bc_cost x) (ecounter_sum x) (ecounters x);
    hash x := bbcc_hash_val (bc_bb x) (bc_cxt x) |}; intros;
    repeat match goal with x : bbcc |- _ => destruct x end; reflexivity.
Defined.

Definition deref_block (P : profile) (bb : Z) : res block :=
  if bb =? 0 then Err NullDeref else match blocks P !! bb with Some b => Ok b | None => Err OutOfBounds end.

Definition index (p : Z) : res nat :=
  if p =? 0 then Err NullDeref else match num p with Some k => Ok k | None => Err OutOfBounds end.

Definition deref_node (P : profile) (p : Z) : res bbcc := let! k := index p in get_node (nodes P) k.

Definition upd_node (P : profile) (p : Z) (f : bbcc -> bbcc) : res profile :=
  let! k := index p in
  let! x := get_node (nodes P) k in
  Ok (set_nodes P (<[k := f x]> (nodes P))).

Definition bbcc_hash_idx (bb : Z) (cxt : option nat) (size : Z) : res Z :=
  let! _ := tl_assert (negb (bb =? 0)) "bb != 0" in
  let! _ := tl_assert (negb (bool_decide (cxt = None))) "cxt != 0" in
  bucket_of (bbcc_hash_val bb cxt) size.

(** The options of the run. *)
Variable separate_threads : bool.

Definition is_centre (bb : Z) (cxt : option nat) (x : bbcc) : bool := (bc_bb x =? bb) && bool_decide (bc_cxt x = cxt).

(** Returns a pointer, 0 if there is no such centre. *)
Definition lookup_bbcc (P : profile) (bb : Z) (cxt : option nat) : res (Z * profile) :=
  let! b := deref_block P bb in
  let! x := deref_node P (last_bbcc b) in
  if bool_decide (bc_cxt x = cxt) && (negb separate_threads || (bc_tid x =? current_tid (proc P)))
  then Ok (last_bbcc b, P) else
  let st := cstat P in
  let! n := int_add (bbcc_lru_misses st) 1 in
  let P := set_cstat P (MkCentreStats n (bbcc_hash_resizes st) (distinct_bbccs st) (bbcc_clones st) (jcnd_counter st)
                          (jump_counter st)) in
  let h := current_bbccs (proc P) in
  let! idx := bbcc_hash_idx bb cxt (bh_size h) in
  let! p := arr_get (bh_table h) idx in
  let! r := find_chain (length (nodes P)) (fun x => Ok (is_centre bb cxt x)) (nodes P) p in
  Ok (match r with Some k => addr k | None => 0 end, P).

Definition resize_bbcc_hash (P : profile) : res profile :=
  let h := current_bbccs (proc P) in
  let new_size := s32 (2 * bh_size h + 3) in
  let! (l, t) := rehash new_size (bh_table h) (nodes P) in
  let st := cstat P in
  let! n := int_add (bbcc_hash_resizes st) 1 in
  let P := set_nodes P l in
  let P := set_cstat P (MkCentreStats (bbcc_lru_misses st) n (distinct_bbccs st) (bbcc_clones st) (jcnd_counter st)
                          (jump_counter st)) in
  Ok (set_proc P (set_bbccs (proc P) (MkBbccHash (u32 new_size) (bh_entries h) t))).

(** A new array of [size] null pointers. *)
Definition new_recursion (P : profile) (size : Z) : nat * profile :=
  (length (rec_arrays P), set_recs P (rec_arrays P ++ [replicate (Z.to_nat size) 0])).

Definition set_rec (P : profile) (a : option nat) (i : Z) (p : Z) : res profile :=
  match a with
  | None => Err NullDeref
  | Some k =>
      let! l := (match rec_arrays P !! k with Some l => Ok l | None => Err OutOfBounds end) in
      let! l := arr_set l i p in
      Ok (set_recs P (<[k := l]> (rec_arrays P)))
  end.

Definition get_rec (P : profile) (a : option nat) (i : Z) : res Z :=
  match a with
  | None => Err NullDeref
  | Some k => match rec_arrays P !! k with Some l => arr_get l i | None => Err OutOfBounds end
  end.

(** A new centre; the context, the recursion arrays and the links are set by the
    caller. *)
Definition new_bbcc (P : profile) (bb : Z) : res (Z * profile) :=
  let! b := deref_block P bb in
  let p := addr (length (nodes P)) in
  let s := here P in
  let! (c, m) := get_costarray (costs s) (b_cost_count b) in
  let! m := zero_cells m c (b_cost_count b) in
  let exits := Z.to_nat (b_cjmp_count b + 1) in
  let x := MkBbcc bb None (current_tid (proc P)) 0 None None 0 0 c 0 (replicate exits 0) in
  let j := jm s in
  let j := MkJumps (jccs j) (<[p := MkEnds None None (b_cjmp_count b) (replicate exits None)]> (ClgJumps.bbccs j))
             (current_jccs j) (jcc_hash_resizes j) (distinct_jccs j) (jcc_lru_misses j) in
  let s := set_centres (set_jm (set_costs s m) j) (<[p := MkCentre bb None None 0]> (centres s)) in
  let st := cstat P in
  let! n := int_add (distinct_bbccs st) 1 in
  let P := set_nodes (set_here P s) (nodes P ++ [x]) in
  Ok (p, set_cstat P (MkCentreStats (bbcc_lru_misses st) (bbcc_hash_resizes st) n (bbcc_clones st) (jcnd_counter st)
                        (jump_counter st))).

(** Context, level and array of the centre [p]. *)
Definition place_centre (P : profile) (p : Z) (cxt : option nat) (i : Z) (a : option nat) : res profile :=
  let! P := upd_node P p (set_place cxt i a) in
  let s := here P in
  let! c := deref_centre s p in
  Ok (set_here P (set_centres s (<[p := MkCentre (cc_bb c) cxt (cc_skipped c) (cc_ret_counter c)]> (centres s)))).

Definition insert_bbcc_into_hash (P : profile) (p : Z) : res profile :=
  let! x := deref_node P p in
  let! _ := tl_assert (negb (bool_decide (bc_cxt x = None))) "bbcc->cxt != 0" in
  let h := current_bbccs (proc P) in
  let e := u32 (bh_entries h + 1) in
  let P := set_proc P (set_bbccs (proc P) (MkBbccHash (bh_size h) e (bh_table h))) in
  let! fill := uint_div (u32 (100 * e)) (bh_size h) in
  let! P := (if 90 <? fill then resize_bbcc_hash P else Ok P) in
  let h := current_bbccs (proc P) in
  let! k := index p in
  let! _ := bbcc_hash_idx (bc_bb x) (bc_cxt x) (bh_size h) in
  let! (l, t) := link (nodes P) (bh_table h) (bh_size h) k in
  Ok (set_proc (set_nodes P l) (set_bbccs (proc P) (MkBbccHash (bh_size h) (bh_entries h) t))).

(** The centre [p] becomes that of the context, with an array for [size] levels,
    and goes into the table. *)
Definition place_base (P : profile) (p : Z) (cxt : option nat) (i size : Z) : res profile :=
  let '(a, P) := new_recursion P size in
  let! P := place_centre P p cxt i (Some a) in
  let! P := set_rec P (Some a) 0 p in
  insert_bbcc_into_hash P p.

(** A centre of level 0 for a context that is new to the block, or one for
    another level of the centre [orig]. *)
Definition clone_bbcc (P : profile) (orig : Z) (cxt : option nat) (i : Z) : res (Z * profile) :=
  let! o := deref_node P orig in
  let! (p, P) := new_bbcc P (bc_bb o) in
  let! f := cxt_fn0 (here P) cxt in
  let! fn := deref_fn (cx (here P)) f in
  let! P := (if i =? 0 then
               let! _ := tl_assert (negb (bc_tid o =? current_tid (proc P)) || negb (bool_decide (bc_cxt o = cxt)))
                           "(orig->tid != CLG_(current_tid)) || (orig->cxt != cxt)" in
               place_base P p cxt 0 (separate_recursions fn)
             else
               let! _ := tl_assert (negb separate_threads || (bc_tid o =? current_tid (proc P)))
                           "orig->tid == CLG_(current_tid)" in
               let! _ := tl_assert (bool_decide (bc_cxt o = cxt)) "orig->cxt == cxt" in
               let! _ := tl_assert (negb (bool_decide (rec_array o = None))) "orig->rec_array" in
               let! _ := tl_assert (i <? separate_recursions fn) "cxt->fn[0]->separate_recursions > rec_index" in
               let! r := get_rec P (rec_array o) i in
               let! _ := tl_assert (r =? 0) "orig->rec_array[rec_index] ==0" in
               let! P := place_centre P p cxt i (rec_array o) in
               set_rec P (rec_array o) i p) in
  let! b := deref_block P (bc_bb o) in
  let! P := upd_node P p (set_next_bbcc (bbcc_list b)) in
  let P := set_blocks P (<[bc_bb o := set_lists b p (last_bbcc b)]> (blocks P)) in
  let st := cstat P in
  let! n := int_add (bbcc_clones st) 1 in
  Ok (p, set_cstat P (MkCentreStats (bbcc_lru_misses st) (bbcc_hash_resizes st) (distinct_bbccs st) n (jcnd_counter st)
                        (jump_counter st))).

Definition get_bbcc (P : profile) (bb : Z) : res (Z * profile) :=
  let! b := deref_block P bb in
  if negb (bbcc_list b =? 0) then Ok (bbcc_list b, P) else
  let! (p, P) := new_bbcc P bb in
  let! P := upd_node P p (set_next_bbcc (bbcc_list b)) in
  Ok (p, set_blocks P (<[bb := set_lists b p p]> (blocks P))).

(** *** Selecting the centre of a block: the second half of [CLG_(setup_bbcc)] *)

(** [*CLG_(current_fn_stack).top] *)
Definition top_fn (P : profile) : res fn_node :=
  let st := current_fn_stack (here P) in
  let! f := read_fn (fs_array st) (Z.to_nat (fs_top st)) in
  deref_fn (cx (here P)) f.

(** The centre that followed [last] the last time, if it fits. *)
Definition cached_next (P : profile) (bb last : Z) : res Z :=
  if last =? 0 then Ok 0 else
  let! l := deref_node P last in
  let q := lru_next_bbcc l in
  if q =? 0 then Ok 0 else
  let! y := deref_node P q in
  Ok (if negb (bc_bb y =? bb) || negb (bool_decide (bc_cxt y = x_cxt (cur (here P)))) then 0 else q).

(** The centre of level 0. *)
Definition base_centre (P : profile) (bb last : Z) : res (Z * profile) :=
  let cxt := x_cxt (cur (here P)) in
  let! (p, P) := get_bbcc P bb in
  let! x := deref_node P p in
  let! (p, P) :=
    (if bool_decide (bc_cxt x = None) then
       let! _ := tl_assert (bool_decide (rec_array x = None)) "bbcc->rec_array == 0" in
       let! f := top_fn P in
       let! P := place_base P p cxt (rec_index x) (separate_recursions f) in
       Ok (p, P)
     else
       let! q := cached_next P bb last in
       let! (q, P) := (if q =? 0 then lookup_bbcc P bb cxt else Ok (q, P)) in
       let! (q, P) := (if q =? 0 then
                         let! b := deref_block P bb in clone_bbcc P (bbcc_list b) cxt 0
                       else Ok (q, P)) in
       let! b := deref_block P bb in
       Ok (q, set_blocks P (<[bb := set_lists b (bbcc_list b) q]> (blocks P)))) in
  let! P := (if negb (last =? 0) then upd_node P last (set_lru_next p) else Ok P) in
  Ok (p, P).

(** The recursion level a block of [f] runs in; [entering] when its call is still
    to be pushed. *)
Definition rec_level (P : profile) (f : fn_node) (p : Z) (entering : bool) : res (Z * profile) :=
  let s := here P in
  let! i := get_fn_entry s (number f) in
  let! level := read_active s i in
  let! level := (if entering then
                   if skip_direct_recursion s then
                     let! _ := tl_assert (negb (x_bbcc (cur s) =? 0)) "CLG_(current_state).bbcc != 0" in
                     let! f1 := centre_fn s (x_bbcc (cur s)) in
                     let! f2 := centre_fn s p in
                     Ok (if negb (f1 =? f2) then u32 (level + 1) else level)
                   else Ok (u32 (level + 1))
                 else Ok level) in
  let level := if u32 (separate_recursions f) <? level then u32 (separate_recursions f) else level in
  if level =? 0 then
    let! a := arr_set (fa_array (current_fn_active s)) i 1 in
    Ok (1, set_here P (set_active s (MkFnArray (fa_size (current_fn_active s)) a)))
  else Ok (level, P).

Definition select_centre (P : profile) (bb last : Z) (entering : bool) : res (Z * profile) :=
  let cxt := x_cxt (cur (here P)) in
  let! (p, P) := base_centre P bb last in
  let! f := top_fn P in
  if 1 <? separate_recursions f then
    let! (level, P) := rec_level P f p entering in
    let idx := level - 1 in
    let! x := deref_node P p in
    let! r := get_rec P (rec_array x) idx in
    let! (q, P) := (if negb (r =? 0) then Ok (r, P) else clone_bbcc P p cxt idx) in
    let! y := deref_node P q in
    let! r := get_rec P (rec_array y) (rec_index y) in
    let! _ := tl_assert (r =? q) "bbcc->rec_array[bbcc->rec_index] == bbcc" in
    Ok (q, P)
  else Ok (p, P).

(** *** Resetting the counters *)

(** [for (jcc = list; jcc; jcc = jcc->next_from)] over the arcs of an exit. *)
Fixpoint zero_arcs (fuel : nat) (s : stacks) (k : option nat) : res stacks :=
  match k with
  | None => Ok s
  | Some k =>
      match fuel with
      | O => Err OutOfFuel
      | S fuel' =>
          let! x := get_node (jccs (jm s)) k in
          let! m := init_cost (full s) (costs s) (jcc_cost x) in
          let! s := upd_jcc (set_costs s m) k (fun x =>
            MkJcc (jmpkind x) (next_hash x) (next_from x) (from x) (to x) (jmp x) 0 (jcc_cost x)) in
          zero_arcs fuel' s (next_from x)
      end
  end.

Definition zero_bbcc (P : profile) (p : Z) : res profile :=
  let! x := deref_node P p in
  let s := here P in
  let! c := deref_centre s p in
  let! _ := tl_assert (negb (bool_decide (bc_cxt x = None))) "bbcc->cxt != 0" in
  if (ecounter_sum x =? 0) && (cc_ret_counter c =? 0) then Ok P else
  let! b := deref_block P (bc_bb x) in
  let! m := zero_cells (costs s) (bc_cost x) (b_cost_count b) in
  let! ends := deref_bbcc (jm s) p in
  let! s := res_fold (fun k s => zero_arcs (length (jccs (jm s))) s k) (jcc_list ends) (set_costs s m) in
  let P := set_here P s in
  let! P := upd_node P p (set_counters 0 (replicate (Z.to_nat (b_cjmp_count b + 1)) 0)) in
  let s := here P in
  let! c := deref_centre s p in
  Ok (set_here P (set_centres s (<[p := MkCentre (cc_bb c) (cc_cxt c) (cc_skipped c) 0]> (centres s)))).

(** The levels of a centre, without the null ones. *)
Fixpoint forall_levels (func : profile -> Z -> res profile) (P : profile) (a : option nat) (js : list Z) : res profile :=
  match js with
  | [] => Ok P
  | j :: js' =>
      let! r := get_rec P a j in
      let! P := (if r =? 0 then Ok P else func P r) in
      forall_levels func P a js'
  end.

(** [while (bbcc)] over a bucket. *)
Fixpoint forall_bucket (func : profile -> Z -> res profile) (fuel : nat) (P : profile) (k : option nat) : res profile :=
  match k with
  | None => Ok P
  | Some k =>
      match fuel with
      | O => Err OutOfFuel
      | S fuel' =>
          let! x := get_node (nodes P) k in
          let! _ := tl_assert (negb (bool_decide (rec_array x = None))) "bbcc->rec_array != 0" in
          let! f := cxt_fn0 (here P) (bc_cxt x) in
          let! fn := deref_fn (cx (here P)) f in
          let! P := forall_levels func P (rec_array x) (seqZ 0 (separate_recursions fn)) in
          let! x := get_node (nodes P) k in
          forall_bucket func fuel' P (bc_next x)
      end
  end.

Definition forall_bbccs (func : profile -> Z -> res profile) (P : profile) : res profile :=
  res_fold (fun k P => forall_bucket func (length (nodes P)) P k) (bh_table (current_bbccs (proc P))) P.
End centres.
