(* ===== verification/ClgBlocks.v ===== *)
(** * ClgBlocks: basic blocks and their functions (callgrind/bb.c, fn.c)

    A basic block is known by its object file and the offset of its first
    instruction in it, so that it survives an object that is unmapped and mapped
    again elsewhere.  [get_bb] finds or makes the block for an address,
    [delete_bb] forgets one; [get_fn_node] attaches the function of a new block
    from the debug information.  The [k]-th block made is at address [bb_adr k],
    object [i] at [obj_addr i], function [j] at [fn_addr j]; the debug information
    and the text of the client, which belong to the core, are parameters.
    Messages are left out. *)

From Stdlib Require Import ZArith Lia Ascii String.
From stdpp Require Import base numbers option strings gmap sets list.
From S2P Require Import Prelude Libcbase Vprintf Libcprint VexIR ClgLog ClgCosts ClgEvents ClgHash ClgJumps ClgContext ClgPatterns ClgStack ClgThreads ClgSwitch ClgResolve ClgNames ClgCentres.

#[local] Open Scope Z_scope.

(** Kinds of sections: include/pub_tool_debuginfo.h. *)
Definition Vg_SectData : Z := 2.
Definition Vg_SectBSS : Z := 3.
Definition Vg_SectGOT : Z := 4.
Definition Vg_SectPLT : Z := 5.

(** [bb_addr(bb)] *)
Definition bb_addr (b : BB) : Z := u64 (bb_obj_offset b + bb_offset b).

(** ** First pass over a superblock (main.c) *)

Definition IRConst2Addr (con : IRConst) : res Z :=
  match con with Ico_U64 v => Ok v | _ => Err (AssertFail "con->tag == Ico_U64") end.

Record block_info : Type := MkBlockInfo {
  bi_instrs : Z;
  bi_cjmps : Z;
  bi_inverted : bool
}.

(** The loop over the statements, with [inPreamble], [instrAddr + instrLen] and
    [toNextInstr]. *)
Fixpoint collect_stmts (l : list IRStmt) (inPreamble : bool) (following : Z) (toNextInstr : bool) (instrs cjmps : Z)
  : res block_info :=
  match l with
  | [] => Ok (MkBlockInfo instrs cjmps toNextInstr)
  | Ist_IMark addr len _ :: l' => collect_stmts l' false (u64 (addr + len)) false (u32 (instrs + 1)) cjmps
  | Ist_Exit _ _ dst :: l' =>
      if inPreamble then collect_stmts l' inPreamble following toNextInstr instrs cjmps else
      let! jumpDst := IRConst2Addr dst in
      collect_stmts l' inPreamble following (jumpDst =? following) instrs (u32 (cjmps + 1))
  | _ :: l' => collect_stmts l' inPreamble following toNextInstr instrs cjmps
  end.

Definition collectBlockInfo (sbIn : option (list IRStmt)) : res block_info :=
  match sbIn with None => Ok (MkBlockInfo 0 0 false) | Some l => collect_stmts l true 0 false 0 0 end.

(** ** The table of blocks *)

Section blocks.
Variable obj_addr : nat -> Z.

Definition bb_hash_val (obj : nat) (offset : Z) : Z := u64 (obj_addr obj + offset).

#[local] Instance bb_chain : ChainNode bb_node.
Proof.
  refine {| next := bn_next;
    set_next p x := MkBbNode (bn_obj x) (bn_offset x) p (instr_count x) (cjmp_inverted x);
    hash x := bb_hash_val (bn_obj x) (bn_offset x) |}; intros;
    repeat match goal with x : bb_node |- _ => destruct x end; reflexivity.
Defined.

Definition init_bb_hash : bb_hash := MkBbHash 8437 0 (replicate 8437 None).

Definition set_table (g : program) (l : list bb_node) (h : bb_hash) : program :=
  MkProgram (syms g) l h (bstat g) (exit_bb g).

Definition bb_hash_idx (obj : nat) (offset size : Z) : res Z := bucket_of (bb_hash_val obj offset) size.

Definition resize_bb_table (g : program) : res program :=
  let h := all_bbs g in
  let new_size := s32 (2 * bs_size h + 3) in
  let! (l, t) := rehash new_size (bs_table h) (bb_nodes g) in
  let st := bstat g in
  let! n := int_add (bb_hash_resizes st) 1 in
  Ok (MkProgram (syms g) l (MkBbHash (u32 new_size) (bs_entries h) t)
        (MkBlockStats (distinct_bbs st) n (bb_retranslations st) (full_debug_BBs st) (file_line_debug_BBs st)
           (fn_name_debug_BBs st) (no_debug_BBs st)) (exit_bb g)).

Definition at_place (obj : nat) (offset : Z) (x : bb_node) : bool := (bn_obj x =? obj)%nat && (bn_offset x =? offset).

Definition lookup_bb (g : program) (obj : nat) (offset : Z) : res (option nat) :=
  let h := all_bbs g in
  let! idx := bb_hash_idx obj offset (bs_size h) in
  let! p := arr_get (bs_table h) idx in
  find_chain (length (bb_nodes g)) (fun x => Ok (at_place obj offset x)) (bb_nodes g) p.

(** The part of [new_bb] that concerns the table: a new entry, after a resize if
    the table is more than 80% full. *)
Definition add_bb (g : program) (obj : nat) (offset icount : Z) (inverted : bool) : res (nat * program) :=
  let h := all_bbs g in
  let e := u32 (bs_entries h + 1) in
  let g := set_table g (bb_nodes g) (MkBbHash (bs_size h) e (bs_table h)) in
  let! fill := uint_div (u32 (10 * e)) (bs_size h) in
  let! g := (if 8 <? fill then resize_bb_table g else Ok g) in
  let h := all_bbs g in
  let! idx := bb_hash_idx obj offset (bs_size h) in
  let! head := arr_get (bs_table h) idx in
  let k := length (bb_nodes g) in
  let! t := arr_set (bs_table h) idx (Some k) in
  let st := bstat g in
  let! n := int_add (distinct_bbs st) 1 in
  Ok (k, MkProgram (syms g) (bb_nodes g ++ [MkBbNode obj offset head icount inverted])
           (MkBbHash (bs_size h) (bs_entries h) t)
           (MkBlockStats n (bb_hash_resizes st) (bb_retranslations st) (full_debug_BBs st) (file_line_debug_BBs st)
              (fn_name_debug_BBs st) (no_debug_BBs st)) (exit_bb g)).

(** Take node [k] of bucket [i] out of its chain; [bp] is the node before. *)
Definition unlink (l : list bb_node) (table : list (option nat)) (i : Z) (bp : option nat) (k : nat)
  : res (list bb_node * list (option nat)) :=
  let! x := get_node l k in
  let! head := arr_get table i in
  match bp with
  | None =>
      let! _ := tl_assert (bool_decide (head = Some k)) "bb == bbs.table[idx]" in
      let! t := arr_set table i (bn_next x) in
      Ok (l, t)
  | Some b =>
      let! _ := tl_assert (negb (bool_decide (head = Some k))) "bb != bbs.table[idx]" in
      let! y := get_node l b in
      Ok (<[b := set_next (bn_next x) y]> l, table)
  end.

(** The part of [CLG_(delete_bb)] that concerns the table. *)
Definition remove_bb (g : program) (obj : nat) (offset : Z) : res (option nat * program) :=
  let h := all_bbs g in
  let! idx := bb_hash_idx obj offset (bs_size h) in
  let! p := arr_get (bs_table h) idx in
  let! r := find_before (length (bb_nodes g)) (fun x => Ok (at_place obj offset x)) (bb_nodes g) None p in
  match r with
  | None => Ok (None, g)
  | Some (bp, k) =>
      let! (l, t) := unlink (bb_nodes g) (bs_table h) idx bp k in
      Ok (Some k, set_table g l (MkBbHash (bs_size h) (bs_entries h) t))
  end.

(** ** Functions of blocks (fn.c) *)

Variable mem : Z -> Z.
Variable fn_addr bb_adr : nat -> Z.
Variable clo_pop_on_jump skip_plt : bool.
Variable clo_separate_callers clo_separate_recursions : Z.
(** The patterns of the command line. *)
Variable config : list config_node.
(** The debug information of the core, by address: the object, the file with its
    directory and line, the function, and the function if it starts there. *)
Variable find_DebugInfo : Z -> option DebugInfo.
Variable get_filename_linenum : Z -> option (string * string * Z).
Variable get_fnname get_fnname_if_entry : Z -> option string.
Variable DebugInfo_sect_kind : Z -> Z.

Definition set_syms (P : profile) (y : symbols) : profile :=
  let g := prog P in set_prog P (MkProgram y (bb_nodes g) (all_bbs g) (bstat g) (exit_bb g)).

(** Directory, file, function, line and object of an address. *)
Record debug_line : Type := MkDebugLine {
  dl_dir : string;
  dl_file : string;
  dl_fn : string;
  dl_line : Z;
  dl_di : option DebugInfo
}.

Definition get_debug_info (P : profile) (instr_addr : Z) : res (debug_line * profile) :=
  let di := find_DebugInfo instr_addr in
  let g := prog P in
  let st := bstat g in
  let finish d full fl fn no :=
    Ok (d, set_prog P (MkProgram (syms g) (bb_nodes g) (all_bbs g)
             (MkBlockStats (distinct_bbs st) (bb_hash_resizes st) (bb_retranslations st) full fl fn no) (exit_bb g))) in
  match get_filename_linenum instr_addr, get_fnname instr_addr with
  | None, None =>
      let! n := int_add (no_debug_BBs st) 1 in
      finish (MkDebugLine "" "???" "???" 0 di) (full_debug_BBs st) (file_line_debug_BBs st) (fn_name_debug_BBs st) n
  | Some (file, dir, line), Some fn =>
      let! n := int_add (full_debug_BBs st) 1 in
      finish (MkDebugLine dir file fn line di) n (file_line_debug_BBs st) (fn_name_debug_BBs st) (no_debug_BBs st)
  | Some (file, dir, line), None =>
      let! n := int_add (file_line_debug_BBs st) 1 in
      finish (MkDebugLine dir file "???" line di) (full_debug_BBs st) n (fn_name_debug_BBs st) (no_debug_BBs st)
  | None, Some fn =>
      let! n := int_add (fn_name_debug_BBs st) 1 in
      finish (MkDebugLine "" "???" fn 0 di) (full_debug_BBs st) (file_line_debug_BBs st) n (no_debug_BBs st)
  end.

(** The name of code without debug information: its offset and section. *)
Definition anonymous_fn (offset sect_kind : Z) : res string :=
  let! (s, _) := VG_vsprintf false "%#016lx" [VA_Long (u64 offset)] in
  let kind := if sect_kind =? Vg_SectData then " [Data]"%string else if sect_kind =? Vg_SectBSS then " [BSS]"%string
              else if sect_kind =? Vg_SectGOT then " [GOT]"%string else if sect_kind =? Vg_SectPLT then " [PLT]"%string
              else EmptyString in
  let! (t, _) := VG_vsprintf false "%s" [VA_Str (Some kind)] in
  Ok (s +:+ t).

Definition set_is_entry (b : block) : block :=
  MkBlock (b_obj_number b) (b_sect_kind b) (b_fn b) (b_line b) true (bbcc_list b) (last_bbcc b) (b_cjmp_count b) (b_cost_count b).
Definition set_fn (b : block) (fn line : Z) : block :=
  MkBlock (b_obj_number b) (b_sect_kind b) fn line (b_is_entry b) (bbcc_list b) (last_bbcc b) (b_cjmp_count b) (b_cost_count b).

Definition set_exit_bb (P : profile) (bb : Z) : profile :=
  let g := prog P in set_prog P (MkProgram (syms g) (bb_nodes g) (all_bbs g) (bstat g) bb).

(** The function is seen for the first time. *)
Definition first_seen (P : profile) (k : nat) (sect_kind : Z) : res profile :=
  let y := syms (prog P) in
  let! x := get_node (fnlinks y) k in
  if negb (bool_decide (pure_cxt x = None)) then Ok P else
  let a := fn_addr k in
  let! (c, s) := get_cxt (cx (here P)) [Some 0; Some a] 1 in
  let! f := deref_fn s a in
  let name := fn_name f in
  let link := MkFnLink (fk_name x) (fk_file x) (fk_next x) c (VG_strcmp name "malloc" =? 0) (VG_strcmp name "realloc" =? 0)
                (VG_strcmp name "free" =? 0) in
  let y := MkSymbols (objs y) (obj_table y) (filenodes y) (<[k := link]> (fnlinks y)) (distinct_objs y) (distinct_files y)
             (resolve_addrs y) in
  let f := MkFn name (number f) (last_cxt f) (dump_before f) (dump_after f) (zero_before f) (toggle_collect f)
             (if sect_kind =? Vg_SectPLT then skip_plt else fn_skip f)
             (if VG_strncmp name "_dl_runtime_resolve" 19 =? 0 then true else pop_on_jump f) (group f) (separate_callers f)
             (separate_recursions f) in
  let! f := update_fn_config config f in
  Ok (set_syms (set_here P (set_cx (here P) (set_contexts_fns s (<[a := f]> (fns s))))) y).

(** The code of the lazy-binding stub. *)
Definition in_resolver (y : symbols) (a : Z) : bool :=
  existsb (fun r => (r.1 <=? a) && (a <? u64 (r.1 + r.2))) (resolve_addrs y).

(** Everything [CLG_(get_fn_node)] does for a block that has no function yet. *)
Definition attach_fn (P : profile) (bb : Z) : res (Z * profile) :=
  let! B := deref_bb (here P) bb in
  let! (d, P) := get_debug_info P (bb_addr B) in
  let! b := deref_block P bb in
  let! (name, P) :=
    (if VG_strcmp (dl_fn d) "???" =? 0 then let! s := anonymous_fn (bb_offset B) (b_sect_kind b) in Ok (s, P)
     else match get_fnname_if_entry (bb_addr B) with
          | Some s => Ok (s, set_blocks P (<[bb := set_is_entry b]> (blocks P)))
          | None => Ok (dl_fn d, P)
          end) in
  let! (d, name, P) :=
    (if (VG_strcmp name "vgPlain___libc_freeres_wrapper" =? 0) && negb (exit_bb (prog P) =? 0) then
       let! E := deref_bb (here P) (exit_bb (prog P)) in
       let! (d, P) := get_debug_info P (bb_addr E) in Ok (d, dl_fn d, P)
     else Ok (d, name, P)) in
  let P := if (VG_strcmp name "_exit" =? 0) && (exit_bb (prog P) =? 0) then set_exit_bb P bb else P in
  let name := if in_resolver (syms (prog P)) (bb_addr B) then "_dl_runtime_resolve"%string else name in
  let! (k, y, p) := get_fn_node_inseg mem fn_addr clo_pop_on_jump clo_separate_callers clo_separate_recursions
                      (syms (prog P)) (proc P) (dl_di d) (dl_dir d) (dl_file d) name in
  let! P := first_seen (set_syms (set_proc P p) y) k (b_sect_kind b) in
  let! b := deref_block P bb in
  Ok (fn_addr k, set_blocks P (<[bb := set_fn b (fn_addr k) (dl_line d)]> (blocks P))).

Definition get_fn_node (P : profile) (bb : Z) : res (Z * profile) :=
  let! b := deref_block P bb in
  if negb (b_fn b =? 0) then Ok (b_fn b, P) else attach_fn P bb.

(** ** Blocks (bb.c) *)

Definition set_mapping (o : obj_node) (start offset : Z) : obj_node :=
  MkObj (o_name o) (last_slash_pos o) start (o_size o) offset (o_files o) (o_number o) (o_next o).

Definition set_obj_offset (offset : Z) (b : BB) : BB := MkBB offset (bb_offset b) (bb_jmp b) (bb_instr b).

(** The blocks of an object that was mapped elsewhere. *)
Definition move_blocks (l : list bb_node) (obj : nat) (offset : Z) (m : gmap Z BB) : gmap Z BB :=
  foldr (fun '(k, x) m => if (bn_obj x =? obj)%nat then alter (set_obj_offset offset) (bb_adr k) m else m) m (imap pair l).

Definition set_bbs (s : stacks) (m : gmap Z BB) : stacks :=
  MkStacks (cx s) (jm s) (centres s) m (costs s) (full s) (current_fn_stack s) (current_call_stack s)
    (current_fn_active s) (cur s) (skip_direct_recursion s) (stat s).

Definition obj_of_address (P : profile) (addr : Z) : res (nat * profile) :=
  let di := find_DebugInfo addr in
  let! (k, y) := get_obj_node mem (syms (prog P)) di in
  let P := set_syms P y in
  let! o := get_node (objs y) k in
  let field f := match di with Some d => f d | None => 0 end in
  let offset := field di_text_bias in
  if negb (o_offset o =? offset) then
    let start := field di_text_avma in
    let! _ := tl_assert (o_size o =? field di_text_size) "obj->size == (di ? VG_(DebugInfo_get_text_size)(di) : 0)" in
    let! _ := tl_assert (u64 (o_start o - start) =? u64 (o_offset o - offset)) "obj->start - start == obj->offset - offset" in
    let y := MkSymbols (<[k := set_mapping o start offset]> (objs y)) (obj_table y) (filenodes y) (fnlinks y) (distinct_objs y)
               (distinct_files y) (resolve_addrs y) in
    let s := here P in
    Ok (k, set_syms (set_here P (set_bbs s (move_blocks (bb_nodes (prog P)) k offset (bbs s)))) y)
  else Ok (k, P).

(** Fields and code of a new block; the others are 0. *)
Definition new_block (number sect_kind cjmp_count : Z) : block := MkBlock number sect_kind 0 0 false 0 0 cjmp_count 0.

Definition new_bb (P : profile) (obj : nat) (offset : Z) (bi : block_info) : res (Z * profile) :=
  let! (k, g) := add_bb (prog P) obj offset (bi_instrs bi) (bi_inverted bi) in
  let! o := get_node (objs (syms g)) obj in
  let bb := bb_adr k in
  let b := new_block (o_number o) (DebugInfo_sect_kind (u64 (offset + o_offset o))) (bi_cjmps bi) in
  let B := MkBB (o_offset o) offset (replicate (Z.to_nat (bi_cjmps bi + 1)) (MkCJmp 0 jk_None))
             (replicate (Z.to_nat (bi_instrs bi)) (0, 0)) in
  let P := set_prog P g in
  let P := set_blocks P (<[bb := b]> (blocks P)) in
  let P := set_here P (set_bbs (here P) (<[bb := B]> (bbs (here P)))) in
  let! (_, P) := get_fn_node P bb in
  Ok (bb, P).

Definition get_bb (P : profile) (addr : Z) (bbIn : option (list IRStmt)) : res (Z * bool * profile) :=
  let! (obj, P) := obj_of_address P addr in
  let! o := get_node (objs (syms (prog P))) obj in
  let offset := s64 (addr - o_offset o) in
  let! r := lookup_bb (prog P) obj offset in
  let! bi := collectBlockInfo bbIn in
  match r with
  | Some k =>
      let! x := get_node (bb_nodes (prog P)) k in
      let! b := deref_block P (bb_adr k) in
      let! _ := tl_assert (instr_count x =? bi_instrs bi) "bb->instr_count == n_instrs" in
      let! _ := tl_assert (b_cjmp_count b =? bi_cjmps bi) "bb->cjmp_count == n_jmps" in
      let g := prog P in
      let st := bstat g in
      let! n := int_add (bb_retranslations st) 1 in
      Ok (bb_adr k, true, set_prog P (MkProgram (syms g) (bb_nodes g) (all_bbs g)
            (MkBlockStats (distinct_bbs st) (bb_hash_resizes st) n (full_debug_BBs st) (file_line_debug_BBs st)
               (fn_name_debug_BBs st) (no_debug_BBs st)) (exit_bb g)))
  | None => let! (bb, P) := new_bb P obj offset bi in Ok (bb, false, P)
  end.

(** The memory of a block that has no cost centre is freed. *)
Definition delete_bb (P : profile) (addr : Z) : res profile :=
  let! (obj, P) := obj_of_address P addr in
  let! o := get_node (objs (syms (prog P))) obj in
  let! (r, g) := remove_bb (prog P) obj (s64 (addr - o_offset o)) in
  let P := set_prog P g in
  match r with
  | None => Ok P
  | Some k =>
      let! b := deref_block P (bb_adr k) in
      if bbcc_list b =? 0 then
        let P := set_blocks P (delete (bb_adr k) (blocks P)) in
        Ok (set_here P (set_bbs (here P) (delete (bb_adr k) (bbs (here P)))))
      else Ok P
  end.
End blocks.

(** ** Refinement: the table is a finite map *)

Section table.
Context (obj_addr : nat -> Z).

#[local] Hint Extern 0 (ChainNode bb_node) => exact (bb_chain obj_addr) : typeclass_instances.
#[local] Notation add_bb := (add_bb obj_addr).
#[local] Notation lookup_bb := (lookup_bb obj_addr).
#[local] Notation remove_bb := (remove_bb obj_addr).

(** Object and offset. *)
Definition place (x : bb_node) : nat * Z := (bn_obj x, bn_offset x).

Lemma at_place_iff o f x : at_place o f x = true <-> place x = (o, f).
Proof. unfold at_place, place. rewrite andb_true_iff, Nat.eqb_eq, Z.eqb_eq. split; [intros [-> ->]; done|by intros [= -> ->]]. Qed.

Definition bb_sized (h : bb_hash) : Prop := 0 < bs_size h /\ (bs_size h <= 8437 \/ bs_size h <= 3 * bs_entries h).

(** The table holds the blocks of the map [M]. *)
Record table_inv (g : program) (M : gmap (nat * Z) nat) : Prop := {
  ti_table : exists chains, hashed (bb_nodes g) (bs_table (all_bbs g)) (bs_size (all_bbs g)) chains /\
    forall k, k ∈ concat chains <-> exists x, bb_nodes g !! k = Some x /\ M !! place x = Some k;
  ti_map : forall y k, M !! y = Some k -> exists x, bb_nodes g !! k = Some x /\ place x = y;
  ti_size : bb_sized (all_bbs g) /\ bs_entries (all_bbs g) = Z.of_nat (length (bb_nodes g));
  ti_stats : 0 <= distinct_bbs (bstat g) <= Z.of_nat (length (bb_nodes g)) /\
    0 <= bb_hash_resizes (bstat g) <= Z.of_nat (length (bb_nodes g))
}.

Lemma lookup_bb_ok g M o f : table_inv g M -> lookup_bb g o f = Ok (M !! (o, f)).
Proof.
  intros [(chains & Hh & Hin) Hm [[Hs _] _] _]. unfold ClgBlocks.lookup_bb, bb_hash_idx.
  destruct (find_in (bb_nodes g) _ _ _ (bb_hash_val obj_addr o f) (fun x => Ok (at_place o f x)) (at_place o f)
    (length (bb_nodes g)) ltac:(done) Hs Hh ltac:(lia)) as (r & -> & Hr).
  { intros k x _ _ E%at_place_iff. cbn. by injection E as -> ->. }
  f_equal. destruct r as [k|].
  - destruct Hr as (Hk & x & Hx & E%at_place_iff). apply Hin in Hk as (x' & Hx' & Hk). congruence.
  - destruct (M !! (o, f)) as [k|] eqn:Ek; [|done]. destruct (Hm _ _ Ek) as (x & Hx & Ex).
    assert (at_place o f x = true) as Hb by (by apply at_place_iff). rewrite (Hr k x) in Hb; [done| |done].
    apply Hin. exists x. by rewrite Ex.
Qed.

(** After a resize, if there was one. *)
Lemma add_room g M : table_inv g M -> Z.of_nat (length (bb_nodes g)) < 2 ^ 26 ->
  let g1 := set_table g (bb_nodes g) (MkBbHash (bs_size (all_bbs g)) (bs_entries (all_bbs g) + 1) (bs_table (all_bbs g))) in
  exists g2, (let! fill := uint_div (u32 (10 * (bs_entries (all_bbs g) + 1))) (bs_size (all_bbs g)) in
      if 8 <? fill then resize_bb_table obj_addr g1 else Ok g1) = Ok g2 /\
    unlinked <$> bb_nodes g2 = unlinked <$> bb_nodes g /\ bs_entries (all_bbs g2) = bs_entries (all_bbs g) + 1 /\ bb_sized (all_bbs g2) /\
    distinct_bbs (bstat g2) = distinct_bbs (bstat g) /\
    bb_hash_resizes (bstat g) <= bb_hash_resizes (bstat g2) <= bb_hash_resizes (bstat g) + 1 /\
    exists chains, hashed (bb_nodes g2) (bs_table (all_bbs g2)) (bs_size (all_bbs g2)) chains /\
      forall k, k ∈ concat chains <-> exists x, bb_nodes g !! k = Some x /\ M !! place x = Some k.
Proof.
  intros [(chains & Hh & Hin) Hm [[Hs0 Hs] He] (S1 & S2)] HN g1. unfold uint_div.
  set (e := bs_entries (all_bbs g) + 1) in *. set (n := bs_size (all_bbs g)) in *.
  rewrite (proj2 (Z.eqb_neq _ _)) by lia. cbn [rbind]. rewrite wrapu_small by (unfold in_u; subst e; lia).
  destruct (Z.ltb_spec 8 (10 * e / n)) as [Hf|Hf].
  - assert (9 * n <= 10 * e) as Hg.
    { pose proof (Z.mul_div_le (10 * e) (n) Hs0) as Hd. nia. }
    unfold resize_bb_table. subst g1. cbn [set_table all_bbs bs_size bs_table bs_entries bb_nodes bstat syms exit_bb].
    rewrite wraps_small by (unfold in_s; subst e; lia).
    destruct (rehash_ok (2 * n + 3) _ _ _ _ ltac:(lia) Hh) as (l & t & chains' & -> & Hh' & Hp & Hu & _).
    cbn [rbind]. unfold int_add. rewrite signed_result_in by (unfold in_s; lia). cbn [rbind].
    rewrite wrapu_small by (unfold in_u; subst e; lia). eexists. split; [done|].
    cbn [bb_nodes all_bbs bs_entries bstat distinct_bbs bb_hash_resizes]. split_and!; try done; try lia.
    + unfold bb_sized. cbn. subst e. lia.
    + exists chains'. split; [done|]. intros k. by rewrite Hp, Hin.
  - eexists. split; [done|]. subst g1. cbn [set_table bb_nodes all_bbs bs_entries bstat]. split_and!; try done; try lia.
    + unfold bb_sized. cbn. subst e. lia.
    + by exists chains.
Qed.

Lemma same_places (l l' : list bb_node) k y : unlinked <$> l' = unlinked <$> l -> l' !! k = Some y ->
  exists x, l !! k = Some x /\ place x = place y.
Proof.
  intros Hu Hy. assert ((unlinked <$> l') !! k = Some (unlinked y)) as Hk by (by rewrite list_lookup_fmap, Hy).
  rewrite Hu, list_lookup_fmap in Hk. destruct (l !! k) as [x|] eqn:Ex; [|done]. exists x. split; [done|].
  destruct x, y. cbn in Hk. by injection Hk as -> -> -> ->.
Qed.

(** The map of the same blocks, relinked. *)
Lemma places_iff (l l' : list bb_node) (M : gmap (nat * Z) nat) k : unlinked <$> l' = unlinked <$> l ->
  (exists x, l' !! k = Some x /\ M !! place x = Some k) <-> (exists x, l !! k = Some x /\ M !! place x = Some k).
Proof.
  intros Hu. split; intros (x & Hx & Hk).
  - destruct (same_places l l' k x Hu Hx) as (y & Hy & E). exists y. by rewrite E.
  - symmetry in Hu. destruct (same_places l' l k x Hu Hx) as (y & Hy & E). exists y. by rewrite E.
Qed.

Lemma add_bb_ok g M o f ic iv : table_inv g M -> M !! (o, f) = None -> Z.of_nat (length (bb_nodes g)) < 2 ^ 26 ->
  exists g', add_bb g o f ic iv = Ok (length (bb_nodes g), g') /\ table_inv g' (<[(o, f) := length (bb_nodes g)]> M) /\
    length (bb_nodes g') = S (length (bb_nodes g)).
Proof.
  intros HI Hn HN. pose proof HI as [_ Hm [[Hs0 Hs] He] (S1 & S2)]. unfold ClgBlocks.add_bb.
  rewrite (wrapu_small 32 (bs_entries (all_bbs g) + 1)) by (unfold in_u; lia).
  destruct (add_room g M HI HN) as (g2 & E & Hu & He2 & Hs2 & Sd & Sr & chains & Hh & Hin).
  destruct (uint_div _ _) as [fill|]; [|done]. cbn [rbind] in E |- *. rewrite E. cbn [rbind]. clear E.
  assert (length (bb_nodes g2) = length (bb_nodes g)) as Hl.
  { apply (f_equal length) in Hu. by rewrite !length_fmap in Hu. }
  pose proof Hs2 as [Hz _]. unfold bb_hash_idx. rewrite bucket_pos by done. cbn [rbind].
  set (i := bb_hash_val obj_addr o f mod bs_size (all_bbs g2)).
  pose proof (Z.mod_pos_bound (bb_hash_val obj_addr o f) _ Hz) as Hb. fold i in Hb.
  destruct (lookup_lt_is_Some_2 (bs_table (all_bbs g2)) (Z.to_nat i)) as [head Hhd];
    [pose proof (hd_size _ _ _ _ Hh); lia|].
  rewrite (arr_get_in _ i head) by (done || lia). cbn [rbind]. set (x := MkBbNode o f head ic iv).
  destruct (push_ok (bb_nodes g2) _ _ _ x head Hz Hh) as (t' & c' & E' & Hh' & Hp);
    [exact (arr_get_in _ i head ltac:(lia) Hhd)|done|]. change (hash x mod bs_size (all_bbs g2)) with i in E'. rewrite E'. cbn [rbind].
  unfold int_add. rewrite signed_result_in by (unfold in_s; lia). cbn [rbind]. rewrite Hl in *.
  eexists. split; [done|]. split; [|cbn; rewrite length_app; simpl; lia].
  constructor; cbn [bb_nodes all_bbs bs_table bs_size bs_entries bstat distinct_bbs bb_hash_resizes].
  - exists c'. split; [done|]. intros k. rewrite Hp, elem_of_cons, Hin, <- (places_iff _ _ M k Hu). split.
    + intros [->|(z & Hz' & Hk)].
      * exists x. rewrite lookup_app_r, Hl, Nat.sub_diag by lia. split; [done|]. by rewrite lookup_insert_eq.
      * exists z. split; [by apply lookup_app_l_Some|]. rewrite lookup_insert_ne; [done|]. intros E. by rewrite <- E, Hn in Hk.
    + intros (z & Hz' & Hk). apply lookup_snoc_Some in Hz' as [[Hlt Hz']|[-> _]]; [|left; lia].
      right. exists z. split; [done|]. apply lookup_insert_Some in Hk as [[_ <-]|[_ Hk]]; [lia|done].
  - intros y k Hk. apply lookup_insert_Some in Hk as [[<- <-]|[_ Hk]].
    + exists x. by rewrite lookup_app_r, Hl, Nat.sub_diag by lia.
    + destruct (Hm y k Hk) as (z & Hz' & Ez). symmetry in Hu. destruct (same_places _ _ k z Hu Hz') as (z' & Hz2 & Ez2).
      exists z'. split; [by apply lookup_app_l_Some|congruence].
  - split; [unfold bb_sized in *; cbn; lia|]. rewrite length_app. simpl. lia.
  - rewrite length_app. simpl. lia.
Qed.

(** *** Taking a block out *)

Lemma unlink_ok l table size chains i l1 k l2 x : hashed l table size chains -> chains !! i = Some (l1 ++ k :: l2) ->
  l !! k = Some x ->
  exists l' t', unlink obj_addr l table (Z.of_nat i) (last l1) k = Ok (l', t') /\ hashed l' t' size (<[i := l1 ++ l2]> chains) /\
    unlinked <$> l' = unlinked <$> l.
Proof.
  intros Hh Hi Hx. pose proof (hashed_unlink _ _ _ _ _ _ _ _ x Hh Hi Hx) as Hun.
  destruct (hd_chain _ _ _ _ Hh i _ Hi) as (p & Hp & Hc). destruct (chain_split _ _ _ _ _ Hc) as [_ Hlast].
  pose proof (nodup_bucket _ _ _ (hd_nodup _ _ _ _ Hh) Hi) as Hnd.
  unfold unlink, get_node. rewrite Hx. cbn [rbind].
  rewrite (arr_get_in _ _ p) by (rewrite ?Nat2Z.id; done || lia). cbn [rbind].
  destruct (last l1) as [b|] eqn:El.
  - destruct Hlast as (y & Hy & _). rewrite bool_decide_eq_false_2.
    + cbn [negb tl_assert rbind]. rewrite Hy. cbn [rbind]. eexists _, _. split; [done|]. split; [by apply Hun|].
      rewrite list_fmap_insert. apply list_insert_id. rewrite list_lookup_fmap, Hy. done.
    + intros ->. destruct l1 as [|j l1]; [done|]. destruct Hc as [[= ->] _]. cbn in Hnd. apply NoDup_cons in Hnd as [Hnd _].
      apply Hnd. set_solver.
  - apply last_None in El as ->. rewrite Hlast, bool_decide_eq_true_2 by done. cbn [tl_assert rbind].
    rewrite arr_set_in by (apply lookup_lt_Some in Hp; lia). rewrite Nat2Z.id. cbn [rbind]. by eexists _, _.
Qed.

Lemma remove_bb_ok g M o f : table_inv g M ->
  exists g', remove_bb g o f = Ok (M !! (o, f), g') /\ table_inv g' (delete (o, f) M) /\ length (bb_nodes g') = length (bb_nodes g).
Proof.
  intros HI. pose proof HI as [(chains & Hh & Hin) Hm [[Hs0 Hs] He] Hst]. unfold ClgBlocks.remove_bb, bb_hash_idx.
  rewrite bucket_pos by done. cbn [rbind]. set (h := bb_hash_val obj_addr o f).
  pose proof (Z.mod_pos_bound h _ Hs0) as Hb. set (i := h mod bs_size (all_bbs g)) in *.
  pose proof (hd_size _ _ _ _ Hh) as Hsz. pose proof (hd_len _ _ _ _ Hh) as Hln.
  destruct (lookup_lt_is_Some_2 chains (Z.to_nat i)) as [l Hl]; [lia|].
  destruct (hd_chain _ _ _ _ Hh _ _ Hl) as (p & Hp & Hc). rewrite (arr_get_in _ i p) by (done || lia). cbn [rbind].
  pose proof (bucket_length _ _ _ _ _ _ Hh Hl) as Hlen. pose proof (nodup_bucket _ _ _ (hd_nodup _ _ _ _ Hh) Hl) as Hnd.
  assert (forall j y, j ∈ l -> bb_nodes g !! j = Some y -> M !! place y = Some j) as Hmem.
  { intros j y Hj Hy. destruct (proj1 (Hin j)) as (y' & Hy' & Hk); [by eapply in_concat|]. congruence. }
  destruct (M !! (o, f)) as [k|] eqn:Ek.
  - destruct (Hm _ _ Ek) as (x & Hx & Ex).
    assert (k ∈ l) as Hkl.
    { assert (k ∈ concat chains) as Hk by (apply Hin; exists x; by rewrite Ex). apply elem_of_concat in Hk as (l' & Hk & Hl').
      apply list_elem_of_lookup_1 in Hl' as [j Hj]. pose proof (hd_hash _ _ _ _ Hh j l' k x Hj Hk Hx) as Hhk.
      cbn in Hhk. injection Ex as E1 E2. rewrite E1, E2 in Hhk. fold h in Hhk. fold i in Hhk. assert (j = Z.to_nat i) as -> by lia. congruence. }
    apply list_elem_of_split in Hkl as (l1 & l2 & ->).
    rewrite (find_before_ok _ _ (at_place o f) _ None p l1 k l2 x); [|done|done| | |done|by apply at_place_iff].
    2: { rewrite length_app in Hlen. simpl in Hlen. lia. }
    2: { intros j y Hj Hy. destruct (at_place o f y) eqn:Eb; [|done]. apply at_place_iff in Eb.
      pose proof (Hmem j y ltac:(set_solver) Hy) as Hmy. rewrite Eb, Ek in Hmy. injection Hmy as <-.
      apply NoDup_app in Hnd as (_ & Hnd & _). exfalso. apply (Hnd k Hj). by left. }
    replace (match last l1 with Some n => Some n | None => None end) with (last l1) by (by destruct (last l1)). cbn [rbind].
    replace i with (Z.of_nat (Z.to_nat i)) by lia.
    destruct (unlink_ok _ _ _ _ _ _ _ _ x Hh Hl Hx) as (l' & t' & -> & Hh' & Hu). cbn [rbind].
    assert (length l' = length (bb_nodes g)) as Hll by (apply (f_equal length) in Hu; by rewrite !length_fmap in Hu).
    eexists. split; [done|]. split; [|done].
    constructor; cbn [set_table bb_nodes all_bbs bs_table bs_size bs_entries bstat]; rewrite ?Hll; try done.
    + eexists. split; [exact Hh'|]. intros j. rewrite (places_iff _ _ _ j Hu).
      assert (j ∈ concat (<[Z.to_nat i := l1 ++ l2]> chains) <-> j ∈ concat chains /\ j <> k) as ->.
      { pose proof (hd_nodup _ _ _ _ Hh) as Hnc. rewrite (concat_remove _ _ _ _ _ Hl) in Hnc |- *.
        apply NoDup_cons in Hnc as [Hnc _]. rewrite elem_of_cons. split; [intros Hj; split; [by right|by intros ->]|].
        intros [[->|Hj] Hne]; done. }
      rewrite Hin. split.
      * intros [(z & Hz & Hk) Hne]. exists z. split; [done|]. rewrite lookup_delete_ne; [done|]. intros E.
        rewrite <- E, Ek in Hk. congruence.
      * intros (z & Hz & Hk). apply lookup_delete_Some in Hk as [Hne Hk]. split; [by exists z|]. intros ->. congruence.
    + intros y j Hj. apply lookup_delete_Some in Hj as [_ Hj]. destruct (Hm y j Hj) as (z & Hz & Ez). symmetry in Hu.
      destruct (same_places _ _ j z Hu Hz) as (z' & Hz' & Ez'). exists z'. split; [done|congruence].
  - rewrite (find_before_none _ _ (at_place o f) _ _ _ l); [|done|done|done|].
    2: { intros j y Hj Hy. destruct (at_place o f y) eqn:Eb; [|done]. apply at_place_iff in Eb.
      pose proof (Hmem j y Hj Hy) as Hmy. by rewrite Eb, Ek in Hmy. }
    cbn [rbind]. exists g. split; [done|]. split; [|done]. by rewrite delete_id.
Qed.

(** *** Sequences of requests *)

(** A block is needed, with the number of its instructions, or discarded. *)
Inductive demand : Type :=
  | Need (obj : nat) (offset icount : Z) (inverted : bool)
  | Discard (obj : nat) (offset : Z).

(** What [CLG_(get_bb)] and [CLG_(delete_bb)] do to the table. *)
Definition serve (g : program) (d : demand) : res (option nat * program) :=
  match d with
  | Need o f ic iv =>
      let! r := lookup_bb g o f in
      match r with
      | Some k => Ok (Some k, g)
      | None => let! (k, g) := add_bb g o f ic iv in Ok (Some k, g)
      end
  | Discard o f => remove_bb g o f
  end.

Fixpoint serve_all (g : program) (ds : list demand) : res (list (option nat) * program) :=
  match ds with
  | [] => Ok ([], g)
  | d :: ds' =>
      let! (r, g) := serve g d in
      let! (rs, g) := serve_all g ds' in Ok (r :: rs, g)
  end.

(** The same on a finite map; [n] blocks were made. *)
Definition spec_serve (M : gmap (nat * Z) nat) (n : nat) (d : demand) : option nat * gmap (nat * Z) nat * nat :=
  match d with
  | Need o f _ _ => match M !! (o, f) with Some k => (Some k, M, n) | None => (Some n, <[(o, f) := n]> M, S n) end
  | Discard o f => (M !! (o, f), delete (o, f) M, n)
  end.

Fixpoint spec_serve_all (M : gmap (nat * Z) nat) (n : nat) (ds : list demand) : list (option nat) :=
  match ds with
  | [] => []
  | d :: ds' => let '(r, M, n) := spec_serve M n d in r :: spec_serve_all M n ds'
  end.

Lemma serve_ok g M d : table_inv g M -> Z.of_nat (length (bb_nodes g)) < 2 ^ 26 ->
  exists g', serve g d = Ok ((spec_serve M (length (bb_nodes g)) d).1.1, g') /\
    table_inv g' (spec_serve M (length (bb_nodes g)) d).1.2 /\ length (bb_nodes g') = (spec_serve M (length (bb_nodes g)) d).2.
Proof.
  intros HI HN. destruct d as [o f ic iv|o f]; cbn [serve spec_serve].
  - rewrite (lookup_bb_ok g M) by done. cbn [rbind]. destruct (M !! (o, f)) as [k|] eqn:Ek; [by exists g|].
    destruct (add_bb_ok g M o f ic iv HI Ek HN) as (g' & -> & HI' & Hl). by exists g'.
  - destruct (remove_bb_ok g M o f HI) as (g' & -> & HI' & Hl). by exists g'.
Qed.

Lemma spec_serve_bound M n d : (n <= (spec_serve M n d).2 <= S n)%nat.
Proof. destruct d as [o f ic iv|o f]; cbn; [destruct (M !! (o, f)); cbn; lia|lia]. Qed.

Lemma serve_all_ok g M ds : table_inv g M -> Z.of_nat (length (bb_nodes g)) + Z.of_nat (length ds) < 2 ^ 26 ->
  exists g', serve_all g ds = Ok (spec_serve_all M (length (bb_nodes g)) ds, g').
Proof.
  revert g M; induction ds as [|d ds IH]; intros g M HI HN; cbn [serve_all spec_serve_all length] in *; [by exists g|].
  destruct (serve_ok g M d HI) as (g1 & -> & HI1 & Hl); [lia|]. cbn [rbind].
  pose proof (spec_serve_bound M (length (bb_nodes g)) d) as Hb.
  destruct (spec_serve M (length (bb_nodes g)) d) as [[r M1] n1]. cbn [fst snd] in *.
  destruct (IH g1 M1 HI1) as (g2 & E2); [lia|]. rewrite E2. cbn [rbind]. rewrite Hl. by exists g2.
Qed.

Definition no_blocks (y : symbols) : program := MkProgram y [] init_bb_hash (MkBlockStats 0 0 0 0 0 0 0) 0.

Lemma no_blocks_ok y : table_inv (no_blocks y) ∅.
Proof.
  constructor; cbn [no_blocks bb_nodes all_bbs init_bb_hash bs_table bs_size bs_entries bstat distinct_bbs bb_hash_resizes].
  - exists (replicate 8437 []). split; [apply (empty_hashed [] 8437)|]. intros k. rewrite concat_empty.
    split; [by intros ?%elem_of_nil|]. by intros (x & Hx & _).
  - intros y' k Hk. by rewrite lookup_empty in Hk.
  - split; [|done]. split; [done|by left].
  - cbn. lia.
Qed.

(** C15. The table of blocks, through collisions, resizes and deletions, is a
    finite map from object and offset to blocks: a block is made when there is
    none at its place, is found as long as it is not discarded, and discarding
    one leaves the others alone; no request fails. *)
Theorem block_table_refines (y : symbols) (ds : list demand) :
  Z.of_nat (length ds) < 2 ^ 26 ->
  exists g, serve_all (no_blocks y) ds = Ok (spec_serve_all ∅ 0 ds, g).
Proof. intros HN. apply (serve_all_ok (no_blocks y) ∅ ds); [apply no_blocks_ok|cbn; lia]. Qed.
End table.

(** Two blocks of one object, the first one discarded and made again. *)
Lemma block_table_refines_witness :
  exists g, serve_all (fun i => 1000 * Z.of_nat i) (no_blocks init_obj_table)
    [Need 1 64 3 false; Need 1 96 2 false; Need 1 64 3 false; Discard 1 64; Discard 1 64; Need 1 64 3 false; Need 1 96 2 false] =
      Ok ([Some 0; Some 1; Some 0; Some 0; None; Some 2; Some 1]%nat, g).
Proof.
  destruct (block_table_refines (fun i => 1000 * Z.of_nat i) init_obj_table
    [Need 1 64 3 false; Need 1 96 2 false; Need 1 64 3 false; Discard 1 64; Discard 1 64; Need 1 64 3 false; Need 1 96 2 false])
    as (g & E).
  - cbn. lia.
  - exists g. rewrite E. reflexivity.
Defined.

(** ** The block of _exit *)

(** [exit_bb] still points to the block of [_exit] after the block was freed, and
    is read when the wrapper of the core gets its name. *)
Definition ex_fn_at (a : Z) : option string :=
  if a =? 4096 then Some "_exit"%string else Some "vgPlain___libc_freeres_wrapper"%string.

Definition ex_block_at (P : profile) (a : Z) : res (Z * bool * profile) :=
  get_bb (fun i => 64 * Z.of_nat i) (fun _ => 0) (fun k => 8 * (Z.of_nat k + 1)) (fun k => 512 * (Z.of_nat k + 1)) false false 0 1 []
    (fun _ => None) (fun _ => None) ex_fn_at ex_fn_at (fun _ => 1) P a None.

Example exit_bb_dangles :
  let P := MkProfile ex_process ∅ [] [] (MkCentreStats 0 0 0 0 0 0) 0 None (no_blocks init_obj_table) in
  (let! (_, _, P) := ex_block_at P 4096 in
   let! P := delete_bb (fun i => 64 * Z.of_nat i) (fun _ => 0) (fun k => 512 * (Z.of_nat k + 1)) (fun _ => None) P 4096 in
   ex_block_at P 8192) = Err OutOfBounds.
Proof. vm_compute. reflexivity. Qed.
