(* ===== verification/ClgSetup.v ===== *)
(** * ClgSetup: the start of a block (callgrind/bbcc.c)

    [CLG_(setup_bbcc)] is called at the start of every instrumented block.  It
    counts the block that was left, decides from the jump that ended it, the stack
    pointer and the call stack whether the program called, returned or jumped, and
    brings call stack, context and cost centre up to date.  This is the code for
    platforms other than ppc32.  The running thread and its stack pointer come
    from the core. *)

From Stdlib Require Import ZArith Lia Ascii String.
From stdpp Require Import base numbers option strings gmap sets list.
From S2P Require Import Prelude ClgLog ClgCosts ClgEvents ClgHash ClgJumps ClgContext ClgPatterns ClgStack ClgThreads ClgNames ClgCentres ClgBlocks.

#[local] Open Scope Z_scope.

#[global] Instance ClgJumpKind_eq_dec : EqDecision ClgJumpKind.
Proof. solve_decision. Defined.

Section setup.
Variable cxt_addr : nat -> Z.
Variable addr : nat -> Z.
Variable num : Z -> option nat.
(** The options of the run and the number of threads. *)
Variable collect_atstart separate_threads simulate_cache collect_jumps : bool.
Variable VG_N_THREADS : Z.
Variable dump_profile : string -> stacks -> res stacks.
Variable zero_all_cost : stacks -> res stacks.
(** Those of the blocks and their functions. *)
Variable obj_addr fn_addr bb_adr : nat -> Z.
Variable mem : Z -> Z.
Variable clo_pop_on_jump skip_plt : bool.
Variable clo_separate_callers clo_separate_recursions : Z.
Variable config : list config_node.
Variable find_DebugInfo : Z -> option DebugInfo.
Variable get_filename_linenum : Z -> option (string * string * Z).
Variable get_fnname get_fnname_if_entry : Z -> option string.
Variable DebugInfo_sect_kind : Z -> Z.

#[local] Notation get_bb := (get_bb obj_addr mem fn_addr bb_adr clo_pop_on_jump skip_plt clo_separate_callers
  clo_separate_recursions config find_DebugInfo get_filename_linenum get_fnname get_fnname_if_entry DebugInfo_sect_kind).
#[local] Notation get_fn_node := (get_fn_node mem fn_addr clo_pop_on_jump skip_plt clo_separate_callers
  clo_separate_recursions config find_DebugInfo get_filename_linenum get_fnname get_fnname_if_entry).

#[local] Notation deref_node := (deref_node num).
#[local] Notation upd_node := (upd_node num).
#[local] Notation get_bbcc := (get_bbcc addr num).
#[local] Notation insert_bbcc_into_hash := (insert_bbcc_into_hash cxt_addr num).
#[local] Notation place_base := (place_base cxt_addr num).
#[local] Notation select_centre := (select_centre cxt_addr addr num separate_threads).
#[local] Notation push_call_stack := (push_call_stack dump_profile zero_all_cost).

(** [CLG_(pop_call_stack)] and [CLG_(unwind_call_stack)]; a thread can be in no
    more than [MAX_SIGHANDLERS] signal handlers at a time. *)
Definition pop (p : process) : res process :=
  pop_call_stack collect_atstart separate_threads VG_N_THREADS dump_profile (Z.to_nat MAX_SIGHANDLERS) p.

Definition unwind (P : profile) (sp minpops : Z) : res (Z * profile) :=
  let! (n, p) := unwind_call_stack (fun p => current_call_stack (now p)) pop (proc P) sp minpops in
  Ok (n, set_proc P p).

(** ** Returns without a call *)

(** [ecounter_sum] of the centre calls are charged to, for a call that was made
    before the program was watched. *)
Definition count_source (P : profile) (p : Z) (seen_before : bool) : res profile :=
  let collect := x_collect (cur (here P)) in
  upd_node P p (fun x =>
    if negb seen_before then set_counters (if collect then 1 else 0) (ecounters x) x
    else if collect then set_counters (u64 (ecounter_sum x + 1)) (ecounters x) x
    else x).

Definition handleUnderflow (P : profile) (bb : Z) : res profile :=
  let! b := deref_bb (here P) bb in
  let! (source_bb, seen_before, P) := get_bb P (u64 (bb_addr b - 1)) None in
  let! (source_bbcc, P) := get_bbcc P source_bb in
  let! P := count_source P source_bbcc seen_before in
  let st := current_fn_stack (here P) in
  let P := set_here P (set_fn_stack (here P) (MkFnStack (fs_size st) (fs_array st) (fs_top st - 1))) in
  let P := set_here P (set_cur (here P) (set_x_cxt (cur (here P)) None)) in
  let! (caller, P) := get_fn_node P bb in
  let! s := push_cxt (here P) caller in
  let P := set_here P s in
  let! P := (if negb (seen_before : bool) then
               let! f := deref_fn (cx (here P)) caller in
               let! x := deref_node P source_bbcc in
               let! _ := tl_assert (bool_decide (bc_cxt x = None)) "source_bbcc->cxt == 0" in
               place_base P source_bbcc (x_cxt (cur (here P))) (rec_index x) (separate_recursions f)
             else Ok P) in
  let current := x_bbcc (cur (here P)) in
  let! _ := tl_assert (negb (current =? 0)) "CLG_(current_state).bbcc" in
  let! fn := centre_fn (here P) current in
  let! f := deref_fn (cx (here P)) fn in
  let! i := get_fn_entry (here P) (number f) in
  let! s := add_active (here P) i (-1) in
  let s := set_cur s (set_x_nonskipped (cur s) 0) in
  let! s := push_cxt s fn in
  let! s := push_call_stack s source_bbcc 0 current (u64 (-1)) false in
  let! sp := int_sub (cs_sp (current_call_stack s)) 1 in
  let! e := arr_get (cs_entry (current_call_stack s)) sp in
  let! m := (if x_sig (cur s) =? 0 then
               let! t := deref_thread (proc P) (current_tid (proc P)) in
               copy_cost (full s) (costs s) (enter_cost e) (lastdump_cost t)
             else zero_cost (full s) (costs s) (enter_cost e)) in
  Ok (set_here P (set_costs s m)).

(** ** The last block *)

Record departure : Type := MkDeparture {
  d_last_bb : Z;
  d_passed : Z;
  d_jmpkind : ClgJumpKind;
  d_conditional : bool
}.

(** [cost[fullOffset(EG_IR)] += n] *)
Definition add_ir (s : stacks) (p : option cptr) (n : Z) : res stacks :=
  let! off := arr_get (es_offset (full s)) EG_IR in
  match p with
  | None => Err NullDeref
  | Some c => let! m := cost_add (costs s) (ptr_add c off) n in Ok (set_costs s m)
  end.

(** The exit taken is counted, and without cache simulation the instructions up
    to it. *)
Definition count_exit (P : profile) (last passed : Z) (j : CJmpInfo) : res profile :=
  let s := here P in
  let instr_count := u32 (cj_instr j + 1) in
  if negb (x_collect (cur s)) then Ok P else
  if x_nonskipped (cur s) =? 0 then
    let! x := deref_node P last in
    let! n := arr_get (ecounters x) passed in
    let! l := arr_set (ecounters x) passed (u64 (n + 1)) in
    let! P := upd_node P last (set_counters (u64 (ecounter_sum x + 1)) l) in
    if simulate_cache then Ok P else
    let! s := add_ir (here P) (x_cost (cur s)) instr_count in Ok (set_here P s)
  else if simulate_cache then Ok P else
    let! s := add_ir s (x_cost (cur s)) instr_count in
    let! c := deref_centre s (x_nonskipped (cur s)) in
    let! s := add_ir s (cc_skipped c) instr_count in Ok (set_here P s).

Definition leave_block (P : profile) : res (departure * profile) :=
  let last := x_bbcc (cur (here P)) in
  if last =? 0 then Ok (MkDeparture 0 0 jk_None false, P) else
  let! x := deref_node P last in
  let! lb := deref_block P (bc_bb x) in
  let! b := deref_bb (here P) (bc_bb x) in
  let passed := jmps_passed (cur (here P)) in
  let! _ := tl_assert (u32 passed <=? b_cjmp_count lb) "passed <= last_bb->cjmp_count" in
  let! j := arr_get (bb_jmp b) passed in
  let! P := count_exit P last passed j in
  Ok (MkDeparture (bc_bb x) passed (cj_jmpkind j) (u32 passed <? b_cjmp_count lb), P).

(** ** Returns *)

(** Frames with the same stack pointer: how many to pop for the one that returns
    to [ret], 0 if there is none. *)
Fixpoint matching_frames (fuel : nat) (es : list call_entry) (csp_up sp ret popcount : Z) : res Z :=
  let! e := arr_get es csp_up in
  let! r := written (ret_addr e) in
  if r =? ret then Ok popcount else
  if csp_up <=? 0 then Ok 0 else
  match fuel with
  | O => Err OutOfFuel
  | S fuel' =>
      let! e := arr_get es (csp_up - 1) in
      let! esp := written (ce_sp e) in
      if esp =? sp then matching_frames fuel' es (csp_up - 1) sp ret (popcount + 1) else Ok 0
  end.

(** The number of frames a return instruction leaves; 0 if it is a jump. *)
Definition popcount_on_return (cs : call_stack) (sp ret : Z) : res Z :=
  let! e := arr_get (cs_entry cs) (cs_sp cs - 1) in
  let! esp := written (ce_sp e) in
  if sp <? esp then Ok 0
  else if esp =? sp then matching_frames (Z.to_nat (cs_sp cs)) (cs_entry cs) (cs_sp cs - 1) sp ret 1
  else Ok 1.

(** ** The start of a block *)

(** A jump that is taken for a call. *)
Definition is_tail_call (lb b : block) (ret_without_call : bool) : bool :=
  ret_without_call || b_is_entry b || negb (b_sect_kind lb =? b_sect_kind b) || negb (b_obj_number lb =? b_obj_number b).

(** [--pop-on-jump]: the jump leaves the function it is in.  Returns the stack
    pointer and the exit of the call that takes its place. *)
Definition pop_on_jump_from (P : profile) (last_bb sp passed : Z) : res (Z * Z * profile) :=
  let csp := cs_sp (current_call_stack (here P)) in
  let! (fn, P) := get_fn_node P last_bb in
  let! f := deref_fn (cx (here P)) fn in
  if pop_on_jump f && (0 <? csp) then
    let! e := arr_get (cs_entry (current_call_stack (here P))) (csp - 1) in
    let! jcc := written (ce_jcc e) in
    match jcc with
    | Some k =>
        let! x := get_node (jccs (jm (here P))) k in
        let! esp := written (ce_sp e) in
        let c := cur (here P) in
        let P := set_here P (set_cur (here P) (MkExecInfo (x_sig c) (x_cost c) (x_collect c) (x_cxt c) (jmps_passed c)
                   (from x) (x_nonskipped c) (call_stack_bottom c))) in
        let! p := pop (proc P) in
        Ok (esp, s32 (jmp x), set_proc P p)
    | None =>
        let! _ := tl_assert (negb (x_nonskipped (cur (here P)) =? 0)) "CLG_(current_state).nonskipped != 0" in
        Ok (sp, passed, P)
    end
  else Ok (sp, passed, P).

(** What kind of transfer brought the program here. *)
Record arrival : Type := MkArrival {
  a_kind : ClgJumpKind;
  a_sp : Z;
  a_passed : Z;
  a_pops : Z;
  a_emulated : bool
}.

Definition classify (P : profile) (d : departure) (bb sp : Z) : res (arrival * profile) :=
  let csp := cs_sp (current_call_stack (here P)) in
  let! b := deref_bb (here P) bb in
  let! pops := (if bool_decide (d_jmpkind d = jk_Return) && (0 <? csp)
                then popcount_on_return (current_call_stack (here P)) sp (bb_addr b) else Ok 1) in
  let ret_without_call := pops =? 0 in
  let kind := if ret_without_call then jk_Jump else d_jmpkind d in
  if negb (bool_decide (kind = jk_Return)) && negb (bool_decide (kind = jk_Call)) && negb (d_last_bb d =? 0) then
    let! blk := deref_block P bb in
    let! lblk := deref_block P (d_last_bb d) in
    if is_tail_call lblk blk ret_without_call then
      let! (sp, passed, P) := pop_on_jump_from P (d_last_bb d) sp (d_passed d) in
      Ok (MkArrival jk_Call sp passed pops true, P)
    else Ok (MkArrival kind sp (d_passed d) pops false, P)
  else Ok (MkArrival kind sp (d_passed d) pops false, P).

(** The function stack is at a marker, or the call stack is empty. *)
Definition underflows (s : stacks) (csp : Z) : res bool :=
  if csp =? 0 then Ok true else
  let st := current_fn_stack s in
  if 0 <? fs_top st then
    let! f := read_fn (fs_array st) (Z.to_nat (fs_top st - 1)) in Ok (f =? 0)
  else Ok false.

(** The call stack follows; returns the final kind, whether a call is still to be
    pushed, and the stack pointer for it. *)
Definition sync_calls (P : profile) (a : arrival) (bb csp : Z) : res (ClgJumpKind * bool * Z * profile) :=
  if bool_decide (a_kind a = jk_Return) then
    let! u := underflows (here P) csp in
    if (u : bool) then
      let! P := handleUnderflow P bb in
      let! p := pop (proc P) in
      Ok (jk_Return, false, a_sp a, set_proc P p)
    else
      let! _ := tl_assert (0 <? a_pops a) "popcount_on_return >0" in
      let! (_, P) := unwind P (a_sp a) (a_pops a) in
      Ok (jk_Return, false, a_sp a, P)
  else
    let! (n, P) := unwind P (a_sp a) 0 in
    let kind := if 0 <? n then jk_Return else a_kind a in
    if bool_decide (kind = jk_Call) then
      let cs := current_call_stack (here P) in
      let! sp := (if a_emulated a && (0 <? cs_sp cs) then
                    let! e := arr_get (cs_entry cs) (cs_sp cs - 1) in written (ce_sp e)
                  else Ok (a_sp a)) in
      Ok (kind, true, sp, P)
    else Ok (kind, false, a_sp a, P).

(** The call that was delayed until its target was known. *)
Definition delayed_call (P : profile) (passed bbcc sp : Z) (skip : bool) : res profile :=
  let c := cur (here P) in
  let! (P, passed) :=
    (if negb skip && negb (x_nonskipped c =? 0) then
       let P := set_here P (set_cur (here P) (MkExecInfo (x_sig c) (x_cost c) (x_collect c) (x_cxt c) (jmps_passed c)
                  (x_nonskipped c) (x_nonskipped c) (call_stack_bottom c))) in
       let! x := deref_node P (x_nonskipped c) in
       let! b := deref_block P (bc_bb x) in
       Ok (P, s32 (b_cjmp_count b))
     else Ok (P, passed)) in
  let! s := push_call_stack (here P) (x_bbcc (cur (here P))) (u32 passed) bbcc sp skip in
  Ok (set_here P s).

(** [--collect-jumps] *)
Definition trace_jump (P : profile) (last passed bbcc : Z) (conditional : bool) : res profile :=
  let! (k, j) := get_jcc (jm (here P)) last (u32 passed) bbcc in
  let P := set_here P (set_jm (here P) j) in
  let! s := upd_jcc (here P) k (fun x =>
    let kind := match jmpkind x with jk_Call => if conditional then jk_CondJump else jk_Jump | o => o end in
    MkJcc kind (next_hash x) (next_from x) (from x) (to x) (jmp x) (u64 (call_counter x + 1)) (jcc_cost x)) in
  let st := cstat P in
  Ok (set_cstat (set_here P s)
        (MkCentreStats (bbcc_lru_misses st) (bbcc_hash_resizes st) (distinct_bbccs st) (bbcc_clones st)
           (if conditional then u64 (jcnd_counter st + 1) else jcnd_counter st)
           (if conditional then jump_counter st else u64 (jump_counter st + 1)))).

(** The block runs with the centre [bbcc]. *)
Definition start_block (P : profile) (bb bbcc : Z) : res profile :=
  let c := cur (here P) in
  let P := set_here P (set_cur (here P) (MkExecInfo (x_sig c) (x_cost c) (x_collect c) (x_cxt c) 0 bbcc (x_nonskipped c)
             (call_stack_bottom c))) in
  let! b := deref_bb (here P) bb in
  let! x := deref_node P bbcc in
  let p := proc P in
  Ok (MkProfile (MkProcess (now p) (current_states p) (current_bbccs p) (thread p) (current_tid p) (distinct_fns p)
                   (fn_array_resizes p) (u64 (bb_executions p + 1)) (bbs_done p))
        (blocks P) (nodes P) (rec_arrays P) (cstat P) (bb_addr b) (Some (bc_cost x)) (prog P)).

Definition setup_bbcc (P : profile) (bb tid sp : Z) : res profile :=
  let! p := (if negb (tid =? current_tid (proc P))
             then switch_thread collect_atstart separate_threads VG_N_THREADS (proc P) tid else Ok (proc P)) in
  let P := set_proc P p in
  let last := x_bbcc (cur (here P)) in
  let! (d, P) := leave_block P in
  let csp := cs_sp (current_call_stack (here P)) in
  let! (a, P) := classify P d bb sp in
  let! (skip, P) := (if bool_decide (a_kind a = jk_Call) then
                       let! (fn, P) := get_fn_node P bb in
                       let! f := deref_fn (cx (here P)) fn in Ok (fn_skip f, P)
                     else Ok (false, P)) in
  let! (kind, push, sp, P) := sync_calls P a bb csp in
  let entering := push && negb skip in
  let! P := (if entering || bool_decide (x_cxt (cur (here P)) = None) then
               let! (fn, P) := get_fn_node P bb in
               let! s := push_cxt (here P) fn in Ok (set_here P s)
             else Ok P) in
  let! _ := tl_assert (0 <? fs_top (current_fn_stack (here P))) "CLG_(current_fn_stack).top > CLG_(current_fn_stack).bottom" in
  let! (bbcc, P) := select_centre P bb last entering in
  let! P := (if (push : bool) then delayed_call P (a_passed a) bbcc sp skip else Ok P) in
  let! P := (if collect_jumps && bool_decide (kind = jk_Jump)
             then trace_jump P last (a_passed a) bbcc (d_conditional d) else Ok P) in
  start_block P bb bbcc.
End setup.

(** ** Returns *)

(** The frames of the call stack, the top one first: stack pointer and return
    address. *)
Definition frame_at (cs : call_stack) (i : nat) (f : Z * Z) : Prop :=
  exists e, cs_entry cs !! i = Some e /\ ce_sp e = Some f.1 /\ ret_addr e = Some f.2.

Definition frames (cs : call_stack) (fs : list (Z * Z)) : Prop :=
  Z.of_nat (length fs) = cs_sp cs /\
  forall i f, fs !! i = Some f -> frame_at cs (length fs - 1 - i) f.

(** Among the frames with the stack pointer of the return, down to the first one
    with another stack pointer, the topmost one with its return address. *)
Definition spec_return (fs : list (Z * Z)) (sp ret : Z) : Z :=
  match list_find (fun f => f.1 <> sp \/ f.2 = ret) fs with
  | Some (k, f) => if f.1 =? sp then Z.of_nat k + 1 else 0
  | None => 0
  end.

Definition spec_popcount (fs : list (Z * Z)) (sp ret : Z) : Z :=
  match fs with
  | [] => 1
  | f :: _ => if sp <? f.1 then 0 else if f.1 =? sp then spec_return fs sp ret else 1
  end.

Lemma spec_return_cons f fs sp ret : spec_return (f :: fs) sp ret =
  if f.1 =? sp then if f.2 =? ret then 1 else (if spec_return fs sp ret =? 0 then 0 else spec_return fs sp ret + 1) else 0.
Proof.
  unfold spec_return. cbn [list_find]. destruct (decide (f.1 <> sp \/ f.2 = ret)) as [H|H].
  - destruct (Z.eqb_spec f.1 sp); [|done]. destruct H as [H|H]; [done|]. by rewrite (proj2 (Z.eqb_eq _ _) H).
  - destruct (Z.eqb_spec f.1 sp); [|tauto]. rewrite (proj2 (Z.eqb_neq f.2 ret)) by tauto.
    destruct (list_find _ fs) as [[k g]|]; [|done]. cbn. destruct (g.1 =? sp); [|done].
    rewrite (proj2 (Z.eqb_neq (Z.of_nat k + 1) 0)) by lia. lia.
Qed.

Lemma matching_frames_ok cs fs fuel sp ret n : (length fs <= fuel)%nat ->
  (forall i f, fs !! i = Some f -> frame_at cs (length fs - 1 - i) f) -> 0 < n ->
  (exists f, head fs = Some f /\ f.1 = sp) ->
  matching_frames fuel (cs_entry cs) (Z.of_nat (length fs) - 1) sp ret n =
    Ok (if spec_return fs sp ret =? 0 then 0 else spec_return fs sp ret + n - 1).
Proof.
  revert fuel n; induction fs as [|f fs IH]; intros fuel n Hfuel Hfr Hn (f' & Hf' & Hsp); [done|].
  injection Hf' as <-. destruct fuel as [|fuel]; [simpl in Hfuel; lia|].
  destruct (Hfr 0%nat f eq_refl) as (e & He & Es & Er). cbn [length] in *.
  replace (S (length fs) - 1 - 0)%nat with (length fs) in He by lia.
  replace (Z.of_nat (S (length fs)) - 1) with (Z.of_nat (length fs)) by lia.
  cbn [matching_frames]. rewrite (arr_get_in _ _ e) by (rewrite ?Nat2Z.id; done || lia). cbn [rbind]. rewrite Er.
  cbn [written rbind]. rewrite spec_return_cons, (proj2 (Z.eqb_eq _ _) Hsp).
  destruct (Z.eqb_spec f.2 ret) as [Hret|Hret]; [change (1 =? 0) with false; cbv iota; f_equal; lia|].
  destruct fs as [|g fs]; [done|]. rewrite (proj2 (Z.leb_gt _ _)) by (simpl; lia).
  destruct (Hfr 1%nat g eq_refl) as (e2 & He2 & Es2 & _). cbn [length] in *.
  replace (S (S (length fs)) - 1 - 1)%nat with (length fs) in He2 by lia.
  replace (Z.of_nat (S (length fs)) - 1) with (Z.of_nat (length fs)) by lia.
  rewrite (arr_get_in _ _ e2) by (rewrite ?Nat2Z.id; done || lia). cbn [rbind]. rewrite Es2. cbn [written rbind].
  destruct (Z.eqb_spec g.1 sp) as [Hg|Hg].
  - replace (Z.of_nat (length fs)) with (Z.of_nat (S (length fs)) - 1) by lia. rewrite IH; [|simpl; lia| |lia|by exists g].
    + destruct (Z.eqb_spec (spec_return (g :: fs) sp ret) 0) as [E|E]; [done|].
      assert (0 <= spec_return (g :: fs) sp ret).
      { unfold spec_return. destruct (list_find _ _) as [[k h]|]; [|done]. destruct (h.1 =? sp); lia. }
      rewrite (proj2 (Z.eqb_neq (_ + 1) 0)) by lia. f_equal. lia.
    + intros i x Hx. specialize (Hfr (S i) x Hx). cbn [length].
      by replace (S (length fs) - 1 - i)%nat with (S (S (length fs)) - 1 - S i)%nat by lia.
  - rewrite (spec_return_cons g). by rewrite (proj2 (Z.eqb_neq g.1 sp) Hg).
Qed.

(** C14. At a return instruction: a stack pointer below that of the top frame
    means that no call ended, one above it that the top frame did, and with the
    same stack pointer the frame that returns to this address decides; the
    number of frames to pop is exact, 0 standing for a jump. *)
Theorem return_pops (cs : call_stack) (fs : list (Z * Z)) (sp ret : Z) :
  frames cs fs -> 0 < cs_sp cs -> popcount_on_return cs sp ret = Ok (spec_popcount fs sp ret).
Proof.
  intros [Hlen Hfr] Hsp. destruct fs as [|f fs]; [simpl in Hlen; lia|]. unfold popcount_on_return.
  destruct (Hfr 0%nat f eq_refl) as (e & He & Es & _). cbn [length] in *.
  rewrite (arr_get_in _ _ e); [|lia|by replace (Z.to_nat (cs_sp cs - 1)) with (S (length fs) - 1 - 0)%nat by lia].
  cbn [rbind spec_popcount]. rewrite Es. cbn [written rbind]. destruct (Z.ltb_spec sp f.1); [done|].
  destruct (Z.eqb_spec f.1 sp) as [Hf|Hf]; [|done]. rewrite <- Hlen.
  rewrite (matching_frames_ok cs (f :: fs) _ sp ret 1); [|simpl; lia|exact Hfr|lia|by exists f].
  destruct (Z.eqb_spec (spec_return (f :: fs) sp ret) 0) as [->|]; [done|]. f_equal. lia.
Qed.

(** Three frames at one stack pointer, the return is to the second. *)
Definition ex_frames : call_stack :=
  let e sp ret := MkEntry None None (Some sp) (Some ret) None None None in
  MkCalls 4 4 [e 900 100; e 800 200; e 800 300; e 800 400].

Lemma return_pops_witness :
  frames ex_frames [(800, 400); (800, 300); (800, 200); (900, 100)] /\ popcount_on_return ex_frames 800 300 = Ok 2 /\
  popcount_on_return ex_frames 800 100 = Ok 0.
Proof.
  assert (Hf : frames ex_frames [(800, 400); (800, 300); (800, 200); (900, 100)]).
  { split; [reflexivity|]. intros i f Hi. destruct i as [|[|[|[|i]]]]; [injection Hi as <-..|done]; by eexists. }
  split; [exact Hf|]. split.
  - rewrite (return_pops ex_frames _ 800 300 Hf); reflexivity.
  - rewrite (return_pops ex_frames _ 800 100 Hf); reflexivity.
Defined.
