(* ===== verification/ClgSelect.v ===== *)
(** * ClgSelect: one cost centre per block, context and level (callgrind/bbcc.c)

    Whatever the caches, the table and its resizes, the arrays of recursion levels
    and the threads, [select_centre] hands out one centre for each combination of
    owner (thread, when threads are separated), block, context and recursion
    level, and always the same one. *)

From Stdlib Require Import ZArith Lia Ascii String.
From stdpp Require Import base numbers option strings gmap sets list.
From S2P Require Import Prelude ClgCosts ClgEvents ClgOwn ClgHash ClgJumps ClgContext ClgStack ClgThreads ClgSwitch ClgNames ClgCentres.

#[local] Open Scope Z_scope.

Section select.
Context (cxt_addr addr : nat -> Z) (num : Z -> option nat) (separate_threads : bool).
(** The number of recursion levels kept for a context. *)
Context (R : nat -> Z).

(** Centres have different addresses, none of them null. *)
Hypothesis Haddr : forall k, num (addr k) = Some k /\ addr k <> 0.

#[local] Hint Extern 0 (ChainNode bbcc) => exact (bbcc_node cxt_addr) : typeclass_instances.
#[local] Notation owner := (owner separate_threads).
#[local] Notation deref_node := (deref_node num).
#[local] Notation upd_node := (upd_node num).
#[local] Notation new_bbcc := (new_bbcc addr).
#[local] Notation place_centre := (place_centre num).
#[local] Notation insert_bbcc_into_hash := (insert_bbcc_into_hash cxt_addr num).
#[local] Notation place_base := (place_base cxt_addr num).
#[local] Notation clone_bbcc := (clone_bbcc cxt_addr addr num separate_threads).
#[local] Notation get_bbcc := (get_bbcc addr num).
#[local] Notation lookup_bbcc := (lookup_bbcc cxt_addr addr num separate_threads).
#[local] Notation base_centre := (base_centre cxt_addr addr num separate_threads).
#[local] Notation select_centre := (select_centre cxt_addr addr num separate_threads).

(** ** Specification *)

(** Owner, block, context and recursion level. *)
Abbreviation key := (Z * Z * nat * Z)%type.
Abbreviation group := (Z * Z * nat)%type.

(** The level of a centre is counted from 1 up to [levels]. *)
Definition spec_level (levels active : Z) (deeper : bool) : Z := Z.max 1 (Z.min levels (active + (if deeper then 1 else 0))).

Definition spec_select (ks : list key) (g : group) (i : Z) : nat * list key :=
  let '(_, ks) := intern ks (g, 0) in intern ks (g, i).

(** ** The invariant *)

(** What a centre is, apart from its links and counters. *)
Definition data (x : bbcc) : Z * option nat * Z * Z * option nat * Z :=
  (bc_bb x, bc_cxt x, bc_tid x, rec_index x, rec_array x, lru_next_bbcc x).

(** Never more than three buckets per entry, once it has grown. *)
Definition sized (h : bbcc_hash) : Prop :=
  0 < bh_size h /\ (bh_size h <= N_BBCC_INITIAL_ENTRIES \/ bh_size h <= 3 * bh_entries h).

(** The table of owner [o] holds its centres of level 0. *)
Record table_ok (l : list bbcc) (ks : list key) (o : Z) (h : bbcc_hash) : Prop := {
  tb_hash : exists chains, hashed l (bh_table h) (bh_size h) chains /\
    (forall k, k ∈ concat chains <-> exists bb c, ks !! k = Some (o, bb, c, 0)) /\
    bh_entries h = Z.of_nat (length (concat chains));
  tb_size : sized h
}.

(** The centre number [k] is the one for its key, and shares the array of its
    group. *)
Definition node_ok (ks : list key) (gs : list group) (k : nat) (x : bbcc) : Prop :=
  exists c a, bc_cxt x = Some c /\ ks !! k = Some (owner (bc_tid x), bc_bb x, c, rec_index x) /\
    rec_array x = Some a /\ gs !! a = Some (owner (bc_tid x), bc_bb x, c) /\
    (lru_next_bbcc x = 0 \/
     exists j bb c', lru_next_bbcc x = addr j /\ ks !! j = Some (owner (bc_tid x), bb, c', 0)).

(** The array of a group: the centres of its levels. *)
Definition row_ok (ks : list key) (g : group) (l : list Z) : Prop :=
  Z.of_nat (length l) = R g.2 /\
  forall j v, l !! j = Some v ->
    (v = 0 /\ (g, Z.of_nat j) ∉ ks) \/ exists k, v = addr k /\ ks !! k = Some (g, Z.of_nat j).

Definition block_ok (ks : list key) (bb : Z) (b : block) : Prop :=
  bb <> 0 /\ 0 <= b_cost_count b < COSTCHUNK_SIZE /\ 0 <= b_cjmp_count b /\
  ((bbcc_list b = 0 /\ forall o c i, (o, bb, c, i) ∉ ks) \/
   exists k o c i k' o' c', bbcc_list b = addr k /\ ks !! k = Some (o, bb, c, i) /\
     last_bbcc b = addr k' /\ ks !! k' = Some (o', bb, c', 0)).

Definition stats_ok (N : Z) (st : centre_stats) : Prop :=
  0 <= bbcc_lru_misses st <= N /\ 0 <= bbcc_hash_resizes st <= N /\ 0 <= distinct_bbccs st <= N /\ 0 <= bbcc_clones st <= N.

Definition centre_known (s : stacks) (k : nat) (y : key) : Prop :=
  exists cc, centres s !! addr k = Some cc /\ cc_bb cc = y.1.1.2 /\ cc_cxt cc = Some y.1.2.

(** [N] bounds what was made so far. *)
Record core (N : Z) (P : profile) (ks : list key) (gs : list group) : Prop := {
  co_nodup : NoDup ks /\ NoDup gs;
  co_len : length (nodes P) = length ks /\ length (rec_arrays P) = length gs /\ Z.of_nat (length ks) <= N;
  co_nodes : forall k x, nodes P !! k = Some x -> node_ok ks gs k x;
  co_here : table_ok (nodes P) ks (owner (current_tid (proc P))) (current_bbccs (proc P));
  co_others : forall o h, 0 < o -> o <> owner (current_tid (proc P)) -> snd <$> tables_of separate_threads (proc P) o = Some h ->
    table_ok (nodes P) ks o h;
  co_rows : forall a g, gs !! a = Some g -> (g, 0) ∈ ks /\ exists l, rec_arrays P !! a = Some l /\ row_ok ks g l;
  co_levels : forall y, y ∈ ks -> y.1 ∈ gs /\ 0 <= y.2 < R y.1.2;
  co_centres : forall k y, ks !! k = Some y -> centre_known (here P) k y;
  co_mem : wf_mem (costs (here P));
  co_stats : stats_ok N (cstat P)
}.

Definition inv (N : Z) (P : profile) (ks : list key) (gs : list group) : Prop :=
  core N P ks gs /\ map_Forall (block_ok ks) (blocks P).

(** ** Pieces *)

Lemma deref_node_ok P k x : nodes P !! k = Some x -> deref_node P (addr k) = Ok x.
Proof.
  intros Hx. destruct (Haddr k) as [H1 H2]. unfold ClgCentres.deref_node, index, get_node.
  by rewrite (proj2 (Z.eqb_neq _ _) H2), H1; cbn [rbind]; rewrite Hx.
Qed.

Lemma index_ok k : index num (addr k) = Ok k.
Proof. destruct (Haddr k) as [H1 H2]. unfold index. by rewrite (proj2 (Z.eqb_neq _ _) H2), H1. Qed.

Lemma upd_node_ok P k x f : nodes P !! k = Some x -> upd_node P (addr k) f = Ok (set_nodes P (<[k := f x]> (nodes P))).
Proof.
  intros Hx. unfold ClgCentres.upd_node. rewrite index_ok. cbn [rbind]. unfold get_node. by rewrite Hx.
Qed.

Lemma deref_block_ok P bb b : bb <> 0 -> blocks P !! bb = Some b -> deref_block P bb = Ok b.
Proof. intros Hb Hx. unfold deref_block. by rewrite (proj2 (Z.eqb_neq _ _) Hb), Hx. Qed.

Lemma addr_inj j k : addr j = addr k -> j = k.
Proof. intros E. destruct (Haddr j) as [Hj _], (Haddr k) as [Hk _]. congruence. Qed.

(** What selecting a centre leaves alone of the running thread. *)
Definition same_run (s s' : stacks) : Prop :=
  cx s' = cx s /\ bbs s' = bbs s /\ full s' = full s /\ current_fn_stack s' = current_fn_stack s /\
  current_call_stack s' = current_call_stack s /\ cur s' = cur s /\ skip_direct_recursion s' = skip_direct_recursion s /\
  stat s' = stat s /\ jccs (jm s') = jccs (jm s) /\ current_fn_active s' = current_fn_active s.

(** A new centre: [P'] is [P] with one more node. *)
Record created (P : profile) (bb : Z) (x : bbcc) (P' : profile) : Prop := {
  cr_nodes : nodes P' = nodes P ++ [x];
  cr_new : data x = (bb, None, current_tid (proc P), 0, None, 0);
  cr_proc : proc P' = set_now (proc P) (here P');
  cr_recs : rec_arrays P' = rec_arrays P;
  cr_blocks : forall bb', is_Some (blocks P !! bb') -> is_Some (blocks P' !! bb');
  cr_run : same_run (here P) (here P');
  cr_centres : centres (here P') = <[addr (length (nodes P)) := MkCentre bb None None 0]> (centres (here P));
  cr_mem : wf_mem (costs (here P'));
  cr_stats : forall N, stats_ok N (cstat P) -> stats_ok (N + 1) (cstat P')
}.

Lemma new_bbcc_ok N P bb b : blocks P !! bb = Some b -> bb <> 0 -> 0 <= b_cost_count b < COSTCHUNK_SIZE ->
  wf_mem (costs (here P)) -> stats_ok N (cstat P) -> N < 2 ^ 31 - 1 ->
  exists x P', new_bbcc P bb = Ok (addr (length (nodes P)), P') /\ created P bb x P' /\ blocks P' = blocks P.
Proof.
  intros Hb Hbb Hc Hw Hst HN. unfold ClgCentres.new_bbcc. rewrite (deref_block_ok _ _ b) by done. cbn [rbind].
  assert (reserves (b_cost_count b) (costs (here P)) []) as Hr by (by constructor).
  destruct (reserves_alloc _ _ _ Hr Hc) as (c & m1 & -> & Hr1 & _). cbn [rbind].
  destruct (reserves_zero _ _ _ _ Hr1) as (m2 & -> & Hr2 & _); [lia|]. cbn [rbind].
  pose proof Hst as (S1 & S2 & S3 & S4). unfold int_add. rewrite signed_result_in by (unfold in_s; lia). cbn [rbind].
  eexists _, _. split; [done|]. split; [|done]. constructor; cbn; try done; [apply Hr2|].
  intros N' (T1 & T2 & T3 & T4). split_and!; cbn; lia.
Qed.

(** The list of the block and its field do not matter to the rest. *)
Lemma created_listed P bb x P' q m : created P bb x P' -> (forall bb', is_Some (blocks P !! bb') -> is_Some (m !! bb')) ->
  created P bb (set_next_bbcc q x) (set_blocks (set_nodes P' (nodes P ++ [set_next_bbcc q x])) m).
Proof. intros [] Hm. by constructor. Qed.

(** ** The table *)

Lemma grown_sized h e t : sized h -> 91 * bh_size h <= 100 * e -> sized (MkBbccHash (2 * bh_size h + 3) e t).
Proof. unfold sized, N_BBCC_INITIAL_ENTRIES. cbn. lia. Qed.

(** One more entry, after the table was resized if it was more than 90% full. *)
Lemma room_made N P e chains :
  let h := current_bbccs (proc P) in
  let P1 := set_proc P (set_bbccs (proc P) (MkBbccHash (bh_size h) e (bh_table h))) in
  hashed (nodes P) (bh_table h) (bh_size h) chains -> sized h -> bh_entries h = Z.of_nat (length (concat chains)) ->
  e = bh_entries h + 1 -> bh_entries h <= N < 2 ^ 24 -> stats_ok N (cstat P) ->
  exists l h' st chains', (let! fill := uint_div (u32 (100 * e)) (bh_size h) in
      if 90 <? fill then resize_bbcc_hash cxt_addr P1 else Ok P1) =
        Ok (set_cstat (set_nodes (set_proc P (set_bbccs (proc P) h')) l) st) /\
    hashed l (bh_table h') (bh_size h') chains' /\ concat chains' ≡ₚ concat chains /\
    unlinked <$> l = unlinked <$> nodes P /\ (forall j, j ∉ concat chains -> l !! j = nodes P !! j) /\
    bh_entries h' = e /\ sized h' /\ stats_ok (N + 1) st.
Proof.
  intros h P1 Hh [Hs0 Hs] He He' HN Hst. unfold uint_div. rewrite (proj2 (Z.eqb_neq _ _)) by lia. cbn [rbind].
  rewrite wrapu_small by (unfold in_u; lia). pose proof Hst as (S1 & S2 & S3 & S4).
  destruct (Z.ltb_spec 90 (100 * e / bh_size h)) as [Hf|Hf].
  - assert (91 * bh_size h <= 100 * e) as Hg.
    { pose proof (Z.mul_div_le (100 * e) (bh_size h) Hs0). nia. }
    unfold resize_bbcc_hash. subst P1. cbn [set_proc set_bbccs proc current_bbccs bh_size bh_table bh_entries nodes cstat].
    rewrite wraps_small by (unfold in_s; unfold N_BBCC_INITIAL_ENTRIES in Hs; lia).
    destruct (rehash_ok (2 * bh_size h + 3) _ _ _ _ ltac:(lia) Hh) as (l & t & chains' & -> & Hh' & Hp & Hu & Hf').
    cbn [rbind]. unfold int_add. rewrite signed_result_in by (unfold in_s; lia). cbn [rbind].
    rewrite wrapu_small by (unfold in_u; unfold N_BBCC_INITIAL_ENTRIES in Hs; lia).
    exists l, (MkBbccHash (2 * bh_size h + 3) e t), (MkCentreStats (bbcc_lru_misses (cstat P)) (bbcc_hash_resizes (cstat P) + 1)
      (distinct_bbccs (cstat P)) (bbcc_clones (cstat P)) (jcnd_counter (cstat P)) (jump_counter (cstat P))), chains'.
    split_and!; [done..|by apply grown_sized|]. unfold stats_ok. cbn. lia.
  - exists (nodes P), (MkBbccHash (bh_size h) e (bh_table h)), (cstat P), chains.
    split_and!; [by destruct P|done..| |]; [unfold sized; cbn; lia|]. unfold stats_ok. lia.
Qed.

Lemma insert_ok N P k x c chains :
  let h := current_bbccs (proc P) in
  nodes P !! k = Some x -> bc_cxt x = Some c -> bc_bb x <> 0 ->
  hashed (nodes P) (bh_table h) (bh_size h) chains -> sized h -> bh_entries h = Z.of_nat (length (concat chains)) ->
  k ∉ concat chains -> bh_entries h <= N < 2 ^ 24 -> stats_ok N (cstat P) ->
  exists l h' st chains', insert_bbcc_into_hash P (addr k) =
      Ok (set_cstat (set_nodes (set_proc P (set_bbccs (proc P) h')) l) st) /\
    hashed l (bh_table h') (bh_size h') chains' /\ concat chains' ≡ₚ k :: concat chains /\
    unlinked <$> l = unlinked <$> nodes P /\ (forall j, j ∉ k :: concat chains -> l !! j = nodes P !! j) /\
    bh_entries h' = bh_entries h + 1 /\ sized h' /\ stats_ok (N + 1) st.
Proof.
  intros h Hx Hc Hbb Hh Hs He Hk HN Hst. unfold ClgCentres.insert_bbcc_into_hash.
  rewrite (deref_node_ok _ _ x) by done. cbn [rbind]. rewrite Hc. cbn [tl_assert rbind].
  fold h. rewrite (wrapu_small 32 (bh_entries h + 1)) by (unfold in_u; lia).
  destruct (room_made N P (bh_entries h + 1) chains) as (l1 & h1 & st & c1 & E & Hh1 & Hp1 & Hu1 & Hf1 & He1 & Hs1 & Hst1);
    [done..|].
  fold h in E. unfold rbind in E. subst h. revert E.
  destruct (uint_div _ _) as [fill|]; [|done]. cbn [rbind]. intros ->. cbn [rbind].
  rewrite index_ok. cbn [rbind set_proc set_bbccs proc current_bbccs set_cstat set_nodes nodes].
  unfold bbcc_hash_idx. rewrite (proj2 (Z.eqb_neq _ _) Hbb), bool_decide_eq_false_2 by done. cbn [negb tl_assert rbind].
  rewrite bucket_pos by apply Hs1. cbn [rbind].
  assert (exists x1, l1 !! k = Some x1) as [x1 Hx1].
  { rewrite Hf1 by done. by exists x. }
  destruct (link_ok l1 (bh_table h1) (bh_size h1) c1 k x1) as (hd & t2 & c2 & -> & Hh2 & Hp2);
    [apply Hs1|done|done|by rewrite Hp1|].
  cbn [rbind]. exists (<[k := set_next hd x1]> l1), (MkBbccHash (bh_size h1) (bh_entries h1) t2), st, c2.
  split; [done|]. split_and!; [done| | | |done|done|done].
  - by rewrite Hp2, Hp1.
  - rewrite <- Hu1, list_fmap_insert. apply list_insert_id. by rewrite list_lookup_fmap, Hx1.
  - intros j Hj. apply not_elem_of_cons in Hj as [Hj1 Hj2]. rewrite list_lookup_insert_ne by done. by apply Hf1.
Qed.

Lemma place_centre_ok P k x cc c i a : nodes P !! k = Some x -> centres (here P) !! addr k = Some cc ->
  place_centre P (addr k) c i a = Ok (set_here (set_nodes P (<[k := set_place c i a x]> (nodes P)))
    (set_centres (here P) (<[addr k := MkCentre (cc_bb cc) c (cc_skipped cc) (cc_ret_counter cc)]> (centres (here P))))).
Proof.
  intros Hx Hc. unfold ClgCentres.place_centre. rewrite (upd_node_ok _ _ x) by done. cbn [rbind].
  unfold deref_centre. rewrite (proj2 (Z.eqb_neq _ _) (proj2 (Haddr k))).
  change (here (set_nodes P _)) with (here P). by rewrite Hc.
Qed.

Definition placed (P : profile) (k : nat) (x : bbcc) (cc : cost_centre) (c : nat) (n : Z) (h' : bbcc_hash) (l : list bbcc)
    (st : centre_stats) : profile :=
  MkProfile (set_bbccs (set_now (proc P) (set_centres (here P)
      (<[addr k := MkCentre (cc_bb cc) (Some c) (cc_skipped cc) (cc_ret_counter cc)]> (centres (here P))))) h')
    (blocks P) l (rec_arrays P ++ [<[0%nat := addr k]> (replicate (Z.to_nat n) 0)]) st (p_bb_base P) (p_cost_base P) (prog P).

Lemma place_base_ok N P k x cc c i n chains :
  let h := current_bbccs (proc P) in
  nodes P !! k = Some x -> centres (here P) !! addr k = Some cc -> bc_bb x <> 0 -> 0 < n ->
  hashed (nodes P) (bh_table h) (bh_size h) chains -> sized h -> bh_entries h = Z.of_nat (length (concat chains)) ->
  k ∉ concat chains -> bh_entries h <= N < 2 ^ 24 -> stats_ok N (cstat P) ->
  exists l h' st chains', place_base P (addr k) (Some c) i n = Ok (placed P k x cc c n h' l st) /\
    hashed l (bh_table h') (bh_size h') chains' /\ concat chains' ≡ₚ k :: concat chains /\
    unlinked <$> l = unlinked <$> <[k := set_place (Some c) i (Some (length (rec_arrays P))) x]> (nodes P) /\
    (forall j, j ∉ k :: concat chains -> l !! j = nodes P !! j) /\
    bh_entries h' = bh_entries h + 1 /\ sized h' /\ stats_ok (N + 1) st.
Proof.
  intros h Hx Hcc Hbb Hn Hh Hs He Hk HN Hst. unfold ClgCentres.place_base, new_recursion.
  rewrite (place_centre_ok _ k x cc) by done. cbn [rbind]. unfold set_rec.
  cbn [set_here set_proc set_nodes set_recs rec_arrays].
  rewrite lookup_app_r, Nat.sub_diag by lia. cbn [lookup list_lookup rbind].
  rewrite arr_set_in by (rewrite length_replicate; lia). cbn [rbind].
  rewrite insert_app_r_alt, Nat.sub_diag by lia. cbn [insert list_insert].
  set (y := set_place (Some c) i (Some (length (rec_arrays P))) x).
  match goal with |- context [ClgCentres.insert_bbcc_into_hash _ _ ?Q _] => set (P1 := Q) end.
  destruct (insert_ok N P1 k y c chains) as (l & h' & st & chains' & -> & Hh' & Hp & Hu & Hf & He' & Hs' & Hst'); try done.
  - cbn. by rewrite list_lookup_insert_eq by (by apply lookup_lt_Some in Hx).
  - apply (hashed_frame (nodes P)); [done|]. intros j Hj. cbn. apply list_lookup_insert_ne. by intros ->.
  - exists l, h', st, chains'. split_and!; try done. intros j Hj. rewrite Hf by done. cbn.
    apply list_lookup_insert_ne. apply not_elem_of_cons in Hj as [Hj _]. done.
Qed.

(** ** Growing *)

Lemma same_data (l l' : list bbcc) k y : unlinked <$> l' = unlinked <$> l -> l' !! k = Some y ->
  exists x, l !! k = Some x /\ data x = data y.
Proof.
  intros Hu Hy. assert ((unlinked <$> l') !! k = Some (unlinked y)) as Hk by (by rewrite list_lookup_fmap, Hy).
  rewrite Hu, list_lookup_fmap in Hk. destruct (l !! k) as [x|] eqn:Ex; [|done]. exists x. split; [done|].
  destruct x, y. cbn in Hk. by injection Hk as -> -> -> -> -> -> -> -> -> ->.
Qed.

Lemma node_ok_data ks gs k x y : data x = data y -> node_ok ks gs k x -> node_ok ks gs k y.
Proof.
  unfold data. intros [= E1 E2 E3 E4 E5 E6]. unfold node_ok. by rewrite E1, E2, E3, E4, E5, E6.
Qed.

Lemma node_ok_mono ks ks' gs gs' k x : node_ok ks gs k x -> node_ok (ks ++ ks') (gs ++ gs') k x.
Proof.
  intros (c & a & H1 & H2 & H3 & H4 & H5). exists c, a. split_and!; [done|by apply lookup_app_l_Some|done|
    by apply lookup_app_l_Some|]. destruct H5 as [H5|(j & bb & c' & H5 & H6)]; [by left|]. right.
  exists j, bb, c'. split; [done|]. by apply lookup_app_l_Some.
Qed.

(** Entries of one more key. *)
Lemma keys_snoc (ks : list key) y z k : (ks ++ [y]) !! k = Some z <-> ks !! k = Some z \/ k = length ks /\ z = y.
Proof. rewrite lookup_snoc_Some. split; [intros [[_ H]|[-> <-]]; auto|]. intros [H|[-> ->]]; [left|by right].
  split; [|done]. by apply lookup_lt_Some in H. Qed.

(** A table whose owner has no part in what happened. *)
Lemma table_kept l l' ks y o h : table_ok l ks o h -> y.1.1.1 <> o ->
  (forall k bb c, ks !! k = Some (o, bb, c, 0) -> l' !! k = l !! k) -> table_ok l' (ks ++ [y]) o h.
Proof.
  intros [(chains & Hh & Hin & He) Hs] Hy Hf. constructor; [|done]. exists chains. split_and!; [|..|done].
  - apply (hashed_frame l); [done|]. intros k Hk. apply Hin in Hk as (bb & c & Hk). by eapply Hf.
  - intros k. rewrite Hin. split; intros (bb & c & Hk); exists bb, c.
    + apply keys_snoc. by left.
    + apply keys_snoc in Hk as [Hk|[_ <-]]; done.
Qed.

Lemma row_kept ks y g l : row_ok ks g l -> y.1 <> g -> row_ok (ks ++ [y]) g l.
Proof.
  intros [Hl H] Hy. split; [done|]. intros j v Hj. destruct (H j v Hj) as [[-> Hn]|(k & -> & Hk)]; [left|right].
  - split; [done|]. rewrite elem_of_app, list_elem_of_singleton. intros [Hin| <-]; done.
  - exists k. split; [done|]. apply keys_snoc. by left.
Qed.

Lemma row_new ks g k : 0 < R g.2 -> (forall i, (g, i) ∉ ks) -> k = length ks ->
  row_ok (ks ++ [(g, 0)]) g (<[0%nat := addr k]> (replicate (Z.to_nat (R g.2)) 0)).
Proof.
  intros HR Hn ->. split; [rewrite length_insert, length_replicate; lia|]. intros [|j] v Hj.
  - rewrite list_lookup_insert_eq in Hj by (rewrite length_replicate; lia). simplify_eq. right.
    exists (length ks). split; [done|]. apply keys_snoc. by right.
  - rewrite list_lookup_insert_ne in Hj by done. apply lookup_replicate in Hj as [-> _]. left.
    split; [done|]. rewrite elem_of_app, list_elem_of_singleton. intros [Hin|?]; [by eapply Hn|done].
Qed.

Lemma no_level N P ks gs g i : core N P ks gs -> (g, 0) ∉ ks -> (g, i) ∉ ks.
Proof.
  intros HC Hn Hin. apply (co_levels _ _ _ _ HC) in Hin as [Hg _]. cbn in Hg.
  apply list_elem_of_lookup_1 in Hg as [a Ha]. by apply (co_rows _ _ _ _ HC) in Ha as [Ha _].
Qed.

Lemma tables_others p s h o : o <> owner (current_tid p) ->
  tables_of separate_threads (set_bbccs (set_now p s) h) o = tables_of separate_threads p o.
Proof.
  intros Ho. unfold tables_of. cbn [current_tid set_bbccs set_now]. rewrite (proj2 (Z.eqb_neq _ _) Ho), andb_false_r.
  reflexivity.
Qed.

(** What selecting a centre leaves alone of the process: all but the table and,
    of the running thread, centres, arcs and costs. *)
Definition keeps (P P' : profile) : Prop :=
  same_run (here P) (here P') /\ (exists s h, proc P' = set_bbccs (set_now (proc P) s) h) /\
  forall bb, is_Some (blocks P !! bb) -> is_Some (blocks P' !! bb).

Lemma keeps_refl P : keeps P P.
Proof. split; [done|]. split; [|done]. exists (here P), (current_bbccs (proc P)). unfold here. by destruct P as [[] ? ? ? ? ? ? ?]. Qed.

Lemma keeps_trans P Q S : keeps P Q -> keeps Q S -> keeps P S.
Proof.
  intros [(A1 & A2 & A3 & A4 & A5 & A6 & A7 & A8 & A9 & A10) [(s & h & Ep) Bp]] [(B1 & B2 & B3 & B4 & B5 & B6 & B7 & B8 & B9 & B10) [(s' & h' & Eq) Bq]].
  split; [unfold same_run; split_and!; congruence|]. split; [exists s', h'; by rewrite Eq, Ep|auto].
Qed.

Lemma keeps_tid P P' : keeps P P' -> current_tid (proc P') = current_tid (proc P).
Proof. intros (_ & (s & h & ->) & _). done. Qed.

(** Changes of blocks, nodes and counters. *)
Lemma keeps_blocks P Q bb b P' : keeps P Q -> proc P' = proc Q -> blocks P' = <[bb := b]> (blocks Q) -> keeps P P'.
Proof.
  intros [H1 [H2 H3]] Ep Eb. unfold keeps, here. rewrite Ep, Eb. split; [done|]. split; [done|]. intros bb' H.
  apply lookup_insert_is_Some'. right. by apply H3.
Qed.

Lemma created_keeps P bb x P' : created P bb x P' -> keeps P P'.
Proof.
  intros HC. split; [apply HC|]. split; [|apply HC]. exists (here P'), (current_bbccs (proc P)).
  rewrite (cr_proc _ _ _ _ HC). by destruct (proc P).
Qed.

(** One more key, with what was made for it. *)
Lemma core_grow N M P ks gs y ge P' : let o := owner (current_tid (proc P)) in
  core N P ks gs -> keeps P P' -> N < M ->
  y ∉ ks -> y.1.1.1 = o -> y.1 ∈ gs ++ ge -> 0 <= y.2 < R y.1.2 -> NoDup (gs ++ ge) ->
  length (nodes P') = S (length ks) -> length (rec_arrays P') = length (gs ++ ge) ->
  (forall k z, nodes P' !! k = Some z -> (k < length ks)%nat -> exists z', nodes P !! k = Some z' /\ data z' = data z) ->
  (forall z, nodes P' !! length ks = Some z -> node_ok (ks ++ [y]) (gs ++ ge) (length ks) z) ->
  (forall k z, ks !! k = Some z -> z.1.1.1 <> o -> nodes P' !! k = nodes P !! k) ->
  table_ok (nodes P') (ks ++ [y]) o (current_bbccs (proc P')) ->
  (forall a g, (gs ++ ge) !! a = Some g -> (g, 0) ∈ ks ++ [y] /\ exists l, rec_arrays P' !! a = Some l /\ row_ok (ks ++ [y]) g l) ->
  (forall p, p <> addr (length ks) -> centres (here P') !! p = centres (here P) !! p) ->
  centre_known (here P') (length ks) y -> wf_mem (costs (here P')) -> stats_ok M (cstat P') ->
  core M P' (ks ++ [y]) (gs ++ ge).
Proof.
  intros o HC Hkp HM Hy Hyo Hyg HyR Hnd Hln Hlr Hold Hnew Hoth Hhere Hrows Hcs Hck Hmem Hst.
  pose proof (keeps_tid _ _ Hkp) as Et. destruct (co_len _ _ _ _ HC) as (Ln & Lr & LN). constructor; try done.
  - split; [|done]. apply NoDup_app. split_and!; [apply HC|set_solver|apply NoDup_singleton].
  - rewrite length_app. simpl. lia.
  - intros k z Hz. destruct (decide (k = length ks)) as [->|Hne]; [by apply Hnew|].
    destruct (Hold k z Hz) as (z' & Hz' & Hd); [apply lookup_lt_Some in Hz; lia|].
    eapply node_ok_data, node_ok_mono, (co_nodes _ _ _ _ HC); done.
  - by rewrite Et.
  - rewrite Et. intros t h Ht0 Ht Hh. apply (table_kept (nodes P)); [|rewrite Hyo; by apply not_eq_sym|].
    + apply (co_others _ _ _ _ HC); [done..|]. rewrite <- Hh. f_equal. destruct Hkp as (_ & (s & h0 & ->) & _).
      symmetry. by apply tables_others.
    + intros k bb c Hk. by eapply Hoth.
  - intros z Hz. apply elem_of_app in Hz as [Hz| ->%list_elem_of_singleton]; [|done].
    destruct (co_levels _ _ _ _ HC z Hz) as [H1 H2]. split; [set_solver|done].
  - intros k z Hk. apply keys_snoc in Hk as [Hk|[-> ->]]; [|done].
    destruct (co_centres _ _ _ _ HC k z Hk) as (cc & Hcc & H). exists cc. split; [|done].
    rewrite Hcs; [done|]. intros E. apply addr_inj in E as ->. apply lookup_lt_Some in Hk. lia.
Qed.

(** The table of the running thread. *)
Lemma table_bound N P ks gs chains : core N P ks gs -> NoDup (concat chains) ->
  (forall k, k ∈ concat chains <-> exists bb c, ks !! k = Some (owner (current_tid (proc P)), bb, c, 0)) ->
  length ks ∉ concat chains /\ Z.of_nat (length (concat chains)) <= N.
Proof.
  intros HC Hnd Hin. assert (forall k, k ∈ concat chains -> (k < length ks)%nat) as Hlt.
  { intros k Hk. apply Hin in Hk as (b & c & Hk). by apply lookup_lt_Some in Hk. }
  split; [intros H; apply Hlt in H; lia|]. destruct (co_len _ _ _ _ HC) as (_ & _ & LN).
  etransitivity; [|exact LN]. apply inj_le. rewrite <- (length_seq (length ks) 0).
  apply submseteq_length, NoDup_submseteq; [done|]. intros j Hj. apply elem_of_seq. apply Hlt in Hj. lia.
Qed.

Lemma rows_new N P ks gs g : core N P ks gs -> (g, 0) ∉ ks -> 0 < R g.2 ->
  forall a g', (gs ++ [g]) !! a = Some g' -> (g', 0) ∈ ks ++ [(g, 0)] /\
    exists l, (rec_arrays P ++ [<[0%nat := addr (length ks)]> (replicate (Z.to_nat (R g.2)) 0)]) !! a = Some l /\
      row_ok (ks ++ [(g, 0)]) g' l.
Proof.
  intros HC Hg HR a g' Ha. destruct (co_len _ _ _ _ HC) as (_ & Lr & _).
  apply lookup_snoc_Some in Ha as [[_ Ha]|[-> <-]].
  - destruct (co_rows _ _ _ _ HC a g' Ha) as (H0 & r & Hr & Hrow). split; [set_solver|]. exists r.
    split; [by apply lookup_app_l_Some|]. apply row_kept; [done|]. cbn. intros <-. by apply Hg.
  - split; [set_solver|]. eexists. split; [by rewrite lookup_app_r, Lr, Nat.sub_diag by lia|].
    apply row_new; [done| |done]. intros i. by eapply no_level.
Qed.

Lemma core_add_base N P0 ks gs bb x P c :
  let g := (owner (current_tid (proc P0)), bb, c) in
  core N P0 ks gs -> created P0 bb x P -> bb <> 0 -> (g, 0) ∉ ks -> 0 < R c -> N + 1 < 2 ^ 24 ->
  exists P', place_base P (addr (length ks)) (Some c) 0 (R c) = Ok P' /\ core (N + 2) P' (ks ++ [(g, 0)]) (gs ++ [g]) /\
    blocks P' = blocks P /\ keeps P0 P'.
Proof.
  intros g HC Hcr Hbb Hg HR HN. destruct (co_len _ _ _ _ HC) as (Ln & Lr & LN).
  pose proof (cr_nodes _ _ _ _ Hcr) as En. pose proof (cr_proc _ _ _ _ Hcr) as Ep.
  destruct (co_here _ _ _ _ HC) as [(chains & Hh & Hin & He) Hs].
  pose proof (cr_centres _ _ _ _ Hcr) as Ec. rewrite Ln in Ec. pose proof (cr_recs _ _ _ _ Hcr) as Er.
  destruct (table_bound _ _ _ _ _ HC (hd_nodup _ _ _ _ Hh) Hin) as [Hk HcN].
  pose proof (cr_new _ _ _ _ Hcr) as Hx. unfold data in Hx. injection Hx as X1 X2 X3 X4 X5 X6.
  destruct (place_base_ok (N + 1) P (length ks) x (MkCentre bb None None 0) c 0 (R c) chains)
    as (l & h' & st & chains' & E & Hh' & Hp & Hu & Hf & He' & Hs' & Hst').
  { by rewrite En, lookup_app_r, Ln, Nat.sub_diag by lia. }
  { by rewrite Ec, lookup_insert_eq. }
  { by rewrite X1. } { done. }
  { rewrite Ep, En. cbn. by apply hashed_snoc. }
  { by rewrite Ep. } { by rewrite Ep. } { done. } { rewrite Ep. cbn. lia. }
  { apply Hcr, (co_stats _ _ _ _ HC). }
  rewrite Ep in He'. cbn in He'. rewrite En in Hu, Hf.
  assert (length l = S (length ks)) as Hl.
  { apply (f_equal length) in Hu. rewrite !length_fmap, length_insert, length_app in Hu. simpl in Hu. lia. }
  assert (keeps P0 (placed P (length ks) x (MkCentre bb None None 0) c (R c) h' l st)) as Hkp.
  { eapply keeps_trans; [by eapply created_keeps|]. split; [done|]. split; [by eexists _, h'|done]. }
  eexists. split; [exact E|]. split; [|done].
  apply (core_grow N _ P0); try done; cbn [placed nodes rec_arrays proc current_bbccs set_bbccs set_now current_tid cstat]; try lia.
  - set_solver.
  - apply NoDup_app. split_and!; [apply HC| |apply NoDup_singleton]. intros a Ha ->%list_elem_of_singleton.
    apply list_elem_of_lookup_1 in Ha as [j Hj]. by apply (co_rows _ _ _ _ HC) in Hj as [Hj _].
  - rewrite !length_app, Er. simpl. lia.
  - intros k z Hz Hlt. destruct (same_data _ _ _ _ Hu Hz) as (z' & Hz' & Hd). exists z'. split; [|done].
    rewrite list_lookup_insert_ne, lookup_app_l in Hz' by lia. done.
  - intros z Hz. destruct (same_data _ _ _ _ Hu Hz) as (z' & Hz' & Hd). eapply node_ok_data; [exact Hd|].
    rewrite list_lookup_insert_eq in Hz' by (rewrite length_app; simpl; lia). injection Hz' as <-.
    exists c, (length gs). cbn. rewrite X1, X3, X6, Er, Lr. split_and!; [done| |done| |by left].
    + apply keys_snoc. by right.
    + by rewrite lookup_app_r, Nat.sub_diag by lia.
  - intros k z Hz Hne. rewrite Hf; [rewrite lookup_app_l; [done|apply lookup_lt_Some in Hz; lia]|].
    apply not_elem_of_cons. split; [apply lookup_lt_Some in Hz; lia|]. rewrite Hin. intros (b & c' & H). by simplify_eq.
  - constructor; [|done]. exists chains'. split_and!; [done| |rewrite He', Hp; simpl; lia].
    intros k. rewrite Hp, elem_of_cons, Hin. split.
    + intros [->|(b & c' & H)]; [exists bb, c; apply keys_snoc; by right|]. exists b, c'. apply keys_snoc. by left.
    + intros (b & c' & H). apply keys_snoc in H as [H|[-> _]]; [right; by exists b, c'|by left].
  - rewrite Er. by apply (rows_new N).
  - intros p Hpk. cbn. by rewrite Ec, !lookup_insert_ne.
  - eexists. cbn. by rewrite lookup_insert_eq.
  - apply Hcr.
  - by replace (N + 2) with (N + 1 + 1) by lia.
Qed.

(** ** Changes that matter to no key *)

Lemma same_proc P : proc P = set_now (proc P) (here P).
Proof. unfold here. by destruct (proc P). Qed.

Lemma core_same N M P P' ks gs : core N P ks gs -> N <= M -> nodes P' = nodes P -> rec_arrays P' = rec_arrays P ->
  proc P' = set_now (proc P) (here P') -> centres (here P') = centres (here P) -> costs (here P') = costs (here P) ->
  stats_ok M (cstat P') -> core M P' ks gs.
Proof.
  intros [C1 C2 C3 C4 C5 C6 C7 C8 C9 C10] HM En Er Ep Ec Eco Hst. constructor; rewrite ?En, ?Er; try done.
  - lia.
  - by rewrite Ep.
  - rewrite Ep. cbn [current_tid set_now]. intros o h Ho0 Ho Hh. apply C5; [done..|]. rewrite <- Hh. f_equal. symmetry.
    rewrite <- (tables_others (proc P) (here P') (current_bbccs (proc P)) o Ho). by destruct (proc P).
  - intros k y Hk. unfold centre_known. rewrite Ec. by apply C8.
  - by rewrite Eco.
Qed.

(** A change of a field that is neither link nor key. *)
Lemma core_upd N P ks gs k x y : core N P ks gs -> nodes P !! k = Some x -> next y = next x ->
  bc_bb y = bc_bb x -> bc_cxt y = bc_cxt x -> node_ok ks gs k y -> core N (set_nodes P (<[k := y]> (nodes P))) ks gs.
Proof.
  intros [C1 C2 C3 C4 C5 C6 C7 C8 C9 C10] Hx En Eb Ec Hy.
  assert (forall o h, table_ok (nodes P) ks o h -> table_ok (<[k := y]> (nodes P)) ks o h) as Ht.
  { intros o h [(ch & Hh & Hr) Hs]. constructor; [|done]. exists ch. split; [|done].
    apply (hashed_links (nodes P)); [done|..]; intros j; (destruct (decide (j = k)) as [->|Hne];
      [rewrite list_lookup_insert_eq, Hx by (by apply lookup_lt_Some in Hx)|by rewrite list_lookup_insert_ne]).
    - cbn [fmap option_fmap option_map]. by rewrite En.
    - cbn. by rewrite Eb, Ec. }
  constructor; try done.
  - cbn. by rewrite length_insert.
  - cbn. intros j z Hz. destruct (decide (j = k)) as [->|Hne].
    + rewrite list_lookup_insert_eq in Hz by (by apply lookup_lt_Some in Hx). by injection Hz as <-.
    + rewrite list_lookup_insert_ne in Hz by done. by apply C3.
  - by apply Ht.
  - intros o h Ho0 Ho Hh. by apply Ht, C5.
Qed.

Lemma core_set_next N P ks gs k x q : core N P ks gs -> nodes P !! k = Some x ->
  core N (set_nodes P (<[k := set_next_bbcc q x]> (nodes P))) ks gs.
Proof.
  intros HC Hx. apply (core_upd _ _ _ _ _ x); try done.
  eapply node_ok_data; [|by apply (co_nodes _ _ _ _ HC)]. done.
Qed.

Lemma block_mono ks y bb b : block_ok ks bb b -> y.1.1.2 <> bb \/ bbcc_list b <> 0 -> block_ok (ks ++ [y]) bb b.
Proof.
  intros (H1 & H2 & H3 & H4) Hy. split_and!; try done; try lia.
  destruct H4 as [[E Hn]|(k & o & c & i & k' & o' & c' & E & Hk & E' & Hk')].
  - left. split; [done|]. intros o c i. rewrite elem_of_app, list_elem_of_singleton. intros [Hin| <-]; [by eapply Hn|].
    by destruct Hy.
  - right. exists k, o, c, i, k', o', c'. split_and!; try done; by apply lookup_app_l_Some.
Qed.

(** The list of the block after a new centre. *)
Lemma blocks_listed ks (bm : gmap Z block) bb b y last : map_Forall (block_ok ks) bm -> bm !! bb = Some b -> y.1.1.2 = bb ->
  (exists k o c, last = addr k /\ (ks ++ [y]) !! k = Some (o, bb, c, 0)) ->
  map_Forall (block_ok (ks ++ [y])) (<[bb := set_lists b (addr (length ks)) last]> bm).
Proof.
  intros HB Hb Hy (k' & o' & c' & -> & Hk') bb' b' Hb'. apply lookup_insert_Some in Hb' as [[<- <-]|[Hne Hb']].
  - destruct (HB bb b Hb) as (H1 & H2 & H3 & _). split_and!; cbn; try done; try lia. right.
    destruct y as [[[o bb0] c] i]. cbn in Hy. subst bb0. exists (length ks), o, c, i, k', o', c'.
    split_and!; try done. apply keys_snoc. by right.
  - apply block_mono; [by apply HB|]. left. congruence.
Qed.

(** ** Cloning *)

Definition clone_tail (P : profile) (bb p : Z) : res (Z * profile) :=
  let! b := deref_block P bb in
  let! P := upd_node P p (set_next_bbcc (bbcc_list b)) in
  let P := set_blocks P (<[bb := set_lists b p (last_bbcc b)]> (blocks P)) in
  let st := cstat P in
  let! n := int_add (bbcc_clones st) 1 in
  Ok (p, set_cstat P (MkCentreStats (bbcc_lru_misses st) (bbcc_hash_resizes st) (distinct_bbccs st) n (jcnd_counter st)
                        (jump_counter st))).

Lemma clone_tail_ok M P ks gs y b : core M P (ks ++ [y]) gs -> map_Forall (block_ok ks) (blocks P) ->
  blocks P !! y.1.1.2 = Some b -> bbcc_list b <> 0 -> M < 2 ^ 31 - 1 ->
  exists P', clone_tail P y.1.1.2 (addr (length ks)) = Ok (addr (length ks), P') /\ inv (M + 1) P' (ks ++ [y]) gs /\ keeps P P'.
Proof.
  intros HC HB Hb Hl HM. destruct (HB _ _ Hb) as (Hbb & _ & _ & Hlast). unfold clone_tail.
  rewrite (deref_block_ok _ _ b) by done. cbn [rbind].
  destruct (co_len _ _ _ _ HC) as (Ln & _ & _). rewrite length_app in Ln. simpl in Ln.
  destruct (lookup_lt_is_Some_2 (nodes P) (length ks)) as [x Hx]; [lia|].
  rewrite (upd_node_ok _ _ x) by done. cbn [rbind set_nodes set_blocks cstat blocks].
  destruct (co_stats _ _ _ _ HC) as (S1 & S2 & S3 & S4). unfold int_add.
  rewrite signed_result_in by (unfold in_s; lia). cbn [rbind]. eexists. split; [done|]. split.
  - split; [|cbn; apply (blocks_listed _ _ _ b); try done].
    + apply (core_same M _ (set_nodes P (<[length ks := set_next_bbcc (bbcc_list b) x]> (nodes P))));
        [by apply core_set_next|lia|try done..]; [apply (same_proc P)|].
      unfold stats_ok. cbn. lia.
    + destruct Hlast as [[E _]|(k & o & c & i & k' & o' & c' & E & Hk & E' & Hk')]; [done|].
      exists k', o', c'. split; [done|]. by apply lookup_app_l_Some.
  - eapply (keeps_blocks P P); [apply keeps_refl|done|]. cbn [blocks set_cstat set_blocks set_nodes]. done.
Qed.

(** The function of a context keeps [R] levels. *)
Definition context_ok (P : profile) (c : nat) : Prop :=
  exists f fn, cxt_fn0 (here P) (Some c) = Ok f /\ deref_fn (cx (here P)) f = Ok fn /\ separate_recursions fn = R c /\
    0 < R c.

Lemma context_kept P P' c : cx (here P') = cx (here P) -> context_ok P c -> context_ok P' c.
Proof. intros E. unfold context_ok, cxt_fn0. by rewrite E. Qed.

Lemma clone_base_ok N P ks gs bb b k c : let g := (owner (current_tid (proc P)), bb, c) in
  inv N P ks gs -> blocks P !! bb = Some b -> bbcc_list b = addr k -> bbcc_list b <> 0 -> (g, 0) ∉ ks ->
  context_ok P c -> N + 1 < 2 ^ 24 ->
  exists P', clone_bbcc P (bbcc_list b) (Some c) 0 = Ok (addr (length ks), P') /\
    inv (N + 3) P' (ks ++ [(g, 0)]) (gs ++ [g]) /\ keeps P P'.
Proof.
  intros g [HC HB] Hb Hlk Hl Hg (f & fn & Hf & Hfn & HR & HR0) HN.
  destruct (HB _ _ Hb) as (Hbb & Hcost & _ & [[E _]|(k0 & o & c0 & i & _ & _ & _ & E & Hk & _)]); [done|].
  destruct (co_len _ _ _ _ HC) as (Ln & _ & _).
  destruct (lookup_lt_is_Some_2 (nodes P) k0) as [x Hx]; [apply lookup_lt_Some in Hk; lia|].
  destruct (co_nodes _ _ _ _ HC _ _ Hx) as (c1 & a & X1 & X2 & X3 & X4 & _). rewrite X2 in Hk.
  injection Hk as Ho Hxb Hxc Hxi. unfold ClgCentres.clone_bbcc. rewrite E.
  rewrite (deref_node_ok _ _ x) by done. cbn [rbind]. rewrite Hxb.
  destruct (new_bbcc_ok N P bb b) as (z & P1 & -> & Hcr & Eb); [done..|apply HC|apply HC|lia|]. cbn [rbind].
  pose proof (created_keeps _ _ _ _ Hcr) as Hkp. pose proof Hkp as [(Ecx & _) _].
  unfold cxt_fn0. rewrite Ecx. unfold cxt_fn0 in Hf. rewrite Hf. cbn [rbind]. rewrite Hfn. cbn [rbind Z.eqb].
  rewrite (keeps_tid _ _ Hkp).
  assert (negb (bc_tid x =? current_tid (proc P)) || negb (bool_decide (bc_cxt x = Some c)) = true) as ->.
  { apply orb_true_iff. destruct (Z.eqb_spec (bc_tid x) (current_tid (proc P))) as [Et|]; [right|by left].
    apply negb_true_iff, bool_decide_eq_false. rewrite X1. intros [= ->]. apply (no_level _ _ _ _ _ (rec_index x) HC Hg).
    eapply list_elem_of_lookup_2. rewrite X2. unfold g. by rewrite Et, Hxb. }
  cbn [tl_assert rbind]. rewrite HR, Ln.
  destruct (core_add_base N P ks gs bb z P1 c) as (P2 & -> & HC2 & Eb2 & Hkp2); [done..|]. cbn [rbind].
  destruct (clone_tail_ok (N + 2) P2 ks (gs ++ [g]) (g, 0) b) as (P3 & E3 & HI & Hkp3);
    [done|by rewrite Eb2, Eb|by rewrite Eb2, Eb|done|lia|].
  exists P3. split; [exact E3|]. split; [by replace (N + 3) with (N + 2 + 1) by lia|]. by eapply keeps_trans.
Qed.

(** A table is not touched by a centre of another level. *)
Lemma table_level l x ks g i o h : table_ok l ks o h -> i <> 0 -> table_ok (l ++ [x]) (ks ++ [(g, i)]) o h.
Proof.
  intros [(chains & Hh & Hin & He) Hs] Hi. constructor; [|done]. exists chains. split_and!; [by apply hashed_snoc| |done].
  intros k. rewrite Hin. split; intros (bb & c & Hk); exists bb, c.
  - apply keys_snoc. by left.
  - apply keys_snoc in Hk as [Hk|[_ E]]; [done|]. by injection E as _ <-.
Qed.

Lemma rows_level N P ks gs a g i l : core N P ks gs -> gs !! a = Some g -> (g, i) ∉ ks -> 0 <= i ->
  rec_arrays P !! a = Some l ->
  forall a' g', gs !! a' = Some g' -> (g', 0) ∈ ks ++ [(g, i)] /\
    exists l', <[a := <[Z.to_nat i := addr (length ks)]> l]> (rec_arrays P) !! a' = Some l' /\ row_ok (ks ++ [(g, i)]) g' l'.
Proof.
  intros HC Ha Hg Hi Hl a' g' Ha'. destruct (co_rows _ _ _ _ HC a' g' Ha') as (H0 & r & Hr & Hrow).
  split; [set_solver|]. destruct (decide (a' = a)) as [->|Hne].
  - rewrite Ha in Ha'. injection Ha' as <-. rewrite Hl in Hr. injection Hr as <-. destruct Hrow as [Hlen Hrow].
    eexists. rewrite list_lookup_insert_eq by (by apply lookup_lt_Some in Hl). split; [done|].
    split; [by rewrite length_insert|]. intros j v Hj. apply list_lookup_insert_Some in Hj as [(<- & <- & _)|[Hne Hj]].
    + right. exists (length ks). split; [done|]. apply keys_snoc. right. by rewrite Z2Nat.id.
    + destruct (Hrow j v Hj) as [[-> Hn]|(k & -> & Hk)]; [left|right].
      * split; [done|]. rewrite elem_of_app, list_elem_of_singleton. intros [?|[= E]]; [done|lia].
      * exists k. split; [done|]. apply keys_snoc. by left.
  - rewrite list_lookup_insert_ne by done. exists r. split; [done|]. apply row_kept; [done|]. cbn. intros <-.
    apply Hne. by eapply (NoDup_lookup gs); [apply HC|..].
Qed.

Lemma core_add_level N P0 ks gs bb x P c a i :
  let g := (owner (current_tid (proc P0)), bb, c) in
  core N P0 ks gs -> created P0 bb x P -> gs !! a = Some g -> (g, i) ∉ ks -> 0 < i < R c ->
  exists P', (let! P := place_centre P (addr (length ks)) (Some c) i (Some a) in set_rec P (Some a) i (addr (length ks))) =
      Ok P' /\ core (N + 1) P' (ks ++ [(g, i)]) gs /\ blocks P' = blocks P /\ keeps P0 P'.
Proof.
  intros g HC Hcr Ha Hg Hi. destruct (co_len _ _ _ _ HC) as (Ln & Lr & LN).
  pose proof (cr_nodes _ _ _ _ Hcr) as En. pose proof (cr_proc _ _ _ _ Hcr) as Ep.
  pose proof (cr_centres _ _ _ _ Hcr) as Ec. rewrite Ln in Ec. pose proof (cr_recs _ _ _ _ Hcr) as Er.
  pose proof (cr_new _ _ _ _ Hcr) as Hx. unfold data in Hx. injection Hx as X1 X2 X3 X4 X5 X6.
  destruct (co_rows _ _ _ _ HC a g Ha) as (H0 & l & Hl & [Hll _]). cbn in Hll.
  rewrite (place_centre_ok _ (length ks) x (MkCentre bb None None 0));
    [|by rewrite En, lookup_app_r, Ln, Nat.sub_diag by lia|by rewrite Ec, lookup_insert_eq].
  cbn [rbind]. unfold set_rec. cbn [set_here set_proc set_nodes rec_arrays]. rewrite Er, Hl. cbn [rbind].
  rewrite arr_set_in by lia. cbn [rbind]. eexists. split; [done|].
  rewrite En, (insert_app_r_alt _ _ (length ks)), Ln, Nat.sub_diag by lia. cbn [insert list_insert].
  match goal with |- core _ ?Q _ _ /\ _ => assert (keeps P0 Q) as Hkp end.
  { eapply keeps_trans; [by eapply created_keeps|]. split; [done|]. split; [|done]. exists (here (set_here P (set_centres (here P)
      (<[addr (length ks) := MkCentre bb (Some c) None 0]> (centres (here P)))))), (current_bbccs (proc P)).
    cbn. by destruct (proc P). }
  split; [|done]. rewrite <- (app_nil_r gs).
  apply (core_grow N _ P0); rewrite ?app_nil_r; try done; cbn [set_here set_recs set_nodes set_proc nodes rec_arrays proc cstat]; try lia.
  - cbn. by eapply list_elem_of_lookup_2.
  - cbn. lia.
  - apply (co_nodup _ _ _ _ HC).
  - rewrite length_app. simpl. lia.
  - by rewrite length_insert.
  - intros k z Hz Hlt. rewrite lookup_app_l in Hz by lia. by exists z.
  - intros z Hz. rewrite lookup_app_r, Ln, Nat.sub_diag in Hz by lia. injection Hz as <-.
    exists c, a. cbn. rewrite X1, X3, X6. split_and!; [done| |done|done|by left]. apply keys_snoc. by right.
  - intros k z Hz _. apply lookup_app_l. apply lookup_lt_Some in Hz. lia.
  - rewrite Ep. cbn. apply table_level; [apply HC|lia].
  - apply (rows_level N); try done. lia.
  - intros p Hp. cbn. by rewrite Ec, !lookup_insert_ne.
  - eexists. cbn. by rewrite lookup_insert_eq.
  - apply Hcr.
  - apply Hcr, HC.
Qed.

(** The centre with a key. *)
Lemma node_of N P ks gs k y : core N P ks gs -> ks !! k = Some y ->
  exists x a, nodes P !! k = Some x /\ owner (bc_tid x) = y.1.1.1 /\ bc_bb x = y.1.1.2 /\ bc_cxt x = Some y.1.2 /\
    rec_index x = y.2 /\ rec_array x = Some a /\ gs !! a = Some y.1 /\ node_ok ks gs k x.
Proof.
  intros HC Hk. destruct (co_len _ _ _ _ HC) as (Ln & _ & _).
  destruct (lookup_lt_is_Some_2 (nodes P) k) as [x Hx]; [apply lookup_lt_Some in Hk; lia|].
  pose proof (co_nodes _ _ _ _ HC _ _ Hx) as Hn. destruct Hn as (c & a & X1 & X2 & X3 & X4 & X5).
  rewrite X2 in Hk. injection Hk as <-. exists x, a. split_and!; try done. by exists c, a.
Qed.

Lemma listed ks bb b o c i : block_ok ks bb b -> (o, bb, c, i) ∈ ks -> bbcc_list b <> 0.
Proof.
  intros (_ & _ & _ & [[_ Hn]|(k & _ & _ & _ & _ & _ & _ & -> & _)]) Hin; [by apply Hn in Hin|apply Haddr].
Qed.

Lemma clone_level_ok N P ks gs bb b k c i : let g := (owner (current_tid (proc P)), bb, c) in
  inv N P ks gs -> blocks P !! bb = Some b -> ks !! k = Some (g, 0) -> 0 < i < R c -> (g, i) ∉ ks ->
  context_ok P c -> N < 2 ^ 24 ->
  exists P', clone_bbcc P (addr k) (Some c) i = Ok (addr (length ks), P') /\
    inv (N + 2) P' (ks ++ [(g, i)]) gs /\ keeps P P'.
Proof.
  intros g [HC HB] Hb Hk Hi Hg (f & fn & Hf & Hfn & HR & HR0) HN. destruct (co_len _ _ _ _ HC) as (Ln & _ & _).
  destruct (node_of _ _ _ _ _ _ HC Hk) as (x & a & Hx & Ho & Hxb & Hxc & _ & Hxa & Ha & _).
  cbn in Ho, Hxb, Hxc, Ha. pose proof (HB _ _ Hb) as Hbok. destruct Hbok as (Hbb & Hcost & _ & _).
  unfold ClgCentres.clone_bbcc. rewrite (deref_node_ok _ _ x) by done. cbn [rbind]. rewrite Hxb.
  destruct (new_bbcc_ok N P bb b) as (z & P1 & -> & Hcr & Eb); [done..|apply HC|apply HC|lia|]. cbn [rbind].
  pose proof (created_keeps _ _ _ _ Hcr) as Hkp. pose proof Hkp as [(Ecx & _) _].
  unfold cxt_fn0. rewrite Ecx. unfold cxt_fn0 in Hf. rewrite Hf. cbn [rbind]. rewrite Hfn. cbn [rbind].
  rewrite (proj2 (Z.eqb_neq i 0)) by lia. rewrite (keeps_tid _ _ Hkp), Hxc, Hxa, HR.
  assert (negb separate_threads || (bc_tid x =? current_tid (proc P)) = true) as ->.
  { unfold ClgThreads.owner in Ho. destruct separate_threads; [|done]. by apply Z.eqb_eq. }
  rewrite bool_decide_eq_true_2 by done. rewrite bool_decide_eq_false_2 by done.
  rewrite (proj2 (Z.ltb_lt _ _)) by lia. cbn [tl_assert rbind negb].
  destruct (co_rows _ _ _ _ HC a g Ha) as (_ & l & Hl & [Hll Hrow]). cbn in Hll.
  destruct (lookup_lt_is_Some_2 l (Z.to_nat i)) as [v Hv]; [lia|].
  unfold get_rec. rewrite (cr_recs _ _ _ _ Hcr), Hl, (arr_get_in _ i v) by (done || lia). cbn [rbind].
  destruct (Hrow _ _ Hv) as [[-> _]|(j & _ & Hj)].
  2: { rewrite Z2Nat.id in Hj by lia. by apply list_elem_of_lookup_2 in Hj. }
  cbn [Z.eqb tl_assert rbind]. rewrite Ln.
  destruct (core_add_level N P ks gs bb z P1 c a i) as (P2 & E2 & HC2 & Eb2 & Hkp2); [done..|].
  unfold rbind in E2 at 1. destruct (place_centre P1 _ _ _ _) as [P1'|]; [|done]. cbn [rbind] in E2 |- *.
  rewrite E2. cbn [rbind].
  destruct (clone_tail_ok (N + 1) P2 ks gs (g, i) b) as (P3 & E3 & HI & Hkp3);
    [done|by rewrite Eb2, Eb|by rewrite Eb2, Eb| |lia|].
  { eapply listed; [by apply HB|]. by eapply list_elem_of_lookup_2. }
  exists P3. split; [exact E3|]. split; [by replace (N + 2) with (N + 1 + 1) by lia|]. by eapply keeps_trans.
Qed.

(** ** The centre of level 0 *)

(** What decides which centre is meant: the context, how often its function is
    active, and whether a call that is a direct recursion is skipped. *)
Record entrance : Type := MkEntrance { e_cxt : nat; e_active : Z; e_direct : bool }.

(** Block [bb] is entered in context [c]; the last centre is of the same owner. *)
Record request (P : profile) (bb last : Z) (entering : bool) (e : entrance) : Prop := {
  rq_cxt : x_cxt (cur (here P)) = Some (e_cxt e);
  rq_block : is_Some (blocks P !! bb);
  rq_fn : context_ok P (e_cxt e);
  rq_top : exists f i, top_fn P = Ok f /\ separate_recursions f = R (e_cxt e) /\
    get_fn_entry (here P) (number f) = Ok i /\ read_active (here P) i = Ok (e_active e);
  rq_bounds : 0 <= e_active e < 2 ^ 32 - 1 /\ R (e_cxt e) < 2 ^ 32;
  rq_last : last = 0 \/ exists k x, last = addr k /\ nodes P !! k = Some x /\ owner (bc_tid x) = owner (current_tid (proc P));
  rq_caller : if skip_direct_recursion (here P) then
      exists k x f f', x_bbcc (cur (here P)) = addr k /\ nodes P !! k = Some x /\ cxt_fn0 (here P) (bc_cxt x) = Ok f' /\
        cxt_fn0 (here P) (Some (e_cxt e)) = Ok f /\ e_direct e = (f' =? f)
    else e_direct e = false
}.

(** The centre [p] is the one for [y], if it is not null. *)
Definition known_as (ks : list key) (p : Z) (y : key) : Prop := exists k, p = addr k /\ ks !! k = Some y.

Lemma same_owner t x : negb separate_threads || (bc_tid x =? t) = true -> owner (bc_tid x) = owner t.
Proof. unfold ClgThreads.owner. destruct separate_threads; [|done]. cbn. by intros ->%Z.eqb_eq. Qed.

Lemma cached_next_ok N P ks gs bb last entering e : inv N P ks gs -> request P bb last entering e ->
  exists q, cached_next num P bb last = Ok q /\
    (q = 0 \/ known_as ks q (owner (current_tid (proc P)), bb, e_cxt e, 0)).
Proof.
  intros [HC HB] Hrq. pose proof (rq_cxt _ _ _ _ _ Hrq) as Hcxt. unfold cached_next.
  destruct (rq_last _ _ _ _ _ Hrq) as [->|(k & x & -> & Hx & Ho)].
  { exists 0. split; [done|by left]. }
  rewrite (proj2 (Z.eqb_neq _ _) (proj2 (Haddr k))).
  destruct (co_nodes _ _ _ _ HC _ _ Hx) as (_ & _ & _ & _ & _ & _ & Hlru).
  rewrite (deref_node_ok _ _ x) by done. cbn [rbind].
  destruct Hlru as [->|(j & b2 & c2 & -> & Hj)]; [exists 0; split; [done|by left]|].
  rewrite (proj2 (Z.eqb_neq _ _) (proj2 (Haddr j))). rewrite Ho in Hj. cbn in Hj.
  destruct (node_of _ _ _ _ _ _ HC Hj) as (y & a2 & Hy & _ & Hyb & Hyc & _).
  rewrite (deref_node_ok _ _ y) by done. cbn [rbind]. rewrite Hyb, Hyc, Hcxt. cbn [fst snd].
  eexists. split; [done|]. destruct (Z.eqb_spec b2 bb) as [->|]; [|by left]. cbn [negb orb].
  case_bool_decide as Ec; [|by left]. right. exists j. by injection Ec as ->.
Qed.

Lemma lookup_bbcc_ok N P ks gs bb b c : inv N P ks gs -> blocks P !! bb = Some b -> bbcc_list b <> 0 -> N < 2 ^ 24 ->
  let y := (owner (current_tid (proc P)), bb, c, 0) in
  exists q P', lookup_bbcc P bb (Some c) = Ok (q, P') /\ (q = 0 /\ y ∉ ks \/ known_as ks q y) /\ inv (N + 1) P' ks gs /\
    blocks P' = blocks P /\ proc P' = proc P.
Proof.
  intros [HC HB] Hb Hl HN y. pose proof (co_stats _ _ _ _ HC) as (S1 & S2 & S3 & S4).
  assert (forall st, stats_ok (N + 1) st -> inv (N + 1) (set_cstat P st) ks gs) as Hst.
  { intros st Hst. split; [|done]. apply (core_same N _ P); try done; [lia|apply (same_proc P)]. }
  destruct (HB _ _ Hb) as (Hbb & _ & _ & [[E _]|(_ & _ & _ & _ & k & o & c' & _ & _ & Elast & Hk)]); [done|].
  destruct (node_of _ _ _ _ _ _ HC Hk) as (x & a & Hx & Ho & Hxb & Hxc & _). cbn in Ho, Hxb, Hxc.
  unfold ClgCentres.lookup_bbcc. rewrite (deref_block_ok _ _ b) by done. cbn [rbind]. rewrite Elast.
  rewrite (deref_node_ok _ _ x) by done. cbn [rbind].
  destruct (bool_decide (bc_cxt x = Some c) && (negb separate_threads || (bc_tid x =? current_tid (proc P)))) eqn:Ehit.
  - apply andb_true_iff in Ehit as [E1 E2]. apply bool_decide_eq_true in E1. apply same_owner in E2.
    exists (addr k), P. split_and!; try done.
    + right. exists k. split; [done|]. rewrite Hk. unfold y. congruence.
    + replace P with (set_cstat P (cstat P)) by (by destruct P). apply Hst. unfold stats_ok. lia.
  - unfold int_add. rewrite signed_result_in by (unfold in_s; lia). cbn [rbind set_cstat proc nodes].
    destruct (co_here _ _ _ _ HC) as [(chains & Hh & Hin & _) [Hs _]]. unfold bbcc_hash_idx.
    rewrite (proj2 (Z.eqb_neq _ _) Hbb), bool_decide_eq_false_2 by done. cbn [negb tl_assert rbind].
    destruct (find_in (nodes P) _ _ _ (bbcc_hash_val cxt_addr bb (Some c)) (fun x => Ok (is_centre bb (Some c) x))
      (is_centre bb (Some c)) (length (nodes P)) ltac:(done) Hs Hh ltac:(lia)) as (r & E & Hr).
    { intros j z _ _ Hz. unfold is_centre in Hz. apply andb_true_iff in Hz as [Z1 Z2].
      apply Z.eqb_eq in Z1. apply bool_decide_eq_true in Z2. cbn. by rewrite Z1, Z2. }
    unfold rbind in E |- *. destruct (bucket_of _ _); [|done]. cbn [rbind] in E |- *.
    destruct (arr_get _ _); [|done]. rewrite E. eexists _, _. split; [done|].
    split; [|split; [apply Hst; unfold stats_ok; cbn; lia|done]].
    destruct r as [j|].
    + destruct Hr as (Hj & z & Hz & Hzc). right. exists j. split; [done|]. apply Hin in Hj as (b2 & c2 & Hj).
      destruct (node_of _ _ _ _ _ _ HC Hj) as (z' & a2 & Hz' & _ & Zb & Zc & _). rewrite Hz in Hz'. injection Hz' as <-.
      unfold is_centre in Hzc. apply andb_true_iff in Hzc as [Z1 Z2]. apply Z.eqb_eq in Z1.
      apply bool_decide_eq_true in Z2. rewrite Hj. unfold y. cbn in Zb, Zc. congruence.
    + left. split; [done|]. intros Hy. apply list_elem_of_lookup_1 in Hy as [j Hj].
      destruct (node_of _ _ _ _ _ _ HC Hj) as (z & a2 & Hz & _ & Zb & Zc & _). cbn in Zb, Zc.
      specialize (Hr j z). rewrite Hin in Hr. specialize (Hr ltac:(by eexists _, _) Hz).
      unfold is_centre in Hr. by rewrite Zb, Zc, Z.eqb_refl, bool_decide_eq_true_2 in Hr.
Qed.

(** [bb->last_bbcc = bbcc] *)
Lemma inv_last N P ks gs bb b k o c : inv N P ks gs -> blocks P !! bb = Some b -> ks !! k = Some (o, bb, c, 0) ->
  inv N (set_blocks P (<[bb := set_lists b (bbcc_list b) (addr k)]> (blocks P))) ks gs.
Proof.
  intros [HC HB] Hb Hk. split.
  - apply (core_same N _ P); try done; [apply (same_proc P)|apply HC].
  - cbn. intros bb' b' Hb'. apply lookup_insert_Some in Hb' as [[<- <-]|[_ Hb']]; [|by apply HB].
    destruct (HB bb b Hb) as (H1 & H2 & H3 & [[_ Hn]|(k0 & o0 & c0 & i0 & _ & _ & _ & E & Hk0 & _)]).
    + apply list_elem_of_lookup_2 in Hk. by apply Hn in Hk.
    + split_and!; try done; cbn; try lia. right. by exists k0, o0, c0, i0, k, o, c.
Qed.

(** [last->lru_next_bbcc = bbcc] *)
Lemma inv_lru N P ks gs j k z bb c : inv N P ks gs -> ks !! j = Some z -> ks !! k = Some (z.1.1.1, bb, c, 0) ->
  exists P', upd_node P (addr j) (set_lru_next (addr k)) = Ok P' /\ inv N P' ks gs /\ keeps P P'.
Proof.
  intros [HC HB] Hj Hk. destruct (node_of _ _ _ _ _ _ HC Hj) as (x & a & Hx & Ho & _ & _ & _ & _ & _ & Hn).
  rewrite (upd_node_ok _ _ x) by done. eexists. split; [done|]. split; [|by apply (keeps_refl P)]. split; [|done].
  apply (core_upd _ _ _ _ _ x); try done. destruct Hn as (c' & a' & N1 & N2 & N3 & N4 & _). exists c', a'.
  split_and!; try done. right. exists k, bb, c. cbn. by rewrite Ho.
Qed.

(** The first centre of a block. *)
Lemma fresh_centre_ok N P ks gs bb b c : let g := (owner (current_tid (proc P)), bb, c) in
  inv N P ks gs -> blocks P !! bb = Some b -> bbcc_list b = 0 -> (forall o c i, (o, bb, c, i) ∉ ks) -> 0 < R c ->
  N + 1 < 2 ^ 24 ->
  exists P1 x P', get_bbcc P bb = Ok (addr (length ks), P1) /\ deref_node P1 (addr (length ks)) = Ok x /\
    bc_cxt x = None /\ rec_array x = None /\ rec_index x = 0 /\ keeps P P1 /\
    place_base P1 (addr (length ks)) (Some c) 0 (R c) = Ok P' /\
    inv (N + 2) P' (ks ++ [(g, 0)]) (gs ++ [g]) /\ keeps P P'.
Proof.
  intros g [HC HB] Hb El Hn HR HN. destruct (HB _ _ Hb) as (Hbb & Hcost & _ & _).
  destruct (co_len _ _ _ _ HC) as (Ln & _ & _). unfold ClgCentres.get_bbcc.
  rewrite (deref_block_ok _ _ b) by done. cbn [rbind]. rewrite El. cbn [Z.eqb negb].
  destruct (new_bbcc_ok N P bb b) as (z & P1 & -> & Hcr & Eb); [done..|apply HC|apply HC|lia|]. cbn [rbind].
  pose proof (cr_nodes _ _ _ _ Hcr) as En. rewrite Ln in *.
  rewrite (upd_node_ok _ _ z) by (by rewrite En, lookup_app_r, Ln, Nat.sub_diag by lia). cbn [rbind].
  rewrite En, (insert_app_r_alt _ _ (length ks)), Ln, Nat.sub_diag by lia. cbn [insert list_insert].
  pose proof (created_listed P bb z P1 0 (<[bb := set_lists b (addr (length ks)) (addr (length ks))]> (blocks P1)) Hcr) as Hcr'.
  specialize (Hcr' ltac:(intros bb' H; rewrite lookup_insert_is_Some', Eb; by right)).
  destruct (core_add_base N P ks gs bb _ _ c HC Hcr') as (P2 & E2 & HC2 & Eb2 & Hkp2); [done|by apply Hn|done|done|].
  pose proof (cr_new _ _ _ _ Hcr') as Hz. injection Hz as Z1 Z2 Z3 Z4 Z5 Z6.
  eexists _, (set_next_bbcc 0 z), P2. split; [done|]. split_and!; try done.
  - apply deref_node_ok. cbn. by rewrite lookup_app_r, Ln, Nat.sub_diag by lia.
  - by eapply created_keeps.
  - split; [exact HC2|]. rewrite Eb2. cbn. rewrite Eb. apply blocks_listed; try done.
    exists (length ks), (owner (current_tid (proc P))), c. split; [done|]. apply keys_snoc. by right.
Qed.

Lemma inv_mono N M P ks gs : N <= M -> inv N P ks gs -> inv M P ks gs.
Proof.
  intros HM [HC HB]. split; [|done]. apply (core_same N _ P); try done; [apply (same_proc P)|].
  destruct (co_stats _ _ _ _ HC) as (S1 & S2 & S3 & S4). unfold stats_ok. lia.
Qed.

Lemma top_fn_kept P P' : keeps P P' -> top_fn P' = top_fn P.
Proof. intros [(E1 & _ & _ & E2 & _) _]. unfold top_fn. by rewrite E1, E2. Qed.

(** *** Without the cache of the last centre *)

Definition found_or_made (P : profile) (bb last : Z) : res (Z * profile) :=
  let cxt := x_cxt (cur (here P)) in
  let! (p, P) := get_bbcc P bb in
  let! x := deref_node P p in
  if bool_decide (bc_cxt x = None) then
    let! _ := tl_assert (bool_decide (rec_array x = None)) "bbcc->rec_array == 0" in
    let! f := top_fn P in
    let! P := place_base P p cxt (rec_index x) (separate_recursions f) in
    Ok (p, P)
  else
    let! q := cached_next num P bb last in
    let! (q, P) := (if q =? 0 then lookup_bbcc P bb cxt else Ok (q, P)) in
    let! (q, P) := (if q =? 0 then
                      let! b := deref_block P bb in clone_bbcc P (bbcc_list b) cxt 0
                    else Ok (q, P)) in
    let! b := deref_block P bb in
    Ok (q, set_blocks P (<[bb := set_lists b (bbcc_list b) q]> (blocks P))).

Lemma base_centre_split P bb last : base_centre P bb last =
  let! (p, P) := found_or_made P bb last in
  let! P := (if negb (last =? 0) then upd_node P last (set_lru_next p) else Ok P) in
  Ok (p, P).
Proof.
  unfold ClgCentres.base_centre, found_or_made. destruct (get_bbcc P bb) as [[p P1]|]; [|done]. cbn [rbind].
  by destruct (deref_node P1 p).
Qed.

(** The centre is in the cache, in the table, or new. *)
Lemma cached_or_made N P ks gs bb b last entering e : inv N P ks gs -> request P bb last entering e ->
  blocks P !! bb = Some b -> bbcc_list b <> 0 -> N + 2 < 2 ^ 24 -> let c := e_cxt e in
  let y := (owner (current_tid (proc P)), bb, c, 0) in
  exists P' gs', (let! q := cached_next num P bb last in
      let! (q, P) := (if q =? 0 then lookup_bbcc P bb (Some c) else Ok (q, P)) in
      if q =? 0 then let! b := deref_block P bb in clone_bbcc P (bbcc_list b) (Some c) 0 else Ok (q, P)) =
        Ok (addr (intern ks y).1, P') /\ inv (N + 4) P' (intern ks y).2 gs' /\ keeps P P'.
Proof.
  intros HI Hrq Hb Hl HN c y. pose proof HI as [HC HB]. destruct (HB _ _ Hb) as (Hbb & _ & _ & Hhead).
  assert (forall k P', ks !! k = Some y -> inv (N + 1) P' ks gs -> keeps P P' -> exists P2 gs', Ok (addr k, P') =
    Ok (addr (intern ks y).1, P2) /\ inv (N + 4) P2 (intern ks y).2 gs' /\ keeps P P2) as Hdone.
  { intros k P' Hk HI' Hkp. rewrite (intern_old ks y k) by (done || apply HC). exists P', gs. split; [done|].
    split; [|done]. eapply inv_mono; [|done]. lia. }
  destruct (cached_next_ok _ _ _ _ _ _ _ _ HI Hrq) as (q & -> & Hq). cbn [rbind].
  destruct Hq as [->|(k & -> & Hk)].
  2: { rewrite (proj2 (Z.eqb_neq _ _) (proj2 (Haddr k))). cbn [rbind].
    rewrite (proj2 (Z.eqb_neq _ _) (proj2 (Haddr k))). apply Hdone; [done| |apply keeps_refl].
    eapply inv_mono; [|done]. lia. }
  rewrite (Z.eqb_refl 0). destruct (lookup_bbcc_ok N P ks gs bb b c) as (q & P1 & -> & Hq & HI1 & Eb & Ep); [done..|lia|].
  cbn [rbind]. assert (keeps P P1) as Hkp1.
  { destruct (keeps_refl P) as [H1 H2]. unfold keeps, here. by rewrite Ep, Eb. }
  destruct Hq as [[-> Hy]|(k & -> & Hk)].
  2: { rewrite (proj2 (Z.eqb_neq _ _) (proj2 (Haddr k))). by apply Hdone. }
  cbn [Z.eqb]. rewrite (deref_block_ok _ _ b) by (done || by rewrite Eb). cbn [rbind].
  destruct Hhead as [[E _]|(k & _ & _ & _ & _ & _ & _ & E & _)]; [done|].
  destruct (clone_base_ok (N + 1) P1 ks gs bb b k c) as (P2 & E2 & HI2 & Hkp2); [done|by rewrite Eb|done|done|..].
  { by rewrite Ep. } { apply (context_kept P); [unfold here; by rewrite Ep|apply Hrq]. } { lia. }
  rewrite E2, (intern_new ks y) by done. rewrite Ep in HI2. eexists P2, _. split; [done|].
  split; [replace (N + 4) with (N + 1 + 3) by lia; exact HI2|by eapply keeps_trans].
Qed.

Lemma found_or_made_ok N P ks gs bb last entering e : inv N P ks gs -> request P bb last entering e -> N + 2 < 2 ^ 24 ->
  let y := (owner (current_tid (proc P)), bb, e_cxt e, 0) in
  exists P' gs', found_or_made P bb last = Ok (addr (intern ks y).1, P') /\ inv (N + 4) P' (intern ks y).2 gs' /\
    keeps P P'.
Proof.
  intros HI Hrq HN y. pose proof HI as [HC HB]. pose proof Hrq as [Hcxt [b Hb] (_ & _ & _ & _ & _ & HR) Htop _ _ _].
  destruct (HB _ _ Hb) as (Hbb & _ & _ & Hhead). unfold found_or_made. rewrite Hcxt.
  destruct Hhead as [[E Hn]|(k & o & c0 & i & _ & _ & _ & E & Hk & _)].
  - destruct (fresh_centre_ok N P ks gs bb b (e_cxt e)) as (P1 & x & P2 & -> & E1 & X1 & X2 & X3 & Hkp1 & E2 & HI2 & Hkp2);
      [done..|lia|]. cbn [rbind]. rewrite E1. cbn [rbind]. rewrite X1, X2, X3. rewrite !bool_decide_eq_true_2 by done.
    cbn [tl_assert rbind]. rewrite (top_fn_kept _ _ Hkp1). destruct Htop as (f & i & -> & Hf & _). cbn [rbind].
    rewrite Hf, E2. cbn [rbind]. rewrite (intern_new ks y) by (apply Hn). eexists P2, _. split; [done|].
    split; [|done]. eapply inv_mono; [|exact HI2]. lia.
  - unfold ClgCentres.get_bbcc. rewrite (deref_block_ok _ _ b) by done. cbn [rbind].
    assert (bbcc_list b <> 0) as Hl by (rewrite E; apply Haddr). rewrite (proj2 (Z.eqb_neq _ _) Hl). cbn [negb rbind].
    destruct (node_of _ _ _ _ _ _ HC Hk) as (x & a & Hx & _ & _ & Hxc & _). rewrite E, (deref_node_ok _ _ x) by done.
    cbn [rbind]. rewrite Hxc, bool_decide_eq_false_2 by done.
    destruct (cached_or_made N P ks gs bb b last entering e) as (P2 & gs' & E2 & HI2 & Hkp2); [done..|].
    destruct (cached_next num P bb last) as [q|]; [|done]. cbn [rbind] in E2 |- *.
    destruct (if q =? 0 then _ else _) as [[q1 P1]|]; [|done]. cbn [rbind] in E2 |- *. rewrite E2. cbn [rbind].
    assert ((intern ks y).2 !! (intern ks y).1 = Some y) as Hy by (apply intern_lookup, HC).
    assert (exists b2, blocks P2 !! bb = Some b2) as [b2 Hb2].
    { apply Hkp2. by exists b. }
    rewrite (deref_block_ok _ _ b2) by done. cbn [rbind]. eexists _, gs'. split; [done|].
    split; [by eapply inv_last|]. eapply (keeps_blocks P P2); [done|done|]. cbn [blocks set_blocks]. done.
Qed.

Lemma base_centre_ok N P ks gs bb last entering e : inv N P ks gs -> request P bb last entering e -> N + 2 < 2 ^ 24 ->
  let y := (owner (current_tid (proc P)), bb, e_cxt e, 0) in
  exists P' gs', base_centre P bb last = Ok (addr (intern ks y).1, P') /\ inv (N + 4) P' (intern ks y).2 gs' /\ keeps P P'.
Proof.
  intros HI Hrq HN y. rewrite base_centre_split.
  destruct (found_or_made_ok N P ks gs bb last entering e) as (P1 & gs' & -> & HI1 & Hkp1); [done..|]. cbn [rbind].
  destruct (rq_last _ _ _ _ _ Hrq) as [->|(k & x & -> & Hx & Ho)]; [by exists P1, gs'|].
  rewrite (proj2 (Z.eqb_neq _ _) (proj2 (Haddr k))). cbn [negb].
  destruct HI as [HC HB]. destruct (co_nodes _ _ _ _ HC _ _ Hx) as (c' & a & _ & Hk & _).
  destruct (inv_lru (N + 4) P1 _ gs' k (intern ks y).1 (owner (bc_tid x), bc_bb x, c', rec_index x) bb (e_cxt e) HI1) as (P2 & E2 & HI2 & Hkp2).
  { eapply prefix_lookup_Some; [exact Hk|apply intern_prefix]. }
  { cbn. rewrite Ho. apply intern_lookup, HC. }
  fold y. fold y in E2. rewrite E2. cbn [rbind]. exists P2, gs'. split; [done|]. split; [done|by eapply keeps_trans].
Qed.

(** ** The level *)

Definition with_active (P : profile) (a : fn_array) : profile := set_here P (set_active (here P) a).

(** The level is brought to at least 1 in the active array, too. *)
Lemma keeps_active P P1 a : keeps P P1 -> keeps (with_active P a) (with_active P1 a).
Proof.
  intros [(A1 & A2 & A3 & A4 & A5 & A6 & A7 & A8 & A9 & A10) [(s & h & Ep) Bp]]. split; [by split_and!|]. split; [|exact Bp].
  exists (set_active (here P1) a), h. cbn. by rewrite Ep.
Qed.

Lemma with_own_active P : with_active P (current_fn_active (here P)) = P.
Proof. unfold with_active, set_here, here. by destruct P as [[[] ? ? ? ? ? ? ? ?] ? ? ? ? ? ? ?]. Qed.

Lemma inv_active N P ks gs a : inv N P ks gs -> inv N (with_active P a) ks gs.
Proof. intros [HC HB]. split; [|done]. apply (core_same N _ P); try done. apply HC. Qed.

(** Functions of contexts, through the centres of the call stack. *)
Lemma centre_fn_known N P ks gs k y : core N P ks gs -> ks !! k = Some y ->
  centre_fn (here P) (addr k) = cxt_fn0 (here P) (Some y.1.2).
Proof.
  intros HC Hk. destruct (co_centres _ _ _ _ HC k y Hk) as (cc & Hcc & _ & Ec). unfold centre_fn, deref_centre.
  rewrite (proj2 (Z.eqb_neq _ _) (proj2 (Haddr k))), Hcc. cbn [rbind]. by rewrite Ec.
Qed.

Definition deeper (entering : bool) (e : entrance) : bool := entering && negb (e_direct e).

Lemma rec_level_ok N P0 P ks0 ks gs0 gs bb last entering e f k o : inv N P0 ks0 gs0 -> request P0 bb last entering e ->
  top_fn P0 = Ok f -> ks0 `prefix_of` ks -> inv (N + 4) P ks gs -> keeps P0 P -> ks !! k = Some (o, bb, e_cxt e, 0) ->
  exists a, rec_level P f (addr k) entering = Ok (spec_level (R (e_cxt e)) (e_active e) (deeper entering e), with_active P a).
Proof.
  intros [HC0 _] Hrq Hf Hpre [HC _] Hkp Hk. destruct (rq_top _ _ _ _ _ Hrq) as (f' & i & Hf' & HR & Hi & Hact).
  rewrite Hf in Hf'. injection Hf' as <-. destruct Hkp as [(A1 & _ & _ & _ & _ & A6 & A7 & _ & _ & A10) _].
  destruct (rq_bounds _ _ _ _ _ Hrq) as [Ha HR2]. destruct (rq_fn _ _ _ _ _ Hrq) as (g & fn & Hg & Hfn & _ & HR0).
  assert (forall c, cxt_fn0 (here P) c = cxt_fn0 (here P0) c) as Hcx by (intros; unfold cxt_fn0; by rewrite A1).
  unfold rec_level. unfold get_fn_entry, read_active in *. rewrite A10, Hi. cbn [rbind]. rewrite Hact. cbn [rbind].
  assert ((if entering then if skip_direct_recursion (here P) then
      let! _ := tl_assert (negb (x_bbcc (cur (here P)) =? 0)) "CLG_(current_state).bbcc != 0" in
      let! f1 := centre_fn (here P) (x_bbcc (cur (here P))) in
      let! f2 := centre_fn (here P) (addr k) in
      Ok (if negb (f1 =? f2) then u32 (e_active e + 1) else e_active e)
    else Ok (u32 (e_active e + 1)) else Ok (e_active e)) = Ok (e_active e + (if deeper entering e then 1 else 0))) as ->.
  { unfold deeper. destruct entering; [|by rewrite Z.add_0_r]. rewrite A6, A7. pose proof (rq_caller _ _ _ _ _ Hrq) as Hc.
    rewrite (wrapu_small 32) by (unfold in_u; lia).
    destruct (skip_direct_recursion (here P0)); [|by rewrite Hc].
    destruct Hc as (k1 & x & f2 & f1 & -> & Hx & Hf1 & Hf2 & ->). rewrite (proj2 (Z.eqb_neq _ _) (proj2 (Haddr k1))).
    cbn [negb tl_assert rbind]. destruct (co_nodes _ _ _ _ HC0 _ _ Hx) as (c1 & a1 & Ec & Hk1 & _).
    rewrite (centre_fn_known _ _ _ _ _ _ HC (prefix_lookup_Some _ _ _ _ Hk1 Hpre)), (centre_fn_known _ _ _ _ _ _ HC Hk).
    cbn [fst snd]. rewrite !Hcx, <- Ec, Hf1, Hf2. cbn [rbind]. by destruct (f1 =? f2); rewrite ?Z.add_0_r. }
  cbn [rbind]. rewrite HR, (wrapu_small 32) by (unfold in_u; lia). unfold spec_level.
  set (v := e_active e + _). assert (0 <= v) by (subst v; destruct (deeper entering e); lia).
  assert ((if R (e_cxt e) <? v then R (e_cxt e) else v) = Z.min (R (e_cxt e)) v) as ->.
  { destruct (Z.ltb_spec (R (e_cxt e)) v); lia. }
  destruct (Z.eqb_spec (Z.min (R (e_cxt e)) v) 0) as [E|E].
  - apply arr_get_ok in Hact as [Hi0 Hact%lookup_lt_Some]. rewrite arr_set_in by lia. cbn [rbind].
    eexists. replace (Z.max 1 _) with 1 by lia. done.
  - exists (current_fn_active (here P)). rewrite with_own_active. f_equal. f_equal. lia.
Qed.

Lemma level_bounds levels active d : 0 < levels -> 1 <= spec_level levels active d <= levels.
Proof. unfold spec_level. lia. Qed.

(** A centre is in the array at its own level. *)
Lemma level_checked N P ks gs j y : core N P ks gs -> ks !! j = Some y -> (let! z := deref_node P (addr j) in
    let! r := get_rec P (rec_array z) (rec_index z) in
    let! _ := tl_assert (r =? addr j) "bbcc->rec_array[bbcc->rec_index] == bbcc" in Ok (addr j, P)) = Ok (addr j, P).
Proof.
  intros HC Hj. destruct (node_of _ _ _ _ _ _ HC Hj) as (z & a & Hz & _ & _ & _ & Hzi & Hza & Ha & _).
  rewrite (deref_node_ok _ _ z) by done. cbn [rbind]. rewrite Hza, Hzi. unfold get_rec.
  destruct (co_rows _ _ _ _ HC a _ Ha) as (_ & l & -> & [Hl Hrow]).
  destruct (co_levels _ _ _ _ HC y) as [_ Hy]; [by eapply list_elem_of_lookup_2|].
  destruct (lookup_lt_is_Some_2 l (Z.to_nat y.2)) as [v Hv]; [lia|].
  rewrite (arr_get_in _ _ v) by (done || lia). cbn [rbind].
  assert ((y.1, Z.of_nat (Z.to_nat y.2)) = y) as Ey by (rewrite Z2Nat.id by lia; by destruct y).
  destruct (Hrow _ _ Hv) as [[_ Hn]|(j' & -> & Hj')]; [rewrite Ey in Hn|rewrite Ey in Hj'].
  - by apply list_elem_of_lookup_2 in Hj.
  - assert (j' = j) as -> by exact (NoDup_lookup _ _ _ _ (proj1 (co_nodup _ _ _ _ HC)) Hj' Hj). by rewrite Z.eqb_refl.
Qed.

(** The centre of a level, from the array of its group. *)
Lemma level_centre_ok N P ks gs bb c k i : let g := (owner (current_tid (proc P)), bb, c) in
  inv N P ks gs -> is_Some (blocks P !! bb) -> context_ok P c -> ks !! k = Some (g, 0) -> 0 <= i < R c -> N < 2 ^ 24 ->
  exists P' gs', (let! x := deref_node P (addr k) in
      let! r := get_rec P (rec_array x) i in
      let! (q, P) := (if negb (r =? 0) then Ok (r, P) else clone_bbcc P (addr k) (Some c) i) in
      let! y := deref_node P q in
      let! r := get_rec P (rec_array y) (rec_index y) in
      let! _ := tl_assert (r =? q) "bbcc->rec_array[bbcc->rec_index] == bbcc" in
      Ok (q, P)) = Ok (addr (intern ks (g, i)).1, P') /\ inv (N + 2) P' (intern ks (g, i)).2 gs' /\ keeps P P'.
Proof.
  intros g HI [b Hb] Hc Hk Hi HN. pose proof HI as [HC HB].
  destruct (node_of _ _ _ _ _ _ HC Hk) as (x & a & Hx & _ & _ & _ & _ & Hxa & Ha & _).
  rewrite (deref_node_ok _ _ x) by done. cbn [rbind]. rewrite Hxa. unfold get_rec at 1.
  destruct (co_rows _ _ _ _ HC a _ Ha) as (_ & l & Hl & [Hll Hrow]). rewrite Hl. cbn in Hll.
  destruct (lookup_lt_is_Some_2 l (Z.to_nat i)) as [v Hv]; [lia|].
  rewrite (arr_get_in _ _ v) by (done || lia). cbn [rbind].
  destruct (Hrow _ _ Hv) as [[-> Hn]|(j & -> & Hj)]; rewrite Z2Nat.id in * by lia.
  - cbn [Z.eqb negb]. assert (i <> 0) as Hi0 by (intros ->; apply Hn; by eapply list_elem_of_lookup_2).
    destruct (clone_level_ok N P ks gs bb b k c i) as (P2 & -> & HI2 & Hkp2); [done..|lia|done|done|done|]. cbn [rbind].
    rewrite (intern_new ks (g, i)) by done. exists P2, gs. split; [|done].
    eapply level_checked; [apply HI2|]. apply keys_snoc. by right.
  - rewrite (proj2 (Z.eqb_neq _ _) (proj2 (Haddr j))). cbn [negb rbind].
    rewrite (intern_old ks (g, i) j) by (done || apply HC). exists P, gs. split; [by eapply level_checked|].
    split; [eapply inv_mono; [|done]; lia|apply keeps_refl].
Qed.

(** One selection. *)
Lemma select_ok N P ks gs bb last entering e : inv N P ks gs -> request P bb last entering e -> N + 4 < 2 ^ 24 ->
  let g := (owner (current_tid (proc P)), bb, e_cxt e) in
  let r := spec_select ks g (spec_level (R (e_cxt e)) (e_active e) (deeper entering e) - 1) in
  exists P' gs' a, select_centre P bb last entering = Ok (addr r.1, P') /\ inv (N + 6) P' r.2 gs' /\
    keeps (with_active P a) P'.
Proof.
  intros HI Hrq HN g r. pose proof Hrq as [Hcxt Hblk Hfn (f & j & Hf & HR & _) _ _ _].
  assert (0 < R (e_cxt e)) as HR0 by (destruct Hfn as (_ & _ & _ & _ & _ & H); exact H).
  unfold ClgCentres.select_centre. rewrite Hcxt.
  destruct (base_centre_ok N P ks gs bb last entering e) as (P1 & gs1 & -> & HI1 & Hkp1); [done..|lia|]. cbn [rbind].
  rewrite (top_fn_kept _ _ Hkp1), Hf. cbn [rbind]. rewrite HR. unfold r, spec_select. fold g in HI1 |- *.
  pose proof (intern_prefix ks (g, 0)) as Hpre. pose proof (intern_nodup ks (g, 0) (proj1 (co_nodup _ _ _ _ (proj1 HI)))) as Hnd.
  pose proof (intern_lookup ks (g, 0) (proj1 (co_nodup _ _ _ _ (proj1 HI)))) as Hk.
  destruct (intern ks (g, 0)) as [k ks1]. cbn [fst snd] in *.
  pose proof (level_bounds (R (e_cxt e)) (e_active e) (deeper entering e) HR0) as Hlv.
  destruct (Z.ltb_spec 1 (R (e_cxt e))) as [H1|H1].
  - destruct (rec_level_ok N P P1 ks ks1 gs gs1 bb last entering e f k (owner (current_tid (proc P)))) as (a & ->); [done..|].
    cbn [rbind]. pose proof (keeps_tid _ _ Hkp1) as Et.
    destruct (level_centre_ok (N + 4) (with_active P1 a) ks1 gs1 bb (e_cxt e) k
      (spec_level (R (e_cxt e)) (e_active e) (deeper entering e) - 1)) as (P2 & gs2 & E2 & HI2 & Hkp2).
    { by apply inv_active. } { by apply Hkp1. } { apply (context_kept P); [apply Hkp1|done]. }
    { cbn. by rewrite Et. } { lia. } { lia. }
    cbn [with_active set_here set_proc proc set_now current_tid] in E2, HI2. rewrite Et in E2, HI2.
    fold g in E2, HI2. exists P2, gs2, a. split; [exact E2|]. split; [by replace (N + 6) with (N + 4 + 2) by lia|].
    eapply keeps_trans; [by apply keeps_active|done].
  - assert (spec_level (R (e_cxt e)) (e_active e) (deeper entering e) - 1 = 0) as -> by lia.
    rewrite (intern_old ks1 (g, 0) k) by done. exists P1, gs1, (current_fn_active (here P)). split; [done|].
    split; [eapply inv_mono; [|done]; lia|]. by rewrite with_own_active.
Qed.

(** ** Runs *)

(** A block that was not run yet. *)
Definition fresh_block (P : profile) (bb : Z) (b : block) : Prop :=
  bb <> 0 /\ 0 <= b_cost_count b < COSTCHUNK_SIZE /\ 0 <= b_cjmp_count b /\ bbcc_list b = 0 /\
  forall k x, nodes P !! k = Some x -> bc_bb x <> bb.

Definition init_stats : centre_stats := MkCentreStats 0 0 0 0 0 0.

(** The first thread runs, no block was entered. *)
Record initial (P : profile) : Prop := {
  in_nodes : nodes P = [] /\ rec_arrays P = [] /\ cstat P = init_stats;
  in_blocks : map_Forall (fresh_block P) (blocks P);
  in_thread : 0 < current_tid (proc P) /\ is_Some (thread_at (proc P) (owner (current_tid (proc P))));
  in_here : current_bbccs (proc P) = init_bbcc_hash;
  in_tables : forall o h, 0 < o -> tables_of separate_threads (proc P) o = Some h -> h.2 = init_bbcc_hash;
  in_mem : wf_mem (costs (here P))
}.

(** What the rest of the profiler may do between two selections of a thread:
    count, call and return, load new code; but it leaves alone table, arrays,
    lists and caches of centres. *)
Record elsewhere (P P' : profile) : Prop := {
  el_nodes : Forall2 (fun x y => data x = data y /\ bc_next x = bc_next y) (nodes P) (nodes P');
  el_recs : rec_arrays P' = rec_arrays P;
  el_blocks : forall bb b', blocks P' !! bb = Some b' -> fresh_block P bb b' \/
    exists b, blocks P !! bb = Some b /\ bbcc_list b' = bbcc_list b /\ last_bbcc b' = last_bbcc b /\
      b_cost_count b' = b_cost_count b /\ b_cjmp_count b' = b_cjmp_count b;
  el_proc : thread (proc P') = thread (proc P) /\ current_tid (proc P') = current_tid (proc P) /\
    current_bbccs (proc P') = current_bbccs (proc P);
  el_centres : forall p cc, centres (here P) !! p = Some cc -> exists cc', centres (here P') !! p = Some cc' /\
    cc_bb cc' = cc_bb cc /\ cc_cxt cc' = cc_cxt cc;
  el_mem : wf_mem (costs (here P'));
  el_stats : bbcc_lru_misses (cstat P') = bbcc_lru_misses (cstat P) /\
    bbcc_hash_resizes (cstat P') = bbcc_hash_resizes (cstat P) /\
    distinct_bbccs (cstat P') = distinct_bbccs (cstat P) /\ bbcc_clones (cstat P') = bbcc_clones (cstat P)
}.

(** The profiler with all the centres it selected, the last one first. *)
Inductive run (collect_atstart : bool) (VG_N_THREADS : Z) : profile -> list (key * Z) -> Prop :=
  | run_start P : initial P -> run collect_atstart VG_N_THREADS P []
  | run_elsewhere P P' h : run collect_atstart VG_N_THREADS P h -> elsewhere P P' -> run collect_atstart VG_N_THREADS P' h
  | run_switch P h tid q : run collect_atstart VG_N_THREADS P h ->
      process_ok separate_threads VG_N_THREADS (proc P) -> may_switch separate_threads VG_N_THREADS (proc P) tid -> 0 < tid ->
      0 <= fn_array_resizes (proc P) < 2 ^ 31 - 1 ->
      switch_thread collect_atstart separate_threads VG_N_THREADS (proc P) tid = Ok q ->
      run collect_atstart VG_N_THREADS (set_proc P q) h
  | run_select P h bb last entering e p P' : run collect_atstart VG_N_THREADS P h ->
      request P bb last entering e -> select_centre P bb last entering = Ok (p, P') ->
      run collect_atstart VG_N_THREADS P'
        ((owner (current_tid (proc P)), bb, e_cxt e, spec_level (R (e_cxt e)) (e_active e) (deeper entering e) - 1, p) :: h).

Definition threads_ok (P : profile) (ks : list key) : Prop :=
  0 < current_tid (proc P) /\ is_Some (thread_at (proc P) (owner (current_tid (proc P)))) /\
  forall y, y ∈ ks -> 0 < y.1.1.1 /\ is_Some (thread_at (proc P) y.1.1.1).

Lemma init_table_ok l ks o : (forall bb c, (o, bb, c, 0) ∉ ks) -> table_ok l ks o init_bbcc_hash.
Proof.
  intros Hn. constructor; [|split; [done|by left]]. exists (replicate (Z.to_nat N_BBCC_INITIAL_ENTRIES) []). split_and!.
  - apply empty_hashed.
  - intros k. rewrite concat_empty. split; [by intros ?%elem_of_nil|]. intros (bb & c & Hk).
    apply list_elem_of_lookup_2 in Hk. by apply Hn in Hk.
  - by rewrite concat_empty.
Qed.

Lemma initial_inv P : initial P -> inv 0 P [] [] /\ threads_ok P [].
Proof.
  intros [(En & Er & Es) Hb Ht Hh Hts Hm]. split; [|split_and!; [apply Ht..|set_solver]]. split.
  - constructor; rewrite ?En, ?Er, ?Es, ?Hh; try done.
    + split; constructor.
    + apply init_table_ok. set_solver.
    + intros o h Ho Hne Hth. destruct (tables_of _ (proc P) o) as [t|] eqn:E; [|done]. injection Hth as <-.
      rewrite (Hts o t) by done. apply init_table_ok. set_solver.
    + set_solver.
  - intros bb b Hbb. destruct (Hb bb b Hbb) as (H1 & H2 & H3 & H4 & _). split_and!; try done; try lia. left.
    split; [done|]. set_solver.
Qed.

Lemma lookup_fmap_same {A B} (f : A -> B) l l' : Forall2 (fun x y => f x = f y) l l' ->
  forall k : nat, f <$> l !! k = f <$> l' !! k.
Proof.
  intros H k. destruct (l !! k) as [x|] eqn:Ex.
  - destruct (Forall2_lookup_l _ _ _ _ _ H Ex) as (y & -> & E). cbn. by rewrite E.
  - apply lookup_ge_None in Ex. rewrite (Forall2_length _ _ _ H) in Ex. by apply lookup_ge_None in Ex as ->.
Qed.

Lemma inv_elsewhere N P P' ks gs : inv N P ks gs -> elsewhere P P' -> inv N P' ks gs.
Proof.
  intros [[C1 C2 C3 C4 C5 C6 C7 C8 C9 C10] HB] [E1 E2 E3 (E4 & E5 & E6) E7 E8 (S1 & S2 & S3 & S4)].
  assert (forall o h, table_ok (nodes P) ks o h -> table_ok (nodes P') ks o h) as Ht.
  { intros o h [(ch & Hh & Hr) Hs]. constructor; [|done]. exists ch. split; [|done].
    apply (hashed_links (nodes P)); [done|..]; intros k; symmetry; revert k; apply lookup_fmap_same;
      (eapply Forall2_impl; [exact E1|]); intros x y [Ed En]; [done|]. injection Ed as D1 D2 _ _ _ _. cbn. by rewrite D1, D2. }
  split; [constructor; try done|].
  - rewrite E2, <- (Forall2_length _ _ _ E1). lia.
  - intros k y Hy. destruct (Forall2_lookup_r _ _ _ _ _ E1 Hy) as (x & Hx & Ed & _). eapply node_ok_data; [done|by apply C3].
  - rewrite E5, E6. by apply Ht.
  - rewrite E5. intros o h Ho0 Ho Hh. apply Ht, C5; [done..|]. rewrite <- Hh. f_equal. unfold tables_of, thread_at.
    by rewrite E4, E5, (proj2 (Z.eqb_neq _ _) Ho), !andb_false_r.
  - by rewrite E2.
  - intros k y Hk. destruct (C8 k y Hk) as (cc & Hcc & H1 & H2). destruct (E7 _ _ Hcc) as (cc' & Hcc' & F1 & F2).
    exists cc'. by rewrite F1, F2.
  - destruct C10 as (T1 & T2 & T3 & T4). unfold stats_ok. lia.
  - intros bb b' Hb'. destruct (E3 bb b' Hb') as [(F1 & F2 & F3 & F4 & F5)|(b & Hb & L1 & L2 & L3 & L4)].
    + split_and!; try done; try lia. left. split; [done|]. intros o c i Hin. apply list_elem_of_lookup_1 in Hin as [k Hk].
      destruct (lookup_lt_is_Some_2 (nodes P) k) as [x Hx]; [apply lookup_lt_Some in Hk; lia|].
      apply (F5 k x Hx). destruct (C3 k x Hx) as (c' & a & _ & Hk' & _). rewrite Hk in Hk'. by injection Hk' as _ <- _ _.
    + specialize (HB bb b Hb). unfold block_ok in *. by rewrite L1, L2, L3, L4.
Qed.

Lemma thread_of_table p o : is_Some (tables_of separate_threads p o) <-> is_Some (thread_at p o).
Proof. unfold tables_of. by rewrite fmap_is_Some. Qed.

(** The table of the running thread is that of its owner. *)
Lemma running_table p : current_tid p <> 0 -> is_Some (thread_at p (owner (current_tid p))) ->
  snd <$> tables_of separate_threads p (owner (current_tid p)) = Some (current_bbccs p).
Proof.
  intros H0 [t Ht]. unfold tables_of. rewrite Ht, (proj2 (Z.eqb_neq _ _) H0), Z.eqb_refl. done.
Qed.

Lemma inv_switch ca n N P ks gs tid q : inv N P ks gs -> threads_ok P ks -> 0 < tid ->
  switched ca separate_threads n (proc P) tid q -> inv N (set_proc P q) ks gs /\ threads_ok (set_proc P q) ks.
Proof.
  intros [[C1 C2 C3 C4 C5 C6 C7 C8 C9 C10] HB] (T1 & T2 & T3) Hpos Hsw.
  pose proof (sw_ok _ _ _ _ _ _ Hsw) as Hq. pose proof (sw_tid _ _ _ _ _ _ Hsw) as Et.
  assert (is_Some (thread_at q (owner tid))) as Ho.
  { rewrite <- Et. apply (po_owner _ _ _ Hq); [lia|]. apply (po_current _ _ _ Hq). lia. }
  assert (0 < owner tid) as Hop by (by apply owner_pos).
  assert (forall o, 0 < o -> is_Some (thread_at (proc P) o) -> is_Some (thread_at q o)) as Hth.
  { intros o H0 [t Hs]%thread_of_table. apply thread_of_table. exists t. by apply (sw_tables _ _ _ _ _ _ Hsw). }
  assert (forall o h, 0 < o -> snd <$> tables_of separate_threads q o = Some h -> table_ok (nodes P) ks o h) as Htab.
  { intros o h H0 Hh. destruct (tables_of separate_threads (proc P) o) as [t|] eqn:E.
    - rewrite (sw_tables _ _ _ _ _ _ Hsw o t H0 E) in Hh. injection Hh as <-.
      destruct (decide (o = owner (current_tid (proc P)))) as [->|Hne].
      + assert (snd <$> Some t = Some (current_bbccs (proc P))) as [= ->] by (rewrite <- E; apply running_table; [lia|done]). done.
      + apply C5; [done..|]. by rewrite E.
    - destruct (tables_of separate_threads q o) as [t|] eqn:Eq; [|done]. injection Hh as <-.
      rewrite (sw_fresh _ _ _ _ _ _ Hsw o t H0 E Eq). apply init_table_ok. intros bb c Hin. apply T3 in Hin as [_ Hin].
      cbn in Hin. apply thread_of_table in Hin as [u Hu]. by rewrite E in Hu. }
  split; [split; [constructor; try done|done]|split_and!].
  - cbn. rewrite Et. apply Htab; [done|]. rewrite <- Et. apply running_table; [lia|by rewrite Et].
  - intros o h H0 _ Hh. by apply Htab.
  - intros k y Hk. destruct (C8 k y Hk) as (cc & Hcc & H). exists cc. split; [|done].
    destruct (sw_shared _ _ _ _ _ _ Hsw) as (_ & Ec & _). cbn. unfold here. cbn. by rewrite Ec.
  - apply (po_mem _ _ _ Hq).
  - cbn. lia.
  - cbn. by rewrite Et.
  - intros y Hy. destruct (T3 y Hy) as [Hy0 Hs]. split; [done|]. by apply Hth.
Qed.

(** The centres of a run. *)
Lemma run_inv ca n P h : run ca n P h -> 6 * Z.of_nat (length h) < 2 ^ 24 ->
  exists ks gs, inv (6 * Z.of_nat (length h)) P ks gs /\ threads_ok P ks /\ forall y p, (y, p) ∈ h -> known_as ks p y.
Proof.
  induction 1 as [P Hi|P P' h _ IH He|P h tid q _ IH Hok Hms Hpos Hrz E|P h bb last entering e p P' _ IH Hrq E]; intros Hlen.
  - destruct (initial_inv P Hi) as [H1 H2]. exists [], []. split_and!; [done|done|]. intros y p Hin. set_solver.
  - destruct (IH Hlen) as (ks & gs & HI & HT & Hk). exists ks, gs. split; [by eapply inv_elsewhere|]. split; [|done].
    destruct He as [_ _ _ (E4 & E5 & _) _ _ _]. unfold threads_ok, thread_at. by rewrite E4, E5.
  - destruct (IH Hlen) as (ks & gs & HI & HT & Hk). exists ks, gs.
    destruct (switch_ok ca separate_threads n (proc P) tid Hok Hms Hrz) as (q' & E' & Hsw). rewrite E in E'. injection E' as <-.
    destruct (inv_switch ca n _ P ks gs tid q HI HT Hpos Hsw) as [H1 H2]. done.
  - cbn [length] in *. destruct IH as (ks & gs & HI & HT & Hk); [lia|].
    destruct (select_ok _ P ks gs bb last entering e HI Hrq) as (P2 & gs' & a & E' & HI' & Hkp); [lia|].
    rewrite E in E'. injection E' as -> ->. unfold spec_select in HI' |- *.
    set (g := (owner (current_tid (proc P)), bb, e_cxt e)) in *. set (i := _ - 1) in *.
    assert (NoDup ks) as Hnd by apply HI.
    pose proof (intern_prefix ks (g, 0)) as Hp1. pose proof (intern_nodup ks (g, 0) Hnd) as Hnd1.
    pose proof (fun b => intern_elem ks (g, 0) b) as Hel1.
    destruct (intern ks (g, 0)) as [k0 ks1]. cbn [fst snd] in *.
    pose proof (intern_prefix ks1 (g, i)) as Hp2. pose proof (intern_lookup ks1 (g, i) Hnd1) as Hlk.
    pose proof (fun b => intern_elem ks1 (g, i) b) as Hel2.
    destruct (intern ks1 (g, i)) as [k ks2]. cbn [fst snd] in *. exists ks2, gs'. split_and!.
    + by replace (6 * Z.of_nat (S (length h))) with (6 * Z.of_nat (length h) + 6) by lia.
    + destruct Hkp as [_ [(s & hh & Ep) _]]. destruct HT as (T1 & T2 & T3). unfold threads_ok, thread_at. rewrite Ep. cbn.
      split_and!; [done|exact T2|]. intros y Hy. assert (y ∈ ks \/ y.1 = g) as [Hin| ->].
      { apply Hel2 in Hy as [Hy| ->]; [|by right]. apply Hel1 in Hy as [Hy| ->]; [by left|by right]. }
      * by apply T3.
      * split; [by apply owner_pos|exact T2].
    + intros y p Hin. apply elem_of_cons in Hin as [[= -> ->]|Hin]; [by exists k|].
      destruct (Hk y p Hin) as (j & -> & Hj). exists j. split; [done|].
      eapply prefix_lookup_Some; [|exact Hp2]. by eapply prefix_lookup_Some.
Qed.

End select.

(** ** Example: a function that calls itself, with two levels kept *)

Definition ex_addr (k : nat) : Z := Z.of_nat k + 1.
Definition ex_num (p : Z) : option nat := if 0 <? p then Some (Z.to_nat (p - 1)) else None.

Definition ex_rec_stacks : stacks :=
  MkStacks (MkContexts {[ 4096 := ex_fn 0 0 2 ]} [MkContext 1 0 None 4096 [4096]] init_cxt_table 1 1 0 0) (no_arcs ∅) ∅ ∅
    (MkMem [] ∅ None None 0 0) (MkSet 1 1 1 [0]) (MkFnStack 2 [Some 0; Some 4096] 1) init_call_stack (init_fn_array 1)
    (MkExecInfo 0 None true (Some 0%nat) 0 0 0 0) false (MkCallStats 0 0 0 0 0).

Definition ex_rec_process : process :=
  MkProcess ex_rec_stacks (MkExecStack 0 []) init_bbcc_hash
    [None; Some (MkThread init_fn_stack init_call_stack (MkExecStack 0 []) None None (init_fn_array 1) init_jcc_hash init_bbcc_hash)]
    1 1 0 0 0.

Definition ex_rec : profile :=
  MkProfile ex_rec_process {[ 512 := MkBlock 0 0 4096 0 true 0 0 0 1 ]} [] [] init_stats 0 None
    (MkProgram init_obj_table [] (MkBbHash 0 0 []) (MkBlockStats 0 0 0 0 0 0 0) 0).

Definition ex_enter (P : profile) (last : Z) (entering : bool) : res (Z * profile) :=
  select_centre (fun k => 64 * Z.of_nat k) ex_addr ex_num false P 512 last entering.

Definition after (r : res (Z * profile)) : profile := match r with Ok (_, P) => P | Err _ => ex_rec end.
Definition handed (r : res (Z * profile)) : Z := match r with Ok (p, _) => p | Err _ => 0 end.

Definition ex_rec1 : profile := after (ex_enter ex_rec 0 false).
Definition ex_rec2 : profile := after (ex_enter ex_rec1 1 true).
Definition ex_rec3 : profile := after (ex_enter ex_rec2 2 false).

Lemma handed_ok r p : handed r = p -> p <> 0 -> r = Ok (p, after r).
Proof. destruct r as [[q P]|]; cbn; [by intros ->|by intros <-]. Qed.

Lemma ex_initial : initial false ex_rec.
Proof.
  constructor.
  - by split_and!.
  - cbn [ex_rec blocks]. intros bb b Hb. apply lookup_singleton_Some in Hb as [<- <-]. by split_and!.
  - split; [done|]. by eexists.
  - done.
  - intros o h Ho Hh. unfold tables_of, thread_at in Hh. cbn [ex_rec proc ex_rec_process thread] in Hh.
    destruct (Z.to_nat o) as [|[|j]] eqn:E; [lia| |done].
    replace o with 1 in Hh by lia. cbn in Hh. by injection Hh as <-.
  - split; [constructor|reflexivity].
Qed.

Lemma ex_request P last entering v :
  x_cxt (cur (here P)) = Some 0%nat -> is_Some (blocks P !! 512) -> cx (here P) = cx ex_rec_stacks ->
  current_fn_stack (here P) = MkFnStack 2 [Some 0; Some 4096] 1 -> fa_size (current_fn_active (here P)) = 10071 ->
  read_active (here P) 0 = Ok v -> 0 <= v < 2 -> skip_direct_recursion (here P) = false ->
  (last = 0 \/ exists k x, last = ex_addr k /\ nodes P !! k = Some x /\ ClgThreads.owner false (bc_tid x) =
    ClgThreads.owner false (current_tid (proc P))) ->
  request ex_addr false (fun _ => 2) P 512 last entering (MkEntrance 0 v false).
Proof.
  intros H1 H2 H3 H4 H5 H6 H7 H8 H9. constructor; cbn [e_cxt e_active e_direct]; try done.
  - exists 4096, (ex_fn 0 0 2). unfold cxt_fn0. by rewrite H3.
  - exists (ex_fn 0 0 2), 0. unfold top_fn, get_fn_entry. rewrite H3, H4, H5. done.
  - lia.
  - by rewrite H8.
Qed.

Lemma ex_next P h last entering v p y :
  run (fun k => 64 * Z.of_nat k) ex_addr ex_num false (fun _ => 2) true 2 P h ->
  request ex_addr false (fun _ => 2) P 512 last entering (MkEntrance 0 v false) ->
  handed (ex_enter P last entering) = p -> p <> 0 -> y = (1, 512, 0%nat, spec_level 2 v entering - 1) ->
  run (fun k => 64 * Z.of_nat k) ex_addr ex_num false (fun _ => 2) true 2 (after (ex_enter P last entering)) ((y, p) :: h).
Proof.
  intros Hrun Hrq Hh Hp ->.
  pose proof (run_select _ _ _ _ _ _ _ P h 512 last entering (MkEntrance 0 v false) p _ Hrun Hrq (handed_ok _ _ Hh Hp)) as H.
  by destruct entering.
Qed.

