(* ===== verification/CgBranchPred.v ===== *)
(** * CgBranchPred: the branch predictors (valgrind/cachegrind/cg_branchpred.c)

    A table of 2-bit saturating counters indexed by the last seven outcomes
    and the low bits of the branch's address, and a table of last targets for
    indirect branches.  The static variables of the file are a record that is
    passed along. *)

From Stdlib Require Import ZArith Lia.
From stdpp Require Import base numbers strings list.
From S2P Require Import Prelude CgArch.

#[local] Open Scope Z_scope.

(** ** Constants and state *)

Definition N_IADDR_LO_ZERO_BITS (arch : VGA) : Z :=
  match arch with
  | VGA_ppc32 | VGA_ppc64be | VGA_ppc64le | VGA_mips32 | VGA_mips64
  | VGA_nanomips | VGA_arm64 => 2
  | VGA_x86 | VGA_amd64 => 0
  | VGA_s390x | VGA_arm => 1
  end.

Definition N_HIST_BITS : Z := 7.
Definition N_IADD_BITS : Z := 7.
Definition N_BITS : Z := N_HIST_BITS + N_IADD_BITS.
Definition N_COUNTERS : Z := Z.shiftl 1 N_BITS.
Definition N_BTAC_BITS : Z := 9.
Definition N_BTAC : Z := Z.shiftl 1 N_BTAC_BITS.

Record bp_state : Type := BPState {
  shift_register : Z;      (* UWord: global history, latest outcome in bit 0 *)
  counters : list Z;       (* UChar[N_COUNTERS] *)
  btac : list Z            (* Addr[N_BTAC] *)
}.

(** The static arrays are zeroed at start-up. *)
Definition bp_init : bp_state :=
  BPState 0 (replicate (Z.to_nat N_COUNTERS) 0) (replicate (Z.to_nat N_BTAC) 0).

(** ** Operations *)

Definition do_cond_branch_predict (arch : VGA) (st : bp_state)
    (instr_addr takenW : Z) : res (Z * bp_state) :=
  let hist_mask := Z.shiftl 1 N_HIST_BITS - 1 in
  let iadd_mask := Z.shiftl 1 N_IADD_BITS - 1 in
  let hist_bits := Z.land (shift_register st) hist_mask in
  let iadd_bits := Z.land (Z.shiftr instr_addr (N_IADDR_LO_ZERO_BITS arch)) iadd_mask in
  let! _ := tl_assert (hist_bits <=? hist_mask) "hist_bits <= hist_mask" in
  let! _ := tl_assert (iadd_bits <=? iadd_mask) "iadd_bits <= iadd_mask" in
  let indx := Z.lor (u64 (Z.shiftl hist_bits N_IADD_BITS)) iadd_bits in
  let! _ := tl_assert (indx <? N_COUNTERS) "indx < N_COUNTERS" in
  let! _ := tl_assert (takenW <=? 1) "takenW <= 1" in
  let! ctr := arr_get (counters st) indx in
  let predicted_taken := 2 <=? ctr in
  let actually_taken := 0 <? takenW in
  let mispredict :=
    (actually_taken && negb predicted_taken) || (negb actually_taken && predicted_taken) in
  let sr := Z.lor (u64 (Z.shiftl (shift_register st) 1)) (if actually_taken then 1 else 0) in
  let! cs :=
    (if actually_taken then
       if ctr <? 3 then arr_set (counters st) indx (u8 (ctr + 1)) else Ok (counters st)
     else
       if 0 <? ctr then arr_set (counters st) indx (u8 (ctr - 1)) else Ok (counters st)) in
  let! ctr' := arr_get cs indx in
  let! _ := tl_assert (ctr' <=? 3) "counters[indx] <= 3" in
  Ok (if mispredict then 1 else 0, BPState sr cs (btac st)).

Definition do_ind_branch_predict (arch : VGA) (st : bp_state)
    (instr_addr actual : Z) : res (Z * bp_state) :=
  let mask := Z.shiftl 1 N_BTAC_BITS - 1 in
  let indx := Z.land (Z.shiftr instr_addr (N_IADDR_LO_ZERO_BITS arch)) mask in
  let! _ := tl_assert (indx <? N_BTAC) "indx < N_BTAC" in
  let! last := arr_get (btac st) indx in
  let mispredict := negb (last =? actual) in
  let! bt := arr_set (btac st) indx actual in
  Ok (if mispredict then 1 else 0, BPState (shift_register st) (counters st) bt).

(** ** Specification: saturating counters indexed by history and address *)

Record wf_bp (st : bp_state) : Prop := {
  wfb_sr : in_u 64 (shift_register st);
  wfb_ctrs : length (counters st) = Z.to_nat N_COUNTERS;
  wfb_range : Forall (fun c => 0 <= c <= 3) (counters st);
  wfb_btac : length (btac st) = Z.to_nat N_BTAC
}.

(** The counter a branch uses: history above, address bits below. *)
Definition ctr_index (arch : VGA) (st : bp_state) (addr : Z) : Z :=
  (shift_register st mod 2 ^ 7) * 2 ^ 7 + (addr / 2 ^ N_IADDR_LO_ZERO_BITS arch) mod 2 ^ 7.

Definition ctr_at (st : bp_state) (i : Z) : Z := default 0 (counters st !! Z.to_nat i).

Definition sat_update (taken : bool) (c : Z) : Z :=
  if taken then Z.min 3 (c + 1) else Z.max 0 (c - 1).

Definition push_outcome (taken : bool) (sr : Z) : Z :=
  (2 * sr + if taken then 1 else 0) mod 2 ^ 64.

Definition bp_update (arch : VGA) (st : bp_state) (addr : Z) (taken : bool) : bp_state :=
  let i := ctr_index arch st addr in
  BPState (push_outcome taken (shift_register st))
          (<[Z.to_nat i := sat_update taken (ctr_at st i)]> (counters st)) (btac st).

Definition btac_index (arch : VGA) (addr : Z) : Z :=
  (addr / 2 ^ N_IADDR_LO_ZERO_BITS arch) mod 2 ^ 9.

Lemma lor_disjoint a b k : 0 <= k -> 0 <= b < 2 ^ k -> Z.lor (a * 2 ^ k) b = a * 2 ^ k + b.
Proof.
  intros Hk Hb. rewrite <- Z.lxor_lor, Z.add_nocarry_lxor; try done;
    apply Z.bits_inj'; intros i Hi; rewrite Z.land_spec, Z.bits_0;
    (destruct (Z_lt_le_dec i k);
     [by rewrite Z.mul_pow2_bits_low
     |rewrite andb_comm, <- (Z.mod_small b (2 ^ k)), Z.mod_pow2_bits_high by lia; done]).
Qed.

Lemma iaddr_shift arch addr :
  Z.shiftr addr (N_IADDR_LO_ZERO_BITS arch) = addr / 2 ^ N_IADDR_LO_ZERO_BITS arch.
Proof. apply Z.shiftr_div_pow2. by destruct arch. Qed.

Lemma ctr_index_range arch st addr : 0 <= ctr_index arch st addr < 2 ^ 14.
Proof.
  unfold ctr_index. pose proof (Z.mod_pos_bound (shift_register st) (2 ^ 7) ltac:(lia)).
  pose proof (Z.mod_pos_bound (addr / 2 ^ N_IADDR_LO_ZERO_BITS arch) (2 ^ 7) ltac:(lia)).
  lia.
Qed.

Lemma ctr_lookup st i :
  wf_bp st -> 0 <= i < 2 ^ 14 ->
  counters st !! Z.to_nat i = Some (ctr_at st i) /\ 0 <= ctr_at st i <= 3.
Proof.
  intros [_ Hl Hr _] Hi. unfold ctr_at.
  destruct (lookup_lt_is_Some_2 (counters st) (Z.to_nat i)) as [c Hc].
  { rewrite Hl. change N_COUNTERS with (2 ^ 14). lia. }
  rewrite Hc. split; [done|]. simpl. by eapply Forall_lookup_1 in Hr.
Qed.

(** Shifting the outcome into the history register. *)
Lemma shift_in_outcome (sr : Z) (b : bool) :
  Z.lor (u64 (Z.shiftl sr 1)) (if b then 1 else 0) = push_outcome b sr.
Proof.
  unfold push_outcome, wrapu. rewrite Z.shiftl_mul_pow2 by lia.
  change (2 ^ 64) with (2 ^ 63 * 2 ^ 1) at 1. rewrite Z.mul_mod_distr_r by lia.
  rewrite lor_disjoint by (destruct b; lia).
  rewrite (Z.mod_eq (2 * _ + _) (2 ^ 64)) by lia. rewrite Z.mod_eq by lia.
  replace ((2 * sr + (if b then 1 else 0)) / 2 ^ 64) with (sr / 2 ^ 63);
    [destruct b; lia|].
  change (2 ^ 64) with (2 * 2 ^ 63). rewrite <- Z.div_div by lia. f_equal.
  apply (Z.div_unique _ _ _ (if b then 1 else 0)); destruct b; lia.
Qed.

(** The guarded increment or decrement is the saturating update. *)
Lemma counter_update (cs : list Z) (i c : Z) (taken : bool) :
  0 <= i -> cs !! Z.to_nat i = Some c -> 0 <= c <= 3 ->
  (if taken then if c <? 3 then arr_set cs i (u8 (c + 1)) else Ok cs
   else if 0 <? c then arr_set cs i (u8 (c - 1)) else Ok cs)
  = Ok (<[Z.to_nat i := sat_update taken c]> cs).
Proof.
  intros Hi Hc Hr. pose proof (lookup_lt_Some _ _ _ Hc) as Hlt. unfold sat_update.
  assert (forall x, arr_set cs i x = Ok (<[Z.to_nat i := x]> cs)) as Hset
    by (intros x; apply arr_set_ok; split; [lia|done]).
  destruct taken; [destruct (Z.ltb_spec c 3)|destruct (Z.ltb_spec 0 c)];
    rewrite ?Hset, ?(wrapu_small 8) by (unfold in_u; lia); do 2 f_equal; try lia;
    symmetry; apply list_insert_id; rewrite Hc; f_equal; lia.
Qed.

Lemma sat_update_range taken c : 0 <= c <= 3 -> 0 <= sat_update taken c <= 3.
Proof. unfold sat_update. destruct taken; lia. Qed.

(** The code's index arithmetic, table update and history update are those of
    the specification, and none of its assertions fails. *)
Lemma cond_predict_run arch st addr takenW :
  wf_bp st -> takenW <= 1 ->
  do_cond_branch_predict arch st addr takenW =
    Ok (if Bool.eqb (2 <=? ctr_at st (ctr_index arch st addr)) (0 <? takenW) then 0 else 1,
        bp_update arch st addr (0 <? takenW)).
Proof.
  intros Hw Ht. unfold do_cond_branch_predict.
  change (Z.shiftl 1 N_HIST_BITS - 1) with (2 ^ 7 - 1).
  change (Z.shiftl 1 N_IADD_BITS - 1) with (2 ^ 7 - 1).
  rewrite iaddr_shift, !land_pow2_pred by lia.
  pose proof (Z.mod_pos_bound (shift_register st) (2 ^ 7) ltac:(lia)) as Hh.
  pose proof (Z.mod_pos_bound (addr / 2 ^ N_IADDR_LO_ZERO_BITS arch) (2 ^ 7) ltac:(lia)) as Ha.
  rewrite !tl_assert_true by (apply Z.leb_le; lia). cbn [rbind].
  change N_IADD_BITS with 7. rewrite Z.shiftl_mul_pow2 by lia.
  rewrite (wrapu_small 64 (_ * 2 ^ 7)) by (unfold in_u; lia).
  rewrite lor_disjoint by lia. fold (ctr_index arch st addr).
  pose proof (ctr_index_range arch st addr) as Hi.
  rewrite tl_assert_true by (apply Z.ltb_lt; change N_COUNTERS with (2 ^ 14); lia).
  rewrite (tl_assert_true (takenW <=? 1)) by (apply Z.leb_le; lia).
  cbn [rbind]. destruct (ctr_lookup st _ Hw Hi) as [Hc Hr].
  unfold bp_update. set (i := ctr_index arch st addr) in *. set (c := ctr_at st i) in *.
  rewrite (proj2 (arr_get_ok _ i c)) by (split; [lia|done]). cbn [rbind].
  rewrite counter_update by (done || lia). cbn [rbind].
  rewrite (proj2 (arr_get_ok _ i (sat_update (0 <? takenW) c))); cycle 1.
  { split; [lia|]. apply list_lookup_insert_eq. by eapply lookup_lt_Some. }
  cbn [rbind]. rewrite tl_assert_true
    by (apply Z.leb_le; pose proof (sat_update_range (0 <? takenW) c Hr); lia).
  cbn [rbind]. rewrite shift_in_outcome.
  by destruct (2 <=? c), (0 <? takenW).
Qed.

Lemma bp_update_wf arch st addr taken : wf_bp st -> wf_bp (bp_update arch st addr taken).
Proof.
  intros Hw. destruct (ctr_lookup st _ Hw (ctr_index_range arch st addr)) as [_ Hr].
  destruct Hw as [Hs Hl Hf Hb]. constructor; cbn [shift_register counters btac bp_update].
  - unfold push_outcome. apply (wrapu_range 64). lia.
  - by rewrite length_insert.
  - apply Forall_insert; [done|]. by apply sat_update_range.
  - done.
Qed.

Lemma bp_init_wf : wf_bp bp_init.
Proof.
  constructor; cbn [shift_register counters btac bp_init].
  - unfold in_u. lia.
  - apply length_replicate.
  - apply Forall_replicate. lia.
  - apply length_replicate.
Qed.

Lemma btac_index_range arch addr : 0 <= btac_index arch addr < 2 ^ 9.
Proof. apply Z.mod_pos_bound. lia. Qed.

Lemma ind_predict_run arch st addr actual :
  wf_bp st ->
  exists last, btac st !! Z.to_nat (btac_index arch addr) = Some last /\
    do_ind_branch_predict arch st addr actual =
      Ok (if last =? actual then 0 else 1,
          BPState (shift_register st) (counters st)
            (<[Z.to_nat (btac_index arch addr) := actual]> (btac st))).
Proof.
  intros [_ _ _ Hl]. pose proof (btac_index_range arch addr) as Hi.
  destruct (lookup_lt_is_Some_2 (btac st) (Z.to_nat (btac_index arch addr))) as [last Hv].
  { rewrite Hl. change N_BTAC with (2 ^ 9). lia. }
  exists last. split; [done|]. unfold do_ind_branch_predict.
  change (Z.shiftl 1 N_BTAC_BITS - 1) with (2 ^ 9 - 1).
  rewrite iaddr_shift, land_pow2_pred by lia. fold (btac_index arch addr).
  rewrite tl_assert_true by (apply Z.ltb_lt; change N_BTAC with (2 ^ 9); lia).
  cbn [rbind]. rewrite (arr_get_in _ _ last) by (done || lia). cbn [rbind].
  rewrite arr_set_in by (apply lookup_lt_Some in Hv; lia).
  cbn [rbind]. by destruct (last =? actual).
Qed.

(** ** Runs of one branch *)

(** The state after a branch at [addr] was taken [n] times in a row. *)
Fixpoint taken_run (arch : VGA) (addr : Z) (st : bp_state) (n : nat) : bp_state :=
  match n with
  | O => st
  | S n' => bp_update arch (taken_run arch addr st n') addr true
  end.

Lemma taken_run_wf arch addr st n : wf_bp st -> wf_bp (taken_run arch addr st n).
Proof. intros Hw. induction n; [done|]. by apply bp_update_wf. Qed.

(** After [k] taken outcomes the low [k] history bits are ones. *)
Lemma taken_run_history arch addr st (k n : nat) :
  (k <= 63)%nat -> (k <= n)%nat ->
  shift_register (taken_run arch addr st n) mod 2 ^ Z.of_nat k = 2 ^ Z.of_nat k - 1.
Proof.
  revert n; induction k as [|k IH]; intros n Hk Hn; [apply Z.mod_1_r|].
  destruct n as [|n]; [lia|]. cbn [taken_run bp_update shift_register].
  unfold push_outcome. set (sr := shift_register (taken_run arch addr st n)).
  rewrite <- Znumtheory.Zmod_div_mod;
    [|apply Z.pow_pos_nonneg; lia|lia
     |exists (2 ^ (64 - Z.of_nat (S k))); rewrite <- Z.pow_add_r by lia; f_equal; lia].
  specialize (IH n ltac:(lia) ltac:(lia)). fold sr in IH.
  rewrite Nat2Z.inj_succ, Z.pow_succ_r by lia.
  assert (0 < 2 ^ Z.of_nat k) by (apply Z.pow_pos_nonneg; lia).
  pose proof (Z.div_mod sr (2 ^ Z.of_nat k) ltac:(lia)) as E. rewrite IH in E.
  symmetry. apply (Z.mod_unique _ _ (sr / 2 ^ Z.of_nat k)); lia.
Qed.

(** From the eighth execution on, the branch keeps using one counter. *)
Lemma taken_run_index arch addr st n :
  (7 <= n)%nat ->
  ctr_index arch (taken_run arch addr st n) addr =
    127 * 2 ^ 7 + (addr / 2 ^ N_IADDR_LO_ZERO_BITS arch) mod 2 ^ 7.
Proof.
  intros Hn. unfold ctr_index. pose proof (taken_run_history arch addr st 7 n) as E.
  change (Z.of_nat 7) with 7 in E. rewrite E by lia. done.
Qed.

Lemma taken_run_counter arch addr st (j : nat) :
  wf_bp st ->
  Z.min 3 (Z.of_nat j) <=
    ctr_at (taken_run arch addr st (7 + j)) (ctr_index arch (taken_run arch addr st (7 + j)) addr).
Proof.
  intros Hw. induction j as [|j IH].
  - destruct (ctr_lookup (taken_run arch addr st (7 + 0)) _
      (taken_run_wf arch addr st _ Hw) (ctr_index_range arch (taken_run arch addr st (7 + 0)) addr)).
    lia.
  - rewrite taken_run_index in IH |- * by lia.
    replace (7 + S j)%nat with (S (7 + j)) by lia.
    pose proof (taken_run_wf arch addr st (7 + j) Hw) as Hw'.
    pose proof (ctr_index_range arch (taken_run arch addr st (7 + j)) addr) as Hi.
    rewrite taken_run_index in Hi by lia.
    destruct (ctr_lookup _ _ Hw' Hi) as [Hl _]. apply lookup_lt_Some in Hl.
    cbn [taken_run]. unfold ctr_at at 1. cbn [counters bp_update].
    rewrite taken_run_index by lia. rewrite list_lookup_insert_eq by done.
    unfold sat_update. unfold default, id. lia.
Qed.

(** ** Properties *)

(** C32. The conditional predictor is total on its inputs and is the predictor
    its comment describes: in any reachable state no assertion fails, the
    counter consulted is the one selected by the last seven outcomes and the
    low seven address bits, a mispredict is reported exactly when that
    counter's top bit disagrees with the outcome, the counter moves one step
    towards the outcome and saturates at 0 and 3, and the table stays well
    formed. *)
Theorem cond_branch_predict_correct (arch : VGA) (st : bp_state) (addr takenW : Z) :
  wf_bp st -> takenW <= 1 ->
  exists st', do_cond_branch_predict arch st addr takenW =
      Ok (if Bool.eqb (2 <=? ctr_at st (ctr_index arch st addr)) (0 <? takenW) then 0 else 1, st') /\
    st' = bp_update arch st addr (0 <? takenW) /\ wf_bp st'.
Proof.
  intros Hw Ht. eexists. split_and!; [by apply cond_predict_run|done|by apply bp_update_wf].
Qed.

Lemma cond_branch_predict_correct_witness :
  exists st', do_cond_branch_predict VGA_amd64 bp_init 4198400 1 =
      Ok (if Bool.eqb (2 <=? ctr_at bp_init (ctr_index VGA_amd64 bp_init 4198400)) (0 <? 1)
          then 0 else 1, st') /\
    st' = bp_update VGA_amd64 bp_init 4198400 (0 <? 1) /\ wf_bp st'.
Proof.
  apply (cond_branch_predict_correct VGA_amd64 bp_init 4198400 1);
    [exact bp_init_wf|lia].
Defined.

(** The predictor learns: from any state, a branch that is taken every time
    is predicted correctly from its tenth consecutive execution on (seven to
    fill the history, two to raise the counter). *)
Theorem loop_branch_learned (arch : VGA) (st : bp_state) (addr : Z) (n : nat) :
  wf_bp st -> (9 <= n)%nat ->
  do_cond_branch_predict arch (taken_run arch addr st n) addr 1 =
    Ok (0, taken_run arch addr st (S n)).
Proof.
  intros Hw Hn. rewrite cond_predict_run by (lia || by apply taken_run_wf).
  pose proof (taken_run_counter arch addr st (n - 7) Hw) as Hc.
  replace (7 + (n - 7))%nat with n in Hc by lia.
  rewrite (proj2 (Z.leb_le 2 _)) by lia. done.
Qed.

Lemma loop_branch_learned_witness :
  do_cond_branch_predict VGA_amd64 (taken_run VGA_amd64 64 bp_init 9) 64 1 =
    Ok (0, taken_run VGA_amd64 64 bp_init 10).
Proof. apply (loop_branch_learned VGA_amd64 bp_init 64 9); [exact bp_init_wf|lia]. Defined.

(** The indirect predictor reports a mispredict exactly when the target
    differs from the last one recorded for the branch's slot; it records the
    target, so repeating the branch is predicted, and other slots keep theirs. *)
Theorem ind_branch_predict_correct (arch : VGA) (st : bp_state) (addr actual : Z) :
  wf_bp st ->
  exists last st', btac st !! Z.to_nat (btac_index arch addr) = Some last /\
    do_ind_branch_predict arch st addr actual = Ok (if last =? actual then 0 else 1, st') /\
    wf_bp st' /\ do_ind_branch_predict arch st' addr actual = Ok (0, st') /\
    (forall a, btac_index arch a <> btac_index arch addr ->
       btac st' !! Z.to_nat (btac_index arch a) = btac st !! Z.to_nat (btac_index arch a)).
Proof.
  intros Hw. destruct (ind_predict_run arch st addr actual Hw) as (last & Hv & E).
  eexists last, _. split; [done|]. split; [exact E|].
  assert (forall b, wf_bp (BPState (shift_register st) (counters st)
    (<[Z.to_nat (btac_index arch addr) := b]> (btac st)))) as Hw'.
  { intros b. destruct Hw. constructor; cbn; rewrite ?length_insert; done. }
  split; [by apply Hw'|]. split.
  - destruct (ind_predict_run arch _ addr actual (Hw' actual)) as (l' & Hv' & ->).
    cbn in Hv'. rewrite list_lookup_insert_eq in Hv' by (by eapply lookup_lt_Some).
    simplify_eq. rewrite Z.eqb_refl. cbn. by rewrite list_insert_insert_eq.
  - intros a Ha. cbn. apply list_lookup_insert_ne.
    pose proof (btac_index_range arch a). pose proof (btac_index_range arch addr). lia.
Qed.

Lemma ind_branch_predict_correct_witness :
  exists last st', btac bp_init !! Z.to_nat (btac_index VGA_amd64 77) = Some last /\
    do_ind_branch_predict VGA_amd64 bp_init 77 4096 = Ok (if last =? 4096 then 0 else 1, st') /\
    wf_bp st' /\ do_ind_branch_predict VGA_amd64 st' 77 4096 = Ok (0, st') /\
    (forall a, btac_index VGA_amd64 a <> btac_index VGA_amd64 77 ->
       btac st' !! Z.to_nat (btac_index VGA_amd64 a)
         = btac bp_init !! Z.to_nat (btac_index VGA_amd64 a)).
Proof. apply (ind_branch_predict_correct VGA_amd64 bp_init 77 4096). exact bp_init_wf. Defined.
