(* ===== verification/WordFM.v ===== *)
(** * WordFM: the finite maps of cg_merge (cachegrind/cg_merge.c)

    cg_merge carries its own copy of the AVL tree, as a map from words to
    words.  It differs from m_oset.c in small ways: the comparison has its
    arguments the other way round, an insertion of a present key replaces the
    value, impossible balances are assertions, and the iterator pushes a node
    three times.  The operations follow this copy's text; the proofs show that
    the insertion and removal build the same trees as the verified code of
    OSet.v, and take everything else from there. *)

From Stdlib Require Import ZArith Lia Sorted.
From stdpp Require Import base numbers option strings list sorting.
From S2P Require Import Prelude OSet.

#[local] Open Scope Z_scope.

(** [WFM_STKMAX]. *)
Definition WFM_STKMAX : nat := 32.

(** [assert(0)] in a [default] branch. *)
Definition bad_balance {A : Type} : res A := Err (AssertFail "0").

(** A node holds a key and a value; a node pointer is a tree. *)
Notation FmNode K V := (AvlNode (K * V)).

Section nodes.
Context {K V : Type}.
Implicit Types (t l r : FmNode K V) (b : Z).

Definition avl_swl t : res (FmNode K V) := OSet.avl_swl t.
Definition avl_swr t : res (FmNode K V) := OSet.avl_swr t.

Definition avl_nasty t : res (FmNode K V) :=
  let! b := get_balance t in
  let! t1 :=
    (if b =? -1 then let! t' := set_left_balance t 0 in set_right_balance t' 1
     else if b =? 1 then let! t' := set_left_balance t (-1) in set_right_balance t' 0
     else if b =? 0 then let! t' := set_left_balance t 0 in set_right_balance t' 0
     else bad_balance) in
  set_balance t1 0.

Definition size_avl_nonNull : FmNode K V -> Z :=
  fix size t := match t with
  | Leaf => 0
  | Node l r _ _ =>
      1 + (match l with Leaf => 0 | _ => size l end) + (match r with Leaf => 0 | _ => size r end)
  end.

(** The left subtree has grown to [l']. *)
Definition insert_grown_left l' r b (e : K * V) : res (FmNode K V * bool) :=
  let t1 := Node l' r (s8 (b - 1)) e in
  if b =? 1 then Ok (t1, false)
  else if b =? 0 then Ok (t1, true)
  else if b =? -1 then
    let! bl := get_balance l' in
    if bl <? 0 then
      let! t2 := avl_swr t1 in
      let! t3 := set_balance t2 0 in
      let! t4 := set_right_balance t3 0 in
      Ok (t4, false)
    else
      let! l2 := avl_swl l' in
      let! t2 := avl_swr (Node l2 r (s8 (b - 1)) e) in
      let! t3 := avl_nasty t2 in
      Ok (t3, false)
  else bad_balance.

Definition insert_grown_right l r' b (e : K * V) : res (FmNode K V * bool) :=
  let t1 := Node l r' (s8 (b + 1)) e in
  if b =? -1 then Ok (t1, false)
  else if b =? 0 then Ok (t1, true)
  else if b =? 1 then
    let! br := get_balance r' in
    if br >? 0 then
      let! t2 := avl_swl t1 in
      let! t3 := set_balance t2 0 in
      let! t4 := set_left_balance t3 0 in
      Ok (t4, false)
    else
      let! r2 := avl_swr r' in
      let! t2 := avl_swl (Node l r2 (s8 (b + 1)) e) in
      let! t3 := avl_nasty t2 in
      Ok (t3, false)
  else bad_balance.

(** The left subtree has shrunk to [l']. *)
Definition remove_shrunk_left l' r b (e : K * V) : res (FmNode K V * bool) :=
  let t1 := Node l' r (s8 (b + 1)) e in
  if b =? -1 then Ok (t1, true)
  else if b =? 0 then Ok (t1, false)
  else if b =? 1 then
    let! br := get_balance r in
    if br =? 0 then
      let! t2 := avl_swl t1 in
      let! t3 := set_balance t2 (-1) in
      let! t4 := set_left_balance t3 1 in
      Ok (t4, false)
    else if br =? 1 then
      let! t2 := avl_swl t1 in
      let! t3 := set_balance t2 0 in
      let! t4 := set_left_balance t3 0 in
      Ok (t4, true)
    else if br =? -1 then
      let! r2 := avl_swr r in
      let! t2 := avl_swl (Node l' r2 (s8 (b + 1)) e) in
      let! t3 := avl_nasty t2 in
      Ok (t3, true)
    else bad_balance
  else bad_balance.

Definition remove_shrunk_right l r' b (e : K * V) : res (FmNode K V * bool) :=
  let t1 := Node l r' (s8 (b - 1)) e in
  if b =? 1 then Ok (t1, true)
  else if b =? 0 then Ok (t1, false)
  else if b =? -1 then
    let! bl := get_balance l in
    if bl =? 0 then
      let! t2 := avl_swr t1 in
      let! t3 := set_balance t2 1 in
      let! t4 := set_right_balance t3 (-1) in
      Ok (t4, false)
    else if bl =? -1 then
      let! t2 := avl_swr t1 in
      let! t3 := set_balance t2 0 in
      let! t4 := set_right_balance t3 0 in
      Ok (t4, true)
    else if bl =? 1 then
      let! l2 := avl_swl l in
      let! t2 := avl_swr (Node l2 r' (s8 (b - 1)) e) in
      let! t3 := avl_nasty t2 in
      Ok (t3, true)
    else bad_balance
  else bad_balance.

End nodes.

Section ordered.
Context {K V : Type} `{!EqDecision K, !EqDecision V} (kCmp : K -> K -> Z).
Implicit Types (t l r : FmNode K V) (b : Z).

(** [avl_insert_wrk]: the tree, whether it has grown, and the value replaced.
    As in m_oset.c a child that reports growth is still the same node, so the
    code need not store its address. *)
Fixpoint avl_insert_wrk t (a : K * V) : res (FmNode K V * bool * option V) :=
  match t with
  | Leaf => Ok (Node Leaf Leaf 0 a, true, None)
  | Node l r b e =>
      let cmpres := kCmp (fst e) (fst a) in
      if cmpres >? 0 then
        match l with
        | Node _ _ _ _ =>
            let! (l', grown, oldV) := avl_insert_wrk l a in
            if (grown : bool) then let! (t', g) := insert_grown_left l' r b e in Ok (t', g, oldV)
            else Ok (Node l' r b e, false, oldV)
        | Leaf => Ok (Node (Node Leaf Leaf 0 a) r (s8 (b - 1)) e, b =? 0, None)
        end
      else if cmpres <? 0 then
        match r with
        | Node _ _ _ _ =>
            let! (r', grown, oldV) := avl_insert_wrk r a in
            if (grown : bool) then let! (t', g) := insert_grown_right l r' b e in Ok (t', g, oldV)
            else Ok (Node l r' b e, false, oldV)
        | Leaf => Ok (Node l (Node Leaf Leaf 0 a) (s8 (b + 1)) e, b =? 0, None)
        end
      else Ok (Node l r b (fst e, snd a), false, Some (snd e))
  end.

(** [avl_find_node]; the node's key and value. *)
Fixpoint avl_find_node t (k : K) : option (K * V) :=
  match t with
  | Leaf => None
  | Node l r _ e =>
      let cmpres := kCmp (fst e) k in
      if cmpres >? 0 then avl_find_node l k
      else if cmpres <? 0 then avl_find_node r k
      else Some e
  end.

(** [avl_removeroot_wrk], given the recursive [avl_remove_wrk]. *)
Definition avl_removeroot_wrk (remove : FmNode K V -> K * V -> res (FmNode K V * bool)) t
  : res (FmNode K V * bool) :=
  match t with
  | Leaf => Err NullDeref
  | Node Leaf Leaf _ _ => Ok (Leaf, true)
  | Node Leaf r _ _ => Ok (r, true)
  | Node l Leaf _ _ => Ok (l, true)
  | Node (Node _ lr _ le as l) (Node rl _ _ re as r) b e =>
      let a := if b <? 0 then rightmost lr le else leftmost rl re in
      let! (t', ch) := remove t a in
      match t' with
      | Leaf => Err NullDeref
      | Node l' r' b' _ => Ok (Node l' r' b' a, if b' =? 0 then ch else false)
      end
  end.

(** [avl_remove_wrk]; the fuel counts the nested calls. *)
Fixpoint avl_remove_wrk (fuel : nat) t (a : K * V) : res (FmNode K V * bool) :=
  match fuel with
  | O => Err OutOfFuel
  | S fuel' =>
      match t with
      | Leaf => Err NullDeref
      | Node l r b e =>
          let cmpres := kCmp (fst e) (fst a) in
          if cmpres >? 0 then
            match l with
            | Leaf => Err (AssertFail "left_subtree")
            | Node _ _ _ _ =>
                let! (l', ch) := avl_remove_wrk fuel' l a in
                if (ch : bool) then remove_shrunk_left l' r b e else Ok (Node l' r b e, false)
            end
          else if cmpres <? 0 then
            match r with
            | Leaf => Err (AssertFail "right_subtree")
            | Node _ _ _ _ =>
                let! (r', ch) := avl_remove_wrk fuel' r a in
                if (ch : bool) then remove_shrunk_right l r' b e else Ok (Node l r' b e, false)
            end
          else
            let! _ := tl_assert (bool_decide (e = a)) "(*rootp)==a" in
            avl_removeroot_wrk (avl_remove_wrk fuel') t
      end
  end.

(** A write through the value pointer found for [k]. *)
Fixpoint set_val t (k : K) (v : V) : FmNode K V :=
  match t with
  | Leaf => Leaf
  | Node l r b e =>
      let cmpres := kCmp (fst e) k in
      if cmpres >? 0 then Node (set_val l k v) r b e
      else if cmpres <? 0 then Node l (set_val r k v) b e
      else Node l r b (fst e, v)
  end.

End ordered.

(** [avl_dopy]: copies of the keys and values, or NULL when a copy fails. *)
Fixpoint avl_dopy {K V : Type} (dopyK : K -> option K) (dopyV : V -> option V) (nd : FmNode K V)
  : option (FmNode K V) :=
  match nd with
  | Leaf => Some Leaf
  | Node l r b (k, v) =>
      k' ← dopyK k; v' ← dopyV v; l' ← avl_dopy dopyK dopyV l; r' ← avl_dopy dopyK dopyV r;
      Some (Node l' r' b (k', v'))
  end.

(** [avl_free]: the bindings in the order they are finalised. *)
Fixpoint avl_free {K V : Type} (nd : FmNode K V) : list (K * V) :=
  match nd with
  | Leaf => []
  | Node l r _ e => avl_free l ++ avl_free r ++ [e]
  end.

(** ** The map object *)

(** [struct _WordFM] without the functions; the iterator stack has its top
    first. *)
Record WordFM (K V : Type) : Type := MkFM {
  fm_root : FmNode K V;
  fm_stack : list (FmNode K V * Z)
}.
Arguments MkFM {K V} fm_root fm_stack.
Arguments fm_root {K V} w.
Arguments fm_stack {K V} w.

Section ops.
Context {K V : Type}.
Implicit Types (fm : WordFM K V) (st : list (FmNode K V * Z)).

Definition newFM : WordFM K V := MkFM Leaf [].

(** [stackPush] and [stackPop]. *)
Definition stackPush st (n : FmNode K V) (i : Z) : res (list (FmNode K V * Z)) :=
  let! _ := tl_assert (Nat.ltb (length st) WFM_STKMAX) "fm->stackTop < WFM_STKMAX" in
  let! _ := tl_assert ((1 <=? i) && (i <=? 3)) "1 <= i && i <= 3" in
  Ok ((n, i) :: st).

Definition stackPop st : res (option (FmNode K V * Z * list (FmNode K V * Z))) :=
  let! _ := tl_assert (Nat.leb (length st) WFM_STKMAX) "fm->stackTop <= WFM_STKMAX" in
  match st with
  | (n, i) :: st' =>
      let! _ := tl_assert ((1 <=? i) && (i <=? 3)) "1 <= *i && *i <= 3" in
      Ok (Some (n, i, st'))
  | [] => Ok None
  end.

(** [sizeFM]. *)
Definition sizeFM fm : Z := match fm_root fm with Leaf => 0 | _ => size_avl_nonNull (fm_root fm) end.

(** [initIterFM]. *)
Definition initIterFM fm : res (WordFM K V) :=
  match fm_root fm with
  | Leaf => Ok (MkFM Leaf [])
  | n => let! st := stackPush [] n 1 in Ok (MkFM n st)
  end.

(** The loop of [nextIterFM]. *)
Fixpoint next_loop (fuel : nat) st : res (list (FmNode K V * Z) * option (K * V)) :=
  match fuel with
  | O => Err OutOfFuel
  | S fuel' =>
      let! popped := stackPop st in
      match popped with
      | None => Ok (st, None)
      | Some (Leaf, _, _) => Err NullDeref
      | Some (Node l r b e as n, i, st') =>
          if i =? 1 then
            let! st1 := stackPush st' n 2 in
            let! st2 := match l with Leaf => Ok st1 | _ => stackPush st1 l 1 end in
            next_loop fuel' st2
          else if i =? 2 then let! st1 := stackPush st' n 3 in Ok (st1, Some e)
          else if i =? 3 then
            let! st1 := match r with Leaf => Ok st' | _ => stackPush st' r 1 end in
            next_loop fuel' st1
          else Err (AssertFail "0")
      end
  end.

(** The pops still to come: three for each node not yet reached. *)
Definition entry_pops (n : FmNode K V) (i : Z) : nat :=
  match n with
  | Leaf => 0
  | Node _ r _ _ =>
      if i =? 1 then 3 * length (elems n)
      else if i =? 2 then 2 + 3 * length (elems r) else 1 + 3 * length (elems r)
  end.

Fixpoint stack_pops st : nat :=
  match st with [] => 0 | (n, i) :: st' => entry_pops n i + stack_pops st' end.

Definition nextIterFM fm : res (WordFM K V * option (K * V)) :=
  let! (st, kv) := next_loop (S (stack_pops (fm_stack fm))) (fm_stack fm) in
  Ok (MkFM (fm_root fm) st, kv).

(** [dopyFM]; NULL when a copy fails. *)
Definition dopyFM (dopyK : K -> option K) (dopyV : V -> option V) fm : res (option (WordFM K V)) :=
  let! _ := tl_assert (Nat.eqb (length (fm_stack fm)) 0) "fm->stackTop == 0" in
  match fm_root fm with
  | Leaf => Ok (Some (MkFM Leaf (fm_stack fm)))
  | n => Ok (match avl_dopy dopyK dopyV n with
             | Some n' => Some (MkFM n' (fm_stack fm))
             | None => None
             end)
  end.

(** [deleteFM]: the bindings finalised. *)
Definition deleteFM fm : list (K * V) := avl_free (fm_root fm).

Context `{!EqDecision K, !EqDecision V} (kCmp : K -> K -> Z).

(** [addToFM]. *)
Definition addToFM fm (k : K) (v : V) : res (WordFM K V) :=
  let! (t', _, _) := avl_insert_wrk kCmp (fm_root fm) (k, v) in
  Ok (MkFM t' (fm_stack fm)).

(** [lookupFM]. *)
Definition lookupFM fm (k : K) : option V := snd <$> avl_find_node kCmp (fm_root fm) k.

(** [delFromFM]. *)
Definition delFromFM fm (k : K) : res (WordFM K V * option V) :=
  match avl_find_node kCmp (fm_root fm) k with
  | Some a =>
      let! (t', _) := avl_remove_wrk kCmp (remove_fuel (fm_root fm)) (fm_root fm) a in
      Ok (MkFM t' (fm_stack fm), Some (snd a))
  | None => Ok (fm, None)
  end.

(** What a caller of [lookupFM] does when it writes through the value it got. *)
Definition storeFM fm (k : K) (v : V) : WordFM K V :=
  MkFM (set_val kCmp (fm_root fm) k v) (fm_stack fm).

End ops.

(** ** The tree code is that of m_oset.c *)

Section same.
Context {K V : Type}.
Implicit Types (t l r : FmNode K V) (b : Z).

(** On balanced trees the assertions hold, and the fix-ups agree. *)
Lemma grown_left_same l l' r b e h hl :
  avl l hl -> avl (Node l r b e) h -> avl l' (S hl) -> leans l' ->
  insert_grown_left l' r b e = OSet.insert_grown_left l' r b e.
Proof.
  intros Hl Ht Hl' Hb.
  inversion Ht as [|? ? ? ? Ha|? ? ? ? Ha|? ? ? ? Ha]; subst; try reflexivity.
  pose proof (avl_height_unique _ _ _ Hl Ha) as ->.
  inversion Hl' as [|? ? ? ? Hll Hlr|? ? ? ? Hll Hlr|? ? ? ? Hll Hlr]; subst;
    [by destruct Hb|reflexivity|].
  inversion Hlr; subst; reflexivity.
Qed.

Lemma grown_right_same l r r' b e h hr :
  avl r hr -> avl (Node l r b e) h -> avl r' (S hr) -> leans r' ->
  insert_grown_right l r' b e = OSet.insert_grown_right l r' b e.
Proof.
  intros Hr Ht Hr' Hb.
  inversion Ht as [|? ? ? ? Hx Ha|? ? ? ? Hx Ha|? ? ? ? Hx Ha]; subst; try reflexivity.
  pose proof (avl_height_unique _ _ _ Hr Ha) as ->.
  inversion Hr' as [|? ? ? ? Hrl Hrr|? ? ? ? Hrl Hrr|? ? ? ? Hrl Hrr]; subst;
    [by destruct Hb| |reflexivity].
  inversion Hrl; subst; reflexivity.
Qed.

Lemma shrunk_left_same l l' r b e h hl :
  avl l (S hl) -> avl (Node l r b e) (S h) -> avl l' hl ->
  remove_shrunk_left l' r b e = OSet.remove_shrunk_left l' r b e.
Proof.
  intros Hl Ht Hl'.
  inversion Ht as [|? ? ? ? Ha Hr|? ? ? ? Ha Hr|? ? ? ? Ha Hr]; subst; try reflexivity.
  inversion Hr as [|? ? ? ? Hrl Hrr|? ? ? ? Hrl Hrr|? ? ? ? Hrl Hrr]; subst; try reflexivity.
  inversion Hrl; subst; reflexivity.
Qed.

Lemma shrunk_right_same l r r' b e h hr :
  avl r (S hr) -> avl (Node l r b e) (S h) -> avl r' hr ->
  remove_shrunk_right l r' b e = OSet.remove_shrunk_right l r' b e.
Proof.
  intros Hr Ht Hr'.
  inversion Ht as [|? ? ? ? Hl Ha|? ? ? ? Hl Ha|? ? ? ? Hl Ha]; subst; try reflexivity.
  inversion Hl as [|? ? ? ? Hll Hlr|? ? ? ? Hll Hlr|? ? ? ? Hll Hlr]; subst; try reflexivity.
  inversion Hlr; subst; reflexivity.
Qed.

Context `{!EqDecision K, !EqDecision V} (kCmp : K -> K -> Z) `{!CmpLaws kCmp}.

#[local] Notation ordered := (ordered (@fst K V) kCmp).
#[local] Notation fresh := (fresh_key (@fst K V) kCmp).
#[local] Notation insert := (avl_insert (@fst K V) kCmp).

(** The comparison with its arguments exchanged. *)
Lemma flip_gtb x y : (kCmp x y >? 0) = (kCmp y x <? 0).
Proof.
  rewrite Z.gtb_ltb. pose proof (cmp_flip_lt (kcmp := kCmp) y x).
  destruct (Z.ltb_spec 0 (kCmp x y)), (Z.ltb_spec (kCmp y x) 0); tauto || lia.
Qed.

Lemma flip_ltb x y : (kCmp x y <? 0) = (kCmp y x >? 0).
Proof. by rewrite flip_gtb. Qed.

(** Insertion of a new key. *)
Lemma insert_same t a h :
  avl t h -> t <> Leaf -> ordered (elems t) -> fresh (fst a) (elems t) ->
  avl_insert_wrk kCmp t a = (let! (t', g) := insert t a in Ok (t', g, None)).
Proof.
  revert h. induction t as [|l IHl r IHr b e]; intros h Ht Hne Ho Hf; [done|].
  cbn [avl_insert_wrk avl_insert elems] in *. unfold cmp_key_root. rewrite (flip_gtb (fst e)), (flip_ltb (fst e)).
  pose proof Ho as (Hlo & Hro & _ & _)%ordered_mid.
  unfold fresh_key in Hf. rewrite Forall_app, Forall_cons in Hf. destruct Hf as (Hfl & He & Hfr).
  assert (exists hl hr, avl l hl /\ avl r hr) as (hl & hr & Hl & Hr) by (inversion Ht; eauto).
  destruct (Z.ltb_spec (kCmp (fst a) (fst e)) 0).
  - destruct l as [|ll lr lb le]; [done|]. rewrite (IHl hl) by done.
    destruct (avl_insert_ok fst kCmp (Node ll lr lb le) a hl Hl ltac:(done) Hlo Hfl)
      as [(l' & g & E & _ & Ha) Hlean]. rewrite E. cbn [rbind].
    destruct g; [|done]. by rewrite (grown_left_same (Node ll lr lb le) l' r b e h hl) by auto.
  - rewrite Z.gtb_ltb. destruct (Z.ltb_spec 0 (kCmp (fst a) (fst e))); [|lia].
    destruct r as [|rl rr rb re]; [done|]. rewrite (IHr hr) by done.
    destruct (avl_insert_ok fst kCmp (Node rl rr rb re) a hr Hr ltac:(done) Hro Hfr)
      as [(r' & g & E & _ & Ha) Hlean]. rewrite E. cbn [rbind].
    destruct g; [|done]. by rewrite (grown_right_same l (Node rl rr rb re) r' b e h hr) by auto.
Qed.

Lemma find_same t k : avl_find_node kCmp t k = avl_lookup (@fst K V) kCmp t k.
Proof.
  induction t as [|l IHl r IHr b e]; [done|]. cbn [avl_find_node avl_lookup].
  by rewrite (flip_gtb (fst e)), (flip_ltb (fst e)), IHl, IHr.
Qed.

(** Removal, one level at a time. *)
#[local] Notation remove := (avl_remove (@fst K V) kCmp).

Lemma remove_left_same g l r b e a h hl zs :
  avl (Node l r b e) (S h) -> avl l (S hl) -> kCmp (fst a) (fst e) < 0 ->
  fixed_up (remove g l a) zs hl (S hl) -> avl_remove_wrk kCmp g l a = remove g l a ->
  avl_remove_wrk kCmp (S g) (Node l r b e) a = remove (S g) (Node l r b e) a.
Proof.
  intros Ht Hl Hc (l' & ch & Er & _ & Hl') E. cbn [avl_remove_wrk avl_remove]. unfold cmp_key_root.
  rewrite (flip_gtb (fst e)), (proj2 (Z.ltb_lt _ _) Hc).
  destruct l as [|ll lr lb le]; [inversion Hl|]. rewrite E, Er. cbn [rbind].
  destruct ch; [|done]. by eapply shrunk_left_same.
Qed.

Lemma remove_right_same g l r b e a h hr zs :
  avl (Node l r b e) (S h) -> avl r (S hr) -> 0 < kCmp (fst a) (fst e) ->
  fixed_up (remove g r a) zs hr (S hr) -> avl_remove_wrk kCmp g r a = remove g r a ->
  avl_remove_wrk kCmp (S g) (Node l r b e) a = remove (S g) (Node l r b e) a.
Proof.
  intros Ht Hr Hc (r' & ch & Er & _ & Hr') E. cbn [avl_remove_wrk avl_remove]. unfold cmp_key_root.
  rewrite (flip_gtb (fst e)), (flip_ltb (fst e)), (proj2 (Z.ltb_ge _ _)), Z.gtb_ltb, (proj2 (Z.ltb_lt _ _) Hc) by lia.
  destruct r as [|rl rr rb re]; [inversion Hr|]. rewrite E, Er. cbn [rbind].
  destruct ch; [|done]. by eapply shrunk_right_same.
Qed.

(** Removal of the in-order neighbour that replaces the root. *)
Lemma removeroot_same f l r b e h :
  avl (Node l r b e) (S h) -> ordered (elems l ++ e :: elems r) ->
  (forall t a xs ys k, t = l \/ t = r -> avl t (S k) -> elems t = xs ++ a :: ys ->
     fixed_up (remove f t a) (xs ++ ys) k (S k) /\ avl_remove_wrk kCmp f t a = remove f t a) ->
  avl_removeroot_wrk (avl_remove_wrk kCmp (S f)) (Node l r b e) =
  avl_removeroot (remove (S f)) (Node l r b e).
Proof.
  intros Ht (_ & _ & Hlt & Hgt)%ordered_mid IH.
  pose proof Ht as (hl & hr & Hl & Hr & _)%avl_children.
  destruct l as [|ll lr lb le], r as [|rl rr rb re]; try done.
  cbn [avl_removeroot_wrk avl_removeroot]. destruct (b <? 0).
  - destruct (rightmost_elems lr le) as [xs Hxs].
    assert (elems (Node ll lr lb le) = (elems ll ++ xs) ++ rightmost lr le :: []) as Hel.
    { cbn [elems]. by rewrite Hxs, app_assoc. }
    pose proof (avl_nonempty _ _ _ _ _ Hl Hel) as [k ->].
    destruct (IH _ _ _ _ k ltac:(by left) Hl Hel) as [Hf E].
    rewrite (remove_left_same f (Node ll lr lb le) _ b e _ h k ((elems ll ++ xs) ++ []));
      [done|done|done| |exact Hf|exact E].
    apply Hlt. rewrite Hel. apply elem_of_app. right. by left.
  - destruct (leftmost_elems rl re) as [xs Hxs].
    assert (elems (Node rl rr rb re) = [] ++ leftmost rl re :: xs ++ elems rr) as Her.
    { cbn [elems app]. by rewrite (app_assoc _ [re] _ : _ ++ re :: _ = _), Hxs. }
    pose proof (avl_nonempty _ _ _ _ _ Hr Her) as [k ->].
    destruct (IH _ _ _ _ k ltac:(by right) Hr Her) as [Hf E].
    rewrite (remove_right_same f _ (Node rl rr rb re) b e _ h k ([] ++ (xs ++ elems rr)));
      [done|done|done| |exact Hf|exact E].
    apply cmp_flip_lt, Hgt. rewrite Her. by left.
Qed.

(** Removal of a node of the tree. *)
Lemma remove_same f t a xs ys h :
  (2 * S h <= f)%nat -> avl t (S h) -> ordered (elems t) -> elems t = xs ++ a :: ys ->
  avl_remove_wrk kCmp f t a = remove f t a.
Proof.
  revert t a xs ys h. induction f as [f IH] using lt_wf_ind.
  intros t a xs ys h Hf Ht Ho He. destruct f as [|[|f]]; [lia|lia|].
  destruct t as [|l r b e]; [inversion Ht|]. cbn [elems] in *.
  pose proof Ho as (Hlo & Hro & _ & _)%ordered_mid.
  pose proof Ht as (hl & hr & Hl' & Hr' & Hhl & Hhr)%avl_children.
  assert (forall g t a xs ys k, g = f \/ g = S f -> t = l \/ t = r -> avl t (S k) -> elems t = xs ++ a :: ys ->
     fixed_up (remove g t a) (xs ++ ys) k (S k) /\ avl_remove_wrk kCmp g t a = remove g t a) as Hsub.
  { intros g t a' us vs k Hg Hk Hk' Hel.
    assert (2 * S k <= g)%nat by (destruct Hk; subst; [pose proof (avl_height_unique _ _ _ Hk' Hl')
      |pose proof (avl_height_unique _ _ _ Hk' Hr')]; lia).
    assert (ordered (elems t)) by (by destruct Hk; subst).
    split; [by apply avl_remove_ok|]. eapply IH; [lia|done..]. }
  destruct (ordered_split fst kCmp xs a ys (elems l) e (elems r)) as
    [[Hc (zs & Hl & ->)]|[[Hc (zs & Hr & ->)]|(-> & -> & ->)]]; [done|done| | |].
  - pose proof (avl_nonempty _ _ _ _ _ Hl' Hl) as [k ->].
    destruct (Hsub (S f) l a xs zs k) as [H1 H2]; [auto..|]. by eapply remove_left_same.
  - pose proof (avl_nonempty _ _ _ _ _ Hr' Hr) as [k ->].
    destruct (Hsub (S f) r a zs ys k) as [H1 H2]; [auto..|]. by eapply remove_right_same.
  - cbn [avl_remove_wrk avl_remove]. unfold cmp_key_root. rewrite cmp_refl, bool_decide_true by done.
    cbn [Z.gtb tl_assert rbind]. eapply removeroot_same; [done|done|]. intros; apply Hsub; auto.
Qed.

End same.

(** ** Maps as sorted lists of bindings *)

Section maps.
Context {K V : Type} `{!EqDecision K, !EqDecision V} (kCmp : K -> K -> Z) `{!CmpLaws kCmp}.
Implicit Types (t l r : FmNode K V) (xs : list (K * V)) (fm : WordFM K V).

#[local] Notation ordered := (ordered (@fst K V) kCmp).
#[local] Notation lookup_kv := (sset_lookup (@fst K V) kCmp).

Definition bindings fm : list (K * V) := elems (fm_root fm).

Definition bind_lookup (k : K) xs : option V := snd <$> lookup_kv k xs.

(** The binding of [k] changed to [v]. *)
Definition bind_set (k : K) (v : V) xs : list (K * V) :=
  map (fun x => if kCmp k (fst x) =? 0 then (fst x, v) else x) xs.

Definition bind_add (k : K) (v : V) xs : list (K * V) :=
  match lookup_kv k xs with
  | Some _ => bind_set k v xs
  | None => sset_insert fst kCmp (k, v) xs
  end.

(** A balanced search tree, not being iterated over. *)
Record fm_wf fm : Prop := {
  fw_avl : exists h, avl (fm_root fm) h;
  fw_ordered : ordered (bindings fm);
  fw_idle : fm_stack fm = []
}.

Lemma newFM_wf : fm_wf newFM.
Proof. split; [eexists; constructor|constructor|done]. Qed.

Lemma bind_set_keys k v xs : map fst (bind_set k v xs) = map fst xs.
Proof.
  unfold bind_set. rewrite map_map. apply map_ext. intros [k' v']. cbn. by destruct (_ =? 0).
Qed.

(** Order depends on the keys only. *)
Lemma ordered_keys xs ys : map fst xs = map fst ys -> ordered xs -> ordered ys.
Proof.
  unfold OSet.ordered. revert ys; induction xs as [|x xs IH]; intros [|y ys] E H; try done.
  cbn in E. injection E as E1 E2. apply StronglySorted_inv in H as [H1 H2]. constructor; [by apply IH|].
  rewrite <- E1. clear -H2 E2. revert ys E2; induction xs as [|z xs IH]; intros [|w ys] E; try done.
  cbn in E. injection E as E1 E2. apply Forall_cons in H2 as [H2 H3]. constructor; [by rewrite <- E1|auto].
Qed.

Lemma bind_set_ordered k v xs : ordered xs -> ordered (bind_set k v xs).
Proof. apply ordered_keys. by rewrite bind_set_keys. Qed.

(** Nothing changes on the side a key is not on. *)
Lemma bind_set_fresh k v xs : fresh_key fst kCmp k xs -> bind_set k v xs = xs.
Proof.
  unfold fresh_key, bind_set. induction 1 as [|x xs Hx _ IH]; [done|]. cbn.
  by rewrite (proj2 (Z.eqb_neq _ _) Hx), IH.
Qed.

Lemma side_fresh k xs (x : K * V) ys :
  ordered (xs ++ x :: ys) ->
  (kCmp k (fst x) <= 0 -> fresh_key fst kCmp k ys) /\ (0 <= kCmp k (fst x) -> fresh_key fst kCmp k xs).
Proof.
  intros (_ & _ & Hlt & Hgt)%ordered_mid. split; intros Hk; apply Forall_forall; intros z Hz.
  - pose proof (cmp_below fst kCmp k x z Hk (Hgt z Hz)). lia.
  - pose proof (cmp_above fst kCmp k x z Hk (Hlt z Hz)). lia.
Qed.

Lemma set_val_ok t k v h :
  avl t h -> ordered (elems t) ->
  avl (set_val kCmp t k v) h /\ elems (set_val kCmp t k v) = bind_set k v (elems t).
Proof.
  intros Ht; induction Ht as [|l r e h Hl IHl Hr IHr|l r e h Hl IHl Hr IHr|l r e h Hl IHl Hr IHr];
    intros Ho; [split; [constructor|done]|..];
    cbn [elems set_val] in *; pose proof (side_fresh k _ _ _ Ho) as [Hs1 Hs2];
    apply ordered_mid in Ho as (Hlo & Hro & _ & _);
    destruct (IHl Hlo) as [A1 E1], (IHr Hro) as [A2 E2];
    rewrite (flip_gtb kCmp (fst e)), (flip_ltb kCmp (fst e)), Z.gtb_ltb;
    unfold bind_set at 1; rewrite map_app; cbn [map];
    fold (bind_set k v (elems l)) (bind_set k v (elems r));
    destruct (Z.ltb_spec (kCmp k (fst e)) 0);
    [|destruct (Z.ltb_spec 0 (kCmp k (fst e)))| |destruct (Z.ltb_spec 0 (kCmp k (fst e)))
     | |destruct (Z.ltb_spec 0 (kCmp k (fst e)))];
    cbn [elems]; (split; [eauto with cg|]);
    destruct (Z.eqb_spec (kCmp k (fst e)) 0); try lia; rewrite ?E1, ?E2;
    try rewrite (bind_set_fresh k v (elems r)) by (apply Hs1; lia);
    try rewrite (bind_set_fresh k v (elems l)) by (apply Hs2; lia); done.
Qed.

Lemma insert_present t k v h e :
  avl t h -> ordered (elems t) -> lookup_kv k (elems t) = Some e ->
  avl_insert_wrk kCmp t (k, v) = Ok (set_val kCmp t k v, false, Some (snd e)).
Proof.
  revert h. induction t as [|l IHl r IHr b e']; intros h Ht Ho He; [done|].
  cbn [elems avl_insert_wrk set_val fst snd] in *. rewrite sset_lookup_mid in He by done.
  pose proof Ho as (Hlo & Hro & _ & _)%ordered_mid.
  assert (exists hl hr, avl l hl /\ avl r hr) as (hl & hr & Hl & Hr) by (inversion Ht; eauto).
  rewrite (flip_gtb kCmp (fst e')), (flip_ltb kCmp (fst e')).
  destruct (kCmp k (fst e') <? 0); [|destruct (kCmp k (fst e') >? 0)].
  - rewrite (IHl hl) by done. by destruct l.
  - rewrite (IHr hr) by done. by destruct r.
  - by injection He as ->.
Qed.

(** *** The operations *)

Lemma lookupFM_ok fm k : fm_wf fm -> lookupFM kCmp fm k = bind_lookup k (bindings fm).
Proof.
  intros [_ Ho _]. unfold lookupFM, bind_lookup, bindings.
  by rewrite (find_same kCmp), avl_lookup_ok by done.
Qed.

Lemma bind_add_ordered k v xs : ordered xs -> ordered (bind_add k v xs).
Proof.
  intros Ho. unfold bind_add. destruct (lookup_kv k xs) eqn:E; [by apply bind_set_ordered|].
  apply sset_insert_ordered; [done..|]. by apply sset_lookup_None.
Qed.

Lemma addToFM_ok fm k v : fm_wf fm ->
  exists fm', addToFM kCmp fm k v = Ok fm' /\ fm_wf fm' /\ bindings fm' = bind_add k v (bindings fm).
Proof.
  intros [[h Ht] Ho Hs]. unfold addToFM, bindings in *. pose proof (bind_add_ordered k v _ Ho) as Ho'.
  unfold bind_add in *. destruct (lookup_kv k (elems (fm_root fm))) as [e|] eqn:E.
  - rewrite (insert_present _ k v h e) by done. cbn [rbind]. eexists. split; [done|].
    destruct (set_val_ok _ k v h Ht Ho) as [Ha He].
    split; [|by cbn]. split; cbn; [eauto|unfold bindings; cbn; by rewrite He|done].
  - destruct (fm_root fm) as [|l r b e] eqn:Er.
    + eexists. split; [done|]. split; [|done]. split; cbn; [eauto with cg|done|done].
    + apply sset_lookup_None in E. rewrite (insert_same kCmp _ (k, v) h) by done.
      destruct (avl_insert_ok fst kCmp (Node l r b e) (k, v) h Ht ltac:(done) Ho E)
        as [(t' & g & -> & He & Ha) _].
      cbn [rbind]. eexists. split; [done|]. split; [|by cbn].
      split; cbn; [eauto|unfold bindings; cbn; by rewrite He|done].
Qed.

Lemma storeFM_ok fm k v : fm_wf fm ->
  fm_wf (storeFM kCmp fm k v) /\ bindings (storeFM kCmp fm k v) = bind_set k v (bindings fm).
Proof.
  intros [[h Ht] Ho Hs]. destruct (set_val_ok _ k v h Ht Ho) as [Ha He]. split; [|done].
  split; cbn; [eauto|unfold bindings; cbn; rewrite He; by apply bind_set_ordered|done].
Qed.

Lemma delFromFM_ok fm k : fm_wf fm ->
  exists fm', delFromFM kCmp fm k = Ok (fm', bind_lookup k (bindings fm)) /\ fm_wf fm' /\
    bindings fm' = sset_remove fst kCmp k (bindings fm).
Proof.
  intros Hwf. pose proof Hwf as [[h Ht] Ho Hs]. unfold delFromFM, bind_lookup, bindings in *.
  rewrite (find_same kCmp), avl_lookup_ok by done.
  destruct (lookup_kv k (elems (fm_root fm))) as [a|] eqn:E.
  - apply sset_lookup_elem in E as [Ha Hk]; [|done..].
    apply list_elem_of_split in Ha as (xs & ys & He).
    pose proof (avl_nonempty _ _ _ _ _ Ht He) as [h' ->].
    assert (2 * S h' <= remove_fuel (fm_root fm))%nat
      by (unfold remove_fuel; rewrite (avl_height _ _ Ht); lia).
    rewrite (remove_same kCmp _ _ _ xs ys h') by done.
    destruct (avl_remove_ok fst kCmp (remove_fuel (fm_root fm)) (fm_root fm) a xs ys h')
      as (t' & ch & -> & Ht' & Ha'); [done..|]. cbn [rbind]. eexists. split; [done|].
    assert (xs ++ ys = sset_remove fst kCmp k (elems (fm_root fm))) as Hr.
    { rewrite He in Ho |- *. by rewrite sset_remove_mid. }
    split; [|cbn; congruence]. split; cbn; [eauto| |done].
    unfold bindings. cbn. rewrite Ht', Hr. by apply sset_remove_ordered.
  - eexists. split; [done|]. split; [done|]. rewrite sset_remove_fresh; [done|].
    by apply sset_lookup_None.
Qed.

Lemma sizeFM_ok fm : sizeFM fm = Z.of_nat (length (bindings fm)).
Proof.
  assert (forall t, size_avl_nonNull t = Z.of_nat (length (elems t))) as H.
  { intros t; induction t as [|l IHl r IHr b e]; [done|].
    cbn [elems]. rewrite length_app. cbn [length]. cbn [size_avl_nonNull].
    fold (@size_avl_nonNull K V) in *. destruct l, r; rewrite ?IHl, ?IHr; cbn [elems length] in *; lia. }
  unfold sizeFM, bindings. rewrite H. by destruct (fm_root fm).
Qed.

(** *** Lookups after an update *)

Lemma cmp_zero_eqb (k k' x : K) : kCmp k' k = 0 -> (kCmp k' x =? 0) = (kCmp k x =? 0).
Proof.
  intros H. pose proof (cmp_zero_l k' k x H) as E.
  destruct (Z.eqb_spec (kCmp k' x) 0), (Z.eqb_spec (kCmp k x) 0); lia.
Qed.

Lemma bind_lookup_cons k (x : K * V) xs :
  bind_lookup k (x :: xs) = if kCmp k (fst x) =? 0 then Some (snd x) else bind_lookup k xs.
Proof. unfold bind_lookup, sset_lookup. cbn [List.find]. by destruct (_ =? 0). Qed.

Lemma bind_lookup_set k k' v xs :
  bind_lookup k' (bind_set k v xs) =
  if kCmp k' k =? 0 then (fun _ => v) <$> bind_lookup k xs else bind_lookup k' xs.
Proof.
  induction xs as [|x xs IH]; cbn [bind_set map]; [by destruct (_ =? 0)|].
  fold (bind_set k v xs). rewrite !bind_lookup_cons. destruct (Z.eqb_spec (kCmp k' k) 0) as [E|E].
  - rewrite <- (cmp_zero_eqb k k' (fst x) E). destruct (kCmp k' (fst x) =? 0) eqn:Ex; cbn [fst snd].
    + by rewrite Ex.
    + rewrite Ex. exact IH.
  - destruct (Z.eqb_spec (kCmp k (fst x)) 0) as [Hx|Hx]; cbn [fst snd]; [|by rewrite IH].
    destruct (Z.eqb_spec (kCmp k' (fst x)) 0) as [Hx'|Hx']; [|exact IH]. exfalso.
    apply cmp_flip_zero in Hx'. pose proof (cmp_zero_l (fst x) k' k Hx') as Ea.
    apply cmp_flip_zero in Hx. rewrite Hx in Ea. lia.
Qed.

Lemma bind_lookup_add k k' v xs : ordered xs ->
  bind_lookup k' (bind_add k v xs) = if kCmp k' k =? 0 then Some v else bind_lookup k' xs.
Proof.
  intros Ho. unfold bind_add. destruct (lookup_kv k xs) as [e|] eqn:E.
  - rewrite bind_lookup_set. unfold bind_lookup at 1. by rewrite E.
  - apply sset_lookup_None in E. clear Ho. induction xs as [|x xs IH]; cbn [sset_insert fst].
    { by rewrite bind_lookup_cons. }
    apply Forall_cons in E as [Ex E]. destruct (kCmp k (fst x) <? 0); [by rewrite bind_lookup_cons|].
    rewrite !bind_lookup_cons, (IH E). destruct (Z.eqb_spec (kCmp k' (fst x)) 0) as [Hx|Hx]; [|done].
    destruct (Z.eqb_spec (kCmp k' k) 0) as [Hk|Hk]; [|done]. exfalso. apply Ex.
    pose proof (cmp_zero_l k' k (fst x) Hk) as Ea. rewrite Hx in Ea. lia.
Qed.

Lemma bind_lookup_cmp k k' xs : kCmp k' k = 0 -> bind_lookup k' xs = bind_lookup k xs.
Proof.
  intros E. induction xs as [|x xs IH]; [done|].
  by rewrite !bind_lookup_cons, (cmp_zero_eqb k k' (fst x) E), IH.
Qed.

(** The first binding of an ordered list is the only one of its key. *)
Lemma bind_lookup_head (x : K * V) xs : ordered (x :: xs) -> bind_lookup (fst x) xs = None.
Proof.
  intros [_ H]%StronglySorted_inv. unfold bind_lookup. rewrite (proj2 (sset_lookup_None _ _ _ _)); [done|].
  eapply Forall_impl; [exact H|]. cbn. lia.
Qed.

(** A value written over the one just added. *)
Lemma bind_set_add k v w xs : bind_set k v (bind_add k w xs) = bind_add k v xs.
Proof.
  unfold bind_add. destruct (lookup_kv k xs) eqn:E.
  - unfold bind_set. rewrite map_map. apply map_ext. intros x. by destruct (kCmp k (fst x) =? 0) eqn:Ex;
      cbn [fst]; rewrite Ex.
  - apply sset_lookup_None in E. induction xs as [|x xs IH]; cbn [sset_insert fst bind_set map].
    { by rewrite (cmp_refl k). }
    apply Forall_cons in E as [Ex E]. destruct (kCmp k (fst x) <? 0); cbn [map fst].
    + rewrite (cmp_refl k), (proj2 (Z.eqb_neq _ _) Ex). fold (bind_set k v xs).
      by rewrite (bind_set_fresh k v xs E).
    + rewrite (proj2 (Z.eqb_neq _ _) Ex). f_equal. by apply IH.
Qed.

Lemma bind_set_length k v xs : length (bind_set k v xs) = length xs.
Proof. apply length_map. Qed.

Lemma bind_lookup_elem k v xs : bind_lookup k xs = Some v -> exists k', (k', v) ∈ xs /\ kCmp k k' = 0.
Proof.
  unfold bind_lookup. destruct (lookup_kv k xs) as [[k' v']|] eqn:E; [|done]. cbn. intros [= <-].
  apply sset_lookup_Some in E as [E1 E2]. by exists k'.
Qed.

(** *** Iteration *)

Lemma fm_push_ok (st : list (FmNode K V * Z)) n i :
  (length st < WFM_STKMAX)%nat -> 1 <= i <= 3 -> stackPush st n i = Ok ((n, i) :: st).
Proof.
  intros H1 H2. unfold stackPush. rewrite (proj2 (Nat.ltb_lt _ _) H1). cbn [tl_assert rbind].
  by rewrite (proj2 (Z.leb_le 1 i)), (proj2 (Z.leb_le i 3)) by lia.
Qed.

Lemma fm_pop_ok (st : list (FmNode K V * Z)) n i :
  stack_ok ((n, i) :: st) -> stackPop ((n, i) :: st) = Ok (Some (n, i, st)).
Proof.
  intros H. apply OSet.stackPop_ok in H. unfold OSet.stackPop, stackPop in *.
  change WFM_STKMAX with STACK_MAX. destruct (Nat.leb _ _); [|done]. cbn [tl_assert rbind] in *.
  by destruct ((1 <=? i) && (i <=? 3)).
Qed.

Lemma fm_next_loop_ok fuel (st : list (FmNode K V * Z)) :
  stack_ok st -> (stack_pops st < fuel)%nat ->
  exists st', next_loop fuel st = Ok (st', head (pending st)) /\
    stack_ok st' /\ pending st' = tail (pending st).
Proof.
  revert st; induction fuel as [|fuel IH]; intros st Hok Hf; [lia|].
  destruct st as [|[n i] st]; [by exists []|].
  cbn [next_loop]. rewrite fm_pop_ok by done. cbn [rbind].
  pose proof Hok as (Hn & Hi & Hh & Hst). destruct n as [|l r b e]; [done|].
  unfold STACK_MAX in Hh. cbn [height] in Hh.
  assert (i = 1 \/ i = 2 \/ i = 3) as [-> | [-> | ->]] by lia; eval_eqb.
  - rewrite fm_push_ok by (unfold WFM_STKMAX; lia). cbn [rbind].
    set (st2 := match l with Leaf => (Node l r b e, 2) :: st | _ => (l, 1) :: (Node l r b e, 2) :: st end).
    assert (match l with Leaf => Ok ((Node l r b e, 2) :: st)
            | _ => stackPush ((Node l r b e, 2) :: st) l 1 end = Ok st2) as ->.
    { subst st2. destruct l; [done|]. apply fm_push_ok; [unfold WFM_STKMAX; cbn [length height] in *; lia|lia]. }
    cbn [rbind].
    assert (pending st2 = pending ((Node l r b e, 1) :: st)) as <-.
    { subst st2. destruct l; [done|]. cbn [pending elems]. eval_eqb. by rewrite <- !app_assoc. }
    apply IH.
    + assert (stack_ok ((Node l r b e, 2) :: st))
        by (split; [done|]; split; [lia|]; split; [exact Hh|done]).
      subst st2. destruct l; [done|]. split; [done|]. split; [lia|].
      split; [unfold STACK_MAX; cbn [length height] in *; lia|done].
    + subst st2. cbn [stack_pops entry_pops] in *. cbn [elems length] in *. rewrite length_app in Hf.
      cbn [length] in Hf. destruct l; cbn [stack_pops entry_pops]; eval_eqb; cbn [elems length] in *; lia.
  - rewrite fm_push_ok by (unfold WFM_STKMAX; lia). cbn [rbind]. eexists. split; [done|].
    split; [|done]. split; [done|]. split; [lia|]. split; [exact Hh|done].
  - set (st1 := match r with Leaf => st | _ => (r, 1) :: st end).
    assert (match r with Leaf => Ok st | _ => stackPush st r 1 end = Ok st1) as ->.
    { subst st1. destruct r; [done|]. apply fm_push_ok; [unfold WFM_STKMAX; cbn [height] in *; lia|lia]. }
    cbn [rbind].
    assert (pending st1 = pending ((Node l r b e, 3) :: st)) as <-.
    { subst st1. by destruct r. }
    apply IH.
    + subst st1. destruct r; [done|]. split; [done|]. split; [lia|].
      split; [unfold STACK_MAX; cbn [height] in *; lia|done].
    + subst st1. cbn [stack_pops entry_pops] in *. destruct r; cbn [stack_pops entry_pops] in *;
        eval_eqb; cbn [elems length] in *; lia.
Qed.


Lemma next_loop_end fuel (st st' : list (FmNode K V * Z)) : next_loop fuel st = Ok (st', None) -> st' = [].
Proof.
  revert st; induction fuel as [|fuel IH]; intros st H; [done|]. cbn [next_loop] in H.
  apply rbind_ok in H as (o & Hp & H). destruct o as [[[n i] st1]|].
  - destruct n as [|l r b e]; [done|].
    destruct (i =? 1); [|destruct (i =? 2); [|destruct (i =? 3); [|done]]].
    + apply rbind_ok in H as (st2 & _ & H). apply rbind_ok in H as (st3 & _ & H). eauto.
    + apply rbind_ok in H as (st2 & _ & H). done.
    + apply rbind_ok in H as (st2 & _ & H). eauto.
  - injection H as <-. unfold stackPop in Hp. apply rbind_ok in Hp as (_ & _ & Hp).
    destruct st as [|[n i] st]; [done|]. apply rbind_ok in Hp as (_ & _ & Hp). done.
Qed.

Lemma initIterFM_ok fm : (exists h, avl (fm_root fm) h) ->
  Z.of_nat (length (bindings fm)) <= ITER_MAX ->
  exists fm', initIterFM fm = Ok fm' /\ fm_root fm' = fm_root fm /\
    stack_ok (fm_stack fm') /\ pending (fm_stack fm') = bindings fm.
Proof.
  intros [h Ht] Hlen. pose proof (iter_max_height _ _ Ht Hlen) as Hmax. unfold initIterFM, bindings in *.
  destruct (fm_root fm) as [|l r b e] eqn:Er; [by eexists|].
  rewrite fm_push_ok by (cbn; unfold WFM_STKMAX; lia). cbn [rbind]. eexists. split; [done|].
  split; [done|]. split; [|cbn [fm_stack pending]; eval_eqb; by rewrite app_nil_r].
  split; [done|]. split; [lia|]. split; [cbn [length]; lia|done].
Qed.

(** *** A client's loop *)

(** [initIterFM(fm); while (nextIterFM(fm, &k, &v)) body]. *)
Fixpoint next_each {S : Type} (fuel : nat) (body : K * V -> S -> res S) fm (s : S) : res (WordFM K V * S) :=
  match fuel with
  | O => Err OutOfFuel
  | Datatypes.S fuel' =>
      let! (fm, kv) := nextIterFM fm in
      match kv with
      | None => Ok (fm, s)
      | Some e => let! s := body e s in next_each fuel' body fm s
      end
  end.

Definition for_each {S : Type} (body : K * V -> S -> res S) fm (s : S) : res (WordFM K V * S) :=
  let! fm := initIterFM fm in
  next_each (Datatypes.S (length (bindings fm))) body fm s.

Lemma next_each_ok {S} fuel (body : K * V -> S -> res S) fm s :
  stack_ok (fm_stack fm) -> (length (pending (fm_stack fm)) < fuel)%nat ->
  next_each fuel body fm s =
    let! s := res_fold body (pending (fm_stack fm)) s in Ok (MkFM (fm_root fm) [], s).
Proof.
  revert fm s. induction fuel as [|fuel IH]; intros fm s Hok Hf; [lia|]. cbn [next_each]. unfold nextIterFM.
  destruct (fm_next_loop_ok (Datatypes.S (stack_pops (fm_stack fm))) (fm_stack fm) Hok ltac:(lia))
    as (st' & E & Hok' & Hp). rewrite E. cbn [rbind].
  destruct (pending (fm_stack fm)) as [|x xs] eqn:Hpt; cbn [head tail] in *.
  - apply next_loop_end in E as ->. done.
  - cbn [res_fold]. destruct (body x s) as [s1|]; cbn [rbind]; [|done].
    rewrite IH; cbn [fm_stack fm_root]; [by rewrite Hp|done|rewrite Hp; cbn [length] in Hf; lia].
Qed.

(** The loop visits the bindings in order, each once, and ends. *)
Lemma for_each_ok {S} (body : K * V -> S -> res S) fm s :
  fm_wf fm -> Z.of_nat (length (bindings fm)) <= ITER_MAX ->
  for_each body fm s = let! s := res_fold body (bindings fm) s in Ok (fm, s).
Proof.
  intros [Ha Ho Hs] Hlen. unfold for_each.
  destruct (initIterFM_ok fm Ha Hlen) as (fm' & -> & Hr & Hok & Hp). cbn [rbind].
  rewrite next_each_ok; [|done|rewrite Hp; unfold bindings; rewrite Hr; lia].
  rewrite Hp, Hr, <- Hs. destruct (res_fold body (bindings fm) s); [|done]. cbn [rbind]. by destruct fm.
Qed.

(** *** Copies *)

Lemma avl_dopy_id (dopyK : K -> option K) (dopyV : V -> option V) t :
  (forall e, e ∈ elems t -> dopyK (fst e) = Some (fst e) /\ dopyV (snd e) = Some (snd e)) ->
  avl_dopy dopyK dopyV t = Some t.
Proof.
  induction t as [|l IHl r IHr b [k v]]; intros H; [done|]. cbn [avl_dopy elems] in *.
  destruct (H (k, v)) as [E1 E2]; [apply elem_of_app; right; by left|]. cbn in E1, E2. rewrite E1, E2. cbn.
  rewrite IHl, IHr; [done| |]; intros e He; apply H, elem_of_app; [right; by right|by left].
Qed.

Lemma dopyFM_id (dopyK : K -> option K) (dopyV : V -> option V) fm : fm_wf fm ->
  (forall e, e ∈ bindings fm -> dopyK (fst e) = Some (fst e) /\ dopyV (snd e) = Some (snd e)) ->
  dopyFM dopyK dopyV fm = Ok (Some fm).
Proof.
  intros [_ _ Hs] H. unfold dopyFM. rewrite Hs. cbn [length Nat.eqb tl_assert rbind].
  destruct fm as [t st]. unfold bindings in H. cbn [fm_root fm_stack] in *. subst st.
  destruct t; [done|]. by rewrite avl_dopy_id by exact H.
Qed.

(** Every binding is finalised exactly once. *)
Lemma deleteFM_perm fm : deleteFM fm ≡ₚ bindings fm.
Proof.
  unfold deleteFM, bindings. generalize (fm_root fm) as t.
  induction t as [|l IHl r IHr b e]; [done|]. cbn [avl_free elems].
  rewrite IHl, IHr. apply Permutation_app_head. by rewrite Permutation_app_comm.
Qed.

End maps.

(** ** Refinement *)

Section refinement.
Context {K V : Type} `{!EqDecision K, !EqDecision V} (kCmp : K -> K -> Z).

(** The calls of a client, and their answers. *)
Inductive fm_op : Type :=
  | Add (k : K) (v : V)
  | Del (k : K)
  | Look (k : K)
  | Size
  | ForEach.

Inductive fm_answer : Type :=
  | Done
  | Found (v : option V)
  | Count (n : Z)
  | Visited (kvs : list (K * V)).

Definition fm_step (op : fm_op) (fm : WordFM K V) : res (WordFM K V * fm_answer) :=
  match op with
  | Add k v => let! fm := addToFM kCmp fm k v in Ok (fm, Done)
  | Del k => let! (fm, v) := delFromFM kCmp fm k in Ok (fm, Found v)
  | Look k => Ok (fm, Found (lookupFM kCmp fm k))
  | Size => Ok (fm, Count (sizeFM fm))
  | ForEach => let! (fm, kvs) := for_each (fun e acc => Ok (acc ++ [e])) fm [] in Ok (fm, Visited kvs)
  end.

(** The same calls on a sorted list of bindings. *)
Definition bind_step (op : fm_op) (xs : list (K * V)) : list (K * V) * fm_answer :=
  match op with
  | Add k v => (bind_add kCmp k v xs, Done)
  | Del k => (sset_remove fst kCmp k xs, Found (bind_lookup kCmp k xs))
  | Look k => (xs, Found (bind_lookup kCmp k xs))
  | Size => (xs, Count (Z.of_nat (length xs)))
  | ForEach => (xs, Visited xs)
  end.

Fixpoint fm_run (ops : list fm_op) (fm : WordFM K V) : res (WordFM K V * list fm_answer) :=
  match ops with
  | [] => Ok (fm, [])
  | op :: ops' =>
      let! (fm, a) := fm_step op fm in
      let! (fm, l) := fm_run ops' fm in
      Ok (fm, a :: l)
  end.

Fixpoint bind_run (ops : list fm_op) (xs : list (K * V)) : list (K * V) * list fm_answer :=
  match ops with
  | [] => (xs, [])
  | op :: ops' =>
      let '(xs, a) := bind_step op xs in
      let '(xs, l) := bind_run ops' xs in
      (xs, a :: l)
  end.

Context `{!CmpLaws kCmp}.

Lemma collect_ok (xs acc : list (K * V)) :
  res_fold (fun e acc => Ok (acc ++ [e])) xs acc = Ok (acc ++ xs).
Proof.
  revert acc; induction xs as [|x xs IH]; intros acc; cbn [res_fold rbind]; [by rewrite app_nil_r|].
  by rewrite IH, <- app_assoc.
Qed.

Lemma bind_add_length k (v : V) xs :
  (length (bind_add kCmp k v xs) <= Datatypes.S (length xs))%nat.
Proof.
  unfold bind_add. destruct (sset_lookup _ _ _ _); [unfold bind_set; rewrite length_map; lia|].
  by rewrite sset_insert_perm.
Qed.

Lemma fm_step_refines op fm :
  fm_wf kCmp fm -> Z.of_nat (length (bindings fm)) <= ITER_MAX ->
  exists fm', fm_step op fm = Ok (fm', (bind_step op (bindings fm)).2) /\ fm_wf kCmp fm' /\
    bindings fm' = (bind_step op (bindings fm)).1.
Proof.
  intros Hwf Hlen. destruct op as [k v|k|k| |]; cbn [fm_step bind_step fst snd].
  - destruct (addToFM_ok kCmp fm k v Hwf) as (fm' & -> & ? & ?). by exists fm'.
  - destruct (delFromFM_ok kCmp fm k Hwf) as (fm' & -> & ? & ?). by exists fm'.
  - exists fm. by rewrite lookupFM_ok.
  - exists fm. by rewrite sizeFM_ok.
  - exists fm. rewrite (for_each_ok kCmp) by done. by rewrite collect_ok.
Qed.

(** C34. Any sequence of insertions, deletions, lookups, size queries and
    complete iterations on a new map gives exactly the answers of the same
    calls on a sorted list of bindings: an insertion replaces the value of a
    present key, and no assertion fails (in particular no balance leaves
    [-1, 1] and the 32-entry iterator stack does not overflow) as long as there
    are no more than 9,227,463 insertions.  The final map is a height-balanced
    search tree of those bindings. *)
Theorem fm_refines_bindings (ops : list fm_op) :
  Z.of_nat (length ops) <= ITER_MAX ->
  exists fm, fm_run ops newFM = Ok (fm, (bind_run ops []).2) /\ fm_wf kCmp fm /\
    bindings fm = (bind_run ops []).1.
Proof.
  intros Hlen.
  assert (forall fm, fm_wf kCmp fm -> Z.of_nat (length (bindings fm) + length ops) <= ITER_MAX ->
    exists fm', fm_run ops fm = Ok (fm', (bind_run ops (bindings fm)).2) /\ fm_wf kCmp fm' /\
      bindings fm' = (bind_run ops (bindings fm)).1) as H.
  { clear Hlen. induction ops as [|op ops IH]; intros fm Hwf Hl; [by exists fm|].
    cbn [fm_run bind_run length] in *.
    destruct (fm_step_refines op fm Hwf ltac:(lia)) as (fm1 & -> & Hwf1 & Hb1). cbn [rbind].
    assert (length (bindings fm1) <= Datatypes.S (length (bindings fm)))%nat as Hg.
    { rewrite Hb1. destruct op; cbn [bind_step fst]; [apply bind_add_length| |lia..].
      unfold sset_remove. pose proof (List.filter_length_le (fun x => negb (kCmp k (fst x) =? 0)) (bindings fm)).
      lia. }
    destruct (IH fm1 Hwf1 ltac:(lia)) as (fm2 & -> & Hwf2 & Hb2). cbn [rbind]. rewrite Hb1 in *.
    destruct (bind_step op (bindings fm)) as [xs a]. cbn [fst snd] in *.
    destruct (bind_run ops xs) as [ys l]. by exists fm2. }
  apply (H newFM (newFM_wf kCmp)). cbn. lia.
Qed.

End refinement.

Lemma fm_refines_bindings_witness :
  exists fm, fm_run fast_cmp [Add 5 "a"; Add 3 "b"; Add 5 "c"; Add 9 "d"; Del 3; Look 5; Size; ForEach]%string
      newFM
    = Ok (fm, [Done; Done; Done; Done; Found (Some "b"); Found (Some "c"); Count 2;
               Visited [(5, "c"); (9, "d")]]%string) /\ fm_wf fast_cmp fm.
Proof.
  destruct (fm_refines_bindings fast_cmp [Add 5 "a"; Add 3 "b"; Add 5 "c"; Add 9 "d"; Del 3; Look 5; Size;
    ForEach]%string) as (fm & H & Hwf & _); [by apply Z.leb_le; vm_compute|].
  exists fm. split; [exact H|exact Hwf].
Defined.
