(* ===== verification/CgOutput.v ===== *)
(** * CgOutput: the output file (cachegrind/cg_main.c,
      fprint_CC_table_and_calc_totals)

    The file every later stage reads: a description of the caches, the command,
    the names of the events, one line of counters per source line grouped by
    file and function, and the totals.  The format strings are the source's;
    they are run by the interpreter of Vprintf.v. *)

From Stdlib Require Import ZArith Lia Ascii String Sorted.
From stdpp Require Import base numbers option strings gmap list.
From S2P Require Import Prelude Libcbase Debuglog Vprintf Libcprint CgSim OSet CgTables.

#[local] Open Scope Z_scope.

(** ** Formats *)

Definition desc_fmt : string := Eval cbv in
  ("desc: I1 cache:         %s" ++ nl ++ "desc: D1 cache:         %s" ++ nl ++
   "desc: LL cache:         %s" ++ nl)%string.

Definition fl_fmt : string := Eval cbv in ("fl=%s" ++ nl)%string.
Definition fn_fmt : string := Eval cbv in ("fn=%s" ++ nl)%string.

Section formats.
Context (clo_cache_sim clo_branch_sim : bool).

(** The "events:" line; the first newline ends the "cmd:" line. *)
Definition events_fmt : string := Eval cbv in
  match clo_cache_sim, clo_branch_sim with
  | true, true => (nl ++ "events: Ir I1mr ILmr Dr D1mr DLmr Dw D1mw DLmw Bc Bcm Bi Bim" ++ nl)%string
  | true, false => (nl ++ "events: Ir I1mr ILmr Dr D1mr DLmr Dw D1mw DLmw " ++ nl)%string
  | false, true => (nl ++ "events: Ir Bc Bcm Bi Bim" ++ nl)%string
  | false, false => (nl ++ "events: Ir" ++ nl)%string
  end.

(** A line of counters. *)
Definition line_fmt : string := Eval cbv in
  match clo_cache_sim, clo_branch_sim with
  | true, true => ("%d %llu %llu %llu %llu %llu %llu %llu %llu %llu %llu %llu %llu %llu" ++ nl)%string
  | true, false => ("%d %llu %llu %llu %llu %llu %llu %llu %llu %llu" ++ nl)%string
  | false, true => ("%d %llu %llu %llu %llu %llu" ++ nl)%string
  | false, false => ("%d %llu" ++ nl)%string
  end.

(** The totals. *)
Definition summary_fmt : string := Eval cbv in
  match clo_cache_sim, clo_branch_sim with
  | true, true =>
      ("summary: %llu %llu %llu %llu %llu %llu %llu %llu %llu %llu %llu %llu %llu" ++ nl)%string
  | true, false => ("summary: %llu %llu %llu %llu %llu %llu %llu %llu %llu" ++ nl)%string
  | false, true => ("summary: %llu %llu %llu %llu %llu" ++ nl)%string
  | false, false => ("summary: %llu" ++ nl)%string
  end.

(** The counters of a record that are printed, in the order of the formats. *)
Definition cache_counts (cc : CacheCC) : list Z := [cc_a cc; cc_m1 cc; cc_mL cc].
Definition branch_counts (b : BranchCC) : list Z := [bc_b b; bc_mp b].

Definition printed_counts (c : line_counts) : list Z :=
  (if clo_cache_sim then cache_counts (Ir c) ++ cache_counts (Dr c) ++ cache_counts (Dw c)
   else [cc_a (Ir c)]) ++
  (if clo_branch_sim then branch_counts (Bc c) ++ branch_counts (Bi c) else []).

End formats.

(** ** Totals *)

Definition add_CacheCC (x y : CacheCC) : CacheCC :=
  MkCacheCC (u64 (cc_a x + cc_a y)) (u64 (cc_m1 x + cc_m1 y)) (u64 (cc_mL x + cc_mL y)).
Definition add_BranchCC (x y : BranchCC) : BranchCC :=
  MkBranchCC (u64 (bc_b x + bc_b y)) (u64 (bc_mp x + bc_mp y)).

(** [Ir_total.a += lineCC->Ir.a], and so on. *)
Definition add_counts (x y : line_counts) : line_counts :=
  MkCounts (add_CacheCC (Ir x) (Ir y)) (add_CacheCC (Dr x) (Dr y)) (add_CacheCC (Dw x) (Dw y))
    (add_BranchCC (Bc x) (Bc y)) (add_BranchCC (Bi x) (Bi y)).

(** [Ir_total], ..., [Bi_total] and the three statistics. *)
Record totals : Type := MkTotals {
  tot_counts : line_counts;
  distinct_files : Z;
  distinct_fns : Z;
  distinct_lines : Z
}.

Definition zero_totals : totals := MkTotals zero_counts 0 0 0.

(** ** The traversal *)

(** The local variables of the loop; the two strings are pointers into the
    string table, NULL at first. *)
Record pr_state : Type := MkPr {
  pr_fp : VgFile;
  currFile : option nat;
  currFn : option nat;
  pr_tot : totals
}.

Section output.
Context (clo_cache_sim clo_branch_sim clo_xml : bool).

(** The body of the loop. *)
Definition print_line (store : list line_counts) (lineCC : LineCC) (st : pr_state) : res pr_state :=
  match store !! lcc_addr lineCC with
  | None => Err NullDeref
  | Some c =>
      let tot := pr_tot st in
      let file := lcc_file lineCC in
      let fn := lcc_fn lineCC in
      let just_hit_a_new_file := negb (bool_decide (Some (ps_addr file) = currFile st)) in
      let! (fp, nfiles) :=
        (if just_hit_a_new_file then
           let! fp := VG_fprintf clo_xml (pr_fp st) fl_fmt
                        [VA_Str (Some (ps_chars file))] in
           Ok (fp, s32 (distinct_files tot + 1))
         else Ok (pr_fp st, distinct_files tot)) in
      let! (fp, nfns) :=
        (if just_hit_a_new_file || negb (bool_decide (Some (ps_addr fn) = currFn st)) then
           let! fp := VG_fprintf clo_xml fp fn_fmt
                        [VA_Str (Some (ps_chars fn))] in
           Ok (fp, s32 (distinct_fns tot + 1))
         else Ok (fp, distinct_fns tot)) in
      let! fp := VG_fprintf clo_xml fp (line_fmt clo_cache_sim clo_branch_sim)
                   (VA_Int (lcc_line lineCC) ::
                    map VA_Long (printed_counts clo_cache_sim clo_branch_sim c)) in
      Ok (MkPr fp (Some (ps_addr file)) (Some (ps_addr fn))
            (MkTotals (add_counts (tot_counts tot) c) nfiles nfns (s32 (distinct_lines tot + 1))))
  end.

(** [while ( (lineCC = VG_(OSetGen_Next)(CC_table)) )]. *)
Fixpoint print_lines (fuel : nat) (t : OSet LineCC) (store : list line_counts) (st : pr_state)
  : res (OSet LineCC * pr_state) :=
  match fuel with
  | O => Err OutOfFuel
  | S fuel' =>
      let! (t, lineCC) := os_next t in
      match lineCC with
      | None => Ok (t, st)
      | Some l =>
          let! st := print_line store l st in
          print_lines fuel' t store st
      end
  end.

(** The "cmd:" line, without its newline. *)
Definition print_cmd (fp : VgFile) (exename : string) (client_args : list string) : res VgFile :=
  let! fp := VG_fprintf clo_xml fp "cmd: %s" [VA_Str (Some exename)] in
  res_fold (fun arg fp => VG_fprintf clo_xml fp " %s" [VA_Str (Some arg)]) client_args fp.

(** [fprint_CC_table_and_calc_totals].  The output file's name is expanded and
    the file created outside this code; [opened] tells whether that worked.
    The loop ends after one round per line of the table and one more. *)
Definition fprint_CC_table_and_calc_totals (opened : bool) (c : caches3) (exename : string)
    (client_args : list string) (T : cg_tables) (tot : totals)
  : res (cg_tables * totals * option string) :=
  if negb opened then Ok (T, tot, None)
  else
    let! fp := VG_fprintf clo_xml VG_fopen desc_fmt
                 [VA_Str (Some (desc_line (I1 c))); VA_Str (Some (desc_line (D1 c)));
                  VA_Str (Some (desc_line (LL c)))] in
    let! fp := print_cmd fp exename client_args in
    let! fp := VG_fprintf clo_xml fp (events_fmt clo_cache_sim clo_branch_sim) [] in
    let! t := os_reset_iter (CC_table T) in
    let! (t, st) := print_lines (S (length (CC_store T))) t (CC_store T) (MkPr fp None None tot) in
    let! fp := VG_fprintf clo_xml (pr_fp st) (summary_fmt clo_cache_sim clo_branch_sim)
                 (map VA_Long (printed_counts clo_cache_sim clo_branch_sim
                                 (tot_counts (pr_tot st)))) in
    Ok (set_CC T t (CC_store T), pr_tot st, Some (VG_fclose fp)).

End output.

(** ** What the formats print *)

(** Counters, each after a space. *)
Definition counts_text (l : list Z) : string :=
  fold_right (fun x s => (" " ++ fmt_u x ++ s)%string) EmptyString l.

Lemma line_text xml cs bs l c :
  exists n, VG_debugLog_vprintf xml (line_fmt cs bs) (VA_Int l :: map VA_Long (printed_counts cs bs c))
    = Ok ((fmt_d (s32 l) ++ counts_text (map u64 (printed_counts cs bs c)) ++ nl)%string, n).
Proof. destruct cs, bs; eexists; run_vprintf. Qed.

Lemma summary_text xml cs bs c :
  exists n, VG_debugLog_vprintf xml (summary_fmt cs bs) (map VA_Long (printed_counts cs bs c))
    = Ok (("summary:" ++ counts_text (map u64 (printed_counts cs bs c)) ++ nl)%string, n).
Proof. destruct cs, bs; eexists; run_vprintf. Qed.

Lemma fl_text xml s :
  exists n, VG_debugLog_vprintf xml fl_fmt [VA_Str (Some s)] = Ok (("fl=" ++ s ++ nl)%string, n).
Proof. eexists. run_vprintf. Qed.

Lemma fn_text xml s :
  exists n, VG_debugLog_vprintf xml fn_fmt [VA_Str (Some s)] = Ok (("fn=" ++ s ++ nl)%string, n).
Proof. eexists. run_vprintf. Qed.

Lemma cmd_text xml s :
  exists n, VG_debugLog_vprintf xml "cmd: %s" [VA_Str (Some s)] = Ok (("cmd: " ++ s)%string, n).
Proof. eexists. run_vprintf. Qed.

Lemma arg_text xml s :
  exists n, VG_debugLog_vprintf xml " %s" [VA_Str (Some s)] = Ok ((" " ++ s)%string, n).
Proof. eexists. run_vprintf. Qed.

Lemma events_text xml cs bs :
  exists n, VG_debugLog_vprintf xml (events_fmt cs bs) [] = Ok (events_fmt cs bs, n).
Proof. destruct cs, bs; eexists; vm_compute; reflexivity. Qed.

(** The three description lines. *)
Definition desc_text (i d l : string) : string :=
  ("desc: I1 cache:         " ++ i ++ nl ++ "desc: D1 cache:         " ++ d ++ nl ++
   "desc: LL cache:         " ++ l ++ nl)%string.

Lemma desc_text_ok xml i d l :
  exists n, VG_debugLog_vprintf xml desc_fmt [VA_Str (Some i); VA_Str (Some d); VA_Str (Some l)]
    = Ok (desc_text i d l, n).
Proof. eexists. run_vprintf. Qed.

(** A call that prints [s] adds [s] to the file. *)
Lemma fprintf_text xml fp fmt args s :
  (exists n, VG_debugLog_vprintf xml fmt args = Ok (s, n)) ->
  exists fp', VG_fprintf xml fp fmt args = Ok fp' /\ vf_contents fp' = (vf_contents fp ++ s)%string.
Proof.
  intros [n H]. unfold VG_fprintf. rewrite H. cbn [rbind]. eexists. split; [done|].
  apply feed_vgfile_contents.
Qed.

(** ** The reference text *)

Section spec.
Context (cs bs : bool).

(** A source line and its counters. *)
Definition line_rec : Type := (CodeLoc * line_counts)%type.

(** Whether a "fl=" or "fn=" line is due after a line of file and function
    [prev]: names are compared as strings. *)
Definition new_file (prev : option (string * string)) (loc : CodeLoc) : bool :=
  match prev with
  | None => true
  | Some (f, _) => negb (String.eqb f (loc_file loc))
  end.

Definition new_fn (prev : option (string * string)) (loc : CodeLoc) : bool :=
  new_file prev loc ||
  match prev with
  | None => true
  | Some (_, g) => negb (String.eqb g (loc_fn loc))
  end.

Definition file_text (b : bool) (loc : CodeLoc) : string :=
  if b then ("fl=" ++ loc_file loc ++ nl)%string else EmptyString.
Definition func_text (b : bool) (loc : CodeLoc) : string :=
  if b then ("fn=" ++ loc_fn loc ++ nl)%string else EmptyString.
Definition counters_text (r : line_rec) : string :=
  (fmt_d (loc_line r.1) ++ counts_text (printed_counts cs bs r.2) ++ nl)%string.

Fixpoint body_text (prev : option (string * string)) (ls : list line_rec) : string :=
  match ls with
  | [] => EmptyString
  | r :: ls' =>
      (file_text (new_file prev r.1) r.1 ++ func_text (new_fn prev r.1) r.1 ++ counters_text r ++
       body_text (Some (loc_file r.1, loc_fn r.1)) ls')%string
  end.

(** The headings printed. *)
Fixpoint file_heads (prev : option (string * string)) (ls : list line_rec) : Z :=
  match ls with
  | [] => 0
  | r :: ls' => Z.b2z (new_file prev r.1) + file_heads (Some (loc_file r.1, loc_fn r.1)) ls'
  end.

Fixpoint fn_heads (prev : option (string * string)) (ls : list line_rec) : Z :=
  match ls with
  | [] => 0
  | r :: ls' => Z.b2z (new_fn prev r.1) + fn_heads (Some (loc_file r.1, loc_fn r.1)) ls'
  end.

(** Sums by column, unbounded. *)
Fixpoint column_sums (n : nat) (rows : list (list Z)) : list Z :=
  match rows with
  | [] => replicate n 0
  | row :: rows' => zip_with Z.add row (column_sums n rows')
  end.

Definition n_columns : nat := length (printed_counts cs bs zero_counts).

Definition summary_counts (ls : list line_rec) : list Z :=
  map u64 (column_sums n_columns (map (fun r => printed_counts cs bs r.2) ls)).

(** The whole file. *)
Definition file_contents (i1 d1 ll exename : string) (client_args : list string)
    (ls : list line_rec) : string :=
  (desc_text i1 d1 ll ++ "cmd: " ++ exename ++
   fold_right (fun a s => " " ++ a ++ s)%string EmptyString client_args ++
   events_fmt cs bs ++ body_text None ls ++
   "summary:" ++ counts_text (summary_counts ls) ++ nl)%string.

End spec.

(** The lines of the table with their counters, in table order. *)
Definition lines_of (T : cg_tables) : list line_rec :=
  map (fun l => (loc_of l, nth (lcc_addr l) (CC_store T) zero_counts)) (os_elems (CC_table T)).

(** ** Lemmas *)

(** Every counter is a ULong. *)
Definition counts_in_u64 (c : line_counts) : Prop := Forall (in_u 64) (printed_counts true true c).

Lemma printed_in_u64 cs bs c : counts_in_u64 c -> Forall (in_u 64) (printed_counts cs bs c).
Proof.
  unfold counts_in_u64, printed_counts, cache_counts, branch_counts. cbn [app].
  rewrite !Forall_cons. intros H. destruct cs, bs; cbn [app]; rewrite ?Forall_cons, ?Forall_nil; tauto.
Qed.

Lemma map_u64_id l : Forall (in_u 64) l -> map u64 l = l.
Proof. induction 1 as [|x l Hx _ IH]; cbn; [done|]. by rewrite IH, wrapu_small. Qed.

Lemma add_counts_printed cs bs x y :
  printed_counts cs bs (add_counts x y) =
  map u64 (zip_with Z.add (printed_counts cs bs x) (printed_counts cs bs y)).
Proof. by destruct cs, bs. Qed.

Lemma printed_length cs bs c : length (printed_counts cs bs c) = n_columns cs bs.
Proof. by destruct cs, bs. Qed.

Lemma column_sums_length n rows :
  Forall (fun r => length r = n) rows -> length (column_sums n rows) = n.
Proof.
  induction 1 as [|r rows Hr _ IH]; cbn [column_sums]; [apply length_replicate|].
  rewrite length_zip_with. lia.
Qed.

(** Wrapping the partial sums does not change the wrapped total. *)
Lemma map_u64_zip_add l1 l2 :
  map u64 (zip_with Z.add (map u64 l1) l2) = map u64 (zip_with Z.add l1 l2).
Proof.
  revert l2; induction l1 as [|x l1 IH]; intros [|y l2]; cbn; try done.
  rewrite IH. f_equal. unfold wrapu. by rewrite Zplus_mod_idemp_l.
Qed.

Lemma zip_add_assoc l1 l2 l3 :
  zip_with Z.add (zip_with Z.add l1 l2) l3 = zip_with Z.add l1 (zip_with Z.add l2 l3).
Proof.
  revert l2 l3; induction l1 as [|x l1 IH]; intros [|y l2] [|z l3]; cbn; try done.
  by rewrite IH, Z.add_assoc.
Qed.

Lemma zip_add_zero n l : length l = n -> zip_with Z.add (replicate n 0) l = l.
Proof.
  revert n; induction l as [|x l IH]; intros n <-; [done|]. cbn. by rewrite IH.
Qed.

Lemma totals_printed cs bs (rs : list line_rec) tot :
  let rows := map (fun r : line_rec => printed_counts cs bs r.2) rs in
  map u64 (printed_counts cs bs (fold_left (fun t r => add_counts t r.2) rs tot)) =
  map u64 (zip_with Z.add (printed_counts cs bs tot) (column_sums (n_columns cs bs) rows)).
Proof.
  revert tot; induction rs as [|r rs IH]; intros tot; cbn [fold_left map column_sums].
  - f_equal. rewrite <- (printed_length cs bs tot). symmetry.
    induction (printed_counts cs bs tot) as [|x l IHl]; cbn; [done|]. by rewrite IHl, Z.add_0_r.
  - rewrite IH, add_counts_printed, map_u64_zip_add. by rewrite zip_add_assoc.
Qed.

Lemma summary_counts_ok cs bs rs :
  map u64 (printed_counts cs bs (fold_left (fun t (r : line_rec) => add_counts t r.2) rs zero_counts))
  = summary_counts cs bs rs.
Proof.
  rewrite totals_printed. unfold summary_counts. f_equal.
  assert (printed_counts cs bs zero_counts = replicate (n_columns cs bs) 0) as -> by (by destruct cs, bs).
  apply zip_add_zero, column_sums_length. apply Forall_forall. intros row Hr.
  apply list_elem_of_In, in_map_iff in Hr as (r & <- & _). apply printed_length.
Qed.

Section print.
Context (cs bs xml : bool) (T : cg_tables) (HT : tables_wf T).
Context (Hu64 : Forall counts_in_u64 (CC_store T)).

Definition rec_of (l : LineCC) : line_rec := (loc_of l, nth (lcc_addr l) (CC_store T) zero_counts).

(** The pointers the loop remembers are those of the previous names. *)
Definition prev_ok (prev : option (string * string)) (st : pr_state) : Prop :=
  match prev with
  | None => currFile st = None
  | Some (f, g) =>
      exists p q, p ∈ os_elems (stringTable T) /\ q ∈ os_elems (stringTable T) /\
        currFile st = Some (ps_addr p) /\ currFn st = Some (ps_addr q) /\
        ps_chars p = f /\ ps_chars q = g
  end.

(** Comparing interned pointers is comparing the strings. *)
Lemma ptr_eq_string p q :
  p ∈ os_elems (stringTable T) -> q ∈ os_elems (stringTable T) ->
  bool_decide (Some (ps_addr p) = Some (ps_addr q)) = String.eqb (ps_chars q) (ps_chars p).
Proof.
  intros Hp Hq. pose proof (str_wf_inj _ _ _ _ (tw_str _ HT) Hp Hq) as [H1 H2].
  destruct (String.eqb_spec (ps_chars q) (ps_chars p)) as [E|E].
  - apply bool_decide_true. by rewrite H2.
  - apply bool_decide_false. intros [= H]. by apply E; symmetry; apply H1.
Qed.

Lemma new_file_ok prev st l :
  l ∈ os_elems (CC_table T) -> prev_ok prev st ->
  negb (bool_decide (Some (ps_addr (lcc_file l)) = currFile st)) = new_file prev (loc_of l).
Proof.
  intros Hl Hp. destruct (cw_in _ _ _ (tw_cc _ HT) _ Hl) as (_ & Hf & _ & _).
  destruct prev as [[f g]|]; cbn in *.
  - destruct Hp as (p & q & Hp & _ & -> & _ & <- & _). by rewrite (ptr_eq_string _ _ Hf Hp).
  - by rewrite Hp.
Qed.

Lemma new_fn_ok prev st l :
  l ∈ os_elems (CC_table T) -> prev_ok prev st ->
  new_file prev (loc_of l) || negb (bool_decide (Some (ps_addr (lcc_fn l)) = currFn st)) =
  new_fn prev (loc_of l).
Proof.
  intros Hl Hp. destruct (cw_in _ _ _ (tw_cc _ HT) _ Hl) as (_ & _ & Hf & _). unfold new_fn.
  destruct prev as [[f g]|]; cbn in *; [|done]. f_equal.
  destruct Hp as (p & q & _ & Hq & _ & -> & _ & <-). by rewrite (ptr_eq_string _ _ Hf Hq).
Qed.

(** One round of the loop. *)
Lemma print_line_ok prev st l :
  l ∈ os_elems (CC_table T) -> prev_ok prev st ->
  exists st', print_line cs bs xml (CC_store T) l st = Ok st' /\
    prev_ok (Some (loc_file (loc_of l), loc_fn (loc_of l))) st' /\
    vf_contents (pr_fp st') =
      (vf_contents (pr_fp st) ++ file_text (new_file prev (loc_of l)) (loc_of l) ++
       func_text (new_fn prev (loc_of l)) (loc_of l) ++ counters_text cs bs (rec_of l))%string /\
    tot_counts (pr_tot st') = add_counts (tot_counts (pr_tot st)) (rec_of l).2 /\
    distinct_files (pr_tot st') =
      (if new_file prev (loc_of l) then s32 (distinct_files (pr_tot st) + 1)
       else distinct_files (pr_tot st)) /\
    distinct_fns (pr_tot st') =
      (if new_fn prev (loc_of l) then s32 (distinct_fns (pr_tot st) + 1)
       else distinct_fns (pr_tot st)) /\
    distinct_lines (pr_tot st') = s32 (distinct_lines (pr_tot st) + 1).
Proof.
  intros Hl Hp. unfold print_line.
  destruct (cw_in _ _ _ (tw_cc _ HT) _ Hl) as (Hlt & Hf & Hg & Hline).
  destruct (lookup_lt_is_Some_2 _ _ Hlt) as [c Hc]. rewrite Hc.
  assert (rec_of l = (loc_of l, c)) as Hrec
    by (unfold rec_of; by rewrite (nth_lookup_Some _ _ _ _ Hc)).
  assert (counts_in_u64 c) as Hcu by (by eapply Forall_lookup_1 in Hc).
  rewrite (new_file_ok prev st l Hl Hp), (new_fn_ok prev st l Hl Hp).
  set (b1 := new_file prev (loc_of l)). set (b2 := new_fn prev (loc_of l)).
  assert (exists fp1, (if b1 then let! fp := VG_fprintf xml (pr_fp st) fl_fmt
      [VA_Str (Some (ps_chars (lcc_file l)))] in Ok (fp, s32 (distinct_files (pr_tot st) + 1))
    else Ok (pr_fp st, distinct_files (pr_tot st))) = Ok (fp1,
      if b1 then s32 (distinct_files (pr_tot st) + 1) else distinct_files (pr_tot st)) /\
    vf_contents fp1 = (vf_contents (pr_fp st) ++ file_text b1 (loc_of l))%string)
    as (fp1 & -> & H1).
  { destruct b1; cbn [file_text]; [|exists (pr_fp st); by rewrite str_app_nil_r].
    destruct (fprintf_text xml (pr_fp st) _ _ _ (fl_text xml (ps_chars (lcc_file l))))
      as (fp1 & -> & H1). by exists fp1. }
  cbn [rbind].
  assert (exists fp2, (if b2 then let! fp := VG_fprintf xml fp1 fn_fmt
      [VA_Str (Some (ps_chars (lcc_fn l)))] in Ok (fp, s32 (distinct_fns (pr_tot st) + 1))
    else Ok (fp1, distinct_fns (pr_tot st))) = Ok (fp2,
      if b2 then s32 (distinct_fns (pr_tot st) + 1) else distinct_fns (pr_tot st)) /\
    vf_contents fp2 = (vf_contents fp1 ++ func_text b2 (loc_of l))%string) as (fp2 & -> & H2).
  { destruct b2; cbn [func_text]; [|exists fp1; by rewrite str_app_nil_r].
    destruct (fprintf_text xml fp1 _ _ _ (fn_text xml (ps_chars (lcc_fn l)))) as (fp2 & -> & H2).
    by exists fp2. }
  cbn [rbind].
  destruct (fprintf_text xml fp2 _ _ _ (line_text xml cs bs (lcc_line l) c)) as (fp3 & -> & H3).
  cbn [rbind]. eexists. split; [done|]. rewrite Hrec. cbn [snd fst pr_fp pr_tot tot_counts
    distinct_files distinct_fns distinct_lines]. split; [|split; [|done]].
  - exists (lcc_file l), (lcc_fn l). by split_and!.
  - rewrite H3, H2, H1. unfold counters_text. cbn [fst snd loc_of loc_line].
    rewrite (wraps_small 32) by (unfold in_s; lia).
    rewrite map_u64_id by (by apply printed_in_u64). by rewrite !str_app_assoc.
Qed.

(** Room for the statistics to count [n] more lines. *)
Definition stats_room (tot : totals) (n : nat) : Prop :=
  Forall (fun d => 0 <= d /\ d + Z.of_nat n < 2 ^ 31)
    [distinct_files tot; distinct_fns tot; distinct_lines tot].

Lemma stats_room_step d n (b : bool) :
  0 <= d /\ d + Z.of_nat (S n) < 2 ^ 31 ->
  (if b then s32 (d + 1) else d) = d + Z.b2z b /\ 0 <= d + Z.b2z b /\ d + Z.b2z b + Z.of_nat n < 2 ^ 31.
Proof. intros H. destruct b; cbn [Z.b2z]; rewrite ?wraps_small by (unfold in_s; lia); lia. Qed.

(** The whole loop, on what the iterator has still to produce. *)
Lemma print_lines_ok ls : forall fuel t st prev,
  os_wf t -> os_pending t = ls -> Forall (.∈ os_elems (CC_table T)) ls -> (length ls < fuel)%nat ->
  prev_ok prev st -> stats_room (pr_tot st) (length ls) ->
  exists t' st', print_lines cs bs xml fuel t (CC_store T) st = Ok (t', st') /\
    os_wf t' /\ os_elems t' = os_elems t /\
    vf_contents (pr_fp st') =
      (vf_contents (pr_fp st) ++ body_text cs bs prev (map rec_of ls))%string /\
    tot_counts (pr_tot st') =
      fold_left (fun x (r : line_rec) => add_counts x r.2) (map rec_of ls) (tot_counts (pr_tot st)) /\
    distinct_files (pr_tot st') = distinct_files (pr_tot st) + file_heads prev (map rec_of ls) /\
    distinct_fns (pr_tot st') = distinct_fns (pr_tot st) + fn_heads prev (map rec_of ls) /\
    distinct_lines (pr_tot st') = distinct_lines (pr_tot st) + Z.of_nat (length ls).
Proof.
  induction ls as [|l ls IH]; intros fuel t st prev Hwf Hpend Hin Hfuel Hprev Hroom;
    (destruct fuel as [|fuel]; [simpl in Hfuel; lia|]); cbn [print_lines];
    destruct (os_next_ok t Hwf) as (t1 & -> & Hwf1 & Hel1 & Hpend1); cbn [rbind];
    rewrite Hpend in *; cbn [head tail] in *.
  { exists t1, st. cbn. rewrite str_app_nil_r. split_and!; try done; lia. }
  apply Forall_cons in Hin as [Hl Hin].
  destruct (print_line_ok prev st l Hl Hprev) as (st1 & -> & Hp1 & Hc1 & Ht1 & Hf1 & Hn1 & Hd1).
  cbn [rbind].
  unfold stats_room in Hroom. rewrite !Forall_cons in Hroom. destruct Hroom as (R1 & R2 & R3 & _).
  cbn [length] in R1, R2, R3.
  destruct (stats_room_step _ _ (new_file prev (loc_of l)) R1) as (E1 & ? & ?).
  destruct (stats_room_step _ _ (new_fn prev (loc_of l)) R2) as (E2 & ? & ?).
  destruct (stats_room_step _ _ true R3) as (E3 & ? & ?). cbn [Z.b2z] in *.
  rewrite E1 in Hf1. rewrite E2 in Hn1. rewrite E3 in Hd1.
  destruct (IH fuel t1 st1 _ Hwf1 Hpend1 Hin ltac:(simpl in Hfuel; lia) Hp1)
    as (t' & st' & -> & Hw' & He' & Hc' & Ht' & Hf' & Hn' & Hd').
  { unfold stats_room. rewrite !Forall_cons, Hf1, Hn1, Hd1. split_and!; try done; lia. }
  exists t', st'. split; [done|]. split; [done|]. split; [congruence|].
  cbn [map body_text file_heads fn_heads fold_left length].
  change (rec_of l).1 with (loc_of l) in *.
  split; [|split; [congruence|split_and!; lia]].
  rewrite Hc', Hc1. by rewrite !str_app_assoc.
Qed.

Lemma print_cmd_ok fp exename client_args :
  exists fp', print_cmd xml fp exename client_args = Ok fp' /\
    vf_contents fp' = (vf_contents fp ++ "cmd: " ++ exename ++
      fold_right (fun a s => " " ++ a ++ s)%string EmptyString client_args)%string.
Proof.
  unfold print_cmd. destruct (fprintf_text xml fp _ _ _ (cmd_text xml exename)) as (fp1 & -> & H1).
  cbn [rbind]. assert (forall fp1, exists fp2,
    res_fold (fun arg fp => VG_fprintf xml fp " %s" [VA_Str (Some arg)]) client_args fp1 = Ok fp2 /\
    vf_contents fp2 = (vf_contents fp1 ++
      fold_right (fun a s => " " ++ a ++ s)%string EmptyString client_args)%string) as Hargs.
  { clear. induction client_args as [|a l IH]; intros fp1.
    { exists fp1. cbn. by rewrite str_app_nil_r. }
    cbn [res_fold fold_right].
    destruct (fprintf_text xml fp1 _ _ _ (arg_text xml a)) as (fp2 & -> & H2). cbn [rbind].
    destruct (IH fp2) as (fp3 & -> & H3). exists fp3. split; [done|].
    rewrite H3, H2. by rewrite !str_app_assoc. }
  destruct (Hargs fp1) as (fp2 & -> & H2). exists fp2. split; [done|].
  rewrite H2, H1. by rewrite !str_app_assoc.
Qed.

Lemma fprint_ok c exename client_args :
  Z.of_nat (length (CC_store T)) <= ITER_MAX ->
  exists T' tot, fprint_CC_table_and_calc_totals cs bs xml true c exename client_args T zero_totals
    = Ok (T', tot, Some (file_contents cs bs (desc_line (I1 c)) (desc_line (D1 c))
            (desc_line (LL c)) exename client_args (lines_of T))) /\
    tables_wf T' /\ lines_of T' = lines_of T /\
    tot_counts tot = fold_left (fun x (r : line_rec) => add_counts x r.2) (lines_of T) zero_counts /\
    distinct_files tot = file_heads None (lines_of T) /\
    distinct_fns tot = fn_heads None (lines_of T) /\
    distinct_lines tot = Z.of_nat (length (lines_of T)) /\
    exists t, T' = set_CC T t (CC_store T).
Proof.
  intros Hmax. unfold fprint_CC_table_and_calc_totals. cbn [negb].
  destruct (fprintf_text xml VG_fopen _ _ _ (desc_text_ok xml (desc_line (I1 c)) (desc_line (D1 c))
    (desc_line (LL c)))) as (fp1 & -> & H1). cbn [rbind].
  destruct (print_cmd_ok fp1 exename client_args) as (fp2 & -> & H2). cbn [rbind].
  destruct (fprintf_text xml fp2 _ _ _ (events_text xml cs bs)) as (fp3 & -> & H3). cbn [rbind].
  pose proof (tw_cc _ HT) as Hcc.
  destruct (os_reset_iter_ok (CC_table T)) as (t0 & -> & Hw0 & He0 & Hp0);
    [apply Hcc|rewrite (cw_len _ _ _ Hcc); lia|]. cbn [rbind].
  destruct (print_lines_ok (os_elems (CC_table T)) (S (length (CC_store T))) t0
    (MkPr fp3 None None zero_totals) None Hw0 Hp0) as (t & st & -> & Hw & He & Hc & Ht & Hf & Hn & Hd).
  { apply Forall_forall. auto. }
  { rewrite (cw_len _ _ _ Hcc). lia. }
  { done. }
  { unfold stats_room. rewrite !Forall_cons, (cw_len _ _ _ Hcc). cbn. unfold ITER_MAX in Hmax.
    split_and!; try done; lia. }
  cbn [rbind].
  destruct (fprintf_text xml (pr_fp st) _ _ _ (summary_text xml cs bs (tot_counts (pr_tot st))))
    as (fp4 & -> & H4). cbn [rbind].
  assert (map rec_of (os_elems (CC_table T)) = lines_of T) as Hlines by done.
  rewrite Hlines in *. cbn [pr_fp pr_tot tot_counts distinct_files distinct_fns distinct_lines
    zero_totals] in *.
  eexists _, _. split.
  { do 2 f_equal. f_equal. rewrite VG_fclose_contents, H4, Hc, H3, H2, H1, Ht.
    rewrite summary_counts_ok. unfold file_contents. change (vf_contents VG_fopen) with EmptyString.
    rewrite !str_app_assoc. done. }
  split; [|split; [|split_and!; try done; [unfold lines_of; rewrite length_map; lia|eauto]]].
  - destruct HT as [Hs Hc' Hb]. split; cbn; [done| |done].
    destruct Hc' as [? ? ? ?]. split; [done|congruence|congruence|].
    intros l Hl. rewrite He, He0 in Hl. auto.
  - unfold lines_of. cbn. by rewrite He, He0.
Qed.

End print.

(** ** One heading per name *)

Section heads.
Context {A : Type} `{!EqDecision A}.

(** How often a key differs from its predecessor. *)
Fixpoint changes (prev : option A) (ks : list A) : Z :=
  match ks with
  | [] => 0
  | k :: ks' => Z.b2z (negb (bool_decide (prev = Some k))) + changes (Some k) ks'
  end.

(** In a list sorted by an order, equal keys are adjacent: the changes count
    the distinct keys. *)
Lemma changes_distinct (R : A -> A -> Prop) ks :
  (forall a b, a ∈ ks -> b ∈ ks -> R a b -> R b a -> a = b) -> StronglySorted R ks ->
  changes None ks = Z.of_nat (length (remove_dups ks)).
Proof.
  intros Hanti Hs. induction Hs as [|k ks Hs IH Hk]; [done|].
  assert (changes None ks = Z.of_nat (length (remove_dups ks))) as IH'
    by (apply IH; intros; apply Hanti; by try right).
  cbn [changes]. rewrite bool_decide_false by done. cbn [negb Z.b2z remove_dups].
  assert (changes (Some k) ks = changes None ks - Z.b2z (bool_decide (k ∈ ks))) as ->.
  { destruct ks as [|k' ks']; cbn [changes]; [by rewrite bool_decide_false by set_solver|].
    rewrite (bool_decide_false (None = Some k')) by done. cbn [negb Z.b2z].
    destruct (decide (k = k')) as [->|Hne].
    - rewrite !bool_decide_true by (done || set_solver). cbn. lia.
    - rewrite (bool_decide_false (Some k = Some k')) by congruence. cbn [negb Z.b2z].
      rewrite bool_decide_false; [cbn; lia|]. intros [->|Hin]%elem_of_cons; [done|].
      apply Hne. apply Hanti; [by left|right; by left|by apply Forall_cons in Hk as [? _]|].
      apply StronglySorted_inv in Hs as [_ Hs]. by eapply Forall_forall in Hs. }
  destruct (decide_rel (∈) k ks) as [Hin|Hin];
    [rewrite bool_decide_true by done|rewrite bool_decide_false by done]; cbn [Z.b2z length]; lia.
Qed.
End heads.

Definition loc_names (loc : CodeLoc) : string * string := (loc_file loc, loc_fn loc).

Lemma fn_heads_changes prev (ls : list line_rec) :
  fn_heads prev ls = changes prev (map (fun r : line_rec => loc_names r.1) ls).
Proof.
  revert prev; induction ls as [|r ls IH]; intros prev; cbn [fn_heads map changes]; [done|].
  unfold loc_names at 3. rewrite IH. do 3 f_equal. unfold new_fn, new_file, loc_names.
  destruct prev as [[f g]|]; [|done].
  destruct (String.eqb_spec f (loc_file r.1)) as [->|Hf]; cbn [negb orb].
  - destruct (String.eqb_spec g (loc_fn r.1)) as [->|Hg]; [by rewrite bool_decide_true|].
    rewrite bool_decide_false by congruence. done.
  - rewrite bool_decide_false by congruence. done.
Qed.

Lemma file_heads_changes prev (ls : list line_rec) :
  file_heads prev ls = changes (fst <$> prev) (map (fun r : line_rec => loc_file r.1) ls).
Proof.
  revert prev; induction ls as [|r ls IH]; intros prev; cbn [file_heads map changes]; [done|].
  rewrite IH. do 3 f_equal. unfold new_file. destruct prev as [[f g]|]; [|done]. cbn.
  destruct (String.eqb_spec f (loc_file r.1)) as [->|Hf];
    [by rewrite bool_decide_true|by rewrite bool_decide_false by congruence].
Qed.

(** The order of the table on file names, and on file and function. *)
Definition file_le (f g : string) : Prop := VG_strcmp f g <= 0.
Definition names_le (p q : string * string) : Prop :=
  VG_strcmp p.1 q.1 < 0 \/ VG_strcmp p.1 q.1 = 0 /\ VG_strcmp p.2 q.2 <= 0.

Lemma loc_lt_names a b :
  cmp_CodeLoc_LineCC a b < 0 -> file_le (loc_file a) (loc_file b) /\ names_le (loc_names a) (loc_names b).
Proof.
  unfold cmp_CodeLoc_LineCC, file_le, names_le, loc_names. cbn [fst snd].
  destruct (Z.eqb_spec (VG_strcmp (loc_file a) (loc_file b)) 0); cbn [negb]; [|lia].
  destruct (Z.eqb_spec (VG_strcmp (loc_fn a) (loc_fn b)) 0); cbn [negb]; lia.
Qed.

Lemma sorted_map {A B} (R : A -> A -> Prop) (S : B -> B -> Prop) (f : A -> B) l :
  (forall x y, R x y -> S (f x) (f y)) -> StronglySorted R l -> StronglySorted S (map f l).
Proof.
  intros HRS. induction 1 as [|x l Hs IH Hx]; cbn; constructor; [done|].
  apply Forall_fmap. eapply Forall_impl; [exact Hx|]. intros y. apply HRS.
Qed.

Lemma heads_distinct T :
  tables_wf T ->
  file_heads None (lines_of T) =
    Z.of_nat (length (remove_dups (map (fun r : line_rec => loc_file r.1) (lines_of T)))) /\
  fn_heads None (lines_of T) =
    Z.of_nat (length (remove_dups (map (fun r : line_rec => loc_names r.1) (lines_of T)))).
Proof.
  intros HT. pose proof (tw_cc _ HT) as Hcc. pose proof (tw_str _ HT) as Hstr.
  pose proof (os_ordered _ (cw_wf _ _ _ Hcc)) as Hord. unfold ordered in Hord.
  assert (forall r, r ∈ lines_of T -> loc_ok r.1) as Hok.
  { intros r Hr. unfold lines_of in Hr. apply list_elem_of_In, in_map_iff in Hr as (l & <- & Hl).
    apply list_elem_of_In in Hl. cbn. by eapply cc_wf_loc_ok. }
  rewrite file_heads_changes, fn_heads_changes. cbn [fmap option_fmap option_map].
  split; [apply (changes_distinct file_le)|apply (changes_distinct names_le)].
  - intros a b Ha Hb H1 H2. apply list_elem_of_In, in_map_iff in Ha as (ra & <- & Ha), Hb as (rb & <- & Hb).
    apply list_elem_of_In in Ha, Hb. unfold file_le in *.
    rewrite (VG_strcmp_antisym (loc_file ra.1)) in H2. apply VG_strcmp_eq; [by apply Hok..|lia].
  - unfold lines_of. rewrite map_map. eapply sorted_map; [|exact Hord].
    intros x y Hxy. by apply loc_lt_names in Hxy as [? _].
  - intros a b Ha Hb H1 H2. apply list_elem_of_In, in_map_iff in Ha as (ra & <- & Ha), Hb as (rb & <- & Hb).
    apply list_elem_of_In in Ha, Hb. unfold names_le, loc_names in *. cbn [fst snd] in *.
    rewrite (VG_strcmp_antisym (loc_file ra.1)), (VG_strcmp_antisym (loc_fn ra.1)) in H2.
    destruct (Hok ra Ha) as (? & ? & _), (Hok rb Hb) as (? & ? & _).
    f_equal; apply VG_strcmp_eq; done || lia.
  - unfold lines_of. rewrite map_map. eapply sorted_map; [|exact Hord].
    intros x y Hxy. by apply loc_lt_names in Hxy as [_ ?].
Qed.

(** ** Theorems *)

(** C6. The output file.  With well-formed tables whose counters are ULongs and
    at most 9,227,463 lines, [fprint_CC_table_and_calc_totals] returns, and the
    file holds the header, then every source line exactly once with its
    counters, in the order of file name, function name and line number, under
    one "fl=" heading per run of equal file names and one "fn=" heading per run
    of equal functions, then the sum of each column modulo 2^64.  In particular
    comparing the interned pointers has the effect of comparing the names. *)
Theorem output_file_correct (cs bs xml : bool) (T : cg_tables) (c : caches3) (exename : string)
    (client_args : list string) :
  tables_wf T -> Forall counts_in_u64 (CC_store T) ->
  Z.of_nat (length (CC_store T)) <= ITER_MAX ->
  exists T' tot,
    fprint_CC_table_and_calc_totals cs bs xml true c exename client_args T zero_totals
      = Ok (T', tot, Some (file_contents cs bs (desc_line (I1 c)) (desc_line (D1 c))
                             (desc_line (LL c)) exename client_args (lines_of T))) /\
    tables_wf T' /\ lines_of T' = lines_of T.
Proof.
  intros HT Hu Hmax. destruct (fprint_ok cs bs xml T HT Hu c exename client_args Hmax)
    as (T' & tot & H1 & H2 & H3 & _). by exists T', tot.
Qed.

(** The statistics count names, not changes: because the table is sorted
    by file, function and line, [distinct_files] is the number of different
    file names, [distinct_fns] the number of different pairs of file and
    function name, and [distinct_lines] the number of lines. *)
Theorem output_statistics_correct (cs bs xml : bool) (T T' : cg_tables) (c : caches3)
    (exename : string) (client_args : list string) (tot : totals) (file : option string) :
  tables_wf T -> Forall counts_in_u64 (CC_store T) ->
  Z.of_nat (length (CC_store T)) <= ITER_MAX ->
  fprint_CC_table_and_calc_totals cs bs xml true c exename client_args T zero_totals
    = Ok (T', tot, file) ->
  distinct_files tot =
    Z.of_nat (length (remove_dups (map (fun r : line_rec => loc_file r.1) (lines_of T)))) /\
  distinct_fns tot =
    Z.of_nat (length (remove_dups (map (fun r : line_rec => loc_names r.1) (lines_of T)))) /\
  distinct_lines tot = Z.of_nat (length (CC_store T)).
Proof.
  intros HT Hu Hmax H. destruct (fprint_ok cs bs xml T HT Hu c exename client_args Hmax)
    as (T1 & tot1 & H1 & _ & _ & _ & Hf & Hn & Hd & _). rewrite H in H1. injection H1 as -> -> ->.
  destruct (heads_distinct T HT) as [E1 E2]. split_and!; [congruence|congruence|].
  rewrite Hd. unfold lines_of. by rewrite length_map, (cw_len _ _ _ (tw_cc _ HT)).
Qed.

(** ** Concrete instances *)

(** Two lines, at the two addresses of the demonstration debug information. *)
Definition two_lines : cg_tables :=
  match (let! (T, _) := get_lineCC demo_debug_info empty_tables 4096 in
         let! (T, _) := get_lineCC demo_debug_info T 8192 in Ok T) with
  | Ok T => T
  | Err _ => empty_tables
  end.

Lemma two_lines_wf : tables_wf two_lines.
Proof.
  unfold two_lines.
  destruct (get_lineCC_ok demo_debug_info empty_tables 4096 demo_debug_info_ok empty_tables_wf
    empty_tables_room) as (T1 & l1 & E1 & H1 & F1).
  destruct (get_lineCC_ok demo_debug_info T1 8192 demo_debug_info_ok H1) as (T2 & l2 & E2 & H2 & _).
  { pose proof (lf_str _ _ _ _ _ F1) as Hs. pose proof (lf_sb _ _ _ _ _ F1) as (Hi & _ & _).
    destruct empty_tables_room as (R1 & R2 & R3). unfold tables_room. rewrite Hi.
    change (str_next empty_tables) with 0%nat in Hs.
    split_and!; [lia| |exact R3].
    destruct (lf_store _ _ _ _ _ F1) as [[_ ->]|(_ & -> & _)]; [exact R2|rewrite length_app; simpl; lia]. }
  rewrite E1. cbn [rbind]. rewrite E2. exact H2.
Qed.

Lemma two_lines_u64 : Forall counts_in_u64 (CC_store two_lines).
Proof.
  assert (CC_store two_lines = [zero_counts; zero_counts]) as -> by (vm_compute; reflexivity).
  assert (in_u 64 0) by (unfold in_u; lia). repeat (constructor || done).
Qed.

Lemma output_file_correct_witness :
  exists T' tot, fprint_CC_table_and_calc_totals true false false true demo_caches "prog" ["-x"%string]
      two_lines zero_totals =
    Ok (T', tot, Some (file_contents true false (desc_line (I1 demo_caches))
      (desc_line (D1 demo_caches)) (desc_line (LL demo_caches)) "prog" ["-x"%string] (lines_of two_lines))) /\
    tables_wf T' /\ lines_of T' = lines_of two_lines.
Proof.
  apply (output_file_correct true false false two_lines demo_caches "prog" ["-x"%string]);
    [apply two_lines_wf|apply two_lines_u64|by apply Z.leb_le; vm_compute].
Defined.

Lemma output_statistics_correct_witness :
  exists T' tot file, fprint_CC_table_and_calc_totals true true false true demo_caches "prog" []
      two_lines zero_totals = Ok (T', tot, file) /\ distinct_files tot = 1 /\ distinct_lines tot = 2.
Proof.
  destruct (fprint_ok true true false two_lines two_lines_wf two_lines_u64 demo_caches "prog" [])
    as (T' & tot & H & _); [by apply Z.leb_le; vm_compute|].
  eexists T', tot, _. split; [exact H|].
  destruct (output_statistics_correct true true false two_lines T' demo_caches "prog" [] tot _
    two_lines_wf two_lines_u64 ltac:(by apply Z.leb_le; vm_compute) H) as (H1 & _ & H3).
  split; [rewrite H1|rewrite H3]; vm_compute; reflexivity.
Defined.
