(* ===== verification/CgFini.v ===== *)
(** * CgFini: the end of a run (cachegrind/cg_main.c, cg_fini)

    When the client exits, the profiler writes its output file and then the
    summary of the run to the log: references, misses and miss rates of each
    cache, branches and mispredictions, and statistics about itself.  The
    columns are sized at run time by formats that are themselves printed. *)

From Stdlib Require Import ZArith Lia Ascii String.
From stdpp Require Import base numbers option strings gmap list.
From S2P Require Import Prelude Libcbase Ieee Debuglog Vprintf Libcprint Vmessage CgSim OSet CgTables CgOutput.

#[local] Open Scope Z_scope.

(** ** Widths and percentages *)

Definition ULong_width (n : Z) : Z :=
  let w := digits_loop int64_fuel 10 n 0 in
  let w := if w =? 0 then 1 else w in
  w + (w - 1) / 3.

Definition CG_MAX (a b : Z) : Z := if a >=? b then a else b.

(** [m * 100.0 / a] as an argument.  Division by zero gives an infinity, whose
    fraction is [(1, 0)], or, of zero, a NaN, which the conversions of [%f]
    leave undefined. *)
Definition rate (m a : Z) : res va :=
  if a =? 0 then if m =? 0 then Err BadConversion else Ok (VA_Dbl false (1, 0))
  else Ok (VA_Dbl false (double_div (double_mul (double_of_ulong m) (100, 1)) (double_of_ulong a))).

(** [static HChar fmt[128]]. *)
Definition FMT_SIZE : Z := 128.

Definition sprintf_fmt (clo_xml : bool) (format : string) (args : list va) : res string :=
  let! (s, _) := VG_vsprintf clo_xml format args in
  if str_len s <? FMT_SIZE then Ok s else Err OutOfBounds.

(** ** Formats *)

Definition one_fmt : string := Eval cbv in ("%%s %%,%dllu" ++ nl)%string.
Definition rdwr_fmt : string := Eval cbv in ("%%s %%,%dllu  (%%,%dllu rd   + %%,%dllu wr)" ++ nl)%string.
Definition condind_fmt : string := Eval cbv in
  ("%%s %%,%dllu  (%%,%dllu cond + %%,%dllu ind)" ++ nl)%string.
Definition I1_rate_fmt : string := Eval cbv in ("I1  miss rate: %*.2f%%" ++ nl)%string.
Definition LLi_rate_fmt : string := Eval cbv in ("LLi miss rate: %*.2f%%" ++ nl)%string.
Definition D1_rate_fmt : string := Eval cbv in
  ("D1  miss rate: %*.1f%% (%*.1f%%     + %*.1f%%  )" ++ nl)%string.
Definition LLd_rate_fmt : string := Eval cbv in
  ("LLd miss rate: %*.1f%% (%*.1f%%     + %*.1f%%  )" ++ nl)%string.
Definition LL_rate_fmt : string := Eval cbv in
  ("LL miss rate:  %*.1f%% (%*.1f%%     + %*.1f%%  )" ++ nl)%string.
Definition mispred_fmt : string := Eval cbv in
  ("Mispred rate:  %*.1f%% (%*.1f%%     + %*.1f%%   )" ++ nl)%string.

(** [if (0 == x) x = 1;]. *)
Definition at_least_1 (x : Z) : Z := if 0 =? x then 1 else x.
Definition set_cc_a (c : CacheCC) : CacheCC := MkCacheCC (at_least_1 (cc_a c)) (cc_m1 c) (cc_mL c).
Definition set_bc_b (c : BranchCC) : BranchCC := MkBranchCC (at_least_1 (bc_b c)) (bc_mp c).

Definition label (s : string) : va := VA_Str (Some s).

Section fini.
Context (clo_xml : bool) (depth : Z) (no_inner_prefix clo_time_stamp : bool) (pid : Z) (timer : nat -> Z).

#[local] Notation umsg := (VG_umsg clo_xml depth no_inner_prefix clo_time_stamp pid timer).
#[local] Notation dmsg := (VG_dmsg clo_xml depth no_inner_prefix clo_time_stamp pid timer).

(** The instruction cache, if caches are simulated; the reset of a zero total. *)
Definition report_I (fmt : string) (l1 : Z) (t : line_counts) (b : vmessage_buf_t)
  : res (vmessage_buf_t * line_counts) :=
  let! b := umsg fmt [label "I1  misses:   "; VA_Long (cc_m1 (Ir t))] b in
  let! b := umsg fmt [label "LLi misses:   "; VA_Long (cc_mL (Ir t))] b in
  let t := MkCounts (set_cc_a (Ir t)) (Dr t) (Dw t) (Bc t) (Bi t) in
  let! r := rate (cc_m1 (Ir t)) (cc_a (Ir t)) in
  let! b := umsg I1_rate_fmt [VA_Int l1; r] b in
  let! r := rate (cc_mL (Ir t)) (cc_a (Ir t)) in
  let! b := umsg LLi_rate_fmt [VA_Int l1; r] b in
  let! b := umsg nl [] b in
  Ok (b, t).

(** A line of three rates. *)
Definition umsg_rates (fmt : string) (l1 m1 a1 l2 m2 a2 l3 m3 a3 : Z) (b : vmessage_buf_t)
  : res vmessage_buf_t :=
  let! r1 := rate m1 a1 in
  let! r2 := rate m2 a2 in
  let! r3 := rate m3 a3 in
  umsg fmt [VA_Int l1; r1; VA_Int l2; r2; VA_Int l3; r3] b.

(** The data cache; returns [D_total] too. *)
Definition report_D (fmt : string) (l1 l2 l3 : Z) (t : line_counts) (b : vmessage_buf_t)
  : res (vmessage_buf_t * line_counts * CacheCC) :=
  let D := add_CacheCC (Dr t) (Dw t) in
  let! b := umsg fmt [label "D   refs:     "; VA_Long (cc_a D); VA_Long (cc_a (Dr t)); VA_Long (cc_a (Dw t))] b in
  let! b := umsg fmt [label "D1  misses:   "; VA_Long (cc_m1 D); VA_Long (cc_m1 (Dr t)); VA_Long (cc_m1 (Dw t))] b in
  let! b := umsg fmt [label "LLd misses:   "; VA_Long (cc_mL D); VA_Long (cc_mL (Dr t)); VA_Long (cc_mL (Dw t))] b in
  let D := set_cc_a D in
  let t := MkCounts (Ir t) (set_cc_a (Dr t)) (set_cc_a (Dw t)) (Bc t) (Bi t) in
  let! b := umsg_rates D1_rate_fmt l1 (cc_m1 D) (cc_a D) l2 (cc_m1 (Dr t)) (cc_a (Dr t))
              l3 (cc_m1 (Dw t)) (cc_a (Dw t)) b in
  let! b := umsg_rates LLd_rate_fmt l1 (cc_mL D) (cc_a D) l2 (cc_mL (Dr t)) (cc_a (Dr t))
              l3 (cc_mL (Dw t)) (cc_a (Dw t)) b in
  let! b := umsg nl [] b in
  Ok (b, t, D).

(** The last-level cache. *)
Definition report_LL (fmt : string) (l1 l2 l3 : Z) (t : line_counts) (D : CacheCC) (b : vmessage_buf_t)
  : res vmessage_buf_t :=
  let LL_total := u64 (u64 (cc_m1 (Dr t) + cc_m1 (Dw t)) + cc_m1 (Ir t)) in
  let LL_total_r := u64 (cc_m1 (Dr t) + cc_m1 (Ir t)) in
  let LL_total_w := cc_m1 (Dw t) in
  let! b := umsg fmt [label "LL refs:      "; VA_Long LL_total; VA_Long LL_total_r; VA_Long LL_total_w] b in
  let LL_total_m := u64 (u64 (cc_mL (Dr t) + cc_mL (Dw t)) + cc_mL (Ir t)) in
  let LL_total_mr := u64 (cc_mL (Dr t) + cc_mL (Ir t)) in
  let LL_total_mw := cc_mL (Dw t) in
  let! b := umsg fmt [label "LL misses:    "; VA_Long LL_total_m; VA_Long LL_total_mr; VA_Long LL_total_mw] b in
  umsg_rates LL_rate_fmt l1 LL_total_m (u64 (cc_a (Ir t) + cc_a D))
    l2 LL_total_mr (u64 (cc_a (Ir t) + cc_a (Dr t))) l3 LL_total_mw (cc_a (Dw t)) b.

(** The branch predictors. *)
Definition report_B (fmt : string) (l1 l2 l3 : Z) (t : line_counts) (b : vmessage_buf_t)
  : res (vmessage_buf_t * line_counts) :=
  let t := MkCounts (Ir t) (Dr t) (Dw t) (set_bc_b (Bc t)) (set_bc_b (Bi t)) in
  let B := add_BranchCC (Bc t) (Bi t) in
  let! b := umsg nl [] b in
  let! b := umsg fmt [label "Branches:     "; VA_Long (bc_b B); VA_Long (bc_b (Bc t)); VA_Long (bc_b (Bi t))] b in
  let! b := umsg fmt [label "Mispredicts:  "; VA_Long (bc_mp B); VA_Long (bc_mp (Bc t)); VA_Long (bc_mp (Bi t))] b in
  let! b := umsg_rates mispred_fmt l1 (bc_mp B) (bc_b B) l2 (bc_mp (Bc t)) (bc_b (Bc t))
              l3 (bc_mp (Bi t)) (bc_b (Bi t)) b in
  Ok (b, t).

(** The summary, from the first width to the branches. *)
Definition report (clo_cache_sim clo_branch_sim : bool) (t : line_counts) (b : vmessage_buf_t)
  : res (vmessage_buf_t * line_counts) :=
  let l1 := ULong_width (cc_a (Ir t)) in
  let l2 := ULong_width (CG_MAX (cc_a (Dr t)) (bc_b (Bc t))) in
  let l3 := ULong_width (CG_MAX (cc_a (Dw t)) (bc_b (Bi t))) in
  let! fmt := sprintf_fmt clo_xml one_fmt [VA_Int l1] in
  let! b := umsg fmt [label "I   refs:     "; VA_Long (cc_a (Ir t))] b in
  let! (b, t) :=
    (if clo_cache_sim then
       let! (b, t) := report_I fmt l1 t b in
       let! fmt := sprintf_fmt clo_xml rdwr_fmt [VA_Int l1; VA_Int l2; VA_Int l3] in
       let! (b, t, D) := report_D fmt l1 l2 l3 t b in
       let! b := report_LL fmt l1 l2 l3 t D b in
       Ok (b, t)
     else Ok (b, t)) in
  if clo_branch_sim then
    let! fmt := sprintf_fmt clo_xml condind_fmt [VA_Int l1; VA_Int l2; VA_Int l3] in
    report_B fmt l1 l2 l3 t b
  else Ok (b, t).

(** A line of the debug statistics: the share of lookups and their number. *)
Definition dmsg_share (fmt : string) (n debug_lookups : Z) (b : vmessage_buf_t) : res vmessage_buf_t :=
  let! r := rate n debug_lookups in
  dmsg fmt [r; VA_Int n] b.

(** The statistics about the profiler itself ([--stats=yes]).  The number of
    instructions instrumented by each path is counted by the instrumenter. *)
Definition report_stats (tot : totals) (T : cg_tables) (distinct_instrsNoX distinct_instrsGen : Z)
    (b : vmessage_buf_t) : res vmessage_buf_t :=
  let s := stats T in
  let debug_lookups := s32 (full_debugs s + fn_debugs s + file_line_debugs s + no_debugs s) in
  let! b := dmsg nl [] b in
  let! b := dmsg ("cachegrind: distinct files     : %d" ++ nl)%string [VA_Int (distinct_files tot)] b in
  let! b := dmsg ("cachegrind: distinct functions : %d" ++ nl)%string [VA_Int (distinct_fns tot)] b in
  let! b := dmsg ("cachegrind: distinct lines     : %d" ++ nl)%string [VA_Int (distinct_lines tot)] b in
  let! b := dmsg ("cachegrind: distinct instrs NoX: %d" ++ nl)%string [VA_Int distinct_instrsNoX] b in
  let! b := dmsg ("cachegrind: distinct instrs Gen: %d" ++ nl)%string [VA_Int distinct_instrsGen] b in
  let! b := dmsg ("cachegrind: debug lookups      : %d" ++ nl)%string [VA_Int debug_lookups] b in
  let! b := dmsg_share ("cachegrind: with full      info:%6.1f%% (%d)" ++ nl)%string
              (full_debugs s) debug_lookups b in
  let! b := dmsg_share ("cachegrind: with file/line info:%6.1f%% (%d)" ++ nl)%string
              (file_line_debugs s) debug_lookups b in
  let! b := dmsg_share ("cachegrind: with fn name   info:%6.1f%% (%d)" ++ nl)%string
              (fn_debugs s) debug_lookups b in
  let! b := dmsg_share ("cachegrind: with zero      info:%6.1f%% (%d)" ++ nl)%string
              (no_debugs s) debug_lookups b in
  let! b := dmsg ("cachegrind: string table size: %u" ++ nl)%string [VA_Int (os_size (stringTable T))] b in
  let! b := dmsg ("cachegrind: CC table size: %u" ++ nl)%string [VA_Int (os_size (CC_table T))] b in
  dmsg ("cachegrind: InstrInfo table size: %u" ++ nl)%string [VA_Int (os_size (instrInfoTable T))] b.

(** The messages printed when the output file cannot be created. *)
Definition cannot_open (out_file : string) (b : vmessage_buf_t) : res vmessage_buf_t :=
  let! b := umsg ("error: can't open cache simulation output file '%s'" ++ nl)%string
              [label out_file] b in
  umsg ("       ... so simulation results will be missing." ++ nl)%string [] b.

(** [cg_fini]: the tables, the totals, the output file, if it was created, and
    the log. *)
Definition cg_fini (clo_cache_sim clo_branch_sim clo_stats : bool) (clo_verbosity : Z)
    (opened : bool) (out_file : string) (c : caches3) (exename : string) (client_args : list string)
    (distinct_instrsNoX distinct_instrsGen : Z) (T : cg_tables) (tot : totals) (b : vmessage_buf_t)
  : res (cg_tables * totals * option string * vmessage_buf_t) :=
  let! (T, tot, file) := fprint_CC_table_and_calc_totals clo_cache_sim clo_branch_sim clo_xml opened
                           c exename client_args T tot in
  let! b := (if opened then Ok b else cannot_open out_file b) in
  if clo_verbosity =? 0 then Ok (T, tot, file, b)
  else
    let! (b, t) := report clo_cache_sim clo_branch_sim (tot_counts tot) b in
    let tot := MkTotals t (distinct_files tot) (distinct_fns tot) (distinct_lines tot) in
    let! b := (if clo_stats then report_stats tot T distinct_instrsNoX distinct_instrsGen b else Ok b) in
    Ok (T, tot, file, b).

End fini.

Example report_example :
  (match report false 0 false false 7 (fun _ => 0) true true
     (MkCounts (MkCacheCC 1234567 1200 1100) (MkCacheCC 300000 900 800) (MkCacheCC 150000 75000 70)
        (MkBranchCC 0 0) (MkBranchCC 20 10)) vmessage_buf with
   | Ok (b, _) => vm_sent b | Err _ => EmptyString end) =
  text_of_lines
   ["==7== I   refs:      1,234,567";
    "==7== I1  misses:        1,200";
    "==7== LLi misses:        1,100";
    "==7== I1  miss rate:      0.10%";
    "==7== LLi miss rate:      0.09%";
    "==7== ";
    "==7== D   refs:        450,000  (300,000 rd   + 150,000 wr)";
    "==7== D1  misses:       75,900  (    900 rd   +  75,000 wr)";
    "==7== LLd misses:          870  (    800 rd   +      70 wr)";
    "==7== D1  miss rate:      16.9% (    0.3%     +    50.0%  )";
    "==7== LLd miss rate:       0.2% (    0.3%     +     0.0%  )";
    "==7== ";
    "==7== LL refs:          77,100  (  2,100 rd   +  75,000 wr)";
    "==7== LL misses:         1,970  (  1,900 rd   +      70 wr)";
    "==7== LL miss rate:        0.1% (    0.1%     +     0.0%  )";
    "==7== ";
    "==7== Branches:             21  (      1 cond +      20 ind)";
    "==7== Mispredicts:          10  (      0 cond +      10 ind)";
    "==7== Mispred rate:       47.6% (    0.0%     +    50.0%   )"]%string.
Proof. vm_compute. reflexivity. Qed.

(** ** Printing piece by piece

    [prints fmt args s]: wherever the piece [fmt] of a format stands, it
    consumes the arguments [args] and sends [s], in no more rounds than it has
    characters. *)

Definition prints (xml : bool) (fmt : string) (args : list va) (s : string) : Prop :=
  exists k, (k <= String.length fmt)%nat /\
  forall fuel rest args' out ret, exists ret',
    vprintf_loop xml (k + fuel) (fmt ++ rest) (args ++ args') out ret =
    vprintf_loop xml fuel rest args' (out ++ s) ret'.

Lemma str_length_app (s1 s2 : string) :
  String.length (s1 ++ s2) = (String.length s1 + String.length s2)%nat.
Proof. pose proof (str_len_app s1 s2) as H. unfold str_len in H. lia. Qed.

Lemma prints_app xml f1 f2 a1 a2 s1 s2 :
  prints xml f1 a1 s1 -> prints xml f2 a2 s2 -> prints xml (f1 ++ f2) (a1 ++ a2) (s1 ++ s2).
Proof.
  intros (k1 & L1 & H1) (k2 & L2 & H2). exists (k1 + k2)%nat.
  split; [rewrite str_length_app; lia|]. intros fuel rest args' out ret.
  rewrite str_app_assoc, <- app_assoc, <- Nat.add_assoc.
  destruct (H1 (k2 + fuel)%nat (f2 ++ rest)%string (a2 ++ args') out ret) as [r1 ->].
  destruct (H2 fuel rest args' (out ++ s1)%string r1) as [r2 ->].
  exists r2. by rewrite str_app_assoc.
Qed.

(** A format made of pieces. *)
Lemma prints_vprintf xml fmt args s :
  prints xml fmt args s -> exists n, VG_debugLog_vprintf xml fmt args = Ok (s, n).
Proof.
  intros (k & L & H). unfold VG_debugLog_vprintf.
  replace (S (String.length fmt)) with (k + S (String.length fmt - k))%nat by lia.
  destruct (H (S (String.length fmt - k)) EmptyString [] EmptyString 0) as [r E].
  rewrite str_app_nil_r, app_nil_r in E. exists r. rewrite E. done.
Qed.

(** Text without conversions. *)
Lemma prints_lit xml s : no_char 37 s -> prints xml s [] s.
Proof.
  intros Hs. exists (String.length s). split; [done|]. intros fuel rest args'. cbn [app].
  induction s as [|c s IH]; intros out ret; [exists ret; by rewrite str_app_nil_r|].
  apply Forall_cons in Hs as [Hc Hs]. rewrite str_app_cons. cbn [String.length Nat.add vprintf_loop].
  rewrite (proj2 (Z.eqb_neq _ _) Hc). cbn [negb].
  destruct (IH Hs (out ++ String c EmptyString)%string (u32 (ret + 1))) as [r ->].
  exists r. by rewrite str_app_assoc.
Qed.

(** One conversion. *)
Lemma prints_one xml fmt args s :
  (1 <= String.length fmt)%nat ->
  (forall fuel rest args' out ret, exists ret',
    vprintf_loop xml (S fuel) (fmt ++ rest) (args ++ args') out ret =
    vprintf_loop xml fuel rest args' (out ++ s) ret') ->
  prints xml fmt args s.
Proof. intros Hl H. by exists 1%nat. Qed.

Lemma loop_conversion xml fuel fmt args out ret :
  deref fmt <> 0 -> deref fmt <> 37 ->
  vprintf_loop xml (S fuel) (String (chr 37) fmt) args out ret =
  let! (sp, fmt2, args2) := parse_spec fmt args in
  match fmt2 with
  | EmptyString => Err OutOfBounds
  | String c2 fmt3 =>
      let! (s, n, fmt4, args4) := convert xml sp (zchar c2) fmt3 args2 in
      vprintf_loop xml fuel fmt4 args4 (out ++ s) (u32 (ret + n))
  end.
Proof.
  intros H0 H1. cbn [vprintf_loop]. change (zchar (chr 37) =? 37) with true. cbn [negb].
  by rewrite (proj2 (Z.eqb_neq _ _) H0), (proj2 (Z.eqb_neq _ _) H1).
Qed.

(** One conversion, by running the parser on its characters. *)
Ltac one_conversion f :=
  apply prints_one; [cbn; lia|]; intros fuel rest args' out ret; eexists;
  change (f ++ rest)%string with (String (chr 37) (incr f ++ rest));
  rewrite loop_conversion by (cbn; discriminate);
  match goal with |- context [parse_spec ?a ?b] =>
    let v := eval lazy -[wraps] in (parse_spec a b) in change (parse_spec a b) with v end;
  cbn [rbind];
  lazy -[vprintf_loop myvprintf_int64 myvprintf_double wrapu wraps append str_len str_map Z.add].

Lemma prints_percent xml : prints xml "%%" [] "%".
Proof. apply prints_one; [cbn; lia|]. intros. eexists. cbn. reflexivity. Qed.

Lemma prints_s xml s : prints xml "%s" [label s] s.
Proof. one_conversion "%s"%string. by rewrite str_map_id. Qed.

Lemma prints_d xml x : prints xml "%d" [VA_Int x] (fmt_d (s32 x)).
Proof. one_conversion "%d"%string. reflexivity. Qed.

Lemma prints_u xml x : prints xml "%u" [VA_Int x] (fmt_u (u32 x)).
Proof. one_conversion "%u"%string. reflexivity. Qed.

(** The formats printed by cg_fini: a field with commas. *)
Definition comma_spec (w : Z) : string := ("%," ++ fmt_d w ++ "llu")%string.

Lemma prints_comma xml w x :
  1 <= w <= 26 -> prints xml (comma_spec w) [VA_Long x] (fmt_comma w (u64 x)).
Proof.
  intros Hw. unfold comma_spec.
  assert (exists n, (n < 26)%nat /\ w = 1 + Z.of_nat n) as (n & Hn & ->)
    by (exists (Z.to_nat (w - 1)); lia).
  do 26 (destruct n as [|n]; [
    match goal with |- prints _ ?f _ _ => let v := eval vm_compute in f in
      change f with v; one_conversion v; reflexivity end|]). lia.
Qed.

(** A percentage. *)
Lemma prints_f2 xml w neg v s n :
  in_s 32 w -> myvprintf_double no_flags w 2 neg v = Ok (s, n) ->
  prints xml "%*.2f" [VA_Int w; VA_Dbl neg v] s.
Proof.
  intros Hw H. one_conversion "%*.2f"%string. rewrite wraps_small by done.
  change (MsgFlags false false false false false false) with no_flags. rewrite H. reflexivity.
Qed.

Lemma prints_f1 xml w neg v s n :
  in_s 32 w -> myvprintf_double no_flags w 1 neg v = Ok (s, n) ->
  prints xml "%*.1f" [VA_Int w; VA_Dbl neg v] s.
Proof.
  intros Hw H. one_conversion "%*.1f"%string. rewrite wraps_small by done.
  change (MsgFlags false false false false false false) with no_flags. rewrite H. reflexivity.
Qed.

Lemma prints_f61 xml neg v s n :
  myvprintf_double no_flags 6 1 neg v = Ok (s, n) -> prints xml "%6.1f" [VA_Dbl neg v] s.
Proof.
  intros H. one_conversion "%6.1f"%string.
  change (MsgFlags false false false false false false) with no_flags. rewrite H. reflexivity.
Qed.

(** ** Percentages *)

Definition rate_val (m a : Z) : Double :=
  double_div (double_mul (double_of_ulong m) (100, 1)) (double_of_ulong a).

Lemma rate_ok m a : 0 < a -> rate m a = Ok (VA_Dbl false (rate_val m a)).
Proof. intros Ha. unfold rate. by rewrite (proj2 (Z.eqb_neq a 0)) by lia. Qed.

Lemma dle_double_of_ulong x : 0 <= x -> dle (double_of_ulong x) (2 * x).
Proof. intros Hx. apply rnd53_dle; lia. Qed.

Lemma dle_double_mul x y A B : 0 <= A -> 0 <= B ->
  dle x A -> dle y B -> dle (double_mul x y) (2 * (A * B)).
Proof.
  intros HA HB (Hx & Hx1 & Hx2) (Hy & Hy1 & Hy2). apply rnd53_dle; [nia|nia|].
  transitivity ((A * snd x) * (B * snd y)); [apply Z.mul_le_mono_nonneg; lia|lia].
Qed.

(** However the three roundings go, a share of at most the whole stays far
    from the limits of [%f]. *)
Lemma rate_val_dle m a : 0 <= m <= a -> 0 < a -> dle (rate_val m a) 1600.
Proof.
  intros Hm Ha. unfold rate_val.
  assert (dle (double_mul (double_of_ulong m) (100, 1)) (2 * (2 * m * 100))) as (Hy & Hy1 & Hy2).
  { apply dle_double_mul; [lia|lia|apply dle_double_of_ulong; lia|repeat split; cbn; lia]. }
  pose proof (rnd53_bounds a 1 Ha ltac:(lia)) as (Hz & Hz1 & _ & Hz2). cbv zeta in *.
  fold (double_of_ulong a) in *. set (y := double_mul _ _) in *. set (z := double_of_ulong a) in *.
  apply (rnd53_dle _ _ 800); [nia|nia|].
  transitivity (400 * m * snd y * snd z); [apply Z.mul_le_mono_nonneg_r; lia|].
  transitivity (400 * snd y * (a * snd z)); [|nia].
  replace (400 * m * snd y * snd z) with (400 * snd y * (m * snd z)) by lia.
  apply Z.mul_le_mono_nonneg_l; nia.
Qed.

Lemma ulong_of_double_dle x B : dle x B -> B < 2 ^ 64 -> ulong_of_double x = Ok (fst x / snd x).
Proof.
  intros (H1 & H2 & H3) HB. unfold ulong_of_double.
  assert (fst x / snd x <= B) by (apply Z.div_le_upper_bound; lia).
  by rewrite (proj2 (Z.ltb_lt _ _)) by lia.
Qed.

(** The fractional part. *)
Lemma frac_dle v : dle v 1600 -> dle (double_sub v (double_of_ulong (fst v / snd v))) 2.
Proof.
  intros (H1 & H2 & H3). set (ip := fst v / snd v).
  pose proof (Z.div_mod (fst v) (snd v) ltac:(lia)) as Hdm.
  pose proof (Z.mod_pos_bound (fst v) (snd v) ltac:(lia)) as Hmod. fold ip in Hdm.
  assert (0 <= ip <= 1600)
    by (split; [apply Z.div_pos; lia|apply Z.div_le_upper_bound; lia]).
  destruct (rnd53_dval ip 1 0 ip 0) as (j & Hj & Hs & Hf & E); [lia..|].
  unfold double_sub, double_of_ulong. rewrite Hs.
  assert (fst (rnd53 ip 1) = ip * 2 ^ j) as -> by lia.
  assert (0 < 2 ^ j) by (apply Z.pow_pos_nonneg; lia).
  apply (rnd53_dle _ _ 1); nia.
Qed.

Lemma myvprintf_double_ok v w prec : dle v 1600 -> 0 <= prec <= 10 ->
  exists s n, myvprintf_double no_flags w prec false v = Ok (s, n).
Proof.
  intros Hv Hp. unfold myvprintf_double.
  assert (double_gtb v (2 ^ 64, 1) = false) as ->.
  { destruct Hv as (? & ? & ?). unfold double_gtb. cbn [fst snd]. apply Z.ltb_ge. nia. }
  rewrite (ulong_of_double_dle v 1600) by (done || lia). cbn [rbind].
  rewrite (proj2 (Z.eqb_neq prec (-1))) by lia. destruct (Z.gtb_spec prec 10); [lia|].
  pose proof (frac_dle v Hv) as Hf. set (frac := double_sub v _) in *.
  assert (1 <= pow10 prec <= 10 ^ 10).
  { unfold pow10. rewrite Z.max_r by lia. split; [apply (Z.pow_le_mono_r 10 0); lia|].
    apply Z.pow_le_mono_r; lia. }
  pose proof (dle_double_mul _ _ 2 (2 * pow10 prec) ltac:(lia) ltac:(lia) Hf
    (dle_double_of_ulong (pow10 prec) ltac:(lia))) as Hd.
  rewrite (ulong_of_double_dle _ _ Hd) by lia. cbn [rbind]. eauto.
Qed.

(** The text of a percentage. *)
Definition rate_text (w prec m a : Z) : string :=
  match myvprintf_double no_flags w prec false (rate_val m a) with
  | Ok (s, _) => s
  | Err _ => EmptyString
  end.

Lemma rate_text_ok w prec m a : 0 <= m <= a -> 0 < a -> 0 <= prec <= 10 ->
  exists n, myvprintf_double no_flags w prec false (rate_val m a) = Ok (rate_text w prec m a, n).
Proof.
  intros Hm Ha Hp. destruct (myvprintf_double_ok _ w prec (rate_val_dle m a Hm Ha) Hp) as (s & n & H).
  exists n. unfold rate_text. by rewrite H.
Qed.

(** ** Columns *)

Lemma digits_loop_mono fuel base n n' w : 2 <= base -> n <= n' ->
  digits_loop fuel base n w <= digits_loop fuel base n' w.
Proof.
  intros Hb. revert n n' w; induction fuel as [|fuel IH]; intros n n' w Hn; cbn [digits_loop]; [lia|].
  pose proof (digits_loop_le fuel base (n' / base) (w + 1)).
  destruct (Z.ltb_spec 0 n), (Z.ltb_spec 0 n'); [|lia|lia|lia].
  apply IH. apply Z.div_le_mono; lia.
Qed.

Lemma ULong_width_mono n n' : n <= n' -> ULong_width n <= ULong_width n'.
Proof.
  intros H. unfold ULong_width. pose proof (digits_loop_mono int64_fuel 10 n n' 0 ltac:(lia) H).
  pose proof (digits_loop_le int64_fuel 10 n 0).
  set (w := if _ =? 0 then _ else _). set (w' := if digits_loop _ _ n' _ =? 0 then _ else _).
  assert (w <= w') by (subst w w'; case_Z; lia).
  pose proof (Z.div_le_mono (w - 1) (w' - 1) 3). lia.
Qed.

Lemma ULong_width_range n : in_u 64 n -> 1 <= ULong_width n <= 26.
Proof.
  intros Hn. unfold in_u in Hn. unfold ULong_width.
  pose proof (digits_loop_bound int64_fuel 10 n 0 20 ltac:(lia) ltac:(lia)) as Hb.
  specialize (Hb ltac:(lia)). pose proof (digits_loop_le int64_fuel 10 n 0).
  set (w := if _ =? 0 then _ else _). assert (1 <= w <= 20) by (subst w; case_Z; lia).
  assert (0 <= (w - 1) / 3 < 7) by (split; [apply Z.div_pos|apply Z.div_lt_upper_bound]; lia). lia.
Qed.

(** The characters of a number with commas. *)
Lemma fmt_comma_len w n : in_u 64 n -> str_len (fmt_comma w n) = Z.max w (ULong_width n).
Proof.
  intros Hn. unfold in_u in Hn. unfold fmt_comma. rewrite int64_len by lia. f_equal.
  unfold int64_digits, ULong_width. cbn [VG_MSG_SIGNED comma_flags andb VG_MSG_COMMA].
  destruct (Z.eqb_spec n 0) as [->|Hn0]; [reflexivity|].
  rewrite (int64_loop_length _ _ _ _ _ _ _ 0); [|lia|done|done]. cbn [andb].
  pose proof (digits_loop_pos 63 10 n 0 ltac:(lia)) as Hp. change (S 63) with int64_fuel in Hp.
  change (10 =? 10) with true. cbv iota. unfold commas.
  rewrite (proj2 (Z.eqb_neq _ 0)) by lia. by rewrite Z.max_r by lia.
Qed.

Lemma fmt_comma_no_nl w n : in_u 64 n -> no_char 10 (fmt_comma w n).
Proof. intros. apply int64_no_char; [lia|lia|done]. Qed.

Lemma send_n_no_char z n c : zchar c <> z -> no_char z (send_n n c).
Proof. intros Hc. apply no_char_list. by apply Forall_replicate. Qed.

Lemma Ok_fst {A B} (a a' : A) (b b' : B) : Ok (a, b) = Ok (a', b') -> a = a'.
Proof. by intros [= -> _]. Qed.

Lemma double_no_nl w prec v s n : 0 <= fst v -> 0 < snd v -> 
  myvprintf_double no_flags w prec false v = Ok (s, n) -> no_char 10 s.
Proof.
  intros Hv1 Hv2 H. unfold myvprintf_double in H. destruct (double_gtb v (2 ^ 64, 1)).
  { injection H as <- _. by apply send_n_no_char. }
  apply rbind_ok in H as (ip & Hip & H). apply rbind_ok in H as (fr & Hfr & H).
  apply Ok_fst in H. subst s. cbn [VG_MSG_LJUSTIFY no_flags].
  assert (forall x, in_u 64 (x mod 2 ^ 64)) as Hmod by (intros; apply Z.mod_pos_bound; lia).
  set (p := if _ >? 10 then _ else _) in *.
  assert (in_u 64 ip) as Hip64.
  { unfold ulong_of_double in Hip. case_match eqn:E; [|done]. injection Hip as <-.
    apply Z.ltb_lt in E. split; [apply Z.div_pos; lia|lia]. }
  assert (1 <= pow10 p <= 10 ^ 10) as Hpow.
  { unfold pow10. assert (p <= 10) by (subst p; destruct (Z.gtb_spec (if prec =? -1 then 6 else prec) 10); lia).
    split; [apply (Z.pow_le_mono_r 10 0); lia|apply Z.pow_le_mono_r; lia]. }
  apply no_char_app; [by apply send_n_no_char|]. cbn [andb].
  apply no_char_app; [repeat constructor|]. apply no_char_app.
  - apply int64_no_char; [lia|lia|]. destruct (_ =? pow10 p); [apply Hmod|done].
  - destruct (p =? 0); [repeat constructor|]. apply Forall_cons. split; [discriminate|].
    apply int64_no_char; [lia|lia|].
    match goal with |- in_u 64 (?x mod _) => pose proof (Z.mod_pos_bound x (pow10 p) ltac:(lia)) end.
    unfold in_u. lia.
Qed.

Lemma rate_text_no_nl w prec m a : 0 <= m <= a -> 0 < a -> 0 <= prec <= 10 ->
  no_char 10 (rate_text w prec m a).
Proof.
  intros Hm Ha Hp. destruct (rate_text_ok w prec m a Hm Ha Hp) as [n H].
  destruct (rate_val_dle m a Hm Ha) as (? & ? & _). by eapply double_no_nl; [| |exact H].
Qed.

(** ** The reference text of the summary *)

(** The sum of two records, unbounded. *)
Definition sum_cc (x y : CacheCC) : CacheCC :=
  MkCacheCC (cc_a x + cc_a y) (cc_m1 x + cc_m1 y) (cc_mL x + cc_mL y).

Section lines.
Context (l1 l2 l3 : Z).

Definition line1 (lbl : string) (x : Z) : string := (lbl ++ " " ++ fmt_comma l1 x)%string.

Definition line3 (lbl mid fin : string) (x y z : Z) : string :=
  (lbl ++ " " ++ fmt_comma l1 x ++ "  (" ++ fmt_comma l2 y ++ mid ++ fmt_comma l3 z ++ fin)%string.

Definition rate1 (lbl : string) (m a : Z) : string := (lbl ++ rate_text l1 2 m (Z.max 1 a) ++ "%")%string.

Definition rate3 (lbl fin : string) (m1 a1 m2 a2 m3 a3 : Z) : string :=
  (lbl ++ rate_text l1 1 m1 a1 ++ "% (" ++ rate_text l2 1 m2 a2 ++ "%     + " ++
   rate_text l3 1 m3 a3 ++ "%" ++ fin)%string.

Definition cache_lines (t : line_counts) : list string :=
  let I := Ir t in let R := Dr t in let W := Dw t in let D := sum_cc R W in
  let Ia := Z.max 1 (cc_a I) in let Ra := Z.max 1 (cc_a R) in
  let Wa := Z.max 1 (cc_a W) in let Da := Z.max 1 (cc_a D) in
  let refs lbl := line3 lbl " rd   + " " wr)" in
  [line1 "I1  misses:   " (cc_m1 I);
   line1 "LLi misses:   " (cc_mL I);
   rate1 "I1  miss rate: " (cc_m1 I) (cc_a I);
   rate1 "LLi miss rate: " (cc_mL I) (cc_a I);
   EmptyString;
   refs "D   refs:     "%string (cc_a D) (cc_a R) (cc_a W);
   refs "D1  misses:   "%string (cc_m1 D) (cc_m1 R) (cc_m1 W);
   refs "LLd misses:   "%string (cc_mL D) (cc_mL R) (cc_mL W);
   rate3 "D1  miss rate: " "  )" (cc_m1 D) Da (cc_m1 R) Ra (cc_m1 W) Wa;
   rate3 "LLd miss rate: " "  )" (cc_mL D) Da (cc_mL R) Ra (cc_mL W) Wa;
   EmptyString;
   refs "LL refs:      "%string (cc_m1 D + cc_m1 I) (cc_m1 R + cc_m1 I) (cc_m1 W);
   refs "LL misses:    "%string (cc_mL D + cc_mL I) (cc_mL R + cc_mL I) (cc_mL W);
   rate3 "LL miss rate:  " "  )" (cc_mL D + cc_mL I) (Ia + Da) (cc_mL R + cc_mL I) (Ia + Ra) (cc_mL W) Wa].

(** A total of zero branches is shown as one. *)
Definition branch_lines (t : line_counts) : list string :=
  let c := Z.max 1 (bc_b (Bc t)) in let i := Z.max 1 (bc_b (Bi t)) in
  let cm := bc_mp (Bc t) in let im := bc_mp (Bi t) in
  [EmptyString;
   line3 "Branches:     " " cond + " " ind)" (c + i) c i;
   line3 "Mispredicts:  " " cond + " " ind)" (cm + im) cm im;
   rate3 "Mispred rate:  " "   )" (cm + im) (c + i) cm c im i].

End lines.

Definition report_lines (cs bs : bool) (t : line_counts) : list string :=
  let l1 := ULong_width (cc_a (Ir t)) in
  let l2 := ULong_width (Z.max (cc_a (Dr t)) (bc_b (Bc t))) in
  let l3 := ULong_width (Z.max (cc_a (Dw t)) (bc_b (Bi t))) in
  line1 l1 "I   refs:     " (cc_a (Ir t)) ::
  (if cs then cache_lines l1 l2 l3 t else []) ++ (if bs then branch_lines l1 l2 l3 t else []).

(** Totals the summary is meant for: misses within accesses, and sums below
    2^64. *)
Definition cc_sane (c : CacheCC) : Prop := 0 <= cc_mL c <= cc_m1 c /\ cc_m1 c <= cc_a c.
Definition bc_sane (c : BranchCC) : Prop := 0 <= bc_mp c <= bc_b c.

Record totals_sane (t : line_counts) : Prop := {
  ts_I : cc_sane (Ir t); ts_R : cc_sane (Dr t); ts_W : cc_sane (Dw t);
  ts_C : bc_sane (Bc t); ts_B : bc_sane (Bi t);
  ts_refs : cc_a (Ir t) + cc_a (Dr t) + cc_a (Dw t) + 2 < 2 ^ 64;
  ts_branches : bc_b (Bc t) + bc_b (Bi t) + 2 < 2 ^ 64
}.

(** ** The formats cg_fini prints for itself *)

Definition field (w : Z) : string := comma_spec w.

Lemma sprintf_fmt_ok xml format args out :
  no_char 35 format -> no_char 42 format ->
  (exists n, VG_debugLog_vprintf xml format args = Ok (out, n)) ->
  no_char 0 out -> str_len out < FMT_SIZE -> sprintf_fmt xml format args = Ok out.
Proof.
  intros H1 H2 [n H] H0 Hl. unfold sprintf_fmt, FMT_SIZE in *.
  rewrite (vsprintf_ok xml format args out n) by (done || lia). cbn [rbind].
  by rewrite (proj2 (Z.ltb_lt _ _)) by lia.
Qed.

Lemma fmt_d_no_nul x : in_s 32 x -> no_char 0 (fmt_d x).
Proof. intros. apply int64_no_char; [lia|lia|]. apply wrapu_range. lia. Qed.

Ltac fmt_pieces :=
  repeat match goal with
  | |- no_char _ (append _ _) => apply no_char_app
  | |- no_char 0 (fmt_d _) => apply fmt_d_no_nul; unfold in_s; lia
  | |- no_char _ _ => repeat constructor; discriminate
  end.

Ltac ground_lens :=
  change (str_len nl) with 1;
  repeat match goal with |- context [str_len (String ?c ?s)] =>
    let v := eval vm_compute in (str_len (String c s)) in change (str_len (String c s)) with v end.

Lemma one_fmt_ok xml l1 : 1 <= l1 <= 26 ->
  sprintf_fmt xml one_fmt [VA_Int l1] = Ok ("%s " ++ field l1 ++ nl)%string.
Proof.
  intros Hl. pose proof (fmt_d_len l1 ltac:(unfold in_s; lia)). unfold field, comma_spec, FMT_SIZE.
  apply sprintf_fmt_ok; [repeat constructor; discriminate..| | |].
  - eexists. rewrite <- (wraps_small 32 l1) at 2 by (unfold in_s; lia). run_vprintf.
  - fmt_pieces.
  - rewrite !str_len_app. unfold FMT_SIZE. ground_lens. lia.
Qed.

Definition field3 (l1 l2 l3 : Z) (mid fin : string) : string :=
  ("%s " ++ field l1 ++ "  (" ++ field l2 ++ mid ++ field l3 ++ fin ++ nl)%string.

Lemma three_fmt_ok xml l1 l2 l3 : 1 <= l1 <= 26 -> 1 <= l2 <= 26 -> 1 <= l3 <= 26 ->
  sprintf_fmt xml rdwr_fmt [VA_Int l1; VA_Int l2; VA_Int l3] = Ok (field3 l1 l2 l3 " rd   + " " wr)") /\
  sprintf_fmt xml condind_fmt [VA_Int l1; VA_Int l2; VA_Int l3] = Ok (field3 l1 l2 l3 " cond + " " ind)").
Proof.
  intros H1 H2 H3. pose proof (fmt_d_len l1 ltac:(unfold in_s; lia)).
  pose proof (fmt_d_len l2 ltac:(unfold in_s; lia)). pose proof (fmt_d_len l3 ltac:(unfold in_s; lia)).
  unfold field3, field, comma_spec.
  split; (apply sprintf_fmt_ok; [repeat constructor; discriminate..| | |];
    [eexists; rewrite <- (wraps_small 32 l1) at 2 by (unfold in_s; lia);
     rewrite <- (wraps_small 32 l2) at 2 by (unfold in_s; lia);
     rewrite <- (wraps_small 32 l3) at 2 by (unfold in_s; lia); run_vprintf
    |fmt_pieces
    |rewrite !str_len_app; unfold FMT_SIZE; ground_lens; lia]).
Qed.

(** ** The lines of the summary *)

(** A format, its arguments and its text, from pieces. *)
Definition piece : Type := (string * list va * string)%type.

Lemma prints_nil xml : prints xml EmptyString [] EmptyString.
Proof. exists 0%nat. split; [done|]. intros. exists ret. by rewrite str_app_nil_r. Qed.

Lemma prints_pieces xml (ps : list piece) fmt args s :
  Forall (fun p => prints xml p.1.1 p.1.2 p.2) ps ->
  fmt = fold_right (fun p f => p.1.1 ++ f)%string EmptyString ps ->
  args = concat (map (fun p => p.1.2) ps) ->
  s = fold_right (fun p f => p.2 ++ f)%string EmptyString ps ->
  prints xml fmt args s.
Proof.
  intros H -> -> ->. induction H as [|p ps Hp _ IH]; [apply prints_nil|].
  cbn [fold_right map concat]. by apply prints_app.
Qed.

Lemma prints_line1 xml l1 s x : 1 <= l1 <= 26 -> in_u 64 x ->
  prints xml ("%s " ++ field l1 ++ nl) [label s; VA_Long x] (line1 l1 s x ++ nl).
Proof.
  intros Hl Hx.
  apply (prints_pieces xml [("%s", [label s], s); (" ", [], " "); (field l1, [VA_Long x], fmt_comma l1 x);
    (nl, [], nl)]%string); [|reflexivity|reflexivity|].
  - repeat constructor; cbn [fst snd]; [apply prints_s|apply prints_lit; repeat constructor; discriminate
      | |apply prints_lit; repeat constructor; discriminate].
    rewrite <- (wrapu_small 64 x Hx) at 2. by apply prints_comma.
  - unfold line1. cbn [fold_right snd]. by rewrite !str_app_assoc, str_app_nil_r.
Qed.

Lemma prints_line3 xml l1 l2 l3 s mid fin x y z :
  1 <= l1 <= 26 -> 1 <= l2 <= 26 -> 1 <= l3 <= 26 -> in_u 64 x -> in_u 64 y -> in_u 64 z ->
  no_char 37 mid -> no_char 37 fin ->
  prints xml (field3 l1 l2 l3 mid fin) [label s; VA_Long x; VA_Long y; VA_Long z]
    (line3 l1 l2 l3 s mid fin x y z ++ nl).
Proof.
  intros H1 H2 H3 Hx Hy Hz Hm Hf.
  apply (prints_pieces xml [("%s", [label s], s); (" ", [], " "); (field l1, [VA_Long x], fmt_comma l1 x);
    ("  (", [], "  ("); (field l2, [VA_Long y], fmt_comma l2 y); (mid, [], mid);
    (field l3, [VA_Long z], fmt_comma l3 z); (fin, [], fin); (nl, [], nl)]%string);
    [|reflexivity|reflexivity|].
  - assert (forall w v, 1 <= w <= 26 -> in_u 64 v -> prints xml (field w) [VA_Long v] (fmt_comma w v)) as Hp.
    { intros w v Hw Hv. rewrite <- (wrapu_small 64 v Hv) at 2. by apply prints_comma. }
    repeat apply Forall_cons_2; cbn [fst snd]; try apply prints_s; try (by apply Hp);
      try (by apply prints_lit); try (apply prints_lit; repeat constructor; discriminate); constructor.
  - unfold line3. cbn [fold_right snd]. by rewrite !str_app_assoc, str_app_nil_r.
Qed.

Lemma prints_rate1 xml l1 fmt lbl m a :
  1 <= l1 <= 26 -> 0 <= m <= a -> 0 < a -> no_char 37 lbl ->
  fmt = (lbl ++ "%*.2f" ++ "%%" ++ nl)%string ->
  prints xml fmt [VA_Int l1; VA_Dbl false (rate_val m a)] ((lbl ++ rate_text l1 2 m a ++ "%") ++ nl).
Proof.
  intros Hl Hm Ha Hlbl ->. destruct (rate_text_ok l1 2 m a Hm Ha ltac:(lia)) as [n Hr].
  apply (prints_pieces xml [(lbl, [], lbl); ("%*.2f", [VA_Int l1; VA_Dbl false (rate_val m a)],
    rate_text l1 2 m a); ("%%", [], "%"); (nl, [], nl)]%string); [|reflexivity|reflexivity|].
  - repeat apply Forall_cons_2; cbn [fst snd]; [by apply prints_lit|
      eapply prints_f2; [unfold in_s; lia|exact Hr]|apply prints_percent
      |apply prints_lit; repeat constructor; discriminate|constructor].
  - cbn [fold_right snd]. by rewrite !str_app_assoc, str_app_nil_r.
Qed.

Definition rates_fmt (lbl fin : string) : string :=
  (lbl ++ "%*.1f" ++ "%%" ++ " (" ++ "%*.1f" ++ "%%" ++ "     + " ++ "%*.1f" ++ "%%" ++ fin ++ nl)%string.

Lemma prints_rate3 xml l1 l2 l3 lbl fin m1 a1 m2 a2 m3 a3 :
  1 <= l1 <= 26 -> 1 <= l2 <= 26 -> 1 <= l3 <= 26 ->
  0 <= m1 <= a1 -> 0 < a1 -> 0 <= m2 <= a2 -> 0 < a2 -> 0 <= m3 <= a3 -> 0 < a3 ->
  no_char 37 lbl -> no_char 37 fin ->
  prints xml (rates_fmt lbl fin)
    [VA_Int l1; VA_Dbl false (rate_val m1 a1); VA_Int l2; VA_Dbl false (rate_val m2 a2);
     VA_Int l3; VA_Dbl false (rate_val m3 a3)]
    (rate3 l1 l2 l3 lbl fin m1 a1 m2 a2 m3 a3 ++ nl).
Proof.
  intros H1 H2 H3 Hm1 Ha1 Hm2 Ha2 Hm3 Ha3 Hlbl Hfin.
  set (r l m a := (("%*.1f"%string, [VA_Int l; VA_Dbl false (rate_val m a)], rate_text l 1 m a) : piece)).
  apply (prints_pieces xml [(lbl, [], lbl); r l1 m1 a1; ("%%", [], "%"); (" (", [], " (");
    r l2 m2 a2; ("%%", [], "%"); ("     + ", [], "     + "); r l3 m3 a3; ("%%", [], "%");
    (fin, [], fin); (nl, [], nl)]%string); [|reflexivity|reflexivity|].
  - assert (forall l m a, 1 <= l <= 26 -> 0 <= m <= a -> 0 < a ->
      prints xml (r l m a).1.1 (r l m a).1.2 (r l m a).2) as Hp.
    { intros l m a Hl Hm Ha. destruct (rate_text_ok l 1 m a Hm Ha ltac:(lia)) as [n Hr].
      eapply prints_f1; [unfold in_s; lia|exact Hr]. }
    repeat apply Forall_cons_2; try (by apply Hp); cbn [fst snd]; try apply prints_percent;
      try (by apply prints_lit); try (apply prints_lit; repeat constructor; discriminate); constructor.
  - unfold rate3, r. cbn [fold_right snd]. rewrite !str_app_assoc, str_app_nil_r. done.
Qed.

(** ** Logging *)

Section logging.
Context (xml : bool) (depth : Z) (no_inner_prefix clo_time_stamp : bool) (pid : Z) (timer : nat -> Z).
Context (Hpid : in_s 32 pid) (Htimer : forall n, in_u 32 (timer n)).

#[local] Notation umsg := (VG_umsg xml depth no_inner_prefix clo_time_stamp pid timer).
#[local] Notation dmsg := (VG_dmsg xml depth no_inner_prefix clo_time_stamp pid timer).
#[local] Notation log_text := (log_text depth no_inner_prefix clo_time_stamp pid timer).
#[local] Notation log_reads := (log_reads clo_time_stamp).

(** From [b] to [b'] the log has grown by whole lines. *)
Definition logged (b : vmessage_buf_t) (ls : list (VgMsgKind * string)) (b' : vmessage_buf_t) : Prop :=
  vm_idle b' /\ vm_reads b' = log_reads ls (vm_reads b) /\
  vm_sent b' = (vm_sent b ++ log_text ls (vm_reads b))%string.

Lemma logged_nil b : vm_idle b -> logged b [] b.
Proof. intros Hb. split; [done|]. cbn. by rewrite str_app_nil_r. Qed.

Lemma logged_app b1 b2 b3 l1 l2 : logged b1 l1 b2 -> logged b2 l2 b3 -> logged b1 (l1 ++ l2) b3.
Proof.
  intros (_ & R1 & S1) (I2 & R2 & S2). split; [done|].
  rewrite R2, S2, R1, S1, log_reads_app, log_text_app, str_app_assoc. done.
Qed.

(** [m], which ends with the buffer [proj y], succeeds and logs [ls]. *)
Definition reports {B : Type} (m : res B) (proj : B -> vmessage_buf_t) (Q : B -> Prop)
    (b : vmessage_buf_t) (ls : list (VgMsgKind * string)) : Prop :=
  exists y, m = Ok y /\ Q y /\ logged b ls (proj y).

Lemma reports_bind {B C} (m : res B) (K : B -> res C) proj proj' Q Q' b l1 l2 :
  reports m proj Q b l1 ->
  (forall y, Q y -> vm_idle (proj y) -> reports (K y) proj' Q' (proj y) l2) ->
  reports (rbind m K) proj' Q' b (l1 ++ l2).
Proof.
  intros (y & -> & HQ & Hl) HK. destruct (HK y HQ (proj1 Hl)) as (z & Hz & HQ' & Hl2).
  exists z. split; [exact Hz|]. split; [done|]. by eapply logged_app.
Qed.

Lemma reports_ret {B} (y : B) (proj : B -> vmessage_buf_t) (Q : B -> Prop) b :
  vm_idle b -> proj y = b -> Q y -> reports (Ok y) proj Q b [].
Proof. intros Hb <- HQ. exists y. split; [done|]. split; [done|]. by apply logged_nil. Qed.

Lemma vmessage_reports k fmt args l b :
  vm_idle b -> prints xml fmt args (l ++ nl) -> no_char 10 l ->
  reports (let! (b, _) := VG_vmessage xml depth no_inner_prefix clo_time_stamp pid timer k fmt args b in Ok b)
    id (fun _ => True) b [(k, l)].
Proof.
  intros Hb Hp Hl. destruct (prints_vprintf _ _ _ _ Hp) as [n Hn].
  destruct (vmessage_lines xml depth no_inner_prefix clo_time_stamp pid timer Hpid Htimer
    k fmt args b [l] n Hb) as (b' & -> & Hi & Hr & Hs); [by repeat constructor| |].
  { cbn [text_of_lines]. by rewrite str_app_nil_r. }
  exists b'. done.
Qed.

Lemma umsg_reports fmt args l b :
  vm_idle b -> prints xml fmt args (l ++ nl) -> no_char 10 l ->
  reports (umsg fmt args b) id (fun _ => True) b [(Vg_UserMsg, l)].
Proof. apply vmessage_reports. Qed.

Lemma dmsg_reports fmt args l b :
  vm_idle b -> prints xml fmt args (l ++ nl) -> no_char 10 l ->
  reports (dmsg fmt args b) id (fun _ => True) b [(Vg_DebugMsg, l)].
Proof. apply vmessage_reports. Qed.

(** A user message and what follows it. *)
Lemma umsg_then {B} fmt args l b (K : vmessage_buf_t -> res B) proj Q ls :
  vm_idle b -> prints xml fmt args (l ++ nl) -> no_char 10 l ->
  (forall b, vm_idle b -> reports (K b) proj Q b ls) ->
  reports (rbind (umsg fmt args b) K) proj Q b ((Vg_UserMsg, l) :: ls).
Proof.
  intros Hb Hp Hl HK. apply (reports_bind _ _ id _ (fun _ => True) _ _ [_]); [by apply umsg_reports|].
  intros y _ Hy. by apply HK.
Qed.

Lemma dmsg_then {B} fmt args l b (K : vmessage_buf_t -> res B) proj Q ls :
  vm_idle b -> prints xml fmt args (l ++ nl) -> no_char 10 l ->
  (forall b, vm_idle b -> reports (K b) proj Q b ls) ->
  reports (rbind (dmsg fmt args b) K) proj Q b ((Vg_DebugMsg, l) :: ls).
Proof.
  intros Hb Hp Hl HK. apply (reports_bind _ _ id _ (fun _ => True) _ _ [_]); [by apply dmsg_reports|].
  intros y _ Hy. by apply HK.
Qed.

(** *** The parts of the summary *)

Context (l1 l2 l3 : Z) (Hl1 : 1 <= l1 <= 26) (Hl2 : 1 <= l2 <= 26) (Hl3 : 1 <= l3 <= 26).

Ltac lit := repeat constructor; discriminate.

Lemma line1_no_nl lbl x : no_char 10 lbl -> in_u 64 x -> no_char 10 (line1 l1 lbl x).
Proof.
  intros Hlbl Hx. unfold line1.
  apply no_char_app; [done|]. apply no_char_app; [lit|]. by apply fmt_comma_no_nl.
Qed.

Lemma line3_no_nl lbl mid fin x y z : no_char 10 lbl -> no_char 10 mid -> no_char 10 fin ->
  in_u 64 x -> in_u 64 y -> in_u 64 z -> no_char 10 (line3 l1 l2 l3 lbl mid fin x y z).
Proof.
  intros. unfold line3. repeat match goal with
  | |- no_char _ (append _ _) => apply no_char_app
  | |- no_char _ (fmt_comma _ _) => by apply fmt_comma_no_nl
  end; done || lit.
Qed.

Lemma rate3_no_nl lbl fin m1 a1 m2 a2 m3 a3 : no_char 10 lbl -> no_char 10 fin ->
  0 <= m1 <= a1 -> 0 < a1 -> 0 <= m2 <= a2 -> 0 < a2 -> 0 <= m3 <= a3 -> 0 < a3 ->
  no_char 10 (rate3 l1 l2 l3 lbl fin m1 a1 m2 a2 m3 a3).
Proof.
  intros. unfold rate3. repeat match goal with
  | |- no_char _ (append _ _) => apply no_char_app
  | |- no_char _ (rate_text _ _ _ _) => apply rate_text_no_nl; lia
  end; done || lit.
Qed.

Lemma umsg_rates_reports lbl fin m1 a1 m2 a2 m3 a3 b :
  vm_idle b -> no_char 37 lbl -> no_char 37 fin -> no_char 10 lbl -> no_char 10 fin ->
  0 <= m1 <= a1 -> 0 < a1 -> 0 <= m2 <= a2 -> 0 < a2 -> 0 <= m3 <= a3 -> 0 < a3 ->
  reports (umsg_rates xml depth no_inner_prefix clo_time_stamp pid timer (rates_fmt lbl fin)
             l1 m1 a1 l2 m2 a2 l3 m3 a3 b) id (fun _ => True) b
    [(Vg_UserMsg, rate3 l1 l2 l3 lbl fin m1 a1 m2 a2 m3 a3)].
Proof.
  intros Hb P1 P2 N1 N2 Hm1 Ha1 Hm2 Ha2 Hm3 Ha3. unfold umsg_rates. rewrite !rate_ok by done. cbn [rbind].
  apply umsg_reports; [done|by apply prints_rate3|by apply rate3_no_nl].
Qed.

Lemma empty_line_prints : prints xml nl [] ("" ++ nl).
Proof. apply prints_lit. lit. Qed.

Lemma at_least_1_max x : 0 <= x -> at_least_1 x = Z.max 1 x.
Proof. intros H. unfold at_least_1. destruct (Z.eqb_spec 0 x); lia. Qed.

(** The totals after the resets of a cache block. *)
Definition reset_I (t : line_counts) : line_counts :=
  MkCounts (set_cc_a (Ir t)) (Dr t) (Dw t) (Bc t) (Bi t).
Definition reset_D (t : line_counts) : line_counts :=
  MkCounts (Ir t) (set_cc_a (Dr t)) (set_cc_a (Dw t)) (Bc t) (Bi t).
Definition reset_B (t : line_counts) : line_counts :=
  MkCounts (Ir t) (Dr t) (Dw t) (set_bc_b (Bc t)) (set_bc_b (Bi t)).

Definition user (ls : list string) : list (VgMsgKind * string) := map (pair Vg_UserMsg) ls.

Lemma rate1_prints lbl fmt m a : 0 <= m <= a -> no_char 37 lbl -> no_char 10 lbl ->
  fmt = (lbl ++ "%*.2f" ++ "%%" ++ nl)%string ->
  prints xml fmt [VA_Int l1; VA_Dbl false (rate_val m (Z.max 1 a))] (rate1 l1 lbl m a ++ nl) /\
  no_char 10 (rate1 l1 lbl m a).
Proof.
  intros Hm P N ->. split; [apply prints_rate1; done || lia|]. unfold rate1.
  apply no_char_app; [done|]. apply no_char_app; [apply rate_text_no_nl; lia|lit].
Qed.

(** Discharge the arithmetic side conditions of sane totals. *)
Ltac sane := unfold in_u, sum_cc in *; cbn [cc_a cc_m1 cc_mL bc_b bc_mp] in *; lia.

Lemma report_I_ok t b : totals_sane t -> vm_idle b ->
  reports (report_I xml depth no_inner_prefix clo_time_stamp pid timer ("%s " ++ field l1 ++ nl) l1 t b)
    fst (fun y => y.2 = reset_I t) b (user (take 5 (cache_lines l1 l2 l3 t))).
Proof.
  intros [[I1 I2] [R1 R2] [W1 W2] _ _ Hr _] Hb. unfold report_I, user. cbn [cache_lines take map].
  unfold set_cc_a. rewrite (at_least_1_max (cc_a (Ir t))) by lia. cbn [Ir cc_m1 cc_mL cc_a].
  rewrite !rate_ok by lia. cbn [rbind].
  apply umsg_then; [done|apply prints_line1; [done|sane]|apply line1_no_nl; [lit|sane]|intros b1 H1].
  apply umsg_then; [done|apply prints_line1; [done|sane]|apply line1_no_nl; [lit|sane]|intros b2 H2].
  destruct (rate1_prints "I1  miss rate: " I1_rate_fmt (cc_m1 (Ir t)) (cc_a (Ir t))) as [P1 N1];
    [lia|lit|lit|reflexivity|].
  destruct (rate1_prints "LLi miss rate: " LLi_rate_fmt (cc_mL (Ir t)) (cc_a (Ir t))) as [P2 N2];
    [lia|lit|lit|reflexivity|].
  apply umsg_then; [done|exact P1|exact N1|intros b3 H3].
  apply umsg_then; [done|exact P2|exact N2|intros b4 H4].
  apply umsg_then; [done|apply empty_line_prints|lit|intros b5 H5].
  apply reports_ret; [done|done|]. cbn. unfold reset_I, set_cc_a. by rewrite at_least_1_max by lia.
Qed.

Lemma add_CacheCC_sum x y : in_u 64 (cc_a x + cc_a y) -> in_u 64 (cc_m1 x + cc_m1 y) ->
  in_u 64 (cc_mL x + cc_mL y) -> add_CacheCC x y = sum_cc x y.
Proof. intros. unfold add_CacheCC, sum_cc. by rewrite !wrapu_small. Qed.

#[local] Notation rdwr := (field3 l1 l2 l3 " rd   + " " wr)").

Lemma report_D_ok t t' b : totals_sane t -> Dr t' = Dr t -> Dw t' = Dw t -> vm_idle b ->
  reports (report_D xml depth no_inner_prefix clo_time_stamp pid timer rdwr l1 l2 l3 t' b)
    (fun y => y.1.1) (fun y => y.1.2 = reset_D t' /\ y.2 = set_cc_a (sum_cc (Dr t) (Dw t))) b
    (user (take 6 (drop 5 (cache_lines l1 l2 l3 t)))).
Proof.
  intros [[I1 I2] [R1 R2] [W1 W2] _ _ Hr _] ER EW Hb. unfold report_D, user.
  cbn [cache_lines drop take map]. rewrite ER, EW, add_CacheCC_sum by sane.
  apply umsg_then; [done|apply prints_line3; sane || lit|apply line3_no_nl; sane || lit|intros b1 H1].
  apply umsg_then; [done|apply prints_line3; sane || lit|apply line3_no_nl; sane || lit|intros b2 H2].
  apply umsg_then; [done|apply prints_line3; sane || lit|apply line3_no_nl; sane || lit|intros b3 H3].
  unfold set_cc_a. cbn [Dr Dw cc_m1 cc_mL cc_a sum_cc]. rewrite !at_least_1_max by lia.
  eapply (reports_bind _ _ id _ (fun _ => True) _ _ [_]);
    [apply (umsg_rates_reports "D1  miss rate: " "  )"); done || lia || lit|intros b4 _ H4].
  eapply (reports_bind _ _ id _ (fun _ => True) _ _ [_]);
    [apply (umsg_rates_reports "LLd miss rate: " "  )"); done || lia || lit|intros b5 _ H5].
  apply umsg_then; [done|apply empty_line_prints|lit|intros b6 H6].
  apply reports_ret; [done|done|]. cbn [fst snd]. unfold reset_D, set_cc_a. cbn [cc_a cc_m1 cc_mL sum_cc].
  rewrite ER, EW. by rewrite !at_least_1_max by lia.
Qed.

Lemma report_LL_ok t b : totals_sane t -> vm_idle b ->
  reports (report_LL xml depth no_inner_prefix clo_time_stamp pid timer rdwr l1 l2 l3
             (reset_D (reset_I t)) (set_cc_a (sum_cc (Dr t) (Dw t))) b)
    id (fun _ => True) b (user (drop 11 (cache_lines l1 l2 l3 t))).
Proof.
  intros [[I1 I2] [R1 R2] [W1 W2] _ _ Hr _] Hb. unfold report_LL, user. cbn [cache_lines drop map].
  unfold reset_D, reset_I, set_cc_a. cbn [Ir Dr Dw cc_a cc_m1 cc_mL sum_cc].
  rewrite !at_least_1_max by lia. rewrite !wrapu_small by (rewrite ?wrapu_small; sane).
  apply umsg_then; [done|apply prints_line3; sane || lit|apply line3_no_nl; sane || lit|intros b1 H1].
  apply umsg_then; [done|apply prints_line3; sane || lit|apply line3_no_nl; sane || lit|intros b2 H2].
  apply (umsg_rates_reports "LL miss rate:  " "  )"); done || lia || lit.
Qed.

Lemma report_B_ok t t' b : totals_sane t -> Bc t' = Bc t -> Bi t' = Bi t -> vm_idle b ->
  reports (report_B xml depth no_inner_prefix clo_time_stamp pid timer
             (field3 l1 l2 l3 " cond + " " ind)") l1 l2 l3 t' b)
    fst (fun y => y.2 = reset_B t') b (user (branch_lines l1 l2 l3 t)).
Proof.
  intros [_ _ _ C1 B1 _ Hr] Ec Ei Hb. unfold bc_sane in *. unfold report_B, user. cbn [branch_lines map].
  unfold set_bc_b, add_BranchCC. rewrite Ec, Ei. cbn [Bc Bi bc_b bc_mp].
  rewrite !at_least_1_max by lia. rewrite !wrapu_small by sane.
  apply umsg_then; [done|apply empty_line_prints|lit|intros b1 H1].
  apply umsg_then; [done|apply prints_line3; sane || lit|apply line3_no_nl; sane || lit|intros b2 H2].
  apply umsg_then; [done|apply prints_line3; sane || lit|apply line3_no_nl; sane || lit|intros b3 H3].
  eapply (reports_bind _ _ id _ (fun _ => True) _ _ [_]);
    [apply (umsg_rates_reports "Mispred rate:  " "   )"); done || lia || lit|intros b4 _ H4].
  apply reports_ret; [done|done|]. cbn [snd]. unfold reset_B, set_bc_b. rewrite Ec, Ei.
  by rewrite !at_least_1_max by lia.
Qed.

Lemma user_app ls ls' : user (ls ++ ls') = user ls ++ user ls'.
Proof. apply map_app. Qed.

Lemma user_split ls : user ls = user (take 5 ls) ++ user (take 6 (drop 5 ls)) ++ user (drop 11 ls).
Proof.
  rewrite <- !user_app. f_equal. change 11%nat with (5 + 6)%nat. rewrite <- drop_drop.
  by rewrite !take_drop.
Qed.

(** The three caches. *)
Lemma report_caches_ok t b : totals_sane t -> vm_idle b ->
  reports (let! (b, t) := report_I xml depth no_inner_prefix clo_time_stamp pid timer
             ("%s " ++ field l1 ++ nl) l1 t b in
           let! fmt := sprintf_fmt xml rdwr_fmt [VA_Int l1; VA_Int l2; VA_Int l3] in
           let! (b, t, D) := report_D xml depth no_inner_prefix clo_time_stamp pid timer fmt l1 l2 l3 t b in
           let! b := report_LL xml depth no_inner_prefix clo_time_stamp pid timer fmt l1 l2 l3 t D b in
           Ok (b, t))
    fst (fun y => y.2 = reset_D (reset_I t)) b (user (cache_lines l1 l2 l3 t)).
Proof.
  intros Ht Hb. rewrite (user_split (cache_lines l1 l2 l3 t)).
  apply (reports_bind _ _ fst _ (fun y => y.2 = reset_I t)); [by apply report_I_ok|].
  intros [b1 t1] E1 Hb1. cbn [fst snd] in *. subst t1.
  rewrite (proj1 (three_fmt_ok xml l1 l2 l3 Hl1 Hl2 Hl3)). cbn [rbind].
  apply (reports_bind _ _ (fun y => y.1.1) _ (fun y => y.1.2 = reset_D (reset_I t) /\
    y.2 = set_cc_a (sum_cc (Dr t) (Dw t)))); [by apply report_D_ok|].
  intros [[b2 t2] D] [E2 E3] Hb2. cbn [fst snd] in *. subst t2 D.
  rewrite <- (app_nil_r (user (drop 11 _))).
  apply (reports_bind _ _ id _ (fun _ => True)); [by apply report_LL_ok|].
  intros b3 _ Hb3. by apply reports_ret.
Qed.

End logging.

(** The totals after the summary. *)
Definition report_totals (cs bs : bool) (t : line_counts) : line_counts :=
  let t := if cs then reset_D (reset_I t) else t in if bs then reset_B t else t.

Section summary.
Context (xml : bool) (depth : Z) (no_inner_prefix clo_time_stamp : bool) (pid : Z) (timer : nat -> Z).
Context (Hpid : in_s 32 pid) (Htimer : forall n, in_u 32 (timer n)).

Lemma CG_MAX_max a b : CG_MAX a b = Z.max a b.
Proof. unfold CG_MAX. rewrite Z.geb_leb. destruct (Z.leb_spec b a); lia. Qed.

Lemma report_ok cs bs t b : totals_sane t -> vm_idle b ->
  reports depth no_inner_prefix clo_time_stamp pid timer
    (report xml depth no_inner_prefix clo_time_stamp pid timer cs bs t b)
    fst (fun y => y.2 = report_totals cs bs t) b (user (report_lines cs bs t)).
Proof.
  intros Ht Hb. pose proof Ht as [[I1 I2] [R1 R2] [W1 W2] C1 B1 Hr Hbr]. unfold bc_sane in *.
  unfold report, report_lines. rewrite !CG_MAX_max.
  set (l1 := ULong_width (cc_a (Ir t))). set (l2 := ULong_width (Z.max _ (bc_b (Bc t)))).
  set (l3 := ULong_width (Z.max _ (bc_b (Bi t)))).
  assert (1 <= l1 <= 26) as H1 by (apply ULong_width_range; unfold in_u; lia).
  assert (1 <= l2 <= 26) as H2 by (apply ULong_width_range; unfold in_u; lia).
  assert (1 <= l3 <= 26) as H3 by (apply ULong_width_range; unfold in_u; lia).
  clearbody l1 l2 l3. rewrite one_fmt_ok by done. cbn [rbind].
  change (user (?l :: ?ls)) with ((Vg_UserMsg, l) :: user ls). rewrite user_app.
  apply umsg_then; [done|done|done|apply prints_line1; [done|unfold in_u; lia]
    |apply line1_no_nl; [repeat constructor; discriminate|unfold in_u; lia]|intros b1 Hb1].
  apply (reports_bind _ _ _ _ _ _ _ fst _ (fun y => y.2 = if cs then reset_D (reset_I t) else t)).
  - destruct cs; [|by apply reports_ret].
    exact (report_caches_ok xml depth no_inner_prefix clo_time_stamp pid timer Hpid Htimer l1 l2 l3
      H1 H2 H3 t b1 Ht Hb1).
  - intros [b2 t2] E2 Hb2. cbn [fst snd] in *. subst t2. unfold report_totals.
    destruct bs; [|by apply reports_ret].
    rewrite (proj2 (three_fmt_ok xml l1 l2 l3 H1 H2 H3)). cbn [rbind].
    apply report_B_ok; try done; by destruct cs.
Qed.

(** *** The statistics *)

(** The four classes of lookups and the numbers of files, functions, lines,
    instructions and table entries. *)
Record stats_numbers : Type := MkNumbers {
  n_files : Z; n_fns : Z; n_lines : Z; n_NoX : Z; n_Gen : Z;
  n_strings : Z; n_CC : Z; n_SB : Z
}.

Definition debug_lookups (s : debug_stats) : Z :=
  full_debugs s + fn_debugs s + file_line_debugs s + no_debugs s.

Definition share_line (lbl : string) (n total : Z) : string :=
  (lbl ++ rate_text 6 1 n total ++ "% (" ++ fmt_d n ++ ")")%string.

Definition stats_lines (k : stats_numbers) (s : debug_stats) : list string :=
  [EmptyString;
   "cachegrind: distinct files     : " ++ fmt_d (n_files k);
   "cachegrind: distinct functions : " ++ fmt_d (n_fns k);
   "cachegrind: distinct lines     : " ++ fmt_d (n_lines k);
   "cachegrind: distinct instrs NoX: " ++ fmt_d (n_NoX k);
   "cachegrind: distinct instrs Gen: " ++ fmt_d (n_Gen k);
   "cachegrind: debug lookups      : " ++ fmt_d (debug_lookups s);
   share_line "cachegrind: with full      info:" (full_debugs s) (debug_lookups s);
   share_line "cachegrind: with file/line info:" (file_line_debugs s) (debug_lookups s);
   share_line "cachegrind: with fn name   info:" (fn_debugs s) (debug_lookups s);
   share_line "cachegrind: with zero      info:" (no_debugs s) (debug_lookups s);
   "cachegrind: string table size: " ++ fmt_u (n_strings k);
   "cachegrind: CC table size: " ++ fmt_u (n_CC k);
   "cachegrind: InstrInfo table size: " ++ fmt_u (n_SB k)]%string.

Record stats_sane (k : stats_numbers) (s : debug_stats) : Prop := {
  ss_counts : Forall (in_s 32) [n_files k; n_fns k; n_lines k; n_NoX k; n_Gen k];
  ss_sizes : Forall (in_u 32) [n_strings k; n_CC k; n_SB k];
  ss_classes : Forall (fun n => 0 <= n) [full_debugs s; fn_debugs s; file_line_debugs s; no_debugs s];
  ss_lookups : 0 < debug_lookups s < 2 ^ 31
}.

Ltac lit' := repeat constructor; discriminate.

Lemma prints_d_line lbl x : in_s 32 x -> no_char 37 lbl -> no_char 10 lbl ->
  prints xml (lbl ++ "%d" ++ nl) [VA_Int x] ((lbl ++ fmt_d x) ++ nl) /\ no_char 10 (lbl ++ fmt_d x).
Proof.
  intros Hx P N. split.
  - apply (prints_pieces xml [(lbl, [], lbl); ("%d", [VA_Int x], fmt_d x); (nl, [], nl)]%string);
      [|reflexivity|reflexivity|cbn [fold_right snd]; by rewrite !str_app_assoc, str_app_nil_r].
    repeat apply Forall_cons_2; cbn [fst snd]; [by apply prints_lit| |apply prints_lit; lit'|constructor].
    rewrite <- (wraps_small 32 x) at 2 by done. apply prints_d.
  - apply no_char_app; [done|]. apply int64_no_char; [lia|lia|apply wrapu_range; lia].
Qed.

Lemma prints_u_line lbl x : in_u 32 x -> no_char 37 lbl -> no_char 10 lbl ->
  prints xml (lbl ++ "%u" ++ nl) [VA_Int x] ((lbl ++ fmt_u x) ++ nl) /\ no_char 10 (lbl ++ fmt_u x).
Proof.
  intros Hx P N. split.
  - apply (prints_pieces xml [(lbl, [], lbl); ("%u", [VA_Int x], fmt_u x); (nl, [], nl)]%string);
      [|reflexivity|reflexivity|cbn [fold_right snd]; by rewrite !str_app_assoc, str_app_nil_r].
    repeat apply Forall_cons_2; cbn [fst snd]; [by apply prints_lit| |apply prints_lit; lit'|constructor].
    rewrite <- (wrapu_small 32 x) at 2 by done. apply prints_u.
  - apply no_char_app; [done|]. apply int64_no_char; [lia|lia|]. unfold in_u in *. lia.
Qed.

Lemma share_reports lbl n total b : vm_idle b -> 0 <= n <= total -> 0 < total < 2 ^ 31 ->
  no_char 37 lbl -> no_char 10 lbl ->
  reports depth no_inner_prefix clo_time_stamp pid timer
    (dmsg_share xml depth no_inner_prefix clo_time_stamp pid timer
       (lbl ++ "%6.1f%% (%d)" ++ nl)%string n total b)
    id (fun _ => True) b [(Vg_DebugMsg, share_line lbl n total)].
Proof.
  intros Hb Hn Ht P N. unfold dmsg_share. rewrite rate_ok by lia. cbn [rbind].
  destruct (rate_text_ok 6 1 n total Hn ltac:(lia) ltac:(lia)) as [k Hk].
  assert (in_s 32 n) by (unfold in_s; lia). apply dmsg_reports; [done|done|done| |].
  - apply (prints_pieces xml [(lbl, [], lbl); ("%6.1f", [VA_Dbl false (rate_val n total)],
      rate_text 6 1 n total); ("%%", [], "%"); (" (", [], " ("); ("%d", [VA_Int n], fmt_d n);
      (")", [], ")"); (nl, [], nl)]%string);
      [|reflexivity|reflexivity
       |unfold share_line; cbn [fold_right snd]; by rewrite !str_app_assoc, str_app_nil_r].
    repeat apply Forall_cons_2; cbn [fst snd]; try (by apply prints_lit); try (apply prints_lit; lit');
      try apply prints_percent; [by eapply prints_f61| |constructor].
    rewrite <- (wraps_small 32 n) at 2 by done. apply prints_d.
  - unfold share_line. apply no_char_app; [done|]. apply no_char_app; [apply rate_text_no_nl; lia|].
    apply no_char_app; [lit'|]. apply no_char_app; [|lit'].
    apply int64_no_char; [lia|lia|apply wrapu_range; lia].
Qed.

Definition debug (ls : list string) : list (VgMsgKind * string) := map (pair Vg_DebugMsg) ls.

(** The numbers of a set of tables. *)
Definition numbers_of (tot : totals) (T : cg_tables) (nox gen : Z) : stats_numbers :=
  MkNumbers (distinct_files tot) (distinct_fns tot) (distinct_lines tot) nox gen
    (os_size (stringTable T)) (os_size (CC_table T)) (os_size (instrInfoTable T)).

Ltac number :=
  let side := (first [done | lit' | unfold in_s; lia]) in
  match goal with
  | |- prints _ _ _ ((?lbl ++ fmt_d ?x) ++ _) => apply (proj1 (prints_d_line lbl x ltac:(side) ltac:(side) ltac:(side)))
  | |- no_char _ (?lbl ++ fmt_d ?x) => apply (proj2 (prints_d_line lbl x ltac:(side) ltac:(side) ltac:(side)))
  | |- prints _ _ _ ((?lbl ++ fmt_u ?x) ++ _) => apply (proj1 (prints_u_line lbl x ltac:(side) ltac:(side) ltac:(side)))
  | |- no_char _ (?lbl ++ fmt_u ?x) => apply (proj2 (prints_u_line lbl x ltac:(side) ltac:(side) ltac:(side)))
  end.

Lemma report_stats_ok tot T nox gen b :
  stats_sane (numbers_of tot T nox gen) (stats T) -> vm_idle b ->
  reports depth no_inner_prefix clo_time_stamp pid timer
    (report_stats xml depth no_inner_prefix clo_time_stamp pid timer tot T nox gen b)
    id (fun _ => True) b (debug (stats_lines (numbers_of tot T nox gen) (stats T))).
Proof.
  intros [Hc Hs Hk Hl] Hb.
  rewrite !Forall_cons in Hc. rewrite !Forall_cons in Hs. rewrite !Forall_cons in Hk.
  destruct Hc as (F1 & F2 & F3 & F4 & F5 & _), Hs as (S1 & S2 & S3 & _), Hk as (K1 & K2 & K3 & K4 & _).
  unfold report_stats. change (full_debugs ?s + _ + _ + _) with (debug_lookups s).
  rewrite wraps_small by (unfold in_s; lia). unfold debug, stats_lines. cbn [map].
  set (tl := debug_lookups (stats T)) in *.
  assert (tl = full_debugs (stats T) + fn_debugs (stats T) + file_line_debugs (stats T)
    + no_debugs (stats T)) as Etl by done. clearbody tl.
  apply dmsg_then; [done|done|done|apply prints_lit; lit'|lit'|intros b1 H1].
  do 6 (apply dmsg_then; [done|done|done|number|number|intros ? ?]).
  do 4 (match goal with |- reports _ _ _ _ _ _ _ _ _ ((_, share_line ?lbl ?n ?t) :: _) =>
    apply (reports_bind _ _ _ _ _ _ _ id _ (fun _ => True) _ _ [(Vg_DebugMsg, share_line lbl n t)]);
    [apply (share_reports lbl n t); done || lia || lit'|intros ? _ ?] end).
  do 2 (apply dmsg_then; [done|done|done|number|number|intros ? ?]).
  apply dmsg_reports; [done|done|done|number|number].
Qed.

End summary.

(** ** Totals *)

Definition refs_of (c : line_counts) : Z := cc_a (Ir c) + cc_a (Dr c) + cc_a (Dw c).
Definition branches_of (c : line_counts) : Z := bc_b (Bc c) + bc_b (Bi c).

Definition counts_sane (c : line_counts) : Prop :=
  cc_sane (Ir c) /\ cc_sane (Dr c) /\ cc_sane (Dw c) /\ bc_sane (Bc c) /\ bc_sane (Bi c).

Fixpoint sum_of (f : line_counts -> Z) (ls : list line_counts) : Z :=
  match ls with [] => 0 | c :: ls' => f c + sum_of f ls' end.

(** Every line has at most as many misses as accesses, and there are fewer
    than 2^64 - 2 references and branches in all. *)
Record run_sane (ls : list line_counts) : Prop := {
  rs_lines : Forall counts_sane ls;
  rs_refs : sum_of refs_of ls + 2 < 2 ^ 64;
  rs_branches : sum_of branches_of ls + 2 < 2 ^ 64
}.

Lemma sum_of_nonneg f ls : (forall c, counts_sane c -> 0 <= f c) -> Forall counts_sane ls ->
  0 <= sum_of f ls.
Proof.
  intros Hf. induction 1 as [|c ls Hc _ IH]; cbn [sum_of]; [lia|]. specialize (Hf c Hc). lia.
Qed.

Lemma refs_nonneg c : counts_sane c -> 0 <= refs_of c.
Proof. intros (H1 & H2 & H3 & _). unfold cc_sane, refs_of in *. lia. Qed.

Lemma branches_nonneg c : counts_sane c -> 0 <= branches_of c.
Proof. intros (_ & _ & _ & H1 & H2). unfold bc_sane, branches_of in *. lia. Qed.

Lemma add_counts_sane x y : counts_sane x -> counts_sane y ->
  refs_of x + refs_of y < 2 ^ 64 -> branches_of x + branches_of y < 2 ^ 64 ->
  counts_sane (add_counts x y) /\ refs_of (add_counts x y) = refs_of x + refs_of y /\
  branches_of (add_counts x y) = branches_of x + branches_of y.
Proof.
  intros (A1 & A2 & A3 & A4 & A5) (B1 & B2 & B3 & B4 & B5) Hr Hb.
  unfold counts_sane, cc_sane, bc_sane, refs_of, branches_of in *.
  unfold add_counts, add_CacheCC, add_BranchCC.
  cbn [Ir Dr Dw Bc Bi cc_a cc_m1 cc_mL bc_b bc_mp].
  rewrite !wrapu_small by (unfold in_u; lia). lia.
Qed.

Lemma total_sane ls : run_sane ls -> totals_sane (fold_left add_counts ls zero_counts).
Proof.
  intros [Hl Hr Hb].
  assert (forall x, counts_sane x -> refs_of x + sum_of refs_of ls + 2 < 2 ^ 64 ->
    branches_of x + sum_of branches_of ls + 2 < 2 ^ 64 -> totals_sane (fold_left add_counts ls x)) as H.
  { clear Hr Hb. induction Hl as [|c ls Hc Hl IH]; intros x Hx H1 H2; cbn [fold_left sum_of] in *.
    - destruct Hx as (? & ? & ? & ? & ?). unfold refs_of, branches_of in *. split; try done; lia.
    - pose proof (sum_of_nonneg refs_of ls refs_nonneg Hl).
      pose proof (sum_of_nonneg branches_of ls branches_nonneg Hl).
      destruct (add_counts_sane x c Hx Hc) as (Ha & Er & Eb); [lia..|]. apply IH; [done|lia..]. }
  apply H; [|change (refs_of zero_counts) with 0; lia|change (branches_of zero_counts) with 0; lia].
  unfold counts_sane, cc_sane, bc_sane; cbn. lia.
Qed.

Lemma fold_counts (ls : list line_rec) x :
  fold_left (fun x (r : line_rec) => add_counts x r.2) ls x = fold_left add_counts (map snd ls) x.
Proof. revert x; induction ls as [|r ls IH]; intros x; [done|]. apply IH. Qed.

(** The counters of the lines of the table, in table order. *)
Definition table_counts (T : cg_tables) : list line_counts := map snd (lines_of T).
Definition total_counts (T : cg_tables) : line_counts :=
  fold_left add_counts (table_counts T) zero_counts.

(** What the statistics show. *)
Definition final_numbers (T : cg_tables) (nox gen : Z) : stats_numbers :=
  MkNumbers
    (Z.of_nat (length (remove_dups (map (fun r : line_rec => loc_file r.1) (lines_of T)))))
    (Z.of_nat (length (remove_dups (map (fun r : line_rec => loc_names r.1) (lines_of T)))))
    (Z.of_nat (length (CC_store T))) nox gen
    (os_size (stringTable T)) (Z.of_nat (length (CC_store T))) (os_size (instrInfoTable T)).

(** ** Theorems *)

(** The column widths.  [ULong_width n] is the number of characters
    [%,llu] prints for [n], and a column of that width holds every number up
    to [n] in exactly that many characters: the columns of the summary line up. *)
Theorem ULong_width_correct (n x : Z) :
  in_u 64 n -> 0 <= x <= n ->
  str_len (fmt_comma 0 n) = ULong_width n /\
  str_len (fmt_comma (ULong_width n) x) = ULong_width n /\
  1 <= ULong_width n <= 26.
Proof.
  intros Hn Hx. assert (in_u 64 x) by (unfold in_u in *; lia).
  pose proof (ULong_width_range n Hn). pose proof (ULong_width_mono x n ltac:(lia)).
  rewrite !fmt_comma_len by done. lia.
Qed.

Lemma ULong_width_correct_witness :
  str_len (fmt_comma 0 1234567) = 9 /\ str_len (fmt_comma 9 42) = 9.
Proof.
  destruct (ULong_width_correct 1234567 42) as (H1 & H2 & _);
    [by unfold in_u|lia|]. exact (conj H1 H2).
Defined.

(** C26. The end of a run.  With well-formed tables whose counters are those of a
    run, [cg_fini] returns.  The output file is the one
    [fprint_CC_table_and_calc_totals] specifies, and the log gains exactly the
    lines of the summary for the column sums of the table, followed, if asked
    for, by the statistics: the numbers of different files and functions, of
    lines, and of entries in the three tables.  No format overflows its
    128-byte buffer, no division by zero and no undefined conversion occurs,
    also when there were no references at all. *)
Theorem cg_fini_correct (xml : bool) (depth : Z) (no_inner_prefix clo_time_stamp : bool) (pid : Z)
    (timer : nat -> Z) (cs bs clo_stats : bool) (clo_verbosity : Z) (out_file : string) (c : caches3)
    (exename : string) (client_args : list string) (nox gen : Z) (T : cg_tables) (b : vmessage_buf_t) :
  in_s 32 pid -> (forall n, in_u 32 (timer n)) -> vm_idle b -> clo_verbosity <> 0 ->
  tables_wf T -> Forall counts_in_u64 (CC_store T) -> Z.of_nat (length (CC_store T)) <= ITER_MAX ->
  run_sane (table_counts T) ->
  (clo_stats = true -> stats_sane (final_numbers T nox gen) (stats T)) ->
  exists T' tot b',
    cg_fini xml depth no_inner_prefix clo_time_stamp pid timer cs bs clo_stats clo_verbosity true
      out_file c exename client_args nox gen T zero_totals b
    = Ok (T', tot, Some (file_contents cs bs (desc_line (I1 c)) (desc_line (D1 c)) (desc_line (LL c))
                           exename client_args (lines_of T)), b') /\
    lines_of T' = lines_of T /\ vm_idle b' /\
    vm_sent b' = (vm_sent b ++ log_text depth no_inner_prefix clo_time_stamp pid timer
      (user (report_lines cs bs (total_counts T)) ++
       (if clo_stats then debug (stats_lines (final_numbers T nox gen) (stats T)) else []))
      (vm_reads b))%string.
Proof.
  intros Hpid Htm Hb Hv HT Hu Hmax Hrun Hstats. unfold cg_fini.
  destruct (fprint_ok cs bs xml T HT Hu c exename client_args Hmax)
    as (T' & tot & -> & HT' & Hlines & Htot & Hf & Hn & Hd & t & ET). cbn [rbind].
  destruct (heads_distinct T HT) as [E1 E2]. rewrite (proj2 (Z.eqb_neq _ _) Hv).
  rewrite fold_counts in Htot. change (fold_left _ _ _) with (total_counts T) in Htot. rewrite Htot.
  destruct (report_ok xml depth no_inner_prefix clo_time_stamp pid timer Hpid Htm cs bs (total_counts T) b
    (total_sane _ Hrun) Hb) as ([b1 t1] & -> & _ & HL1). cbn [rbind].
  set (tot' := MkTotals t1 _ _ _).
  assert (clo_stats = true -> numbers_of tot' T' nox gen = final_numbers T nox gen) as EN.
  { intros _. unfold numbers_of, final_numbers, tot'. cbn [distinct_files distinct_fns distinct_lines].
    rewrite Hf, Hn, Hd, E1, E2. unfold lines_of at 3. rewrite length_map.
    rewrite (cw_len _ _ _ (tw_cc _ HT)). f_equal; [by rewrite ET| |by rewrite ET].
    rewrite os_size_ok by apply HT'. rewrite (cw_len _ _ _ (tw_cc _ HT')), ET. done. }
  destruct clo_stats.
  - specialize (EN eq_refl). specialize (Hstats eq_refl).
    destruct (report_stats_ok xml depth no_inner_prefix clo_time_stamp pid timer Hpid Htm tot' T' nox gen b1)
      as (b2 & -> & _ & HL2); [rewrite EN; by rewrite ET|apply HL1|]. cbn [rbind].
    destruct (logged_app _ _ _ _ _ _ _ _ _ _ HL1 HL2) as (Hi & _ & Hs).
    exists T', tot', b2. split; [done|]. split; [done|]. split; [done|].
    rewrite EN in Hs. change (id b2) with b2 in Hs. rewrite Hs. by rewrite ET.
  - cbn [rbind]. destruct HL1 as (Hi & _ & Hs). exists T', tot', b1.
    rewrite app_nil_r. done.
Qed.

Lemma demo_run_sane : run_sane (table_counts two_lines).
Proof.
  assert (table_counts two_lines = [zero_counts; zero_counts]) as -> by (vm_compute; reflexivity).
  split; [|by apply Z.ltb_lt; vm_compute|by apply Z.ltb_lt; vm_compute].
  repeat constructor; unfold cc_sane, bc_sane; cbn; lia.
Qed.

Lemma cg_fini_correct_witness :
  exists T' tot b',
    cg_fini false 0 false false 99 (fun _ => 0) false false false 1 true "cachegrind.out.99" demo_caches
      "prog" [] 0 0 two_lines zero_totals vmessage_buf
    = Ok (T', tot, Some (file_contents false false (desc_line (I1 demo_caches)) (desc_line (D1 demo_caches))
            (desc_line (LL demo_caches)) "prog" [] (lines_of two_lines)), b') /\
    vm_sent b' = ("==99== I   refs:      0" ++ nl)%string.
Proof.
  destruct (cg_fini_correct false 0 false false 99 (fun _ => 0) false false false 1 "cachegrind.out.99"
    demo_caches "prog" [] 0 0 two_lines vmessage_buf) as (T' & tot & b' & H & _ & _ & Hs);
    [done|done|done|lia|apply two_lines_wf|apply two_lines_u64|by apply Z.leb_le; vm_compute
    |apply demo_run_sane|done|].
  exists T', tot, b'. split; [exact H|]. rewrite Hs. vm_compute. reflexivity.
Defined.
