(* ===== verification/CgInit.v ===== *)
(** * CgInit: options and start-up (cachegrind/cg_main.c)

    [cg_process_cmd_line_option], called for every argument, and
    [cg_post_clo_init], called once afterwards: it makes the tables, decides
    the geometry of the caches, refuses line sizes the instrumenter could not
    live with, and initialises the simulator.  The theorem says that what the
    later phases rely on holds after any start-up that was not refused. *)

From Stdlib Require Import ZArith Lia Ascii String.
From stdpp Require Import base numbers option strings gmap list.
From S2P Require Import Prelude Libcbase Debuglog Vprintf Libcprint Vmessage CgArch CgSim OSet CgTables CgOutput CgFini.

#[local] Open Scope Z_scope.

(** ** Options *)

(** The variables the command line sets. *)
Record cg_options : Type := MkOptions {
  opt_caches : clo_caches;
  clo_cache_sim : bool;
  clo_branch_sim : bool;
  clo_cachegrind_out_file : string
}.

(** Their initial values. *)
Definition default_options : cg_options :=
  MkOptions (MkCloCaches UNDEFINED_CACHE UNDEFINED_CACHE UNDEFINED_CACHE) true false "cachegrind.out.%p".

(** [VG_BOOL_CLO(arg, option, var)]: [None] if [arg] is another option. *)
Definition VG_BOOL_CLO (arg opt : string) : option (res bool) :=
  match VG_STR_CLO arg opt with
  | Some val =>
      Some (if VG_strcmp val "yes" =? 0 then Ok true
            else if VG_strcmp val "no" =? 0 then Ok false
            else fmsg_bad_option arg "Invalid boolean value")
  | None => None
  end.

Definition cg_process_cmd_line_option (arg : string) (o : cg_options) : res (bool * cg_options) :=
  let! (recognised, cl) := VG_str_clo_cache_opt arg (opt_caches o) in
  if recognised then Ok (true, MkOptions cl (clo_cache_sim o) (clo_branch_sim o) (clo_cachegrind_out_file o))
  else match VG_STR_CLO arg "--cachegrind-out-file" with
  | Some val => Ok (true, MkOptions (opt_caches o) (clo_cache_sim o) (clo_branch_sim o) val)
  | None =>
  match VG_BOOL_CLO arg "--cache-sim" with
  | Some r => let! v := r in
      Ok (true, MkOptions (opt_caches o) v (clo_branch_sim o) (clo_cachegrind_out_file o))
  | None =>
  match VG_BOOL_CLO arg "--branch-sim" with
  | Some r => let! v := r in
      Ok (true, MkOptions (opt_caches o) (clo_cache_sim o) v (clo_cachegrind_out_file o))
  | None => Ok (false, o)
  end end end.

(** The arguments one by one; the core refuses those no one recognises. *)
Definition process_options (args : list string) : res cg_options :=
  res_fold (fun arg o =>
    let! (recognised, o) := cg_process_cmd_line_option arg o in
    if (recognised : bool) then Ok o else Err (Exit 1 "Unknown option")) args default_options.

Example options_example :
  process_options ["--cache-sim=yes"; "--branch-sim=yes"; "--D1=32768,8,64"; "--cachegrind-out-file=out"]%string
  = Ok (MkOptions (MkCloCaches UNDEFINED_CACHE (Cache 32768 8 64) UNDEFINED_CACHE) true true "out") /\
  process_options ["--cache-sim=maybe"%string] =
    Err (Exit 1 "Invalid boolean value").
Proof. vm_compute. auto. Qed.

(** ** Start-up *)

(** The smallest of the three line sizes. *)
Definition min_line_size (I1c D1c LLc : cache_t) : Z :=
  let m := if line_size I1c <? line_size D1c then line_size I1c else line_size D1c in
  if line_size LLc <? m then line_size LLc else m.

Section init.
Context (clo_xml : bool) (depth : Z) (no_inner_prefix clo_time_stamp : bool) (pid : Z) (timer : nat -> Z).

#[local] Notation umsg := (VG_umsg clo_xml depth no_inner_prefix clo_time_stamp pid timer).

(** [cg_post_clo_init]: the tables, [min_line_size] and the simulator, or
    [None] when the process exits after its message.  The size of the largest
    guest register comes from the core. *)
Definition cg_post_clo_init (arch : VGA) (ci : VexCacheInfo) (largest_load_or_store_size : Z)
    (o : cg_options) (b : vmessage_buf_t) : res (vmessage_buf_t * option (cg_tables * Z * caches3)) :=
  let T := empty_tables in
  let! (I1c, D1c, LLc) := VG_post_clo_init_configure_caches arch ci (opt_caches o) in
  let m := min_line_size I1c D1c LLc in
  if m <? largest_load_or_store_size then
    let! b := umsg ("Cachegrind: cannot continue: the minimum line size (%d)" ++ nl)%string [VA_Int m] b in
    let! b := umsg ("  must be equal to or larger than the maximum register size (%d)" ++ nl)%string
                [VA_Int largest_load_or_store_size] b in
    let! b := umsg ("  but it is not.  Exiting now." ++ nl)%string [] b in
    Ok (b, None)
  else
    let! c := cachesim_initcaches I1c D1c LLc in
    Ok (b, Some (T, m, c)).

End init.

(** ** Lemmas *)

Lemma clo_cache_opt_ok arg clo r clo' :
  clo_ok (clo_I1c clo) /\ clo_ok (clo_D1c clo) /\ clo_ok (clo_LLc clo) ->
  VG_str_clo_cache_opt arg clo = Ok (r, clo') ->
  clo_ok (clo_I1c clo') /\ clo_ok (clo_D1c clo') /\ clo_ok (clo_LLc clo').
Proof.
  intros (HI & HD & HL) H. unfold VG_str_clo_cache_opt in H.
  repeat case_match; try (by simplify_eq);
    (apply rbind_ok in H as (c & Hc & H); simplify_eq; cbn [clo_I1c clo_D1c clo_LLc];
     apply parse_cache_opt_inv in Hc as [Hi Hc]; pose proof (check_cache_sound _ Hi Hc);
     unfold clo_ok in *; tauto).
Qed.

(** Whatever options have been accepted, the caches set by them are valid. *)
Definition options_ok (o : cg_options) : Prop :=
  clo_ok (clo_I1c (opt_caches o)) /\ clo_ok (clo_D1c (opt_caches o)) /\ clo_ok (clo_LLc (opt_caches o)).

Lemma process_option_ok arg o r o' :
  options_ok o -> cg_process_cmd_line_option arg o = Ok (r, o') -> options_ok o'.
Proof.
  intros Ho H. unfold cg_process_cmd_line_option in H.
  apply rbind_ok in H as ([rec cl] & Hc & H). apply clo_cache_opt_ok in Hc; [|done].
  unfold options_ok in *.
  destruct rec; [by simplify_eq|]. repeat case_match; simplify_eq; try done;
    by apply rbind_ok in H as (v & _ & H); simplify_eq.
Qed.

Lemma process_options_ok args o : process_options args = Ok o -> options_ok o.
Proof.
  apply (res_fold_inv options_ok).
  - intros arg o1 o2 Ho H. apply rbind_ok in H as ([r o3] & H1 & H).
    apply process_option_ok in H1; [|done]. by destruct r; simplify_eq.
  - repeat split; by left.
Qed.

Lemma min_line_size_min I1c D1c LLc :
  min_line_size I1c D1c LLc = Z.min (line_size I1c) (Z.min (line_size D1c) (line_size LLc)).
Proof. unfold min_line_size. case_Z; lia. Qed.

Lemma valid_line_int c : valid_cache c -> 16 <= line_size c < 2 ^ 31.
Proof.
  intros [_ Hm Ha (s & Hs & E) Hmax]. apply is_pow2_pos in Hs. unfold MIN_LINE_SIZE in Hm.
  split; [lia|]. assert (1 <= assoc c * s) by nia. nia.
Qed.

Lemma paren_line xml lbl x : in_s 32 x -> no_char 37 lbl -> no_char 10 lbl ->
  prints xml (lbl ++ "%d)" ++ nl) [VA_Int x] ((lbl ++ fmt_d x ++ ")") ++ nl) /\
  no_char 10 (lbl ++ fmt_d x ++ ")").
Proof.
  intros Hx P N. split.
  - apply (prints_pieces xml [(lbl, [], lbl); ("%d", [VA_Int x], fmt_d x); (")", [], ")"); (nl, [], nl)]%string);
      [|reflexivity|reflexivity|cbn [fold_right snd]; by rewrite !str_app_assoc, str_app_nil_r].
    repeat apply Forall_cons_2; cbn [fst snd]; [by apply prints_lit|
      |apply prints_lit; repeat constructor; discriminate..|constructor].
    rewrite <- (wraps_small 32 x) at 2 by done. apply prints_d.
  - apply no_char_app; [done|]. apply no_char_app; [|repeat constructor; discriminate].
    apply int64_no_char; [lia|lia|apply wrapu_range; lia].
Qed.

(** The refusal of a line size: three messages, then the result. *)
Section refuse.
Context (xml : bool) (depth : Z) (no_inner_prefix clo_time_stamp : bool) (pid : Z) (timer : nat -> Z).
Context (Hpid : in_s 32 pid) (Htm : forall n, in_u 32 (timer n)).

#[local] Notation umsg := (VG_umsg xml depth no_inner_prefix clo_time_stamp pid timer).

Definition refusal_lines (lbl : string) (m largest : Z) : list string :=
  [lbl ++ fmt_d m ++ ")";
   "  must be equal to or larger than the maximum register size (" ++ fmt_d largest ++ ")";
   "  but it is not.  Exiting now."]%string.

Lemma refuse_reports {B} lbl m largest (r : B) b :
  vm_idle b -> in_s 32 m -> in_s 32 largest -> no_char 37 lbl -> no_char 10 lbl ->
  reports depth no_inner_prefix clo_time_stamp pid timer
    (let! b := umsg (lbl ++ "%d)" ++ nl)%string [VA_Int m] b in
     let! b := umsg ("  must be equal to or larger than the maximum register size (%d)" ++ nl)%string
                 [VA_Int largest] b in
     let! b := umsg ("  but it is not.  Exiting now." ++ nl)%string [] b in
     Ok (b, r)) fst (fun y => y.2 = r) b (user (refusal_lines lbl m largest)).
Proof using Hpid Htm.
  intros Hb Hm Hlg P N.
  destruct (paren_line xml lbl m Hm P N) as [P1 N1].
  destruct (paren_line xml "  must be equal to or larger than the maximum register size (" largest)
    as [P2 N2]; [done|repeat constructor; discriminate..|].
  apply umsg_then; [done|done|done|exact P1|exact N1|intros b1 Hb1].
  apply umsg_then; [done|done|done|exact P2|exact N2|intros b2 Hb2].
  apply umsg_then; [done|done|done|apply prints_lit; repeat constructor; discriminate
    |repeat constructor; discriminate|intros b3 Hb3].
  by apply reports_ret.
Qed.
End refuse.

Definition refusal (m largest : Z) : list string :=
  refusal_lines "Cachegrind: cannot continue: the minimum line size (" m largest.

(** ** Theorems *)

(** C27. Start-up.  After any sequence of accepted options and any description
    of the hardware that yields caches, either the profiler refuses to run,
    with its three-line message, because a register is wider than a cache
    line, or it is ready: the caches are valid and initialised, the tables
    well formed and empty, and every access of at most [min_line_size] bytes,
    which includes every register-sized access, spans at most two lines of
    every cache. *)
Theorem startup_ready (xml : bool) (depth : Z) (no_inner_prefix clo_time_stamp : bool) (pid : Z)
    (timer : nat -> Z) (arch : VGA) (ci : VexCacheInfo) (largest : Z) (args : list string)
    (o : cg_options) (I1c D1c LLc : cache_t) (b : vmessage_buf_t) :
  in_s 32 pid -> (forall n, in_u 32 (timer n)) -> vm_idle b -> in_s 32 largest ->
  process_options args = Ok o ->
  VG_post_clo_init_configure_caches arch ci (opt_caches o) = Ok (I1c, D1c, LLc) ->
  let m := min_line_size I1c D1c LLc in
  let init := cg_post_clo_init xml depth no_inner_prefix clo_time_stamp pid timer arch ci largest o b in
  (m < largest -> exists b', init = Ok (b', None) /\
    logged depth no_inner_prefix clo_time_stamp pid timer b (user (refusal m largest)) b') /\
  (largest <= m -> exists c, init = Ok (b, Some (empty_tables, m, c)) /\
    valid_cache I1c /\ valid_cache D1c /\ valid_cache LLc /\
    cachesim_initcaches I1c D1c LLc = Ok c /\ tables_wf empty_tables /\
    16 <= m /\ m <= line_size I1c /\ m <= line_size D1c /\ m <= line_size LLc).
Proof.
  intros Hpid Htm Hb Hlg Hopt Hcfg m init. subst init. unfold cg_post_clo_init. rewrite Hcfg. cbn [rbind].
  pose proof (process_options_ok args o Hopt) as (HI & HD & HL).
  destruct (configure_valid arch ci _ _ _ _ HI HD HL Hcfg) as (VI & VD & VL).
  pose proof (valid_line_int _ VI). pose proof (valid_line_int _ VD). pose proof (valid_line_int _ VL).
  pose proof (min_line_size_min I1c D1c LLc) as Em. fold m in Em |- *. split; intros Hm.
  - rewrite (proj2 (Z.ltb_lt _ _) Hm).
    destruct (refuse_reports xml depth no_inner_prefix clo_time_stamp pid timer Hpid Htm
      "Cachegrind: cannot continue: the minimum line size (" m largest
      (None : option (cg_tables * Z * caches3)) b) as ([b' r] & E & Er & Hlog);
      [done|unfold in_s; lia|done|repeat constructor; discriminate..|].
    cbn in Er. subst r. by exists b'.
  - rewrite (proj2 (Z.ltb_ge _ _) Hm).
    destruct (initcache_geom I1c VI) as (i & Ei & _). destruct (initcache_geom D1c VD) as (d & Ed & _).
    destruct (initcache_geom LLc VL) as (l & El & _).
    assert (cachesim_initcaches I1c D1c LLc = Ok (Caches3 i d l)) as Ec
      by (unfold cachesim_initcaches; rewrite Ei, Ed, El; reflexivity).
    exists (Caches3 i d l). rewrite Ec. cbn [rbind].
    split_and!; try done; try lia. apply empty_tables_wf.
Qed.

Lemma startup_ready_witness :
  exists c, cg_post_clo_init false 0 false false 7 (fun _ => 0) VGA_amd64 (MkVexCacheInfo 0 []) 32
      (MkOptions (MkCloCaches UNDEFINED_CACHE (Cache 32768 8 64) UNDEFINED_CACHE) true false
         "cachegrind.out.%p") vmessage_buf
      = Ok (vmessage_buf, Some (empty_tables, 64, c)).
Proof.
  destruct (startup_ready false 0 false false 7 (fun _ => 0) VGA_amd64 (MkVexCacheInfo 0 []) 32
    ["--D1=32768,8,64"%string] (MkOptions (MkCloCaches UNDEFINED_CACHE (Cache 32768 8 64) UNDEFINED_CACHE)
    true false "cachegrind.out.%p") (Cache 65536 2 64) (Cache 32768 8 64) (Cache 262144 8 64) vmessage_buf)
    as [_ H].
  - by unfold in_s.
  - done.
  - done.
  - by unfold in_s.
  - vm_compute. reflexivity.
  - vm_compute. reflexivity.
  - destruct H as (c & E & _); [by apply Z.leb_le; vm_compute|]. exists c. exact E.
Defined.
