(* ===== verification/ClgInit.v ===== *)
(** * ClgInit: callgrind's options, simulator set-up and event sets
    (callgrind/global.h, clo.c and sim.c)

    The variables the command line sets, the parser of the simulator's options
    ([cachesim_parse_opt]), the set-up of the simulator
    ([cachesim_post_clo_init]), of the event sets and of the columns of the
    profile ([init_eventsets]), and the remaining entries of the simulator's
    interface.  CLG_DEBUG output is left out. *)

From Stdlib Require Import ZArith Lia Ascii String.
From stdpp Require Import base numbers option strings gmap list.
From S2P Require Import Prelude Libcbase Debuglog Vprintf Libcprint Vmessage CgArch Lru CgSim ClgCosts ClgEvents ClgSim ClgWb ClgUse ClgLog CgFini CgInit.

#[local] Open Scope Z_scope.

(** ** Options *)

Inductive Collect_Systime : Type := systime_no | systime_msec | systime_usec | systime_nsec.

#[global] Instance Collect_Systime_eq_dec : EqDecision Collect_Systime.
Proof. solve_decision. Defined.

(** [CLG_(clo)], without the fields of debug builds. *)
Record CommandLineOptions : Type := MkClo {
  out_format : option string;
  combine_dumps : bool;
  compress_strings : bool;
  compress_events : bool;
  compress_pos : bool;
  mangle_names : bool;
  compress_mangled : bool;
  dump_line : bool;
  dump_instr : bool;
  dump_bb : bool;
  dump_bbs : bool;
  dump_every_bb : Z;
  separate_threads : bool;
  separate_callers : Z;
  separate_recursions : Z;
  skip_plt : bool;
  skip_direct_recursion : bool;
  collect_atstart : bool;
  collect_jumps : bool;
  collect_alloc : bool;
  collect_systime : Collect_Systime;
  collect_bus : bool;
  instrument_atstart : bool;
  simulate_cache : bool;
  simulate_branch : bool;
  pop_on_jump : bool
}.

Definition set_clo_defaults : CommandLineOptions := {|
  out_format := None;
  combine_dumps := false;
  compress_strings := true;
  compress_mangled := false;
  compress_events := false;
  compress_pos := true;
  mangle_names := true;
  dump_line := true;
  dump_instr := false;
  dump_bb := false;
  dump_bbs := false;
  dump_every_bb := 0;
  separate_threads := false;
  collect_atstart := true;
  collect_jumps := false;
  collect_alloc := false;
  collect_systime := systime_no;
  collect_bus := false;
  skip_plt := true;
  separate_callers := 0;
  separate_recursions := 2;
  skip_direct_recursion := false;
  instrument_atstart := true;
  simulate_cache := false;
  simulate_branch := false;
  pop_on_jump := false
|}.

(** The static variables of sim.c. *)
Record sim_options : Type := MkSimOptions {
  so_caches : clo_caches;
  so_writeback : bool;
  so_hwpref : bool;
  so_sectors : bool;
  so_cacheuse : bool
}.

Definition sim_options0 : sim_options :=
  MkSimOptions (MkCloCaches UNDEFINED_CACHE UNDEFINED_CACHE UNDEFINED_CACHE) false false false false.

Definition set_dump_instr (c : CommandLineOptions) : CommandLineOptions :=
  MkClo (out_format c) (combine_dumps c) (compress_strings c) (compress_events c) (compress_pos c)
    (mangle_names c) (compress_mangled c) (dump_line c) true (dump_bb c) (dump_bbs c)
    (dump_every_bb c) (separate_threads c) (separate_callers c) (separate_recursions c) (skip_plt c)
    (skip_direct_recursion c) (collect_atstart c) (collect_jumps c) (collect_alloc c)
    (collect_systime c) (collect_bus c) (instrument_atstart c) (simulate_cache c) (simulate_branch c)
    (pop_on_jump c).

Definition cachesim_parse_opt (arg : string) (so : sim_options) (clo : CommandLineOptions)
  : res (bool * sim_options * CommandLineOptions) :=
  match VG_BOOL_CLO arg "--simulate-wb" with
  | Some r => let! v := r in
      Ok (true, MkSimOptions (so_caches so) v (so_hwpref so) (so_sectors so) (so_cacheuse so), clo)
  | None =>
  match VG_BOOL_CLO arg "--simulate-hwpref" with
  | Some r => let! v := r in
      Ok (true, MkSimOptions (so_caches so) (so_writeback so) v (so_sectors so) (so_cacheuse so), clo)
  | None =>
  match VG_BOOL_CLO arg "--simulate-sectors" with
  | Some r => let! v := r in
      Ok (true, MkSimOptions (so_caches so) (so_writeback so) (so_hwpref so) v (so_cacheuse so), clo)
  | None =>
  match VG_BOOL_CLO arg "--cacheuse" with
  | Some r => let! v := r in
      Ok (true, MkSimOptions (so_caches so) (so_writeback so) (so_hwpref so) (so_sectors so) v,
          if (v : bool) then set_dump_instr clo else clo)
  | None =>
      let! (recognised, cl) := VG_str_clo_cache_opt arg (so_caches so) in
      if (recognised : bool) then
        Ok (true, MkSimOptions cl (so_writeback so) (so_hwpref so) (so_sectors so) (so_cacheuse so), clo)
      else Ok (false, so, clo)
  end end end end.

(** ** The interface of the simulator *)

Abbreviation log_1 := (simulator -> clg_state -> InstrInfo -> res clg_state).
Abbreviation log_data := (simulator -> clg_state -> InstrInfo -> Z -> Z -> res clg_state).

(** The helpers the instrumenter may call; [None] is the null pointer. *)
Record cachesim_if : Type := MkIf {
  if_log_1I0D : option log_1;
  if_log_2I0D : option (simulator -> clg_state -> InstrInfo -> InstrInfo -> res clg_state);
  if_log_3I0D : option (simulator -> clg_state -> InstrInfo -> InstrInfo -> InstrInfo -> res clg_state);
  if_log_1I1Dr : option log_data;
  if_log_1I1Dw : option log_data;
  if_log_0I1Dr : option log_data;
  if_log_0I1Dw : option log_data;
  log_1I0D_name : string;
  log_2I0D_name : string;
  log_3I0D_name : string;
  log_1I1Dr_name : string;
  log_1I1Dw_name : string;
  log_0I1Dr_name : string;
  log_0I1Dw_name : string
}.

Definition no_helpers : cachesim_if :=
  MkIf None None None None None None None "(no function)" "(no function)" "(no function)"
    "(no function)" "(no function)" "(no function)" "(no function)".

Definition std_helpers : cachesim_if :=
  MkIf (Some log_1I0D) (Some log_2I0D) (Some log_3I0D) (Some log_1I1Dr) (Some log_1I1Dw)
    (Some log_0I1Dr) (Some log_0I1Dw) "log_1I0D" "log_2I0D" "log_3I0D" "log_1I1Dr" "log_1I1Dw"
    "log_0I1Dr" "log_0I1Dw".

Definition cacheuse_model : simulator :=
  MkSimulator cacheuse_I1_doRead cacheuse_D1_doRead cacheuse_D1_doRead.
Definition prefetch_wb_model : simulator :=
  MkSimulator (on_caches prefetch_I1_Read) (on_caches prefetch_D1_Read) (on_caches prefetch_D1_Write).
Definition prefetch_model : simulator :=
  MkSimulator (on_caches prefetch_I1_ref) (on_caches prefetch_D1_ref) (on_caches prefetch_D1_ref).
Definition wb_model : simulator :=
  MkSimulator (on_caches cachesim_I1_Read) (on_caches cachesim_D1_Read) (on_caches cachesim_D1_Write).

(** What the set-up leaves: the helpers, [min_line_size], the caches and the
    functions of [simulator] ([None]: untouched), and the options, which it may
    change. *)
Record sim_setup : Type := MkSetup {
  su_if : cachesim_if;
  su_min_line_size : Z;
  su_sim : option (sim_state * simulator);
  su_options : sim_options
}.

(** The functions behind the helpers, by the options. *)
Definition select_simulator (so : sim_options) (x : sim_state) : sim_state * simulator :=
  if so_cacheuse so then (x, cacheuse_model)
  else if so_hwpref so then
    (prefetch_clear x, if so_writeback so then prefetch_wb_model else prefetch_model)
  else (x, if so_writeback so then wb_model else simple_model).

Section setup.
Context (clo_xml : bool) (depth : Z) (no_inner_prefix clo_time_stamp : bool) (pid : Z) (timer : nat -> Z).

#[local] Notation umsg := (VG_umsg clo_xml depth no_inner_prefix clo_time_stamp pid timer).
#[local] Notation dmsg := (VG_dmsg clo_xml depth no_inner_prefix clo_time_stamp pid timer).

(** With cache use, the two other extensions are switched off with a warning. *)
Definition cacheuse_warnings (so : sim_options) (b : vmessage_buf_t)
  : res (vmessage_buf_t * sim_options) :=
  if negb (so_cacheuse so) then Ok (b, so) else
  let! b := (if so_hwpref so then
               dmsg ("warning: prefetch simulation can not be used with cache usage" ++ nl)%string [] b
             else Ok b) in
  let! b := (if so_writeback so then
               dmsg ("warning: write-back simulation can not be used with cache usage" ++ nl)%string [] b
             else Ok b) in
  Ok (b, MkSimOptions (so_caches so) false false (so_sectors so) (so_cacheuse so)).

(** [None]: the process exits after its message.  The size of the largest guest
    register comes from the core. *)
Definition cachesim_post_clo_init (arch : VGA) (ci : VexCacheInfo) (largest_load_or_store_size : Z)
    (clo : CommandLineOptions) (so : sim_options) (b : vmessage_buf_t)
  : res (vmessage_buf_t * option sim_setup) :=
  if negb (simulate_cache clo) then Ok (b, Some (MkSetup no_helpers 0 None so)) else
  let! (I1c, D1c, LLc) := VG_post_clo_init_configure_caches arch ci (so_caches so) in
  let m := min_line_size I1c D1c LLc in
  if m <? largest_load_or_store_size then
    let! b := umsg ("Callgrind: cannot continue: the minimum line size (%d)" ++ nl)%string [VA_Int m] b in
    let! b := umsg ("  must be equal to or larger than the maximum register size (%d)" ++ nl)%string
                [VA_Int largest_load_or_store_size] b in
    let! b := umsg ("  but it is not.  Exiting now." ++ nl)%string [] b in
    Ok (b, None)
  else
    let! i1 := clg_cachesim_initcache (so_cacheuse so) "I1" I1c in
    let! d1 := clg_cachesim_initcache (so_cacheuse so) "D1" D1c in
    let! ll := clg_cachesim_initcache (so_cacheuse so) "LL" LLc in
    let x := MkSim i1 d1 ll 0 0 (replicate (Z.to_nat PF_STREAMS) 0) (replicate (Z.to_nat PF_STREAMS) 0) in
    let! (b, so) := cacheuse_warnings so b in
    Ok (b, Some (MkSetup std_helpers m (Some (select_simulator so x)) so)).

End setup.

Definition cachesim_clear (x : sim_state) : res sim_state :=
  let! i1 := cachesim_clearcache (s_I1 x) in
  let! d1 := cachesim_clearcache (s_D1 x) in
  let! ll := cachesim_clearcache (s_LL x) in
  Ok (prefetch_clear (with_LL (with_D1 (with_I1 x i1) d1) ll)).

Definition cachesim_dump_desc (clo_xml : bool) (x : sim_state) (fp : VgFile) : res VgFile :=
  let! fp := VG_fprintf clo_xml fp (nl ++ "desc: I1 cache: %s" ++ nl)%string
               [VA_Str (Some (desc_line (base (s_I1 x))))] in
  let! fp := VG_fprintf clo_xml fp ("desc: D1 cache: %s" ++ nl)%string
               [VA_Str (Some (desc_line (base (s_D1 x))))] in
  VG_fprintf clo_xml fp ("desc: LL cache: %s" ++ nl)%string
    [VA_Str (Some (desc_line (base (s_LL x))))].

(** ** Event sets *)

Definition register_cache_groups (clo : CommandLineOptions) (so : sim_options) (e : events) : res events :=
  if negb (simulate_cache clo) then register_event_group e EG_IR "Ir"
  else if negb (so_writeback so) then
    let! e := register_event_group3 e EG_IR "Ir" "I1mr" "ILmr" in
    let! e := register_event_group3 e EG_DR "Dr" "D1mr" "DLmr" in
    register_event_group3 e EG_DW "Dw" "D1mw" "DLmw"
  else
    let! e := register_event_group4 e EG_IR "Ir" "I1mr" "ILmr" "ILdmr" in
    let! e := register_event_group4 e EG_DR "Dr" "D1mr" "DLmr" "DLdmr" in
    register_event_group4 e EG_DW "Dw" "D1mw" "DLmw" "DLdmw".

Definition register_groups (clo : CommandLineOptions) (so : sim_options) (e : events) : res events :=
  let! e := (if so_cacheuse so
             then register_event_group4 e EG_USE "AcCost1" "SpLoss1" "AcCost2" "SpLoss2" else Ok e) in
  let! e := register_cache_groups clo so e in
  let! e := (if simulate_branch clo then
               let! e := register_event_group2 e EG_BC "Bc" "Bcm" in
               register_event_group2 e EG_BI "Bi" "Bim"
             else Ok e) in
  let! e := (if collect_bus clo then register_event_group e EG_BUS "Ge" else Ok e) in
  let! e := (if collect_alloc clo
             then register_event_group2 e EG_ALLOC "allocCount" "allocSize" else Ok e) in
  match collect_systime clo with
  | systime_no => Ok e
  | systime_nsec => register_event_group3 e EG_SYS "sysCount" "sysTime" "sysCpuTime"
  | _ => register_event_group2 e EG_SYS "sysCount" "sysTime"
  end.

(** The order in which [init_eventsets] appends events to the dump mapping. *)
Definition dump_columns : list string :=
  ["Ir"; "Dr"; "Dw"; "I1mr"; "D1mr"; "D1mw"; "ILmr"; "DLmr"; "DLmw"; "ILdmr"; "DLdmr"; "DLdmw";
   "Bc"; "Bcm"; "Bi"; "Bim"; "AcCost1"; "SpLoss1"; "AcCost2"; "SpLoss2"; "Ge";
   "allocCount"; "allocSize"; "sysCount"; "sysTime"; "sysCpuTime"]%string.

(** The sets and the mapping of the profile's columns. *)
Definition init_eventsets (clo : CommandLineOptions) (so : sim_options) (e : events)
  : res (events * event_sets * EventMapping) :=
  let! e := register_groups clo so e in
  let! (base, e) := get_event_set2 e EG_USE EG_IR in
  let! (full, e) := add_event_group2 e base EG_DR EG_DW in
  let! (full, e) := add_event_group2 e full EG_BC EG_BI in
  let! (full, e) := add_event_group e full EG_BUS in
  let! (full, e) := add_event_group2 e full EG_ALLOC EG_SYS in
  match base, full with
  | Some base, Some full =>
      let! em := res_fold (fun n em => append_event e em n) dump_columns (get_eventmapping full) in
      Ok (e, MkSets base full, em)
  | _, _ => Err NullDeref
  end.

(** ** At the end *)

(** Called at dump time for every instruction; [cost] is the array of its line. *)
Definition cachesim_add_icost (clo : CommandLineOptions) (e : events) (s : clg_state)
    (cost : option cptr) (bbcc : BBCC) (ii : InstrInfo) (exe_count : Z) : res clg_state :=
  let! m := (if negb (simulate_cache clo) then
               let! off := fullOffset s EG_IR in
               let! p := deref_cost cost in
               cost_add (mem s) (ptr_add p off) exe_count
             else Ok (mem s)) in
  match eventset ii with
  | Some es =>
      let! (_, m) := add_and_zero_cost2 e (sets_full (clg_sets s)) m cost es
                       (opt_add (bbcc_cost bbcc) (cost_offset ii)) in
      Ok (set_mem s m)
  | None => Ok (set_mem s m)
  end.

Definition cachesim_finish (so : sim_options) (s : clg_state) : res clg_state :=
  if so_cacheuse so then cacheuse_finish s else Ok s.

(** ** The columns of the profile *)

(** The names of the events of a set, in the order of its cost arrays. *)
Definition event_names (gs : list (option EventGroup)) (es : EventSet) : list string :=
  concat (imap (fun i g => match g with
                           | Some eg => if Z.testbit (es_mask es) (Z.of_nat i) then eg_name eg else []
                           | None => []
                           end) gs).

(** The event a column shows. *)
Definition column_name (gs : list (option EventGroup)) (es : EventSet) (x : EventMappingEntry)
  : option string :=
  event_names gs es !! Z.to_nat (em_offset x).

(** The columns: the known events in the order of [dump_columns]. *)
Definition columns (gs : list (option EventGroup)) (es : EventSet) : list string :=
  filter (fun n => n ∈ event_names gs es) dump_columns.

#[global] Instance wf_group_dec g : Decision (wf_group g).
Proof. destruct g; unfold wf_group; apply _. Defined.

#[global] Instance laid_out_dec gs es : Decision (laid_out gs es).
Proof.
  refine (cast_if (decide ((0 <= es_mask es < MAX_EVENTSET_COUNT /\
    es_size es = group_off gs (es_mask es) 10) /\
    Forall (fun i => es_offset es !! i = Some (group_off gs (es_mask es) i)) (seq 0 10)))).
  - abstract (destruct a as [[H1 H2] H3]; constructor; [done|done|]; intros i Hi;
      apply (proj1 (Forall_forall _ _) H3), elem_of_seq; lia).
  - abstract (intros [H1 H2 H3]; apply n; split; [done|]; apply Forall_forall; intros i Hi;
      apply elem_of_seq in Hi; apply H3; lia).
Defined.

(** The counters of a reference of the simulated caches. *)
Definition cache_counters (cache writeback : bool) (group : Z) : Z :=
  if cache then if writeback then 4 else 3
  else if group =? EG_IR then 1 else 0.

(** What [init_eventsets] gives, whatever the options: sound groups, two laid
    out sets, one in the other, a mapping that shows every counter of the full
    set in one column, and the groups the simulator counts in. *)
Record eventsets_ok (cache writeback : bool) (e : events) (s : event_sets) (em : EventMapping)
  : Prop := {
  ek_groups : wf_groups (eventGroup e);
  ek_base : laid_out (eventGroup e) (sets_base s);
  ek_full : laid_out (eventGroup e) (sets_full s);
  ek_sub : Z.land (es_mask (sets_base s)) (es_mask (sets_full s)) = es_mask (sets_base s);
  ek_es : em_es em = sets_full s;
  ek_mask : es_mask (sets_full s) = 511;
  ek_nodup : NoDup (em_offset <$> em_entry em);
  ek_range : Forall (fun k => 0 <= k < es_size (sets_full s)) (em_offset <$> em_entry em);
  ek_size : Z.of_nat (length (em_entry em)) = es_size (sets_full s);
  ek_names : column_name (eventGroup e) (sets_full s) <$> em_entry em =
    Some <$> columns (eventGroup e) (sets_full s);
  ek_string : eventmapping_as_string e em =
    Ok (String.concat " " (columns (eventGroup e) (sets_full s)));
  ek_counters : Forall (fun g => group_len (eventGroup e) 511 (Z.to_nat g) = cache_counters cache writeback g)
    [EG_IR; EG_DR; EG_DW]
}.

#[global] Instance EventSet_eq_dec : EqDecision EventSet.
Proof. solve_decision. Defined.

#[global] Instance ok_dec {A} `{EqDecision A} (r : res A) (a : A) : Decision (r = Ok a).
Proof.
  refine (match r with Ok x => cast_if (decide (x = a)) | Err _ => right _ end);
    abstract congruence.
Defined.

#[global] Instance eventsets_ok_dec cache writeback e s em :
  Decision (eventsets_ok cache writeback e s em).
Proof.
  refine (cast_if (decide ((length (eventGroup e) = 10%nat /\ Forall wf_group (eventGroup e)) /\
    laid_out (eventGroup e) (sets_base s) /\ laid_out (eventGroup e) (sets_full s) /\
    Z.land (es_mask (sets_base s)) (es_mask (sets_full s)) = es_mask (sets_base s) /\
    em_es em = sets_full s /\ es_mask (sets_full s) = 511 /\
    NoDup (em_offset <$> em_entry em) /\
    Forall (fun k => 0 <= k < es_size (sets_full s)) (em_offset <$> em_entry em) /\
    Z.of_nat (length (em_entry em)) = es_size (sets_full s) /\
    column_name (eventGroup e) (sets_full s) <$> em_entry em =
      Some <$> columns (eventGroup e) (sets_full s) /\
    eventmapping_as_string e em = Ok (String.concat " " (columns (eventGroup e) (sets_full s))) /\
    Forall (fun g => group_len (eventGroup e) 511 (Z.to_nat g) = cache_counters cache writeback g)
      [EG_IR; EG_DR; EG_DW]))).
  - abstract (match goal with H : _ /\ _ |- _ =>
      destruct H as ((?&?)&?&?&?&?&?&?&?&?&?&?&?) end; by constructor).
  - abstract (match goal with H : ~ _ |- _ => intros [[] ?]; apply H; by split_and! end).
Defined.

(** The set-up with some options. *)
Definition check_options (clo : CommandLineOptions) (so : sim_options) : bool :=
  match init_eventsets clo so events0 with
  | Ok (e, s, em) => bool_decide (eventsets_ok (simulate_cache clo) (so_writeback so) e s em)
  | Err _ => false
  end.

(** The options that matter, the others at their defaults. *)
Definition event_options (al : bool) (sys : Collect_Systime) (bus sc br : bool) : CommandLineOptions :=
  MkClo None false false false false false false false false false false 0 false 0 0 false false false
    false al sys bus false sc br false.
Definition event_sim_options (wb us : bool) : sim_options :=
  MkSimOptions (so_caches sim_options0) wb false false us.

Definition all_bool (f : bool -> bool) : bool := f true && f false.
Definition all_systime (f : Collect_Systime -> bool) : bool :=
  f systime_no && f systime_msec && f systime_usec && f systime_nsec.

Lemma all_bool_true f : all_bool f = true -> forall b, f b = true.
Proof. unfold all_bool. rewrite andb_true_iff. by intros [? ?] []. Qed.

Lemma all_systime_true f : all_systime f = true -> forall b, f b = true.
Proof. unfold all_systime. rewrite !andb_true_iff. by intros [[[? ?] ?] ?] []. Qed.

(** There are 256 combinations; each is run. *)
Lemma check_all_options :
  all_bool (fun al => all_systime (fun sys => all_bool (fun bus => all_bool (fun sc =>
    all_bool (fun br => all_bool (fun wb => all_bool (fun us =>
      check_options (event_options al sys bus sc br) (event_sim_options wb us)))))))) = true.
Proof. vm_compute. reflexivity. Qed.

Lemma init_eventsets_ok clo so :
  exists e s em, init_eventsets clo so events0 = Ok (e, s, em) /\
    eventsets_ok (simulate_cache clo) (so_writeback so) e s em.
Proof.
  pose proof check_all_options as H.
  apply (fun H => all_bool_true _ H (collect_alloc clo)) in H.
  apply (fun H => all_systime_true _ H (collect_systime clo)) in H.
  apply (fun H => all_bool_true _ H (collect_bus clo)) in H.
  apply (fun H => all_bool_true _ H (simulate_cache clo)) in H.
  apply (fun H => all_bool_true _ H (simulate_branch clo)) in H.
  apply (fun H => all_bool_true _ H (so_writeback so)) in H.
  apply (fun H => all_bool_true _ H (so_cacheuse so)) in H.
  change (check_options clo so = true) in H. unfold check_options in H.
  destruct (init_eventsets clo so events0) as [[[e s] em]|]; [|done].
  apply bool_decide_eq_true in H. by exists e, s, em.
Qed.

(** ** Properties *)

(** C30. The columns of the profile: for every combination of options the event
    sets are made without a failure, every counter of the full set appears in
    exactly one column, and the header names the columns by the events they
    show, in the documented order. *)
Theorem profile_columns (clo : CommandLineOptions) (so : sim_options) :
  exists e s em, init_eventsets clo so events0 = Ok (e, s, em) /\ em_es em = sets_full s /\
    (forall k, 0 <= k < es_size (sets_full s) ->
       exists! j, em_offset <$> em_entry em !! j = Some k) /\
    (forall j x, em_entry em !! j = Some x ->
       columns (eventGroup e) (sets_full s) !! j =
         event_names (eventGroup e) (sets_full s) !! Z.to_nat (em_offset x)) /\
    eventmapping_as_string e em = Ok (String.concat " " (columns (eventGroup e) (sets_full s))) /\
    length (columns (eventGroup e) (sets_full s)) = length (em_entry em).
Proof.
  destruct (init_eventsets_ok clo so) as (e & s & em & E & K). exists e, s, em.
  pose proof (ek_names _ _ _ _ _ K) as Hn.
  split_and!; [done|apply (ek_es _ _ _ _ _ K)| | |apply (ek_string _ _ _ _ _ K)|].
  - intros k Hk. assert (em_offset <$> em_entry em ≡ₚ seqZ 0 (es_size (sets_full s))) as Hp.
    { apply submseteq_length_Permutation.
      - apply NoDup_submseteq; [apply (ek_nodup _ _ _ _ _ K)|]. intros x Hx.
        pose proof (proj1 (Forall_forall _ _) (ek_range _ _ _ _ _ K) x Hx) as Hr. cbn beta in Hr.
        apply elem_of_seqZ. lia.
      - rewrite length_seqZ, length_fmap. pose proof (ek_size _ _ _ _ _ K). lia. }
    assert (k ∈ em_offset <$> em_entry em) as Hin by (rewrite Hp; apply elem_of_seqZ; lia).
    apply list_elem_of_lookup_1 in Hin as [j Hj]. rewrite list_lookup_fmap in Hj.
    exists j. split; [exact Hj|]. intros j' Hj'.
    apply (NoDup_lookup (em_offset <$> em_entry em) j j' k (ek_nodup _ _ _ _ _ K));
      rewrite list_lookup_fmap; [exact Hj|exact Hj'].
  - intros j x Hx. generalize dependent (columns (eventGroup e) (sets_full s)). intros cols Hn.
    apply (f_equal (fun l => l !! j)) in Hn. rewrite !list_lookup_fmap, Hx in Hn.
    change (Some (column_name (eventGroup e) (sets_full s) x) = Some <$> cols !! j) in Hn.
    unfold column_name in Hn. destruct (cols !! j); [by injection Hn as ->|discriminate Hn].
  - apply (f_equal length) in Hn. by rewrite !length_fmap in Hn.
Qed.

Definition clg_refusal (m largest : Z) : list string :=
  refusal_lines "Callgrind: cannot continue: the minimum line size (" m largest.

(** The options of a command line, as far as the simulator takes them. *)
Definition parse_sim_options (args : list string) : res (sim_options * CommandLineOptions) :=
  res_fold (fun arg '(so, clo) =>
    let! (recognised, so, clo) := cachesim_parse_opt arg so clo in
    if (recognised : bool) then Ok (so, clo) else Err (Exit 1 "Unknown option"))
    args (sim_options0, set_clo_defaults).

Definition sim_options_ok (so : sim_options) : Prop :=
  clo_ok (clo_I1c (so_caches so)) /\ clo_ok (clo_D1c (so_caches so)) /\ clo_ok (clo_LLc (so_caches so)).

Lemma cachesim_parse_opt_ok arg so clo r so' clo' :
  sim_options_ok so -> cachesim_parse_opt arg so clo = Ok (r, so', clo') -> sim_options_ok so'.
Proof.
  intros Ho H. unfold cachesim_parse_opt in H.
  repeat (case_match; [by apply rbind_ok in H as (v & _ & H); simplify_eq|]).
  apply rbind_ok in H as ([rec cl] & Hc & H). apply clo_cache_opt_ok in Hc; [|done].
  by destruct rec; simplify_eq.
Qed.

Lemma parse_sim_options_ok args so clo :
  parse_sim_options args = Ok (so, clo) -> sim_options_ok so.
Proof.
  intros H. revert H.
  apply (res_fold_inv (fun x : sim_options * CommandLineOptions => sim_options_ok x.1)).
  - intros arg [so1 clo1] [so2 clo2] Ho H. apply rbind_ok in H as ([[r so3] clo3] & H1 & H).
    apply cachesim_parse_opt_ok in H1; [|done]. by destruct r; simplify_eq.
  - repeat split; by left.
Qed.

Lemma clg_init_caches I1c D1c LLc :
  valid_cache I1c -> valid_cache D1c -> valid_cache LLc ->
  exists i d l, clg_cachesim_initcache false "I1" I1c = Ok i /\
    clg_cachesim_initcache false "D1" D1c = Ok d /\ clg_cachesim_initcache false "LL" LLc = Ok l.
Proof.
  intros VI VD VL. destruct (clg_initcache_same "I1" I1c VI) as (? & i & _ & Ei & _).
  destruct (clg_initcache_same "D1" D1c VD) as (? & d & _ & Ed & _).
  destruct (clg_initcache_same "LL" LLc VL) as (? & l & _ & El & _). by exists i, d, l.
Qed.

(** Callgrind starts as it should: after any accepted simulator options
    without [--cacheuse], and for any hardware description that yields caches,
    either it refuses to run, with its three-line message, because a register
    is wider than a cache line, or the helpers are installed over the model the
    options ask for, on initialised caches of valid geometry, and no access of
    at most [min_line_size] bytes spans more than two lines. *)
Theorem simulator_ready (xml : bool) (depth : Z) (no_inner_prefix clo_time_stamp : bool) (pid : Z)
    (timer : nat -> Z) (arch : VGA) (ci : VexCacheInfo) (largest : Z) (args : list string)
    (so : sim_options) (clo0 clo : CommandLineOptions) (I1c D1c LLc : cache_t) (b : vmessage_buf_t) :
  in_s 32 pid -> (forall n, in_u 32 (timer n)) -> vm_idle b -> in_s 32 largest ->
  parse_sim_options args = Ok (so, clo0) -> so_cacheuse so = false -> simulate_cache clo = true ->
  VG_post_clo_init_configure_caches arch ci (so_caches so) = Ok (I1c, D1c, LLc) ->
  let m := min_line_size I1c D1c LLc in
  let init := cachesim_post_clo_init xml depth no_inner_prefix clo_time_stamp pid timer arch ci largest
                clo so b in
  (m < largest -> exists b', init = Ok (b', None) /\
    logged depth no_inner_prefix clo_time_stamp pid timer b (user (clg_refusal m largest)) b') /\
  (largest <= m -> exists x, init = Ok (b, Some (MkSetup std_helpers m (Some (x,
      if so_hwpref so then if so_writeback so then prefetch_wb_model else prefetch_model
      else if so_writeback so then wb_model else simple_model)) so)) /\
    valid_cache I1c /\ valid_cache D1c /\ valid_cache LLc /\ sim_init I1c D1c LLc x /\
    16 <= m /\ m <= line_size I1c /\ m <= line_size D1c /\ m <= line_size LLc).
Proof.
  intros Hpid Htm Hb Hlg Hopt Huse Hsim Hcfg m init. subst init. unfold cachesim_post_clo_init.
  rewrite Hsim, Hcfg. cbn [negb rbind].
  destruct (parse_sim_options_ok args so clo0 Hopt) as (HI & HD & HL).
  destruct (configure_valid arch ci _ _ _ _ HI HD HL Hcfg) as (VI & VD & VL).
  pose proof (valid_line_int _ VI). pose proof (valid_line_int _ VD). pose proof (valid_line_int _ VL).
  pose proof (min_line_size_min I1c D1c LLc) as Em. fold m in Em |- *. split; intros Hm.
  - rewrite (proj2 (Z.ltb_lt _ _) Hm).
    destruct (refuse_reports xml depth no_inner_prefix clo_time_stamp pid timer Hpid Htm
      "Callgrind: cannot continue: the minimum line size (" m largest
      (None : option sim_setup) b) as ([b' r] & E & Er & Hlog);
      [done|unfold in_s; lia|done|repeat constructor; discriminate..|].
    cbn in Er. subst r. by exists b'.
  - rewrite (proj2 (Z.ltb_ge _ _) Hm), Huse.
    destruct (clg_init_caches I1c D1c LLc VI VD VL) as (i & d & l & Ei & Ed & El).
    rewrite Ei, Ed, El. cbn [rbind]. unfold cacheuse_warnings, select_simulator. rewrite Huse.
    cbn [negb rbind]. rewrite Huse.
    destruct (so_hwpref so); (eexists; split; [reflexivity|]); split_and!; done || lia.
Qed.

Lemma simulator_ready_witness :
  exists x, cachesim_post_clo_init false 0 false false 7 (fun _ => 0) VGA_amd64 (MkVexCacheInfo 0 []) 32
      (event_options false systime_no false true false)
      (MkSimOptions (MkCloCaches UNDEFINED_CACHE (Cache 32768 8 64) UNDEFINED_CACHE) true false false false)
      vmessage_buf
    = Ok (vmessage_buf, Some (MkSetup std_helpers 64 (Some (x, wb_model))
        (MkSimOptions (MkCloCaches UNDEFINED_CACHE (Cache 32768 8 64) UNDEFINED_CACHE)
           true false false false))).
Proof.
  destruct (simulator_ready false 0 false false 7 (fun _ => 0) VGA_amd64 (MkVexCacheInfo 0 []) 32
    ["--D1=32768,8,64"; "--simulate-wb=yes"]%string
    (MkSimOptions (MkCloCaches UNDEFINED_CACHE (Cache 32768 8 64) UNDEFINED_CACHE) true false false false)
    set_clo_defaults (event_options false systime_no false true false)
    (Cache 65536 2 64) (Cache 32768 8 64) (Cache 262144 8 64) vmessage_buf) as [_ H].
  - by unfold in_s.
  - done.
  - done.
  - by unfold in_s.
  - vm_compute. reflexivity.
  - reflexivity.
  - reflexivity.
  - vm_compute. reflexivity.
  - destruct H as (x & E & _); [by apply Z.leb_le; vm_compute|]. exists x. exact E.
Defined.
