(* ===== verification/ClgOptions.v ===== *)
(** * ClgOptions: the command line of callgrind (callgrind/clo.c)

    [CLG_(process_cmd_line_option)] recognises one argument: an option of its own
    sets a field of [CLG_(clo)] or a configuration of the trie of ClgPatterns, all
    others are offered to the simulator.  The debug verbosity the --ct options
    set is left out, their recognition is not. *)

From Stdlib Require Import ZArith Lia Ascii String.
From stdpp Require Import base numbers option strings gmap sets list.
From S2P Require Import Prelude Libcbase CgArch CgInit ClgContext ClgPatterns ClgInit.

#[local] Open Scope Z_scope.

(** ** Fields of [CLG_(clo)] *)

Definition set_out_format (v : option string) (c : CommandLineOptions) : CommandLineOptions :=
  MkClo v (ClgInit.combine_dumps c) (ClgInit.compress_strings c) (ClgInit.compress_events c)
    (ClgInit.compress_pos c) (ClgInit.mangle_names c) (ClgInit.compress_mangled c) (ClgInit.dump_line c)
    (ClgInit.dump_instr c) (ClgInit.dump_bb c) (ClgInit.dump_bbs c) (ClgInit.dump_every_bb c)
    (ClgInit.separate_threads c) (ClgInit.separate_callers c) (ClgInit.separate_recursions c) (ClgInit.skip_plt
    c) (ClgInit.skip_direct_recursion c) (ClgInit.collect_atstart c) (ClgInit.collect_jumps c)
    (ClgInit.collect_alloc c) (ClgInit.collect_systime c) (ClgInit.collect_bus c) (ClgInit.instrument_atstart c)
    (ClgInit.simulate_cache c) (ClgInit.simulate_branch c) (ClgInit.pop_on_jump c).
Definition set_combine_dumps (v : bool) (c : CommandLineOptions) : CommandLineOptions :=
  MkClo (ClgInit.out_format c) v (ClgInit.compress_strings c) (ClgInit.compress_events c) (ClgInit.compress_pos
    c) (ClgInit.mangle_names c) (ClgInit.compress_mangled c) (ClgInit.dump_line c) (ClgInit.dump_instr c)
    (ClgInit.dump_bb c) (ClgInit.dump_bbs c) (ClgInit.dump_every_bb c) (ClgInit.separate_threads c)
    (ClgInit.separate_callers c) (ClgInit.separate_recursions c) (ClgInit.skip_plt c)
    (ClgInit.skip_direct_recursion c) (ClgInit.collect_atstart c) (ClgInit.collect_jumps c)
    (ClgInit.collect_alloc c) (ClgInit.collect_systime c) (ClgInit.collect_bus c) (ClgInit.instrument_atstart c)
    (ClgInit.simulate_cache c) (ClgInit.simulate_branch c) (ClgInit.pop_on_jump c).
Definition set_compress_strings (v : bool) (c : CommandLineOptions) : CommandLineOptions :=
  MkClo (ClgInit.out_format c) (ClgInit.combine_dumps c) v (ClgInit.compress_events c) (ClgInit.compress_pos c)
    (ClgInit.mangle_names c) (ClgInit.compress_mangled c) (ClgInit.dump_line c) (ClgInit.dump_instr c)
    (ClgInit.dump_bb c) (ClgInit.dump_bbs c) (ClgInit.dump_every_bb c) (ClgInit.separate_threads c)
    (ClgInit.separate_callers c) (ClgInit.separate_recursions c) (ClgInit.skip_plt c)
    (ClgInit.skip_direct_recursion c) (ClgInit.collect_atstart c) (ClgInit.collect_jumps c)
    (ClgInit.collect_alloc c) (ClgInit.collect_systime c) (ClgInit.collect_bus c) (ClgInit.instrument_atstart c)
    (ClgInit.simulate_cache c) (ClgInit.simulate_branch c) (ClgInit.pop_on_jump c).
Definition set_compress_pos (v : bool) (c : CommandLineOptions) : CommandLineOptions :=
  MkClo (ClgInit.out_format c) (ClgInit.combine_dumps c) (ClgInit.compress_strings c) (ClgInit.compress_events
    c) v (ClgInit.mangle_names c) (ClgInit.compress_mangled c) (ClgInit.dump_line c) (ClgInit.dump_instr c)
    (ClgInit.dump_bb c) (ClgInit.dump_bbs c) (ClgInit.dump_every_bb c) (ClgInit.separate_threads c)
    (ClgInit.separate_callers c) (ClgInit.separate_recursions c) (ClgInit.skip_plt c)
    (ClgInit.skip_direct_recursion c) (ClgInit.collect_atstart c) (ClgInit.collect_jumps c)
    (ClgInit.collect_alloc c) (ClgInit.collect_systime c) (ClgInit.collect_bus c) (ClgInit.instrument_atstart c)
    (ClgInit.simulate_cache c) (ClgInit.simulate_branch c) (ClgInit.pop_on_jump c).
Definition set_mangle_names (v : bool) (c : CommandLineOptions) : CommandLineOptions :=
  MkClo (ClgInit.out_format c) (ClgInit.combine_dumps c) (ClgInit.compress_strings c) (ClgInit.compress_events
    c) (ClgInit.compress_pos c) v (ClgInit.compress_mangled c) (ClgInit.dump_line c) (ClgInit.dump_instr c)
    (ClgInit.dump_bb c) (ClgInit.dump_bbs c) (ClgInit.dump_every_bb c) (ClgInit.separate_threads c)
    (ClgInit.separate_callers c) (ClgInit.separate_recursions c) (ClgInit.skip_plt c)
    (ClgInit.skip_direct_recursion c) (ClgInit.collect_atstart c) (ClgInit.collect_jumps c)
    (ClgInit.collect_alloc c) (ClgInit.collect_systime c) (ClgInit.collect_bus c) (ClgInit.instrument_atstart c)
    (ClgInit.simulate_cache c) (ClgInit.simulate_branch c) (ClgInit.pop_on_jump c).
Definition set_compress_mangled (v : bool) (c : CommandLineOptions) : CommandLineOptions :=
  MkClo (ClgInit.out_format c) (ClgInit.combine_dumps c) (ClgInit.compress_strings c) (ClgInit.compress_events
    c) (ClgInit.compress_pos c) (ClgInit.mangle_names c) v (ClgInit.dump_line c) (ClgInit.dump_instr c)
    (ClgInit.dump_bb c) (ClgInit.dump_bbs c) (ClgInit.dump_every_bb c) (ClgInit.separate_threads c)
    (ClgInit.separate_callers c) (ClgInit.separate_recursions c) (ClgInit.skip_plt c)
    (ClgInit.skip_direct_recursion c) (ClgInit.collect_atstart c) (ClgInit.collect_jumps c)
    (ClgInit.collect_alloc c) (ClgInit.collect_systime c) (ClgInit.collect_bus c) (ClgInit.instrument_atstart c)
    (ClgInit.simulate_cache c) (ClgInit.simulate_branch c) (ClgInit.pop_on_jump c).
Definition set_dump_line (v : bool) (c : CommandLineOptions) : CommandLineOptions :=
  MkClo (ClgInit.out_format c) (ClgInit.combine_dumps c) (ClgInit.compress_strings c) (ClgInit.compress_events
    c) (ClgInit.compress_pos c) (ClgInit.mangle_names c) (ClgInit.compress_mangled c) v (ClgInit.dump_instr c)
    (ClgInit.dump_bb c) (ClgInit.dump_bbs c) (ClgInit.dump_every_bb c) (ClgInit.separate_threads c)
    (ClgInit.separate_callers c) (ClgInit.separate_recursions c) (ClgInit.skip_plt c)
    (ClgInit.skip_direct_recursion c) (ClgInit.collect_atstart c) (ClgInit.collect_jumps c)
    (ClgInit.collect_alloc c) (ClgInit.collect_systime c) (ClgInit.collect_bus c) (ClgInit.instrument_atstart c)
    (ClgInit.simulate_cache c) (ClgInit.simulate_branch c) (ClgInit.pop_on_jump c).
Definition put_dump_instr (v : bool) (c : CommandLineOptions) : CommandLineOptions :=
  MkClo (ClgInit.out_format c) (ClgInit.combine_dumps c) (ClgInit.compress_strings c) (ClgInit.compress_events
    c) (ClgInit.compress_pos c) (ClgInit.mangle_names c) (ClgInit.compress_mangled c) (ClgInit.dump_line c) v
    (ClgInit.dump_bb c) (ClgInit.dump_bbs c) (ClgInit.dump_every_bb c) (ClgInit.separate_threads c)
    (ClgInit.separate_callers c) (ClgInit.separate_recursions c) (ClgInit.skip_plt c)
    (ClgInit.skip_direct_recursion c) (ClgInit.collect_atstart c) (ClgInit.collect_jumps c)
    (ClgInit.collect_alloc c) (ClgInit.collect_systime c) (ClgInit.collect_bus c) (ClgInit.instrument_atstart c)
    (ClgInit.simulate_cache c) (ClgInit.simulate_branch c) (ClgInit.pop_on_jump c).
Definition set_dump_bb (v : bool) (c : CommandLineOptions) : CommandLineOptions :=
  MkClo (ClgInit.out_format c) (ClgInit.combine_dumps c) (ClgInit.compress_strings c) (ClgInit.compress_events
    c) (ClgInit.compress_pos c) (ClgInit.mangle_names c) (ClgInit.compress_mangled c) (ClgInit.dump_line c)
    (ClgInit.dump_instr c) v (ClgInit.dump_bbs c) (ClgInit.dump_every_bb c) (ClgInit.separate_threads c)
    (ClgInit.separate_callers c) (ClgInit.separate_recursions c) (ClgInit.skip_plt c)
    (ClgInit.skip_direct_recursion c) (ClgInit.collect_atstart c) (ClgInit.collect_jumps c)
    (ClgInit.collect_alloc c) (ClgInit.collect_systime c) (ClgInit.collect_bus c) (ClgInit.instrument_atstart c)
    (ClgInit.simulate_cache c) (ClgInit.simulate_branch c) (ClgInit.pop_on_jump c).
Definition set_dump_bbs (v : bool) (c : CommandLineOptions) : CommandLineOptions :=
  MkClo (ClgInit.out_format c) (ClgInit.combine_dumps c) (ClgInit.compress_strings c) (ClgInit.compress_events
    c) (ClgInit.compress_pos c) (ClgInit.mangle_names c) (ClgInit.compress_mangled c) (ClgInit.dump_line c)
    (ClgInit.dump_instr c) (ClgInit.dump_bb c) v (ClgInit.dump_every_bb c) (ClgInit.separate_threads c)
    (ClgInit.separate_callers c) (ClgInit.separate_recursions c) (ClgInit.skip_plt c)
    (ClgInit.skip_direct_recursion c) (ClgInit.collect_atstart c) (ClgInit.collect_jumps c)
    (ClgInit.collect_alloc c) (ClgInit.collect_systime c) (ClgInit.collect_bus c) (ClgInit.instrument_atstart c)
    (ClgInit.simulate_cache c) (ClgInit.simulate_branch c) (ClgInit.pop_on_jump c).
Definition set_dump_every_bb (v : Z) (c : CommandLineOptions) : CommandLineOptions :=
  MkClo (ClgInit.out_format c) (ClgInit.combine_dumps c) (ClgInit.compress_strings c) (ClgInit.compress_events
    c) (ClgInit.compress_pos c) (ClgInit.mangle_names c) (ClgInit.compress_mangled c) (ClgInit.dump_line c)
    (ClgInit.dump_instr c) (ClgInit.dump_bb c) (ClgInit.dump_bbs c) v (ClgInit.separate_threads c)
    (ClgInit.separate_callers c) (ClgInit.separate_recursions c) (ClgInit.skip_plt c)
    (ClgInit.skip_direct_recursion c) (ClgInit.collect_atstart c) (ClgInit.collect_jumps c)
    (ClgInit.collect_alloc c) (ClgInit.collect_systime c) (ClgInit.collect_bus c) (ClgInit.instrument_atstart c)
    (ClgInit.simulate_cache c) (ClgInit.simulate_branch c) (ClgInit.pop_on_jump c).
Definition set_separate_threads (v : bool) (c : CommandLineOptions) : CommandLineOptions :=
  MkClo (ClgInit.out_format c) (ClgInit.combine_dumps c) (ClgInit.compress_strings c) (ClgInit.compress_events
    c) (ClgInit.compress_pos c) (ClgInit.mangle_names c) (ClgInit.compress_mangled c) (ClgInit.dump_line c)
    (ClgInit.dump_instr c) (ClgInit.dump_bb c) (ClgInit.dump_bbs c) (ClgInit.dump_every_bb c) v
    (ClgInit.separate_callers c) (ClgInit.separate_recursions c) (ClgInit.skip_plt c)
    (ClgInit.skip_direct_recursion c) (ClgInit.collect_atstart c) (ClgInit.collect_jumps c)
    (ClgInit.collect_alloc c) (ClgInit.collect_systime c) (ClgInit.collect_bus c) (ClgInit.instrument_atstart c)
    (ClgInit.simulate_cache c) (ClgInit.simulate_branch c) (ClgInit.pop_on_jump c).
Definition set_separate_callers (v : Z) (c : CommandLineOptions) : CommandLineOptions :=
  MkClo (ClgInit.out_format c) (ClgInit.combine_dumps c) (ClgInit.compress_strings c) (ClgInit.compress_events
    c) (ClgInit.compress_pos c) (ClgInit.mangle_names c) (ClgInit.compress_mangled c) (ClgInit.dump_line c)
    (ClgInit.dump_instr c) (ClgInit.dump_bb c) (ClgInit.dump_bbs c) (ClgInit.dump_every_bb c)
    (ClgInit.separate_threads c) v (ClgInit.separate_recursions c) (ClgInit.skip_plt c)
    (ClgInit.skip_direct_recursion c) (ClgInit.collect_atstart c) (ClgInit.collect_jumps c)
    (ClgInit.collect_alloc c) (ClgInit.collect_systime c) (ClgInit.collect_bus c) (ClgInit.instrument_atstart c)
    (ClgInit.simulate_cache c) (ClgInit.simulate_branch c) (ClgInit.pop_on_jump c).
Definition set_separate_recursions (v : Z) (c : CommandLineOptions) : CommandLineOptions :=
  MkClo (ClgInit.out_format c) (ClgInit.combine_dumps c) (ClgInit.compress_strings c) (ClgInit.compress_events
    c) (ClgInit.compress_pos c) (ClgInit.mangle_names c) (ClgInit.compress_mangled c) (ClgInit.dump_line c)
    (ClgInit.dump_instr c) (ClgInit.dump_bb c) (ClgInit.dump_bbs c) (ClgInit.dump_every_bb c)
    (ClgInit.separate_threads c) (ClgInit.separate_callers c) v (ClgInit.skip_plt c)
    (ClgInit.skip_direct_recursion c) (ClgInit.collect_atstart c) (ClgInit.collect_jumps c)
    (ClgInit.collect_alloc c) (ClgInit.collect_systime c) (ClgInit.collect_bus c) (ClgInit.instrument_atstart c)
    (ClgInit.simulate_cache c) (ClgInit.simulate_branch c) (ClgInit.pop_on_jump c).
Definition set_skip_plt (v : bool) (c : CommandLineOptions) : CommandLineOptions :=
  MkClo (ClgInit.out_format c) (ClgInit.combine_dumps c) (ClgInit.compress_strings c) (ClgInit.compress_events
    c) (ClgInit.compress_pos c) (ClgInit.mangle_names c) (ClgInit.compress_mangled c) (ClgInit.dump_line c)
    (ClgInit.dump_instr c) (ClgInit.dump_bb c) (ClgInit.dump_bbs c) (ClgInit.dump_every_bb c)
    (ClgInit.separate_threads c) (ClgInit.separate_callers c) (ClgInit.separate_recursions c) v
    (ClgInit.skip_direct_recursion c) (ClgInit.collect_atstart c) (ClgInit.collect_jumps c)
    (ClgInit.collect_alloc c) (ClgInit.collect_systime c) (ClgInit.collect_bus c) (ClgInit.instrument_atstart c)
    (ClgInit.simulate_cache c) (ClgInit.simulate_branch c) (ClgInit.pop_on_jump c).
Definition set_skip_direct_recursion (v : bool) (c : CommandLineOptions) : CommandLineOptions :=
  MkClo (ClgInit.out_format c) (ClgInit.combine_dumps c) (ClgInit.compress_strings c) (ClgInit.compress_events
    c) (ClgInit.compress_pos c) (ClgInit.mangle_names c) (ClgInit.compress_mangled c) (ClgInit.dump_line c)
    (ClgInit.dump_instr c) (ClgInit.dump_bb c) (ClgInit.dump_bbs c) (ClgInit.dump_every_bb c)
    (ClgInit.separate_threads c) (ClgInit.separate_callers c) (ClgInit.separate_recursions c) (ClgInit.skip_plt
    c) v (ClgInit.collect_atstart c) (ClgInit.collect_jumps c) (ClgInit.collect_alloc c)
    (ClgInit.collect_systime c) (ClgInit.collect_bus c) (ClgInit.instrument_atstart c) (ClgInit.simulate_cache
    c) (ClgInit.simulate_branch c) (ClgInit.pop_on_jump c).
Definition set_collect_atstart (v : bool) (c : CommandLineOptions) : CommandLineOptions :=
  MkClo (ClgInit.out_format c) (ClgInit.combine_dumps c) (ClgInit.compress_strings c) (ClgInit.compress_events
    c) (ClgInit.compress_pos c) (ClgInit.mangle_names c) (ClgInit.compress_mangled c) (ClgInit.dump_line c)
    (ClgInit.dump_instr c) (ClgInit.dump_bb c) (ClgInit.dump_bbs c) (ClgInit.dump_every_bb c)
    (ClgInit.separate_threads c) (ClgInit.separate_callers c) (ClgInit.separate_recursions c) (ClgInit.skip_plt
    c) (ClgInit.skip_direct_recursion c) v (ClgInit.collect_jumps c) (ClgInit.collect_alloc c)
    (ClgInit.collect_systime c) (ClgInit.collect_bus c) (ClgInit.instrument_atstart c) (ClgInit.simulate_cache
    c) (ClgInit.simulate_branch c) (ClgInit.pop_on_jump c).
Definition set_collect_jumps (v : bool) (c : CommandLineOptions) : CommandLineOptions :=
  MkClo (ClgInit.out_format c) (ClgInit.combine_dumps c) (ClgInit.compress_strings c) (ClgInit.compress_events
    c) (ClgInit.compress_pos c) (ClgInit.mangle_names c) (ClgInit.compress_mangled c) (ClgInit.dump_line c)
    (ClgInit.dump_instr c) (ClgInit.dump_bb c) (ClgInit.dump_bbs c) (ClgInit.dump_every_bb c)
    (ClgInit.separate_threads c) (ClgInit.separate_callers c) (ClgInit.separate_recursions c) (ClgInit.skip_plt
    c) (ClgInit.skip_direct_recursion c) (ClgInit.collect_atstart c) v (ClgInit.collect_alloc c)
    (ClgInit.collect_systime c) (ClgInit.collect_bus c) (ClgInit.instrument_atstart c) (ClgInit.simulate_cache
    c) (ClgInit.simulate_branch c) (ClgInit.pop_on_jump c).
Definition set_collect_alloc (v : bool) (c : CommandLineOptions) : CommandLineOptions :=
  MkClo (ClgInit.out_format c) (ClgInit.combine_dumps c) (ClgInit.compress_strings c) (ClgInit.compress_events
    c) (ClgInit.compress_pos c) (ClgInit.mangle_names c) (ClgInit.compress_mangled c) (ClgInit.dump_line c)
    (ClgInit.dump_instr c) (ClgInit.dump_bb c) (ClgInit.dump_bbs c) (ClgInit.dump_every_bb c)
    (ClgInit.separate_threads c) (ClgInit.separate_callers c) (ClgInit.separate_recursions c) (ClgInit.skip_plt
    c) (ClgInit.skip_direct_recursion c) (ClgInit.collect_atstart c) (ClgInit.collect_jumps c) v
    (ClgInit.collect_systime c) (ClgInit.collect_bus c) (ClgInit.instrument_atstart c) (ClgInit.simulate_cache
    c) (ClgInit.simulate_branch c) (ClgInit.pop_on_jump c).
Definition set_collect_systime (v : Collect_Systime) (c : CommandLineOptions) : CommandLineOptions :=
  MkClo (ClgInit.out_format c) (ClgInit.combine_dumps c) (ClgInit.compress_strings c) (ClgInit.compress_events
    c) (ClgInit.compress_pos c) (ClgInit.mangle_names c) (ClgInit.compress_mangled c) (ClgInit.dump_line c)
    (ClgInit.dump_instr c) (ClgInit.dump_bb c) (ClgInit.dump_bbs c) (ClgInit.dump_every_bb c)
    (ClgInit.separate_threads c) (ClgInit.separate_callers c) (ClgInit.separate_recursions c) (ClgInit.skip_plt
    c) (ClgInit.skip_direct_recursion c) (ClgInit.collect_atstart c) (ClgInit.collect_jumps c)
    (ClgInit.collect_alloc c) v (ClgInit.collect_bus c) (ClgInit.instrument_atstart c) (ClgInit.simulate_cache
    c) (ClgInit.simulate_branch c) (ClgInit.pop_on_jump c).
Definition set_collect_bus (v : bool) (c : CommandLineOptions) : CommandLineOptions :=
  MkClo (ClgInit.out_format c) (ClgInit.combine_dumps c) (ClgInit.compress_strings c) (ClgInit.compress_events
    c) (ClgInit.compress_pos c) (ClgInit.mangle_names c) (ClgInit.compress_mangled c) (ClgInit.dump_line c)
    (ClgInit.dump_instr c) (ClgInit.dump_bb c) (ClgInit.dump_bbs c) (ClgInit.dump_every_bb c)
    (ClgInit.separate_threads c) (ClgInit.separate_callers c) (ClgInit.separate_recursions c) (ClgInit.skip_plt
    c) (ClgInit.skip_direct_recursion c) (ClgInit.collect_atstart c) (ClgInit.collect_jumps c)
    (ClgInit.collect_alloc c) (ClgInit.collect_systime c) v (ClgInit.instrument_atstart c)
    (ClgInit.simulate_cache c) (ClgInit.simulate_branch c) (ClgInit.pop_on_jump c).
Definition set_instrument_atstart (v : bool) (c : CommandLineOptions) : CommandLineOptions :=
  MkClo (ClgInit.out_format c) (ClgInit.combine_dumps c) (ClgInit.compress_strings c) (ClgInit.compress_events
    c) (ClgInit.compress_pos c) (ClgInit.mangle_names c) (ClgInit.compress_mangled c) (ClgInit.dump_line c)
    (ClgInit.dump_instr c) (ClgInit.dump_bb c) (ClgInit.dump_bbs c) (ClgInit.dump_every_bb c)
    (ClgInit.separate_threads c) (ClgInit.separate_callers c) (ClgInit.separate_recursions c) (ClgInit.skip_plt
    c) (ClgInit.skip_direct_recursion c) (ClgInit.collect_atstart c) (ClgInit.collect_jumps c)
    (ClgInit.collect_alloc c) (ClgInit.collect_systime c) (ClgInit.collect_bus c) v (ClgInit.simulate_cache c)
    (ClgInit.simulate_branch c) (ClgInit.pop_on_jump c).
Definition set_simulate_cache (v : bool) (c : CommandLineOptions) : CommandLineOptions :=
  MkClo (ClgInit.out_format c) (ClgInit.combine_dumps c) (ClgInit.compress_strings c) (ClgInit.compress_events
    c) (ClgInit.compress_pos c) (ClgInit.mangle_names c) (ClgInit.compress_mangled c) (ClgInit.dump_line c)
    (ClgInit.dump_instr c) (ClgInit.dump_bb c) (ClgInit.dump_bbs c) (ClgInit.dump_every_bb c)
    (ClgInit.separate_threads c) (ClgInit.separate_callers c) (ClgInit.separate_recursions c) (ClgInit.skip_plt
    c) (ClgInit.skip_direct_recursion c) (ClgInit.collect_atstart c) (ClgInit.collect_jumps c)
    (ClgInit.collect_alloc c) (ClgInit.collect_systime c) (ClgInit.collect_bus c) (ClgInit.instrument_atstart c)
    v (ClgInit.simulate_branch c) (ClgInit.pop_on_jump c).
Definition set_simulate_branch (v : bool) (c : CommandLineOptions) : CommandLineOptions :=
  MkClo (ClgInit.out_format c) (ClgInit.combine_dumps c) (ClgInit.compress_strings c) (ClgInit.compress_events
    c) (ClgInit.compress_pos c) (ClgInit.mangle_names c) (ClgInit.compress_mangled c) (ClgInit.dump_line c)
    (ClgInit.dump_instr c) (ClgInit.dump_bb c) (ClgInit.dump_bbs c) (ClgInit.dump_every_bb c)
    (ClgInit.separate_threads c) (ClgInit.separate_callers c) (ClgInit.separate_recursions c) (ClgInit.skip_plt
    c) (ClgInit.skip_direct_recursion c) (ClgInit.collect_atstart c) (ClgInit.collect_jumps c)
    (ClgInit.collect_alloc c) (ClgInit.collect_systime c) (ClgInit.collect_bus c) (ClgInit.instrument_atstart c)
    (ClgInit.simulate_cache c) v (ClgInit.pop_on_jump c).
Definition set_pop_on_jump (v : bool) (c : CommandLineOptions) : CommandLineOptions :=
  MkClo (ClgInit.out_format c) (ClgInit.combine_dumps c) (ClgInit.compress_strings c) (ClgInit.compress_events
    c) (ClgInit.compress_pos c) (ClgInit.mangle_names c) (ClgInit.compress_mangled c) (ClgInit.dump_line c)
    (ClgInit.dump_instr c) (ClgInit.dump_bb c) (ClgInit.dump_bbs c) (ClgInit.dump_every_bb c)
    (ClgInit.separate_threads c) (ClgInit.separate_callers c) (ClgInit.separate_recursions c) (ClgInit.skip_plt
    c) (ClgInit.skip_direct_recursion c) (ClgInit.collect_atstart c) (ClgInit.collect_jumps c)
    (ClgInit.collect_alloc c) (ClgInit.collect_systime c) (ClgInit.collect_bus c) (ClgInit.instrument_atstart c)
    (ClgInit.simulate_cache c) (ClgInit.simulate_branch c) v.

(** ** Recognisers (pub_tool_options.h) *)

(** [VG_INT_CLO(arg, option, var)], with [same n] the test that [n] survives its
    conversion to the type of [var]. *)
Definition VG_INT_CLO (arg opt : string) (same : Z -> bool) : option (res Z) :=
  match VG_STR_CLO arg opt with
  | Some val =>
      Some (let! (n, s) := VG_strtoll10 val in
            if negb (deref s =? 0) || negb (same n) then fmsg_bad_option arg "Invalid integer value" else Ok n)
  | None => None
  end.

Definition fits_int (n : Z) : bool := s32 n =? n.

(** A [Long] is converted to [ULong] for the comparison, too. *)
Definition fits_ulong (n : Z) : bool := u64 n =? u64 n.

Definition VG_XACT_CLO (arg opt : string) : bool := VG_strcmp arg opt =? 0.

(** [VG_STREQN(n, arg, opt)] and [arg + n] *)
Definition VG_STREQN (n : nat) (arg opt : string) : option string :=
  if VG_strncmp arg opt n =? 0 then Some (String.substring n (String.length arg - n) arg) else None.

(** ** The options *)

Record clo_state : Type := MkCloState {
  st_clo : CommandLineOptions;
  st_trie : list config_node;
  st_sim : sim_options
}.

Definition with_clo (s : clo_state) (f : CommandLineOptions -> CommandLineOptions) : clo_state :=
  MkCloState (f (st_clo s)) (st_trie s) (st_sim s).

(** An alternative of the chain: not this option, or the outcome. *)
Abbreviation outcome := (option (res (bool * clo_state))).

Definition bool_opt (arg opt : string) (s : clo_state) (set : bool -> CommandLineOptions -> CommandLineOptions) : outcome :=
  match VG_BOOL_CLO arg opt with
  | Some r => Some (let! v := r in Ok (true, with_clo s (set v)))
  | None => None
  end.

Definition int_opt (arg opt : string) (same : Z -> bool) (s : clo_state)
    (set : Z -> CommandLineOptions -> CommandLineOptions) : outcome :=
  match VG_INT_CLO arg opt same with
  | Some r => Some (let! v := r in Ok (true, with_clo s (set v)))
  | None => None
  end.

Definition xact_opt (arg opt : string) (s : clo_state) (set : CommandLineOptions -> CommandLineOptions) : outcome :=
  if VG_XACT_CLO arg opt then Some (Ok (true, with_clo s set)) else None.

(** [fnc = get_fnc(pattern)] and the assignment to [fnc]. *)
Definition set_fnc (s : clo_state) (pattern : string) (store : fn_config -> fn_config) : res (bool * clo_state) :=
  let! h := get_fnc (st_trie s) (list_ascii_of_string pattern) store in
  Ok (true, MkCloState (st_clo s) h (st_sim s)).

Definition fn_opt (arg opt : string) (s : clo_state) (store : fn_config -> fn_config) : outcome :=
  match VG_STR_CLO arg opt with
  | Some pattern => Some (set_fnc s pattern store)
  | None => None
  end.

(** An option with a number: [opt]<n>=pattern. *)
Definition fn_num_opt (arg opt : string) (s : clo_state) (store : Z -> fn_config -> fn_config) : outcome :=
  match VG_STREQN (String.length opt) arg opt with
  | Some rest =>
      Some (let! (n, p) := VG_strtoll10 rest in
            let n := u32 n in
            if (n <=? 0) || negb (deref p =? 61) then Ok (false, s) else set_fnc s (incr p) (store (s32 n)))
  | None => None
  end.

#[local] Infix "<|>" := (fun (a b : outcome) => match a with Some r => Some r | None => b end) (at level 60, right associativity).

Definition store_fc_dump_before (v : Z) (c : fn_config) : fn_config :=
  MkFnc v (fc_dump_after c) (fc_zero_before c) (fc_toggle_collect c) (fc_skip c) (fc_group c) (fc_pop_on_jump c)
    (fc_separate_callers c) (fc_separate_recursions c).
Definition store_fc_dump_after (v : Z) (c : fn_config) : fn_config :=
  MkFnc (fc_dump_before c) v (fc_zero_before c) (fc_toggle_collect c) (fc_skip c) (fc_group c) (fc_pop_on_jump
    c) (fc_separate_callers c) (fc_separate_recursions c).
Definition store_fc_zero_before (v : Z) (c : fn_config) : fn_config :=
  MkFnc (fc_dump_before c) (fc_dump_after c) v (fc_toggle_collect c) (fc_skip c) (fc_group c) (fc_pop_on_jump c)
    (fc_separate_callers c) (fc_separate_recursions c).
Definition store_fc_toggle_collect (v : Z) (c : fn_config) : fn_config :=
  MkFnc (fc_dump_before c) (fc_dump_after c) (fc_zero_before c) v (fc_skip c) (fc_group c) (fc_pop_on_jump c)
    (fc_separate_callers c) (fc_separate_recursions c).
Definition store_fc_skip (v : Z) (c : fn_config) : fn_config :=
  MkFnc (fc_dump_before c) (fc_dump_after c) (fc_zero_before c) (fc_toggle_collect c) v (fc_group c)
    (fc_pop_on_jump c) (fc_separate_callers c) (fc_separate_recursions c).
Definition store_fc_group (v : Z) (c : fn_config) : fn_config :=
  MkFnc (fc_dump_before c) (fc_dump_after c) (fc_zero_before c) (fc_toggle_collect c) (fc_skip c) v
    (fc_pop_on_jump c) (fc_separate_callers c) (fc_separate_recursions c).
Definition store_fc_pop_on_jump (v : Z) (c : fn_config) : fn_config :=
  MkFnc (fc_dump_before c) (fc_dump_after c) (fc_zero_before c) (fc_toggle_collect c) (fc_skip c) (fc_group c) v
    (fc_separate_callers c) (fc_separate_recursions c).
Definition store_fc_separate_callers (v : Z) (c : fn_config) : fn_config :=
  MkFnc (fc_dump_before c) (fc_dump_after c) (fc_zero_before c) (fc_toggle_collect c) (fc_skip c) (fc_group c)
    (fc_pop_on_jump c) v (fc_separate_recursions c).
Definition store_fc_separate_recursions (v : Z) (c : fn_config) : fn_config :=
  MkFnc (fc_dump_before c) (fc_dump_after c) (fc_zero_before c) (fc_toggle_collect c) (fc_skip c) (fc_group c)
    (fc_pop_on_jump c) (fc_separate_callers c) v.

Definition process_own_option (arg : string) (s : clo_state) : outcome :=
  bool_opt arg "--skip-plt" s set_skip_plt <|>
  bool_opt arg "--collect-jumps" s set_collect_jumps <|>
  bool_opt arg "--trace-jump" s set_collect_jumps <|>
  bool_opt arg "--combine-dumps" s set_combine_dumps <|>
  bool_opt arg "--collect-atstart" s set_collect_atstart <|>
  bool_opt arg "--instr-atstart" s set_instrument_atstart <|>
  bool_opt arg "--separate-threads" s set_separate_threads <|>
  bool_opt arg "--compress-strings" s set_compress_strings <|>
  bool_opt arg "--compress-mangled" s set_compress_mangled <|>
  bool_opt arg "--compress-pos" s set_compress_pos <|>
  fn_opt arg "--fn-skip" s (store_fc_skip CONFIG_TRUE) <|>
  fn_opt arg "--dump-before" s (store_fc_dump_before CONFIG_TRUE) <|>
  fn_opt arg "--zero-before" s (store_fc_zero_before CONFIG_TRUE) <|>
  fn_opt arg "--dump-after" s (store_fc_dump_after CONFIG_TRUE) <|>
  (match VG_STR_CLO arg "--toggle-collect" with
   | Some pattern =>
       Some (let! (b, s) := set_fnc s pattern (store_fc_toggle_collect CONFIG_TRUE) in
             Ok (b, with_clo s (set_collect_atstart false)))
   | None => None
   end) <|>
  int_opt arg "--separate-recs" fits_int s set_separate_recursions <|>
  xact_opt arg "--pop-on-jump" s (set_pop_on_jump true) <|>
  fn_opt arg "--pop-on-jump" s (store_fc_pop_on_jump CONFIG_TRUE) <|>
  int_opt arg "--ct-verbose" fits_int s (fun _ c => c) <|>
  int_opt arg "--ct-vstart" fits_ulong s (fun _ c => c) <|>
  fn_num_opt arg "--ct-verbose" s (fun _ c => c) <|>
  xact_opt arg "--separate-callers=auto" s (set_separate_callers (-1)) <|>
  int_opt arg "--separate-callers" fits_int s set_separate_callers <|>
  fn_num_opt arg "--fn-group" s store_fc_group <|>
  fn_num_opt arg "--separate-callers" s store_fc_separate_callers <|>
  fn_num_opt arg "--separate-recs" s store_fc_separate_recursions <|>
  (match VG_STR_CLO arg "--callgrind-out-file" with
   | Some val => Some (Ok (true, with_clo s (set_out_format (Some val))))
   | None => None
   end) <|>
  bool_opt arg "--mangle-names" s set_mangle_names <|>
  bool_opt arg "--skip-direct-rec" s set_skip_direct_recursion <|>
  bool_opt arg "--dump-bbs" s set_dump_bbs <|>
  bool_opt arg "--dump-line" s set_dump_line <|>
  bool_opt arg "--dump-instr" s put_dump_instr <|>
  bool_opt arg "--dump-bb" s set_dump_bb <|>
  int_opt arg "--dump-every-bb" fits_ulong s (fun n => set_dump_every_bb (u64 n)) <|>
  bool_opt arg "--collect-alloc" s set_collect_alloc <|>
  xact_opt arg "--collect-systime=no" s (set_collect_systime systime_no) <|>
  xact_opt arg "--collect-systime=msec" s (set_collect_systime systime_msec) <|>
  xact_opt arg "--collect-systime=yes" s (set_collect_systime systime_msec) <|>
  xact_opt arg "--collect-systime=usec" s (set_collect_systime systime_usec) <|>
  xact_opt arg "--collect-systime=nsec" s (set_collect_systime systime_nsec) <|>
  bool_opt arg "--collect-bus" s set_collect_bus <|>
  bool_opt arg "--cache-sim" s set_simulate_cache <|>
  bool_opt arg "--simulate-cache" s set_simulate_cache <|>
  bool_opt arg "--branch-sim" s set_simulate_branch.

Definition process_cmd_line_option (arg : string) (s : clo_state) : res (bool * clo_state) :=
  match process_own_option arg s with
  | Some r => r
  | None =>
      let! (b, so, c) := cachesim_parse_opt arg (st_sim s) (st_clo s) in
      Ok (b, MkCloState (if (b : bool) then set_simulate_cache true c else c) (st_trie s) so)
  end.

Definition process_args (args : list string) (s : clo_state) : res clo_state :=
  res_fold (fun arg s =>
    let! (recognised, s) := process_cmd_line_option arg s in
    if (recognised : bool) then Ok s else Err (Exit 1 "Unknown option")) args s.

Definition initial_state : clo_state := MkCloState set_clo_defaults [] sim_options0.

(** ** Options for functions *)

Inductive fn_flag : Type := FnSkip | DumpBefore | ZeroBefore | DumpAfter | ToggleCollect | PopOnJump.

#[global] Instance fn_flag_eq_dec : EqDecision fn_flag.
Proof. solve_decision. Defined.

Definition flag_option (k : fn_flag) : string :=
  match k with
  | FnSkip => "--fn-skip" | DumpBefore => "--dump-before" | ZeroBefore => "--zero-before" | DumpAfter => "--dump-after"
  | ToggleCollect => "--toggle-collect" | PopOnJump => "--pop-on-jump"
  end.

Definition flag_store (k : fn_flag) : fn_config -> fn_config :=
  match k with
  | FnSkip => store_fc_skip | DumpBefore => store_fc_dump_before | ZeroBefore => store_fc_zero_before
  | DumpAfter => store_fc_dump_after | ToggleCollect => store_fc_toggle_collect | PopOnJump => store_fc_pop_on_jump
  end CONFIG_TRUE.

Definition flag_of (k : fn_flag) : fn_node -> bool :=
  match k with
  | FnSkip => fn_skip | DumpBefore => dump_before | ZeroBefore => zero_before | DumpAfter => dump_after
  | ToggleCollect => toggle_collect | PopOnJump => ClgContext.pop_on_jump
  end.

Definition flag_arg (o : fn_flag * string) : string := (flag_option o.1 ++ "=" ++ o.2)%string.

Lemma substring_all p : String.substring 0 (String.length p) p = p.
Proof. induction p as [|c p IH]; [done|]. cbn. by rewrite IH. Qed.

Lemma substring_app (s p : string) :
  String.substring (String.length s) (String.length (s ++ p) - String.length s) (s ++ p) = p.
Proof. induction s as [|c s IH]; [cbn; by rewrite Nat.sub_0_r, substring_all|exact IH]. Qed.

(** An option for functions stores its setting in the trie; --toggle-collect also
    switches collection off at the start. *)
Lemma process_flag k p s : process_cmd_line_option (flag_arg (k, p)) s =
  let! h := get_fnc (st_trie s) (list_ascii_of_string p) (flag_store k) in
  Ok (true, MkCloState (if decide (k = ToggleCollect) then set_collect_atstart false (st_clo s) else st_clo s) h (st_sim s)).
Proof.
  unfold process_cmd_line_option, process_own_option.
  assert (VG_STR_CLO (flag_arg (k, p)) (flag_option k) = Some p) as E.
  { unfold VG_STR_CLO. assert (VG_strncmp (flag_arg (k, p)) (flag_option k ++ "=") (S (String.length (flag_option k))) = 0) as ->
      by (by destruct k). cbn [Z.eqb]. f_equal. destruct k; match goal with |- context [flag_option ?k] => exact (substring_app (flag_option k ++ "=") p) end. }
  destruct k; cbn [flag_option] in E; unfold fn_opt; rewrite E; unfold set_fnc, with_clo; cbn [flag_store];
    match goal with |- context [get_fnc ?h ?q ?f] => destruct (get_fnc h q f) end; reflexivity.
Qed.

(** The options one after the other. *)
Lemma process_flags opts : forall s,
  process_args (flag_arg <$> opts) s =
    let! h := configure ((fun o => (list_ascii_of_string o.2, flag_store o.1)) <$> opts) (st_trie s) in
    Ok (MkCloState (if existsb (fun o => bool_decide (o.1 = ToggleCollect)) opts then set_collect_atstart false (st_clo s)
                    else st_clo s) h (st_sim s)).
Proof.
  induction opts as [|[k p] opts IH]; intros s; [by destruct s|].
  unfold process_args, configure in *. cbn [fmap list_fmap res_fold existsb fst snd].
  rewrite process_flag. destruct (get_fnc (st_trie s) (list_ascii_of_string p) (flag_store k)) as [h|e]; [|done].
  cbn [rbind]. rewrite IH. cbn [st_trie st_clo st_sim].
  destruct (res_fold _ _ h) as [h'|e]; [|done]. cbn [rbind]. do 2 f_equal.
  destruct (decide (k = ToggleCollect)) as [->|Hk].
  - rewrite bool_decide_eq_true_2 by done. cbn [orb]. by destruct (existsb _ opts).
  - rewrite bool_decide_eq_false_2 by done. done.
Qed.

Lemma flag_applied k c fn (f : fn_flag) : flag_of f (apply_setting fn (c, flag_store k)) = bool_decide (k = f) || flag_of f fn.
Proof. by destruct k, f. Qed.

Lemma flags_applied (l : list (fn_flag * string)) fn f :
  flag_of f (foldl apply_setting fn ((fun o => (list_ascii_of_string o.2, flag_store o.1)) <$> l)) =
    existsb (fun o => bool_decide (o.1 = f)) l || flag_of f fn.
Proof.
  revert fn; induction l as [|[k p] l IH]; intros fn; [done|]. cbn [fmap list_fmap foldl existsb fst snd].
  rewrite IH, flag_applied. by destruct (bool_decide (k = f)), (existsb _ l).
Qed.

Lemma numbers_kept (l : list (fn_flag * string)) fn :
  let fn' := foldl apply_setting fn ((fun o => (list_ascii_of_string o.2, flag_store o.1)) <$> l) in
  fn_name fn' = fn_name fn /\ number fn' = number fn /\ group fn' = group fn /\
  ClgContext.separate_callers fn' = ClgContext.separate_callers fn /\
  ClgContext.separate_recursions fn' = ClgContext.separate_recursions fn.
Proof.
  revert fn; induction l as [|[k p] l IH]; intros fn; [done|]. cbn [fmap list_fmap foldl fst snd].
  destruct (IH (apply_setting fn (list_ascii_of_string p, flag_store k))) as (H1 & H2 & H3 & H4 & H5). by destruct k.
Qed.

Lemma filter_map {A B} (g : A -> B) (P : B -> Prop) `{!forall x, Decision (P x)} (l : list A) :
  filter P (g <$> l) = g <$> filter (fun a => P (g a)) l.
Proof.
  induction l as [|a l IH]; [done|]. cbn [fmap list_fmap]. destruct (decide (P (g a))).
  - rewrite !filter_cons_True by done. cbn. by rewrite <- IH.
  - by rewrite !filter_cons_False by done.
Qed.

Lemma existsb_filter {A} (q : A -> bool) (P : A -> Prop) `{!forall x, Decision (P x)} (l : list A) :
  existsb q (filter P l) = existsb (fun a => bool_decide (P a) && q a) l.
Proof.
  induction l as [|a l IH]; [done|]. cbn [existsb]. destruct (decide (P a)).
  - rewrite filter_cons_True by done. rewrite bool_decide_eq_true_2 by done. cbn. by rewrite IH.
  - rewrite filter_cons_False by done. rewrite bool_decide_eq_false_2 by done. done.
Qed.

Lemma existsb_or {A} (p q : A -> bool) (l : list A) : existsb p l || existsb q l = existsb (fun a => p a || q a) l.
Proof.
  induction l as [|a l IH]; [done|]. cbn [existsb]. rewrite <- IH.
  by destruct (p a), (q a), (existsb p l), (existsb q l).
Qed.

Lemma existsb_same {A} (p q : A -> bool) (l : list A) : (forall a, p a = q a) -> existsb p l = existsb q l.
Proof. intros H. induction l as [|a l IH]; [done|]. cbn. by rewrite H, IH. Qed.

Lemma matching_split name (o : setting) :
  bool_decide (matching false name o) || bool_decide (matching true name o) = glob o.1 name.
Proof.
  apply eq_true_iff_eq. rewrite orb_true_iff, !bool_decide_eq_true. unfold matching. destruct (star_first o); naive_solver.
Qed.


Definition ex_options : list (fn_flag * string) := [(FnSkip, "mem*"%string); (ToggleCollect, "*::print"%string)].

