(* ===== verification/CgMerge.v ===== *)
(** * CgMerge: merging output files (cachegrind/cg_merge.c)

    cg_merge reads output files of the profiler, adds up the counters of each
    source line, and writes a file of the same format.  This file models the
    whole program, from the lines of a file to [main]; MergeSpec.v and the
    files after it hold the proofs.

    A C string is the list of its bytes before the terminator, and a file the
    list of its bytes.  Allocation succeeds, files are read without I/O errors,
    and lines are shorter than 2^31 bytes.  The messages on stderr are not
    modelled; where one ends the program it is the text of the [Exit]. *)

From Stdlib Require Import ZArith Lia Ascii String.
From stdpp Require Import base numbers option strings list.
From S2P Require Import Prelude Libcbase Debuglog Vprintf Libcprint OSet WordFM.

#[local] Open Scope Z_scope.

(** ** Reading lines *)

(** [SOURCE]: what is left of the file, the line number and the name. *)
Record SOURCE : Type := MkSource {
  src_rest : string;
  lno : Z;
  filename : string
}.

(** [parseError] and [barf]. *)
Definition parseError {A : Type} (msg : string) : res A := Err (Exit 1 msg).
Definition barf {A : Type} (msg : string) : res A := Err (Exit 1 msg).

(** The bytes up to a newline, whether there was one, and what follows. *)
Fixpoint read_chars (s : string) : string * bool * string :=
  match s with
  | EmptyString => (EmptyString, false, EmptyString)
  | String c s' =>
      if zchar c =? 10 then (EmptyString, true, s')
      else let '(l, seen, rest) := read_chars s' in (String c l, seen, rest)
  end.

(** The C string in a buffer of bytes. *)
Fixpoint c_str (s : string) : string :=
  match s with
  | EmptyString => EmptyString
  | String c s' => if zchar c =? 0 then EmptyString else String c (c_str s')
  end.

Definition readline (s : SOURCE) : SOURCE * option string :=
  match src_rest s with
  | EmptyString => (s, None)
  | _ =>
      let '(line, seen, rest) := read_chars (src_rest s) in
      (MkSource rest (if (seen : bool) then u32 (lno s + 1) else lno s) (filename s), Some (c_str line))
  end.

(** [streqn] and [streq]; of [strncmp] and [strcmp] only the sign counts. *)
Definition streqn (s1 s2 : string) (n : nat) : bool := 0 =? VG_strncmp s1 s2 n.
Definition streq (s1 s2 : string) : bool := 0 =? VG_strcmp s1 s2.

(** The same for a pointer that may be NULL. *)
Definition streqn_ptr (s1 : option string) (s2 : string) (n : nat) : res bool :=
  match s1 with
  | None => Err NullDeref
  | Some s1 => Ok (streqn s1 s2 n)
  end.

(** [isspace] and [isdigit] of the C locale are those of m_libcbase.c. *)
Definition isalpha (c : Z) : bool := ((65 <=? c) && (c <=? 90)) || ((97 <=? c) && (c <=? 122)).

(** [line+3]. *)
Definition plus3 (line : string) : string := incr (incr (incr line)).

(** ** Data *)

Record FileFn : Type := MkFileFn { fi_name : string; fn_name : string }.

#[export] Instance FileFn_eq_dec : EqDecision FileFn.
Proof. solve_decision. Defined.

(** A vector of counts; [n_counts] is its length. *)
Notation Counts := (list Z).

(** Line numbers to counts. *)
Notation InnerMap := (WordFM Z Counts).

Record CacheProfFile : Type := MkCpf {
  desc_lines : list string;
  cmd_line : string;
  events_line : string;
  n_events : Z;
  summary_line : option string;
  outerMap : WordFM FileFn InnerMap;
  summary : Counts
}.

Definition n_counts (c : Counts) : Z := Z.of_nat (length c).
Definition new_Counts_Zeroed (n : Z) : Counts := replicate (Z.to_nat n) 0.

(** Deep copies are equal values. *)
Definition dopy_FileFn (ff : FileFn) : option FileFn := Some (MkFileFn (fi_name ff) (fn_name ff)).
Definition dopy_Counts (cts : Counts) : option Counts := Some cts.
Definition dopy_InnerMap (m : InnerMap) : res (option InnerMap) := dopyFM Some dopy_Counts m.

(** [cmp_FileFn]. *)
Definition cmp_FileFn (ff1 ff2 : FileFn) : Z :=
  let r := VG_strcmp (fi_name ff1) (fi_name ff2) in
  if r =? 0 then VG_strcmp (fn_name ff1) (fn_name ff2) else r.

(** [cmp_unboxed_UWord]. *)
Definition cmp_unboxed_UWord (u1 u2 : Z) : Z :=
  if u1 <? u2 then -1 else if u1 >? u2 then 1 else 0.

(** ** Parsing a line of counts *)

(** The digit loop of [parse_ULong]. *)
Fixpoint ulong_loop (ptr : string) (n : Z) : Z * string :=
  match ptr with
  | EmptyString => (n, ptr)
  | String c ptr' =>
      if VG_isdigit (zchar c) then ulong_loop ptr' (u64 (u64 (n * 10) + (zchar c - 48)))
      else (n, ptr)
  end.

(** [parse_ULong]: the number, if there is one, and the pointer. *)
Definition parse_ULong (ptr : string) : option Z * string :=
  let ptr := skip_space ptr in
  if negb (VG_isdigit (deref ptr)) then (None, ptr)
  else let '(n, ptr) := ulong_loop ptr 0 in (Some n, ptr).

(** The loop of [splitUpCountsLine]: the numbers, and where it stopped.  Every
    number takes a character. *)
Fixpoint split_loop (fuel : nat) (str : string) : res (list Z * string) :=
  match fuel with
  | O => Err OutOfFuel
  | S fuel' =>
      let '(n, str) := parse_ULong str in
      match n with
      | None => Ok ([], str)
      | Some n => let! (ns, str) := split_loop fuel' str in Ok (n :: ns, str)
      end
  end.

(** [splitUpCountsLine]; [lnno] tells whether the first number is a line
    number.  The line number is 0 when it is not wanted. *)
Definition splitUpCountsLine (lnno : bool) (str : string) : res (Z * Counts) :=
  let! (tmpC, str) := split_loop (S (String.length str)) str in
  if negb (deref str =? 0) then parseError "garbage in counts line"
  else if (if lnno then Nat.ltb (length tmpC) 2 else Nat.ltb (length tmpC) 1)
  then parseError "too few counts in count line"
  else match lnno, tmpC with
       | true, n :: counts => Ok (n, counts)
       | _, _ => Ok (0, tmpC)
       end.

(** [addCounts]: the new contents of the first vector. *)
Definition addCounts (counts1 counts2 : Counts) : res Counts :=
  if negb (n_counts counts1 =? n_counts counts2)
  then parseError "addCounts: inconsistent number of counts"
  else Ok (map u64 (zip_with Z.add counts1 counts2)).

(** [addCountsToMap]: the map after the in-place addition or insertion. *)
Definition addCountsToMap (counts_map : InnerMap) (lnno : Z) (newCounts : Counts) : res InnerMap :=
  match lookupFM cmp_unboxed_UWord counts_map lnno with
  | Some oldCounts =>
      let! c := addCounts oldCounts newCounts in
      Ok (storeFM cmp_unboxed_UWord counts_map lnno c)
  | None => addToFM cmp_unboxed_UWord counts_map lnno newCounts
  end.

(** The new value of the map and of the summary. *)
Definition set_data (cpf : CacheProfFile) (m : WordFM FileFn InnerMap) (sum : Counts) : CacheProfFile :=
  MkCpf (desc_lines cpf) (cmd_line cpf) (events_line cpf) (n_events cpf) (summary_line cpf) m sum.

Definition handle_counts (cpf : CacheProfFile) (fi fn newCountsStr : string) : res CacheProfFile :=
  let! (lnno, newCounts) := splitUpCountsLine true newCountsStr in
  if negb (n_counts newCounts =? n_events cpf) then parseError "# counts doesn't match # events"
  else
    let topKey := MkFileFn fi fn in
    let! m :=
      match lookupFM cmp_FileFn (outerMap cpf) topKey with
      | Some countsMap =>
          let! countsMap := addCountsToMap countsMap lnno newCounts in
          Ok (storeFM cmp_FileFn (outerMap cpf) topKey countsMap)
      | None =>
          let countsMap := newFM in
          let! m := addToFM cmp_FileFn (outerMap cpf) topKey countsMap in
          let! countsMap := addCountsToMap countsMap lnno newCounts in
          Ok (storeFM cmp_FileFn m topKey countsMap)
      end in
    let! sum := addCounts (summary cpf) newCounts in
    Ok (set_data cpf m sum).

(** ** Parsing a file *)

(** The "desc:" lines, and the line after them. *)
Fixpoint desc_loop (fuel : nat) (s : SOURCE) (acc : list string)
  : res (SOURCE * list string * option string) :=
  match fuel with
  | O => Err OutOfFuel
  | S fuel' =>
      let '(s, line) := readline s in
      match line with
      | None => Ok (s, acc, None)
      | Some l =>
          if negb (streqn l "desc: " 6) then Ok (s, acc, Some l)
          else desc_loop fuel' s (acc ++ [l])
      end
  end.

(** The space-letter transitions of the "events:" line, from the colon on. *)
Fixpoint count_events (p : string) : Z :=
  match p with
  | EmptyString => 0
  | String c p' => (if (zchar c =? 32) && isalpha (deref p') then 1 else 0) + count_events p'
  end.

Definition plus6 (line : string) : string := plus3 (plus3 line).

(** The loop over the lines of counts; returns the "summary:" line. *)
Fixpoint counts_loop (fuel : nat) (s : SOURCE) (cpf : CacheProfFile) (curr_fl curr_fn : string)
  : res (SOURCE * CacheProfFile * string) :=
  match fuel with
  | O => Err OutOfFuel
  | S fuel' =>
      let '(s, line) := readline s in
      match line with
      | None => parseError "parse_CacheProfFile: eof before SUMMARY line"
      | Some line =>
          if VG_isdigit (deref line) then
            let! cpf := handle_counts cpf curr_fl curr_fn line in
            counts_loop fuel' s cpf curr_fl curr_fn
          else if streqn line "fn=" 3 then counts_loop fuel' s cpf curr_fl (plus3 line)
          else if streqn line "fl=" 3 then counts_loop fuel' s cpf (plus3 line) curr_fn
          else if streqn line "summary: " 9 then Ok (s, cpf, line)
          else parseError "parse_CacheProfFile: unexpected line in main data"
      end
  end.

(** A round of a loop that reads a line takes a byte of the file. *)
Definition line_fuel (s : SOURCE) : nat := S (String.length (src_rest s)).

Definition parse_CacheProfFile (s : SOURCE) : res CacheProfFile :=
  let! (s, descs, line) := desc_loop (line_fuel s) s [] in
  if Nat.eqb (length descs) 0 then parseError "parse_CacheProfFile: no DESC lines present"
  else
  let! is_cmd := streqn_ptr line "cmd: " 5 in
  if negb is_cmd then parseError "parse_CacheProfFile: no CMD line present"
  else
  let cmd := default EmptyString line in
  let '(s, line) := readline s in
  match line with
  | None => parseError "parse_CacheProfFile: eof before EVENTS line"
  | Some events =>
      if negb (streqn events "events: " 8) then parseError "parse_CacheProfFile: no EVENTS line present"
      else
      let! _ := tl_assert (deref (plus6 events) =? 58) "cpf->events_line[6] == ':'" in
      let n := count_events (plus6 events) in
      let cpf := MkCpf descs cmd events n None newFM (new_Counts_Zeroed n) in
      let! (s, cpf, line) := counts_loop (line_fuel s) s cpf "???" "???" in
      if negb (streqn line "summary: " 9) then parseError "parse_CacheProfFile: missing SUMMARY line"
      else
      let '(s, extra) := readline s in
      match extra with
      | Some _ => parseError "parse_CacheProfFile: extraneous content after SUMMARY line"
      | None =>
          let! (_, summaryRead) := splitUpCountsLine false (incr (incr (plus6 line))) in
          if negb (n_counts summaryRead =? n_events cpf)
          then parseError "parse_CacheProfFile: wrong # counts in SUMMARY line"
          else if existsb (fun p => negb (fst p =? snd p)) (combine summaryRead (summary cpf))
          then parseError "parse_CacheProfFile: computed vs stated SUMMARY counts mismatch"
          else Ok cpf
      end
  end.

(** ** Merging *)

(** The body of the inner loop. *)
Definition merge_line (e : Z * Counts) (doVal : InnerMap) : res InnerMap :=
  let '(siKey, siVal) := e in
  match lookupFM cmp_unboxed_UWord doVal siKey with
  | None =>
      match dopy_Counts siVal with
      | None => Err (Exit 2 "merge_CacheProfInfo")
      | Some c_siVal => addToFM cmp_unboxed_UWord doVal siKey c_siVal
      end
  | Some diVal =>
      let! c := addCounts diVal siVal in
      Ok (storeFM cmp_unboxed_UWord doVal siKey c)
  end.

(** The body of the outer loop.  An inner iteration leaves [soVal] as it was. *)
Definition merge_fn (e : FileFn * InnerMap) (dst : WordFM FileFn InnerMap)
  : res (WordFM FileFn InnerMap) :=
  let '(soKey, soVal) := e in
  match lookupFM cmp_FileFn dst soKey with
  | None =>
      let! c_soVal := dopy_InnerMap soVal in
      match dopy_FileFn soKey, c_soVal with
      | Some c_soKey, Some c_soVal => addToFM cmp_FileFn dst c_soKey c_soVal
      | _, _ => Err (Exit 2 "merge_CacheProfInfo")
      end
  | Some doVal =>
      let! (_, doVal) := for_each merge_line soVal doVal in
      Ok (storeFM cmp_FileFn dst soKey doVal)
  end.

Definition merge_CacheProfInfo (dst src : CacheProfFile) : res CacheProfFile :=
  if negb (streq (events_line dst) (events_line src))
  then barf "events: line of most recent file does not match those previously processed"
  else
    let! (_, m) := for_each merge_fn (outerMap src) (outerMap dst) in
    let! sum := addCounts (summary dst) (summary src) in
    Ok (set_data dst m sum).

(** ** Writing *)

(** [showCounts]: every count with "%lld ". *)
Definition showCounts (c : Counts) : string :=
  fold_right (fun x s => (fmt_d x ++ " " ++ s)%string) EmptyString c.

(** A line, with its number by "%ld   ". *)
Definition show_line (e : Z * Counts) (f : string) : res string :=
  Ok (f ++ fmt_d (fst e) ++ "   " ++ showCounts (snd e) ++ nl)%string.

Definition show_fn (e : FileFn * InnerMap) (f : string) : res string :=
  let '(topKey, topVal) := e in
  let f := (f ++ "fl=" ++ fi_name topKey ++ nl ++ "fn=" ++ fn_name topKey ++ nl)%string in
  let! (_, f) := for_each show_line topVal f in
  Ok f.

Definition show_CacheProfFile (cpf : CacheProfFile) : res string :=
  let f := fold_right (fun d f => (d ++ nl ++ f)%string) EmptyString (desc_lines cpf) in
  let f := (f ++ cmd_line cpf ++ nl ++ events_line cpf ++ nl)%string in
  let! (_, f) := for_each show_fn (outerMap cpf) f in
  Ok (f ++ "summary:" ++ fold_right (fun x f => (" " ++ fmt_d x ++ f)%string) EmptyString (summary cpf) ++
      nl)%string.

(** ** main *)

Definition usage {A : Type} : res A := Err (Exit 1 "usage").

(** The first "-o": the name after it, and its index. *)
Fixpoint find_outfile (i : Z) (argv : list string) : res (option string * Z) :=
  match argv with
  | [] => Ok (None, 0)
  | a :: rest =>
      if streq a "-o" then
        match rest with
        | name :: _ => Ok (Some name, i)
        | [] => usage
        end
      else find_outfile (i + 1) rest
  end.

(** A file parsed, and merged with those before it. *)
Definition merge_file (fopen : string -> option string) (name : string) (cpf : option CacheProfFile)
  : res CacheProfFile :=
  match fopen name with
  | None => barf "Cannot open input file"
  | Some bytes =>
      let! cpfTmp := parse_CacheProfFile (MkSource bytes 1 name) in
      match cpf with
      | None => Ok cpfTmp
      | Some cpf => merge_CacheProfInfo cpf cpfTmp
      end
  end.

(** The loop over the arguments, skipping "-o" and what follows it. *)
Fixpoint merge_args (fopen : string -> option string) (outfileix i : Z) (argv : list string)
    (cpf : option CacheProfFile) : res (option CacheProfFile) :=
  match argv with
  | [] => Ok cpf
  | a :: rest =>
      if i =? outfileix then
        match rest with
        | [] => Ok cpf
        | _ :: rest' => merge_args fopen outfileix (i + 2) rest' cpf
        end
      else
        let! cpf := merge_file fopen a cpf in
        merge_args fopen outfileix (i + 1) rest (Some cpf)
  end.

(** [main] on the arguments after [argv[0]], in a world where [fopen] reads
    files and [creatable] tells which can be created: the file written (NULL
    for stdout) and its contents. *)
Definition main (fopen : string -> option string) (creatable : string -> bool) (argv : list string)
  : res (option (option string * string)) :=
  if Nat.ltb (length argv) 1 then usage
  else if existsb (fun a => streq a "-h" || streq a "--help") argv then usage
  else
  let! (outfilename, outfileix) := find_outfile 1 argv in
  let! cpf := merge_args fopen outfileix 1 argv None in
  match cpf with
  | None => Ok None
  | Some cpf =>
      let ok := match outfilename with Some name => creatable name | None => true end in
      if negb ok then Err (Exit 1 "can't create output file")
      else
        let! text := show_CacheProfFile cpf in
        Ok (Some (outfilename, text))
  end.
