(* ===== verification/MergeSpec.v ===== *)
(** * MergeSpec: what cg_merge's tables hold

    The abstract value of a profile is a list of rows: a file and function, a
    line number and a vector of counts.  Rows of the same line add up, modulo
    2^64.  This file states how the two-level map of cg_merge.c represents a
    list of rows ([mrep]), and proves that reading a line of counts appends a
    row and that merging appends the rows of the other file. *)

From Stdlib Require Import ZArith Lia Ascii String Sorted.
From stdpp Require Import base numbers option strings gmap list.
From S2P Require Import Prelude Libcbase Debuglog Vprintf Libcprint CgSim OSet WordFM CgTables CgOutput CgMerge.

#[local] Open Scope Z_scope.

(** ** The two orders *)

#[export] Instance cmp_unboxed_UWord_laws : CmpLaws cmp_unboxed_UWord.
Proof.
  assert (forall a b, cmp_unboxed_UWord a b = Z.sgn (a - b)) as H.
  { intros a b. unfold cmp_unboxed_UWord. rewrite Z.gtb_ltb. case_Z; lia. }
  split; intros; rewrite !H in *; lia.
Qed.

Lemma cmp_UWord_eqb a b : (cmp_unboxed_UWord a b =? 0) = (a =? b).
Proof. unfold cmp_unboxed_UWord. rewrite Z.gtb_ltb. case_Z; lia. Qed.

#[export] Instance cmp_FileFn_laws : CmpLaws cmp_FileFn.
Proof.
  unfold cmp_FileFn. split.
  - intros [f1 n1] [f2 n2]; cbn [fi_name fn_name].
    rewrite (VG_strcmp_antisym f1 f2), (VG_strcmp_antisym n1 n2). case_strcmp f1 f2.
    + rewrite Hc. cbn [Z.opp]. eval_eqb. by rewrite Z.sgn_opp, Z.opp_involutive.
    + rewrite (proj2 (Z.eqb_neq _ _)) by lia. rewrite Z.sgn_opp. lia.
  - intros [f1 n1] [f2 n2] [f3 n3]; cbn [fi_name fn_name].
    case_strcmp f1 f2; [rewrite (VG_strcmp_zero_l _ _ f3 Hc)|]; case_strcmp f2 f3; try lia.
    + apply VG_strcmp_trans.
    + intros H1 _. rewrite <- (VG_strcmp_zero_r _ _ f1 Hc0). by rewrite (proj2 (Z.eqb_neq _ _)) by lia.
    + intros H1 H2. pose proof (VG_strcmp_trans _ _ _ H1 H2). by rewrite (proj2 (Z.eqb_neq _ _)) by lia.
  - intros [f1 n1] [f2 n2] [f3 n3]; cbn [fi_name fn_name].
    case_strcmp f1 f2; [|done]. intros Hn.
    by rewrite (VG_strcmp_zero_l _ _ f3 Hc), (VG_strcmp_zero_l _ _ n3 Hn).
Qed.

(** On C strings the order's equality is equality. *)
Definition name_ok (s : string) : Prop := no_char 0 s /\ no_char 10 s.
Definition key_ok (k : FileFn) : Prop := name_ok (fi_name k) /\ name_ok (fn_name k).

Lemma no_char_no_nul s : no_char 0 s -> no_nul s.
Proof.
  unfold no_char. induction s as [|c s IH]; cbn; [done|]. intros [H1 H2]%Forall_cons. split; [done|auto].
Qed.

Lemma cmp_FileFn_eq k1 k2 : key_ok k1 -> key_ok k2 -> (cmp_FileFn k1 k2 = 0 <-> k1 = k2).
Proof.
  destruct k1 as [f1 n1], k2 as [f2 n2]. intros [[? _] [? _]] [[? _] [? _]]. unfold cmp_FileFn. cbn in *.
  assert (VG_strcmp f1 f2 = 0 <-> f1 = f2) as Hf by (apply VG_strcmp_eq; by apply no_char_no_nul).
  assert (VG_strcmp n1 n2 = 0 <-> n1 = n2) as Hn by (apply VG_strcmp_eq; by apply no_char_no_nul).
  destruct (Z.eqb_spec (VG_strcmp f1 f2) 0); split; intros E.
  - f_equal; tauto.
  - injection E as -> ->. apply VG_strcmp_refl.
  - done.
  - injection E as -> ->. by rewrite VG_strcmp_refl in *.
Qed.

(** ** Rows *)

(** A vector of [n] unsigned counts. *)
Definition vec (n : nat) (c : list Z) : Prop := length c = n /\ Forall (in_u 64) c.

Definition row : Type := (FileFn * Z * list Z)%type.

(** Whether a row is of a line. *)
Definition row_of (k : FileFn) (ln : Z) (r : row) : bool :=
  (cmp_FileFn k r.1.1 =? 0) && (ln =? r.1.2).

(** Sums by column, modulo 2^64. *)
Definition vec_sum (n : nat) (cs : list (list Z)) : list Z := map u64 (column_sums n cs).

Definition add_vec (a b : list Z) : list Z := map u64 (zip_with Z.add a b).

(** The counts of a line, if it has a row. *)
Definition row_total (n : nat) (rows : list row) (k : FileFn) (ln : Z) : option (list Z) :=
  match List.filter (row_of k ln) rows with
  | [] => None
  | rs => Some (vec_sum n (map snd rs))
  end.

Definition opt_add (a b : option (list Z)) : option (list Z) :=
  match a, b with
  | Some a, Some b => Some (add_vec a b)
  | Some a, None => Some a
  | None, b => b
  end.

Lemma add_vec_wrap a b : add_vec (map u64 a) (map u64 b) = map u64 (zip_with Z.add a b).
Proof.
  unfold add_vec. revert b; induction a as [|x a IH]; intros [|y b]; cbn; try done.
  f_equal; [|apply IH]. unfold wrapu. by rewrite <- Zplus_mod.
Qed.

Lemma column_sums_app n xs ys :
  Forall (fun c => length c = n) xs -> Forall (fun c => length c = n) ys ->
  column_sums n (xs ++ ys) = zip_with Z.add (column_sums n xs) (column_sums n ys).
Proof.
  intros Hx Hy. induction Hx as [|x xs Hx _ IH]; cbn [app column_sums].
  - symmetry. apply zip_add_zero. by apply column_sums_length.
  - by rewrite IH, zip_add_assoc.
Qed.

Lemma vec_sum_app n xs ys :
  Forall (fun c => length c = n) xs -> Forall (fun c => length c = n) ys ->
  vec_sum n (xs ++ ys) = add_vec (vec_sum n xs) (vec_sum n ys).
Proof. intros Hx Hy. unfold vec_sum. by rewrite add_vec_wrap, column_sums_app. Qed.

Lemma vec_sum_one n c : vec n c -> vec_sum n [c] = c.
Proof.
  intros [Hl Hc]. unfold vec_sum. cbn [column_sums].
  replace (zip_with Z.add c (replicate n 0)) with c; [by apply map_u64_id|].
  clear Hc. revert n Hl; induction c as [|x c IH]; intros n <-; cbn; [done|].
  rewrite Z.add_0_r. f_equal. by apply IH.
Qed.

Lemma vec_sum_vec n cs : Forall (fun c => length c = n) cs -> vec n (vec_sum n cs).
Proof.
  intros H. unfold vec_sum. split; [rewrite length_map; by apply column_sums_length|].
  apply Forall_map, Forall_true. intros x. cbn. apply wrapu_range. lia.
Qed.

Lemma add_vec_vec n a b : length a = n -> length b = n -> vec n (add_vec a b).
Proof.
  intros Ha Hb. unfold add_vec. split; [rewrite length_map, length_zip_with; lia|].
  apply Forall_map, Forall_true. intros x. cbn. apply wrapu_range. lia.
Qed.

Definition rows_ok (n : nat) (rows : list row) : Prop :=
  Forall (fun r => key_ok r.1.1 /\ in_u 64 r.1.2 /\ vec n r.2) rows.

Lemma rows_ok_lengths n rows : rows_ok n rows -> Forall (fun c => length c = n) (map snd rows).
Proof. intros H. apply Forall_map. eapply Forall_impl; [exact H|]. by intros r (_ & _ & Hr & _). Qed.

Lemma rows_ok_filter n rows f : rows_ok n rows -> rows_ok n (List.filter f rows).
Proof.
  unfold rows_ok. induction 1 as [|r rows Hr _ IH]; cbn; [constructor|].
  destruct (f r); [by constructor|done].
Qed.

Lemma row_total_app n r1 r2 k ln : rows_ok n r1 -> rows_ok n r2 ->
  row_total n (r1 ++ r2) k ln = opt_add (row_total n r1 k ln) (row_total n r2 k ln).
Proof.
  intros H1 H2. unfold row_total. rewrite List.filter_app.
  apply (rows_ok_filter _ _ (row_of k ln)), rows_ok_lengths in H1, H2.
  destruct (List.filter (row_of k ln) r1) as [|x xs]; [done|].
  destruct (List.filter (row_of k ln) r2) as [|y ys]; [by rewrite app_nil_r|].
  cbn [opt_add app]. f_equal. change (x :: xs ++ y :: ys) with ((x :: xs) ++ y :: ys).
  rewrite map_app. by apply vec_sum_app.
Qed.

Lemma row_total_one n k ln c k' ln' : vec n c ->
  row_total n [(k, ln, c)] k' ln' = if row_of k' ln' (k, ln, c) then Some c else None.
Proof.
  intros Hc. unfold row_total. cbn [List.filter]. destruct (row_of k' ln' (k, ln, c)); [|done].
  cbn [map snd]. by rewrite vec_sum_one.
Qed.

(** ** Representation *)

Notation OuterMap := (WordFM FileFn InnerMap).
Notation in_look := (bind_lookup cmp_unboxed_UWord).
Notation out_look := (bind_lookup cmp_FileFn).

(** The counts of a line. *)
Definition look (m : OuterMap) (k : FileFn) (ln : Z) : option (list Z) :=
  im ← out_look k (bindings m); in_look ln (bindings im).

(** A map of lines to vectors. *)
Record inner_ok (n : nat) (im : InnerMap) : Prop := {
  io_wf : fm_wf cmp_unboxed_UWord im;
  io_vecs : Forall (fun e => in_u 64 e.1 /\ vec n e.2) (bindings im)
}.

(** The maps kept for a function: well formed and not empty. *)
Definition fn_ok (n : nat) (im : InnerMap) : Prop := inner_ok n im /\ bindings im <> [].

Record outer_ok (n : nat) (m : OuterMap) : Prop := {
  oo_wf : fm_wf cmp_FileFn m;
  oo_inner : Forall (fun e => key_ok e.1 /\ fn_ok n e.2) (bindings m)
}.

(** The maps and the summary hold the rows. *)
Record mrep (n : nat) (rows : list row) (m : OuterMap) (sum : list Z) : Prop := {
  mr_rows : rows_ok n rows;
  mr_ok : outer_ok n m;
  mr_look k ln : look m k ln = row_total n rows k ln;
  mr_sum : sum = vec_sum n (map snd rows)
}.

(** *** Updates of one binding *)

Section update.
Context {K V : Type} `{!EqDecision K, !EqDecision V} (kCmp : K -> K -> Z) `{!CmpLaws kCmp}.

(** [v] has been put at [k]: lookups, and what holds of every binding. *)
Definition put_at (k : K) (v : V) (fm fm' : WordFM K V) : Prop :=
  fm_wf kCmp fm' /\
  (forall k', bind_lookup kCmp k' (bindings fm') =
     if kCmp k' k =? 0 then Some v else bind_lookup kCmp k' (bindings fm)) /\
  (forall (PK : K -> Prop) (PV : V -> Prop), PK k -> PV v ->
     Forall (fun e => PK e.1 /\ PV e.2) (bindings fm) -> Forall (fun e => PK e.1 /\ PV e.2) (bindings fm')).

Lemma bind_set_forall (PK : K -> Prop) (PV : V -> Prop) k v xs : PV v ->
  Forall (fun e => PK e.1 /\ PV e.2) xs -> Forall (fun e => PK e.1 /\ PV e.2) (bind_set kCmp k v xs).
Proof.
  intros Hv H. unfold bind_set. apply Forall_map. eapply Forall_impl; [exact H|]. intros e [H1 H2]. cbn.
  by destruct (_ =? 0).
Qed.

Lemma store_put k v w fm : fm_wf kCmp fm -> bind_lookup kCmp k (bindings fm) = Some w ->
  put_at k v fm (storeFM kCmp fm k v).
Proof.
  intros Hwf Hl. destruct (storeFM_ok kCmp fm k v Hwf) as [H1 H2].
  split; [done|]. rewrite H2. split.
  - intros k'. by rewrite bind_lookup_set, Hl.
  - intros PK PV _ Hv. by apply bind_set_forall.
Qed.

Lemma add_put k v fm : fm_wf kCmp fm ->
  exists fm', addToFM kCmp fm k v = Ok fm' /\ put_at k v fm fm'.
Proof.
  intros Hwf. destruct (addToFM_ok kCmp fm k v Hwf) as (fm' & E & H1 & H2). exists fm'. split; [done|].
  split; [done|]. rewrite H2. split.
  - intros k'. apply bind_lookup_add; [done|apply Hwf].
  - intros PK PV Hk Hv H. unfold bind_add. destruct (sset_lookup _ _ _ _); [by apply bind_set_forall|].
    rewrite sset_insert_perm. by constructor.
Qed.

(** An insertion followed by a write through the pointer inserted. *)
Lemma add_store_put k v w fm : fm_wf kCmp fm ->
  exists fm', addToFM kCmp fm k w = Ok fm' /\ put_at k v fm (storeFM kCmp fm' k v).
Proof.
  intros Hwf. destruct (addToFM_ok kCmp fm k w Hwf) as (fm' & E & H1 & H2). exists fm'. split; [done|].
  destruct (storeFM_ok kCmp fm' k v H1) as [H3 H4]. destruct (add_put k v fm Hwf) as (fm2 & E2 & P2).
  destruct (addToFM_ok kCmp fm k v Hwf) as (fm3 & E3 & _ & B3). rewrite E2 in E3. injection E3 as <-.
  split; [done|]. rewrite H4, H2, bind_set_add, <- B3 by done. apply P2.
Qed.

End update.

(** *** Lines of one function *)

Lemma addCounts_vec n a b : vec n a -> vec n b -> addCounts a b = Ok (add_vec a b).
Proof.
  intros [Ha _] [Hb _]. unfold addCounts, n_counts. rewrite Ha, Hb, Z.eqb_refl. done.
Qed.

Lemma in_look_vec n im ln c : inner_ok n im -> in_look ln (bindings im) = Some c -> vec n c.
Proof.
  intros [_ H] (k & Hk & _)%bind_lookup_elem. rewrite Forall_forall in H. by apply (H _ Hk).
Qed.

Lemma look_some_nonempty (im : InnerMap) ln c : in_look ln (bindings im) = Some c -> bindings im <> [].
Proof. intros H E. by rewrite E in H. Qed.

Lemma addCountsToMap_ok n im ln c : inner_ok n im -> in_u 64 ln -> vec n c ->
  exists im', addCountsToMap im ln c = Ok im' /\ fn_ok n im' /\
    forall ln', in_look ln' (bindings im') =
      if ln' =? ln then opt_add (in_look ln (bindings im)) (Some c) else in_look ln' (bindings im).
Proof.
  intros Him Hln Hc. pose proof Him as [Hwf Hv]. unfold addCountsToMap.
  assert (forall im' v, vec n v -> put_at cmp_unboxed_UWord ln v im im' -> fn_ok n im') as Hput.
  { intros im' v Hvv (H1 & H2 & H3). split.
    - split; [done|]. by apply (H3 (in_u 64) (vec n)).
    - apply (look_some_nonempty _ ln v). rewrite H2. by rewrite cmp_UWord_eqb, Z.eqb_refl. }
  rewrite (lookupFM_ok cmp_unboxed_UWord im ln Hwf). destruct (in_look ln (bindings im)) as [old|] eqn:E.
  - pose proof (in_look_vec n im ln old Him E) as Ho. rewrite (addCounts_vec n) by done. cbn [rbind].
    pose proof (store_put cmp_unboxed_UWord ln (add_vec old c) old im Hwf E) as Hp.
    eexists. split; [done|]. split.
    + eapply Hput; [|exact Hp]. apply add_vec_vec; [apply Ho|apply Hc].
    + intros ln'. destruct Hp as (_ & H2 & _). by rewrite H2, cmp_UWord_eqb.
  - destruct (add_put cmp_unboxed_UWord ln c im Hwf) as (im' & -> & Hp). eexists. split; [done|].
    split; [by eapply Hput|]. intros ln'. destruct Hp as (_ & H2 & _). by rewrite H2, cmp_UWord_eqb.
Qed.

Lemma merge_line_eq e im : merge_line e im = addCountsToMap im e.1 e.2.
Proof. destruct e. unfold merge_line, addCountsToMap, dopy_Counts. by destruct (lookupFM _ _ _). Qed.

Lemma opt_add_None_r a : opt_add a None = a.
Proof. by destruct a. Qed.

Lemma merge_lines_ok n xs im : ordered fst cmp_unboxed_UWord xs ->
  Forall (fun e => in_u 64 e.1 /\ vec n e.2) xs -> fn_ok n im ->
  exists im', res_fold merge_line xs im = Ok im' /\ fn_ok n im' /\
    forall ln, in_look ln (bindings im') = opt_add (in_look ln (bindings im)) (in_look ln xs).
Proof.
  revert im; induction xs as [|[ln c] xs IH]; intros im Ho Hx Him; cbn [res_fold].
  { exists im. split; [done|]. split; [done|]. intros ln. by rewrite opt_add_None_r. }
  apply Forall_cons in Hx as [[H1 H2] Hx]. rewrite merge_line_eq. cbn [fst snd] in *.
  destruct (addCountsToMap_ok n im ln c) as (im1 & -> & Hok1 & Hl1); [apply Him|done..|]. cbn [rbind].
  pose proof (bind_lookup_head cmp_unboxed_UWord (ln, c) xs Ho) as Hfresh.
  apply StronglySorted_inv in Ho as [Ho _].
  destruct (IH im1 Ho Hx Hok1) as (im2 & -> & Hok2 & Hl2). exists im2. split; [done|]. split; [done|].
  intros ln'. rewrite Hl2, Hl1, bind_lookup_cons, cmp_UWord_eqb. cbn [fst snd] in *.
  destruct (Z.eqb_spec ln' ln) as [->|]; [|done]. by rewrite Hfresh, opt_add_None_r.
Qed.

(** *** Functions *)

Lemma look_cmp m k k' ln : cmp_FileFn k' k = 0 -> look m k' ln = look m k ln.
Proof. intros E. unfold look. by rewrite (bind_lookup_cmp cmp_FileFn k k' _ E). Qed.

Lemma put_fn n k im m m' :
  outer_ok n m -> key_ok k -> fn_ok n im -> put_at cmp_FileFn k im m m' ->
  outer_ok n m' /\ forall k' ln, look m' k' ln =
    if cmp_FileFn k' k =? 0 then in_look ln (bindings im) else look m k' ln.
Proof.
  intros [Hwf Hin] Hk Him (H1 & H2 & H3). split.
  - split; [done|]. by apply (H3 key_ok (fn_ok n)).
  - intros k' ln. unfold look. rewrite H2. by destruct (_ =? 0).
Qed.

Lemma out_look_fn n m k im : outer_ok n m -> out_look k (bindings m) = Some im -> fn_ok n im.
Proof.
  intros [_ H] (k' & Hk & _)%bind_lookup_elem. rewrite Forall_forall in H. by apply (H _ Hk).
Qed.

Lemma merge_fn_ok n k so m :
  outer_ok n m -> key_ok k -> fn_ok n so -> Z.of_nat (length (bindings so)) <= ITER_MAX ->
  exists m', merge_fn (k, so) m = Ok m' /\ outer_ok n m' /\
    forall k' ln, look m' k' ln =
      if cmp_FileFn k' k =? 0 then opt_add (look m k' ln) (in_look ln (bindings so)) else look m k' ln.
Proof.
  intros Hm Hk Hso Hlen. pose proof Hm as [Hwf _]. pose proof Hso as [[Hswf Hsv] Hne]. unfold merge_fn.
  rewrite (lookupFM_ok cmp_FileFn m k Hwf). destruct (out_look k (bindings m)) as [d|] eqn:E.
  - rewrite (for_each_ok cmp_unboxed_UWord) by done. pose proof (out_look_fn n m k d Hm E) as Hd.
    destruct (merge_lines_ok n (bindings so) d) as (d' & -> & Hd' & Hl); [apply Hswf|done..|]. cbn [rbind].
    eexists. split; [done|].
    destruct (put_fn n k d' m _ Hm Hk Hd' (store_put cmp_FileFn k d' d m Hwf E)) as [H1 H2]. split; [done|].
    intros k' ln. rewrite H2. destruct (Z.eqb_spec (cmp_FileFn k' k) 0) as [Ek|]; [|done].
    rewrite Hl, (look_cmp m k k' ln Ek). unfold look. by rewrite E.
  - unfold dopy_InnerMap. rewrite (dopyFM_id cmp_unboxed_UWord) by done. cbn [rbind dopy_FileFn].
    destruct k as [f g]. cbn [fi_name fn_name].
    destruct (add_put cmp_FileFn (MkFileFn f g) so m Hwf) as (m' & -> & Hp). eexists. split; [done|].
    destruct (put_fn n _ so m m' Hm Hk Hso Hp) as [H1 H2]. split; [done|]. intros k' ln. rewrite H2.
    destruct (Z.eqb_spec (cmp_FileFn k' (MkFileFn f g)) 0) as [Ek|]; [|done].
    rewrite (look_cmp m _ k' ln Ek). unfold look. by rewrite E.
Qed.

Lemma merge_fns_ok n xs m : ordered fst cmp_FileFn xs ->
  Forall (fun e => key_ok e.1 /\ fn_ok n e.2) xs ->
  Forall (fun e => Z.of_nat (length (bindings e.2)) <= ITER_MAX) xs -> outer_ok n m ->
  exists m', res_fold merge_fn xs m = Ok m' /\ outer_ok n m' /\
    forall k ln, look m' k ln = opt_add (look m k ln) (im ← out_look k xs; in_look ln (bindings im)).
Proof.
  revert m; induction xs as [|[k so] xs IH]; intros m Ho Hx Hl Hm; cbn [res_fold].
  { exists m. split; [done|]. split; [done|]. intros k ln. cbn. by rewrite opt_add_None_r. }
  apply Forall_cons in Hx as [[H1 H2] Hx]. apply Forall_cons in Hl as [Hl1 Hl]. cbn [fst snd] in *.
  destruct (merge_fn_ok n k so m Hm H1 H2 Hl1) as (m1 & -> & Hm1 & HL1). cbn [rbind].
  pose proof (bind_lookup_head cmp_FileFn (k, so) xs Ho) as Hfresh.
  apply StronglySorted_inv in Ho as [Ho _].
  destruct (IH m1 Ho Hx Hl Hm1) as (m2 & -> & Hm2 & HL2). exists m2. split; [done|]. split; [done|].
  intros k' ln. rewrite HL2, HL1, bind_lookup_cons. cbn [fst snd] in *.
  destruct (Z.eqb_spec (cmp_FileFn k' k) 0) as [Ek|]; [|done]. cbn.
  rewrite (bind_lookup_cmp cmp_FileFn k k' xs Ek), Hfresh. cbn. by rewrite opt_add_None_r.
Qed.

(** *** Sizes

    A map holds a binding only for what has a row, so iterations over a map
    are as long as the rows at most. *)

Lemma row_total_elem n rows k ln c : row_total n rows k ln = Some c ->
  exists r, r ∈ rows /\ row_of k ln r = true.
Proof.
  unfold row_total. destruct (List.filter (row_of k ln) rows) as [|r rs] eqn:E; [done|]. intros _.
  exists r. assert (In r (List.filter (row_of k ln) rows)) as H by (rewrite E; by left).
  apply filter_In in H as [H1 H2]. split; [by apply list_elem_of_In|done].
Qed.

Lemma ordered_keys_NoDup {K V} (kCmp : K -> K -> Z) `{!CmpLaws kCmp} (xs : list (K * V)) :
  ordered fst kCmp xs -> NoDup (map fst xs).
Proof.
  induction xs as [|x xs IH]; intros H; cbn; [constructor|].
  apply StronglySorted_inv in H as [H1 H2]. constructor; [|by apply IH].
  intros (y & Ey & Hy)%list_elem_of_fmap. rewrite Forall_forall in H2. specialize (H2 y Hy). cbn in H2.
  rewrite <- Ey, cmp_refl in H2. lia.
Qed.

Lemma keys_le {K V A} `{!EqDecision K} (kCmp : K -> K -> Z) `{!CmpLaws kCmp} (xs : list (K * V))
    (f : A -> K) (rows : list A) :
  ordered fst kCmp xs -> (forall x, x ∈ xs -> exists r, r ∈ rows /\ f r = fst x) ->
  (length xs <= length rows)%nat.
Proof.
  intros Ho H. rewrite <- (length_map fst xs), <- (length_map f rows).
  apply NoDup_incl_length; [by apply NoDup_ListNoDup, (ordered_keys_NoDup kCmp)|].
  intros k Hk%list_elem_of_In. apply list_elem_of_fmap in Hk as (x & -> & Hx).
  destruct (H x Hx) as (r & Hr & <-). apply list_elem_of_In, list_elem_of_fmap. eauto.
Qed.

Lemma lookup_binding {K V} (kCmp : K -> K -> Z) `{!CmpLaws kCmp} (xs : list (K * V)) k v :
  ordered fst kCmp xs -> (k, v) ∈ xs -> bind_lookup kCmp k xs = Some v.
Proof.
  intros Ho Hx. unfold bind_lookup. rewrite (proj2 (sset_lookup_elem fst kCmp k xs (k, v) Ho)); [done|].
  split; [done|]. by apply cmp_refl.
Qed.

Lemma mrep_lines n rows m sum k im ln c : mrep n rows m sum ->
  (k, im) ∈ bindings m -> (ln, c) ∈ bindings im ->
  exists r, r ∈ rows /\ r.1.1 = k /\ r.1.2 = ln /\ row_total n rows k ln = Some c.
Proof.
  intros [Hr [Hwf Hin] Hl _] Hk Hln. rewrite Forall_forall in Hin. destruct (Hin _ Hk) as [Hkok [[Hiw _] _]]. cbn in Hkok, Hiw.
  assert (row_total n rows k ln = Some c) as E.
  { rewrite <- Hl. unfold look.
    rewrite (lookup_binding cmp_FileFn _ k im (fw_ordered _ _ Hwf) Hk). cbn.
    by rewrite (lookup_binding cmp_unboxed_UWord _ ln c (fw_ordered _ _ Hiw) Hln). }
  destruct (row_total_elem _ _ _ _ _ E) as (r & Hrin & Hrow). exists r. split; [done|].
  unfold row_of in Hrow. apply andb_prop in Hrow as [H1%Z.eqb_eq H2%Z.eqb_eq].
  unfold rows_ok in Hr. rewrite Forall_forall in Hr. destruct (Hr r Hrin) as [Hrk _].
  apply cmp_FileFn_eq in H1; [|done|done]. by rewrite <- H1, <- H2.
Qed.

Lemma mrep_sizes n rows m sum : mrep n rows m sum ->
  (length (bindings m) <= length rows)%nat /\
  Forall (fun e => (length (bindings e.2) <= length rows)%nat) (bindings m).
Proof.
  intros Hm. pose proof Hm as [_ [Hwf Hin] _ _]. split.
  - apply (keys_le cmp_FileFn _ (fun r : row => r.1.1)); [apply Hwf|]. intros [k im] Hk.
    rewrite Forall_forall in Hin. destruct (Hin _ Hk) as [_ [_ Hne]]. cbn in Hne.
    destruct (bindings im) as [|[ln c] l] eqn:E; [done|].
    destruct (mrep_lines n rows m sum k im ln c Hm Hk) as (r & H1 & H2 & _); [rewrite E; by left|]. eauto.
  - apply Forall_forall. intros [k im] Hk. rewrite Forall_forall in Hin.
    destruct (Hin _ Hk) as [_ [[Hiw _] _]]. cbn in *.
    apply (keys_le cmp_unboxed_UWord _ (fun r : row => r.1.2)); [apply Hiw|]. intros [ln c] Hln.
    destruct (mrep_lines n rows m sum k im ln c Hm Hk Hln) as (r & H1 & _ & H2 & _). eauto.
Qed.

(** *** The operations *)

Lemma mrep_empty n : mrep n [] newFM (replicate n 0).
Proof.
  split; [constructor| |done|].
  - split; [apply newFM_wf|constructor].
  - cbn. unfold vec_sum. cbn. symmetry. apply map_u64_id, Forall_replicate. by unfold in_u.
Qed.

(** A line of counts adds a row. *)
Lemma handle_counts_ok n rows cpf fi fn str ln c :
  mrep n rows (outerMap cpf) (summary cpf) -> n_events cpf = Z.of_nat n ->
  splitUpCountsLine true str = Ok (ln, c) -> vec n c -> in_u 64 ln -> key_ok (MkFileFn fi fn) ->
  exists m sum, handle_counts cpf fi fn str = Ok (set_data cpf m sum) /\
    mrep n (rows ++ [(MkFileFn fi fn, ln, c)]) m sum.
Proof.
  intros [Hr Hm Hl Hs] Hn Hsplit Hc Hln Hk. set (k := MkFileFn fi fn) in *. unfold handle_counts.
  rewrite Hsplit. cbn [rbind]. unfold n_counts. rewrite Hn, (proj1 Hc), Z.eqb_refl. cbn [negb].
  pose proof Hm as [Hwf _]. fold k.
  assert (vec n (summary cpf)) as Hsv by (rewrite Hs; by apply vec_sum_vec, rows_ok_lengths).
  assert (rows_ok n [(k, ln, c)]) as Hr1 by (by constructor).
  assert (forall m' im im0, (forall ln', in_look ln' (bindings im0) = look (outerMap cpf) k ln') ->
    (forall ln', in_look ln' (bindings im) =
      if ln' =? ln then opt_add (in_look ln (bindings im0)) (Some c) else in_look ln' (bindings im0)) ->
    outer_ok n m' ->
    (forall k' ln, look m' k' ln =
      if cmp_FileFn k' k =? 0 then in_look ln (bindings im) else look (outerMap cpf) k' ln) ->
    exists m sum, (let! sum := addCounts (summary cpf) c in Ok (set_data cpf m' sum)) = Ok (set_data cpf m sum) /\
      mrep n (rows ++ [(k, ln, c)]) m sum) as Hfin.
  { intros m' im im0 H0 H1 H2 H3. rewrite (addCounts_vec n) by done. cbn [rbind].
    exists m', (add_vec (summary cpf) c). split; [done|]. split.
    - by apply Forall_app.
    - done.
    - intros k' ln'. rewrite H3, row_total_app, row_total_one by done. unfold row_of. cbn [fst snd].
      destruct (Z.eqb_spec (cmp_FileFn k' k) 0) as [Ek|]; cbn [andb].
      + rewrite H1, !H0, (Z.eqb_sym ln' ln). rewrite <- !Hl, (look_cmp _ k k' ln' Ek).
        destruct (Z.eqb_spec ln ln') as [->|]; [done|]. by rewrite opt_add_None_r.
      + by rewrite opt_add_None_r, Hl.
    - rewrite map_app, vec_sum_app; [|by apply rows_ok_lengths..]. cbn [map snd].
      by rewrite vec_sum_one, Hs. }
  rewrite (lookupFM_ok cmp_FileFn _ k Hwf). destruct (out_look k (bindings (outerMap cpf))) as [im|] eqn:E.
  - pose proof (out_look_fn n _ k im Hm E) as Him.
    destruct (addCountsToMap_ok n im ln c) as (im' & -> & Him' & HL); [apply Him|done..|]. cbn [rbind].
    destruct (put_fn n k im' _ _ Hm Hk Him' (store_put cmp_FileFn k im' im _ Hwf E)) as [H1 H2].
    eapply (Hfin _ im' im); [intros ln'; unfold look; by rewrite E|done..].
  - destruct (addCountsToMap_ok n newFM ln c) as (im' & Eim & Him' & HL);
      [split; [apply newFM_wf|constructor]|done..|].
    destruct (add_store_put cmp_FileFn k im' newFM _ Hwf) as (m1 & -> & Hp). cbn [rbind].
    rewrite Eim. cbn [rbind]. destruct (put_fn n k im' _ _ Hm Hk Him' Hp) as [H1 H2].
    eapply (Hfin _ im' newFM); [intros ln'; unfold look; by rewrite E|done..].
Qed.

(** Merging appends the rows of the other file. *)
Lemma merge_mrep n r1 r2 dst src :
  mrep n r1 (outerMap dst) (summary dst) -> mrep n r2 (outerMap src) (summary src) ->
  events_line dst = events_line src -> Z.of_nat (length r2) <= ITER_MAX ->
  exists m sum, merge_CacheProfInfo dst src = Ok (set_data dst m sum) /\ mrep n (r1 ++ r2) m sum.
Proof.
  intros [Hr1 Hm1 Hl1 Hs1] H2 He Hlen. pose proof (mrep_sizes _ _ _ _ H2) as [Ho Hi].
  destruct H2 as [Hr2 Hm2 Hl2 Hs2]. pose proof Hm2 as [Hwf2 Hin2].
  unfold merge_CacheProfInfo, streq. rewrite He, VG_strcmp_refl. eval_eqb. cbn [negb].
  rewrite (for_each_ok cmp_FileFn) by (done || lia).
  destruct (merge_fns_ok n (bindings (outerMap src)) (outerMap dst)) as (m & -> & Hm & HL);
    [apply Hwf2|done| |done|].
  { eapply Forall_impl; [exact Hi|]. cbn. lia. }
  cbn [rbind]. rewrite (addCounts_vec n).
  2: { rewrite Hs1. by apply vec_sum_vec, rows_ok_lengths. }
  2: { rewrite Hs2. by apply vec_sum_vec, rows_ok_lengths. }
  cbn [rbind]. exists m, (add_vec (summary dst) (summary src)). split; [done|]. split.
  - by apply Forall_app.
  - done.
  - intros k ln. rewrite HL, row_total_app by done. fold (look (outerMap src) k ln). by rewrite Hl1, Hl2.
  - rewrite map_app, vec_sum_app; [|by apply rows_ok_lengths..]. by rewrite Hs1, Hs2.
Qed.

(** ** The contents of the maps as rows *)

Definition fn_rows (e : FileFn * InnerMap) : list row :=
  map (fun l => (e.1, l.1, l.2)) (bindings e.2).

Definition flat_rows (m : OuterMap) : list row := concat (map fn_rows (bindings m)).

Lemma fn_rows_ok n e : key_ok e.1 -> fn_ok n e.2 -> rows_ok n (fn_rows e).
Proof.
  intros Hk [[_ Hv] _]. apply Forall_map. eapply Forall_impl; [exact Hv|]. cbn. tauto.
Qed.

Lemma flat_rows_ok n m : outer_ok n m -> rows_ok n (flat_rows m).
Proof.
  intros [_ H]. unfold flat_rows, rows_ok. apply Forall_concat, Forall_map. eapply Forall_impl; [exact H|].
  intros e [H1 H2]. by apply fn_rows_ok.
Qed.

Lemma fn_rows_total n k k' (xs : list (Z * list Z)) ln : ordered fst cmp_unboxed_UWord xs ->
  Forall (fun e => in_u 64 e.1 /\ vec n e.2) xs -> key_ok k ->
  row_total n (map (fun l => (k, l.1, l.2)) xs) k' ln =
  if cmp_FileFn k' k =? 0 then in_look ln xs else None.
Proof.
  intros Ho Hv Hk. induction xs as [|[l c] xs IH]; cbn [map].
  { by destruct (_ =? 0). }
  apply Forall_cons in Hv as [[H1 H2] Hv]. cbn [fst snd] in *.
  pose proof (bind_lookup_head cmp_unboxed_UWord (l, c) xs Ho) as Hf.
  apply StronglySorted_inv in Ho as [Ho _]. specialize (IH Ho Hv).
  change ((k, l, c) :: map (fun l => (k, l.1, l.2)) xs)
    with ([(k, l, c)] ++ map (fun l : Z * list Z => (k, l.1, l.2)) xs).
  rewrite row_total_app, row_total_one, IH, bind_lookup_cons, cmp_UWord_eqb; [|done|by constructor|].
  - unfold row_of. cbn [fst snd] in *. destruct (_ =? 0); cbn [andb]; [|done].
    destruct (Z.eqb_spec ln l) as [->|]; [|done]. by rewrite Hf.
  - apply Forall_map. eapply Forall_impl; [exact Hv|]. cbn. tauto.
Qed.

Lemma flat_rows_total n m k ln : outer_ok n m -> row_total n (flat_rows m) k ln = look m k ln.
Proof.
  intros [Hwf Hin]. unfold flat_rows, look. pose proof (fw_ordered _ _ Hwf) as Ho. clear Hwf.
  induction (bindings m) as [|[k' im] xs IH]; [done|]. cbn [map concat].
  pose proof (bind_lookup_head cmp_FileFn (k', im) xs Ho) as Hf.
  apply StronglySorted_inv in Ho as [Ho _]. apply Forall_cons in Hin as [[Hk Him] Hin].
  rewrite row_total_app; [|by apply fn_rows_ok|]; cycle 1.
  { apply Forall_concat, Forall_map. eapply Forall_impl; [exact Hin|]. intros e []. by apply fn_rows_ok. }
  rewrite (IH Hin Ho). unfold fn_rows. cbn [fst snd] in *.
  rewrite fn_rows_total; [|apply Him|apply Him|done]. rewrite bind_lookup_cons. cbn [fst snd].
  destruct (Z.eqb_spec (cmp_FileFn k k') 0) as [Ek|]; [|done].
  rewrite (bind_lookup_cmp cmp_FileFn k' k xs Ek), Hf. cbn. by rewrite opt_add_None_r.
Qed.

(** *** Adding up by line *)

Lemma zip_add_comm (l1 l2 : list Z) : zip_with Z.add l1 l2 = zip_with Z.add l2 l1.
Proof.
  revert l2; induction l1 as [|x l1 IH]; intros [|y l2]; cbn; try done. by rewrite IH, Z.add_comm.
Qed.

Lemma column_sums_perm n xs ys : xs ≡ₚ ys -> column_sums n xs = column_sums n ys.
Proof.
  induction 1 as [|x xs ys _ IH|x y xs|xs ys zs _ IH1 _ IH2]; cbn [column_sums].
  - done.
  - by rewrite IH.
  - rewrite <- !zip_add_assoc. f_equal. apply zip_add_comm.
  - congruence.
Qed.

Lemma filter_split {A} (f : A -> bool) l :
  l ≡ₚ List.filter f l ++ List.filter (fun x => negb (f x)) l.
Proof.
  induction l as [|x l IH]; cbn; [done|]. destruct (f x); cbn.
  - by rewrite <- IH.
  - rewrite <- Permutation_middle. by rewrite <- IH.
Qed.

Lemma filter_filter_other {A} (f g : A -> bool) l :
  (forall x, x ∈ l -> f x = true -> g x = false) ->
  List.filter f (List.filter (fun x => negb (g x)) l) = List.filter f l.
Proof.
  induction l as [|x l IH]; intros H; cbn; [done|].
  assert (List.filter f (List.filter (fun x => negb (g x)) l) = List.filter f l) as E
    by (apply IH; intros y Hy; apply H; by right).
  destruct (g x) eqn:Eg; cbn; [|by rewrite E]. destruct (f x) eqn:Ef; [|done].
  pose proof (H x ltac:(by left) Ef). congruence.
Qed.

Lemma row_of_eq k ln r : key_ok k -> key_ok r.1.1 -> row_of k ln r = true <-> r.1 = (k, ln).
Proof.
  intros Hk Hr. destruct r as [[k' ln'] c]. unfold row_of. cbn in *. rewrite andb_true_iff, !Z.eqb_eq.
  rewrite cmp_FileFn_eq by done. split; [by intros [-> ->]|by intros [= -> ->]].
Qed.

(** The sum of all rows is the sum of the totals of the lines. *)
Lemma group_sum n (keys : list (FileFn * Z)) (f : FileFn * Z -> list Z) rows :
  NoDup keys -> Forall (fun k => key_ok k.1) keys -> rows_ok n rows -> (forall r, r ∈ rows -> r.1 ∈ keys) ->
  (forall k, k ∈ keys -> row_total n rows k.1 k.2 = Some (f k) /\ length (f k) = n) ->
  vec_sum n (map snd rows) = vec_sum n (map f keys).
Proof.
  revert rows; induction keys as [|k keys IH]; intros rows Hnd Hk Hr Hin Ht.
  { destruct rows as [|r rows]; [done|]. specialize (Hin r ltac:(by left)). by apply elem_of_nil in Hin. }
  apply NoDup_cons in Hnd as [Hk1 Hnd]. apply Forall_cons in Hk as [Hkk Hk].
  set (g := row_of k.1 k.2). pose proof (filter_split g rows) as Hp. unfold vec_sum.
  rewrite (column_sums_perm n (map snd rows) (map snd (List.filter g rows ++
    List.filter (fun x => negb (g x)) rows))) by (by rewrite <- Hp).
  fold (vec_sum n (map snd (List.filter g rows ++ List.filter (fun x => negb (g x)) rows))).
  fold (vec_sum n (map f (k :: keys))). pose proof (rows_ok_filter n rows g Hr) as Hr1.
  pose proof (rows_ok_filter n rows (fun x => negb (g x)) Hr) as Hr2. unfold rows_ok in Hr.
  rewrite Forall_forall in Hr.
  assert (forall r, r ∈ rows -> g r = true <-> r.1 = k) as Hg.
  { intros r Hin'. destruct k. apply row_of_eq; [done|]. by apply (Hr r). }
  rewrite map_app, vec_sum_app by (by apply rows_ok_lengths).
  change (map f (k :: keys)) with ([f k] ++ map f keys). rewrite vec_sum_app.
  - f_equal.
    + destruct (Ht k ltac:(by left)) as [Hk2 _]. unfold row_total in Hk2. fold g in Hk2.
      destruct (List.filter g rows) as [|r rs] eqn:E; [done|]. injection Hk2 as <-.
      symmetry. apply vec_sum_one, vec_sum_vec. by apply (rows_ok_lengths n (r :: rs)).
    + apply IH; [done|done|done| |].
      * intros r Hrin. apply list_elem_of_In, filter_In in Hrin as [H1%list_elem_of_In H2].
        specialize (Hin r H1). apply elem_of_cons in Hin as [E|]; [|done].
        apply (Hg r H1) in E. by rewrite E in H2.
      * intros k' Hk'. rewrite <- (proj1 (Ht k' ltac:(by right))). split; [|by apply Ht; right].
        unfold row_total. rewrite filter_filter_other; [done|]. intros r H1 H2.
        destruct (g r) eqn:E; [|done]. apply (Hg r H1) in E. exfalso. apply Hk1.
        rewrite Forall_forall in Hk. destruct k'. apply row_of_eq in H2; [|by apply (Hk _ Hk')|by apply (Hr r)].
        cbn in H2. congruence.
  - constructor; [|constructor]. apply Ht. by left.
  - apply Forall_map, Forall_forall. intros k' Hk'. cbn. apply Ht. by right.
Qed.

Lemma elem_of_flat r m : r ∈ flat_rows m <->
  exists im, (r.1.1, im) ∈ bindings m /\ (r.1.2, r.2) ∈ bindings im.
Proof.
  unfold flat_rows. rewrite list_elem_of_In, in_concat. split.
  - intros (l & Hl & Hr). apply in_map_iff in Hl as ([k im] & <- & He). unfold fn_rows in Hr.
    apply in_map_iff in Hr as ([ln c] & <- & Hin). exists im. by rewrite !list_elem_of_In.
  - destruct r as [[k ln] c]. cbn. intros (im & H1%list_elem_of_In & H2%list_elem_of_In).
    exists (fn_rows (k, im)). split; apply in_map_iff; [by eexists|by exists (ln, c)].
Qed.

Lemma look_flat n m r : outer_ok n m -> r ∈ flat_rows m -> look m r.1.1 r.1.2 = Some r.2.
Proof.
  intros [Hwf Hin] (im & H1 & H2)%elem_of_flat. unfold look. rewrite Forall_forall in Hin.
  destruct (Hin _ H1) as [_ [[Hiw _] _]]. cbn in Hiw.
  rewrite (lookup_binding cmp_FileFn _ _ im (fw_ordered _ _ Hwf) H1). cbn.
  exact (lookup_binding cmp_unboxed_UWord _ _ _ (fw_ordered _ _ Hiw) H2).
Qed.

Lemma flat_look n m k ln c : outer_ok n m -> key_ok k -> look m k ln = Some c -> (k, ln, c) ∈ flat_rows m.
Proof.
  intros [Hwf Hin] Hk H. unfold look in H. destruct (out_look k (bindings m)) as [im|] eqn:E; [|done].
  cbn in H. apply bind_lookup_elem in E as (k' & H1 & Ek). apply bind_lookup_elem in H as (l' & H2 & El).
  rewrite Forall_forall in Hin. destruct (Hin _ H1) as [Hk' _]. apply cmp_FileFn_eq in Ek as <-; [|done|done].
  apply Z.eqb_eq in El. rewrite cmp_UWord_eqb in El. apply Z.eqb_eq in El as <-.
  apply elem_of_flat. by exists im.
Qed.

Lemma flat_keys_NoDup n m : outer_ok n m -> NoDup (map fst (flat_rows m)).
Proof.
  intros [Hwf Hin]. unfold flat_rows. pose proof (ordered_keys_NoDup _ _ (fw_ordered _ _ Hwf)) as Ho.
  clear Hwf. induction (bindings m) as [|[k im] xs IH]; [constructor|]. cbn [map concat] in *.
  apply NoDup_cons in Ho as [Hk Ho]. apply Forall_cons in Hin as [[_ [[Him _] _]] Hin]. cbn in Him, Hk.
  rewrite map_app. apply NoDup_app. split_and!.
  - unfold fn_rows. cbn. rewrite map_map. cbn.
    apply (NoDup_fmap_1 snd). change (NoDup (map snd (map (fun x => (k, x.1)) (bindings im)))).
    rewrite map_map. cbn.
    apply (ordered_keys_NoDup cmp_unboxed_UWord). apply Him.
  - intros [k' ln] H1 H2. apply Hk. unfold fn_rows in H1. rewrite map_map in H1.
    apply list_elem_of_fmap in H1 as (l & E1 & _). cbn in E1. simplify_eq.
    apply list_elem_of_fmap in H2 as ([[k' ln'] c] & E2 & H2). cbn in E2. simplify_eq.
    apply list_elem_of_In, in_concat in H2 as (l' & Hl & Hr). apply in_map_iff in Hl as ([k2 im2] & <- & He).
    unfold fn_rows in Hr. apply in_map_iff in Hr as (? & Er & _). cbn in Er. simplify_eq.
    apply list_elem_of_fmap. exists (k', im2). split; [done|]. by apply list_elem_of_In.
  - by apply IH.
Qed.

(** The maps hold the rows they contain. *)
Lemma mrep_flat n rows m sum : mrep n rows m sum -> mrep n (flat_rows m) m sum.
Proof.
  intros [Hr Hm Hl Hs]. split; [by apply flat_rows_ok|done|by intros; rewrite flat_rows_total|].
  set (f := fun k : FileFn * Z => default [] (look m k.1 k.2)).
  assert (map snd (flat_rows m) = map f (map fst (flat_rows m))) as ->.
  { rewrite map_map. apply map_ext_in. intros r Hin%list_elem_of_In. unfold f.
    by rewrite (look_flat n m r Hm Hin). }
  pose proof (flat_rows_ok n m Hm) as Hf. unfold rows_ok in Hf. rewrite Forall_forall in Hf.
  pose proof Hr as Hr'. unfold rows_ok in Hr'. rewrite Forall_forall in Hr'.
  rewrite Hs. apply group_sum; [by apply (flat_keys_NoDup n)| |done| |].
  - apply Forall_map, Forall_forall. intros r Hin. by apply Hf.
  - intros r Hin. destruct (Hr' r Hin) as (Hk & _ & _).
    assert (exists c, look m r.1.1 r.1.2 = Some c) as [c Hc].
    { rewrite Hl. unfold row_total. destruct (List.filter _ rows) eqn:E; [|eauto]. exfalso.
      assert (In r (List.filter (row_of r.1.1 r.1.2) rows)) as Hi; [|by rewrite E in Hi].
      apply filter_In. split; [by apply list_elem_of_In|]. apply row_of_eq; [done..|by destruct r as [[] ?]]. }
    apply (flat_look n) in Hc; [|done..]. apply list_elem_of_fmap. eexists. split; [|exact Hc].
    by destruct r as [[] ?].
  - intros k Hkin. apply list_elem_of_fmap in Hkin as (r & -> & Hin). unfold f. rewrite <- Hl, (look_flat n m r Hm Hin).
    split; [done|]. cbn. by apply Hf.
Qed.
