(* ===== verification/MergeParse.v ===== *)
(** * MergeParse: what cg_merge reads

    Lines, tokens and files.  The first half shows how every text of the
    format is read, the second what can be said of any text that is accepted. *)

From Stdlib Require Import ZArith Lia Ascii String Sorted.
From stdpp Require Import base numbers option strings gmap list.
From S2P Require Import Prelude Libcbase Debuglog Vprintf Libcprint Vmessage CgSim OSet WordFM CgTables CgOutput CgMerge MergeSpec.

#[local] Open Scope Z_scope.

(** ** Lines *)

Lemma read_chars_line l rest : no_char 10 l -> read_chars (l ++ nl ++ rest) = (l, true, rest).
Proof.
  unfold no_char. induction l as [|c l IH]; intros H; [done|].
  apply Forall_cons in H as [H1 H2]. change ((String c l) ++ nl ++ rest)%string with (String c (l ++ nl ++ rest)).
  cbn [read_chars]. by rewrite (proj2 (Z.eqb_neq _ _) H1), (IH H2).
Qed.

Lemma c_str_id l : no_char 0 l -> c_str l = l.
Proof.
  unfold no_char. induction l as [|c l IH]; intros H; [done|]. apply Forall_cons in H as [H1 H2]. cbn.
  by rewrite (proj2 (Z.eqb_neq _ _) H1), (IH H2).
Qed.

(** What is left to read is whole lines. *)
Definition at_lines (s : SOURCE) (ls : list string) : Prop := src_rest s = text_of_lines ls.

Lemma readline_line s l ls : at_lines s (l :: ls) -> name_ok l ->
  exists s', readline s = (s', Some l) /\ at_lines s' ls.
Proof.
  unfold at_lines. cbn [text_of_lines]. intros E [H0 H10]. unfold readline. rewrite E.
  destruct (l ++ nl ++ text_of_lines ls)%string as [|c r] eqn:Ec; [by destruct l|].
  rewrite <- Ec, read_chars_line, c_str_id by done. by eexists.
Qed.

Lemma readline_end s : at_lines s [] -> readline s = (s, None).
Proof. unfold at_lines, readline. by intros ->. Qed.

Lemma lines_length ls : (length ls <= String.length (text_of_lines ls))%nat.
Proof.
  induction ls as [|l ls IH]; cbn [text_of_lines length]; [lia|].
  assert (forall a b, String.length (a ++ b) = (String.length a + String.length b)%nat) as Ha.
  { intros a b. pose proof (str_len_app a b). unfold str_len in *. lia. }
  rewrite !Ha. cbn [String.length nl]. lia.
Qed.

Lemma line_fuel_ok s ls : at_lines s ls -> (length ls < line_fuel s)%nat.
Proof. unfold at_lines, line_fuel. intros ->. pose proof (lines_length ls). lia. Qed.

(** ** Tokens *)

Lemma isdigit_dec c : VG_isdigit c = match is_dec_digit c with Some _ => true | None => false end.
Proof. unfold VG_isdigit, is_dec_digit. by destruct (_ && _). Qed.

Lemma ulong_loop_digits d rest n x : 0 <= n -> digits_value d n = Some x -> x < 2 ^ 64 ->
  VG_isdigit (deref rest) = false -> ulong_loop (d ++ rest) n = (x, rest).
Proof.
  revert n; induction d as [|c d IH]; intros n Hn Hv Hx Hr.
  - cbn in Hv. injection Hv as ->. change (EmptyString ++ rest)%string with rest.
    destruct rest as [|c r]; [done|]. cbn in *. by rewrite Hr.
  - change (String c d ++ rest)%string with (String c (d ++ rest)). cbn [ulong_loop digits_value] in *.
    rewrite isdigit_dec. destruct (is_dec_digit (zchar c)) as [g|] eqn:E; [|done].
    pose proof (is_dec_digit_range _ _ E). unfold is_dec_digit in E. destruct (_ && _); [|done].
    assert (10 * n + g <= x) by (eapply digits_value_mono; [|done]; lia).
    rewrite (wrapu_small 64 (n * 10)) by (unfold in_u; lia).
    injection E as E. rewrite wrapu_small by (unfold in_u; lia).
    replace (n * 10 + (zchar c - 48)) with (10 * n + g) by lia. apply IH; [lia|done..].
Qed.

(** A text that [splitUpCountsLine] reads as the numbers [xs]. *)
Inductive tokens : string -> list Z -> Prop :=
  | tok_end s : skip_space s = EmptyString -> tokens s []
  | tok_num s d rest x xs :
      skip_space s = (d ++ rest)%string -> d <> EmptyString -> digits_value d 0 = Some x -> in_u 64 x ->
      VG_isdigit (deref rest) = false -> tokens rest xs -> tokens s (x :: xs).

Lemma digits_head d x : d <> EmptyString -> digits_value d 0 = Some x -> VG_isdigit (deref d) = true.
Proof.
  destruct d as [|c d]; [done|]. intros _ H. cbn in *. rewrite isdigit_dec. by destruct (is_dec_digit (zchar c)).
Qed.

Lemma deref_app d s : d <> EmptyString -> deref (d ++ s) = deref d.
Proof. by destruct d. Qed.

Lemma split_loop_tokens fuel s xs : tokens s xs -> (length xs < fuel)%nat ->
  split_loop fuel s = Ok (xs, EmptyString).
Proof.
  intros H; revert fuel; induction H as [s E|s d rest x xs E Hd Hv Hx Hr _ IH]; intros [|fuel] Hf;
    try (cbn in Hf; lia); cbn [split_loop]; unfold parse_ULong; rewrite E.
  - done.
  - rewrite deref_app, (digits_head d x) by done. cbn [negb].
    rewrite (ulong_loop_digits d rest 0 x) by (done || (unfold in_u in Hx; lia)).
    rewrite IH by (cbn in Hf; lia). done.
Qed.

Lemma skip_space_length s : (String.length (skip_space s) <= String.length s)%nat.
Proof. induction s as [|c s IH]; cbn; [lia|]. destruct (VG_isspace _); cbn; lia. Qed.

Lemma tokens_length s xs : tokens s xs -> (length xs <= String.length s)%nat.
Proof.
  induction 1 as [s E|s d rest x xs E Hd _ _ _ _ IH]; cbn [length]; [lia|].
  pose proof (skip_space_length s) as Hs. rewrite E in Hs. destruct d as [|c d]; [done|].
  pose proof (str_len_app (String c d) rest) as Ha. unfold str_len in Ha. cbn [String.length] in Ha, Hs. lia.
Qed.

Lemma split_line s ln xs : tokens s (ln :: xs) -> xs <> [] -> splitUpCountsLine true s = Ok (ln, xs).
Proof.
  intros H Hne. unfold splitUpCountsLine. pose proof (tokens_length _ _ H).
  rewrite (split_loop_tokens _ s (ln :: xs)) by (done || lia). cbn [rbind deref]. eval_eqb. cbn [negb].
  by destruct xs.
Qed.

Lemma split_summary s xs : tokens s xs -> xs <> [] -> splitUpCountsLine false s = Ok (0, xs).
Proof.
  intros H Hne. unfold splitUpCountsLine. pose proof (tokens_length _ _ H).
  rewrite (split_loop_tokens _ s xs) by (done || lia). cbn [rbind deref]. eval_eqb. cbn [negb].
  by destruct xs.
Qed.

(** Numerals. *)
Lemma fmt_d_u x : 0 <= x < 2 ^ 63 -> fmt_d x = fmt_u x.
Proof.
  intros Hx. unfold fmt_d, fmt_u. rewrite wrapu_small by (unfold in_u; lia).
  unfold myvprintf_int64, int64_digits. cbn [VG_MSG_SIGNED VG_MSG_COMMA signed_flags no_flags andb].
  rewrite wraps_small by (unfold in_s; lia). by rewrite (proj2 (Z.ltb_ge x 0)) by lia.
Qed.

Lemma tok_numeral sp x rest xs : Forall (fun c => VG_isspace (zchar c) = true) (list_ascii_of_string sp) ->
  in_u 64 x -> VG_isdigit (deref rest) = false -> tokens rest xs ->
  tokens (sp ++ fmt_u x ++ rest) (x :: xs).
Proof.
  intros Hsp Hx Hr Ht. destruct (fmt_u_value x Hx) as [Hv Hne].
  eapply tok_num; [|exact Hne|exact Hv|done|exact Hr|exact Ht].
  induction sp as [|c sp IH].
  - change (EmptyString ++ fmt_u x ++ rest)%string with (fmt_u x ++ rest)%string.
    pose proof (digits_head _ _ Hne Hv) as Hd. destruct (fmt_u x) as [|c d]; [done|].
    change (String c d ++ rest)%string with (String c (d ++ rest)). cbn in *.
    unfold VG_isspace. unfold VG_isdigit in Hd. apply andb_prop in Hd as [H1%Z.leb_le H2%Z.leb_le].
    rewrite !(proj2 (Z.eqb_neq _ _)) by lia. done.
  - apply Forall_cons in Hsp as [H1 H2]. change (String c sp ++ fmt_u x ++ rest)%string
      with (String c (sp ++ fmt_u x ++ rest)). cbn [skip_space]. rewrite H1. by apply IH.
Qed.

Lemma fmt_u_digit x rest : in_u 64 x -> VG_isdigit (deref (fmt_u x ++ rest)) = true.
Proof. intros Hx. destruct (fmt_u_value x Hx) as [Hv Hne]. rewrite deref_app by done. by apply (digits_head _ x). Qed.

(** ** Prefixes *)

Lemma streqn_prefix p s : no_char 0 p -> streqn s p (String.length p) = true -> exists s', s = (p ++ s')%string.
Proof.
  unfold streqn, no_char. intros Hp E%Z.eqb_eq. symmetry in E. revert s E.
  induction p as [|c p IH]; intros s E; [by exists s|]. apply Forall_cons in Hp as [Hc Hp].
  cbn [String.length VG_strncmp] in E. rewrite Z.gtb_ltb in E. cbn [deref incr] in E.
  destruct (Z.ltb_spec (deref s) (zchar c)); [done|]. destruct (Z.ltb_spec (zchar c) (deref s)); [done|].
  assert (deref s = zchar c) as Ed by lia. rewrite (proj2 (Z.eqb_neq (deref s) 0)) in E by lia.
  destruct s as [|c' s]; [cbn in Ed; lia|]. cbn in Ed, E. apply zchar_inj in Ed as ->.
  destruct (IH Hp s E) as [s' ->]. by exists s'.
Qed.

Ltac no_chars := repeat constructor; discriminate.

Lemma name_ok_app a b : name_ok a -> name_ok b -> name_ok (a ++ b).
Proof. intros [] []. split; by apply no_char_app. Qed.

Lemma name_ok_sfx s' s : sfx s' s -> name_ok s -> name_ok s'.
Proof. intros H []. split; by eapply sfx_no_char. Qed.

Lemma name_ok_plus3 l : name_ok l -> name_ok (plus3 l).
Proof.
  intros H. unfold plus3. eapply name_ok_sfx; [apply sfx_incr|]. eapply name_ok_sfx; [apply sfx_incr|].
  eapply name_ok_sfx; [apply sfx_incr|done].
Qed.

(** ** Headers *)

Record header_ok (n : nat) (descs : list string) (cmd events : string) : Prop := {
  ho_descs : descs <> [];
  ho_desc : Forall (fun d => name_ok d /\ streqn d "desc: " 6 = true) descs;
  ho_cmd : name_ok cmd /\ streqn cmd "cmd: " 5 = true;
  ho_events : name_ok events /\ streqn events "events: " 8 = true;
  ho_count : count_events (plus6 events) = Z.of_nat n
}.

Lemma cmd_not_desc cmd : streqn cmd "cmd: " 5 = true -> streqn cmd "desc: " 6 = false.
Proof. intros (s & ->)%(streqn_prefix "cmd: "); [done|no_chars]. Qed.

Lemma events_colon events : streqn events "events: " 8 = true -> deref (plus6 events) = 58.
Proof. intros (s & ->)%(streqn_prefix "events: "); [done|no_chars]. Qed.

Lemma desc_loop_lines fuel s descs cmd rest acc : at_lines s (descs ++ cmd :: rest) ->
  (length descs < fuel)%nat ->
  Forall (fun d => name_ok d /\ streqn d "desc: " 6 = true) descs -> name_ok cmd ->
  streqn cmd "desc: " 6 = false ->
  exists s', desc_loop fuel s acc = Ok (s', acc ++ descs, Some cmd) /\ at_lines s' rest.
Proof.
  intros Hs Hf Hd Hc Hn. revert fuel s acc Hs Hf. induction Hd as [|d descs [Hd1 Hd2] _ IH];
    intros [|fuel] s acc Hs Hf; try (cbn in Hf; lia); cbn [app] in Hs; cbn [desc_loop].
  - destruct (readline_line s cmd rest Hs Hc) as (s' & -> & Hs'). rewrite Hn. cbn [negb].
    exists s'. by rewrite app_nil_r.
  - destruct (readline_line s d _ Hs Hd1) as (s' & -> & Hs'). rewrite Hd2. cbn [negb].
    destruct (IH fuel s' (acc ++ [d]) Hs') as (s2 & -> & Hs2); [cbn in Hf; lia|].
    exists s2. by rewrite <- app_assoc.
Qed.

(** ** The lines between the header and the summary *)

Inductive item : Type :=
  | IFl (s : string)
  | IFn (s : string)
  | ICounts (text : string) (ln : Z) (c : list Z).

Definition item_line (it : item) : string :=
  match it with
  | IFl s => ("fl=" ++ s)%string
  | IFn s => ("fn=" ++ s)%string
  | ICounts text _ _ => text
  end.

Definition item_ok (n : nat) (it : item) : Prop :=
  match it with
  | IFl s | IFn s => name_ok s
  | ICounts text ln c =>
      name_ok text /\ VG_isdigit (deref text) = true /\ tokens text (ln :: c) /\ in_u 64 ln /\ vec n c
  end.

(** The rows of the items, when file and function are [fl] and [fn] so far. *)
Fixpoint item_rows (fl fn : string) (items : list item) : list row :=
  match items with
  | [] => []
  | IFl s :: items' => item_rows s fn items'
  | IFn s :: items' => item_rows fl s items'
  | ICounts _ ln c :: items' => (MkFileFn fl fn, ln, c) :: item_rows fl fn items'
  end.

Lemma counts_loop_items n items fuel s cpf fl fn rows sumline rest :
  n <> 0%nat -> at_lines s (map item_line items ++ sumline :: rest) -> (length items < fuel)%nat ->
  Forall (item_ok n) items -> name_ok fl -> name_ok fn ->
  name_ok sumline -> streqn sumline "summary: " 9 = true ->
  n_events cpf = Z.of_nat n -> mrep n rows (outerMap cpf) (summary cpf) ->
  exists s' m sum, counts_loop fuel s cpf fl fn = Ok (s', set_data cpf m sum, sumline) /\
    at_lines s' rest /\ mrep n (rows ++ item_rows fl fn items) m sum.
Proof.
  intros Hn Hs Hf Hi Hfl Hfn Hsn Hsp He Hm. revert fuel s cpf fl fn rows Hs Hf Hfl Hfn He Hm.
  induction Hi as [|it items Hit _ IH]; intros [|fuel] s cpf fl fn rows Hs Hf Hfl Hfn He Hm;
    try (cbn in Hf; lia); cbn [map app] in Hs; cbn [counts_loop].
  - destruct (readline_line s sumline rest Hs Hsn) as (s' & -> & Hs').
    destruct (streqn_prefix "summary: " sumline) as [t ->]; [no_chars|done|].
    exists s', (outerMap cpf), (summary cpf). cbn [item_rows]. rewrite app_nil_r.
    split; [by destruct cpf|done].
  - assert (name_ok (item_line it)) as Hln.
    { destruct it; cbn in *; [apply name_ok_app; [|done]..|by apply Hit]; split; no_chars. }
    destruct (readline_line s (item_line it) _ Hs Hln) as (s' & -> & Hs').
    destruct it as [f|f|text ln c]; cbn [item_line item_ok item_rows] in *.
    + change (VG_isdigit (deref ("fl=" ++ f))) with false. change (streqn ("fl=" ++ f) "fn=" 3) with false.
      change (streqn ("fl=" ++ f) "fl=" 3) with true. cbv iota.
      change (plus3 ("fl=" ++ f)) with f. apply IH; try done. cbn in Hf. lia.
    + change (VG_isdigit (deref ("fn=" ++ f))) with false. change (streqn ("fn=" ++ f) "fn=" 3) with true.
      cbv iota. change (plus3 ("fn=" ++ f)) with f. apply IH; try done. cbn in Hf. lia.
    + destruct Hit as (_ & -> & Ht & Hu & Hv).
      destruct (handle_counts_ok n rows cpf fl fn text ln c) as (m & sum & -> & Hm'); [done|done| |done..|].
      { apply split_line; [done|]. intros ->. by destruct Hv as [Hv _]. }
      cbn [rbind]. destruct (IH fuel s' (set_data cpf m sum) fl fn _ Hs' ltac:(cbn in Hf; lia) Hfl Hfn He Hm')
        as (s2 & m2 & sum2 & -> & Hs2 & Hm2).
      exists s2, m2, sum2. split; [done|]. split; [done|]. by rewrite <- app_assoc in Hm2.
Qed.

(** ** Files *)

(** A profile in memory and the rows it holds. *)
Record cpf_rep (n : nat) (rows : list row) (cpf : CacheProfFile) : Prop := {
  cr_n : n <> 0%nat;
  cr_events : n_events cpf = Z.of_nat n;
  cr_header : header_ok n (desc_lines cpf) (cmd_line cpf) (events_line cpf);
  cr_summary_line : summary_line cpf = None;
  cr_maps : mrep n rows (outerMap cpf) (summary cpf)
}.

Lemma existsb_combine_refl l : existsb (fun p => negb (fst p =? snd p)) (combine l l) = false.
Proof. induction l as [|x l IH]; cbn; [done|]. by rewrite Z.eqb_refl. Qed.

Lemma existsb_combine_eq l1 l2 : length l1 = length l2 ->
  existsb (fun p => negb (fst p =? snd p)) (combine l1 l2) = false -> l1 = l2.
Proof.
  revert l2; induction l1 as [|x l1 IH]; intros [|y l2] Hl H; try done. cbn in *.
  apply orb_false_iff in H as [H1%negb_false_iff%Z.eqb_eq H2]. f_equal; [done|]. apply IH; [lia|done].
Qed.

(** The lines of a file are read into its rows. *)
Lemma parse_lines n descs cmd events items t s :
  n <> 0%nat -> header_ok n descs cmd events -> Forall (item_ok n) items ->
  name_ok t -> deref t = 32 -> tokens t (vec_sum n (map snd (item_rows "???" "???" items))) ->
  at_lines s (descs ++ cmd :: events :: map item_line items ++ [("summary:" ++ t)%string]) ->
  exists cpf, parse_CacheProfFile s = Ok cpf /\ desc_lines cpf = descs /\ cmd_line cpf = cmd /\
    events_line cpf = events /\ cpf_rep n (item_rows "???" "???" items) cpf.
Proof.
  intros Hn Hh Hi Ht Hsp Htok Hs. pose proof Hh as [Hd0 Hd [Hc1 Hc2] [He1 He2] Hcount].
  set (rows := item_rows "???" "???" items) in *. unfold parse_CacheProfFile.
  destruct (desc_loop_lines (line_fuel s) s descs cmd _ [] Hs) as (s1 & -> & Hs1);
    [|done|done|by apply cmd_not_desc|].
  { pose proof (line_fuel_ok _ _ Hs) as Hf. rewrite length_app in Hf. lia. }
  cbn [rbind app]. rewrite (proj2 (Nat.eqb_neq (length descs) 0)) by (by destruct descs).
  cbn [streqn_ptr rbind]. rewrite Hc2. cbn [negb]. change (default EmptyString (Some cmd)) with cmd.
  destruct (readline_line s1 events _ Hs1 He1) as (s2 & -> & Hs2). rewrite He2. cbn [negb].
  rewrite (events_colon events He2). eval_eqb. cbn [tl_assert rbind]. rewrite Hcount.
  destruct t as [|c t]; [done|]. cbn in Hsp. change 32 with (zchar (chr 32)) in Hsp. apply zchar_inj in Hsp as ->.
  set (sumline := ("summary:" ++ String (chr 32) t)%string) in *.
  assert (name_ok (String (chr 32) t)) as Ht' by done.
  assert (name_ok sumline) as Hsn by (apply name_ok_app; [split; no_chars|done]).
  destruct (counts_loop_items n items (line_fuel s2) s2
    (MkCpf descs cmd events (Z.of_nat n) None newFM (new_Counts_Zeroed (Z.of_nat n)))
    "???" "???" [] sumline []) as (s3 & m & sum & -> & Hs3 & Hm); try done.
  { pose proof (line_fuel_ok _ _ Hs2) as Hf. rewrite length_app, length_map in Hf. cbn in Hf. lia. }
  { split; no_chars. }
  { split; no_chars. }
  { cbn. unfold new_Counts_Zeroed. rewrite Nat2Z.id. apply mrep_empty. }
  cbn [rbind]. change (streqn sumline "summary: " 9) with true. cbn [negb].
  rewrite (readline_end s3 Hs3). change (incr (incr (plus6 sumline))) with (String (chr 32) t).
  fold rows in Hm. cbn [app] in Hm. pose proof (mr_sum _ _ _ _ Hm) as Esum. cbn [app] in Esum.
  assert (vec n (vec_sum n (map snd rows))) as [Hlen _] by (apply vec_sum_vec, rows_ok_lengths, Hm).
  rewrite (split_summary _ _ Htok) by (intros E; rewrite E in Hlen; by cbn in Hlen).
  cbn [rbind set_data n_events summary]. unfold n_counts. rewrite Hlen, Z.eqb_refl. cbn [negb].
  rewrite <- Esum, existsb_combine_refl. eexists. split; [done|]. cbn. split_and!; done.
Qed.

(** ** What an accepted file is *)

Lemma ulong_loop_u64 s n : in_u 64 n -> in_u 64 (ulong_loop s n).1.
Proof.
  revert n; induction s as [|c s IH]; intros n Hn; cbn; [done|]. destruct (VG_isdigit _); [|done].
  apply IH, wrapu_range. lia.
Qed.

Lemma split_loop_u64 fuel s xs s' : split_loop fuel s = Ok (xs, s') -> Forall (in_u 64) xs.
Proof.
  revert s xs; induction fuel as [|fuel IH]; intros s xs H; [done|]. cbn [split_loop] in H.
  unfold parse_ULong in H. destruct (negb _); [by injection H as <- <-|].
  pose proof (ulong_loop_u64 (skip_space s) 0 ltac:(by unfold in_u)) as Hu.
  destruct (ulong_loop (skip_space s) 0) as [x p]. apply rbind_ok in H as ([ns p'] & H1 & H).
  injection H as <- <-. constructor; [done|by eapply IH].
Qed.

Lemma split_line_inv b s ln c : splitUpCountsLine b s = Ok (ln, c) -> in_u 64 ln /\ Forall (in_u 64) c.
Proof.
  unfold splitUpCountsLine. intros H. apply rbind_ok in H as ([xs p] & H1 & H).
  apply split_loop_u64 in H1. destruct (negb _); [done|].
  destruct b; [destruct (Nat.ltb _ 2); [done|]|destruct (Nat.ltb _ 1); [done|]].
  - destruct xs as [|x xs]; [by injection H as <- <-|]. apply Forall_cons in H1. by injection H as <- <-.
  - injection H as <- <-. split; [by unfold in_u|done].
Qed.

Lemma read_chars_no_nl s : no_char 10 (read_chars s).1.1.
Proof.
  unfold no_char. induction s as [|c s IH]; cbn; [constructor|].
  destruct (Z.eqb_spec (zchar c) 10); [constructor|]. destruct (read_chars s) as [[l b] r]. cbn in *.
  by constructor.
Qed.

Lemma c_str_no_char s : no_char 0 (c_str s) /\ (no_char 10 s -> no_char 10 (c_str s)).
Proof.
  unfold no_char. induction s as [|c s [IH1 IH2]]; cbn; [split; constructor|].
  destruct (Z.eqb_spec (zchar c) 0); [split; constructor|]. split; [by constructor|].
  intros [H1 H2]%Forall_cons. constructor; [done|auto].
Qed.

Lemma readline_name s s' l : readline s = (s', Some l) -> name_ok l.
Proof.
  unfold readline. destruct (src_rest s) as [|c r] eqn:E; [done|]. rewrite <- E.
  pose proof (read_chars_no_nl (src_rest s)) as Hn. destruct (read_chars (src_rest s)) as [[line b] rest].
  intros [= _ <-]. destruct (c_str_no_char line) as [H1 H2]. split; [done|]. by apply H2.
Qed.

(** Nothing of the file is lost or read twice: a round takes at least a byte. *)
Lemma readline_shorter s s' l : readline s = (s', Some l) ->
  (String.length (src_rest s') < String.length (src_rest s))%nat.
Proof.
  assert (forall r, (String.length (read_chars r).2 <= String.length r)%nat) as Hle.
  { induction r as [|c r IH]; cbn; [lia|]. destruct (_ =? 10); cbn; [lia|].
    destruct (read_chars r) as [[? ?] ?]. cbn in *. lia. }
  unfold readline. destruct (src_rest s) as [|c r] eqn:E; [done|]. cbn [read_chars].
  specialize (Hle r). destruct (_ =? 10); [intros [= <- _]; cbn; lia|].
  destruct (read_chars r) as [[? ?] ?]. intros [= <- _]. cbn in *. lia.
Qed.

Lemma handle_counts_inv n rows cpf fi fn str cpf' :
  mrep n rows (outerMap cpf) (summary cpf) -> n_events cpf = Z.of_nat n -> key_ok (MkFileFn fi fn) ->
  handle_counts cpf fi fn str = Ok cpf' ->
  exists rows' m sum, cpf' = set_data cpf m sum /\ mrep n rows' m sum.
Proof.
  intros Hm Hn Hk H. pose proof H as H0. unfold handle_counts in H. apply rbind_ok in H as ([ln c] & Hs & H).
  destruct (n_counts c =? n_events cpf) eqn:E; [|done]. apply Z.eqb_eq in E. unfold n_counts in E.
  destruct (split_line_inv _ _ _ _ Hs) as [H1 H2].
  destruct (handle_counts_ok n rows cpf fi fn str ln c) as (m & sum & E' & Hm'); try done; [by split; [lia|]|].
  rewrite E' in H0. injection H0 as <-. eauto.
Qed.

Lemma counts_loop_inv n fuel s cpf fl fn rows s' cpf' line :
  mrep n rows (outerMap cpf) (summary cpf) -> n_events cpf = Z.of_nat n -> name_ok fl -> name_ok fn ->
  counts_loop fuel s cpf fl fn = Ok (s', cpf', line) ->
  exists rows' m sum, cpf' = set_data cpf m sum /\ mrep n rows' m sum.
Proof.
  revert s cpf fl fn rows; induction fuel as [|fuel IH]; intros s cpf fl fn rows Hm Hn Hfl Hfn H; [done|].
  cbn [counts_loop] in H. destruct (readline s) as [s1 [l|]] eqn:El; [|done].
  pose proof (readline_name _ _ _ El) as Hl. destruct (VG_isdigit _).
  - apply rbind_ok in H as (cpf1 & H1 & H).
    apply (handle_counts_inv n rows) in H1 as (rows1 & m & sum & -> & Hm1); [|done..].
    destruct (IH _ (set_data cpf m sum) _ _ rows1 Hm1 Hn Hfl Hfn H) as (rows2 & m2 & sum2 & -> & Hm2). eauto.
  - pose proof (name_ok_plus3 l Hl) as Hp. destruct (streqn l "fn=" 3); [by eapply IH in H|].
    destruct (streqn l "fl=" 3); [by eapply IH in H|]. destruct (streqn l "summary: " 9); [|done].
    injection H as _ <- _. exists rows, (outerMap cpf), (summary cpf). by destruct cpf.
Qed.

Lemma desc_loop_inv fuel s acc s' descs line :
  let ok d := name_ok d /\ streqn d "desc: " 6 = true in
  Forall ok acc -> desc_loop fuel s acc = Ok (s', descs, line) ->
  Forall ok descs /\ (forall l, line = Some l -> name_ok l).
Proof.
  intros ok. revert s acc; induction fuel as [|fuel IH]; intros s acc Ha H; [done|]. cbn [desc_loop] in H.
  destruct (readline s) as [s1 [l|]] eqn:El; [|by injection H as _ <- <-].
  pose proof (readline_name _ _ _ El) as Hl. destruct (streqn l "desc: " 6) eqn:Ed; cbn [negb] in H.
  - apply IH in H; [done|]. apply Forall_app. split; [done|]. constructor; [done|constructor].
  - injection H as _ <- <-. split; [done|]. by intros l' [= <-].
Qed.

(** Whatever [parse_CacheProfFile] accepts is a profile in good order. *)
Lemma parse_sound s cpf : parse_CacheProfFile s = Ok cpf -> exists n rows, cpf_rep n rows cpf.
Proof.
  unfold parse_CacheProfFile. intros H. apply rbind_ok in H as ([[s1 descs] line] & Hd & H).
  apply desc_loop_inv in Hd as [Hd Hline]; [|constructor].
  destruct (Nat.eqb_spec (length descs) 0) as [|Hlen]; [done|]. apply rbind_ok in H as (is_cmd & Hc & H).
  destruct line as [cmd|]; [|done]. injection Hc as <-. destruct (streqn cmd "cmd: " 5) eqn:Ec; [|done].
  cbn [negb] in H. change (default EmptyString (Some cmd)) with cmd in H.
  destruct (readline s1) as [s2 [events|]] eqn:E2; [|done]. apply readline_name in E2.
  destruct (streqn events "events: " 8) eqn:Ee; [|done]. cbn [negb] in H.
  apply rbind_ok in H as ([] & _ & H).
  assert (forall p, 0 <= count_events p) as Hpos.
  { induction p as [|c p IH]; cbn; [lia|]. destruct (_ && _); lia. }
  specialize (Hpos (plus6 events)).
  set (n := Z.to_nat (count_events (plus6 events))). assert (count_events (plus6 events) = Z.of_nat n) as En by lia.
  rewrite En in H. apply rbind_ok in H as ([[s3 cpf1] sumline] & Hl & H).
  apply (counts_loop_inv n _ _ _ _ _ []) in Hl as (rows & m & sum & -> & Hm);
    [|cbn; unfold new_Counts_Zeroed; rewrite Nat2Z.id; apply mrep_empty|done|split; no_chars..].
  destruct (negb (streqn sumline "summary: " 9)); [done|].
  destruct (readline s3) as [s4 [extra|]]; [done|]. apply rbind_ok in H as ([z sr] & Hs & H).
  cbn [set_data n_events summary] in H. destruct (n_counts sr =? Z.of_nat n) eqn:E; [|done]. cbn [negb] in H.
  destruct (existsb _ _); [done|]. injection H as <-. exists n, rows. apply Z.eqb_eq in E. unfold n_counts in E.
  split; cbn; try done.
  - intros E0. rewrite E0 in E. destruct sr; [|done]. unfold splitUpCountsLine in Hs.
    apply rbind_ok in Hs as ([xs p] & _ & Hs). destruct (negb _); [done|]. by destruct xs.
  - split; try done; [by destruct descs|split; [by apply Hline|done]].
Qed.
