(* ===== verification/MergeTheorems.v ===== *)
(** * MergeTheorems: cg_merge and the profiler together

    cg_merge accepts every file the profiler writes, holds in memory exactly
    the counters that were written, adds them up line by line, and writes a
    file it can read again. *)

From Stdlib Require Import ZArith Lia Ascii String Sorted.
From stdpp Require Import base numbers option strings gmap list.
From S2P Require Import Prelude Libcbase Debuglog Vprintf Libcprint Vmessage CgSim OSet WordFM CgTables CgOutput CgMerge MergeSpec MergeParse.

#[local] Open Scope Z_scope.

(** ** Texts *)

Lemma text_of_lines_app a b : text_of_lines (a ++ b) = (text_of_lines a ++ text_of_lines b)%string.
Proof. induction a as [|l a IH]; cbn [app text_of_lines]; [done|]. by rewrite IH, !str_app_assoc. Qed.

Lemma counts_text_head l : VG_isdigit (deref (counts_text l)) = false.
Proof. by destruct l. Qed.

Lemma counts_text_tokens l : Forall (in_u 64) l -> tokens (counts_text l) l.
Proof.
  induction 1 as [|x l Hx _ IH]; [by apply tok_end|].
  change (counts_text (x :: l)) with (" " ++ fmt_u x ++ counts_text l)%string.
  apply tok_numeral; [by repeat constructor|done|apply counts_text_head|done].
Qed.

Lemma fmt_u_name x : in_u 64 x -> name_ok (fmt_u x).
Proof. intros Hx. split; (apply int64_no_char; [lia|lia|done]). Qed.

Lemma counts_text_name l : Forall (in_u 64) l -> name_ok (counts_text l).
Proof.
  induction 1 as [|x l Hx _ IH]; [split; no_chars|].
  change (counts_text (x :: l)) with (" " ++ fmt_u x ++ counts_text l)%string.
  apply name_ok_app; [split; no_chars|]. by apply name_ok_app; [apply fmt_u_name|].
Qed.

(** ** A file of the profiler *)

(** A finished run: what [fprint_CC_table_and_calc_totals] writes. *)
Record run : Type := MkRun {
  run_i1 : string; run_d1 : string; run_ll : string;
  run_exe : string; run_args : list string;
  run_lines : list line_rec
}.

Section profile.
Context (cs bs : bool).

Definition run_file (r : run) : string :=
  file_contents cs bs (run_i1 r) (run_d1 r) (run_ll r) (run_exe r) (run_args r) (run_lines r).

Definition run_descs (r : run) : list string :=
  ["desc: I1 cache:         " ++ run_i1 r; "desc: D1 cache:         " ++ run_d1 r;
   "desc: LL cache:         " ++ run_ll r]%string.

Definition run_cmd (r : run) : string :=
  ("cmd: " ++ run_exe r ++ fold_right (fun a s => " " ++ a ++ s)%string EmptyString (run_args r))%string.

Definition run_events : string :=
  match cs, bs with
  | true, true => "events: Ir I1mr ILmr Dr D1mr DLmr Dw D1mw DLmw Bc Bcm Bi Bim"
  | true, false => "events: Ir I1mr ILmr Dr D1mr DLmr Dw D1mw DLmw "
  | false, true => "events: Ir Bc Bcm Bi Bim"
  | false, false => "events: Ir"
  end%string.

Definition loc_key (l : CodeLoc) : FileFn := MkFileFn (loc_file l) (loc_fn l).

Definition line_row (r : line_rec) : row := (loc_key r.1, loc_line r.1, printed_counts cs bs r.2).

Definition run_rows (r : run) : list row := map line_row (run_lines r).

(** Names without newlines, line numbers as debug information has them, and
    64-bit counters. *)
Definition line_ok (r : line_rec) : Prop :=
  key_ok (loc_key r.1) /\ 0 <= loc_line r.1 < 2 ^ 31 /\ counts_in_u64 r.2.

Record run_ok (r : run) : Prop := {
  ro_caches : name_ok (run_i1 r) /\ name_ok (run_d1 r) /\ name_ok (run_ll r);
  ro_cmd : name_ok (run_exe r) /\ Forall name_ok (run_args r);
  ro_lines : Forall line_ok (run_lines r)
}.

Notation n := (n_columns cs bs).

Lemma n_columns_pos : n <> 0%nat.
Proof. by destruct cs, bs. Qed.

Lemma line_row_vec r : line_ok r -> vec n (printed_counts cs bs r.2).
Proof. intros (_ & _ & H). split; [apply printed_length|by apply printed_in_u64]. Qed.

Lemma run_header r : run_ok r -> header_ok n (run_descs r) (run_cmd r) run_events.
Proof.
  intros [(H1 & H2 & H3) [H4 H5] _]. split.
  - done.
  - unfold run_descs. rewrite !Forall_cons. split_and!; try done; (apply name_ok_app; [split; no_chars|done]).
  - split; [|done]. unfold run_cmd. apply name_ok_app; [split; no_chars|]. apply name_ok_app; [done|].
    induction H5 as [|a l Ha _ IH]; cbn; [split; no_chars|]. apply (name_ok_app " "); [split; no_chars|].
    by apply name_ok_app.
  - split; [|unfold run_events; destruct cs, bs; reflexivity]. unfold run_events. destruct cs, bs; split; no_chars.
  - unfold run_events; destruct cs, bs; reflexivity.
Qed.

(** *** The lines of counters *)

Definition counts_item (r : line_rec) : item :=
  ICounts (fmt_d (loc_line r.1) ++ counts_text (printed_counts cs bs r.2))
    (loc_line r.1) (printed_counts cs bs r.2).

Fixpoint body_items (prev : option (string * string)) (ls : list line_rec) : list item :=
  match ls with
  | [] => []
  | r :: ls' =>
      (if new_file prev r.1 then [IFl (loc_file r.1)] else []) ++
      (if new_fn prev r.1 then [IFn (loc_fn r.1)] else []) ++
      counts_item r :: body_items (Some (loc_file r.1, loc_fn r.1)) ls'
  end.

Lemma body_items_text prev ls :
  text_of_lines (map item_line (body_items prev ls)) = body_text cs bs prev ls.
Proof.
  revert prev; induction ls as [|r ls IH]; intros prev; [done|]. cbn [body_items body_text].
  rewrite !map_app, !text_of_lines_app. cbn [map item_line counts_item text_of_lines]. rewrite IH.
  unfold file_text, func_text, counters_text.
  destruct (new_file prev r.1), (new_fn prev r.1); cbn [map item_line text_of_lines];
    rewrite ?str_app_nil_r, !str_app_assoc; done.
Qed.

Lemma new_fn_false prev l f g : new_fn prev l = false -> prev = Some (f, g) -> loc_file l = f /\ loc_fn l = g.
Proof.
  intros H ->. unfold new_fn, new_file in H. apply orb_false_iff in H as [H1 H2].
  apply negb_false_iff, String.eqb_eq in H1, H2. done.
Qed.

Lemma body_items_rows prev ls fl fn :
  (forall f g, prev = Some (f, g) -> fl = f /\ fn = g) ->
  item_rows fl fn (body_items prev ls) = map line_row ls.
Proof.
  revert prev fl fn; induction ls as [|r ls IH]; intros prev fl fn Hp; [done|]. cbn [body_items map].
  assert (item_rows (loc_file r.1) (loc_fn r.1) (counts_item r :: body_items (Some (loc_file r.1, loc_fn r.1)) ls)
    = line_row r :: map line_row ls) as E.
  { cbn [item_rows counts_item]. rewrite IH; [done|]. by intros f g [= <- <-]. }
  destruct (new_fn prev r.1) eqn:En.
  - destruct (new_file prev r.1) eqn:Ef; cbn [app item_rows]; [done|].
    destruct prev as [[f g]|]; [|done]. destruct (Hp f g eq_refl) as [-> ->].
    apply negb_false_iff, String.eqb_eq in Ef. by rewrite Ef.
  - destruct prev as [[f g]|]; [|done]. destruct (Hp f g eq_refl) as [-> ->].
    destruct (new_fn_false _ _ _ _ En eq_refl) as [<- <-].
    unfold new_fn in En. apply orb_false_iff in En as [-> _]. done.
Qed.

Lemma body_items_ok prev ls : Forall line_ok ls -> Forall (item_ok n) (body_items prev ls).
Proof.
  intros H; revert prev; induction H as [|r ls Hr _ IH]; intros prev; cbn [body_items]; [constructor|].
  pose proof Hr as ([Hk1 Hk2] & Hln & Hc). pose proof (line_row_vec r Hr) as [Hv1 Hv2].
  rewrite !Forall_app. split; [destruct (new_file _ _); [by apply Forall_singleton|by apply Forall_nil]|].
  split; [destruct (new_fn _ _); [by apply Forall_singleton|by apply Forall_nil]|].
  apply Forall_cons. split; [|apply IH].
  assert (in_u 64 (loc_line r.1)) as Hu by (unfold in_u; lia).
  unfold counts_item. cbn [item_ok]. rewrite fmt_d_u by lia. split_and!.
  - apply name_ok_app; [by apply fmt_u_name|by apply counts_text_name].
  - by apply fmt_u_digit.
  - change (fmt_u (loc_line r.1) ++ counts_text (printed_counts cs bs r.2))%string
      with (EmptyString ++ fmt_u (loc_line r.1) ++ counts_text (printed_counts cs bs r.2))%string.
    apply tok_numeral; [constructor|done|apply counts_text_head|by apply counts_text_tokens].
  - done.
  - done.
Qed.

Lemma run_file_lines r : run_file r = text_of_lines (run_descs r ++ run_cmd r :: run_events ::
  map item_line (body_items None (run_lines r)) ++
  [("summary:" ++ counts_text (summary_counts cs bs (run_lines r)))%string]).
Proof.
  unfold run_file, file_contents, run_descs. cbn [app text_of_lines].
  rewrite text_of_lines_app, body_items_text. cbn [text_of_lines]. unfold desc_text, run_cmd.
  replace (events_fmt cs bs) with (nl ++ run_events ++ nl)%string
    by (unfold run_events; destruct cs, bs; reflexivity).
  rewrite !str_app_assoc, str_app_nil_r. done.
Qed.

Lemma run_summary r : summary_counts cs bs (run_lines r) = vec_sum n (map snd (run_rows r)).
Proof. unfold summary_counts, vec_sum, run_rows. by rewrite map_map. Qed.

Lemma run_rows_ok r : run_ok r -> rows_ok n (run_rows r).
Proof.
  intros H. apply Forall_map. eapply Forall_impl; [apply H|]. intros l Hl. pose proof Hl as (H1 & H2 & _).
  cbn. split; [done|]. split; [unfold in_u; lia|by apply line_row_vec].
Qed.

(** cg_merge reads what the profiler wrote. *)
Lemma parse_run r s : run_ok r -> src_rest s = run_file r ->
  exists cpf, parse_CacheProfFile s = Ok cpf /\ desc_lines cpf = run_descs r /\ cmd_line cpf = run_cmd r /\
    events_line cpf = run_events /\ cpf_rep n (run_rows r) cpf.
Proof.
  intros Hr Hs. pose proof (run_rows_ok r Hr) as Hrows.
  assert (item_rows "???" "???" (body_items None (run_lines r)) = run_rows r) as E by (by apply body_items_rows).
  assert (vec n (vec_sum n (map snd (run_rows r)))) as [Hl Hu] by (by apply vec_sum_vec, rows_ok_lengths).
  rewrite <- E. apply (parse_lines n (run_descs r) (run_cmd r) run_events (body_items None (run_lines r))
    (counts_text (summary_counts cs bs (run_lines r)))).
  - apply n_columns_pos.
  - by apply run_header.
  - apply body_items_ok, Hr.
  - rewrite run_summary. by apply counts_text_name.
  - rewrite run_summary. destruct (vec_sum _ _); [|done]. cbn in Hl. by pose proof n_columns_pos.
  - rewrite E, run_summary. by apply counts_text_tokens.
  - unfold at_lines. by rewrite Hs, run_file_lines.
Qed.

End profile.

(** ** Writing *)

(** Values that "%lld" and "%ld" print as they are. *)
Definition row_printable (r : row) : Prop := r.1.2 < 2 ^ 63 /\ Forall (fun x => x < 2 ^ 63) r.2.

Definition printable (cpf : CacheProfFile) : Prop :=
  Forall row_printable (flat_rows (outerMap cpf)) /\ Forall (fun x => x < 2 ^ 63) (summary cpf).

Definition line_item (l : Z * list Z) : item :=
  ICounts (fmt_d l.1 ++ "   " ++ showCounts l.2) l.1 l.2.

Definition fn_items (e : FileFn * InnerMap) : list item :=
  IFl (fi_name e.1) :: IFn (fn_name e.1) :: map line_item (bindings e.2).

Definition show_items (m : OuterMap) : list item := concat (map fn_items (bindings m)).

Lemma item_rows_app fl fn a b : exists fl' fn', item_rows fl fn (a ++ b) = item_rows fl fn a ++ item_rows fl' fn' b.
Proof.
  revert fl fn; induction a as [|it a IH]; intros fl fn; [by exists fl, fn|].
  destruct it as [f|f|t ln c]; cbn [app item_rows].
  - apply IH.
  - apply IH.
  - destruct (IH fl fn) as (fl' & fn' & E). exists fl', fn'. by rewrite E.
Qed.

Lemma show_items_rows fl fn m : item_rows fl fn (show_items m) = flat_rows m.
Proof.
  unfold show_items, flat_rows. revert fl fn. induction (bindings m) as [|[k im] xs IH]; intros fl fn; [done|].
  cbn [map concat]. destruct (item_rows_app fl fn (fn_items (k, im)) (concat (map fn_items xs)))
    as (fl' & fn' & ->). rewrite IH. f_equal. unfold fn_items, fn_rows. cbn [item_rows fst snd].
  replace (MkFileFn (fi_name k) (fn_name k)) with k by (by destruct k).
  induction (bindings im) as [|[ln c] l IHl]; [done|]. cbn [map item_rows line_item fst snd].
  rewrite IHl. by destruct k.
Qed.

Lemma showCounts_tokens sp c : Forall (fun c => VG_isspace (zchar c) = true) (list_ascii_of_string sp) ->
  Forall (fun x => 0 <= x < 2 ^ 63) c -> tokens (sp ++ showCounts c) c.
Proof.
  intros Hsp Hc; revert sp Hsp; induction Hc as [|x c Hx _ IH]; intros sp Hsp.
  - cbn. apply tok_end. rewrite str_app_nil_r. induction sp as [|a sp IH]; [done|].
    apply Forall_cons in Hsp as [H1 H2]. cbn. rewrite H1. by apply IH.
  - change (showCounts (x :: c)) with (fmt_d x ++ " " ++ showCounts c)%string. rewrite fmt_d_u by done.
    apply tok_numeral; [done|unfold in_u; lia|done|]. apply IH. by repeat constructor.
Qed.

Lemma showCounts_name c : Forall (fun x => 0 <= x < 2 ^ 63) c -> name_ok (showCounts c).
Proof.
  induction 1 as [|x c Hx _ IH]; [split; no_chars|].
  change (showCounts (x :: c)) with (fmt_d x ++ " " ++ showCounts c)%string. rewrite fmt_d_u by done.
  apply name_ok_app; [apply fmt_u_name; unfold in_u; lia|]. apply name_ok_app; [split; no_chars|done].
Qed.

Lemma printable_range c : Forall (in_u 64) c -> Forall (fun x => x < 2 ^ 63) c ->
  Forall (fun x => 0 <= x < 2 ^ 63) c.
Proof.
  induction 1 as [|x c Hx _ IH]; intros H; [constructor|]. apply Forall_cons in H as [H1 H2].
  constructor; [unfold in_u in Hx; lia|auto].
Qed.

Lemma line_item_ok n k l : in_u 64 l.1 -> vec n l.2 -> row_printable (k, l.1, l.2) -> item_ok n (line_item l).
Proof.
  intros Hu [Hv1 Hv2] [P1 P2]. cbn [fst snd] in *. pose proof (printable_range _ Hv2 P2) as Hr.
  unfold line_item. cbn [item_ok]. unfold in_u in Hu. rewrite fmt_d_u by lia. split_and!.
  - apply name_ok_app; [by apply fmt_u_name|]. apply name_ok_app; [split; no_chars|by apply showCounts_name].
  - by apply fmt_u_digit.
  - apply (tok_numeral EmptyString); [constructor|done|done|].
    apply showCounts_tokens; [by repeat constructor|done].
  - done.
  - done.
Qed.

Lemma show_items_ok n m : outer_ok n m -> Forall row_printable (flat_rows m) ->
  Forall (item_ok n) (show_items m).
Proof.
  intros Hm Hp. rewrite Forall_forall in Hp. apply Forall_concat, Forall_map, Forall_forall. intros [k im] He.
  pose proof (oo_inner _ _ Hm) as Hin. rewrite Forall_forall in Hin. destruct (Hin _ He) as [[Hk1 Hk2] [[_ Hv] _]].
  cbn in *. unfold fn_items. cbn [fst snd]. apply Forall_cons. split; [done|]. apply Forall_cons. split; [done|].
  apply Forall_map, Forall_forall. intros [ln c] Hl. rewrite Forall_forall in Hv. destruct (Hv _ Hl) as [Hu Hc].
  apply (line_item_ok n k); [done|done|]. apply Hp, elem_of_flat. by exists im.
Qed.

Lemma show_lines_text xs f : res_fold show_line xs f = Ok (f ++ text_of_lines (map item_line (map line_item xs)))%string.
Proof.
  revert f; induction xs as [|[ln c] xs IH]; intros f; cbn [res_fold map text_of_lines]; [by rewrite str_app_nil_r|].
  unfold show_line at 1. cbn [rbind]. rewrite IH. cbn [item_line line_item fst snd]. by rewrite !str_app_assoc.
Qed.

Lemma show_fns_text n xs f :
  Forall (fun e : FileFn * InnerMap => key_ok e.1 /\ fn_ok n e.2) xs ->
  Forall (fun e => Z.of_nat (length (bindings e.2)) <= ITER_MAX) xs ->
  res_fold show_fn xs f = Ok (f ++ text_of_lines (map item_line (concat (map fn_items xs))))%string.
Proof.
  intros Hx; revert f; induction Hx as [|[k im] xs [_ [[Hw _] _]] _ IH]; intros f Hl; cbn [res_fold map concat].
  { cbn. by rewrite str_app_nil_r. }
  apply Forall_cons in Hl as [Hl1 Hl]. cbn [snd] in *. unfold show_fn at 1.
  rewrite (for_each_ok cmp_unboxed_UWord) by done. rewrite show_lines_text. cbn [rbind]. rewrite IH by done.
  rewrite map_app, text_of_lines_app. cbn [fn_items map item_line text_of_lines fst snd].
  by rewrite !str_app_assoc.
Qed.

Definition show_summary (c : list Z) : string :=
  fold_right (fun x f => (" " ++ fmt_d x ++ f)%string) EmptyString c.

Lemma show_summary_counts c : Forall (fun x => 0 <= x < 2 ^ 63) c -> show_summary c = counts_text c.
Proof.
  induction 1 as [|x c Hx _ IH]; [done|].
  change (show_summary (x :: c)) with (" " ++ fmt_d x ++ show_summary c)%string.
  by rewrite IH, fmt_d_u.
Qed.

Lemma show_text n rows cpf : cpf_rep n rows cpf -> Z.of_nat (length rows) <= ITER_MAX ->
  show_CacheProfFile cpf = Ok (text_of_lines (desc_lines cpf ++ cmd_line cpf :: events_line cpf ::
    map item_line (show_items (outerMap cpf)) ++ [("summary:" ++ show_summary (summary cpf))%string])).
Proof.
  intros [_ _ _ _ Hm] Hl. pose proof (mrep_sizes _ _ _ _ Hm) as [Ho Hi]. pose proof (mr_ok _ _ _ _ Hm) as [Hw Hin].
  unfold show_CacheProfFile. rewrite (for_each_ok cmp_FileFn) by (done || lia).
  rewrite (show_fns_text n) by (done || (eapply Forall_impl; [exact Hi|]; cbn; lia)). cbn [rbind].
  rewrite text_of_lines_app. cbn [text_of_lines]. rewrite text_of_lines_app. cbn [text_of_lines].
  assert (fold_right (fun d f => (d ++ nl ++ f)%string) EmptyString (desc_lines cpf)
    = text_of_lines (desc_lines cpf)) as -> by done.
  unfold show_items, show_summary. by rewrite !str_app_assoc, str_app_nil_r.
Qed.

(** What is written can be read, and holds the same. *)
Lemma show_parse n rows cpf name : cpf_rep n rows cpf -> Z.of_nat (length rows) <= ITER_MAX -> printable cpf ->
  exists text cpf', show_CacheProfFile cpf = Ok text /\ parse_CacheProfFile (MkSource text 1 name) = Ok cpf' /\
    desc_lines cpf' = desc_lines cpf /\ cmd_line cpf' = cmd_line cpf /\ events_line cpf' = events_line cpf /\
    cpf_rep n (flat_rows (outerMap cpf)) cpf'.
Proof.
  intros Hr Hl [Hp1 Hp2]. pose proof Hr as [Hn _ Hh _ Hm]. pose proof (mrep_flat _ _ _ _ Hm) as [Hfr Hok _ Hfs].
  assert (vec n (summary cpf)) as [Hv1 Hv2] by (rewrite (mr_sum _ _ _ _ Hm); apply vec_sum_vec, rows_ok_lengths, Hm).
  pose proof (printable_range _ Hv2 Hp2) as Hrange.
  rewrite (show_text n rows) by done. eexists.
  rewrite <- (show_items_rows "???" "???" (outerMap cpf)).
  destruct (parse_lines n (desc_lines cpf) (cmd_line cpf) (events_line cpf) (show_items (outerMap cpf))
    (show_summary (summary cpf)) (MkSource (text_of_lines (desc_lines cpf ++ cmd_line cpf :: events_line cpf ::
    map item_line (show_items (outerMap cpf)) ++ [("summary:" ++ show_summary (summary cpf))%string])) 1 name))
    as (cpf' & E & H); try done.
  - by apply show_items_ok.
  - rewrite show_summary_counts by done. by apply counts_text_name.
  - destruct (summary cpf); [|done]. by cbn in Hv1.
  - rewrite show_items_rows, <- Hfs, show_summary_counts by done. by apply counts_text_tokens.
  - exists cpf'. split; [done|]. split; [exact E|exact H].
Qed.

(** ** Merging files *)

Lemma merge_rep n r1 r2 dst src :
  cpf_rep n r1 dst -> cpf_rep n r2 src -> events_line dst = events_line src ->
  Z.of_nat (length r2) <= ITER_MAX ->
  exists dst', merge_CacheProfInfo dst src = Ok dst' /\ cpf_rep n (r1 ++ r2) dst' /\
    desc_lines dst' = desc_lines dst /\ cmd_line dst' = cmd_line dst /\ events_line dst' = events_line dst.
Proof.
  intros [Hn He Hh Hs Hm] [_ _ _ _ Hm2] Hev Hl.
  destruct (merge_mrep n r1 r2 dst src Hm Hm2 Hev Hl) as (m & sum & -> & Hm').
  eexists. split; [done|]. split; [by split|done].
Qed.

Section args.
Context (cs bs : bool) (fopen : string -> option string).
Notation n := (n_columns cs bs).
Notation rows_of_runs := (fun rs => concat (map (run_rows cs bs) rs)).

(** Files merged one after the other add up their rows. *)
Lemma merge_args_ok names runs i cpf rows :
  1 < i -> Forall2 (fun nm r => fopen nm = Some (run_file cs bs r)) names runs -> Forall (run_ok) runs ->
  cpf_rep n rows cpf -> events_line cpf = run_events cs bs ->
  Z.of_nat (length (rows_of_runs runs)) <= ITER_MAX ->
  exists cpf', merge_args fopen 1 i names (Some cpf) = Ok (Some cpf') /\
    cpf_rep n (rows ++ rows_of_runs runs) cpf' /\
    desc_lines cpf' = desc_lines cpf /\ cmd_line cpf' = cmd_line cpf /\ events_line cpf' = events_line cpf.
Proof.
  intros Hi Hf; revert i cpf rows Hi; induction Hf as [|nm r names runs Hnm _ IH];
    intros i cpf rows Hi Hok Hr He Hl; cbn [merge_args map concat].
  { exists cpf. by rewrite app_nil_r. }
  apply Forall_cons in Hok as [Hok1 Hok]. cbn [map concat] in Hl. rewrite length_app in Hl.
  rewrite (proj2 (Z.eqb_neq i 1)) by lia. unfold merge_file. rewrite Hnm.
  destruct (parse_run cs bs r (MkSource (run_file cs bs r) 1 nm) Hok1 eq_refl)
    as (c1 & -> & _ & _ & He1 & Hr1). cbn [rbind].
  destruct (merge_rep n rows (run_rows cs bs r) cpf c1) as (c2 & -> & Hr2 & Hd2 & Hc2 & He2);
    [done|done|congruence|lia|]. cbn [rbind].
  destruct (IH (i + 1) c2 _ ltac:(lia) Hok Hr2 ltac:(congruence) ltac:(lia)) as (c3 & -> & Hr3 & Hd3 & Hc3 & He3).
  exists c3. rewrite <- app_assoc in Hr3. split; [done|]. split; [done|]. split_and!; congruence.
Qed.

End args.

(** *** Sums that fit *)

Lemma column_sums_nonneg n rows : rows_ok n rows -> Forall (Z.le 0) (column_sums n (map snd rows)).
Proof.
  induction 1 as [|r rows (_ & _ & _ & Hu) _ IH]; cbn [map column_sums]; [by apply Forall_replicate|].
  revert IH. generalize (column_sums n (map snd rows)) as b.
  induction Hu as [|x l Hx _ IH]; intros [|y b] H; cbn; try constructor; apply Forall_cons in H as [H1 H2].
  - unfold in_u in Hx. lia.
  - by apply IH.
Qed.

Lemma zip_add_below B (a b : list Z) : length a = length b -> Forall (Z.le 0) b ->
  Forall (fun x => x < B) (zip_with Z.add a b) -> Forall (fun x => x < B) a.
Proof.
  revert b; induction a as [|x a IH]; intros [|y b] Hl Hb H; try done.
  cbn in H, Hl. apply Forall_cons in H as [H1 H2]. apply Forall_cons in Hb as [Hb1 Hb2].
  constructor; [lia|]. apply (IH b); [lia|done..].
Qed.

Lemma below_u64 c : Forall (Z.le 0) c -> Forall (fun x => x < 2 ^ 63) c -> map u64 c = c.
Proof.
  intros H1 H2. apply map_u64_id. apply Forall_forall. rewrite Forall_forall in H1, H2.
  intros x Hx. specialize (H1 x Hx). specialize (H2 x Hx). unfold in_u. lia.
Qed.

(** When the sums of all rows fit, so do those of any part. *)
Lemma filter_below n f rows : rows_ok n rows ->
  Forall (fun x => x < 2 ^ 63) (column_sums n (map snd rows)) ->
  Forall (fun x => x < 2 ^ 63) (vec_sum n (map snd (List.filter f rows))).
Proof.
  intros Hr H. pose proof (rows_ok_filter n rows f Hr) as H1.
  pose proof (rows_ok_filter n rows (fun x => negb (f x)) Hr) as H2.
  rewrite (column_sums_perm n (map snd rows) (map snd (List.filter f rows ++
    List.filter (fun x => negb (f x)) rows))) in H by (by rewrite <- filter_split).
  rewrite map_app, column_sums_app in H by (by apply rows_ok_lengths).
  apply zip_add_below in H; [|by rewrite !column_sums_length by (by apply rows_ok_lengths)
                             |by apply column_sums_nonneg].
  unfold vec_sum. rewrite below_u64; [done|by apply column_sums_nonneg|done].
Qed.

Lemma rows_printable n rows cpf : cpf_rep n rows cpf ->
  Forall (fun r : row => r.1.2 < 2 ^ 63) rows ->
  Forall (fun x => x < 2 ^ 63) (column_sums n (map snd rows)) ->
  printable cpf /\ summary cpf = column_sums n (map snd rows).
Proof.
  intros [_ _ _ _ Hm] Hln Hs. pose proof Hm as [Hr Hok Hl Hsum].
  assert (summary cpf = column_sums n (map snd rows)) as Es.
  { rewrite Hsum. apply below_u64; [by apply column_sums_nonneg|done]. }
  split; [|done]. split; [|by rewrite Es]. apply Forall_forall. intros r Hin.
  pose proof Hin as (im & H1 & H2)%elem_of_flat.
  destruct (mrep_lines n rows _ _ _ im _ _ Hm H1 H2) as (r' & Hr' & _ & E2 & Et).
  split; [rewrite <- E2; rewrite Forall_forall in Hln; by apply Hln|].
  unfold row_total in Et. pose proof (filter_below n (row_of r.1.1 r.1.2) rows Hr Hs) as Hb.
  destruct (List.filter _ rows); [done|]. injection Et as <-. exact Hb.
Qed.

(** *** The tables of a run have one row per line *)

Lemma row_total_unique n rows r : rows_ok n rows -> NoDup (map fst rows) -> r ∈ rows ->
  row_total n rows r.1.1 r.1.2 = Some r.2.
Proof.
  intros Hr Hnd Hin. pose proof Hr as Hr'. unfold rows_ok in Hr'. rewrite Forall_forall in Hr'.
  apply list_elem_of_split in Hin as (a & b & ->).
  assert (forall r', r' ∈ a ++ b -> row_of r.1.1 r.1.2 r' = false) as Hno.
  { intros r' Hr2. destruct (row_of r.1.1 r.1.2 r') eqn:E; [|done].
    assert (r' ∈ a ++ r :: b) as Hin' by (rewrite elem_of_app in *; rewrite elem_of_cons; tauto).
    apply row_of_eq in E; [|apply Hr'; rewrite elem_of_app, elem_of_cons; tauto|by apply Hr'].
    rewrite map_app in Hnd. cbn [map] in Hnd. apply NoDup_app in Hnd as (_ & Hd & Hb).
    apply NoDup_cons in Hb as [Hb _]. destruct r as [[k ln] c]. cbn in *.
    apply elem_of_app in Hr2 as [H|H]; [exfalso; apply (Hd (k, ln)); [|by left]|exfalso; apply Hb];
      apply list_elem_of_fmap; by exists r'. }
  assert (forall l, (forall r', r' ∈ l -> row_of r.1.1 r.1.2 r' = false) ->
    List.filter (row_of r.1.1 r.1.2) l = []) as Hnil.
  { induction l as [|x l IH]; intros H; cbn; [done|]. rewrite (H x) by (by left). apply IH.
    intros r' Hx. apply H. by right. }
  unfold row_total. rewrite List.filter_app. cbn [List.filter].
  rewrite !Hnil by (intros; apply Hno; rewrite elem_of_app; tauto).
  assert (key_ok r.1.1 /\ in_u 64 r.1.2 /\ vec n r.2) as (Hk & _ & Hv)
    by (apply Hr'; rewrite elem_of_app, elem_of_cons; tauto).
  rewrite (proj2 (row_of_eq r.1.1 r.1.2 r Hk Hk)) by (by destruct r as [[] ?]).
  cbn [app map]. by rewrite vec_sum_one.
Qed.

Lemma lines_locs_NoDup T : tables_wf T -> NoDup (map (fun r : line_rec => r.1) (lines_of T)).
Proof.
  intros HT. pose proof (tw_cc _ HT) as Hcc. pose proof (os_ordered _ (cw_wf _ _ _ Hcc)) as Hord.
  unfold ordered in Hord. unfold lines_of. rewrite map_map. cbn.
  induction Hord as [|l ls _ IH Hx]; cbn; constructor; [|done].
  intros (y & Ey & Hy)%list_elem_of_fmap. rewrite Forall_forall in Hx. specialize (Hx y Hy).
  cbn in Hx. rewrite <- Ey, (cmp_refl (loc_of l) : cmp_CodeLoc_LineCC _ _ = 0) in Hx. lia.
Qed.

Lemma no_nul_no_char s : no_nul s -> no_char 0 s.
Proof. unfold no_char. induction s as [|c s IH]; cbn; [constructor|]. intros [H1 H2]. constructor; auto. Qed.

(** Names the line-based format can carry. *)
Definition one_line (s : string) : Prop := no_char 10 s.

Lemma tables_lines_ok T : tables_wf T -> Forall counts_in_u64 (CC_store T) ->
  Forall (fun r : line_rec => one_line (loc_file r.1) /\ one_line (loc_fn r.1)) (lines_of T) ->
  Forall line_ok (lines_of T).
Proof.
  intros HT Hu Hn. rewrite Forall_forall in Hn. apply Forall_forall. intros r Hr.
  destruct (Hn r Hr) as [N1 N2]. unfold lines_of in Hr.
  apply list_elem_of_fmap in Hr as (l & -> & Hl). cbn [fst snd] in *. pose proof (tw_cc _ HT) as Hcc.
  destruct (cc_wf_loc_ok _ _ _ _ l (tw_str _ HT) Hcc Hl) as (H1 & H2 & H3).
  destruct (cw_in _ _ _ Hcc l Hl) as (Ha & _). split; [|split; [cbn [fst]; lia|]].
  - split; split; try done; by apply no_nul_no_char.
  - rewrite Forall_forall in Hu. cbn. apply Hu, list_elem_of_In, nth_In. exact Ha.
Qed.

Lemma run_locs_NoDup cs bs r : NoDup (map (fun r : line_rec => r.1) (run_lines r)) ->
  NoDup (map fst (run_rows cs bs r)).
Proof.
  intros H. unfold run_rows. rewrite map_map. cbn.
  replace (map (fun x : line_rec => (loc_key x.1, loc_line x.1)) (run_lines r))
    with ((fun l => (loc_key l, loc_line l)) <$> map (fun r : line_rec => r.1) (run_lines r))
    by (apply (map_map (fun r : line_rec => r.1) (fun l => (loc_key l, loc_line l)))).
  apply NoDup_fmap_2; [|done]. intros [] [] E. unfold loc_key in E. cbn in E. by simplify_eq.
Qed.

(** ** Theorems *)

(** C25. The profiler's output is cg_merge's input.  The file that
    [fprint_CC_table_and_calc_totals] writes, from well-formed tables with
    names on one line each, is accepted by [parse_CacheProfFile], whatever the
    simulation options.  The profile in memory then has the events and the
    column sums of the file, for every source line of the table exactly its
    counters, and nothing for any other line. *)
Theorem output_accepted (cs bs xml : bool) (T : cg_tables) (c : caches3) (exename : string)
    (client_args : list string) (name : string) :
  tables_wf T -> Forall counts_in_u64 (CC_store T) -> Z.of_nat (length (CC_store T)) <= ITER_MAX ->
  name_ok (desc_line (I1 c)) -> name_ok (desc_line (D1 c)) -> name_ok (desc_line (LL c)) ->
  name_ok exename -> Forall name_ok client_args ->
  Forall (fun r : line_rec => one_line (loc_file r.1) /\ one_line (loc_fn r.1)) (lines_of T) ->
  exists T' tot file cpf,
    fprint_CC_table_and_calc_totals cs bs xml true c exename client_args T zero_totals
      = Ok (T', tot, Some file) /\
    parse_CacheProfFile (MkSource file 1 name) = Ok cpf /\
    n_events cpf = Z.of_nat (n_columns cs bs) /\
    summary cpf = summary_counts cs bs (lines_of T) /\
    (forall loc cts, (loc, cts) ∈ lines_of T ->
       look (outerMap cpf) (loc_key loc) (loc_line loc) = Some (printed_counts cs bs cts)) /\
    (forall k ln v, key_ok k -> look (outerMap cpf) k ln = Some v ->
       exists cts, (MkCodeLoc (fi_name k) (fn_name k) ln, cts) ∈ lines_of T).
Proof.
  intros HT Hu Hmax HI HD HL He Ha Hn. set (r := MkRun (desc_line (I1 c)) (desc_line (D1 c)) (desc_line (LL c))
    exename client_args (lines_of T)).
  destruct (fprint_ok cs bs xml T HT Hu c exename client_args Hmax) as (T' & tot & E & _).
  pose proof (tables_lines_ok T HT Hu Hn) as Hlines. assert (run_ok r) as Hr by (by split).
  destruct (parse_run cs bs r (MkSource (run_file cs bs r) 1 name) Hr eq_refl)
    as (cpf & Ep & _ & _ & _ & [_ Hev _ _ Hm]).
  exists T', tot, (run_file cs bs r), cpf. split; [exact E|]. split; [done|]. split; [done|].
  pose proof (mr_rows _ _ _ _ Hm) as Hrows. split; [by rewrite (mr_sum _ _ _ _ Hm), <- run_summary|]. split.
  - intros loc cts Hin. rewrite (mr_look _ _ _ _ Hm).
    apply (row_total_unique _ _ (line_row cs bs (loc, cts))); [done|by apply run_locs_NoDup, lines_locs_NoDup|].
    apply list_elem_of_fmap. by exists (loc, cts).
  - intros k ln v Hk Hv. rewrite (mr_look _ _ _ _ Hm) in Hv.
    destruct (row_total_elem _ _ _ _ _ Hv) as (x & Hx & Hof).
    unfold rows_ok in Hrows. rewrite Forall_forall in Hrows. destruct (Hrows x Hx) as [Hkx _].
    apply row_of_eq in Hof; [|done|done]. apply list_elem_of_fmap in Hx as ([[f g l] cts] & -> & Hin).
    cbn in Hof. injection Hof as <- <-. by exists cts.
Qed.

(** Merging.  For two files that were accepted and have the same "events:"
    line, [merge_CacheProfInfo] returns; in the result every line has the sum,
    by column and modulo 2^64, of its counts in the two files, or its counts in
    the one that has it, the summary is the sum of the summaries, and the
    header is that of the first file.  Files of different events are refused. *)
Theorem merge_correct (s1 s2 : SOURCE) (dst src : CacheProfFile) :
  parse_CacheProfFile s1 = Ok dst -> parse_CacheProfFile s2 = Ok src ->
  Z.of_nat (length (flat_rows (outerMap src))) <= ITER_MAX ->
  (events_line dst <> events_line src -> exists msg, merge_CacheProfInfo dst src = Err (Exit 1 msg)) /\
  (events_line dst = events_line src -> exists m,
     merge_CacheProfInfo dst src = Ok (set_data dst m (add_vec (summary dst) (summary src))) /\
     forall k ln, look m k ln = opt_add (look (outerMap dst) k ln) (look (outerMap src) k ln)).
Proof.
  intros (n1 & r1 & H1)%parse_sound (n2 & r2 & H2)%parse_sound Hl. split.
  - intros Hne. unfold merge_CacheProfInfo, streq. eexists.
    assert (VG_strcmp (events_line dst) (events_line src) <> 0) as Hs.
    { intros E. apply Hne. apply VG_strcmp_eq in E; [done|..]; apply no_char_no_nul;
        [apply (ho_events _ _ _ _ (cr_header _ _ _ H1))|apply (ho_events _ _ _ _ (cr_header _ _ _ H2))]. }
    by rewrite (proj2 (Z.eqb_neq _ _)) by lia.
  - intros Ee. assert (n1 = n2) as <-.
    { pose proof (ho_count _ _ _ _ (cr_header _ _ _ H1)). pose proof (ho_count _ _ _ _ (cr_header _ _ _ H2)).
      rewrite Ee in *. lia. }
    pose proof (mrep_flat _ _ _ _ (cr_maps _ _ _ H2)) as Hm2.
    destruct (merge_mrep n1 r1 _ dst src (cr_maps _ _ _ H1) Hm2 Ee Hl) as (m & sum & E & Hm).
    exists m. pose proof (mr_rows _ _ _ _ (cr_maps _ _ _ H1)) as R1. pose proof (mr_rows _ _ _ _ Hm2) as R2. split.
    + rewrite E. do 2 f_equal. rewrite (mr_sum _ _ _ _ Hm), map_app, vec_sum_app by (by apply rows_ok_lengths).
      f_equal; symmetry; [apply (mr_sum _ _ _ _ (cr_maps _ _ _ H1))|apply (mr_sum _ _ _ _ Hm2)].
    + intros k ln. rewrite (mr_look _ _ _ _ Hm), row_total_app by done.
      by rewrite (mr_look _ _ _ _ (cr_maps _ _ _ H1)), (mr_look _ _ _ _ Hm2).
Qed.

(** C35. Whatever bytes it is given, [parse_CacheProfFile] accepts only profiles
    in good order: there is at least one event, every vector has one 64-bit
    count per event, the line numbers are 64-bit words, no function is without
    lines, and the summary is the sum of all vectors by column modulo 2^64. *)
Theorem parse_invariant (s : SOURCE) (cpf : CacheProfFile) :
  parse_CacheProfFile s = Ok cpf ->
  0 < n_events cpf /\
  Forall (fun r : row => in_u 64 r.1.2 /\ n_counts r.2 = n_events cpf /\ Forall (in_u 64) r.2)
    (flat_rows (outerMap cpf)) /\
  Forall (fun e => bindings e.2 <> []) (bindings (outerMap cpf)) /\
  summary cpf = vec_sum (Z.to_nat (n_events cpf)) (map snd (flat_rows (outerMap cpf))).
Proof.
  intros (n & rows & [Hn He _ _ Hm])%parse_sound. rewrite He. pose proof (mrep_flat _ _ _ _ Hm) as [Hf Hok _ Hs].
  split; [lia|]. split_and!.
  - eapply Forall_impl; [exact Hf|]. intros r (_ & Hu & Hl & Hc). unfold n_counts. by rewrite Hl.
  - eapply Forall_impl; [apply Hok|]. by intros e [_ [_ H]].
  - by rewrite Nat2Z.id.
Qed.

(** A profile written by [show_CacheProfFile] is read back as itself, with
    the same header, summary and counts, as long as every number is below
    2^63, above which "%lld" prints a negative one. *)
Theorem show_parse_roundtrip (s : SOURCE) (cpf : CacheProfFile) (name : string) :
  parse_CacheProfFile s = Ok cpf -> Z.of_nat (length (flat_rows (outerMap cpf))) <= ITER_MAX ->
  printable cpf ->
  exists text cpf', show_CacheProfFile cpf = Ok text /\
    parse_CacheProfFile (MkSource text 1 name) = Ok cpf' /\
    desc_lines cpf' = desc_lines cpf /\ cmd_line cpf' = cmd_line cpf /\
    events_line cpf' = events_line cpf /\ n_events cpf' = n_events cpf /\ summary cpf' = summary cpf /\
    forall k ln, look (outerMap cpf') k ln = look (outerMap cpf) k ln.
Proof.
  intros (n & rows & Hr)%parse_sound Hl Hp.
  assert (cpf_rep n (flat_rows (outerMap cpf)) cpf) as Hr2
    by (destruct Hr; split; try done; by eapply mrep_flat).
  destruct (show_parse n _ cpf name Hr2 Hl Hp) as (text & cpf' & E & Ep & Hd & Hc & He & Hr').
  exists text, cpf'. pose proof (cr_maps _ _ _ Hr2) as M. pose proof (cr_maps _ _ _ Hr') as M'. split_and!; try done.
  - by rewrite (cr_events _ _ _ Hr'), (cr_events _ _ _ Hr2).
  - by rewrite (mr_sum _ _ _ _ M'), (mr_sum _ _ _ _ M).
  - intros k ln. by rewrite (mr_look _ _ _ _ M'), (mr_look _ _ _ _ M).
Qed.

(** An argument that is not an option. *)
Definition plain_arg (a : string) : bool := negb (streq a "-o") && negb (streq a "-h") && negb (streq a "--help").

(** C5. The program.  [cg_merge -o out file ...] on files of the profiler, all
    with the same simulation options, writes one file; read back, it has for
    every line the sum of its counts in all the files and nothing else, for a
    summary the sums of all counts, and the description and command of the
    first file.  The sums have to stay below 2^63. *)
Theorem cg_merge_correct (cs bs : bool) (fopen : string -> option string) (creatable : string -> bool)
    (out : string) (names : list string) (first : run) (others : list run) :
  let runs := first :: others in
  let n := n_columns cs bs in
  let rows := concat (map (run_rows cs bs) runs) in
  Forall2 (fun nm r => fopen nm = Some (run_file cs bs r)) names runs -> Forall run_ok runs ->
  Forall (fun a => plain_arg a = true) (out :: names) -> creatable out = true ->
  Z.of_nat (length rows) <= ITER_MAX -> Forall (fun x => x < 2 ^ 63) (column_sums n (map snd rows)) ->
  exists text cpf, main fopen creatable ("-o"%string :: out :: names) = Ok (Some (Some out, text)) /\
    parse_CacheProfFile (MkSource text 1 out) = Ok cpf /\
    desc_lines cpf = run_descs first /\ cmd_line cpf = run_cmd first /\ events_line cpf = run_events cs bs /\
    summary cpf = column_sums n (map snd rows) /\
    forall k ln, look (outerMap cpf) k ln = row_total n rows k ln.
Proof.
  intros runs n rows Hf Hok Hargs Hcr Hl Hs. unfold main. cbn [length Nat.ltb Nat.leb].
  assert (existsb (fun a => streq a "-h" || streq a "--help") ("-o" :: out :: names)%string = false) as ->.
  { cbn [existsb]. change (streq "-o" "-h" || streq "-o" "--help") with false. cbn [orb].
    change (existsb (fun a => streq a "-h" || streq a "--help") (out :: names) = false).
    clear -Hargs. induction Hargs as [|a l Ha _ IH]; [done|]. cbn [existsb]. rewrite IH, orb_false_r.
    unfold plain_arg in Ha. destruct (streq a "-h"), (streq a "--help"); rewrite ?andb_false_r in Ha; done. }
  cbn [find_outfile]. change (streq "-o" "-o") with true. cbn [rbind].
  cbn [merge_args]. eval_eqb. inversion Hf as [|nm r names' runs' Hnm Hf' E1 E2]. subst.
  apply Forall_cons in Hok as [Hok1 Hok]. cbn [merge_args]. eval_eqb. unfold merge_file. rewrite Hnm.
  destruct (parse_run cs bs first (MkSource (run_file cs bs first) 1 nm) Hok1 eq_refl)
    as (c1 & -> & Hd1 & Hc1 & He1 & Hr1). cbn [rbind].
  assert (rows = run_rows cs bs first ++ concat (map (run_rows cs bs) others)) as Erows by done.
  destruct (merge_args_ok cs bs fopen names' others (1 + 2 + 1) c1 (run_rows cs bs first))
    as (c2 & -> & Hr2 & Hd2 & Hc2 & He2); [lia|done..|rewrite Erows, length_app in Hl; lia|].
  rewrite <- Erows in Hr2. cbn [rbind]. rewrite Hcr. cbn [negb].
  assert (rows_ok n rows) as Hrok by (apply (mr_rows _ _ _ _ (cr_maps _ _ _ Hr2))).
  destruct (rows_printable n rows c2 Hr2) as [Hp Es]; [|done|].
  { assert (Forall run_ok runs) as Hall by (by constructor). apply Forall_concat, Forall_map.
    eapply Forall_impl; [exact Hall|]. intros r Hr. apply Forall_map. eapply Forall_impl; [apply Hr|].
    intros l (_ & Hln & _). cbn. lia. }
  destruct (show_parse n rows c2 out Hr2 Hl Hp) as (text & c3 & -> & Ep & Hd3 & Hc3 & He3 & Hr3). cbn [rbind].
  exists text, c3. split; [done|]. split; [done|].
  pose proof (cr_maps _ _ _ Hr3) as M3. pose proof (mrep_flat _ _ _ _ (cr_maps _ _ _ Hr2)) as M2.
  split_and!; [congruence..| |].
  - rewrite (mr_sum _ _ _ _ M3), <- Es. symmetry. apply (mr_sum _ _ _ _ M2).
  - intros k ln. rewrite (mr_look _ _ _ _ M3), <- (mr_look _ _ _ _ M2).
    apply (mr_look _ _ _ _ (cr_maps _ _ _ Hr2)).
Qed.

(** A file that ends after its "desc:" lines is not reported as a parse
    error: the test for the "cmd:" line dereferences the NULL that [readline]
    returned. *)
Theorem parse_truncated_crashes (descs : list string) (name : string) :
  descs <> [] -> Forall (fun d => name_ok d /\ streqn d "desc: " 6 = true) descs ->
  parse_CacheProfFile (MkSource (text_of_lines descs) 1 name) = Err NullDeref.
Proof.
  intros Hne Hd. assert (forall fuel s acc, at_lines s descs -> (length descs < fuel)%nat ->
    exists s', desc_loop fuel s acc = Ok (s', acc ++ descs, None)) as H.
  { clear Hne. induction Hd as [|d descs [Hd1 Hd2] _ IH]; intros [|fuel] s acc Hs Hf; try (cbn in Hf; lia);
      cbn [desc_loop].
    - rewrite (readline_end s Hs). exists s. by rewrite app_nil_r.
    - destruct (readline_line s d _ Hs Hd1) as (s' & -> & Hs'). rewrite Hd2. cbn [negb].
      destruct (IH fuel s' (acc ++ [d]) Hs') as (s2 & ->); [cbn in Hf; lia|]. exists s2. by rewrite <- app_assoc. }
  set (s := MkSource (text_of_lines descs) 1 name).
  destruct (H (line_fuel s) s [] eq_refl (line_fuel_ok s descs eq_refl)) as (s' & E).
  unfold parse_CacheProfFile. rewrite E. cbn [rbind app].
  by rewrite (proj2 (Nat.eqb_neq (length descs) 0)) by (by destruct descs).
Qed.

(** ** Concrete instances *)

Definition name_okb (s : string) : bool :=
  forallb (fun c => negb (zchar c =? 0) && negb (zchar c =? 10)) (list_ascii_of_string s).

Lemma name_okb_ok s : name_okb s = true -> name_ok s.
Proof.
  unfold name_okb, name_ok, no_char. induction (list_ascii_of_string s) as [|c l IH]; cbn; [done|].
  intros [[H1%negb_true_iff%Z.eqb_neq H2%negb_true_iff%Z.eqb_neq]%andb_prop H]%andb_prop.
  destruct (IH H). by split; constructor.
Qed.

Ltac name_chars := apply name_okb_ok; vm_compute; reflexivity.

Lemma output_accepted_witness :
  exists T' tot file cpf,
    fprint_CC_table_and_calc_totals true false false true demo_caches "prog" ["-x"%string] two_lines zero_totals
      = Ok (T', tot, Some file) /\
    parse_CacheProfFile (MkSource file 1 "cachegrind.out.1") = Ok cpf /\ n_events cpf = 9.
Proof.
  destruct (output_accepted true false false two_lines demo_caches "prog" ["-x"%string] "cachegrind.out.1"
    two_lines_wf two_lines_u64) as (T' & tot & file & cpf & H1 & H2 & H3 & _);
    [by apply Z.leb_le; vm_compute|name_chars..|constructor; [name_chars|constructor]| |].
  - assert (map (fun r : line_rec => (loc_file r.1, loc_fn r.1)) (lines_of two_lines)
      = [("/src/main.c", "f"); ("/src/main.c", "main")]%string) as E by (vm_compute; reflexivity).
    assert (Forall (fun p => one_line p.1 /\ one_line p.2)
      (map (fun r : line_rec => (loc_file r.1, loc_fn r.1)) (lines_of two_lines))) as H.
    { rewrite E. repeat constructor; discriminate. }
    apply Forall_map in H. exact H.
  - exists T', tot, file, cpf. by split_and!.
Defined.

(** Two small files. *)
Definition demo_text1 : string := text_of_lines
  ["desc: I1 cache: x"; "cmd: ls -l"; "events: Ir Dr"; "fl=a.c"; "fn=f"; "3 1 2"; "7 4 5"; "summary: 5 7"]%string.
Definition demo_text2 : string := text_of_lines
  ["desc: I1 cache: x"; "cmd: cat"; "events: Ir Dr"; "fl=a.c"; "fn=f"; "7 10 10"; "fn=g"; "9 4 5";
   "summary: 14 15"]%string.

Definition demo_source (text : string) : SOURCE := MkSource text 1 "demo".
Definition demo_cpf (text : string) : CacheProfFile :=
  match parse_CacheProfFile (demo_source text) with
  | Ok cpf => cpf
  | Err _ => MkCpf [] "" "" 0 None newFM []
  end.

Lemma merge_correct_witness :
  exists m, merge_CacheProfInfo (demo_cpf demo_text1) (demo_cpf demo_text2) =
      Ok (set_data (demo_cpf demo_text1) m [19; 22]) /\
    look m (MkFileFn "a.c" "f") 7 = Some [14; 15] /\ look m (MkFileFn "a.c" "g") 9 = Some [4; 5].
Proof.
  destruct (merge_correct (demo_source demo_text1) (demo_source demo_text2) (demo_cpf demo_text1)
    (demo_cpf demo_text2)) as [_ H]; [vm_compute; reflexivity|vm_compute; reflexivity
    |by apply Z.leb_le; vm_compute|].
  destruct H as (m & E & HL); [vm_compute; reflexivity|]. exists m.
  split; [exact E|]. rewrite !HL. split; vm_compute; reflexivity.
Defined.

Lemma parse_invariant_witness : 0 < n_events (demo_cpf demo_text1) /\ summary (demo_cpf demo_text1) = [5; 7].
Proof.
  destruct (parse_invariant (demo_source demo_text1) (demo_cpf demo_text1)) as (H1 & _ & _ & H4);
    [vm_compute; reflexivity|]. split; [exact H1|]. rewrite H4. vm_compute. reflexivity.
Defined.

Lemma show_parse_roundtrip_witness :
  exists text cpf, show_CacheProfFile (demo_cpf demo_text1) = Ok text /\
    parse_CacheProfFile (MkSource text 1 "again") = Ok cpf /\ summary cpf = [5; 7] /\
    look (outerMap cpf) (MkFileFn "a.c" "f") 7 = Some [4; 5].
Proof.
  destruct (show_parse_roundtrip (demo_source demo_text1) (demo_cpf demo_text1) "again")
    as (text & cpf & H1 & H2 & _ & _ & _ & _ & H3 & H4);
    [vm_compute; reflexivity|by apply Z.leb_le; vm_compute| |].
  - assert (flat_rows (outerMap (demo_cpf demo_text1)) =
      [(MkFileFn "a.c" "f", 3, [1; 2]); (MkFileFn "a.c" "f", 7, [4; 5])]) as E by (vm_compute; reflexivity).
    assert (summary (demo_cpf demo_text1) = [5; 7]) as E2 by (vm_compute; reflexivity).
    unfold printable. rewrite E, E2. unfold row_printable. repeat (constructor || split); by vm_compute.
  - exists text, cpf. split; [exact H1|]. split; [exact H2|]. split; [rewrite H3|rewrite H4]; vm_compute; reflexivity.
Defined.

Definition demo_run (cts : line_counts) : run :=
  MkRun "I" "D" "L" "prog" [] [(MkCodeLoc "a.c" "f" 3, cts)].

Lemma cg_merge_correct_witness :
  let c := MkCounts (MkCacheCC 5 1 1) (MkCacheCC 0 0 0) (MkCacheCC 0 0 0) (MkBranchCC 0 0) (MkBranchCC 0 0) in
  exists text cpf, main (fun _ => Some (run_file true false (demo_run c))) (fun _ => true)
      ["-o"; "out"; "x"; "y"]%string = Ok (Some (Some "out"%string, text)) /\
    parse_CacheProfFile (MkSource text 1 "out") = Ok cpf /\
    look (outerMap cpf) (MkFileFn "a.c" "f") 3 = Some [10; 2; 2; 0; 0; 0; 0; 0; 0].
Proof.
  intros c. assert (run_ok (demo_run c)) as Hrun.
  { split; [split; [name_chars|split; name_chars]|split; [name_chars|constructor]|].
    constructor; [|constructor]. split; [split; name_chars|]. split; [cbn; lia|].
    unfold counts_in_u64. repeat constructor; by vm_compute. }
  destruct (cg_merge_correct true false (fun _ => Some (run_file true false (demo_run c))) (fun _ => true)
    "out" ["x"; "y"]%string (demo_run c) [demo_run c]) as (text & cpf & H1 & H2 & _ & _ & _ & _ & H3).
  - by repeat constructor.
  - by repeat constructor.
  - by repeat constructor.
  - done.
  - by apply Z.leb_le; vm_compute.
  - assert (column_sums (n_columns true false) (map snd (concat (map (run_rows true false) [demo_run c; demo_run c])))
      = [10; 2; 2; 0; 0; 0; 0; 0; 0]) as -> by (vm_compute; reflexivity).
    repeat constructor.
  - exists text, cpf. split; [exact H1|]. split; [exact H2|]. rewrite H3. vm_compute. reflexivity.
Defined.

Lemma parse_truncated_crashes_witness :
  parse_CacheProfFile (MkSource (text_of_lines ["desc: I1 cache: x"%string]) 1 "f") = Err NullDeref.
Proof.
  apply (parse_truncated_crashes ["desc: I1 cache: x"%string] "f"); [done|].
  constructor; [split; [name_chars|reflexivity]|constructor].
Defined.
