(* ===== verification/CgLog.v ===== *)
(** * The run-time helpers: cachegrind/cg_main.c, log_* functions

    These are the functions the instrumented code calls.  Each reads an
    [InstrInfo] through its pointer, drives the cache simulator or the branch
    predictors, and updates the counters of the instruction's line in place.
    The theorems relate them to the LRU specification of the caches. *)

From Stdlib Require Import ZArith Lia.
From stdpp Require Import base numbers option strings gmap list.
From S2P Require Import Prelude Libcbase CgArch Lru CgSim CgBranchPred OSet CgTables.

#[local] Open Scope Z_scope.

(** ** State: the static variables the helpers work on *)

Record cg_state : Type := MkState {
  tabs : cg_tables;
  sim : caches3;
  bp : bp_state
}.

(** [n->parent->...]: read and write the counters of a line. *)
Definition get_counts (T : cg_tables) (ii : InstrInfo) : res (nat * line_counts) :=
  match parent ii with
  | None => Err NullDeref
  | Some p => match CC_store T !! p with Some c => Ok (p, c) | None => Err NullDeref end
  end.

Definition put_counts (s : cg_state) (p : nat) (c : line_counts) (sim' : caches3)
    (bp' : bp_state) : cg_state :=
  MkState (set_CC (tabs s) (CC_table (tabs s)) (<[p := c]> (CC_store (tabs s)))) sim' bp'.

Inductive access_kind : Type := K_Ir | K_Dr | K_Dw.

Definition get_cc (k : access_kind) (c : line_counts) : CacheCC :=
  match k with K_Ir => Ir c | K_Dr => Dr c | K_Dw => Dw c end.

Definition set_cc (k : access_kind) (c : line_counts) (cc : CacheCC) : line_counts :=
  match k with
  | K_Ir => MkCounts cc (Dr c) (Dw c) (Bc c) (Bi c)
  | K_Dr => MkCounts (Ir c) cc (Dw c) (Bc c) (Bi c)
  | K_Dw => MkCounts (Ir c) (Dr c) cc (Bc c) (Bi c)
  end.

(** The statement pair every cache helper is made of: simulate the reference
    with the two miss counters as out-parameters, then count the access. *)
Definition simulate (doref : caches3 -> Z -> Z -> misses -> res (caches3 * misses))
    (k : access_kind) (s : cg_state) (ii : InstrInfo) (a sz : Z) : res cg_state :=
  let! (p, c) := get_counts (tabs s) ii in
  let cc := get_cc k c in
  let! (sim', m) := doref (sim s) a sz (cc_m1 cc, cc_mL cc) in
  let c := set_cc k c (MkCacheCC (u64 (cc_a cc + 1)) m.1 m.2) in
  Ok (put_counts s p c sim' (bp s)).

(** [n->parent->Ir.a++]. *)
Definition count_Ir (s : cg_state) (n : inode) : res cg_state :=
  let! ii := load_inode (tabs s) n in
  let! (p, c) := get_counts (tabs s) ii in
  let c := set_cc K_Ir c (MkCacheCC (u64 (cc_a (Ir c) + 1)) (cc_m1 (Ir c)) (cc_mL (Ir c))) in
  Ok (put_counts s p c (sim s) (bp s)).

Definition log_1Ir := count_Ir.

Definition log_2Ir (s : cg_state) (n n2 : inode) : res cg_state :=
  let! s := count_Ir s n in
  count_Ir s n2.

Definition log_3Ir (s : cg_state) (n n2 n3 : inode) : res cg_state :=
  let! s := count_Ir s n in
  let! s := count_Ir s n2 in
  count_Ir s n3.

Definition log_1IrGen_0D_cache_access (s : cg_state) (n : inode) : res cg_state :=
  let! ii := load_inode (tabs s) n in
  simulate cachesim_I1_doref_Gen K_Ir s ii (instr_addr ii) (instr_len ii).

Definition log_1IrNoX_0D_cache_access (s : cg_state) (n : inode) : res cg_state :=
  let! ii := load_inode (tabs s) n in
  simulate cachesim_I1_doref_NoX K_Ir s ii (instr_addr ii) (instr_len ii).

Definition log_2IrNoX_0D_cache_access (s : cg_state) (n n2 : inode) : res cg_state :=
  let! ii := load_inode (tabs s) n in
  let! s := simulate cachesim_I1_doref_NoX K_Ir s ii (instr_addr ii) (instr_len ii) in
  let! ii2 := load_inode (tabs s) n2 in
  simulate cachesim_I1_doref_NoX K_Ir s ii2 (instr_addr ii2) (instr_len ii2).

Definition log_3IrNoX_0D_cache_access (s : cg_state) (n n2 n3 : inode) : res cg_state :=
  let! ii := load_inode (tabs s) n in
  let! s := simulate cachesim_I1_doref_NoX K_Ir s ii (instr_addr ii) (instr_len ii) in
  let! ii2 := load_inode (tabs s) n2 in
  let! s := simulate cachesim_I1_doref_NoX K_Ir s ii2 (instr_addr ii2) (instr_len ii2) in
  let! ii3 := load_inode (tabs s) n3 in
  simulate cachesim_I1_doref_NoX K_Ir s ii3 (instr_addr ii3) (instr_len ii3).

(** The simulator takes the size as a [UChar]; the helpers pass a [Word]. *)
Definition log_1IrNoX_1Dr_cache_access (s : cg_state) (n : inode) (data_addr data_size : Z)
  : res cg_state :=
  let! ii := load_inode (tabs s) n in
  let! s := simulate cachesim_I1_doref_NoX K_Ir s ii (instr_addr ii) (instr_len ii) in
  simulate cachesim_D1_doref K_Dr s ii data_addr (u8 data_size).

Definition log_1IrNoX_1Dw_cache_access (s : cg_state) (n : inode) (data_addr data_size : Z)
  : res cg_state :=
  let! ii := load_inode (tabs s) n in
  let! s := simulate cachesim_I1_doref_NoX K_Ir s ii (instr_addr ii) (instr_len ii) in
  simulate cachesim_D1_doref K_Dw s ii data_addr (u8 data_size).

Definition log_0Ir_1Dr_cache_access (s : cg_state) (n : inode) (data_addr data_size : Z)
  : res cg_state :=
  let! ii := load_inode (tabs s) n in
  simulate cachesim_D1_doref K_Dr s ii data_addr (u8 data_size).

Definition log_0Ir_1Dw_cache_access (s : cg_state) (n : inode) (data_addr data_size : Z)
  : res cg_state :=
  let! ii := load_inode (tabs s) n in
  simulate cachesim_D1_doref K_Dw s ii data_addr (u8 data_size).

Section branches.
Context (arch : VGA).

Definition log_cond_branch (s : cg_state) (n : inode) (taken : Z) : res cg_state :=
  let! ii := load_inode (tabs s) n in
  let! (p, c) := get_counts (tabs s) ii in
  let b := u64 (bc_b (Bc c) + 1) in
  let! (r, bp') := do_cond_branch_predict arch (bp s) (instr_addr ii) taken in
  let mp := u64 (bc_mp (Bc c) + Z.land 1 r) in
  Ok (put_counts s p (MkCounts (Ir c) (Dr c) (Dw c) (MkBranchCC b mp) (Bi c)) (sim s) bp').

Definition log_ind_branch (s : cg_state) (n : inode) (actual_dst : Z) : res cg_state :=
  let! ii := load_inode (tabs s) n in
  let! (p, c) := get_counts (tabs s) ii in
  let b := u64 (bc_b (Bi c) + 1) in
  let! (r, bp') := do_ind_branch_predict arch (bp s) (instr_addr ii) actual_dst in
  let mp := u64 (bc_mp (Bi c) + Z.land 1 r) in
  Ok (put_counts s p (MkCounts (Ir c) (Dr c) (Dw c) (Bc c) (MkBranchCC b mp)) (sim s) bp').

End branches.

(** ** Specification: an LRU hierarchy and a counter table

    The abstract simulator state is the history of block numbers each cache
    has seen; a first-level miss is forwarded to the last level. *)

Record hist3 : Type := Hist3 { hI : list Z; hD : list Z; hL : list Z }.
Record geom3 : Type := Geom3 { gI : geom; gD : geom; gL : geom }.

Definition geoms (c : caches3) : geom3 := Geom3 (geom_of (I1 c)) (geom_of (D1 c)) (geom_of (LL c)).

(** Outcome (missed first level, missed last level) and new histories. *)
Definition spec_access (g : geom3) (k : access_kind) (h : hist3) (a sz : Z)
  : bool * bool * hist3 :=
  let g1 := match k with K_Ir => gI g | _ => gD g end in
  let h1 := match k with K_Ir => hI h | _ => hD h end in
  let miss1 := fst (spec_ref g1 h1 a sz) in
  let h1' := snd (spec_ref g1 h1 a sz) in
  let missL := fst (spec_ref (gL g) (hL h) a sz) in
  let hL' := if miss1 then snd (spec_ref (gL g) (hL h) a sz) else hL h in
  (miss1, miss1 && missL,
   match k with K_Ir => Hist3 h1' (hD h) hL' | _ => Hist3 (hI h) h1' hL' end).

Definition b2z (b : bool) : Z := if b then 1 else 0.

(** The counters of a line after an access. *)
Definition spec_count (k : access_kind) (c : line_counts) (miss1 missL : bool) : line_counts :=
  let cc := get_cc k c in
  set_cc k c (MkCacheCC (u64 (cc_a cc + 1)) (u64 (cc_m1 cc + b2z miss1))
                (u64 (cc_mL cc + b2z missL))).

(** The concrete caches hold what the histories prescribe. *)
Record sim_hist (c : caches3) (h : hist3) : Prop := {
  sh_I : cache_hist (I1 c) (hI h);
  sh_D : cache_hist (D1 c) (hD h);
  sh_L : cache_hist (LL c) (hL h)
}.

(** All counters are [ULong]s. *)
Definition counts_u64 (c : line_counts) : Prop :=
  in_u 64 (cc_m1 (Ir c)) /\ in_u 64 (cc_mL (Ir c)) /\ in_u 64 (cc_m1 (Dr c)) /\
  in_u 64 (cc_mL (Dr c)) /\ in_u 64 (cc_m1 (Dw c)) /\ in_u 64 (cc_mL (Dw c)).

(** ** Events

    A profiled event, with the operands the guest supplies, and its effect
    without any merging of calls. *)

Inductive sim_event : Type :=
  | SE_Ir (n : inode)
  | SE_Dr (n : inode) (a sz : Z)
  | SE_Dw (n : inode) (a sz : Z)
  | SE_Bc (n : inode) (taken : Z)
  | SE_Bi (n : inode) (dst : Z).

Definition ev_inode (ev : sim_event) : inode :=
  match ev with
  | SE_Ir n | SE_Dr n _ _ | SE_Dw n _ _ | SE_Bc n _ | SE_Bi n _ => n
  end.

Section events.
Context (arch : VGA) (cache_sim : bool).

Definition run_event (ev : sim_event) (s : cg_state) : res cg_state :=
  match ev with
  | SE_Ir n => if cache_sim then log_1IrGen_0D_cache_access s n else log_1Ir s n
  | SE_Dr n a sz => log_0Ir_1Dr_cache_access s n a sz
  | SE_Dw n a sz => log_0Ir_1Dw_cache_access s n a sz
  | SE_Bc n taken => log_cond_branch arch s n taken
  | SE_Bi n dst => log_ind_branch arch s n dst
  end.

(** The abstract state: counters by line, block histories, predictors. *)
Record spec_state : Type := MkSpec {
  sp_counts : list line_counts;
  sp_hist : hist3;
  sp_bp : bp_state
}.

(** One event of the specification, at line [p] with instruction [ii]. *)
Definition spec_ref_at (g : geom3) (k : access_kind) (p : nat) (a sz : Z) (sp : spec_state)
  : spec_state :=
  let '(miss1, missL, h) := spec_access g k (sp_hist sp) a sz in
  MkSpec (alter (fun c => spec_count k c miss1 missL) p (sp_counts sp)) h (sp_bp sp).

Definition count_Ir_at (c : line_counts) : line_counts :=
  set_cc K_Ir c (MkCacheCC (u64 (cc_a (Ir c) + 1)) (cc_m1 (Ir c)) (cc_mL (Ir c))).

Definition count_Bc (miss : bool) (c : line_counts) : line_counts :=
  MkCounts (Ir c) (Dr c) (Dw c)
    (MkBranchCC (u64 (bc_b (Bc c) + 1)) (u64 (bc_mp (Bc c) + b2z miss))) (Bi c).

Definition count_Bi (miss : bool) (c : line_counts) : line_counts :=
  MkCounts (Ir c) (Dr c) (Dw c) (Bc c)
    (MkBranchCC (u64 (bc_b (Bi c) + 1)) (u64 (bc_mp (Bi c) + b2z miss))).

(** The target the indirect predictor remembers for an address. *)
Definition btac_at (b : bp_state) (addr : Z) : Z :=
  default 0 (btac b !! Z.to_nat (btac_index arch addr)).

Definition btac_learn (b : bp_state) (addr dst : Z) : bp_state :=
  BPState (shift_register b) (counters b) (<[Z.to_nat (btac_index arch addr) := dst]> (btac b)).

Definition spec_event (g : geom3) (T : cg_tables) (ev : sim_event) (sp : spec_state)
  : spec_state :=
  match load_inode T (ev_inode ev) with
  | Err _ => sp
  | Ok ii =>
      match parent ii with
      | None => sp
      | Some p =>
          match ev with
          | SE_Ir _ =>
              if cache_sim then spec_ref_at g K_Ir p (instr_addr ii) (instr_len ii) sp
              else MkSpec (alter count_Ir_at p (sp_counts sp)) (sp_hist sp) (sp_bp sp)
          | SE_Dr _ a sz => spec_ref_at g K_Dr p a sz sp
          | SE_Dw _ a sz => spec_ref_at g K_Dw p a sz sp
          | SE_Bc _ taken =>
              let b := sp_bp sp in
              let taken := 0 <? taken in
              let predicted := 2 <=? ctr_at b (ctr_index arch b (instr_addr ii)) in
              MkSpec (alter (count_Bc (negb (Bool.eqb predicted taken))) p (sp_counts sp))
                (sp_hist sp) (bp_update arch b (instr_addr ii) taken)
          | SE_Bi _ dst =>
              let b := sp_bp sp in
              MkSpec (alter (count_Bi (negb (btac_at b (instr_addr ii) =? dst))) p (sp_counts sp))
                (sp_hist sp) (btac_learn b (instr_addr ii) dst)
          end
      end
  end.

(** What makes an event admissible: its node is set up, and its references fit
    in a line of both levels. *)
Definition ref_ok (g1 gl : geom) (a sz : Z) : Prop :=
  access_ok (g_bits g1) a sz /\ access_ok (g_bits gl) a sz.

Definition event_ok (g : geom3) (T : cg_tables) (ev : sim_event) : Prop :=
  exists ii p, load_inode T (ev_inode ev) = Ok ii /\ parent ii = Some p /\
    (p < length (CC_store T))%nat /\
    match ev with
    | SE_Ir _ => cache_sim = true -> ref_ok (gI g) (gL g) (instr_addr ii) (instr_len ii)
    | SE_Dr _ a sz | SE_Dw _ a sz => ref_ok (gD g) (gL g) a sz /\ sz < 256
    | SE_Bc _ taken => taken <= 1
    | SE_Bi _ _ => True
    end.

(** The simulation relation. *)
Record refines (g : geom3) (T : cg_tables) (s : cg_state) (sp : spec_state) : Prop := {
  rf_tabs : tabs s = set_CC T (CC_table T) (sp_counts sp);
  rf_len : length (sp_counts sp) = length (CC_store T);
  rf_u64 : Forall counts_u64 (sp_counts sp);
  rf_geom : geoms (sim s) = g;
  rf_hist : sim_hist (sim s) (sp_hist sp);
  rf_bp : bp s = sp_bp sp;
  rf_wf : wf_bp (sp_bp sp)
}.

End events.

(** ** Lemmas *)

Lemma u64_plus_b2z x (b : bool) :
  in_u 64 x -> u64 (x + b2z b) = if b then u64 (x + 1) else x.
Proof. intros H. destruct b; simpl; [done|]. rewrite Z.add_0_r. by apply wrapu_small. Qed.

(** The three caches after an access of kind [k]. *)
Lemma doref_spec (k : access_kind) c h a sz m :
  sim_hist c h -> ref_ok (match k with K_Ir => gI (geoms c) | _ => gD (geoms c) end)
                    (gL (geoms c)) a sz ->
  in_u 64 m.1 -> in_u 64 m.2 ->
  exists c', (match k with K_Ir => cachesim_I1_doref_Gen | _ => cachesim_D1_doref end) c a sz m
      = Ok (c', (u64 (m.1 + b2z (fst (fst (spec_access (geoms c) k h a sz)))),
                 u64 (m.2 + b2z (snd (fst (spec_access (geoms c) k h a sz)))))) /\
    geoms c' = geoms c /\ sim_hist c' (snd (spec_access (geoms c) k h a sz)).
Proof.
  intros [HI HD HL] [H1 H2] Hm1 Hm2. destruct m as [m1 mL]. cbn [fst snd] in *.
  rewrite !u64_plus_b2z by done.
  destruct (ref_hist (LL c) (hL h) a sz HL H2) as (ll & EL & GL & CL).
  unfold cachesim_I1_doref_Gen, cachesim_D1_doref, spec_access. destruct k;
    [destruct (ref_hist (I1 c) (hI h) a sz HI H1) as (c1 & E1 & G1 & C1)
    |destruct (ref_hist (D1 c) (hD h) a sz HD H1) as (c1 & E1 & G1 & C1)
    |destruct (ref_hist (D1 c) (hD h) a sz HD H1) as (c1 & E1 & G1 & C1)];
    cbn [geoms gI gD gL] in *; rewrite E1; cbn [rbind LL I1 D1 fst snd];
    match goal with |- context [if ?b then _ else _] => destruct b end;
    rewrite ?EL; cbn [rbind andb fst snd];
    (eexists; split; [reflexivity|split; [|by split]]);
    unfold geoms; cbn [I1 D1 LL]; by rewrite ?(geom_same _ _ G1), ?(geom_same _ _ GL).
Qed.

Lemma insert_as_alter {A} (f : A -> A) (l : list A) p c :
  l !! p = Some c -> <[p := f c]> l = alter f p l.
Proof.
  revert p; induction l as [|x l IH]; intros [|p] H; simplify_eq/=; f_equal; auto.
Qed.

(** Reading the line of a node in a refining state. *)
Lemma get_counts_ok g T s sp ii p :
  refines g T s sp -> parent ii = Some p -> (p < length (CC_store T))%nat ->
  exists c, get_counts (tabs s) ii = Ok (p, c) /\ sp_counts sp !! p = Some c /\ counts_u64 c.
Proof.
  intros [Ht Hl Hu _ _ _ _] Hp Hlt. rewrite <- Hl in Hlt.
  apply lookup_lt_is_Some_2 in Hlt as [c Hc]. exists c.
  unfold get_counts. rewrite Hp, Ht. cbn [CC_store set_CC]. rewrite Hc.
  split; [done|]. split; [done|]. by eapply Forall_lookup_1 in Hu.
Qed.

(** Writing it back. *)
Lemma put_counts_refines g T s sp p c f sim' h' bp' :
  refines g T s sp -> sp_counts sp !! p = Some c ->
  counts_u64 (f c) -> geoms sim' = g -> sim_hist sim' h' -> wf_bp bp' ->
  refines g T (put_counts s p (f c) sim' bp') (MkSpec (alter f p (sp_counts sp)) h' bp').
Proof.
  intros [Ht Hl Hu Hg Hh Hb Hw] Hc Hf Hg' Hh' Hw'.
  split; cbn [tabs sim bp put_counts sp_counts sp_hist sp_bp]; [|by rewrite length_alter|..];
    try done.
  - rewrite Ht. cbn [CC_table CC_store set_CC]. by rewrite (insert_as_alter f _ _ _ Hc).
  - rewrite <- (insert_as_alter f _ _ _ Hc). by apply Forall_insert.
Qed.

Lemma spec_count_u64 k c m1 mL : counts_u64 c -> counts_u64 (spec_count k c m1 mL).
Proof.
  intros (?&?&?&?&?&?). destruct k; unfold counts_u64; simpl; split_and!;
    done || (apply (wrapu_range 64); lia).
Qed.

Lemma simulate_refines g T s sp k ii p a sz :
  refines g T s sp -> parent ii = Some p -> (p < length (CC_store T))%nat ->
  ref_ok (match k with K_Ir => gI g | _ => gD g end) (gL g) a sz ->
  exists s', simulate (match k with K_Ir => cachesim_I1_doref_Gen | _ => cachesim_D1_doref end)
      k s ii a sz = Ok s' /\ refines g T s' (spec_ref_at g k p a sz sp).
Proof.
  intros Hr Hp Hlt Hok. destruct (get_counts_ok _ _ _ _ _ _ Hr Hp Hlt) as (c & Hg & Hc & Hu).
  unfold simulate. rewrite Hg. cbn [rbind]. pose proof (rf_geom _ _ _ _ Hr) as Hge.
  destruct (doref_spec k (sim s) (sp_hist sp) a sz (cc_m1 (get_cc k c), cc_mL (get_cc k c)))
    as (c' & -> & Hg' & Hh'); [apply Hr|by rewrite Hge|destruct k; apply Hu|destruct k; apply Hu|].
  cbn [rbind fst snd]. eexists. split; [reflexivity|].
  unfold spec_ref_at. rewrite Hge in *.
  destruct (spec_access g k (sp_hist sp) a sz) as [[miss1 missL] h'].
  cbn [fst snd] in *. rewrite (rf_bp _ _ _ _ Hr).
  apply (put_counts_refines g T s sp p c (fun c => spec_count k c miss1 missL));
    [done|done|by apply spec_count_u64|done|done|apply Hr].
Qed.

Lemma count_Ir_refines g T s sp n ii p :
  refines g T s sp -> load_inode T n = Ok ii -> parent ii = Some p ->
  (p < length (CC_store T))%nat -> load_inode (tabs s) n = Ok ii ->
  exists s', count_Ir s n = Ok s' /\
    refines g T s' (MkSpec (alter count_Ir_at p (sp_counts sp)) (sp_hist sp) (sp_bp sp)).
Proof.
  intros Hr Hn Hp Hlt Hn'. destruct (get_counts_ok _ _ _ _ _ _ Hr Hp Hlt) as (c & Hg & Hc & Hu).
  unfold count_Ir. rewrite Hn'. cbn [rbind]. rewrite Hg. cbn [rbind].
  eexists. split; [reflexivity|]. rewrite (rf_bp _ _ _ _ Hr).
  apply (put_counts_refines g T s sp p c count_Ir_at); try done; apply Hr.
Qed.

Lemma cond_branch_refines arch g T s sp n ii p taken :
  refines g T s sp -> load_inode (tabs s) n = Ok ii -> parent ii = Some p ->
  (p < length (CC_store T))%nat -> taken <= 1 ->
  let b := sp_bp sp in
  let predicted := 2 <=? ctr_at b (ctr_index arch b (instr_addr ii)) in
  exists s', log_cond_branch arch s n taken = Ok s' /\
    refines g T s' (MkSpec (alter (count_Bc (negb (Bool.eqb predicted (0 <? taken)))) p (sp_counts sp))
      (sp_hist sp) (bp_update arch b (instr_addr ii) (0 <? taken))).
Proof.
  intros Hr Hn Hp Hlt Ht b predicted.
  destruct (get_counts_ok _ _ _ _ _ _ Hr Hp Hlt) as (c & Hg & Hc & Hu).
  unfold log_cond_branch. rewrite Hn. cbn [rbind]. rewrite Hg. cbn [rbind].
  rewrite (rf_bp _ _ _ _ Hr), cond_predict_run by (apply Hr || done). cbn [rbind].
  fold b. fold predicted. eexists. split; [reflexivity|].
  replace (Z.land 1 (if Bool.eqb predicted (0 <? taken) then 0 else 1))
    with (b2z (negb (Bool.eqb predicted (0 <? taken)))) by (by destruct (Bool.eqb _ _)).
  apply (put_counts_refines g T s sp p c (count_Bc _)); try done; try apply Hr.
  apply bp_update_wf, Hr.
Qed.

Lemma btac_learn_wf arch b addr dst : wf_bp b -> wf_bp (btac_learn arch b addr dst).
Proof. intros [? ? ? ?]. split; simpl; try done. by rewrite length_insert. Qed.

Lemma ind_branch_refines arch g T s sp n ii p dst :
  refines g T s sp -> load_inode (tabs s) n = Ok ii -> parent ii = Some p ->
  (p < length (CC_store T))%nat ->
  let b := sp_bp sp in
  exists s', log_ind_branch arch s n dst = Ok s' /\
    refines g T s' (MkSpec (alter (count_Bi (negb (btac_at arch b (instr_addr ii) =? dst))) p
      (sp_counts sp)) (sp_hist sp) (btac_learn arch b (instr_addr ii) dst)).
Proof.
  intros Hr Hn Hp Hlt b.
  destruct (get_counts_ok _ _ _ _ _ _ Hr Hp Hlt) as (c & Hg & Hc & Hu).
  unfold log_ind_branch. rewrite Hn. cbn [rbind]. rewrite Hg. cbn [rbind].
  destruct (ind_predict_run arch (sp_bp sp) (instr_addr ii) dst) as (last & Hlast & Hrun);
    [apply Hr|].
  rewrite (rf_bp _ _ _ _ Hr), Hrun. cbn [rbind]. eexists. split; [reflexivity|].
  assert (btac_at arch b (instr_addr ii) = last) as -> by (unfold btac_at, b; by rewrite Hlast).
  replace (Z.land 1 (if last =? dst then 0 else 1)) with (b2z (negb (last =? dst)))
    by (by destruct (last =? dst)).
  apply (put_counts_refines g T s sp p c (count_Bi _)); try done; try apply Hr.
  apply (btac_learn_wf arch (sp_bp sp) (instr_addr ii) dst), Hr.
Qed.

Lemma load_inode_refines g T s sp n : refines g T s sp -> load_inode (tabs s) n = load_inode T n.
Proof. intros [-> _ _ _ _ _ _]. done. Qed.

Lemma run_event_refines arch cs g T s sp ev :
  refines g T s sp -> event_ok cs g T ev ->
  exists s', run_event arch cs ev s = Ok s' /\ refines g T s' (spec_event arch cs g T ev sp).
Proof.
  intros Hr (ii & p & Hn & Hp & Hlt & Hok).
  pose proof Hn as Hn'. rewrite <- (load_inode_refines _ _ _ _ _ Hr) in Hn'.
  unfold spec_event. rewrite Hn, Hp. destruct ev as [n|n a sz|n a sz|n tk|n dst];
    cbn [ev_inode run_event] in *.
  - destruct cs.
    + unfold log_1IrGen_0D_cache_access. rewrite Hn'. cbn [rbind].
      apply (simulate_refines g T s sp K_Ir); auto.
    + by eapply count_Ir_refines.
  - unfold log_0Ir_1Dr_cache_access. rewrite Hn'. cbn [rbind]. destruct Hok as [Hok H256].
    rewrite (wrapu_small 8 sz) by (destruct Hok as [[] _]; unfold in_u; lia).
    by apply (simulate_refines g T s sp K_Dr).
  - unfold log_0Ir_1Dw_cache_access. rewrite Hn'. cbn [rbind]. destruct Hok as [Hok H256].
    rewrite (wrapu_small 8 sz) by (destruct Hok as [[] _]; unfold in_u; lia).
    by apply (simulate_refines g T s sp K_Dw).
  - by apply cond_branch_refines.
  - by apply ind_branch_refines.
Qed.

Lemma run_events_refine arch cs g T evs s sp :
  refines g T s sp -> Forall (event_ok cs g T) evs ->
  exists s', res_fold (run_event arch cs) evs s = Ok s' /\
    refines g T s' (fold_left (fun sp ev => spec_event arch cs g T ev sp) evs sp).
Proof.
  intros Hr Hevs. revert s sp Hr. induction Hevs as [|ev evs Hev _ IH]; intros s sp Hr.
  { by exists s. }
  destruct (run_event_refines arch cs g T s sp ev Hr Hev) as (s1 & E1 & Hr1).
  cbn [res_fold fold_left]. rewrite E1. cbn [rbind]. by apply IH.
Qed.

(** *** Starting from freshly initialised caches *)

Definition cfg_geom3 (I1c D1c LLc : cache_t) : geom3 :=
  Geom3 (cfg_geom I1c) (cfg_geom D1c) (cfg_geom LLc).

Definition spec_start (T : cg_tables) : spec_state :=
  MkSpec (CC_store T) (Hist3 [] [] []) bp_init.

Lemma initcaches_refines T I1c D1c LLc :
  valid_cache I1c -> valid_cache D1c -> valid_cache LLc -> Forall counts_u64 (CC_store T) ->
  exists c, cachesim_initcaches I1c D1c LLc = Ok c /\
    refines (cfg_geom3 I1c D1c LLc) T (MkState T c bp_init) (spec_start T).
Proof.
  intros HI HD HL Hu. unfold cachesim_initcaches.
  destruct (initcache_geom I1c HI) as (ci & -> & Hi & Gi).
  destruct (initcache_geom D1c HD) as (cd & -> & Hd & Gd).
  destruct (initcache_geom LLc HL) as (cl & -> & Hl & Gl).
  cbn [rbind]. eexists. split; [reflexivity|]. split; cbn; try done.
  - by destruct T.
  - unfold geoms, cfg_geom3. cbn [I1 D1 LL]. congruence.
  - apply bp_init_wf.
Qed.

(** *** Misses are counted out of accesses *)

Definition cc_within (N : Z) (cc : CacheCC) : Prop :=
  0 <= cc_mL cc /\ cc_mL cc <= cc_m1 cc /\ cc_m1 cc <= cc_a cc /\ cc_a cc <= N.

Definition bc_within (N : Z) (b : BranchCC) : Prop :=
  0 <= bc_mp b /\ bc_mp b <= bc_b b /\ bc_b b <= N.

Definition counts_within (N : Z) (c : line_counts) : Prop :=
  cc_within N (Ir c) /\ cc_within N (Dr c) /\ cc_within N (Dw c) /\
  bc_within N (Bc c) /\ bc_within N (Bi c).

Lemma counts_within_mono N M c : N <= M -> counts_within N c -> counts_within M c.
Proof. unfold counts_within, cc_within, bc_within. intros. intuition lia. Qed.

Ltac unwrap_u64 := rewrite ?(wrapu_small 64) by (unfold in_u; lia).

Lemma spec_count_within N k c (m1 mL : bool) :
  N < 2 ^ 64 - 1 -> counts_within N c -> (mL = true -> m1 = true) ->
  counts_within (N + 1) (spec_count k c m1 mL).
Proof.
  intros HN (H1 & H2 & H3 & H4 & H5) Hm.
  assert (b2z mL <= b2z m1 <= 1 /\ 0 <= b2z mL) as [? ?]
    by (destruct m1, mL; simpl; try lia; naive_solver).
  unfold counts_within, cc_within, bc_within in *.
  destruct k; cbn [spec_count set_cc get_cc Ir Dr Dw Bc Bi cc_a cc_m1 cc_mL]; unwrap_u64; lia.
Qed.

Lemma alter_within N p (f : line_counts -> line_counts) l :
  Forall (counts_within N) l -> (forall c, counts_within N c -> counts_within (N + 1) (f c)) ->
  Forall (counts_within (N + 1)) (alter f p l).
Proof.
  intros Hl Hf. revert p. induction Hl as [|c l Hc Hl IH]; intros [|p]; simpl;
    constructor; auto.
  - eapply Forall_impl; [done|]. intros x. apply counts_within_mono. lia.
  - eapply counts_within_mono; [|done]. lia.
  - apply IH.
Qed.

Lemma spec_event_within arch cs g T ev sp N :
  N < 2 ^ 64 - 1 -> Forall (counts_within N) (sp_counts sp) ->
  Forall (counts_within (N + 1)) (sp_counts (spec_event arch cs g T ev sp)).
Proof.
  intros HN Hsp. unfold spec_event.
  assert (Forall (counts_within (N + 1)) (sp_counts sp)) as Hid.
  { eapply Forall_impl; [done|]. intros c. apply counts_within_mono. lia. }
  assert (forall k p a sz, Forall (counts_within (N + 1))
    (sp_counts (spec_ref_at g k p a sz sp))) as Href.
  { intros k p a sz. unfold spec_ref_at, spec_access. cbn [sp_counts].
    apply alter_within; [done|]. intros c Hc. apply spec_count_within; [done|done|].
    by intros [? _]%andb_true_iff. }
  destruct (load_inode T (ev_inode ev)) as [ii|]; [|done].
  destruct (parent ii) as [p|]; [|done].
  destruct ev as [n|n a sz|n a sz|n tk|n dst]; [destruct cs| | | |]; try apply Href;
    cbn [sp_counts]; apply alter_within; try done;
    intros c (H1 & H2 & H3 & H4 & H5); unfold counts_within, cc_within, bc_within in *;
    cbn [count_Ir_at count_Bc count_Bi set_cc Ir Dr Dw Bc Bi cc_a cc_m1 cc_mL bc_b bc_mp];
    [unwrap_u64; lia| |];
    match goal with |- context [b2z ?b] => assert (0 <= b2z b <= 1) by (destruct b; simpl; lia) end;
    unwrap_u64; lia.
Qed.

Lemma spec_events_within arch cs g T evs sp N :
  N + Z.of_nat (length evs) < 2 ^ 64 -> Forall (counts_within N) (sp_counts sp) ->
  Forall (counts_within (N + Z.of_nat (length evs)))
    (sp_counts (fold_left (fun sp ev => spec_event arch cs g T ev sp) evs sp)).
Proof.
  revert sp N. induction evs as [|ev evs IH]; intros sp N HN Hsp; simpl in *.
  { by rewrite Z.add_0_r. }
  replace (N + Z.of_nat (S (length evs))) with (N + 1 + Z.of_nat (length evs)) in * by lia.
  apply IH; [done|]. apply spec_event_within; [lia|done].
Qed.

(** ** Theorems *)

(** C3. The run-time helpers implement the specification: started from
    initialised caches on valid configurations, any sequence of admissible
    events runs without fault and leaves in every line exactly the counters
    the specification computes from LRU block histories (first level, then
    last level on a miss), saturating branch counters and the target buffer;
    the tables other than the counters are untouched. *)
Theorem log_refines_lru (arch : VGA) (cs : bool) (T : cg_tables) (I1c D1c LLc : cache_t)
    (evs : list sim_event) :
  valid_cache I1c -> valid_cache D1c -> valid_cache LLc ->
  Forall counts_u64 (CC_store T) ->
  Forall (event_ok cs (cfg_geom3 I1c D1c LLc) T) evs ->
  exists c s', cachesim_initcaches I1c D1c LLc = Ok c /\
    res_fold (run_event arch cs) evs (MkState T c bp_init) = Ok s' /\
    tabs s' = set_CC T (CC_table T)
      (sp_counts (fold_left (fun sp ev => spec_event arch cs (cfg_geom3 I1c D1c LLc) T ev sp)
                    evs (spec_start T))).
Proof.
  intros HI HD HL Hu Hevs.
  destruct (initcaches_refines T I1c D1c LLc HI HD HL Hu) as (c & Ec & Hr).
  destruct (run_events_refine arch cs _ T evs _ _ Hr Hevs) as (s' & Es & Hr').
  exists c, s'. split; [done|]. split; [done|]. apply Hr'.
Qed.

(** Misses never exceed accesses: after any admissible run from zero
    counters, each line has last-level misses <= first-level misses <=
    accesses <= number of events, and mispredictions <= branches. *)
Theorem misses_within_accesses (arch : VGA) (cs : bool) (T : cg_tables)
    (I1c D1c LLc : cache_t) (evs : list sim_event) (c : caches3) (s' : cg_state) :
  valid_cache I1c -> valid_cache D1c -> valid_cache LLc ->
  Forall (fun x => x = zero_counts) (CC_store T) ->
  Forall (event_ok cs (cfg_geom3 I1c D1c LLc) T) evs ->
  Z.of_nat (length evs) < 2 ^ 64 ->
  cachesim_initcaches I1c D1c LLc = Ok c ->
  res_fold (run_event arch cs) evs (MkState T c bp_init) = Ok s' ->
  Forall (counts_within (Z.of_nat (length evs))) (CC_store (tabs s')).
Proof.
  intros HI HD HL Hz Hevs Hlen Hc Hs.
  destruct (initcaches_refines T I1c D1c LLc HI HD HL) as (c' & Ec & Hr).
  { eapply Forall_impl; [done|]. intros x ->. repeat split; vm_compute; congruence. }
  destruct (run_events_refine arch cs _ T evs _ _ Hr Hevs) as (s2 & Es & Hr').
  assert (c' = c) as -> by congruence. assert (s2 = s') as -> by congruence.
  rewrite (rf_tabs _ _ _ _ Hr'). cbn [CC_store set_CC].
  apply (spec_events_within arch cs _ T evs (spec_start T) 0); [lia|].
  cbn. eapply Forall_impl; [done|]. intros x ->. repeat split; simpl; lia.
Qed.

(** C38. [cg_instrument] clamps large references to the smallest line size "to
    avoid errors from hitting more than two cache lines", but the simulator
    takes the size as an unsigned char: with lines of 256 bytes or more, a
    clamped size that is a multiple of 256 becomes 0, and at a line-aligned
    address the reference makes the simulator panic. *)
Theorem wide_reference_panics (s : cg_state) (n : inode) (ii : InstrInfo)
    (pc : nat * line_counts) (a sz : Z) :
  load_inode (tabs s) n = Ok ii -> get_counts (tabs s) ii = Ok pc ->
  0 <= line_size_bits (D1 (sim s)) -> 0 < a < 2 ^ 64 ->
  a mod 2 ^ line_size_bits (D1 (sim s)) = 0 -> sz mod 256 = 0 ->
  log_0Ir_1Dr_cache_access s n a sz = Err (Panic "item straddles more than two cache sets").
Proof.
  intros Hn Hc Hb Ha Hal Hsz. unfold log_0Ir_1Dr_cache_access. rewrite Hn. cbn [rbind].
  unfold simulate. rewrite Hc. destruct pc as [p c]. cbn [rbind].
  assert (u8 sz = 0) as -> by exact Hsz.
  unfold cachesim_D1_doref, cachesim_ref_is_miss.
  set (b := line_size_bits (D1 (sim s))) in *.
  assert (0 < 2 ^ b) as Hpos by (apply Z.pow_pos_nonneg; lia).
  assert (a = 2 ^ b * (a / 2 ^ b)) as Hdiv by (pose proof (Z.div_mod a (2 ^ b)); lia).
  rewrite !Z.shiftr_div_pow2 by done.
  rewrite (wrapu_small 64 (a + 0 - 1)) by (unfold in_u; lia).
  set (q := a / 2 ^ b) in *. assert (0 < q) by nia.
  assert ((a + 0 - 1) / 2 ^ b = q - 1) as ->.
  { symmetry. apply Z.div_unique with (r := 2 ^ b - 1); lia. }
  assert (u64 (q + 1) <> q - 1).
  { assert (q + 1 <= 2 ^ 64) by nia.
    destruct (Z.eq_dec (q + 1) (2 ^ 64)) as [Hq|Hq].
    - replace (u64 (q + 1)) with 0 by (by rewrite Hq). lia.
    - rewrite wrapu_small by (unfold in_u; lia). lia. }
  destruct (Z.eqb_spec q (q - 1)); [lia|].
  by destruct (Z.eqb_spec (u64 (q + 1)) (q - 1)).
Qed.

(** ** Concrete instances *)

(** Two instructions of the block at 4096, both on line 10 of main. *)
Definition demo_tables : cg_tables :=
  match (let! (T, id) := new_SB_info empty_tables 4096 2 in
         let! (T, i, _) := setup_InstrInfo demo_debug_info T id 0 4096 5 in
         let! (T, i, _) := setup_InstrInfo demo_debug_info T id i 4101 3 in
         Ok T) with
  | Ok T => T
  | Err _ => empty_tables
  end.

Definition demo_state (D1c : cache_t) : cg_state :=
  match cachesim_initcaches (Cache 1024 2 64) D1c (Cache 4096 4 64) with
  | Ok c => MkState demo_tables c bp_init
  | Err _ => MkState demo_tables demo_caches bp_init
  end.

Definition demo_events : list sim_event :=
  [SE_Ir (0, 0)%nat; SE_Dr (0, 0)%nat 8192 8; SE_Ir (0, 1)%nat; SE_Dw (0, 1)%nat 8192 8;
   SE_Bc (0, 1)%nat 1; SE_Bi (0, 1)%nat 4096].

Lemma demo_events_ok :
  Forall (event_ok true (cfg_geom3 (Cache 1024 2 64) (Cache 1024 2 64) (Cache 4096 4 64))
            demo_tables) demo_events.
Proof.
  unfold demo_events. repeat (apply Forall_cons_2); [..|apply Forall_nil_2];
    (eexists _, _; split_and!; [vm_compute; reflexivity|reflexivity|vm_compute; lia|..]);
    cbn [ev_inode]; repeat split; intros; vm_compute; congruence.
Qed.

Lemma valid_demo_cache : valid_cache (Cache 1024 2 64) /\ valid_cache (Cache 4096 4 64).
Proof.
  split; (apply check_cache_sound; [repeat split; vm_compute; congruence|vm_compute; reflexivity]).
Qed.

Lemma log_refines_lru_witness :
  exists c s', cachesim_initcaches (Cache 1024 2 64) (Cache 1024 2 64) (Cache 4096 4 64) = Ok c /\
    res_fold (run_event VGA_amd64 true) demo_events (MkState demo_tables c bp_init) = Ok s' /\
    CC_store (tabs s') =
      [MkCounts (MkCacheCC 2 1 1) (MkCacheCC 1 1 1) (MkCacheCC 1 0 0)
         (MkBranchCC 1 1) (MkBranchCC 1 1)].
Proof.
  destruct valid_demo_cache as [H1 H2].
  destruct (log_refines_lru VGA_amd64 true demo_tables (Cache 1024 2 64) (Cache 1024 2 64)
    (Cache 4096 4 64) demo_events) as (c & s' & Hc & Hs & Ht);
    [exact H1|exact H1|exact H2|repeat constructor; vm_compute; congruence
    |exact demo_events_ok|].
  exists c, s'. split; [exact Hc|]. split; [exact Hs|].
  rewrite Ht. vm_compute. reflexivity.
Defined.

Lemma misses_within_accesses_witness :
  exists c s', cachesim_initcaches (Cache 1024 2 64) (Cache 1024 2 64) (Cache 4096 4 64) = Ok c /\
    res_fold (run_event VGA_amd64 true) demo_events (MkState demo_tables c bp_init) = Ok s' /\
    Forall (counts_within 6) (CC_store (tabs s')).
Proof.
  destruct valid_demo_cache as [H1 H2].
  eexists _, _. split; [vm_compute; reflexivity|]. split; [vm_compute; reflexivity|].
  eapply (misses_within_accesses VGA_amd64 true demo_tables (Cache 1024 2 64) (Cache 1024 2 64)
    (Cache 4096 4 64) demo_events);
    [exact H1|exact H1|exact H2|repeat constructor; vm_compute; congruence
    |exact demo_events_ok|vm_compute; reflexivity|vm_compute; reflexivity|vm_compute; reflexivity].
Defined.

Lemma wide_reference_panics_witness :
  check_cache (Cache 65536 2 256) = Ok None /\
  log_0Ir_1Dr_cache_access (demo_state (Cache 65536 2 256)) (0, 0)%nat 8192 256
    = Err (Panic "item straddles more than two cache sets").
Proof.
  split; [vm_compute; reflexivity|].
  eapply (wide_reference_panics (demo_state (Cache 65536 2 256)) (0, 0)%nat);
    [vm_compute; reflexivity|vm_compute; reflexivity|vm_compute; congruence|lia
    |vm_compute; reflexivity|vm_compute; reflexivity].
Defined.
