(* ===== verification/CgInstrument.v ===== *)
(** * Instrumentation: cachegrind/cg_main.c, events and [cg_instrument]

    The block is scanned top to bottom; memory events are queued, merged with
    their neighbours where possible, and turned into helper calls when the
    queue is flushed.  The theorems say that executing the generated calls has
    the effect of the events one by one, whatever was merged. *)

From Stdlib Require Import ZArith Lia.
From stdpp Require Import base numbers option strings gmap list.
From S2P Require Import Prelude CgArch CgSim CgBranchPred OSet CgTables CgLog VexIR.

#[local] Open Scope Z_scope.

(** ** Events *)

(** [Event]: the tag with the fields of its union member. *)
Inductive Event : Type :=
  | Ev_IrNoX (n : inode)
  | Ev_IrGen (n : inode)
  | Ev_Dr (n : inode) (ea : IRExpr) (szB : Z)
  | Ev_Dw (n : inode) (ea : IRExpr) (szB : Z)
  | Ev_Dm (n : inode) (ea : IRExpr) (szB : Z)
  | Ev_Bc (n : inode) (taken : IRExpr)
  | Ev_Bi (n : inode) (dst : IRExpr).

(** [get_Event_dea], [get_Event_dszB]. *)
Definition get_Event_dea (ev : Event) : res IRExpr :=
  match ev with
  | Ev_Dr _ ea _ | Ev_Dw _ ea _ | Ev_Dm _ ea _ => Ok ea
  | _ => Err (AssertFail "get_Event_dea")
  end.

Definition get_Event_dszB (ev : Event) : res Z :=
  match ev with
  | Ev_Dr _ _ sz | Ev_Dw _ _ sz | Ev_Dm _ _ sz => Ok sz
  | _ => Err (AssertFail "get_Event_dszB")
  end.

Definition N_EVENTS : nat := 16.

(** [CgState], with the two instruction statistics of the translation.  The
    output block is its type environment and its statements so far. *)
Record CgState : Type := MkCgState {
  events : list Event;
  sbInfo : nat;
  sbInfo_i : Z;
  out_tyenv : IRTypeEnv;
  out_stmts : list IRStmt;
  distinct_instrsNoX : Z;
  distinct_instrsGen : Z
}.

Definition set_events (cgs : CgState) (evs : list Event) : CgState :=
  MkCgState evs (sbInfo cgs) (sbInfo_i cgs) (out_tyenv cgs) (out_stmts cgs)
    (distinct_instrsNoX cgs) (distinct_instrsGen cgs).

Definition set_slot (cgs : CgState) (i : Z) : CgState :=
  MkCgState (events cgs) (sbInfo cgs) i (out_tyenv cgs) (out_stmts cgs)
    (distinct_instrsNoX cgs) (distinct_instrsGen cgs).

Definition set_tyenv (cgs : CgState) (env : IRTypeEnv) : CgState :=
  MkCgState (events cgs) (sbInfo cgs) (sbInfo_i cgs) env (out_stmts cgs)
    (distinct_instrsNoX cgs) (distinct_instrsGen cgs).

(** [addStmtToIRSB] on the output block. *)
Definition addStmt (cgs : CgState) (sts : list IRStmt) : CgState :=
  MkCgState (events cgs) (sbInfo cgs) (sbInfo_i cgs) (out_tyenv cgs) (out_stmts cgs ++ sts)
    (distinct_instrsNoX cgs) (distinct_instrsGen cgs).

(** A helper call as a statement. *)
Definition call (regparms : Z) (h : cg_helper) (args : list IRExpr) : IRStmt :=
  Ist_Dirty (unsafeIRDirty_0_N regparms h args).

Section instrument.
Context (arch : VGA) (clo_cache_sim clo_branch_sim : bool) (min_line_size : Z).

(** The calls [flushEvents] generates for a queue. *)
Fixpoint flush_list (evs : list Event) : res (list IRStmt) :=
  match evs with
  | [] => Ok []
  | Ev_IrNoX n :: tl =>
      match tl with
      (* Merge an IrNoX with a following Dr/Dm. *)
      | Ev_Dr n2 ea sz :: tl2 | Ev_Dm n2 ea sz :: tl2 =>
          let! _ := tl_assert (bool_decide (n2 = n)) "ev2->inode == ev->inode" in
          let! rest := flush_list tl2 in
          Ok (call 3 H_log_1IrNoX_1Dr [Iex_Inode n; ea; mkIRExpr_HWord sz] :: rest)
      (* Merge an IrNoX with a following Dw. *)
      | Ev_Dw n2 ea sz :: tl2 =>
          let! _ := tl_assert (bool_decide (n2 = n)) "ev2->inode == ev->inode" in
          let! rest := flush_list tl2 in
          Ok (call 3 H_log_1IrNoX_1Dw [Iex_Inode n; ea; mkIRExpr_HWord sz] :: rest)
      (* Merge an IrNoX with two following IrNoX's. *)
      | Ev_IrNoX n2 :: Ev_IrNoX n3 :: tl3 =>
          let! rest := flush_list tl3 in
          Ok (call 3 (if clo_cache_sim then H_log_3IrNoX_0D else H_log_3Ir)
                [Iex_Inode n; Iex_Inode n2; Iex_Inode n3] :: rest)
      (* Merge an IrNoX with one following IrNoX. *)
      | Ev_IrNoX n2 :: tl2 =>
          let! rest := flush_list tl2 in
          Ok (call 2 (if clo_cache_sim then H_log_2IrNoX_0D else H_log_2Ir)
                [Iex_Inode n; Iex_Inode n2] :: rest)
      (* No merging possible; emit as-is. *)
      | _ =>
          let! rest := flush_list tl in
          Ok (call 1 (if clo_cache_sim then H_log_1IrNoX_0D else H_log_1Ir) [Iex_Inode n] :: rest)
      end
  | Ev_IrGen n :: tl =>
      let! rest := flush_list tl in
      Ok (call 1 (if clo_cache_sim then H_log_1IrGen_0D else H_log_1Ir) [Iex_Inode n] :: rest)
  | Ev_Dr n ea sz :: tl | Ev_Dm n ea sz :: tl =>
      let! rest := flush_list tl in
      Ok (call 3 H_log_0Ir_1Dr [Iex_Inode n; ea; mkIRExpr_HWord sz] :: rest)
  | Ev_Dw n ea sz :: tl =>
      let! rest := flush_list tl in
      Ok (call 3 H_log_0Ir_1Dw [Iex_Inode n; ea; mkIRExpr_HWord sz] :: rest)
  | Ev_Bc n taken :: tl =>
      let! rest := flush_list tl in
      Ok (call 2 H_log_cond_branch [Iex_Inode n; taken] :: rest)
  | Ev_Bi n dst :: tl =>
      let! rest := flush_list tl in
      Ok (call 2 H_log_ind_branch [Iex_Inode n; dst] :: rest)
  end.

Definition flushEvents (cgs : CgState) : res CgState :=
  let! sts := flush_list (events cgs) in
  Ok (set_events (addStmt cgs sts) []).

(** The common tail of the [addEvent_*] functions: flush a full queue, then
    append. *)
Definition push_event (cgs : CgState) (ev : Event) : res CgState :=
  let! cgs := if Nat.eqb (length (events cgs)) N_EVENTS then flushEvents cgs else Ok cgs in
  let! _ := tl_assert (Nat.ltb (length (events cgs)) N_EVENTS)
              "cgs->events_used >= 0 && cgs->events_used < N_EVENTS" in
  Ok (set_events cgs (events cgs ++ [ev])).

(** [addEvent_Ir]: whether the instruction crosses a line is decided now, on
    the address and length just stored in its node. *)
Definition addEvent_Ir (c : caches3) (T : cg_tables) (cgs : CgState) (n : inode)
  : res CgState :=
  let! ii := load_inode T n in
  if cachesim_is_IrNoX c (instr_addr ii) (instr_len ii) then
    let! cgs := push_event cgs (Ev_IrNoX n) in
    Ok (MkCgState (events cgs) (sbInfo cgs) (sbInfo_i cgs) (out_tyenv cgs) (out_stmts cgs)
          (s32 (distinct_instrsNoX cgs + 1)) (distinct_instrsGen cgs))
  else
    let! cgs := push_event cgs (Ev_IrGen n) in
    Ok (MkCgState (events cgs) (sbInfo cgs) (sbInfo_i cgs) (out_tyenv cgs) (out_stmts cgs)
          (distinct_instrsNoX cgs) (s32 (distinct_instrsGen cgs + 1))).

Definition assert_access (ea : IRExpr) (datasize : Z) : res unit :=
  let! _ := tl_assert (isIRAtom ea) "isIRAtom(ea)" in
  tl_assert ((1 <=? datasize) && (datasize <=? min_line_size))
    "datasize >= 1 && datasize <= min_line_size".

Definition addEvent_Dr (cgs : CgState) (n : inode) (datasize : Z) (ea : IRExpr) : res CgState :=
  let! _ := assert_access ea datasize in
  if negb clo_cache_sim then Ok cgs
  else push_event cgs (Ev_Dr n ea datasize).

(** Can the write be merged with the preceding read? *)
Definition merges_with (lastEvt : option Event) (n : inode) (datasize : Z) (ea : IRExpr)
  : res bool :=
  match lastEvt with
  | Some (Ev_Dr n' ea' szB) =>
      if (szB =? datasize) && bool_decide (n' = n) then eqIRAtom ea' ea else Ok false
  | _ => Ok false
  end.

(** [lastEvt->tag = Ev_Dm]. *)
Definition retag_Dm (ev : Event) : Event :=
  match ev with Ev_Dr n ea sz => Ev_Dm n ea sz | _ => ev end.

Definition map_last (f : Event -> Event) (evs : list Event) : list Event :=
  match last evs with
  | Some e => removelast evs ++ [f e]
  | None => evs
  end.

Definition addEvent_Dw (cgs : CgState) (n : inode) (datasize : Z) (ea : IRExpr) : res CgState :=
  let! _ := assert_access ea datasize in
  if negb clo_cache_sim then Ok cgs
  else
    let! merge := merges_with (last (events cgs)) n datasize ea in
    if merge then Ok (set_events cgs (map_last retag_Dm (events cgs)))
    else push_event cgs (Ev_Dw n ea datasize).

Definition addEvent_D_guarded (cgs : CgState) (n : inode) (datasize : Z) (ea guard : IRExpr)
    (isWrite : bool) : res CgState :=
  let! _ := tl_assert (isIRAtom ea) "isIRAtom(ea)" in
  let! _ := tl_assert (isIRAtom guard) "isIRAtom(guard)" in
  let! _ := tl_assert ((1 <=? datasize) && (datasize <=? min_line_size))
              "datasize >= 1 && datasize <= min_line_size" in
  if negb clo_cache_sim then Ok cgs
  else
    let! cgs := flushEvents cgs in
    let di := unsafeIRDirty_0_N 3 (if isWrite then H_log_0Ir_1Dw else H_log_0Ir_1Dr)
                [Iex_Inode n; ea; mkIRExpr_HWord datasize] in
    Ok (addStmt cgs [Ist_Dirty (MkIRDirty (cee di) guard (di_args di) (mFx di) (mAddr di)
                                  (mSize di))]).

Definition addEvent_Bc (cgs : CgState) (n : inode) (guard : IRExpr) : res CgState :=
  let! _ := tl_assert (isIRAtom guard) "isIRAtom(guard)" in
  let! ty := typeOfIRExpr (out_tyenv cgs) guard in
  let! _ := tl_assert (bool_decide (ty = Ity_I64)) "typeOfIRExpr(..) == Ity_I64" in
  if negb clo_branch_sim then Ok cgs
  else push_event cgs (Ev_Bc n guard).

Definition addEvent_Bi (cgs : CgState) (n : inode) (whereTo : IRExpr) : res CgState :=
  let! _ := tl_assert (isIRAtom whereTo) "isIRAtom(whereTo)" in
  let! ty := typeOfIRExpr (out_tyenv cgs) whereTo in
  let! _ := tl_assert (bool_decide (ty = Ity_I64)) "typeOfIRExpr(..) == Ity_I64" in
  if negb clo_branch_sim then Ok cgs
  else push_event cgs (Ev_Bi n whereTo).

(** ** The block *)

Definition is_IMark (st : IRStmt) : bool :=
  match st with Ist_IMark _ _ _ => true | _ => false end.

(** The IMarks of a block, which [get_SB_info] counts. *)
Definition count_IMarks (sts : list IRStmt) : nat := length (List.filter is_IMark sts).

Definition get_SB_info (T : cg_tables) (sts : list IRStmt) (origAddr : Z)
  : res (cg_tables * nat) :=
  new_SB_info T origAddr (count_IMarks sts).

(** The statements before the first IMark, and the rest. *)
Fixpoint preamble (sts : list IRStmt) : list IRStmt * list IRStmt :=
  match sts with
  | [] => ([], [])
  | st :: sts' =>
      if is_IMark st then ([], sts)
      else let '(p, r) := preamble sts' in (st :: p, r)
  end.

(** The local variables of the traversal. *)
Record traversal : Type := MkTrav {
  tr_T : cg_tables;
  tr_cgs : CgState;
  cia : Z;
  isize : Z;
  curr_inode : option inode
}.

Definition with_cgs (tr : traversal) (cgs : CgState) : traversal :=
  MkTrav (tr_T tr) cgs (cia tr) (isize tr) (curr_inode tr).

(** The current node; the traversal starts at an IMark, so it is set. *)
Definition the_inode (tr : traversal) : res inode :=
  match curr_inode tr with Some n => Ok n | None => Err NullDeref end.

Definition clamp (dataSize : Z) : Z :=
  if dataSize >? min_line_size then min_line_size else dataSize.

Context (di : debug_info) (c : caches3).

(** [case Ist_IMark]. *)
Definition instr_IMark (tr : traversal) (addr len : Z) : res traversal :=
  let isz := if len =? 0 then VG_MIN_INSTR_SZB arch else len in
  let! _ := tl_assert (((VG_MIN_INSTR_SZB arch <=? isz) && (isz <=? VG_MAX_INSTR_SZB arch))
                       || (VG_CLREQ_SZB arch =? isz)) "isize" in
  let! (T, i, n) := setup_InstrInfo di (tr_T tr) (sbInfo (tr_cgs tr)) (sbInfo_i (tr_cgs tr))
                      addr isz in
  let! cgs := addEvent_Ir c T (set_slot (tr_cgs tr) i) n in
  Ok (MkTrav T cgs addr isz (Some n)).

(** [case Ist_Dirty]. *)
Definition instr_Dirty (tr : traversal) (d : IRDirty) : res traversal :=
  if bool_decide (mFx d = Ifx_None) then
    let! _ := tl_assert (match mAddr d with None => true | Some _ => false end)
                "d->mAddr == NULL" in
    let! _ := tl_assert (mSize d =? 0) "d->mSize == 0" in
    Ok tr
  else
    match mAddr d with
    | None => Err (AssertFail "d->mAddr != NULL")
    | Some ea =>
        let! _ := tl_assert (negb (mSize d =? 0)) "d->mSize != 0" in
        let dataSize := clamp (mSize d) in
        let! n := the_inode tr in
        let! cgs :=
          (match mFx d with
           | Ifx_Read | Ifx_Modify => addEvent_Dr (tr_cgs tr) n dataSize ea
           | _ => Ok (tr_cgs tr)
           end) in
        let! cgs :=
          (match mFx d with
           | Ifx_Write | Ifx_Modify => addEvent_Dw cgs n dataSize ea
           | _ => Ok cgs
           end) in
        Ok (with_cgs tr cgs)
    end.

(** [case Ist_Exit]: post the branch event, then flush. *)
Definition instr_Exit (hWordTy : IRType) (tr : traversal) (guard : IRExpr) (jk : IRJumpKind)
    (dst : IRConst) : res traversal :=
  let! cgs :=
    (match jk with
     | Ijk_Boring | Ijk_Call | Ijk_Ret =>
         let tyW := hWordTy in
         let is32 := bool_decide (tyW = Ity_I32) in
         let widen := if is32 then Iop_1Uto32 else Iop_1Uto64 in
         let opXOR := if is32 then Iop_Xor32 else Iop_Xor64 in
         let cgs := tr_cgs tr in
         let '(env, guard1) := newIRTemp (out_tyenv cgs) Ity_I1 in
         let '(env, guardW) := newIRTemp env tyW in
         let '(env, guardT) := newIRTemp env tyW in
         let one := Iex_Const (if is32 then Ico_U32 1 else Ico_U64 1) in
         let cgs := set_tyenv cgs env in
         let nia := u64 (cia tr + isize tr) in
         let! sea :=
           (if is32 then
              match dst with
              | Ico_U32 v => Ok v
              | _ => Err (AssertFail "dst->tag == Ico_U32")
              end
            else
              let! _ := tl_assert (bool_decide (tyW = Ity_I64)) "tyW == Ity_I64" in
              match dst with
              | Ico_U64 v => Ok v
              | _ => Err (AssertFail "dst->tag == Ico_U64")
              end) in
         let inverted := nia =? sea in
         let cgs := addStmt cgs
           [Ist_WrTmp guard1 guard;
            Ist_WrTmp guardW (Iex_Unop widen (Iex_RdTmp guard1));
            Ist_WrTmp guardT (if inverted then Iex_Binop opXOR (Iex_RdTmp guardW) one
                              else Iex_RdTmp guardW)] in
         let! n := the_inode tr in
         addEvent_Bc cgs n (Iex_RdTmp guardT)
     | Ijk_other _ => Ok (tr_cgs tr)
     end) in
  let! cgs := flushEvents cgs in
  Ok (with_cgs tr cgs).

(** The [switch] of the traversal loop, on the type environment of the
    original block. *)
Definition instr_switch (hWordTy : IRType) (env : IRTypeEnv) (tr : traversal) (st : IRStmt)
  : res traversal :=
  match st with
  | Ist_NoOp | Ist_AbiHint _ _ _ | Ist_Put _ _ | Ist_PutI _ _ | Ist_MBE => Ok tr
  | Ist_IMark addr len _ => instr_IMark tr addr len
  | Ist_WrTmp _ data =>
      match data with
      | Iex_Load ty aexpr =>
          let! n := the_inode tr in
          let! sz := sizeofIRType ty in
          let! cgs := addEvent_Dr (tr_cgs tr) n sz aexpr in
          Ok (with_cgs tr cgs)
      | _ => Ok tr
      end
  | Ist_Store aexpr data =>
      let! n := the_inode tr in
      let! ty := typeOfIRExpr env data in
      let! sz := sizeofIRType ty in
      let! cgs := addEvent_Dw (tr_cgs tr) n sz aexpr in
      Ok (with_cgs tr cgs)
  | Ist_StoreG addr data guard =>
      let! n := the_inode tr in
      let! ty := typeOfIRExpr env data in
      let! _ := tl_assert (negb (bool_decide (ty = Ity_INVALID))) "type != Ity_INVALID" in
      let! sz := sizeofIRType ty in
      let! cgs := addEvent_D_guarded (tr_cgs tr) n sz addr guard true in
      Ok (with_cgs tr cgs)
  | Ist_LoadG cvt _ addr _ guard =>
      let! n := the_inode tr in
      let! (_, ty) := typeOfIRLoadGOp cvt in
      let! _ := tl_assert (negb (bool_decide (ty = Ity_INVALID))) "type != Ity_INVALID" in
      let! sz := sizeofIRType ty in
      let! cgs := addEvent_D_guarded (tr_cgs tr) n sz addr guard false in
      Ok (with_cgs tr cgs)
  | Ist_Dirty d => instr_Dirty tr d
  | Ist_CAS addr _ _ dataHi dataLo =>
      let! n := the_inode tr in
      let! ty := typeOfIRExpr env dataLo in
      let! sz := sizeofIRType ty in
      let dataSize := match dataHi with Some _ => sz * 2 | None => sz end in
      let dataSize := clamp dataSize in
      let! cgs := addEvent_Dr (tr_cgs tr) n dataSize addr in
      let! cgs := addEvent_Dw cgs n dataSize addr in
      Ok (with_cgs tr cgs)
  | Ist_LLSC result addr storedata =>
      let! n := the_inode tr in
      match storedata with
      | None =>
          let! ty := typeOfIRTemp env result in
          let! sz := sizeofIRType ty in
          let! cgs := addEvent_Dr (tr_cgs tr) n sz addr in
          let! cgs := flushEvents cgs in
          Ok (with_cgs tr cgs)
      | Some data =>
          let! ty := typeOfIRExpr env data in
          let! sz := sizeofIRType ty in
          let! cgs := addEvent_Dw (tr_cgs tr) n sz addr in
          Ok (with_cgs tr cgs)
      end
  | Ist_Exit guard jk dst => instr_Exit hWordTy tr guard jk dst
  end.

(** One iteration: instrument, then copy the original statement. *)
Definition instr_stmt (hWordTy : IRType) (env : IRTypeEnv) (st : IRStmt) (tr : traversal)
  : res traversal :=
  let! _ := tl_assert (isFlatIRStmt st) "isFlatIRStmt(st)" in
  let! tr := instr_switch hWordTy env tr st in
  Ok (with_cgs tr (addStmt (tr_cgs tr) [st])).

(** The jump at the end of the block. *)
Definition instr_next (tr : traversal) (nxt : IRExpr) (jk : IRJumpKind) : res traversal :=
  match jk with
  | Ijk_Boring | Ijk_Call =>
      match nxt with
      | Iex_Const _ => Ok tr
      | Iex_RdTmp _ =>
          let! n := the_inode tr in
          let! cgs := addEvent_Bi (tr_cgs tr) n nxt in
          Ok (with_cgs tr cgs)
      | _ => Err (AssertFail "sbIn->next")
      end
  | _ => Ok tr
  end.

(** [cg_instrument] on a block with original address [readdr] and first extent
    base [base0]; the pair of statistics is threaded through. *)
Definition cg_instrument (T : cg_tables) (stats : Z * Z) (sbIn : IRSB) (readdr base0 : Z)
    (gWordTy hWordTy : IRType) : res (cg_tables * (Z * Z) * IRSB) :=
  if negb (bool_decide (gWordTy = hWordTy)) then Err (Panic "host/guest word size mismatch")
  else
    let '(pre, body) := preamble (stmts sbIn) in
    match body with
    | Ist_IMark addr len _ :: _ =>
        let isz := if len =? 0 then VG_MIN_INSTR_SZB arch else len in
        let! _ := tl_assert (readdr =? base0) "closure->readdr == vge->base[0]" in
        let! (T, id) := get_SB_info T (stmts sbIn) readdr in
        let cgs := MkCgState [] id 0 (tyenv sbIn) pre stats.1 stats.2 in
        let! tr := res_fold (instr_stmt hWordTy (tyenv sbIn)) body
                     (MkTrav T cgs addr isz None) in
        let! tr := instr_next tr (next sbIn) (jumpkind sbIn) in
        let! cgs := flushEvents (tr_cgs tr) in
        match SB_store (tr_T tr) !! id with
        | None => Err NullDeref
        | Some sb =>
            let! _ := tl_assert (sbInfo_i cgs =? n_instrs sb) "cgs.sbInfo_i == cgs.sbInfo->n_instrs" in
            Ok (tr_T tr, (distinct_instrsNoX cgs, distinct_instrsGen cgs),
                MkIRSB (out_tyenv cgs) (out_stmts cgs) (next sbIn) (jumpkind sbIn))
        end
    | _ => Err (AssertFail "Ist_IMark == st->tag")
    end.

End instrument.

(** ** Execution of instrumented code

    Only what instrumentation adds is executed: helper calls act on the
    profiler's state, assignments to temporaries beyond the original ones
    ([n0] of them) compute the widened guards, and an exit whose guard holds
    leaves the block.  The values of the original temporaries are given by the
    environment: a block is in SSA form, so each has one value per run. *)

Definition tmp_env : Type := IRTemp -> Z.

Definition const_val (con : IRConst) : Z :=
  match con with
  | Ico_U1 v | Ico_U8 v | Ico_U16 v | Ico_U32 v | Ico_U64 v | Ico_U128 v | Ico_F32 v
  | Ico_F32i v | Ico_F64 v | Ico_F64i v | Ico_V128 v | Ico_V256 v => v
  end.

Definition eval_atom (env : tmp_env) (e : IRExpr) : Z :=
  match e with
  | Iex_RdTmp t => env t
  | Iex_Const con => const_val con
  | _ => 0
  end.

(** The right-hand sides [cg_instrument] generates. *)
Definition eval_rhs (env : tmp_env) (e : IRExpr) : Z :=
  match e with
  | Iex_Unop (Iop_1Uto32 | Iop_1Uto64) a => Z.land (eval_atom env a) 1
  | Iex_Binop (Iop_Xor32 | Iop_Xor64) a b => Z.lxor (eval_atom env a) (eval_atom env b)
  | _ => eval_atom env e
  end.

(** A one-bit value as a truth value. *)
Definition truth (v : Z) : bool := negb (Z.land v 1 =? 0).

Definition upd_env (env : tmp_env) (t : IRTemp) (v : Z) : tmp_env :=
  fun t' => if Nat.eqb t' t then v else env t'.

Inductive outcome : Type :=
  | Running (env : tmp_env) (s : cg_state)
  | Exited (s : cg_state).

Section execution.
Context (arch : VGA) (n0 : nat).

(** A call of a helper, its arguments evaluated. *)
Definition run_call (env : tmp_env) (h : cg_helper) (args : list IRExpr) (s : cg_state)
  : res cg_state :=
  match h, args with
  | H_log_1Ir, [Iex_Inode n] => log_1Ir s n
  | H_log_2Ir, [Iex_Inode n; Iex_Inode n2] => log_2Ir s n n2
  | H_log_3Ir, [Iex_Inode n; Iex_Inode n2; Iex_Inode n3] => log_3Ir s n n2 n3
  | H_log_1IrGen_0D, [Iex_Inode n] => log_1IrGen_0D_cache_access s n
  | H_log_1IrNoX_0D, [Iex_Inode n] => log_1IrNoX_0D_cache_access s n
  | H_log_2IrNoX_0D, [Iex_Inode n; Iex_Inode n2] => log_2IrNoX_0D_cache_access s n n2
  | H_log_3IrNoX_0D, [Iex_Inode n; Iex_Inode n2; Iex_Inode n3] =>
      log_3IrNoX_0D_cache_access s n n2 n3
  | H_log_1IrNoX_1Dr, [Iex_Inode n; ea; sz] =>
      log_1IrNoX_1Dr_cache_access s n (eval_atom env ea) (eval_atom env sz)
  | H_log_1IrNoX_1Dw, [Iex_Inode n; ea; sz] =>
      log_1IrNoX_1Dw_cache_access s n (eval_atom env ea) (eval_atom env sz)
  | H_log_0Ir_1Dr, [Iex_Inode n; ea; sz] =>
      log_0Ir_1Dr_cache_access s n (eval_atom env ea) (eval_atom env sz)
  | H_log_0Ir_1Dw, [Iex_Inode n; ea; sz] =>
      log_0Ir_1Dw_cache_access s n (eval_atom env ea) (eval_atom env sz)
  | H_log_cond_branch, [Iex_Inode n; taken] => log_cond_branch arch s n (eval_atom env taken)
  | H_log_ind_branch, [Iex_Inode n; dst] => log_ind_branch arch s n (eval_atom env dst)
  | _, _ => Err (Panic "helper called with wrong arguments")
  end.

Definition exec_stmt (st : IRStmt) (env : tmp_env) (s : cg_state) : res outcome :=
  match st with
  | Ist_Dirty d =>
      match cee d with
      | Cee_cg _ h =>
          if truth (eval_atom env (di_guard d)) then
            let! s' := run_call env h (di_args d) s in Ok (Running env s')
          else Ok (Running env s)
      | Cee_other _ => Ok (Running env s)
      end
  | Ist_WrTmp t e =>
      if Nat.leb n0 t then Ok (Running (upd_env env t (eval_rhs env e)) s)
      else Ok (Running env s)
  | Ist_Exit guard _ _ =>
      if truth (eval_atom env guard) then Ok (Exited s) else Ok (Running env s)
  | _ => Ok (Running env s)
  end.

Fixpoint exec (sts : list IRStmt) (env : tmp_env) (s : cg_state) : res outcome :=
  match sts with
  | [] => Ok (Running env s)
  | st :: sts' =>
      let! o := exec_stmt st env s in
      match o with
      | Running env' s' => exec sts' env' s'
      | Exited s' => Ok (Exited s')
      end
  end.

End execution.

(** ** Reference semantics of a block

    The guest operations in program order, none of them merged into calls.
    [last] is the most recent event since the last barrier: a store right
    after a load of the same location by the same instruction is the second
    half of a modify and is not charged again. *)

Inductive gop : Type :=
  | G_event (ev : Event)
  | G_store (n : inode) (ea : IRExpr) (sz : Z)
  | G_guarded (n : inode) (ea : IRExpr) (sz : Z) (guard : IRExpr) (isWrite : bool)
  | G_branch (n : inode) (guard : IRExpr) (inverted : bool)
  | G_barrier
  | G_exit (guard : IRExpr).

Inductive ref_outcome : Type :=
  | RRun (s : cg_state) (last : option Event)
  | RExit (s : cg_state).

Section reference.
Context (arch : VGA) (cache_sim : bool).

(** The effect of one event. *)
Definition run_Event (env : tmp_env) (ev : Event) (s : cg_state) : res cg_state :=
  match ev with
  | Ev_IrNoX n => if cache_sim then log_1IrNoX_0D_cache_access s n else log_1Ir s n
  | Ev_IrGen n => if cache_sim then log_1IrGen_0D_cache_access s n else log_1Ir s n
  | Ev_Dr n ea sz | Ev_Dm n ea sz => log_0Ir_1Dr_cache_access s n (eval_atom env ea) (u64 sz)
  | Ev_Dw n ea sz => log_0Ir_1Dw_cache_access s n (eval_atom env ea) (u64 sz)
  | Ev_Bc n taken => log_cond_branch arch s n (eval_atom env taken)
  | Ev_Bi n dst => log_ind_branch arch s n (eval_atom env dst)
  end.

Definition merged (lastEvt : option Event) (n : inode) (sz : Z) (ea : IRExpr) : bool :=
  match merges_with lastEvt n sz ea with Ok b => b | Err _ => false end.

Definition ref_op (env : tmp_env) (op : gop) (s : cg_state) (last : option Event)
  : res ref_outcome :=
  match op with
  | G_event ev => let! s' := run_Event env ev s in Ok (RRun s' (Some ev))
  | G_store n ea sz =>
      if merged last n sz ea then Ok (RRun s (retag_Dm <$> last))
      else let! s' := run_Event env (Ev_Dw n ea sz) s in Ok (RRun s' (Some (Ev_Dw n ea sz)))
  | G_guarded n ea sz guard isWrite =>
      if truth (eval_atom env guard) then
        let! s' := run_Event env (if isWrite then Ev_Dw n ea sz else Ev_Dr n ea sz) s in
        Ok (RRun s' None)
      else Ok (RRun s None)
  | G_branch n guard inverted =>
      let taken := Z.land (eval_atom env guard) 1 in
      let! s' := log_cond_branch arch s n (if inverted then Z.lxor taken 1 else taken) in
      Ok (RRun s' None)
  | G_barrier => Ok (RRun s None)
  | G_exit guard =>
      if truth (eval_atom env guard) then Ok (RExit s) else Ok (RRun s None)
  end.

Fixpoint ref_run (env : tmp_env) (ops : list gop) (s : cg_state) (last : option Event)
  : res ref_outcome :=
  match ops with
  | [] => Ok (RRun s last)
  | op :: ops' =>
      let! o := ref_op env op s last in
      match o with
      | RRun s' last' => ref_run env ops' s' last'
      | RExit s' => Ok (RExit s')
      end
  end.

End reference.

(** *** The operations of a block *)

Section block_ops.
Context (arch : VGA) (cache_sim branch_sim : bool) (min_line_size : Z) (c : caches3).

Definition size_of (ty : res IRType) : Z :=
  match (let! t := ty in sizeofIRType t) with Ok n => n | Err _ => 0 end.

Definition g_load (n : inode) (ea : IRExpr) (sz : Z) : list gop :=
  if cache_sim then [G_event (Ev_Dr n ea sz)] else [].
Definition g_store (n : inode) (ea : IRExpr) (sz : Z) : list gop :=
  if cache_sim then [G_store n ea sz] else [].
Definition g_guarded (n : inode) (ea : IRExpr) (sz : Z) (guard : IRExpr) (w : bool) : list gop :=
  if cache_sim then [G_guarded n ea sz guard w] else [].

(** The operations of a statement, of the instruction at [cia] with node [n]. *)
Definition stmt_ops (env : IRTypeEnv) (n : inode) (cia isize : Z) (st : IRStmt) : list gop :=
  let clamp := clamp min_line_size in
  match st with
  | Ist_IMark _ _ _ =>
      [G_event (if cachesim_is_IrNoX c cia (u8 isize) then Ev_IrNoX n else Ev_IrGen n)]
  | Ist_WrTmp _ (Iex_Load ty ea) => g_load n ea (size_of (Ok ty))
  | Ist_Store ea data => g_store n ea (size_of (typeOfIRExpr env data))
  | Ist_StoreG ea data guard => g_guarded n ea (size_of (typeOfIRExpr env data)) guard true
  | Ist_LoadG cvt _ ea _ guard =>
      g_guarded n ea (size_of (let! (_, t) := typeOfIRLoadGOp cvt in Ok t)) guard false
  | Ist_Dirty d =>
      match mAddr d with
      | None => []
      | Some ea =>
          (match mFx d with Ifx_Read | Ifx_Modify => g_load n ea (clamp (mSize d)) | _ => [] end) ++
          (match mFx d with Ifx_Write | Ifx_Modify => g_store n ea (clamp (mSize d)) | _ => [] end)
      end
  | Ist_CAS ea _ _ dataHi dataLo =>
      let sz := size_of (typeOfIRExpr env dataLo) in
      let sz := clamp (match dataHi with Some _ => sz * 2 | None => sz end) in
      g_load n ea sz ++ g_store n ea sz
  | Ist_LLSC result ea None => g_load n ea (size_of (typeOfIRTemp env result)) ++ [G_barrier]
  | Ist_LLSC _ ea (Some data) => g_store n ea (size_of (typeOfIRExpr env data))
  | Ist_Exit guard jk dst =>
      (match jk with
       | Ijk_other _ => []
       | _ => if branch_sim then [G_branch n guard (u64 (cia + isize) =? const_val dst)] else []
       end) ++ [G_exit guard]
  | _ => []
  end.

(** The block from its first IMark on; [k] instructions of superblock [id]
    have been seen. *)
Fixpoint body_ops (env : IRTypeEnv) (id k : nat) (cia isize : Z) (sts : list IRStmt) : list gop :=
  match sts with
  | [] => []
  | st :: sts' =>
      let '(k, cia, isize) :=
        match st with
        | Ist_IMark addr len _ =>
            (S k, addr, if len =? 0 then VG_MIN_INSTR_SZB arch else len)
        | _ => (k, cia, isize)
        end in
      stmt_ops env (id, Nat.pred k) cia isize st ++ body_ops env id k cia isize sts'
  end.

Definition next_ops (n : inode) (nxt : IRExpr) (jk : IRJumpKind) : list gop :=
  match jk, nxt with
  | (Ijk_Boring | Ijk_Call), Iex_RdTmp _ => if branch_sim then [G_event (Ev_Bi n nxt)] else []
  | _, _ => []
  end.

(** A preamble is copied without instrumentation; only its exits matter. *)
Definition pre_ops (sts : list IRStmt) : list gop :=
  flat_map (fun st => match st with Ist_Exit guard _ _ => [G_exit guard] | _ => [] end) sts.

Definition block_ops (sbIn : IRSB) (id : nat) : list gop :=
  let '(pre, body) := preamble (stmts sbIn) in
  pre_ops pre ++ body_ops (tyenv sbIn) id 0 0 0 body ++
  next_ops (id, Nat.pred (count_IMarks body)) (next sbIn) (jumpkind sbIn).

End block_ops.
