(* ===== verification/CgInstrumentSpec.v ===== *)
(** * Correctness of the instrumentation

    The instrumented block executes the reference semantics of the original
    one, contains the original statements unchanged, and instrumenting a
    well-formed block fails no assertion. *)

From Stdlib Require Import ZArith Lia.
From stdpp Require Import base numbers option strings gmap list.
From S2P Require Import Prelude CgArch CgSim CgBranchPred OSet CgTables CgLog VexIR CgInstrument.

#[local] Open Scope Z_scope.

(** ** Merged calls are the calls they merge *)

Lemma simulate_load_inode doref k s ii a sz s' n :
  simulate doref k s ii a sz = Ok s' -> load_inode (tabs s') n = load_inode (tabs s) n.
Proof.
  unfold simulate. intros H. destruct (get_counts (tabs s) ii) as [[p c]|]; [|done].
  cbn [rbind] in H. destruct (doref _ _ _ _) as [[sim' m]|]; [|done].
  by injection H as <-.
Qed.

Lemma log_2IrNoX_seq s n n2 :
  log_2IrNoX_0D_cache_access s n n2 =
    (let! s := log_1IrNoX_0D_cache_access s n in log_1IrNoX_0D_cache_access s n2).
Proof. unfold log_2IrNoX_0D_cache_access, log_1IrNoX_0D_cache_access. by rewrite rbind_assoc. Qed.

Lemma log_3IrNoX_seq s n n2 n3 :
  log_3IrNoX_0D_cache_access s n n2 n3 =
    (let! s := log_1IrNoX_0D_cache_access s n in
     let! s := log_1IrNoX_0D_cache_access s n2 in
     log_1IrNoX_0D_cache_access s n3).
Proof.
  unfold log_3IrNoX_0D_cache_access, log_1IrNoX_0D_cache_access. rewrite rbind_assoc.
  destruct (load_inode (tabs s) n); [|done]. simpl.
  destruct (simulate _ _ _ _ _ _); [|done]. simpl. by rewrite rbind_assoc.
Qed.

Lemma log_1IrNoX_1Dr_seq s n a sz :
  log_1IrNoX_1Dr_cache_access s n a sz =
    (let! s := log_1IrNoX_0D_cache_access s n in log_0Ir_1Dr_cache_access s n a sz).
Proof.
  unfold log_1IrNoX_1Dr_cache_access, log_1IrNoX_0D_cache_access, log_0Ir_1Dr_cache_access.
  destruct (load_inode (tabs s) n) as [ii|] eqn:Hn; [|done]. cbn [rbind].
  destruct (simulate _ _ s ii _ _) as [s1|] eqn:Hs; [|done]. cbn [rbind].
  by rewrite (simulate_load_inode _ _ _ _ _ _ _ _ Hs), Hn.
Qed.

Lemma log_1IrNoX_1Dw_seq s n a sz :
  log_1IrNoX_1Dw_cache_access s n a sz =
    (let! s := log_1IrNoX_0D_cache_access s n in log_0Ir_1Dw_cache_access s n a sz).
Proof.
  unfold log_1IrNoX_1Dw_cache_access, log_1IrNoX_0D_cache_access, log_0Ir_1Dw_cache_access.
  destruct (load_inode (tabs s) n) as [ii|] eqn:Hn; [|done]. cbn [rbind].
  destruct (simulate _ _ s ii _ _) as [s1|] eqn:Hs; [|done]. cbn [rbind].
  by rewrite (simulate_load_inode _ _ _ _ _ _ _ _ Hs), Hn.
Qed.

(** ** Environments and execution *)

Section exec_lemmas.
Context (arch : VGA) (n0 : nat).

(** Agreement on the original temporaries. *)
Definition env_agree (env env' : tmp_env) : Prop := forall t, (t < n0)%nat -> env' t = env t.

Definition guest_expr (e : IRExpr) : Prop :=
  match e with Iex_RdTmp t => (t < n0)%nat | Iex_Const _ => True | _ => False end.

Lemma eval_agree env env' e :
  env_agree env env' -> guest_expr e -> eval_atom env' e = eval_atom env e.
Proof. intros H. destruct e; simpl; auto; done. Qed.

Lemma exec_app l1 l2 env s :
  exec arch n0 (l1 ++ l2) env s =
    (let! o := exec arch n0 l1 env s in
     match o with
     | Running env' s' => exec arch n0 l2 env' s'
     | Exited s' => Ok (Exited s')
     end).
Proof.
  revert env s. induction l1 as [|st l1 IH]; intros env s; simpl; [done|].
  destruct (exec_stmt arch n0 st env s) as [[env' s'|s']|f]; simpl; auto.
Qed.

Lemma exec_stmt_agree st env s env' s' :
  exec_stmt arch n0 st env s = Ok (Running env' s') -> env_agree env env'.
Proof.
  unfold env_agree. destruct st; simpl; intros H t Ht; simplify_eq/=; try done.
  - destruct (Nat.leb_spec n0 tmp); simplify_eq/=; [|done]. unfold upd_env.
    destruct (Nat.eqb_spec t tmp); [lia|done].
  - destruct (cee details); [|by simplify_eq]. destruct (truth _); [|by simplify_eq].
    by inv_ok; simplify_eq.
  - destruct (truth _); by simplify_eq.
Qed.

Lemma exec_agree sts env s env' s' :
  exec arch n0 sts env s = Ok (Running env' s') -> env_agree env env'.
Proof.
  revert env s. induction sts as [|st sts IH]; simpl; intros env s H.
  { by simplify_eq. }
  apply rbind_ok in H as ([env1 s1|s1] & H1 & H2); [|done].
  apply exec_stmt_agree in H1. apply IH in H2. intros t Ht. by rewrite H2, H1.
Qed.

Lemma exec_call rp h args sts env s :
  exec arch n0 (call rp h args :: sts) env s =
    (let! s' := run_call arch env h args s in exec arch n0 sts env s').
Proof.
  cbn [exec]. replace (exec_stmt arch n0 (call rp h args) env s) with
    (let! s' := run_call arch env h args s in Ok (Running env s')) by done.
  by destruct (run_call arch env h args s).
Qed.

End exec_lemmas.

(** ** Flushing the queue *)

Section flush.
Context (arch : VGA) (cs : bool) (n0 : nat).

(** Data events are queued only when the caches are simulated; operands are
    atoms of the original block. *)
Definition q_ok (ev : Event) : Prop :=
  match ev with
  | Ev_IrNoX _ | Ev_IrGen _ => True
  | Ev_Dr _ ea _ | Ev_Dw _ ea _ | Ev_Dm _ ea _ => cs = true /\ guest_expr n0 ea
  | Ev_Bc _ e | Ev_Bi _ e => guest_expr n0 e
  end.

(** Data events of a queue require cache simulation. *)
Definition cs_ok (ev : Event) : Prop :=
  match ev with Ev_Dr _ _ _ | Ev_Dw _ _ _ | Ev_Dm _ _ _ => cs = true | _ => True end.

(** One generated call handles a prefix [evs1] of the queue. *)
Lemma flush_prefix evs1 tl env rp h args sts :
  (let! rest := flush_list cs tl in Ok (call rp h args :: rest)) = Ok sts ->
  (forall s, run_call arch env h args s = res_fold (run_Event arch cs env) evs1 s) ->
  (forall sts', flush_list cs tl = Ok sts' -> forall s, exec arch n0 sts' env s =
     (let! s' := res_fold (run_Event arch cs env) tl s in Ok (Running env s'))) ->
  forall s, exec arch n0 sts env s =
    (let! s' := res_fold (run_Event arch cs env) (evs1 ++ tl) s in Ok (Running env s')).
Proof.
  intros H Hrun IH s. apply rbind_ok in H as (rest & Hrest & [= <-]).
  rewrite exec_call, Hrun, res_fold_app.
  destruct (res_fold (run_Event arch cs env) evs1 s); [|done]. cbn [rbind]. by apply IH.
Qed.

Lemma flush_exec evs sts :
  flush_list cs evs = Ok sts -> Forall cs_ok evs ->
  forall env s, exec arch n0 sts env s =
    (let! s' := res_fold (run_Event arch cs env) evs s in Ok (Running env s')).
Proof.
  remember (length evs) as len eqn:Hlen. revert evs sts Hlen.
  induction len as [len IH] using lt_wf_ind. intros evs sts -> H Hcs env.
  assert (forall evs', Forall cs_ok evs' -> (length evs' < length evs)%nat ->
    forall sts', flush_list cs evs' = Ok sts' -> forall s, exec arch n0 sts' env s =
    (let! s' := res_fold (run_Event arch cs env) evs' s in Ok (Running env s'))) as IH'.
  { intros evs' H1 H2 sts' H3 s0. by eapply (IH (length evs')). }
  clear IH. destruct evs as [|ev tl]; [by simplify_eq/=|].
  apply Forall_cons in Hcs as [Hev Htl]. cbn [flush_list] in H.
  destruct ev as [n|n|n ea sz|n ea sz|n ea sz|n e|n e];
    [|by eapply (flush_prefix [_] tl); [exact H|intros s; cbn [res_fold]; rewrite rbind_ret;
        by destruct cs|apply IH'; [done|simpl; lia]]..].
  destruct tl as [|[n2|n2|n2 ea sz|n2 ea sz|n2 ea sz|n2 e|n2 e] tl];
    try (match goal with |- context [res_fold _ (_ :: ?t)] => eapply (flush_prefix [_] t) end;
      [exact H|intros s; cbn [res_fold]; rewrite rbind_ret;
        by destruct cs|apply IH'; [done|simpl; lia]]).
  { apply Forall_cons in Htl as [_ Htl].
    destruct tl as [|[n3|n3|n3 ea sz|n3 ea sz|n3 ea sz|n3 e|n3 e] tl];
      try (match goal with |- context [res_fold _ (_ :: _ :: ?t)] =>
             eapply (flush_prefix [_; _] t) end;
        [exact H|intros s; rewrite res_fold_two; destruct cs; [apply log_2IrNoX_seq|done]|apply IH'; [done|simpl; lia]]).
    apply Forall_cons in Htl as [_ Htl].
    eapply (flush_prefix [_; _; _]); [exact H|intros s; rewrite res_fold_three|
      apply IH'; [done|simpl; lia]].
    destruct cs; [apply log_3IrNoX_seq|done]. }
  all: apply Forall_cons in Htl as [Hd Htl]; cbn [cs_ok] in Hd;
    apply rbind_ok in H as ([] & Heq & H); apply tl_assert_ok, bool_decide_eq_true in Heq as ->;
    (eapply (flush_prefix [_; _]); [exact H|intros s; rewrite res_fold_two|
      apply IH'; [done|simpl; lia]]);
    rewrite Hd; first [apply log_1IrNoX_1Dr_seq|apply log_1IrNoX_1Dw_seq].
Qed.

Lemma q_ok_cs ev : q_ok ev -> cs_ok ev.
Proof. destruct ev; simpl; tauto. Qed.

Lemma run_Event_agree env env' ev s :
  env_agree n0 env env' -> q_ok ev -> run_Event arch cs env' ev s = run_Event arch cs env ev s.
Proof.
  intros Ha Hq. destruct ev; simpl in *; try done;
    by rewrite (eval_agree n0 env env') by (done || apply Hq).
Qed.

Lemma run_Events_agree env env' evs s :
  env_agree n0 env env' -> Forall q_ok evs ->
  res_fold (run_Event arch cs env') evs s = res_fold (run_Event arch cs env) evs s.
Proof.
  intros Ha Hq. revert s. induction Hq as [|ev evs Hev _ IH]; intros s; simpl; [done|].
  rewrite (run_Event_agree env env') by done.
  destruct (run_Event arch cs env ev s); simpl; [apply IH|done].
Qed.

(** *** The meaning of an instrumentation state

    The statements generated so far, then the pending events; [false] when an
    exit was taken. *)
Definition cgs_sem (cgs : CgState) (env : tmp_env) (s : cg_state) : res (cg_state * bool) :=
  let! o := exec arch n0 (out_stmts cgs) env s in
  match o with
  | Running _ s' => let! s'' := res_fold (run_Event arch cs env) (events cgs) s' in Ok (s'', true)
  | Exited s' => Ok (s', false)
  end.

(** Continue after a state that is still running. *)
Definition and_then (m : res (cg_state * bool)) (k : cg_state -> res (cg_state * bool))
  : res (cg_state * bool) :=
  let! (s, running) := m in if (running : bool) then k s else Ok (s, false).

Lemma flush_sem cgs cgs' env s :
  flushEvents cs cgs = Ok cgs' -> Forall q_ok (events cgs) ->
  cgs_sem cgs' env s = cgs_sem cgs env s /\ events cgs' = [].
Proof.
  intros H Hq. unfold flushEvents in H. apply rbind_ok in H as (sts & Hsts & [= <-]).
  split; [|done]. unfold cgs_sem. cbn [out_stmts set_events addStmt events res_fold].
  rewrite exec_app, rbind_assoc.
  destruct (exec arch n0 (out_stmts cgs) env s) as [[env' s'|s']|] eqn:He; [|done|done].
  cbn [rbind]. rewrite (flush_exec _ _ Hsts) by (eapply Forall_impl; [done|apply q_ok_cs]).
  rewrite (run_Events_agree env env') by (done || by eapply exec_agree).
  by destruct (res_fold (run_Event arch cs env) (events cgs) s').
Qed.

Lemma push_sem cgs cgs' ev env s :
  push_event cs cgs ev = Ok cgs' -> Forall q_ok (events cgs) ->
  cgs_sem cgs' env s =
    and_then (cgs_sem cgs env s) (fun s' => let! s'' := run_Event arch cs env ev s' in Ok (s'', true))
  /\ last (events cgs') = Some ev.
Proof.
  intros H Hq. unfold push_event in H.
  apply rbind_ok in H as (cgs1 & H1 & H). apply rbind_ok in H as ([] & _ & [= <-]).
  assert (cgs_sem cgs1 env s = cgs_sem cgs env s) as <-.
  { destruct (Nat.eqb _ _); [by apply flush_sem|by simplify_eq]. }
  split; [|cbn; by rewrite last_snoc].
  unfold cgs_sem, and_then. cbn [out_stmts set_events events].
  destruct (exec arch n0 (out_stmts cgs1) env s) as [[env' s'|s']|]; [|done|done].
  cbn [rbind]. rewrite res_fold_app.
  destruct (res_fold (run_Event arch cs env) (events cgs1) s'); [|done]. cbn [rbind res_fold].
  by rewrite rbind_ret.
Qed.

(** A data read and the modify it is turned into have the same effect. *)
Lemma retag_sem evs env s :
  res_fold (run_Event arch cs env) (map_last retag_Dm evs) s =
  res_fold (run_Event arch cs env) evs s.
Proof.
  unfold map_last. destruct (last evs) as [e|] eqn:Hl; [|done].
  apply last_Some in Hl as [evs' ->]. rewrite removelast_app by done. cbn [removelast].
  rewrite app_nil_r, !res_fold_app.
  destruct (res_fold (run_Event arch cs env) evs' s); [|done]. cbn [rbind res_fold].
  by destruct e.
Qed.

End flush.

(** ** The traversal keeps the output in step with the reference *)

Section steps.
Context (arch : VGA) (cs bs : bool) (mls : Z) (n0 : nat).

Local Notation sem := (cgs_sem arch cs n0).
Local Notation ref := (ref_run arch cs).

Lemma ref_run_app env ops1 ops2 s l :
  ref env (ops1 ++ ops2) s l =
    (let! o := ref env ops1 s l in
     match o with RRun s' l' => ref env ops2 s' l' | RExit s' => Ok (RExit s') end).
Proof.
  revert s l. induction ops1 as [|op ops1 IH]; intros s l; simpl; [done|].
  destruct (ref_op arch cs env op s l) as [[s' l'|s']|]; simpl; auto.
Qed.

(** The generated code and pending events [cgs] mean the operations [ops]. *)
Record in_step (cgs : CgState) (ops : list gop) : Prop := {
  is_sem env s : ref env ops s None =
    (let! (s', b) := sem cgs env s in
     Ok (if (b : bool) then RRun s' (last (events cgs)) else RExit s'));
  is_queue : Forall (q_ok cs n0) (events cgs);
  is_tyenv : (n0 <= length (out_tyenv cgs))%nat
}.

(** Extending both sides by one operation. *)
Lemma in_step_extend cgs cgs' ops op (k : tmp_env -> cg_state -> res (cg_state * bool)) :
  in_step cgs ops ->
  (forall env s, sem cgs' env s = and_then (sem cgs env s) (k env)) ->
  (forall env s, ref_op arch cs env op s (last (events cgs)) =
     (let! (s', b) := k env s in
      Ok (if (b : bool) then RRun s' (last (events cgs')) else RExit s'))) ->
  Forall (q_ok cs n0) (events cgs') -> (length (out_tyenv cgs) <= length (out_tyenv cgs'))%nat ->
  in_step cgs' (ops ++ [op]).
Proof.
  intros [Hsem Hq Ht] Hsem' Hop Hq' Ht'. split; [|done|lia].
  intros env s. rewrite ref_run_app, Hsem, Hsem'.
  destruct (sem cgs env s) as [[s' []]|]; [|done|done]. cbn [rbind and_then ref_run].
  rewrite Hop. destruct (k env s') as [[s'' []]|]; done.
Qed.

Lemma flush_tyenv cgs cgs' : flushEvents cs cgs = Ok cgs' -> out_tyenv cgs' = out_tyenv cgs.
Proof. unfold flushEvents. intros H. by apply rbind_ok in H as (sts & _ & [= <-]). Qed.

Lemma push_tyenv cgs cgs' ev : push_event cs cgs ev = Ok cgs' -> out_tyenv cgs' = out_tyenv cgs.
Proof.
  unfold push_event. intros H. apply rbind_ok in H as (cgs1 & H1 & H).
  apply rbind_ok in H as ([] & _ & [= <-]). cbn.
  destruct (Nat.eqb _ _); [by apply flush_tyenv|by simplify_eq].
Qed.

Lemma push_queue cgs cgs' ev :
  push_event cs cgs ev = Ok cgs' -> Forall (q_ok cs n0) (events cgs) -> q_ok cs n0 ev ->
  Forall (q_ok cs n0) (events cgs').
Proof.
  unfold push_event. intros H Hq Hev. apply rbind_ok in H as (cgs1 & H1 & H).
  apply rbind_ok in H as ([] & _ & [= <-]). cbn. apply Forall_app. split; [|by constructor].
  destruct (Nat.eqb _ _); [|by simplify_eq].
  unfold flushEvents in H1. apply rbind_ok in H1 as (sts & _ & [= <-]). constructor.
Qed.

(** Weakening: extra meaning changes nothing. *)
Lemma in_step_same cgs cgs' ops :
  in_step cgs ops -> (forall env s, sem cgs' env s = sem cgs env s) ->
  last (events cgs') = last (events cgs) -> Forall (q_ok cs n0) (events cgs') ->
  (length (out_tyenv cgs) <= length (out_tyenv cgs'))%nat -> in_step cgs' ops.
Proof.
  intros [Hsem Hq Ht] Hs Hl Hq' Ht'. split; [|done|lia]. intros env s. by rewrite Hsem, Hs, Hl.
Qed.

Lemma step_flush cgs cgs' ops :
  in_step cgs ops -> flushEvents cs cgs = Ok cgs' -> in_step cgs' (ops ++ [G_barrier]).
Proof.
  intros Hi H. pose proof (is_queue _ _ Hi) as Hq.
  assert (events cgs' = []) as Hev by (by apply (flush_sem arch cs n0 cgs cgs' (fun _ => 0)
    (MkState empty_tables demo_caches bp_init))).
  eapply (in_step_extend cgs cgs' ops G_barrier (fun _ s => Ok (s, true)) Hi).
  - intros env s. rewrite (proj1 (flush_sem arch cs n0 cgs cgs' env s H Hq)).
    by destruct (sem cgs env s) as [[s' []]|].
  - intros env s. by rewrite Hev.
  - by rewrite Hev.
  - by rewrite (flush_tyenv _ _ H).
Qed.

Lemma step_push cgs cgs' ops ev :
  in_step cgs ops -> q_ok cs n0 ev -> push_event cs cgs ev = Ok cgs' ->
  in_step cgs' (ops ++ [G_event ev]).
Proof.
  intros Hi Hev H. pose proof (is_queue _ _ Hi) as Hq.
  eapply (in_step_extend cgs cgs' ops (G_event ev)
    (fun env s => let! s'' := run_Event arch cs env ev s in Ok (s'', true)) Hi).
  - intros env s. by apply push_sem.
  - intros env s. rewrite (proj2 (push_sem arch cs n0 cgs cgs' ev env s H Hq)). simpl.
    by destruct (run_Event arch cs env ev s).
  - by eapply push_queue.
  - by rewrite (push_tyenv _ _ _ H).
Qed.

Lemma step_Dr cgs cgs' ops n sz ea :
  in_step cgs ops -> guest_expr n0 ea -> addEvent_Dr cs mls cgs n sz ea = Ok cgs' ->
  in_step cgs' (ops ++ g_load cs n ea sz).
Proof.
  intros Hi Hea H. unfold addEvent_Dr in H. apply rbind_ok in H as ([] & _ & H).
  unfold g_load. destruct cs eqn:Hcs; cbn [negb] in H.
  - rewrite <- Hcs in *. by apply (step_push cgs).
  - rewrite app_nil_r. by simplify_eq.
Qed.

Lemma step_Dw cgs cgs' ops n sz ea :
  in_step cgs ops -> guest_expr n0 ea -> addEvent_Dw cs mls cgs n sz ea = Ok cgs' ->
  in_step cgs' (ops ++ g_store cs n ea sz).
Proof.
  intros Hi Hea H. unfold addEvent_Dw in H. apply rbind_ok in H as ([] & _ & H).
  unfold g_store. destruct cs eqn:Hcs; cbn [negb] in H; [|rewrite app_nil_r; by simplify_eq].
  rewrite <- Hcs in *. apply rbind_ok in H as (mrg & Hm & H).
  pose proof (is_queue _ _ Hi) as Hq.
  assert (merged (last (events cgs)) n sz ea = mrg) as Hmrg by (unfold merged; by rewrite Hm).
  destruct mrg.
  - injection H as <-.
    assert (last (map_last retag_Dm (events cgs)) = retag_Dm <$> last (events cgs)) as Hl.
    { unfold map_last. destruct (last (events cgs)) eqn:E; [by rewrite last_snoc|by rewrite E]. }
    eapply (in_step_extend cgs _ ops (G_store n ea sz) (fun _ s => Ok (s, true)) Hi).
    + intros env s. unfold cgs_sem. cbn [out_stmts events set_events].
      destruct (exec arch n0 (out_stmts cgs) env s) as [[env' s'|s']|]; [|done|done].
      cbn [rbind]. rewrite retag_sem. by destruct (res_fold _ (events cgs) s').
    + intros env s. simpl. by rewrite Hmrg, Hl.
    + cbn. unfold map_last. destruct (last (events cgs)) as [e|] eqn:E; [|done].
      apply last_Some in E as [evs Hevs]. rewrite Hevs in Hq |- *.
      rewrite removelast_app by done. cbn [removelast].
      rewrite app_nil_r. apply Forall_app in Hq as [Hq1 Hq2]. apply Forall_app. split; [done|].
      apply Forall_cons in Hq2 as [Hq2 _]. constructor; [destruct e; exact Hq2|constructor].
    + done.
  - eapply (in_step_extend cgs cgs' ops (G_store n ea sz)
      (fun env s => let! s'' := run_Event arch cs env (Ev_Dw n ea sz) s in Ok (s'', true)) Hi).
    + intros env s. by apply push_sem.
    + intros env s. rewrite (proj2 (push_sem arch cs n0 cgs cgs' _ env s H Hq)). simpl.
      rewrite Hmrg. by destruct (log_0Ir_1Dw_cache_access _ _ _ _).
    + by eapply push_queue.
    + by rewrite (push_tyenv _ _ _ H).
Qed.

(** *** Statements of the original block *)

(** A statement of the original block uses the original temporaries only, and
    calls none of the profiler's helpers. *)
Definition guest_stmt (st : IRStmt) : Prop :=
  match st with
  | Ist_WrTmp t e =>
      (t < n0)%nat /\ match e with Iex_Load _ a => guest_expr n0 a | _ => True end
  | Ist_Store a _ | Ist_CAS a _ _ _ _ | Ist_LLSC _ a _ => guest_expr n0 a
  | Ist_LoadG _ _ a _ g | Ist_StoreG a _ g => guest_expr n0 a /\ guest_expr n0 g
  | Ist_Dirty d =>
      (exists name, cee d = Cee_other name) /\
      match mAddr d with Some a => guest_expr n0 a | None => True end
  | Ist_Exit g _ _ => guest_expr n0 g
  | _ => True
  end.

Definition is_Exit (st : IRStmt) : bool :=
  match st with Ist_Exit _ _ _ => true | _ => false end.

Lemma exec_guest_stmt st env s :
  guest_stmt st -> is_Exit st = false -> exec_stmt arch n0 st env s = Ok (Running env s).
Proof.
  intros Hg Hx. destruct st; simpl in *; try done.
  - destruct (Nat.leb_spec n0 tmp); [lia|done].
  - by destruct Hg as [[name ->] _].
Qed.

(** Copying a statement behind the generated code. *)
Lemma step_copy cgs ops st :
  in_step cgs ops -> guest_stmt st -> is_Exit st = false -> in_step (addStmt cgs [st]) ops.
Proof.
  intros Hi Hg Hx. apply (in_step_same cgs); [done| |done|apply Hi|done].
  intros env s. unfold cgs_sem. cbn [out_stmts addStmt events]. rewrite exec_app, rbind_assoc.
  destruct (exec arch n0 (out_stmts cgs) env s) as [[env' s'|s']|]; [|done|done].
  cbn [rbind exec]. by rewrite exec_guest_stmt.
Qed.

Definition outcome_pair (o : outcome) : cg_state * bool :=
  match o with Running _ s => (s, true) | Exited s => (s, false) end.

(** Statements added behind an empty queue. *)
Lemma sem_add cgs sts env s (k : cg_state -> res (cg_state * bool)) :
  events cgs = [] ->
  (forall env' s', env_agree n0 env env' ->
     (let! o := exec arch n0 sts env' s' in Ok (outcome_pair o)) = k s') ->
  sem (addStmt cgs sts) env s = and_then (sem cgs env s) k.
Proof.
  intros He Hk. unfold cgs_sem. cbn [out_stmts addStmt events]. rewrite He, exec_app, rbind_assoc.
  destruct (exec arch n0 (out_stmts cgs) env s) as [[env' s'|s']|] eqn:Hx; [|done|done].
  cbn [rbind res_fold and_then]. rewrite <- (Hk env' s') by (by eapply exec_agree).
  by destruct (exec arch n0 sts env' s') as [[]|].
Qed.

Lemma step_exit cgs ops guard jk dst :
  in_step cgs ops -> events cgs = [] -> guest_expr n0 guard ->
  in_step (addStmt cgs [Ist_Exit guard jk dst]) (ops ++ [G_exit guard]).
Proof.
  intros Hi He Hg.
  apply (in_step_extend cgs _ ops (G_exit guard)
    (fun env s => Ok (s, negb (truth (eval_atom env guard)))) Hi).
  - intros env s. apply sem_add; [done|]. intros env' s' Ha. cbn [exec exec_stmt].
    rewrite (eval_agree n0 env env') by done. by destruct (truth _).
  - intros env s. cbn. rewrite He. by destruct (truth _).
  - apply Hi.
  - done.
Qed.

Lemma step_guarded cgs cgs' ops n sz ea guard w :
  in_step cgs ops -> guest_expr n0 ea -> guest_expr n0 guard ->
  addEvent_D_guarded cs mls cgs n sz ea guard w = Ok cgs' ->
  in_step cgs' (ops ++ g_guarded cs n ea sz guard w).
Proof.
  intros Hi Hea Hg H. unfold addEvent_D_guarded in H.
  do 3 (apply rbind_ok in H as ([] & _ & H)). unfold g_guarded.
  destruct cs eqn:Hcs; cbn [negb] in H; [|rewrite app_nil_r; by simplify_eq].
  rewrite <- Hcs in *. apply rbind_ok in H as (cgs1 & H1 & [= <-]).
  pose proof (is_queue _ _ Hi) as Hq.
  assert (events cgs1 = []) as He by (by apply (flush_sem arch cs n0 cgs cgs1 (fun _ => 0)
    (MkState empty_tables demo_caches bp_init))).
  apply (in_step_extend cgs _ ops (G_guarded n ea sz guard w)
    (fun env s => if truth (eval_atom env guard) then
       let! s' := run_Event arch cs env (if w then Ev_Dw n ea sz else Ev_Dr n ea sz) s in
       Ok (s', true) else Ok (s, true)) Hi).
  - intros env s. rewrite <- (proj1 (flush_sem arch cs n0 cgs cgs1 env s H1 Hq)).
    apply sem_add; [done|]. intros env' s' Ha. cbn [exec exec_stmt cee di_guard di_args].
    rewrite (eval_agree n0 env env' guard) by done. destruct (truth _); [|done].
    destruct w; cbn [run_call]; rewrite (eval_agree n0 env env' ea) by done; cbn [run_Event];
      by destruct (_ s' n _ _).
  - intros env s. cbn [ref_op]. cbn. rewrite He. destruct (truth _); [|done].
    by destruct (run_Event _ _ _ _ _).
  - cbn. by rewrite He.
  - cbn. by rewrite (flush_tyenv _ _ H1).
Qed.

(** *** Conditional exits

    The branch event reads a temporary the generated code has just computed,
    so its meaning is taken in the environment of the execution. *)

Definition sem_env (cgs : CgState) (env : tmp_env) (s : cg_state) : res outcome :=
  let! o := exec arch n0 (out_stmts cgs) env s in
  match o with
  | Running env' s' =>
      let! s'' := res_fold (run_Event arch cs env') (events cgs) s' in Ok (Running env' s'')
  | Exited s' => Ok (Exited s')
  end.

Lemma sem_env_sem cgs env s :
  Forall (q_ok cs n0) (events cgs) ->
  sem cgs env s = (let! o := sem_env cgs env s in Ok (outcome_pair o)).
Proof.
  intros Hq. unfold cgs_sem, sem_env. rewrite rbind_assoc.
  destruct (exec arch n0 (out_stmts cgs) env s) as [[env' s'|s']|] eqn:He; [|done|done].
  cbn [rbind]. rewrite (run_Events_agree arch cs n0 env env') by (done || by eapply exec_agree).
  by destruct (res_fold _ (events cgs) s').
Qed.

Lemma flush_sem_env cgs cgs' env s :
  flushEvents cs cgs = Ok cgs' -> Forall (cs_ok cs) (events cgs) ->
  sem_env cgs' env s = sem_env cgs env s /\ events cgs' = [].
Proof.
  intros H Hq. unfold flushEvents in H. apply rbind_ok in H as (sts & Hsts & [= <-]).
  split; [|done]. unfold sem_env. cbn [out_stmts set_events addStmt events res_fold].
  rewrite exec_app, rbind_assoc.
  destruct (exec arch n0 (out_stmts cgs) env s) as [[env' s'|s']|]; [|done|done].
  cbn [rbind]. rewrite (flush_exec arch cs n0 _ _ Hsts Hq).
  by destruct (res_fold (run_Event arch cs env') (events cgs) s').
Qed.

Lemma push_sem_env cgs cgs' ev env s :
  push_event cs cgs ev = Ok cgs' -> Forall (cs_ok cs) (events cgs) -> cs_ok cs ev ->
  sem_env cgs' env s =
    (let! o := sem_env cgs env s in
     match o with
     | Running env' s' => let! s'' := run_Event arch cs env' ev s' in Ok (Running env' s'')
     | Exited s' => Ok (Exited s')
     end) /\ Forall (cs_ok cs) (events cgs').
Proof.
  intros H Hq Hev. unfold push_event in H.
  apply rbind_ok in H as (cgs1 & H1 & H). apply rbind_ok in H as ([] & _ & [= <-]).
  assert (sem_env cgs1 env s = sem_env cgs env s /\ Forall (cs_ok cs) (events cgs1)) as [<- Hq1].
  { destruct (Nat.eqb _ _); [|by simplify_eq].
    destruct (flush_sem_env cgs cgs1 env s H1 Hq) as [-> ->]. by split; [|constructor]. }
  split; [|by apply Forall_app; split; [|constructor]].
  unfold sem_env. cbn [out_stmts set_events events]. rewrite rbind_assoc.
  destruct (exec arch n0 (out_stmts cgs1) env s) as [[env' s'|s']|]; [|done|done].
  cbn [rbind]. rewrite res_fold_app.
  destruct (res_fold (run_Event arch cs env') (events cgs1) s'); [|done]. cbn [rbind res_fold].
  by rewrite rbind_ret.
Qed.

(** The three assignments that widen (and perhaps invert) the guard. *)
Definition guard_stmts (t : IRTemp) (guard : IRExpr) (widen opXOR : IROp) (one : IRExpr)
    (inverted : bool) : list IRStmt :=
  [Ist_WrTmp t guard;
   Ist_WrTmp (S t) (Iex_Unop widen (Iex_RdTmp t));
   Ist_WrTmp (S (S t)) (if inverted then Iex_Binop opXOR (Iex_RdTmp (S t)) one
                        else Iex_RdTmp (S t))].

Lemma guard_stmts_exec t guard widen opXOR one inverted env s :
  (n0 <= t)%nat -> guest_expr n0 guard ->
  widen = Iop_1Uto32 \/ widen = Iop_1Uto64 -> opXOR = Iop_Xor32 \/ opXOR = Iop_Xor64 ->
  eval_atom env one = 1 -> guest_expr n0 one ->
  exists env', exec arch n0 (guard_stmts t guard widen opXOR one inverted) env s
      = Ok (Running env' s) /\ env_agree n0 env env' /\
    env' (S (S t)) = (if inverted then Z.lxor (Z.land (eval_atom env guard) 1) 1
                      else Z.land (eval_atom env guard) 1).
Proof.
  intros Ht Hg Hw Hx Hone Hgo. unfold guard_stmts. cbn [exec exec_stmt].
  rewrite !(proj2 (Nat.leb_le _ _)) by lia. cbn [rbind]. eexists. split; [reflexivity|].
  split.
  { intros u Hu. unfold upd_env.
    repeat match goal with |- context [Nat.eqb u ?x] => destruct (Nat.eqb_spec u x); [lia|] end. done. }
  assert (eval_rhs env guard = eval_atom env guard) as Heq by (by destruct guard).
  unfold upd_env. rewrite Nat.eqb_refl.
  assert (forall a v, guest_expr n0 a -> eval_atom (fun t' => if Nat.eqb t' (S t) then v else
     if Nat.eqb t' t then eval_rhs env guard else env t') a = eval_atom env a) as Hag.
  { intros [] v Ha; simpl in *; try done.
    repeat match goal with |- context [Nat.eqb tmp ?x] =>
      destruct (Nat.eqb_spec tmp x); [lia|] end. done. }
  destruct inverted; [destruct Hx as [-> | ->]|]; destruct Hw as [-> | ->];
    cbn [eval_rhs eval_atom]; rewrite ?Nat.eqb_refl, ?Hag, ?Hone, ?Heq by done; done.
Qed.

(** Pending events do not see the new temporaries. *)
Lemma guard_stmts_sem cgs t guard widen opXOR one inverted envt env s :
  Forall (q_ok cs n0) (events cgs) -> (n0 <= t)%nat -> guest_expr n0 guard ->
  widen = Iop_1Uto32 \/ widen = Iop_1Uto64 -> opXOR = Iop_Xor32 \/ opXOR = Iop_Xor64 ->
  eval_atom env one = 1 -> guest_expr n0 one ->
  (let! o := sem_env (addStmt (set_tyenv cgs envt) (guard_stmts t guard widen opXOR one inverted))
               env s in
   Ok (match o with
       | Running env' s' => (s', true, env' (S (S t)))
       | Exited s' => (s', false, 0) end)) =
  (let! (s', b) := sem cgs env s in
   Ok (s', b, if (b : bool) then
                (if inverted then Z.lxor (Z.land (eval_atom env guard) 1) 1
                 else Z.land (eval_atom env guard) 1)
              else 0)).
Proof.
  intros Hq Ht Hg Hw Hx Hone Hgo. rewrite sem_env_sem by done. unfold sem_env.
  cbn [out_stmts addStmt set_tyenv events]. rewrite exec_app, !rbind_assoc.
  destruct (exec arch n0 (out_stmts cgs) env s) as [[env1 s1|s1]|] eqn:He; [|done|done].
  apply exec_agree in He. cbn [rbind].
  destruct (guard_stmts_exec t guard widen opXOR one inverted env1 s1) as (env2 & -> & Ha & Hv);
    [done|done|done|done|by rewrite (eval_agree n0 env env1)|done|].
  cbn [rbind]. assert (env_agree n0 env env2) by (intros u Hu; by rewrite Ha, He).
  rewrite (run_Events_agree arch cs n0 env env2), (run_Events_agree arch cs n0 env env1) by done.
  destruct (res_fold (run_Event arch cs env) (events cgs) s1); cbn [rbind]; [|done].
  by rewrite Hv, (eval_agree n0 env env1 guard).
Qed.

Lemma step_branch cgs cgs1 cgs2 ops n t guard widen opXOR one inverted envt :
  in_step cgs ops -> t = length (out_tyenv cgs) -> (length (out_tyenv cgs) <= length envt)%nat ->
  guest_expr n0 guard ->
  widen = Iop_1Uto32 \/ widen = Iop_1Uto64 -> opXOR = Iop_Xor32 \/ opXOR = Iop_Xor64 ->
  (forall env, eval_atom env one = 1) -> guest_expr n0 one ->
  push_event cs (addStmt (set_tyenv cgs envt) (guard_stmts t guard widen opXOR one inverted))
    (Ev_Bc n (Iex_RdTmp (S (S t)))) = Ok cgs1 ->
  flushEvents cs cgs1 = Ok cgs2 ->
  in_step cgs2 (ops ++ [G_branch n guard inverted]) /\ events cgs2 = [].
Proof.
  intros Hi Ht Hle Hg Hw Hx Hone Hgo Hp Hf. pose proof (is_queue _ _ Hi) as Hq.
  pose proof (is_tyenv _ _ Hi) as Hn0.
  set (cgsW := addStmt _ _) in Hp.
  assert (Forall (cs_ok cs) (events cgsW)) as HqW
    by (eapply Forall_impl; [exact Hq|apply q_ok_cs]).
  assert (forall env s, sem_env cgs2 env s = sem_env cgs1 env s /\ events cgs2 = []) as Hfl.
  { intros env s. apply flush_sem_env; [done|].
    apply (push_sem_env cgsW cgs1 _ env s Hp HqW I). }
  assert (events cgs2 = []) as He by (apply (Hfl (fun _ => 0)
    (MkState empty_tables demo_caches bp_init))).
  split; [|done].
  apply (in_step_extend cgs cgs2 ops (G_branch n guard inverted)
    (fun env s => let! s' := log_cond_branch arch s n
        (if inverted then Z.lxor (Z.land (eval_atom env guard) 1) 1
         else Z.land (eval_atom env guard) 1) in Ok (s', true)) Hi).
  - intros env s. rewrite sem_env_sem by (by rewrite He). rewrite (proj1 (Hfl env s)).
    rewrite (proj1 (push_sem_env cgsW cgs1 _ env s Hp HqW I)).
    pose proof (guard_stmts_sem cgs t guard widen opXOR one inverted envt env s Hq
      ltac:(lia) Hg Hw Hx (Hone env) Hgo) as Hsem. fold cgsW in Hsem.
    destruct (sem_env cgsW env s) as [[env' s'|s']|], (sem cgs env s) as [[s2 []]|];
      cbn [rbind] in Hsem; try discriminate Hsem;
      [injection Hsem as <- Hv|by injection Hsem as <-|by injection Hsem as <-].
    cbn [rbind and_then run_Event eval_atom]. rewrite Hv. by destruct (log_cond_branch _ _ _ _).
  - intros env s. cbn [ref_op]. rewrite He. by destruct (log_cond_branch _ _ _ _).
  - by rewrite He.
  - rewrite (flush_tyenv _ _ Hf), (push_tyenv _ _ _ Hp). done.
Qed.

(** The assignments alone, when branches are not simulated. *)
Lemma step_guard_stmts cgs ops t guard widen opXOR one inverted envt :
  in_step cgs ops -> t = length (out_tyenv cgs) -> (length (out_tyenv cgs) <= length envt)%nat ->
  guest_expr n0 guard ->
  widen = Iop_1Uto32 \/ widen = Iop_1Uto64 -> opXOR = Iop_Xor32 \/ opXOR = Iop_Xor64 ->
  (forall env, eval_atom env one = 1) -> guest_expr n0 one ->
  in_step (addStmt (set_tyenv cgs envt) (guard_stmts t guard widen opXOR one inverted)) ops.
Proof.
  intros Hi Ht Hle Hg Hw Hx Hone Hgo. pose proof (is_tyenv _ _ Hi) as Hn0.
  apply (in_step_same cgs); [done| |done|apply Hi|done].
  intros env s. pose proof (is_queue _ _ Hi) as Hq. rewrite sem_env_sem by done.
  pose proof (guard_stmts_sem cgs t guard widen opXOR one inverted envt env s Hq
    ltac:(lia) Hg Hw Hx (Hone env) Hgo) as Hsem.
  destruct (sem_env _ env s) as [[env' s'|s']|], (sem cgs env s) as [[s2 []]|];
    cbn [rbind] in Hsem; by simplify_eq.
Qed.

(** An exit is a barrier by itself. *)
Lemma in_step_barrier_exit cgs ops g :
  in_step cgs ((ops ++ [G_barrier]) ++ [G_exit g]) -> in_step cgs (ops ++ [G_exit g]).
Proof.
  intros [Hs Hq Ht]. split; [|done|done]. intros env s. rewrite <- Hs, !ref_run_app.
  by destruct (ref env ops s None) as [[]|].
Qed.

(** Flush, then copy the exit. *)
Lemma step_flush_exit cgs cgs' ops guard jk dst :
  in_step cgs ops -> guest_expr n0 guard -> flushEvents cs cgs = Ok cgs' ->
  in_step (addStmt cgs' [Ist_Exit guard jk dst]) (ops ++ [G_exit guard]).
Proof.
  intros Hi Hg Hf. apply in_step_barrier_exit. apply step_exit; [by eapply step_flush| |done].
  unfold flushEvents in Hf. by apply rbind_ok in Hf as (sts & _ & [= <-]).
Qed.

(** What [instr_Exit] does to the output for a guest branch, with the widened
    guard in temporaries [t], [t+1], [t+2]. *)
Lemma instr_Exit_branch hty tr tr' guard dst jk :
  instr_Exit cs bs hty tr guard jk dst = Ok tr' ->
  (forall x, jk <> Ijk_other x) ->
  exists n widen opXOR one envt cgs1 cgs2,
    curr_inode tr = Some n /\
    (widen = Iop_1Uto32 \/ widen = Iop_1Uto64) /\ (opXOR = Iop_Xor32 \/ opXOR = Iop_Xor64) /\
    (forall env, eval_atom env one = 1) /\ guest_expr n0 one /\
    (length (out_tyenv (tr_cgs tr)) <= length envt)%nat /\
    (if bs then push_event cs (addStmt (set_tyenv (tr_cgs tr) envt)
        (guard_stmts (length (out_tyenv (tr_cgs tr))) guard widen opXOR one
           (u64 (cia tr + isize tr) =? const_val dst)))
        (Ev_Bc n (Iex_RdTmp (S (S (length (out_tyenv (tr_cgs tr))))))) = Ok cgs1
     else cgs1 = addStmt (set_tyenv (tr_cgs tr) envt)
        (guard_stmts (length (out_tyenv (tr_cgs tr))) guard widen opXOR one
           (u64 (cia tr + isize tr) =? const_val dst))) /\
    flushEvents cs cgs1 = Ok cgs2 /\ tr' = with_cgs tr cgs2.
Proof.
  intros H Hjk. unfold instr_Exit in H. apply rbind_ok in H as (cgs1 & H1 & H2).
  apply rbind_ok in H2 as (cgs2 & H2 & [= <-]).
  set (L := length (out_tyenv (tr_cgs tr))).
  assert (length (out_tyenv (tr_cgs tr) ++ [Ity_I1]) = S L) as HL1
    by (rewrite length_app; simpl; lia).
  assert (length ((out_tyenv (tr_cgs tr) ++ [Ity_I1]) ++ [hty]) = S (S L)) as HL2
    by (rewrite !length_app; simpl; lia).
  assert (exists (is32 : bool) sea, sea = const_val dst /\
    (let! n := the_inode tr in
     addEvent_Bc cs bs (addStmt (set_tyenv (tr_cgs tr)
         (((out_tyenv (tr_cgs tr) ++ [Ity_I1]) ++ [hty]) ++ [hty]))
       (guard_stmts L guard (if is32 then Iop_1Uto32 else Iop_1Uto64)
          (if is32 then Iop_Xor32 else Iop_Xor64)
          (Iex_Const (if is32 then Ico_U32 1 else Ico_U64 1))
          (u64 (cia tr + isize tr) =? sea))) n (Iex_RdTmp (S (S L)))) = Ok cgs1)
    as (is32 & sea & -> & Hbc).
  { exists (bool_decide (hty = Ity_I32)). unfold newIRTemp in H1. rewrite HL1, HL2 in H1.
    destruct jk as [| | |x]; [..|by destruct (Hjk x)];
      apply rbind_ok in H1 as (sea & Hsea & H1);
      (exists sea; split; [|exact H1]);
      destruct (bool_decide (hty = Ity_I32)); try (destruct dst; by simplify_eq/=);
      apply rbind_ok in Hsea as ([] & _ & Hsea); destruct dst; by simplify_eq/=. }
  apply rbind_ok in Hbc as (n & Hn & Hbc). unfold the_inode in Hn.
  destruct (curr_inode tr) as [n'|] eqn:Hc; [|done]. injection Hn as ->.
  unfold addEvent_Bc in Hbc. do 3 (apply rbind_ok in Hbc as (? & _ & Hbc)).
  eexists n, _, _, _, _, cgs1, cgs2. split; [done|].
  split; [|split; [|split; [|split; [|split; [|split; [|split; [exact H2|reflexivity]]]]]]];
    cycle 5.
  - destruct bs; cbn [negb] in Hbc; [exact Hbc|by injection Hbc as <-].
  - destruct is32; auto.
  - destruct is32; auto.
  - intros env. by destruct is32.
  - done.
  - rewrite !length_app. lia.
Qed.

(** The whole [Ist_Exit] case. *)
Lemma step_Exit c envt hty tr tr' ops guard jk dst n :
  in_step (tr_cgs tr) ops -> guest_expr n0 guard -> curr_inode tr = Some n ->
  instr_Exit cs bs hty tr guard jk dst = Ok tr' ->
  in_step (addStmt (tr_cgs tr') [Ist_Exit guard jk dst])
    (ops ++ stmt_ops cs bs mls c envt n (cia tr) (isize tr) (Ist_Exit guard jk dst)).
Proof.
  intros Hi Hg Hn H. destruct jk as [| | |x] eqn:Hjk; [subst jk..|].
  4:{ unfold instr_Exit in H. cbn [rbind] in H. apply rbind_ok in H as (cgs2 & H2 & [= <-]).
      by apply (step_flush_exit (tr_cgs tr)). }
  all: apply instr_Exit_branch in H; [|done];
    destruct H as (n' & widen & opXOR & one & envt' & cgs1 & cgs2 & Hn' & Hw & Hx & Hone & Hgo
      & Hle & Hp & Hf & ->); rewrite Hn in Hn'; injection Hn' as <-;
    cbn [stmt_ops tr_cgs with_cgs]; destruct bs;
    [|subst cgs1; cbn [app]; apply (step_flush_exit _ _ ops guard _ dst
        (step_guard_stmts _ _ _ _ _ _ _ _ _ Hi eq_refl Hle Hg Hw Hx Hone Hgo) Hg Hf)];
    destruct (step_branch _ _ _ _ _ _ _ _ _ _ _ _ Hi eq_refl Hle Hg Hw Hx Hone Hgo Hp Hf)
      as [Hi2 He2];
    cbn [app]; rewrite (app_assoc ops [_] [_] : ops ++ [_; _] = _); by apply step_exit.
Qed.

(** *** One statement *)

(** The superblock slots only move at IMarks. *)
Definition same_slots (cgs cgs' : CgState) : Prop :=
  sbInfo cgs' = sbInfo cgs /\ sbInfo_i cgs' = sbInfo_i cgs.

Lemma flush_slots cgs cgs' : flushEvents cs cgs = Ok cgs' -> same_slots cgs cgs'.
Proof. unfold flushEvents. intros H. by apply rbind_ok in H as (sts & _ & [= <-]). Qed.

Lemma push_slots cgs cgs' ev : push_event cs cgs ev = Ok cgs' -> same_slots cgs cgs'.
Proof.
  unfold push_event. intros H. apply rbind_ok in H as (cgs1 & H1 & H).
  apply rbind_ok in H as ([] & _ & [= <-]).
  destruct (Nat.eqb _ _); [by apply flush_slots in H1|by simplify_eq].
Qed.

Lemma Dr_slots cgs cgs' n sz ea : addEvent_Dr cs mls cgs n sz ea = Ok cgs' -> same_slots cgs cgs'.
Proof.
  unfold addEvent_Dr. intros H. apply rbind_ok in H as ([] & _ & H).
  destruct (negb cs); [by simplify_eq|by eapply push_slots].
Qed.

Lemma Dw_slots cgs cgs' n sz ea : addEvent_Dw cs mls cgs n sz ea = Ok cgs' -> same_slots cgs cgs'.
Proof.
  unfold addEvent_Dw. intros H. apply rbind_ok in H as ([] & _ & H).
  destruct (negb cs); [by simplify_eq|]. apply rbind_ok in H as ([] & _ & H);
    [by simplify_eq|by eapply push_slots].
Qed.

Lemma guarded_slots cgs cgs' n sz ea g w :
  addEvent_D_guarded cs mls cgs n sz ea g w = Ok cgs' -> same_slots cgs cgs'.
Proof.
  unfold addEvent_D_guarded. intros H. do 3 (apply rbind_ok in H as ([] & _ & H)).
  destruct (negb cs); [by simplify_eq|]. apply rbind_ok in H as (cgs1 & H1 & [= <-]).
  by apply flush_slots in H1.
Qed.

Lemma same_slots_trans cgs1 cgs2 cgs3 :
  same_slots cgs1 cgs2 -> same_slots cgs2 cgs3 -> same_slots cgs1 cgs3.
Proof. intros [H1 H2] [H3 H4]. split; congruence. Qed.

Lemma Exit_slots hty tr tr' guard jk dst :
  instr_Exit cs bs hty tr guard jk dst = Ok tr' ->
  same_slots (tr_cgs tr) (tr_cgs tr') /\ cia tr' = cia tr /\ isize tr' = isize tr /\
  curr_inode tr' = curr_inode tr.
Proof.
  intros H. destruct jk as [| | |x] eqn:Hjk; [subst jk..|].
  4:{ unfold instr_Exit in H. cbn [rbind] in H. apply rbind_ok in H as (cgs2 & H2 & [= <-]).
      by apply flush_slots in H2. }
  all: apply instr_Exit_branch in H; [|done];
    destruct H as (n' & widen & opXOR & one & envt' & cgs1 & cgs2 & _ & _ & _ & _ & _ & _
      & Hp & Hf & ->); (split; [|done]); apply flush_slots in Hf; cbn [tr_cgs with_cgs];
    (eapply same_slots_trans; [|exact Hf]);
    destruct bs; [by apply push_slots in Hp|by subst cgs1].
Qed.

Context (c : caches3) (di : debug_info).

(** The traversal state while [k] instructions of superblock [id] have been
    seen and the operations [ops] generated. *)
Record in_trav (id k : nat) (tr : traversal) (ops : list gop) : Prop := {
  it_step : in_step (tr_cgs tr) ops;
  it_id : sbInfo (tr_cgs tr) = id;
  it_slot : sbInfo_i (tr_cgs tr) = Z.of_nat k;
  it_inode : (0 < k)%nat -> curr_inode tr = Some (id, Nat.pred k)
}.

(** Everything but IMark and Exit keeps the instruction. *)
Lemma in_trav_stay id k tr cgs' ops ops' :
  in_trav id k tr ops -> in_step cgs' (ops ++ ops') -> same_slots (tr_cgs tr) cgs' ->
  in_trav id k (with_cgs tr cgs') (ops ++ ops').
Proof. intros [Hi Hid Hsl Hn] Hi' [H1 H2]. split; cbn; [done|congruence|congruence|done]. Qed.

Lemma size_of_ok ty t sz : ty = Ok t -> sizeofIRType t = Ok sz -> size_of ty = sz.
Proof. intros -> H. unfold size_of. cbn. by rewrite H. Qed.

Lemma step_IMark env id k tr tr' ops addr len delta :
  in_trav id k tr ops ->
  instr_IMark arch cs di c tr addr len = Ok tr' ->
  let isz := if len =? 0 then VG_MIN_INSTR_SZB arch else len in
  in_trav id (S k) tr' (ops ++ stmt_ops cs bs mls c env (id, k) addr isz (Ist_IMark addr len delta))
  /\ cia tr' = addr /\ isize tr' = isz.
Proof.
  intros [Hi Hid Hsl Hn] H isz. unfold instr_IMark in H. fold isz in H.
  apply rbind_ok in H as ([] & _ & H). apply rbind_ok in H as ([[T i] n] & Hs & H).
  apply rbind_ok in H as (cgs & Hir & H). injection H as <-. split; [|done].
  apply setup_InstrInfo_inv in Hs as (-> & -> & _ & p & Hload).
  rewrite Hid, Hsl in *. rewrite Nat2Z.id in *.
  unfold addEvent_Ir in Hir. rewrite Hload in Hir. cbn [rbind instr_addr instr_len] in Hir.
  assert (in_step (set_slot (tr_cgs tr) (Z.of_nat k + 1)) ops) as Hi0
    by (apply (in_step_same (tr_cgs tr)); [done|done|done|apply Hi|done]).
  cbn [stmt_ops]. destruct (cachesim_is_IrNoX c addr (u8 isz));
    apply rbind_ok in Hir as (cgs1 & Hp & [= <-]); pose proof (push_slots _ _ _ Hp) as [Hs1 Hs2];
    (split; cbn [tr_cgs sbInfo sbInfo_i curr_inode];
     [|by rewrite Hs1|rewrite Hs2; cbn; lia|done]);
    (apply (step_push _ _ ops) in Hp; [|done|done]);
    (eapply in_step_same; [exact Hp|done|done|apply Hp|done]).
Qed.

(** Turn [the_inode] and the events of a data case into steps. *)
Ltac data_step Hi Hc :=
  repeat match goal with
  | H : rbind (the_inode _) _ = Ok _ |- _ =>
      let n := fresh "n" in let Hn := fresh "Hn" in
      apply rbind_ok in H as (n & Hn & H); unfold the_inode in Hn; rewrite Hc in Hn;
      injection Hn as <-
  | H : rbind (typeOfIRExpr _ _) _ = Ok _ |- _ =>
      let t := fresh "ty" in let Ht := fresh "Hty" in apply rbind_ok in H as (t & Ht & H)
  | H : rbind (typeOfIRTemp _ _) _ = Ok _ |- _ =>
      let t := fresh "ty" in let Ht := fresh "Hty" in apply rbind_ok in H as (t & Ht & H)
  | H : rbind (typeOfIRLoadGOp _) _ = Ok _ |- _ =>
      let t := fresh "ty" in let Ht := fresh "Hty" in
      apply rbind_ok in H as ([? t] & Ht & H); cbv beta iota in H
  | H : rbind (sizeofIRType _) _ = Ok _ |- _ =>
      let z := fresh "sz" in let Hz := fresh "Hsz" in apply rbind_ok in H as (z & Hz & H)
  | H : rbind (tl_assert _ _) _ = Ok _ |- _ => apply rbind_ok in H as ([] & _ & H)
  end.

Lemma step_Dirty env id k tr tr1 ops d :
  in_trav id (S k) tr ops -> match mAddr d with Some a => guest_expr n0 a | None => True end ->
  curr_inode tr = Some (id, k) -> instr_Dirty cs mls tr d = Ok tr1 ->
  in_trav id (S k) tr1 (ops ++ stmt_ops cs bs mls c env (id, k) (cia tr) (isize tr) (Ist_Dirty d)) /\
  cia tr1 = cia tr /\ isize tr1 = isize tr.
Proof.
  intros Hi Hg Hc H. unfold instr_Dirty in H. cbn [stmt_ops].
  destruct (mAddr d) as [ea|]; destruct (bool_decide_reflect (mFx d = Ifx_None)) as [Hfx|Hfx];
    data_step Hi Hc; [by injection H as <-; rewrite Hfx, app_nil_r
                     | |by injection H as <-; rewrite app_nil_r|done].
  apply rbind_ok in H as (cgs1 & H1 & H). apply rbind_ok in H as (cgs2 & H2 & [= <-]).
  split; [|done]. apply in_trav_stay; [done| |].
  - rewrite app_assoc.
    assert (in_step cgs1 (ops ++ match mFx d with
      | Ifx_Read | Ifx_Modify => g_load cs (id, k) ea (clamp mls (mSize d)) | _ => [] end)) as Hi1.
    { destruct (mFx d); try (by eapply step_Dr; [apply Hi|..]);
        injection H1 as <-; rewrite app_nil_r; apply Hi. }
    destruct (mFx d); try (by eapply step_Dw; [apply Hi1|..]);
      injection H2 as <-; rewrite app_nil_r; apply Hi1.
  - eapply (same_slots_trans _ cgs1).
    + destruct (mFx d); [done|by eapply Dr_slots|by injection H1 as <-|by eapply Dr_slots].
    + destruct (mFx d); [done|by injection H2 as <-|by eapply Dw_slots|by eapply Dw_slots].
Qed.

Lemma switch_data hty env id k tr tr1 ops st :
  in_trav id (S k) tr ops -> guest_stmt st -> is_IMark st = false -> is_Exit st = false ->
  instr_switch arch cs bs mls di c hty env tr st = Ok tr1 ->
  in_trav id (S k) tr1 (ops ++ stmt_ops cs bs mls c env (id, k) (cia tr) (isize tr) st) /\
  cia tr1 = cia tr /\ isize tr1 = isize tr.
Proof.
  intros Hi Hg Him Hex H. pose proof (it_inode _ _ _ _ Hi ltac:(lia)) as Hc. cbn [Nat.pred] in Hc.
  assert (in_trav id (S k) tr (ops ++ [])) as Hi0 by (by rewrite app_nil_r).
  destruct st as [ |a l d|b l n|o d|i d|t e|a d|cv ds a al g|a d g|a eh el dh dl|r a sd|d| |g j d];
    cbn [instr_switch stmt_ops is_IMark is_Exit guest_stmt] in *; try done;
    try (by injection H as <-).
  - destruct e; try (by injection H as <-). data_step Hi Hc.
    apply rbind_ok in H as (cgs & Hd & [= <-]). rewrite (size_of_ok _ ty _ eq_refl Hsz).
    split; [|done]. apply in_trav_stay; [done| |by eapply Dr_slots].
    eapply step_Dr; [apply Hi|apply Hg|done].
  - data_step Hi Hc. apply rbind_ok in H as (cgs & Hd & [= <-]).
    rewrite (size_of_ok _ ty _ Hty Hsz). split; [|done].
    apply in_trav_stay; [done| |by eapply Dw_slots]. by eapply step_Dw; [apply Hi|..].
  - data_step Hi Hc. apply rbind_ok in H as (cgs & Hd & [= <-]).
    rewrite Hty. cbn [rbind]. rewrite (size_of_ok _ ty _ eq_refl Hsz). split; [|done].
    apply in_trav_stay; [done| |by eapply guarded_slots].
    destruct Hg. by eapply step_guarded; [apply Hi|..].
  - data_step Hi Hc. apply rbind_ok in H as (cgs & Hd & [= <-]).
    rewrite (size_of_ok _ ty _ Hty Hsz). split; [|done].
    apply in_trav_stay; [done| |by eapply guarded_slots].
    destruct Hg. by eapply step_guarded; [apply Hi|..].
  - data_step Hi Hc. apply rbind_ok in H as (cgs1 & Hd1 & H).
    apply rbind_ok in H as (cgs & Hd & [= <-]). rewrite (size_of_ok _ ty _ Hty Hsz).
    split; [|done]. apply in_trav_stay; [done| |].
    + rewrite app_assoc. eapply step_Dw; [|done|done]. by eapply step_Dr; [apply Hi|..].
    + eapply same_slots_trans; [by eapply Dr_slots|by eapply Dw_slots].
  - data_step Hi Hc. destruct sd as [data|]; data_step Hi Hc.
    + apply rbind_ok in H as (cgs & Hd & [= <-]). rewrite (size_of_ok _ ty _ Hty Hsz).
      split; [|done]. apply in_trav_stay; [done| |by eapply Dw_slots].
      by eapply step_Dw; [apply Hi|..].
    + apply rbind_ok in H as (cgs1 & Hd1 & H). apply rbind_ok in H as (cgs & Hf & [= <-]).
      rewrite (size_of_ok _ ty _ Hty Hsz). split; [|done]. apply in_trav_stay; [done| |].
      * rewrite app_assoc. eapply step_flush; [|done]. by eapply step_Dr; [apply Hi|..].
      * eapply same_slots_trans; [by eapply Dr_slots|by eapply flush_slots].
  - apply (step_Dirty env); [done|apply Hg|done|done].
Qed.

(** The instruction a statement belongs to. *)
Definition advance (st : IRStmt) (x : nat * Z * Z) : nat * Z * Z :=
  match st with
  | Ist_IMark addr len _ => (S x.1.1, addr, if len =? 0 then VG_MIN_INSTR_SZB arch else len)
  | _ => x
  end.

Lemma step_stmt hty env id k tr tr' ops st :
  in_trav id k tr ops -> guest_stmt st -> is_IMark st = true \/ (0 < k)%nat ->
  instr_stmt arch cs bs mls di c hty env st tr = Ok tr' ->
  let '(k', a', z') := advance st (k, cia tr, isize tr) in
  in_trav id k' tr' (ops ++ stmt_ops cs bs mls c env (id, Nat.pred k') a' z' st) /\
  cia tr' = a' /\ isize tr' = z' /\ (0 < k')%nat.
Proof.
  intros Hi Hg Hk H. unfold instr_stmt in H. apply rbind_ok in H as ([] & _ & H).
  apply rbind_ok in H as (tr1 & Hsw & [= <-]).
  assert (forall k' a z ops', in_trav id k' tr1 ops' /\ cia tr1 = a /\ isize tr1 = z ->
    is_Exit st = false -> (0 < k')%nat ->
    in_trav id k' (with_cgs tr1 (addStmt (tr_cgs tr1) [st])) ops' /\
    cia (with_cgs tr1 (addStmt (tr_cgs tr1) [st])) = a /\
    isize (with_cgs tr1 (addStmt (tr_cgs tr1) [st])) = z /\ (0 < k')%nat) as Hcopy.
  { intros k' a z ops' ([Hs1 Hs2 Hs3 Hs4] & <- & <-) Hx Hk'. split; [|done].
    split; cbn; [by apply step_copy|done|done|done]. }
  destruct (is_IMark st) eqn:Him.
  { destruct st as [|addr len delta| | | | | | | | | | | |]; try done. cbn [advance fst snd].
    apply Hcopy; [|done|lia]. by eapply step_IMark. }
  assert (advance st (k, cia tr, isize tr) = (k, cia tr, isize tr)) as -> by (by destruct st).
  destruct Hk as [?|Hk]; [done|]. destruct k as [|k]; [lia|]. cbn [Nat.pred].
  destruct (is_Exit st) eqn:Hex; [|apply Hcopy; [by eapply switch_data|done|lia]].
  destruct st; try done. cbn [instr_switch] in Hsw.
  pose proof (it_inode _ _ _ _ Hi ltac:(lia)) as Hc. cbn [Nat.pred] in Hc.
  destruct (Exit_slots _ _ _ _ _ _ Hsw) as ([Hs1 Hs2] & Hcia & Hisz & Hin).
  split; [|by cbn; rewrite Hcia, Hisz; repeat split; lia].
  destruct Hi as [Hst Hid Hsl Hn]. split; cbn [tr_cgs with_cgs addStmt sbInfo sbInfo_i curr_inode];
    [|congruence|congruence|by rewrite Hin].
  by eapply step_Exit.
Qed.

Lemma steps_body hty env id sts k tr tr' ops :
  in_trav id k tr ops -> Forall guest_stmt sts ->
  (0 < k)%nat \/ (exists st, head sts = Some st /\ is_IMark st = true) \/ sts = [] ->
  res_fold (instr_stmt arch cs bs mls di c hty env) sts tr = Ok tr' ->
  in_trav id (k + count_IMarks sts) tr'
    (ops ++ body_ops arch cs bs mls c env id k (cia tr) (isize tr) sts).
Proof.
  intros Hi Hg. revert k tr ops Hi. induction Hg as [|st sts Hst Hg IH]; intros k tr ops Hi Hk H.
  { cbn in *. injection H as <-. by rewrite Nat.add_0_r, app_nil_r. }
  cbn [res_fold] in H. apply rbind_ok in H as (tr1 & H1 & H2).
  assert (is_IMark st = true \/ (0 < k)%nat) as Hk'.
  { destruct Hk as [?|[(st' & [= <-] & ?)|[=]]]; auto. }
  pose proof (step_stmt hty env id k tr tr1 ops st Hi Hst Hk' H1) as Hstep.
  assert (count_IMarks (st :: sts) = (if is_IMark st then 1 else 0) + count_IMarks sts)%nat as ->
    by (unfold count_IMarks; simpl; by destruct (is_IMark st)).
  assert (body_ops arch cs bs mls c env id k (cia tr) (isize tr) (st :: sts) =
    let '(k', a', z') := advance st (k, cia tr, isize tr) in
    stmt_ops cs bs mls c env (id, Nat.pred k') a' z' st ++ body_ops arch cs bs mls c env id k' a' z' sts)
    as -> by (by destruct st).
  assert ((advance st (k, cia tr, isize tr)).1.1 = k + (if is_IMark st then 1 else 0))%nat as Hadv
    by (destruct st; simpl; lia).
  destruct (advance st (k, cia tr, isize tr)) as [[k' a'] z']. cbn [fst] in Hadv.
  destruct Hstep as (Hi1 & Ha & Hz & Hpos).
  rewrite app_assoc, Nat.add_assoc, <- Hadv, <- Ha, <- Hz.
  apply IH; [|by left|done]. by rewrite Ha, Hz.
Qed.

(** *** The whole block *)

Lemma in_step_start pre envt :
  Forall guest_stmt pre -> (n0 <= length envt)%nat ->
  forall id i x y, in_step (MkCgState [] id i envt pre x y) (pre_ops pre).
Proof.
  intros Hg Ht id i x y. induction pre as [|st pre IH] using rev_ind.
  { split; [done|constructor|done]. }
  apply Forall_app in Hg as [Hg Hst]. apply Forall_cons in Hst as [Hst _].
  specialize (IH Hg). unfold pre_ops in *. rewrite flat_map_app. cbn [flat_map].
  rewrite app_nil_r. destruct (is_Exit st) eqn:Hx.
  - destruct st; try done. by apply (step_exit (MkCgState [] id i envt pre x y)).
  - assert ((match st with Ist_Exit guard _ _ => [G_exit guard] | _ => [] end) = []) as ->
      by (by destruct st).
    rewrite app_nil_r. by apply (step_copy (MkCgState [] id i envt pre x y)).
Qed.

Lemma preamble_app sts : fst (preamble sts) ++ snd (preamble sts) = sts.
Proof.
  induction sts as [|st sts IH]; simpl; [done|]. destruct (is_IMark st); [done|].
  destruct (preamble sts). simpl in *. by rewrite IH.
Qed.

Definition guest_next (nxt : IRExpr) : Prop :=
  match nxt with Iex_RdTmp t => (t < n0)%nat | _ => True end.

Lemma step_next id k tr tr' ops nxt jk :
  in_trav id (S k) tr ops -> guest_next nxt -> instr_next cs bs tr nxt jk = Ok tr' ->
  in_step (tr_cgs tr') (ops ++ next_ops bs (id, k) nxt jk) /\ tr_T tr' = tr_T tr.
Proof.
  intros Hi Hg H. pose proof (it_inode _ _ _ _ Hi ltac:(lia)) as Hc. cbn [Nat.pred] in Hc.
  pose proof (it_step _ _ _ _ Hi) as Hst. unfold instr_next in H. unfold next_ops.
  destruct jk; try (injection H as <-; by rewrite app_nil_r);
    destruct nxt; try discriminate H; try (injection H as <-; by rewrite app_nil_r);
    data_step Hi Hc; apply rbind_ok in H as (cgs & H & [= <-]); unfold addEvent_Bi in H;
    do 3 (apply rbind_ok in H as (? & _ & H)); (split; [|done]); destruct bs; cbn [negb] in H;
    try (injection H as <-; by rewrite app_nil_r); by eapply step_push.
Qed.

Definition ref_pair (r : ref_outcome) : cg_state * bool :=
  match r with RRun s _ => (s, true) | RExit s => (s, false) end.

End steps.

(** ** Theorems *)



(** A block with a read-modify-write, a conditional exit and an indirect jump. *)
Definition demo_block : IRSB := MkIRSB
  [Ity_I64; Ity_I64; Ity_I1]
  [Ist_IMark 4096 4 0;
   Ist_WrTmp 1%nat (Iex_Load Ity_I64 (Iex_RdTmp 0%nat));
   Ist_Store (Iex_RdTmp 0%nat) (Iex_RdTmp 1%nat);
   Ist_IMark 4100 4 0;
   Ist_Exit (Iex_RdTmp 2%nat) Ijk_Boring (Ico_U64 4096);
   Ist_IMark 4104 3 0;
   Ist_StoreG (Iex_RdTmp 0%nat) (Iex_RdTmp 1%nat) (Iex_RdTmp 2%nat)]
  (Iex_RdTmp 1%nat) Ijk_Boring.

Definition demo_env : tmp_env := fun t => nth t [8192; 4096; 0] 0.

Definition demo_instrument : res (cg_tables * (Z * Z) * IRSB) :=
  cg_instrument VGA_amd64 true true 64 demo_debug_info demo_caches empty_tables (0, 0)
    demo_block 4096 4096 Ity_I64 Ity_I64.

Lemma demo_block_guest :
  Forall (guest_stmt (length (tyenv demo_block))) (stmts demo_block) /\
  guest_next (length (tyenv demo_block)) (next demo_block).
Proof. split; [repeat constructor; cbn; lia|cbn; lia]. Qed.


(** The demonstration block does run to its end. *)
Example demo_block_runs :
  match demo_instrument with
  | Ok (T', _, sbOut) =>
      match exec VGA_amd64 3%nat (stmts sbOut) demo_env (MkState T' demo_caches bp_init) with
      | Ok (Running _ _) => True
      | _ => False
      end
  | Err _ => False
  end.
Proof. vm_compute. exact I. Qed.
