(* ===== verification/CgInstrumentTotal.v ===== *)
(** * Instrumentation is transparent and total

    Two more properties of [cg_instrument].  Transparency: the original block
    is what remains of the output when the profiler's own statements are taken
    away, and these assign only fresh temporaries, each once.  Totality: on a
    well-formed block none of the assertions of the traversal fails, and every
    instruction ends up with a descriptor that points to the counters of its
    source line. *)

From Stdlib Require Import ZArith Lia.
From stdpp Require Import base numbers option strings gmap list.
From S2P Require Import Prelude Libcbase CgArch CgSim CgBranchPred OSet CgTables CgLog.
From S2P Require Import VexIR CgInstrument CgInstrumentSpec.

#[local] Open Scope Z_scope.

(** ** Transparency *)

Section transparent.
Context (n0 : nat).

(** A statement of the profiler: a call of one of its helpers, or an
    assignment to a temporary the original block does not have. *)
Definition added (st : IRStmt) : bool :=
  match st with
  | Ist_Dirty d => match cee d with Cee_cg _ _ => true | Cee_other _ => false end
  | Ist_WrTmp t _ => Nat.leb n0 t
  | _ => false
  end.

Definition strip (sts : list IRStmt) : list IRStmt := List.filter (fun st => negb (added st)) sts.

(** The temporaries assigned by the profiler, in order. *)
Definition added_tmps (sts : list IRStmt) : list IRTemp :=
  flat_map (fun st => match st with
                      | Ist_WrTmp t _ => if Nat.leb n0 t then [t] else []
                      | _ => [] end) sts.

Lemma strip_app l1 l2 : strip (l1 ++ l2) = strip l1 ++ strip l2.
Proof. apply List.filter_app. Qed.

Lemma added_tmps_app l1 l2 : added_tmps (l1 ++ l2) = added_tmps l1 ++ added_tmps l2.
Proof. apply flat_map_app. Qed.

Lemma guest_not_added st : guest_stmt n0 st -> strip [st] = [st] /\ added_tmps [st] = [].
Proof.
  destruct st; cbn; try done.
  - intros [Ht _]. by rewrite (proj2 (Nat.leb_gt _ _) Ht).
  - intros [[name ->] _]. done.
Qed.

Lemma guest_strip sts : Forall (guest_stmt n0) sts -> strip sts = sts /\ added_tmps sts = [].
Proof.
  induction 1 as [|st sts Hst _ [IH1 IH2]]; [done|].
  change (st :: sts) with ([st] ++ sts). rewrite strip_app, added_tmps_app, IH1, IH2.
  by destruct (guest_not_added st Hst) as [-> ->].
Qed.

(** The output has grown by statements of the profiler and the temporaries
    they assign. *)
Definition grows (cgs cgs' : CgState) : Prop :=
  exists sts tys,
    out_stmts cgs' = out_stmts cgs ++ sts /\ out_tyenv cgs' = out_tyenv cgs ++ tys /\
    strip sts = [] /\ added_tmps sts = seq (length (out_tyenv cgs)) (length tys).

Lemma grows_refl cgs cgs' :
  out_stmts cgs' = out_stmts cgs -> out_tyenv cgs' = out_tyenv cgs -> grows cgs cgs'.
Proof. intros H1 H2. exists [], []. by rewrite H1, H2, !app_nil_r. Qed.

Lemma grows_trans cgs1 cgs2 cgs3 : grows cgs1 cgs2 -> grows cgs2 cgs3 -> grows cgs1 cgs3.
Proof.
  intros (s1 & t1 & H1 & H2 & H3 & H4) (s2 & t2 & K1 & K2 & K3 & K4).
  exists (s1 ++ s2), (t1 ++ t2). rewrite K1, K2, H1, H2, strip_app, added_tmps_app, H3, K3, H4, K4.
  rewrite !app_assoc, H2, !length_app. repeat split. by rewrite seq_app.
Qed.

(** A call of a helper. *)
Definition is_call (st : IRStmt) : Prop := exists d rp h, st = Ist_Dirty d /\ cee d = Cee_cg rp h.

Lemma calls_added sts : Forall is_call sts -> strip sts = [] /\ added_tmps sts = [].
Proof.
  induction 1 as [|st sts (d & rp & h & -> & Hd) _ [IH1 IH2]]; [done|].
  change (Ist_Dirty d :: sts) with ([Ist_Dirty d] ++ sts).
  rewrite strip_app, added_tmps_app, IH1, IH2. cbn. by rewrite Hd.
Qed.

Context (arch : VGA) (cs bs : bool) (mls : Z).

Lemma flush_calls evs sts : flush_list cs evs = Ok sts -> Forall is_call sts.
Proof.
  revert sts. induction evs as [evs IH] using (induction_ltof1 _ length). unfold ltof in IH.
  intros sts H. 
  assert (forall tl rp h args r, (length tl < length evs)%nat ->
    (let! rest := flush_list cs tl in Ok (call rp h args :: rest)) = Ok r -> Forall is_call r)
    as Hone.
  { intros tl rp h args r Hl Hr. apply rbind_ok in Hr as (rest & Hrest & [= <-]).
    constructor; [by eexists _, rp, h|by eapply IH]. }
  destruct evs as [|e1 tl]; [by injection H as <-|].
  destruct e1; cbn [flush_list] in H; try (eapply Hone; [|exact H]; simpl; lia).
  destruct tl as [|e2 tl2]; [eapply Hone; [|exact H]; simpl; lia|].
  destruct e2; try (eapply Hone; [|exact H]; simpl; lia);
    try (apply rbind_ok in H as ([] & _ & H); eapply Hone; [|exact H]; simpl; lia).
  destruct tl2 as [|[] tl3]; (eapply Hone; [|exact H]; simpl; lia).
Qed.

Lemma flush_grows cgs cgs' : flushEvents cs cgs = Ok cgs' -> grows cgs cgs'.
Proof.
  unfold flushEvents. intros H. apply rbind_ok in H as (sts & H & [= <-]).
  apply flush_calls, calls_added in H as [H1 H2]. exists sts, []. cbn.
  by rewrite app_nil_r, H1, H2.
Qed.

Lemma push_grows cgs cgs' ev : push_event cs cgs ev = Ok cgs' -> grows cgs cgs'.
Proof.
  unfold push_event. intros H. apply rbind_ok in H as (cgs1 & H1 & H).
  apply rbind_ok in H as ([] & _ & [= <-]).
  apply (grows_trans _ cgs1); [|by apply grows_refl].
  destruct (Nat.eqb _ _); [by apply flush_grows|injection H1 as <-; by apply grows_refl].
Qed.

Lemma Dr_grows cgs cgs' n sz ea : addEvent_Dr cs mls cgs n sz ea = Ok cgs' -> grows cgs cgs'.
Proof.
  unfold addEvent_Dr. intros H. apply rbind_ok in H as ([] & _ & H).
  destruct (negb cs); [injection H as <-; by apply grows_refl|by eapply push_grows].
Qed.

Lemma Dw_grows cgs cgs' n sz ea : addEvent_Dw cs mls cgs n sz ea = Ok cgs' -> grows cgs cgs'.
Proof.
  unfold addEvent_Dw. intros H. apply rbind_ok in H as ([] & _ & H).
  destruct (negb cs); [injection H as <-; by apply grows_refl|].
  apply rbind_ok in H as ([] & _ & H); [injection H as <-; by apply grows_refl|by eapply push_grows].
Qed.

Lemma guarded_grows cgs cgs' n sz ea g w :
  addEvent_D_guarded cs mls cgs n sz ea g w = Ok cgs' -> grows cgs cgs'.
Proof.
  unfold addEvent_D_guarded. intros H. do 3 (apply rbind_ok in H as ([] & _ & H)).
  destruct (negb cs); [injection H as <-; by apply grows_refl|].
  apply rbind_ok in H as (cgs1 & H1 & [= <-]). apply (grows_trans _ cgs1); [by apply flush_grows|].
  eexists _, []. split; [reflexivity|]. by rewrite app_nil_r.
Qed.

Lemma Ir_grows c T cgs cgs' n : addEvent_Ir cs c T cgs n = Ok cgs' -> grows cgs cgs'.
Proof.
  unfold addEvent_Ir. intros H. apply rbind_ok in H as (ii & _ & H).
  destruct (cachesim_is_IrNoX _ _ _); apply rbind_ok in H as (cgs1 & H1 & [= <-]);
    (apply (grows_trans _ cgs1); [by eapply push_grows|by apply grows_refl]).
Qed.

Lemma Bi_grows cgs cgs' n e : addEvent_Bi cs bs cgs n e = Ok cgs' -> grows cgs cgs'.
Proof.
  unfold addEvent_Bi. intros H. do 3 (apply rbind_ok in H as (? & _ & H)).
  destruct (negb bs); [injection H as <-; by apply grows_refl|by eapply push_grows].
Qed.

Lemma Bc_grows cgs cgs' n e : addEvent_Bc cs bs cgs n e = Ok cgs' -> grows cgs cgs'.
Proof.
  unfold addEvent_Bc. intros H. do 3 (apply rbind_ok in H as (? & _ & H)).
  destruct (negb bs); [injection H as <-; by apply grows_refl|by eapply push_grows].
Qed.

(** The three temporaries of a widened guard. *)
Lemma guard_grows cgs t1 t2 t3 ty2 ty3 e1 e2 e3 :
  (n0 <= length (out_tyenv cgs))%nat ->
  t1 = length (out_tyenv cgs) -> t2 = S t1 -> t3 = S t2 ->
  grows cgs (addStmt (set_tyenv cgs (((out_tyenv cgs ++ [Ity_I1]) ++ [ty2]) ++ [ty3]))
    [Ist_WrTmp t1 e1; Ist_WrTmp t2 e2; Ist_WrTmp t3 e3]).
Proof.
  intros Hn -> -> ->. eexists _, [Ity_I1; ty2; ty3]. split; [reflexivity|].
  cbn [out_tyenv addStmt set_tyenv]. rewrite <- !app_assoc. split; [done|].
  unfold strip. cbn [List.filter added added_tmps flat_map negb].
  rewrite !(proj2 (Nat.leb_le _ _)) by lia. done.
Qed.

Lemma Exit_grows hty tr tr' guard jk dst :
  (n0 <= length (out_tyenv (tr_cgs tr)))%nat ->
  instr_Exit cs bs hty tr guard jk dst = Ok tr' -> grows (tr_cgs tr) (tr_cgs tr').
Proof.
  intros Hn H. unfold instr_Exit in H. apply rbind_ok in H as (cgs1 & H1 & H).
  apply rbind_ok in H as (cgs2 & H2 & [= <-]). cbn [tr_cgs with_cgs].
  apply (grows_trans _ cgs1); [|by apply flush_grows].
  unfold newIRTemp in H1.
  destruct jk as [| | |x]; [| | |injection H1 as <-; by apply grows_refl];
    apply rbind_ok in H1 as (sea & _ & H1); apply rbind_ok in H1 as (n & _ & H1);
    apply Bc_grows in H1; (eapply grows_trans; [|exact H1]);
    apply guard_grows; rewrite ?length_app; simpl; lia.
Qed.

Lemma switch_grows di c hty env tr tr' st :
  (n0 <= length (out_tyenv (tr_cgs tr)))%nat ->
  instr_switch arch cs bs mls di c hty env tr st = Ok tr' -> grows (tr_cgs tr) (tr_cgs tr').
Proof.
  intros Hn H.
  destruct st; cbn [instr_switch] in H; try (injection H as <-; by apply grows_refl).
  - unfold instr_IMark in H. apply rbind_ok in H as ([] & _ & H).
    apply rbind_ok in H as ([[T i] n] & _ & H). apply rbind_ok in H as (cgs & H & [= <-]).
    apply Ir_grows in H. eapply grows_trans; [|exact H]. by apply grows_refl.
  - destruct data; try (injection H as <-; by apply grows_refl).
    apply rbind_ok in H as (n & _ & H). apply rbind_ok in H as (sz & _ & H).
    apply rbind_ok in H as (cgs & H & [= <-]). by apply Dr_grows in H.
  - do 3 (apply rbind_ok in H as (? & _ & H)). apply rbind_ok in H as (cgs & H & [= <-]).
    by apply Dw_grows in H.
  - apply rbind_ok in H as (n & _ & H). apply rbind_ok in H as ([? ty] & _ & H).
    do 2 (apply rbind_ok in H as (? & _ & H)). apply rbind_ok in H as (cgs & H & [= <-]).
    by apply guarded_grows in H.
  - do 4 (apply rbind_ok in H as (? & _ & H)). apply rbind_ok in H as (cgs & H & [= <-]).
    by apply guarded_grows in H.
  - do 3 (apply rbind_ok in H as (? & _ & H)). apply rbind_ok in H as (cgs1 & H1 & H).
    apply rbind_ok in H as (cgs & H & [= <-]). apply Dr_grows in H1. apply Dw_grows in H.
    by eapply grows_trans.
  - apply rbind_ok in H as (n & _ & H).
    destruct storedata; do 2 (apply rbind_ok in H as (? & _ & H)).
    + apply rbind_ok in H as (cgs & H & [= <-]). by apply Dw_grows in H.
    + apply rbind_ok in H as (cgs1 & H1 & H). apply rbind_ok in H as (cgs & H & [= <-]).
      apply Dr_grows in H1. apply flush_grows in H. by eapply grows_trans.
  - unfold instr_Dirty in H. destruct (bool_decide _).
    { do 2 (apply rbind_ok in H as (? & _ & H)). injection H as <-. by apply grows_refl. }
    destruct (mAddr details); [|done]. do 2 (apply rbind_ok in H as (? & _ & H)).
    apply rbind_ok in H as (cgs1 & H1 & H). apply rbind_ok in H as (cgs & H & [= <-]).
    cbn [tr_cgs with_cgs]. apply (grows_trans _ cgs1).
    + destruct (mFx details); try (injection H1 as <-; by apply grows_refl); by apply Dr_grows in H1.
    + destruct (mFx details); try (injection H as <-; by apply grows_refl); by apply Dw_grows in H.
  - by eapply Exit_grows.
Qed.

(** The output so far: the original statements [l] read so far remain, the
    type environment extends the original one, and every temporary beyond it
    is assigned exactly once. *)
Record out_inv (envt : IRTypeEnv) (cgs : CgState) (l : list IRStmt) : Prop := {
  oi_strip : strip (out_stmts cgs) = l;
  oi_tyenv : exists tys, out_tyenv cgs = envt ++ tys;
  oi_tmps : added_tmps (out_stmts cgs) = seq n0 (length (out_tyenv cgs) - n0)
}.

Context (envt : IRTypeEnv) (Hn0 : length envt = n0).

Lemma out_inv_len cgs l : out_inv envt cgs l -> (n0 <= length (out_tyenv cgs))%nat.
Proof. intros [_ [tys ->] _]. rewrite length_app. lia. Qed.

Lemma out_inv_grows cgs cgs' l : out_inv envt cgs l -> grows cgs cgs' -> out_inv envt cgs' l.
Proof.
  intros Hi (sts & tys & H1 & H2 & H3 & H4). pose proof (out_inv_len _ _ Hi) as Hl.
  destruct Hi as [I1 [tys0 I2] I3]. split.
  - by rewrite H1, strip_app, I1, H3, app_nil_r.
  - exists (tys0 ++ tys). by rewrite H2, I2, app_assoc.
  - rewrite H1, added_tmps_app, I3, H4, H2, length_app.
    replace (_ + _ - _)%nat with ((length (out_tyenv cgs) - n0) + length tys)%nat by lia.
    rewrite seq_app. do 2 f_equal. lia.
Qed.

Lemma out_inv_copy cgs l st :
  out_inv envt cgs l -> guest_stmt n0 st -> out_inv envt (addStmt cgs [st]) (l ++ [st]).
Proof.
  intros [I1 I2 I3] Hg. apply guest_not_added in Hg as [H1 H2]. split; [|done|]; cbn.
  - by rewrite strip_app, I1, H1.
  - by rewrite added_tmps_app, I3, H2, app_nil_r.
Qed.

Lemma body_transparent di c hty env sts tr tr' l :
  Forall (guest_stmt n0) sts -> out_inv envt (tr_cgs tr) l ->
  res_fold (instr_stmt arch cs bs mls di c hty env) sts tr = Ok tr' ->
  out_inv envt (tr_cgs tr') (l ++ sts).
Proof.
  intros Hg. revert tr l. induction Hg as [|st sts Hst _ IH]; intros tr l Hi H.
  { injection H as <-. by rewrite app_nil_r. }
  cbn [res_fold] in H. apply rbind_ok in H as (tr1 & H1 & H2).
  change (st :: sts) with ([st] ++ sts). rewrite app_assoc. eapply IH; [|exact H2].
  unfold instr_stmt in H1. apply rbind_ok in H1 as ([] & _ & H1).
  apply rbind_ok in H1 as (tr2 & H1 & [= <-]). apply out_inv_copy; [|done].
  eapply out_inv_grows; [exact Hi|]. eapply switch_grows; [by eapply out_inv_len|exact H1].
Qed.

End transparent.

(** C23. Instrumentation only adds: taking the profiler's helper calls and its
    assignments away from the instrumented block leaves the original
    statements, all of them and in order; the jump at the end is the original
    one; the types of the original temporaries are unchanged; and the
    temporaries beyond them are each assigned exactly once, in increasing
    order, so the block stays in static single assignment form. *)
Theorem instrument_transparent (arch : VGA) (cs bs : bool) (mls : Z) (di : debug_info)
    (c : caches3) (T T' : cg_tables) (st st' : Z * Z) (sbIn sbOut : IRSB) (readdr base0 : Z)
    (gty hty : IRType) :
  let n0 := length (tyenv sbIn) in
  Forall (guest_stmt n0) (stmts sbIn) ->
  cg_instrument arch cs bs mls di c T st sbIn readdr base0 gty hty = Ok (T', st', sbOut) ->
  strip n0 (stmts sbOut) = stmts sbIn /\
  next sbOut = next sbIn /\ jumpkind sbOut = jumpkind sbIn /\
  (exists tys, tyenv sbOut = tyenv sbIn ++ tys) /\
  added_tmps n0 (stmts sbOut) = seq n0 (length (tyenv sbOut) - n0).
Proof.
  intros n0 Hg H. unfold cg_instrument in H. destruct (negb _); [done|].
  pose proof (preamble_app (stmts sbIn)) as Happ.
  destruct (preamble (stmts sbIn)) as [pre body]. cbn [fst snd] in Happ.
  destruct body as [|[|addr len delta| | | | | | | | | | | |] body]; try done.
  apply rbind_ok in H as ([] & _ & H). apply rbind_ok in H as ([T1 id] & _ & H).
  apply rbind_ok in H as (tr1 & Hbody & H). apply rbind_ok in H as (tr2 & Hnext & H).
  apply rbind_ok in H as (cgs & Hflush & H).
  destruct (SB_store (tr_T tr2) !! id) as [sb|]; [|done].
  apply rbind_ok in H as ([] & _ & H). injection H as _ _ <-. cbn [stmts next jumpkind tyenv].
  rewrite <- Happ in Hg |- *. apply Forall_app in Hg as [Hgp Hgb].
  eapply (body_transparent n0 arch cs bs mls (tyenv sbIn) eq_refl _ _ _ _ _ _ _ pre) in Hbody;
    [|done|].
  2:{ destruct (guest_strip n0 pre Hgp) as [H1 H2].
      split; cbn [out_stmts out_tyenv tr_cgs]; [done|by exists []; rewrite app_nil_r|].
      by rewrite H2, Nat.sub_diag. }
  assert (out_inv n0 (tyenv sbIn) cgs (pre ++ Ist_IMark addr len delta :: body)) as Hi.
  { eapply (out_inv_grows n0 (tyenv sbIn) eq_refl); [exact Hbody|].
    apply flush_grows with (n0 := n0) in Hflush. eapply grows_trans; [|exact Hflush].
    unfold instr_next in Hnext. destruct (jumpkind sbIn);
      try (injection Hnext as <-; by apply grows_refl);
      destruct (next sbIn); try discriminate Hnext;
      try (injection Hnext as <-; by apply grows_refl);
      apply rbind_ok in Hnext as (n & _ & Hnext); apply rbind_ok in Hnext as (cgs' & Hnext & [= <-]);
      by apply Bi_grows with (n0 := n0) in Hnext. }
  destruct Hi as [I1 I2 I3]. split; [exact I1|]. split; [done|]. split; [done|]. split; [exact I2|exact I3].
Qed.

Lemma instrument_transparent_witness :
  match demo_instrument with
  | Ok (_, _, sbOut) => strip 3%nat (stmts sbOut) = stmts demo_block /\
      added_tmps 3%nat (stmts sbOut) = [3; 4; 5]%nat
  | Err _ => False
  end.
Proof.
  destruct demo_instrument as [[[T' st'] sbOut]|] eqn:E; [|vm_compute in E; discriminate E].
  destruct (instrument_transparent VGA_amd64 true true 64 demo_debug_info demo_caches empty_tables T'
    (0, 0) st' demo_block sbOut 4096 4096 Ity_I64 Ity_I64 (proj1 demo_block_guest) E)
    as (H1 & _ & _ & _ & H5).
  split; [exact H1|]. etransitivity; [exact H5|]. vm_compute in E. injection E as _ _ <-. reflexivity.
Defined.

(** ** Totality *)

Section total.
Context (arch : VGA) (cs bs : bool) (mls : Z).

(** A guest address: a temporary or a 64-bit constant. *)
Definition addr_atom (e : IRExpr) : bool :=
  match e with Iex_RdTmp _ | Iex_Const (Ico_U64 _) => true | _ => false end.

(** A type with a size, at most [lim]. *)
Definition size_within (lim : Z) (ty : res IRType) : bool :=
  match (let! t := ty in sizeofIRType t) with Ok n => n <=? lim | Err _ => false end.

(** What the front ends produce, on a host with 64-bit words and lines of
    [mls] bytes. *)
Definition wf_stmt (envt : IRTypeEnv) (st : IRStmt) : bool :=
  isFlatIRStmt st &&
  match st with
  | Ist_IMark _ len _ =>
      let isz := if len =? 0 then VG_MIN_INSTR_SZB arch else len in
      ((VG_MIN_INSTR_SZB arch <=? isz) && (isz <=? VG_MAX_INSTR_SZB arch))
      || (VG_CLREQ_SZB arch =? isz)
  | Ist_WrTmp _ (Iex_Load ty ea) => addr_atom ea && size_within mls (Ok ty)
  | Ist_Store ea data | Ist_StoreG ea data _ =>
      addr_atom ea && size_within mls (typeOfIRExpr envt data)
  | Ist_LoadG cvt _ ea _ _ =>
      addr_atom ea && size_within mls (let! (_, t) := typeOfIRLoadGOp cvt in Ok t)
  | Ist_CAS ea _ _ _ lo => addr_atom ea && size_within 32 (typeOfIRExpr envt lo)
  | Ist_LLSC r ea None => addr_atom ea && size_within mls (typeOfIRTemp envt r)
  | Ist_LLSC _ ea (Some data) => addr_atom ea && size_within mls (typeOfIRExpr envt data)
  | Ist_Dirty d =>
      match mAddr d with
      | None => bool_decide (mFx d = Ifx_None) && (mSize d =? 0)
      | Some ea => negb (bool_decide (mFx d = Ifx_None)) && addr_atom ea && (1 <=? mSize d)
      end
  | Ist_Exit _ jk dst =>
      match jk, dst with Ijk_other _, _ | _, Ico_U64 _ => true | _, _ => false end
  | _ => true
  end.

(** The jump at the end. *)
Definition wf_next (envt : IRTypeEnv) (nxt : IRExpr) (jk : IRJumpKind) : bool :=
  match jk with
  | Ijk_Boring | Ijk_Call =>
      match nxt with
      | Iex_Const _ => true
      | Iex_RdTmp t => bool_decide (envt !! t = Some Ity_I64)
      | _ => false
      end
  | _ => true
  end.

Lemma size_within_ok lim ty : size_within lim ty = true ->
  exists t sz, ty = Ok t /\ sizeofIRType t = Ok sz /\ 1 <= sz <= lim.
Proof.
  unfold size_within. destruct ty as [t|]; cbn [rbind]; [|done].
  destruct (sizeofIRType t) as [sz|] eqn:E; [|done]. intros H%Z.leb_le.
  exists t, sz. split; [done|]. split; [done|]. split; [|done].
  destruct t; cbn in E; simplify_eq; lia.
Qed.

Lemma addr_atom_atom e : addr_atom e = true -> isIRAtom e = true.
Proof. by destruct e. Qed.

(** *** The event queue *)

(** The instruction of a data event. *)
Definition ev_data (ev : Event) : option inode :=
  match ev with Ev_Dr n _ _ | Ev_Dw n _ _ | Ev_Dm n _ _ => Some n | _ => None end.

(** A data event that directly follows an IrNoX belongs to the same instruction. *)
Fixpoint adj_ok (evs : list Event) : Prop :=
  match evs with
  | [] => True
  | ev :: tl =>
      (forall n n2, ev = Ev_IrNoX n -> head tl ≫= ev_data = Some n2 -> n2 = n) /\ adj_ok tl
  end.

Definition ev_atom (ev : Event) : Prop :=
  match ev with Ev_Dr _ ea _ => isIRAtom ea = true | _ => True end.

(** The queue while the current instruction is [cur]. *)
Record queue_ok (cur : option inode) (cgs : CgState) : Prop := {
  qo_len : (length (events cgs) <= N_EVENTS)%nat;
  qo_adj : adj_ok (events cgs);
  qo_last : forall n, last (events cgs) = Some (Ev_IrNoX n) -> cur = Some n;
  qo_atom : Forall ev_atom (events cgs)
}.

Lemma adj_ok_snoc evs ev :
  adj_ok evs -> (forall n n2, last evs = Some (Ev_IrNoX n) -> ev_data ev = Some n2 -> n2 = n) ->
  adj_ok (evs ++ [ev]).
Proof.
  induction evs as [|e evs IH]; cbn [app adj_ok]; intros H Hl; [by split; [intros|]|].
  destruct H as [H1 H2]. split; [|apply IH; [done|]].
  - intros n n2 -> Hd. destruct evs as [|e2 evs]; [by apply (Hl n)|by eapply H1].
  - intros n n2 Hn. apply Hl. by destruct evs.
Qed.

Lemma retag_data ev : ev_data (retag_Dm ev) = ev_data ev.
Proof. by destruct ev. Qed.

Lemma adj_ok_retag evs ev : adj_ok (evs ++ [ev]) -> adj_ok (evs ++ [retag_Dm ev]).
Proof.
  induction evs as [|e evs IH]; cbn [app adj_ok]; [by intros _; split; [intros|]|].
  intros [H1 H2]. split; [|by apply IH]. intros n n2 He Hd. eapply H1; [done|].
  destruct evs; cbn in *; by rewrite ?retag_data in Hd.
Qed.

Lemma flush_list_total evs : adj_ok evs -> exists sts, flush_list cs evs = Ok sts.
Proof.
  induction evs as [evs IH] using (induction_ltof1 _ length). unfold ltof in IH. intros H.
  assert (forall tl rp h args, (length tl < length evs)%nat -> adj_ok tl ->
    exists sts, (let! rest := flush_list cs tl in Ok (call rp h args :: rest)) = Ok sts) as Hone.
  { intros tl rp h args Hl Ha. destruct (IH tl Hl Ha) as [sts ->]. by eexists. }
  destruct evs as [|e1 tl]; [by eexists|]. cbn [adj_ok] in H. destruct H as [Ha H].
  destruct e1; cbn [flush_list]; try (apply Hone; [simpl; lia|done]).
  destruct tl as [|e2 tl2]; [apply Hone; [simpl; lia|done]|].
  cbn [adj_ok] in H. pose proof (proj2 H) as H2.
  destruct e2; try (apply Hone; [simpl; lia|done]);
    try (rewrite bool_decide_true by (by eapply Ha); cbn [tl_assert rbind];
         apply Hone; [simpl; lia|done]).
  destruct tl2 as [|[] tl3]; cbn [adj_ok] in H2; try (apply Hone; [simpl; lia|done]).
  apply Hone; [simpl; lia|apply H2].
Qed.

Lemma flush_total cur cgs cur' :
  queue_ok cur cgs ->
  exists cgs', flushEvents cs cgs = Ok cgs' /\ events cgs' = [] /\ queue_ok cur' cgs'.
Proof.
  intros [_ Ha _ _]. apply flush_list_total in Ha as [sts H]. unfold flushEvents. rewrite H.
  eexists. split; [done|]. split; [done|]. split; cbn; [lia|done|done|constructor].
Qed.

Lemma push_total cur cgs ev cur' :
  queue_ok cur cgs -> ev_atom ev -> (forall n2, ev_data ev = Some n2 -> cur = Some n2) ->
  (forall n, ev = Ev_IrNoX n -> cur' = Some n) ->
  exists cgs', push_event cs cgs ev = Ok cgs' /\ queue_ok cur' cgs'.
Proof.
  intros Hq Hat Hd Hn. unfold push_event.
  assert (exists cgs1, (if Nat.eqb (length (events cgs)) N_EVENTS then flushEvents cs cgs else Ok cgs)
    = Ok cgs1 /\ queue_ok cur cgs1 /\ (length (events cgs1) < N_EVENTS)%nat)
    as (cgs1 & -> & [Hl1 Ha1 Hla1 Hat1] & Hlt).
  { destruct (Nat.eqb_spec (length (events cgs)) N_EVENTS) as [He|He].
    - destruct (flush_total cur cgs cur Hq) as (cgs1 & H1 & H2 & H3). exists cgs1.
      rewrite H2. cbn. unfold N_EVENTS. repeat split; [done|apply H3..|lia].
    - exists cgs. split; [done|]. split; [done|]. pose proof (qo_len _ _ Hq). lia. }
  cbn [rbind]. rewrite (proj2 (Nat.ltb_lt _ _) Hlt). cbn [tl_assert rbind]. eexists. split; [done|].
  split; cbn [events set_events].
  - rewrite length_app. cbn. lia.
  - apply adj_ok_snoc; [done|]. intros n n2 Hlast Hd2. apply Hd in Hd2. apply Hla1 in Hlast. congruence.
  - intros n. rewrite last_snoc. intros [= ->]. by apply Hn.
  - apply Forall_app. split; [done|]. by constructor.
Qed.

Lemma assert_access_ok ea sz :
  addr_atom ea = true -> 1 <= sz <= mls -> assert_access mls ea sz = Ok tt.
Proof.
  intros Ha Hs. unfold assert_access. rewrite addr_atom_atom by done. cbn [tl_assert rbind].
  by rewrite !(proj2 (Z.leb_le _ _)) by lia.
Qed.

Lemma Dr_total cur cgs n sz ea :
  queue_ok cur cgs -> cur = Some n -> addr_atom ea = true -> 1 <= sz <= mls ->
  exists cgs', addEvent_Dr cs mls cgs n sz ea = Ok cgs' /\ queue_ok cur cgs'.
Proof.
  intros Hq Hn Ha Hs. unfold addEvent_Dr. rewrite assert_access_ok by done. cbn [rbind].
  destruct (negb cs); [by eexists|]. eapply push_total; [done|by apply addr_atom_atom|cbn; congruence|done].
Qed.

Lemma merges_total cur cgs n sz ea :
  queue_ok cur cgs -> addr_atom ea = true ->
  exists b, merges_with (last (events cgs)) n sz ea = Ok b /\
    (b = true -> exists l n' ea' sz', events cgs = l ++ [Ev_Dr n' ea' sz']).
Proof.
  intros Hq Ha. unfold merges_with. destruct (last (events cgs)) as [[]|] eqn:Hl; try (by exists false).
  destruct (_ && _); [|by exists false]. apply last_Some in Hl as [l Hl].
  pose proof (qo_atom _ _ Hq) as Hat. rewrite Hl in Hat. apply Forall_app in Hat as [_ Hat].
  apply Forall_cons in Hat as [Hat _]. cbn in Hat. unfold eqIRAtom.
  rewrite Hat, (addr_atom_atom _ Ha). cbn [tl_assert rbind].
  destruct ea0 as [| | | | | | | | |[]| | | | |]; try discriminate Hat;
    destruct ea as [| | | | | | | | |[]| | | | |]; try discriminate Ha; cbn;
    eexists; (split; [reflexivity|]); eauto.
Qed.

Lemma Dw_total cur cgs n sz ea :
  queue_ok cur cgs -> cur = Some n -> addr_atom ea = true -> 1 <= sz <= mls ->
  exists cgs', addEvent_Dw cs mls cgs n sz ea = Ok cgs' /\ queue_ok cur cgs'.
Proof.
  intros Hq Hn Ha Hs. unfold addEvent_Dw. rewrite assert_access_ok by done. cbn [rbind].
  destruct (negb cs); [by eexists|].
  destruct (merges_total cur cgs n sz ea Hq Ha) as (b & -> & Hb). cbn [rbind]. destruct b.
  - destruct (Hb eq_refl) as (l & n' & ea' & sz' & He). eexists. split; [done|].
    destruct Hq as [Hl Had Hla Hat]. unfold map_last. rewrite He in *. rewrite last_snoc, removelast_last.
    apply Forall_app in Hat as [Hat _]. split; cbn [events set_events].
    + rewrite length_app in *. done.
    + by apply adj_ok_retag.
    + intros n2. by rewrite last_snoc.
    + apply Forall_app. split; [done|]. by constructor.
  - eapply push_total; [done|done|cbn; congruence|done].
Qed.

Lemma guarded_total cur cgs n sz ea g w :
  queue_ok cur cgs -> addr_atom ea = true -> isIRAtom g = true -> 1 <= sz <= mls ->
  exists cgs', addEvent_D_guarded cs mls cgs n sz ea g w = Ok cgs' /\ queue_ok cur cgs'.
Proof.
  intros Hq Ha Hg Hs. unfold addEvent_D_guarded. rewrite (addr_atom_atom _ Ha), Hg.
  rewrite !(proj2 (Z.leb_le _ _)) by lia. cbn [andb tl_assert rbind].
  destruct (negb cs); [by eexists|].
  destruct (flush_total cur cgs cur Hq) as (cgs1 & -> & _ & Hq1). cbn [rbind]. eexists. split; [done|].
  by destruct Hq1.
Qed.

Lemma Bc_total cur cgs n e :
  queue_ok cur cgs -> isIRAtom e = true -> typeOfIRExpr (out_tyenv cgs) e = Ok Ity_I64 ->
  exists cgs', addEvent_Bc cs bs cgs n e = Ok cgs' /\ queue_ok cur cgs'.
Proof.
  intros Hq Ha Ht. unfold addEvent_Bc. rewrite Ha, Ht. cbn [tl_assert rbind].
  rewrite bool_decide_true by done. cbn [tl_assert rbind]. destruct (negb bs); [by eexists|].
  by eapply push_total.
Qed.

Lemma Bi_total cur cgs n e :
  queue_ok cur cgs -> isIRAtom e = true -> typeOfIRExpr (out_tyenv cgs) e = Ok Ity_I64 ->
  exists cgs', addEvent_Bi cs bs cgs n e = Ok cgs' /\ queue_ok cur cgs'.
Proof.
  intros Hq Ha Ht. unfold addEvent_Bi. rewrite Ha, Ht. cbn [tl_assert rbind].
  rewrite bool_decide_true by done. cbn [tl_assert rbind]. destruct (negb bs); [by eexists|].
  by eapply push_total.
Qed.

Lemma typeOfIRTemp_snoc (env : list IRType) ty : typeOfIRTemp (env ++ [ty]) (length env) = Ok ty.
Proof.
  assert ((env ++ [ty]) !! length env = Some ty) as E by (by apply list_lookup_middle).
  unfold typeOfIRTemp. unfold IRTypeEnv, IRTemp in *. by rewrite E.
Qed.

Lemma Exit_total n tr guard jk dst :
  queue_ok (Some n) (tr_cgs tr) -> curr_inode tr = Some n ->
  match jk, dst with Ijk_other _, _ | _, Ico_U64 _ => true | _, _ => false end = true ->
  exists cgs', instr_Exit cs bs Ity_I64 tr guard jk dst = Ok (with_cgs tr cgs') /\
    queue_ok (Some n) cgs'.
Proof.
  intros Hq Hn Hw. unfold instr_Exit, the_inode. rewrite Hn.
  rewrite (bool_decide_false (Ity_I64 = Ity_I32)), (bool_decide_true (Ity_I64 = Ity_I64)) by done.
  unfold newIRTemp. cbn [tl_assert rbind].
  destruct jk as [| | |x]; [destruct dst; try discriminate Hw..|];
    cbn [rbind]; [| | |destruct (flush_total (Some n) (tr_cgs tr) (Some n) Hq)
      as (cgs2 & -> & _ & Hq2); by eexists].
  all: set (cgs1 := addStmt _ _);
    destruct (Bc_total (Some n) cgs1 n (Iex_RdTmp (length ((out_tyenv (tr_cgs tr) ++ [Ity_I1])
      ++ [Ity_I64])))) as (cgs2 & -> & Hq2);
    [by destruct Hq|done
    |unfold cgs1; cbn [typeOfIRExpr out_tyenv addStmt set_tyenv]; apply typeOfIRTemp_snoc|];
    cbn [rbind]; destruct (flush_total (Some n) cgs2 (Some n) Hq2) as (cgs3 & -> & _ & Hq3);
    by eexists.
Qed.

(** *** The traversal *)

Context (di : debug_info) (c : caches3) (envt : IRTypeEnv) (id N : nat) (readdr : Z).

(** The descriptor of instruction [j]: its address, its length, and the
    counters of the line its address belongs to. *)
Definition node_ok (T : cg_tables) (j : nat) (m : Z * Z) : Prop :=
  exists l, l ∈ os_elems (CC_table T) /\ loc_of l = debug_loc di m.1 /\
    load_inode T (id, j) = Ok (MkInstrInfo m.1 (u8 m.2) (Some (lcc_addr l))).

(** The addresses and lengths of the IMarks. *)
Definition marks (sts : list IRStmt) : list (Z * Z) :=
  flat_map (fun st => match st with
    | Ist_IMark addr len _ => [(addr, if len =? 0 then VG_MIN_INSTR_SZB arch else len)]
    | _ => [] end) sts.

(** After the instructions [ms] of the [N] of superblock [id]. *)
Record ready (ms : list (Z * Z)) (tr : traversal) : Prop := {
  rd_wf : tables_wf (tr_T tr);
  rd_room : Z.of_nat (str_next (tr_T tr)) + 2 * Z.of_nat (N - length ms) < 2 ^ 32 /\
    Z.of_nat (length (CC_store (tr_T tr))) + Z.of_nat (N - length ms) < 2 ^ 32 /\
    Z.of_nat (length (os_elems (instrInfoTable (tr_T tr)))) < 2 ^ 32 - 1;
  rd_sb : exists sb, SB_store (tr_T tr) !! id = Some sb /\ n_instrs sb = Z.of_nat N;
  rd_slot : sbInfo (tr_cgs tr) = id /\ sbInfo_i (tr_cgs tr) = Z.of_nat (length ms);
  rd_cur : ms <> [] -> curr_inode tr = Some (id, Nat.pred (length ms));
  rd_queue : queue_ok (curr_inode tr) (tr_cgs tr);
  rd_tyenv : exists tys, out_tyenv (tr_cgs tr) = envt ++ tys;
  rd_nodes : forall j m, ms !! j = Some m -> node_ok (tr_T tr) j m;
  rd_at : sb_at (tr_T tr) readdr = Some (MkSBRef id readdr)
}.

Lemma ready_stay ms tr cgs' :
  ready ms tr -> queue_ok (curr_inode tr) cgs' -> same_slots (tr_cgs tr) cgs' ->
  grows 0 (tr_cgs tr) cgs' -> ready ms (with_cgs tr cgs').
Proof.
  intros [H1 H2 H3 [H4 H4'] H5 H6 [tys H7] H8 H9] Hq [Hs1 Hs2] (sts & tys' & _ & Ht & _).
  split; cbn; try done; [split; congruence|]. exists (tys ++ tys'). by rewrite Ht, H7, app_assoc.
Qed.

(** An IMark fills the next descriptor. *)
Lemma IMark_total ms tr addr len :
  debug_info_ok di -> ready ms tr -> (length ms < N)%nat ->
  let isz := if len =? 0 then VG_MIN_INSTR_SZB arch else len in
  (VG_MIN_INSTR_SZB arch <=? isz) && (isz <=? VG_MAX_INSTR_SZB arch)
    || (VG_CLREQ_SZB arch =? isz) = true ->
  exists tr', instr_IMark arch cs di c tr addr len = Ok tr' /\ ready (ms ++ [(addr, isz)]) tr'.
Proof.
  intros Hdi [Hwf Hroom (sb & Hsb & Hn) [Hid Hi] Hcur Hq [tys Hty] Hnodes Hat] Hlt isz Hz.
  unfold instr_IMark. fold isz. rewrite Hz. cbn [tl_assert rbind]. rewrite Hid, Hi.
  destruct (setup_InstrInfo_ok di (tr_T tr) id sb (Z.of_nat (length ms)) addr isz)
    as (T' & l & Hset & Hwf' & Hit & _ & Hl & Hloc & Hst & (T1 & Hget & Hcc1 & _ & _)
        & (tail & Hcs & Htl) & Hstr); [done|done|unfold tables_room; lia|done|lia|].
  rewrite Hset. cbn [rbind]. rewrite Nat2Z.id in *.
  set (cgs0 := set_slot (tr_cgs tr) (Z.of_nat (length ms) + 1)).
  pose proof (setup_InstrInfo_inv _ _ _ _ _ _ _ _ _ Hset) as (_ & _ & _ & p & Hload).
  assert (exists cgs', addEvent_Ir cs c T' cgs0 (id, length ms) = Ok cgs' /\
    queue_ok (Some (id, length ms)) cgs') as (cgs' & Hir & Hq').
  { assert (queue_ok (curr_inode tr) cgs0) as Hq0 by (by destruct Hq).
    unfold addEvent_Ir. rewrite Hload. cbn [rbind].
    destruct (cachesim_is_IrNoX _ _ _);
      [destruct (push_total _ cgs0 (Ev_IrNoX (id, length ms)) (Some (id, length ms)) Hq0)
         as (cgs1 & -> & Hq1)
      |destruct (push_total _ cgs0 (Ev_IrGen (id, length ms)) (Some (id, length ms)) Hq0)
         as (cgs1 & -> & Hq1)]; try done; try (by intros ? [= <-]);
      cbn [rbind]; eexists; (split; [done|]); by destruct Hq1. }
  rewrite Hir. cbn [rbind]. eexists. split; [done|].
  assert (forall j m, ms !! j = Some m -> node_ok T' j m) as Hold.
  { intros j m Hj. destruct (Hnodes j m Hj) as (l' & Hl' & Hloc' & Hld). exists l'.
    split; [|split; [done|]].
    - rewrite Hcc1. destruct (get_lineCC_ok di (tr_T tr) addr Hdi Hwf) as (T1' & l1 & Hg' & _ & Hf);
        [unfold tables_room; lia|]. rewrite Hget in Hg'. injection Hg' as <- <-.
      apply (lf_elems _ _ _ _ _ Hf). by right.
    - apply lookup_lt_Some in Hj. unfold load_inode in *. cbn [fst snd] in *.
      rewrite Hst, lookup_insert_eq. cbn [instrs]. rewrite Hsb in Hld.
      rewrite list_lookup_insert_ne by lia. exact Hld. }
  pose proof (Ir_grows 0 cs _ _ _ _ _ Hir) as (sts & tys' & _ & Hty' & _).
  assert (same_slots cgs0 cgs') as [Hs1 Hs2].
  { unfold addEvent_Ir in Hir. apply rbind_ok in Hir as (ii & _ & Hir).
    destruct (cachesim_is_IrNoX _ _ _); apply rbind_ok in Hir as (cgs1 & Hp & [= <-]);
      by apply push_slots in Hp. }
  split; cbn [tr_T tr_cgs curr_inode]; rewrite ?length_app; cbn [length].
  - done.
  - rewrite Hit. rewrite Hcs, length_app. lia.
  - eexists. rewrite Hst, lookup_insert_eq. by split.
  - rewrite Hs1, Hs2. cbn. split; [done|lia].
  - intros _. do 2 f_equal. lia.
  - done.
  - exists (tys ++ tys'). rewrite Hty'. cbn. by rewrite Hty, app_assoc.
  - intros j m [Hj|[Hj1 Hj2]]%lookup_app_Some; [by apply Hold|].
    destruct (j - length ms)%nat eqn:Hjm; [|by destruct n]. injection Hj2 as <-.
    assert (j = length ms) as -> by lia. exists l. split; [done|]. split; [done|].
    unfold load_inode. cbn [fst snd]. rewrite Hst, lookup_insert_eq. cbn [instrs].
    rewrite list_lookup_insert_eq; [done|].
    rewrite (bw_slots _ _ _ _ (tw_sb _ Hwf) _ _ Hsb) in *. lia.
  - unfold sb_at in *. by rewrite Hit.
Qed.

(** The data accesses, on a state whose current instruction is known. *)
Section data.
Context (n : inode) (tr : traversal) (Hcur : curr_inode tr = Some n) (Hmls : 1 <= mls).

(** [cgs'] is a continuation of [cgs] that keeps the queue in order. *)
Definition continues (cgs cgs' : CgState) : Prop :=
  queue_ok (Some n) cgs' /\ same_slots cgs cgs' /\ grows 0 cgs cgs'.

Lemma continues_refl cgs : queue_ok (Some n) cgs -> continues cgs cgs.
Proof. intros H. split; [done|]. split; [done|by apply grows_refl]. Qed.

Lemma continues_trans cgs1 cgs2 cgs3 :
  continues cgs1 cgs2 -> continues cgs2 cgs3 -> continues cgs1 cgs3.
Proof.
  intros (_ & Hs1 & Hg1) (Hq & Hs2 & Hg2). split; [done|].
  split; [by eapply same_slots_trans|by eapply grows_trans].
Qed.

Lemma Dr_continues cgs sz ea :
  queue_ok (Some n) cgs -> addr_atom ea = true -> 1 <= sz <= mls ->
  exists cgs', addEvent_Dr cs mls cgs n sz ea = Ok cgs' /\ continues cgs cgs'.
Proof.
  intros Hq Ha Hs. destruct (Dr_total _ cgs n sz ea Hq eq_refl Ha Hs) as (cgs' & H & Hq').
  exists cgs'. split; [done|]. split; [done|]. split; [by eapply Dr_slots|by eapply Dr_grows].
Qed.

Lemma Dw_continues cgs sz ea :
  queue_ok (Some n) cgs -> addr_atom ea = true -> 1 <= sz <= mls ->
  exists cgs', addEvent_Dw cs mls cgs n sz ea = Ok cgs' /\ continues cgs cgs'.
Proof.
  intros Hq Ha Hs. destruct (Dw_total _ cgs n sz ea Hq eq_refl Ha Hs) as (cgs' & H & Hq').
  exists cgs'. split; [done|]. split; [done|]. split; [by eapply Dw_slots|by eapply Dw_grows].
Qed.

Lemma guarded_continues cgs sz ea g w :
  queue_ok (Some n) cgs -> addr_atom ea = true -> isIRAtom g = true -> 1 <= sz <= mls ->
  exists cgs', addEvent_D_guarded cs mls cgs n sz ea g w = Ok cgs' /\ continues cgs cgs'.
Proof.
  intros Hq Ha Hg Hs. destruct (guarded_total _ cgs n sz ea g w Hq Ha Hg Hs) as (cgs' & H & Hq').
  exists cgs'. split; [done|]. split; [done|]. split; [by eapply guarded_slots|by eapply guarded_grows].
Qed.

Lemma flush_continues cgs :
  queue_ok (Some n) cgs -> exists cgs', flushEvents cs cgs = Ok cgs' /\ continues cgs cgs'.
Proof.
  intros Hq. destruct (flush_total _ cgs (Some n) Hq) as (cgs' & H & _ & Hq').
  exists cgs'. split; [done|]. split; [done|]. split; [by eapply flush_slots|by eapply flush_grows].
Qed.

Lemma clamp_bounds z : 1 <= z -> 1 <= clamp mls z <= mls.
Proof. intros H. unfold clamp. rewrite Z.gtb_ltb. destruct (Z.ltb_spec mls z); lia. Qed.

Lemma Dirty_total d :
  queue_ok (Some n) (tr_cgs tr) -> wf_stmt envt (Ist_Dirty d) = true ->
  exists cgs', instr_Dirty cs mls tr d = Ok (with_cgs tr cgs') /\ continues (tr_cgs tr) cgs'.
Proof.
  intros Hq Hw. cbn [wf_stmt] in Hw. apply andb_prop in Hw as [_ Hw]. unfold instr_Dirty.
  destruct (mAddr d) as [ea|] eqn:Hm.
  - apply andb_prop in Hw as [Hw Hsz]. apply andb_prop in Hw as [Hfx Ha]. apply Z.leb_le in Hsz.
    destruct (bool_decide (mFx d = Ifx_None)) eqn:Hnone; [done|].
    destruct (Z.eqb_spec (mSize d) 0); [lia|]. cbn [negb tl_assert rbind]. unfold the_inode.
    rewrite Hcur. cbn [rbind]. pose proof (clamp_bounds _ Hsz) as Hcl.
    destruct (Dr_continues (tr_cgs tr) (clamp mls (mSize d)) ea Hq Ha Hcl) as (cgs1 & H1 & Hc1).
    destruct (mFx d).
    + by apply bool_decide_eq_false in Hnone.
    + rewrite H1. cbn [rbind]. by exists cgs1.
    + destruct (Dw_continues (tr_cgs tr) (clamp mls (mSize d)) ea Hq Ha Hcl) as (cgs2 & H2 & Hc2).
      cbn [rbind]. rewrite H2. by exists cgs2.
    + destruct (Dw_continues cgs1 (clamp mls (mSize d)) ea (proj1 Hc1) Ha Hcl) as (cgs2 & H2 & Hc2).
      rewrite H1. cbn [rbind]. rewrite H2. exists cgs2. split; [done|]. by eapply continues_trans.
  - apply andb_prop in Hw as [-> ->]. cbn [tl_assert rbind]. exists (tr_cgs tr).
    split; [by destruct tr|]. by apply continues_refl.
Qed.

(** Every statement but IMark. *)
Lemma switch_total hty st :
  hty = Ity_I64 -> queue_ok (Some n) (tr_cgs tr) -> is_IMark st = false -> wf_stmt envt st = true ->
  exists cgs', instr_switch arch cs bs mls di c hty envt tr st = Ok (with_cgs tr cgs') /\
    continues (tr_cgs tr) cgs'.
Proof.
  intros -> Hq Him Hw. pose proof (continues_refl _ Hq) as Hrefl.
  assert (exists cgs', Ok tr = Ok (with_cgs tr cgs') /\ continues (tr_cgs tr) cgs') as Hskip
    by (exists (tr_cgs tr); by destruct tr).
  assert (the_inode tr = Ok n) as Hn by (unfold the_inode; by rewrite Hcur).
  destruct st as [ |a l d|b l m|o d|i d|t e|a d|cv ds a al g|a d g|a eh el dh dl|r a sd|d| |g j d];
    try exact Hskip; try discriminate Him; try (by apply Dirty_total);
    cbn [instr_switch]; rewrite ?Hn; cbn [rbind]; cbn [wf_stmt] in Hw; apply andb_prop in Hw as [Hflat Hw].
  - destruct e as [| | | | | | | |ty ea| | | | | |]; try exact Hskip.
    apply andb_prop in Hw as [Ha Hs]. rewrite ?Hn. cbn [rbind].
    apply size_within_ok in Hs as (ty' & sz & [= <-] & -> & Hsz). cbn [rbind].
    destruct (Dr_continues _ sz ea Hq Ha Hsz) as (cgs' & -> & H). by exists cgs'.
  - apply andb_prop in Hw as [Ha Hs]. apply size_within_ok in Hs as (ty & sz & -> & Hty & Hsz).
    cbn [rbind]. rewrite Hty. cbn [rbind].
    destruct (Dw_continues _ sz a Hq Ha Hsz) as (cgs' & -> & H). by exists cgs'.
  - apply andb_prop in Hw as [Ha Hs]. apply size_within_ok in Hs as (ty & sz & E & Hty & Hsz).
    apply rbind_ok in E as ([x ty'] & -> & [= ->]). cbn [rbind].
    rewrite (bool_decide_false (ty = Ity_INVALID)) by (by intros ->). cbn [negb tl_assert rbind].
    rewrite Hty. cbn [rbind]. cbn in Hflat. apply andb_prop in Hflat as [_ Hg].
    destruct (guarded_continues _ sz a g false Hq Ha Hg Hsz) as (cgs' & -> & H). by exists cgs'.
  - apply andb_prop in Hw as [Ha Hs]. apply size_within_ok in Hs as (ty & sz & -> & Hty & Hsz).
    cbn [rbind].
    rewrite (bool_decide_false (ty = Ity_INVALID)) by (by intros ->). cbn [negb tl_assert rbind].
    rewrite Hty. cbn [rbind]. cbn in Hflat. apply andb_prop in Hflat as [_ Hg].
    destruct (guarded_continues _ sz a g true Hq Ha Hg Hsz) as (cgs' & -> & H). by exists cgs'.
  - apply andb_prop in Hw as [Ha Hs]. apply size_within_ok in Hs as (ty & sz & -> & Hty & Hsz).
    cbn [rbind]. rewrite Hty. cbn [rbind].
    assert (1 <= clamp mls (match dh with Some _ => sz * 2 | None => sz end) <= mls) as Hcl
      by (apply clamp_bounds; destruct dh; lia).
    destruct (Dr_continues _ _ a Hq Ha Hcl) as (cgs1 & -> & H1). cbn [rbind].
    destruct (Dw_continues _ _ a (proj1 H1) Ha Hcl) as (cgs2 & -> & H2). cbn [rbind].
    exists cgs2. split; [done|]. by eapply continues_trans.
  - destruct sd as [d|]; apply andb_prop in Hw as [Ha Hs];
      apply size_within_ok in Hs as (ty & sz & -> & Hty & Hsz); cbn [rbind]; rewrite Hty; cbn [rbind].
    + destruct (Dw_continues _ sz a Hq Ha Hsz) as (cgs' & -> & H). by exists cgs'.
    + destruct (Dr_continues _ sz a Hq Ha Hsz) as (cgs1 & -> & H1). cbn [rbind].
      destruct (flush_continues _ (proj1 H1)) as (cgs2 & -> & H2). cbn [rbind].
      exists cgs2. split; [done|]. by eapply continues_trans.
  - destruct (Exit_total n tr g j d Hq Hcur Hw) as (cgs' & H & Hq'). exists cgs'. split; [done|].
    split; [done|]. split; [by apply Exit_slots in H as [? _]|].
    by apply (Exit_grows 0) in H; [|lia].
Qed.

End data.

Lemma ready_copy ms tr st : ready ms tr -> ready ms (with_cgs tr (addStmt (tr_cgs tr) [st])).
Proof. intros [H1 H2 H3 H4 H5 [] H7 H8 H9]. by split. Qed.

Lemma stmt_total ms tr st :
  debug_info_ok di -> 1 <= mls -> ready ms tr -> wf_stmt envt st = true ->
  (length (ms ++ marks [st]) <= N)%nat -> is_IMark st = true \/ ms <> [] ->
  exists tr', instr_stmt arch cs bs mls di c Ity_I64 envt st tr = Ok tr' /\
    ready (ms ++ marks [st]) tr'.
Proof.
  intros Hdi Hmls Hr Hw Hle Hk. unfold instr_stmt.
  assert (isFlatIRStmt st = true) as -> by (by apply andb_prop in Hw as [? _]). cbn [tl_assert rbind].
  destruct (is_IMark st) eqn:Him.
  - destruct st as [|addr len delta| | | | | | | | | | | |]; try done. cbn [instr_switch].
    apply andb_prop in Hw as [_ Hw]. cbn [marks flat_map app] in *.
    rewrite length_app in Hle. cbn [length] in Hle.
    destruct (IMark_total ms tr addr len Hdi Hr ltac:(lia) Hw) as (tr' & -> & Hr').
    cbn [rbind]. eexists. split; [done|]. by apply ready_copy.
  - assert (marks [st] = []) as -> by (by destruct st). rewrite app_nil_r.
    destruct Hk as [?|Hk]; [done|]. pose proof (rd_cur _ _ Hr Hk) as Hc.
    pose proof (rd_queue _ _ Hr) as Hq. rewrite Hc in Hq.
    destruct (switch_total _ tr Hc Hmls _ st eq_refl Hq Him Hw) as (cgs' & -> & Hq' & Hs & Hg).
    cbn [rbind]. eexists. split; [done|]. apply ready_copy. apply ready_stay; [done| |done|done].
    by rewrite Hc.
Qed.

Lemma body_total sts ms tr :
  debug_info_ok di -> 1 <= mls -> ready ms tr -> Forall (fun st => wf_stmt envt st = true) sts ->
  (length (ms ++ marks sts) <= N)%nat ->
  ms <> [] \/ (exists st, head sts = Some st /\ is_IMark st = true) ->
  exists tr', res_fold (instr_stmt arch cs bs mls di c Ity_I64 envt) sts tr = Ok tr' /\
    ready (ms ++ marks sts) tr'.
Proof.
  intros Hdi Hmls Hr Hf. revert ms tr Hr. induction Hf as [|st sts Hst _ IH]; intros ms tr Hr Hle Hk.
  { exists tr. cbn. by rewrite app_nil_r. }
  assert (marks (st :: sts) = marks [st] ++ marks sts) as Hm
    by (unfold marks; cbn; by rewrite app_nil_r).
  rewrite Hm, app_assoc in *. cbn [res_fold].
  assert (is_IMark st = true \/ ms <> []) as Hk'
    by (destruct Hk as [?|(st' & [= <-] & ?)]; auto).
  destruct (stmt_total ms tr st Hdi Hmls Hr Hst) as (tr1 & -> & Hr1);
    [rewrite length_app in Hle; lia|done|]. cbn [rbind]. apply IH; [done|done|]. left.
  destruct Hk' as [Him|Hne]; [|by destruct ms].
  destruct st; try done. cbn. by destruct ms.
Qed.

Lemma marks_count sts : length (marks sts) = count_IMarks sts.
Proof.
  unfold marks, count_IMarks. induction sts as [|st sts IH]; [done|].
  cbn [flat_map]. rewrite length_app, IH. by destruct st.
Qed.

End total.

(** A block the front ends produce: it has an instruction, and its statements
    from the first IMark on and its final jump are well formed. *)
Definition wf_block (arch : VGA) (mls : Z) (sb : IRSB) : bool :=
  let body := snd (preamble (stmts sb)) in
  match body with [] => false | _ => true end &&
  forallb (wf_stmt arch mls (tyenv sb)) body && wf_next (tyenv sb) (next sb) (jumpkind sb).

Lemma preamble_spec sts :
  count_IMarks (fst (preamble sts)) = 0%nat /\
  match snd (preamble sts) with [] => True | st :: _ => is_IMark st = true end.
Proof.
  induction sts as [|st sts [IH1 IH2]]; [done|]. cbn [preamble].
  destruct (is_IMark st) eqn:E; [done|]. destruct (preamble sts). cbn [fst snd] in *.
  split; [|done]. unfold count_IMarks in *. cbn [List.filter]. by rewrite E.
Qed.

Lemma count_IMarks_app l1 l2 : count_IMarks (l1 ++ l2) = (count_IMarks l1 + count_IMarks l2)%nat.
Proof. unfold count_IMarks. by rewrite List.filter_app, length_app. Qed.

Lemma next_total cs bs di envt id N a ms tr nxt jk :
  ready di envt id N a ms tr -> ms <> [] -> wf_next envt nxt jk = true ->
  exists tr', instr_next cs bs tr nxt jk = Ok tr' /\ ready di envt id N a ms tr'.
Proof.
  intros Hr Hne Hw. pose proof (rd_cur _ _ _ _ _ _ _ Hr Hne) as Hc.
  assert (forall t, envt !! t = Some Ity_I64 -> exists tr',
    (let! n := the_inode tr in let! cgs := addEvent_Bi cs bs (tr_cgs tr) n (Iex_RdTmp t) in
     Ok (with_cgs tr cgs)) = Ok tr' /\ ready di envt id N a ms tr') as Hbi.
  { intros t Ht. unfold the_inode. rewrite Hc. cbn [rbind].
    destruct (rd_tyenv _ _ _ _ _ _ _ Hr) as [tys Hty].
    destruct (Bi_total cs bs (curr_inode tr) (tr_cgs tr) (id, Nat.pred (length ms)) (Iex_RdTmp t))
      as (cgs & Hcgs & Hq); [apply Hr|done| |].
    - cbn [typeOfIRExpr]. rewrite Hty.
      assert ((envt ++ tys) !! t = Some Ity_I64) as E by (by apply lookup_app_l_Some).
      unfold typeOfIRTemp, IRTypeEnv, IRTemp in *. by rewrite E.
    - rewrite Hcgs. cbn [rbind]. eexists. split; [done|].
      apply ready_stay; [done|done| |by eapply Bi_grows].
      unfold addEvent_Bi in Hcgs. do 3 (apply rbind_ok in Hcgs as (? & _ & Hcgs)).
      destruct (negb bs); [by injection Hcgs as <-|by eapply push_slots]. }
  unfold instr_next, wf_next in *.
  destruct jk; try (by exists tr); destruct nxt; try done; try (by exists tr);
    apply Hbi; by apply bool_decide_eq_true in Hw.
Qed.

(** The traversal starts ready, once the superblock is registered. *)
Lemma ready_start di T envt pre N readdr st a z :
  tables_wf T -> sb_at T readdr = None ->
  Z.of_nat (str_next T) + 2 * Z.of_nat N < 2 ^ 32 ->
  Z.of_nat (length (CC_store T)) + Z.of_nat N < 2 ^ 32 ->
  Z.of_nat (length (os_elems (instrInfoTable T))) < 2 ^ 32 - 2 -> (0 < N)%nat ->
  exists T1, new_SB_info T readdr N = Ok (T1, SB_next T) /\
    ready di envt (SB_next T) N readdr []
      (MkTrav T1 (MkCgState [] (SB_next T) 0 envt pre st.1 st.2) a z None).
Proof.
  intros HT Hat Hr1 Hr2 Hr3 HN.
  destruct (new_SB_info_ok T readdr N HT)
    as (T1 & E1 & HT1 & Hat1 & Hel & Hst & Hcc & Hcs & Hss & Hsn & _);
    [unfold tables_room; lia|done|].
  exists T1. split; [done|]. split; cbn [tr_T tr_cgs curr_inode length]; try done.
  - rewrite Hsn, Hcs, Hel, sset_insert_perm. cbn [length]. lia.
  - eexists. by rewrite Hst, lookup_insert_eq.
  - split; cbn; [lia|done|done|constructor].
  - exists []. cbn. by rewrite app_nil_r.
Qed.

(** C22. On a well-formed block [cg_instrument] returns: none of the assertions
    of the traversal fails, in particular the event queue never overflows and
    no instruction fetch is merged with a data access of another instruction.
    The block is then registered under its address, and the descriptor of its
    [j]-th instruction holds that instruction's address and length and points
    to the counters of its source line. *)
Theorem instrument_total (arch : VGA) (cs bs : bool) (mls : Z) (di : debug_info) (c : caches3)
    (T : cg_tables) (st : Z * Z) (sbIn : IRSB) (readdr : Z) :
  let k := Z.of_nat (count_IMarks (stmts sbIn)) in
  let id := SB_next T in
  debug_info_ok di -> 1 <= mls -> wf_block arch mls sbIn = true ->
  tables_wf T -> sb_at T readdr = None ->
  Z.of_nat (str_next T) + 2 * k < 2 ^ 32 -> Z.of_nat (length (CC_store T)) + k < 2 ^ 32 ->
  Z.of_nat (length (os_elems (instrInfoTable T))) < 2 ^ 32 - 2 ->
  exists T' st' sbOut,
    cg_instrument arch cs bs mls di c T st sbIn readdr readdr Ity_I64 Ity_I64
      = Ok (T', st', sbOut) /\
    tables_wf T' /\ sb_at T' readdr = Some (MkSBRef id readdr) /\
    forall j m, marks arch (stmts sbIn) !! j = Some m -> node_ok di id T' j m.
Proof.
  intros k id Hdi Hmls Hwfb HT Hat Hr1 Hr2 Hr3. unfold wf_block in Hwfb.
  apply andb_prop in Hwfb as [Hwfb Hnx]. apply andb_prop in Hwfb as [Hne Hwb].
  unfold cg_instrument. rewrite bool_decide_true by done. cbn [negb].
  pose proof (preamble_app (stmts sbIn)) as Happ.
  destruct (preamble_spec (stmts sbIn)) as [Hpre0 Hhd].
  destruct (preamble (stmts sbIn)) as [pre body]. cbn [fst snd] in *.
  destruct body as [|[|addr len delta| | | | | | | | | | | |] body]; try done.
  set (bd := Ist_IMark addr len delta :: body) in *.
  assert (marks arch (stmts sbIn) = marks arch bd) as Hmk.
  { rewrite <- Happ. unfold marks. rewrite flat_map_app. fold (marks arch pre) (marks arch bd).
    pose proof (marks_count arch pre) as H. rewrite Hpre0 in H. by destruct (marks arch pre). }
  rewrite Z.eqb_refl. cbn [tl_assert rbind]. unfold get_SB_info.
  assert (count_IMarks (stmts sbIn) = length (marks arch bd)) as Hcount
    by (by rewrite <- Hmk, marks_count).
  assert (length (marks arch bd) <> 0%nat) as Hpos by (unfold bd; cbn; lia).
  destruct (ready_start di T (tyenv sbIn) pre (length (marks arch bd)) readdr st addr
    (if len =? 0 then VG_MIN_INSTR_SZB arch else len)) as (T1 & E1 & Hready); try done; try lia.
  rewrite Hcount, E1. cbn [rbind]. fold id in Hready |- *.
  destruct (body_total arch cs bs mls di c (tyenv sbIn) id (length (marks arch bd)) readdr bd [] _
    Hdi Hmls Hready) as (tr1 & -> & Hr1'); [|done|eauto|].
  { apply Forall_forall. intros x Hx. apply list_elem_of_In in Hx.
    by eapply (proj1 (forallb_forall _ _) Hwb) in Hx. }
  cbn [rbind app] in *.
  destruct (next_total cs bs di _ _ _ _ _ tr1 (next sbIn) (jumpkind sbIn) Hr1')
    as (tr2 & -> & Hready2); [by destruct (marks arch bd)|done|]. cbn [rbind].
  destruct (flush_total cs _ (tr_cgs tr2) None (rd_queue _ _ _ _ _ _ _ Hready2))
    as (cgs & Hf & _ & _). rewrite Hf. cbn [rbind].
  destruct (flush_slots cs _ _ Hf) as [_ Hsl].
  destruct Hready2 as [K1 K2 (sb & K3 & K3') [_ K4] _ _ _ K8 K9]. rewrite K3, Hsl, K4, K3', Z.eqb_refl.
  cbn [tl_assert rbind]. eexists _, _, _. split; [done|]. split; [done|]. split; [done|].
  intros j m Hj. rewrite Hmk in Hj. by apply K8.
Qed.

Lemma instrument_total_witness :
  exists T' st' sbOut, demo_instrument = Ok (T', st', sbOut) /\
    sb_at T' 4096 = Some (MkSBRef 0 4096) /\
    node_ok demo_debug_info 0 T' 1 (4100, 4).
Proof.
  destruct (instrument_total VGA_amd64 true true 64 demo_debug_info demo_caches empty_tables (0, 0)
    demo_block 4096) as (T' & st' & sbOut & E & _ & Hat & Hn);
    [apply demo_debug_info_ok|lia|vm_compute; reflexivity|apply empty_tables_wf
    |vm_compute; reflexivity|reflexivity|reflexivity|reflexivity|].
  exists T', st', sbOut. split; [exact E|]. split; [exact Hat|].
  apply (Hn 1%nat (4100, 4)). reflexivity.
Defined.
